(* ===== verification/_CoqProject ===== *)
-Q . S2P
Prelude.v
GoStrings.v
GoNumbers.v
GoWeb.v
GoValue.v
GoJson.v
GoJsonText.v
RuntimeContract.v
Template.v
RunPlanTypes.v
ConfigSets.v
ResolverArgs.v
ConfigSetProps.v
ConfigEdit.v
ConfigEditProps.v
Catalog.v
CatalogLoad.v
CatalogProps.v
CatalogBundles.v
RunPlanLint.v
LogClassifier.v
ResolverEnv.v
ResolverMounts.v
ResolverBinding.v
Resolver.v
SourceMap.v
Store.v
AgentTasks.v
Deployments.v
RunPlanViews.v
GpuProtocol.v
GpuProtocolProps.v
GpuReport.v
GpuReportProps.v
GpuInventoryProps.v
Lifecycle.v
LifecycleProps.v
Detection.v
SemanticAdapter.v
SemanticRegistry.v
SemanticConfig.v
SemanticProps.v
SemanticView.v
EditForm.v
EditFormProps.v
AgentSpec.v
Preflight.v
PreflightProps.v
NodeRuntimes.v
NodeRuntimeProps.v
DeploymentDocs.v
DeploymentDocProps.v
DockerWire.v
AgentDriver.v
FakeDocker.v
AgentWork.v
ModelPaths.v
Gguf.v
GgufProps.v
ModelScan.v
ModelScanProps.v
AccessStore.v
Auth.v
Rbac.v
AccessControl.v
AccessChanges.v
AccessInv.v
AccessProps.v
AccessLogin.v
AccessTenants.v
AccessDemo.v
Backends.v
BackendProps.v
AuditLog.v
Artifacts.v
ArtifactProps.v
ConfigTemplates.v
ConfigTemplateProps.v
DeploymentPreview.v
InstanceTest.v
