(* ===== verification/Prelude.v ===== *)
(** * LightAI Go: verification library

    LightAI Go runs model-serving containers on GPU nodes.  A server keeps the
    nodes, GPUs, deployments and instances in SQLite tables and decides what to
    run; an agent on each node sends heartbeats, takes tasks from the answers,
    runs containers through the docker engine and reports results.  Users reach the
    server with a session in one of their tenants, and act with the permissions of
    their roles there.  This library models who may act (internal/server/auth, rbac,
    authz) and the path of a deployment from the operator's request to the container:

    - the catalog (internal/server/catalog) gives every backend, version and runtime a
      configuration set; a deployment freezes the set of its node runtime, and
      overrides, edits (internal/server/configedit) and patches change it;
    - a start request is validated against the rows it refers to
      (preflightDeployment) and resolves a run plan (internal/server/runplan) from the
      frozen configuration, the model and the deployment;
    - one transaction writes an instance, a run plan, a lease per GPU and a start
      task (internal/server/api/deployment_lifecycle_handlers.go);
    - the node's next heartbeat claims the task (agent_handlers.go); its payload is
      the agent's run specification (internal/agent/runtime/runplan_adapter.go);
    - the agent's driver creates, starts and polls the container
      (internal/agent/runtime) and the result of the task settles the instance,
      the deployment and the leases; stop and delete undo it.

    ** Files

    Shared: this file (notations, tactics, hint databases [go] and [go_simpl], the
    [MapRange] interface for ranging over a Go map, the overlay of entries on a
    map), [GoStrings] (Go's string functions on byte strings), [GoNumbers] (64-bit
    wrap-around, bytes, Sscanf of %d), [GoValue] (interface values, float64 and their
    %v text), [GoJson] (objects, comparison, writing and reading back, decoding into Go
    types), [GoJsonText] (the JSON parser, the writer of objects of texts it inverts, numbers in a text, and documents read back after
    they were written), [GoWeb] (SHA-256, HMAC, hexadecimal, base64, checked on published
    vectors, and the host of a URL).

    The resolver, internal/server/runplan:
    - [RuntimeContract]: internal/runtimecontract, the vocabularies and tests, and
      compat.go, [CheckCompatibility].
    - [Template]: template.go, [substituteVars].
    - [RunPlanTypes]: types.go and the input records of resolver.go.
    - [ResolverArgs]: [buildArgs], its layers, [deduplicateArgs],
      [applyServiceArgs]; the abstract view of an argument list is [chunks].
    - [ResolverEnv]: [buildEnv]; the abstract view is a lookup per layer.
    - [ResolverMounts]: [buildMounts] and its path helpers; the abstract view of a
      path is its segments.
    - [ResolverBinding]: effective ports and [buildDeviceBinding].
    - [Resolver]: [Resolve], [buildVarMap], [mergeDockerSpec], [buildHealthCheck],
      composing the four files above as the code composes them.
    - [SemanticAdapter]: semantic_adapter.go, the snapshot overlaid on the input.
    - [RunPlanLint]: lint.go.  [SourceMap]: source_map.go and
      resolve_with_sourcemap.go.  [RunPlanViews]: previews, dry-run checks and resource
      controls.  [LogClassifier]: log_classifier.go.
    - [Detection]: profiles.go and detection.go, how an image starts its server.

    Configuration, internal/server/api, catalog, configedit, semanticconfig:
    - [ConfigSets]: configset_helpers.go, a set as a decoded JSON document;
      [ConfigSetProps]: what is read after a write, the tiered shape, the parameters
      given to the resolver.
    - [Catalog], [CatalogLoad]: types.go and loader.go, from documents to sets;
      [CatalogProps]: their theorems, and a set written, read back and rendered.
    - [CatalogBundles]: layers and local edits (copy_on_create.go) and views.
    - [ConfigEdit]: taxonomy.go, patches, resets and the apply handler;
      [ConfigEditProps]: what an edit changes, and that sets stay documents under
      overrides and edits.
    - [EditForm]: project.go, a set as a form of sections, fields and components;
      [EditFormProps].
    - [ConfigTemplates]: the templates of the editor, from files and from the catalog
      (templates.go, configedit_template_handlers.go); [ConfigTemplateProps]: which are
      listed, and when a copy is.
    - [SemanticRegistry], [SemanticConfig]: the registry of settings, normalisation,
      patches and layers of snapshots; [SemanticProps]; [SemanticView]: the form.

    Rows of users, internal/server/api:
    - [Backends]: backends, versions and runtime templates (backend_handlers.go, their
      part of runtime_handlers.go, reloads, and the edits of their sets by
      config_edit_handlers.go), with the seeding of the catalog at every start;
      [BackendProps]: the invariant of their tables, shipped rows, tenants, names.
    - [Artifacts]: artifacts, locations and model roots (artifact_handlers.go,
      model_location_handlers.go, model_browser_handlers.go); [ArtifactProps]: the
      invariant of their tables, confinement of locations, tenants.
    - [AuditLog]: entries written and listed, and the redaction of logs.

    The life cycle, internal/server/api and internal/server/db:
    - [Preflight]: preflightDeployment from the rows to the resolved plan, the dry run,
      the check without a deployment, and the start composed with its transaction;
      [PreflightProps].
    - [NodeRuntimes]: enabling a template on a node, the image check with its levels
      and verdict, patch, delete and edit of its row (runtime_handlers.go,
      node_runtime_handlers.go); [NodeRuntimeProps]: their runs.
    - [DeploymentDocs]: creation, patch, edit and template synchronisation of
      a deployment's documents; [DeploymentDocProps] follows an image from its check to
      the plan that runs it.
    - [DeploymentPreview]: deployment_preview_handlers.go, the plan a request would get,
      against the creation and the start.
    - [InstanceTest]: the smoke test of a running instance (HandleModelInstanceTest), over
      an HTTP client that may answer anything.
    - [Store]: the nine tables the life cycle uses, with the keys and the partial
      unique index of db.go, and the SQL statements as functions on lists.
    - [AgentTasks]: [HandleRegister], [HandleHeartbeat], [claimAndReturnTasks],
      [sweepExpiredTasks], [HandleTaskResult], [MarkOfflineNodes].
    - [Deployments]: [HandleStartDeployment], [HandleStopDeployment],
      [HandleDeleteDeployment], [HandleGetNodeRunPlanLogs], [HandlePatchNodeTenant].
    - [GpuReport]: resource_handlers.go, the report of an agent into the tables of GPUs and
      hosts, stale GPUs, the views, and the body the agent sends; [GpuReportProps].
    - [Lifecycle]: the step relation on the tables, one constructor per request
      (a stop is the sequence of its writes, with other requests in between), the
      invariant [wf] and the proof that every step keeps it.
    - [LifecycleProps]: what follows in every reachable state, and concrete runs.

    The agent, internal/agent/runtime:
    - [AgentSpec]: the payload of a start task, [ConvertRunplanToAgentSpec],
      redaction (sensitive.go), the command preview, [buildCreateOptions].
    - [DockerWire]: docker_real.go, the create request, [parseShmSize],
      [decodeDockerStream]; [start_request] is the whole translation of a plan.
    - [AgentDriver]: docker.go and health.go, [Start], [Stop], [Inspect], [Logs] and
      [CheckEndpointReady] against the interface [DockerClient]; the instance
      [CallTrace] runs any client with a record of its calls, and [emits] is the
      small program logic for such records.
    - [FakeDocker]: docker_fake.go, a client with a state, its invariant, and the
      driver run on it.
    - [AgentWork]: cmd/agent/main.go, [processTask] from the claimed task to its
      report, and the report read by the server's [HandleTaskResult]; the identity file of
      the node (agent/state), registration and heartbeats (agent/register) with the loop that
      runs them, and [agent_step], the agent and the server as one system.
    - [ModelPaths]: the checks of model paths on the agent
      ([agentValidateModelPath]) and on the server (model_browser_handlers.go).
    - [Gguf]: internal/agent/collector/gguf_reader.go, from the bytes of a file to its
      metadata; [GgufProps]: a writer of the format, which the reader inverts.
    - [ModelScan]: model_scanner.go, from the facts of a directory to candidates;
      [ModelScanProps].
    - [GpuProtocol]: the lines and the CSV of GPU collectors, their scripts and probes
      (internal/agent/collector), devices and metrics merged, the cycles of the registry
      and the choice of collectors; [GpuProtocolProps]: a writer, which the parser
      inverts; [GpuInventoryProps]: a device from its line to its row.

    Access, internal/server/auth, rbac, authz:
    - [AccessStore]: users, tenants, memberships, roles, permissions, their links and
      sessions, with the keys and foreign keys of db.go, and argon2.go over a key
      derivation given by the class [Argon2].
    - [Auth]: session.go, csrf.go, ratelimit.go (over the class [TokenBucket]),
      middleware.go and handlers.go; a handler maps a request, its context and the
      state to a response and a state, and a middleware maps handlers to handlers;
      authz/checks.go.  [Rbac]: every handler of rbac/handlers.go.
    - [AccessControl]: bootstrap.go, the transaction run when the server starts, the
      routes with their chains (router.go), [serve], the start of
      the server and the reset of the administrator's password (cmd/server/main.go), and
      [access_reachable]: the states that starts, requests and resets lead to from the schema of db.go.
    - [AccessChanges]: every call as a sequence of statements ([stmt], an abstract
      vocabulary of writes indexed by the tenant a writer is confined to), which the
      invariants are proved on; [AccessInv]: the invariant [access_ok] and what each
      statement keeps; [AccessProps], [AccessLogin], [AccessTenants]: the theorems;
      [AccessDemo]: a run of the server through start, login, change of password,
      user and membership, and the witnesses on its states.

    ** What the theorems show

    Life cycle, in every state reachable from empty tables: a GPU has at most one
    live lease; a task moves along the edges of its state machine and its result is
    accepted once; a claim takes the oldest pending tasks of the node, ten at most;
    a start writes all its rows or none; a successful report settles instance and
    leases; the stop handler with interleaved requests is a sequence of steps; a
    delete leaves nothing of the deployment; a node stays bound to its agent and
    changes tenant only when idle.  A resource report with GPUs leaves exactly its
    inventory on its node, column by column, and a device that a script prints under a
    UUID of its own, as the only source of the cycle, is in the table afterwards.

    Configuration: an override wins whatever else is overridden and in whatever order;
    a catalog item reaches the command line as its flag and value; an edit writes what
    it names, at the paths it names, changes nothing else, and nothing a layer protects;
    for items the validator knows as they are, what the form offers the patch accepts, and
    the next form shows what was edited; a child layer keeps the schema of its parent; a
    value a snapshot takes from a request is of the type of its setting, by a
    reading of types apart from the validator's; normalisation takes the
    canonical entry and warns of others that differ.  Validation accepts exactly the
    deployments whose rows are deployable and whose plan resolves, and what a start
    writes is that plan.  A preview of a body without edits resolves the settings a creation from it would
    freeze.  A smoke test asks the container of its instance alone, at the address of its
    node or endpoint, and reports success only for an inference request that was
    answered; when it ends on a resolved model its verdict is in the audit log.  A node
    runtime that deployments may use was inspected by its agent under the image it names,
    and a deployment whose body keeps the image of an unchanged row runs that image.
    A copied template of the editor is listed when its text reads back as it was, and a
    template that is found is a valid one.

    Rows of users: requests keep the keys and references of backends, versions, templates,
    artifacts and locations; what a seeding writes stays as shipped, whatever is asked for,
    edits and reloads included, as long as the reloaded files ship the same; a caller
    changes templates and artifacts of the own tenant only, except through the editor of
    sets; a location that is created lies under an enabled root of its node, and that root
    outside the denied directories; the search for a free template name ends with a free one.

    Resolution: a plan is returned exactly under the conditions the code tests, and
    errors are complete; a model's container path stays under its mount; the
    visibility variable of an isolated plan is the assigned devices; layers
    of arguments and environment take precedence as stated, for every order of map
    iteration; deduplication refines its specification on chunks and template
    substitution its specification on tokens.

    Agent: the server records of an instance what the driver did; the node ID of an agent
    is drawn once and survives restarts, failures and lost answers, and a registration binds
    the row of the node or is refused; a path a request
    may read is under an allowed root, by name and by resolution; the
    engine is asked to run the resolved plan and the devices looked up;
    for every client a failed start removes its container as its last call, and on
    the in-memory engine it leaves no trace; a start followed by a stop restores
    the engine; the readiness poll ends; redacted text does not depend on secrets;
    the log decoder inverts the engine's framing; sizes are exact below 2^63; the
    GGUF reader answers on every file and inverts the format, the protocol parser inverts
    its writer; scanned candidates speak
    the contract vocabulary and are consistent, and size labels never leave their table.

    Access, in every state reachable by starts and requests: a guarded route runs its
    handler only for a valid session, a matching token and origin on writes, the
    permission of the route and a password that is not to be changed; permissions are
    exactly those of the active roles of an active membership, and platform
    permissions those of platform administrators; tenant routes write only in the
    tenant of the session; an active platform administrator remains; a session is
    accepted exactly when its rows say so, never again after its logout, and a
    disabled user stays out; a login opens a session that the next requests accept; a
    change of password ends the other sessions; verification decides by the derived key.

    Where the code falls short of its comments, an [Example] or lemma beside the
    component runs it on a concrete input that shows so.

    ** Conventions and bounds

    A Go string is its bytes; case and white space are ASCII.  An int the code only
    compares and prints is a [Z]; where it multiplies, shifts or decodes, the width
    is written out ([wrap64], [Uint32], [f64_to_int]).  A nil slice or map is the
    empty one where the code does not tell them apart.  Times of the tables of the life
    cycle are seconds, those of the poll and of the access tables nanoseconds ([stamp]
    is the text of a time, with its resolution of a second).  Most recursion is
    structural; beside the searches of the float printer, bounded by the digits of a
    binary64, these loops carry fuel: the log decoder one more than the bytes it reads
    (each turn consumes eight, [stream_loop_enough]), the poll one turn per interval of
    its timeout and two more ([CheckEndpointReady_returns]), and the loops of the GGUF
    reader one more than the bytes of the file (each turn consumes one at least,
    [readGGUFMeta_returns]).  The claim's limit of ten tasks and
    the lease time of three hundred seconds are the code's.

    Parameters stand for code outside src/ or outside the model: the order of a map
    range ([MapRange]), the order of equal keys in ORDER BY (SqlOrder), the content hashes
    of a plan, the Argon2 derivation, the token bucket of golang.org/x/time/rate, drawn
    identifiers and random bytes (all of [Env]), the outcome of the pre-flight validation in
    the step relation ([Preflight] supplies it for one start), what
    other requests do while a stop waits, which unsigned numbers the database driver
    takes, the JSON text of a set where only its hash is used ([encode], [marshal]), the
    integer or text the engine makes of a value in a column of the other type
    ([text_integer], [real_text]), the parsed files of the catalog and of templates and what
    reading a written template gives ([rewritten]), links and files of the server
    ([EvalSymlinks], [Stat]), what running a command answers, the engine's port names, the
    docker engine, the HTTP client of a smoke test, HTTP and the clock of the agent.

    ** Not modelled

    Routing beyond the access routes, the HTTP endpoints and the metrics page of the
    agent and its reading of the host, the forwarding of requests to agents,
    and the counters of the server: they move data between a socket, a file or a library
    and the functions modelled here, and decide nothing.  The JSON text of anything but objects of texts,
    YAML text, the SQLite engine with its transient failures, migrations and log output are
    the work of libraries.  The web console and the scripts are in other languages.

    Except for a stop, whose writes are interleaved with other requests, handlers run one
    at a time.  This matters where the code reads and writes in several statements outside a
    transaction: [HandleTaskResult], whose rows are one step here, and [HandleUpdateUser]
    and [HandleDisableUser], which count the other administrators before they update. *)

From stdpp Require Export base gmap strings list fin_maps pretty.
From Stdlib Require Export ZArith Lia.

(** ** Notations *)

Declare Scope go_scope.
Delimit Scope go_scope with go.

Notation "s1 =s s2" := (String.eqb s1 s2) (at level 70, no associativity) : go_scope.
Notation "s1 <>s s2" := (negb (String.eqb s1 s2)) (at level 70, no associativity) : go_scope.
#[global] Open Scope go_scope.

(** The double quote and the line feed, which string literals here avoid. *)
Definition dquote : Ascii.ascii := Ascii.ascii_of_nat 34.
Definition newline : Ascii.ascii := Ascii.ascii_of_nat 10.

(** ** Automation *)

(** Rewriting database: equations that always simplify. *)
Create HintDb go_simpl.
(** Resolution database: facts that components export to their clients. *)
Create HintDb go.

#[export] Hint Resolve String.eqb_refl : go.

(** Split every boolean conjunction/disjunction hypothesis and turn string
    tests into equalities. *)
Ltac bool_facts :=
  repeat match goal with
  | H : (_ && _)%bool = true |- _ => apply andb_true_iff in H; destruct H
  | H : (_ || _)%bool = false |- _ => apply orb_false_iff in H; destruct H
  | H : negb _ = true |- _ => apply negb_true_iff in H
  | H : negb _ = false |- _ => apply negb_false_iff in H
  | H : String.eqb _ _ = true |- _ => apply String.eqb_eq in H
  | H : String.eqb _ _ = false |- _ => apply String.eqb_neq in H
  | H : Z.ltb _ _ = true |- _ => apply Z.ltb_lt in H
  | H : Z.ltb _ _ = false |- _ => apply Z.ltb_ge in H
  | H : Z.leb _ _ = true |- _ => apply Z.leb_le in H
  | H : Z.leb _ _ = false |- _ => apply Z.leb_gt in H
  | H : Z.eqb _ _ = true |- _ => apply Z.eqb_eq in H
  | H : Z.eqb _ _ = false |- _ => apply Z.eqb_neq in H
  end.

(** Case analysis on the scrutinee of a match or an if, goal first. *)
Ltac case_match_goal :=
  match goal with
  | |- context [match ?x with _ => _ end] =>
      lazymatch x with
      | context [match _ with _ => _ end] => fail
      | _ => let E := fresh "E" in destruct x eqn:E
      end
  end.

(** Repeated case analysis, closing what computation closes. *)
Ltac crush_cases := repeat (case_match_goal; simplify_eq/=; try done).

(** ** Ranging over a Go map

    [for k, v := range m] visits the entries of [m] in an order the language
    leaves open.  The order is a parameter of every definition that ranges over
    a map; theorems proved against this interface hold for all orders. *)
Class MapRange := {
  range : forall {V : Type}, gmap string V -> list (string * V);
  range_perm : forall (V : Type) (m : gmap string V), range m ≡ₚ map_to_list m
}.

(** The order in which the map library enumerates a map: the instance the
    witnesses evaluate. *)
Definition canonical_range : MapRange :=
  {| range := fun V m => map_to_list m; range_perm := fun V m => Permutation_refl _ |}.

Section RangeFacts.
  Context `{MR : MapRange}.
  Context {V : Type}.
  Implicit Types m : gmap string V.

Lemma range_NoDup m : NoDup (range m).*1.
  Proof.
    rewrite (fmap_Permutation fst _ _ (range_perm V m)). apply NoDup_fst_map_to_list.
  Qed.

Lemma range_list_to_map m : list_to_map (range m) = m.
  Proof.
    rewrite (list_to_map_proper (range m) (map_to_list m)).
    - apply list_to_map_to_list.
    - apply range_NoDup.
    - apply range_perm.
  Qed.

Lemma elem_of_range m k v : (k, v) ∈ range m ↔ m !! k = Some v.
  Proof. rewrite (range_perm V m). apply elem_of_map_to_list. Qed.

Lemma range_empty : range (∅ : gmap string V) = [].
  Proof. apply Permutation_nil. by rewrite range_perm, map_to_list_empty. Qed.
End RangeFacts.

#[export] Hint Resolve range_NoDup : go.
#[export] Hint Rewrite @range_empty @range_list_to_map : go_simpl.

(** ** Overlaying entries on a map

    The shape shared by the environment layers: walk a list of entries, let [f]
    decide whether (and with which text) an entry is written. *)
Section Overlay.
  Context {V W : Type}.
  Variable f : string -> V -> option W.

Definition overlay (l : list (string * V)) (env : gmap string W) : gmap string W :=
    foldl (fun e kv => match f kv.1 kv.2 with Some w => <[kv.1 := w]> e | None => e end) env l.

Lemma overlay_cons k v l env :
    overlay ((k, v) :: l) env =
    overlay l (match f k v with Some w => <[k := w]> env | None => env end).
  Proof. reflexivity. Qed.

Lemma overlay_app l1 l2 env : overlay (l1 ++ l2) env = overlay l2 (overlay l1 env).
  Proof. unfold overlay. by rewrite foldl_app. Qed.

Lemma overlay_notin l env k : k ∉ l.*1 -> overlay l env !! k = env !! k.
  Proof.
    revert env. induction l as [|[k' v] l IH]; intros env Hk; [done|].
    apply not_elem_of_cons in Hk as [Hne Hk]. cbn in Hne.
    rewrite overlay_cons, (IH _ Hk). destruct (f k' v); [|done].
    by rewrite lookup_insert_ne.
  Qed.

  (** With distinct keys the result does not depend on the order. *)
Lemma overlay_lookup l env k :
    NoDup l.*1 ->
    overlay l env !! k =
    match (list_to_map l : gmap string V) !! k ≫= f k with
    | Some w => Some w
    | None => env !! k
    end.
  Proof.
    revert env. induction l as [|[k' v] l IH]; intros env Hnd.
    - cbn. by rewrite lookup_empty.
    - apply NoDup_cons in Hnd as [Hk' Hnd]. cbn in Hk'.
      rewrite overlay_cons, list_to_map_cons. cbn [fst snd].
      destruct (decide (k' = k)) as [->|Hne].
      + rewrite overlay_notin by done. rewrite lookup_insert_eq. cbn.
        destruct (f k v); [by rewrite lookup_insert_eq|done].
      + rewrite (IH _ Hnd), lookup_insert_ne by done.
        destruct (list_to_map l !! k ≫= f k); [done|].
        destruct (f k' v); [by rewrite lookup_insert_ne|done].
  Qed.

Lemma overlay_perm l1 l2 env :
    NoDup l1.*1 -> l1 ≡ₚ l2 -> overlay l1 env = overlay l2 env.
  Proof.
    intros Hnd Hp. apply map_eq. intros k.
    assert (NoDup l2.*1) as Hnd2 by (by rewrite <- Hp).
    rewrite !overlay_lookup by done. by rewrite (list_to_map_proper l1 l2).
  Qed.
End Overlay.

(** ** Lists *)

Lemma foldl_ext {A B} (f g : A -> B -> A) (l : list B) (a : A) :
  (forall x y, f x y = g x y) -> foldl f a l = foldl g a l.
Proof. intros H. revert a. induction l as [|b l IH]; intros a; cbn; [done|]. by rewrite H, IH. Qed.

Lemma existsb_eqb_In (s : string) (l : list string) :
  existsb (String.eqb s) l = true <-> s ∈ l.
Proof.
  rewrite existsb_exists. split.
  - intros (x & Hin & ->%String.eqb_eq). by apply list_elem_of_In.
  - intros Hin%list_elem_of_In. exists s. split; [done|apply String.eqb_refl].
Qed.

Lemma existsb_eqb_notIn (s : string) (l : list string) :
  existsb (String.eqb s) l = false <-> s ∉ l.
Proof. rewrite <- not_true_iff_false. by rewrite existsb_eqb_In. Qed.

Lemma elem_of_concat_map {A B} (f : A -> list B) (l : list A) (y : B) :
  y ∈ concat (map f l) <-> exists x, x ∈ l /\ y ∈ f x.
Proof.
  rewrite list_elem_of_In, in_concat. setoid_rewrite in_map_iff. split.
  - intros (ys & (x & <- & Hx) & Hy). exists x. by rewrite !list_elem_of_In.
  - intros (x & Hx & Hy). exists (f x). rewrite !list_elem_of_In in *. split; [by exists x|done].
Qed.

Lemma NoDup_snoc {A} (l : list A) x : NoDup l -> x ∉ l -> NoDup (l ++ [x]).
Proof. intros Hl Hx. apply NoDup_app. split_and!; [done|set_solver|apply NoDup_singleton]. Qed.

Lemma filter_or_perm {A} (p q : A -> bool) l : (forall x, p x = true -> q x = false) ->
  List.filter p l ++ List.filter q l ≡ₚ List.filter (fun x => p x || q x) l.
Proof.
  intros H. induction l as [|x l IH]; [done|]. cbn [List.filter]. destruct (p x) eqn:Ep; cbn [orb].
  - rewrite (H x Ep). cbn. by rewrite IH.
  - destruct (q x); [|done]. by rewrite <- Permutation_middle, IH.
Qed.

Lemma split_by_key {A} (key : A -> string) ks l : NoDup ks ->
  concat (map (fun k => List.filter (fun x => key x =s k) l) ks) ≡ₚ List.filter (fun x => existsb (String.eqb (key x)) ks) l.
Proof.
  induction 1 as [|k ks Hk _ IH]; cbn [map concat existsb]; [by induction l|]. rewrite IH. apply filter_or_perm.
  intros x Hx%String.eqb_eq. apply not_true_iff_false. rewrite existsb_exists. intros (k' & Hin%list_elem_of_In & E%String.eqb_eq). congruence.
Qed.

Lemma filter_all {A} (p : A -> bool) l : forallb p l = true -> List.filter p l = l.
Proof. induction l as [|x l IH]; [done|]. cbn. intros [-> Hl]%andb_true_iff. by rewrite IH. Qed.

Lemma concat_perm {A} (l l' : list (list A)) : l ≡ₚ l' -> concat l ≡ₚ concat l'.
Proof. induction 1; cbn; [done|by f_equiv|rewrite !app_assoc; f_equiv; apply Permutation_app_comm|by etrans]. Qed.

Lemma concat_nonempty {A B} (f : A -> list B) (p : A -> bool) l : (forall x, p x = false -> f x = []) ->
  concat (map f (List.filter p l)) = concat (map f l).
Proof. intros H. induction l as [|x l IH]; [done|]. cbn. destruct (p x) eqn:E; cbn; [by f_equal|]. by rewrite (H x E). Qed.

Lemma concat_map_perm {A B} (f g : A -> list B) l : (forall x, f x ≡ₚ g x) -> concat (map f l) ≡ₚ concat (map g l).
Proof. intros H. induction l as [|x l IH]; cbn; [done|]. by rewrite H, IH. Qed.
