(* ===== verification/GoStrings.v ===== *)
(** * The parts of Go's [strings], [strconv] and slicing the program uses

    A Go string is its bytes ([string], one [ascii] per byte).  Case mapping and
    white space are those of the ASCII range: the program applies them to
    identifiers (vendors, modes, flags, environment names, file names). *)
From S2P Require Import Prelude.
From Stdlib Require Import Ascii.

Infix "+s+" := String.append (at level 60, right associativity) : go_scope.

#[global] Arguments String.append !_ _ / : simpl nomatch.

(** ** Bytes *)

Definition byte_nat (c : ascii) : nat := nat_of_ascii c.

Definition is_upper (c : ascii) : bool := (65 <=? byte_nat c)%nat && (byte_nat c <=? 90)%nat.
Definition is_lower (c : ascii) : bool := (97 <=? byte_nat c)%nat && (byte_nat c <=? 122)%nat.
Definition is_digit (c : ascii) : bool := (48 <=? byte_nat c)%nat && (byte_nat c <=? 57)%nat.
Definition lower_byte (c : ascii) : ascii :=
  if is_upper c then ascii_of_nat (byte_nat c + 32) else c.
Definition upper_byte (c : ascii) : ascii :=
  if is_lower c then ascii_of_nat (byte_nat c - 32) else c.
(** '\t', '\n', '\v', '\f', '\r', ' ' *)
Definition is_space (c : ascii) : bool :=
  ((9 <=? byte_nat c)%nat && (byte_nat c <=? 13)%nat) || (byte_nat c =? 32)%nat.

Definition slash : ascii := "/"%char.

(** ** Lengths and slices *)

Definition str_len (s : string) : Z := Z.of_nat (String.length s).

Fixpoint str_take (n : nat) (s : string) : string :=
  match n, s with
  | S n', String c s' => String c (str_take n' s')
  | _, _ => EmptyString
  end.

Fixpoint str_drop (n : nat) (s : string) : string :=
  match n, s with
  | S n', String _ s' => str_drop n' s'
  | _, _ => s
  end.

Fixpoint map_str (f : ascii -> ascii) (s : string) : string :=
  match s with
  | EmptyString => EmptyString
  | String c s' => String (f c) (map_str f s')
  end.

Fixpoint any_byte (p : ascii -> bool) (s : string) : bool :=
  match s with
  | EmptyString => false
  | String c s' => p c || any_byte p s'
  end.

(** ** Tests *)

Definition HasPrefix (s p : string) : bool := String.prefix p s.

Definition HasSuffix (s suf : string) : bool :=
  (String.length suf <=? String.length s)%nat &&
  String.eqb (str_drop (String.length s - String.length suf) s) suf.

Fixpoint Contains (s sub : string) : bool :=
  HasPrefix s sub ||
  match s with
  | EmptyString => false
  | String _ s' => Contains s' sub
  end.

(** [strings.Index] and [strings.LastIndex] for a one-byte separator. *)
Fixpoint Index (s : string) (c : ascii) : Z :=
  match s with
  | EmptyString => -1
  | String a s' =>
      if Ascii.eqb a c then 0 else let r := Index s' c in if (r <? 0)%Z then -1 else (r + 1)%Z
  end.

Fixpoint LastIndex (s : string) (c : ascii) : Z :=
  match s with
  | EmptyString => -1
  | String a s' =>
      let r := LastIndex s' c in
      if (0 <=? r)%Z then (r + 1)%Z else if Ascii.eqb a c then 0 else -1
  end.

(** ** Trimming, case and replacement *)

Definition TrimPrefix (s p : string) : string :=
  if HasPrefix s p then str_drop (String.length p) s else s.

Fixpoint TrimLeftFunc (p : ascii -> bool) (s : string) : string :=
  match s with
  | EmptyString => EmptyString
  | String c s' => if p c then TrimLeftFunc p s' else s
  end.

Fixpoint TrimRightFunc (p : ascii -> bool) (s : string) : string :=
  match s with
  | EmptyString => EmptyString
  | String c s' =>
      match TrimRightFunc p s' with
      | EmptyString => if p c then EmptyString else String c EmptyString
      | t => String c t
      end
  end.

Definition TrimLeft (s : string) (c : ascii) : string := TrimLeftFunc (Ascii.eqb c) s.
Definition TrimRight (s : string) (c : ascii) : string := TrimRightFunc (Ascii.eqb c) s.
Definition TrimSpace (s : string) : string := TrimRightFunc is_space (TrimLeftFunc is_space s).

Definition ToLower (s : string) : string := map_str lower_byte s.
Definition ToUpper (s : string) : string := map_str upper_byte s.
Definition EqualFold (s t : string) : bool := String.eqb (ToLower s) (ToLower t).

(** [strings.ReplaceAll] for one-byte patterns and replacements. *)
Definition ReplaceAll (s : string) (old new : ascii) : string :=
  map_str (fun c => if Ascii.eqb c old then new else c) s.

(** ** Splitting and joining *)

(** [strings.Split] at a one-byte separator: never empty. *)
Fixpoint Split (s : string) (sep : ascii) : list string :=
  match s with
  | EmptyString => [EmptyString]
  | String c s' =>
      if Ascii.eqb c sep then EmptyString :: Split s' sep
      else match Split s' sep with
           | [] => [String c EmptyString]
           | w :: ws => String c w :: ws
           end
  end.

(** [strings.FieldsFunc]: maximal non-empty runs of bytes outside [p]. *)
Fixpoint fields_go (p : ascii -> bool) (s : string) : string * list string :=
  match s with
  | EmptyString => (EmptyString, [])
  | String c s' =>
      let '(cur, ws) := fields_go p s' in
      if p c then (EmptyString, match cur with EmptyString => ws | _ => cur :: ws end)
      else (String c cur, ws)
  end.

Definition FieldsFunc (s : string) (p : ascii -> bool) : list string :=
  let '(cur, ws) := fields_go p s in
  match cur with EmptyString => ws | _ => cur :: ws end.

Definition Fields (s : string) : list string := FieldsFunc s is_space.

Fixpoint Join (l : list string) (sep : string) : string :=
  match l with
  | [] => EmptyString
  | [w] => w
  | w :: l' => w +s+ sep +s+ Join l' sep
  end.

(** ** Numbers in text *)

(** [fmt.Sprintf("%d", z)] *)
Definition Itoa (z : Z) : string := pretty z.

(** [strconv.Quote] ("%q") on printable ASCII; other bytes are kept. *)
Fixpoint quote_body (s : string) : string :=
  match s with
  | EmptyString => EmptyString
  | String c s' =>
      if Ascii.eqb c dquote || Ascii.eqb c "\"%char then String "\"%char (String c (quote_body s'))
      else if Ascii.eqb c newline then String "\"%char (String "n"%char (quote_body s'))
      else String c (quote_body s')
  end.
Definition Quote (s : string) : string :=
  String dquote (quote_body s +s+ String dquote EmptyString).

(** ** Facts *)

Lemma sapp_nil_r s : (s +s+ EmptyString)%go = s.
Proof. induction s as [|c s IH]; cbn; [done|]. by rewrite IH. Qed.

Lemma sapp_assoc s t u : ((s +s+ t) +s+ u = s +s+ t +s+ u)%go.
Proof. induction s as [|c s IH]; cbn; [done|]. by rewrite IH. Qed.

Lemma sapp_length s t : String.length (s +s+ t) = String.length s + String.length t.
Proof. induction s as [|c s IH]; cbn; [done|]. by rewrite IH. Qed.

Lemma sapp_nil_inv s t : (s +s+ t)%go = EmptyString -> s = EmptyString /\ t = EmptyString.
Proof. destruct s; cbn; [done|discriminate]. Qed.

Lemma str_take_drop n s : (str_take n s +s+ str_drop n s)%go = s.
Proof. revert s. induction n as [|n IH]; intros [|c s]; cbn; try done. by rewrite IH. Qed.

Lemma str_drop_app s t : str_drop (String.length s) (s +s+ t) = t.
Proof. induction s as [|c s IH]; cbn; done. Qed.

Lemma str_take_app s t : str_take (String.length s) (s +s+ t) = s.
Proof. induction s as [|c s IH]; cbn; [by destruct t|]. by rewrite IH. Qed.

#[export] Hint Rewrite sapp_nil_r sapp_assoc sapp_length str_drop_app str_take_app : go_simpl.

(** *** Prefixes, suffixes, substrings *)

Lemma HasPrefix_spec s p : HasPrefix s p = true <-> exists t, s = (p +s+ t)%go.
Proof.
  unfold HasPrefix. revert s. induction p as [|c p IH]; intros s; cbn.
  - split; [intros _; by exists s|by destruct s].
  - destruct s as [|d s]; cbn.
    + split; [done|by intros [t ?]].
    + destruct (Ascii.ascii_dec c d) as [->|Hne].
      * rewrite IH. split; intros [t Ht]; exists t; congruence.
      * split; [done|]. intros [t ?]. congruence.
Qed.

Lemma HasPrefix_app p t : HasPrefix (p +s+ t) p = true.
Proof. apply HasPrefix_spec. by exists t. Qed.

Lemma HasPrefix_nil s : HasPrefix s EmptyString = true.
Proof. apply HasPrefix_spec. by exists s. Qed.

Lemma TrimPrefix_app p t : TrimPrefix (p +s+ t) p = t.
Proof. unfold TrimPrefix. by rewrite HasPrefix_app, str_drop_app. Qed.

Lemma HasSuffix_app s t : HasSuffix (s +s+ t) t = true.
Proof.
  unfold HasSuffix. rewrite sapp_length.
  replace (String.length s + String.length t - String.length t) with (String.length s) by lia.
  rewrite str_drop_app, String.eqb_refl, andb_true_r. apply Nat.leb_le. lia.
Qed.

Lemma Contains_spec s sub : Contains s sub = true <-> exists a b, s = (a +s+ sub +s+ b)%go.
Proof.
  induction s as [|c s IH]; cbn [Contains].
  - rewrite orb_false_r, HasPrefix_spec. split.
    + intros [t Ht]. by exists EmptyString, t.
    + intros (a & b & [-> ?]%eq_sym%sapp_nil_inv). by exists b.
  - rewrite orb_true_iff, HasPrefix_spec, IH. split.
    + intros [[t ->]|(a & b & ->)]; [by exists EmptyString, t|by exists (String c a), b].
    + intros ([|d a] & b & Heq); [left; by exists b|right]. exists a, b. by injection Heq.
Qed.

(** *** Byte predicates *)

Lemma any_byte_app p s t : any_byte p (s +s+ t) = any_byte p s || any_byte p t.
Proof. induction s as [|c s IH]; cbn; [done|]. by rewrite IH, orb_assoc. Qed.

Lemma map_str_app f s t : map_str f (s +s+ t) = (map_str f s +s+ map_str f t)%go.
Proof. induction s as [|c s IH]; cbn; [done|]. by rewrite IH. Qed.

Lemma map_str_map_str f g s : map_str f (map_str g s) = map_str (fun c => f (g c)) s.
Proof. induction s as [|c s IH]; cbn; [done|]. by rewrite IH. Qed.

Lemma map_str_ext f g s : (forall c, f c = g c) -> map_str f s = map_str g s.
Proof. intros H. induction s as [|c s IH]; cbn; [done|]. by rewrite H, IH. Qed.

Lemma map_str_length f s : String.length (map_str f s) = String.length s.
Proof. induction s as [|c s IH]; cbn; congruence. Qed.

Lemma lower_byte_idem c : lower_byte (lower_byte c) = lower_byte c.
Proof. destruct c as [[] [] [] [] [] [] [] []]; reflexivity. Qed.

Lemma lower_byte_space c : is_space (lower_byte c) = is_space c.
Proof. destruct c as [[] [] [] [] [] [] [] []]; reflexivity. Qed.

Lemma ToLower_idem s : ToLower (ToLower s) = ToLower s.
Proof. unfold ToLower. rewrite map_str_map_str. apply map_str_ext, lower_byte_idem. Qed.

Lemma ReplaceAll_no_old s old new :
  old <> new -> any_byte (Ascii.eqb old) (ReplaceAll s old new) = false.
Proof.
  intros Hne. induction s as [|c s IH]; cbn; [done|].
  apply orb_false_iff; split; [|exact IH].
  destruct (Ascii.eqb_spec c old) as [->|Hc]; apply Ascii.eqb_neq; congruence.
Qed.

(** *** Trimming *)

Lemma TrimLeftFunc_spec p s :
  exists pre, s = (pre +s+ TrimLeftFunc p s)%go /\ any_byte (fun c => negb (p c)) pre = false.
Proof.
  induction s as [|c s (pre & Hs & Hp)]; cbn; [by exists EmptyString|].
  destruct (p c) eqn:E; [|by exists EmptyString].
  exists (String c pre). cbn. rewrite E, Hp. split; [congruence|done].
Qed.

Lemma TrimLeftFunc_head p s :
  match TrimLeftFunc p s with EmptyString => True | String c _ => p c = false end.
Proof. induction s as [|c s IH]; cbn; [done|]. by destruct (p c) eqn:E. Qed.

Lemma TrimRightFunc_spec p s :
  exists suf, s = (TrimRightFunc p s +s+ suf)%go /\ any_byte (fun c => negb (p c)) suf = false.
Proof.
  induction s as [|c s (suf & Hs & Hp)]; cbn; [by exists EmptyString|].
  destruct (TrimRightFunc p s) as [|d t] eqn:E.
  - cbn in Hs. subst s. destruct (p c) eqn:Ec.
    + exists (String c suf). cbn. by rewrite Ec, Hp.
    + by exists suf.
  - exists suf. split; [cbn in *; congruence|done].
Qed.

Lemma TrimRightFunc_idem p s : TrimRightFunc p (TrimRightFunc p s) = TrimRightFunc p s.
Proof.
  induction s as [|c s IH]; cbn; [done|].
  destruct (TrimRightFunc p s) as [|d t] eqn:E.
  - destruct (p c) eqn:Ec; cbn; [done|]. by rewrite Ec.
  - cbn [TrimRightFunc] in *. by rewrite IH.
Qed.

Lemma TrimLeftFunc_fix p s :
  match s with EmptyString => True | String c _ => p c = false end -> TrimLeftFunc p s = s.
Proof. destruct s as [|c s]; cbn; [done|]. by intros ->. Qed.

Lemma TrimRightFunc_head p s :
  match s with EmptyString => True | String c _ => p c = false end ->
  match TrimRightFunc p s with EmptyString => True | String c _ => p c = false end.
Proof.
  destruct s as [|c s]; cbn; [done|]. intros Hc. destruct (TrimRightFunc p s); rewrite ?Hc; done.
Qed.

Lemma TrimSpace_idem s : TrimSpace (TrimSpace s) = TrimSpace s.
Proof.
  unfold TrimSpace at 1 2.
  rewrite (TrimLeftFunc_fix _ (TrimRightFunc _ _)).
  - apply TrimRightFunc_idem.
  - apply TrimRightFunc_head, TrimLeftFunc_head.
Qed.

(** *** Fields *)

Lemma fields_go_spec p s :
  let '(cur, ws) := fields_go p s in
  any_byte p cur = false /\ Forall (fun w => w <> EmptyString /\ any_byte p w = false) ws.
Proof.
  induction s as [|c s IH]; cbn; [done|].
  destruct (fields_go p s) as [cur ws]. destruct IH as [Hc Hw].
  destruct (p c) eqn:E; cbn.
  - split; [done|]. destruct cur; [done|]. by constructor.
  - by rewrite E.
Qed.

Lemma FieldsFunc_Forall p s :
  Forall (fun w => w <> EmptyString /\ any_byte p w = false) (FieldsFunc s p).
Proof.
  unfold FieldsFunc. pose proof (fields_go_spec p s) as H.
  destruct (fields_go p s) as [[|c cur] ws]; destruct H; [done|by constructor].
Qed.

Lemma FieldsFunc_cons_sep p c s : p c = true -> FieldsFunc (String c s) p = FieldsFunc s p.
Proof. intros Hc. unfold FieldsFunc. cbn. destruct (fields_go p s) as [cur ws]. by rewrite Hc. Qed.

(** Cutting at a separator byte splits the fields. *)
Lemma fields_go_sep p s c t :
  p c = true ->
  fields_go p (s +s+ String c t) =
  ((fields_go p s).1, (fields_go p s).2 ++ FieldsFunc t p).
Proof.
  intros Hc. induction s as [|d s IH]; cbn.
  - unfold FieldsFunc. destruct (fields_go p t) as [cur ws]. by rewrite Hc.
  - rewrite IH. destruct (fields_go p s) as [cur ws]. cbn.
    destruct (p d); cbn; [by destruct cur|done].
Qed.

Lemma FieldsFunc_sep p s c t :
  p c = true -> FieldsFunc (s +s+ String c t) p = FieldsFunc s p ++ FieldsFunc t p.
Proof.
  intros Hc. unfold FieldsFunc at 1 2. rewrite fields_go_sep by done.
  destruct (fields_go p s) as [cur ws]. cbn. by destruct cur.
Qed.

Lemma FieldsFunc_all_sep p s : any_byte (fun c => negb (p c)) s = false -> FieldsFunc s p = [].
Proof.
  induction s as [|c s IH]; cbn; [done|].
  intros [Hc Hs]%orb_false_iff. apply negb_false_iff in Hc.
  by rewrite FieldsFunc_cons_sep, IH.
Qed.

Lemma FieldsFunc_app_sep_l p s t :
  any_byte (fun c => negb (p c)) s = false -> FieldsFunc (s +s+ t) p = FieldsFunc t p.
Proof.
  induction s as [|c s IH]; cbn; [done|].
  intros [Hc Hs]%orb_false_iff. apply negb_false_iff in Hc.
  by rewrite FieldsFunc_cons_sep, IH.
Qed.

Lemma FieldsFunc_app_sep_r p s t :
  any_byte (fun c => negb (p c)) t = false -> FieldsFunc (s +s+ t) p = FieldsFunc s p.
Proof.
  destruct t as [|c t]; cbn; [by rewrite sapp_nil_r|].
  intros [Hc Ht]%orb_false_iff. apply negb_false_iff in Hc.
  by rewrite FieldsFunc_sep, (FieldsFunc_all_sep p t), app_nil_r.
Qed.

Lemma FieldsFunc_TrimLeft p s : FieldsFunc (TrimLeftFunc p s) p = FieldsFunc s p.
Proof.
  destruct (TrimLeftFunc_spec p s) as (pre & Hs & Hp).
  rewrite Hs at 2. by rewrite FieldsFunc_app_sep_l.
Qed.

Lemma FieldsFunc_TrimRight p s : FieldsFunc (TrimRightFunc p s) p = FieldsFunc s p.
Proof.
  destruct (TrimRightFunc_spec p s) as (suf & Hs & Hp).
  rewrite Hs at 2. by rewrite FieldsFunc_app_sep_r.
Qed.

#[export] Hint Rewrite @FieldsFunc_TrimLeft @FieldsFunc_TrimRight : go_simpl.

Lemma fields_go_no_sep p s : any_byte p s = false -> fields_go p s = (s, []).
Proof.
  induction s as [|c s IH]; cbn; [done|]. intros [Hc Hs]%orb_false_iff. by rewrite IH, Hc.
Qed.

Lemma FieldsFunc_no_sep p s : any_byte p s = false -> s <> EmptyString -> FieldsFunc s p = [s].
Proof. intros H Hne. unfold FieldsFunc. rewrite fields_go_no_sep by done. by destruct s. Qed.

(** Splitting what a separator byte joined. *)
Lemma FieldsFunc_Join p c l :
  p c = true -> Forall (fun w => w <> EmptyString /\ any_byte p w = false) l ->
  FieldsFunc (Join l (String c EmptyString)) p = l.
Proof.
  intros Hc. induction 1 as [|w l [Hne Hw] Hl IH]; [done|].
  destruct l as [|w' l]; [by apply FieldsFunc_no_sep|].
  change (Join (w :: w' :: l) (String c EmptyString)) with
    (w +s+ String c (Join (w' :: l) (String c EmptyString)))%go.
  by rewrite FieldsFunc_sep, IH, FieldsFunc_no_sep.
Qed.

(** *** Join and Split *)

Lemma Join_cons w l sep :
  l <> [] -> Join (w :: l) sep = (w +s+ sep +s+ Join l sep)%go.
Proof. by destruct l. Qed.

Lemma Join_app l1 l2 sep :
  l1 <> [] -> l2 <> [] -> Join (l1 ++ l2) sep = (Join l1 sep +s+ sep +s+ Join l2 sep)%go.
Proof.
  intros H1 H2. induction l1 as [|w l1 IH]; [done|].
  destruct l1 as [|w' l1]; [cbn [app]; by rewrite Join_cons|].
  rewrite <- app_comm_cons, !Join_cons, IH by done. by rewrite !sapp_assoc.
Qed.

Lemma Split_not_nil s c : Split s c <> [].
Proof. induction s as [|d s IH]; cbn; [done|]. destruct (Ascii.eqb d c); [done|]. by destruct (Split s c). Qed.

Lemma Join_Split s c : Join (Split s c) (String c EmptyString) = s.
Proof.
  induction s as [|d s IH]; cbn [Split]; [done|].
  destruct (Ascii.eqb_spec d c) as [->|Hne].
  - rewrite Join_cons by apply Split_not_nil. cbn. by rewrite IH.
  - pose proof (Split_not_nil s c) as Hn. destruct (Split s c) as [|w ws] eqn:E; [done|].
    rewrite <- IH. destruct ws; [done|]. reflexivity.
Qed.

Lemma Split_no_sep s c : Forall (fun w => any_byte (Ascii.eqb c) w = false) (Split s c).
Proof.
  induction s as [|d s IH]; cbn [Split]; [by repeat constructor|].
  destruct (Ascii.eqb_spec d c) as [->|Hne]; [by constructor|].
  assert (Ascii.eqb c d = false) as Hcd by (apply Ascii.eqb_neq; congruence).
  destruct (Split s c) as [|w ws]; [by repeat constructor; cbn; rewrite Hcd|].
  apply Forall_cons in IH as [Hw Hws]. constructor; [cbn; by rewrite Hcd, Hw|done].
Qed.

Lemma Split_cons_sep s c : Split (String c s) c = EmptyString :: Split s c.
Proof. cbn. by rewrite Ascii.eqb_refl. Qed.

Lemma Split_app_sep a s c : any_byte (Ascii.eqb c) a = false -> Split (a +s+ String c s) c = a :: Split s c.
Proof.
  induction a as [|x a IH]; intros Ha; cbn [String.append]; [apply Split_cons_sep|].
  cbn [any_byte] in Ha. apply orb_false_iff in Ha as [Hx Ha]. cbn [Split].
  rewrite (IH Ha). rewrite Ascii.eqb_sym in Hx. by rewrite Hx.
Qed.

Lemma Split_none a c : any_byte (Ascii.eqb c) a = false -> Split a c = [a].
Proof.
  induction a as [|x a IH]; intros Ha; [done|]. cbn [any_byte] in Ha. apply orb_false_iff in Ha as [Hx Ha].
  cbn [Split]. rewrite (IH Ha). rewrite Ascii.eqb_sym in Hx. by rewrite Hx.
Qed.

(** *** Indices *)

Lemma Index_spec s c :
  match Z.to_nat (Index s c) with
  | n => if (Index s c <? 0)%Z then any_byte (Ascii.eqb c) s = false /\ Index s c = (-1)%Z
         else any_byte (Ascii.eqb c) (str_take n s) = false
              /\ s = (str_take n s +s+ String c (str_drop (S n) s))%go
  end.
Proof.
  induction s as [|d s IH]; cbn [Index]; [done|].
  destruct (Ascii.eqb_spec d c) as [->|Hne]; [done|].
  assert (Ascii.eqb c d = false) as Hcd by (apply Ascii.eqb_neq; congruence).
  destruct (Index s c <? 0)%Z eqn:E.
  - destruct IH as [IH ?]. cbn. by rewrite Hcd, IH.
  - apply Z.ltb_ge in E. destruct IH as [IH1 IH2].
    replace (Index s c + 1 <? 0)%Z with false by (symmetry; apply Z.ltb_ge; lia).
    replace (Z.to_nat (Index s c + 1)) with (S (Z.to_nat (Index s c))) by lia.
    split; [cbn; by rewrite Hcd, IH1|]. exact (f_equal (String d) IH2).
Qed.

Lemma LastIndex_spec s c :
  if (0 <=? LastIndex s c)%Z
  then let n := Z.to_nat (LastIndex s c) in
       s = (str_take n s +s+ String c (str_drop (S n) s))%go
       /\ any_byte (Ascii.eqb c) (str_drop (S n) s) = false
  else any_byte (Ascii.eqb c) s = false /\ LastIndex s c = (-1)%Z.
Proof.
  induction s as [|d s IH]; cbn [LastIndex]; [done|].
  destruct (0 <=? LastIndex s c)%Z eqn:E.
  - apply Z.leb_le in E. destruct IH as [IH1 IH2].
    replace (0 <=? LastIndex s c + 1)%Z with true by (symmetry; apply Z.leb_le; lia).
    replace (Z.to_nat (LastIndex s c + 1)) with (S (Z.to_nat (LastIndex s c))) by lia.
    cbn zeta. split; [exact (f_equal (String d) IH1)|exact IH2].
  - destruct IH as [IH ?]. destruct (Ascii.eqb_spec d c) as [->|Hne]; cbn; [done|].
    rewrite IH, orb_false_r. split; [apply Ascii.eqb_neq; congruence|done].
Qed.

(** *** Decimal text *)

Lemma Itoa_inj z1 z2 : Itoa z1 = Itoa z2 -> z1 = z2.
Proof. apply (inj pretty). Qed.

Lemma EqualFold_refl s : EqualFold s s = true.
Proof. apply String.eqb_refl. Qed.

#[export] Hint Resolve HasPrefix_app HasPrefix_nil HasSuffix_app EqualFold_refl : go.
