(* ===== verification/GoNumbers.v ===== *)
(** * Numbers and bytes of the Go standard library

    64-bit wrap-around, bytes as integers, [fmt.Sscanf(s, %d, &n)] and the
    decimal numerals of [strconv.Itoa] read back. *)
From S2P Require Import Prelude GoStrings.
From Stdlib Require Import Ascii.

(** ** fmt.Sscanf(s, %d, &n) for an int64 n that starts at 0 *)

Definition wrap64 (z : Z) : Z := ((z + 2 ^ 63) mod 2 ^ 64 - 2 ^ 63)%Z.

Definition digit_value (c : ascii) : Z := Z.of_nat (byte_nat c) - 48.

(** The value of the leading digits, and how many there are. *)
Fixpoint scan_digits (acc : Z) (n : nat) (s : string) : Z * nat :=
  match s with
  | String c s' => if is_digit c then scan_digits (acc * 10 + digit_value c)%Z (S n) s' else (acc, n)
  | EmptyString => (acc, n)
  end.

(** Blanks before the number are skipped; a line feed among them is an error. *)
Fixpoint skip_space (s : string) : option string :=
  match s with
  | EmptyString => Some s
  | String c s' => if Ascii.eqb c newline then None else if is_space c then skip_space s' else Some s
  end.

Definition in_int64 (z : Z) : bool := (- 2 ^ 63 <=? z)%Z && (z <? 2 ^ 63)%Z.

Definition signed_digits (s : string) : bool * string :=
  match s with
  | String c s' => if Ascii.eqb c "-" then (true, s') else if Ascii.eqb c "+" then (false, s') else (false, s)
  | EmptyString => (false, s)
  end.

(** What the variable holds afterwards: an error leaves it 0. *)
Definition Sscanf_d (s : string) : Z :=
  match skip_space s with
  | None => 0
  | Some s =>
      let '(neg, ds) := signed_digits s in
      let '(v, n) := scan_digits 0 0 ds in
      let v := if neg then (- v)%Z else v in
      if (n =? 0)%nat then 0 else if in_int64 v then v else 0
  end.

Definition byte_Z (c : ascii) : Z := Z.of_nat (byte_nat c).

Definition Z_byte (z : Z) : ascii := ascii_of_nat (Z.to_nat (z mod 256)).

(** ** Bytes and lengths *)

Lemma byte_Z_bound c : (0 <= byte_Z c < 256)%Z.
Proof. unfold byte_Z, byte_nat. pose proof (nat_ascii_bounded c). lia. Qed.

Lemma byte_Z_Z_byte z : byte_Z (Z_byte z) = (z mod 256)%Z.
Proof.
  unfold byte_Z, Z_byte, byte_nat. pose proof (Z.mod_pos_bound z 256 ltac:(lia)).
  rewrite nat_ascii_embedding; lia.
Qed.

Lemma Z_byte_byte_Z c z : (z mod 256 = byte_Z c)%Z -> Z_byte z = c.
Proof.
  intros H. unfold Z_byte. rewrite H. unfold byte_Z, byte_nat. rewrite Nat2Z.id. apply ascii_nat_embedding.
Qed.

(** The low bits of a disjunction with a shifted number are a sum. *)
Lemma lor_shiftl_add hi lo k : (0 <= k)%Z -> (0 <= lo < 2 ^ k)%Z -> Z.lor (Z.shiftl hi k) lo = (hi * 2 ^ k + lo)%Z.
Proof.
  intros Hk Hlo. rewrite <- Z.shiftl_mul_pow2 by done. rewrite <- Z.add_lor_land.
  assert (Z.land (Z.shiftl hi k) lo = 0%Z) as ->; [|lia].
  apply Z.bits_inj'. intros i Hi. rewrite Z.land_spec, Z.bits_0, Z.shiftl_spec by done.
  destruct (Z.ltb_spec i k).
  - by rewrite Z.testbit_neg_r by lia.
  - rewrite andb_comm. destruct (decide (lo = 0%Z)) as [->|]; [by rewrite Z.bits_0|].
    rewrite Z.bits_above_log2; [done|lia|]. apply Z.log2_lt_pow2; [lia|].
    apply Z.lt_le_trans with (2 ^ k)%Z; [lia|]. apply Z.pow_le_mono_r; lia.
Qed.

Lemma str_len_nonneg s : (0 <= str_len s)%Z.
Proof. unfold str_len. lia. Qed.

Lemma str_take_length n s : (n <= String.length s)%nat -> String.length (str_take n s) = n.
Proof. revert n. induction s as [|c s IH]; intros [|n] Hn; cbn in *; [done|lia|done|]. rewrite IH; lia. Qed.

Lemma str_drop_length n s : String.length (str_drop n s) = (String.length s - n)%nat.
Proof. revert n. induction s as [|c s IH]; intros [|n]; cbn; [done|done|done|]. by rewrite IH. Qed.

(** ** Numbers *)

Lemma pretty_char_digit x :
  (x < 10)%N -> is_digit (pretty_N_char x) = true /\ digit_value (pretty_N_char x) = Z.of_N x.
Proof.
  intros Hx. assert (x = 0 \/ x = 1 \/ x = 2 \/ x = 3 \/ x = 4 \/ x = 5 \/ x = 6 \/ x = 7 \/ x = 8 \/ x = 9)%N as Hc by lia.
  repeat (destruct Hc as [-> | Hc]; [done|]). by subst x.
Qed.

Lemma scan_digits_pretty_go x s acc k :
  exists d, scan_digits acc k (pretty_N_go x s) = scan_digits (acc * 10 ^ Z.of_nat d + Z.of_N x) (k + d) s.
Proof.
  revert s. induction (N.lt_wf_0 x) as [x _ IH]; intros s.
  destruct (decide (x = 0)%N) as [->|Hx].
  - exists 0%nat. rewrite pretty_N_go_0. f_equal; lia.
  - rewrite pretty_N_go_step by lia.
    destruct (IH (x / 10)%N ltac:(apply N.div_lt; lia) (String (pretty_N_char (x mod 10)) s)) as [d Hd].
    pose proof (N.mod_lt x 10 ltac:(lia)) as Hm. destruct (pretty_char_digit _ Hm) as [Hdig Hval].
    exists (S d). rewrite Hd. cbn [scan_digits]. rewrite Hdig, Hval. f_equal; [|lia].
    rewrite Nat2Z.inj_succ, Z.pow_succ_r by lia. pose proof (N.div_mod x 10 ltac:(lia)). lia.
Qed.

(** A decimal numeral is read back, whatever text that is no digit follows. *)
Lemma scan_digits_Itoa n rest :
  (0 <= n)%Z -> match rest with String c _ => is_digit c = false | EmptyString => True end ->
  exists d, scan_digits 0 0 (Itoa n +s+ rest) = (n, S d).
Proof.
  intros Hn Hrest.
  assert (forall acc k, scan_digits acc k rest = (acc, k)) as Hstop.
  { intros acc k. destruct rest as [|c rest]; [done|]. cbn. by rewrite Hrest. }
  assert (forall x s t, (pretty_N_go x s +s+ t)%go = pretty_N_go x (s +s+ t)) as Happ.
  { intros x. induction (N.lt_wf_0 x) as [x _ IH]; intros s t.
    destruct (decide (x = 0)%N) as [->|Hx]; [by rewrite !pretty_N_go_0|].
    rewrite !(pretty_N_go_step x) by lia. rewrite IH by (apply N.div_lt; lia). done. }
  destruct n as [|p|p]; [|change (Itoa (Z.pos p)) with (pretty_N_go (N.pos p) EmptyString)|lia].
  - cbn. rewrite Hstop. by exists 0%nat.
  - rewrite Happ. cbn [String.append].
    destruct (scan_digits_pretty_go (N.pos p) rest 0 0) as [d Hd].
    rewrite pretty_N_go_step in Hd |- * by lia.
    destruct (scan_digits_pretty_go (N.pos p / 10) (String (pretty_N_char (N.pos p mod 10)) rest) 0 0) as [d' Hd'].
    rewrite Hd'. cbn [scan_digits].
    pose proof (N.mod_lt (N.pos p) 10 ltac:(lia)) as Hm. destruct (pretty_char_digit _ Hm) as [Hdig Hval].
    rewrite Hdig, Hval, Hstop. exists d'. f_equal. pose proof (N.div_mod (N.pos p) 10 ltac:(lia)). lia.
Qed.

Lemma Itoa_head n : (0 <= n)%Z -> exists c s, Itoa n = String c s /\ is_digit c = true.
Proof.
  intros Hn. destruct (scan_digits_Itoa n EmptyString Hn I) as [d Hd]. rewrite sapp_nil_r in Hd.
  destruct (Itoa n) as [|c s]; [done|]. exists c, s. split; [done|]. cbn in Hd. by destruct (is_digit c).
Qed.

Lemma digit_not_special c : is_digit c = true ->
  Ascii.eqb c newline = false /\ is_space c = false /\ Ascii.eqb c "-" = false /\ Ascii.eqb c "+" = false.
Proof. destruct c as [[] [] [] [] [] [] [] []]; by vm_compute. Qed.

Lemma Sscanf_d_Itoa n rest :
  (0 <= n < 2 ^ 63)%Z -> match rest with String c _ => is_digit c = false | EmptyString => True end ->
  Sscanf_d (Itoa n +s+ rest) = n.
Proof.
  intros [H0 H1] Hrest. destruct (scan_digits_Itoa n rest H0 Hrest) as [d Hd].
  destruct (Itoa_head n H0) as (c & s & Heq & Hc). rewrite Heq in Hd |- *.
  destruct (digit_not_special c Hc) as (Hn & Hs & Hm & Hp).
  unfold Sscanf_d. cbn [String.append skip_space]. rewrite Hn, Hs. cbn [signed_digits]. rewrite Hm, Hp.
  change (String c s +s+ rest)%go with (String c (s +s+ rest)) in Hd. rewrite Hd. cbn [Nat.eqb].
  unfold in_int64. rewrite (proj2 (Z.leb_le _ _)), (proj2 (Z.ltb_lt _ _)) by lia. done.
Qed.

Lemma wrap64_range z : (- 2 ^ 63 <= wrap64 z < 2 ^ 63)%Z.
Proof. unfold wrap64. pose proof (Z.mod_pos_bound (z + 2 ^ 63) (2 ^ 64) ltac:(lia)). lia. Qed.

Lemma wrap64_small z : (- 2 ^ 63 <= z < 2 ^ 63)%Z -> wrap64 z = z.
Proof. intros H. unfold wrap64. rewrite Z.mod_small; lia. Qed.

Definition non_digit (c : ascii) : bool := negb (is_digit c).

Lemma Itoa_digits n : (0 <= n)%Z -> any_byte non_digit (Itoa n) = false.
Proof.
  assert (forall x s, any_byte non_digit (pretty_N_go x s) = any_byte non_digit s) as Hgo.
  { intros x. induction (N.lt_wf_0 x) as [x _ IH]; intros s.
    destruct (decide (x = 0)%N) as [->|Hx]; [by rewrite pretty_N_go_0|].
    rewrite pretty_N_go_step by lia. rewrite IH by (apply N.div_lt; lia). cbn [any_byte].
    pose proof (N.mod_lt x 10 ltac:(lia)) as Hm. destruct (pretty_char_digit _ Hm) as [Hdig _].
    unfold non_digit at 1. by rewrite Hdig. }
  intros Hn. destruct n as [|p|p]; [done| |lia]. exact (Hgo (N.pos p) EmptyString).
Qed.
