(* ===== verification/GoWeb.v ===== *)
(** * Hashes, encodings and URLs of the Go standard library

    crypto/sha256 ([Sum256]), crypto/hmac ([HmacSha256]), encoding/hex
    ([HexEncode]), encoding/base64 with RawStdEncoding ([RawStdEncode],
    [RawStdDecode]) and crypto/subtle ([ConstantTimeCompare]), all executable: a
    byte string is a [string], a 32-bit word a [Z] reduced modulo 2^32.  The
    published test vectors are checked by computation.  At the end, the host of a URL
    (net/url). *)
From S2P Require Import Prelude GoStrings GoNumbers.
From Stdlib Require Import Ascii.

(** ** Byte strings *)

Fixpoint bytes_of (s : string) : list Z :=
  match s with
  | EmptyString => []
  | String c s' => byte_Z c :: bytes_of s'
  end.

Fixpoint string_of (l : list Z) : string :=
  match l with
  | [] => EmptyString
  | b :: l' => String (Z_byte b) (string_of l')
  end.

(** ** SHA-256 (FIPS 180-4) *)

Definition w32 (z : Z) : Z := (z mod 2 ^ 32)%Z.
Definition rotr (x n : Z) : Z := Z.lor (Z.shiftr x n) (w32 (Z.shiftl x (32 - n))).

(** The constants of FIPS 180-4: the leading 32 bits of the fractional parts of
    the cube roots of the 64 smallest primes, and of the square roots of the eight
    smallest. *)
Definition is_prime (n : Z) : bool :=
  forallb (fun d => negb (n mod d =? 0)%Z) (map (fun i => Z.of_nat i) (seq 2 (Z.to_nat n - 2))).

Definition small_primes : list Z := List.filter is_prime (map (fun i => Z.of_nat i) (seq 2 310)).

(** [x] completed with its [bits] lower bits to the greatest cube root of [n] from below. *)
Fixpoint cube_root (bits : nat) (n x : Z) : Z :=
  match bits with
  | O => x
  | S b => let y := (x + 2 ^ Z.of_nat b)%Z in cube_root b n (if (y ^ 3 <=? n)%Z then y else x)
  end.

Definition K256 : list Z :=
  Eval vm_compute in map (fun p => cube_root 36 (p * 2 ^ 96) 0 mod 2 ^ 32)%Z small_primes.

Definition H256 : list Z :=
  Eval vm_compute in map (fun p => Z.sqrt (p * 2 ^ 64) mod 2 ^ 32)%Z (firstn 8 small_primes).

(** The message, a one bit, zeros, and the length in bits on eight bytes. *)
Definition be_bytes (n : nat) (z : Z) : list Z :=
  map (fun i => Z.shiftr z (8 * Z.of_nat i) mod 256)%Z (rev (seq 0 n)).

Definition padded (m : list Z) : list Z :=
  let len := length m in
  let zeros := Z.to_nat ((55 - Z.of_nat len) mod 64) in
  m ++ [0x80%Z] ++ repeat 0%Z zeros ++ be_bytes 8 (8 * Z.of_nat len).

Fixpoint words (l : list Z) : list Z :=
  match l with
  | a :: b :: c :: d :: l' => (a * 2 ^ 24 + b * 2 ^ 16 + c * 2 ^ 8 + d)%Z :: words l'
  | _ => []
  end.

Definition sigma0 (x : Z) : Z := Z.lxor (rotr x 7) (Z.lxor (rotr x 18) (Z.shiftr x 3)).
Definition sigma1 (x : Z) : Z := Z.lxor (rotr x 17) (Z.lxor (rotr x 19) (Z.shiftr x 10)).
Definition Sigma0 (x : Z) : Z := Z.lxor (rotr x 2) (Z.lxor (rotr x 13) (rotr x 22)).
Definition Sigma1 (x : Z) : Z := Z.lxor (rotr x 6) (Z.lxor (rotr x 11) (rotr x 25)).
Definition Ch (x y z : Z) : Z := Z.lxor (Z.land x y) (Z.land (0xffffffff - x) z).
Definition Maj (x y z : Z) : Z := Z.lxor (Z.land x y) (Z.lxor (Z.land x z) (Z.land y z)).

(** The message schedule, latest word first: W(t) from W(t-2), W(t-7), W(t-15), W(t-16). *)
Fixpoint schedule (n : nat) (rw : list Z) : list Z :=
  match n with
  | O => rev rw
  | S n' =>
      let w i := nth i rw 0%Z in
      schedule n' (w32 (sigma1 (w 1) + w 6 + sigma0 (w 14) + w 15) :: rw)%nat
  end.

Definition round (s : list Z) (kw : Z * Z) : list Z :=
  match s with
  | [a; b; c; d; e; f; g; h] =>
      let t1 := (h + Sigma1 e + Ch e f g + kw.1 + kw.2)%Z in
      let t2 := (Sigma0 a + Maj a b c)%Z in
      [w32 (t1 + t2); a; b; c; w32 (d + t1); e; f; g]
  | _ => s
  end.

Definition block (h : list Z) (ws : list Z) : list Z :=
  let s := foldl round h (zip K256 (schedule 48 (rev ws))) in
  zip_with (fun x y => w32 (x + y)) h s.

(** Blocks of sixteen words. *)
Fixpoint blocks (fuel : nat) (h : list Z) (ws : list Z) : list Z :=
  match fuel, ws with
  | S fuel', _ :: _ => blocks fuel' (block h (take 16 ws)) (drop 16 ws)
  | _, _ => h
  end.

Definition Sum256 (m : string) : string :=
  let ws := words (padded (bytes_of m)) in
  string_of (flat_map (be_bytes 4) (blocks (length ws) H256 ws)).

(** ** HMAC-SHA-256 (FIPS 198-1) *)

Definition key_block (key : string) : list Z :=
  let k := bytes_of (if (64 <? String.length key)%nat then Sum256 key else key) in
  k ++ repeat 0%Z (64 - length k).

Definition HmacSha256 (key m : string) : string :=
  let k := key_block key in
  let pad x := string_of (map (Z.lxor x) k) in
  Sum256 (pad 0x5c%Z +s+ Sum256 (pad 0x36%Z +s+ m)).

(** ** Hexadecimal *)

Definition hex_digit (z : Z) : ascii := Z_byte (if (z <? 10)%Z then 48 + z else 87 + z)%Z.

Fixpoint HexEncode (s : string) : string :=
  match s with
  | EmptyString => EmptyString
  | String c s' => String (hex_digit (byte_Z c / 16)) (String (hex_digit (byte_Z c mod 16)) (HexEncode s'))
  end.

(** ** crypto/subtle: the result; the time it takes is not modelled *)

Definition ConstantTimeCompare (x y : string) : Z := if String.eqb x y then 1%Z else 0%Z.

(** ** base64.RawStdEncoding: no padding *)

Definition b64_alphabet : string := "ABCDEFGHIJKLMNOPQRSTUVWXYZabcdefghijklmnopqrstuvwxyz0123456789+/".

Definition b64_char (z : Z) : ascii := default "A"%char (String.get (Z.to_nat z) b64_alphabet).

Definition b64_value (c : ascii) : option Z :=
  let i := Index b64_alphabet c in if (i <? 0)%Z then None else Some i.

Fixpoint RawStdEncode (s : string) : string :=
  match s with
  | String a (String b (String c s')) =>
      let '(a, b, c) := (byte_Z a, byte_Z b, byte_Z c) in
      String (b64_char (a / 4)) (String (b64_char (a mod 4 * 16 + b / 16))
        (String (b64_char (b mod 16 * 4 + c / 64)) (String (b64_char (c mod 64)) (RawStdEncode s'))))
  | String a (String b EmptyString) =>
      let '(a, b) := (byte_Z a, byte_Z b) in
      String (b64_char (a / 4)) (String (b64_char (a mod 4 * 16 + b / 16))
        (String (b64_char (b mod 16 * 4)) EmptyString))
  | String a EmptyString =>
      String (b64_char (byte_Z a / 4)) (String (b64_char (byte_Z a mod 4 * 16)) EmptyString)
  | EmptyString => EmptyString
  end.

(** Carriage returns and line feeds are skipped; any other foreign byte is an error. *)
Fixpoint b64_values (s : string) : option (list Z) :=
  match s with
  | EmptyString => Some []
  | String c s' =>
      if Ascii.eqb c newline || Ascii.eqb c (ascii_of_nat 13) then b64_values s'
      else match b64_value c with
           | Some v => option_map (cons v) (b64_values s')
           | None => None
           end
  end.

(** The unused low bits of an incomplete group are ignored (the encoding is not Strict). *)
Fixpoint b64_groups (l : list Z) : option string :=
  match l with
  | a :: b :: c :: d :: l' =>
      option_map (fun s => String (Z_byte (a * 4 + b / 16)) (String (Z_byte (b mod 16 * 16 + c / 4))
                             (String (Z_byte (c mod 4 * 64 + d)) s))) (b64_groups l')
  | [a; b; c] => Some (String (Z_byte (a * 4 + b / 16)) (String (Z_byte (b mod 16 * 16 + c / 4)) EmptyString))
  | [a; b] => Some (String (Z_byte (a * 4 + b / 16)) EmptyString)
  | [_] => None
  | [] => Some EmptyString
  end.

Definition RawStdDecode (s : string) : option string := option_bind _ _ b64_groups (b64_values s).

(** ** Lemmas *)

Lemma sixty_four (P : Z -> bool) : forallb P (map Z.of_nat (seq 0 64)) = true -> forall z, (0 <= z < 64)%Z -> P z = true.
Proof.
  intros H z Hz. rewrite forallb_forall in H. apply H. apply in_map_iff. exists (Z.to_nat z).
  split; [lia|]. apply in_seq. lia.
Qed.

Definition b64_ok (c : ascii) (z : Z) : bool :=
  match b64_value c with Some v => (v =? z)%Z | None => false end
  && negb (Ascii.eqb c newline) && negb (Ascii.eqb c (ascii_of_nat 13)) && negb (Ascii.eqb c "$").

Lemma b64_char_spec z : (0 <= z < 64)%Z -> b64_ok (b64_char z) z = true.
Proof. apply (sixty_four (fun z => b64_ok (b64_char z) z)). by vm_compute. Qed.

Lemma b64_ok_spec c z : b64_ok c z = true ->
  b64_value c = Some z /\ Ascii.eqb c newline = false /\ Ascii.eqb c (ascii_of_nat 13) = false /\ Ascii.eqb c "$" = false.
Proof.
  unfold b64_ok. intros H. destruct (b64_value c) as [v|]; [|done]. bool_facts. by subst v.
Qed.

Lemma b64_values_cons z s : (0 <= z < 64)%Z -> b64_values (String (b64_char z) s) = option_map (cons z) (b64_values s).
Proof.
  intros Hz%b64_char_spec%b64_ok_spec. destruct Hz as (H1 & H2 & H3 & _). generalize dependent (b64_char z). intros c H1 H2 H3.
  cbn [b64_values]. rewrite H2, H3, H1. reflexivity.
Qed.

(** Induction three bytes at a time. *)
Lemma string_ind3 (P : string -> Prop) :
  P EmptyString -> (forall a, P (String a EmptyString)) -> (forall a b, P (String a (String b EmptyString))) ->
  (forall a b c s, P s -> P (String a (String b (String c s)))) -> forall s, P s.
Proof.
  intros H0 H1 H2 H3. fix IH 1. intros [|a [|b [|c s]]]; [exact H0|apply H1|apply H2|apply H3, IH].
Qed.

Ltac b64_bounds := repeat match goal with
  | a : ascii |- _ => lazymatch goal with
    | _ : (0 <= byte_Z a < 256)%Z |- _ => fail
    | _ => pose proof (byte_Z_bound a)
    end
  end.

Ltac b64_arith := b64_bounds; Z.div_mod_to_equations; lia.

(** What is encoded is read back. *)
Lemma RawStdDecode_Encode s : RawStdDecode (RawStdEncode s) = Some s.
Proof.
  unfold RawStdDecode. induction s as [|a|a b|a b c s IH] using string_ind3; [done| | |]; cbn [RawStdEncode];
    rewrite !b64_values_cons by b64_arith.
  - cbn. do 2 f_equal. apply Z_byte_byte_Z. b64_arith.
  - cbn. do 3 f_equal; [apply Z_byte_byte_Z|f_equal; apply Z_byte_byte_Z]; b64_arith.
  - destruct (b64_values (RawStdEncode s)) as [l|]; [|done]. cbn [option_map option_bind] in *.
    cbn [b64_groups]. rewrite IH. cbn [option_map]. do 2 f_equal; [|f_equal; [|f_equal]]; try apply Z_byte_byte_Z; b64_arith.
Qed.

Lemma RawStdEncode_no_dollar s : any_byte (Ascii.eqb "$") (RawStdEncode s) = false.
Proof.
  assert (forall z, (0 <= z < 64)%Z -> Ascii.eqb "$" (b64_char z) = false) as Hz.
  { intros z (_ & _ & _ & H)%b64_char_spec%b64_ok_spec. by rewrite Ascii.eqb_sym. }
  induction s as [|a|a b|a b c s IH] using string_ind3; [done| | |]; cbn [RawStdEncode any_byte];
    rewrite !Hz by b64_arith; done.
Qed.

Lemma Sum256_vector : HexEncode (Sum256 "abc") = "ba7816bf8f01cfea414140de5dae2223b00361a396177a9cb410ff61f20015ad".
Proof. by vm_compute. Qed.

Lemma HmacSha256_vector :
  HexEncode (HmacSha256 "key" "The quick brown fox jumps over the lazy dog") =
  "f7bc83f430538424b13298e6aa6fb143ef4d59a14946175997479dbc2d1a3cd8".
Proof. by vm_compute. Qed.

(** * Host names in the Go standard library

    [url.Parse] as far as its error and the [Host] of its result go, and
    [net.SplitHostPort].  Only the check that the text in square brackets is an
    IPv6 address ([netip.ParseAddr]) is a parameter of the parser. *)
(** ** Byte classes *)

Definition is_alpha (c : ascii) : bool := is_upper c || is_lower c.
Definition is_alnum (c : ascii) : bool := is_alpha c || is_digit c.
Definition one_of (cs : string) (c : ascii) : bool := any_byte (Ascii.eqb c) cs.
Definition is_control (c : ascii) : bool := (byte_nat c <? 32)%nat || (byte_nat c =? 127)%nat.

Definition hex_value (c : ascii) : option Z :=
  let n := byte_Z c in
  if is_digit c then Some (n - 48)%Z
  else if (97 <=? n)%Z && (n <=? 102)%Z then Some (n - 87)%Z
  else if (65 <=? n)%Z && (n <=? 70)%Z then Some (n - 55)%Z
  else None.

(** ** Percent decoding *)

Inductive url_mode := EncodeHost | EncodeZone | EncodeOther.

(** A byte below 128 that may stand for itself in a host. *)
Definition host_byte (c : ascii) : bool :=
  is_alnum c || one_of "!$&'()*+,;=:[]<>-_.~" c || Ascii.eqb c dquote.

Definition should_reject (mode : url_mode) (c : ascii) : bool :=
  match mode with
  | EncodeHost | EncodeZone => (byte_nat c <? 128)%nat && negb (host_byte c)
  | EncodeOther => false
  end.

(** Whether the escape of byte [v], spelt with digits [h] and [l], is refused. *)
Definition escape_rejected (mode : url_mode) (h l : Z) : bool :=
  let v := Z_byte (h * 16 + l) in
  let percent := (h =? 2)%Z && (l =? 5)%Z in
  match mode with
  | EncodeHost => (h <? 8)%Z && negb percent
  | EncodeZone => negb percent && negb (Ascii.eqb v " ") && negb (host_byte v)
  | EncodeOther => false
  end.

Fixpoint unescape (mode : url_mode) (s : string) : option string :=
  match s with
  | EmptyString => Some EmptyString
  | String c s' =>
      if Ascii.eqb c "%" then
        match s' with
        | String a (String b s'') =>
            match hex_value a, hex_value b with
            | Some h, Some l =>
                if escape_rejected mode h l then None
                else option_map (String (Z_byte (h * 16 + l))) (unescape mode s'')
            | _, _ => None
            end
        | _ => None
        end
      else if should_reject mode c then None
      else option_map (String c) (unescape mode s')
  end.

(** ** The parts of a URL *)

(** [strings.Cut] on a byte. *)
Definition Cut (s : string) (c : ascii) : string * option string :=
  let i := Index s c in
  if (i <? 0)%Z then (s, None) else (str_take (Z.to_nat i) s, Some (str_drop (S (Z.to_nat i)) s)).

(** [getScheme]: the scheme (empty for none) and the rest, or an error. *)
Fixpoint scheme_end (first : bool) (s : string) : option nat :=
  match s with
  | EmptyString => None
  | String c s' =>
      if is_alpha c then option_map S (scheme_end false s')
      else if is_digit c || one_of "+-." c then if first then None else option_map S (scheme_end false s')
      else if Ascii.eqb c ":" then Some O
      else None
  end.

Definition getScheme (raw : string) : option (string * string) :=
  match scheme_end true raw with
  | None => Some (EmptyString, raw)
  | Some O => None
  | Some n => Some (str_take n raw, str_drop (S n) raw)
  end.

Definition all_digits (s : string) : bool := negb (any_byte (fun c => negb (is_digit c)) s).

Definition validOptionalPort (port : string) : bool :=
  match port with
  | EmptyString => true
  | String c ds => Ascii.eqb c ":" && all_digits ds
  end.

Definition validUserinfo (s : string) : bool :=
  negb (any_byte (fun c => negb (is_alnum c || one_of "-_.:~!$&'()*+,;=%@" c)) s).

Fixpoint percent25 (s : string) : option nat :=
  if HasPrefix s "%25" then Some O
  else match s with EmptyString => None | String _ s' => option_map S (percent25 s') end.

Section Parse.
(** [netip.ParseAddr] accepts the text as an IPv6 address, with a zone or without. *)
Variable is_ipv6 : string -> bool.

Definition parse_bracketed (host : string) (open : Z) : option string :=
  let close := LastIndex host "]" in
  if (close <? 0)%Z then None
  else
    let colonPort := str_drop (S (Z.to_nat close)) host in
    if negb (validOptionalPort colonPort) then None
    else
      port ← unescape EncodeHost colonPort;
      let hostname := str_drop (S (Z.to_nat open)) (str_take (Z.to_nat close) host) in
      name ← match percent25 hostname with
             | Some i =>
                 h ← unescape EncodeHost (str_take i hostname);
                 z ← unescape EncodeZone (str_drop i hostname);
                 Some (h +s+ z)
             | None => unescape EncodeHost hostname
             end;
      if is_ipv6 name then Some ("[" +s+ name +s+ "]" +s+ port) else None.

Definition parseHost (host : string) : option string :=
  let open := LastIndex host "[" in
  if negb (open <? 0)%Z then parse_bracketed host open
  else
    let i := LastIndex host ":" in
    if negb (i <? 0)%Z && negb (validOptionalPort (str_drop (Z.to_nat i) host)) then None
    else unescape EncodeHost host.

Definition parseAuthority (authority : string) : option string :=
  let i := LastIndex authority "@" in
  if (i <? 0)%Z then parseHost authority
  else
    host ← parseHost (str_drop (S (Z.to_nat i)) authority);
    let userinfo := str_take (Z.to_nat i) authority in
    if negb (validUserinfo userinfo) then None
    else _ ← unescape EncodeOther userinfo; Some host.

(** The text before the query. *)
Definition without_query (rest : string) : string := (Cut rest "?").1.

(** [url.Parse(raw)]: [None] is an error, [Some h] a URL whose [Host] is [h]. *)
Definition url_host (raw : string) : option string :=
  let '(u, frag) := Cut raw "#" in
  if any_byte is_control u then None
  else
    host ← (if String.eqb u "*" then Some EmptyString
            else
              sr ← getScheme u;
              let '(scheme, rest) := sr in
              let rest := without_query rest in
              if negb (HasPrefix rest "/") && (scheme <>s EmptyString) then Some EmptyString
              else if negb (HasPrefix rest "/") && any_byte (Ascii.eqb ":") (Cut rest "/").1 then None
              else if ((scheme <>s EmptyString) || negb (HasPrefix rest "///")) && HasPrefix rest "//" then
                let authority := str_drop 2 rest in
                let i := Index authority slash in
                let '(authority, path) :=
                  if (i <? 0)%Z then (authority, EmptyString)
                  else (str_take (Z.to_nat i) authority, str_drop (Z.to_nat i) authority) in
                host ← parseAuthority authority;
                _ ← unescape EncodeOther path;
                Some host
              else _ ← unescape EncodeOther rest; Some EmptyString);
    match frag with
    | None => Some host
    | Some f => _ ← unescape EncodeOther f; Some host
    end.
End Parse.

(** ** net.SplitHostPort: the host, or an error *)
Definition split_host (hostport : string) : option string :=
  let i := LastIndex hostport ":" in
  if (i <? 0)%Z then None
  else
    let '(host, j, k) :=
      if HasPrefix hostport "[" then
        let close := Index hostport "]" in
        if (close <? 0)%Z || negb (close + 1 =? i)%Z then (None, 0%nat, 0%nat)
        else (Some (str_drop 1 (str_take (Z.to_nat close) hostport)), 1%nat, S (Z.to_nat close))
      else
        let h := str_take (Z.to_nat i) hostport in
        ((if any_byte (Ascii.eqb ":") h then None else Some h), 0%nat, 0%nat) in
    if any_byte (Ascii.eqb "[") (str_drop j hostport) || any_byte (Ascii.eqb "]") (str_drop k hostport) then None
    else host.
