(* ===== verification/GoValue.v ===== *)
(** * Dynamically typed values ([interface{}]) and their [%v] text

    The values the program keeps in [interface{}] come from decoded JSON and
    from its own literals: nil, booleans, [int], [int64], [float64], strings,
    [[]interface{}], [[]string] and [map[string]interface{}].  [float64] is the
    IEEE 754 binary64 format; its [%v] text is the shortest decimal that reads
    back as the same value, in the layout of [strconv]'s format 'g'. *)
From S2P Require Import Prelude GoStrings.
From Stdlib Require Import SpecFloat Ascii.

(** ** binary64 *)

Definition float64 : Type := spec_float.

(** [float64(z)] for an integer, rounding to nearest even. *)
Definition f64_of_Z (z : Z) : float64 := binary_normalize 53 1024 z 0 false.
(** The binary64 value nearest to [z * 2^e]. *)
Definition f64_scale (z e : Z) : float64 := binary_normalize 53 1024 z e false.

(** [int(f)]: truncation toward zero; a value outside the 64-bit range (or not
    a number) gives the minimal integer, as on amd64. *)
Definition min_int64 : Z := (- 2 ^ 63)%Z.
Definition max_int64 : Z := (2 ^ 63 - 1)%Z.
Definition f64_to_int (f : float64) : Z :=
  match f with
  | S754_zero _ => 0
  | S754_finite s m e =>
      let a := if (0 <=? e)%Z then (Zpos m * 2 ^ e)%Z else (Zpos m / 2 ^ (- e))%Z in
      let z := if s then (- a)%Z else a in
      if (min_int64 <=? z)%Z && (z <=? max_int64)%Z then z else min_int64
  | _ => min_int64
  end.

(** ** Shortest decimal *)

(** Number of decimal digits of the integer part of [n / d], at least 1 when
    [n >= d]. *)
Definition count_digits (z : Z) : Z := str_len (Itoa z).

(** For [0 < n < d]: the number of zeros between the point and the first
    non-zero digit of [n / d]. *)
Fixpoint leading_zeros (fuel : nat) (n d : Z) : Z :=
  match fuel with
  | O => 0
  | S fuel' => if (d <=? n * 10)%Z then 0 else (leading_zeros fuel' (n * 10) d + 1)%Z
  end.

Section Shortest.
  (** The value is [vn / d]; every real between [lo / d] and [hi / d] (bounds
      included when [incl]) reads back as it.  [k] is its decimal exponent:
      [10^(k-1) <= vn/d < 10^k]. *)
  Variables (vn lo hi d k : Z) (incl : bool).

Definition within (num den : Z) : bool :=
    if incl then (lo * den <=? num * d)%Z && (num * d <=? hi * den)%Z
    else (lo * den <? num * d)%Z && (num * d <? hi * den)%Z.

  (** [c * 10^(k-n)] as a fraction. *)
Definition scaled (c n : Z) : Z * Z :=
    if (n <=? k)%Z then ((c * 10 ^ (k - n))%Z, 1%Z) else (c, (10 ^ (n - k))%Z).

Definition candidate (n : Z) : option Z :=
    let q := if (n <=? k)%Z then (vn / (d * 10 ^ (k - n)))%Z else (vn * 10 ^ (n - k) / d)%Z in
    let '(n0, d0) := scaled q n in
    let '(n1, d1) := scaled (q + 1) n in
    let ok0 := within n0 d0 in
    let ok1 := within n1 d1 in
    (* twice the distances from the value, over the common denominator d0*d *)
    let below := (vn * d0 - n0 * d)%Z in
    let above := (n1 * d - vn * d1)%Z in
    if ok0 && (negb ok1 || (below <? above)%Z || ((below =? above)%Z && Z.even q)) then Some q
    else if ok1 then Some (q + 1)%Z else None.

Fixpoint shortest_from (fuel : nat) (n : Z) : Z * Z :=
    match fuel with
    | O => (vn / d, k)%Z
    | S fuel' =>
        match candidate n with
        | Some c => (c, n)
        | None => shortest_from fuel' (n + 1)
        end
    end.
End Shortest.

Definition strip_zeros (s : string) : string := TrimRight s "0"%char.

(** Digits (no trailing zero) and decimal point position of a positive finite
    float: the value is [0.digits * 10^dp].  17 digits always suffice. *)
Definition f64_digits (m : positive) (e : Z) : string * Z :=
  let boundary := Pos.eqb m 4503599627370496 && (-1074 <? e)%Z in
  let f := if (2 <=? e)%Z then (2 ^ (e - 2))%Z else 1%Z in
  let d := if (2 <=? e)%Z then 1%Z else (2 ^ (2 - e))%Z in
  let vn := (4 * Zpos m * f)%Z in
  let lo := ((4 * Zpos m - (if boundary then 1 else 2)) * f)%Z in
  let hi := ((4 * Zpos m + 2) * f)%Z in
  let k := if (d <=? vn)%Z then count_digits (vn / d) else (- leading_zeros 400 vn d)%Z in
  let '(c, n) := shortest_from vn lo hi d k (Z.even (Zpos m)) 17 1 in
  let ds := Itoa c in
  (strip_zeros ds, k - n + str_len ds)%Z.

Fixpoint zeros (n : nat) : string :=
  match n with O => EmptyString | S n' => String "0"%char (zeros n') end.

(** Layout '%e' of strconv: at least two exponent digits. *)
Definition fmt_e (ds : string) (dp : Z) : string :=
  let x := (dp - 1)%Z in
  let mant := match ds with
              | String c EmptyString => String c EmptyString
              | String c r => String c (String "."%char r)
              | EmptyString => "0"
              end in
  let ax := Itoa (Z.abs x) in
  mant +s+ "e" +s+ (if (x <? 0)%Z then "-" else "+") +s+
  (if (Z.abs x <? 10)%Z then "0" +s+ ax else ax).

(** Layout '%f' of strconv with as many decimals as needed. *)
Definition fmt_f (ds : string) (dp : Z) : string :=
  let nd := str_len ds in
  if (dp <=? 0)%Z then "0." +s+ zeros (Z.to_nat (- dp)) +s+ ds
  else if (nd <=? dp)%Z then ds +s+ zeros (Z.to_nat (dp - nd))
  else str_take (Z.to_nat dp) ds +s+ "." +s+ str_drop (Z.to_nat dp) ds.

(** [fmt.Sprintf("%v", f)]: format 'g' with the shortest precision, where the
    exponent layout is used when the decimal exponent is below -4 or at least 6
    (the precision strconv uses for this decision when the digits are the
    shortest). *)
Definition shortest_exp_threshold : Z := 6.
Definition fmt_float (f : float64) : string :=
  match f with
  | S754_nan => "NaN"
  | S754_infinity s => if s then "-Inf" else "+Inf"
  | S754_zero s => if s then "-0" else "0"
  | S754_finite s m e =>
      let '(ds, dp) := f64_digits m e in
      let x := (dp - 1)%Z in
      (if s then "-" else EmptyString) +s+
      (if (x <? -4)%Z || (shortest_exp_threshold <=? x)%Z then fmt_e ds dp else fmt_f ds dp)
  end.

(** ** interface{} *)

Inductive any : Type :=
| ANil
| ABool (b : bool)
| AInt (z : Z)
| AInt64 (z : Z)
| AFloat (f : float64)
| AStr (s : string)
| AList (l : list any)
| AStrs (l : list string)
| AMap (m : list (string * any)).
(** [AMap] lists the entries of a [map[string]interface{}] by increasing key,
    the order in which fmt prints them. *)

Definition bracket (l : list string) : string := "[" +s+ Join l " " +s+ "]".

(** [fmt.Sprintf("%v", v)] *)
Fixpoint fmt_v (v : any) : string :=
  match v with
  | ANil => "<nil>"
  | ABool b => if b then "true" else "false"
  | AInt z | AInt64 z => Itoa z
  | AFloat f => fmt_float f
  | AStr s => s
  | AList l => bracket (map fmt_v l)
  | AStrs l => bracket l
  | AMap m => "map[" +s+ Join (map (fun kv => fst kv +s+ ":" +s+ fmt_v (snd kv)) m) " " +s+ "]"
  end.

(** [v == nil] and [v == ""] *)
Definition is_nil (v : any) : bool := match v with ANil => true | _ => false end.
Definition is_empty_str (v : any) : bool :=
  match v with AStr s => String.eqb s EmptyString | _ => false end.

(** [anySlice] of the resolver works on this view of a slice value. *)
Definition as_bool (v : any) : option bool := match v with ABool b => Some b | _ => None end.
Definition as_str (v : any) : option string := match v with AStr s => Some s | _ => None end.
Definition as_map (v : any) : option (list (string * any)) :=
  match v with AMap m => Some m | _ => None end.

(** Lookup in a decoded JSON object. *)
Fixpoint obj_get (m : list (string * any)) (k : string) : option any :=
  match m with
  | [] => None
  | (k', v) :: m' => if String.eqb k k' then Some v else obj_get m' k
  end.

(** Text of scalars computes. *)
Example fmt_port : fmt_v (AFloat (f64_of_Z 8000)) = "8000".
Proof. vm_compute. reflexivity. Qed.
Example fmt_context_131072 : fmt_v (AFloat (f64_of_Z 131072)) = "131072".
Proof. vm_compute. reflexivity. Qed.
Example fmt_context_1048576 : fmt_v (AFloat (f64_of_Z 1048576)) = "1.048576e+06".
Proof. vm_compute. reflexivity. Qed.
Example fmt_fraction : fmt_v (AFloat (f64_scale 8106479329266893 (-53))) = "0.9".
Proof. vm_compute. reflexivity. Qed.
Example fmt_denormal : fmt_v (AFloat (f64_scale 1 (-1074))) = "5e-324".
Proof. vm_compute. reflexivity. Qed.
Example fmt_nested :
  fmt_v (AMap [("a", AInt 1); ("b", AList [AStr "x"; ANil])]) = "map[a:1 b:[x <nil>]]".
Proof. reflexivity. Qed.
