(* ===== verification/GoJson.v ===== *)
(** * JSON documents as values (encoding/json, reflect)

    The program keeps JSON documents in text columns and decodes them where it
    uses them.  Here a column holds the value its text decodes to, and the
    conversions between values and typed data are those of encoding/json: a field
    of the wrong kind is skipped and the rest is still decoded (the callers drop
    the error), and field names match without regard to case.  Objects list their
    entries by increasing key, the order in which they are written. *)
From S2P Require Import Prelude GoStrings GoNumbers GoValue.
From Stdlib Require Import Ascii SpecFloat.

(** ** Induction on values *)

Section AnyInd.
Variable P : any -> Prop.
Hypothesis Hnil : P ANil.
Hypothesis Hbool : forall b, P (ABool b).
Hypothesis Hint : forall z, P (AInt z).
Hypothesis Hint64 : forall z, P (AInt64 z).
Hypothesis Hfloat : forall f, P (AFloat f).
Hypothesis Hstr : forall s, P (AStr s).
Hypothesis Hlist : forall l, Forall P l -> P (AList l).
Hypothesis Hstrs : forall l, P (AStrs l).
Hypothesis Hmap : forall m, Forall (fun kv => P kv.2) m -> P (AMap m).

Fixpoint any_nested_ind (v : any) : P v :=
  match v with
  | ANil => Hnil | ABool b => Hbool b | AInt z => Hint z | AInt64 z => Hint64 z | AFloat f => Hfloat f | AStr s => Hstr s
  | AList l => Hlist l ((fix go l : Forall P l :=
                           match l with [] => Forall_nil_2 P | x :: l' => Forall_cons_2 P x l' (any_nested_ind x) (go l') end) l)
  | AStrs l => Hstrs l
  | AMap m => Hmap m ((fix go m : Forall (fun kv => P kv.2) m :=
                         match m with [] => Forall_nil_2 _ | kv :: m' => Forall_cons_2 _ kv m' (any_nested_ind kv.2) (go m') end) m)
  end.
End AnyInd.

(** ** Objects *)

Definition obj : Type := list (string * any).

(** [m[k] = v] *)
Fixpoint obj_set (k : string) (v : any) (m : obj) : obj :=
  match m with
  | [] => [(k, v)]
  | (k', v') :: m' =>
      if k =s k' then (k, v) :: m'
      else if String.ltb k k' then (k, v) :: m
      else (k', v') :: obj_set k v m'
  end.

(** The map as Go ranges over it. *)
Definition obj_map (m : obj) : gmap string any := list_to_map m.

(** [v, _ := m[k].(map[string]interface{})] *)
Definition get_obj (m : obj) (k : string) : option obj := v ← obj_get m k; as_map v.

(** [m[k]] as a value: nil when absent. *)
Definition get_any (m : obj) (k : string) : any := default ANil (obj_get m k).

Lemma obj_get_set k v m : obj_get (obj_set k v m) k = Some v.
Proof.
  induction m as [|[k' v'] m IH]; cbn; [by rewrite String.eqb_refl|].
  destruct (k =s k') eqn:E; cbn; [by rewrite String.eqb_refl|].
  destruct (String.ltb k k'); cbn; [by rewrite String.eqb_refl|]. by rewrite E.
Qed.

Lemma obj_get_set_ne k k' v m : k <> k' -> obj_get (obj_set k v m) k' = obj_get m k'.
Proof.
  intros Hne. induction m as [|[k0 v0] m IH]; cbn.
  - apply not_eq_sym, String.eqb_neq in Hne. by rewrite Hne.
  - destruct (k =s k0) eqn:E; cbn.
    + apply String.eqb_eq in E as <-. by apply not_eq_sym, String.eqb_neq in Hne as ->.
    + destruct (String.ltb k k0); cbn; [by apply not_eq_sym, String.eqb_neq in Hne as ->|]. by rewrite IH.
Qed.

Lemma obj_map_lookup m k : obj_map m !! k = obj_get m k.
Proof.
  induction m as [|[k' v] m IH]; cbn; [by apply lookup_empty|].
  destruct (k =s k') eqn:E; [apply String.eqb_eq in E as ->; by rewrite lookup_insert_eq|].
  apply String.eqb_neq in E. by rewrite lookup_insert_ne.
Qed.

Lemma obj_map_set k v m : obj_map (obj_set k v m) = <[k := v]> (obj_map m).
Proof.
  apply map_eq. intros k'. rewrite obj_map_lookup. destruct (decide (k = k')) as [<-|Hne].
  - by rewrite obj_get_set, lookup_insert_eq.
  - rewrite obj_get_set_ne, lookup_insert_ne by done. by rewrite obj_map_lookup.
Qed.

(** ** Equality of values ([reflect.DeepEqual]) *)

Definition f64_eqb (a b : float64) : bool := SFeqb a b.

Fixpoint list_eqb {A} (eqb : A -> A -> bool) (a b : list A) : bool :=
  match a, b with
  | [], [] => true
  | x :: a, y :: b => eqb x y && list_eqb eqb a b
  | _, _ => false
  end.

Fixpoint DeepEqual (a b : any) {struct a} : bool :=
  match a, b with
  | ANil, ANil => true
  | ABool x, ABool y => Bool.eqb x y
  | AInt x, AInt y | AInt64 x, AInt64 y => (x =? y)%Z
  | AFloat x, AFloat y => f64_eqb x y
  | AStr x, AStr y => x =s y
  | AList x, AList y =>
      (fix go x y := match x, y with
                     | [], [] => true
                     | v :: x, w :: y => DeepEqual v w && go x y
                     | _, _ => false
                     end) x y
  | AStrs x, AStrs y => list_eqb String.eqb x y
  | AMap x, AMap y =>
      (fix go x y := match x, y with
                     | [], [] => true
                     | (k, v) :: x, (j, w) :: y => (k =s j) && DeepEqual v w && go x y
                     | _, _ => false
                     end) x y
  | _, _ => false
  end.

(** ** Writing and reading back ([json.Marshal], then [json.Unmarshal] into an interface)

    Integers become floats and string slices become slices of strings; a float
    that is not a number has no JSON, and the conversion fails. *)
Definition finite (f : float64) : bool :=
  match f with S754_zero _ | S754_finite _ _ _ => true | _ => false end.

Fixpoint reread (v : any) : option any :=
  match v with
  | ANil | ABool _ | AStr _ => Some v
  | AInt z | AInt64 z => Some (AFloat (f64_of_Z z))
  | AFloat f => if finite f then Some v else None
  | AStrs l => Some (AList (map AStr l))
  | AList l =>
      AList <$> (fix go l := match l with
                             | [] => Some []
                             | x :: l' => y ← reread x; ys ← go l'; Some (y :: ys)
                             end) l
  | AMap m =>
      AMap <$> (fix go m := match m with
                            | [] => Some []
                            | (k, x) :: m' => y ← reread x; ys ← go m'; Some ((k, y) :: ys)
                            end) m
  end.

(** [cloneMap]-like copies of a map: nothing when it has no JSON. *)
Definition reread_obj (m : obj) : obj := match reread (AMap m) with Some (AMap m') => m' | _ => [] end.

(** Values as decoding makes them. *)
Fixpoint decoded (v : any) : Prop :=
  match v with
  | ANil | ABool _ | AStr _ => True
  | AFloat f => finite f = true
  | AList l => (fix go l := match l with [] => True | x :: l' => decoded x /\ go l' end) l
  | AMap m => (fix go m := match m with [] => True | (_, x) :: m' => decoded x /\ go m' end) m
  | AInt _ | AInt64 _ | AStrs _ => False
  end.

Lemma reread_decoded v : decoded v -> reread v = Some v.
Proof.
  induction v as [| | | | f | |l IH| |m IH] using any_nested_ind; cbn; try done; [by intros ->| |].
  - intros H. enough ((fix go l := match l with [] => Some [] | x :: l' => y ← reread x; ys ← go l'; Some (y :: ys) end) l = Some l)
      as -> by done.
    induction IH as [|x l Hx _ IHl]; [done|]. destruct H as [Hd H]. by rewrite (Hx Hd), (IHl H).
  - intros H. enough ((fix go m := match m with [] => Some [] | (k, x) :: m' => y ← reread x; ys ← go m'; Some ((k, y) :: ys) end) m = Some m)
      as -> by done.
    induction IH as [|[k x] m Hx _ IHm]; [done|]. destruct H as [Hd H]. cbn in Hx. by rewrite (Hx Hd), (IHm H).
Qed.

(** ** Typed decoding ([json.Unmarshal] into a Go type)

    [None] is a value of the wrong kind: the field keeps its zero value.  A null
    leaves it too. *)
Definition in_integer (f : float64) : option Z :=
  match f with
  | S754_zero _ => Some 0%Z
  | S754_finite s m e =>
      let a := if (0 <=? e)%Z then Some (Zpos m * 2 ^ e)%Z
               else if (Zpos m mod 2 ^ (- e) =? 0)%Z then Some (Zpos m / 2 ^ (- e))%Z else None in
      z ← a; let z := if s then (- z)%Z else z in
      if in_int64 z then Some z else None
  | _ => None
  end.

(** Numbers of 10^21 and more are written with an exponent, which no integer
    accepts; they are out of range anyway. *)
Definition dec_int (v : any) : option Z :=
  match v with AFloat f => in_integer f | AInt z | AInt64 z => Some z | _ => None end.
Definition dec_str (v : any) : option string := as_str v.
Definition dec_bool (v : any) : option bool := as_bool v.

(** Whether a decoder into a string, or a slice of strings, reports no error. *)
Definition text_or_nil (v : any) : bool := match v with AStr _ | ANil => true | _ => false end.
Definition texts_or_nil (v : any) : bool := match v with AList l => forallb text_or_nil l | ANil => true | _ => false end.

(** A slice of strings: an element of the wrong kind is the empty string. *)
Definition dec_strs (v : any) : option (list string) :=
  match v with
  | AList l => Some (map (fun x => default EmptyString (dec_str x)) l)
  | AStrs l => Some l
  | ANil => Some []
  | _ => None
  end.

(** A map to strings: a null or wrong element is the empty string. *)
Definition dec_str_map (v : any) : option (gmap string string) :=
  match v with
  | AMap m => Some (list_to_map (map (fun kv => (kv.1, default EmptyString (dec_str kv.2))) m))
  | ANil => Some ∅
  | _ => None
  end.

(** A slice of structures: an element of the wrong kind is the zero structure. *)
Definition dec_list {A} (dec : obj -> A) (v : any) : option (list A) :=
  match v with
  | AList l => Some (map (fun x => match x with AMap m => dec m | _ => dec [] end) l)
  | ANil => Some []
  | _ => None
  end.

(** The field of a structure: the entries whose key folds to its name are decoded
    in order, each success replacing the one before. *)
Definition field {A} (m : obj) (name : string) (dec : any -> option A) (zero : A) : A :=
  foldl (fun acc kv => if EqualFold kv.1 name then default acc (dec kv.2) else acc) zero m.

Lemma field_absent {A} m name (dec : any -> option A) zero :
  Forall (fun kv => EqualFold kv.1 name = false) m -> field m name dec zero = zero.
Proof.
  unfold field. induction 1 as [|kv m Hkv _ IH]; cbn; [done|]. by rewrite Hkv.
Qed.

(** ** Text of a value *)

(** [strings.TrimSpace(fmt.Sprint(v))] *)
Definition trimmed (v : any) : string := TrimSpace (fmt_v v).
