(* ===== verification/GoJsonText.v ===== *)
(** * JSON text (encoding/json), numbers in a text (strconv)

    The decoder of a text into a value: [json.Unmarshal] into an interface.  Bytes
    that are not UTF-8 become the replacement character, a number out of range and a
    nesting beyond 10000 are errors, and the last entry for a key of an object
    stays.  Then the documents that are read back after they were written, ParseInt and
    ParseFloat, and the writer of texts, which the decoder inverts. *)
From S2P Require Import Prelude GoStrings GoNumbers GoValue GoJson.
From Stdlib Require Import Ascii SpecFloat.

(** ** UTF-8 *)

Definition utf8_encode (r : Z) : string :=
  let b z rest := String (Z_byte z) rest in
  if (r <? 128)%Z then b r EmptyString
  else if (r <? 2048)%Z then b (192 + r / 64)%Z (b (128 + r mod 64)%Z EmptyString)
  else if (r <? 65536)%Z then b (224 + r / 4096)%Z (b (128 + r / 64 mod 64)%Z (b (128 + r mod 64)%Z EmptyString))
  else b (240 + r / 262144)%Z (b (128 + r / 4096 mod 64)%Z (b (128 + r / 64 mod 64)%Z (b (128 + r mod 64)%Z EmptyString))).

Definition rune_error : string := utf8_encode 65533.

Definition between (lo hi : Z) (c : ascii) : bool := (lo <=? byte_Z c)%Z && (byte_Z c <=? hi)%Z.

(** The number of bytes of the well-formed character at the head, zero for none. *)
Definition utf8_len (s : string) : nat :=
  match s with
  | EmptyString => 0
  | String a s1 =>
      if between 0 127 a then 1
      else match s1 with
      | EmptyString => 0
      | String b s2 =>
          if between 194 223 a then (if between 128 191 b then 2 else 0)
          else match s2 with
          | EmptyString => 0
          | String c s3 =>
              if between 224 239 a then
                (if between (if (byte_Z a =? 224)%Z then 160 else 128) (if (byte_Z a =? 237)%Z then 159 else 191) b && between 128 191 c
                 then 3 else 0)
              else match s3 with
              | EmptyString => 0
              | String d _ =>
                  if between 240 244 a && between (if (byte_Z a =? 240)%Z then 144 else 128) (if (byte_Z a =? 244)%Z then 143 else 191) b
                     && between 128 191 c && between 128 191 d then 4 else 0
              end
          end
      end
  end.

(** ** Strings *)

Definition hex_digit (c : ascii) : option Z :=
  if is_digit c then Some (digit_value c)
  else if between 97 102 c then Some (byte_Z c - 87)%Z
  else if between 65 70 c then Some (byte_Z c - 55)%Z else None.

Definition hex4 (s : string) : option (Z * string) :=
  match s with
  | String a (String b (String c (String d rest))) =>
      w ← hex_digit a; x ← hex_digit b; y ← hex_digit c; z ← hex_digit d;
      Some ((((w * 16 + x) * 16 + y) * 16 + z)%Z, rest)
  | _ => None
  end.

Definition is_surrogate (r : Z) : bool := (55296 <=? r)%Z && (r <=? 57343)%Z.

(** After [\u]: a pair of surrogates is one character, a lone one is replaced. *)
Definition unicode_escape (s : string) : option (string * string) :=
  match hex4 s with
  | None => None
  | Some (r, rest) =>
      if negb (is_surrogate r) then Some (utf8_encode r, rest)
      else match rest with
           | String "\"%char (String "u"%char rest') =>
               match hex4 rest' with
               | Some (r2, rest2) =>
                   if (r <? 56320)%Z && (56320 <=? r2)%Z && (r2 <=? 57343)%Z
                   then Some (utf8_encode ((r - 55296) * 1024 + (r2 - 56320) + 65536)%Z, rest2)
                   else Some (rune_error, rest)
               | None => Some (rune_error, rest)
               end
           | _ => Some (rune_error, rest)
           end
  end.

Definition simple_escape (c : ascii) : option ascii :=
  if Ascii.eqb c dquote then Some dquote
  else if Ascii.eqb c "\"%char then Some c
  else if Ascii.eqb c "/"%char then Some c
  else if Ascii.eqb c "b"%char then Some (Z_byte 8)
  else if Ascii.eqb c "f"%char then Some (Z_byte 12)
  else if Ascii.eqb c "n"%char then Some (Z_byte 10)
  else if Ascii.eqb c "r"%char then Some (Z_byte 13)
  else if Ascii.eqb c "t"%char then Some (Z_byte 9) else None.

(** The rest of a string literal after its opening quote. *)
Fixpoint parse_string (fuel : nat) (s : string) : option (string * string) :=
  match fuel, s with
  | O, _ | _, EmptyString => None
  | S fuel, String c rest =>
      if Ascii.eqb c dquote then Some (EmptyString, rest)
      else if between 0 31 c then None
      else if Ascii.eqb c "\"%char then
        match rest with
        | EmptyString => None
        | String e rest' =>
            '(text, after) ← (if Ascii.eqb e "u"%char then unicode_escape rest'
                             else option_map (fun x => (String x EmptyString, rest')) (simple_escape e));
            '(tail, after) ← parse_string fuel after;
            Some ((text +s+ tail)%go, after)
        end
      else
        let n := utf8_len s in
        let '(text, after) := if (n =? 0)%nat then (rune_error, rest) else (str_take n s, str_drop n s) in
        '(tail, after) ← parse_string fuel after;
        Some ((text +s+ tail)%go, after)
  end.

(** ** Numbers *)

Fixpoint span_digits (s : string) : string * string :=
  match s with
  | String c rest => if is_digit c then let '(ds, after) := span_digits rest in (String c ds, after) else (EmptyString, s)
  | EmptyString => (EmptyString, EmptyString)
  end.

Definition digits_Z (s : string) : Z := (scan_digits 0 0 s).1.

(** The binary64 value nearest to [m * 10^e]; [None] when it overflows. *)
Definition f64_of_decimal (neg : bool) (m e : Z) : option float64 :=
  if (m =? 0)%Z then Some (S754_zero neg)
  else if (400 <? str_len (Itoa m) + e)%Z then None
  else if (str_len (Itoa m) + e <? -400)%Z then Some (S754_zero neg)
  else
    let f := if (0 <=? e)%Z then f64_of_Z (m * 10 ^ e)
             else let d := (10 ^ (- e))%Z in
                  let q := (m * 2 ^ 1200 / d)%Z in
                  f64_scale (2 * q + (if (m * 2 ^ 1200 mod d =? 0)%Z then 0 else 1))%Z (-1201) in
    match f with
    | S754_infinity _ | S754_nan => None
    | S754_zero _ => Some (S754_zero neg)
    | S754_finite _ mant ex => Some (S754_finite neg mant ex)
    end.

Definition parse_exponent (s : string) : option (Z * string) :=
  match s with
  | String c rest =>
      if Ascii.eqb c "e"%char || Ascii.eqb c "E"%char then
        let '(neg, rest) := match rest with
                            | String "-"%char r => (true, r)
                            | String "+"%char r => (false, r)
                            | _ => (false, rest)
                            end in
        let '(ds, after) := span_digits rest in
        if ds =s EmptyString then None else Some (if neg then (- digits_Z ds)%Z else digits_Z ds, after)
      else Some (0%Z, s)
  | EmptyString => Some (0%Z, s)
  end.

Definition parse_number (s : string) : option (any * string) :=
  let '(neg, s) := match s with String "-"%char r => (true, r) | _ => (false, s) end in
  let '(ip, rest) := match s with
                     | String "0"%char r => ("0", r)
                     | _ => span_digits s
                     end in
  if ip =s EmptyString then None
  else
    '(fp, rest) ← match rest with
                  | String "."%char r => let '(ds, after) := span_digits r in if ds =s EmptyString then None else Some (ds, after)
                  | _ => Some (EmptyString, rest)
                  end;
    '(e, rest) ← parse_exponent rest;
    f ← f64_of_decimal neg (digits_Z (ip +s+ fp)) (e - str_len fp);
    Some (AFloat f, rest).

(** ** Values *)

Definition json_space (c : ascii) : bool := between 9 10 c || between 13 13 c || between 32 32 c.
Definition skip_ws (s : string) : string := TrimLeftFunc json_space s.

Definition literal (word : string) (v : any) (s : string) : option (any * string) :=
  if HasPrefix s word then Some (v, str_drop (String.length word) s) else None.

Definition max_depth : Z := 10000.

Fixpoint parse_value (fuel : nat) (depth : Z) (s : string) {struct fuel} : option (any * string) :=
  match fuel with
  | O => None
  | S fuel =>
      match skip_ws s with
      | EmptyString => None
      | String c rest as s =>
          if Ascii.eqb c dquote then '(t, after) ← parse_string (String.length rest) rest; Some (AStr t, after)
          else if Ascii.eqb c "{"%char then
            if (max_depth <? depth + 1)%Z then None
            else match skip_ws rest with
                 | String "}"%char after => Some (AMap [], after)
                 | _ => parse_members fuel (depth + 1) [] rest
                 end
          else if Ascii.eqb c "["%char then
            if (max_depth <? depth + 1)%Z then None
            else match skip_ws rest with
                 | String "]"%char after => Some (AList [], after)
                 | _ => parse_elements fuel (depth + 1) [] rest
                 end
          else if Ascii.eqb c "t"%char then literal "true" (ABool true) s
          else if Ascii.eqb c "f"%char then literal "false" (ABool false) s
          else if Ascii.eqb c "n"%char then literal "null" ANil s
          else parse_number s
      end
  end
with parse_members (fuel : nat) (depth : Z) (m : obj) (s : string) {struct fuel} : option (any * string) :=
  match fuel with
  | O => None
  | S fuel =>
      match skip_ws s with
      | String c rest =>
          if Ascii.eqb c dquote then
            '(k, after) ← parse_string (String.length rest) rest;
            match skip_ws after with
            | String ":"%char after =>
                '(v, after) ← parse_value fuel depth after;
                match skip_ws after with
                | String "}"%char after => Some (AMap (obj_set k v m), after)
                | String ","%char after => parse_members fuel depth (obj_set k v m) after
                | _ => None
                end
            | _ => None
            end
          else None
      | EmptyString => None
      end
  end
with parse_elements (fuel : nat) (depth : Z) (l : list any) (s : string) {struct fuel} : option (any * string) :=
  match fuel with
  | O => None
  | S fuel =>
      '(v, after) ← parse_value fuel depth s;
      match skip_ws after with
      | String "]"%char after => Some (AList (l ++ [v]), after)
      | String ","%char after => parse_elements fuel depth (l ++ [v]) after
      | _ => None
      end
  end.

(** [json.Unmarshal] into an interface; every call consumes a byte or is followed by
    one that does, so the fuel is enough. *)
Definition Unmarshal (s : string) : option any :=
  '(v, rest) ← parse_value (2 * String.length s + 2) 0 s;
  if skip_ws rest =s EmptyString then Some v else None.

(** Into a map: nil for null, an error for anything but an object. *)
Definition Unmarshal_map (s : string) : option (option obj) :=
  match Unmarshal s with
  | Some (AMap m) => Some (Some m)
  | Some ANil => Some None
  | _ => None
  end.

(** ** Documents decode *)

(** Backquotes stand for double quotes. *)
Definition jq (s : string) : string := map_str (fun c => if Ascii.eqb c "`"%char then dquote else c) s.

Example unmarshal_document :
  Unmarshal (jq " {`b`: [1, -2.5, 1e3, true], `a`: {`x`: null, `y`: `q\n\u00e9\ud83d\ude00`}, `b`: []} ") =
  Some (AMap [("a", AMap [("x", ANil);
                          ("y", AStr ("q" +s+ String (Z_byte 10) (utf8_encode 233 +s+ utf8_encode 128512)))]);
              ("b", AList [])]).
Proof. vm_compute. reflexivity. Qed.

Example unmarshal_numbers :
  map (fun s => fmt_v (default ANil (Unmarshal s))) ["0.9"; "-0"; "1e-7"; "5e-324"; "17976931348623157e292"; "123456"; "0.1"]
  = ["0.9"; "-0"; "1e-07"; "5e-324"; "1.7976931348623157e+308"; "123456"; "0.1"].
Proof. vm_compute. reflexivity. Qed.

Example unmarshal_rejects :
  map (fun s => bool_decide (is_Some (Unmarshal (jq s)))) ["01"; "1."; "{`a`:1,}"; "[1 2]"; "tru"; "1 x"; "`a"; "1e400"; ""; "{a:1}"]
  = repeat false 10.
Proof. vm_compute. reflexivity. Qed.

(** ** What is parsed is decoded *)

Lemma decoded_list l : decoded (AList l) <-> Forall decoded l.
Proof. cbn. induction l as [|x l IH]; [by split|]. rewrite Forall_cons, IH. done. Qed.

Lemma decoded_map m : decoded (AMap m) <-> Forall (fun kv => decoded kv.2) m.
Proof. cbn. induction m as [|[k x] m IH]; [by split|]. rewrite Forall_cons, IH. done. Qed.

Lemma obj_set_Forall (P : string * any -> Prop) k v m : P (k, v) -> Forall P m -> Forall P (obj_set k v m).
Proof. intros Hp. induction 1 as [|[k' v'] m Hx Hm IH]; cbn; [by constructor|]. repeat case_match; repeat constructor; done. Qed.

Lemma f64_of_decimal_finite neg m e f : f64_of_decimal neg m e = Some f -> finite f = true.
Proof. unfold f64_of_decimal. cbv zeta. repeat case_match; intros; simplify_eq; done. Qed.

Lemma parse_number_decoded s v r : parse_number s = Some (v, r) -> decoded v.
Proof.
  unfold parse_number. destruct (match s with String "-" r => _ | _ => _ end) as [neg s1]. destruct (match s1 with String "0" r => _ | _ => _ end) as [ip rest].
  destruct (ip =s ""); [done|]. destruct (match rest with String "." r => _ | _ => _ end) as [[fp rest1]|]; [|done]. cbn [mbind option_bind].
  destruct (parse_exponent rest1) as [[e rest2]|]; [|done]. cbn [mbind option_bind]. destruct (f64_of_decimal _ _ _) as [f|] eqn:E; [|done].
  cbn. intros [= <- <-]. by eapply f64_of_decimal_finite.
Qed.

Lemma literal_value w v s x r : literal w v s = Some (x, r) -> x = v.
Proof. unfold literal. by destruct (HasPrefix s w); intros [= <- _]. Qed.

Lemma parse_decoded fuel :
  (forall d s v r, parse_value fuel d s = Some (v, r) -> decoded v) /\
  (forall d m s v r, Forall (fun kv => decoded kv.2) m -> parse_members fuel d m s = Some (v, r) -> decoded v) /\
  (forall d l s v r, Forall decoded l -> parse_elements fuel d l s = Some (v, r) -> decoded v).
Proof.
  induction fuel as [|fuel (IHv & IHm & IHl)]; [done|]. split_and!.
  - intros d s v r. cbn [parse_value]. destruct (skip_ws s) as [|c rest]; [done|].
    destruct (Ascii.eqb c dquote); [destruct (parse_string _ _) as [[t after]|]; [by intros [= <- _]|done]|].
    destruct (Ascii.eqb c "{"%char).
    { destruct (_ <? _)%Z; [done|]. intros H. destruct (skip_ws rest) as [|c' after]; [by apply (IHm _ [] _ _ _ (Forall_nil_2 _)) in H|].
      repeat case_match; try (by apply (IHm _ [] _ _ _ (Forall_nil_2 _)) in H). by injection H as <- _. }
    destruct (Ascii.eqb c "["%char).
    { destruct (_ <? _)%Z; [done|]. intros H. destruct (skip_ws rest) as [|c' after]; [by apply (IHl _ [] _ _ _ (Forall_nil_2 _)) in H|].
      repeat case_match; try (by apply (IHl _ [] _ _ _ (Forall_nil_2 _)) in H). by injection H as <- _. }
    destruct (Ascii.eqb c "t"%char); [by intros ->%literal_value|]. destruct (Ascii.eqb c "f"%char); [by intros ->%literal_value|].
    destruct (Ascii.eqb c "n"%char); [by intros ->%literal_value|]. apply parse_number_decoded.
  - intros d m s v r Hm. cbn [parse_members]. destruct (skip_ws s) as [|c rest]; [done|]. destruct (Ascii.eqb c dquote); [|done].
    destruct (parse_string _ _) as [[k after]|]; [|done]. cbn [mbind option_bind]. destruct (skip_ws after) as [|c1 after1]; [done|].
    intros H. repeat (case_match; try discriminate). destruct (parse_value fuel d after1) as [[x after2]|] eqn:Ex; [|done]. cbn [mbind option_bind] in H.
    apply IHv in Ex. destruct (skip_ws after2) as [|c2 after3]; [done|].
    repeat (case_match; try discriminate);
      first [injection H as <- _; apply decoded_map; by apply obj_set_Forall
            |eapply IHm; [|exact H]; by apply obj_set_Forall].
  - intros d l s v r Hl. cbn [parse_elements]. destruct (parse_value fuel d s) as [[x after]|] eqn:Ex; [|done]. cbn [mbind option_bind].
    apply IHv in Ex. destruct (skip_ws after) as [|c after1]; [done|]. intros H.
    assert (Forall decoded (l ++ [x])) as Hx by (apply Forall_app; split; [done|by repeat constructor]).
    repeat (case_match; try discriminate);
      first [injection H as <- _; by apply decoded_list|by eapply IHl; [|exact H]].
Qed.

(** What the parser returns is a decoded value: writing and reading it again changes nothing. *)
Lemma Unmarshal_decoded s v : Unmarshal s = Some v -> decoded v.
Proof.
  unfold Unmarshal. destruct (parse_value _ _ _) as [[x rest]|] eqn:E; [|done]. cbn [mbind option_bind].
  destruct (_ =s _); [|done]. intros [= <-]. by apply (proj1 (parse_decoded _)) in E.
Qed.

Lemma Unmarshal_map_decoded s m : Unmarshal_map s = Some (Some m) -> decoded (AMap m).
Proof. unfold Unmarshal_map. destruct (Unmarshal s) as [v|] eqn:E; [|done]. apply Unmarshal_decoded in E. destruct v; try done. by intros [= <-]. Qed.

(** * Facts on JSON documents

    What reading back does to the fields of an object, and the predicates on documents
    that writing a field keeps: [decoded] values, and [jsonable] ones, which have JSON. *)
(** ** Reading back *)

(** Reading back an object reads back each of its fields. *)
Fixpoint reread_fields (m : obj) : option obj :=
  match m with
  | [] => Some []
  | (k, x) :: m' => y ← reread x; ys ← reread_fields m'; Some ((k, y) :: ys)
  end.

Lemma reread_map m : reread (AMap m) = AMap <$> reread_fields m.
Proof. reflexivity. Qed.

Lemma reread_fields_get m m' k : reread_fields m = Some m' -> obj_get m' k = (v ← obj_get m k; reread v).
Proof.
  revert m'. induction m as [|[k' x] m IH]; intros m'; cbn; [by intros [= <-]|].
  destruct (reread x) as [y|] eqn:Ey; [|done]. destruct (reread_fields m) as [ys|]; [|done]. intros [= <-]. cbn.
  destruct (k =s k'); [by cbn|]. by apply IH.
Qed.

Lemma reread_get m m' k : reread (AMap m) = Some (AMap m') -> obj_get m' k = (v ← obj_get m k; reread v).
Proof. rewrite reread_map. destruct (reread_fields m) as [ys|] eqn:E; [|done]. intros [= <-]. by apply reread_fields_get. Qed.

Lemma reread_fields_total m ys k v : reread_fields m = Some ys -> obj_get m k = Some v -> is_Some (reread v).
Proof.
  revert ys. induction m as [|[k' w] m IH]; intros ys; cbn [reread_fields obj_get]; [done|].
  destruct (reread w) eqn:Ew; [|done]. destruct (reread_fields m); [|done]. intros _. destruct (k =s k'); [|by eapply IH].
  intros [= ->]. rewrite Ew. by eexists.
Qed.

Lemma reread_get_obj m m' k x : reread (AMap m) = Some (AMap m') -> get_obj m k = Some x ->
  exists x', get_obj m' k = Some x' /\ reread (AMap x) = Some (AMap x').
Proof.
  intros Hr Hx. unfold get_obj in *. destruct (obj_get m k) as [v|] eqn:E; [|done]. cbn in Hx.
  destruct v as [| | | | | | | |y]; try discriminate. injection Hx as ->.
  assert (is_Some (reread (AMap x))) as [v Hv].
  { rewrite reread_map in Hr. destruct (reread_fields m) as [ys|] eqn:Ey; [|done]. by eapply reread_fields_total. }
  assert (obj_get m' k = Some v) as -> by (by rewrite (reread_get _ _ _ Hr), E).
  rewrite Hv. rewrite reread_map in Hv. destruct (reread_fields x) as [z|]; [|done]. injection Hv as <-. by exists z.
Qed.

Lemma reread_fields_keys m m' : reread_fields m = Some m' -> map fst m' = map fst m.
Proof.
  revert m'. induction m as [|[k v] m IH]; intros m'; cbn; [by intros [= <-]|].
  destruct (reread v); [|done]. destruct (reread_fields m) as [ys|]; [|done]. intros [= <-]. cbn. by rewrite IH.
Qed.

(** ** Predicates on documents

    A predicate that holds of an object or a list exactly when it holds of the parts,
    and of texts, flags and null. *)
Definition jsonable (v : any) : Prop := is_Some (reread v).

Class DocPred (P : any -> Prop) := {
  doc_map m : P (AMap m) <-> Forall (fun kv => P kv.2) m;
  doc_list l : P (AList l) <-> Forall P l;
  doc_str s : P (AStr s);
  doc_bool b : P (ABool b);
  doc_nil : P ANil;
  doc_decoded v : decoded v -> P v
}.

#[export] Instance decoded_doc : DocPred decoded.
Proof. split; [apply decoded_map|apply decoded_list|done|done|done|done]. Qed.

Lemma is_Some_bind2 {A B C} (x : option A) (y : option B) (f : A -> B -> C) :
  is_Some (a ← x; b ← y; Some (f a b)) <-> is_Some x /\ is_Some y.
Proof. destruct x, y; cbn; rewrite !is_Some_alt; tauto. Qed.

Lemma decoded_jsonable v : decoded v -> jsonable v.
Proof. intros H. exists v. by apply reread_decoded. Qed.

#[export] Instance jsonable_doc : DocPred jsonable.
Proof.
  split; [| |by eexists|by eexists|by eexists|exact decoded_jsonable]; unfold jsonable; cbn.
  - intros m. rewrite fmap_is_Some. induction m as [|[k x] m IH]; [split; [by constructor|by eexists]|]. by rewrite Forall_cons, <- IH, is_Some_bind2.
  - intros l. rewrite fmap_is_Some. induction l as [|x l IH]; [split; [by constructor|by eexists]|]. by rewrite Forall_cons, <- IH, is_Some_bind2.
Qed.

Section Documents.
Context {P : any -> Prop} `{DP : DocPred P}.

Lemma doc_empty : P (AMap []).
Proof. apply doc_map. constructor. Qed.

Lemma doc_get m k v : P (AMap m) -> obj_get m k = Some v -> P v.
Proof.
  rewrite doc_map. induction 1 as [|[k' x] m Hx _ IH]; [done|]. cbn. destruct (k =s k'); [by intros [= <-]|exact IH].
Qed.

Lemma doc_get_any m k : P (AMap m) -> P (get_any m k).
Proof. intros H. unfold get_any. destruct (obj_get m k) as [v|] eqn:E; [exact (doc_get _ _ _ H E)|apply doc_nil]. Qed.

Lemma doc_get_obj m k x : P (AMap m) -> get_obj m k = Some x -> P (AMap x).
Proof.
  unfold get_obj. intros H. destruct (obj_get m k) as [v|] eqn:E; [|done]. cbn. destruct v; try done. intros [= <-]. by eapply doc_get.
Qed.

Lemma doc_obj_or m k d : P (AMap m) -> P (AMap d) -> P (AMap (default d (get_obj m k))).
Proof. intros H Hd. destruct (get_obj m k) as [x|] eqn:E; [exact (doc_get_obj _ _ _ H E)|exact Hd]. Qed.

Lemma doc_set k v m : P v -> P (AMap m) -> P (AMap (obj_set k v m)).
Proof. rewrite !doc_map. intros Hv. by apply obj_set_Forall. Qed.

Lemma doc_field_value m name : P (AMap m) -> P (field m name Some ANil).
Proof.
  rewrite doc_map. unfold field. assert (forall acc, P acc -> Forall (fun kv => P kv.2) m ->
    P (foldl (fun acc kv => if EqualFold kv.1 name then default acc (Some kv.2) else acc) acc m)) as H; [|by apply H, doc_nil].
  induction m as [|[k x] m IH]; intros acc Ha; [done|]. intros [Hx Hm]%Forall_cons. cbn [foldl fst snd]. apply IH; [by destruct (EqualFold k name)|done].
Qed.
End Documents.

(** Closes [P v] for a document [v] built of parts that satisfy [P]. *)
Ltac documents :=
  repeat first
    [ assumption
    | match goal with
      | |- ?P (AMap (obj_set _ _ _)) => apply (doc_set (P := P))
      | |- ?P (AMap (default _ (get_obj _ _))) => apply (doc_obj_or (P := P))
      | |- ?P (AMap []) => apply (doc_empty (P := P))
      | |- ?P (AMap (_ :: _)) => apply (doc_map (P := P)); repeat apply List.Forall_cons; try apply List.Forall_nil; cbn [snd]
      | |- ?P (get_any _ _) => apply (doc_get_any (P := P))
      | |- ?P (AStr _) => apply (doc_str (P := P))
      | |- ?P (ABool _) => apply (doc_bool (P := P))
      | |- ?P ANil => apply (doc_nil (P := P))
      end ].

Lemma reread_obj_jsonable m : jsonable (AMap m) -> reread (AMap m) = Some (AMap (reread_obj m)).
Proof.
  intros [v Hv]. unfold reread_obj. rewrite Hv. rewrite reread_map in Hv. destruct (reread_fields m); [|done]. by injection Hv as <-.
Qed.

Lemma reread_obj_get m k : jsonable (AMap m) -> obj_get (reread_obj m) k = (v ← obj_get m k; reread v).
Proof. intros H%reread_obj_jsonable. by apply reread_get. Qed.

Lemma reread_obj_get_obj m k : jsonable (AMap m) -> get_obj (reread_obj m) k = reread_obj <$> get_obj m k.
Proof.
  intros H. unfold get_obj. rewrite reread_obj_get by done. destruct (obj_get m k) as [v|] eqn:E; [|done]. cbn [mbind option_bind].
  assert (jsonable v) as Hv by exact (doc_get (P := jsonable) _ _ _ H E). destruct v; try done; cbn [as_map fmap option_fmap option_map].
  3: by rewrite (reread_obj_jsonable _ Hv).
  all: destruct Hv as [w Hw]; cbn in Hw |- *. 1: by destruct (finite f).
  by match type of Hw with (AList <$> ?o) = _ => destruct o end.
Qed.

Lemma reread_obj_decoded m : decoded (AMap m) -> reread_obj m = m.
Proof. intros H. unfold reread_obj. by rewrite reread_decoded. Qed.

(** * Numbers from text (strconv)

    [ParseUint] and [Atoi] in base ten, [ParseFloat] with its decimal and hexadecimal
    forms, the names of the infinities and of the NaN, and underscores between digits. *)
Inductive num_error := ErrSyntax | ErrRange.

(** The text of a [*NumError]. *)
Definition NumError (fn s : string) (e : num_error) : string :=
  "strconv." +s+ fn +s+ ": parsing " +s+ Quote s +s+ ": " +s+ match e with ErrSyntax => "invalid syntax" | ErrRange => "value out of range" end.

Definition decimal_digits (s : string) : bool := (s <>s "") && negb (any_byte (fun c => negb (is_digit c)) s).

(** [strconv.ParseUint(s, 10, 64)]: the value that is returned beside an error too. *)
Definition ParseUint (s : string) : Z * option num_error :=
  if negb (decimal_digits s) then (0%Z, Some ErrSyntax)
  else if (2 ^ 64 <=? digits_Z s)%Z then ((2 ^ 64 - 1)%Z, Some ErrRange) else (digits_Z s, None).

(** [strconv.Atoi] *)
Definition Atoi (s : string) : Z + num_error :=
  let '(neg, ds) := match s with String "-"%char r => (true, r) | String "+"%char r => (false, r) | _ => (false, s) end in
  if negb (decimal_digits ds) then inr ErrSyntax
  else let z := if neg then (- digits_Z ds)%Z else digits_Z ds in if in_int64 z then inl z else inr ErrRange.

(** ** ParseFloat *)

(** The class of the last byte seen by [underscoreOK]. *)
Inductive seen := NothingSeen | DigitSeen | UnderscoreSeen | OtherSeen.

Definition hex_byte (c : ascii) : bool := match hex_digit c with Some _ => true | None => false end.

Fixpoint underscores_between (hex : bool) (saw : seen) (s : string) : bool :=
  match s with
  | "" => match saw with UnderscoreSeen => false | _ => true end
  | String c s =>
      if is_digit c || (hex && hex_byte c) then underscores_between hex DigitSeen s
      else if Ascii.eqb c "_"%char then match saw with DigitSeen => underscores_between hex UnderscoreSeen s | _ => false end
      else match saw with UnderscoreSeen => false | _ => underscores_between hex OtherSeen s end
  end.

(** [0b], [0o] or [0x]; a sign was taken off. *)
Definition underscoreOK (s : string) : bool :=
  match s with
  | String "0"%char (String x rest) =>
      let l := lower_byte x in
      if existsb (Ascii.eqb l) ["b"; "o"; "x"]%char then underscores_between (Ascii.eqb l "x"%char) DigitSeen rest
      else underscores_between false NothingSeen s
  | _ => underscores_between false NothingSeen s
  end.

(** The digits of a mantissa, with the number of them behind the point and whether there
    was a digit; a second point ends it. *)
Record mantissa := { mt_value : Z; mt_fraction : Z; mt_point : bool; mt_digits : bool }.
Definition no_mantissa : mantissa := {| mt_value := 0; mt_fraction := 0; mt_point := false; mt_digits := false |}.

Fixpoint read_mantissa (base : Z) (m : mantissa) (s : string) : mantissa * string :=
  match s with
  | "" => (m, "")
  | String c rest =>
      if Ascii.eqb c "_"%char then read_mantissa base m rest
      else if Ascii.eqb c "."%char then
        if mt_point m then (m, s)
        else read_mantissa base {| mt_value := mt_value m; mt_fraction := mt_fraction m; mt_point := true; mt_digits := mt_digits m |} rest
      else match (if (base =? 16)%Z then hex_digit c else if is_digit c then Some (digit_value c) else None) with
           | Some d => read_mantissa base {| mt_value := (mt_value m * base + d)%Z; mt_fraction := (mt_fraction m + if mt_point m then 1 else 0)%Z;
                                             mt_point := mt_point m; mt_digits := true |} rest
           | None => (m, s)
           end
  end.

(** The digits of an exponent: beyond 10000 they are skipped. *)
Fixpoint read_exponent (e : Z) (s : string) : Z * string :=
  match s with
  | "" => (e, "")
  | String c rest =>
      if Ascii.eqb c "_"%char then read_exponent e rest
      else if is_digit c then read_exponent (if (e <? 10000)%Z then e * 10 + digit_value c else e)%Z rest else (e, s)
  end.

(** The exponent after its letter: a digit must follow the sign. *)
Definition signed_exponent (s : string) : option (Z * string) :=
  let '(neg, s) := match s with String "-"%char r => (true, r) | String "+"%char r => (false, r) | _ => (false, s) end in
  match s with
  | String c _ => if is_digit c then let '(e, rest) := read_exponent 0 s in Some (if neg then (- e)%Z else e, rest) else None
  | "" => None
  end.

Definition is_letter (l : ascii) (c : ascii) : bool := Ascii.eqb (lower_byte c) l.

(** A text without its sign: the mantissa, the exponent of its base and whether the base
    is 16.  [None]: not a number. *)
Definition readFloat (s : string) : option (Z * Z * bool) :=
  let '(hex, body) := match s with
                      | String "0"%char (String x (String _ _ as rest)) => if is_letter "x"%char x then (true, rest) else (false, s)
                      | _ => (false, s)
                      end in
  let '(m, rest) := read_mantissa (if hex then 16 else 10) no_mantissa body in
  if negb (mt_digits m) then None
  else
    '(e, rest) ← match rest with
                 | String c tail => if is_letter (if hex then "p" else "e")%char c then signed_exponent tail else if hex then None else Some (0%Z, rest)
                 | "" => if hex then None else Some (0%Z, "")
                 end;
    if (rest <>s "") || (any_byte (Ascii.eqb "_"%char) s && negb (underscoreOK s)) then None
    else Some (mt_value m, (if hex then e - 4 * mt_fraction m else e - mt_fraction m)%Z, hex).

Definition f64_of_hex (neg : bool) (m e : Z) : option float64 :=
  match (if (m =? 0)%Z then S754_zero neg
         else let e := Z.min e 5000 in
              if (str_len (Itoa m) * 4 + e <? -2000)%Z then S754_zero neg else f64_scale m e) with
  | S754_infinity _ | S754_nan => None
  | S754_zero _ => Some (S754_zero neg)
  | S754_finite _ mant ex => Some (S754_finite neg mant ex)
  end.

(** [strconv.ParseFloat(s, 64)]; [None] is an error, of syntax or of range. *)
Definition ParseFloat (s : string) : option float64 :=
  if EqualFold s "nan" then Some S754_nan
  else
    let '(neg, s) := match s with String "-"%char r => (true, r) | String "+"%char r => (false, r) | _ => (false, s) end in
    if EqualFold s "inf" || EqualFold s "infinity" then Some (S754_infinity neg)
    else '(m, e, hex) ← readFloat s; if hex : bool then f64_of_hex neg m e else f64_of_decimal neg m e.

(** Inputs of the tests of the library. *)
Example parse_floats :
  map (fun s => fmt_float <$> ParseFloat s) ["45.5"; "1_23.50_0_0e+1_2"; "0x1p-2"; "1e400"; "123_.5e+12"; "-.5"; "1.5x"; "."; "+Inf"; "nan"; "0x_1F.8p1"; "1e"]
  = [Some "45.5"; Some "1.235e+14"; Some "0.25"; None; None; Some "-0.5"; None; None; Some "+Inf"; Some "NaN"; Some "63"; None].
Proof. vm_compute. reflexivity. Qed.

(** * Texts are written ([json.Marshal] of strings)

    [appendString] with the escapes of HTML, which Marshal and MarshalIndent leave on, and
    an object of texts, compact or indented.  The decoder inverts them: it reads the text
    that was written, with every byte that is not UTF-8 replaced. *)

Definition hex_char (d : Z) : ascii := Z_byte (if (d <? 10)%Z then 48 + d else 87 + d)%Z.

(** The escape of one well-formed character. *)
Definition escape_char (ch : string) : string :=
  match ch with
  | String c EmptyString =>
      if Ascii.eqb c dquote || Ascii.eqb c "\"%char then String "\"%char ch
      else if between 8 8 c then "\b" else if between 12 12 c then "\f" else if between 10 10 c then "\n"
      else if between 13 13 c then "\r" else if between 9 9 c then "\t"
      else if between 0 31 c || any_byte (Ascii.eqb c) "<>&"
      then "\u00" +s+ String (hex_char (byte_Z c / 16)) (String (hex_char (byte_Z c mod 16)) EmptyString)
      else ch
  | _ => if ch =s utf8_encode 8232 then "\u2028" else if ch =s utf8_encode 8233 then "\u2029" else ch
  end.

(** A string as its well-formed characters; [None]: a byte that belongs to none. *)
Fixpoint characters (fuel : nat) (s : string) : list (option string) :=
  match fuel, s with
  | S fuel, String _ rest =>
      let n := utf8_len s in
      if (n =? 0)%nat then None :: characters fuel rest else Some (str_take n s) :: characters fuel (str_drop n s)
  | _, _ => []
  end.

Definition written_char (ch : option string) : string := match ch with Some ch => escape_char ch | None => "\ufffd" end.
Definition read_char (ch : option string) : string := match ch with Some ch => ch | None => rune_error end.

Definition characters_of (s : string) : list (option string) := characters (String.length s) s.
Definition json_body (s : string) : string := Join (map written_char (characters_of s)) "".
Definition json_string (s : string) : string := String dquote (json_body s +s+ String dquote EmptyString).

(** [strings.ToValidUTF8] with the replacement character, byte by byte. *)
Definition valid_text (s : string) : string := Join (map read_char (characters_of s)) "".

(** How an object is laid out: before each field, before the value, before the brace. *)
Record layout := { ly_field : string; ly_value : string; ly_end : string }.
Definition compact : layout := {| ly_field := ""; ly_value := ""; ly_end := "" |}.
Definition indented : layout := {| ly_field := String newline "  "; ly_value := " "; ly_end := String newline "" |}.

Definition json_texts (ly : layout) (m : list (string * string)) : string :=
  "{" +s+ Join (map (fun kv => ly_field ly +s+ json_string kv.1 +s+ ":" +s+ ly_value ly +s+ json_string kv.2) m) ","
  +s+ ly_end ly +s+ "}".

Example indented_texts :
  json_texts indented [("node_id", "node-1"); ("hostname", String dquote "<a>")]
  = ("{" +s+ String newline (jq "  `node_id`: `node-1`," +s+ String newline (jq "  `hostname`: `\`\u003ca\u003e`" +s+ String newline "}"))).
Proof. vm_compute. reflexivity. Qed.

Example bad_byte_is_replaced :
  Unmarshal (json_string ("a" +s+ String (Z_byte 233) "b")) = Some (AStr ("a" +s+ rune_error +s+ "b")).
Proof. vm_compute. reflexivity. Qed.

(** ** The decoder inverts the writer *)

Lemma Join_nil_cons x l : Join (x :: l) "" = (x +s+ Join l "")%go.
Proof. destruct l; cbn [Join]; [by rewrite sapp_nil_r|done]. Qed.

Lemma utf8_len_le s : utf8_len s <= String.length s.
Proof. unfold utf8_len. repeat case_match; cbn; lia. Qed.

(** A well-formed character is one whatever follows it. *)
Lemma utf8_len_app s t : utf8_len s <> 0 -> utf8_len (str_take (utf8_len s) s +s+ t) = utf8_len s.
Proof.
  destruct s as [|a s1]; [done|]. cbn [utf8_len]. destruct (between 0 127 a) eqn:Ea; [intros _; cbn; by rewrite Ea|].
  destruct s1 as [|b s2]; [done|]. destruct (between 194 223 a) eqn:E2.
  { destruct (between 128 191 b) eqn:Eb; [|done]. intros _. cbn. by rewrite Ea, E2, Eb. }
  destruct s2 as [|c s3]; [done|]. destruct (between 224 239 a) eqn:E3.
  { destruct (_ && between 128 191 c) eqn:Ec; [|done]. intros _. cbn. by rewrite Ea, E2, E3, Ec. }
  destruct s3 as [|d s4]; [done|]. destruct (_ && between 128 191 d) eqn:Ed; [|done]. intros _. cbn. by rewrite Ea, E2, E3, Ed.
Qed.

Definition ascii_char (c : ascii) : Prop := forall fuel t,
  parse_string (S fuel) (escape_char (String c "") +s+ t) = ('(tail, after) ← parse_string fuel t; Some (String c tail, after)).

(** The characters of one byte, one by one. *)
Lemma parse_ascii c : between 0 127 c = true -> ascii_char c.
Proof.
  destruct c as [[] [] [] [] [] [] [] []]; try done; intros _ fuel t; cbn; by destruct (parse_string fuel t) as [[]|].
Qed.

Lemma parse_multibyte fuel s t : 1 < utf8_len s ->
  parse_string (S fuel) (str_take (utf8_len s) s +s+ t)
  = ('(tail, after) ← parse_string fuel t; Some ((str_take (utf8_len s) s +s+ tail)%go, after)).
Proof.
  intros Hn. pose proof (utf8_len_app s t ltac:(lia)) as Hl. pose proof (utf8_len_le s) as Hle.
  set (ch := str_take (utf8_len s) s) in *. assert (String.length ch = utf8_len s) as Hch by by apply str_take_length.
  assert (exists a rest, ch = String a rest /\ between 0 127 a = false) as (a & rest & Ea & Hhigh).
  { destruct s as [|a s1]; [cbn in Hn; lia|]. unfold ch. destruct (utf8_len (String a s1)) as [|n] eqn:En; [lia|]. exists a, (str_take n s1).
    split; [done|]. destruct (between 0 127 a) eqn:E; [|done]. cbn in En. rewrite E in En. lia. }
  assert (Ascii.eqb a dquote = false /\ Ascii.eqb a "\"%char = false /\ between 0 31 a = false) as (Hd & Hb & Hc).
  { split_and!; apply not_true_iff_false; [intros E%Ascii.eqb_eq; rewrite E in Hhigh; by vm_compute in Hhigh..|].
    unfold between in *. lia. }
  rewrite Ea at 1. cbn [String.append parse_string]. rewrite Hd, Hc, Hb.
  change (String a (rest +s+ t)) with (String a rest +s+ t)%go. rewrite <- Ea, Hl.
  destruct (Nat.eqb_spec (utf8_len s) 0) as [|_]; [lia|]. by rewrite <- Hch, str_take_app, str_drop_app.
Qed.

Lemma parse_line_separators fuel t ch : ch = utf8_encode 8232 \/ ch = utf8_encode 8233 ->
  parse_string (S fuel) (escape_char ch +s+ t) = ('(tail, after) ← parse_string fuel t; Some ((ch +s+ tail)%go, after)).
Proof. intros [-> | ->]; reflexivity. Qed.

Lemma parse_bad_byte fuel t :
  parse_string (S fuel) ("\ufffd" +s+ t) = ('(tail, after) ← parse_string fuel t; Some ((rune_error +s+ tail)%go, after)).
Proof. reflexivity. Qed.

(** One written character is read back. *)
Lemma parse_character fuel s t : utf8_len s <> 0 -> 
  parse_string (S fuel) (escape_char (str_take (utf8_len s) s) +s+ t)
  = ('(tail, after) ← parse_string fuel t; Some ((str_take (utf8_len s) s +s+ tail)%go, after)).
Proof.
  intros Hn. destruct (decide (utf8_len s = 1)) as [H1|H1].
  - rewrite H1. destruct s as [|a s1]; [done|]. cbn [str_take]. change (str_take 0 s1) with (match s1 with _ => EmptyString end).
    destruct s1; apply parse_ascii; cbn in H1; repeat (case_match; try done).
  - pose proof (parse_multibyte fuel s t ltac:(lia)) as Hp. pose proof (utf8_len_le s) as Hle.
    pose proof (str_take_length _ _ Hle) as Hl. destruct (str_take (utf8_len s) s) as [|a [|b ch]] eqn:E; cbn in Hl; [lia..|].
    destruct (decide (String a (String b ch) = utf8_encode 8232 \/ String a (String b ch) = utf8_encode 8233)) as [Hs|Hs];
      [by apply parse_line_separators|].
    assert (escape_char (String a (String b ch)) = String a (String b ch)) as ->; [|exact Hp].
    unfold escape_char. rewrite !(proj2 (String.eqb_neq _ _)) by tauto. done.
Qed.

Lemma escape_nonempty ch : ch <> "" -> 1 <= String.length (escape_char ch).
Proof. destruct ch as [|a [|b ch]]; [done| |]; intros _; unfold escape_char; repeat case_match; cbn; lia. Qed.

(** Any string is read back with its bad bytes replaced. *)
Lemma parse_written n s fuel rest :
  String.length s <= n -> String.length (Join (map written_char (characters n s)) "") < fuel ->
  parse_string fuel (Join (map written_char (characters n s)) "" +s+ String dquote rest)
  = Some (Join (map read_char (characters n s)) "", rest).
Proof.
  revert s fuel. induction n as [|n IH]; intros s fuel Hs Hf.
  { destruct s; cbn in Hs; [|lia]. cbn. destruct fuel; [cbn in Hf; lia|]. done. }
  destruct s as [|c s1]; [by destruct fuel; [cbn in Hf; lia|]|]. cbn [characters] in *.
  destruct (utf8_len (String c s1) =? 0)%nat eqn:En; cbn [map] in *; rewrite !Join_nil_cons in *; rewrite sapp_length in Hf; rewrite sapp_assoc.
  - cbn [written_char read_char default] in *. change (String.length "\ufffd") with 6 in Hf. destruct fuel as [|fuel]; [lia|].
    rewrite parse_bad_byte, IH by (cbn in *; lia). done.
  - apply Nat.eqb_neq in En. cbn [written_char read_char default] in *.
    pose proof (utf8_len_le (String c s1)) as Hle. pose proof (str_take_length _ _ Hle) as Hl.
    pose proof (escape_nonempty (str_take (utf8_len (String c s1)) (String c s1))) as He.
    assert (str_take (utf8_len (String c s1)) (String c s1) <> "") as Hne by (intros E; rewrite E in Hl; cbn [String.length] in Hl; lia).
    specialize (He Hne). destruct fuel as [|fuel]; [lia|].
    rewrite parse_character by done. rewrite IH; [done| |lia]. rewrite str_drop_length. lia.
Qed.

Lemma parse_json_body s fuel rest : String.length (json_body s) < fuel ->
  parse_string fuel (json_body s +s+ String dquote rest) = Some (valid_text s, rest).
Proof. intros H. by apply parse_written. Qed.

(** A layout of white space. *)
Definition blank (w : string) : Prop := any_byte (fun c => negb (json_space c)) w = false.
Definition spaced (ly : layout) : Prop := blank (ly_field ly) /\ blank (ly_value ly) /\ blank (ly_end ly).

Lemma skip_blank w t : blank w -> skip_ws (w +s+ t) = skip_ws t.
Proof.
  unfold blank, skip_ws. induction w as [|c w IH]; cbn; [done|]. destruct (json_space c); [by apply IH|done].
Qed.

Definition json_field (ly : layout) (kv : string * string) : string :=
  ly_field ly +s+ json_string kv.1 +s+ ":" +s+ ly_value ly +s+ json_string kv.2.

Definition read_texts (m : list (string * string)) (o : obj) : obj :=
  foldl (fun o kv => obj_set (valid_text kv.1) (AStr (valid_text kv.2)) o) o m.

Lemma skip_json_string s t : skip_ws (json_string s +s+ t) = (json_string s +s+ t)%go.
Proof. reflexivity. Qed.

Lemma json_string_app s t : (json_string s +s+ t)%go = String dquote (json_body s +s+ String dquote t).
Proof. unfold json_string. cbn [String.append]. by rewrite sapp_assoc. Qed.

Lemma parse_json_text fuel d s t w : blank w ->
  parse_value (S fuel) d (w +s+ json_string s +s+ t) = Some (AStr (valid_text s), t).
Proof.
  intros Hw. cbn [parse_value]. rewrite (skip_blank _ _ Hw), skip_json_string, json_string_app.
  change (Ascii.eqb dquote dquote) with true. cbn iota. rewrite parse_json_body; [reflexivity|].
  rewrite sapp_length. cbn. lia.
Qed.

(** A field, with what follows it. *)
Lemma parse_field fuel d o ly kv t : spaced ly ->
  parse_members (S (S fuel)) d o (json_field ly kv +s+ t)
  = match skip_ws t with
    | String "}"%char after => Some (AMap (obj_set (valid_text kv.1) (AStr (valid_text kv.2)) o), after)
    | String ","%char after => parse_members (S fuel) d (obj_set (valid_text kv.1) (AStr (valid_text kv.2)) o) after
    | _ => None
    end.
Proof.
  intros (Hf & Hv & _). unfold json_field. rewrite !sapp_assoc. cbn [parse_members].
  rewrite (skip_blank _ _ Hf), skip_json_string, json_string_app. change (Ascii.eqb dquote dquote) with true. cbn iota.
  rewrite parse_json_body by (rewrite sapp_length; cbn; lia). cbn [mbind option_bind].
  change (skip_ws (":" +s+ ?x)) with (String ":"%char x). cbn iota.
  change (skip_ws (":" +s+ ly_value ly +s+ json_string kv.2 +s+ t)) with (":" +s+ ly_value ly +s+ json_string kv.2 +s+ t).
  cbn [String.append]. cbn iota. rewrite (parse_json_text fuel d kv.2 t _ Hv). done.
Qed.

Lemma parse_fields ly m : spaced ly -> m <> [] -> forall fuel d o rest, length m < fuel ->
  parse_members fuel d o (Join (map (json_field ly) m) "," +s+ ly_end ly +s+ String "}"%char rest) = Some (AMap (read_texts m o), rest).
Proof.
  intros Hly. pose proof Hly as (_ & _ & He). induction m as [|kv m IH]; [done|]. intros _ fuel d o rest Hf. cbn [length] in Hf.
  destruct fuel as [|[|fuel]]; [lia..|]. cbn [map]. destruct m as [|kv' m].
  - cbn [map Join]. rewrite parse_field by done. rewrite (skip_blank _ _ He). done.
  - change (Join (json_field ly kv :: map (json_field ly) (kv' :: m)) ",")
      with (json_field ly kv +s+ "," +s+ Join (map (json_field ly) (kv' :: m)) ",")%go.
    rewrite !sapp_assoc, parse_field by done. cbn [skip_ws]. apply (IH ltac:(done) (S fuel)). cbn in *. lia.
Qed.

Lemma json_texts_app ly m t : (json_texts ly m +s+ t = String "{"%char (Join (map (json_field ly) m) "," +s+ ly_end ly +s+ String "}"%char t))%go.
Proof. unfold json_texts. rewrite !sapp_assoc. done. Qed.

Lemma json_texts_spaces : spaced compact /\ spaced indented.
Proof. by split. Qed.

Lemma json_fields_length ly m t : length m <= String.length (Join (map (json_field ly) m) "," +s+ t).
Proof.
  rewrite sapp_length. enough (length m <= String.length (Join (map (json_field ly) m) ",")) by lia.
  assert (forall kv, 1 <= String.length (json_field ly kv)) as Hf.
  { intros kv. unfold json_field. rewrite !sapp_length. unfold json_string. cbn. lia. }
  induction m as [|kv [|kv' m] IH]; [done|cbn; apply Hf|]. cbn [map Join] in *. rewrite !sapp_length in *. specialize (Hf kv). cbn [length] in *. lia.
Qed.

(** Writing an object of texts and reading it, whatever white space follows. *)
Lemma Unmarshal_texts ly m w : spaced ly -> m <> [] -> blank w ->
  Unmarshal (json_texts ly m +s+ w) = Some (AMap (read_texts m [])).
Proof.
  intros Hly Hm Hw. unfold Unmarshal. rewrite json_texts_app.
  set (body := (Join (map (json_field ly) m) "," +s+ ly_end ly +s+ String "}" w)%go).
  pose proof (json_fields_length ly m (ly_end ly +s+ String "}" w)) as Hlen. fold body in Hlen.
  set (fuel := 2 * String.length (String "{" body) + 2). cbn [String.length] in fuel.
  assert (exists k, fuel = S k /\ length m < k) as (k & -> & Hk) by (exists (2 * S (String.length body) + 1); subst fuel; lia).
  assert (parse_value (S k) 0 (String "{" body) = parse_members k 1 [] body) as ->.
  { cbn [parse_value]. change (skip_ws (String "{" body)) with (String "{"%char body). cbn iota.
    change (max_depth <? 0 + 1)%Z with false. change (0 + 1)%Z with 1%Z. cbn -[parse_members skip_ws].
    assert (exists r, skip_ws body = String dquote r) as [r ->]; [|done].
    unfold body. destruct m as [|kv [|kv' m']]; [done|..]; cbn [map Join]; unfold json_field at 1; rewrite !sapp_assoc, (skip_blank _ _ (proj1 Hly)), skip_json_string, json_string_app; by eexists. }
  unfold body. rewrite parse_fields by done. cbn [mbind option_bind].
  replace (skip_ws w) with ""; [done|]. pose proof (skip_blank w "" Hw) as Hs. by rewrite sapp_nil_r in Hs.
Qed.

(** ** Valid texts *)

Definition well_formed (ch : string) : Prop := ch <> "" /\ utf8_len ch = String.length ch.

Lemma characters_cons n ch t : well_formed ch -> characters (S n) (ch +s+ t) = Some ch :: characters n t.
Proof.
  intros [Hne Hl]. destruct ch as [|c ch]; [done|]. cbn [String.append characters]. change (String c (ch +s+ t)) with (String c ch +s+ t)%go.
  assert (utf8_len (String c ch +s+ t) = String.length (String c ch)) as ->.
  { pose proof (str_take_app (String c ch) "") as Ht. rewrite sapp_nil_r, <- Hl in Ht.
    rewrite <- Hl, <- (utf8_len_app (String c ch) t) by (by rewrite Hl). by rewrite Ht. }
  cbn [String.length Nat.eqb]. change (S (String.length ch)) with (String.length (String c ch)). by rewrite str_take_app, str_drop_app.
Qed.

Lemma characters_join n l : Forall well_formed l -> String.length (Join l "") <= n -> characters n (Join l "") = map Some l.
Proof.
  intros Hl. revert n. induction Hl as [|ch l Hch _ IH]; intros n Hn; [by destruct n|]. rewrite Join_nil_cons in *. rewrite sapp_length in Hn.
  destruct Hch as [Hne Hw]. destruct n as [|n]; [destruct ch; cbn in Hn; [done|lia]|].
  rewrite characters_cons by done. rewrite IH; [done|]. destruct ch; cbn in Hn; [done|lia].
Qed.

Lemma read_chars_well_formed n s : Forall well_formed (map read_char (characters n s)).
Proof.
  revert s. induction n as [|n IH]; intros [|c s]; [done..|]. cbn [characters]. destruct (_ =? 0)%nat eqn:E; constructor; try apply IH; [by split|].
  apply Nat.eqb_neq in E. cbn [read_char default]. pose proof (utf8_len_le (String c s)) as Hle. pose proof (str_take_length _ _ Hle) as Hl.
  split; [intros Hn; rewrite Hn in Hl; cbn [String.length] in Hl; lia|].
  pose proof (utf8_len_app (String c s) "" E) as Ha. rewrite sapp_nil_r in Ha. by rewrite Ha.
Qed.

(** What was read once is read unchanged. *)
Lemma valid_text_idem s : valid_text (valid_text s) = valid_text s.
Proof.
  unfold valid_text at 1, characters_of. rewrite (characters_join _ (map read_char (characters_of s))); [|apply read_chars_well_formed|done].
  rewrite map_map. by rewrite map_id.
Qed.

Lemma valid_text_ascii s : any_byte (fun c => negb (between 0 127 c)) s = false -> valid_text s = s.
Proof.
  unfold valid_text, characters_of. induction s as [|c s IH]; [done|]. cbn [any_byte]. intros [Hc Hs]%orb_false_iff. apply negb_false_iff in Hc.
  cbn [String.length characters utf8_len]. rewrite Hc. cbn [Nat.eqb map]. rewrite Join_nil_cons. cbn [read_char default str_take str_drop String.append].
  by rewrite IH.
Qed.

Lemma valid_text_nil s : valid_text s = "" <-> s = "".
Proof.
  split; [|by intros ->]. destruct s as [|c s]; [done|]. intros H. pose proof (read_chars_well_formed (String.length (String c s)) (String c s)) as Hw.
  unfold valid_text, characters_of in H. cbn [String.length characters] in *. destruct (_ =? 0)%nat; cbn [map] in *; rewrite Join_nil_cons in H;
    apply sapp_nil_inv in H as [H _]; apply Forall_cons in Hw as [[Hw _] _]; by destruct Hw.
Qed.
