(* ===== verification/RuntimeContract.v ===== *)
(** * The runtime contract vocabulary (internal/runtimecontract)

    The canonical identifiers for formats, tasks, capabilities, path modes,
    capability sources, test modes and serving protocols, the validity tests
    and the list accessors; then the compatibility of a model with a backend
    (internal/server/runplan/compat.go). *)
From S2P Require Import Prelude GoStrings.

(** ** Constants *)

Definition FormatHuggingFace := "huggingface".
Definition FormatSentenceTransformers := "sentence_transformers".
Definition FormatGGUF := "gguf".
Definition FormatLoRAAdapter := "lora_adapter".
Definition FormatDiffusers := "diffusers".
Definition FormatONNX := "onnx".
Definition FormatTensorRT := "tensorrt_engine".
Definition FormatOpenVINO := "openvino".
Definition FormatOllama := "ollama".

Definition TaskChat := "chat".
Definition TaskCompletion := "completion".
Definition TaskEmbedding := "embedding".
Definition TaskRerank := "rerank".
Definition TaskVisionChat := "vision_chat".
Definition TaskAdapter := "adapter".
Definition TaskUnknown := "unknown".
Definition TaskImageGeneration := "image_generation".
Definition TaskASR := "asr".
Definition TaskTTS := "tts".
Definition TaskClassification := "classification".

Definition CapabilityChat := "chat".
Definition CapabilityCompletion := "completion".
Definition CapabilityEmbedding := "embedding".
Definition CapabilityRerank := "rerank".
Definition CapabilityVision := "vision".
Definition CapabilityImageGeneration := "image_generation".
Definition CapabilityASR := "asr".
Definition CapabilityTTS := "tts".
Definition CapabilityClassification := "classification".
Definition CapabilityToolCalling := "tool_calling".
Definition CapabilityStructuredOutput := "structured_output".

Definition PathModeDirectory := "directory".
Definition PathModeFile := "file".
Definition PathModeOllamaManaged := "ollama_managed".

Definition CapabilitySourceScan := "scan".
Definition CapabilitySourceInferred := "inferred".
Definition CapabilitySourceUserOverride := "user_override".
Definition CapabilitySourceBackendProbe := "backend_probe".

Definition TestModeAuto := "auto".
Definition TestModeChat := "chat".
Definition TestModeCompletion := "completion".
Definition TestModeEmbedding := "embedding".
Definition TestModeRerank := "rerank".

Definition ServingProtocolOpenAICompatible := "openai-compatible".
Definition ServingProtocolOllama := "ollama".

Definition CompatCodeOK := "ok".
Definition CompatCodeFormatMismatch := "format_mismatch".
Definition CompatCodeTaskMismatch := "task_mismatch".
Definition CompatCodePathModeMismatch := "path_mode_mismatch".
Definition CompatCodeArchitectureBlocked := "architecture_blocked".
Definition CompatCodeNotDeployable := "not_deployable".
Definition CompatCodeBackendCapabilityMissing := "backend_capability_missing".

(** ** Validity tests

    [switch s { case c1, ..., cn: return true; default: return false }] *)

Definition case_of (s : string) (cases : list string) : bool := existsb (String.eqb s) cases.

Definition IsValidFormat (s : string) : bool :=
  case_of s [FormatHuggingFace; FormatSentenceTransformers; FormatGGUF; FormatLoRAAdapter;
             FormatDiffusers; FormatONNX; FormatTensorRT; FormatOpenVINO; FormatOllama].

Definition IsValidTask (s : string) : bool :=
  case_of s [TaskChat; TaskCompletion; TaskEmbedding; TaskRerank; TaskVisionChat;
             TaskAdapter; TaskUnknown; TaskImageGeneration; TaskASR; TaskTTS; TaskClassification].

Definition IsValidCapability (s : string) : bool :=
  case_of s [CapabilityChat; CapabilityCompletion; CapabilityEmbedding; CapabilityRerank;
             CapabilityVision; CapabilityImageGeneration; CapabilityASR; CapabilityTTS;
             CapabilityClassification; CapabilityToolCalling; CapabilityStructuredOutput].

Definition IsValidPathMode (s : string) : bool :=
  case_of s [PathModeDirectory; PathModeFile; PathModeOllamaManaged].

Definition IsValidCapabilitySource (s : string) : bool :=
  case_of s [CapabilitySourceScan; CapabilitySourceInferred;
             CapabilitySourceUserOverride; CapabilitySourceBackendProbe].

Definition IsValidTestMode (s : string) : bool :=
  case_of s [TestModeAuto; TestModeChat; TestModeCompletion; TestModeEmbedding; TestModeRerank].

Definition IsValidServingProtocol (s : string) : bool :=
  case_of s [ServingProtocolOpenAICompatible; ServingProtocolOllama].

(** ** List accessors *)

Definition AllFormats : list string :=
  [FormatGGUF; FormatHuggingFace; FormatSentenceTransformers;
   FormatLoRAAdapter; FormatDiffusers; FormatONNX;
   FormatTensorRT; FormatOpenVINO; FormatOllama].

Definition AllTasks : list string :=
  [TaskChat; TaskCompletion; TaskEmbedding; TaskRerank;
   TaskVisionChat; TaskAdapter; TaskUnknown;
   TaskImageGeneration; TaskASR; TaskTTS; TaskClassification].

Definition AllCapabilities : list string :=
  [CapabilityChat; CapabilityCompletion; CapabilityEmbedding;
   CapabilityRerank; CapabilityVision; CapabilityImageGeneration;
   CapabilityASR; CapabilityTTS; CapabilityClassification;
   CapabilityToolCalling; CapabilityStructuredOutput].

Definition AllPathModes : list string := [PathModeDirectory; PathModeFile; PathModeOllamaManaged].

Definition AllCapabilitySources : list string :=
  [CapabilitySourceScan; CapabilitySourceInferred;
   CapabilitySourceUserOverride; CapabilitySourceBackendProbe].

Definition AllTestModes : list string :=
  [TestModeAuto; TestModeChat; TestModeCompletion; TestModeEmbedding; TestModeRerank].

Definition AllServingProtocols : list string := [ServingProtocolOpenAICompatible; ServingProtocolOllama].

(** The codes a compatibility check may answer. *)
Definition CompatCodes : list string :=
  [CompatCodeOK; CompatCodeFormatMismatch; CompatCodeTaskMismatch; CompatCodePathModeMismatch;
   CompatCodeArchitectureBlocked; CompatCodeNotDeployable; CompatCodeBackendCapabilityMissing].

(** ** The vocabulary is closed *)

(** A validity test and a list accessor agree, and the accessor lists no
    identifier twice. *)
Definition vocabulary (valid : string -> bool) (all : list string) : Prop :=
  NoDup all /\ forall s, valid s = true <-> s ∈ all.

Lemma vocabulary_perm cases all :
  bool_decide (NoDup all) = true -> bool_decide (cases ≡ₚ all) = true ->
  vocabulary (fun s => case_of s cases) all.
Proof.
  intros Hnd%bool_decide_eq_true Hp%bool_decide_eq_true. split; [done|].
  intros s. unfold case_of. by rewrite existsb_eqb_In, Hp.
Qed.

(** Every validity test of the contract accepts exactly the identifiers its
    list accessor returns, and no accessor lists an identifier twice. *)
Theorem vocabularies_closed :
  vocabulary IsValidFormat AllFormats /\
  vocabulary IsValidTask AllTasks /\
  vocabulary IsValidCapability AllCapabilities /\
  vocabulary IsValidPathMode AllPathModes /\
  vocabulary IsValidCapabilitySource AllCapabilitySources /\
  vocabulary IsValidTestMode AllTestModes /\
  vocabulary IsValidServingProtocol AllServingProtocols.
Proof.
  repeat match goal with |- _ /\ _ => split end; apply vocabulary_perm; vm_compute; reflexivity.
Qed.

(** * Model/backend compatibility (internal/server/runplan/compat.go) *)
Record ModelDescriptor := {
  md_Format : string;
  md_Task : string;
  md_Deployable : bool;
  md_PathType : string;
  md_Architecture : string
}.

(** [TestEndpoints] is carried along only; it is not read by the check. *)
Record BackendDescriptor := {
  bd_BackendName : string;
  bd_SupportedFormats : list string;
  bd_SupportedTasks : list string;
  bd_SupportedCapabilities : list string;
  bd_ModelPathModes : list string;
  bd_ServingProtocols : list string;
  bd_BlockedArchitectures : gmap string string
}.

Record CompatResult := { cr_Compatible : bool; cr_Code : string; cr_Reason : string }.

(** ** Messages *)

Definition formatMismatchMsg (format backend : string) : string :=
  if (format =s "gguf") && ((backend =s "vllm") || (backend =s "sglang")) then
    "模型为 GGUF 文件，vLLM/SGLang 不支持。请使用 llama.cpp。"
  else if (format =s "huggingface") && (backend =s "llamacpp") then
    "模型为 HuggingFace 目录，llama.cpp 不支持。请使用 vLLM 或 SGLang。"
  else if (format =s "sentence_transformers") && (backend =s "llamacpp") then
    "模型为 SentenceTransformers/Embedding 格式，llama.cpp 不支持。请使用 vLLM 或 SGLang。"
  else if format =s "lora_adapter" then
    "这是 LoRA/Adapter，需要选择基础模型后使用，不能作为独立模型直接部署。"
  else "模型格式 " +s+ format +s+ " 与后端 " +s+ backend +s+ " 不兼容。".

(** The loop that joins the allowed modes with a comma. *)
Fixpoint allow_loop (i : nat) (allowed : list string) (acc : string) : string :=
  match allowed with
  | [] => acc
  | m :: rest => allow_loop (S i) rest ((if (0 <? i)%nat then acc +s+ ", " else acc) +s+ m)
  end.

Definition pathModeMismatchMsg (pathType backend : string) (allowed : list string) : string :=
  "模型路径类型为 " +s+ pathType +s+ "，但后端 " +s+ backend +s+ " 需要 "
  +s+ allow_loop 0 allowed EmptyString +s+ " 路径。".

Definition taskMismatchMsg (task backend : string) : string :=
  "模型任务为 " +s+ task +s+ "，但当前后端 " +s+ backend +s+ " 未声明 " +s+ task +s+ " 支持。".

(** ** The check *)

Definition incompatible (code reason : string) : CompatResult :=
  {| cr_Compatible := false; cr_Code := code; cr_Reason := reason |}.

Definition CheckCompatibility (model : ModelDescriptor) (backend : BackendDescriptor) : CompatResult :=
  (* 1. backend capability must be declared *)
  if (length (bd_SupportedFormats backend) =? 0)%nat then
    incompatible "backend_capability_missing" "后端能力未声明，无法确认该模型是否可运行。"
  (* 2. deployable *)
  else if negb (md_Deployable model) then
    incompatible "not_deployable" "该模型不能独立部署。"
  (* 3. format *)
  else if negb (existsb (String.eqb (md_Format model)) (bd_SupportedFormats backend)) then
    incompatible "format_mismatch" (formatMismatchMsg (md_Format model) (bd_BackendName backend))
  (* 4. path mode *)
  else if negb (existsb (String.eqb (md_PathType model)) (bd_ModelPathModes backend)) then
    incompatible "path_mode_mismatch"
      (pathModeMismatchMsg (md_PathType model) (bd_BackendName backend) (bd_ModelPathModes backend))
  else
    (* 5. blocked architectures *)
    match bd_BlockedArchitectures backend !! md_Architecture model with
    | Some reason => incompatible "architecture_blocked" reason
    | None =>
        (* 6. task *)
        if negb (existsb (String.eqb (md_Task model)) (bd_SupportedTasks backend)) then
          incompatible "task_mismatch" (taskMismatchMsg (md_Task model) (bd_BackendName backend))
        else {| cr_Compatible := true; cr_Code := "ok"; cr_Reason := EmptyString |}
    end.

(** ** Specification

    What a compatible pair satisfies, one clause per refusal code, in the order
    in which the refusals take precedence. *)
Definition requirements (model : ModelDescriptor) (backend : BackendDescriptor) : list (string * Prop) :=
  [ (CompatCodeBackendCapabilityMissing, bd_SupportedFormats backend <> []);
    (CompatCodeNotDeployable, md_Deployable model = true);
    (CompatCodeFormatMismatch, md_Format model ∈ bd_SupportedFormats backend);
    (CompatCodePathModeMismatch, md_PathType model ∈ bd_ModelPathModes backend);
    (CompatCodeArchitectureBlocked, bd_BlockedArchitectures backend !! md_Architecture model = None);
    (CompatCodeTaskMismatch, md_Task model ∈ bd_SupportedTasks backend) ].

(** [code] names the first requirement that fails, or is [ok] when none does. *)
Inductive first_failure : list (string * Prop) -> string -> Prop :=
| ff_ok : first_failure [] CompatCodeOK
| ff_here code (P : Prop) rest : ~ P -> first_failure ((code, P) :: rest) code
| ff_later code0 (P : Prop) rest code :
    P -> first_failure rest code -> first_failure ((code0, P) :: rest) code.

#[export] Hint Constructors first_failure : go.

Lemma existsb_negb_elem s l :
  negb (existsb (String.eqb s) l) = false -> s ∈ l.
Proof. intros H%negb_false_iff. by apply existsb_eqb_In. Qed.

Lemma existsb_negb_notelem s l :
  negb (existsb (String.eqb s) l) = true -> s ∉ l.
Proof. intros H%negb_true_iff. by apply existsb_eqb_notIn. Qed.

(** The loop of [pathModeMismatchMsg] is a join. *)
Lemma allow_loop_Join l : allow_loop 0 l EmptyString = Join l ", ".
Proof.
  assert (forall l i acc, allow_loop (S i) l acc
    = match l with [] => acc | _ => acc +s+ ", " +s+ Join l ", " end) as H.
  { clear l. induction l as [|w l IH]; intros i acc; cbn [allow_loop Nat.ltb Nat.leb]; [done|].
    rewrite IH. destruct l; [by rewrite sapp_assoc|].
    rewrite (Join_cons w) by done. by rewrite !sapp_assoc. }
  destruct l as [|w l]; cbn [allow_loop Nat.ltb Nat.leb]; [done|]. rewrite H.
  destruct l; [done|]. by rewrite (Join_cons w).
Qed.

(** One branch of the check: the clauses of the theorem below for it. *)
Ltac branch_done :=
  split_and!; cbn; [by auto 10 with go|done| |set_solver|done];
  split; [done|]; rewrite !Forall_cons; naive_solver.

(** The check answers with the first unmet requirement in the order
    capability, deployable, format, path mode, architecture, task; it answers
    [ok] exactly when all six hold, and only then is the pair compatible (with
    an empty reason). *)
Theorem CheckCompatibility_first_failure (m : ModelDescriptor) (b : BackendDescriptor) :
  let r := CheckCompatibility m b in
  first_failure (requirements m b) (cr_Code r) /\
  (cr_Compatible r = true <-> cr_Code r = CompatCodeOK) /\
  (cr_Compatible r = true <-> Forall snd (requirements m b)) /\
  cr_Code r ∈ CompatCodes /\
  (cr_Compatible r = true -> cr_Reason r = EmptyString).
Proof.
  unfold CheckCompatibility, requirements.
  destruct (bd_SupportedFormats b) as [|f fs] eqn:Ef; cbn [length Nat.eqb]; [branch_done|].
  rewrite <- Ef in *. assert (bd_SupportedFormats b <> []) by congruence. clear Ef.
  destruct (md_Deployable m); cbn [negb]; [|branch_done].
  destruct (negb _) eqn:E1; [apply existsb_negb_notelem in E1; branch_done|].
  apply existsb_negb_elem in E1.
  destruct (negb _) eqn:E2; [apply existsb_negb_notelem in E2; branch_done|].
  apply existsb_negb_elem in E2.
  destruct (bd_BlockedArchitectures b !! md_Architecture m) as [why|] eqn:E3.
  { assert (~ bd_BlockedArchitectures b !! md_Architecture m = None) by congruence. branch_done. }
  destruct (negb _) eqn:E4; [apply existsb_negb_notelem in E4; branch_done|].
  apply existsb_negb_elem in E4.
  split_and!; cbn; [by auto 10 with go|done| |set_solver|done].
  split; [|done]. intros _. rewrite !Forall_cons. naive_solver.
Qed.
