(* ===== verification/Template.v ===== *)
(** * Template substitution (internal/server/runplan/template.go)

    [substituteVars] replaces the leftmost, non-overlapping matches of two
    opening braces, an identifier (a letter or underscore, then letters, digits
    and underscores) and two closing braces.  The scanner below walks the text one byte
    at a time; a match is written out at once and its bytes are then skipped, so
    the recursion is structural. *)
From S2P Require Import Prelude GoStrings.
From Stdlib Require Import Ascii.

(** ** The pattern *)

Definition ident_start (c : ascii) : bool := is_upper c || is_lower c || Ascii.eqb c "_"%char.
Definition ident_char (c : ascii) : bool := ident_start c || is_digit c.

(** The longest run of identifier bytes at the front of [s]. *)
Fixpoint ident_run (s : string) : string :=
  match s with
  | String c s' => if ident_char c then String c (ident_run s') else EmptyString
  | EmptyString => EmptyString
  end.

(** [varPattern] at the front of the text: the captured name. *)
Definition match_var (s : string) : option string :=
  match s with
  | String "{"%char (String "{"%char r) =>
      match ident_run r with
      | EmptyString => None
      | String c n =>
          if ident_start c && HasPrefix (str_drop (S (String.length n)) r) "}}"
          then Some (String c n) else None
      end
  | _ => None
  end.

Definition placeholder (name : string) : string := "{{" +s+ name +s+ "}}".

(** ** Tokens *)

Inductive token : Type :=
| Lit (c : ascii)
| Var (name : string).

#[global] Instance token_eq_dec : EqDecision token.
Proof. solve_decision. Defined.

(** [skip] counts the bytes of the last match still to be passed over. *)
Fixpoint tokens_from (s : string) (skip : nat) : list token :=
  match s with
  | EmptyString => []
  | String c s' =>
      match skip with
      | S k => tokens_from s' k
      | O =>
          match match_var s with
          | Some n => Var n :: tokens_from s' (String.length n + 3)
          | None => Lit c :: tokens_from s' 0
          end
      end
  end.

Definition tokens (s : string) : list token := tokens_from s 0.

Definition token_text (t : token) : string :=
  match t with Lit c => String c EmptyString | Var n => placeholder n end.

Fixpoint text_of (ts : list token) : string :=
  match ts with
  | [] => EmptyString
  | t :: ts' => token_text t +s+ text_of ts'
  end.

Definition vars_of (ts : list token) : list string :=
  omap (fun t => match t with Var n => Some n | Lit _ => None end) ts.

(** ** The operation *)

(** The text written and the undefined names met, in order. *)
Fixpoint replace_from (vars : gmap string string) (s : string) (skip : nat) : string * list string :=
  match s with
  | EmptyString => (EmptyString, [])
  | String c s' =>
      match skip with
      | S k => replace_from vars s' k
      | O =>
          match match_var s with
          | Some n =>
              let '(out, unknown) := replace_from vars s' (String.length n + 3) in
              match vars !! n with
              | Some v => (v +s+ out, unknown)
              | None => (placeholder n +s+ out, n :: unknown)
              end
          | None => let '(out, unknown) := replace_from vars s' 0 in (String c out, unknown)
          end
      end
  end.

(** [undefined variable(s): ...] *)
Record undefined_vars := { undefined_names : list string }.

(** The text is returned with the error too. *)
Definition substituteVars (template : string) (vars : gmap string string)
  : string * option undefined_vars :=
  let '(result, unknown) := replace_from vars template 0 in
  match unknown with
  | [] => (result, None)
  | _ => (result, Some {| undefined_names := unknown |})
  end.

(** ** Reference semantics over tokens *)

Definition token_value (vars : gmap string string) (t : token) : string :=
  match t with
  | Lit c => String c EmptyString
  | Var n => default (placeholder n) (vars !! n)
  end.

Fixpoint render (vars : gmap string string) (ts : list token) : string :=
  match ts with
  | [] => EmptyString
  | t :: ts' => token_value vars t +s+ render vars ts'
  end.

Definition undefined_in (vars : gmap string string) (ts : list token) : list string :=
  filter (fun n => vars !! n = None) (vars_of ts).

Lemma undefined_in_var vars n ts :
  undefined_in vars (Var n :: ts) =
  match vars !! n with Some _ => undefined_in vars ts | None => n :: undefined_in vars ts end.
Proof.
  unfold undefined_in. change (vars_of (Var n :: ts)) with (n :: vars_of ts).
  rewrite filter_cons. destruct (vars !! n) eqn:E; case_decide; congruence.
Qed.

Lemma replace_from_tokens vars s k :
  replace_from vars s k = (render vars (tokens_from s k), undefined_in vars (tokens_from s k)).
Proof.
  revert k. induction s as [|c s IH]; intros k; [done|].
  destruct k as [|k]; cbn [replace_from tokens_from]; [|apply IH].
  destruct (match_var (String c s)) as [n|] eqn:E; rewrite IH; [|done].
  rewrite undefined_in_var. cbn [render token_value]. by destruct (vars !! n).
Qed.

(** ** Facts about the pattern *)

Lemma ident_run_spec s : s = (ident_run s +s+ str_drop (String.length (ident_run s)) s)%go.
Proof.
  induction s as [|c s IH]; cbn; [done|]. destruct (ident_char c); cbn; [|done].
  by rewrite <- IH.
Qed.

Lemma match_var_spec s n :
  match_var s = Some n -> exists rest, s = (placeholder n +s+ rest)%go.
Proof.
  unfold match_var. intros H.
  destruct s as [|c [|d r]]; try done;
    destruct c as [[] [] [] [] [] [] [] []]; try done;
    destruct d as [[] [] [] [] [] [] [] []]; try done.
  pose proof (ident_run_spec r) as Hr.
  destruct (ident_run r) as [|c m] eqn:E; [done|].
  destruct (ident_start c && _) eqn:Hb; [|done]. bool_facts. injection H as <-.
  match goal with H : HasPrefix _ _ = true |- _ => apply HasPrefix_spec in H as [t Ht] end.
  exists t. unfold placeholder. rewrite Hr. cbn [String.length]. rewrite Ht. cbn.
  by rewrite sapp_assoc.
Qed.

Lemma tokens_from_skip a s k :
  tokens_from (a +s+ s) (String.length a + k) = tokens_from s k.
Proof. induction a as [|c a IH]; cbn; [done|apply IH]. Qed.

(** Tokenising loses nothing. *)
Lemma tokens_text_aux n s : String.length s <= n -> text_of (tokens s) = s.
Proof.
  revert s. induction n as [|n IH]; intros [|c s] Hlen; cbn in Hlen; try done; try lia.
  unfold tokens. cbn [tokens_from]. destruct (match_var (String c s)) as [m|] eqn:E.
  - apply match_var_spec in E as [rest Hrest].
    assert (s = ("{" +s+ m +s+ "}}") +s+ rest)%go as ->.
    { rewrite !sapp_assoc. unfold placeholder in Hrest. rewrite !sapp_assoc in Hrest.
      cbn in Hrest. by injection Hrest. }
    assert (String.length m + 3 = String.length ("{" +s+ m +s+ "}}") + 0) as ->.
    { rewrite !sapp_length. cbn. lia. }
    rewrite tokens_from_skip. cbn [text_of token_text]. fold (tokens rest).
    rewrite IH; [|rewrite !sapp_length in Hlen; lia]. congruence.
  - cbn [text_of token_text]. fold (tokens s). rewrite IH by lia. done.
Qed.

Lemma tokens_text s : text_of (tokens s) = s.
Proof. by apply (tokens_text_aux (String.length s)). Qed.

Lemma substituteVars_tokens t vars :
  substituteVars t vars =
  (render vars (tokens t),
   match undefined_in vars (tokens t) with
   | [] => None
   | names => Some {| undefined_names := names |}
   end).
Proof.
  unfold substituteVars. rewrite replace_from_tokens. fold (tokens t).
  by destruct (undefined_in vars (tokens t)).
Qed.

Lemma undefined_in_nil vars ts :
  undefined_in vars ts = [] <-> forall n, Var n ∈ ts -> is_Some (vars !! n).
Proof.
  induction ts as [|[c|n] ts IH].
  - split; [by intros _ n ?%elem_of_nil|done].
  - change (undefined_in vars (Lit c :: ts)) with (undefined_in vars ts). rewrite IH.
    split; intros H m Hm; apply H; [by apply elem_of_cons in Hm as [?|?]|by right].
  - rewrite undefined_in_var. destruct (vars !! n) as [v|] eqn:E.
    + rewrite IH. split; intros H m Hm; [|apply H; by right].
      apply elem_of_cons in Hm as [[= ->]|?]; [by eexists|auto].
    + split; [done|]. intros H. destruct (H n) as [v Hv]; [left|congruence].
Qed.

Lemma substituteVars_ok t vars :
  (substituteVars t vars).2 = None <-> forall n, Var n ∈ tokens t -> is_Some (vars !! n).
Proof.
  rewrite <- undefined_in_nil, substituteVars_tokens. by destruct (undefined_in vars (tokens t)).
Qed.

Lemma render_agree vars vars' ts :
  (forall n, Var n ∈ ts -> vars !! n = vars' !! n) -> render vars ts = render vars' ts.
Proof.
  induction ts as [|t ts IH]; intros H; cbn; [done|]. f_equal.
  - destruct t as [c|n]; cbn; [done|]. rewrite (H n); [done|left].
  - apply IH. intros n Hn. apply H. by right.
Qed.

(** Texts without an opening brace are kept. *)
Lemma tokens_plain s :
  any_byte (Ascii.eqb "{"%char) s = false -> forall vars, render vars (tokens s) = s /\ vars_of (tokens s) = [].
Proof.
  intros H vars. induction s as [|c s IH]; [done|].
  cbn [any_byte] in H. apply orb_false_iff in H as [Hc Hs]. unfold tokens. cbn [tokens_from].
  assert (match_var (String c s) = None) as ->.
  { unfold match_var. destruct c as [[] [] [] [] [] [] [] []]; try done. }
  destruct (IH Hs) as [IH1 IH2]. split; cbn; [|exact IH2]. by rewrite <- IH1 at 2.
Qed.

Lemma substituteVars_plain s vars :
  any_byte (Ascii.eqb "{"%char) s = false -> substituteVars s vars = (s, None).
Proof.
  intros H. rewrite substituteVars_tokens. unfold undefined_in.
  destruct (tokens_plain s H vars) as [-> ->]. done.
Qed.

#[export] Hint Rewrite substituteVars_plain using (vm_compute; reflexivity) : go_simpl.

(** ** Properties *)

(** [substituteVars] refines the token semantics: cutting the template into
    literal bytes and placeholders loses nothing, the text is the concatenation
    of the literals and the values of the placeholders in one pass (an inserted
    value is not scanned again, an undefined placeholder is kept), and the call
    reports an error, listing the undefined names in order of appearance,
    exactly when some placeholder is undefined. *)
Theorem substituteVars_refines_tokens (t : string) (vars : gmap string string) :
  text_of (tokens t) = t /\
  (substituteVars t vars).1 = render vars (tokens t) /\
  ((substituteVars t vars).2 = None <-> forall n, Var n ∈ tokens t -> is_Some (vars !! n)) /\
  (forall e, (substituteVars t vars).2 = Some e -> undefined_names e = undefined_in vars (tokens t)).
Proof.
  split_and!; [apply tokens_text|by rewrite substituteVars_tokens|apply substituteVars_ok|].
  rewrite substituteVars_tokens. intros e He.
  destruct (undefined_in vars (tokens t)); [done|]. by injection He as <-.
Qed.

(** A template that resolves keeps resolving to the same text when variables
    are added: defining more variables never changes a successful result. *)
Theorem substituteVars_stable (t : string) (vars vars' : gmap string string) :
  (substituteVars t vars).2 = None -> vars ⊆ vars' ->
  substituteVars t vars' = substituteVars t vars.
Proof.
  intros H Hsub. pose proof (proj1 (substituteVars_ok t vars) H) as Hok.
  rewrite !substituteVars_tokens.
  rewrite (proj2 (undefined_in_nil vars _) Hok).
  assert (forall n, Var n ∈ tokens t -> vars !! n = vars' !! n) as Hag.
  { intros n Hn. destruct (Hok n Hn) as [v Hv]. rewrite Hv. symmetry. by eapply lookup_weaken. }
  rewrite <- (render_agree vars vars') by done.
  rewrite (proj2 (undefined_in_nil vars' _)); [done|].
  intros n Hn. rewrite <- Hag by done. auto.
Qed.

Definition sample_vars : gmap string string :=
  {[ "CONTAINER_PORT" := "8000"; "A" := "{{B}}" ]}.

Lemma substituteVars_stable_witness :
  substituteVars "--port {{CONTAINER_PORT}} {{A}}" (<["B" := "x"]> sample_vars) =
  ("--port 8000 {{B}}", None).
Proof.
  rewrite (substituteVars_stable "--port {{CONTAINER_PORT}} {{A}}" sample_vars).
  - vm_compute. reflexivity.
  - vm_compute. reflexivity.
  - apply insert_subseteq. vm_compute. reflexivity.
Defined.
