(* ===== verification/RunPlanTypes.v ===== *)
(** * Run plan data (internal/server/runplan: types.go, resolver.go, profiles.go)

    One record per Go struct; field names carry a prefix.  A pointer that may be
    nil is an [option]; the six pointers [Resolve] dereferences without a test
    (backend, version, runtime, artifact, deployment, node) are values: the
    callers build them from literals.  A nil slice is the empty list and a nil
    map the empty map; the code tells neither pair apart. *)
From S2P Require Import Prelude GoStrings GoValue.

(** ** Plan parts *)

Record DeviceMapping := { dm_HostPath : string; dm_ContainerPath : string; dm_Permissions : string }.
Record MountMapping := { mm_HostPath : string; mm_ContainerPath : string; mm_Readonly : bool }.

Record HealthCheck := {
  hc_Path : string;
  hc_ExpectedStatus : Z;
  hc_StartupTimeoutSeconds : Z;
  hc_IntervalSeconds : Z;
  hc_TimeoutSeconds : Z
}.

Record DeviceBindingInjection := {
  dbi_Target : string;
  dbi_Key : string;
  dbi_Value : string;
  dbi_Source : string;
  dbi_PatchTarget : string;
  dbi_DockerEffect : string
}.

Record DeviceBinding := {
  db_Enabled : bool;
  db_SelectionMode : string;
  db_Vendor : string;
  db_AcceleratorIDs : list string;
  db_AcceleratorCount : Z;
  db_AllowAutoSelect : bool;
  db_Source : string;
  db_PatchTarget : string;
  db_InjectionPreview : list DeviceBindingInjection;
  db_GPUDeviceIDs : list string;
  db_VisibleEnvKey : string;
  db_VisibleEnvValue : string;
  db_DockerGPUOption : string;
  db_Editable : bool;
  db_ReadonlyReason : string;
  db_FinalDockerEffect : string;
  db_FinalEnvEffect : string;
  db_FinalDeviceMounts : list DeviceMapping;
  db_FinalInjectionSource : string
}.

#[global] Instance DeviceMapping_eq_dec : EqDecision DeviceMapping.
Proof. solve_decision. Defined.
#[global] Instance MountMapping_eq_dec : EqDecision MountMapping.
Proof. solve_decision. Defined.
#[global] Instance HealthCheck_eq_dec : EqDecision HealthCheck.
Proof. solve_decision. Defined.

(** ** Inputs *)

Record DeviceBindingConfig := {
  dbc_Enabled : bool;
  dbc_Mode : string;
  dbc_Vendor : string;
  dbc_AcceleratorIDs : list string;
  dbc_AcceleratorCount : Z;
  dbc_VisibleEnvKey : string;
  dbc_VisibleEnvValue : string;
  dbc_DockerGPUOption : string;
  dbc_DeviceMounts : list DeviceMapping
}.

Record ServicePortBinding := {
  spb_ListenHost : string;
  spb_ContainerPort : Z;
  spb_HostPort : Z;
  spb_Protocol : string;
  spb_ServedModelName : string
}.

Record ParameterValue := {
  pv_Key : string;
  pv_Type : string;
  pv_Target : string;
  pv_CliName : string;
  pv_EnvName : string;
  pv_RenderStyle : string;
  pv_Enabled : bool;
  pv_Value : any;
  pv_Default : any;
  pv_Source : string;
  pv_CopiedFrom : string;
  pv_UserOverride : bool
}.

Record ParameterDef := {
  pd_Name : string;
  pd_CliName : string;
  pd_Alias : string;
  pd_Type : string;
  pd_Default : any;
  pd_Required : bool
}.

(** [(d *ParameterDef) effectiveCliName] *)
Definition effectiveCliName (d : ParameterDef) : string :=
  if pd_CliName d <>s EmptyString then pd_CliName d
  else if pd_Alias d <>s EmptyString then pd_Alias d
  else pd_Name d.

Record HealthCheckInput := {
  hi_Path : string;
  hi_ExpectedStatus : Z;
  hi_StartupTimeoutSeconds : Z;
  hi_IntervalSeconds : Z;
  hi_TimeoutSeconds : Z
}.

Record BackendInfo := {
  bi_ID : string;
  bi_Name : string;
  bi_DefaultVersion : string;
  bi_DefaultEnv : gmap string string
}.

Record VersionInfo := {
  vi_ID : string;
  vi_Version : string;
  vi_DefaultEntrypoint : list string;
  vi_DefaultArgs : list string;
  vi_DefaultBackendParams : list string;
  vi_ParameterDefs : list ParameterDef;
  vi_HealthCheck : HealthCheckInput;
  vi_DefaultContainerPort : Z;
  vi_DefaultImages : gmap string string;
  vi_Env : gmap string string;
  vi_VendorOptionsJSON : string
}.

Record DockerSpecInfo := {
  ds_Privileged : bool;
  ds_IPCMode : string;
  ds_UTSMode : string;
  ds_NetworkMode : string;
  ds_ShmSize : string;
  ds_GPUVisibleEnvKey : string;
  ds_Ulimits : gmap string string;
  ds_SecurityOptions : list string;
  ds_CapAdd : list string;
  ds_CapDrop : list string;
  ds_Devices : list DeviceMapping;
  ds_GroupAdd : list string;
  ds_GpuDriver : string;
  ds_GpuCapabilities : list (list string)
}.

Record ModelMountInfo := { mmi_ContainerPath : string; mmi_Readonly : bool }.

Record RuntimeInfo := {
  ri_ID : string;
  ri_Vendor : string;
  ri_RuntimeType : string;
  ri_LauncherKind : string;
  ri_ImageName : string;
  ri_EntrypointOverride : list string;
  ri_ArgsOverride : list string;
  ri_DefaultEnv : gmap string string;
  ri_Docker : DockerSpecInfo;
  ri_ModelMount : ModelMountInfo;
  ri_HealthCheckOverride : option HealthCheckInput
}.

Record NBRSnapshotInfo := {
  nbr_ArgsOverride : list string;
  nbr_DefaultEnv : gmap string string;
  nbr_EntrypointOverride : list string;
  nbr_Docker : DockerSpecInfo;
  nbr_ModelMount : ModelMountInfo;
  nbr_HealthCheckOverride : option HealthCheckInput;
  nbr_DeviceBinding : option DeviceBindingConfig;
  nbr_ServicePortBinding : option ServicePortBinding;
  nbr_ParameterSchema : list ParameterDef;
  nbr_ParameterValues : list ParameterValue
}.

Record NodeOverrideInfo := {
  no_ImageName : string;
  no_ImagePullPolicy : string;
  no_Env : gmap string string;
  no_DockerOverride : option DockerSpecInfo;
  no_ModelRootHostPath : string
}.

Record ArtifactInfo := {
  ai_ID : string;
  ai_Name : string;
  ai_Path : string;
  ai_ModelRoot : string;
  ai_RelativePath : string
}.

Record PlacementInfo := {
  pl_NodeID : string;
  pl_AcceleratorIds : list string;
  pl_AcceleratorSelectionMode : string;
  pl_AcceleratorCount : Z;
  pl_DeviceBindingEnabled : option bool;
  pl_AllowAutoSelect : bool
}.

Record ServiceInfo := {
  sv_HostPort : Z;
  sv_ContainerPort : Z;
  sv_AppPort : Z;
  sv_ListenHost : string;
  sv_HealthPort : Z;
  sv_APITestPort : Z
}.

Record DeploymentInfo := {
  di_ID : string;
  di_Name : string;
  di_Parameters : gmap string any;
  di_EnvOverrides : gmap string string;
  di_ParameterValues : list ParameterValue;
  di_DisabledParameters : list ParameterValue;
  di_Placement : PlacementInfo;
  di_Service : ServiceInfo
}.

Record NodeInfo := { ni_ID : string; ni_IP : string }.
Record GPUInfo := { gi_Index : Z; gi_Vendor : string }.

Record ProcessStartConfig := {
  psc_EntrypointMode : string;
  psc_Entrypoint : list string;
  psc_CommandPrefix : list string;
  psc_ShellMode : bool;
  psc_ProfileID : string;
  psc_Source : string;
  psc_Confidence : string;
  psc_Warnings : list string
}.

Record ResolveInput := {
  in_Backend : BackendInfo;
  in_BackendVersion : VersionInfo;
  in_BackendRuntime : RuntimeInfo;
  in_NodeRuntimeOverride : option NodeOverrideInfo;
  in_Artifact : ArtifactInfo;
  in_Deployment : DeploymentInfo;
  in_InstanceID : string;
  in_Node : NodeInfo;
  in_AssignedGPUs : list GPUInfo;
  in_ProcessStartConfig : option ProcessStartConfig;
  in_NBRConfigSnapshot : option NBRSnapshotInfo
}.

(** ** The resolved plan

    [ParameterSourceMap] is attached afterwards by [ResolveWithSourceMap] and is
    returned beside the plan in this model. *)
Record ResolvedRunPlan := {
  rp_Image : string;
  rp_ContainerName : string;
  rp_Entrypoint : list string;
  rp_Args : list string;
  rp_Env : gmap string string;
  rp_Privileged : bool;
  rp_IPCMode : string;
  rp_UTSMode : string;
  rp_NetworkMode : string;
  rp_ShmSize : string;
  rp_Ulimits : gmap string string;
  rp_CapAdd : list string;
  rp_CapDrop : list string;
  rp_Devices : list DeviceMapping;
  rp_Mounts : list MountMapping;
  rp_GroupAdd : list string;
  rp_HostPort : Z;
  rp_ContainerPort : Z;
  rp_DeviceBinding : option DeviceBinding;
  rp_GPUDeviceIDs : list string;
  rp_GPUVisibleEnvKey : string;
  rp_GpuDriver : string;
  rp_GpuCapabilities : list (list string);
  rp_SecurityOptions : list string;
  rp_ExtraArgs : list string;
  rp_HealthCheck : HealthCheck;
  rp_InputHash : string;
  rp_PlanHash : string;
  rp_BackendName : string;
  rp_BackendVersion : string;
  rp_ModelName : string;
  rp_ModelPath : string;
  rp_ServedModelName : string;
  rp_DeploymentID : string;
  rp_InstanceID : string
}.

(** ** Errors and warnings

    One constructor per message the resolver produces, carrying what it prints. *)
Inductive ResolveError :=
| UnsupportedLauncherKind (kind : string)
| NoImageAvailable (vendor : string)
| SnapshotMissing
| UndefinedVariables (names : list string)
| EmptyParameterValue (cliName : string)
| ParameterRenderError (cliName : string) (names : list string)
| DeploymentProtectedParameter (cliName : string)
| DeploymentEmptyParameterValue (cliName : string)
| DeploymentParameterRenderError (cliName : string) (names : list string)
| RequiredParameterMissing (name : string)
| RelativePathEmpty
| RelativePathDotDot (path : string)
| RelativePathAbsolute (path : string)
| MountEscapes (path cleaned : string).

Inductive ResolveWarning :=
| EnvSnapshotMissing
| EnvUndefinedVariables (key : string) (names : list string)
| EnvEmptyValue (name : string)
| EnvOverrideUndefinedVariables (key : string) (names : list string).

#[global] Instance ResolveError_eq_dec : EqDecision ResolveError.
Proof. solve_decision. Defined.
#[global] Instance ResolveWarning_eq_dec : EqDecision ResolveWarning.
Proof. solve_decision. Defined.

(** ** Empty values of the larger records, for building concrete inputs *)

Definition no_docker : DockerSpecInfo :=
  {| ds_Privileged := false; ds_IPCMode := ""; ds_UTSMode := ""; ds_NetworkMode := "";
     ds_ShmSize := ""; ds_GPUVisibleEnvKey := ""; ds_Ulimits := ∅; ds_SecurityOptions := [];
     ds_CapAdd := []; ds_CapDrop := []; ds_Devices := []; ds_GroupAdd := [];
     ds_GpuDriver := ""; ds_GpuCapabilities := [] |}.

Definition no_health : HealthCheckInput :=
  {| hi_Path := ""; hi_ExpectedStatus := 0; hi_StartupTimeoutSeconds := 0;
     hi_IntervalSeconds := 0; hi_TimeoutSeconds := 0 |}.

Definition no_service : ServiceInfo :=
  {| sv_HostPort := 0; sv_ContainerPort := 0; sv_AppPort := 0; sv_ListenHost := "";
     sv_HealthPort := 0; sv_APITestPort := 0 |}.

Definition arg_value (cli : string) (v : any) : ParameterValue :=
  {| pv_Key := cli; pv_Type := "string"; pv_Target := "arg"; pv_CliName := cli; pv_EnvName := "";
     pv_RenderStyle := ""; pv_Enabled := true; pv_Value := v; pv_Default := ANil; pv_Source := "";
     pv_CopiedFrom := ""; pv_UserOverride := false |}.
