(* ===== verification/ConfigSets.v ===== *)
(** * Configuration sets (internal/server/api/configset_helpers.go)

    A configuration set is a decoded JSON document: items under their codes, each
    with a schema, a value, a state and a provenance tier.  The functions read a
    setting, set one, apply a deployment's overrides and extract the parameters the
    resolver renders.  The Go code changes the document in place; here a change
    returns the document, and the one place where two tiers share a map
    ([applyConfigOverrides] of [env]) is written out. *)
From S2P Require Import Prelude GoStrings GoNumbers GoValue GoJson GoJsonText RunPlanTypes.

(** ** Reading *)

Definition empty_set : obj := [("items", AMap []); ("schema_version", AInt 1)].

Definition parseConfigSet (raw : string) : obj :=
  match Unmarshal_map raw with
  | Some (Some out) => match obj_get out "items" with Some _ => out | None => obj_set "items" (AMap []) out end
  | _ => empty_set
  end.

Definition copyConfigSet (raw : string) : obj :=
  match Unmarshal_map raw with
  | Some (Some out) => out
  | _ => empty_set
  end.

Definition configSourceMetadata (raw : string) : obj :=
  match Unmarshal_map raw with Some (Some out) => out | _ => [] end.

Definition configSetItems (set : obj) : obj := default [] (get_obj set "items").

Definition configItem (set : obj) (code : string) : option obj := get_obj (configSetItems set) code.

Definition non_nil (v : option any) : option any :=
  match v with Some ANil | None => None | Some v => Some v end.

Definition item_value_of (item : obj) : option any :=
  match get_obj item "value" with
  | None => None
  | Some v => match non_nil (obj_get v "effective_value") with Some e => Some e | None => non_nil (obj_get v "default_value") end
  end.

Definition configValue (set : obj) (code : string) (def : any) : any :=
  match configItem set code with
  | None => def
  | Some item => default def (item_value_of item)
  end.

Definition configString (set : obj) (code def : string) : string :=
  match configValue set code (AStr def) with
  | AStr s => if TrimSpace s =s EmptyString then def else s
  | v => trimmed v
  end.

(** Into a slice of strings: a null element is the empty string, another kind is an error. *)
Fixpoint string_elements (l : list any) : option (list string) :=
  match l with
  | [] => Some []
  | AStr s :: l => cons s <$> string_elements l
  | ANil :: l => cons EmptyString <$> string_elements l
  | _ => None
  end.

Definition Unmarshal_strings (s : string) : option (list string) :=
  match Unmarshal s with
  | Some (AList l) => string_elements l
  | Some ANil => Some []
  | _ => None
  end.

Definition configStringSlice (set : obj) (code : string) : list string :=
  match configValue set code (AList []) with
  | AStrs l => l
  | AList l => List.filter (fun s => s <>s EmptyString) (map trimmed l)
  | AStr s => if TrimSpace s =s EmptyString then [] else default [s] (Unmarshal_strings s)
  | _ => []
  end.

Definition configObject (set : obj) (code : string) : obj :=
  match configValue set code (AMap []) with
  | AMap m => m
  | AStr s => match Unmarshal_map s with Some (Some m) => m | _ => [] end
  | _ => []
  end.

Definition configStringMap (set : obj) (code : string) : gmap string string :=
  omap (fun v => if is_nil v then None else Some (trimmed v)) (obj_map (configObject set code)).

(** Values of a document are never of type [map[string]string], the last case of the code. *)
Definition configLauncherKind (set : obj) (fallback : string) : string :=
  let k := configString set "launcher.kind" EmptyString in
  if TrimSpace k <>s EmptyString then k
  else match get_obj set "context" with
       | None => fallback
       | Some ctx => let k := trimmed (get_any ctx "launcher_kind") in
                     if (k <>s EmptyString) && (k <>s "<nil>") then k else fallback
       end.

Definition configArray (set : obj) (code : string) : list any :=
  match configValue set code (AList []) with
  | AList l => l
  | AStrs l => map AStr l
  | AStr s => match Unmarshal s with Some (AList l) => l | _ => [] end
  | _ => []
  end.

(** ** Typed readings

    The object is written to JSON and read into a structure; the error is dropped,
    so that a field of the wrong kind keeps its zero value. *)

Definition decode_device (m : obj) : DeviceMapping :=
  {| dm_HostPath := field m "host_path" dec_str EmptyString; dm_ContainerPath := field m "container_path" dec_str EmptyString;
     dm_Permissions := field m "permissions" dec_str EmptyString |}.

Definition dec_strs_list (v : any) : option (list (list string)) :=
  match v with
  | AList l => Some (map (fun x => default [] (dec_strs x)) l)
  | ANil => Some []
  | _ => None
  end.

Definition decode_docker (m : obj) : DockerSpecInfo :=
  {| ds_Privileged := field m "privileged" dec_bool false; ds_IPCMode := field m "ipc_mode" dec_str EmptyString;
     ds_UTSMode := field m "uts_mode" dec_str EmptyString; ds_NetworkMode := field m "network_mode" dec_str EmptyString;
     ds_ShmSize := field m "shm_size" dec_str EmptyString;
     ds_GPUVisibleEnvKey := field m "gpu_visible_env_key" dec_str EmptyString;
     ds_Ulimits := field m "ulimits" dec_str_map ∅; ds_SecurityOptions := field m "security_options" dec_strs [];
     ds_CapAdd := field m "cap_add" dec_strs []; ds_CapDrop := field m "cap_drop" dec_strs [];
     ds_Devices := field m "devices" (dec_list decode_device) []; ds_GroupAdd := field m "group_add" dec_strs [];
     ds_GpuDriver := field m "gpu_driver" dec_str EmptyString; ds_GpuCapabilities := field m "gpu_capabilities" dec_strs_list [] |}.

Definition configDockerSpec (set : obj) : DockerSpecInfo := decode_docker (reread_obj (configObject set "launcher.docker_options")).

Definition configModelMount (set : obj) : ModelMountInfo :=
  let m := reread_obj (configObject set "runtime.model_mount") in
  {| mmi_ContainerPath := field m "container_path" dec_str EmptyString; mmi_Readonly := field m "readonly" dec_bool false |}.

Definition configHealthCheckPtr (set : obj) : option HealthCheckInput :=
  match configObject set "runtime.health" with
  | [] => None
  | raw =>
      let m := reread_obj raw in
      let hc := {| hi_Path := field m "path" dec_str EmptyString; hi_ExpectedStatus := field m "expected_status" dec_int 0%Z;
                   hi_StartupTimeoutSeconds := field m "startup_timeout_seconds" dec_int 0%Z;
                   hi_IntervalSeconds := field m "interval_seconds" dec_int 0%Z;
                   hi_TimeoutSeconds := field m "timeout_seconds" dec_int 0%Z |} in
      if (hi_Path hc =s EmptyString) && (hi_ExpectedStatus hc =? 0)%Z && (hi_StartupTimeoutSeconds hc =? 0)%Z
         && (hi_IntervalSeconds hc =? 0)%Z && (hi_TimeoutSeconds hc =? 0)%Z then None else Some hc
  end.

Definition decode_binding (m : obj) : DeviceBindingConfig :=
  {| dbc_Enabled := field m "enabled" dec_bool false; dbc_Mode := field m "mode" dec_str EmptyString;
     dbc_Vendor := field m "vendor" dec_str EmptyString; dbc_AcceleratorIDs := field m "accelerator_ids" dec_strs [];
     dbc_AcceleratorCount := field m "accelerator_count" dec_int 0%Z;
     dbc_VisibleEnvKey := field m "visible_env_key" dec_str EmptyString;
     dbc_VisibleEnvValue := field m "visible_env_value" dec_str EmptyString;
     dbc_DockerGPUOption := field m "docker_gpu_option" dec_str EmptyString;
     dbc_DeviceMounts := field m "device_mounts" (dec_list decode_device) [] |}.

Definition configDeviceBinding (set : obj) : option DeviceBindingConfig :=
  match configObject set "runtime.device_binding" with
  | [] => None
  | raw =>
      let b := decode_binding (reread_obj raw) in
      if (dbc_Mode b =s EmptyString) && negb (dbc_Enabled b) && (length (dbc_AcceleratorIDs b) =? 0)%nat then None else Some b
  end.

Definition configServicePortBinding (set : obj) : option ServicePortBinding :=
  match configObject set "service.port_binding" with
  | [] => None
  | raw =>
      let m := reread_obj raw in
      let b := {| spb_ListenHost := field m "listen_host" dec_str EmptyString; spb_ContainerPort := field m "container_port" dec_int 0%Z;
                  spb_HostPort := field m "host_port" dec_int 0%Z; spb_Protocol := field m "protocol" dec_str EmptyString;
                  spb_ServedModelName := field m "served_model_name" dec_str EmptyString |} in
      if (spb_HostPort b =? 0)%Z && (spb_ContainerPort b =? 0)%Z && (spb_ListenHost b =s EmptyString)
         && (spb_ServedModelName b =s EmptyString) then None else Some b
  end.

(** ** Parameters of a set *)

Definition configItemEnabled (item : obj) : bool :=
  match get_obj item "state" with
  | Some state => default false (as_bool (get_any state "enabled"))
  | None => false
  end.

(** An absent field reads as the text of nil. *)
Definition configItemSchemaField (item : obj) (fieldName : string) : string :=
  match get_obj item "schema" with
  | Some schema => trimmed (get_any schema fieldName)
  | None => EmptyString
  end.

Definition defaultValueFromItem (item : obj) : any :=
  match get_obj item "value" with Some v => get_any v "default_value" | None => ANil end.

(** [strings.TrimSpace(fmt.Sprint(render[k]))], of a nil map too. *)
Definition render_field (item : obj) (k : string) : string :=
  trimmed (get_any (default [] (get_obj item "render")) k).

Definition or_field (s d : string) : string := if s =s EmptyString then d else s.

Definition item_parameter_def (code : string) (item : obj) : list ParameterDef :=
  if configItemSchemaField item "kind" <>s "cli_arg" then []
  else
    let flag := or_field (render_field item "flag") (configItemSchemaField item "arg_name") in
    let flag := if flag =s EmptyString
                then match obj_get item "cli_name" with Some s => trimmed s | None => flag end else flag in
    [{| pd_Name := or_field (configItemSchemaField item "key") code; pd_CliName := flag; pd_Alias := EmptyString;
        pd_Type := configItemSchemaField item "type"; pd_Default := defaultValueFromItem item; pd_Required := false |}].

Definition item_parameter_value (set : obj) (code : string) (item : obj) : list ParameterValue :=
  let kind := configItemSchemaField item "kind" in
  if (kind <>s "cli_arg") && (kind <>s "cli_args") && (kind <>s "env") then []
  else
    let target := or_field (configItemSchemaField item "target") (render_field item "target") in
    let flag := or_field (configItemSchemaField item "arg_name") (render_field item "flag") in
    let envName := or_field (configItemSchemaField item "env_name") (render_field item "env_name") in
    let style := render_field item "style" in
    if (kind =s "env") && (envName =s EmptyString) then []
    else
      let value := configValue set code (defaultValueFromItem item) in
      if (kind =s "cli_args") && (trimmed value =s EmptyString) then []
      else
        [{| pv_Key := code; pv_Type := configItemSchemaField item "type";
            pv_Target := if target =s EmptyString then (if kind =s "env" then "env" else "cli") else target;
            pv_CliName := flag; pv_EnvName := envName;
            pv_RenderStyle := if (kind =s "cli_args") && (style =s EmptyString) then "raw_lines" else style;
            pv_Enabled := configItemEnabled item; pv_Value := value; pv_Default := defaultValueFromItem item;
            pv_Source := "config_set"; pv_CopiedFrom := EmptyString; pv_UserOverride := false |}].

Section Extraction.
Context `{MR : MapRange}.

Definition configSetParameterDefs (set : obj) : list ParameterDef :=
  concat (map (fun kv => match as_map kv.2 with Some item => item_parameter_def kv.1 item | None => [] end)
              (range (obj_map (configSetItems set)))).

Definition configSetParameterValues (set : obj) : list ParameterValue :=
  concat (map (fun kv => match as_map kv.2 with Some item => item_parameter_value set kv.1 item | None => [] end)
              (range (obj_map (configSetItems set)))).
End Extraction.

(** ** Writing *)

Definition update_obj (k : string) (f : obj -> obj) (m : obj) : obj := obj_set k (AMap (f (default [] (get_obj m k)))) m.

Definition setConfigValueTiered (item : obj) (value : any) : obj :=
  update_obj "value" (fun tier => obj_set "effective_value" value (obj_set "local_value" value tier)) item.

Definition setConfigEnabledTiered (item : obj) (enabled : bool) : obj :=
  update_obj "state" (obj_set "enabled" (ABool enabled)) item.

Definition new_item (code : string) : obj :=
  [("schema", AMap [("key", AStr code)]); ("state", AMap []); ("value", AMap [])].

Definition set_provenance (layer ref : string) (item : obj) : obj :=
  update_obj "provenance" (fun prov =>
    obj_set "last_value_owner_id" (AStr ref) (obj_set "last_value_layer" (AStr layer) (obj_set "value_source" (AStr layer) prov))) item.

Definition put_item (set : obj) (code : string) (item : obj) : obj :=
  obj_set "items" (AMap (obj_set code (AMap item) (configSetItems set))) set.

Definition setConfigValue (set : obj) (code : string) (value : any) (layer ref : string) : obj :=
  let item := default (new_item code) (configItem set code) in
  put_item set code (set_provenance layer ref (setConfigEnabledTiered (setConfigValueTiered item value) true)).

Definition setConfigEnabled (set : obj) (code : string) (enabled : bool) : obj :=
  put_item set code (setConfigEnabledTiered (default [] (configItem set code)) enabled).

(** ** Overrides *)

Definition mapFromAny (v : any) : obj :=
  match v with
  | AMap m => m
  | AStr s => match Unmarshal_map s with Some m => default [] m | None => [] end
  | _ => []
  end.

Definition entry_text (item : obj) (k : string) : string := trimmed (get_any item k).

(** An element of [parameter_values]. *)
Definition override_parameter (layer ref : string) (set : obj) (raw : any) : obj :=
  match as_map raw with
  | None => set
  | Some item =>
      let code := or_field (entry_text item "key") (or_field (entry_text item "code")
                    (or_field (entry_text item "name") (entry_text item "cli_name"))) in
      if code =s EmptyString then set
      else
        let set := match obj_get item "value" with Some v => setConfigValue set code v layer ref | None => set end in
        match as_bool (get_any item "enabled") with Some enabled => setConfigEnabled set code enabled | None => set end
  end.

(** An element of [disabled_parameters]. *)
Definition disable_parameter (set : obj) (raw : any) : obj :=
  match as_map raw with
  | None => set
  | Some item =>
      let code := or_field (entry_text item "key") (entry_text item "code") in
      if code <>s EmptyString then setConfigEnabled set code false else set
  end.

(** The variables of [env] are written into the map that is read: it is the
    effective value, or, when there is none, the default value, which is then
    changed as well. *)
Definition shares_default (set : obj) (code : string) : bool :=
  match configItem set code with
  | None => false
  | Some item =>
      match get_obj item "value" with
      | None => false
      | Some v => match non_nil (obj_get v "effective_value"), obj_get v "default_value" with
                  | None, Some (AMap _) => true
                  | _, _ => false
                  end
      end
  end.

Definition write_default (set : obj) (code : string) (value : any) : obj :=
  match configItem set code with
  | None => set
  | Some item => put_item set code (update_obj "value" (obj_set "default_value" value) item)
  end.

Section Overrides.
Context `{MR : MapRange}.
Variables layer ref : string.

Definition override_env (set : obj) (value : any) : obj :=
  let current := foldl (fun m kv => obj_set kv.1 kv.2 m) (configObject set "runtime.env") (range (obj_map (mapFromAny value))) in
  let set' := if shares_default set "runtime.env" then write_default set "runtime.env" (AMap current) else set in
  setConfigValue set' "runtime.env" (AMap current) layer ref.

Definition override_entry (set : obj) (key : string) (value : any) : obj :=
  match as_map value with
  | None => setConfigValue set key value layer ref
  | Some entry =>
      match obj_get entry "value" with
      | None => setConfigValue set key value layer ref
      | Some v =>
          let set := setConfigValue set key v layer ref in
          match as_bool (get_any entry "enabled") with Some enabled => setConfigEnabled set key enabled | None => set end
      end
  end.

Definition elements (v : any) : list any := match v with AList l => l | _ => [] end.

Definition override_step (set : obj) (kv : string * any) : obj :=
  if kv.1 =s "parameter_values" then foldl (override_parameter layer ref) set (elements kv.2)
  else if kv.1 =s "disabled_parameters" then foldl disable_parameter set (elements kv.2)
  else if kv.1 =s "env" then override_env set kv.2
  else override_entry set kv.1 kv.2.

Definition applyConfigOverrides (set overrides : obj) : obj := foldl override_step set (range (obj_map overrides)).
End Overrides.

(** ** Checks *)

Definition legacy_payload_keys : list string :=
  ["backend_runtime_id"; "parameters_json"; "parameter_values_json"; "disabled_parameters_json"; "env_overrides_json";
   "config_snapshot_json"; "config_overrides_json"; "source_metadata_json"; "config_set_json"].

Definition rejectLegacyDeploymentPayload (req : obj) : string :=
  default EmptyString (List.find (fun key => match obj_get req key with Some _ => true | None => false end) legacy_payload_keys).

Definition has_key (m : obj) (k : string) : bool := match obj_get m k with Some _ => true | None => false end.
Definition has_map (m : obj) (k : string) : bool := match get_obj m k with Some _ => true | None => false end.

Definition item_error (code : string) (raw : any) : option string :=
  let bad what := Some ("config_set item " +s+ Quote code +s+ jq what) in
  match as_map raw with
  | None => bad " is not a valid object"
  | Some item =>
      if has_key item "code" then bad " has flat `code` field; items must use {`schema`:{`key`:...}} (tiered shape)"
      else if has_key item "enabled" then bad " has flat `enabled` field; items must use {`state`:{`enabled`:...}} (tiered shape)"
      else if has_key item "default_value"
      then bad " has flat `default_value` field; items must use {`value`:{`default_value`:...}} (tiered shape)"
      else if has_key item "required" then bad " has flat `required` field; items must use {`schema`:{`required`:...}} (tiered shape)"
      else if has_key item "enabled_fields" then bad " has legacy `enabled_fields` field; not accepted in final tiered shape"
      else if has_key item "value" && negb (has_map item "value")
      then bad " has scalar `value` field; items must use {`value`:{`effective_value`:...}} (tiered shape)"
      else if negb (has_map item "schema") then bad " is missing `schema` tier (tiered shape required)"
      else if negb (has_map item "value") then bad " is missing `value` tier (tiered shape required)"
      else if negb (has_map item "state") then bad " is missing `state` tier (tiered shape required)"
      else None
  end.

(** The first error the range meets. *)
Definition validateTieredConfigSet `{MR : MapRange} (set : obj) : option string :=
  head (omap (fun kv => item_error kv.1 kv.2) (range (obj_map (configSetItems set)))).

Definition firstNonEmpty (values : list string) : string :=
  default EmptyString (List.find (fun v => TrimSpace v <>s EmptyString) values).
