(* ===== verification/ResolverArgs.v ===== *)
(** * Building the command line (internal/server/runplan/resolver.go: buildArgs)

    The layers of [buildArgs] and the list routines they use.  The abstract view
    of an argument list is [chunks]: flag/value pairs, lone flags and
    positionals, as the deduplication reads it. *)
From S2P Require Import Prelude GoStrings GoValue Template RunPlanTypes.
From Stdlib Require Import Ascii.

Definition is_flag (a : string) : bool := HasPrefix a "-".

(** ** Flags present *)

Definition flag_name (arg : string) : string :=
  let idx := Index arg "="%char in
  if (0 <? idx)%Z then str_take (Z.to_nat idx) arg else arg.

Definition collectExistingFlags (args : list string) : gset string :=
  foldl (fun flags arg => if is_flag arg then {[flag_name arg]} ∪ flags else flags) ∅ args.

(** ** Rendering one parameter value *)

Inductive rendering :=
| Rendered (args : list string)
| RenderFailed (names : list string).

Definition anySlice (v : any) : list any :=
  match v with
  | AList t => t
  | AStrs t => map AStr t
  | _ => []
  end.

Section Render.
Variable vars : gmap string string.

(** The [resolve] closure: the [%v] text with its variables replaced. *)
Definition resolve_text (v : any) : string + list string :=
  match substituteVars (fmt_v v) vars with
  | (text, None) => inl text
  | (_, Some e) => inr (undefined_names e)
  end.

(** The loops over slice values stop at the first error. *)
Fixpoint render_each (f : string -> list string) (values : list any) : rendering :=
  match values with
  | [] => Rendered []
  | v :: rest =>
      match resolve_text v with
      | inr names => RenderFailed names
      | inl text =>
          match render_each f rest with
          | Rendered args => Rendered (f text ++ args)
          | failed => failed
          end
      end
  end.

Definition render_one (f : string -> list string) (v : any) : rendering :=
  match resolve_text v with
  | inl text => Rendered (f text)
  | inr names => RenderFailed names
  end.

Definition renderParameterValueArgs (pv : ParameterValue) (cliName : string) : rendering :=
  let style0 := TrimSpace (pv_RenderStyle pv) in
  let style := if style0 =s EmptyString then "flag_space_value" else style0 in
  if style =s "flag_space_value" then render_one (fun t => [cliName; t]) (pv_Value pv)
  else if style =s "flag_equals_value" then render_one (fun t => [cliName +s+ "=" +s+ t]) (pv_Value pv)
  else if style =s "flag_if_true" then
    match pv_Value pv with
    | ABool b => Rendered (if b then [cliName] else [])
    | v => Rendered (if EqualFold (fmt_v v) "true" then [cliName] else [])
    end
  else if style =s "repeat_flag" then render_each (fun t => [cliName; t]) (anySlice (pv_Value pv))
  else if style =s "positional" then render_one (fun t => [t]) (pv_Value pv)
  else if (style =s "raw_lines") || (style =s "raw_list") then
    let values := match anySlice (pv_Value pv) with [] => [pv_Value pv] | vs => vs end in
    render_each (fun t => concat (map Fields (Split t newline))) values
  else render_one (fun t => [cliName; t]) (pv_Value pv).
End Render.

(** ** Parameter layers *)

Record args_state := {
  as_args : list string;
  as_errors : list ResolveError;
  as_repeatable : gset string
}.

Definition add_error (e : ResolveError) (st : args_state) : args_state :=
  {| as_args := as_args st; as_errors := as_errors st ++ [e]; as_repeatable := as_repeatable st |}.

(** Layer 1: the arguments frozen in the snapshot. *)
Definition frozen_arg_step (vars : gmap string string) (st : args_state) (arg : string) : args_state :=
  match substituteVars arg vars with
  | (_, Some e) => add_error (UndefinedVariables (undefined_names e)) st
  | (resolved, None) =>
      {| as_args := as_args st ++ [resolved]; as_errors := as_errors st;
         as_repeatable := as_repeatable st |}
  end.

Definition cli_name (pv : ParameterValue) : string :=
  if pv_CliName pv =s EmptyString then pv_Key pv else pv_CliName pv.

Definition empty_value (v : any) : bool := is_nil v || is_empty_str v.

(** The common tail of the two structured layers: render and append. *)
Definition append_rendered (vars : gmap string string) (pv : ParameterValue)
    (on_error : list string -> ResolveError) (st : args_state) : args_state :=
  match renderParameterValueArgs vars pv (cli_name pv) with
  | RenderFailed names => add_error (on_error names) st
  | Rendered rendered =>
      {| as_args := as_args st ++ rendered;
         as_errors := as_errors st;
         as_repeatable := if pv_RenderStyle pv =s "repeat_flag"
                          then {[cli_name pv]} ∪ as_repeatable st else as_repeatable st |}
  end.

(** Layer 2: the structured values of the snapshot. *)
Definition nbr_param_step (vars : gmap string string) (existing : gset string)
    (st : args_state) (pv : ParameterValue) : args_state :=
  let cli := cli_name pv in
  if negb (pv_Enabled pv) then st
  else if pv_Target pv =s "env" then st
  else if bool_decide (cli ∈ existing) then st
  else if empty_value (pv_Value pv) then add_error (EmptyParameterValue cli) st
  else append_rendered vars pv (ParameterRenderError cli) st.

Definition protectedFlags : list string := ["--host"; "-h"; "--port"].

(** Layer 3: the structured values of the deployment. *)
Definition deployment_param_step (vars : gmap string string) (existing : gset string)
    (st : args_state) (pv : ParameterValue) : args_state :=
  let cli := cli_name pv in
  if negb (pv_Enabled pv) then st
  else if pv_Target pv =s "env" then st
  else if existsb (String.eqb cli) protectedFlags then add_error (DeploymentProtectedParameter cli) st
  else if bool_decide (cli ∈ existing) then st
  else if empty_value (pv_Value pv) then add_error (DeploymentEmptyParameterValue cli) st
  else append_rendered vars pv (DeploymentParameterRenderError cli) st.

(** [strings.ReplaceAll(strings.TrimPrefix(strings.TrimPrefix(n, "-"), "-"), "-", "_")] *)
Definition normalize_flag (n : string) : string :=
  ReplaceAll (TrimPrefix (TrimPrefix n "-") "-") "-"%char "_"%char.

(** Is the required definition already among the flags? *)
Definition provided (existing : gset string) (def : ParameterDef) : bool :=
  let cli0 := effectiveCliName def in
  let cli := if cli0 =s EmptyString then pd_Name def else cli0 in
  let normalized := normalize_flag (pd_Name def) in
  bool_decide (pd_Name def ∈ existing) || bool_decide (cli ∈ existing)
  || ((normalized <>s pd_Name def) && bool_decide (normalized ∈ existing)).

Definition missing_required (existing : gset string) (defs : list ParameterDef) : list ResolveError :=
  map (fun d => RequiredParameterMissing (pd_Name d))
      (filter (fun d => pd_Required d = true /\ provided existing d = false) defs).

(** ** Deduplication *)

(** The loop of [deduplicateArgs]: [lastSeen] maps a flag to its index in
    [result]. *)
Fixpoint dedup_loop (repeatable : gset string) (args : list string)
    (lastSeen : gmap string nat) (result : list string) : list string :=
  match args with
  | [] => result
  | arg :: rest =>
      if is_flag arg then
        match rest with
        | v :: rest' =>
            if negb (is_flag v) then
              if bool_decide (arg ∈ repeatable) then
                dedup_loop repeatable rest' lastSeen (result ++ [arg; v])
              else
                match lastSeen !! arg with
                | Some idx =>
                    dedup_loop repeatable rest' lastSeen (<[S idx := v]> (<[idx := arg]> result))
                | None =>
                    dedup_loop repeatable rest' (<[arg := length result]> lastSeen) (result ++ [arg; v])
                end
            else dedup_loop repeatable rest lastSeen (result ++ [arg])
        | [] => dedup_loop repeatable rest lastSeen (result ++ [arg])
        end
      else dedup_loop repeatable rest lastSeen (result ++ [arg])
  end.

Definition deduplicateArgs (args : list string) (repeatableFlags : gset string) : list string :=
  dedup_loop repeatableFlags args ∅ [].

(** ** Disabled parameters *)

Definition disabled_flags (dps : list ParameterValue) : gset string := list_to_set (map cli_name dps).

(** Drop every disabled flag, and its value when the next argument is not a flag. *)
Fixpoint drop_disabled (disabled : gset string) (args : list string) : list string :=
  match args with
  | [] => []
  | a :: rest =>
      if bool_decide (a ∈ disabled) then
        match rest with
        | v :: rest' => if negb (is_flag v) then drop_disabled disabled rest' else drop_disabled disabled rest
        | [] => drop_disabled disabled rest
        end
      else a :: drop_disabled disabled rest
  end.

(** ** Service settings *)

(** The loop [for i := len(args)-1; i >= 0; i--] looking for [flag] with a
    successor, [n] being one more than the next index to try. *)
Fixpoint last_flag_before (args : list string) (flag : string) (n : nat) : option nat :=
  match n with
  | O => None
  | S i =>
      if bool_decide (args !! i = Some flag) && (S i <? length args)%nat then Some i
      else last_flag_before args flag i
  end.

Definition setLastFlagValue (args : list string) (flag value : string) : list string :=
  match last_flag_before args flag (length args) with
  | Some i => <[S i := value]> args
  | None => args ++ [flag; value]
  end.

Definition overridePortArg (args : list string) (port : Z) : list string :=
  if (port <=? 0)%Z then args
  else
    match last_flag_before args "--port" (length args) with
    | Some i => <[S i := Itoa port]> args
    | None => args ++ ["--port"; Itoa port]
    end.

Definition applyServiceArgs (args : list string) (svc : ServiceInfo) : list string :=
  let args1 := if (0 <? sv_AppPort svc)%Z then setLastFlagValue args "--port" (Itoa (sv_AppPort svc)) else args in
  if TrimSpace (sv_ListenHost svc) <>s EmptyString
  then setLastFlagValue args1 "--host" (TrimSpace (sv_ListenHost svc)) else args1.

Definition effectiveServiceInfo (inp : ResolveInput) : ServiceInfo :=
  let svc := di_Service (in_Deployment inp) in
  match in_NBRConfigSnapshot inp with
  | Some snap =>
      match nbr_ServicePortBinding snap with
      | Some b =>
          let cport := (0 <? spb_ContainerPort b)%Z in
          {| sv_HostPort := if (0 <? spb_HostPort b)%Z then spb_HostPort b else sv_HostPort svc;
             sv_ContainerPort := if cport then spb_ContainerPort b else sv_ContainerPort svc;
             sv_AppPort := if cport then spb_ContainerPort b else sv_AppPort svc;
             sv_ListenHost := if TrimSpace (spb_ListenHost b) <>s EmptyString
                              then TrimSpace (spb_ListenHost b) else sv_ListenHost svc;
             sv_HealthPort := sv_HealthPort svc;
             sv_APITestPort := sv_APITestPort svc |}
      | None => svc
      end
  | None => svc
  end.

(** ** buildArgs *)

Definition no_args : args_state := {| as_args := []; as_errors := []; as_repeatable := ∅ |}.

Definition args_layer1 (snap : NBRSnapshotInfo) (vars : gmap string string) : args_state :=
  foldl (frozen_arg_step vars) no_args (nbr_ArgsOverride snap).

Definition args_layer2 (snap : NBRSnapshotInfo) (vars : gmap string string) (st : args_state) : args_state :=
  foldl (nbr_param_step vars (collectExistingFlags (as_args st))) st (nbr_ParameterValues snap).

Definition args_layer3 (dep : DeploymentInfo) (vars : gmap string string) (st : args_state) : args_state :=
  foldl (deployment_param_step vars (collectExistingFlags (as_args st))) st (di_ParameterValues dep).

(** The state after the three layers. *)
Definition layered (inp : ResolveInput) (snap : NBRSnapshotInfo) (vars : gmap string string) : args_state :=
  args_layer3 (in_Deployment inp) vars (args_layer2 snap vars (args_layer1 snap vars)).

(** Deduplicated, and without the flags the deployment disables. *)
Definition prepared_args (inp : ResolveInput) (snap : NBRSnapshotInfo) (vars : gmap string string) : list string :=
  let st := layered inp snap vars in
  let args := deduplicateArgs (as_args st) (as_repeatable st) in
  let disabled := di_DisabledParameters (in_Deployment inp) in
  if (0 <? length disabled)%nat then drop_disabled (disabled_flags disabled) args else args.

Definition buildArgs (inp : ResolveInput) (vars : gmap string string) : list string * list ResolveError :=
  match in_NBRConfigSnapshot inp with
  | None => ([], [SnapshotMissing])
  | Some snap =>
      let st := layered inp snap vars in
      let missing := missing_required (collectExistingFlags (as_args st)) (nbr_ParameterSchema snap) in
      (applyServiceArgs (prepared_args inp snap vars) (effectiveServiceInfo inp), as_errors st ++ missing)
  end.

(** ** Legacy parameter mapping *)

(** Value lookup by the four name forms. *)
Definition lookup_param (params : gmap string any) (def : ParameterDef) : option any :=
  let eff := effectiveCliName def in
  let by_name :=
    match params !! pd_Name def with
    | Some v => Some v
    | None =>
        let normalized := normalize_flag (pd_Name def) in
        if normalized <>s pd_Name def then params !! normalized else None
    end in
  match by_name with
  | Some v => Some v
  | None =>
      if (eff <>s EmptyString) && (eff <>s pd_Name def) then
        match params !! eff with
        | Some v => Some v
        | None =>
            let normalizedCli := normalize_flag eff in
            if normalizedCli <>s eff then params !! normalizedCli else None
        end
      else None
  end.

Definition mapParametersToArgs (params : gmap string any) (defs : list ParameterDef)
    (existingFlags : gset string) : list string * list ResolveError :=
  foldl (fun acc def =>
    let '(args, errs) := acc in
    let emit v :=
      let cli0 := effectiveCliName def in
      let cli := if cli0 =s EmptyString then pd_Name def else cli0 in
      (args ++ [cli; fmt_v v], errs) in
    match lookup_param params def with
    | Some v => emit v
    | None =>
        if negb (is_nil (pd_Default def)) then emit (pd_Default def)
        else if pd_Required def then
          if provided existingFlags def then (args, errs)
          else (args, errs ++ [RequiredParameterMissing (pd_Name def)])
        else (args, errs)
    end) ([], []) defs.

(** ** The structured view of an argument list *)

Inductive chunk :=
| Pair (flag value : string)
| Single (arg : string).

Fixpoint chunks (args : list string) : list chunk :=
  match args with
  | [] => []
  | a :: rest =>
      if is_flag a then
        match rest with
        | v :: rest' => if negb (is_flag v) then Pair a v :: chunks rest' else Single a :: chunks rest
        | [] => Single a :: chunks rest
        end
      else Single a :: chunks rest
  end.

Definition chunk_args (c : chunk) : list string :=
  match c with Pair f v => [f; v] | Single a => [a] end.

Definition flatten (cs : list chunk) : list string := concat (map chunk_args cs).

Section Dedup.
Variable rep : gset string.

(** The value the last pair of [f] gives, [v] when there is none. *)
Fixpoint last_value_from (f v : string) (cs : list chunk) : string :=
  match cs with
  | [] => v
  | Pair g w :: cs => last_value_from f (if g =s f then w else v) cs
  | Single _ :: cs => last_value_from f v cs
  end.

(** The specification of deduplication: every chunk stays in place, except that
    the pairs of a non-repeatable flag collapse to the first position, which
    takes the last value. *)
Fixpoint keep_last (seen : list string) (cs : list chunk) : list chunk :=
  match cs with
  | [] => []
  | Single a :: cs => Single a :: keep_last seen cs
  | Pair f v :: cs =>
      if bool_decide (f ∈ rep) then Pair f v :: keep_last seen cs
      else if bool_decide (f ∈ seen) then keep_last seen cs
      else Pair f (last_value_from f v cs) :: keep_last (seen ++ [f]) cs
  end.

(** The flags of the non-repeatable pairs. *)
Definition pair_flag (c : chunk) : list string :=
  match c with Pair f _ => if bool_decide (f ∈ rep) then [] else [f] | Single _ => [] end.
Definition pair_flags (cs : list chunk) : list string := concat (map pair_flag cs).

Definition refresh (cs : list chunk) (c : chunk) : chunk :=
  match c with
  | Pair f v => if bool_decide (f ∈ rep) then c else Pair f (last_value_from f v cs)
  | Single _ => c
  end.

Fixpoint pair_pos (f : string) (acc : list chunk) : option nat :=
  match acc with
  | [] => None
  | Pair g w :: r =>
      if bool_decide (f ∉ rep) && (g =s f) then Some 0 else (fun n => S (S n)) <$> pair_pos f r
  | Single _ :: r => S <$> pair_pos f r
  end.

Definition set_value (f v : string) (c : chunk) : chunk :=
  match c with Pair g w => if g =s f then Pair g v else c | Single _ => c end.

Fixpoint dedup_chunks (cs : list chunk) (lastSeen : gmap string nat) (result : list string) : list string :=
  match cs with
  | [] => result
  | Single a :: cs => dedup_chunks cs lastSeen (result ++ [a])
  | Pair f v :: cs =>
      if bool_decide (f ∈ rep) then dedup_chunks cs lastSeen (result ++ [f; v])
      else match lastSeen !! f with
           | Some idx => dedup_chunks cs lastSeen (<[S idx := v]> (<[idx := f]> result))
           | None => dedup_chunks cs (<[f := length result]> lastSeen) (result ++ [f; v])
           end
  end.

(** Induction along the chunks of a list. *)
Lemma chunks_ind (P : list string -> Prop) :
  P [] ->
  (forall f v rest, is_flag f = true -> is_flag v = false -> P rest -> P (f :: v :: rest)) ->
  (forall a rest, chunks (a :: rest) = Single a :: chunks rest -> P rest -> P (a :: rest)) ->
  forall args, P args.
Proof.
  intros H0 Hp Hs args. induction args as [args IH] using (induction_ltof1 _ (@length string)).
  unfold ltof in IH. destruct args as [|a [|v rest]]; [done| |].
  - apply Hs; [cbn; by destruct (is_flag a)|]. apply IH; cbn; lia.
  - destruct (is_flag a) eqn:Ea; [destruct (is_flag v) eqn:Ev|].
    + apply Hs; [cbn; by rewrite Ea, Ev|]. apply IH; cbn; lia.
    + apply Hp; [done..|]. apply IH; cbn; lia.
    + apply Hs; [cbn; by rewrite Ea|]. apply IH; cbn; lia.
Qed.

Lemma chunks_pair f v rest :
  is_flag f = true -> is_flag v = false -> chunks (f :: v :: rest) = Pair f v :: chunks rest.
Proof. intros Hf Hv. cbn. by rewrite Hf, Hv. Qed.

Lemma flatten_chunks args : flatten (chunks args) = args.
Proof.
  induction args as [|f v rest Hf Hv IH|a rest Hc IH] using chunks_ind; [done| |].
  - rewrite chunks_pair by done. unfold flatten in *. cbn. by rewrite IH.
  - rewrite Hc. unfold flatten in *. cbn. by rewrite IH.
Qed.

Lemma dedup_loop_chunks args ls res :
  dedup_loop rep args ls res = dedup_chunks (chunks args) ls res.
Proof.
  revert ls res. induction args as [|f v rest Hf Hv IH|a rest Hc IH] using chunks_ind; intros ls res.
  - done.
  - rewrite chunks_pair by done. cbn. rewrite Hf, Hv. cbn.
    case_match; [done|]. case_match; apply IH.
  - rewrite Hc. cbn [dedup_chunks]. rewrite <- IH. cbn [dedup_loop].
    destruct (is_flag a) eqn:Ea; [|done]. destruct rest as [|v rest]; [done|].
    destruct (is_flag v) eqn:Ev; [done|]. rewrite chunks_pair in Hc by done. discriminate.
Qed.

Lemma pair_pos_app f acc c :
  pair_pos f (acc ++ [c]) =
  match pair_pos f acc with
  | Some i => Some i
  | None => if bool_decide (f ∈ pair_flag c) then Some (length (flatten acc)) else None
  end.
Proof.
  assert (pair_pos f [c] = if bool_decide (f ∈ pair_flag c) then Some 0 else None) as Hc.
  { destruct c as [g w|a]; cbn; [|done]. destruct (String.eqb_spec g f) as [->|Hne].
    - destruct (decide (f ∈ rep)).
      + rewrite (bool_decide_true (f ∈ rep)), (bool_decide_false (f ∉ rep)) by tauto. done.
      + rewrite (bool_decide_false (f ∈ rep)), (bool_decide_true (f ∉ rep)) by tauto. cbn.
        by rewrite bool_decide_true by set_solver.
    - rewrite andb_false_r. cbn. case_bool_decide; [|case_bool_decide; set_solver].
      case_bool_decide; set_solver. }
  induction acc as [|[g w|a] acc IH]; [done| |]; cbn [app pair_pos].
  - destruct (_ && _); [done|]. rewrite IH. unfold flatten. cbn.
    destruct (pair_pos f acc); [done|]. by case_bool_decide.
  - rewrite IH. unfold flatten. cbn. destruct (pair_pos f acc); [done|]. by case_bool_decide.
Qed.

Lemma pair_pos_None f acc : f ∉ rep -> pair_pos f acc = None <-> f ∉ pair_flags acc.
Proof.
  intros Hf. unfold pair_flags. induction acc as [|[g w|a] acc IH]; cbn.
  - set_solver.
  - rewrite (bool_decide_true (f ∉ rep)) by done. cbn.
    destruct (String.eqb_spec g f) as [->|Hne].
    + rewrite (bool_decide_false (f ∈ rep)) by done. set_solver.
    + rewrite fmap_None, IH. case_bool_decide; set_solver.
  - by rewrite fmap_None, IH.
Qed.

Lemma set_value_notin f v acc : f ∉ rep -> f ∉ pair_flags acc -> map (set_value f v) acc = acc.
Proof.
  intros Hf. unfold pair_flags. induction acc as [|[g w|a] acc IH]; cbn; intros Hn; [done| |].
  - rewrite IH by (case_bool_decide; set_solver).
    destruct (String.eqb_spec g f) as [->|]; [|done].
    rewrite bool_decide_false in Hn by done. set_solver.
  - by rewrite IH.
Qed.

Lemma set_value_flatten f v acc i :
  f ∉ rep -> NoDup (pair_flags acc) -> pair_pos f acc = Some i ->
  <[S i := v]> (<[i := f]> (flatten acc)) = flatten (map (set_value f v) acc).
Proof.
  intros Hf. revert i. unfold flatten. induction acc as [|[g w|a] acc IH]; cbn; intros i Hnd Hi; [done| |].
  - rewrite (bool_decide_true (f ∉ rep)) in Hi by done. cbn in Hi.
    unfold pair_flags in Hnd. cbn in Hnd. destruct (String.eqb_spec g f) as [->|Hne].
    + injection Hi as <-. cbn. rewrite (bool_decide_false (f ∈ rep)) in Hnd by done.
      apply NoDup_cons in Hnd as [Hn _]. by rewrite (set_value_notin f v acc).
    + destruct (pair_pos f acc) as [j|] eqn:Ej; [|done]. injection Hi as <-. change (g :: w :: <[S j:=v]> (<[j:=f]> (concat (map chunk_args acc))) =
        g :: w :: concat (map chunk_args (map (set_value f v) acc))).
      rewrite (IH j); [done| |done]. case_bool_decide; [done|]. by apply NoDup_cons in Hnd as [_ ?].
  - destruct (pair_pos f acc) as [j|] eqn:Ej; [|done]. injection Hi as <-. change (a :: <[S j:=v]> (<[j:=f]> (concat (map chunk_args acc))) =
        a :: concat (map chunk_args (map (set_value f v) acc))).
    by rewrite (IH j).
Qed.

Lemma pair_flags_app a b : pair_flags (a ++ b) = pair_flags a ++ pair_flags b.
Proof. unfold pair_flags. by rewrite map_app, concat_app. Qed.

Lemma flatten_app a b : flatten (a ++ b) = flatten a ++ flatten b.
Proof. unfold flatten. by rewrite map_app, concat_app. Qed.

Lemma pair_flags_set_value f v acc : pair_flags (map (set_value f v) acc) = pair_flags acc.
Proof.
  unfold pair_flags. induction acc as [|[g w|a] acc IH]; cbn; [done| |done].
  rewrite IH. destruct (String.eqb_spec g f) as [->|]; done.
Qed.

Lemma pair_pos_set_value g f v acc : pair_pos g (map (set_value f v) acc) = pair_pos g acc.
Proof.
  induction acc as [|[h w|a] acc IH]; cbn; [done| |by rewrite IH].
  destruct (String.eqb_spec h f) as [->|]; cbn; by rewrite IH.
Qed.

Lemma refresh_set_value f v cs acc :
  f ∉ rep -> map (refresh cs) (map (set_value f v) acc) = map (refresh (Pair f v :: cs)) acc.
Proof.
  intros Hf. rewrite map_map. apply map_ext. intros [g w|a]; cbn; [|done].
  destruct (String.eqb_spec g f) as [->|Hne]; cbn.
  - by rewrite bool_decide_false, String.eqb_refl by done.
  - destruct (String.eqb_spec f g) as [->|]; done.
Qed.

Lemma refresh_pair f v cs acc :
  f ∈ rep \/ f ∉ pair_flags acc -> map (refresh (Pair f v :: cs)) acc = map (refresh cs) acc.
Proof.
  unfold pair_flags. induction acc as [|[g w|a] acc IH]; cbn; intros Hf; [done| |].
  - rewrite IH by (case_bool_decide; set_solver). f_equal. case_bool_decide as Hg; [done|].
    destruct (String.eqb_spec f g) as [->|]; [|done]. set_solver.
  - by rewrite IH by done.
Qed.

Lemma refresh_nil acc : map (refresh []) acc = acc.
Proof.
  rewrite <- (map_id acc) at 2. apply map_ext. intros [f v|a]; cbn; [by case_bool_decide|done].
Qed.

Lemma dedup_chunks_spec cs ls acc :
  (forall f, ls !! f = pair_pos f acc) -> NoDup (pair_flags acc) ->
  dedup_chunks cs ls (flatten acc) = flatten (map (refresh cs) acc ++ keep_last (pair_flags acc) cs).
Proof.
  revert ls acc. induction cs as [|[f v|a] cs IH]; intros ls acc Hls Hnd; cbn [dedup_chunks keep_last].
  - by rewrite app_nil_r, refresh_nil.
  - case_bool_decide as Hrep.
    + change ([f; v]) with (flatten [Pair f v]). rewrite <- flatten_app, IH.
      * rewrite refresh_pair by tauto. rewrite map_app, pair_flags_app, <- app_assoc. cbn.
        rewrite !bool_decide_true by done. by rewrite ?app_nil_r.
      * intros g. rewrite pair_pos_app, <- Hls. cbn. rewrite (bool_decide_true (f ∈ rep)) by done.
        rewrite bool_decide_false by set_solver. by destruct (ls !! g).
      * rewrite pair_flags_app. cbn. rewrite bool_decide_true by done. by rewrite app_nil_r.
    + destruct (ls !! f) as [idx|] eqn:El; rewrite Hls in El.
      * rewrite (set_value_flatten f v acc) by done.
        rewrite (IH ls) by (intros; rewrite ?pair_pos_set_value, ?pair_flags_set_value; done).
        rewrite pair_flags_set_value, refresh_set_value by done.
        rewrite bool_decide_true; [done|]. apply dec_stable. intros Hn.
        apply (pair_pos_None f acc Hrep) in Hn. congruence.
      * apply pair_pos_None in El; [|done]. rewrite (bool_decide_false (f ∈ pair_flags acc)) by done.
        change ([f; v]) with (flatten [Pair f v]). rewrite <- flatten_app, IH.
        -- rewrite refresh_pair by tauto. rewrite map_app, pair_flags_app, <- app_assoc. cbn.
           by rewrite !bool_decide_false by done.
        -- intros g. rewrite pair_pos_app, <- Hls. cbn. rewrite (bool_decide_false (f ∈ rep)) by done.
           destruct (decide (f = g)) as [->|Hne].
           ++ rewrite lookup_insert_eq, Hls. rewrite (proj2 (pair_pos_None g acc Hrep) El).
              by rewrite bool_decide_true by set_solver.
           ++ rewrite lookup_insert_ne by done. rewrite bool_decide_false by set_solver.
              by destruct (ls !! g).
        -- rewrite pair_flags_app. cbn. rewrite bool_decide_false by done.
           apply NoDup_app. split_and!; [done|set_solver|apply NoDup_singleton].
  - change ([a]) with (flatten [Single a]). rewrite <- flatten_app, IH.
    + rewrite map_app, pair_flags_app, <- app_assoc. cbn. rewrite app_nil_r.
      by f_equal.
    + intros g. rewrite pair_pos_app, <- Hls. cbn. by destruct (ls !! g).
    + rewrite pair_flags_app. cbn. by rewrite app_nil_r.
Qed.

Lemma pair_flags_keep_last seen cs :
  NoDup (pair_flags (keep_last seen cs)) /\ (forall f, f ∈ seen -> f ∉ pair_flags (keep_last seen cs)).
Proof.
  revert seen. unfold pair_flags. induction cs as [|[f v|a] cs IH]; intros seen; cbn [keep_last].
  - split; [apply NoDup_nil_2|set_solver].
  - case_bool_decide as Hr; [|case_bool_decide as Hs]; cbn.
    + rewrite bool_decide_true by done. apply IH.
    + apply IH.
    + rewrite bool_decide_false by done. destruct (IH (seen ++ [f])) as [Hnd Hnin]. split.
      * apply NoDup_cons. split; [|done]. apply Hnin. set_solver.
      * intros g Hg. apply not_elem_of_cons. split; [intros ->; done|]. apply Hnin. set_solver.
  - apply IH.
Qed.
End Dedup.

(** What deduplication computes, through the chunk view. *)
Lemma deduplicateArgs_spec args rep :
  deduplicateArgs args rep = flatten (keep_last rep [] (chunks args)).
Proof.
  unfold deduplicateArgs. rewrite dedup_loop_chunks.
  change (@nil string) with (flatten []) at 1.
  rewrite (dedup_chunks_spec rep (chunks args) ∅ []); [done|done|apply NoDup_nil_2].
Qed.

(** ** Errors of the layers *)

Implicit Types (existing : gset string) (vars : gmap string string) (pv : ParameterValue).

(** A step that adds errors depending on its item only, folded. *)
Lemma foldl_errors {A} (step : args_state -> A -> args_state) (err : A -> list ResolveError) l st :
  (forall st x, as_errors (step st x) = as_errors st ++ err x) ->
  as_errors (foldl step st l) = as_errors st ++ concat (map err l).
Proof.
  intros Hs. revert st. induction l as [|x l IH]; intros st; cbn; [by rewrite app_nil_r|].
  by rewrite IH, Hs, app_assoc.
Qed.

Lemma concat_map_nil {A B} (f : A -> list B) l : concat (map f l) = [] <-> Forall (fun x => f x = []) l.
Proof.
  induction l as [|x l IH]; cbn; [by split; [constructor|]|]. rewrite Forall_cons, <- IH. split.
  - intros [? ?]%app_eq_nil. done.
  - by intros [-> ->].
Qed.

Definition render_errors vars pv (on_error : list string -> ResolveError) : list ResolveError :=
  match renderParameterValueArgs vars pv (cli_name pv) with
  | RenderFailed names => [on_error names]
  | Rendered _ => []
  end.

Lemma append_rendered_errors vars pv on_error st :
  as_errors (append_rendered vars pv on_error st) = as_errors st ++ render_errors vars pv on_error.
Proof.
  unfold append_rendered, render_errors. destruct (renderParameterValueArgs _ _ _); cbn; [|done].
  by rewrite app_nil_r.
Qed.

(** A value can be put on the command line. *)
Definition renderable vars pv : Prop := exists args, renderParameterValueArgs vars pv (cli_name pv) = Rendered args.

Lemma render_errors_nil vars pv on_error : render_errors vars pv on_error = [] <-> renderable vars pv.
Proof.
  unfold render_errors, renderable. destruct (renderParameterValueArgs _ _ _); [split; [by eauto|done]|].
  split; [done|by intros []].
Qed.

Definition frozen_errors vars arg : list ResolveError :=
  match substituteVars arg vars with (_, Some e) => [UndefinedVariables (undefined_names e)] | _ => [] end.

Definition nbr_errors vars existing pv : list ResolveError :=
  if negb (pv_Enabled pv) then [] else if pv_Target pv =s "env" then []
  else if bool_decide (cli_name pv ∈ existing) then []
  else if empty_value (pv_Value pv) then [EmptyParameterValue (cli_name pv)]
  else render_errors vars pv (ParameterRenderError (cli_name pv)).

Definition deployment_errors vars existing pv : list ResolveError :=
  if negb (pv_Enabled pv) then [] else if pv_Target pv =s "env" then []
  else if existsb (String.eqb (cli_name pv)) protectedFlags then [DeploymentProtectedParameter (cli_name pv)]
  else if bool_decide (cli_name pv ∈ existing) then []
  else if empty_value (pv_Value pv) then [DeploymentEmptyParameterValue (cli_name pv)]
  else render_errors vars pv (DeploymentParameterRenderError (cli_name pv)).

Lemma frozen_step_errors vars st arg :
  as_errors (frozen_arg_step vars st arg) = as_errors st ++ frozen_errors vars arg.
Proof.
  unfold frozen_arg_step, frozen_errors. destruct (substituteVars arg vars) as [? [e|]]; cbn; [done|].
  by rewrite app_nil_r.
Qed.

Lemma nbr_step_errors vars existing st pv :
  as_errors (nbr_param_step vars existing st pv) = as_errors st ++ nbr_errors vars existing pv.
Proof.
  unfold nbr_param_step, nbr_errors.
  repeat case_match; rewrite ?append_rendered_errors, ?app_nil_r; done.
Qed.

Lemma deployment_step_errors vars existing st pv :
  as_errors (deployment_param_step vars existing st pv) = as_errors st ++ deployment_errors vars existing pv.
Proof.
  unfold deployment_param_step, deployment_errors.
  repeat case_match; rewrite ?append_rendered_errors, ?app_nil_r; done.
Qed.

Lemma missing_required_nil existing defs :
  missing_required existing defs = [] <->
  Forall (fun d => pd_Required d = true -> provided existing d = true) defs.
Proof.
  unfold missing_required. induction defs as [|d defs IH]; [by split; [constructor|]|].
  rewrite Forall_cons, <- IH, filter_cons. case_decide as Hd; cbn.
  - split; [done|]. destruct Hd as [Hr Hp]. intros [Himp _]. rewrite Himp in Hp by done. done.
  - split; [|by intros [_ ?]]. intros Hn. split; [|done]. intros Hr.
    destruct (provided existing d); [done|]. exfalso. apply Hd. done.
Qed.

(** An enabled command-line value is acceptable when an earlier layer gave the
    flag already, or it is non-empty and renders. *)
Definition nbr_value_ok vars existing pv : Prop :=
  pv_Enabled pv = true -> pv_Target pv <> "env" -> cli_name pv ∉ existing ->
  empty_value (pv_Value pv) = false /\ renderable vars pv.

Definition deployment_value_ok vars existing pv : Prop :=
  pv_Enabled pv = true -> pv_Target pv <> "env" ->
  cli_name pv ∉ protectedFlags /\
  (cli_name pv ∉ existing -> empty_value (pv_Value pv) = false /\ renderable vars pv).

Definition flags_of (st : args_state) : gset string := collectExistingFlags (as_args st).

Lemma nbr_errors_nil vars existing pv : nbr_errors vars existing pv = [] <-> nbr_value_ok vars existing pv.
Proof.
  unfold nbr_errors, nbr_value_ok. destruct (pv_Enabled pv); cbn; [|done].
  destruct (String.eqb_spec (pv_Target pv) "env"); [done|]. case_bool_decide; [done|].
  destruct (empty_value _); [split; [done|intros H'; by destruct H']|].
  rewrite render_errors_nil. tauto.
Qed.

Lemma deployment_errors_nil vars existing pv :
  deployment_errors vars existing pv = [] <-> deployment_value_ok vars existing pv.
Proof.
  unfold deployment_errors, deployment_value_ok. destruct (pv_Enabled pv); cbn [negb]; [|done].
  destruct (String.eqb_spec (pv_Target pv) "env"); [done|].
  destruct (existsb _ _) eqn:Ep.
  - apply existsb_eqb_In in Ep. split; [done|]. intros H'. by destruct H'.
  - apply existsb_eqb_notIn in Ep. case_bool_decide; [tauto|].
    destruct (empty_value _); [split; [done|intros H'; by destruct H' as [_ []]]|].
    rewrite render_errors_nil. tauto.
Qed.

Lemma frozen_errors_nil vars arg : frozen_errors vars arg = [] <-> snd (substituteVars arg vars) = None.
Proof. unfold frozen_errors. by destruct (substituteVars arg vars) as [? []]. Qed.

Lemma layered_errors inp snap vars :
  as_errors (layered inp snap vars) =
  concat (map (frozen_errors vars) (nbr_ArgsOverride snap))
  ++ concat (map (nbr_errors vars (flags_of (args_layer1 snap vars))) (nbr_ParameterValues snap))
  ++ concat (map (deployment_errors vars (flags_of (args_layer2 snap vars (args_layer1 snap vars))))
               (di_ParameterValues (in_Deployment inp))).
Proof.
  unfold layered, args_layer3.
  rewrite (foldl_errors _ (deployment_errors vars (flags_of (args_layer2 snap vars (args_layer1 snap vars)))))
    by (intros; apply deployment_step_errors).
  unfold args_layer2 at 1.
  rewrite (foldl_errors _ (nbr_errors vars (flags_of (args_layer1 snap vars))))
    by (intros; apply nbr_step_errors).
  unfold args_layer1 at 1.
  rewrite (foldl_errors _ (frozen_errors vars)) by (intros; apply frozen_step_errors).
  cbn. by rewrite <- app_assoc.
Qed.

(** C33. [buildArgs] reports no error exactly when the snapshot is there, every
    frozen argument substitutes, every enabled value that an earlier layer did
    not already provide is non-empty and renders, no enabled deployment value
    names a protected flag, and every required parameter is among the flags. *)
Theorem buildArgs_no_error_iff inp vars :
  snd (buildArgs inp vars) = [] <->
  exists snap, in_NBRConfigSnapshot inp = Some snap /\
    Forall (fun a => snd (substituteVars a vars) = None) (nbr_ArgsOverride snap) /\
    Forall (nbr_value_ok vars (flags_of (args_layer1 snap vars))) (nbr_ParameterValues snap) /\
    Forall (deployment_value_ok vars (flags_of (args_layer2 snap vars (args_layer1 snap vars))))
      (di_ParameterValues (in_Deployment inp)) /\
    Forall (fun d => pd_Required d = true -> provided (flags_of (layered inp snap vars)) d = true)
      (nbr_ParameterSchema snap).
Proof.
  unfold buildArgs. destruct (in_NBRConfigSnapshot inp) as [snap|]; [|split; [done|by intros (? & ? & _)]].
  cbn [snd]. rewrite layered_errors, !app_nil, !concat_map_nil, missing_required_nil.
  rewrite (Forall_iff _ _ _ (frozen_errors_nil vars)).
  rewrite (Forall_iff _ _ _ (nbr_errors_nil vars (flags_of (args_layer1 snap vars)))).
  rewrite (Forall_iff _ _ _ (deployment_errors_nil vars (flags_of (args_layer2 snap vars (args_layer1 snap vars))))).
  split; [intros [(H1 & H2 & H3) H4]; by exists snap|].
  intros (? & [= <-] & ? & ? & ? & ?). done.
Qed.

(** Deduplication is the chunk-level specification: pairs of a repeatable
    flag and lone arguments stay; the pairs of any other flag collapse to the
    first position with the last value, and each such flag keeps one pair. *)
Theorem deduplicateArgs_keeps_last args rep :
  deduplicateArgs args rep = flatten (keep_last rep [] (chunks args)) /\
  NoDup (pair_flags rep (keep_last rep [] (chunks args))) /\
  flatten (chunks args) = args.
Proof.
  split_and!; [apply deduplicateArgs_spec|apply pair_flags_keep_last|apply flatten_chunks].
Qed.

(** ** A snapshot flag cannot be overridden *)

Definition with_deployment_values (inp : ResolveInput) (pvs : list ParameterValue) : ResolveInput :=
  let d := in_Deployment inp in
  {| in_Backend := in_Backend inp; in_BackendVersion := in_BackendVersion inp;
     in_BackendRuntime := in_BackendRuntime inp; in_NodeRuntimeOverride := in_NodeRuntimeOverride inp;
     in_Artifact := in_Artifact inp;
     in_Deployment := {| di_ID := di_ID d; di_Name := di_Name d; di_Parameters := di_Parameters d;
       di_EnvOverrides := di_EnvOverrides d; di_ParameterValues := pvs;
       di_DisabledParameters := di_DisabledParameters d; di_Placement := di_Placement d;
       di_Service := di_Service d |};
     in_InstanceID := in_InstanceID inp; in_Node := in_Node inp; in_AssignedGPUs := in_AssignedGPUs inp;
     in_ProcessStartConfig := in_ProcessStartConfig inp; in_NBRConfigSnapshot := in_NBRConfigSnapshot inp |}.

Lemma deployment_step_existing vars existing st pv :
  cli_name pv ∈ existing -> cli_name pv ∉ protectedFlags ->
  deployment_param_step vars existing st pv = st.
Proof.
  intros He Hp. unfold deployment_param_step. apply existsb_eqb_notIn in Hp. rewrite Hp.
  rewrite bool_decide_true by done. by repeat case_match.
Qed.

(** A deployment value whose flag the snapshot already puts on the command
    line changes nothing: the arguments and the errors are those of the
    deployment without it.  The snapshot, not the deployment, has priority. *)
Theorem buildArgs_snapshot_flag_wins inp vars snap l1 pv l2 :
  in_NBRConfigSnapshot inp = Some snap ->
  di_ParameterValues (in_Deployment inp) = l1 ++ pv :: l2 ->
  cli_name pv ∈ flags_of (args_layer2 snap vars (args_layer1 snap vars)) ->
  cli_name pv ∉ protectedFlags ->
  buildArgs inp vars = buildArgs (with_deployment_values inp (l1 ++ l2)) vars.
Proof.
  intros Hs Hpv He Hp.
  assert (layered inp snap vars = layered (with_deployment_values inp (l1 ++ l2)) snap vars) as Hl.
  { unfold layered, args_layer3. rewrite Hpv. cbn [in_Deployment with_deployment_values di_ParameterValues].
    rewrite !foldl_app. cbn [foldl]. by rewrite deployment_step_existing. }
  unfold buildArgs, prepared_args. cbn [in_NBRConfigSnapshot with_deployment_values]. rewrite Hs, Hl. done.
Qed.

(** ** The service settings on the final command line *)

(** The value after the last occurrence of [flag] that has a successor: what a
    program reading its options left to right ends up with. *)
Definition flag_setting (args : list string) (flag : string) : option string :=
  match last_flag_before args flag (length args) with
  | Some i => args !! S i
  | None => None
  end.

(** [i] is an occurrence of [flag] with a successor, the last below [n]. *)
Definition last_occurrence (args : list string) (flag : string) (n i : nat) : Prop :=
  i < n /\ args !! i = Some flag /\ S i < length args /\
  forall j, i < j -> j < n -> args !! j = Some flag -> ~ S j < length args.

Lemma last_flag_before_Some args flag n i :
  last_flag_before args flag n = Some i <-> last_occurrence args flag n i.
Proof.
  unfold last_occurrence. induction n as [|n IH]; cbn [last_flag_before]; [split; [done|lia]|].
  case_bool_decide as Ha; cbn [andb].
  - destruct (Nat.ltb_spec (S n) (length args)) as [Hl|Hl].
    + split.
      * intros Heq. injection Heq as ->. split_and!; [lia|done|done|intros; lia].
      * intros (Hin & Hi & Hil & Hlast). f_equal. destruct (decide (i < n)); [|lia].
        exfalso. by apply (Hlast n); [lia..| |].
    + rewrite IH. split; intros (Hin & Hi & Hil & Hlast); split_and!; try done; try lia.
      * intros j Hij Hj Hjf. destruct (decide (j = n)) as [->|]; [lia|]. apply Hlast; [lia|lia|done].
      * intros j Hij Hj. apply Hlast; lia.
  - rewrite IH. split; intros (Hin & Hi & Hil & Hlast); split_and!; try done; try lia.
    + intros j Hij Hj Hjf. destruct (decide (j = n)) as [->|]; [done|]. apply Hlast; [lia|lia|done].
    + assert (i <> n) by (intros ->; done). lia.
    + intros j Hij Hj. apply Hlast; lia.
Qed.

Lemma last_flag_before_None args flag n :
  last_flag_before args flag n = None <->
  (forall j, j < n -> args !! j = Some flag -> ~ S j < length args).
Proof.
  induction n as [|n IH]; cbn [last_flag_before]; [split; [lia|done]|].
  case_bool_decide as Ha; cbn [andb]; [destruct (Nat.ltb_spec (S n) (length args)) as [Hl|Hl]|].
  - split; [done|]. intros Hn. exfalso. by apply (Hn n); [lia| |].
  - rewrite IH. split; intros Hn j Hj.
    + destruct (decide (j = n)) as [->|]; [lia|]. apply Hn. lia.
    + apply Hn. lia.
  - rewrite IH. split; intros Hn j Hj.
    + destruct (decide (j = n)) as [->|]; [done|]. apply Hn. lia.
    + apply Hn. lia.
Qed.

Lemma flag_setting_intro args flag i v :
  last_occurrence args flag (length args) i -> args !! S i = Some v -> flag_setting args flag = Some v.
Proof. intros Hl%last_flag_before_Some Hv. unfold flag_setting. rewrite Hl. done. Qed.

(** The flag set is the flag read back. *)
Lemma setLastFlagValue_same args flag value :
  value <> flag -> flag_setting (setLastFlagValue args flag value) flag = Some value.
Proof.
  intros Hne. unfold setLastFlagValue. destruct (last_flag_before args flag (length args)) as [i|] eqn:E.
  - apply last_flag_before_Some in E as (Hi & Hf & Hl & Hlast).
    apply (flag_setting_intro _ _ i); [|by apply list_lookup_insert_eq].
    unfold last_occurrence. rewrite length_insert, list_lookup_insert_ne by lia.
    split_and!; try done. intros j Hij Hj Hjf. destruct (decide (j = S i)) as [->|Hne'].
    + rewrite list_lookup_insert_eq in Hjf by done. congruence.
    + rewrite list_lookup_insert_ne in Hjf by done. by apply Hlast.
  - pose proof (proj1 (last_flag_before_None _ _ _) E) as Hn.
    apply (flag_setting_intro _ _ (length args)); [|].
    + unfold last_occurrence. rewrite length_app. cbn. split_and!; [lia| |lia|lia].
      by rewrite lookup_app_r, Nat.sub_diag by lia.
    + rewrite lookup_app_r by lia. by replace (S (length args) - length args) with 1 by lia.
Qed.

(** Every occurrence of [flag] carries a value. *)
Definition settled (args : list string) (flag : string) : Prop :=
  forall k, args !! k = Some flag -> exists v, args !! S k = Some v /\ is_flag v = false.

Lemma settled_setLast args flag value other :
  is_flag value = false -> is_flag flag = true -> is_flag other = true -> settled args flag -> settled args other ->
  settled (setLastFlagValue args flag value) other.
Proof.
  intros Hv Hf Ho Hsf Hs k Hk. unfold setLastFlagValue in *.
  destruct (last_flag_before args flag (length args)) as [j|] eqn:Ej.
  - apply last_flag_before_Some in Ej as (Hj & Hjf & Hjl & _).
    destruct (decide (k = S j)) as [->|Hne].
    + rewrite list_lookup_insert_eq in Hk by done. congruence.
    + rewrite list_lookup_insert_ne in Hk by done. destruct (decide (k = j)) as [->|Hkj].
      * exists value. by rewrite list_lookup_insert_eq.
      * rewrite list_lookup_insert_ne by lia. by apply Hs.
  - destruct (decide (k < length args)) as [Hl|Hl].
    + rewrite lookup_app_l in Hk by done. destruct (Hs k Hk) as (v & Hkv & Hvf). exists v.
      rewrite lookup_app_l; [done|]. by apply lookup_lt_Some in Hkv.
    + rewrite lookup_app_r in Hk by lia. destruct (k - length args) as [|[|n]] eqn:Ek; cbn in Hk; [| |done].
      * exists value. split; [|done]. rewrite lookup_app_r by lia.
        by replace (S k - length args) with 1 by lia.
      * congruence.
Qed.

(** Setting one flag keeps the setting of another. *)
Lemma setLastFlagValue_other args flag value other v :
  flag <> other -> is_flag value = false -> is_flag other = true ->
  settled args flag -> settled args other ->
  flag_setting args other = Some v -> flag_setting (setLastFlagValue args flag value) other = Some v.
Proof.
  intros Hfo Hvf Hof Hsf Hso. unfold flag_setting at 1.
  destruct (last_flag_before args other (length args)) as [i|] eqn:E; [|done].
  apply last_flag_before_Some in E as (Hi & Hf & Hl & Hlast). intros Hv.
  assert (value <> other) as Hvo by congruence.
  unfold setLastFlagValue. destruct (last_flag_before args flag (length args)) as [j|] eqn:Ej.
  - apply last_flag_before_Some in Ej as (Hj & Hjf & Hjl & _).
    assert (S j <> i).
    { intros <-. destruct (Hsf j Hjf) as (w & Hw & Hwf). congruence. }
    assert (j <> i) by congruence.
    apply (flag_setting_intro _ _ i); [|by rewrite list_lookup_insert_ne by lia].
    unfold last_occurrence. rewrite length_insert, list_lookup_insert_ne by lia. split_and!; try done.
    intros k Hk1 Hk2 Hkf. destruct (decide (k = S j)) as [->|].
    + rewrite list_lookup_insert_eq in Hkf by done. congruence.
    + rewrite list_lookup_insert_ne in Hkf by done. by apply Hlast.
  - apply (flag_setting_intro _ _ i); [|by rewrite lookup_app_l].
    unfold last_occurrence. rewrite length_app, lookup_app_l by done. cbn. split_and!; [lia|done|lia|].
    intros k Hk1 Hk2 Hkf _. destruct (decide (k < length args)) as [Hk|Hk].
    + rewrite lookup_app_l in Hkf by done. destruct (Hso k Hkf) as (w & Hw & _).
      apply lookup_lt_Some in Hw. by apply (Hlast k).
    + rewrite lookup_app_r in Hkf by lia.
      destruct (k - length args) as [|[|n]]; cbn in Hkf; [congruence|congruence|done].
Qed.

Lemma is_flag_dash s : is_flag s = true <-> exists t, s = String "-" t.
Proof.
  unfold is_flag. rewrite HasPrefix_spec. split; intros [t ->]; by exists t.
Qed.

(** The decimal text of a positive number has no leading dash. *)
Lemma Itoa_pos_not_flag z : (0 < z)%Z -> is_flag (Itoa z) = false.
Proof.
  intros Hz. apply not_true_is_false. intros (t & Ht)%is_flag_dash.
  destruct z as [|p|p]; [lia| |lia]. change (pretty_N_go (N.pos p) EmptyString = String "-" t) in Ht.
  by destruct (pretty_N_go_ne_dash (N.pos p) EmptyString t).
Qed.

(** The listen address and the port given by the service settings. *)
Lemma applyServiceArgs_settings args svc :
  settled args "--port" -> settled args "--host" -> is_flag (TrimSpace (sv_ListenHost svc)) = false ->
  ((0 < sv_AppPort svc)%Z ->
   flag_setting (applyServiceArgs args svc) "--port" = Some (Itoa (sv_AppPort svc))) /\
  (TrimSpace (sv_ListenHost svc) <> EmptyString ->
   flag_setting (applyServiceArgs args svc) "--host" = Some (TrimSpace (sv_ListenHost svc))).
Proof.
  intros Hp Hh Hf. unfold applyServiceArgs.
  set (args1 := if (0 <? sv_AppPort svc)%Z then _ else args). split.
  - intros Hpos. assert (flag_setting args1 "--port" = Some (Itoa (sv_AppPort svc))) as H1.
    { subst args1. rewrite (proj2 (Z.ltb_lt _ _) Hpos). apply setLastFlagValue_same.
      intros Heq. pose proof (Itoa_pos_not_flag _ Hpos) as Hn. by rewrite Heq in Hn. }
    destruct (_ <>s _); [|done]. apply setLastFlagValue_other; try done;
    subst args1; rewrite (proj2 (Z.ltb_lt _ _) Hpos);
    apply settled_setLast; try done; by apply Itoa_pos_not_flag.
  - intros Hne. apply String.eqb_neq in Hne. rewrite Hne. cbn [negb].
    apply setLastFlagValue_same. intros Heq. by rewrite Heq in Hf.
Qed.

(** On the final command line a positive service port and a non-blank listen
    address win over every parameter layer: the last [--port] and [--host] carry
    the service values, whenever no argument list leaves one of these two flags
    without a value. *)
Theorem buildArgs_service_wins inp vars snap :
  in_NBRConfigSnapshot inp = Some snap ->
  settled (prepared_args inp snap vars) "--port" ->
  settled (prepared_args inp snap vars) "--host" ->
  is_flag (TrimSpace (sv_ListenHost (effectiveServiceInfo inp))) = false ->
  ((0 < sv_AppPort (effectiveServiceInfo inp))%Z ->
   flag_setting (fst (buildArgs inp vars)) "--port" = Some (Itoa (sv_AppPort (effectiveServiceInfo inp)))) /\
  (TrimSpace (sv_ListenHost (effectiveServiceInfo inp)) <> EmptyString ->
   flag_setting (fst (buildArgs inp vars)) "--host" =
   Some (TrimSpace (sv_ListenHost (effectiveServiceInfo inp)))).
Proof.
  intros Hs Hp Hh Hf. unfold buildArgs. rewrite Hs. cbn [fst]. by apply applyServiceArgs_settings.
Qed.

(** ** Concrete inputs *)

(** Deduplication can separate a lone flag from what follows it: the pair after
    [--verbose] moves away and [pos] becomes its value. *)
Example deduplicateArgs_glues :
  let out := deduplicateArgs ["--a"; "1"; "--verbose"; "--a"; "2"; "pos"] ∅ in
  chunks ["--a"; "1"; "--verbose"; "--a"; "2"; "pos"] =
    [Pair "--a" "1"; Single "--verbose"; Pair "--a" "2"; Single "pos"] /\
  chunks out = [Pair "--a" "2"; Pair "--verbose" "pos"].
Proof. by vm_compute. Qed.

(** A dangling [--host] swallows the port. *)
Example applyServiceArgs_dangling_host :
  applyServiceArgs ["--host"] {| sv_HostPort := 0; sv_ContainerPort := 0; sv_AppPort := 8000;
    sv_ListenHost := "0.0.0.0"; sv_HealthPort := 0; sv_APITestPort := 0 |} = ["--host"; "0.0.0.0"; "8000"].
Proof. reflexivity. Qed.

Definition sample_deployment (pvs disabled : list ParameterValue) (svc : ServiceInfo) : DeploymentInfo :=
  {| di_ID := "dep-1"; di_Name := "demo"; di_Parameters := ∅; di_EnvOverrides := ∅;
     di_ParameterValues := pvs; di_DisabledParameters := disabled;
     di_Placement := {| pl_NodeID := "node-1"; pl_AcceleratorIds := []; pl_AcceleratorSelectionMode := "";
       pl_AcceleratorCount := 0; pl_DeviceBindingEnabled := None; pl_AllowAutoSelect := false |};
     di_Service := svc |}.

Definition sample_snapshot (args : list string) (pvs : list ParameterValue) (defs : list ParameterDef) : NBRSnapshotInfo :=
  {| nbr_ArgsOverride := args; nbr_DefaultEnv := ∅; nbr_EntrypointOverride := []; nbr_Docker := no_docker;
     nbr_ModelMount := {| mmi_ContainerPath := "/models"; mmi_Readonly := true |};
     nbr_HealthCheckOverride := None; nbr_DeviceBinding := None; nbr_ServicePortBinding := None;
     nbr_ParameterSchema := defs; nbr_ParameterValues := pvs |}.

Definition sample_input (dep : DeploymentInfo) (snap : option NBRSnapshotInfo) : ResolveInput :=
  {| in_Backend := {| bi_ID := "b"; bi_Name := "vllm"; bi_DefaultVersion := "v"; bi_DefaultEnv := ∅ |};
     in_BackendVersion := {| vi_ID := "bv"; vi_Version := "v0.9"; vi_DefaultEntrypoint := ["vllm"; "serve"];
       vi_DefaultArgs := []; vi_DefaultBackendParams := []; vi_ParameterDefs := [];
       vi_HealthCheck := no_health; vi_DefaultContainerPort := 8000; vi_DefaultImages := ∅; vi_Env := ∅;
       vi_VendorOptionsJSON := "" |};
     in_BackendRuntime := {| ri_ID := "rt"; ri_Vendor := "nvidia"; ri_RuntimeType := "docker";
       ri_LauncherKind := ""; ri_ImageName := "vllm/vllm-openai:v0.9"; ri_EntrypointOverride := [];
       ri_ArgsOverride := []; ri_DefaultEnv := ∅; ri_Docker := no_docker;
       ri_ModelMount := {| mmi_ContainerPath := "/models"; mmi_Readonly := true |};
       ri_HealthCheckOverride := None |};
     in_NodeRuntimeOverride := None;
     in_Artifact := {| ai_ID := "m"; ai_Name := "qwen"; ai_Path := "/data/models/qwen"; ai_ModelRoot := "/data/models";
       ai_RelativePath := "qwen" |};
     in_Deployment := dep; in_InstanceID := "0123456789abcdef"; in_Node := {| ni_ID := "node-1"; ni_IP := "10.0.0.1" |};
     in_AssignedGPUs := [{| gi_Index := 0; gi_Vendor := "nvidia" |}]; in_ProcessStartConfig := None;
     in_NBRConfigSnapshot := snap |}.

Definition demo_service : ServiceInfo :=
  {| sv_HostPort := 8001; sv_ContainerPort := 8000; sv_AppPort := 8000; sv_ListenHost := "0.0.0.0";
     sv_HealthPort := 0; sv_APITestPort := 0 |}.

Definition demo_snapshot : NBRSnapshotInfo :=
  sample_snapshot ["--model"; "{{MODEL}}"; "--port"; "1"] [arg_value "--max-model-len" (AInt 4096)] [].

Definition demo_input : ResolveInput :=
  sample_input (sample_deployment [arg_value "--max-model-len" (AInt 8192)] [] demo_service) (Some demo_snapshot).

Definition demo_vars : gmap string string := {["MODEL" := "/models/qwen"]}.

Example buildArgs_demo :
  fst (buildArgs demo_input demo_vars) =
  ["--model"; "/models/qwen"; "--port"; "8000"; "--max-model-len"; "4096"; "--host"; "0.0.0.0"].
Proof. by vm_compute. Qed.

Lemma buildArgs_snapshot_flag_wins_witness :
  buildArgs demo_input demo_vars = buildArgs (with_deployment_values demo_input []) demo_vars.
Proof.
  apply (buildArgs_snapshot_flag_wins demo_input demo_vars demo_snapshot []
           (arg_value "--max-model-len" (AInt 8192)) []).
  - reflexivity.
  - reflexivity.
  - apply (bool_decide_unpack _). vm_compute. exact I.
  - apply (bool_decide_unpack _). vm_compute. exact I.
Defined.

(** A decision procedure for [settled], used on concrete lists. *)
Fixpoint settledb (args : list string) (flag : string) : bool :=
  match args with
  | [] => true
  | a :: rest =>
      (negb (a =s flag) || match rest with v :: _ => negb (is_flag v) | [] => false end) && settledb rest flag
  end.

Lemma settledb_settled args flag : settledb args flag = true -> settled args flag.
Proof.
  induction args as [|a rest IH]; cbn; intros Hb k Hk; [done|].
  apply andb_true_iff in Hb as [Ha Hb]. destruct k as [|k]; cbn in *; [|by apply IH].
  injection Hk as ->. rewrite String.eqb_refl in Ha. cbn in Ha. destruct rest as [|v rest]; [done|].
  exists v. split; [done|]. by destruct (is_flag v).
Qed.

Lemma buildArgs_service_wins_witness :
  flag_setting (fst (buildArgs demo_input demo_vars)) "--port" = Some "8000" /\
  flag_setting (fst (buildArgs demo_input demo_vars)) "--host" = Some "0.0.0.0".
Proof.
  destruct (buildArgs_service_wins demo_input demo_vars demo_snapshot) as [Hp Hh].
  - reflexivity.
  - apply settledb_settled. by vm_compute.
  - apply settledb_settled. by vm_compute.
  - reflexivity.
  - split; [apply Hp|apply Hh]; by vm_compute.
Defined.
