(* ===== verification/ConfigSetProps.v ===== *)
(** * Theorems on configuration sets

    What a setting reads after it is set, what stays, which changes keep the tiered
    shape, and which parameters the resolver is given. *)
From S2P Require Import Prelude GoStrings GoNumbers GoValue GoJson GoJsonText RunPlanTypes ResolverArgs ConfigSets.

(** ** Objects *)

Lemma get_obj_set k m x : get_obj (obj_set k (AMap x) m) k = Some x.
Proof. unfold get_obj. by rewrite obj_get_set. Qed.

Lemma get_obj_set_ne k k' v m : k <> k' -> get_obj (obj_set k v m) k' = get_obj m k'.
Proof. intros H. unfold get_obj. by rewrite obj_get_set_ne. Qed.

Lemma get_obj_update k f m : get_obj (update_obj k f m) k = Some (f (default [] (get_obj m k))).
Proof. apply get_obj_set. Qed.

Lemma get_obj_update_ne k k' f m : k <> k' -> get_obj (update_obj k f m) k' = get_obj m k'.
Proof. apply get_obj_set_ne. Qed.

Lemma obj_get_update_ne k k' f m : k <> k' -> obj_get (update_obj k f m) k' = obj_get m k'.
Proof. apply obj_get_set_ne. Qed.

Create HintDb objects.
#[export] Hint Rewrite obj_get_set get_obj_set get_obj_update : objects.
#[export] Hint Rewrite obj_get_set_ne get_obj_set_ne get_obj_update_ne obj_get_update_ne using discriminate : objects.
Ltac objects := autorewrite with objects; try done.

(** ** Items *)

Lemma configSetItems_put set code item : configSetItems (put_item set code item) = obj_set code (AMap item) (configSetItems set).
Proof. unfold configSetItems at 1, put_item. by rewrite get_obj_set. Qed.

Lemma configItem_put set code item : configItem (put_item set code item) code = Some item.
Proof. unfold configItem. by rewrite configSetItems_put, get_obj_set. Qed.

Lemma configItem_put_ne set code code' item : code <> code' -> configItem (put_item set code item) code' = configItem set code'.
Proof. intros H. unfold configItem. by rewrite configSetItems_put, get_obj_set_ne. Qed.

(** Other fields of the document stay. *)
Lemma put_item_frame set code item k : k <> "items" -> obj_get (put_item set code item) k = obj_get set k.
Proof. intros H. unfold put_item. by rewrite obj_get_set_ne. Qed.

Definition written (set : obj) (code : string) (value : any) (layer ref : string) : obj :=
  set_provenance layer ref (setConfigEnabledTiered (setConfigValueTiered (default (new_item code) (configItem set code)) value) true).

Lemma configItem_set set code v layer ref : configItem (setConfigValue set code v layer ref) code = Some (written set code v layer ref).
Proof. apply configItem_put. Qed.

Lemma configItem_set_ne set code code' v layer ref :
  code <> code' -> configItem (setConfigValue set code v layer ref) code' = configItem set code'.
Proof. apply configItem_put_ne. Qed.

Lemma written_value set code v layer ref : is_nil v = false -> item_value_of (written set code v layer ref) = Some v.
Proof.
  intros Hv. unfold item_value_of, written, set_provenance, setConfigEnabledTiered, setConfigValueTiered. objects. by destruct v.
Qed.

Lemma written_enabled set code v layer ref : configItemEnabled (written set code v layer ref) = true.
Proof. unfold configItemEnabled, written, set_provenance, setConfigEnabledTiered, get_any. objects. Qed.

Lemma written_schema set code v layer ref f item : configItem set code = Some item ->
  configItemSchemaField (written set code v layer ref) f = configItemSchemaField item f.
Proof.
  intros H. unfold configItemSchemaField, written, set_provenance, setConfigEnabledTiered, setConfigValueTiered. rewrite H. objects.
Qed.

Lemma written_render set code v layer ref f item : configItem set code = Some item ->
  render_field (written set code v layer ref) f = render_field item f.
Proof.
  intros H. unfold render_field, written, set_provenance, setConfigEnabledTiered, setConfigValueTiered. rewrite H. objects.
Qed.

(** Reading after setting. *)
Lemma configValue_set set code v def layer ref : is_nil v = false -> configValue (setConfigValue set code v layer ref) code def = v.
Proof. intros Hv. unfold configValue. by rewrite configItem_set, written_value. Qed.

Lemma configValue_set_ne set code code' v def layer ref :
  code <> code' -> configValue (setConfigValue set code v layer ref) code' def = configValue set code' def.
Proof. intros H. unfold configValue. by rewrite configItem_set_ne. Qed.

(** A nil value does not hide the default: the setting reads the default value. *)
Lemma configValue_set_nil set code item v def layer ref :
  configItem set code = Some item -> get_obj item "value" = Some v -> is_nil (get_any v "default_value") = false ->
  configValue (setConfigValue set code ANil layer ref) code def = get_any v "default_value".
Proof.
  intros Hi Hv Hd. unfold configValue. rewrite configItem_set. unfold item_value_of, written, set_provenance, setConfigEnabledTiered, setConfigValueTiered.
  rewrite Hi. cbn [default from_option id]. autorewrite with objects. rewrite Hv. cbn [default from_option id]. objects. unfold get_any in *. by destruct (obj_get v "default_value") as [[]|].
Qed.

(** ** The tiered shape *)

Definition flat_keys : list string := ["code"; "enabled"; "default_value"; "required"; "enabled_fields"].

Definition tiered (item : obj) : Prop :=
  Forall (fun k => has_key item k = false) flat_keys /\
  Forall (fun k => has_map item k = true) ["schema"; "value"; "state"].

Definition tieredb (item : obj) : bool :=
  forallb (fun k => negb (has_key item k)) flat_keys && forallb (has_map item) ["schema"; "value"; "state"].

Lemma tieredb_spec item : tieredb item = true <-> tiered item.
Proof.
  unfold tieredb, tiered, flat_keys. cbn [forallb]. rewrite !andb_true_iff, !negb_true_iff, !Forall_cons. split; intros; destruct_and!; split_and!;
    try done; by constructor.
Qed.

Lemma item_error_map code item : item_error code (AMap item) = None <-> tieredb item = true.
Proof.
  unfold item_error, tieredb, flat_keys. cbn [as_map forallb].
  destruct (has_key item "code"); [split; discriminate|]. destruct (has_key item "enabled"); [split; discriminate|].
  destruct (has_key item "default_value"); [split; discriminate|]. destruct (has_key item "required"); [split; discriminate|].
  destruct (has_key item "enabled_fields"); [split; discriminate|]. destruct (has_map item "value"); cbn [negb andb].
  - rewrite andb_false_r. destruct (has_map item "schema"), (has_map item "state"); split; done || discriminate.
  - rewrite andb_true_r. destruct (has_key item "value"), (has_map item "schema"); split; discriminate.
Qed.

Lemma item_error_None code raw : item_error code raw = None <-> exists item, raw = AMap item /\ tiered item.
Proof.
  destruct raw as [| | | | | | | |item]; try (split; [discriminate|by intros (? & ? & _)]).
  rewrite item_error_map, tieredb_spec. split; [by exists item|by intros (? & [= ->] & ?)].
Qed.

Lemma head_omap_None {A B} (f : A -> option B) (l : list A) : head (omap f l) = None <-> Forall (fun x => f x = None) l.
Proof.
  induction l as [|x l IH]; cbn; [by split|]. rewrite Forall_cons. destruct (f x); cbn; [by split; [|intros []]|]. rewrite IH. tauto.
Qed.

Lemma validate_None `{MR : MapRange} set :
  validateTieredConfigSet set = None <-> forall code raw, obj_get (configSetItems set) code = Some raw -> exists item, raw = AMap item /\ tiered item.
Proof.
  unfold validateTieredConfigSet. rewrite head_omap_None, Forall_forall. split.
  - intros H code raw Hc. apply (item_error_None code). apply (H (code, raw)). apply elem_of_range. by rewrite obj_map_lookup.
  - intros H [code raw] Hc%elem_of_range. rewrite obj_map_lookup in Hc. apply item_error_None. by apply (H code).
Qed.

Lemma has_key_set k k' v m : k <> k' -> has_key (obj_set k v m) k' = has_key m k'.
Proof. intros H. unfold has_key. by rewrite obj_get_set_ne. Qed.

Lemma has_map_set k k' v m : has_map m k' = true -> (k = k' -> exists x, v = AMap x) -> has_map (obj_set k v m) k' = true.
Proof.
  unfold has_map, get_obj. intros H Hv. destruct (decide (k = k')) as [->|Hne].
  - destruct (Hv eq_refl) as [x ->]. by rewrite obj_get_set.
  - by rewrite obj_get_set_ne.
Qed.

(** Writing a tier keeps the shape. *)
Lemma tiered_update k f item : k ∈ ["value"; "state"; "provenance"] -> tiered item -> tiered (update_obj k f item).
Proof.
  unfold tiered, flat_keys. rewrite !Forall_cons. intros Hk (H1 & H2). destruct_and!. rewrite !elem_of_cons, elem_of_nil in Hk.
  destruct_or?; subst k; unfold update_obj; rewrite !has_key_set by discriminate;
    split_and!; try done; (apply has_map_set; [done|intros; by eexists]).
Qed.

Lemma new_item_tiered code : tiered (new_item code).
Proof. unfold tiered. by repeat constructor. Qed.

Lemma written_tiered set code v layer ref :
  (forall item, configItem set code = Some item -> tiered item) -> tiered (written set code v layer ref).
Proof.
  intros H. unfold written, set_provenance, setConfigEnabledTiered, setConfigValueTiered.
  repeat (apply tiered_update; [set_solver|]). destruct (configItem set code); [by apply H|apply new_item_tiered].
Qed.

Lemma put_item_valid `{MR : MapRange} set code item :
  validateTieredConfigSet set = None -> tiered item -> validateTieredConfigSet (put_item set code item) = None.
Proof.
  rewrite !validate_None. intros Hs Hi c raw. rewrite configSetItems_put. destruct (decide (code = c)) as [<-|Hne].
  - rewrite obj_get_set. intros [= <-]. by exists item.
  - rewrite obj_get_set_ne by done. apply Hs.
Qed.

Lemma valid_item `{MR : MapRange} set code item : validateTieredConfigSet set = None -> configItem set code = Some item -> tiered item.
Proof.
  rewrite validate_None. intros Hs Hi. unfold configItem, get_obj in Hi. destruct (obj_get _ code) as [raw|] eqn:E; [|done].
  destruct (Hs _ _ E) as (x & -> & Hx). by injection Hi as <-.
Qed.

Section Valid.
Context `{MR : MapRange}.
Variables layer ref : string.

Lemma setConfigValue_valid set code v : validateTieredConfigSet set = None -> validateTieredConfigSet (setConfigValue set code v layer ref) = None.
Proof.
  intros Hs. apply put_item_valid; [done|]. apply (written_tiered set code v layer ref). intros item. by apply valid_item.
Qed.

(** Enabling needs the item to exist. *)
Lemma setConfigEnabled_valid set code b :
  is_Some (configItem set code) -> validateTieredConfigSet set = None -> validateTieredConfigSet (setConfigEnabled set code b) = None.
Proof.
  intros [item Hi] Hs. apply put_item_valid; [done|]. rewrite Hi. apply tiered_update; [set_solver|]. by eapply valid_item.
Qed.

Lemma setConfigValue_present set code v : is_Some (configItem (setConfigValue set code v layer ref) code).
Proof. rewrite configItem_set. by eexists. Qed.

Lemma override_entry_valid set key value :
  validateTieredConfigSet set = None -> validateTieredConfigSet (override_entry layer ref set key value) = None.
Proof.
  intros Hs. unfold override_entry. destruct (as_map value) as [entry|]; [|by apply setConfigValue_valid].
  destruct (obj_get entry "value") as [v|]; [|by apply setConfigValue_valid].
  destruct (as_bool _); [|by apply setConfigValue_valid].
  apply setConfigEnabled_valid; [apply setConfigValue_present|by apply setConfigValue_valid].
Qed.

Lemma override_env_valid set value : validateTieredConfigSet set = None -> validateTieredConfigSet (override_env layer ref set value) = None.
Proof.
  intros Hs. apply setConfigValue_valid. destruct (shares_default _ _); [|done]. unfold write_default.
  destruct (configItem set "runtime.env") as [item|] eqn:E; [|done]. apply put_item_valid; [done|].
  apply tiered_update; [set_solver|]. by eapply valid_item.
Qed.
End Valid.

(** ** Overrides: which settings a step may change *)

Definition parameter_code (item : obj) : string :=
  or_field (entry_text item "key") (or_field (entry_text item "code") (or_field (entry_text item "name") (entry_text item "cli_name"))).
Definition disabled_code (item : obj) : string := or_field (entry_text item "key") (entry_text item "code").

(** The value a setting reads, if any. *)
Definition setting (set : obj) (code : string) : option any := configItem set code ≫= item_value_of.

Lemma configValue_setting set code def : configValue set code def = default def (setting set code).
Proof. unfold configValue, setting. by destruct (configItem set code). Qed.

Lemma setting_enabled set code c b : setting (setConfigEnabled set code b) c = setting set c.
Proof.
  unfold setting, setConfigEnabled. destruct (decide (code = c)) as [<-|Hne]; [|by rewrite configItem_put_ne].
  rewrite configItem_put. cbn. unfold setConfigEnabledTiered, item_value_of at 1. objects. by destruct (configItem set code).
Qed.

Lemma setting_set set code v layer ref : is_nil v = false -> setting (setConfigValue set code v layer ref) code = Some v.
Proof. intros Hv. unfold setting. rewrite configItem_set. cbn. by apply written_value. Qed.

Lemma setting_set_ne set code c v layer ref : code <> c -> setting (setConfigValue set code v layer ref) c = setting set c.
Proof. intros H. unfold setting. by rewrite configItem_set_ne. Qed.

Section Frames.
Context `{MR : MapRange}.
Variables layer ref : string.

Lemma setting_disable set raw c : setting (disable_parameter set raw) c = setting set c.
Proof. unfold disable_parameter. destruct (as_map raw); [|done]. destruct (_ <>s ""); [apply setting_enabled|done]. Qed.

Lemma setting_disable_all set l c : setting (foldl disable_parameter set l) c = setting set c.
Proof. revert set. induction l as [|x l IH]; intros set; cbn [foldl]; [done|]. by rewrite IH, setting_disable. Qed.

(** An element of [parameter_values] for another setting. *)
Definition elsewhere (c : string) (raw : any) : Prop := forall item, raw = AMap item -> parameter_code item <> c.

Lemma setting_parameter set raw c : elsewhere c raw -> setting (override_parameter layer ref set raw) c = setting set c.
Proof.
  intros H. unfold override_parameter. destruct (as_map raw) as [item|] eqn:E; [|done].
  assert (raw = AMap item) as Hraw by (destruct raw; try done; by injection E as ->). specialize (H _ Hraw). unfold parameter_code in H.
  destruct (_ =s ""); [done|].
  destruct (obj_get item "value"), (as_bool _); rewrite ?setting_enabled, ?setting_set_ne by done; done.
Qed.

Lemma setting_parameters set l c : Forall (elsewhere c) l -> setting (foldl (override_parameter layer ref) set l) c = setting set c.
Proof.
  intros H. revert set. induction H as [|x l Hx _ IH]; intros set; cbn [foldl]; [done|]. by rewrite IH, setting_parameter.
Qed.

Lemma setting_write_default set code c v : code <> c -> setting (write_default set code v) c = setting set c.
Proof. intros H. unfold write_default, setting. destruct (configItem set code); [|done]. by rewrite configItem_put_ne. Qed.

Lemma setting_env set value c : c <> "runtime.env" -> setting (override_env layer ref set value) c = setting set c.
Proof.
  intros H. unfold override_env. rewrite setting_set_ne by done. destruct (shares_default _ _); [|done]. by apply setting_write_default.
Qed.

Lemma setting_entry_ne set key value c : key <> c -> setting (override_entry layer ref set key value) c = setting set c.
Proof.
  intros H. unfold override_entry. destruct (as_map value) as [entry|]; [|by apply setting_set_ne].
  destruct (obj_get entry "value"); [|by apply setting_set_ne]. destruct (as_bool _); rewrite ?setting_enabled; by apply setting_set_ne.
Qed.

(** What an override entry asks for. *)
Definition requested (value : any) : any :=
  match as_map value with Some entry => default value (obj_get entry "value") | None => value end.

Lemma setting_entry set key value : is_nil (requested value) = false -> setting (override_entry layer ref set key value) key = Some (requested value).
Proof.
  unfold requested, override_entry. destruct (as_map value) as [entry|]; [|apply setting_set].
  destruct (obj_get entry "value") as [v|]; cbn; [|apply setting_set]. intros Hv. destruct (as_bool _); rewrite ?setting_enabled; by apply setting_set.
Qed.

Definition special_keys : list string := ["parameter_values"; "disabled_parameters"; "env"].

Definition harmless (c : string) (kv : string * any) : Prop :=
  kv.1 <> c /\ (kv.1 = "parameter_values" -> Forall (elsewhere c) (elements kv.2)).

Lemma setting_step set kv c : c <> "runtime.env" -> harmless c kv -> setting (override_step layer ref set kv) c = setting set c.
Proof.
  intros Hc [Hne Hp]. unfold override_step. destruct (kv.1 =s "parameter_values") eqn:E1; bool_facts; [by apply setting_parameters, Hp|].
  destruct (kv.1 =s "disabled_parameters"); [apply setting_disable_all|]. destruct (kv.1 =s "env"); [by apply setting_env|].
  by apply setting_entry_ne.
Qed.

Lemma setting_steps set l c : c <> "runtime.env" -> Forall (harmless c) l -> setting (foldl (override_step layer ref) set l) c = setting set c.
Proof.
  intros Hc H. revert set. induction H as [|x l Hx _ IH]; intros set; cbn [foldl]; [done|]. by rewrite IH, setting_step.
Qed.

(** A setting that a deployment overrides by its own key reads the value asked for,
    whatever else is overridden and in whatever order the map is ranged over, as long as
    no element of [parameter_values] names the same setting. *)
Theorem override_wins set overrides code value def :
  obj_get overrides code = Some value -> code ∉ special_keys -> code <> "runtime.env" -> is_nil (requested value) = false ->
  (forall l, obj_get overrides "parameter_values" = Some l -> Forall (elsewhere code) (elements l)) ->
  configValue (applyConfigOverrides layer ref set overrides) code def = requested value.
Proof.
  intros Hget Hsp Henv Hnil Hpv. rewrite configValue_setting. unfold applyConfigOverrides.
  assert ((code, value) ∈ range (obj_map overrides)) as Hin by (by rewrite elem_of_range, obj_map_lookup).
  pose proof (range_NoDup (obj_map overrides)) as Hnd. apply list_elem_of_split in Hin as (l1 & l2 & El).
  assert (forall kv, kv ∈ l1 ++ l2 -> harmless code kv) as Hh.
  { intros [k v] Hkv. split.
    - cbn. intros ->. rewrite El, fmap_app, fmap_cons in Hnd. apply NoDup_app in Hnd as (_ & Hd & [Hn _]%NoDup_cons).
      apply elem_of_app in Hkv as [H|H]; apply (list_elem_of_fmap_2 fst) in H; cbn in H; [|done]. apply (Hd _ H). by left.
    - cbn. intros ->. apply Hpv. rewrite <- obj_map_lookup, <- elem_of_range, El, elem_of_app, elem_of_cons.
      apply elem_of_app in Hkv. tauto. }
  rewrite El, foldl_app. cbn [foldl]. rewrite setting_steps; [|done|apply Forall_forall; intros kv Hkv; apply Hh, elem_of_app; by right].
  unfold override_step; cbn [fst snd]. unfold special_keys in Hsp. rewrite !not_elem_of_cons in Hsp. destruct Hsp as (H1 & H2 & H3 & _).
  rewrite (proj2 (String.eqb_neq _ _) H1), (proj2 (String.eqb_neq _ _) H2), (proj2 (String.eqb_neq _ _) H3).
  by rewrite setting_entry.
Qed.
End Frames.

(** ** Overrides keep the shape *)

Section Shape.
Context `{MR : MapRange}.
Variables layer ref : string.

Definition present (set : obj) (code : string) : Prop := is_Some (configItem set code).

(** An element that only enables or disables names an item of the set. *)
Definition parameter_known (set : obj) (raw : any) : Prop :=
  forall item, raw = AMap item -> obj_get item "value" = None -> is_Some (as_bool (get_any item "enabled")) ->
    parameter_code item = "" \/ present set (parameter_code item).
Definition disabled_known (set : obj) (raw : any) : Prop :=
  forall item, raw = AMap item -> disabled_code item = "" \/ present set (disabled_code item).

Definition entry_known (set : obj) (kv : string * any) : Prop :=
  (kv.1 = "parameter_values" -> Forall (parameter_known set) (elements kv.2)) /\
  (kv.1 = "disabled_parameters" -> Forall (disabled_known set) (elements kv.2)).

(** A well-formed set with at least the items of [set0]. *)
Definition good (set0 set : obj) : Prop :=
  validateTieredConfigSet set = None /\ forall c, present set0 c -> present set c.

Lemma put_item_good set0 set code item : tiered item -> good set0 set -> good set0 (put_item set code item).
Proof.
  intros Hi [Hv Hp]. split; [by apply put_item_valid|]. intros c Hc. unfold present. destruct (decide (code = c)) as [<-|Hne].
  - rewrite configItem_put. by eexists.
  - rewrite configItem_put_ne by done. by apply Hp.
Qed.

Lemma set_value_good set0 set code v : good set0 set -> good set0 (setConfigValue set code v layer ref).
Proof.
  intros Hg. apply put_item_good; [|done]. apply (written_tiered set code v layer ref). intros item. eapply valid_item, Hg.
Qed.

Lemma set_enabled_good set0 set code b : present set code -> good set0 set -> good set0 (setConfigEnabled set code b).
Proof.
  intros [item Hi] Hg. apply put_item_good; [|done]. rewrite Hi. apply tiered_update; [set_solver|]. eapply valid_item; [apply Hg|done].
Qed.

Lemma parameter_good set0 set raw : parameter_known set0 raw -> good set0 set -> good set0 (override_parameter layer ref set raw).
Proof.
  intros Hk Hg. unfold override_parameter. destruct (as_map raw) as [item|] eqn:E; [|done].
  assert (raw = AMap item) as Hraw by (destruct raw; try done; by injection E as ->). specialize (Hk _ Hraw). unfold parameter_code in Hk.
  cbv zeta. set (code := or_field _ _) in *. destruct (code =s "") eqn:Ec; [done|]. bool_facts.
  destruct (obj_get item "value") as [v|] eqn:Ev.
  - pose proof (set_value_good set0 set code v Hg). destruct (as_bool _); [|done]. apply set_enabled_good; [|done]. apply setConfigValue_present.
  - destruct (as_bool _) as [b|]; [|done]. apply set_enabled_good; [|done]. destruct (Hk eq_refl) as [?|?]; [by eexists|done|by apply Hg].
Qed.

Lemma disable_good set0 set raw : disabled_known set0 raw -> good set0 set -> good set0 (disable_parameter set raw).
Proof.
  intros Hk Hg. unfold disable_parameter. destruct (as_map raw) as [item|] eqn:E; [|done].
  assert (raw = AMap item) as Hraw by (destruct raw; try done; by injection E as ->). specialize (Hk _ Hraw). unfold disabled_code in Hk.
  cbv zeta. set (code := or_field _ _) in *. destruct (code =s "") eqn:Ec; bool_facts; [done|]. destruct Hk as [?|Hk]; [done|].
  by apply set_enabled_good; [apply Hg|].
Qed.

Lemma foldl_good {A} (f : obj -> A -> obj) (P : A -> Prop) set0 l set :
  (forall s x, P x -> good set0 s -> good set0 (f s x)) -> Forall P l -> good set0 set -> good set0 (foldl f set l).
Proof. intros Hf Hl. revert set. induction Hl as [|x l Hx _ IH]; intros set Hg; cbn [foldl]; [done|]. by apply IH, Hf. Qed.

Lemma step_good set0 set kv : entry_known set0 kv -> good set0 set -> good set0 (override_step layer ref set kv).
Proof.
  intros [Hp Hd] Hg. unfold override_step. destruct (kv.1 =s "parameter_values") eqn:E1; bool_facts.
  { eapply foldl_good; [|by apply Hp|done]. intros. by apply parameter_good. }
  destruct (kv.1 =s "disabled_parameters") eqn:E2; bool_facts.
  { eapply foldl_good; [|by apply Hd|done]. intros. by apply disable_good. }
  destruct (kv.1 =s "env").
  - apply set_value_good. destruct (shares_default _ _); [|done]. unfold write_default.
    destruct (configItem set "runtime.env") as [item|] eqn:E; [|done]. apply put_item_good; [|done].
    apply tiered_update; [set_solver|]. eapply valid_item; [apply Hg|done].
  - unfold override_entry. destruct (as_map kv.2) as [entry|]; [|by apply set_value_good].
    destruct (obj_get entry "value") as [v|]; [|by apply set_value_good]. destruct (as_bool _); [|by apply set_value_good].
    apply set_enabled_good; [apply setConfigValue_present|by apply set_value_good].
Qed.

(** Overrides keep a well-formed set well formed, for every order of the map, when the
    elements that only enable or disable a parameter name one of the set. *)
Theorem overrides_keep_shape set overrides :
  validateTieredConfigSet set = None -> (forall kv, kv ∈ range (obj_map overrides) -> entry_known set kv) ->
  validateTieredConfigSet (applyConfigOverrides layer ref set overrides) = None.
Proof.
  intros Hv Hk. apply (foldl_good (override_step layer ref) (entry_known set) set); [|by apply Forall_forall|by split].
  intros s x. apply step_good.
Qed.
End Shape.

(** ** The parameters given to the resolver *)

Section Parameters.
Context `{MR : MapRange}.

Lemma elem_parameter_values set pv :
  pv ∈ configSetParameterValues set <-> exists code item, configItem set code = Some item /\ pv ∈ item_parameter_value set code item.
Proof.
  unfold configSetParameterValues. rewrite elem_of_concat_map. split.
  - intros ([code raw] & Hin%elem_of_range & Hpv). cbn [fst snd] in Hpv. rewrite obj_map_lookup in Hin.
    destruct (as_map raw) as [item|] eqn:E; [|by apply not_elem_of_nil in Hpv]. exists code, item. split; [|done].
    unfold configItem, get_obj. by rewrite Hin.
  - intros (code & item & Hi & Hpv). unfold configItem, get_obj in Hi. destruct (obj_get _ code) as [raw|] eqn:E; [|done].
    exists (code, raw). split; [by rewrite elem_of_range, obj_map_lookup|]. cbn in Hi |- *. by rewrite Hi.
Qed.

Lemma item_parameter_key set code item pv : pv ∈ item_parameter_value set code item -> pv_Key pv = code.
Proof.
  unfold item_parameter_value. repeat case_match; try (by intros ?%not_elem_of_nil); by intros ->%list_elem_of_singleton.
Qed.

(** A parameter enabled with a new value. *)
Definition reset_parameter (code : string) (v : any) (old : ParameterValue) : ParameterValue :=
  {| pv_Key := code; pv_Type := pv_Type old; pv_Target := pv_Target old; pv_CliName := pv_CliName old;
     pv_EnvName := pv_EnvName old; pv_RenderStyle := pv_RenderStyle old; pv_Enabled := true; pv_Value := v;
     pv_Default := pv_Default old; pv_Source := "config_set"; pv_CopiedFrom := ""; pv_UserOverride := false |}.

(** Setting a command-line parameter changes what the resolver is given for it and
    nothing else: the parameter comes enabled, with the new value and the flag, type
    and target it had, and the parameters of the other items are those given before. *)
Theorem set_parameter_given set code item v layer ref pv :
  configItem set code = Some item -> configItemSchemaField item "kind" = "cli_arg" -> is_nil v = false ->
  pv ∈ configSetParameterValues (setConfigValue set code v layer ref) <->
  (exists old, old ∈ item_parameter_value set code item /\ pv = reset_parameter code v old) \/
  (pv_Key pv <> code /\ pv ∈ configSetParameterValues set).
Proof.
  intros Hi Hk Hv. rewrite !elem_parameter_values.
  assert (defaultValueFromItem (written set code v layer ref) = defaultValueFromItem item) as Hd.
  { unfold defaultValueFromItem, written, set_provenance, setConfigEnabledTiered, setConfigValueTiered. rewrite Hi. objects. cbn [default from_option id].
    unfold get_any. objects. by destruct (get_obj item "value"). }
  assert (item_parameter_value (setConfigValue set code v layer ref) code (written set code v layer ref) =
          map (reset_parameter code v) (item_parameter_value set code item)) as Hw.
  { unfold item_parameter_value. rewrite !(written_schema set code v layer ref _ item Hi), !(written_render set code v layer ref _ item Hi), Hk, Hd.
    cbn [String.eqb negb andb]. cbv beta iota zeta. cbn. by rewrite configValue_set, written_enabled by done. }
  split.
  - intros (c & x & Hx & Hpv). destruct (decide (code = c)) as [<-|Hne].
    + left. rewrite configItem_set in Hx. injection Hx as <-. rewrite Hw in Hpv. by apply list_elem_of_fmap in Hpv as (old & -> & Ho); exists old.
    + right. rewrite configItem_set_ne in Hx by done. split; [by rewrite (item_parameter_key _ _ _ _ Hpv)|]. exists c, x. split; [done|].
      revert Hpv. unfold item_parameter_value. by rewrite configValue_set_ne.
  - intros [(old & Ho & ->)|(Hne & c & x & Hx & Hpv)].
    + exists code, (written set code v layer ref). split; [apply configItem_set|]. rewrite Hw. by apply list_elem_of_fmap_2.
    + rewrite (item_parameter_key _ _ _ _ Hpv) in Hne. exists c, x. rewrite configItem_set_ne by done. split; [done|].
      revert Hpv. unfold item_parameter_value. by rewrite configValue_set_ne.
Qed.
End Parameters.

(** ** At concrete inputs *)

#[local] Existing Instance canonical_range.

(** An item as the catalog writes it: empty fields of the schema are left out and
    there is no render tier. *)
Definition demo_config : obj := parseConfigSet (jq
  "{`schema_version`:1,`items`:{`model_runtime.enforce_eager`:{`schema`:{`key`:`model_runtime.enforce_eager`,`type`:`boolean`,`kind`:`cli_arg`,`target`:`cli`,`arg_name`:`--enforce-eager`},`value`:{`default_value`:false,`effective_value`:false},`state`:{`enabled`:false}},`runtime.env`:{`schema`:{`key`:`runtime.env`},`value`:{`default_value`:{`A`:`1`}},`state`:{}}}}").

Definition demo_code : string := "model_runtime.enforce_eager".

Definition demo_overrides (text : string) : obj := default [] (Unmarshal (jq text) ≫= as_map).

Example demo_valid : validateTieredConfigSet demo_config = None.
Proof. vm_compute. reflexivity. Qed.

(** The parameter of a catalog item carries the text of nil as its render style, and
    its definition carries it as its flag. *)
Example nil_style_and_flag :
  map (fun pv => (pv_CliName pv, pv_RenderStyle pv, pv_EnvName pv)) (configSetParameterValues demo_config)
    = [("--enforce-eager", "<nil>", "<nil>")] /\
  map pd_CliName (configSetParameterDefs demo_config) = ["<nil>"].
Proof. split; vm_compute; reflexivity. Qed.

(** A switch therefore takes an argument on the command line. *)
Example switch_takes_an_argument :
  map (fun pv => renderParameterValueArgs ∅ pv (cli_name pv))
      (configSetParameterValues (applyConfigOverrides "Deployment" "d1" demo_config
         (demo_overrides "{`model_runtime.enforce_eager`:true}")))
  = [Rendered ["--enforce-eager"; "true"]].
Proof. vm_compute. reflexivity. Qed.

(** The fallbacks to other names are not reached: an element without a key goes to the
    item named after nil. *)
Example element_without_key :
  setting (applyConfigOverrides "Deployment" "d1" demo_config
    (demo_overrides "{`parameter_values`:[{`code`:`model_runtime.enforce_eager`,`value`:true}]}")) "<nil>" = Some (ABool true).
Proof. vm_compute. reflexivity. Qed.

(** Disabling a parameter the set does not have leaves an item without tiers. *)
Example disabling_breaks_shape :
  validateTieredConfigSet (applyConfigOverrides "Deployment" "d1" demo_config
    (demo_overrides "{`disabled_parameters`:[{`key`:`model_runtime.unknown`}]}")) <> None.
Proof. vm_compute. discriminate. Qed.

(** Overriding a variable changes the default the set keeps. *)
Example env_override_changes_default :
  (it ← configItem (applyConfigOverrides "Deployment" "d1" demo_config (demo_overrides "{`env`:{`B`:`2`}}")) "runtime.env";
   get_obj it "value") ≫= (fun v => obj_get v "default_value") = Some (AMap [("A", AStr "1"); ("B", AStr "2")]).
Proof. vm_compute. reflexivity. Qed.

Lemma override_wins_witness :
  let overrides := demo_overrides "{`model_runtime.enforce_eager`:{`value`:true,`enabled`:true},`env`:{`B`:`2`},`disabled_parameters`:[{`key`:`model_runtime.enforce_eager`}]}" in
  obj_get overrides demo_code = Some (AMap [("enabled", ABool true); ("value", ABool true)]) /\
  configValue (applyConfigOverrides "Deployment" "d1" demo_config overrides) demo_code ANil = ABool true.
Proof.
  cbv zeta. split; [vm_compute; reflexivity|].
  apply (override_wins "Deployment" "d1" demo_config
    (demo_overrides "{`model_runtime.enforce_eager`:{`value`:true,`enabled`:true},`env`:{`B`:`2`},`disabled_parameters`:[{`key`:`model_runtime.enforce_eager`}]}")
    demo_code (AMap [("enabled", ABool true); ("value", ABool true)]) ANil).
  - vm_compute. reflexivity.
  - vm_compute. intros H. repeat (apply elem_of_cons in H as [H|H]; [discriminate|]). by apply not_elem_of_nil in H.
  - discriminate.
  - reflexivity.
  - intros l H. vm_compute in H. discriminate.
Defined.

Lemma overrides_keep_shape_witness :
  let overrides := demo_overrides "{`disabled_parameters`:[{`key`:`model_runtime.enforce_eager`}]}" in
  validateTieredConfigSet demo_config = None /\
  validateTieredConfigSet (applyConfigOverrides "Deployment" "d1" demo_config overrides) = None.
Proof.
  cbv zeta. split; [vm_compute; reflexivity|].
  apply (overrides_keep_shape "Deployment" "d1" demo_config (demo_overrides "{`disabled_parameters`:[{`key`:`model_runtime.enforce_eager`}]}")).
  - vm_compute. reflexivity.
  - intros kv Hkv.
    assert (kv = ("disabled_parameters", AList [AMap [("key", AStr demo_code)]])) as ->.
    { vm_compute in Hkv. apply list_elem_of_singleton in Hkv. exact Hkv. }
    split; [discriminate|]. intros _. apply Forall_cons. split; [|constructor].
    intros item [= <-]. right. vm_compute. by eexists.
Defined.

Lemma set_parameter_given_witness :
  configItem demo_config demo_code <> None /\
  exists pv, pv ∈ configSetParameterValues (setConfigValue demo_config demo_code (ABool true) "Deployment" "d1") /\
             pv_Key pv = demo_code /\ pv_Value pv = ABool true /\ pv_Enabled pv = true.
Proof.
  split; [vm_compute; discriminate|].
  destruct (configItem demo_config demo_code) as [item|] eqn:Hi; [|vm_compute in Hi; discriminate].
  destruct (item_parameter_value demo_config demo_code item) as [|old olds] eqn:Ho.
  { vm_compute in Hi. injection Hi as <-. vm_compute in Ho. discriminate. }
  exists (reset_parameter demo_code (ABool true) old). split; [|repeat split].
  apply (set_parameter_given demo_config demo_code item (ABool true) "Deployment" "d1" _ Hi).
  - vm_compute in Hi. injection Hi as <-. vm_compute. reflexivity.
  - reflexivity.
  - left. exists old. split; [rewrite Ho; apply list_elem_of_here|reflexivity].
Defined.
