(* ===== verification/ConfigEdit.v ===== *)
(** * Editing configuration sets (internal/server/configedit: taxonomy.go, configset_adapter.go, tiered_helpers.go, validate.go, apply.go)

    An edit patch names items of a set, checks that the layer may change them, and
    writes their values.  The set is copied through JSON first, so that the result
    shares nothing with the original; only a value written by the same patch is shared
    between the local and the effective value of its item. *)
From S2P Require Import Prelude GoStrings GoNumbers GoValue GoJson.
From Stdlib Require Import Ascii SpecFloat.

Record EditFieldPatch := {
  fp_Key : string; fp_InternalKey : string; fp_Path : list string; fp_Value : any; fp_Enabled : option bool
}.
Record ConfigEditPatch := { cp_Layer : string; cp_ObjectID : string; cp_Fields : list EditFieldPatch }.

(** ** configset_adapter.go *)

Definition stringValue (v : any) : string := default "" (as_str v).
Definition boolValue (v : any) : bool := default false (as_bool v).

(** [float32] does not occur among the values of a document. *)
Definition intValue (v : any) : Z := match v with AInt n | AInt64 n => n | AFloat f => f64_to_int f | _ => 0%Z end.

Definition firstInt (values : list any) : Z := default 0%Z (List.find (fun n => negb (n =? 0)%Z) (map intValue values)).

Definition nestedMap (item : obj) (key : string) : obj := default [] (get_obj item key).
Definition nestedString (item : obj) (parent key : string) : string := stringValue (get_any (nestedMap item parent) key).

Definition tieredAnyField (item : obj) (tierKey fieldKey : string) : any :=
  match get_obj item tierKey with Some tier => get_any tier fieldKey | None => get_any item fieldKey end.
Definition tieredStringField (item : obj) (tierKey fieldKey : string) : string := stringValue (tieredAnyField item tierKey fieldKey).
Definition tieredBoolField (item : obj) (tierKey fieldKey : string) : bool := boolValue (tieredAnyField item tierKey fieldKey).

(** A field of a tier alone. *)
Definition schema_bool (item : obj) (k : string) : bool := boolValue (get_any (nestedMap item "schema") k).
Definition schema_text (item : obj) (k : string) : string := nestedString item "schema" k.

Definition itemRequired (item : obj) : bool := schema_bool item "required".
Definition itemReadonly (item : obj) : bool := schema_bool item "read_only".
Definition itemVisibility (item : obj) : string := schema_text item "visibility".
Definition itemCategory (item : obj) : string := schema_text item "category".
Definition itemEnabled (item : obj) : bool := boolValue (get_any (nestedMap item "state") "enabled").

Definition itemDefaultValue (item : obj) : any :=
  match get_obj item "value" with
  | Some vt => match obj_get vt "default_value" with Some dv => dv | None => get_any item "default_value" end
  | None => get_any item "default_value"
  end.

Definition itemInheritedValue (item : obj) : any :=
  match get_obj item "value" with Some vt => get_any vt "inherited_value" | None => ANil end.

Definition itemEffectiveValue (item : obj) : any :=
  match get_obj item "value" with
  | Some v =>
      if negb (is_nil (get_any v "effective_value")) then get_any v "effective_value"
      else match obj_get v "default_value" with Some dv => dv | None => get_any item "value" end
  | None => get_any item "value"
  end.

(** [for k, v := range m { out[k] = v }] *)
Definition put_all (m out : obj) : obj := foldl (fun o kv => obj_set kv.1 kv.2 o) out m.

Definition sourceFor (item : obj) : obj :=
  put_all (nestedMap item "snapshot") (put_all (nestedMap item "provenance") (put_all (nestedMap item "source") [])).

Definition constraintsFor (item : obj) : obj :=
  let schema := nestedMap item "schema" in
  let out := put_all (List.filter (fun kv => existsb (String.eqb kv.1) ["min"; "max"; "step"; "pattern"]) schema) [] in
  put_all (nestedMap schema "constraints") (put_all (nestedMap item "constraints") out).

Definition put_some (k : string) (v : any) (out : obj) : obj := if is_nil v then out else obj_set k v out.

Definition validationRulesFor (item : obj) : obj :=
  let schema := nestedMap item "schema" in
  let out := foldl (fun o k => put_some k (tieredAnyField item "schema" k) o) [] ["required"; "min"; "max"; "step"; "pattern"; "choices"] in
  let out := foldl (fun o k => put_some k (get_any (nestedMap schema "constraints") k) o) out ["min"; "max"; "step"; "pattern"; "options"] in
  put_all (nestedMap (nestedMap item "render") "validation_rules") (put_all (nestedMap schema "validation_rules") out).

(** The copy through JSON; a nil set and one without JSON give the empty set. *)
Definition NormalizeConfigSet (set : obj) : obj :=
  let out := reread_obj set in
  match get_obj out "items" with Some _ => out | None => obj_set "items" (AMap []) out end.

Definition itemsMap (set : obj) : obj := default [] (get_obj set "items").

Definition itemMap (items : obj) (key : string) : obj := default [("code", AStr key)] (get_obj items key).

(** ** taxonomy.go: layers *)

Definition layerHiddenCodes (layer : string) : list string :=
  if (layer =s "backend_runtime") || (layer =s "node_backend_runtime") then ["backend.capabilities"; "backend.supported_config_items"]
  else if layer =s "deployment"
  then ["launcher.image"; "backend.capabilities"; "backend.supported_config_items"; "launcher.docker_options"]
  else [].

Definition layerReadonlyCodes (layer : string) : list string :=
  if layer =s "deployment" then ["launcher.command"; "launcher.entrypoint"; "runtime.model_mount"] else [].

Definition isLayerHidden (code layer : string) : bool :=
  existsb (String.eqb code) (layerHiddenCodes layer) || ((layer =s "deployment") && HasPrefix code "launcher.docker_options.").

Definition isLayerReadonly (code layer : string) : bool := existsb (String.eqb code) (layerReadonlyCodes layer).

(** ** validate.go *)

Definition deploymentProtectedFields : list string :=
  ["launcher.image"; "launcher.command"; "launcher.entrypoint"; "runtime.model_mount"].

Definition isDirectLegacyPatchKey (key : string) : bool :=
  HasPrefix key "backend.arg." || HasPrefix key "backend.common." || (key =s "launcher.listen_host") || (key =s "launcher.container_port").

(** The internal key a patch writes to. *)
Definition target_key (f : EditFieldPatch) : string := if fp_InternalKey f =s "" then fp_Key f else fp_InternalKey f.

Definition field_error (items : obj) (layer : string) (f : EditFieldPatch) : option string :=
  let key := fp_Key f in
  let internal := target_key f in
  let refuse what k := Some ("field " +s+ Quote k +s+ " is " +s+ what +s+ " at layer " +s+ Quote layer) in
  if (layer <>s "node_backend_runtime") && isDirectLegacyPatchKey key
  then Some ("direct legacy key patch " +s+ Quote key +s+ " is not allowed")
  else if isLayerHidden key layer then refuse "hidden" key
  else if (internal <>s key) && isLayerHidden internal layer then refuse "hidden" internal
  else if isLayerReadonly key layer then refuse "readonly" key
  else if (internal <>s key) && isLayerReadonly internal layer then refuse "readonly" internal
  else if (layer =s "deployment") && existsb (String.eqb internal) deploymentProtectedFields
  then Some ("field " +s+ Quote internal +s+ " is protected at deployment layer")
  else match get_obj items internal with
       | None => Some ("unknown config field " +s+ Quote internal)
       | Some item =>
           if itemReadonly item || (itemVisibility item =s "internal") || (itemVisibility item =s "hidden")
           then Some ("field " +s+ Quote internal +s+ " is readonly") else None
       end.

Definition ValidateEditPatch (set : obj) (patch : ConfigEditPatch) : option string :=
  head (omap (field_error (itemsMap (NormalizeConfigSet set)) (cp_Layer patch)) (cp_Fields patch)).

(** ** tiered_helpers.go *)

Definition setItemEffectiveValue (value : any) (item : obj) : obj :=
  obj_set "value" (AMap (obj_set "effective_value" value (obj_set "local_value" value (nestedMap item "value")))) item.

Definition setItemStateEnabled (enabled : bool) (item : obj) : obj :=
  obj_set "state" (AMap (obj_set "checked" (ABool enabled) (obj_set "enabled" (ABool enabled) (nestedMap item "state")))) item.

(** ** apply.go *)

Definition pathKey (path : list string) : string := GoStrings.Join path ".".

(** [setPathValue] on a map that is not nil. *)
Fixpoint setPathValue (root : obj) (path : list string) (value : any) : obj :=
  match path with
  | [] => root
  | [p] => obj_set p value root
  | p :: path => obj_set p (AMap (setPathValue (nestedMap root p) path value)) root
  end.

Definition setPathEnabled (path : list string) (enabled : bool) (item : obj) : obj :=
  obj_set "enabled_fields" (AMap (obj_set (pathKey path) (ABool enabled) (nestedMap item "enabled_fields"))) item.

(** Where [valueMap] points: inside the effective value, at the flat value, at a new
    effective value, or at the nil map, to which nothing can be assigned. *)
Inductive value_place := InEffective (tier value : obj) | InFlat (value : obj) | InNew | Nowhere.

Definition valueMap (item : obj) : value_place :=
  match get_obj item "value" with
  | Some vt =>
      match obj_get vt "effective_value" with
      | Some ev => match as_map ev with Some m => InEffective vt m | None => Nowhere end
      | None => InFlat vt
      end
  | None => InNew
  end.

(** [shared]: the local value is the same object as the effective one. *)
Definition write_path (shared : bool) (path : list string) (value : any) (item : obj) : option obj :=
  match valueMap item with
  | InEffective vt m =>
      let m' := AMap (setPathValue m path value) in
      let vt := if shared then obj_set "local_value" m' vt else vt in
      Some (obj_set "value" (AMap (obj_set "effective_value" m' vt)) item)
  | InFlat vt => Some (obj_set "value" (AMap (setPathValue vt path value)) item)
  | InNew => Some (obj_set "value" (AMap [("effective_value", AMap (setPathValue [] path value))]) item)
  | Nowhere => None
  end.

Definition source_entry (layer ref reason now : string) : any :=
  AMap [("layer", AStr layer); ("reason", AStr reason); ("ref", AStr ref); ("updated_at", AStr now)].

(** A field of a patch; [None] is the assignment to a nil map. *)
Definition edit_item (layer ref now : string) (shared : bool) (f : EditFieldPatch) (item : obj) : option obj :=
  item ← match fp_Path f with
         | [] => Some (setItemEffectiveValue (fp_Value f) item)
         | path =>
             item ← write_path shared path (fp_Value f) item;
             Some match fp_Enabled f with Some b => setPathEnabled path b item | None => item end
         end;
  let item := if itemRequired item then setItemStateEnabled true item
              else match fp_Enabled f, fp_Path f with Some b, [] => setItemStateEnabled b item | _, _ => item end in
  Some (obj_set "source" (source_entry layer ref "config_edit_patch" now) item).

(** The items, and those whose local and effective values are one object. *)
Record edit_state := { es_items : obj; es_shared : gset string }.

Definition edit_field (layer ref now : string) (st : edit_state) (f : EditFieldPatch) : option edit_state :=
  let k := target_key f in
  item ← edit_item layer ref now (bool_decide (k ∈ es_shared st)) f (itemMap (es_items st) k);
  Some {| es_items := obj_set k (AMap item) (es_items st);
          es_shared := match fp_Path f with [] => {[k]} ∪ es_shared st | _ => es_shared st end |}.

Fixpoint edit_fields (layer ref now : string) (st : edit_state) (l : list EditFieldPatch) : option edit_state :=
  match l with
  | [] => Some st
  | f :: l => st ← edit_field layer ref now st f; edit_fields layer ref now st l
  end.

Definition enable_required (kv : string * any) : string * any :=
  match as_map kv.2 with
  | Some item => if itemRequired item then (kv.1, AMap (setItemStateEnabled true item)) else kv
  | None => kv
  end.

Inductive edit_outcome := EditRefused (msg : string) | EditPanic | Edited (set : obj).

Definition with_layer (layer : string) (p : ConfigEditPatch) : ConfigEditPatch :=
  if cp_Layer p =s "" then {| cp_Layer := layer; cp_ObjectID := cp_ObjectID p; cp_Fields := cp_Fields p |} else p.

Definition ApplyEditPatchToConfigSet (set : obj) (patch : ConfigEditPatch) (layer ref now : string) : edit_outcome :=
  let patch := with_layer layer patch in
  match ValidateEditPatch set patch with
  | Some e => EditRefused e
  | None =>
      let out := NormalizeConfigSet set in
      match edit_fields layer ref now {| es_items := itemsMap out; es_shared := ∅ |} (cp_Fields patch) with
      | None => EditPanic
      | Some st => Edited (obj_set "items" (AMap (map enable_required (es_items st))) out)
      end
  end.

(** Resets: the value of [pick]. *)
Definition reset_field (pick : obj -> any) (reason : string) (set : obj) (key : string) (path : list string) (layer ref now : string) : edit_outcome :=
  let out := NormalizeConfigSet set in
  let item := itemMap (itemsMap out) key in
  match (match path with [] => Some (setItemEffectiveValue (pick item) item) | _ => write_path false path (pick item) item end) with
  | None => EditPanic
  | Some item' =>
      Edited (obj_set "items" (AMap (obj_set key (AMap (obj_set "source" (source_entry layer ref reason now) item')) (itemsMap out))) out)
  end.

Definition ResetFieldToDefault := reset_field itemDefaultValue "reset_to_default".
Definition ResetFieldToParent :=
  reset_field (fun item => if is_nil (itemInheritedValue item) then itemDefaultValue item else itemInheritedValue item) "reset_to_parent".

(** ** The apply handler (config_edit_handlers.go), once the object is found and the patch decoded *)

Record reset_request := { rs_key : string; rs_path : list string; rs_mode : string }.

Inductive apply_response := ApplyForbidden | ApplyBadRequest (msg : string) | ApplyPanic | Applied (set : obj).

Definition HandleConfigEditApply (readonly : bool) (set : obj) (patch : ConfigEditPatch) (reset : option reset_request) (layer id now : string) :
    apply_response :=
  if readonly then ApplyForbidden
  else
    let out :=
      match reset with
      | Some r =>
          if rs_key r =s "" then EditRefused "reset key required"
          else if rs_mode r =s "parent" then ResetFieldToParent set (rs_key r) (rs_path r) layer id now
          else ResetFieldToDefault set (rs_key r) (rs_path r) layer id now
      | None => ApplyEditPatchToConfigSet set (with_layer layer patch) layer id now
      end in
    match out with EditRefused e => ApplyBadRequest e | EditPanic => ApplyPanic | Edited s => Applied s end.

(** * The taxonomy of the editor (internal/server/configedit/taxonomy.go)

    The sections of the form, the labels, the keys that stand for one setting, the tiers of
    launch arguments, and where a key belongs. *)
(** A map with constant entries. *)
Definition lookup_text {A} (l : list (string * A)) (k : string) : option A := snd <$> find (fun kv => kv.1 =s k) l.

Definition sectionOrders : list (string * Z) :=
  [("basic", 10%Z); ("model_serving", 20%Z); ("advanced_parameters", 30%Z); ("expert_parameters", 35%Z); ("backend_runtime", 40%Z);
   ("container_resources", 50%Z); ("security_high_risk", 55%Z); ("devices_mounts", 60%Z); ("environment", 70%Z); ("service", 80%Z);
   ("health_check", 90%Z); ("advanced_raw", 95%Z)].
(** The order of a section, zero for a name without one. *)
Definition sectionOrder (key : string) : Z := default 0%Z (lookup_text sectionOrders key).

Definition sectionLabels : list (string * string) :=
  [("basic", "Basic"); ("model_serving", "Model serving"); ("advanced_parameters", "Advanced parameters"); ("expert_parameters", "Expert parameters");
   ("backend_runtime", "Backend runtime"); ("container_resources", "Container resources"); ("security_high_risk", "Security / High Risk");
   ("devices_mounts", "Devices and mounts"); ("environment", "Environment"); ("service", "Service"); ("health_check", "Health check");
   ("advanced_raw", "Advanced raw configuration")].

Definition taxonomyLabels : list (string * string) :=
  [("launcher.image", "Image"); ("launcher.command", "Command"); ("launcher.entrypoint", "Entrypoint");
   ("launcher.docker_options.shm_size", "Shared memory"); ("launcher.docker_options.privileged", "Privileged container");
   ("launcher.docker_options.ipc_mode", "IPC mode"); ("launcher.docker_options.uts_mode", "UTS mode");
   ("launcher.docker_options.network_mode", "Network mode"); ("launcher.docker_options.security_options", "Security options");
   ("launcher.docker_options.ulimits", "Ulimits"); ("launcher.docker_options.devices", "Devices");
   ("launcher.docker_options.group_add", "Additional groups"); ("launcher.docker_options.cap_add", "Capabilities");
   ("launcher.docker_options.cap_drop", "Dropped capabilities"); ("launcher.docker_options.device_cgroup_rules", "Device cgroup rules");
   ("launcher.docker_options.extra_hosts", "Extra hosts"); ("launcher.docker_options.pid_mode", "PID mode");
   ("launcher.docker_options.userns_mode", "User namespace mode"); ("launcher.docker_options.runtime", "Docker runtime");
   ("runtime.model_mount", "Model mount"); ("runtime.device_binding", "Device binding"); ("runtime.env", "Environment variables");
   ("runtime.health", "Health check"); ("service.container_port", "Container port"); ("service.host_port", "Host port");
   ("service.listen_host", "Container listen host"); ("deployment.served_model_name", "Served model name");
   ("backend.extra_args", "Extra launch arguments"); ("runtime.extra_env", "Extra environment variables"); ("launcher.kind", "Launcher type");
   ("launcher.devices", "Device bindings"); ("launcher.ports", "Port mappings"); ("launcher.volumes", "Volume mounts");
   ("model_runtime.gpu_memory_utilization", "GPU memory utilization"); ("model_runtime.max_model_len", "Max model length");
   ("model_runtime.dtype", "Data type"); ("model_runtime.tensor_parallel_size", "Tensor parallel size");
   ("model_runtime.pipeline_parallel_size", "Pipeline parallel size"); ("model_runtime.max_num_batched_tokens", "Max batched tokens");
   ("model_runtime.max_num_seqs", "Max concurrent sequences"); ("model_runtime.kv_cache_dtype", "KV cache data type");
   ("model_runtime.cpu_offload_gb", "CPU offload capacity"); ("model_runtime.swap_space", "Swap space");
   ("model_runtime.enforce_eager", "Enforce eager mode"); ("model_runtime.trust_remote_code", "Trust remote code");
   ("model_runtime.safetensors_load_strategy", "Safetensors load strategy"); ("model_runtime.download_dir", "Model download directory");
   ("model_runtime.model", "Model path"); ("model_runtime.host", "Listen host"); ("model_runtime.port", "Service port");
   ("backend.capabilities", "Backend capabilities"); ("backend.supported_config_items", "Supported config items")].

Definition capabilityLikeCodes : list string := ["backend.capabilities"; "backend.supported_config_items"; "backend.capability_profile"; "backend.detected_capabilities"; "capabilities";
   "capabilities_detail"].

Definition widgetOverrides : list (string * string) :=
  [("runtime.env", "key_value_table"); ("runtime.device_binding", "accelerator_binding"); ("runtime.model_mount", "mount_form");
   ("runtime.health", "health_check_form"); ("service.container_port", "port_form"); ("service.host_port", "port_form")].

Record docker_spec := { sp_Path : string; sp_Section : string; sp_Type : string; sp_Widget : string; sp_Order : Z }.
Definition docker_spec_of (path section type widget : string) (order : Z) : docker_spec :=
  {| sp_Path := path; sp_Section := section; sp_Type := type; sp_Widget := widget; sp_Order := order |}.
Definition dockerFieldSpecs : list docker_spec :=
  [docker_spec_of "shm_size" "container_resources" "string" "string" 10;
   docker_spec_of "privileged" "security_high_risk" "boolean" "boolean" 20;
   docker_spec_of "ipc_mode" "container_resources" "string" "string" 30;
   docker_spec_of "uts_mode" "container_resources" "string" "string" 40;
   docker_spec_of "network_mode" "container_resources" "string" "string" 50;
   docker_spec_of "security_options" "security_high_risk" "array" "string_list" 60;
   docker_spec_of "ulimits" "container_resources" "object" "key_value_table" 70;
   docker_spec_of "devices" "devices_mounts" "array" "device_table" 10;
   docker_spec_of "group_add" "devices_mounts" "array" "string_list" 30].

(** ** Keys that stand for one setting *)

Record aliasGroup := { ag_Canonical : string; ag_Label : string; ag_Aliases : list string; ag_Section : string; ag_Widget : string }.
Definition canonicalAliases : list aliasGroup :=
  [{| ag_Canonical := "service.listen_host"; ag_Label := "Container listen host"; ag_Aliases := ["backend.common.host"; "launcher.listen_host"];
      ag_Section := "service"; ag_Widget := "string" |};
   {| ag_Canonical := "service.container_port"; ag_Label := "Container listen port"; ag_Aliases := ["backend.common.port"; "launcher.container_port"];
      ag_Section := "service"; ag_Widget := "port_form" |}].

(** The group a canonical key names. *)
Definition group_of (canon : string) : option aliasGroup := find (fun g => ag_Canonical g =s canon) canonicalAliases.

Definition aliasCanonicalOf (code : string) : option string :=
  ag_Canonical <$> find (fun g => (ag_Canonical g =s code) || existsb (String.eqb code) (ag_Aliases g)) canonicalAliases.

(** ** Launch arguments *)

Definition modelServingCodes : list string :=
  ["backend.arg.max_model_len"; "backend.arg.max_num_seqs"; "backend.arg.context_length"; "backend.arg.gpu_memory_utilization";
   "backend.arg.served_model_name"; "backend.common.served_model_name"; "backend.arg.max_num_batched_tokens"; "backend.arg.tensor_parallel_size";
   "backend.arg.pipeline_parallel_size"; "backend.arg.enforce_eager"; "backend.arg.trust_remote_code"; "backend.arg.dtype"; "backend.arg.seed";
   "backend.arg.temperature"; "backend.arg.top_p"; "backend.arg.top_k"; "backend.arg.max_tokens"; "backend.arg.repetition_penalty"].

Definition commonRuntimeArgs : list string :=
  ["backend.arg.gpu_memory_utilization"; "model_runtime.gpu_memory_utilization"; "backend.arg.max_model_len"; "model_runtime.max_model_len";
   "backend.arg.dtype"; "model_runtime.dtype"; "backend.arg.tensor_parallel_size"; "model_runtime.tensor_parallel_size"; "backend.common.port";
   "service.container_port"; "backend.arg.served_model_name"; "backend.common.served_model_name"; "deployment.served_model_name";
   "backend.arg.mem_fraction_static"; "model_runtime.mem_fraction_static"; "backend.arg.context_length"; "model_runtime.context_length";
   "backend.arg.tp_size"; "model_runtime.tp_size"; "backend.arg.tp"; "backend.arg.n_gpu_layers"; "backend.arg.ngl"; "model_runtime.n_gpu_layers";
   "model_runtime.ngl"; "backend.arg.ctx_size"; "model_runtime.ctx_size"; "backend.arg.threads"; "model_runtime.threads"; "backend.arg.batch_size";
   "model_runtime.batch_size"].

Definition expertRuntimeArgs : list string :=
  ["backend.arg.trust_remote_code"; "backend.arg.enforce_eager"; "model_runtime.trust_remote_code"; "model_runtime.enforce_eager";
   "backend.arg.cpu_offload_gb"; "model_runtime.cpu_offload_gb"; "backend.arg.kv_cache_dtype"; "model_runtime.kv_cache_dtype";
   "backend.arg.max_num_batched_tokens"; "backend.arg.max_num_seqs"; "model_runtime.max_num_seqs"; "backend.arg.swap_space"; "model_runtime.swap_space";
   "backend.arg.safetensors_load_strategy"; "model_runtime.safetensors_load_strategy"; "model_runtime.model"; "model_runtime.host";
   "model_runtime.port"; "model_runtime.download_dir"].

Definition isModelServingCode (code : string) : bool :=
  existsb (String.eqb code) modelServingCodes || HasPrefix code "model_runtime." || HasPrefix code "backend.arg.".

(** ** Values and places *)

(** A boolean is never empty. *)
Definition isEmptyValue (v : any) : bool :=
  match v with
  | ANil => true
  | AStr s => s =s ""
  | AList l => match l with [] => true | _ => false end
  | AMap m => match m with [] => true | _ => false end
  | AFloat f => SFeqb f (S754_zero false)
  | AInt z => (z =? 0)%Z
  | _ => false
  end.

(** The first text that is not empty. *)
Definition firstString (values : list string) : string := default "" (find (fun v => v <>s "") values).

(** One field of several parts of an item. *)
Definition in_parts (item : obj) (key : string) (parts : list string) : list string := map (fun p => nestedString item p key) parts.

Definition capability_code (code : string) : bool :=
  existsb (String.eqb code) capabilityLikeCodes || Contains code "capabilities" || Contains code "supported_config".
Definition meta_code (code : string) : bool := HasPrefix code "internal." || HasPrefix code "source_metadata." || HasPrefix code "resolver.".

Definition docker_prefix : string := "launcher.docker_options.".

Definition isHighRiskDockerOptionCode (code : string) : bool :=
  existsb (String.eqb (TrimPrefix code docker_prefix))
    ["privileged"; "security_options"; "security_opt"; "cap_add"; "cap_drop"; "device_cgroup_rules"; "pid_mode"; "userns_mode"].

Definition category_section (cat : string) : string :=
  if cat =s "model_runtime" then "model_serving" else if cat =s "env" then "environment" else "advanced_raw".

Definition code_section (code : string) (item : obj) : string :=
  if (code =s "launcher.image") || (code =s "runtime.image_ref") then "basic"
  else if (code =s "launcher.command") || (code =s "launcher.entrypoint") then "backend_runtime"
  else if code =s "launcher.docker_options" then "advanced_raw"
  else if HasPrefix code docker_prefix then
    if isHighRiskDockerOptionCode code then "security_high_risk"
    else if Contains code ".devices" || Contains code ".group_add" then "devices_mounts" else "container_resources"
  else if HasPrefix code "backend.arg." || HasPrefix code "model_runtime." then "model_serving"
  else if (code =s "runtime.env") || HasPrefix code "runtime.env." then "environment"
  else if (code =s "runtime.model_mount") || (code =s "runtime.device_binding") then "devices_mounts"
  else if code =s "runtime.health" then "health_check"
  else if HasPrefix code "service." || HasPrefix code "deployment.service" then "service"
  else if meta_code code then "advanced_raw"
  else category_section (stringValue (get_any item "category")).

Definition sectionFor (code : string) (item : obj) : string :=
  let named := firstString (in_parts item "section" ["render"; "extensions"]) in
  if named <>s "" then named else if capability_code code then "advanced_raw" else code_section code item.

(** ** Labels *)

Definition upper_first (s : string) : string := match s with String c s => String (upper_byte c) s | "" => "" end.

Definition humanize (v : string) : string :=
  let v := TrimPrefix (TrimPrefix (TrimPrefix v "launcher.") "runtime.") "backend.arg." in
  let v := TrimSpace (ReplaceAll (ReplaceAll v "_"%char " "%char) "."%char " "%char) in
  if v =s "" then "Configuration" else upper_first v.

Definition fieldLabel (code : string) (item : obj) : string :=
  let given := firstString (in_parts item "label" ["schema"; "render"; "extensions"]) in
  if given <>s "" then given
  else
    let by_code := match lookup_text taxonomyLabels code with Some label => label | None => humanize (TrimPrefix code "backend.arg.") end in
    match aliasCanonicalOf code with
    | Some canon => if canon =s code then by_code else match group_of canon with Some g => ag_Label g | None => by_code end
    | None => by_code
    end.
