(* ===== verification/ConfigEditProps.v ===== *)
(** * What an edit changes

    An accepted patch writes the values it names and nothing else: every item keeps its
    definition, no item appears or goes, and the settings a layer protects stay.  At the end, sets stay documents under
    overrides and edits. *)
From S2P Require Import Prelude GoStrings GoNumbers GoValue GoJson GoJsonText RunPlanTypes ConfigSets ConfigSetProps ConfigEdit.
From Stdlib Require Import Ascii.

(** ** One field *)

Ltac other_key := rewrite ?get_obj_set_ne by congruence.

Lemma state_keeps k b item : k <> "state" -> get_obj (setItemStateEnabled b item) k = get_obj item k.
Proof. intros H. unfold setItemStateEnabled. by other_key. Qed.

Lemma effective_keeps k v item : k <> "value" -> get_obj (setItemEffectiveValue v item) k = get_obj item k.
Proof. intros H. unfold setItemEffectiveValue. by other_key. Qed.

Lemma write_path_keeps k shared path v item item' :
  k <> "value" -> write_path shared path v item = Some item' -> get_obj item' k = get_obj item k.
Proof. intros H. unfold write_path. destruct (valueMap item); intros [= <-]; by other_key. Qed.

(** The tiers an edit leaves alone. *)
Definition kept_tier (k : string) : Prop := k ∉ ["value"; "state"; "source"; "enabled_fields"].

Lemma edit_item_keeps layer ref now shared f item item' k :
  kept_tier k -> edit_item layer ref now shared f item = Some item' -> get_obj item' k = get_obj item k.
Proof.
  unfold kept_tier. intros Hk. rewrite !not_elem_of_cons in Hk. destruct Hk as (Hv & Hs & Hso & He & _). unfold edit_item.
  destruct (match fp_Path f with [] => _ | _ => _ end) as [item1|] eqn:E; [|done]. cbn. intros [= <-]. other_key.
  assert (get_obj item1 k = get_obj item k) as <-.
  { revert E. destruct (fp_Path f) as [|p path]; [intros [= <-]; by apply effective_keeps|].
    destruct (write_path _ _ _ _) as [item2|] eqn:Ew; [|done]. cbn. intros [= <-].
    rewrite <- (write_path_keeps k _ _ _ _ _ Hv Ew). destruct (fp_Enabled f); [|done]. unfold setPathEnabled. by other_key. }
  repeat case_match; try done; by apply state_keeps.
Qed.

(** ** The items *)

(** The same items, each with the tier [t] it had. *)
Definition same_items (t : string) (a b : obj) : Prop :=
  forall k, match get_obj a k with
            | Some i => exists j, get_obj b k = Some j /\ get_obj j t = get_obj i t
            | None => obj_get b k = obj_get a k
            end.

Lemma same_items_refl t a : same_items t a a.
Proof. intros k. destruct (get_obj a k) as [i|]; [by exists i|done]. Qed.

Lemma get_obj_None a k : get_obj a k = None -> forall m, obj_get a k <> Some (AMap m).
Proof. unfold get_obj. intros H m Hm. by rewrite Hm in H. Qed.

Lemma get_obj_same a b k : obj_get b k = obj_get a k -> get_obj b k = get_obj a k.
Proof. unfold get_obj. by intros ->. Qed.

Lemma same_items_trans t a b c : same_items t a b -> same_items t b c -> same_items t a c.
Proof.
  intros Hab Hbc k. specialize (Hab k). specialize (Hbc k). destruct (get_obj a k) as [i|] eqn:Ea.
  - destruct Hab as (j & Hj & Ht). rewrite Hj in Hbc. destruct Hbc as (l & Hl & Ht'). exists l. split; [done|]. by rewrite Ht'.
  - rewrite (get_obj_same _ _ _ Hab), Ea in Hbc. by rewrite Hbc.
Qed.

Lemma edit_field_same t layer ref now st st' f :
  kept_tier t -> is_Some (get_obj (es_items st) (target_key f)) -> edit_field layer ref now st f = Some st' ->
  same_items t (es_items st) (es_items st') /\ (forall k, k <> target_key f -> obj_get (es_items st') k = obj_get (es_items st) k).
Proof.
  intros Ht [i Hi]. unfold edit_field. destruct (edit_item _ _ _ _ _ _) as [item'|] eqn:E; [|done]. cbn. intros [= <-]. cbn [es_items].
  unfold itemMap in E. rewrite Hi in E. cbn in E. split.
  - intros k. destruct (decide (k = target_key f)) as [->|Hk].
    + rewrite Hi. exists item'. split; [apply get_obj_set|]. by eapply edit_item_keeps.
    + destruct (get_obj (es_items st) k) as [j|] eqn:Ej; [exists j; split; [by rewrite get_obj_set_ne by congruence|done]|].
      by rewrite obj_get_set_ne by congruence.
  - intros k Hk. by rewrite obj_get_set_ne by congruence.
Qed.

Lemma same_items_present t a b k : same_items t a b -> is_Some (get_obj a k) -> is_Some (get_obj b k).
Proof. intros H [i Hi]. specialize (H k). rewrite Hi in H. destruct H as (j & Hj & _). by exists j. Qed.

Lemma edit_fields_same t layer ref now st st' l :
  kept_tier t -> Forall (fun f => is_Some (get_obj (es_items st) (target_key f))) l -> edit_fields layer ref now st l = Some st' ->
  same_items t (es_items st) (es_items st') /\ (forall k, k ∉ map target_key l -> obj_get (es_items st') k = obj_get (es_items st) k).
Proof.
  intros Ht. revert st. induction l as [|f l IH]; intros st Hl; cbn [edit_fields map]; [intros [= <-]; split; [apply same_items_refl|done]|].
  apply Forall_cons in Hl as [Hf Hl]. destruct (edit_field _ _ _ _ _) as [st1|] eqn:E; [|done]. cbn [mbind option_bind]. intros H.
  destruct (edit_field_same t _ _ _ _ _ _ Ht Hf E) as [Hs Ho]. destruct (IH st1) as [Hs' Ho']; [|done|].
  - eapply Forall_impl; [exact Hl|]. intros g Hg. by eapply same_items_present.
  - split; [by eapply same_items_trans|]. intros k Hk. apply not_elem_of_cons in Hk as [Hk Hk']. by rewrite Ho', Ho.
Qed.

Lemma obj_get_enable m k :
  obj_get (map enable_required m) k = match obj_get m k with Some v => Some (enable_required (k, v)).2 | None => None end.
Proof.
  induction m as [|[k' v] m IH]; [done|]. cbn [map obj_get]. unfold enable_required at 1. cbn [fst snd].
  destruct (as_map v) as [item|] eqn:Ev; [destruct (itemRequired item) eqn:Er|]; cbn [obj_get fst snd]; destruct (k =s k');
    try exact IH; unfold enable_required; cbn [fst snd]; by rewrite Ev, ?Er.
Qed.

Definition enabled_if_required (item : obj) : obj := if itemRequired item then setItemStateEnabled true item else item.

Lemma get_obj_enable m k : get_obj (map enable_required m) k = enabled_if_required <$> get_obj m k.
Proof.
  unfold get_obj. rewrite obj_get_enable. destruct (obj_get m k) as [v|]; [|done]. cbn [mbind option_bind]. unfold enable_required; cbn [fst snd].
  destruct v; try done. cbn. unfold enabled_if_required. by destruct (itemRequired _).
Qed.

(** ** Accepted patches *)

Lemma validated set patch : ValidateEditPatch set patch = None ->
  Forall (fun f => field_error (itemsMap (NormalizeConfigSet set)) (cp_Layer patch) f = None) (cp_Fields patch).
Proof.
  unfold ValidateEditPatch. induction (cp_Fields patch) as [|f l IH]; [by constructor|]. cbn. destruct (field_error _ _ f) eqn:E; [done|].
  intros H. constructor; [exact E|by apply IH].
Qed.

Lemma field_error_None items layer f : field_error items layer f = None ->
  is_Some (get_obj items (target_key f)) /\
  (layer = "deployment" -> target_key f ∉ deploymentProtectedFields /\ isLayerHidden (target_key f) layer = false).
Proof.
  unfold field_error. set (key := fp_Key f). set (internal := target_key f).
  destruct (_ && isDirectLegacyPatchKey _); [done|]. destruct (isLayerHidden key layer) eqn:Eh; [done|].
  destruct ((internal <>s key) && isLayerHidden internal layer) eqn:Eh'; [done|]. destruct (isLayerReadonly key layer); [done|].
  destruct ((internal <>s key) && isLayerReadonly internal layer); [done|].
  destruct ((layer =s "deployment") && _) eqn:Ep; [done|]. destruct (get_obj items internal) as [item|]; [|done]. intros _. split; [by eexists|].
  intros ->. cbn [String.eqb andb] in Ep. split.
  - intros H. apply not_true_iff_false in Ep. apply Ep. apply existsb_exists. exists internal. split; [by apply list_elem_of_In|apply String.eqb_refl].
  - apply andb_false_iff in Eh' as [He|He]; [|done]. apply negb_false_iff, String.eqb_eq in He. by rewrite He.
Qed.

(** An accepted patch: its fields pass, and the items are those edited, the required ones enabled. *)
Lemma edited_inv set patch layer ref now out : ApplyEditPatchToConfigSet set patch layer ref now = Edited out ->
  let before := itemsMap (NormalizeConfigSet set) in
  exists st, out = obj_set "items" (AMap (map enable_required (es_items st))) (NormalizeConfigSet set) /\
    edit_fields layer ref now {| es_items := before; es_shared := ∅ |} (cp_Fields patch) = Some st /\
    Forall (fun f => field_error before (cp_Layer (with_layer layer patch)) f = None) (cp_Fields patch) /\
    Forall (fun f => is_Some (get_obj before (target_key f))) (cp_Fields patch) /\
    (forall t, kept_tier t -> same_items t before (es_items st)) /\
    (forall k, k ∉ map target_key (cp_Fields patch) -> obj_get (es_items st) k = obj_get before k).
Proof.
  unfold ApplyEditPatchToConfigSet. assert (cp_Fields (with_layer layer patch) = cp_Fields patch) as -> by (unfold with_layer; by case_match).
  destruct (ValidateEditPatch _ _) eqn:V; [done|]. destruct (edit_fields _ _ _ _ _) as [st|] eqn:E; [|done]. intros [= <-]. set (before := itemsMap (NormalizeConfigSet set)) in *. exists st.
  assert (Forall (fun f => field_error before (cp_Layer (with_layer layer patch)) f = None) (cp_Fields patch)) as Hv.
  { pose proof (validated _ _ V) as H. unfold with_layer in *. by case_match. }
  assert (Forall (fun f => is_Some (get_obj before (target_key f))) (cp_Fields patch)) as Hin.
  { eapply Forall_impl; [exact Hv|]. intros f Hf. by apply field_error_None in Hf as [? _]. }
  set (st0 := {| es_items := before; es_shared := ∅ |}) in E.
  assert (forall t, kept_tier t -> same_items t before (es_items st) /\ (forall k, k ∉ map target_key (cp_Fields patch) -> obj_get (es_items st) k = obj_get before k)) as S.
  { intros t Ht. exact (edit_fields_same t layer ref now st0 st _ Ht Hin E). }
  split_and!; [done..| |]; [intros t Ht; by apply S|]. apply (S "schema"). unfold kept_tier. set_solver.
Qed.

Lemma itemsMap_edited m out : itemsMap (obj_set "items" (AMap m) out) = m.
Proof. unfold itemsMap. by rewrite get_obj_set. Qed.

(** The effective value an item's tier holds. *)
Lemma edit_item_value layer ref now shared f item item' :
  fp_Path f = [] -> edit_item layer ref now shared f item = Some item' -> get_any (nestedMap item' "value") "effective_value" = fp_Value f.
Proof.
  intros Hp. unfold edit_item. rewrite Hp. cbn. intros [= <-]. unfold nestedMap at 1. other_key.
  assert (get_obj (setItemEffectiveValue (fp_Value f) item) "value"
    = Some (obj_set "effective_value" (fp_Value f) (obj_set "local_value" (fp_Value f) (nestedMap item "value")))) as Hv by apply get_obj_set.
  assert (forall i b, get_obj (setItemStateEnabled b i) "value" = get_obj i "value") as Hs by (intros; by apply state_keeps).
  destruct (itemRequired _); [|destruct (fp_Enabled f)]; rewrite ?Hs, Hv; cbn [default from_option id]; unfold get_any; by rewrite obj_get_set.
Qed.

Lemma item_value_effective item v : get_any (nestedMap item "value") "effective_value" = v -> is_nil v = false -> item_value_of item = Some v.
Proof.
  unfold nestedMap, item_value_of, get_any. destruct (get_obj item "value") as [t|]; cbn [default from_option id]; [|intros <-; done].
  destruct (obj_get t "effective_value") as [e|]; intros <-; [|done]. by destruct e.
Qed.

Lemma enabled_value item : item_value_of (enabled_if_required item) = item_value_of item.
Proof. unfold enabled_if_required, item_value_of. destruct (itemRequired item); [|done]. by rewrite state_keeps. Qed.

Lemma enabled_keeps k item : k <> "state" -> get_obj (enabled_if_required item) k = get_obj item k.
Proof. intros H. unfold enabled_if_required. destruct (itemRequired item); [|done]. by apply state_keeps. Qed.

Lemma edit_fields_app layer ref now st l1 l2 :
  edit_fields layer ref now st (l1 ++ l2) = st ← edit_fields layer ref now st l1; edit_fields layer ref now st l2.
Proof. revert st. induction l1 as [|f l1 IH]; intros st; [done|]. cbn [app edit_fields]. destruct (edit_field _ _ _ _ f); [apply IH|done]. Qed.

(** The switch of an item whose whole value is written. *)
Lemma edit_item_enabled layer ref now shared f item item' b :
  fp_Path f = [] -> fp_Enabled f = Some b -> edit_item layer ref now shared f item = Some item' -> itemEnabled item' = itemRequired item' || b.
Proof.
  intros Hp Hb H. assert (itemRequired item' = itemRequired item) as ->.
  { unfold itemRequired, schema_bool, nestedMap. by rewrite (edit_item_keeps layer ref now shared f item item' "schema" ltac:(unfold kept_tier; set_solver) H). }
  revert H. unfold edit_item. rewrite Hp, Hb. cbn [mbind option_bind]. intros [= <-].
  assert (itemRequired (setItemEffectiveValue (fp_Value f) item) = itemRequired item) as ->.
  { unfold itemRequired, schema_bool, nestedMap. by rewrite effective_keeps. }
  unfold itemEnabled, nestedMap. other_key. unfold setItemStateEnabled. destruct (itemRequired item); rewrite get_obj_set; cbn [default from_option id];
    unfold get_any; rewrite obj_get_set_ne by done; by rewrite obj_get_set.
Qed.

(** The last field that writes a whole value decides it. *)
Lemma edit_fields_value layer ref now st st' l1 f l2 :
  Forall (fun f => is_Some (get_obj (es_items st) (target_key f))) (l1 ++ f :: l2) ->
  edit_fields layer ref now st (l1 ++ f :: l2) = Some st' -> fp_Path f = [] -> target_key f ∉ map target_key l2 ->
  exists item, get_obj (es_items st') (target_key f) = Some item /\ get_any (nestedMap item "value") "effective_value" = fp_Value f
    /\ (forall b, fp_Enabled f = Some b -> itemEnabled item = itemRequired item || b).
Proof.
  assert (kept_tier "schema") as Hk by (unfold kept_tier; set_solver). intros Hin. rewrite edit_fields_app. apply Forall_app in Hin as [H1 H2].
  destruct (edit_fields layer ref now st l1) as [st1|] eqn:E1; [|done]. cbn [mbind option_bind edit_fields]. intros H Hp Hl.
  destruct (edit_field layer ref now st1 f) as [st2|] eqn:E2; [|done]. cbn in H. destruct (edit_fields_same "schema" _ _ _ _ _ _ Hk H1 E1) as [S1 _].
  assert (Forall (fun f => is_Some (get_obj (es_items st1) (target_key f))) (f :: l2)) as H2'.
  { eapply Forall_impl; [exact H2|]. intros g. by eapply same_items_present. }
  apply Forall_cons in H2' as [Hf H2']. destruct (edit_field_same "schema" _ _ _ _ _ _ Hk Hf E2) as [S2 _].
  assert (Forall (fun f => is_Some (get_obj (es_items st2) (target_key f))) l2) as H3.
  { eapply Forall_impl; [exact H2'|]. intros g. by eapply same_items_present. }
  destruct (edit_fields_same "schema" _ _ _ _ _ _ Hk H3 H) as [_ Ho]. unfold edit_field in E2.
  destruct (edit_item _ _ _ _ _ _) as [item|] eqn:Ei; [|done]. cbn in E2. injection E2 as <-. exists item. split_and!.
  - unfold get_obj. rewrite (Ho _ Hl). cbn [es_items]. by rewrite obj_get_set.
  - by eapply edit_item_value.
  - intros b Hb. by eapply edit_item_enabled.
Qed.

(** ** Values at a path *)

Fixpoint path_get (m : obj) (path : list string) : option any :=
  match path with
  | [] => Some (AMap m)
  | [p] => obj_get m p
  | p :: path => m ← get_obj m p; path_get m path
  end.

(** Two paths part at some field: neither leads through the other. *)
Inductive diverge : list string -> list string -> Prop :=
| Diverge_here x y p q : x <> y -> diverge (x :: p) (y :: q)
| Diverge_below x p q : diverge p q -> diverge (x :: p) (x :: q).

Lemma path_get_cons m x q : q <> [] -> path_get m (x :: q) = m' ← get_obj m x; path_get m' q.
Proof. by destruct q. Qed.

Lemma setPathValue_cons m x p v : p <> [] -> setPathValue m (x :: p) v = obj_set x (AMap (setPathValue (nestedMap m x) p v)) m.
Proof. by destruct p. Qed.

Lemma path_get_set m path v : path <> [] -> path_get (setPathValue m path v) path = Some v.
Proof.
  revert m. induction path as [|p path IH]; intros m H; [done|]. destruct (decide (path = [])) as [->|Hn]; [apply obj_get_set|].
  rewrite setPathValue_cons, path_get_cons by done. rewrite get_obj_set. cbn. by apply IH.
Qed.

Lemma path_get_empty q : q <> [] -> path_get [] q = None.
Proof. by destruct q as [|x [|y q]]. Qed.

Lemma path_get_set_ne p q : diverge p q -> forall m v, path_get (setPathValue m p v) q = path_get m q.
Proof.
  induction 1 as [x y p q Hne|x p q Hd IH]; intros m v.
  - assert (exists w, setPathValue m (x :: p) v = obj_set x w m) as [w ->] by (destruct p; by eexists).
    destruct (decide (q = [])) as [->|Hq]; [by apply obj_get_set_ne|]. rewrite !path_get_cons by done. by rewrite get_obj_set_ne.
  - assert (p <> [] /\ q <> []) as [Hp Hq] by (by destruct Hd). rewrite setPathValue_cons, !path_get_cons by done. rewrite get_obj_set. cbn [mbind option_bind].
    rewrite IH. unfold nestedMap. destruct (get_obj m x); [done|]. by apply path_get_empty.
Qed.

(** The object a path of an item leads into: its effective value when it has one, else
    the value tier itself. *)
Definition edited_object (item : obj) : option obj :=
  t ← get_obj item "value"; match obj_get t "effective_value" with Some v => as_map v | None => Some t end.

(** The value tier of the item has no effective value. *)
Definition flat_item (item : obj) : bool := match get_obj item "value" with Some t => negb (has_key t "effective_value") | None => false end.

Definition object_of (item : obj) : obj := default [] (edited_object item).

Lemma object_value item m : edited_object item = Some m -> flat_item item = false -> item_value_of item = Some (AMap m).
Proof.
  unfold edited_object, flat_item, item_value_of, has_key. destruct (get_obj item "value") as [t|]; [|done]. cbn [mbind option_bind].
  destruct (obj_get t "effective_value") as [v|]; [|done]. destruct v; try done. by intros [= ->].
Qed.

(** A path that does not name the tier's own field. *)
Definition field_path (path : list string) : Prop := path <> [] /\ head path <> Some "effective_value".

Lemma write_path_object shared path v item item' : field_path path -> write_path shared path v item = Some item' ->
  edited_object item' = Some (setPathValue (object_of item) path v) /\ flat_item item' = flat_item item.
Proof.
  intros [Hp Hh]. unfold write_path, valueMap, object_of, edited_object, flat_item, has_key. destruct (get_obj item "value") as [t|] eqn:Et; cbn [mbind option_bind].
  - destruct (obj_get t "effective_value") as [e|] eqn:Ee.
    + destruct (as_map e) as [m|] eqn:Em; [|done]. intros [= <-]. rewrite get_obj_set. cbn [mbind option_bind]. by rewrite obj_get_set.
    + intros [= <-]. rewrite get_obj_set. cbn [mbind option_bind]. destruct path as [|x path]; [done|]. cbn [head] in Hh.
      assert (exists w, setPathValue t (x :: path) v = obj_set x w t) as [w Ew] by (destruct path; by eexists).
      assert (obj_get (setPathValue t (x :: path) v) "effective_value" = None) as -> by (rewrite Ew, obj_get_set_ne by congruence; done). done.
  - intros [= <-]. rewrite get_obj_set. cbn [mbind option_bind]. done.
Qed.

Lemma same_object a b : get_obj b "value" = get_obj a "value" -> edited_object b = edited_object a /\ flat_item b = flat_item a.
Proof. unfold edited_object, flat_item. by intros ->. Qed.

Lemma edit_item_object layer ref now shared f item item' : field_path (fp_Path f) -> edit_item layer ref now shared f item = Some item' ->
  edited_object item' = Some (setPathValue (object_of item) (fp_Path f) (fp_Value f)) /\ flat_item item' = flat_item item.
Proof.
  intros Hp. unfold edit_item. destruct (fp_Path f) as [|x path] eqn:Ef; [by destruct Hp|]. destruct (write_path _ _ _ _) as [item1|] eqn:E; [|done].
  cbn [mbind option_bind]. intros [= <-]. apply write_path_object in E as [E1 E2]; [|done]. rewrite <- E1, <- E2. apply same_object. other_key.
  destruct (fp_Enabled f) as [b|]; [unfold setPathEnabled at 1|]; repeat case_match; rewrite ?state_keeps by done; unfold setPathEnabled; by other_key.
Qed.

(** The object of item [k] after the fields of a patch. *)
Definition written_object (k : string) (l : list EditFieldPatch) (m : obj) : obj :=
  foldl (fun m f => if target_key f =s k then setPathValue m (fp_Path f) (fp_Value f) else m) m l.

Lemma edit_fields_object layer ref now k l : Forall (fun f => target_key f = k -> field_path (fp_Path f)) l ->
  forall st st' i, get_obj (es_items st) k = Some i -> edit_fields layer ref now st l = Some st' ->
  exists j, get_obj (es_items st') k = Some j /\ flat_item j = flat_item i
    /\ edited_object j = if existsb (fun f => target_key f =s k) l then Some (written_object k l (object_of i)) else edited_object i.
Proof.
  induction 1 as [|f l Hf _ IH]; intros st st' i Hi; cbn [edit_fields]; [intros [= <-]; by exists i|].
  unfold edit_field. destruct (edit_item _ _ _ _ _ _) as [item|] eqn:E; [|done]. cbn [mbind option_bind]. cbn [existsb]. unfold written_object; cbn [foldl].
  destruct (String.eqb_spec (target_key f) k) as [Ek|Ek]; cbn [orb].
  - specialize (Hf Ek). rewrite Ek in E |- *. unfold itemMap in E. rewrite Hi in E. cbn [default from_option id] in E. apply edit_item_object in E as [E1 E2]; [|done].
    intros H. apply (IH _ _ item) in H as (j & Hj & Hfl & Ho); [|apply get_obj_set]. exists j. split_and!; [done|congruence|].
    rewrite Ho. unfold object_of at 1. rewrite E1. cbn [default from_option id]. destruct (existsb _ l) eqn:Ex; [done|]. f_equal.
    clear - Ex. revert Ex. generalize (setPathValue (object_of i) (fp_Path f) (fp_Value f)). intros m Ex. symmetry. revert m. induction l as [|g l IH]; intros m; [done|].
    cbn [existsb] in Ex. apply orb_false_iff in Ex as [Eg Ex]. cbn [foldl]. rewrite Eg. by apply IH.
  - intros H. apply (IH _ _ i) in H; [exact H|]. cbn [es_items]. by rewrite get_obj_set_ne by congruence.
Qed.

Lemma written_app k l1 l2 m : written_object k (l1 ++ l2) m = written_object k l2 (written_object k l1 m).
Proof. apply foldl_app. Qed.

Lemma written_frame k l m q : Forall (fun g => target_key g = k -> diverge (fp_Path g) q) l -> path_get (written_object k l m) q = path_get m q.
Proof.
  intros H. revert m. induction H as [|g l Hg _ IH]; intros m; [done|]. change (written_object k (g :: l) m) with (written_object k l (if target_key g =s k then setPathValue m (fp_Path g) (fp_Value g) else m)).
  rewrite IH. destruct (String.eqb_spec (target_key g) k) as [E|E]; [|done]. by apply path_get_set_ne, Hg.
Qed.

(** What the fields of a patch that name a path do to the object of an item: the last one
    at a path is read there, and what no field leads into or through stays. *)
Definition fields_written (l : list EditFieldPatch) (k : string) (before after : obj) : Prop :=
  (forall l1 f l2, l = l1 ++ f :: l2 -> target_key f = k -> Forall (fun g => target_key g = k -> diverge (fp_Path g) (fp_Path f)) l2 ->
     path_get after (fp_Path f) = Some (fp_Value f))
  /\ (forall q, Forall (fun g => target_key g = k -> diverge (fp_Path g) q) l -> path_get after q = path_get before q).

Lemma written_fields k l m : Forall (fun f => target_key f = k -> field_path (fp_Path f)) l -> fields_written l k m (written_object k l m).
Proof.
  intros Hl. split; [|intros q; apply written_frame]. intros l1 f l2 -> Ek Hd. apply Forall_app in Hl as [_ [Hf _]%Forall_cons].
  rewrite written_app. change (f :: l2) with ([f] ++ l2). rewrite written_app, written_frame by done. unfold written_object at 1; cbn [foldl].
  rewrite Ek, String.eqb_refl. by apply path_get_set, Hf.
Qed.

(** ** The theorems *)

(** C21. An accepted edit patch writes the values it names and changes nothing else.  The
    other fields of the set stay, no item appears or goes, every item keeps its schema,
    its rendering and its inherited tiers, and an item no field names changes at most by
    being enabled when it is required.  An item whose last edit gives a whole value that
    is not null reads that value.  An item whose edits all name paths (and none the field
    effective_value) holds an object in which the last value written at a path is read
    there, whatever later edits do at other paths, and in which everything the paths do
    not touch is as it was; that object is the value of the item, unless the item had no
    effective value, in which case it is the value tier and the default is still read
    ([path_beside_the_default]). *)
Theorem edit_patch_spec set patch layer ref now out :
  ApplyEditPatchToConfigSet set patch layer ref now = Edited out ->
  (forall k, k <> "items" -> obj_get out k = obj_get (NormalizeConfigSet set) k) /\
  (forall k, match configItem (NormalizeConfigSet set) k with
             | Some i => exists j, configItem out k = Some j /\ (forall t, kept_tier t -> get_obj j t = get_obj i t)
             | None => configItem out k = None
             end) /\
  (forall k, k ∉ map target_key (cp_Fields patch) -> configItem out k = enabled_if_required <$> configItem (NormalizeConfigSet set) k) /\
  (forall l1 f l2 def, cp_Fields patch = l1 ++ f :: l2 -> fp_Path f = [] -> target_key f ∉ map target_key l2 -> is_nil (fp_Value f) = false ->
     configValue out (target_key f) def = fp_Value f) /\
  (forall k i, configItem (NormalizeConfigSet set) k = Some i -> k ∈ map target_key (cp_Fields patch) ->
     Forall (fun f => target_key f = k -> field_path (fp_Path f)) (cp_Fields patch) ->
     exists j m, configItem out k = Some j /\ edited_object j = Some m /\ fields_written (cp_Fields patch) k (object_of i) m
       /\ (flat_item i = false -> forall def, configValue out k def = AMap m)).
Proof.
  intros H. apply edited_inv in H as (st & -> & He & _ & Hin & Hsame & Hframe). set (base := NormalizeConfigSet set) in *.
  assert (forall k, configItem (obj_set "items" (AMap (map enable_required (es_items st))) base) k = enabled_if_required <$> get_obj (es_items st) k) as Hout.
  { intros k. unfold configItem, configSetItems. rewrite get_obj_set. cbn. apply get_obj_enable. }
  split_and!.
  - intros k Hk. by rewrite obj_get_set_ne by congruence.
  - intros k. rewrite Hout. change (configItem base k) with (get_obj (itemsMap base) k). destruct (get_obj (itemsMap base) k) as [i|] eqn:Ei.
    + assert (forall t, kept_tier t -> exists j, get_obj (es_items st) k = Some j /\ get_obj j t = get_obj i t) as Hs.
      { intros t Ht. specialize (Hsame t Ht k). by rewrite Ei in Hsame. }
      destruct (Hs "schema") as (j & Hj & _); [unfold kept_tier; set_solver|]. exists (enabled_if_required j). rewrite Hj. split; [done|].
      intros t Ht. destruct (Hs t Ht) as (j' & Hj' & Et). rewrite Hj in Hj'. injection Hj' as <-. rewrite enabled_keeps; [done|].
      intros ->. apply Ht. set_solver.
    + specialize (Hsame "schema" ltac:(unfold kept_tier; set_solver) k). rewrite Ei in Hsame. by rewrite (get_obj_same _ _ _ Hsame), Ei.
  - intros k Hk. rewrite Hout. f_equal. by apply get_obj_same, Hframe.
  - intros l1 f l2 def El Hp Hl Hnil. rewrite El in He, Hin.
    destruct (edit_fields_value layer ref now {| es_items := itemsMap base; es_shared := ∅ |} st l1 f l2 Hin He Hp Hl) as (item & Hi & Hval & _).
    rewrite configValue_setting. unfold setting. rewrite Hout, Hi. cbn. rewrite enabled_value. by rewrite (item_value_effective _ _ Hval).
  - intros k i Hi Hk Hp. destruct (edit_fields_object _ _ _ k _ Hp {| es_items := itemsMap base; es_shared := ∅ |} st i Hi He) as (j & Hj & Hfl & Ho).
    assert (existsb (fun f => target_key f =s k) (cp_Fields patch) = true) as Ex.
    { apply existsb_exists. apply list_elem_of_fmap in Hk as (f & -> & Hf). exists f. split; [by apply list_elem_of_In|apply String.eqb_refl]. }
    rewrite Ex in Ho. destruct (same_object j (enabled_if_required j)) as [E1 E2]; [by apply enabled_keeps|].
    exists (enabled_if_required j), (written_object k (cp_Fields patch) (object_of i)). rewrite Hout, Hj, E1. split_and!; [done|done|by apply written_fields|].
    intros Hflat def. rewrite configValue_setting. unfold setting. rewrite Hout, Hj. cbn [fmap option_fmap option_map mbind option_bind].
    rewrite (object_value _ (written_object k (cp_Fields patch) (object_of i))); [done|by rewrite E1|by rewrite E2, Hfl].
Qed.

(** What a deployment takes from its node runtime stays. *)
Lemma deployment_patch_keeps set patch ref now out k :
  ApplyEditPatchToConfigSet set patch "deployment" ref now = Edited out -> cp_Layer patch ∈ [""; "deployment"] ->
  k ∈ deploymentProtectedFields \/ isLayerHidden k "deployment" = true ->
  configItem out k = enabled_if_required <$> configItem (NormalizeConfigSet set) k.
Proof.
  intros H Hl Hk. assert (cp_Layer (with_layer "deployment" patch) = "deployment") as El.
  { unfold with_layer. rewrite !elem_of_cons, elem_of_nil in Hl. destruct (cp_Layer patch =s "") eqn:E; bool_facts; [done|]. by destruct_or?. }
  apply edited_inv in H as (st & -> & _ & Hv & _ & _ & Ho). rewrite El in Hv.
  assert (k ∉ map target_key (cp_Fields patch)) as Hn.
  { intros Hc. apply list_elem_of_fmap in Hc as (f & -> & Hf). rewrite Forall_forall in Hv. specialize (Hv f Hf).
    apply field_error_None in Hv as [_ Hv]. destruct (Hv eq_refl) as [Hp Hh]. destruct Hk as [Hk|Hk]; [done|]. by rewrite Hh in Hk. }
  unfold configItem at 1, configSetItems. rewrite get_obj_set. cbn [default from_option id]. rewrite get_obj_enable. f_equal. by apply get_obj_same, Ho.
Qed.

(** C22. A patch accepted at the deployment layer changes none of the settings a deployment
    takes from its node runtime: the image, the command, the entry point, the model
    mount and the container options keep their items, up to the enabling of required
    ones. *)
Theorem deployment_patch_protects set patch ref now out k :
  ApplyEditPatchToConfigSet set patch "deployment" ref now = Edited out -> cp_Layer patch ∈ [""; "deployment"] ->
  k ∈ deploymentProtectedFields \/ isLayerHidden k "deployment" = true ->
  configItem out k = enabled_if_required <$> configItem (NormalizeConfigSet set) k.
Proof. apply deployment_patch_keeps. Qed.

(** ** At concrete sets *)

Definition demo_item (type : string) (required : bool) (v : any) : any :=
  AMap [("schema", AMap [("type", AStr type); ("required", ABool required)]); ("value", AMap [("default_value", v)]); ("state", AMap [("enabled", ABool false)])].

Definition demo_set : obj :=
  [("items", AMap [("launcher.image", demo_item "string" true (AStr "repo/image:1"));
                   ("runtime.shm_size", demo_item "string" false (AStr "1g"));
                   ("service.port_binding", demo_item "object" false (AMap [("host_port", AStr "8000"); ("protocol", AStr "tcp")]))])].

Definition demo_field (key : string) (path : list string) (v : any) : EditFieldPatch :=
  {| fp_Key := key; fp_InternalKey := ""; fp_Path := path; fp_Value := v; fp_Enabled := None |}.

Definition demo_patch (layer : string) (f : EditFieldPatch) : ConfigEditPatch := {| cp_Layer := layer; cp_ObjectID := "d1"; cp_Fields := [f] |}.

Definition edited (o : edit_outcome) : obj := match o with Edited s => s | _ => [] end.

(** Two fields of an object, and an item whose value is one. *)
Definition path_patch : ConfigEditPatch :=
  {| cp_Layer := ""; cp_ObjectID := "d1";
     cp_Fields := [demo_field "service.port_binding" ["host_port"] (AStr "9000"); demo_field "service.port_binding" ["labels"; "team"] (AStr "a")] |}.

Definition path_set : obj :=
  [("items", AMap [("service.port_binding", AMap [("value", AMap [("effective_value", AMap [("host_port", AStr "8000"); ("protocol", AStr "tcp")])])])])].

Lemma edit_patch_spec_witness :
  (let patch := demo_patch "" (demo_field "runtime.shm_size" [] (AStr "8g")) in
   let out := edited (ApplyEditPatchToConfigSet demo_set patch "deployment" "d1" "now") in
   ApplyEditPatchToConfigSet demo_set patch "deployment" "d1" "now" = Edited out /\ configValue out "runtime.shm_size" ANil = AStr "8g") /\
  (let out := edited (ApplyEditPatchToConfigSet path_set path_patch "deployment" "d1" "now") in
   ApplyEditPatchToConfigSet path_set path_patch "deployment" "d1" "now" = Edited out /\
   exists m, configValue out "service.port_binding" ANil = AMap m /\ path_get m ["host_port"] = Some (AStr "9000") /\ path_get m ["protocol"] = Some (AStr "tcp")).
Proof.
  split.
  - intros patch out. assert (ApplyEditPatchToConfigSet demo_set patch "deployment" "d1" "now" = Edited out) as H by (vm_compute; reflexivity).
    split; [exact H|]. destruct (edit_patch_spec _ _ _ _ _ _ H) as (_ & _ & _ & Hv & _).
    apply (Hv [] (demo_field "runtime.shm_size" [] (AStr "8g")) [] ANil); [reflexivity|reflexivity|apply not_elem_of_nil|reflexivity].
  - intros out. assert (ApplyEditPatchToConfigSet path_set path_patch "deployment" "d1" "now" = Edited out) as H by (vm_compute; reflexivity).
    split; [exact H|]. destruct (edit_patch_spec _ _ _ _ _ _ H) as (_ & _ & _ & _ & Hp).
    destruct (Hp "service.port_binding" [("value", AMap [("effective_value", AMap [("host_port", AStr "8000"); ("protocol", AStr "tcp")])])])
      as (j & m & _ & _ & [Hw Hk] & Hv).
    + vm_compute. reflexivity.
    + left.
    + apply List.Forall_cons; [intros _; split; discriminate|apply List.Forall_cons; [intros _; split; discriminate|apply List.Forall_nil]].
    + exists m. split; [by apply Hv|]. split.
      * apply (Hw [] (demo_field "service.port_binding" ["host_port"] (AStr "9000")) [demo_field "service.port_binding" ["labels"; "team"] (AStr "a")]);
          [reflexivity|reflexivity|].
        apply List.Forall_cons; [intros _; apply Diverge_here; discriminate|apply List.Forall_nil].
      * rewrite Hk; [vm_compute; reflexivity|].
        apply List.Forall_cons; [intros _; apply Diverge_here; discriminate|].
        apply List.Forall_cons; [intros _; apply Diverge_here; discriminate|apply List.Forall_nil].
Defined.

(** A path edit of an item that has only a default value is written beside the default,
    which is still what the item reads. *)
Example path_beside_the_default :
  let out := edited (ApplyEditPatchToConfigSet demo_set (demo_patch "" (demo_field "service.port_binding" ["host_port"] (AStr "9000"))) "deployment" "d1" "now") in
  (path_get (default [] (configItem out "service.port_binding")) ["value"; "host_port"], configValue out "service.port_binding" ANil)
  = (Some (AStr "9000"), AMap [("host_port", AStr "8000"); ("protocol", AStr "tcp")]).
Proof. vm_compute. reflexivity. Qed.

Lemma deployment_patch_protects_witness :
  let out := edited (ApplyEditPatchToConfigSet demo_set (demo_patch "" (demo_field "runtime.shm_size" [] (AStr "8g"))) "deployment" "d1" "now") in
  configItem out "launcher.image" = enabled_if_required <$> configItem (NormalizeConfigSet demo_set) "launcher.image".
Proof.
  intros out. apply (deployment_patch_protects demo_set (demo_patch "" (demo_field "runtime.shm_size" [] (AStr "8g"))) "d1" "now").
  - vm_compute. reflexivity.
  - by left.
  - left. by left.
Defined.

(** A deployment refuses a patch of its image. *)
Example image_is_protected :
  ApplyEditPatchToConfigSet demo_set (demo_patch "" (demo_field "launcher.image" [] (AStr "other:2"))) "deployment" "d1" "now"
  = EditRefused ("field " +s+ Quote "launcher.image" +s+ " is hidden at layer " +s+ Quote "deployment").
Proof. vm_compute. reflexivity. Qed.

(** The layer a patch is checked at is the one the request names, not the one of the
    object: a request that says [node_backend_runtime] changes the image of a deployment. *)
Lemma layer_of_the_request :
  exists out, HandleConfigEditApply false demo_set (demo_patch "node_backend_runtime" (demo_field "launcher.image" [] (AStr "other:2"))) None
                "deployment" "d1" "now" = Applied out /\ configString out "launcher.image" "" = "other:2".
Proof. eexists. split; [vm_compute; reflexivity|vm_compute; reflexivity]. Qed.

(** A reset is not validated at all: it writes the protected item, and one that does not exist. *)
Lemma reset_is_not_checked :
  exists out, HandleConfigEditApply false demo_set (demo_patch "" (demo_field "x" [] ANil)) (Some {| rs_key := "backend.capabilities"; rs_path := []; rs_mode := "default" |})
                "deployment" "d1" "now" = Applied out /\ is_Some (configItem out "backend.capabilities") /\ configItem (NormalizeConfigSet demo_set) "backend.capabilities" = None.
Proof. eexists. split_and!; [vm_compute; reflexivity|vm_compute; by eexists|vm_compute; reflexivity]. Qed.

(** Resetting one field of an object writes the whole default object into it. *)
Lemma reset_of_a_path :
  let set := edited (ApplyEditPatchToConfigSet demo_set
    (demo_patch "" (demo_field "service.port_binding" [] (AMap [("host_port", AStr "9000"); ("protocol", AStr "udp")]))) "deployment" "d1" "now") in
  configValue (edited (ResetFieldToDefault set "service.port_binding" ["protocol"] "deployment" "d1" "now")) "service.port_binding" ANil
  = AMap [("host_port", AStr "9000"); ("protocol", AMap [("host_port", AStr "8000"); ("protocol", AStr "tcp")])].
Proof. vm_compute. reflexivity. Qed.

(** A path into an item whose value is no object ends in a nil map. *)
Lemma path_into_a_scalar :
  let set := edited (ApplyEditPatchToConfigSet demo_set (demo_patch "" (demo_field "runtime.shm_size" [] (AStr "8g"))) "deployment" "d1" "now") in
  ApplyEditPatchToConfigSet set (demo_patch "" (demo_field "runtime.shm_size" ["unit"] (AStr "g"))) "deployment" "d1" "now" = EditPanic.
Proof. vm_compute. reflexivity. Qed.

(** * Configuration sets as documents

    Setting, overriding and editing keep a set a document made of given parts: what was
    decoded stays decoded, and a set that has JSON keeps having it.  A setting of a set
    that is written as JSON and read back is the setting, read back. *)
Section Sets.
Context `{MR : MapRange} {P : any -> Prop} `{DP : DocPred P}.

Lemma doc_items set : P (AMap set) -> P (AMap (configSetItems set)).
Proof. intros H. unfold configSetItems. documents. Qed.

Lemma doc_item set code d : P (AMap set) -> P (AMap d) -> P (AMap (default d (configItem set code))).
Proof. intros H Hd. unfold configItem. pose proof (doc_items _ H). documents. Qed.

Lemma doc_put_item set code item : P (AMap set) -> P (AMap item) -> P (AMap (put_item set code item)).
Proof. intros H Hi. unfold put_item. pose proof (doc_items _ H). documents. Qed.

Lemma doc_set_value set code v layer ref : P v -> P (AMap set) -> P (AMap (setConfigValue set code v layer ref)).
Proof.
  intros Hv H. apply doc_put_item; [done|]. unfold set_provenance, setConfigEnabledTiered, setConfigValueTiered, update_obj.
  pose proof (doc_item set code (new_item code) H ltac:(unfold new_item; documents)). documents.
Qed.

Lemma doc_set_enabled set code b : P (AMap set) -> P (AMap (setConfigEnabled set code b)).
Proof.
  intros H. apply doc_put_item; [done|]. unfold setConfigEnabledTiered, update_obj. pose proof (doc_item set code [] H ltac:(documents)). documents.
Qed.

Lemma doc_text s m : Unmarshal_map s = Some (Some m) -> P (AMap m).
Proof. intros H. by apply doc_decoded, (Unmarshal_map_decoded s). Qed.

Lemma doc_from_any v : P v -> P (AMap (mapFromAny v)).
Proof.
  intros H. destruct v; cbn; documents. destruct (Unmarshal_map s) as [[m|]|] eqn:E; cbn; documents. by apply (doc_text s).
Qed.

Lemma doc_setting set code v : P (AMap set) -> setting set code = Some v -> P v.
Proof.
  unfold setting, item_value_of, non_nil. intros H. destruct (configItem set code) as [item|] eqn:Ei; [|done]. cbn [mbind option_bind].
  assert (P (AMap item)) as Hi by (pose proof (doc_item set code [] H ltac:(documents)) as Hd; by rewrite Ei in Hd).
  destruct (get_obj item "value") as [t|] eqn:Et; [|done]. pose proof (doc_get_obj _ _ _ Hi Et) as Ht.
  destruct (obj_get t "effective_value") as [e|] eqn:Ee; [pose proof (doc_get _ _ _ Ht Ee)|];
    destruct (obj_get t "default_value") as [x|] eqn:Ed; try pose proof (doc_get _ _ _ Ht Ed); repeat case_match; intros; simplify_eq; done.
Qed.

Lemma doc_config_object set code : P (AMap set) -> P (AMap (configObject set code)).
Proof.
  intros H. unfold configObject. rewrite configValue_setting. destruct (setting set code) as [v|] eqn:E; cbn; [|documents].
  pose proof (doc_setting _ _ _ H E). destruct v; documents. destruct (Unmarshal_map s) as [[m|]|] eqn:Eu; documents. by apply (doc_text s).
Qed.

Lemma doc_range m k v : P (AMap m) -> (k, v) ∈ range (obj_map m) -> P v.
Proof. intros H Hin. apply elem_of_range in Hin. rewrite obj_map_lookup in Hin. exact (doc_get _ _ _ H Hin). Qed.

Lemma doc_foldl {A} (f : obj -> A -> obj) (Q : A -> Prop) l m :
  (forall m x, Q x -> P (AMap m) -> P (AMap (f m x))) -> Forall Q l -> P (AMap m) -> P (AMap (foldl f m l)).
Proof. intros Hf Hl. revert m. induction Hl as [|x l Hx _ IH]; intros m Hm; cbn [foldl]; [done|]. by apply IH, Hf. Qed.

Lemma doc_elements v : P v -> Forall P (elements v).
Proof. intros H. destruct v; try constructor. by apply doc_list. Qed.

(** ** Overrides *)

Section Overrides.
Variables layer ref : string.

Lemma doc_parameter set raw : P raw -> P (AMap set) -> P (AMap (override_parameter layer ref set raw)).
Proof.
  intros Hr H. unfold override_parameter. destruct raw as [| | | | | | | |item]; try exact H. cbn [as_map]. cbv zeta. destruct (_ =s ""); [done|].
  assert (P (AMap match obj_get item "value" with
    | Some v => setConfigValue set (or_field (entry_text item "key") (or_field (entry_text item "code") (or_field (entry_text item "name") (entry_text item "cli_name")))) v layer ref
    | None => set end)).
  { destruct (obj_get item "value") eqn:E; [|done]. apply doc_set_value; [exact (doc_get _ _ _ Hr E)|done]. }
  destruct (as_bool _); [by apply doc_set_enabled|done].
Qed.

Lemma doc_disable set raw : P (AMap set) -> P (AMap (disable_parameter set raw)).
Proof. intros H. unfold disable_parameter. destruct (as_map raw); [|done]. destruct (_ <>s ""); [by apply doc_set_enabled|done]. Qed.

Lemma doc_override_env set v : P v -> P (AMap set) -> P (AMap (override_env layer ref set v)).
Proof.
  intros Hv H. unfold override_env. set (current := foldl _ _ _).
  assert (P (AMap current)) as Hc.
  { unfold current. apply (doc_foldl _ (fun kv => P kv.2)); [intros; documents| |by apply doc_config_object].
    apply Forall_forall. intros [k w]. by apply doc_range, doc_from_any. }
  apply doc_set_value; [done|]. destruct (shares_default _ _); [|done]. unfold write_default.
  pose proof (doc_item set "runtime.env" [] H ltac:(documents)) as Hi. destruct (configItem set "runtime.env") as [item|]; [|done].
  cbn in Hi. apply doc_put_item; [done|]. unfold update_obj. documents.
Qed.

Lemma doc_entry set key v : P v -> P (AMap set) -> P (AMap (override_entry layer ref set key v)).
Proof.
  intros Hv H. unfold override_entry. destruct v as [| | | | | | | |entry]; cbn [as_map]; try by apply doc_set_value.
  destruct (obj_get entry "value") as [w|] eqn:E; [|by apply doc_set_value]. pose proof (doc_get _ _ _ Hv E).
  destruct (as_bool _); [apply doc_set_enabled|]; by apply doc_set_value.
Qed.

Lemma doc_overrides set overrides : P (AMap set) -> P (AMap overrides) -> P (AMap (applyConfigOverrides layer ref set overrides)).
Proof.
  intros H Ho. apply (doc_foldl _ (fun kv => P kv.2)); [|apply Forall_forall; intros [k v]; by apply doc_range|done].
  intros m [k v] Hv Hm. cbn [snd] in Hv. unfold override_step; cbn [fst snd].
  destruct (k =s _); [apply (doc_foldl _ P); [|by apply doc_elements|done]; intros; by apply doc_parameter|].
  destruct (k =s _); [apply (doc_foldl _ P); [|by apply doc_elements|done]; intros; by apply doc_disable|].
  destruct (k =s _); [by apply doc_override_env|by apply doc_entry].
Qed.
End Overrides.

(** ** Edits *)

Lemma doc_nested m k : P (AMap m) -> P (AMap (nestedMap m k)).
Proof. intros H. unfold nestedMap. documents. Qed.

Lemma doc_path path v m : P v -> P (AMap m) -> P (AMap (setPathValue m path v)).
Proof.
  intros Hv. revert m. induction path as [|p path IH]; intros m Hm; [done|]. cbn [setPathValue]. destruct path; [documents|].
  apply doc_set; [|done]. by apply IH, doc_nested.
Qed.

Lemma doc_state b item : P (AMap item) -> P (AMap (setItemStateEnabled b item)).
Proof. intros H. unfold setItemStateEnabled. pose proof (doc_nested _ "state" H). documents. Qed.

Lemma doc_write_path shared path v item item' : P v -> P (AMap item) -> write_path shared path v item = Some item' -> P (AMap item').
Proof.
  intros Hv H. unfold write_path, valueMap. destruct (get_obj item "value") as [vt|] eqn:E.
  - pose proof (doc_get_obj _ _ _ H E) as Ht. destruct (obj_get vt "effective_value") as [ev|] eqn:Ev.
    + pose proof (doc_get _ _ _ Ht Ev) as He. destruct ev; try done. intros [= <-]. cbn [as_map]. pose proof (doc_path path v _ Hv He).
      destruct shared; documents.
    + intros [= <-]. pose proof (doc_path path v _ Hv Ht). documents.
  - intros [= <-]. pose proof (doc_path path v [] Hv ltac:(documents)). documents.
Qed.

Lemma doc_edit_item layer ref now shared f item item' :
  P (fp_Value f) -> P (AMap item) -> edit_item layer ref now shared f item = Some item' -> P (AMap item').
Proof.
  intros Hv H. unfold edit_item. destruct (match fp_Path f with [] => _ | _ => _ end) as [item1|] eqn:E; [|done]. cbn [mbind option_bind]. intros [= <-].
  assert (P (AMap item1)) as H1.
  { revert E. destruct (fp_Path f) as [|p path]; [intros [= <-]; unfold setItemEffectiveValue; pose proof (doc_nested _ "value" H); documents|].
    destruct (write_path _ _ _ _) as [item2|] eqn:Ew; [|done]. cbn. intros [= <-]. apply doc_write_path in Ew; [|done..].
    destruct (fp_Enabled f); [|done]. unfold setPathEnabled. pose proof (doc_nested _ "enabled_fields" Ew). documents. }
  assert (P (source_entry layer ref "config_edit_patch" now)) by (unfold source_entry; documents).
  apply doc_set; [done|]. repeat case_match; try done; by apply doc_state.
Qed.

Lemma doc_edit_fields layer ref now l st st' :
  Forall (fun f => P (fp_Value f)) l -> P (AMap (es_items st)) -> edit_fields layer ref now st l = Some st' -> P (AMap (es_items st')).
Proof.
  intros Hl. revert st. induction Hl as [|f l Hf _ IH]; intros st H; cbn [edit_fields]; [by intros [= <-]|].
  destruct (edit_field layer ref now st f) as [st1|] eqn:E; [|done]. cbn [mbind option_bind]. apply IH. revert E. unfold edit_field.
  destruct (edit_item _ _ _ _ _ _) as [item|] eqn:Ei; [|done]. cbn. intros [= <-]. cbn [es_items].
  apply doc_edit_item in Ei; [documents|done|]. unfold itemMap. documents.
Qed.

Lemma doc_enable m : P (AMap m) -> P (AMap (map enable_required m)).
Proof.
  rewrite !doc_map. intros H. apply Forall_map. eapply Forall_impl; [exact H|]. intros [k v] Hv. unfold enable_required; cbn in *.
  destruct v as [| | | | | | | |item]; cbn [as_map]; try done. destruct (itemRequired item); [|done]. by apply doc_state.
Qed.
End Sets.

(** The set after an accepted patch, when the set and the values were decoded. *)
Lemma edited_decoded set patch layer ref now out :
  decoded (AMap set) -> Forall (fun f => decoded (fp_Value f)) (cp_Fields patch) ->
  ApplyEditPatchToConfigSet set patch layer ref now = Edited out -> decoded (AMap out).
Proof.
  intros Hs Hp H. apply edited_inv in H as (st & -> & He & _).
  assert (decoded (AMap (NormalizeConfigSet set))) as Hn.
  { unfold NormalizeConfigSet. rewrite reread_obj_decoded by done. destruct (get_obj set "items"); [done|]. documents. }
  apply (doc_set (P := decoded)); [|done]. apply (doc_enable (P := decoded)).
  eapply (doc_edit_fields (P := decoded)); [exact Hp| |exact He]. cbn [es_items]. unfold itemsMap. documents.
Qed.

(** ** Writing a set as JSON and reading it back *)

Lemma configItem_reread set code : jsonable (AMap set) -> configItem (reread_obj set) code = reread_obj <$> configItem set code.
Proof.
  intros H. unfold configItem, configSetItems. rewrite reread_obj_get_obj by done. destruct (get_obj set "items") as [items|] eqn:E; [|done].
  cbn [fmap option_fmap option_map default from_option id]. apply reread_obj_get_obj. exact (doc_get_obj (P := jsonable) _ _ _ H E).
Qed.

Lemma reread_is_nil v w : reread v = Some w -> is_nil w = is_nil v.
Proof. destruct v; cbn; try by intros [= <-]. - by destruct (finite f); [intros [= <-]|]. - intros H. by destruct ((_ : list any -> option (list any)) l); simplify_eq/=.
  - intros H. by destruct ((_ : obj -> option obj) m); simplify_eq/=.
Qed.

(** A setting of a set that has JSON. *)
Lemma setting_reread set code : jsonable (AMap set) -> setting (reread_obj set) code = (v ← setting set code; reread v).
Proof.
  intros H. unfold setting. rewrite configItem_reread by done. destruct (configItem set code) as [item|] eqn:Ei; [|done].
  cbn [fmap option_fmap option_map mbind option_bind].
  assert (jsonable (AMap item)) as Hi by (pose proof (doc_item (P := jsonable) set code [] H ltac:(documents)) as Hd; by rewrite Ei in Hd).
  unfold item_value_of. rewrite reread_obj_get_obj by done. destruct (get_obj item "value") as [t|] eqn:Et; [|done].
  cbn [fmap option_fmap option_map]. assert (jsonable (AMap t)) as Ht by exact (doc_get_obj (P := jsonable) _ _ _ Hi Et).
  rewrite !reread_obj_get by done.
  assert (forall o, (forall x, o = Some x -> jsonable x) -> non_nil (v ← o; reread v) = (v ← non_nil o; reread v)) as Hn.
  { intros [x|] Hx; [|done]. destruct (Hx x eq_refl) as [y Hy]. cbn. rewrite Hy. pose proof (reread_is_nil _ _ Hy) as Hxy.
    destruct x, y; try done; cbn; by rewrite Hy. }
  rewrite !Hn by (intros x Hx; exact (doc_get (P := jsonable) _ _ _ Ht Hx)). destruct (non_nil (obj_get t "effective_value")) as [e|] eqn:Ee; [|done].
  cbn. assert (jsonable e) as [e' He]; [|by rewrite He].
  destruct (obj_get t "effective_value") as [x|] eqn:Ex; [|done]. pose proof (doc_get (P := jsonable) _ _ _ Ht Ex). by destruct x; simplify_eq/=.
Qed.
