(* ===== verification/Catalog.v ===== *)
(** * The catalog's configuration items (internal/server/catalog: types.go, loader.go)

    The documents of the registry and of the backend catalog, as YAML decodes them,
    and the configuration sets made from them for backends, versions and runtimes.
    A nil map or slice is [None].  Reading the files is not modelled. *)
From S2P Require Import Prelude GoStrings GoNumbers GoValue GoJson GoJsonText.
From Stdlib Require Import Ascii.

(** ** types.go: items *)

Record ConfigItemSchema := {
  sch_Key : string; sch_Owner : string; sch_OwnerLayer : string; sch_ConfigSetKey : string; sch_Category : string;
  sch_Label : string; sch_LabelI18nKey : string; sch_Description : string; sch_DescriptionI18nKey : string; sch_Type : string;
  sch_Kind : string; sch_Target : string; sch_ArgName : string; sch_EnvName : string; sch_MountTarget : string;
  sch_PortTarget : string; sch_Constraints : obj; sch_Choices : list any; sch_Required : bool; sch_Advanced : bool;
  sch_DisplayOrder : Z; sch_ReadOnly : bool; sch_HelpText : string; sch_HelpI18nKey : string; sch_TooltipI18nKey : string;
  sch_SupportLevel : string
}.

(** A nil interface is [None] where it is left out of the JSON. *)
Record ConfigItemValue := {
  val_DefaultValue : any; val_InheritedValue : option any; val_LocalValue : option any; val_EffectiveValue : any
}.

Record ConfigItemState := {
  st_Enabled : bool; st_Checked : bool; st_Editable : bool; st_Visible : bool; st_Valid : bool; st_ValidationError : string
}.

Record CatalogSourceChainEntry := { chain_Layer : string; chain_Value : any; chain_Reason : string }.

Record ConfigItemProvenance := {
  prov_ValueSource : string; prov_LastValueLayer : string; prov_LastValueOwnerID : string;
  prov_SourceChain : list CatalogSourceChainEntry
}.

Record ConfigItemSnapshot := { snap_FromLayer : string; snap_FromID : string; snap_Version : Z; snap_CopiedAt : string }.

Record ConfigItemPresentation := {
  pres_Section : string; pres_Group : string; pres_Priority : Z; pres_DisplayMode : string; pres_Placeholder : string;
  pres_SummaryPriority : Z; pres_HideWhenEmpty : bool; pres_DefaultExpanded : bool; pres_Sensitive : bool
}.

Record ConfigItem := {
  ci_Schema : ConfigItemSchema; ci_Value : ConfigItemValue; ci_State : ConfigItemState; ci_Provenance : ConfigItemProvenance;
  ci_Snapshot : ConfigItemSnapshot; ci_Presentation : ConfigItemPresentation
}.

Record RegistryItem := {
  ri_Code : string; ri_Category : string; ri_Kind : string; ri_Type : string; ri_Label : string; ri_LabelI18nKey : string;
  ri_Description : string; ri_DescriptionI18nKey : string; ri_Help : string; ri_HelpI18nKey : string; ri_TooltipI18nKey : string;
  ri_Required : bool; ri_Visibility : string; ri_Readonly : bool; ri_Advanced : bool; ri_Value : any; ri_DefaultValue : any;
  ri_Enabled : bool; ri_Render : option obj; ri_Order : Z; ri_Constraints : obj; ri_SupportLevel : string;
  ri_Extensions : option obj
}.

Definition zero_schema : ConfigItemSchema :=
  {| sch_Key := ""; sch_Owner := ""; sch_OwnerLayer := ""; sch_ConfigSetKey := ""; sch_Category := ""; sch_Label := "";
     sch_LabelI18nKey := ""; sch_Description := ""; sch_DescriptionI18nKey := ""; sch_Type := ""; sch_Kind := ""; sch_Target := "";
     sch_ArgName := ""; sch_EnvName := ""; sch_MountTarget := ""; sch_PortTarget := ""; sch_Constraints := []; sch_Choices := [];
     sch_Required := false; sch_Advanced := false; sch_DisplayOrder := 0; sch_ReadOnly := false; sch_HelpText := "";
     sch_HelpI18nKey := ""; sch_TooltipI18nKey := ""; sch_SupportLevel := "" |}.
Definition zero_value : ConfigItemValue :=
  {| val_DefaultValue := ANil; val_InheritedValue := None; val_LocalValue := None; val_EffectiveValue := ANil |}.
Definition zero_state : ConfigItemState :=
  {| st_Enabled := false; st_Checked := false; st_Editable := false; st_Visible := false; st_Valid := false; st_ValidationError := "" |}.
Definition provenance_of (layer ref : string) : ConfigItemProvenance :=
  {| prov_ValueSource := layer; prov_LastValueLayer := layer; prov_LastValueOwnerID := ref; prov_SourceChain := [] |}.
Definition zero_snapshot : ConfigItemSnapshot := {| snap_FromLayer := ""; snap_FromID := ""; snap_Version := 0; snap_CopiedAt := "" |}.
Definition presentation_of (group : string) (priority : Z) : ConfigItemPresentation :=
  {| pres_Section := ""; pres_Group := group; pres_Priority := priority; pres_DisplayMode := ""; pres_Placeholder := "";
     pres_SummaryPriority := 0; pres_HideWhenEmpty := false; pres_DefaultExpanded := false; pres_Sensitive := false |}.
Definition zero_item : ConfigItem :=
  {| ci_Schema := zero_schema; ci_Value := zero_value; ci_State := zero_state; ci_Provenance := provenance_of "" "";
     ci_Snapshot := zero_snapshot; ci_Presentation := presentation_of "" 0 |}.

Definition strVal (v : any) : string := default "" (as_str v).

Definition render_of (ri : RegistryItem) (k : string) : string :=
  match ri_Render ri with Some r => strVal (get_any r k) | None => "" end.
Definition extension_of (ri : RegistryItem) (k : string) : option string :=
  match ri_Extensions ri with Some e => as_str (get_any e k) | None => None end.

Definition registry_value (ri : RegistryItem) : ConfigItemValue :=
  if is_nil (ri_Value ri)
  then {| val_DefaultValue := ri_DefaultValue ri; val_InheritedValue := None; val_LocalValue := None;
          val_EffectiveValue := ri_DefaultValue ri |}
  else {| val_DefaultValue := ri_DefaultValue ri;
          val_InheritedValue := if ri_Enabled ri then None else Some (ri_Value ri);
          val_LocalValue := if ri_Enabled ri then Some (ri_Value ri) else None;
          val_EffectiveValue := ri_Value ri |}.

Definition registry_schema (ri : RegistryItem) : ConfigItemSchema :=
  {| sch_Key := ri_Code ri; sch_Owner := ""; sch_OwnerLayer := ""; sch_ConfigSetKey := ""; sch_Category := ri_Category ri;
     sch_Label := default (ri_Label ri) (extension_of ri "label"); sch_LabelI18nKey := ri_LabelI18nKey ri;
     sch_Description := ri_Description ri; sch_DescriptionI18nKey := ri_DescriptionI18nKey ri; sch_Type := ri_Type ri;
     sch_Kind := ri_Kind ri; sch_Target := render_of ri "target"; sch_ArgName := render_of ri "flag";
     sch_EnvName := render_of ri "env_name"; sch_MountTarget := ""; sch_PortTarget := ""; sch_Constraints := ri_Constraints ri;
     sch_Choices := []; sch_Required := ri_Required ri; sch_Advanced := ri_Advanced ri; sch_DisplayOrder := ri_Order ri;
     sch_ReadOnly := ri_Readonly ri; sch_HelpText := ri_Help ri; sch_HelpI18nKey := ri_HelpI18nKey ri;
     sch_TooltipI18nKey := ri_TooltipI18nKey ri; sch_SupportLevel := ri_SupportLevel ri |}.

Definition ToConfigItem (ri : RegistryItem) : ConfigItem :=
  {| ci_Schema := registry_schema ri; ci_Value := registry_value ri;
     ci_State := {| st_Enabled := ri_Enabled ri; st_Checked := ri_Enabled ri; st_Editable := negb (ri_Readonly ri);
                    st_Visible := ri_Visibility ri <>s "hidden"; st_Valid := true; st_ValidationError := "" |};
     ci_Provenance := provenance_of "" ""; ci_Snapshot := zero_snapshot;
     ci_Presentation := presentation_of (default "" (extension_of ri "group")) (ri_Order ri) |}.

(** ** types.go: sets *)

Record ConfigSection := {
  sec_Key : string; sec_Title : string; sec_Match : option obj; sec_DefaultExpanded : bool; sec_Priority : Z
}.

Record ConfigChildSlot := {
  slot_Slot : string; slot_ChildConfigSetKey : string; slot_Title : string; slot_View : string; slot_DisplayMode : string;
  slot_DefaultExpanded : bool; slot_Order : Z
}.

Inductive ConfigSet := Build_ConfigSet {
  cs_SchemaVersion : Z; cs_ConfigSetKey : string; cs_Title : string; cs_Description : string; cs_Context : gmap string string;
  cs_Items : gmap string ConfigItem; cs_ChildSets : list (string * ConfigSet); cs_OwnSections : list ConfigSection;
  cs_ChildSlots : list ConfigChildSlot; cs_SourceMetadata : obj
}.

Record Registry := { reg_SchemaVersion : Z; reg_Items : list RegistryItem; reg_byCode : gmap string RegistryItem }.

Definition registry_Item (r : Registry) (code : string) : option RegistryItem := reg_byCode r !! code.

Definition with_provenance (p : ConfigItemProvenance) (ci : ConfigItem) : ConfigItem :=
  {| ci_Schema := ci_Schema ci; ci_Value := ci_Value ci; ci_State := ci_State ci; ci_Provenance := p;
     ci_Snapshot := ci_Snapshot ci; ci_Presentation := ci_Presentation ci |}.

Definition MaterializeBase (r : Registry) (layer ref : string) : gmap string ConfigItem :=
  foldl (fun items item => <[ri_Code item := with_provenance (provenance_of layer ref) (ToConfigItem item)]> items) ∅ (reg_Items r).

(** ** The JSON of an item and of a set *)

Definition fields_of (l : list (string * option any)) : obj :=
  foldl (fun m kv => match kv.2 with Some v => obj_set kv.1 v m | None => m end) [] l.

Definition omit_str (s : string) : option any := if s =s "" then None else Some (AStr s).
Definition str (s : string) : option any := Some (AStr s).
Definition bool_ (b : bool) : option any := Some (ABool b).
Definition int (z : Z) : option any := Some (AInt z).

Definition schema_obj (s : ConfigItemSchema) : obj :=
  fields_of
    [("key", str (sch_Key s)); ("owner", str (sch_Owner s)); ("owner_layer", str (sch_OwnerLayer s));
     ("config_set_key", str (sch_ConfigSetKey s)); ("category", str (sch_Category s)); ("label", str (sch_Label s));
     ("label_i18n_key", omit_str (sch_LabelI18nKey s)); ("description", omit_str (sch_Description s));
     ("description_i18n_key", omit_str (sch_DescriptionI18nKey s)); ("type", str (sch_Type s)); ("kind", str (sch_Kind s));
     ("target", omit_str (sch_Target s)); ("arg_name", omit_str (sch_ArgName s)); ("env_name", omit_str (sch_EnvName s));
     ("mount_target", omit_str (sch_MountTarget s)); ("port_target", omit_str (sch_PortTarget s));
     ("constraints", match sch_Constraints s with [] => None | m => Some (AMap m) end);
     ("choices", match sch_Choices s with [] => None | l => Some (AList l) end);
     ("required", bool_ (sch_Required s)); ("advanced", bool_ (sch_Advanced s)); ("display_order", int (sch_DisplayOrder s));
     ("read_only", bool_ (sch_ReadOnly s)); ("help_text", omit_str (sch_HelpText s)); ("help_i18n_key", omit_str (sch_HelpI18nKey s));
     ("tooltip_i18n_key", omit_str (sch_TooltipI18nKey s)); ("support_level", str (sch_SupportLevel s))].

Definition value_obj (v : ConfigItemValue) : obj :=
  fields_of [("default_value", Some (val_DefaultValue v)); ("inherited_value", val_InheritedValue v);
             ("local_value", val_LocalValue v); ("effective_value", Some (val_EffectiveValue v))].

Definition state_obj (s : ConfigItemState) : obj :=
  fields_of [("enabled", bool_ (st_Enabled s)); ("checked", bool_ (st_Checked s)); ("editable", bool_ (st_Editable s));
             ("visible", bool_ (st_Visible s)); ("valid", bool_ (st_Valid s)); ("validation_error", omit_str (st_ValidationError s))].

Definition chain_obj (c : CatalogSourceChainEntry) : any :=
  AMap (fields_of [("layer", str (chain_Layer c)); ("value", Some (chain_Value c)); ("reason", str (chain_Reason c))]).

Definition provenance_obj (p : ConfigItemProvenance) : obj :=
  fields_of [("value_source", str (prov_ValueSource p)); ("last_value_layer", str (prov_LastValueLayer p));
             ("last_value_owner_id", omit_str (prov_LastValueOwnerID p));
             ("source_chain", match prov_SourceChain p with [] => None | l => Some (AList (map chain_obj l)) end)].

Definition snapshot_obj (s : ConfigItemSnapshot) : obj :=
  fields_of [("snapshot_from_layer", str (snap_FromLayer s)); ("snapshot_from_id", str (snap_FromID s));
             ("snapshot_version", int (snap_Version s)); ("snapshot_at", str (snap_CopiedAt s))].

Definition presentation_obj (p : ConfigItemPresentation) : obj :=
  fields_of [("section", omit_str (pres_Section p)); ("group", omit_str (pres_Group p)); ("priority", int (pres_Priority p));
             ("display_mode", omit_str (pres_DisplayMode p)); ("placeholder", omit_str (pres_Placeholder p));
             ("summary_priority", int (pres_SummaryPriority p)); ("hide_when_empty", bool_ (pres_HideWhenEmpty p));
             ("default_expanded", bool_ (pres_DefaultExpanded p)); ("sensitive", bool_ (pres_Sensitive p))].

Definition item_obj (ci : ConfigItem) : any :=
  AMap (fields_of [("schema", Some (AMap (schema_obj (ci_Schema ci)))); ("value", Some (AMap (value_obj (ci_Value ci))));
                   ("state", Some (AMap (state_obj (ci_State ci)))); ("provenance", Some (AMap (provenance_obj (ci_Provenance ci))));
                   ("snapshot", Some (AMap (snapshot_obj (ci_Snapshot ci))));
                   ("presentation", Some (AMap (presentation_obj (ci_Presentation ci))))]).

(** A map's entries by increasing key. *)
Definition map_obj {A} (f : A -> any) (m : gmap string A) : obj :=
  foldl (fun o kv => obj_set kv.1 (f kv.2) o) [] (map_to_list m).

Definition section_obj (s : ConfigSection) : any :=
  AMap (fields_of [("key", str (sec_Key s)); ("title", str (sec_Title s));
                   ("match", match sec_Match s with None | Some [] => None | Some m => Some (AMap m) end);
                   ("default_expanded", bool_ (sec_DefaultExpanded s)); ("priority", int (sec_Priority s))]).

Definition slot_obj (s : ConfigChildSlot) : any :=
  AMap (fields_of [("slot", str (slot_Slot s)); ("child_config_set_key", str (slot_ChildConfigSetKey s)); ("title", str (slot_Title s));
                   ("view", str (slot_View s)); ("display_mode", str (slot_DisplayMode s));
                   ("default_expanded", bool_ (slot_DefaultExpanded s)); ("order", int (slot_Order s))]).

Fixpoint set_obj (cs : ConfigSet) : obj :=
  fields_of [("schema_version", int (cs_SchemaVersion cs)); ("config_set_key", str (cs_ConfigSetKey cs)); ("title", omit_str (cs_Title cs));
             ("description", omit_str (cs_Description cs)); ("context", Some (AMap (map_obj AStr (cs_Context cs))));
             ("items", Some (AMap (map_obj item_obj (cs_Items cs))));
             ("child_sets", match cs_ChildSets cs with
                            | [] => None
                            | l => Some (AMap ((fix go l := match l with
                                                            | [] => []
                                                            | (k, c) :: l' => obj_set k (AMap (set_obj c)) (go l')
                                                            end) l))
                            end);
             ("own_sections", match cs_OwnSections cs with [] => None | l => Some (AList (map section_obj l)) end);
             ("child_slots", match cs_ChildSlots cs with [] => None | l => Some (AList (map slot_obj l)) end);
             ("source_metadata", Some (AMap (cs_SourceMetadata cs)))].

(** [ConfigSet.JSON], as a reader of the column decodes it: none when a value has no JSON. *)
Definition ConfigSet_JSON (cs : ConfigSet) : option obj := reread (AMap (set_obj cs)) ≫= as_map.
