(* ===== verification/CatalogLoad.v ===== *)
(** * Loading the catalog (internal/server/catalog/loader.go)

    The checks of the registry and of the backend catalog, and the configuration
    sets that are materialised for a backend, a version and a runtime. *)
From S2P Require Import Prelude GoStrings GoNumbers GoValue GoJson GoJsonText Catalog.
From Stdlib Require Import Ascii.

(** ** Documents

    The fields the loader reads. *)

Record BackendDoc := {
  bk_ID : string; bk_Slug : string; bk_Name : string; bk_ManagedBy : string; bk_SupportedModelFormats : option (list string);
  bk_Protocols : option (list string); bk_DefaultHealthCheck : option obj; bk_SourcePath : string; bk_SourceHash : string
}.

Record VersionDoc := {
  vd_ID : string; vd_BackendID : string; vd_Slug : string; vd_Version : string; vd_Readonly : bool; vd_Protocol : string;
  vd_DefaultPort : Z; vd_DefaultHost : string; vd_DefaultModelMount : option obj; vd_DefaultEndpoints : option obj;
  vd_Capabilities : option (list string); vd_CapabilitiesDetail : any; vd_DefaultEntrypoint : option (list string);
  vd_DefaultCommand : option (list string); vd_DefaultArgs : option (list string); vd_DefaultArgsSchema : list obj;
  vd_HealthCheck : option obj; vd_SourcePath : string; vd_SourceHash : string
}.

Record RuntimeDoc := {
  rd_ID : string; rd_Name : string; rd_DisplayName : string; rd_BackendID : string; rd_BackendVersionID : string; rd_Slug : string;
  rd_Visibility : string; rd_SupportLevel : string; rd_Status : string; rd_Vendor : string; rd_ImageRef : string;
  rd_ImageCandidates : list string; rd_RunnerType : string; rd_ModelMount : option obj; rd_DockerOptions : obj; rd_Devices : obj;
  rd_Volumes : obj; rd_Env : gmap string string; rd_Entrypoint : option (list string); rd_Args : option (list string);
  rd_Ports : list obj; rd_HealthCheck : option obj; rd_Verification : option obj;
  rd_HardwareFamily : string; rd_AcceleratorAPI : string; rd_RuntimeDistribution : string; rd_RuntimeDistributionVersion : string;
  rd_SourcePath : string; rd_SourceHash : string
}.

Record BackendCatalog := { bc_Backends : list BackendDoc; bc_Versions : list VersionDoc; bc_Runtimes : list RuntimeDoc }.

(** ** Registry *)

Definition one_of (l : list string) (s : string) : bool := existsb (String.eqb s) l.

Definition allowedCategory : list string := ["launcher"; "runtime_env"; "model_runtime"].
Definition allowedKind : list string :=
  ["cli_arg"; "cli_args"; "env"; "env_lines"; "port"; "volume"; "device"; "health_check"; "launcher_option"].
Definition allowedType : list string := ["string"; "integer"; "number"; "boolean"; "array"; "object"; "lines"].
Definition allowedSupport : list string := ["verified"; "documented"; "experimental"].

Definition with_support (level : string) (ri : RegistryItem) : RegistryItem :=
  {| ri_Code := ri_Code ri; ri_Category := ri_Category ri; ri_Kind := ri_Kind ri; ri_Type := ri_Type ri; ri_Label := ri_Label ri;
     ri_LabelI18nKey := ri_LabelI18nKey ri; ri_Description := ri_Description ri; ri_DescriptionI18nKey := ri_DescriptionI18nKey ri;
     ri_Help := ri_Help ri; ri_HelpI18nKey := ri_HelpI18nKey ri; ri_TooltipI18nKey := ri_TooltipI18nKey ri;
     ri_Required := ri_Required ri; ri_Visibility := ri_Visibility ri; ri_Readonly := ri_Readonly ri; ri_Advanced := ri_Advanced ri;
     ri_Value := ri_Value ri; ri_DefaultValue := ri_DefaultValue ri; ri_Enabled := ri_Enabled ri; ri_Render := ri_Render ri;
     ri_Order := ri_Order ri; ri_Constraints := ri_Constraints ri; ri_SupportLevel := level; ri_Extensions := ri_Extensions ri |}.

(** The loop works on a copy of the item: only the index sees the default level. *)
Definition check_item (byCode : gmap string RegistryItem) (item : RegistryItem) : string + RegistryItem :=
  if ri_Code item =s "" then inl "config registry item has empty code"
  else if match byCode !! ri_Code item with Some it => ri_Code it <>s "" | None => false end
  then inl ("duplicate config item code " +s+ Quote (ri_Code item))
  else
    let bad what v := inl ("config item " +s+ ri_Code item +s+ " has invalid " +s+ what +s+ " " +s+ Quote v) in
    if negb (one_of allowedCategory (ri_Category item)) then bad "category" (ri_Category item)
    else if negb (one_of allowedKind (ri_Kind item)) then bad "kind" (ri_Kind item)
    else if negb (one_of allowedType (ri_Type item)) then bad "type" (ri_Type item)
    else
      let item := if ri_SupportLevel item =s "" then with_support "documented" item else item in
      if negb (one_of allowedSupport (ri_SupportLevel item)) then bad "support_level" (ri_SupportLevel item) else inr item.

Fixpoint index_items (byCode : gmap string RegistryItem) (items : list RegistryItem) : string + gmap string RegistryItem :=
  match items with
  | [] => inr byCode
  | item :: items =>
      match check_item byCode item with
      | inl e => inl e
      | inr item => index_items (<[ri_Code item := item]> byCode) items
      end
  end.

Definition ValidateRegistry (r : Registry) : string + Registry :=
  match index_items ∅ (reg_Items r) with
  | inl e => inl e
  | inr byCode => inr {| reg_SchemaVersion := reg_SchemaVersion r; reg_Items := reg_Items r; reg_byCode := byCode |}
  end.

(** ** Classification of runtimes *)

Definition visibleRuntimeIDs : list string :=
  ["runtime.vllm.nvidia-docker"; "runtime.sglang.nvidia-docker"; "runtime.llamacpp.nvidia-docker"; "runtime.llamacpp.cpu-docker";
   "runtime.vllm.metax-docker"; "runtime.vllm.huawei-docker"].

Definition runtimeVisibility (r : RuntimeDoc) : string :=
  if rd_Visibility r <>s "" then rd_Visibility r else if one_of visibleRuntimeIDs (rd_ID r) then "visible" else "hidden".

Definition verification_status (r : RuntimeDoc) : string := strVal (get_any (default [] (rd_Verification r)) "status").

Definition runtimeStatus (r : RuntimeDoc) : string :=
  if rd_Status r <>s "" then rd_Status r
  else if runtimeVisibility r <>s "visible" then "disabled"
  else
    let status := verification_status r in
    if status <>s "" then
      if (status =s "template_only") || (status =s "requires_hardware_validation") then "experimental"
      else if status =s "verified" then "active" else status
    else "active".

Definition runtimeSupportLevel (r : RuntimeDoc) : string :=
  if rd_SupportLevel r <>s "" then rd_SupportLevel r
  else if runtimeVisibility r <>s "visible" then "reference"
  else if (rd_Vendor r =s "metax") || (rd_Vendor r =s "huawei") then "experimental"
  else if verification_status r =s "verified" then "verified" else "documented".

(** ** The backend catalog *)

Fixpoint check_backends (ids : gset string) (l : list BackendDoc) : string + gset string :=
  match l with
  | [] => inr ids
  | b :: l =>
      if bk_ID b =s "" then inl "backend catalog has backend with empty id"
      else if bool_decide (bk_ID b ∈ ids) then inl ("duplicate backend id " +s+ Quote (bk_ID b))
      else check_backends ({[bk_ID b]} ∪ ids) l
  end.

Fixpoint check_versions (backends ids : gset string) (l : list VersionDoc) : string + gset string :=
  match l with
  | [] => inr ids
  | v :: l =>
      if (vd_ID v =s "") || (vd_BackendID v =s "") then inl "backend version has empty id/backend_id"
      else if negb (bool_decide (vd_BackendID v ∈ backends))
      then inl ("backend version " +s+ vd_ID v +s+ " references unknown backend " +s+ vd_BackendID v)
      else if bool_decide (vd_ID v ∈ ids) then inl ("duplicate backend version id " +s+ Quote (vd_ID v))
      else check_versions backends ({[vd_ID v]} ∪ ids) l
  end.

Definition offered (r : RuntimeDoc) : bool :=
  (runtimeVisibility r =s "visible") && ((runtimeStatus r =s "active") || (runtimeStatus r =s "experimental")).

Definition runtime_key (r : RuntimeDoc) : string := rd_Vendor r +s+ "|" +s+ rd_BackendID r +s+ "|" +s+ rd_BackendVersionID r.

Fixpoint check_runtimes (backends versions ids : gset string) (keys : gmap string string) (l : list RuntimeDoc) : option string :=
  match l with
  | [] => None
  | r :: l =>
      if (rd_ID r =s "") || (rd_BackendID r =s "") || (rd_BackendVersionID r =s "")
      then Some "backend runtime has empty id/backend_id/backend_version_id"
      else if negb (bool_decide (rd_BackendID r ∈ backends))
      then Some ("backend runtime " +s+ rd_ID r +s+ " references unknown backend " +s+ rd_BackendID r)
      else if negb (bool_decide (rd_BackendVersionID r ∈ versions))
      then Some ("backend runtime " +s+ rd_ID r +s+ " references unknown backend version " +s+ rd_BackendVersionID r)
      else if bool_decide (rd_ID r ∈ ids) then Some ("duplicate backend runtime id " +s+ Quote (rd_ID r))
      else
        let ids := {[rd_ID r]} ∪ ids in
        if offered r then
          match keys !! runtime_key r with
          | Some existing =>
              if existing <>s ""
              then Some ("duplicate visible backend runtime for " +s+ runtime_key r +s+ ": " +s+ existing +s+ " and " +s+ rd_ID r)
              else check_runtimes backends versions ids (<[runtime_key r := rd_ID r]> keys) l
          | None => check_runtimes backends versions ids (<[runtime_key r := rd_ID r]> keys) l
          end
        else check_runtimes backends versions ids keys l
  end.

Definition ValidateCatalog (c : BackendCatalog) : option string :=
  match check_backends ∅ (bc_Backends c) with
  | inl e => Some e
  | inr backends =>
      match check_versions backends ∅ (bc_Versions c) with
      | inl e => Some e
      | inr versions => check_runtimes backends versions ∅ ∅ (bc_Runtimes c)
      end
  end.

(** ** Items of a set *)

Definition nonEmpty (v fallback : string) : string := if v <>s "" then v else fallback.
Definition nonZero (v fallback : Z) : Z := if (v =? 0)%Z then fallback else v.

(** Typed values as interfaces: a nil map or slice is not a nil interface. *)
Definition any_map (m : option obj) : any := match m with Some m => AMap m | None => ANil end.
Definition any_strs (l : option (list string)) : any := match l with Some l => AStrs l | None => ANil end.
Definition some_list {A} (l : option (list A)) : bool := match l with Some (_ :: _) => true | _ => false end.

Definition keyed_schema (code : string) (s : ConfigItemSchema) : ConfigItemSchema :=
  if sch_Key s =s "" then
    {| sch_Key := code; sch_Owner := sch_Owner s; sch_OwnerLayer := sch_OwnerLayer s; sch_ConfigSetKey := sch_ConfigSetKey s;
       sch_Category := sch_Category s; sch_Label := sch_Label s; sch_LabelI18nKey := sch_LabelI18nKey s;
       sch_Description := sch_Description s; sch_DescriptionI18nKey := sch_DescriptionI18nKey s; sch_Type := sch_Type s;
       sch_Kind := sch_Kind s; sch_Target := sch_Target s; sch_ArgName := sch_ArgName s; sch_EnvName := sch_EnvName s;
       sch_MountTarget := sch_MountTarget s; sch_PortTarget := sch_PortTarget s; sch_Constraints := sch_Constraints s;
       sch_Choices := sch_Choices s; sch_Required := sch_Required s; sch_Advanced := sch_Advanced s;
       sch_DisplayOrder := sch_DisplayOrder s; sch_ReadOnly := sch_ReadOnly s; sch_HelpText := sch_HelpText s;
       sch_HelpI18nKey := sch_HelpI18nKey s; sch_TooltipI18nKey := sch_TooltipI18nKey s; sch_SupportLevel := "documented" |}
  else s.

(** [value] is the interface: [None] is nil. *)
Definition tiered_value (v : ConfigItemValue) (value : option any) (defaultValue : any) (enabled : bool) : ConfigItemValue :=
  {| val_DefaultValue := defaultValue; val_InheritedValue := val_InheritedValue v;
     val_LocalValue := match value with Some x => Some x | None => val_LocalValue v end;
     val_EffectiveValue :=
       match value with
       | Some x => if enabled then x else val_EffectiveValue v
       | None => if is_nil defaultValue then val_EffectiveValue v else defaultValue
       end |}.

Definition tiered_item (item : ConfigItem) (code : string) (value : option any) (defaultValue : any) (enabled : bool) (layer ref : string) :
    ConfigItem :=
  let schema := keyed_schema code (ci_Schema item) in
  {| ci_Schema := schema; ci_Value := tiered_value (ci_Value item) value defaultValue enabled;
     ci_State := {| st_Enabled := enabled; st_Checked := enabled;
                    st_Editable := st_Editable (ci_State item) || negb (sch_ReadOnly schema);
                    st_Visible := true; st_Valid := true; st_ValidationError := st_ValidationError (ci_State item) |};
     ci_Provenance := {| prov_ValueSource := layer; prov_LastValueLayer := layer; prov_LastValueOwnerID := ref;
                         prov_SourceChain := prov_SourceChain (ci_Provenance item) |};
     ci_Snapshot := ci_Snapshot item; ci_Presentation := ci_Presentation item |}.

Definition setItemTiered (code : string) (value : option any) (defaultValue : any) (enabled : bool) (layer ref : string)
    (items : gmap string ConfigItem) : gmap string ConfigItem :=
  <[code := tiered_item (default zero_item (items !! code)) code value defaultValue enabled layer ref]> items.

(** The common call: value and default are the same typed value. *)
Definition set_both (code : string) (value : any) (enabled : bool) (layer ref : string) : gmap string ConfigItem -> gmap string ConfigItem :=
  setItemTiered code (Some value) value enabled layer ref.

Definition dynamic_schema (code category kind typ : string) (order : Z) : ConfigItemSchema :=
  {| sch_Key := code; sch_Owner := ""; sch_OwnerLayer := ""; sch_ConfigSetKey := ""; sch_Category := category; sch_Label := "";
     sch_LabelI18nKey := ""; sch_Description := ""; sch_DescriptionI18nKey := ""; sch_Type := typ; sch_Kind := kind; sch_Target := "";
     sch_ArgName := ""; sch_EnvName := ""; sch_MountTarget := ""; sch_PortTarget := ""; sch_Constraints := []; sch_Choices := [];
     sch_Required := false; sch_Advanced := false; sch_DisplayOrder := order; sch_ReadOnly := false; sch_HelpText := "";
     sch_HelpI18nKey := ""; sch_TooltipI18nKey := ""; sch_SupportLevel := "documented" |}.

Definition addDynamicTiered (code category typ : string) (value : any) (layer ref : string) (order : Z)
    (items : gmap string ConfigItem) : gmap string ConfigItem :=
  <[code := {| ci_Schema := dynamic_schema code category "launcher_option" typ order;
               ci_Value := {| val_DefaultValue := value; val_InheritedValue := None; val_LocalValue := None; val_EffectiveValue := value |};
               ci_State := {| st_Enabled := true; st_Checked := false; st_Editable := true; st_Visible := true; st_Valid := true;
                              st_ValidationError := "" |};
               ci_Provenance := provenance_of layer ref; ci_Snapshot := zero_snapshot;
               ci_Presentation := presentation_of "" order |}]> items.

(** ** Arguments of a version *)

Definition arg_text (arg : obj) (k : string) : string := trimmed (get_any arg k).

Definition stringFromMap (m : obj) (key : string) : string :=
  let s := arg_text m key in if (s =s "") || (s =s "<nil>") then "" else s.

Definition firstArgString (m : obj) (keys : list string) : string :=
  default "" (List.find (fun s => s <>s "") (map (stringFromMap m) keys)).

Fixpoint first_options (m : obj) (keys : list string) : list any :=
  match keys with
  | [] => []
  | key :: keys =>
      match obj_get m key with
      | Some (AList l) => l
      | Some (AStrs l) => map AStr l
      | _ => first_options m keys
      end
  end.
Definition argOptions (m : obj) : list any := first_options m ["options"; "values"; "choices"].

Definition normalizeConfigType (typ : string) : string :=
  let t := ToLower (TrimSpace typ) in
  if t =s "int" then "integer"
  else if (t =s "float") || (t =s "double") then "number"
  else if t =s "bool" then "boolean"
  else if one_of ["integer"; "number"; "boolean"; "array"; "object"; "lines"] t then t else "string".

Definition boolFromAny (v : any) : bool := default false (as_bool v).

Definition configCodeFromArgName (name : string) : string :=
  let trimmed := TrimSpace name in
  if (trimmed =s "") || HasPrefix trimmed "{{" then ""
  else
    let normalized := TrimLeft (ReplaceAll trimmed "-"%char "_"%char) "_"%char in
    if one_of ["max_model_len"; "context_length"; "ctx_size"] normalized then "model_runtime.max_model_len"
    else if one_of ["gpu_memory_utilization"; "mem_fraction_static"] normalized then "model_runtime.gpu_memory_utilization"
    else if normalized =s "served_model_name" then "deployment.served_model_name"
    else "model_runtime." +s+ normalized.

Definition configCodesFromArgs (args : list obj) : list string :=
  concat (map (fun arg =>
    let name := arg_text arg "name" in
    if name =s "" then [] else let code := configCodeFromArgName name in if code <>s "" then [code] else []) args)
  ++ ["backend.extra_args"].

Definition arg_item (idx : Z) (arg : obj) (name code layer ref : string) : ConfigItem :=
  let typ := arg_text arg "type" in
  let typ := if (typ =s "") || (typ =s "<nil>") then "string" else typ in
  let defaultValue := if is_nil (get_any arg "default") then get_any arg "value" else get_any arg "default" in
  let required := boolFromAny (get_any arg "required") in
  let label := arg_text arg "label" in
  let labelled := (label <>s "") && (label <>s "<nil>") in
  let options := argOptions arg in
  {| ci_Schema :=
       {| sch_Key := code; sch_Owner := ""; sch_OwnerLayer := ""; sch_ConfigSetKey := ""; sch_Category := "model_runtime";
          sch_Label := if labelled then label else ""; sch_LabelI18nKey := stringFromMap arg "label_i18n_key";
          sch_Description := firstArgString arg ["description"; "help"];
          sch_DescriptionI18nKey := stringFromMap arg "description_i18n_key"; sch_Type := normalizeConfigType typ; sch_Kind := "cli_arg";
          sch_Target := "cli"; sch_ArgName := name; sch_EnvName := ""; sch_MountTarget := ""; sch_PortTarget := "";
          sch_Constraints := match options with [] => [] | _ => [("options", AList options)] end; sch_Choices := options;
          sch_Required := required; sch_Advanced := false; sch_DisplayOrder := 300 + idx; sch_ReadOnly := false;
          sch_HelpText := firstArgString arg ["help"; "description"; "tooltip"]; sch_HelpI18nKey := stringFromMap arg "help_i18n_key";
          sch_TooltipI18nKey := stringFromMap arg "tooltip_i18n_key"; sch_SupportLevel := "documented" |};
     ci_Value := {| val_DefaultValue := defaultValue; val_InheritedValue := None; val_LocalValue := None; val_EffectiveValue := defaultValue |};
     ci_State := {| st_Enabled := required; st_Checked := required; st_Editable := true; st_Visible := true; st_Valid := true;
                    st_ValidationError := "" |};
     ci_Provenance := provenance_of layer ref; ci_Snapshot := zero_snapshot;
     ci_Presentation := presentation_of (if labelled then arg_text arg "group" else "") (300 + idx) |}.

(** The code and the item of an argument, unless it is skipped. *)
Definition arg_entry (idx : Z) (arg : obj) (layer ref : string) : option (string * ConfigItem) :=
  let name := arg_text arg "name" in
  if (name =s "") || (name =s "{{MODEL_CONTAINER_PATH}}") then None
  else let code := configCodeFromArgName name in
       if code =s "" then None else Some (code, arg_item idx arg name code layer ref).

Fixpoint addArgConfigItems (idx : Z) (args : list obj) (layer ref : string) (items : gmap string ConfigItem) : gmap string ConfigItem :=
  match args with
  | [] => items
  | arg :: args =>
      addArgConfigItems (idx + 1) args layer ref
        (match arg_entry idx arg layer ref with Some (code, item) => <[code := item]> items | None => items end)
  end.
Definition addArgConfigItemsTiered := addArgConfigItems 0.

(** ** Docker options and environment of a runtime *)

Fixpoint env_like_bytes (s : string) : option bool :=
  match s with
  | EmptyString => Some false
  | String c s =>
      if is_upper c then (fun _ => true) <$> env_like_bytes s
      else if is_digit c || Ascii.eqb c "_"%char then env_like_bytes s else None
  end.

Definition isEnvLikeCatalogKey (key : string) : bool :=
  if TrimSpace key =s "" then false
  else match env_like_bytes key with
       | Some hasUpper => hasUpper && Contains key "_"
       | None => false
       end.

Definition device_pair (host container : string) : any := AMap [("container_path", AStr container); ("host_path", AStr host)].

Definition normalizeDockerValue (key : string) (value : any) : any :=
  if key <>s "devices" then value
  else match value with
       | AList [] => ANil
       | AList l => AList (map (fun item => match item with
                                            | AStr s => device_pair s s
                                            | AMap d => AMap (map (fun kv => (kv.1, AStr (fmt_v kv.2))) d)
                                            | v => device_pair (fmt_v v) (fmt_v v)
                                            end) l)
       | v => v
       end.

Section Materialize.
Context `{MR : MapRange}.

Definition docker_key (k : string) : string :=
  let key := if k =s "security_opt" then "security_options" else k in
  if key =s "uts" then "uts_mode" else key.

Definition docker_step (out : obj) (kv : string * any) : obj :=
  let key := docker_key kv.1 in
  if isEnvLikeCatalogKey key then out else obj_set key (normalizeDockerValue key kv.2) out.

Definition normalizeDockerOptions (r : RuntimeDoc) : obj :=
  let out := foldl docker_step [] (range (obj_map (rd_DockerOptions r))) in
  let out := match obj_get out "devices", rd_Devices r with None, _ :: _ => obj_set "devices" (AMap (rd_Devices r)) out | _, _ => out end in
  match obj_get out "volumes", rd_Volumes r with None, _ :: _ => obj_set "volumes" (AMap (rd_Volumes r)) out | _, _ => out end.

Definition normalizeRuntimeEnv (runtimeEnv : gmap string string) (dockerOptions : obj) : gmap string string :=
  foldl (fun out kv => if isEnvLikeCatalogKey kv.1 then <[kv.1 := trimmed kv.2]> out else out)
    (foldl (fun out kv => if TrimSpace kv.1 <>s "" then <[kv.1 := kv.2]> out else out) ∅ (range runtimeEnv))
    (range (obj_map dockerOptions)).

Definition appendIfMissing (l : list string) (value : string) : list string := if one_of l value then l else l ++ [value].

Definition task_of (cap : string) : option string :=
  if cap =s "chat_completions" then Some "chat" else if cap =s "completions" then Some "completion"
  else if cap =s "embeddings" then Some "embedding" else None.

Definition derived_capabilities (b : BackendDoc) (v : VersionDoc) : any :=
  let tasks := foldl (fun l cap => match task_of cap with Some t => appendIfMissing l t | None => l end) [] (default [] (vd_Capabilities v)) in
  AMap [("derived_from_config_set", ABool true); ("serving_protocols", AStrs [vd_Protocol v]);
        ("supported_capabilities", any_strs (vd_Capabilities v)); ("supported_formats", any_strs (bk_SupportedModelFormats b));
        ("supported_tasks", AStrs tasks); ("test_endpoints", any_map (vd_DefaultEndpoints v))].

Definition normalizedCapabilities (b : BackendDoc) (v : VersionDoc) : any :=
  match vd_CapabilitiesDetail v with
  | AMap ((_ :: _) as caps) => AMap caps
  | AStr caps => if TrimSpace caps <>s "" then default (derived_capabilities b v) (Unmarshal caps) else derived_capabilities b v
  | _ => derived_capabilities b v
  end.

Definition sourceMetadata (path hash parentRef kind : string) : obj :=
  [("copied_at", AStr "catalog-import"); ("copy_boundary", AStr "detached_after_create"); ("copy_semantics", AStr "copy_on_create");
   ("kind", AStr kind); ("materialized_at", AStr "catalog-import"); ("parent_ref", AStr parentRef); ("source_hash", AStr hash);
   ("source_ref", AStr path)].

Definition set_of (key : string) (context : list (string * string)) (items : gmap string ConfigItem) (meta : obj) : ConfigSet :=
  {| cs_SchemaVersion := 1; cs_ConfigSetKey := key; cs_Title := ""; cs_Description := ""; cs_Context := list_to_map context;
     cs_Items := items; cs_ChildSets := []; cs_OwnSections := []; cs_ChildSlots := []; cs_SourceMetadata := meta |}.

Definition MaterializeBackend (r : Registry) (b : BackendDoc) : ConfigSet :=
  let items := MaterializeBase r "Backend" (bk_ID b) in
  let items := set_both "runtime.health" (any_map (bk_DefaultHealthCheck b)) true "Backend" (bk_ID b) items in
  let items := addDynamicTiered "backend.capabilities" "model_runtime" "object"
                 (AMap [("protocols", any_strs (bk_Protocols b)); ("supported_formats", any_strs (bk_SupportedModelFormats b))])
                 "Backend" (bk_ID b) 5 items in
  set_of "BackendConfigSet" [("backend", bk_Slug b); ("backend_id", bk_ID b); ("launcher_kind", "docker")] items
    (sourceMetadata (bk_SourcePath b) (bk_SourceHash b) "" "backend").

Definition version_args (v : VersionDoc) : option (list string) := if some_list (vd_DefaultArgs v) then vd_DefaultArgs v else vd_DefaultCommand v.

Definition version_items (b : BackendDoc) (v : VersionDoc) (items : gmap string ConfigItem) : gmap string ConfigItem :=
  let layer := "BackendVersion" in let ref := vd_ID v in
  let args := version_args v in
  let host := nonEmpty (vd_DefaultHost v) "0.0.0.0" in
  let port := nonZero (vd_DefaultPort v) 8000 in
  let items := set_both "launcher.entrypoint" (any_strs (vd_DefaultEntrypoint v)) (some_list (vd_DefaultEntrypoint v)) layer ref items in
  let items := set_both "launcher.command" (any_strs args) (some_list args) layer ref items in
  let items := set_both "service.listen_host" (AStr host) true layer ref items in
  let items := set_both "service.container_port" (AInt port) true layer ref items in
  let items := set_both "runtime.model_mount" (any_map (vd_DefaultModelMount v)) (some_list (vd_DefaultModelMount v)) layer ref items in
  let items := set_both "runtime.health" (any_map (vd_HealthCheck v)) (some_list (vd_HealthCheck v)) layer ref items in
  let items := addDynamicTiered "backend.capabilities" "model_runtime" "object" (normalizedCapabilities b v) layer ref 5 items in
  let items := addDynamicTiered "backend.supported_config_items" "model_runtime" "array"
                 (AStrs (configCodesFromArgs (vd_DefaultArgsSchema v))) layer ref 6 items in
  addArgConfigItemsTiered (vd_DefaultArgsSchema v) layer ref items.

Definition MaterializeBackendVersion (r : Registry) (b : BackendDoc) (v : VersionDoc) : ConfigSet :=
  set_of "BackendVersionConfigSet"
    [("backend", bk_Slug b); ("backend_id", vd_BackendID v); ("backend_version", vd_ID v); ("launcher_kind", "docker")]
    (version_items b v (MaterializeBase r "BackendVersion" (vd_ID v)))
    (sourceMetadata (vd_SourcePath v) (vd_SourceHash v) ("backend:" +s+ vd_BackendID v) "backend_version").

Definition runtime_image (r : RuntimeDoc) : string :=
  if rd_ImageRef r =s "" then default "" (head (rd_ImageCandidates r)) else rd_ImageRef r.

Definition runtime_items (r : RuntimeDoc) (items : gmap string ConfigItem) : gmap string ConfigItem :=
  let layer := "BackendRuntime" in let ref := rd_ID r in
  let image := runtime_image r in
  let env := normalizeRuntimeEnv (rd_Env r) (rd_DockerOptions r) in
  let items := set_both "launcher.kind" (AStr (nonEmpty (rd_RunnerType r) "docker")) true layer ref items in
  let items := set_both "launcher.image" (AStr image) (image <>s "") layer ref items in
  let items := set_both "launcher.entrypoint" (any_strs (rd_Entrypoint r)) (some_list (rd_Entrypoint r)) layer ref items in
  let items := set_both "launcher.command" (any_strs (rd_Args r)) (some_list (rd_Args r)) layer ref items in
  let items := set_both "launcher.docker_options" (AMap (normalizeDockerOptions r)) true layer ref items in
  let items := set_both "runtime.env" (AMap (map_obj AStr env)) (0 <? size env)%nat layer ref items in
  let items := set_both "runtime.model_mount" (any_map (rd_ModelMount r)) (some_list (rd_ModelMount r)) layer ref items in
  let items := set_both "runtime.health" (any_map (rd_HealthCheck r)) (some_list (rd_HealthCheck r)) layer ref items in
  match rd_Ports r with
  | [] => items
  | ports => set_both "launcher.ports" (AList (map AMap ports)) true layer ref items
  end.

Definition MaterializeBackendRuntime (versionSet : ConfigSet) (r : RuntimeDoc) : ConfigSet :=
  set_of "BackendRuntimeConfigSet"
    [("backend_id", rd_BackendID r); ("backend_version", rd_BackendVersionID r); ("backend_runtime", rd_ID r);
     ("launcher_kind", nonEmpty (rd_RunnerType r) "docker"); ("vendor", rd_Vendor r)]
    (runtime_items r (cs_Items versionSet))
    (sourceMetadata (rd_SourcePath r) (rd_SourceHash r) ("backend_version:" +s+ rd_BackendVersionID r) "backend_runtime").
End Materialize.
