(* ===== verification/CatalogProps.v ===== *)
(** * Theorems on the catalog

    The materialised sets file every item under its key, the checks of the catalog
    accept exactly the consistent catalogs, a runtime's set is its version's overlaid
    with what the runtime gives, and a command-line item reaches the resolver with its
    flag and its value. *)
From S2P Require Import Prelude GoStrings GoNumbers GoValue GoJson GoJsonText RunPlanTypes ResolverArgs ConfigSets ConfigSetProps Catalog CatalogLoad.

(** ** Items under their keys *)

Definition filed (code : string) (ci : ConfigItem) : Prop := sch_Key (ci_Schema ci) = code.
Definition all_filed (items : gmap string ConfigItem) : Prop := map_Forall filed items.

Lemma insert_filed code ci items : all_filed items -> filed code ci -> all_filed (<[code := ci]> items).
Proof. intros H Hc. by apply map_Forall_insert_2. Qed.

Lemma setItemTiered_filed code value def b layer ref items :
  all_filed items -> all_filed (setItemTiered code value def b layer ref items).
Proof.
  intros H. apply insert_filed; [done|]. unfold filed, tiered_item, keyed_schema; cbn.
  destruct (items !! code) as [ci|] eqn:E; cbn; [|done]. specialize (H _ _ E). unfold filed in H. by destruct (sch_Key _ =s "").
Qed.

Lemma addDynamicTiered_filed code category typ value layer ref order items :
  all_filed items -> all_filed (addDynamicTiered code category typ value layer ref order items).
Proof. intros H. by apply insert_filed. Qed.

Lemma arg_entry_filed idx arg layer ref code item : arg_entry idx arg layer ref = Some (code, item) -> filed code item.
Proof. unfold arg_entry. repeat case_match; try done. by intros [= <- <-]. Qed.

Lemma addArgConfigItems_filed idx args layer ref items :
  all_filed items -> all_filed (addArgConfigItems idx args layer ref items).
Proof.
  revert idx items. induction args as [|arg args IH]; intros idx items H; cbn; [done|]. apply IH.
  destruct (arg_entry idx arg layer ref) as [[code item]|] eqn:E; [|done]. apply insert_filed; [done|]. by eapply arg_entry_filed.
Qed.

Lemma MaterializeBase_filed r layer ref : all_filed (MaterializeBase r layer ref).
Proof.
  unfold MaterializeBase. assert (all_filed ∅) as H by apply map_Forall_empty. revert H. generalize (∅ : gmap string ConfigItem).
  induction (reg_Items r) as [|it l IH]; intros items H; cbn [foldl]; [done|]. by apply IH, insert_filed.
Qed.

Create HintDb filed.
#[local] Hint Resolve setItemTiered_filed addDynamicTiered_filed addArgConfigItems_filed MaterializeBase_filed : filed.

Section Sets.
Context `{MR : MapRange}.

Lemma runtime_items_filed r items : all_filed items -> all_filed (runtime_items r items).
Proof. intros H. unfold runtime_items, set_both. destruct (rd_Ports r); eauto 12 with filed. Qed.

(** In the sets materialised for a backend, a version and a runtime every item is
    filed under its schema's key. *)
Theorem materialized_filed reg b v r :
  all_filed (cs_Items (MaterializeBackend reg b)) /\ all_filed (cs_Items (MaterializeBackendVersion reg b v)) /\
  all_filed (cs_Items (MaterializeBackendRuntime (MaterializeBackendVersion reg b v) r)).
Proof.
  assert (all_filed (version_items b v (MaterializeBase reg "BackendVersion" (vd_ID v)))) as Hv.
  { unfold version_items, addArgConfigItemsTiered, set_both. eauto 12 with filed. }
  split_and!; [|done|by apply runtime_items_filed].
  unfold MaterializeBackend, set_both, set_of; cbn [cs_Items]. eauto 12 with filed.
Qed.

(** ** A runtime's set over its version's *)

Definition effective (items : gmap string ConfigItem) (code : string) : option any :=
  (fun ci => val_EffectiveValue (ci_Value ci)) <$> items !! code.

(** What the runtime gives: the code, the value, and whether it is given. *)
Definition runtime_layer (r : RuntimeDoc) : list (string * any * bool) :=
  let env := normalizeRuntimeEnv (rd_Env r) (rd_DockerOptions r) in
  [("launcher.kind", AStr (nonEmpty (rd_RunnerType r) "docker"), true);
   ("launcher.image", AStr (runtime_image r), runtime_image r <>s "");
   ("launcher.entrypoint", any_strs (rd_Entrypoint r), some_list (rd_Entrypoint r));
   ("launcher.command", any_strs (rd_Args r), some_list (rd_Args r));
   ("launcher.docker_options", AMap (normalizeDockerOptions r), true);
   ("runtime.env", AMap (map_obj AStr env), (0 <? size env)%nat);
   ("runtime.model_mount", any_map (rd_ModelMount r), some_list (rd_ModelMount r));
   ("runtime.health", any_map (rd_HealthCheck r), some_list (rd_HealthCheck r))]
  ++ match rd_Ports r with [] => [] | ports => [("launcher.ports", AList (map AMap ports), true)] end.

Definition apply_layer (layer ref : string) (l : list (string * any * bool)) (items : gmap string ConfigItem) : gmap string ConfigItem :=
  foldl (fun items cvb => set_both cvb.1.1 cvb.1.2 cvb.2 layer ref items) items l.

Lemma runtime_items_layer r items : runtime_items r items = apply_layer "BackendRuntime" (rd_ID r) (runtime_layer r) items.
Proof. unfold apply_layer, runtime_layer. rewrite foldl_app. unfold runtime_items. by destruct (rd_Ports r). Qed.

Lemma effective_set code value b layer ref items c :
  effective (set_both code value b layer ref items) c =
  if decide (code = c) then Some (if b then value else default ANil (effective items code)) else effective items c.
Proof.
  unfold effective, set_both, setItemTiered. case_decide as H.
  - subst c. rewrite lookup_insert_eq. cbn. by destruct (items !! code).
  - by rewrite lookup_insert_ne.
Qed.

Lemma effective_layer layer ref l items c : NoDup l.*1.*1 ->
  effective (apply_layer layer ref l items) c =
  match List.find (fun cvb => cvb.1.1 =s c) l with
  | Some cvb => Some (if cvb.2 then cvb.1.2 else default ANil (effective items c))
  | None => effective items c
  end.
Proof.
  unfold apply_layer. revert items. induction l as [|[[code value] b] l IH]; intros items Hn; [done|].
  rewrite !fmap_cons in Hn. apply NoDup_cons in Hn as [Hc Hn]. cbn [foldl fst snd List.find]. rewrite IH by done. rewrite effective_set.
  destruct (code =s c) eqn:E; bool_facts.
  - subst c. assert (List.find (fun cvb => cvb.1.1 =s code) l = None) as ->; [|by rewrite decide_True].
    destruct (List.find _ l) as [[[c' v'] b']|] eqn:Ef; [|done]. apply find_some in Ef as [Hin Heq]. cbn in Heq. bool_facts. subst c'.
    destruct Hc. apply list_elem_of_fmap. exists (code, v'). split; [done|]. apply list_elem_of_fmap. exists (code, v', b').
    split; [done|]. by apply list_elem_of_In.
  - rewrite !decide_False by done. done.
Qed.

(** The effective value of a setting in a runtime's set is the runtime's when the
    runtime gives one, and the version's otherwise. *)
Theorem runtime_overlays_version vs r c :
  effective (cs_Items (MaterializeBackendRuntime vs r)) c =
  match List.find (fun cvb => cvb.1.1 =s c) (runtime_layer r) with
  | Some (_, value, given) => Some (if given then value else default ANil (effective (cs_Items vs) c))
  | None => effective (cs_Items vs) c
  end.
Proof.
  unfold MaterializeBackendRuntime; cbn [cs_Items set_of]. rewrite runtime_items_layer, effective_layer.
  - by destruct (List.find _ _) as [[[]]|].
  - unfold runtime_layer. destruct (rd_Ports r); cbn; apply (bool_decide_unpack _); by vm_compute.
Qed.
End Sets.

(** ** What the checks accept *)

(** Identifiers are present, new and distinct. *)
Definition fresh_ids (ids : gset string) (l : list string) : Prop := NoDup l /\ Forall (fun x => x <> "" /\ x ∉ ids) l.

Lemma fresh_ids_cons ids x l : fresh_ids ids (x :: l) <-> x <> "" /\ x ∉ ids /\ fresh_ids ({[ x ]} ∪ ids) l.
Proof.
  unfold fresh_ids. rewrite NoDup_cons, Forall_cons, !Forall_forall. split.
  - intros ((Hx & Hn) & (Hne & Hi) & Hl). split_and!; try done. intros y Hy. specialize (Hl y Hy). set_solver.
  - intros (Hne & Hi & Hn & Hl). split_and!; try done; [intros Hx; specialize (Hl x Hx); set_solver|].
    intros y Hy. specialize (Hl y Hy). set_solver.
Qed.

Lemma check_backends_spec ids l ids' :
  check_backends ids l = inr ids' <-> fresh_ids ids (map bk_ID l) /\ ids' = list_to_set (map bk_ID l) ∪ ids.
Proof.
  revert ids. induction l as [|b l IH]; intros ids; cbn [check_backends map].
  - split; [intros [= <-]|intros [_ ->]]; [split; [by split; constructor|set_solver]|f_equal; set_solver].
  - rewrite fresh_ids_cons. destruct (bk_ID b =s "") eqn:E1; bool_facts; [by split; [|intros [[? _] _]]|].
    case_bool_decide as E2; [by split; [|intros [(_ & ? & _) _]]|]. rewrite IH, list_to_set_cons. split.
    + intros [H ->]. split; [done|]. set_solver.
    + intros [(_ & _ & H) ->]. split; [done|]. set_solver.
Qed.

Definition version_ok (backends : gset string) (v : VersionDoc) : Prop := vd_BackendID v <> "" /\ vd_BackendID v ∈ backends.

Lemma check_versions_spec backends ids l ids' :
  check_versions backends ids l = inr ids' <->
  fresh_ids ids (map vd_ID l) /\ Forall (version_ok backends) l /\ ids' = list_to_set (map vd_ID l) ∪ ids.
Proof.
  revert ids. induction l as [|v l IH]; intros ids; cbn [check_versions map].
  - split; [intros [= <-]|intros (_ & _ & ->)]; [split_and!; [by split; constructor|done|set_solver]|f_equal; set_solver].
  - rewrite fresh_ids_cons, Forall_cons. unfold version_ok at 1. destruct (vd_ID v =s "") eqn:E1; bool_facts; [cbn; split; [done|intros ((? & _) & _); done]|].
    destruct (vd_BackendID v =s "") eqn:E3; bool_facts; cbn [orb]; [split; [done|intros (_ & ((? & _) & _) & _); done]|].
    case_bool_decide as E4; cbn [negb]; [|split; [done|intros (_ & ((_ & ?) & _) & _); done]].
    case_bool_decide as E2; [split; [done|intros ((_ & ? & _) & _); done]|]. rewrite IH, list_to_set_cons. split.
    + intros (H & Hv & ->). split_and!; try done. set_solver.
    + intros ((_ & _ & H) & (_ & Hv) & ->). split_and!; try done. set_solver.
Qed.

Definition runtime_ok (backends versions : gset string) (r : RuntimeDoc) : Prop :=
  rd_BackendID r <> "" /\ rd_BackendVersionID r <> "" /\ rd_BackendID r ∈ backends /\ rd_BackendVersionID r ∈ versions.

Definition offered_keys (l : list RuntimeDoc) : list string := map runtime_key (List.filter offered l).

Definition fresh_keys (keys : gmap string string) (l : list string) : Prop := NoDup l /\ Forall (fun k => keys !! k = None) l.

Lemma fresh_keys_cons keys k v l : fresh_keys keys (k :: l) <-> keys !! k = None /\ fresh_keys (<[k := v]> keys) l.
Proof.
  unfold fresh_keys. rewrite NoDup_cons, Forall_cons, !Forall_forall. split.
  - intros ((Hk & Hn) & Hi & Hl). split_and!; try done. intros y Hy. rewrite lookup_insert_ne; [by apply Hl|]. by intros ->.
  - intros (Hi & Hn & Hl). split_and!; try done.
    + intros Hk. specialize (Hl _ Hk). by rewrite lookup_insert_eq in Hl.
    + intros y Hy. specialize (Hl _ Hy). by apply lookup_insert_None in Hl as [? _].
Qed.

Lemma check_runtimes_spec backends versions ids keys l :
  map_Forall (fun _ id => id <> "") keys ->
  check_runtimes backends versions ids keys l = None <->
  fresh_ids ids (map rd_ID l) /\ Forall (runtime_ok backends versions) l /\ fresh_keys keys (offered_keys l).
Proof.
  revert ids keys. induction l as [|r l IH]; intros ids keys Hkeys; cbn [check_runtimes map].
  - split; [|done]. intros _. split_and!; [by split; constructor|done|by split; constructor].
  - rewrite fresh_ids_cons, Forall_cons. unfold runtime_ok at 1.
    destruct (rd_ID r =s "") eqn:E1; bool_facts; [cbn; split; [done|intros ((? & _) & _); done]|].
    destruct (rd_BackendID r =s "") eqn:E2; bool_facts; [cbn; split; [done|intros (_ & ((? & _) & _) & _); done]|].
    destruct (rd_BackendVersionID r =s "") eqn:E3; bool_facts; cbn [orb]; [split; [done|intros (_ & ((_ & ? & _) & _) & _); done]|].
    case_bool_decide as E4; cbn [negb]; [|split; [done|intros (_ & ((_ & _ & ? & _) & _) & _); done]].
    case_bool_decide as E5; cbn [negb]; [|split; [done|intros (_ & ((_ & _ & _ & ?) & _) & _); done]].
    case_bool_decide as E6; [split; [done|intros ((_ & ? & _) & _); done]|].
    unfold offered_keys; cbn [List.filter]. destruct (offered r); cbn [map].
    + rewrite (fresh_keys_cons keys _ (rd_ID r)). destruct (keys !! runtime_key r) as [existing|] eqn:Ek.
      * assert (existing <> "") as Hex by (by apply (Hkeys (runtime_key r))). apply String.eqb_neq in Hex as ->. cbn [negb].
        split; [done|intros (_ & _ & ? & _); done].
      * rewrite IH by (by apply map_Forall_insert_2). unfold offered_keys. tauto.
    + rewrite IH by done. unfold offered_keys. tauto.
Qed.

(** The catalog is accepted exactly when identifiers are present and distinct, every
    version names a backend and every runtime a backend and a version of the catalog,
    and no two offered runtimes serve the same vendor, backend and version. *)
Theorem ValidateCatalog_spec c :
  let backends := list_to_set (map bk_ID (bc_Backends c)) : gset string in
  let versions := list_to_set (map vd_ID (bc_Versions c)) : gset string in
  ValidateCatalog c = None <->
  fresh_ids ∅ (map bk_ID (bc_Backends c)) /\
  fresh_ids ∅ (map vd_ID (bc_Versions c)) /\ Forall (version_ok backends) (bc_Versions c) /\
  fresh_ids ∅ (map rd_ID (bc_Runtimes c)) /\ Forall (runtime_ok backends versions) (bc_Runtimes c) /\
  NoDup (offered_keys (bc_Runtimes c)).
Proof.
  cbv zeta. unfold ValidateCatalog. destruct (check_backends ∅ (bc_Backends c)) as [e|bs] eqn:Eb.
  { split; [done|]. intros (H & _). assert (check_backends ∅ (bc_Backends c) = inr (list_to_set (map bk_ID (bc_Backends c)) ∪ ∅)) as Hb
      by (by apply check_backends_spec). by rewrite Eb in Hb. }
  apply check_backends_spec in Eb as [Hb Eb]. rewrite union_empty_r_L in Eb. subst bs.
  destruct (check_versions _ ∅ (bc_Versions c)) as [e|vs] eqn:Ev.
  { split; [done|]. intros (_ & H1 & H2 & _).
    assert (check_versions (list_to_set (map bk_ID (bc_Backends c))) ∅ (bc_Versions c) = inr (list_to_set (map vd_ID (bc_Versions c)) ∪ ∅)) as Hv
      by (by apply check_versions_spec). by rewrite Ev in Hv. }
  apply check_versions_spec in Ev as (Hv1 & Hv2 & Ev). rewrite union_empty_r_L in Ev. subst vs.
  rewrite check_runtimes_spec by apply map_Forall_empty.
  unfold fresh_keys. assert (Forall (fun k => (∅ : gmap string string) !! k = None) (offered_keys (bc_Runtimes c))) as Hk.
  { apply Forall_forall. intros k _. apply lookup_empty. }
  split; [intros (H1 & H2 & H3 & _)|intros (_ & _ & _ & H1 & H2 & H3)]; split_and!; done.
Qed.

(** ** From an item to the resolver *)

(** The fields of a structure: the last writing of a name. *)
Lemma fields_of_get l k : NoDup l.*1 -> obj_get (fields_of l) k = (kv ← List.find (fun kv => kv.1 =s k) l; kv.2).
Proof.
  unfold fields_of. assert (forall m, obj_get m k = None -> NoDup l.*1 ->
    obj_get (foldl (fun m kv => match kv.2 with Some v => obj_set kv.1 v m | None => m end) m l) k =
    (kv ← List.find (fun kv : string * option any => kv.1 =s k) l; kv.2)) as H; [|by apply H].
  induction l as [|[k' [v|]] l IH]; intros m Hm Hn; [done| |]; rewrite fmap_cons in Hn; apply NoDup_cons in Hn as [Hk Hn];
    cbn [foldl fst snd List.find]; (destruct (k' =s k) eqn:E; bool_facts).
  - subst k'. cbn. clear IH. assert (obj_get (obj_set k v m) k = Some v) as Hg by apply obj_get_set. revert Hg. generalize (obj_set k v m).
    induction l as [|[k' [w|]] l IH]; intros m' Hm'; [done| |]; rewrite fmap_cons in Hk, Hn; apply not_elem_of_cons in Hk as [Hk' Hk];
      apply NoDup_cons in Hn as [_ Hn]; cbn [foldl fst snd]; apply IH; try done. by rewrite obj_get_set_ne.
  - apply IH; [|done]. by rewrite obj_get_set_ne.
  - subst k'. cbn. clear IH. revert m Hm. induction l as [|[k' [w|]] l IH]; intros m' Hm'; [done| |]; rewrite fmap_cons in Hk, Hn;
      apply not_elem_of_cons in Hk as [Hk' Hk]; apply NoDup_cons in Hn as [_ Hn]; cbn [foldl fst snd]; apply IH; try done. by rewrite obj_get_set_ne.
  - by apply IH.
Qed.

Lemma map_obj_get {A} (f : A -> any) (m : gmap string A) k : obj_get (map_obj f m) k = f <$> m !! k.
Proof.
  unfold map_obj. rewrite <- (list_to_map_to_list m) at 2. pose proof (NoDup_fst_map_to_list m) as Hn. revert Hn.
  generalize (map_to_list m). intros l Hn.
  assert (forall o, obj_get (foldl (fun o kv => obj_set kv.1 (f kv.2) o) o l) k =
            match (list_to_map l : gmap string A) !! k with Some v => Some (f v) | None => obj_get o k end) as H.
  { induction l as [|[k' v] l IH]; intros o; [by rewrite list_to_map_nil, lookup_empty|]. rewrite fmap_cons in Hn. apply NoDup_cons in Hn as [Hk Hn].
    cbn [foldl fst snd]. rewrite list_to_map_cons, IH by done. destruct (decide (k' = k)) as [<-|Hne].
    - rewrite lookup_insert_eq, obj_get_set. cbn in Hk. by rewrite (not_elem_of_list_to_map_1 l k' Hk).
    - rewrite lookup_insert_ne, obj_get_set_ne by done. done. }
  rewrite H. by destruct (list_to_map l !! k).
Qed.

(** Reading a field of a structure's JSON. *)
Ltac struct_field :=
  match goal with
  | |- context [obj_get (fields_of ?l) ?k] =>
      rewrite (fields_of_get l k) by (apply (bool_decide_unpack _); vm_compute; reflexivity); cbn [List.find fst snd String.eqb]
  end.

Definition of_item (ci : ConfigItem) (m : obj) : Prop := reread (item_obj ci) = Some (AMap m).

Lemma item_tier ci m k x : of_item ci m -> obj_get (match item_obj ci with AMap o => o | _ => [] end) k = Some (AMap x) ->
  exists x', get_obj m k = Some x' /\ reread (AMap x) = Some (AMap x').
Proof. unfold of_item, item_obj. intros H Hx. eapply reread_get_obj; [exact H|]. unfold get_obj. by rewrite Hx. Qed.

Lemma item_schema ci m : of_item ci m -> exists s, get_obj m "schema" = Some s /\ reread (AMap (schema_obj (ci_Schema ci))) = Some (AMap s).
Proof. intros H. apply (item_tier ci m); [done|]. cbn [item_obj]. reflexivity. Qed.
Lemma item_value ci m : of_item ci m -> exists s, get_obj m "value" = Some s /\ reread (AMap (value_obj (ci_Value ci))) = Some (AMap s).
Proof. intros H. apply (item_tier ci m); [done|]. reflexivity. Qed.
Lemma item_state ci m : of_item ci m -> exists s, get_obj m "state" = Some s /\ reread (AMap (state_obj (ci_State ci))) = Some (AMap s).
Proof. intros H. apply (item_tier ci m); [done|]. reflexivity. Qed.
Lemma item_no_render ci m : of_item ci m -> get_obj m "render" = None.
Proof. unfold of_item, item_obj. intros H. unfold get_obj. by rewrite (reread_get _ _ _ H). Qed.

(** The text of a schema field: an empty one that is left out reads as the text of nil. *)
Definition omitted (s : string) : string := if s =s "" then "<nil>" else TrimSpace s.

Lemma schema_text ci m f s : of_item ci m -> obj_get (schema_obj (ci_Schema ci)) f = str s ->
  configItemSchemaField m f = TrimSpace s.
Proof.
  intros H Hf. destruct (item_schema _ _ H) as (x & Hx & Hr). unfold configItemSchemaField. rewrite Hx. unfold get_any.
  by rewrite (reread_get _ _ _ Hr), Hf.
Qed.

Lemma schema_omitted ci m f s : of_item ci m -> obj_get (schema_obj (ci_Schema ci)) f = omit_str s ->
  configItemSchemaField m f = omitted s.
Proof.
  intros H Hf. destruct (item_schema _ _ H) as (x & Hx & Hr). unfold configItemSchemaField. rewrite Hx. unfold get_any.
  rewrite (reread_get _ _ _ Hr), Hf. unfold omit_str, omitted. by destruct (s =s "").
Qed.

Definition reread_or_nil (v : any) : any := default ANil (reread v).

Lemma item_default ci m : of_item ci m -> defaultValueFromItem m = reread_or_nil (val_DefaultValue (ci_Value ci)).
Proof.
  intros H. destruct (item_value _ _ H) as (x & Hx & Hr). unfold defaultValueFromItem. rewrite Hx. unfold get_any.
  rewrite (reread_get _ _ _ Hr). unfold value_obj. by struct_field.
Qed.

Lemma item_enabled ci m : of_item ci m -> configItemEnabled m = st_Enabled (ci_State ci).
Proof.
  intros H. destruct (item_state _ _ H) as (x & Hx & Hr). unfold configItemEnabled. rewrite Hx. unfold get_any.
  rewrite (reread_get _ _ _ Hr). unfold state_obj. by struct_field.
Qed.

Lemma item_effective ci m : of_item ci m ->
  item_value_of m = match non_nil (reread (val_EffectiveValue (ci_Value ci))) with
                    | Some v => Some v
                    | None => non_nil (reread (val_DefaultValue (ci_Value ci)))
                    end.
Proof.
  intros H. destruct (item_value _ _ H) as (x & Hx & Hr). unfold item_value_of. rewrite Hx.
  rewrite !(reread_get _ _ _ Hr). unfold value_obj. struct_field. by struct_field.
Qed.

(** The parameter the resolver is given for a command-line item of the catalog. *)
Definition given_parameter (code : string) (ci : ConfigItem) : ParameterValue :=
  let s := ci_Schema ci in
  let v := ci_Value ci in
  let def := reread_or_nil (val_DefaultValue v) in
  {| pv_Key := code; pv_Type := TrimSpace (sch_Type s); pv_Target := or_field (or_field (omitted (sch_Target s)) "<nil>") "cli";
     pv_CliName := sch_ArgName s; pv_EnvName := or_field (omitted (sch_EnvName s)) "<nil>"; pv_RenderStyle := "<nil>";
     pv_Enabled := st_Enabled (ci_State ci);
     pv_Value := match non_nil (reread (val_EffectiveValue v)) with Some x => x | None => def end;
     pv_Default := def; pv_Source := "config_set"; pv_CopiedFrom := ""; pv_UserOverride := false |}.

Lemma item_render ci m k : of_item ci m -> render_field m k = "<nil>".
Proof. intros H. unfold render_field. by rewrite (item_no_render _ _ H). Qed.

Lemma given_value ci m : of_item ci m ->
  default (defaultValueFromItem m) (item_value_of m) =
  match non_nil (reread (val_EffectiveValue (ci_Value ci))) with Some x => x | None => reread_or_nil (val_DefaultValue (ci_Value ci)) end.
Proof.
  intros H. rewrite (item_effective _ _ H), (item_default _ _ H). destruct (non_nil (reread (val_EffectiveValue _))); [done|].
  unfold reread_or_nil. by destruct (reread (val_DefaultValue _)) as [[]|].
Qed.

Lemma item_parameter ci m set code : of_item ci m -> configItem set code = Some m ->
  sch_Kind (ci_Schema ci) = "cli_arg" -> sch_ArgName (ci_Schema ci) <> "" -> TrimSpace (sch_ArgName (ci_Schema ci)) = sch_ArgName (ci_Schema ci) ->
  item_parameter_value set code m = [given_parameter code ci].
Proof.
  intros H Hi Hk Ha Ht. unfold item_parameter_value.
  assert (configItemSchemaField m "kind" = "cli_arg") as ->.
  { rewrite (schema_text ci m "kind" (sch_Kind (ci_Schema ci)) H); [by rewrite Hk|]. unfold schema_obj. by struct_field. }
  rewrite (schema_text ci m "type" (sch_Type (ci_Schema ci)) H) by (unfold schema_obj; by struct_field).
  rewrite (schema_omitted ci m "target" (sch_Target (ci_Schema ci)) H) by (unfold schema_obj; by struct_field).
  rewrite (schema_omitted ci m "arg_name" (sch_ArgName (ci_Schema ci)) H) by (unfold schema_obj; by struct_field).
  rewrite (schema_omitted ci m "env_name" (sch_EnvName (ci_Schema ci)) H) by (unfold schema_obj; by struct_field).
  rewrite !(item_render _ _ _ H), (item_enabled _ _ H). unfold configValue. rewrite Hi, (given_value _ _ H), (item_default _ _ H).
  apply String.eqb_neq in Ha as Hb. assert (omitted (sch_ArgName (ci_Schema ci)) = sch_ArgName (ci_Schema ci)) as ->.
  { unfold omitted. by rewrite Hb. }
  assert (or_field (sch_ArgName (ci_Schema ci)) "<nil>" = sch_ArgName (ci_Schema ci)) as ->; [|reflexivity].
  unfold or_field. by rewrite Hb.
Qed.

Lemma set_items cs m code ci : ConfigSet_JSON cs = Some m -> cs_Items cs !! code = Some ci ->
  exists o, configItem m code = Some o /\ of_item ci o.
Proof.
  intros Hj Hci. unfold ConfigSet_JSON in Hj. destruct (reread (AMap (set_obj cs))) as [v|] eqn:Hr; [|done]. cbn in Hj.
  destruct v as [| | | | | | | |x]; try discriminate. injection Hj as ->.
  assert (get_obj (set_obj cs) "items" = Some (map_obj item_obj (cs_Items cs))) as Hg.
  { destruct cs as [v1 k1 t1 d1 c1 i1 ch1 os1 sl1 sm1]. unfold get_obj. cbn [set_obj cs_Items]. by struct_field. }
  destruct (reread_get_obj _ _ _ _ Hr Hg) as (items & Hi & Hri).
  assert (get_obj (map_obj item_obj (cs_Items cs)) code = as_map (item_obj ci)) as Hc by (unfold get_obj; by rewrite map_obj_get, Hci).
  destruct (reread_get_obj _ _ code _ Hri Hc) as (o & Ho & Hro). exists o. split; [|exact Hro].
  unfold configItem, configSetItems. by rewrite Hi.
Qed.

(** C18. A command-line item of a configuration set, written to its JSON column and read
    back, gives the resolver exactly one parameter: its flag, its state and its
    effective value, or its default when there is none.  Whatever style the registry
    declares for it, it is rendered as the flag followed by the text of the value. *)
Theorem catalog_parameter `{MR : MapRange} cs m code ci vars :
  ConfigSet_JSON cs = Some m -> cs_Items cs !! code = Some ci -> sch_Kind (ci_Schema ci) = "cli_arg" ->
  sch_ArgName (ci_Schema ci) <> "" -> TrimSpace (sch_ArgName (ci_Schema ci)) = sch_ArgName (ci_Schema ci) ->
  (forall pv, pv ∈ configSetParameterValues m /\ pv_Key pv = code <-> pv = given_parameter code ci) /\
  renderParameterValueArgs vars (given_parameter code ci) (cli_name (given_parameter code ci)) =
  render_one vars (fun t => [sch_ArgName (ci_Schema ci); t]) (pv_Value (given_parameter code ci)).
Proof.
  intros Hj Hci Hk Ha Ht. destruct (set_items _ _ _ _ Hj Hci) as (o & Ho & Hof). split.
  - intros pv. rewrite elem_parameter_values. split.
    + intros [(c & item & Hc & Hpv) Hkey]. rewrite (item_parameter_key _ _ _ _ Hpv) in Hkey. subst c. rewrite Ho in Hc. injection Hc as <-.
      rewrite (item_parameter ci) in Hpv by done. by apply list_elem_of_singleton in Hpv.
    + intros ->. split; [|done]. exists code, o. split; [done|]. rewrite (item_parameter ci) by done. by apply list_elem_of_singleton.
  - unfold cli_name. cbn [given_parameter pv_CliName]. apply String.eqb_neq in Ha as ->. reflexivity.
Qed.

(** ** At concrete inputs *)

#[local] Existing Instance canonical_range.

Definition demo_registry_item : RegistryItem :=
  {| ri_Code := "launcher.image"; ri_Category := "launcher"; ri_Kind := "launcher_option"; ri_Type := "string"; ri_Label := "Image";
     ri_LabelI18nKey := ""; ri_Description := ""; ri_DescriptionI18nKey := ""; ri_Help := ""; ri_HelpI18nKey := "";
     ri_TooltipI18nKey := ""; ri_Required := true; ri_Visibility := ""; ri_Readonly := false; ri_Advanced := false; ri_Value := ANil;
     ri_DefaultValue := ANil; ri_Enabled := true; ri_Render := Some [("style", AStr "image")]; ri_Order := 10; ri_Constraints := [];
     ri_SupportLevel := ""; ri_Extensions := None |}.

Definition demo_registry : Registry := {| reg_SchemaVersion := 1; reg_Items := [demo_registry_item]; reg_byCode := ∅ |}.

Definition demo_backend : BackendDoc :=
  {| bk_ID := "backend.vllm"; bk_Slug := "vllm"; bk_Name := "vLLM"; bk_ManagedBy := "system"; bk_SupportedModelFormats := Some ["safetensors"];
     bk_Protocols := Some ["openai"]; bk_DefaultHealthCheck := Some [("path", AStr "/health")]; bk_SourcePath := ""; bk_SourceHash := "" |}.

Definition demo_args : list obj :=
  [[("default", ABool false); ("name", AStr "--enforce-eager"); ("type", AStr "bool"); ("label", AStr "Eager mode")];
   [("type", AStr "string")]].

Definition demo_version : VersionDoc :=
  {| vd_ID := "vllm-v1"; vd_BackendID := "backend.vllm"; vd_Slug := "v1"; vd_Version := "1"; vd_Readonly := true; vd_Protocol := "openai";
     vd_DefaultPort := 0; vd_DefaultHost := ""; vd_DefaultModelMount := None; vd_DefaultEndpoints := None; vd_Capabilities := None;
     vd_CapabilitiesDetail := ANil; vd_DefaultEntrypoint := None; vd_DefaultCommand := Some ["serve"]; vd_DefaultArgs := None;
     vd_DefaultArgsSchema := demo_args; vd_HealthCheck := None; vd_SourcePath := ""; vd_SourceHash := "" |}.

Definition demo_set : ConfigSet := MaterializeBackendVersion demo_registry demo_backend demo_version.

(** The default support level is given to the index only: the items made from the
    registry keep the empty level. *)
Example support_level_lost :
  match ValidateRegistry demo_registry with
  | inr r => (ri_SupportLevel <$> registry_Item r "launcher.image",
              (fun ci => sch_SupportLevel (ci_Schema ci)) <$> MaterializeBase r "Backend" "b" !! "launcher.image")
  | inl _ => (None, None)
  end = (Some "documented", Some "").
Proof. vm_compute. reflexivity. Qed.

(** A labelled argument without a group is put in the group named after nil, and an
    argument without a name gives an item of that name. *)
Example nil_group_and_name :
  (fun ci => pres_Group (ci_Presentation ci)) <$> cs_Items demo_set !! "model_runtime.enforce_eager" = Some "<nil>" /\
  (fun ci => sch_ArgName (ci_Schema ci)) <$> cs_Items demo_set !! "model_runtime.<nil>" = Some "<nil>".
Proof. split; vm_compute; reflexivity. Qed.

(** A catalogue switch that is turned on is passed with the argument [true]. *)
Example switch_with_argument :
  match (m ← ConfigSet_JSON demo_set; Some (applyConfigOverrides "Deployment" "d1" m [("model_runtime.enforce_eager", ABool true)])) with
  | Some m => map (fun pv => (pv_Enabled pv, renderParameterValueArgs ∅ pv (cli_name pv)))
                  (List.filter (fun pv => pv_Key pv =s "model_runtime.enforce_eager") (configSetParameterValues m))
  | None => []
  end = [(true, Rendered ["--enforce-eager"; "true"])].
Proof. vm_compute. reflexivity. Qed.

Lemma catalog_parameter_witness :
  exists m ci, ConfigSet_JSON demo_set = Some m /\ cs_Items demo_set !! "model_runtime.enforce_eager" = Some ci /\
    renderParameterValueArgs ∅ (given_parameter "model_runtime.enforce_eager" ci) "--enforce-eager" = Rendered ["--enforce-eager"; "false"].
Proof.
  destruct (ConfigSet_JSON demo_set) as [m|] eqn:Hm; [|vm_compute in Hm; discriminate].
  destruct (cs_Items demo_set !! "model_runtime.enforce_eager") as [ci|] eqn:Hci; [|vm_compute in Hci; discriminate].
  exists m, ci. split; [reflexivity|]. split; [reflexivity|].
  pose proof (catalog_parameter demo_set m "model_runtime.enforce_eager" ci ∅ Hm Hci) as H.
  vm_compute in Hci. injection Hci as <-.
  destruct H as [_ H]; [reflexivity|discriminate|reflexivity|]. exact H.
Defined.
