(* ===== verification/CatalogBundles.v ===== *)
(** * Bundles of configuration sets (internal/server/catalog: types.go, copy_on_create.go, config_view.go)

    A layer's bundle holds copies of its parent's effective items, its own sets and
    local edits.  The effective items overlay them; a child layer is created from a
    copy of the parent's.  Views group the items of a set for display. *)
From S2P Require Import Prelude GoStrings GoNumbers GoValue GoJson Catalog CatalogLoad CatalogProps.

Record ConfigItemLocalEdit := {
  le_ConfigSetKey : string; le_ItemKey : string; le_LocalValue : option any; le_Enabled : option bool; le_Checked : option bool;
  le_Reason : string; le_EditedAt : string; le_EditedBy : string
}.

Record ConfigSetBundle := {
  cb_Inherited : list ConfigSet; cb_OwnSets : list ConfigSet; cb_LocalEdits : gmap string (gmap string ConfigItemLocalEdit)
}.

Definition with_items (items : gmap string ConfigItem) (cs : ConfigSet) : ConfigSet :=
  {| cs_SchemaVersion := cs_SchemaVersion cs; cs_ConfigSetKey := cs_ConfigSetKey cs; cs_Title := cs_Title cs;
     cs_Description := cs_Description cs; cs_Context := cs_Context cs; cs_Items := items; cs_ChildSets := cs_ChildSets cs;
     cs_OwnSections := cs_OwnSections cs; cs_ChildSlots := cs_ChildSlots cs; cs_SourceMetadata := cs_SourceMetadata cs |}.

Definition with_value_state (v : ConfigItemValue) (s : ConfigItemState) (p : ConfigItemProvenance) (ci : ConfigItem) : ConfigItem :=
  {| ci_Schema := ci_Schema ci; ci_Value := v; ci_State := s; ci_Provenance := p; ci_Snapshot := ci_Snapshot ci;
     ci_Presentation := ci_Presentation ci |}.

Definition with_snapshot (snap : ConfigItemSnapshot) (ci : ConfigItem) : ConfigItem :=
  {| ci_Schema := ci_Schema ci; ci_Value := ci_Value ci; ci_State := ci_State ci; ci_Provenance := ci_Provenance ci;
     ci_Snapshot := snap; ci_Presentation := ci_Presentation ci |}.

Definition with_owner (owner layer : string) (ci : ConfigItem) : ConfigItem :=
  let s := ci_Schema ci in
  {| ci_Schema :=
       {| sch_Key := sch_Key s; sch_Owner := owner; sch_OwnerLayer := layer; sch_ConfigSetKey := sch_ConfigSetKey s;
          sch_Category := sch_Category s; sch_Label := sch_Label s; sch_LabelI18nKey := sch_LabelI18nKey s;
          sch_Description := sch_Description s; sch_DescriptionI18nKey := sch_DescriptionI18nKey s; sch_Type := sch_Type s;
          sch_Kind := sch_Kind s; sch_Target := sch_Target s; sch_ArgName := sch_ArgName s; sch_EnvName := sch_EnvName s;
          sch_MountTarget := sch_MountTarget s; sch_PortTarget := sch_PortTarget s; sch_Constraints := sch_Constraints s;
          sch_Choices := sch_Choices s; sch_Required := sch_Required s; sch_Advanced := sch_Advanced s;
          sch_DisplayOrder := sch_DisplayOrder s; sch_ReadOnly := sch_ReadOnly s; sch_HelpText := sch_HelpText s;
          sch_HelpI18nKey := sch_HelpI18nKey s; sch_TooltipI18nKey := sch_TooltipI18nKey s; sch_SupportLevel := sch_SupportLevel s |};
     ci_Value := ci_Value ci; ci_State := ci_State ci; ci_Provenance := ci_Provenance ci; ci_Snapshot := ci_Snapshot ci;
     ci_Presentation := ci_Presentation ci |}.

(** A local edit on an item. *)
Definition edited_item (e : ConfigItemLocalEdit) (ci : ConfigItem) : ConfigItem :=
  let v := ci_Value ci in
  let s := ci_State ci in
  with_value_state
    {| val_DefaultValue := val_DefaultValue v; val_InheritedValue := val_InheritedValue v;
       val_LocalValue := match le_LocalValue e with Some x => Some x | None => val_LocalValue v end;
       val_EffectiveValue := default (val_EffectiveValue v) (le_LocalValue e) |}
    {| st_Enabled := default (st_Enabled s) (le_Enabled e); st_Checked := default (st_Checked s) (le_Checked e);
       st_Editable := st_Editable s; st_Visible := st_Visible s; st_Valid := st_Valid s; st_ValidationError := st_ValidationError s |}
    {| prov_ValueSource := "local_edit"; prov_LastValueLayer := "current";
       prov_LastValueOwnerID := prov_LastValueOwnerID (ci_Provenance ci); prov_SourceChain := prov_SourceChain (ci_Provenance ci) |} ci.

Section Bundles.
Context `{MR : MapRange}.

(** [for k, v := range set.Items { merged[k] = v }] *)
Definition merge_set (merged : gmap string ConfigItem) (cs : ConfigSet) : gmap string ConfigItem :=
  foldl (fun m kv => <[kv.1 := kv.2]> m) merged (range (cs_Items cs)).

Definition edit_step (merged : gmap string ConfigItem) (ke : string * ConfigItemLocalEdit) : gmap string ConfigItem :=
  match merged !! ke.1 with Some ci => <[ke.1 := edited_item ke.2 ci]> merged | None => merged end.

Definition effective_items (b : ConfigSetBundle) : gmap string ConfigItem :=
  let merged := foldl merge_set ∅ (cb_Inherited b) in
  let merged := foldl merge_set merged (cb_OwnSets b) in
  foldl (fun m ke => foldl edit_step m (range ke.2)) merged (range (cb_LocalEdits b)).

Definition EffectiveSnapshot (b : ConfigSetBundle) : ConfigSet :=
  {| cs_SchemaVersion := 1; cs_ConfigSetKey := ""; cs_Title := ""; cs_Description := ""; cs_Context := ∅; cs_Items := effective_items b;
     cs_ChildSets := []; cs_OwnSections := []; cs_ChildSlots := []; cs_SourceMetadata := [] |}.

Definition DeepCopySnapshot (b : ConfigSetBundle) (layer id : string) : ConfigSet :=
  let snap := EffectiveSnapshot b in
  with_items (with_snapshot {| snap_FromLayer := layer; snap_FromID := id; snap_Version := 1; snap_CopiedAt := "" |} <$> cs_Items snap) snap.

(** ** Creating the next layer *)

Definition inherited_item (now : string) (ci : ConfigItem) : ConfigItem :=
  let s := ci_State ci in
  {| ci_Schema := ci_Schema ci; ci_Value := ci_Value ci;
     ci_State := {| st_Enabled := st_Enabled s; st_Checked := st_Checked s && sch_Required (ci_Schema ci);
                    st_Editable := st_Editable s || negb (sch_ReadOnly (ci_Schema ci)); st_Visible := st_Visible s; st_Valid := st_Valid s;
                    st_ValidationError := st_ValidationError s |};
     ci_Provenance := ci_Provenance ci;
     ci_Snapshot := {| snap_FromLayer := snap_FromLayer (ci_Snapshot ci); snap_FromID := snap_FromID (ci_Snapshot ci);
                       snap_Version := snap_Version (ci_Snapshot ci); snap_CopiedAt := now |};
     ci_Presentation := ci_Presentation ci |}.

(** An inherited item keeps its owner. *)
Definition keep_owner (inherited ci : ConfigItem) : ConfigItem :=
  if (sch_Owner (ci_Schema ci) =s "") || (sch_Owner (ci_Schema ci) <>s sch_Owner (ci_Schema inherited))
  then with_owner (sch_Owner (ci_Schema inherited)) (sch_OwnerLayer (ci_Schema inherited)) ci else ci.

(** A new item is owned by its set. *)
Definition own_item (key : string) (ci : ConfigItem) : ConfigItem :=
  with_owner (nonEmpty (sch_Owner (ci_Schema ci)) key) (nonEmpty (sch_OwnerLayer (ci_Schema ci)) key) ci.

Definition align_created (inherited : gmap string ConfigItem) (cs : ConfigSet) : ConfigSet :=
  with_items (map_imap (fun k ci => Some match inherited !! k with
                                         | Some inh => with_snapshot (ci_Snapshot inh) (keep_owner inh ci)
                                         | None => own_item (cs_ConfigSetKey cs) ci
                                         end) (cs_Items cs)) cs.

Definition CreateNextLayerBundle (parent : ConfigSetBundle) (ownSets : list ConfigSet) (layer id now : string) : ConfigSetBundle :=
  let copy := DeepCopySnapshot parent layer id in
  let inherited := with_items (inherited_item now <$> cs_Items copy) copy in
  {| cb_Inherited := [inherited]; cb_OwnSets := map (align_created (cs_Items inherited)) ownSets; cb_LocalEdits := ∅ |}.

(** ** Local edits *)

Fixpoint find_in (key : string) (sets : list ConfigSet) : option ConfigItem :=
  match sets with
  | [] => None
  | cs :: sets => match cs_Items cs !! key with Some ci => Some ci | None => find_in key sets end
  end.

Definition findItem (b : ConfigSetBundle) (key : string) : option ConfigItem :=
  match find_in key (cb_OwnSets b) with Some ci => Some ci | None => find_in key (cb_Inherited b) end.

(** A nil value of the request leaves the edit without one. *)
Definition ApplyLocalEdit (b : ConfigSetBundle) (configSetKey itemKey : string) (value : option any) (enabled checked : option bool)
    (reason editedBy now : string) : string + ConfigSetBundle :=
  if itemKey =s "" then inl "item_key is required"
  else match findItem b itemKey with
       | None => inl ("item " +s+ Quote itemKey +s+ " not found in bundle")
       | Some item =>
           if sch_ReadOnly (ci_Schema item) then inl ("item " +s+ Quote itemKey +s+ " is schema.read_only — cannot modify via local edit")
           else if negb (st_Editable (ci_State item)) then inl ("item " +s+ Quote itemKey +s+ " is not editable in current layer")
           else
             let setKey := if configSetKey =s "" then sch_ConfigSetKey (ci_Schema item) else configSetKey in
             let edit := {| le_ConfigSetKey := setKey; le_ItemKey := itemKey; le_LocalValue := value; le_Enabled := enabled;
                            le_Checked := checked; le_Reason := reason; le_EditedAt := now; le_EditedBy := editedBy |} in
             inr {| cb_Inherited := cb_Inherited b; cb_OwnSets := cb_OwnSets b;
                    cb_LocalEdits := <[setKey := <[itemKey := edit]> (default ∅ (cb_LocalEdits b !! setKey))]> (cb_LocalEdits b) |}
       end.

(** ** Validation *)

Definition inherited_keys (b : ConfigSetBundle) : gmap string ConfigItem := foldl merge_set ∅ (cb_Inherited b).

Definition item_violations (inherited : gmap string ConfigItem) (kv : string * ConfigItem) : list string :=
  let '(k, ci) := kv in
  match inherited !! k with
  | None => []
  | Some inh =>
      let changed what a c := "item " +s+ Quote k +s+ ": " +s+ what +s+ " changed from " +s+ Quote a +s+ " to " +s+ Quote c in
      (if sch_Key (ci_Schema ci) <>s sch_Key (ci_Schema inh)
       then [changed "schema.key" (sch_Key (ci_Schema inh)) (sch_Key (ci_Schema ci))] else [])
      ++ (if sch_Owner (ci_Schema ci) <>s sch_Owner (ci_Schema inh)
          then [changed "schema.owner" (sch_Owner (ci_Schema inh)) (sch_Owner (ci_Schema ci)) +s+ " (owner must not change)"] else [])
      ++ (if (snap_FromLayer (ci_Snapshot ci) <>s snap_FromLayer (ci_Snapshot inh)) || (snap_FromID (ci_Snapshot ci) <>s snap_FromID (ci_Snapshot inh))
          then ["item " +s+ Quote k +s+ ": snapshot metadata changed"] else [])
  end.

Definition ValidateSchemaImmutability (b : ConfigSetBundle) : list string :=
  concat (map (fun cs => concat (map (item_violations (inherited_keys b)) (range (cs_Items cs)))) (cb_OwnSets b)).

Definition align_added (inherited : gmap string ConfigItem) (cs : ConfigSet) : ConfigSet :=
  with_items (map_imap (fun k ci => Some match inherited !! k with
                                         | Some inh =>
                                             let ci := keep_owner inh ci in
                                             if snap_FromLayer (ci_Snapshot ci) =s "" then with_snapshot (ci_Snapshot inh) ci else ci
                                         | None => own_item (cs_ConfigSetKey cs) ci
                                         end) (cs_Items cs)) cs.

Definition AddOwnSet (b : ConfigSetBundle) (cs : ConfigSet) : ConfigSetBundle :=
  {| cb_Inherited := cb_Inherited b; cb_OwnSets := cb_OwnSets b ++ [align_added (inherited_keys b) cs]; cb_LocalEdits := cb_LocalEdits b |}.
End Bundles.

(** ** Views *)

Record FieldView := {
  fv_Key : string; fv_ConfigSetKey : string; fv_Label : string; fv_Help : string; fv_Section : string; fv_Group : string; fv_Priority : Z;
  fv_Type : string; fv_Required : bool; fv_Advanced : bool; fv_ReadOnly : bool; fv_Choices : list any; fv_Constraints : obj;
  fv_Value : any; fv_DefaultValue : any; fv_InheritedValue : option any; fv_Enabled : bool; fv_Checked : bool; fv_Editable : bool;
  fv_Visible : bool; fv_Valid : bool; fv_ValidationError : string; fv_ValueSource : string; fv_LastValueLayer : string;
  fv_SourceChain : list CatalogSourceChainEntry; fv_CopiedFrom : string; fv_DisplayMode : string; fv_Placeholder : string;
  fv_Sensitive : bool; fv_HideWhenEmpty : bool
}.

Record ViewSection := {
  vs_Key : string; vs_Title : string; vs_Description : string; vs_DefaultExpanded : bool; vs_Priority : Z; vs_Fields : list FieldView
}.

Record LocalEditSummary := {
  ls_ConfigSetKey : string; ls_ItemKey : string; ls_Label : string; ls_Value : option any; ls_Reason : string; ls_EditedAt : string
}.

(** A panel's own view is filled in by the caller and left out here. *)
Record ConfigPanel := {
  pn_Slot : string; pn_ChildConfigSetKey : string; pn_Title : string; pn_View : string; pn_DisplayMode : string;
  pn_DefaultExpanded : bool; pn_Order : Z
}.

Record ConfigView := {
  cv_ConfigSetKey : string; cv_Title : string; cv_Sections : list ViewSection; cv_ChildPanels : list ConfigPanel;
  cv_LocalEdits : list LocalEditSummary
}.

Definition itemToFieldView (ci : ConfigItem) : FieldView :=
  let s := ci_Schema ci in
  let p := ci_Presentation ci in
  let st := ci_State ci in
  {| fv_Key := sch_Key s; fv_ConfigSetKey := sch_ConfigSetKey s; fv_Label := sch_Label s; fv_Help := sch_HelpText s;
     fv_Section := pres_Section p; fv_Group := pres_Group p; fv_Priority := pres_Priority p; fv_Type := sch_Type s;
     fv_Required := sch_Required s; fv_Advanced := sch_Advanced s; fv_ReadOnly := sch_ReadOnly s; fv_Choices := sch_Choices s;
     fv_Constraints := sch_Constraints s; fv_Value := val_EffectiveValue (ci_Value ci); fv_DefaultValue := val_DefaultValue (ci_Value ci);
     fv_InheritedValue := val_InheritedValue (ci_Value ci); fv_Enabled := st_Enabled st; fv_Checked := st_Checked st;
     fv_Editable := st_Editable st; fv_Visible := st_Visible st; fv_Valid := st_Valid st; fv_ValidationError := st_ValidationError st;
     fv_ValueSource := prov_ValueSource (ci_Provenance ci); fv_LastValueLayer := prov_LastValueLayer (ci_Provenance ci);
     fv_SourceChain := prov_SourceChain (ci_Provenance ci); fv_CopiedFrom := snap_FromLayer (ci_Snapshot ci);
     fv_DisplayMode := pres_DisplayMode p; fv_Placeholder := pres_Placeholder p; fv_Sensitive := pres_Sensitive p;
     fv_HideWhenEmpty := pres_HideWhenEmpty p |}.

Definition criterion (ci : ConfigItem) (kv : string * any) : bool :=
  let differs_bool (b : bool) := match as_bool kv.2 with Some x => negb (Bool.eqb b x) | None => false end in
  let differs_str (s : string) := match as_str kv.2 with Some x => s <>s x | None => false end in
  negb (if kv.1 =s "required" then differs_bool (sch_Required (ci_Schema ci))
        else if kv.1 =s "advanced" then differs_bool (sch_Advanced (ci_Schema ci))
        else if kv.1 =s "group" then differs_str (pres_Group (ci_Presentation ci))
        else if kv.1 =s "category" then differs_str (sch_Category (ci_Schema ci)) else false).

(** The order in which the criteria are looked at does not matter: any may refuse. *)
Definition matchesSection (ci : ConfigItem) (sec : ConfigSection) : bool :=
  match sec_Match sec with None => true | Some m => forallb (criterion ci) m end.

Definition section_view (key title : string) (expanded : bool) (priority : Z) (fields : list FieldView) : list ViewSection :=
  match fields with
  | [] => []
  | _ => [{| vs_Key := key; vs_Title := title; vs_Description := ""; vs_DefaultExpanded := expanded; vs_Priority := priority;
             vs_Fields := fields |}]
  end.

Definition in_required (ci : ConfigItem) : bool := sch_Required (ci_Schema ci).
Definition in_advanced (ci : ConfigItem) : bool := negb (sch_Required (ci_Schema ci)) && sch_Advanced (ci_Schema ci).
Definition in_common (ci : ConfigItem) : bool := negb (sch_Required (ci_Schema ci)) && negb (sch_Advanced (ci_Schema ci)).

Section Views.
Context `{MR : MapRange}.

Definition visible_items (cs : ConfigSet) : list ConfigItem :=
  List.filter (fun ci => st_Visible (ci_State ci)) (range (cs_Items cs)).*2.

Definition collectFieldsForSection (cs : ConfigSet) (sec : ConfigSection) : list FieldView :=
  map itemToFieldView (List.filter (fun ci => matchesSection ci sec) (visible_items cs)).

Definition group_fields (p : ConfigItem -> bool) (cs : ConfigSet) : list FieldView := map itemToFieldView (List.filter p (visible_items cs)).

Definition defaultSectionGrouping (cs : ConfigSet) : list ViewSection :=
  section_view "required" "必填配置" true 10 (group_fields in_required cs)
  ++ section_view "common" "常用配置" true 20 (group_fields in_common cs)
  ++ section_view "advanced" "高级配置" false 90 (group_fields in_advanced cs).

Definition panel_of (s : ConfigChildSlot) : ConfigPanel :=
  {| pn_Slot := slot_Slot s; pn_ChildConfigSetKey := slot_ChildConfigSetKey s; pn_Title := slot_Title s; pn_View := slot_View s;
     pn_DisplayMode := slot_DisplayMode s; pn_DefaultExpanded := slot_DefaultExpanded s; pn_Order := slot_Order s |}.

Definition GenerateView (cs : ConfigSet) : ConfigView :=
  {| cv_ConfigSetKey := cs_ConfigSetKey cs; cv_Title := nonEmpty (cs_Title cs) (cs_ConfigSetKey cs);
     cv_Sections := match cs_OwnSections cs with
                    | [] => defaultSectionGrouping cs
                    | secs => concat (map (fun sec => section_view (sec_Key sec) (sec_Title sec) (sec_DefaultExpanded sec) (sec_Priority sec)
                                                                   (collectFieldsForSection cs sec)) secs)
                    end;
     cv_ChildPanels := map panel_of (cs_ChildSlots cs); cv_LocalEdits := [] |}.

Definition edit_summary (b : ConfigSetBundle) (ke : string * ConfigItemLocalEdit) : LocalEditSummary :=
  {| ls_ConfigSetKey := le_ConfigSetKey ke.2; ls_ItemKey := ke.1;
     ls_Label := match findItem b ke.1 with Some ci => nonEmpty (sch_Label (ci_Schema ci)) ke.1 | None => ke.1 end;
     ls_Value := le_LocalValue ke.2; ls_Reason := le_Reason ke.2; ls_EditedAt := le_EditedAt ke.2 |}.

Definition GenerateBundleView (b : ConfigSetBundle) : ConfigView :=
  let view := GenerateView (EffectiveSnapshot b) in
  {| cv_ConfigSetKey := cv_ConfigSetKey view; cv_Title := cv_Title view; cv_Sections := cv_Sections view;
     cv_ChildPanels := cv_ChildPanels view;
     cv_LocalEdits := concat (map (fun se => map (edit_summary b) (range se.2)) (range (cb_LocalEdits b))) |}.
End Views.

(** ** Effective items *)

Section Facts.
Context `{MR : MapRange}.

Lemma foldl_insert_lookup {V} (l : list (string * V)) (m : gmap string V) k : NoDup l.*1 ->
  foldl (fun m kv => <[kv.1 := kv.2]> m) m l !! k = match (list_to_map l : gmap string V) !! k with Some v => Some v | None => m !! k end.
Proof.
  revert m. induction l as [|[k' v] l IH]; intros m Hn; [done|]. rewrite fmap_cons in Hn. apply NoDup_cons in Hn as [Hk Hn].
  cbn [foldl fst snd]. rewrite IH by done. cbn [list_to_map foldr fst snd]. destruct (decide (k' = k)) as [<-|Hne].
  - rewrite !lookup_insert_eq. by rewrite (not_elem_of_list_to_map_1 l k' Hk).
  - by rewrite !lookup_insert_ne.
Qed.

Lemma merge_set_lookup m cs k : merge_set m cs !! k = match cs_Items cs !! k with Some ci => Some ci | None => m !! k end.
Proof. unfold merge_set. rewrite foldl_insert_lookup by apply range_NoDup. by rewrite range_list_to_map. Qed.

Lemma merge_sets_filed l m : all_filed m -> Forall (fun cs => all_filed (cs_Items cs)) l -> all_filed (foldl merge_set m l).
Proof.
  intros Hm Hl. revert m Hm. induction Hl as [|cs l Hcs _ IH]; intros m Hm; cbn [foldl]; [done|]. apply IH. intros k ci.
  rewrite merge_set_lookup. destruct (cs_Items cs !! k) eqn:E; [intros [= <-]; by apply Hcs|apply Hm].
Qed.

(** An item of one of the sets is among the merged ones. *)
Lemma merge_sets_present l m k : is_Some (m !! k) \/ is_Some (find_in k l) -> is_Some (foldl merge_set m l !! k).
Proof.
  revert m. induction l as [|cs l IH]; intros m; cbn [foldl find_in]; [intros [?|[? ?]]; done|]. intros H. apply IH.
  rewrite merge_set_lookup. destruct (cs_Items cs !! k); [left; by eexists|]. done.
Qed.

Definition all_edits (b : ConfigSetBundle) : list (string * ConfigItemLocalEdit) :=
  concat (map (fun ke => range ke.2) (range (cb_LocalEdits b))).

Definition base_items (b : ConfigSetBundle) : gmap string ConfigItem := foldl merge_set (foldl merge_set ∅ (cb_Inherited b)) (cb_OwnSets b).

Lemma foldl_concat_map {A B C} (f : A -> C -> A) (g : B -> list C) l a :
  foldl (fun a x => foldl f a (g x)) a l = foldl f a (concat (map g l)).
Proof. revert a. induction l as [|x l IH]; intros a; [done|]. cbn [map concat foldl]. by rewrite foldl_app. Qed.

Lemma effective_items_edits b : effective_items b = foldl edit_step (base_items b) (all_edits b).
Proof. unfold effective_items, all_edits. apply (foldl_concat_map edit_step). Qed.

(** The edits that reach an item, in order. *)
Definition edits_of (key : string) (l : list (string * ConfigItemLocalEdit)) : list ConfigItemLocalEdit :=
  map snd (List.filter (fun ke => ke.1 =s key) l).

Lemma edit_steps_lookup l m key :
  foldl edit_step m l !! key = foldl (fun o e => edited_item e <$> o) (m !! key) (edits_of key l).
Proof.
  revert m. induction l as [|[k e] l IH]; intros m; [done|]. unfold edits_of. cbn [foldl List.filter fst]. rewrite IH. unfold edit_step; cbn [fst snd].
  destruct (k =s key) eqn:E; bool_facts.
  - subst k. cbn [map foldl snd]. destruct (m !! key) as [ci|] eqn:Em; cbn; [by rewrite lookup_insert_eq|by rewrite Em].
  - destruct (m !! k) as [ci|]; [|done]. by rewrite lookup_insert_ne.
Qed.

Lemma edits_schema l ci : exists ci', foldl (fun o e => edited_item e <$> o) (Some ci) l = Some ci' /\ ci_Schema ci' = ci_Schema ci.
Proof.
  revert ci. induction l as [|e l IH]; intros ci; [by exists ci|]. cbn [foldl fmap option_fmap option_map].
  destruct (IH (edited_item e ci)) as (ci' & H & Hs). by exists ci'.
Qed.

Lemma edits_value l ci v : l <> [] -> Forall (fun e => le_LocalValue e = Some v) l ->
  exists ci', foldl (fun o e => edited_item e <$> o) (Some ci) l = Some ci' /\ val_EffectiveValue (ci_Value ci') = v.
Proof.
  intros Hne Hl. revert ci. induction l as [|e l IH] using rev_ind; [done|]. intros ci. apply Forall_app in Hl as [_ He].
  rewrite Forall_singleton in He. destruct (edits_schema l ci) as (ci' & Hf & _). rewrite foldl_app, Hf. cbn. eexists. split; [done|].
  cbn. by rewrite He.
Qed.

(** Edits keep the schemas. *)
Lemma effective_items_filed b :
  Forall (fun cs => all_filed (cs_Items cs)) (cb_Inherited b) -> Forall (fun cs => all_filed (cs_Items cs)) (cb_OwnSets b) -> all_filed (effective_items b).
Proof.
  intros Hi Ho. rewrite effective_items_edits. intros k ci. rewrite edit_steps_lookup.
  assert (all_filed (base_items b)) as Hb by (by apply merge_sets_filed; [apply merge_sets_filed; [apply map_Forall_empty|]|]).
  destruct (base_items b !! k) as [ci0|] eqn:E.
  - destruct (edits_schema (edits_of k (all_edits b)) ci0) as (ci' & -> & Hs). intros [= <-]. unfold filed. rewrite Hs. by apply Hb.
  - intros H. exfalso. revert H. induction (edits_of k (all_edits b)); [done|]. done.
Qed.

Lemma inherited_items m cs k : inherited_keys {| cb_Inherited := [cs]; cb_OwnSets := m; cb_LocalEdits := ∅ |} !! k = cs_Items cs !! k.
Proof. unfold inherited_keys. cbn [cb_Inherited foldl]. rewrite merge_set_lookup. by destruct (cs_Items cs !! k). Qed.

Lemma align_created_lookup inh cs k ci' : cs_Items (align_created inh cs) !! k = Some ci' ->
  exists ci, cs_Items cs !! k = Some ci /\
    ci' = match inh !! k with Some i => with_snapshot (ci_Snapshot i) (keep_owner i ci) | None => own_item (cs_ConfigSetKey cs) ci end.
Proof.
  cbn [align_created with_items cs_Items]. rewrite map_lookup_imap. destruct (cs_Items cs !! k) as [ci|]; cbn; [|done].
  intros [= <-]. by exists ci.
Qed.

Lemma keep_owner_owner inh ci :
  sch_Owner (ci_Schema (keep_owner inh ci)) = sch_Owner (ci_Schema inh) /\ sch_Key (ci_Schema (keep_owner inh ci)) = sch_Key (ci_Schema ci).
Proof.
  unfold keep_owner. destruct ((_ =s "") || _) eqn:E; [done|]. split; [|done]. apply orb_false_iff in E as [_ E].
  by apply negb_false_iff, String.eqb_eq in E.
Qed.

Lemma aligned_no_violation inh i ci k : inh !! k = Some i -> filed k i -> filed k ci ->
  item_violations inh (k, with_snapshot (ci_Snapshot i) (keep_owner i ci)) = [].
Proof.
  unfold filed. intros Hi Hk Hc. destruct (keep_owner_owner i ci) as [Ho Hkey]. unfold item_violations. rewrite Hi. cbn [ci_Schema ci_Snapshot with_snapshot].
  by rewrite Ho, Hkey, Hc, Hk, !String.eqb_refl.
Qed.

Lemma concat_all_nil {A} (l : list (list A)) : Forall (fun x => x = []) l -> concat l = [].
Proof. induction 1 as [|x l Hx _ IH]; [done|]. cbn. by rewrite Hx, IH. Qed.

Lemma edits_of_all b key : Forall (fun e => exists sk m, cb_LocalEdits b !! sk = Some m /\ m !! key = Some e) (edits_of key (all_edits b)).
Proof.
  apply Forall_forall. intros e He. unfold edits_of in He. apply list_elem_of_fmap in He as ([k e'] & -> & He).
  apply list_elem_of_In, filter_In in He as [He Hk]. cbn in Hk. bool_facts. subst k. apply list_elem_of_In in He.
  unfold all_edits in He. apply elem_of_concat_map in He as ([sk m] & Hs & He). apply elem_of_range in Hs, He. by exists sk, m.
Qed.

Lemma edits_of_some b key sk m e : cb_LocalEdits b !! sk = Some m -> m !! key = Some e -> edits_of key (all_edits b) <> [].
Proof.
  intros Hs He Hn. assert ((key, e) ∈ all_edits b) as H.
  { apply elem_of_concat_map. exists (sk, m). cbn. by rewrite !elem_of_range. }
  assert (e ∈ edits_of key (all_edits b)) as H'; [|rewrite Hn in H'; by apply not_elem_of_nil in H'].
  apply list_elem_of_fmap. exists (key, e). split; [done|]. apply list_elem_of_In, filter_In. split; [by apply list_elem_of_In|apply String.eqb_refl].
Qed.

Lemma find_in_aligned inh k l : find_in k l = None -> find_in k (map (align_created inh) l) = None.
Proof.
  induction l as [|cs l IH]; [done|]. cbn [find_in map]. destruct (cs_Items cs !! k) eqn:E; [done|]. intros H.
  cbn [align_created with_items cs_Items]. rewrite map_lookup_imap, E. by apply IH.
Qed.

Lemma merge_sets_other l m k : find_in k l = None -> foldl merge_set m l !! k = m !! k.
Proof.
  revert m. induction l as [|cs l IH]; intros m; [done|]. cbn [foldl find_in]. destruct (cs_Items cs !! k) eqn:E; [done|]. intros H.
  rewrite IH by done. by rewrite merge_set_lookup, E.
Qed.

Lemma ApplyLocalEdit_ok b configSetKey itemKey v enabled checked reason editedBy now b' :
  ApplyLocalEdit b configSetKey itemKey (Some v) enabled checked reason editedBy now = inr b' ->
  exists item setKey e, findItem b itemKey = Some item /\ le_LocalValue e = Some v
    /\ b' = {| cb_Inherited := cb_Inherited b; cb_OwnSets := cb_OwnSets b;
               cb_LocalEdits := <[setKey := <[itemKey := e]> (default ∅ (cb_LocalEdits b !! setKey))]> (cb_LocalEdits b) |}.
Proof.
  unfold ApplyLocalEdit. destruct (itemKey =s ""); [done|]. destruct (findItem b itemKey) as [item|]; [|done].
  destruct (sch_ReadOnly _); [done|]. destruct (negb _); [done|]. intros [= <-]. do 3 eexists. split_and!; [done| |done]. done.
Qed.
End Facts.

(** ** The contract of a layer *)

Section Claims.
Context `{MR : MapRange}.

(** A layer created from a parent whose items are filed under their own keys, with
    own sets filed alike, breaks no schema immutability rule, whatever the own sets say
    about owners and snapshots; an item the own sets do not mention is the parent's
    effective item, stamped with where it was copied from, with its value and schema
    kept and no longer checked unless it is required. *)
Theorem next_layer_sound parent ownSets layer id now :
  Forall (fun cs => all_filed (cs_Items cs)) (cb_Inherited parent) -> Forall (fun cs => all_filed (cs_Items cs)) (cb_OwnSets parent) ->
  Forall (fun cs => all_filed (cs_Items cs)) ownSets ->
  let child := CreateNextLayerBundle parent ownSets layer id now in
  ValidateSchemaImmutability child = []
  /\ forall k, find_in k ownSets = None ->
       cs_Items (EffectiveSnapshot child) !! k
       = (fun ci => inherited_item now (with_snapshot {| snap_FromLayer := layer; snap_FromID := id; snap_Version := 1; snap_CopiedAt := "" |} ci))
         <$> cs_Items (EffectiveSnapshot parent) !! k.
Proof.
  intros Hi Ho Hs child. split.
  - apply concat_all_nil, Forall_forall. intros vs Hvs. apply list_elem_of_fmap in Hvs as (cs' & -> & Hcs').
    cbn [child CreateNextLayerBundle cb_OwnSets] in Hcs'. apply list_elem_of_fmap in Hcs' as (cs & -> & Hcs).
    apply concat_all_nil, Forall_forall. intros vs Hvs. apply list_elem_of_fmap in Hvs as ([k ci'] & -> & Hk). apply elem_of_range in Hk.
    apply align_created_lookup in Hk as (ci & Hci & ->).
    destruct (inherited_keys child !! k) as [i|] eqn:Ei; [|by unfold item_violations; rewrite Ei].
    assert (cs_Items (with_items (inherited_item now <$> cs_Items (DeepCopySnapshot parent layer id)) (DeepCopySnapshot parent layer id)) !! k = Some i) as E.
    { revert Ei. unfold inherited_keys. cbn [child CreateNextLayerBundle cb_Inherited foldl]. rewrite merge_set_lookup, lookup_empty. by case_match. }
    rewrite E.
    apply aligned_no_violation; [exact Ei| |by rewrite Forall_forall in Hs; apply (Hs cs Hcs)].
    cbn [with_items cs_Items DeepCopySnapshot EffectiveSnapshot] in E. rewrite !lookup_fmap in E.
    destruct (effective_items parent !! k) as [ci0|] eqn:E0; [|done]. injection E as <-.
    apply (effective_items_filed parent Hi Ho k ci0 E0).
  - intros k Hk. cbn [EffectiveSnapshot cs_Items]. unfold effective_items at 1. cbn [child CreateNextLayerBundle cb_Inherited cb_OwnSets cb_LocalEdits].
    rewrite range_empty. cbn [foldl]. rewrite merge_sets_other by (by apply find_in_aligned).
    rewrite merge_set_lookup, lookup_empty. cbn [with_items cs_Items DeepCopySnapshot EffectiveSnapshot].
    rewrite !lookup_fmap. by destruct (effective_items parent !! k).
Qed.

(** An accepted local edit of an item takes effect: unless another group of the
    bundle holds an edit of the same item, the effective item has the given value, the
    schema it had before, in every order in which the maps are visited. *)
Theorem local_edit_takes_effect b configSetKey itemKey v enabled checked reason editedBy now b' :
  ApplyLocalEdit b configSetKey itemKey (Some v) enabled checked reason editedBy now = inr b' ->
  (forall sk sk' m m', cb_LocalEdits b' !! sk = Some m -> cb_LocalEdits b' !! sk' = Some m' ->
     is_Some (m !! itemKey) -> is_Some (m' !! itemKey) -> sk = sk') ->
  exists old new, base_items b !! itemKey = Some old /\ effective_items b' !! itemKey = Some new
    /\ val_EffectiveValue (ci_Value new) = v /\ ci_Schema new = ci_Schema old.
Proof.
  intros Ha Hu. apply ApplyLocalEdit_ok in Ha as (item & setKey & e & Hf & He & ->).
  assert (is_Some (base_items b !! itemKey)) as [old Hold].
  { unfold findItem in Hf. apply merge_sets_present. destruct (find_in itemKey (cb_OwnSets b)) eqn:E; [right; by eexists|].
    left. apply merge_sets_present. right. by eexists. }
  rewrite effective_items_edits, edit_steps_lookup.
  set (b' := {| cb_Inherited := _ |}) in *.
  assert (cb_LocalEdits b' !! setKey = Some (<[itemKey := e]> (default ∅ (cb_LocalEdits b !! setKey)))) as Hset by apply lookup_insert_eq.
  destruct (edits_value (edits_of itemKey (all_edits b')) old v) as (new & Hnew & Hv).
  - eapply edits_of_some; [exact Hset|apply lookup_insert_eq].
  - eapply Forall_impl; [apply edits_of_all|]. intros e' (sk & m & Hsk & Hm).
    assert (sk = setKey) as -> by (eapply Hu; [exact Hsk|exact Hset|by eexists|rewrite lookup_insert_eq; by eexists]).
    rewrite Hset in Hsk. injection Hsk as <-. rewrite lookup_insert_eq in Hm. by injection Hm as <-.
  - destruct (edits_schema (edits_of itemKey (all_edits b')) old) as (new' & Hnew' & Hs).
    exists old, new. split; [done|]. split; [change (base_items b') with (base_items b); by rewrite Hold|]. rewrite Hnew in Hnew'. by injection Hnew' as ->.
Qed.
End Claims.

#[local] Existing Instance canonical_range.

Definition demo_parent : ConfigSetBundle := {| cb_Inherited := []; cb_OwnSets := [demo_set]; cb_LocalEdits := ∅ |}.
Definition demo_key : string := "model_runtime.enforce_eager".

Lemma demo_set_filed : all_filed (cs_Items demo_set).
Proof.
  apply (bool_decide_unpack (map_Forall (fun k ci => sch_Key (ci_Schema ci) = k) (cs_Items demo_set))). vm_compute. exact I.
Qed.

Lemma next_layer_sound_witness :
  ValidateSchemaImmutability (CreateNextLayerBundle demo_parent [demo_set] "BackendRuntime" "r1" "t") = [].
Proof.
  assert (all_filed (cs_Items demo_set)) as H by apply demo_set_filed.
  eapply (next_layer_sound demo_parent [demo_set] "BackendRuntime" "r1" "t"); [by constructor|by repeat constructor|by repeat constructor].
Defined.

Lemma local_edit_takes_effect_witness :
  exists b' new, ApplyLocalEdit demo_parent "" demo_key (Some (ABool true)) None None "" "" "t" = inr b'
    /\ effective_items b' !! demo_key = Some new /\ val_EffectiveValue (ci_Value new) = ABool true.
Proof.
  destruct (ApplyLocalEdit demo_parent "" demo_key (Some (ABool true)) None None "" "" "t") as [e|b'] eqn:E;
    [vm_compute in E; discriminate|].
  destruct (local_edit_takes_effect demo_parent "" demo_key (ABool true) None None "" "" "t" b' E) as (old & new & _ & Hn & Hv & _).
  - apply ApplyLocalEdit_ok in E as (item & sk & e & _ & _ & ->). cbn. intros ? ? ? ? H1 H2 _ _.
    apply lookup_insert_Some in H1 as [[<- _]|[_ H1]], H2 as [[<- _]|[_ H2]]; done.
  - by exists b', new.
Defined.

(** A child set that makes an item read-only after another one does not protect it: the
    guard looks at the first own set that has the item, the effective items at the last. *)
Definition read_only_set : ConfigSet :=
  with_items ((fun ci => {| ci_Schema :=
    let s := ci_Schema ci in
    {| sch_Key := sch_Key s; sch_Owner := sch_Owner s; sch_OwnerLayer := sch_OwnerLayer s; sch_ConfigSetKey := sch_ConfigSetKey s;
       sch_Category := sch_Category s; sch_Label := sch_Label s; sch_LabelI18nKey := sch_LabelI18nKey s; sch_Description := sch_Description s;
       sch_DescriptionI18nKey := sch_DescriptionI18nKey s; sch_Type := sch_Type s; sch_Kind := sch_Kind s; sch_Target := sch_Target s;
       sch_ArgName := sch_ArgName s; sch_EnvName := sch_EnvName s; sch_MountTarget := sch_MountTarget s; sch_PortTarget := sch_PortTarget s;
       sch_Constraints := sch_Constraints s; sch_Choices := sch_Choices s; sch_Required := sch_Required s; sch_Advanced := sch_Advanced s;
       sch_DisplayOrder := sch_DisplayOrder s; sch_ReadOnly := true; sch_HelpText := sch_HelpText s; sch_HelpI18nKey := sch_HelpI18nKey s;
       sch_TooltipI18nKey := sch_TooltipI18nKey s; sch_SupportLevel := sch_SupportLevel s |};
    ci_Value := ci_Value ci; ci_State := ci_State ci; ci_Provenance := ci_Provenance ci; ci_Snapshot := ci_Snapshot ci;
    ci_Presentation := ci_Presentation ci |}) <$> cs_Items demo_set) demo_set.

Example read_only_item_edited :
  match ApplyLocalEdit {| cb_Inherited := []; cb_OwnSets := [demo_set; read_only_set]; cb_LocalEdits := ∅ |} "" demo_key (Some (ABool true))
          None None "" "" "t" with
  | inr b' => (fun ci => (sch_ReadOnly (ci_Schema ci), val_EffectiveValue (ci_Value ci))) <$> effective_items b' !! demo_key
  | inl _ => None
  end = Some (true, ABool true).
Proof. vm_compute. reflexivity. Qed.
