(* ===== verification/RunPlanLint.v ===== *)
(** * Lint of a run plan (internal/server/runplan/lint.go)

    Findings on raw arguments, on parameters, and on the final arguments,
    environment and docker options of a plan. *)
From S2P Require Import Prelude GoStrings GoValue RunPlanTypes ResolverArgs.
From Stdlib Require Import Ascii.

Definition LintSeverityError : string := "error".
Definition LintSeverityWarning : string := "warning".
Definition LintSeverityAdvisory : string := "advisory".

Definition LintCategoryDuplicateArg : string := "duplicate_arg".
Definition LintCategoryEnvCLIConflict : string := "env_cli_conflict".
Definition LintCategoryPlatformOverridden : string := "platform_overridden".
Definition LintCategoryHighRisk : string := "high_risk".
Definition LintCategoryUnsupported : string := "unsupported".
Definition LintCategoryDisabledApplied : string := "disabled_applied".
Definition LintCategoryMissingRequired : string := "missing_required".
Definition LintCategoryVendorIncompatible : string := "vendor_incompatible".

Record LintFinding := {
  lf_ID : string; lf_Severity : string; lf_Category : string; lf_Message : string; lf_Suggestion : string;
  lf_FieldPath : string; lf_Sources : list string
}.

Record LintResult := { lr_Status : string; lr_Findings : list LintFinding }.

Record LogicalParamSpec := {
  lps_Name : string; lps_CLIFlags : list string; lps_EnvVars : list string; lps_Owner : string; lps_Conflict : string
}.

Record LintInput := {
  li_PreDedupArgs : list string; li_FinalArgs : list string; li_Env : gmap string string;
  li_PlatformOwnedParams : list LogicalParamSpec; li_BackendName : string; li_DockerSpec : option DockerSpecInfo;
  li_EnvSources : gmap string string; li_RequiredParamKeys : list string; li_DisabledParamKeys : list string;
  li_DisabledParamSources : gmap string string; li_ActiveParamKeys : list string; li_Vendor : string;
  li_BackendArgsSchema : list string
}.

Definition platform_spec (name flag : string) (env : list string) : LogicalParamSpec :=
  {| lps_Name := name; lps_CLIFlags := [flag]; lps_EnvVars := env; lps_Owner := "platform"; lps_Conflict := "reject" |}.

Definition DefaultLogicalParamSpecs : list LogicalParamSpec :=
  [platform_spec "host" "--host" ["LLAMA_ARG_HOST"]; platform_spec "port" "--port" ["LLAMA_ARG_PORT"];
   platform_spec "model_path" "--model" []; platform_spec "served_model_name" "--served-model-name" [];
   platform_spec "sglang_model_path" "--model-path" []].

(** The walk shared by the three stages: each flag with the value that follows it. *)
Fixpoint flag_walk (args : list string) : list (string * option string) :=
  match args with
  | [] => []
  | arg :: rest =>
      if is_flag arg then
        match rest with
        | v :: rest' => if is_flag v then (arg, None) :: flag_walk rest else (arg, Some v) :: flag_walk rest'
        | [] => [(arg, None)]
        end
      else flag_walk rest
  end.

Definition count_flag (flag : string) (flags : list string) : nat := length (List.filter (String.eqb flag) flags).

Section Lint.
Context `{MR : MapRange}.

(** ** Raw arguments *)

Definition duplicate_finding (flag : string) (n : nat) : LintFinding :=
  {| lf_ID := "arg.duplicate"; lf_Severity := LintSeverityError; lf_Category := LintCategoryDuplicateArg;
     lf_Message := "CLI flag " +s+ Quote flag +s+ " appears " +s+ Itoa (Z.of_nat n) +s+ " times";
     lf_Suggestion := "Remove duplicate " +s+ Quote flag +s+ " flags. The last occurrence will be used after deduplication.";
     lf_FieldPath := "args"; lf_Sources := ["user_extra_args"] |}.

Definition overridden_finding (flag : string) : LintFinding :=
  {| lf_ID := "arg.platform_overridden"; lf_Severity := LintSeverityError; lf_Category := LintCategoryPlatformOverridden;
     lf_Message := "Platform-owned parameter " +s+ Quote flag +s+ " appears multiple times; user args may override platform defaults";
     lf_Suggestion := "Platform-owned parameter " +s+ Quote flag
       +s+ " should not be duplicated. If you need to override it, use deployment parameters.";
     lf_FieldPath := "args"; lf_Sources := ["platform"; "user_extra_args"] |}.

(** Flags with the number of times they appear. *)
Definition flag_counts (args : list string) : gmap string nat :=
  foldl (fun m f => <[f := S (default 0%nat (m !! f))]> m) ∅ (flag_walk args).*1.

Definition lintPreNormalization (args : list string) (specs : list LogicalParamSpec) : list LintFinding :=
  concat (map (fun fn => if (1 <? fn.2)%nat then [duplicate_finding fn.1 fn.2] else []) (range (flag_counts args)))
  ++ concat (map (fun spec =>
       if (lps_Owner spec <>s "platform") || (lps_Conflict spec <>s "reject") then []
       else concat (map (fun flag => if (1 <? count_flag flag args)%nat then [overridden_finding flag] else [])
                        (lps_CLIFlags spec))) specs).

(** ** Parameters *)

Definition paramKeyMatchesFlag (paramKey flag : string) : bool :=
  let idx := LastIndex paramKey "."%char in
  let suffix := if (0 <=? idx)%Z then str_drop (Z.to_nat (idx + 1)) paramKey else paramKey in
  flag =s "--" +s+ ReplaceAll suffix "_"%char "-"%char.

Definition flag_set (args : list string) : gmap string bool :=
  foldl (fun m f => <[f := true]> m) ∅ (flag_walk args).*1.

Definition known_flags (schema : list string) : gmap string bool := foldl (fun m f => <[f := true]> m) ∅ schema.

Definition holds (m : gmap string bool) (k : string) : bool := default false (m !! k).

Definition nvidiaOnlyFlags : list string :=
  ["--gpu-memory-utilization"; "--tensor-parallel-size"; "--pipeline-parallel-size"; "--kv-cache-dtype"].
Definition platformManaged : list string := ["--model"; "--host"; "--port"; "--model-path"; "-m"].

Definition disabled_finding (key source flag : string) : LintFinding :=
  {| lf_ID := "param.disabled_applied"; lf_Severity := LintSeverityWarning; lf_Category := LintCategoryDisabledApplied;
     lf_Message := "Disabled parameter " +s+ Quote key +s+ " (flag " +s+ flag +s+ ") appears in final args";
     lf_Suggestion := "Parameter " +s+ Quote key +s+ " was disabled at layer " +s+ Quote source +s+ " but its CLI flag " +s+ flag
       +s+ " was found in the resolved args. This may indicate a config merge bug.";
     lf_FieldPath := "params"; lf_Sources := [source] |}.

Definition missing_finding (key : string) : LintFinding :=
  {| lf_ID := "param.missing_required"; lf_Severity := LintSeverityError; lf_Category := LintCategoryMissingRequired;
     lf_Message := "Required parameter " +s+ Quote key +s+ " is not present in final args";
     lf_Suggestion := "Enable and set a value for required parameter " +s+ Quote key +s+ " before starting the deployment.";
     lf_FieldPath := "params"; lf_Sources := ["platform"] |}.

Definition vendor_finding (flag vendor : string) : LintFinding :=
  {| lf_ID := "param.vendor_incompatible"; lf_Severity := LintSeverityError; lf_Category := LintCategoryVendorIncompatible;
     lf_Message := "NVIDIA-specific flag " +s+ flag +s+ " used with vendor=" +s+ Quote vendor;
     lf_Suggestion := "Flag " +s+ flag +s+ " requires an NVIDIA GPU. Remove it for " +s+ vendor +s+ " deployments.";
     lf_FieldPath := "params"; lf_Sources := ["user"] |}.

Definition unsupported_finding (flag backend : string) : LintFinding :=
  {| lf_ID := "param.unsupported"; lf_Severity := LintSeverityWarning; lf_Category := LintCategoryUnsupported;
     lf_Message := "CLI flag " +s+ flag +s+ " is not in the backend's known args schema for " +s+ backend;
     lf_Suggestion := "Remove flag " +s+ flag +s+ " or add it to the backend catalog's default_args_schema.";
     lf_FieldPath := "params"; lf_Sources := ["user"] |}.

Definition disabled_findings (inp : LintInput) (flags : gmap string bool) : list LintFinding :=
  concat (map (fun key =>
    concat (map (fun fb =>
      if paramKeyMatchesFlag key fb.1 && negb (holds (known_flags (li_BackendArgsSchema inp)) fb.1)
      then [disabled_finding key (default "unknown" (li_DisabledParamSources inp !! key)) fb.1] else [])
    (range flags))) (li_DisabledParamKeys inp)).

Definition missing_findings (inp : LintInput) (flags : gmap string bool) : list LintFinding :=
  concat (map (fun key =>
    if existsb (fun fb => paramKeyMatchesFlag key fb.1) (range flags) then [] else [missing_finding key])
    (li_RequiredParamKeys inp)).

Definition vendor_findings (inp : LintInput) (flags : gmap string bool) : list LintFinding :=
  if (li_Vendor inp <>s EmptyString) && (li_Vendor inp <>s "nvidia") && (li_Vendor inp <>s "cpu")
  then concat (map (fun fb => if existsb (String.eqb fb.1) nvidiaOnlyFlags then [vendor_finding fb.1 (li_Vendor inp)] else [])
                   (range flags))
  else [].

Definition unsupported_findings (inp : LintInput) (flags : gmap string bool) : list LintFinding :=
  let schema := known_flags (li_BackendArgsSchema inp) in
  concat (map (fun fb =>
    if holds schema fb.1 || existsb (String.eqb fb.1) platformManaged || (size schema =? 0)%nat then []
    else [unsupported_finding fb.1 (li_BackendName inp)]) (range flags)).

Definition lintParamRules (inp : LintInput) : list LintFinding :=
  let flags := flag_set (li_FinalArgs inp) in
  disabled_findings inp flags ++ missing_findings inp flags ++ vendor_findings inp flags ++ unsupported_findings inp flags.

(** ** Final arguments, environment, docker options *)

Definition cli_values (args : list string) : gmap string string :=
  foldl (fun m fv => match fv.2 with Some v => <[fv.1 := v]> m | None => m end) ∅ (flag_walk args).

Definition conflict_finding (spec : LogicalParamSpec) (envVar envVal flag envSource : string) : LintFinding :=
  let '(severity, suggestion) :=
    if (envSource =s "user_env") && (lps_Owner spec =s "platform")
    then (LintSeverityError, "You set " +s+ envVar +s+ "=" +s+ Quote envVal +s+ " which conflicts with platform-owned " +s+ flag
                             +s+ ". Remove the env override.")
    else if (envSource =s "platform") || (envSource =s "backend_default")
    then (LintSeverityWarning, "The " +s+ envVar +s+ " env var is set by the " +s+ envSource +s+ " and conflicts with " +s+ flag
                               +s+ " CLI. This is typically harmless as the CLI value takes precedence.")
    else (LintSeverityWarning, "Remove either the " +s+ envVar +s+ " env var or the " +s+ flag +s+ " CLI flag to avoid ambiguity.") in
  {| lf_ID := "arg.env_cli_conflict"; lf_Severity := severity; lf_Category := LintCategoryEnvCLIConflict;
     lf_Message := "Environment variable " +s+ envVar +s+ "=" +s+ Quote envVal +s+ " conflicts with CLI flag " +s+ flag;
     lf_Suggestion := suggestion; lf_FieldPath := "env+args"; lf_Sources := [envSource; "platform"] |}.

Definition conflict_findings (args : list string) (env sources : gmap string string) (spec : LogicalParamSpec) : list LintFinding :=
  concat (map (fun envVar =>
    match env !! envVar with
    | None => []
    | Some envVal =>
        concat (map (fun flag =>
          match cli_values args !! flag with
          | None => []
          | Some _ => [conflict_finding spec envVar envVal flag (default "unknown" (sources !! envVar))]
          end) (lps_CLIFlags spec))
    end) (lps_EnvVars spec)).

Definition risk_finding (id message suggestion path : string) : LintFinding :=
  {| lf_ID := id; lf_Severity := LintSeverityWarning; lf_Category := LintCategoryHighRisk; lf_Message := message;
     lf_Suggestion := suggestion; lf_FieldPath := path; lf_Sources := ["platform"] |}.

Definition docker_findings (d : DockerSpecInfo) : list LintFinding :=
  (if ds_Privileged d
   then [risk_finding "security.privileged_enabled" "Container runs in privileged mode"
           "Privileged mode grants full host access. Use specific device mappings instead if possible." "docker.privileged"] else [])
  ++ (if ds_IPCMode d =s "host"
      then [risk_finding "security.ipc_host" "Container uses IPC mode host"
              "IPC host mode allows shared memory with the host. This may be required for some GPU workloads but reduces isolation."
              "docker.ipc_mode"] else [])
  ++ concat (map (fun opt =>
       if (opt =s "seccomp=unconfined") || (opt =s "apparmor=unconfined")
       then [risk_finding "security.unconfined" ("Container uses security option " +s+ Quote opt)
               "Unconfined security profiles reduce container isolation." "docker.security_options"] else [])
       (ds_SecurityOptions d)).

Definition lintFinal (args : list string) (env : gmap string string) (specs : list LogicalParamSpec)
    (sources : gmap string string) (docker : option DockerSpecInfo) : list LintFinding :=
  concat (map (conflict_findings args env sources) specs)
  ++ match docker with Some d => docker_findings d | None => [] end.

(** ** The result *)

Definition status_step (status : string) (f : LintFinding) : string :=
  if lf_Severity f =s LintSeverityError then "error"
  else if lf_Severity f =s LintSeverityWarning then (if status <>s "error" then "warning" else status)
  else if lf_Severity f =s LintSeverityAdvisory then (if status =s "ok" then "warning" else status)
  else status.

Definition LintRunPlan (inp : LintInput) : LintResult :=
  let findings :=
    lintPreNormalization (li_PreDedupArgs inp) (li_PlatformOwnedParams inp)
    ++ lintParamRules inp
    ++ lintFinal (li_FinalArgs inp) (li_Env inp) (li_PlatformOwnedParams inp) (li_EnvSources inp) (li_DockerSpec inp) in
  {| lr_Status := foldl status_step "ok" findings; lr_Findings := findings |}.

(** ** Properties *)

Definition is_error (f : LintFinding) : Prop := lf_Severity f = LintSeverityError.

Definition graded (f : LintFinding) : Prop := lf_Severity f = LintSeverityError \/ lf_Severity f = LintSeverityWarning.

Lemma Forall_concat_map {A} (P : LintFinding -> Prop) (g : A -> list LintFinding) l :
  (forall x, x ∈ l -> Forall P (g x)) -> Forall P (concat (map g l)).
Proof.
  induction l as [|x l IH]; intros H; cbn; [done|]. apply Forall_app. split; [apply H, list_elem_of_here|].
  apply IH. intros y Hy. by apply H, list_elem_of_further.
Qed.

Lemma docker_findings_warn d : Forall (fun f => lf_Severity f = LintSeverityWarning) (docker_findings d).
Proof.
  unfold docker_findings. rewrite !Forall_app. split_and!; [by destruct (ds_Privileged d); repeat constructor|by destruct (ds_IPCMode d =s _); repeat constructor|].
  apply Forall_concat_map. intros opt _. by case_match; repeat constructor.
Qed.

Lemma conflict_findings_spec args env sources spec f :
  f ∈ conflict_findings args env sources spec <->
  exists envVar envVal flag v, envVar ∈ lps_EnvVars spec /\ env !! envVar = Some envVal /\ flag ∈ lps_CLIFlags spec /\
    cli_values args !! flag = Some v /\ f = conflict_finding spec envVar envVal flag (default "unknown" (sources !! envVar)).
Proof.
  unfold conflict_findings. rewrite list_elem_of_In, in_concat. setoid_rewrite in_map_iff. split.
  - intros (l & (envVar & <- & Hin%list_elem_of_In) & Hf). destruct (env !! envVar) as [envVal|] eqn:Ee; [|done].
    apply in_concat in Hf as (l & (flag & <- & Hflag%list_elem_of_In)%in_map_iff & Hf).
    destruct (cli_values args !! flag) as [v|] eqn:Ev; [|done]. destruct Hf as [<-|[]]. by exists envVar, envVal, flag, v.
  - intros (envVar & envVal & flag & v & Hin%list_elem_of_In & Ee & Hflag%list_elem_of_In & Ev & ->).
    eexists. split; [exists envVar; split; [reflexivity|done]|]. cbn. rewrite Ee. apply in_concat.
    eexists. split; [apply in_map_iff; exists flag; split; [reflexivity|done]|]. cbn. rewrite Ev. by left.
Qed.

Lemma conflict_graded spec envVar envVal flag source : graded (conflict_finding spec envVar envVal flag source).
Proof. unfold conflict_finding, graded. destruct (_ && _); [by left|]. destruct (_ || _); by right. Qed.

Lemma Forall_if {A} (P : A -> Prop) (b : bool) x : P x -> Forall P (if b then [x] else []).
Proof. intros Hx. destruct b; by repeat constructor. Qed.
Lemma Forall_unless {A} (P : A -> Prop) (b : bool) x : P x -> Forall P (if b then [] else [x]).
Proof. intros Hx. destruct b; by repeat constructor. Qed.

Lemma findings_graded inp : Forall graded (lr_Findings (LintRunPlan inp)).
Proof.
  cbn [lr_Findings LintRunPlan]. unfold lintPreNormalization, lintParamRules, lintFinal. rewrite !Forall_app. split_and!.
  - apply Forall_concat_map. intros fn _. apply Forall_if. by left.
  - apply Forall_concat_map. intros spec _. case_match; [done|]. apply Forall_concat_map. intros flag _. apply Forall_if. by left.
  - apply Forall_concat_map. intros key _. apply Forall_concat_map. intros fb _. apply Forall_if. by right.
  - apply Forall_concat_map. intros key _. apply Forall_unless. by left.
  - unfold vendor_findings. case_match; [|done]. apply Forall_concat_map. intros fb _. apply Forall_if. by left.
  - apply Forall_concat_map. intros fb _. apply Forall_unless. by right.
  - apply Forall_concat_map. intros spec _. apply Forall_forall.
    intros f (envVar & envVal & flag & v & _ & _ & _ & _ & ->)%conflict_findings_spec. apply conflict_graded.
  - destruct (li_DockerSpec inp) as [d|]; [|done]. eapply Forall_impl; [apply docker_findings_warn|]. by right.
Qed.

Lemma status_fold findings status :
  Forall graded findings ->
  (foldl status_step status findings = "error" <-> status = "error" \/ Exists is_error findings) /\
  (foldl status_step status findings = "ok" <-> status = "ok" /\ findings = []).
Proof.
  intros Hg. revert status. induction Hg as [|f findings Hf _ IH]; intros status; cbn [foldl].
  - rewrite Exists_nil. intuition.
  - destruct (IH (status_step status f)) as [-> ->]. rewrite Exists_cons. unfold status_step, is_error.
    destruct Hf as [-> | ->]; cbn.
    + split; [tauto|]. by split; intros [].
    + destruct (status =s "error") eqn:E; cbn; bool_facts; subst.
      * split; [tauto|]. by split; intros [].
      * split; [|by split; intros []]. split; [intros [?|?]; [done|tauto]|intros [?|[?|?]]; [done|done|tauto]].
Qed.

(** The status of a lint is [error] exactly when a finding is one, and [ok] exactly
    when there is none. *)
Theorem LintRunPlan_status inp :
  (lr_Status (LintRunPlan inp) = "error" <-> Exists is_error (lr_Findings (LintRunPlan inp))) /\
  (lr_Status (LintRunPlan inp) = "ok" <-> lr_Findings (LintRunPlan inp) = []).
Proof.
  destruct (status_fold (lr_Findings (LintRunPlan inp)) "ok" (findings_graded inp)) as [He Ho].
  split; [etransitivity; [exact He|]; by split; [intros [|]|right]|etransitivity; [exact Ho|]; tauto].
Qed.

(** Without raw arguments, required keys, a vendor and user sources of environment
    variables, no finding is an error: the rules that make one have nothing to look at. *)
Lemma lint_never_error inp :
  li_PreDedupArgs inp = [] -> li_RequiredParamKeys inp = [] -> li_Vendor inp = "" ->
  (forall k, li_EnvSources inp !! k <> Some "user_env") ->
  lr_Status (LintRunPlan inp) <> "error".
Proof.
  intros Hp Hr Hv Hs He%LintRunPlan_status. revert He. apply Stdlib.Lists.List.Forall_Exists_neg.
  cbn [lr_Findings LintRunPlan]. unfold lintPreNormalization, lintParamRules, lintFinal, missing_findings, vendor_findings, is_error.
  rewrite Hp, Hr, Hv. cbn [flag_counts flag_walk fmap list_fmap foldl map concat String.eqb negb andb]. rewrite !Forall_app. split_and!; [..|done| | | |].
  - unfold flag_counts. cbn. by rewrite range_empty.
  - apply Forall_concat_map. intros spec _. case_match; [done|]. apply Forall_concat_map. intros flag _. by cbn.
  - apply Forall_concat_map. intros key _. apply Forall_concat_map. intros fb _. by apply Forall_if.
  - done.
  - apply Forall_concat_map. intros fb _. by apply Forall_unless.
  - apply Forall_concat_map. intros spec _. apply Forall_forall.
    intros f (envVar & envVal & flag & v & _ & _ & _ & _ & ->)%conflict_findings_spec.
    unfold conflict_finding. destruct (_ =s "user_env") eqn:E; cbn [andb]; [|destruct (_ || _); done].
    apply String.eqb_eq in E. destruct (li_EnvSources inp !! envVar) as [src|] eqn:Es; cbn in E; [|done]. subst. by destruct (Hs envVar).
  - destruct (li_DockerSpec inp) as [d|]; [|done]. eapply Forall_impl; [apply docker_findings_warn|]. by intros f ->.
Qed.
End Lint.
