(* ===== verification/LogClassifier.v ===== *)
(** * Classifying runtime logs (internal/server/runplan/log_classifier.go)

    A pattern of the code is an alternative of literals to be found in order on a
    line (joined by [.*] in the regular expression), some without regard to case. *)
From S2P Require Import Prelude GoStrings GoValue.
From Stdlib Require Import Ascii.

Definition LogSeverityFatal : string := "fatal".
Definition LogSeverityError : string := "error".
Definition LogSeverityWarning : string := "warning".
Definition LogSeverityAdvisory : string := "advisory".
Definition LogSeverityNoise : string := "noise".

Definition LogCategoryDependencyWarning : string := "dependency_warning".
Definition LogCategoryDefaultSelection : string := "default_selection".
Definition LogCategoryArgConflict : string := "arg_conflict".
Definition LogCategoryOOM : string := "oom".
Definition LogCategoryHealth : string := "health".
Definition LogCategoryStartup : string := "startup".

(** ** Patterns *)

Record pattern := { pt_fold : bool; pt_alternatives : list (list string) }.

(** What follows the first occurrence of a literal. *)
Fixpoint after_first (lit s : string) : option string :=
  if HasPrefix s lit then Some (str_drop (String.length lit) s)
  else match s with EmptyString => None | String _ s' => after_first lit s' end.

Fixpoint literals_in_order (lits : list string) (s : string) : bool :=
  match lits with
  | [] => true
  | lit :: lits => match after_first lit s with Some s' => literals_in_order lits s' | None => false end
  end.

Definition MatchString (p : pattern) (line : string) : bool :=
  existsb (fun lits => if pt_fold p then literals_in_order (map ToLower lits) (ToLower line) else literals_in_order lits line)
    (pt_alternatives p).

Record RuntimeLogRule := {
  rule_ID : string; rule_Backend : string; rule_Version : string; rule_Pattern : pattern; rule_Severity : string;
  rule_Category : string; rule_Message : string; rule_Suggestion : string
}.

Record RuntimeLogEvent := {
  ev_RuleID : string; ev_Severity : string; ev_Category : string; ev_Message : string; ev_Suggestion : string;
  ev_RawLine : string; ev_Occurrences : Z
}.

Definition builtin_rule (id backend : string) (fold : bool) (alternatives : list (list string)) (severity category message suggestion : string) :
    RuntimeLogRule :=
  {| rule_ID := id; rule_Backend := backend; rule_Version := EmptyString;
     rule_Pattern := {| pt_fold := fold; pt_alternatives := alternatives |}; rule_Severity := severity; rule_Category := category;
     rule_Message := message; rule_Suggestion := suggestion |}.

Definition addBuiltinRules : list RuntimeLogRule :=
  [builtin_rule "sglang.torchao.syntax_warning" "sglang" false [["torchao/quantization/"; "SyntaxWarning: invalid escape sequence"]]
     LogSeverityNoise LogCategoryDependencyWarning
     "Upstream dependency torchao emits a SyntaxWarning. This does not affect model serving."
     "No action needed. This is a known upstream issue in torchao.";
   builtin_rule "sglang.attention_backend.default" "sglang" false
     [["Attention backend not specified"; "Use"; "backend by default"]]
     LogSeverityAdvisory LogCategoryDefaultSelection
     "SGLang used the default attention backend (flashinfer)."
     "If flashinfer-related failures occur, set --attention-backend to another supported value.";
   builtin_rule "llamacpp.env_overwritten.host" "llamacpp" false
     [["LLAMA_ARG_HOST"; "environment variable is set"; "overwritten"; "--host"]]
     LogSeverityWarning LogCategoryArgConflict
     "LLAMA_ARG_HOST environment variable is set but will be overwritten by --host argument."
     "This is typically caused by the Docker image providing LLAMA_ARG_HOST as a default env. The platform's --host correctly overrides it. If you set LLAMA_ARG_HOST yourself, remove it to avoid this warning.";
   builtin_rule "llamacpp.env_overwritten.port" "llamacpp" false
     [["LLAMA_ARG_PORT"; "environment variable is set"; "overwritten"; "--port"]]
     LogSeverityWarning LogCategoryArgConflict
     "LLAMA_ARG_PORT environment variable is set but will be overwritten by --port argument."
     "This is typically caused by the Docker image providing LLAMA_ARG_PORT as a default env. The platform's --port correctly overrides it. If you set LLAMA_ARG_PORT yourself, remove it to avoid this warning.";
   builtin_rule "cuda.oom" "*" true [["CUDA out of memory"]; ["out of memory"]; ["RuntimeError"; "out of memory"]]
     LogSeverityError LogCategoryOOM
     "CUDA out of memory error detected."
     "Reduce model size, context length, batch size, or memory budget. Consider using a smaller model or fewer GPU layers.";
   builtin_rule "container.startup.failed" "*" true
     [["Traceback (most recent call last)"]; ["panic:"]; ["fatal error"]; ["failed to start"]; ["Error"; "failed to load"]]
     LogSeverityError LogCategoryStartup
     "Container startup failure detected."
     "Check the full container logs for details. Common causes: missing model files, incompatible GPU drivers, port conflicts."].

Definition NewRuntimeLogClassifier : list RuntimeLogRule := addBuiltinRules.

Definition RegisterRule (rules : list RuntimeLogRule) (rule : RuntimeLogRule) : list RuntimeLogRule := rules ++ [rule].

(** ** Lines

    [bufio.Scanner] with its default buffer: lines end at a line feed, a carriage
    return before it is dropped, a text that ends in a line feed has no empty last
    line, and a line that does not fit in 64 KiB ends the scan. *)
Definition max_line : Z := 65536.

Definition drop_cr (s : string) : string :=
  if HasSuffix s (String (ascii_of_nat 13) EmptyString) then str_take (String.length s - 1) s else s.

Fixpoint scan_lines (lines : list string) : list string :=
  match lines with
  | [] => []
  | [l] => if (l =s EmptyString) || (max_line <=? str_len l)%Z then [] else [drop_cr l]
  | l :: rest => if (max_line <=? str_len l)%Z then [] else drop_cr l :: scan_lines rest
  end.

Definition text_lines (text : string) : list string := scan_lines (Split text newline).

(** ** Classification *)

(** The first rule whose pattern is on the line. *)
Definition first_rule (rules : list RuntimeLogRule) (line : string) : option RuntimeLogRule :=
  List.find (fun r => MatchString (rule_Pattern r) line) rules.

Definition new_event (r : RuntimeLogRule) (line : string) : RuntimeLogEvent :=
  {| ev_RuleID := rule_ID r; ev_Severity := rule_Severity r; ev_Category := rule_Category r; ev_Message := rule_Message r;
     ev_Suggestion := rule_Suggestion r; ev_RawLine := line; ev_Occurrences := 1 |}.

Definition count_once (e : RuntimeLogEvent) : RuntimeLogEvent :=
  {| ev_RuleID := ev_RuleID e; ev_Severity := ev_Severity e; ev_Category := ev_Category e; ev_Message := ev_Message e;
     ev_Suggestion := ev_Suggestion e; ev_RawLine := ev_RawLine e; ev_Occurrences := (ev_Occurrences e + 1)%Z |}.

Definition classify_line (rules : list RuntimeLogRule) (counts : gmap string RuntimeLogEvent) (line : string) :
    gmap string RuntimeLogEvent :=
  match first_rule rules line with
  | None => counts
  | Some r => match counts !! rule_ID r with
              | Some e => <[rule_ID r := count_once e]> counts
              | None => <[rule_ID r := new_event r line]> counts
              end
  end.

Definition ClassifyLogText `{MR : MapRange} (rules : list RuntimeLogRule) (logText : string) : list RuntimeLogEvent :=
  (range (foldl (classify_line rules) ∅ (text_lines logText))).*2.

Definition ClassifyLogLines `{MR : MapRange} (rules : list RuntimeLogRule) (lines : list string) : list RuntimeLogEvent :=
  ClassifyLogText rules (Join lines (String newline EmptyString)).

Definition severityOrder (s : string) : option Z :=
  if s =s LogSeverityNoise then Some 0%Z else if s =s LogSeverityAdvisory then Some 1%Z else if s =s LogSeverityWarning then Some 2%Z
  else if s =s LogSeverityError then Some 3%Z else if s =s LogSeverityFatal then Some 4%Z else None.

Definition FilterBySeverity (events : list RuntimeLogEvent) (minSeverity : string) : list RuntimeLogEvent :=
  match severityOrder minSeverity with
  | None => events
  | Some minLevel =>
      List.filter (fun ev => match severityOrder (ev_Severity ev) with Some level => (minLevel <=? level)%Z | None => false end) events
  end.

Definition IsNonFatal (events : list RuntimeLogEvent) : bool :=
  forallb (fun ev => (ev_Severity ev =s LogSeverityNoise) || (ev_Severity ev =s LogSeverityAdvisory)) events.

(** The em dash of the display, in UTF-8. *)
Definition em_dash : string :=
  String " "%char (String (ascii_of_nat 226) (String (ascii_of_nat 128) (String (ascii_of_nat 148) " "))).

Definition format_event (ev : RuntimeLogEvent) : string :=
  "[" +s+ ev_Severity ev +s+ "] " +s+ ev_RuleID ev +s+ ": " +s+ ev_Message ev
  +s+ (if ev_Suggestion ev <>s EmptyString then em_dash +s+ ev_Suggestion ev else EmptyString)
  +s+ (if (1 <? ev_Occurrences ev)%Z then " (x" +s+ Itoa (ev_Occurrences ev) +s+ ")" else EmptyString).

Definition FormatEventsForDisplay (events : list RuntimeLogEvent) : string :=
  Join (map format_event events) (String newline EmptyString).

(** ** Matching *)

(** The language of a pattern's alternative: its literals, in order, with anything
    before, between and after them. *)
Inductive in_order : list string -> string -> Prop :=
| in_order_nil s : in_order [] s
| in_order_cons lit lits a s : in_order lits s -> in_order (lit :: lits) (a +s+ lit +s+ s).

Lemma in_order_prefix lits a s : in_order lits s -> in_order lits (a +s+ s).
Proof.
  intros H. destruct H as [s|lit lits b s H]; [constructor|]. rewrite <- sapp_assoc. by constructor.
Qed.

Lemma suffix_of_longer x u y v :
  (x +s+ u = y +s+ v)%go -> (String.length v <= String.length u)%nat -> exists c, u = (c +s+ v)%go.
Proof.
  revert y. induction x as [|c x IH]; intros y Heq Hl; cbn in Heq; [by exists y|].
  destruct y as [|d y]; cbn in Heq.
  - apply (f_equal String.length) in Heq. cbn in Heq. rewrite sapp_length in Heq. lia.
  - injection Heq as _ Heq. by apply (IH y).
Qed.

(** The first occurrence leaves the longest rest. *)
Lemma after_first_some lit s s' :
  after_first lit s = Some s' ->
  (exists a, s = (a +s+ lit +s+ s')%go) /\ (forall b t, s = (b +s+ lit +s+ t)%go -> exists c, s' = (c +s+ t)%go).
Proof.
  revert s'. induction s as [|c s IH]; intros s'; cbn [after_first]; destruct (HasPrefix _ lit) eqn:E; try done.
  1, 2: intros [= <-]; apply HasPrefix_spec in E as [t Ht]; rewrite Ht, str_drop_app;
    split; [by exists EmptyString|]; intros b t' Hb; apply (suffix_of_longer lit t (b +s+ lit) t'); [by rewrite sapp_assoc|];
    apply (f_equal String.length) in Hb; rewrite !sapp_length in Hb; lia.
  intros H. destruct (IH _ H) as [[a ->] Hmax]. split; [by exists (String c a)|].
  intros [|d b] t Hb; cbn in Hb; [by rewrite Hb, HasPrefix_app in E|]. injection Hb as _ Hb. by apply (Hmax b).
Qed.

Lemma after_first_none lit s b t : after_first lit s = None -> s <> (b +s+ lit +s+ t)%go.
Proof.
  revert b. induction s as [|c s IH]; intros b; cbn [after_first]; destruct (HasPrefix _ lit) eqn:E; try done; intros H Hb.
  - symmetry in Hb. apply sapp_nil_inv in Hb as [-> Hb]. by rewrite <- Hb, HasPrefix_app in E.
  - destruct b as [|d b]; cbn in Hb; [by rewrite Hb, HasPrefix_app in E|]. injection Hb as _ Hb. by apply (IH b H).
Qed.

(** The scan decides the language of the pattern. *)
Theorem literals_in_order_spec lits s : literals_in_order lits s = true <-> in_order lits s.
Proof.
  revert s. induction lits as [|lit lits IH]; intros s; cbn; [by split; [constructor|]|].
  destruct (after_first lit s) as [s'|] eqn:E.
  - apply after_first_some in E as [[a ->] Hmax]. rewrite IH. split; [by constructor|].
    inversion 1 as [|? ? b t Ht]; subst. destruct (Hmax b t) as [c ->]; [done|]. by apply in_order_prefix.
  - split; [done|]. inversion 1; subst. exfalso. by eapply after_first_none.
Qed.

(** ** Counting *)

Definition lines_of_rule (rules : list RuntimeLogRule) (id : string) (lines : list string) : nat :=
  length (List.filter (fun l => match first_rule rules l with Some r => rule_ID r =s id | None => false end) lines).

Lemma classify_counts rules lines counts id :
  let n := Z.of_nat (lines_of_rule rules id lines) in
  option_map ev_Occurrences (foldl (classify_line rules) counts lines !! id) =
  match counts !! id with
  | Some e => Some (ev_Occurrences e + n)%Z
  | None => if (n =? 0)%Z then None else Some n
  end.
Proof.
  revert counts. induction lines as [|l lines IH]; intros counts; cbn [foldl].
  - cbn. destruct (counts !! id); cbn; [apply (f_equal Some); lia|done].
  - cbn zeta in *. rewrite IH. unfold lines_of_rule in *. cbn [List.filter]. unfold classify_line.
    destruct (first_rule rules l) as [r|] eqn:E; [|done].
    destruct (rule_ID r =s id) eqn:Er; [apply String.eqb_eq in Er as <-|apply String.eqb_neq in Er].
    + cbn [length]. destruct (counts !! rule_ID r) as [e|] eqn:Ec; rewrite lookup_insert_eq; cbn -[Z.of_nat Z.eqb Z.add].
      * apply (f_equal Some). lia.
      * rewrite (proj2 (Z.eqb_neq _ _)) by lia. apply (f_equal Some). lia.
    + by destruct (counts !! rule_ID r) as [e|] eqn:Ec; rewrite lookup_insert_ne.
Qed.

(** A rule's identifier has an event exactly when it is the first rule on some line,
    and the event counts those lines, whatever the order of the map. *)
Theorem ClassifyLogText_counts `{MR : MapRange} rules logText id n :
  let lines := text_lines logText in
  (exists ev, (id, ev) ∈ range (foldl (classify_line rules) ∅ lines) /\ ev_Occurrences ev = n) <->
  n = Z.of_nat (lines_of_rule rules id lines) /\ (n <> 0)%Z.
Proof.
  cbn zeta. setoid_rewrite elem_of_range. pose proof (classify_counts rules (text_lines logText) ∅ id) as H.
  rewrite lookup_empty in H. destruct (foldl _ ∅ _ !! id) as [e|]; cbn in H.
  - destruct (_ =? 0)%Z eqn:E; [done|]. bool_facts. injection H as H. split.
    + intros (ev & [= <-] & <-). rewrite H. done.
    + intros [-> _]. by exists e.
  - destruct (_ =? 0)%Z eqn:E; [|done]. bool_facts. split; [by intros (? & ? & _)|]. intros [-> Hn]. done.
Qed.

(** Severity thresholds are monotone: a higher one keeps fewer events. *)
Lemma FilterBySeverity_mono events a b la lb :
  severityOrder a = Some la -> severityOrder b = Some lb -> (la <= lb)%Z ->
  forall ev, ev ∈ FilterBySeverity events b -> ev ∈ FilterBySeverity events a.
Proof.
  intros Ha Hb Hle ev. unfold FilterBySeverity. rewrite Ha, Hb, !list_elem_of_In, !List.filter_In. intros [Hin H].
  split; [done|]. destruct (severityOrder (ev_Severity ev)); [|done]. bool_facts. apply Z.leb_le. lia.
Qed.

(** After a line that does not fit the buffer nothing is classified, and a fatal
    line that follows it goes unseen. *)
Example long_line_hides_the_rest :
  text_lines ("a" +s+ String newline (String.concat "" (repeat "x" (Z.to_nat max_line)) +s+ String newline "panic: out of memory")) = ["a"].
Proof. vm_compute. reflexivity. Qed.

Example oom_line :
  map (fun e => (ev_RuleID e, ev_Occurrences e))
    (@ClassifyLogText canonical_range NewRuntimeLogClassifier
       ("RuntimeError: CUDA Out Of Memory" +s+ String newline ("load ok" +s+ String newline "out of memory"))) = [("cuda.oom", 2%Z)].
Proof. vm_compute. reflexivity. Qed.
