(* ===== verification/ResolverEnv.v ===== *)
(** * Building the environment (internal/server/runplan/resolver.go: buildEnv)

    The layers of [buildEnv] range over Go maps; the iteration order is the
    [MapRange] parameter.  The abstract view of the result is a lookup: what a
    variable is set to, by which layer. *)
From S2P Require Import Prelude GoStrings GoValue Template RunPlanTypes ResolverArgs.

Record env_state := { es_env : gmap string string; es_warnings : list ResolveWarning }.

Definition addEnv (env : gmap string string) (k v : string) : gmap string string :=
  if v =s EmptyString then env else <[k := v]> env.

Definition warn (w : ResolveWarning) (st : env_state) : env_state :=
  {| es_env := es_env st; es_warnings := es_warnings st ++ [w] |}.

Definition set_env (k v : string) (st : env_state) : env_state :=
  {| es_env := addEnv (es_env st) k v; es_warnings := es_warnings st |}.

(** Layers 1 and 4: an entry with an undefined variable is skipped. *)
Definition env_entry_step (vars : gmap string string) (st : env_state) (kv : string * string) : env_state :=
  match substituteVars kv.2 vars with
  | (_, Some e) => warn (EnvUndefinedVariables kv.1 (undefined_names e)) st
  | (resolved, None) => set_env kv.1 resolved st
  end.

Definition env_name (pv : ParameterValue) : string :=
  if pv_EnvName pv =s EmptyString then pv_Key pv else pv_EnvName pv.

(** Layer 2: the structured values of the snapshot whose target is [env]. *)
Definition env_param_step (st : env_state) (pv : ParameterValue) : env_state :=
  if negb (pv_Enabled pv) || (pv_Target pv <>s "env") then st
  else if empty_value (pv_Value pv) then warn (EnvEmptyValue (env_name pv)) st
  else set_env (env_name pv) (fmt_v (pv_Value pv)) st.

(** Layer 5: a warning does not skip the entry. *)
Definition env_override_step (vars : gmap string string) (st : env_state) (kv : string * string) : env_state :=
  match substituteVars kv.2 vars with
  | (resolved, Some e) =>
      set_env kv.1 resolved (warn (EnvOverrideUndefinedVariables kv.1 (undefined_names e)) st)
  | (resolved, None) => set_env kv.1 resolved st
  end.

Definition disable_env (env : gmap string string) (dp : ParameterValue) : gmap string string :=
  if pv_Target dp =s "env" then delete (env_name dp) env else env.

Section BuildEnv.
Context `{MR : MapRange}.

Definition buildEnv (inp : ResolveInput) (vars : gmap string string) : gmap string string * list ResolveWarning :=
  match in_NBRConfigSnapshot inp with
  | None => (∅, [EnvSnapshotMissing])
  | Some snap =>
      let st1 := foldl (env_entry_step vars) {| es_env := ∅; es_warnings := [] |} (range (nbr_DefaultEnv snap)) in
      let st2 := foldl env_param_step st1 (nbr_ParameterValues snap) in
      let st4 := match in_NodeRuntimeOverride inp with
                 | Some no => foldl (env_entry_step vars) st2 (range (no_Env no))
                 | None => st2
                 end in
      let st5 := foldl (env_override_step vars) st4 (range (di_EnvOverrides (in_Deployment inp))) in
      let disabled := di_DisabledParameters (in_Deployment inp) in
      (if (0 <? length disabled)%nat then foldl disable_env (es_env st5) disabled else es_env st5,
       es_warnings st5)
  end.

(** [mapKeys] of the log line: the keys, in the order of the range. *)
Definition mapKeys (m : gmap string string) : list string := (range m).*1.
End BuildEnv.

(** ** What each layer writes for one variable *)

Definition non_empty (s : string) : option string := if s =s EmptyString then None else Some s.

Definition entry_text vars (k v : string) : option string :=
  match substituteVars v vars with (_, Some _) => None | (resolved, None) => non_empty resolved end.

Definition override_text vars (k v : string) : option string := non_empty (substituteVars v vars).1.

(** The last structured value written under the name [k]. *)
Definition param_text (k : string) (pvs : list ParameterValue) : option string :=
  foldl (fun acc pv =>
    if pv_Enabled pv && (pv_Target pv =s "env") && negb (empty_value (pv_Value pv)) && (env_name pv =s k)
    then match non_empty (fmt_v (pv_Value pv)) with Some t => Some t | None => acc end else acc) None pvs.

Definition first_of (a b : option string) : option string := match a with Some w => Some w | None => b end.

Definition disabled_env (dps : list ParameterValue) (k : string) : bool :=
  existsb (fun dp => (pv_Target dp =s "env") && (env_name dp =s k)) dps.

(** The specification: disabled variables are absent, and otherwise deployment
    overrides beat the node override, which beats the structured values of the
    snapshot, which beat its default environment. *)
Definition env_spec (inp : ResolveInput) (snap : NBRSnapshotInfo) (vars : gmap string string) (k : string) : option string :=
  if disabled_env (di_DisabledParameters (in_Deployment inp)) k then None
  else
    first_of (di_EnvOverrides (in_Deployment inp) !! k ≫= override_text vars k)
      (first_of (match in_NodeRuntimeOverride inp with Some no => no_Env no !! k ≫= entry_text vars k | None => None end)
        (first_of (param_text k (nbr_ParameterValues snap))
           (nbr_DefaultEnv snap !! k ≫= entry_text vars k))).

(** ** Lemmas *)

Implicit Types (vars : gmap string string) (env : gmap string string).

Lemma addEnv_non_empty env k v :
  addEnv env k v = match non_empty v with Some w => <[k := w]> env | None => env end.
Proof. unfold addEnv, non_empty. by destruct (v =s EmptyString). Qed.

Lemma entries_overlay vars l st :
  es_env (foldl (env_entry_step vars) st l) = overlay (entry_text vars) l (es_env st).
Proof.
  revert st. induction l as [|[k v] l IH]; intros st; [done|]. cbn [foldl]. rewrite IH, overlay_cons. f_equal.
  unfold env_entry_step, entry_text. cbn [fst snd]. destruct (substituteVars v vars) as [t [e|]]; [done|].
  apply addEnv_non_empty.
Qed.

Lemma overrides_overlay vars l st :
  es_env (foldl (env_override_step vars) st l) = overlay (override_text vars) l (es_env st).
Proof.
  revert st. induction l as [|[k v] l IH]; intros st; [done|]. cbn [foldl]. rewrite IH, overlay_cons. f_equal.
  unfold env_override_step, override_text. cbn [fst snd].
  destruct (substituteVars v vars) as [t [e|]]; apply addEnv_non_empty.
Qed.

Lemma params_lookup k pvs st :
  es_env (foldl env_param_step st pvs) !! k = first_of (param_text k pvs) (es_env st !! k).
Proof.
  revert st. induction pvs as [|pv pvs IH] using rev_ind; intros st; [done|].
  unfold param_text in *. rewrite !foldl_app. cbn [foldl].
  specialize (IH st). set (st' := foldl env_param_step st pvs) in *.
  unfold env_param_step. destruct (pv_Enabled pv); cbn [negb orb andb]; [|done].
  destruct (pv_Target pv =s "env"); cbn [negb orb andb]; [|done].
  destruct (empty_value (pv_Value pv)); cbn [negb andb]; [done|]. cbn [set_env es_env].
  rewrite addEnv_non_empty. destruct (non_empty (fmt_v (pv_Value pv))) as [t|]; [|by destruct (_ =s k)].
  destruct (String.eqb_spec (env_name pv) k) as [->|Hne].
  - by rewrite lookup_insert_eq.
  - by rewrite lookup_insert_ne.
Qed.

Lemma disable_lookup k dps env :
  foldl disable_env env dps !! k = if disabled_env dps k then None else env !! k.
Proof.
  revert env. induction dps as [|dp dps IH]; intros env; [done|]. cbn [foldl disabled_env existsb].
  rewrite IH. unfold disable_env. destruct (pv_Target dp =s "env"); cbn [andb orb]; [|done].
  destruct (String.eqb_spec (env_name dp) k) as [->|Hne]; cbn [orb].
  - rewrite lookup_delete_eq. by destruct (disabled_env dps k).
  - by rewrite lookup_delete_ne.
Qed.

Section Facts.
Context `{MR : MapRange}.

Lemma overlay_range {W} (f : string -> string -> option W) m (env : gmap string W) k :
  overlay f (range m) env !! k = match m !! k ≫= f k with Some w => Some w | None => env !! k end.
Proof. rewrite overlay_lookup by apply range_NoDup. by rewrite range_list_to_map. Qed.

Lemma buildEnv_lookup inp snap vars k :
  in_NBRConfigSnapshot inp = Some snap -> (buildEnv inp vars).1 !! k = env_spec inp snap vars k.
Proof.
  intros Hs. unfold buildEnv, env_spec. rewrite Hs. cbn [fst].
  set (st2 := foldl env_param_step _ _).
  assert (es_env st2 !! k = first_of (param_text k (nbr_ParameterValues snap))
            (nbr_DefaultEnv snap !! k ≫= entry_text vars k)) as H2.
  { subst st2. rewrite params_lookup, entries_overlay, overlay_range. cbn. rewrite lookup_empty.
    unfold first_of. by destruct (nbr_DefaultEnv snap !! k ≫= entry_text vars k). }
  set (st4 := match in_NodeRuntimeOverride inp with Some _ => _ | None => _ end).
  assert (es_env st4 !! k = first_of (match in_NodeRuntimeOverride inp with
            Some no => no_Env no !! k ≫= entry_text vars k | None => None end) (es_env st2 !! k)) as H4.
  { subst st4. destruct (in_NodeRuntimeOverride inp); [|done]. by rewrite entries_overlay, overlay_range. }
  set (st5 := foldl (env_override_step vars) _ _).
  assert (es_env st5 !! k = first_of (di_EnvOverrides (in_Deployment inp) !! k ≫= override_text vars k)
            (es_env st4 !! k)) as H5.
  { subst st5. by rewrite overrides_overlay, overlay_range. }
  rewrite <- H2, <- H4, <- H5. destruct (di_DisabledParameters (in_Deployment inp)) as [|dp dps] eqn:Ed; [done|].
  cbn [length Nat.ltb]. change (0 <? S (length dps))%nat with true. apply disable_lookup.
Qed.
End Facts.

(** ** Warnings *)

Definition entry_warning vars (kv : string * string) : list ResolveWarning :=
  match substituteVars kv.2 vars with
  | (_, Some e) => [EnvUndefinedVariables kv.1 (undefined_names e)] | _ => [] end.

Definition override_warning vars (kv : string * string) : list ResolveWarning :=
  match substituteVars kv.2 vars with
  | (_, Some e) => [EnvOverrideUndefinedVariables kv.1 (undefined_names e)] | _ => [] end.

Definition param_warning (pv : ParameterValue) : list ResolveWarning :=
  if negb (pv_Enabled pv) || (pv_Target pv <>s "env") then []
  else if empty_value (pv_Value pv) then [EnvEmptyValue (env_name pv)] else [].

Lemma foldl_warnings {A} (step : env_state -> A -> env_state) (w : A -> list ResolveWarning) l st :
  (forall st x, es_warnings (step st x) = es_warnings st ++ w x) ->
  es_warnings (foldl step st l) = es_warnings st ++ concat (map w l).
Proof.
  intros Hs. revert st. induction l as [|x l IH]; intros st; cbn; [by rewrite app_nil_r|].
  by rewrite IH, Hs, app_assoc.
Qed.

Lemma entry_step_warnings vars st kv :
  es_warnings (env_entry_step vars st kv) = es_warnings st ++ entry_warning vars kv.
Proof.
  unfold env_entry_step, entry_warning. destruct (substituteVars kv.2 vars) as [? [e|]]; cbn; [done|].
  by rewrite app_nil_r.
Qed.

Lemma override_step_warnings vars st kv :
  es_warnings (env_override_step vars st kv) = es_warnings st ++ override_warning vars kv.
Proof.
  unfold env_override_step, override_warning. destruct (substituteVars kv.2 vars) as [? [e|]]; cbn; [done|].
  by rewrite app_nil_r.
Qed.

Lemma param_step_warnings st pv : es_warnings (env_param_step st pv) = es_warnings st ++ param_warning pv.
Proof. unfold env_param_step, param_warning. repeat case_match; cbn; by rewrite ?app_nil_r. Qed.

Lemma concat_map_Permutation {A B} (f : A -> list B) l1 l2 : l1 ≡ₚ l2 -> concat (map f l1) ≡ₚ concat (map f l2).
Proof.
  induction 1 as [|x l1 l2 _ IH|x y l|l1 l2 l3 _ IH1 _ IH2]; cbn; [done| | |by etrans].
  - by rewrite IH.
  - rewrite !app_assoc. by rewrite (Permutation_app_comm (f y) (f x)).
Qed.

Lemma range_both (MR1 MR2 : MapRange) {V} (m : gmap string V) : @range MR1 V m ≡ₚ @range MR2 V m.
Proof. etrans; [apply range_perm|symmetry; apply range_perm]. Qed.

Lemma buildEnv_warnings `{MR : MapRange} inp snap vars :
  in_NBRConfigSnapshot inp = Some snap ->
  (buildEnv inp vars).2 =
  concat (map (entry_warning vars) (range (nbr_DefaultEnv snap)))
  ++ concat (map param_warning (nbr_ParameterValues snap))
  ++ (match in_NodeRuntimeOverride inp with
      | Some no => concat (map (entry_warning vars) (range (no_Env no))) | None => [] end)
  ++ concat (map (override_warning vars) (range (di_EnvOverrides (in_Deployment inp)))).
Proof.
  intros Hs. unfold buildEnv. rewrite Hs. cbn [snd].
  rewrite (foldl_warnings _ (override_warning vars)) by (intros; apply override_step_warnings).
  rewrite !app_assoc. f_equal. destruct (in_NodeRuntimeOverride inp) as [no|].
  - rewrite (foldl_warnings _ (entry_warning vars)) by (intros; apply entry_step_warnings). f_equal.
    rewrite (foldl_warnings _ param_warning) by (intros; apply param_step_warnings). f_equal.
    by rewrite (foldl_warnings _ (entry_warning vars)) by (intros; apply entry_step_warnings).
  - rewrite app_nil_r. rewrite (foldl_warnings _ param_warning) by (intros; apply param_step_warnings). f_equal.
    by rewrite (foldl_warnings _ (entry_warning vars)) by (intros; apply entry_step_warnings).
Qed.

(** ** Properties *)

(** Whatever order Go enumerates its maps in, a variable of the built
    environment is what the layers prescribe: absent when the deployment disables
    it, else the deployment override, else the node override, else the last
    structured value of the snapshot, else its default; empty texts never win. *)
Theorem buildEnv_layers `{MR : MapRange} inp snap vars k :
  in_NBRConfigSnapshot inp = Some snap ->
  (buildEnv inp vars).1 !! k = env_spec inp snap vars k.
Proof. apply buildEnv_lookup. Qed.

(** The environment does not depend on the iteration order of the maps, and
    the warnings only by a permutation. *)
Theorem buildEnv_order_independent (MR1 MR2 : MapRange) inp vars :
  (@buildEnv MR1 inp vars).1 = (@buildEnv MR2 inp vars).1 /\
  (@buildEnv MR1 inp vars).2 ≡ₚ (@buildEnv MR2 inp vars).2.
Proof.
  destruct (in_NBRConfigSnapshot inp) as [snap|] eqn:Hs; [|unfold buildEnv; by rewrite Hs].
  split.
  - apply map_eq. intros k. by rewrite !(buildEnv_lookup inp snap).
  - rewrite !(buildEnv_warnings inp snap) by done. repeat apply Permutation_app; try done.
    + apply concat_map_Permutation, range_both.
    + destruct (in_NodeRuntimeOverride inp); [|done]. apply concat_map_Permutation, range_both.
    + apply concat_map_Permutation, range_both.
Qed.

(** ** Concrete inputs *)

Definition env_demo_input : ResolveInput :=
  let d := sample_deployment [] [] demo_service in
  sample_input
    {| di_ID := di_ID d; di_Name := di_Name d; di_Parameters := ∅;
       di_EnvOverrides := {["TOKEN" := "{{MISSING}}"; "HF_HOME" := "{{MODEL}}"]};
       di_ParameterValues := []; di_DisabledParameters := []; di_Placement := di_Placement d;
       di_Service := di_Service d |} (Some demo_snapshot).

Lemma buildEnv_layers_witness :
  (@buildEnv canonical_range env_demo_input demo_vars).1 !! "HF_HOME" = Some "/models/qwen".
Proof. rewrite (buildEnv_layers (MR := canonical_range) env_demo_input demo_snapshot); by vm_compute. Defined.

(** An override with an undefined variable is warned about and still set, with
    its placeholder text. *)
Example buildEnv_override_unknown_kept :
  (@buildEnv canonical_range env_demo_input demo_vars).1 !! "TOKEN" = Some "{{MISSING}}" /\
  EnvOverrideUndefinedVariables "TOKEN" ["MISSING"] ∈ (@buildEnv canonical_range env_demo_input demo_vars).2.
Proof. split; [by vm_compute|]. vm_compute. left. Qed.

Lemma env_spec_ignores_deployment_values inp snap vars k pvs :
  env_spec (with_deployment_values inp pvs) snap vars k = env_spec inp snap vars k.
Proof. done. Qed.
