(* ===== verification/ResolverMounts.v ===== *)
(** * Model mounts (internal/server/runplan/resolver.go: buildMounts and its path helpers)

    Paths are byte strings; the specification reads a path as its list of
    segments. *)
From S2P Require Import Prelude GoStrings GoValue RunPlanTypes ResolverArgs.
From Stdlib Require Import Ascii.

Definition is_slash (c : ascii) : bool := Ascii.eqb slash c.

(** The loop of [cleanPath]: [None] is the early return on a dot-dot segment. *)
Fixpoint clean_parts (parts : list string) : option (list string) :=
  match parts with
  | [] => Some []
  | p :: rest =>
      if p =s "." then clean_parts rest
      else if p =s ".." then None
      else cons p <$> clean_parts rest
  end.

Definition cleanPath (p : string) : string :=
  if p =s EmptyString then "/"
  else match clean_parts (FieldsFunc p is_slash) with
       | None => EmptyString
       | Some [] => "/"
       | Some out => "/" +s+ Join out "/"
       end.

(** [path[:idx]] and [path[idx+1:]] at the last slash. *)
Definition filepathBase (path : string) : string :=
  let idx := LastIndex path slash in
  if (0 <=? idx)%Z then str_drop (Z.to_nat (idx + 1)) path else path.

Definition modelHostRoot (a : ArtifactInfo) : string :=
  if ai_ModelRoot a <>s EmptyString then ai_ModelRoot a
  else
    let idx := LastIndex (ai_Path a) slash in
    if (0 <=? idx)%Z then str_take (Z.to_nat idx) (ai_Path a) else ai_Path a.

Definition modelRelativePath (a : ArtifactInfo) : string :=
  if ai_RelativePath a <>s EmptyString then TrimPrefix (ai_RelativePath a) "/"
  else filepathBase (ai_Path a).

(** [strings.TrimRight(root, "/") + "/" + strings.TrimLeft(rel, "/")] *)
Definition join_path (root rel : string) : string := TrimRight root slash +s+ "/" +s+ TrimLeft rel slash.

Definition mount_dir (rt : RuntimeInfo) : string :=
  let d := mmi_ContainerPath (ri_ModelMount rt) in
  if d =s EmptyString then "/models" else d.

Definition mount_host_root (inp : ResolveInput) : string :=
  match in_NodeRuntimeOverride inp with
  | Some no => if no_ModelRootHostPath no <>s EmptyString then no_ModelRootHostPath no
               else modelHostRoot (in_Artifact inp)
  | None => modelHostRoot (in_Artifact inp)
  end.

Definition buildMounts (inp : ResolveInput) : list MountMapping + ResolveError :=
  let hostRoot := mount_host_root inp in
  let relPath := modelRelativePath (in_Artifact inp) in
  if (relPath =s EmptyString) || (relPath =s ".") then inr RelativePathEmpty
  else if Contains relPath ".." then inr (RelativePathDotDot relPath)
  else if HasPrefix (ai_RelativePath (in_Artifact inp)) "/" then inr (RelativePathAbsolute (ai_RelativePath (in_Artifact inp)))
  else
    let hostPath := join_path hostRoot relPath in
    let containerMountDir := mount_dir (in_BackendRuntime inp) in
    let containerPath := join_path containerMountDir relPath in
    let cleaned := cleanPath containerPath in
    if negb (HasPrefix cleaned (cleanPath containerMountDir +s+ "/")) && (cleaned <>s cleanPath containerMountDir)
    then inr (MountEscapes containerPath cleaned)
    else
      let mm := ri_ModelMount (in_BackendRuntime inp) in
      inl [{| mm_HostPath := hostPath; mm_ContainerPath := cleaned;
              mm_Readonly := if mmi_ContainerPath mm =s EmptyString then true else mmi_Readonly mm |}].

(** ** Segments *)

Definition segments (p : string) : list string := FieldsFunc p is_slash.

(** The segments that name something: neither empty nor a single dot. *)
Definition named_segments (p : string) : list string := filter (fun s => s <> ".") (segments p).

Definition has_dotdot (p : string) : bool := existsb (String.eqb "..") (segments p).

Lemma clean_parts_spec parts :
  clean_parts parts = if existsb (String.eqb "..") parts then None else Some (filter (fun s => s <> ".") parts).
Proof.
  induction parts as [|p parts IH]; [done|]. cbn [clean_parts existsb]. rewrite filter_cons, IH.
  destruct (String.eqb_spec p ".") as [->|Hp].
  - cbn [String.eqb orb]. case_decide; [done|]. done.
  - rewrite (decide_True (P := p <> ".")) by done. rewrite (String.eqb_sym ".." p).
    destruct (p =s ".."); cbn [orb]; [done|]. by destruct (existsb _ parts).
Qed.

(** A cleaned path is the named segments of its input, each after a slash. *)
Lemma cleanPath_spec p :
  has_dotdot p = false ->
  cleanPath p = match named_segments p with [] => "/" | segs => "/" +s+ Join segs "/" end.
Proof.
  unfold cleanPath, has_dotdot, named_segments, segments. intros H. rewrite clean_parts_spec, H.
  destruct (String.eqb_spec p EmptyString) as [->|]; [done|].
  by destruct (filter _ _).
Qed.

Lemma cleanPath_dotdot p : has_dotdot p = true -> cleanPath p = EmptyString.
Proof.
  unfold cleanPath, has_dotdot, segments. intros H. rewrite clean_parts_spec, H.
  destruct (String.eqb_spec p EmptyString) as [->|]; [|done]. by vm_compute in H.
Qed.

(** [join_path] concatenates segments. *)
Lemma segments_join root rel : segments (join_path root rel) = segments root ++ segments rel.
Proof.
  unfold join_path, segments. change ("/" +s+ TrimLeft rel slash) with (String slash (TrimLeft rel slash)).
  rewrite FieldsFunc_sep by reflexivity. f_equal; [apply FieldsFunc_TrimRight|apply FieldsFunc_TrimLeft].
Qed.

Lemma has_dotdot_join root rel : has_dotdot (join_path root rel) = has_dotdot root || has_dotdot rel.
Proof. unfold has_dotdot. by rewrite segments_join, existsb_app. Qed.

Lemma named_segments_join root rel :
  named_segments (join_path root rel) = named_segments root ++ named_segments rel.
Proof. unfold named_segments. by rewrite segments_join, filter_app. Qed.

Lemma named_segments_Forall p :
  Forall (fun w => w <> EmptyString /\ any_byte is_slash w = false) (named_segments p).
Proof.
  apply Forall_forall. intros w Hw. apply list_elem_of_filter in Hw as [_ Hw].
  revert w Hw. apply Forall_forall, FieldsFunc_Forall.
Qed.

Lemma segments_cleanPath p : has_dotdot p = false -> segments (cleanPath p) = named_segments p.
Proof.
  intros H. rewrite cleanPath_spec by done. pose proof (named_segments_Forall p) as Hf.
  destruct (named_segments p) as [|w l] eqn:E; [done|].
  unfold segments. change ("/" +s+ ?x)%go with (String slash x).
  rewrite FieldsFunc_cons_sep by reflexivity. by apply FieldsFunc_Join.
Qed.

(** A dot-dot segment shows in the text. *)
Lemma fields_go_contains s :
  let '(cur, ws) := fields_go is_slash s in
  (exists r, s = (cur +s+ r)%go) /\
  Forall (fun w => exists a b, s = (a +s+ w +s+ b)%go) ws.
Proof.
  induction s as [|c s IH]; cbn [fields_go]; [split; [by exists EmptyString|done]|].
  destruct (fields_go is_slash s) as [cur ws]. destruct IH as [[r Hr] Hw].
  assert (Forall (fun w => exists a b, String c s = (a +s+ w +s+ b)%go) ws) as Hw'.
  { eapply Forall_impl; [done|]. intros w (a & b & ->). by exists (String c a), b. }
  destruct (is_slash c); [destruct cur as [|d cur]|]; (split; [|try done]).
  - by exists (String c s).
  - by exists (String c s).
  - constructor; [|done]. exists (String c EmptyString), r. cbn. by rewrite Hr.
  - exists r. cbn. by rewrite Hr.
Qed.

Lemma segment_contained s w : w ∈ segments s -> Contains s w = true.
Proof.
  intros Hin. apply Contains_spec. unfold segments, FieldsFunc in Hin.
  pose proof (fields_go_contains s) as H. destruct (fields_go is_slash s) as [cur ws].
  destruct H as [[r Hr] Hw]. rewrite Forall_forall in Hw. destruct cur as [|c cur]; [by apply Hw|].
  apply elem_of_cons in Hin as [->|Hin]; [by exists EmptyString, r|by apply Hw].
Qed.

Lemma no_dotdot s : Contains s ".." = false -> has_dotdot s = false.
Proof.
  intros H. apply not_true_is_false. intros Hd. apply existsb_eqb_In in Hd.
  apply segment_contained in Hd. congruence.
Qed.

(** The prefix test of the safety check, on segments. *)
Lemma cleaned_under root rel :
  has_dotdot root = false -> has_dotdot rel = false -> named_segments root <> [] ->
  let cleaned := cleanPath (join_path root rel) in
  HasPrefix cleaned (cleanPath root +s+ "/") = true \/ cleaned = cleanPath root.
Proof.
  intros Hr Hl Hne cleaned. subst cleaned. rewrite !cleanPath_spec by (rewrite ?has_dotdot_join, ?Hr, ?Hl; done).
  rewrite named_segments_join. destruct (named_segments root) as [|w l] eqn:E; [done|].
  destruct (named_segments rel) as [|w' l']; [right; by rewrite app_nil_r|]. left.
  change ((w :: l) ++ w' :: l') with (w :: (l ++ w' :: l')). cbn [app].
  change (w :: l ++ w' :: l') with ((w :: l) ++ (w' :: l')).
  rewrite Join_app by done. rewrite <- !sapp_assoc. apply HasPrefix_app.
Qed.

(** ** Properties *)

(** The three checks on the relative path. *)
Definition relative_path_ok (a : ArtifactInfo) : Prop :=
  let rel := modelRelativePath a in
  rel <> EmptyString /\ rel <> "." /\ Contains rel ".." = false /\ HasPrefix (ai_RelativePath a) "/" = false.

Lemma buildMounts_inl inp ms :
  buildMounts inp = inl ms ->
  relative_path_ok (in_Artifact inp) /\
  exists m, ms = [m] /\
    mm_HostPath m = join_path (mount_host_root inp) (modelRelativePath (in_Artifact inp)) /\
    mm_ContainerPath m = cleanPath (join_path (mount_dir (in_BackendRuntime inp)) (modelRelativePath (in_Artifact inp))).
Proof.
  unfold buildMounts, relative_path_ok. intros H.
  destruct (_ || _) eqn:E1; [done|]. bool_facts.
  destruct (Contains _ _) eqn:E2; [done|]. destruct (HasPrefix (ai_RelativePath _) _) eqn:E3; [done|].
  destruct (negb _ && _); [done|]. injection H as <-. split; [done|]. by eexists.
Qed.

(** C32. Confinement.  An accepted artifact yields one mount.  No segment of its relative path
    is dot-dot, and its host path is the model root followed by the segments of the
    relative path; the model root itself, which the server stores for a location, is
    taken as it is.  When the mount directory of the runtime has no dot-dot segment, the
    container path is that directory's segments followed by those of the relative path;
    when it has one, the container path is empty ([buildMounts_dotdot_dir]). *)
Theorem buildMounts_confined inp ms :
  buildMounts inp = inl ms ->
  exists m, ms = [m] /\
    let rel := modelRelativePath (in_Artifact inp) in
    let dir := mount_dir (in_BackendRuntime inp) in
    ".." ∉ segments rel /\
    segments (mm_HostPath m) = segments (mount_host_root inp) ++ segments rel /\
    (if has_dotdot dir then mm_ContainerPath m = EmptyString
     else segments (mm_ContainerPath m) = named_segments dir ++ named_segments rel).
Proof.
  intros ((_ & _ & Hc & _) & m & -> & Hh & Hm)%buildMounts_inl. exists m. split; [done|]. cbv zeta.
  pose proof (no_dotdot _ Hc) as Hrel. rewrite Hm, Hh, segments_join. split_and!; [by apply existsb_eqb_notIn|done|].
  destruct (has_dotdot (mount_dir _)) eqn:Hd; [by apply cleanPath_dotdot; rewrite has_dotdot_join, Hd|].
  rewrite segments_cleanPath by (by rewrite has_dotdot_join, Hd, Hrel). apply named_segments_join.
Qed.

(** A mount directory with a name in it and no dot-dot segment accepts an
    artifact exactly when its relative path passes the three checks: the final
    safety test never rejects. *)
Theorem buildMounts_accepts_iff inp :
  has_dotdot (mount_dir (in_BackendRuntime inp)) = false ->
  named_segments (mount_dir (in_BackendRuntime inp)) <> [] ->
  (exists ms, buildMounts inp = inl ms) <-> relative_path_ok (in_Artifact inp).
Proof.
  intros Hd Hne. split; [by intros [ms [? _]%buildMounts_inl]|].
  intros (H1 & H2 & H3 & H4). unfold buildMounts.
  apply String.eqb_neq in H1, H2. rewrite H1, H2, H3, H4. cbn [orb].
  destruct (cleaned_under _ _ Hd (no_dotdot _ H3) Hne) as [Hp|Heq].
  - rewrite Hp. cbn [negb andb]. eauto.
  - rewrite Heq, String.eqb_refl, andb_false_r. eauto.
Qed.

(** ** Concrete inputs *)

Definition mount_input (dir rel : string) : ResolveInput :=
  let base := sample_input (sample_deployment [] [] demo_service) (Some demo_snapshot) in
  let rt := in_BackendRuntime base in
  {| in_Backend := in_Backend base; in_BackendVersion := in_BackendVersion base;
     in_BackendRuntime := {| ri_ID := ri_ID rt; ri_Vendor := ri_Vendor rt; ri_RuntimeType := ri_RuntimeType rt;
       ri_LauncherKind := ri_LauncherKind rt; ri_ImageName := ri_ImageName rt;
       ri_EntrypointOverride := ri_EntrypointOverride rt; ri_ArgsOverride := ri_ArgsOverride rt;
       ri_DefaultEnv := ri_DefaultEnv rt; ri_Docker := ri_Docker rt;
       ri_ModelMount := {| mmi_ContainerPath := dir; mmi_Readonly := true |};
       ri_HealthCheckOverride := ri_HealthCheckOverride rt |};
     in_NodeRuntimeOverride := None;
     in_Artifact := {| ai_ID := "m"; ai_Name := "qwen"; ai_Path := "/data/models/qwen"; ai_ModelRoot := "/data/models";
       ai_RelativePath := rel |};
     in_Deployment := in_Deployment base; in_InstanceID := in_InstanceID base; in_Node := in_Node base;
     in_AssignedGPUs := in_AssignedGPUs base; in_ProcessStartConfig := None;
     in_NBRConfigSnapshot := in_NBRConfigSnapshot base |}.

Lemma buildMounts_confined_witness :
  exists m, buildMounts (mount_input "/models/" "team//qwen/.") = inl [m] /\
    segments (mm_ContainerPath m) = ["models"; "team"; "qwen"].
Proof.
  destruct (buildMounts_confined (mount_input "/models/" "team//qwen/.")
    [{| mm_HostPath := "/data/models/team//qwen/."; mm_ContainerPath := "/models/team/qwen"; mm_Readonly := true |}])
    as (m & Hm & _ & _ & Hs).
  - by vm_compute.
  - exists m. split; [|etrans; [exact Hs|by vm_compute]].
    injection Hm as <-. by vm_compute.
Defined.

Lemma buildMounts_accepts_iff_witness :
  exists ms, buildMounts (mount_input "/models" "qwen") = inl ms.
Proof.
  apply (buildMounts_accepts_iff (mount_input "/models" "qwen")).
  - by vm_compute.
  - by vm_compute.
  - split_and!; by vm_compute.
Defined.

(** The directory [/] is rejected although the cleaned path lies under it. *)
Example buildMounts_root_rejected : buildMounts (mount_input "/" "qwen") = inr (MountEscapes "/qwen" "/qwen").
Proof. by vm_compute. Qed.

(** A directory with a dot-dot segment passes the safety test: both cleaned
    paths are empty, and the mount has an empty container path. *)
Example buildMounts_dotdot_dir :
  exists m, buildMounts (mount_input "/models/../etc" "qwen") = inl [m] /\ mm_ContainerPath m = EmptyString.
Proof. eexists. by vm_compute. Qed.
