(* ===== verification/ResolverBinding.v ===== *)
(** * Ports and device binding (internal/server/runplan/resolver.go)

    The effective ports and [buildDeviceBinding].  A Go [int] is an unbounded
    [Z] here: the code only compares and prints these numbers. *)
From S2P Require Import Prelude GoStrings GoValue RunPlanTypes ResolverArgs.

(** ** Ports *)

Definition nbr_port_binding (inp : ResolveInput) : option ServicePortBinding :=
  match in_NBRConfigSnapshot inp with Some snap => nbr_ServicePortBinding snap | None => None end.

(** The value of the port binding when it is positive. *)
Definition bound_port (inp : ResolveInput) (f : ServicePortBinding -> Z) : option Z :=
  match nbr_port_binding inp with
  | Some b => if (0 <? f b)%Z then Some (f b) else None
  | None => None
  end.

Definition effectiveContainerPort (inp : ResolveInput) : Z :=
  let svc := di_Service (in_Deployment inp) in
  match bound_port inp spb_ContainerPort with
  | Some p => p
  | None =>
      if (0 <? sv_ContainerPort svc)%Z then sv_ContainerPort svc
      else if (0 <? sv_AppPort svc)%Z then sv_AppPort svc
      else if (0 <? vi_DefaultContainerPort (in_BackendVersion inp))%Z
           then vi_DefaultContainerPort (in_BackendVersion inp)
      else 8000
  end.

Definition effectiveHostPort (inp : ResolveInput) (containerPort : Z) : Z :=
  let svc := di_Service (in_Deployment inp) in
  match bound_port inp spb_HostPort with
  | Some p => p
  | None => if (0 <? sv_HostPort svc)%Z then sv_HostPort svc else containerPort
  end.

Definition effectiveAppPort (inp : ResolveInput) (containerPort : Z) : Z :=
  let svc := di_Service (in_Deployment inp) in
  match bound_port inp spb_ContainerPort with
  | Some p => p
  | None => if (0 <? sv_AppPort svc)%Z then sv_AppPort svc else containerPort
  end.

(** ** Device binding *)

Definition lower_trim (s : string) : string := ToLower (TrimSpace s).

Definition device_config (inp : ResolveInput) : option DeviceBindingConfig :=
  match in_NBRConfigSnapshot inp with Some snap => nbr_DeviceBinding snap | None => None end.

Definition deviceBindingEnabled (inp : ResolveInput) : bool :=
  match device_config inp with
  | Some cfg => dbc_Enabled cfg && (lower_trim (dbc_Mode cfg) <>s "disabled")
  | None =>
      let vendor := lower_trim (ri_Vendor (in_BackendRuntime inp)) in
      if (vendor =s EmptyString) || (vendor =s "cpu") || (vendor =s "none") then false
      else
        let placement := di_Placement (in_Deployment inp) in
        let mode := lower_trim (pl_AcceleratorSelectionMode placement) in
        match pl_DeviceBindingEnabled placement with
        | Some false => false
        | _ => mode <>s "disabled"
        end
  end.

Definition defaultVisibleEnvKey (vendor : string) : string :=
  let v := ToLower vendor in
  if (v =s "huawei") || (v =s "ascend") then "ASCEND_VISIBLE_DEVICES"
  else if v =s "metax" then "CUDA_VISIBLE_DEVICES"
  else "CUDA_VISIBLE_DEVICES".

(** A text of the component configuration, when it is there and not blank. *)
Definition config_text (cfg : option DeviceBindingConfig) (f : DeviceBindingConfig -> string) : option string :=
  match cfg with
  | Some c => if TrimSpace (f c) <>s EmptyString then Some (TrimSpace (f c)) else None
  | None => None
  end.

Definition binding_gpu_ids (inp : ResolveInput) : list string :=
  let assigned := if deviceBindingEnabled inp then map (fun g => Itoa (gi_Index g)) (in_AssignedGPUs inp) else [] in
  match device_config inp with
  | Some cfg => if (0 <? length (dbc_AcceleratorIDs cfg))%nat then dbc_AcceleratorIDs cfg else assigned
  | None => assigned
  end.

Definition binding_mode (inp : ResolveInput) : string :=
  let placement := di_Placement (in_Deployment inp) in
  let mode := match config_text (device_config inp) dbc_Mode with
              | Some m => ToLower m
              | None => lower_trim (pl_AcceleratorSelectionMode placement)
              end in
  if mode =s EmptyString then
    if (0 <? length (pl_AcceleratorIds placement))%nat then "manual"
    else if (0 <? length (binding_gpu_ids inp))%nat then "auto"
    else "disabled"
  else mode.

Definition buildDeviceBinding (inp : ResolveInput) : DeviceBinding :=
  let placement := di_Placement (in_Deployment inp) in
  let cfg := device_config inp in
  let vendor := match config_text cfg dbc_Vendor with
                | Some v => ToLower v
                | None => lower_trim (ri_Vendor (in_BackendRuntime inp))
                end in
  let gpuIDs := binding_gpu_ids inp in
  let mode := binding_mode inp in
  let source := if mode =s "auto" then "node_inventory_default" else "configedit_component" in
  let envKey := match config_text cfg dbc_VisibleEnvKey with
                | Some k => k
                | None => defaultVisibleEnvKey vendor
                end in
  if negb (deviceBindingEnabled inp) then
    {| db_Enabled := false; db_SelectionMode := "disabled"; db_Vendor := vendor; db_AcceleratorIDs := [];
       db_AcceleratorCount := 0; db_AllowAutoSelect := pl_AllowAutoSelect placement; db_Source := source;
       db_PatchTarget := "runtime.device_binding"; db_InjectionPreview := []; db_GPUDeviceIDs := [];
       db_VisibleEnvKey := envKey; db_VisibleEnvValue := ""; db_DockerGPUOption := ""; db_Editable := true;
       db_ReadonlyReason := ""; db_FinalDockerEffect := "none"; db_FinalEnvEffect := "none";
       db_FinalDeviceMounts := []; db_FinalInjectionSource := "" |}
  else
    let value := match config_text cfg dbc_VisibleEnvValue with
                 | Some v => v
                 | None => Join gpuIDs ","
                 end in
    let nvidia := EqualFold vendor "nvidia" in
    let gpuOption := if nvidia then match config_text cfg dbc_DockerGPUOption with
                                    | Some o => o
                                    | None => "device=" +s+ value
                                    end
                     else "" in
    let env_set := (envKey <>s EmptyString) && (value <>s EmptyString) in
    {| db_Enabled := (0 <? length gpuIDs)%nat; db_SelectionMode := mode; db_Vendor := vendor;
       db_AcceleratorIDs := gpuIDs;
       db_AcceleratorCount := match cfg with
                              | Some c => if (0 <? dbc_AcceleratorCount c)%Z then dbc_AcceleratorCount c
                                          else Z.of_nat (length gpuIDs)
                              | None => Z.of_nat (length gpuIDs)
                              end;
       db_AllowAutoSelect := pl_AllowAutoSelect placement || (mode =s "auto"); db_Source := source;
       db_PatchTarget := "runtime.device_binding";
       db_InjectionPreview :=
         (if gpuOption <>s EmptyString
          then [{| dbi_Target := "docker_options"; dbi_Key := "docker.gpus"; dbi_Value := gpuOption;
                   dbi_Source := "configedit_effect"; dbi_PatchTarget := "runtime.device_binding";
                   dbi_DockerEffect := "--gpus" |}] else [])
         ++ (if env_set
             then [{| dbi_Target := "env"; dbi_Key := envKey; dbi_Value := value;
                      dbi_Source := "configedit_effect"; dbi_PatchTarget := "runtime.device_binding";
                      dbi_DockerEffect := "-e" |}] else []);
       db_GPUDeviceIDs := gpuIDs; db_VisibleEnvKey := envKey; db_VisibleEnvValue := value;
       db_DockerGPUOption := gpuOption; db_Editable := true; db_ReadonlyReason := "";
       db_FinalDockerEffect := if nvidia then "--gpus " +s+ String dquote ("device=" +s+ value +s+ String dquote "")
                               else "";
       db_FinalEnvEffect := if env_set then envKey +s+ "=" +s+ value else "";
       db_FinalDeviceMounts := match cfg with Some c => dbc_DeviceMounts c | None => [] end;
       db_FinalInjectionSource := "configedit_effect" |}.

(** ** Properties *)

Lemma bound_port_pos inp f p : bound_port inp f = Some p -> (0 < p)%Z.
Proof.
  unfold bound_port. destruct (nbr_port_binding inp) as [b|]; [|done].
  destruct (Z.ltb_spec 0 (f b)); [|done]. by intros [= <-].
Qed.

Lemma effectiveContainerPort_pos inp : (0 < effectiveContainerPort inp)%Z.
Proof.
  unfold effectiveContainerPort. destruct (bound_port inp _) eqn:E; [by apply bound_port_pos in E|].
  repeat case_match; bool_facts; lia.
Qed.

Lemma effectiveHostPort_pos inp p : (0 < p)%Z -> (0 < effectiveHostPort inp p)%Z.
Proof.
  intros Hp. unfold effectiveHostPort. destruct (bound_port inp _) eqn:E; [by apply bound_port_pos in E|].
  case_match; bool_facts; lia.
Qed.

Lemma effectiveAppPort_pos inp p : (0 < p)%Z -> (0 < effectiveAppPort inp p)%Z.
Proof.
  intros Hp. unfold effectiveAppPort. destruct (bound_port inp _) eqn:E; [by apply bound_port_pos in E|].
  case_match; bool_facts; lia.
Qed.

(** The three effective ports are positive whatever the inputs hold, and a
    positive container port of the snapshot's port binding is both the container
    and the application port. *)
Theorem effective_ports inp :
  let cp := effectiveContainerPort inp in
  (0 < cp)%Z /\ (0 < effectiveHostPort inp cp)%Z /\ (0 < effectiveAppPort inp cp)%Z /\
  (bound_port inp spb_ContainerPort <> None -> effectiveAppPort inp cp = cp) /\
  (0 < sv_AppPort (effectiveServiceInfo inp) -> effectiveAppPort inp cp = sv_AppPort (effectiveServiceInfo inp))%Z.
Proof.
  pose proof (effectiveContainerPort_pos inp) as Hcp. cbn. split_and!; [done| | | |].
  - by apply effectiveHostPort_pos.
  - by apply effectiveAppPort_pos.
  - intros H. unfold effectiveAppPort, effectiveContainerPort. by destruct (bound_port inp _).
  - unfold effectiveAppPort, effectiveServiceInfo, bound_port, nbr_port_binding.
    destruct (in_NBRConfigSnapshot inp) as [snap|]; [destruct (nbr_ServicePortBinding snap) as [b|]|]; cbn;
    intros Hp; repeat case_match; bool_facts; simplify_eq; lia.
Qed.

Lemma Join_empty l sep : Join l sep = EmptyString -> l <> [] -> l = [EmptyString] \/ sep = EmptyString.
Proof.
  destruct l as [|w [|w' l]]; [done|cbn; intros ->; by left|].
  rewrite Join_cons by done. intros [_ [H _]%sapp_nil_inv]%sapp_nil_inv _. by right.
Qed.

(** What a device binding injects: an inactive binding has no devices and no
    preview; an active one previews the environment entry exactly when it sets a
    value, the value lists the device ids unless the component gives its own, and
    [--gpus] is chosen for nvidia only. *)
Theorem buildDeviceBinding_effects inp :
  let b := buildDeviceBinding inp in
  (deviceBindingEnabled inp = false ->
     db_Enabled b = false /\ db_GPUDeviceIDs b = [] /\ db_InjectionPreview b = [] /\ db_FinalDeviceMounts b = []) /\
  (deviceBindingEnabled inp = true ->
     db_GPUDeviceIDs b = binding_gpu_ids inp /\
     db_Enabled b = negb (bool_decide (db_GPUDeviceIDs b = [])) /\
     (config_text (device_config inp) dbc_VisibleEnvValue = None ->
        db_VisibleEnvValue b = Join (db_GPUDeviceIDs b) ",") /\
     ((exists i, i ∈ db_InjectionPreview b /\ dbi_Target i = "env") <-> db_VisibleEnvValue b <> EmptyString) /\
     (db_DockerGPUOption b <> EmptyString -> ToLower (db_Vendor b) = "nvidia")) /\
  db_VisibleEnvKey b <> EmptyString.
Proof.
  cbn zeta. unfold buildDeviceBinding.
  set (envKey := match config_text (device_config inp) dbc_VisibleEnvKey with Some k => k | None => _ end).
  assert (envKey <> EmptyString) as Hkey.
  { subst envKey. unfold config_text, defaultVisibleEnvKey. repeat case_match; simplify_eq; bool_facts; try done. }
  apply String.eqb_neq in Hkey as Hkeyb.
  destruct (deviceBindingEnabled inp) eqn:En; cbn; (split_and!; [..|done]); try done.
  intros _. split_and!; [done| | | |].
  - by destruct (binding_gpu_ids inp).
  - by intros ->.
  - rewrite Hkeyb. cbn. set (value := match config_text (device_config inp) dbc_VisibleEnvValue with Some v => v | None => _ end).
    split.
    + intros (i & Hi & Ht). apply elem_of_app in Hi as [Hi|Hi].
      * case_match; [|by apply elem_of_nil in Hi]. apply list_elem_of_singleton in Hi as ->. done.
      * destruct (String.eqb_spec value EmptyString); [by apply elem_of_nil in Hi|done].
    + intros Hv. apply String.eqb_neq in Hv. rewrite Hv. eexists. split; [apply elem_of_app; right; left|done].
  - unfold EqualFold. case_match eqn:E; [|done]. bool_facts. intros _. exact E.
Qed.

(** ** Concrete inputs *)

Definition gpu_input (vendor : string) (gpus : list GPUInfo) (cfg : option DeviceBindingConfig) : ResolveInput :=
  let base := sample_input (sample_deployment [] [] demo_service) None in
  let rt := in_BackendRuntime base in
  let snap := demo_snapshot in
  {| in_Backend := in_Backend base; in_BackendVersion := in_BackendVersion base;
     in_BackendRuntime := {| ri_ID := ri_ID rt; ri_Vendor := vendor; ri_RuntimeType := ri_RuntimeType rt;
       ri_LauncherKind := ri_LauncherKind rt; ri_ImageName := ri_ImageName rt;
       ri_EntrypointOverride := ri_EntrypointOverride rt; ri_ArgsOverride := ri_ArgsOverride rt;
       ri_DefaultEnv := ri_DefaultEnv rt; ri_Docker := ri_Docker rt; ri_ModelMount := ri_ModelMount rt;
       ri_HealthCheckOverride := ri_HealthCheckOverride rt |};
     in_NodeRuntimeOverride := None; in_Artifact := in_Artifact base; in_Deployment := in_Deployment base;
     in_InstanceID := in_InstanceID base; in_Node := in_Node base; in_AssignedGPUs := gpus;
     in_ProcessStartConfig := None;
     in_NBRConfigSnapshot := Some {| nbr_ArgsOverride := nbr_ArgsOverride snap; nbr_DefaultEnv := nbr_DefaultEnv snap;
       nbr_EntrypointOverride := []; nbr_Docker := no_docker; nbr_ModelMount := nbr_ModelMount snap;
       nbr_HealthCheckOverride := None; nbr_DeviceBinding := cfg; nbr_ServicePortBinding := None;
       nbr_ParameterSchema := []; nbr_ParameterValues := [] |} |}.

Example buildDeviceBinding_two_gpus :
  let b := buildDeviceBinding (gpu_input "NVIDIA" [{| gi_Index := 0; gi_Vendor := "nvidia" |};
             {| gi_Index := 3; gi_Vendor := "nvidia" |}] None) in
  db_Enabled b = true /\ db_VisibleEnvValue b = "0,3" /\ db_DockerGPUOption b = "device=0,3" /\ db_SelectionMode b = "auto".
Proof. by vm_compute. Qed.

(** With no device assigned, the inactive binding still previews a [--gpus]
    option, with an empty device list. *)
Example buildDeviceBinding_no_gpu_previews :
  let b := buildDeviceBinding (gpu_input "nvidia" [] None) in
  db_Enabled b = false /\ db_SelectionMode b = "disabled" /\
  map dbi_Value (db_InjectionPreview b) = ["device="].
Proof. by vm_compute. Qed.
