(* ===== verification/Resolver.v ===== *)
(** * Resolving a run plan (internal/server/runplan/resolver.go: Resolve and the rest of its steps)

    [Resolve] composes the components of the sibling files.  The two content
    hashes (SHA-256 over JSON) are parameters: the plan only carries them. *)
From S2P Require Import Prelude GoStrings GoValue Template RunPlanTypes ResolverArgs ResolverEnv ResolverMounts ResolverBinding.
From Stdlib Require Import Ascii.

(** ** Image, launcher, health check *)

Definition ResolveLauncherKind (rt : option RuntimeInfo) : string :=
  match rt with
  | None => ""
  | Some rt =>
      let k := TrimSpace (ToLower (ri_LauncherKind rt)) in
      if k <>s EmptyString then k
      else
        let k := TrimSpace (ToLower (ri_RuntimeType rt)) in
        if k <>s EmptyString then k else ""
  end.

Definition resolveImage (inp : ResolveInput) : string :=
  match in_NodeRuntimeOverride inp with
  | Some no => if no_ImageName no <>s EmptyString then no_ImageName no else ri_ImageName (in_BackendRuntime inp)
  | None => ri_ImageName (in_BackendRuntime inp)
  end.

Definition health_of (h : HealthCheckInput) : HealthCheck :=
  {| hc_Path := hi_Path h; hc_ExpectedStatus := hi_ExpectedStatus h;
     hc_StartupTimeoutSeconds := hi_StartupTimeoutSeconds h;
     hc_IntervalSeconds := hi_IntervalSeconds h; hc_TimeoutSeconds := hi_TimeoutSeconds h |}.

Definition or_default (z d : Z) : Z := if (z =? 0)%Z then d else z.

Definition buildHealthCheck (inp : ResolveInput) : HealthCheck :=
  let hc := match ri_HealthCheckOverride (in_BackendRuntime inp) with
            | Some h => health_of h
            | None => health_of (vi_HealthCheck (in_BackendVersion inp))
            end in
  if hc_Path hc <>s EmptyString then
    {| hc_Path := hc_Path hc;
       hc_ExpectedStatus := or_default (hc_ExpectedStatus hc) 200;
       hc_StartupTimeoutSeconds := or_default (hc_StartupTimeoutSeconds hc) 120;
       hc_IntervalSeconds := or_default (hc_IntervalSeconds hc) 5;
       hc_TimeoutSeconds := or_default (hc_TimeoutSeconds hc) 3 |}
  else hc.

(** ** Docker settings *)

Definition pick (override base : string) : string := if override <>s EmptyString then override else base.
Definition pick_list {A} (override base : list A) : list A :=
  if (0 <? length override)%nat then override else base.

(** The override of the node; [Ulimits] entries are written one by one. *)
Definition mergeDockerSpec (inp : ResolveInput) : DockerSpecInfo :=
  let d := ri_Docker (in_BackendRuntime inp) in
  match in_NodeRuntimeOverride inp with
  | Some no =>
      match no_DockerOverride no with
      | Some o =>
          {| ds_Privileged := if ds_Privileged o then true else ds_Privileged d;
             ds_IPCMode := pick (ds_IPCMode o) (ds_IPCMode d);
             ds_UTSMode := pick (ds_UTSMode o) (ds_UTSMode d);
             ds_NetworkMode := pick (ds_NetworkMode o) (ds_NetworkMode d);
             ds_ShmSize := pick (ds_ShmSize o) (ds_ShmSize d);
             ds_GPUVisibleEnvKey := pick (ds_GPUVisibleEnvKey o) (ds_GPUVisibleEnvKey d);
             ds_Ulimits := ds_Ulimits o ∪ ds_Ulimits d;
             ds_SecurityOptions := pick_list (ds_SecurityOptions o) (ds_SecurityOptions d);
             ds_CapAdd := pick_list (ds_CapAdd o) (ds_CapAdd d);
             ds_CapDrop := pick_list (ds_CapDrop o) (ds_CapDrop d);
             ds_Devices := pick_list (ds_Devices o) (ds_Devices d);
             ds_GroupAdd := pick_list (ds_GroupAdd o) (ds_GroupAdd d);
             ds_GpuDriver := ds_GpuDriver d;
             ds_GpuCapabilities := ds_GpuCapabilities d |}
      | None => d
      end
  | None => d
  end.

(** ** The variable map *)

Definition set2 (upper lower v : string) (vars : gmap string string) : gmap string string :=
  <[lower := v]> (<[upper := v]> vars).

(** The default of the first matching definition that has one. *)
Fixpoint default_of (name : string) (defs : list ParameterDef) : any :=
  match defs with
  | [] => ANil
  | d :: rest =>
      let n := pd_Name d in
      let cliName := "--" +s+ ReplaceAll name "_"%char "-"%char in
      if ((n =s name) || (n =s cliName) || (normalize_flag n =s name)) && negb (is_nil (pd_Default d))
      then pd_Default d
      else default_of name rest
  end.

Definition getParam (inp : ResolveInput) (name : string) : any :=
  match di_Parameters (in_Deployment inp) !! name with
  | Some v => v
  | None => default_of name (vi_ParameterDefs (in_BackendVersion inp))
  end.

Definition set_param (inp : ResolveInput) (upper lower : string) (vars : gmap string string) : gmap string string :=
  let v := getParam inp lower in
  if is_nil v then vars else set2 upper lower (fmt_v v) vars.

Definition model_container_path (inp : ResolveInput) : string :=
  let modelBase := modelRelativePath (in_Artifact inp) in
  let containerMount := mount_dir (in_BackendRuntime inp) in
  if (modelBase =s EmptyString) || (modelBase =s ".") || Contains modelBase ".." || HasPrefix modelBase "/"
  then containerMount else join_path containerMount modelBase.

Definition model_container_file (inp : ResolveInput) : string :=
  let modelBase := modelRelativePath (in_Artifact inp) in
  let artifactBase := filepathBase (ai_Path (in_Artifact inp)) in
  if negb (HasSuffix modelBase ".gguf") && HasSuffix artifactBase ".gguf"
  then join_path (mount_dir (in_BackendRuntime inp)) modelBase +s+ "/" +s+ artifactBase
  else model_container_path inp.

Definition model_host_path (a : ArtifactInfo) : string :=
  if (ai_ModelRoot a <>s EmptyString) && (ai_RelativePath a <>s EmptyString)
  then join_path (ai_ModelRoot a) (ai_RelativePath a) else ai_Path a.

(** The served name: the parameter when it is not blank, else the artifact's
    name, else (for a blank name) the last component of its path. *)
Definition set_served_name (inp : ResolveInput) (vars : gmap string string) : gmap string string :=
  let a := in_Artifact inp in
  let v := getParam inp "served_model_name" in
  let vars := set2 "SERVED_MODEL_NAME" "served_model_name" "" vars in
  let vars := if is_nil v then vars
              else if TrimSpace (fmt_v v) <>s EmptyString
                   then set2 "SERVED_MODEL_NAME" "served_model_name" (fmt_v v) vars else vars in
  if (default "" (vars !! "SERVED_MODEL_NAME") =s EmptyString) && (ai_Name a <>s EmptyString) then
    let sn := TrimSpace (ai_Name a) in
    let sn := if (sn =s EmptyString) && (ai_Path a <>s EmptyString) then TrimSpace (filepathBase (ai_Path a)) else sn in
    if sn <>s EmptyString then set2 "SERVED_MODEL_NAME" "served_model_name" sn vars else vars
  else vars.

Definition buildVarMap (inp : ResolveInput) : gmap string string :=
  let a := in_Artifact inp in
  let svc := di_Service (in_Deployment inp) in
  let containerPort := effectiveContainerPort inp in
  let appPort := effectiveAppPort inp containerPort in
  let port := Itoa containerPort in
  let vars := ∅ in
  let vars := set2 "MODEL_CONTAINER_PATH" "model_container_path" (model_container_path inp) vars in
  let vars := set2 "MODEL_CONTAINER_FILE" "model_container_file" (model_container_file inp) vars in
  let vars := set2 "MODEL_HOST_PATH" "model_host_path" (model_host_path a) vars in
  let vars := set2 "MODEL_PARENT_HOST_PATH" "model_parent_host_path" (modelHostRoot a) vars in
  let vars := set2 "CONTAINER_PORT" "container_port" port vars in
  let vars := set2 "APP_PORT" "app_port" (Itoa appPort) vars in
  let vars := set2 "HOST_PORT" "host_port"
                (if (0 <? sv_HostPort svc)%Z then Itoa (sv_HostPort svc) else port) vars in
  let vars := set_served_name inp vars in
  let vars := set_param inp "MAX_MODEL_LEN" "max_model_len" vars in
  let vars := set_param inp "GPU_MEMORY_UTILIZATION" "gpu_memory_utilization" vars in
  let vars := set_param inp "TENSOR_PARALLEL_SIZE" "tensor_parallel_size" vars in
  let gpuIDs := map (fun g => Itoa (gi_Index g)) (in_AssignedGPUs inp) in
  let vars := set2 "ASSIGNED_GPU_INDEXES" "assigned_gpu_indexes" (Join gpuIDs ",") vars in
  let vars := set2 "VENDOR_VISIBLE_DEVICES" "vendor_visible_devices" (Join gpuIDs ",") vars in
  let vars := set2 "ASSIGNED_GPU_COUNT" "assigned_gpu_count" (Itoa (Z.of_nat (length gpuIDs))) vars in
  let vars := set2 "DEPLOYMENT_NAME" "deployment_name" (di_Name (in_Deployment inp)) vars in
  let vars := set2 "INSTANCE_ID" "instance_id" (in_InstanceID inp) vars in
  let vars := set2 "NODE_ID" "node_id" (ni_ID (in_Node inp)) vars in
  set2 "NODE_IP" "node_ip" (ni_IP (in_Node inp)) vars.

(** ** Resolve *)

Definition resolve_entrypoint (inp : ResolveInput) : list string :=
  let entrypoint := pick_list (ri_EntrypointOverride (in_BackendRuntime inp)) (vi_DefaultEntrypoint (in_BackendVersion inp)) in
  match in_ProcessStartConfig inp with
  | Some psc =>
      if psc_EntrypointMode psc =s "image_default" then []
      else if psc_EntrypointMode psc =s "custom" then pick_list (psc_Entrypoint psc) entrypoint
      else entrypoint
  | None => entrypoint
  end.

Definition prepend_command (inp : ResolveInput) (args : list string) : list string :=
  match in_ProcessStartConfig inp with
  | Some psc => psc_CommandPrefix psc ++ args
  | None => args
  end.

(** The device binding's effect on the environment. *)
Definition bind_env (b : DeviceBinding) (env : gmap string string) : gmap string string :=
  let env := if db_Enabled b && (db_VisibleEnvKey b <>s EmptyString) && (db_VisibleEnvValue b <>s EmptyString)
             then <[db_VisibleEnvKey b := db_VisibleEnvValue b]> env else env in
  if negb (db_Enabled b) && (db_VisibleEnvKey b <>s EmptyString) then delete (db_VisibleEnvKey b) env else env.

Definition minInt (a b : Z) : Z := if (a <? b)%Z then a else b.

Definition container_name (instanceID : string) : string :=
  "lightai-" +s+ str_take (Z.to_nat (minInt 12 (str_len instanceID))) instanceID.

(** The plan literal, given what the fallible steps produced and the hashes. *)
Definition plan_of (inp : ResolveInput) (image : string) (mounts : list MountMapping)
    (args : list string) (env : gmap string string) (inputHash planHash : string) : ResolvedRunPlan :=
  let docker := mergeDockerSpec inp in
  let b := buildDeviceBinding inp in
  let cp := effectiveContainerPort inp in
  {| rp_Image := image; rp_ContainerName := container_name (in_InstanceID inp);
     rp_Entrypoint := resolve_entrypoint inp; rp_Args := args; rp_Env := env;
     rp_Privileged := ds_Privileged docker; rp_IPCMode := ds_IPCMode docker; rp_UTSMode := ds_UTSMode docker;
     rp_NetworkMode := ds_NetworkMode docker; rp_ShmSize := ds_ShmSize docker; rp_Ulimits := ds_Ulimits docker;
     rp_CapAdd := ds_CapAdd docker; rp_CapDrop := ds_CapDrop docker;
     rp_Devices := ds_Devices docker ++ db_FinalDeviceMounts b;
     rp_Mounts := mounts; rp_GroupAdd := ds_GroupAdd docker;
     rp_HostPort := effectiveHostPort inp cp; rp_ContainerPort := cp;
     rp_DeviceBinding := Some b; rp_GPUDeviceIDs := db_GPUDeviceIDs b; rp_GPUVisibleEnvKey := db_VisibleEnvKey b;
     rp_GpuDriver := ds_GpuDriver docker; rp_GpuCapabilities := ds_GpuCapabilities docker;
     rp_SecurityOptions := ds_SecurityOptions docker; rp_ExtraArgs := [];
     rp_HealthCheck := buildHealthCheck inp;
     rp_InputHash := inputHash; rp_PlanHash := planHash;
     rp_BackendName := bi_Name (in_Backend inp); rp_BackendVersion := vi_Version (in_BackendVersion inp);
     rp_ModelName := ai_Name (in_Artifact inp); rp_ModelPath := ai_Path (in_Artifact inp);
     rp_ServedModelName := default "" (buildVarMap inp !! "SERVED_MODEL_NAME");
     rp_DeploymentID := di_ID (in_Deployment inp); rp_InstanceID := in_InstanceID inp |}.

Section Resolve.
Context `{MR : MapRange}.
Variable computeInputHash : ResolveInput -> string.
Variable computePlanHash : ResolvedRunPlan -> string.

(** The plan (absent after the three early returns), the errors, the warnings. *)
Definition Resolve (inp : ResolveInput) : option ResolvedRunPlan * list ResolveError * list ResolveWarning :=
  let launcherKind := ResolveLauncherKind (Some (in_BackendRuntime inp)) in
  if launcherKind <>s "docker" then (None, [UnsupportedLauncherKind launcherKind], [])
  else
    let vars := buildVarMap inp in
    let image := resolveImage inp in
    if image =s EmptyString then (None, [NoImageAvailable (ri_Vendor (in_BackendRuntime inp))], [])
    else
      let '(args, argErrs) := buildArgs inp vars in
      let args := prepend_command inp args in
      let '(env, envWarns) := buildEnv inp vars in
      match buildMounts inp with
      | inr e => (None, argErrs ++ [e], envWarns)
      | inl mounts =>
          let env := bind_env (buildDeviceBinding inp) env in
          let inputHash := computeInputHash inp in
          let planHash := computePlanHash (plan_of inp image mounts args env inputHash "") in
          (Some (plan_of inp image mounts args env inputHash planHash), argErrs, envWarns)
      end.
End Resolve.

(** ** Properties of the variable map *)

Lemma set2_lookup u l v vars k :
  set2 u l v vars !! k = if (k =s l) || (k =s u) then Some v else vars !! k.
Proof.
  unfold set2. destruct (String.eqb_spec k l) as [->|Hl]; cbn [orb]; [by rewrite lookup_insert_eq|].
  rewrite lookup_insert_ne by done. destruct (String.eqb_spec k u) as [->|Hu]; [by rewrite lookup_insert_eq|].
  by rewrite lookup_insert_ne.
Qed.

(** The two spellings of each variable. *)
Definition var_pairs : list (string * string) :=
  [("MODEL_CONTAINER_PATH", "model_container_path"); ("MODEL_CONTAINER_FILE", "model_container_file");
   ("MODEL_HOST_PATH", "model_host_path"); ("MODEL_PARENT_HOST_PATH", "model_parent_host_path");
   ("CONTAINER_PORT", "container_port"); ("APP_PORT", "app_port"); ("HOST_PORT", "host_port");
   ("SERVED_MODEL_NAME", "served_model_name"); ("MAX_MODEL_LEN", "max_model_len");
   ("GPU_MEMORY_UTILIZATION", "gpu_memory_utilization"); ("TENSOR_PARALLEL_SIZE", "tensor_parallel_size");
   ("ASSIGNED_GPU_INDEXES", "assigned_gpu_indexes"); ("VENDOR_VISIBLE_DEVICES", "vendor_visible_devices");
   ("ASSIGNED_GPU_COUNT", "assigned_gpu_count"); ("DEPLOYMENT_NAME", "deployment_name");
   ("INSTANCE_ID", "instance_id"); ("NODE_ID", "node_id"); ("NODE_IP", "node_ip")].

Definition twins (vars : gmap string string) : Prop :=
  Forall (fun p => vars !! p.1 = vars !! p.2) var_pairs.

(** A pair of names meets a listed pair in both or in none of its names. *)
Definition aligned (u l : string) : bool :=
  forallb (fun p => Bool.eqb ((p.1 =s l) || (p.1 =s u)) ((p.2 =s l) || (p.2 =s u))) var_pairs.

Lemma twins_set2 u l v vars : aligned u l = true -> twins vars -> twins (set2 u l v vars).
Proof.
  unfold twins, aligned. rewrite forallb_forall, !Forall_forall. intros Ha Ht p Hp.
  rewrite !set2_lookup. pose proof (Ha p (proj1 (list_elem_of_In _ _) Hp)) as He.
  apply Bool.eqb_prop in He. rewrite He. case_match; [done|]. exact (Ht p Hp).
Qed.

Lemma twins_set_param inp u l vars : aligned u l = true -> twins vars -> twins (set_param inp u l vars).
Proof. intros. unfold set_param. destruct (is_nil _); [done|]. by apply twins_set2. Qed.

Lemma twins_if (b : bool) v1 v2 : twins v1 -> twins v2 -> twins (if b then v1 else v2).
Proof. by destruct b. Qed.

Lemma twins_served inp vars : twins vars -> twins (set_served_name inp vars).
Proof.
  intros Ht. unfold set_served_name.
  repeat first [done | apply twins_if | apply twins_set2; [reflexivity|]].
Qed.

Lemma buildVarMap_twins inp : twins (buildVarMap inp).
Proof.
  unfold buildVarMap.
  repeat first [apply twins_set2; [reflexivity|] | apply twins_set_param; [reflexivity|] | apply twins_served].
  unfold twins. apply Forall_forall. intros p _. by rewrite !lookup_empty.
Qed.

(** Writing other names leaves a variable alone. *)
Lemma set2_other u l v vars k : k <> u -> k <> l -> set2 u l v vars !! k = vars !! k.
Proof.
  intros Hu Hl. rewrite set2_lookup. apply String.eqb_neq in Hu, Hl. by rewrite Hu, Hl.
Qed.

Lemma set_param_other inp u l vars k : k <> u -> k <> l -> set_param inp u l vars !! k = vars !! k.
Proof. intros. unfold set_param. destruct (is_nil _); [done|]. by apply set2_other. Qed.

Lemma lookup_if (b : bool) (m1 m2 : gmap string string) k v :
  m1 !! k = v -> m2 !! k = v -> (if b then m1 else m2) !! k = v.
Proof. by destruct b. Qed.

Lemma set_served_other inp vars k :
  k <> "SERVED_MODEL_NAME" -> k <> "served_model_name" -> set_served_name inp vars !! k = vars !! k.
Proof.
  intros Hu Hl. unfold set_served_name.
  repeat first [ apply lookup_if | rewrite set2_other by done | reflexivity ].
Qed.

Ltac var_lookup :=
  unfold buildVarMap; cbv zeta;
  repeat first
    [ rewrite set2_other by done | rewrite set_param_other by done | rewrite set_served_other by done ];
  rewrite set2_lookup; reflexivity.

Lemma var_model_container_path inp : buildVarMap inp !! "MODEL_CONTAINER_PATH" = Some (model_container_path inp).
Proof. var_lookup. Qed.
Lemma var_container_port inp : buildVarMap inp !! "CONTAINER_PORT" = Some (Itoa (effectiveContainerPort inp)).
Proof. var_lookup. Qed.
Lemma var_assigned_gpus inp :
  buildVarMap inp !! "ASSIGNED_GPU_INDEXES" = Some (Join (map (fun g => Itoa (gi_Index g)) (in_AssignedGPUs inp)) ",").
Proof. var_lookup. Qed.

(** ** The model path *)

(** The part after the last slash holds no slash. *)
Lemma filepathBase_no_slash p : any_byte is_slash (filepathBase p) = false.
Proof.
  unfold filepathBase, is_slash. pose proof (LastIndex_spec p slash) as H.
  destruct (Z.leb_spec 0 (LastIndex p slash)) as [Hi|Hi].
  - replace (Z.to_nat (LastIndex p slash + 1)) with (S (Z.to_nat (LastIndex p slash))) by lia.
    by destruct H.
  - by destruct H.
Qed.

Lemma HasPrefix_slash s : HasPrefix s "/" = true -> any_byte is_slash s = true.
Proof. intros [t ->]%HasPrefix_spec. done. Qed.

Lemma relative_no_leading_slash a : relative_path_ok a -> HasPrefix (modelRelativePath a) "/" = false.
Proof.
  intros (_ & _ & _ & H4). unfold modelRelativePath.
  destruct (String.eqb_spec (ai_RelativePath a) EmptyString) as [He|Hne]; cbn [negb].
  - apply not_true_is_false. intros Hs%HasPrefix_slash. by rewrite filepathBase_no_slash in Hs.
  - unfold TrimPrefix. by rewrite H4.
Qed.

Lemma model_container_path_join inp :
  relative_path_ok (in_Artifact inp) ->
  model_container_path inp = join_path (mount_dir (in_BackendRuntime inp)) (modelRelativePath (in_Artifact inp)).
Proof.
  intros Hok. pose proof (relative_no_leading_slash _ Hok) as H4. destruct Hok as (H1 & H2 & H3 & _).
  unfold model_container_path. apply String.eqb_neq in H1, H2. by rewrite H1, H2, H3, H4.
Qed.

(** Every accepted mount is where the template variable says: the mount's
    container path is the cleaned form of [MODEL_CONTAINER_PATH], and both
    spellings of every variable agree. *)
Theorem buildVarMap_names_the_mount inp ms :
  buildMounts inp = inl ms ->
  exists m path, ms = [m] /\
    buildVarMap inp !! "MODEL_CONTAINER_PATH" = Some path /\ mm_ContainerPath m = cleanPath path /\
    twins (buildVarMap inp).
Proof.
  intros (Hok & m & -> & _ & Hm)%buildMounts_inl. exists m, (model_container_path inp).
  split_and!; [done|apply var_model_container_path|by rewrite model_container_path_join|apply buildVarMap_twins].
Qed.

(** ** Properties of Resolve *)

Section ResolveFacts.
Context `{MR : MapRange}.
Variable inputHash : ResolveInput -> string.
Variable planHash : ResolvedRunPlan -> string.

(** The three conditions under which there is a plan. *)
Definition plannable (inp : ResolveInput) (ms : list MountMapping) : Prop :=
  ResolveLauncherKind (Some (in_BackendRuntime inp)) = "docker" /\
  resolveImage inp <> EmptyString /\ buildMounts inp = inl ms.

Definition resolved_env (inp : ResolveInput) : gmap string string :=
  bind_env (buildDeviceBinding inp) (buildEnv inp (buildVarMap inp)).1.

Lemma Resolve_Some inp plan errs warns :
  Resolve inputHash planHash inp = (Some plan, errs, warns) ->
  exists ms ph, plannable inp ms /\
    plan = plan_of inp (resolveImage inp) ms (prepend_command inp (buildArgs inp (buildVarMap inp)).1)
             (resolved_env inp) (inputHash inp) ph /\
    errs = (buildArgs inp (buildVarMap inp)).2 /\ warns = (buildEnv inp (buildVarMap inp)).2.
Proof.
  unfold Resolve, plannable, resolved_env. intros H.
  destruct (String.eqb_spec (ResolveLauncherKind (Some (in_BackendRuntime inp))) "docker"); cbn [negb] in H; [|done].
  destruct (String.eqb_spec (resolveImage inp) EmptyString); [done|].
  destruct (buildArgs inp _) as [args argErrs], (buildEnv inp _) as [env envWarns].
  destruct (buildMounts inp) as [ms|err]; [|done]. injection H as <- <- <-. by eexists _, _.
Qed.

Lemma Resolve_None inp errs warns :
  Resolve inputHash planHash inp = (None, errs, warns) -> errs <> [] /\ forall ms, ~ plannable inp ms.
Proof.
  unfold Resolve, plannable. intros H.
  destruct (String.eqb_spec (ResolveLauncherKind (Some (in_BackendRuntime inp))) "docker"); cbn [negb] in H;
    [|injection H as <- <-; split; [done|by intros ? []]].
  destruct (String.eqb_spec (resolveImage inp) EmptyString); [injection H as <- <-; split; [done|by intros ? (_ & ? & _)]|].
  destruct (buildArgs inp _) as [args argErrs], (buildEnv inp _) as [env envWarns].
  destruct (buildMounts inp) as [ms|err]; [done|]. injection H as <- <-.
  split; [by destruct argErrs|by intros ? (_ & _ & ?)].
Qed.

(** [Resolve] returns a plan exactly when the launcher is docker, an image is
    configured and the mount is accepted; the plan then carries that image, that
    mount, the built arguments after the command prefix and the bound
    environment, and the errors are those of the arguments.  Without a plan there
    is an error. *)
Theorem Resolve_outcome inp :
  match Resolve inputHash planHash inp with
  | (Some plan, errs, warns) =>
      exists ms, plannable inp ms /\ rp_Mounts plan = ms /\ rp_Image plan = resolveImage inp /\
        rp_Args plan = prepend_command inp (buildArgs inp (buildVarMap inp)).1 /\
        rp_Env plan = resolved_env inp /\ errs = (buildArgs inp (buildVarMap inp)).2 /\
        rp_InputHash plan = inputHash inp
  | (None, errs, warns) => errs <> [] /\ forall ms, ~ plannable inp ms
  end.
Proof.
  destruct (Resolve inputHash planHash inp) as [[[plan|] errs] warns] eqn:E.
  - apply Resolve_Some in E as (ms & ph & Hp & -> & -> & ->). by exists ms.
  - by apply Resolve_None in E.
Qed.

Lemma bind_env_lookup b env k :
  db_VisibleEnvKey b <> EmptyString ->
  bind_env b env !! k =
  if k =s db_VisibleEnvKey b then
    if db_Enabled b then (if db_VisibleEnvValue b =s EmptyString then env !! k else Some (db_VisibleEnvValue b)) else None
  else env !! k.
Proof.
  intros Hk. apply String.eqb_neq in Hk. unfold bind_env. rewrite Hk. cbn [negb]. rewrite !andb_true_r.
  destruct (String.eqb_spec k (db_VisibleEnvKey b)) as [->|Hne].
  - destruct (db_Enabled b); cbn [negb andb]; [|by rewrite lookup_delete_eq].
    destruct (db_VisibleEnvValue b =s EmptyString); cbn [negb]; [done|]. by rewrite lookup_insert_eq.
  - destruct (db_Enabled b); cbn [negb andb].
    + destruct (db_VisibleEnvValue b =s EmptyString); cbn [negb]; [done|]. by rewrite lookup_insert_ne.
    + by rewrite lookup_delete_ne.
Qed.
End ResolveFacts.

Lemma visible_key_nonempty inp : db_VisibleEnvKey (buildDeviceBinding inp) <> EmptyString.
Proof.
  unfold buildDeviceBinding. destruct (negb _); cbn; unfold config_text, defaultVisibleEnvKey;
  repeat case_match; simplify_eq; bool_facts; done.
Qed.

(** C17. Device isolation: in a resolved plan the vendor's visibility variable is
    the assigned devices and nothing else.  An inactive binding leaves the
    variable unset, an active one with a value sets exactly that value, whatever
    the environment layers say; no other variable is touched. *)
Theorem Resolve_device_isolation `{MR : MapRange} inputHash planHash inp plan errs warns :
  Resolve inputHash planHash inp = (Some plan, errs, warns) ->
  let b := buildDeviceBinding inp in
  rp_GPUDeviceIDs plan = db_GPUDeviceIDs b /\
  (db_Enabled b = false -> rp_Env plan !! db_VisibleEnvKey b = None) /\
  (db_Enabled b = true -> db_VisibleEnvValue b <> EmptyString ->
     rp_Env plan !! db_VisibleEnvKey b = Some (db_VisibleEnvValue b)) /\
  (forall k, k <> db_VisibleEnvKey b -> rp_Env plan !! k = (buildEnv inp (buildVarMap inp)).1 !! k).
Proof.
  intros (ms & ph & _ & -> & _ & _)%Resolve_Some. cbv zeta. cbn [rp_GPUDeviceIDs rp_Env plan_of].
  unfold resolved_env. pose proof (visible_key_nonempty inp) as Hk. split_and!; [done|..].
  - intros He. by rewrite bind_env_lookup, String.eqb_refl, He.
  - intros He Hv. apply String.eqb_neq in Hv. by rewrite bind_env_lookup, String.eqb_refl, He, Hv.
  - intros k Hne. rewrite bind_env_lookup by done. apply String.eqb_neq in Hne. by rewrite Hne.
Qed.

(** ** Health check *)

(** The health check comes from the runtime's override when there is one and
    from the version otherwise; with a path, every number it carries is non-zero
    (the code's defaults fill the zeros), and without one it is unchanged. *)
Theorem buildHealthCheck_defaults inp :
  let src := match ri_HealthCheckOverride (in_BackendRuntime inp) with
             | Some h => h | None => vi_HealthCheck (in_BackendVersion inp) end in
  let hc := buildHealthCheck inp in
  hc_Path hc = hi_Path src /\
  (hi_Path src = EmptyString -> hc = health_of src) /\
  (hi_Path src <> EmptyString ->
     hc_ExpectedStatus hc = or_default (hi_ExpectedStatus src) 200 /\
     hc_ExpectedStatus hc <> 0%Z /\ hc_StartupTimeoutSeconds hc <> 0%Z /\
     hc_IntervalSeconds hc <> 0%Z /\ hc_TimeoutSeconds hc <> 0%Z).
Proof.
  cbv zeta. unfold buildHealthCheck.
  replace (match ri_HealthCheckOverride (in_BackendRuntime inp) with Some h => health_of h | None => _ end)
    with (health_of (match ri_HealthCheckOverride (in_BackendRuntime inp) with
                     | Some h => h | None => vi_HealthCheck (in_BackendVersion inp) end)) by by case_match.
  set (src := match ri_HealthCheckOverride _ with Some h => h | None => _ end). cbn [hc_Path health_of].
  assert (forall z d, d <> 0%Z -> or_default z d <> 0%Z) as Hd.
  { intros z d Hne. unfold or_default. by destruct (Z.eqb_spec z 0). }
  destruct (String.eqb_spec (hi_Path src) EmptyString); cbn; split_and!; try done.
  intros _. split_and!; [done|by apply Hd..].
Qed.

(** ** Concrete inputs *)

Definition hash_stub {A} (_ : A) : string := "sha256:0".

Definition resolve_demo : ResolveInput :=
  sample_input (sample_deployment [] [] demo_service)
    (Some (sample_snapshot ["--model"; "{{MODEL_CONTAINER_PATH}}"; "--port"; "{{CONTAINER_PORT}}"]
             [arg_value "--max-model-len" (AInt 4096)] [])).

Definition demo_result := @Resolve canonical_range hash_stub hash_stub resolve_demo.

Definition demo_plan : ResolvedRunPlan :=
  match demo_result with
  | (Some p, _, _) => p
  | _ => plan_of resolve_demo "" [] [] ∅ "" ""
  end.

Example Resolve_demo :
  rp_Args demo_plan = ["--model"; "/models/qwen"; "--port"; "8000"; "--max-model-len"; "4096"; "--host"; "0.0.0.0"] /\
  rp_ContainerName demo_plan = "lightai-0123456789ab" /\
  rp_Env demo_plan !! "CUDA_VISIBLE_DEVICES" = Some "0".
Proof. split_and!; by vm_compute. Qed.

Lemma Resolve_device_isolation_witness :
  rp_Env demo_plan !! "CUDA_VISIBLE_DEVICES" = Some "0".
Proof.
  destruct (Resolve_device_isolation (MR := canonical_range) hash_stub hash_stub resolve_demo demo_plan [] [])
    as (_ & _ & Hset & _).
  - unfold demo_plan. by vm_compute.
  - etrans; [|apply Hset]; by vm_compute.
Defined.

Lemma buildVarMap_names_the_mount_witness :
  exists m path, buildVarMap (mount_input "/models" "a//b") !! "MODEL_CONTAINER_PATH" = Some path /\
    path = "/models/a//b" /\ mm_ContainerPath m = "/models/a/b" /\ mm_ContainerPath m = cleanPath path.
Proof.
  destruct (buildVarMap_names_the_mount (mount_input "/models" "a//b")
    [{| mm_HostPath := "/data/models/a//b"; mm_ContainerPath := "/models/a/b"; mm_Readonly := true |}])
    as (m & path & Hm & Hp & Hc & _).
  - by vm_compute.
  - exists m, path. split_and!; [done| |injection Hm as <-; done|done].
    assert (Some path = Some "/models/a//b") as Heq by (rewrite <- Hp; by vm_compute).
    by injection Heq.
Defined.

(** [HOST_PORT] ignores the host port of the snapshot's port binding, which the
    plan publishes. *)
Definition port_binding_input : ResolveInput :=
  let base := resolve_demo in
  {| in_Backend := in_Backend base; in_BackendVersion := in_BackendVersion base;
     in_BackendRuntime := in_BackendRuntime base; in_NodeRuntimeOverride := None; in_Artifact := in_Artifact base;
     in_Deployment := in_Deployment base; in_InstanceID := in_InstanceID base; in_Node := in_Node base;
     in_AssignedGPUs := in_AssignedGPUs base; in_ProcessStartConfig := None;
     in_NBRConfigSnapshot := Some {| nbr_ArgsOverride := []; nbr_DefaultEnv := ∅; nbr_EntrypointOverride := [];
       nbr_Docker := no_docker; nbr_ModelMount := {| mmi_ContainerPath := "/models"; mmi_Readonly := true |};
       nbr_HealthCheckOverride := None; nbr_DeviceBinding := None;
       nbr_ServicePortBinding := Some {| spb_ListenHost := ""; spb_ContainerPort := 9000; spb_HostPort := 9001;
         spb_Protocol := "http"; spb_ServedModelName := "" |};
       nbr_ParameterSchema := []; nbr_ParameterValues := [] |} |}.

Example HOST_PORT_ignores_binding :
  buildVarMap port_binding_input !! "HOST_PORT" = Some "8001" /\
  effectiveHostPort port_binding_input (effectiveContainerPort port_binding_input) = 9001%Z.
Proof. split; by vm_compute. Qed.
