(* ===== verification/SourceMap.v ===== *)
(** * Where the values of a plan come from (internal/server/runplan: source_map.go, resolve_with_sourcemap.go)

    The resolved plan's source map: entries for the image, arguments, environment,
    mounts, ports, devices, docker options and health check, each enriched with its
    layer, kind, patch target and effect. *)
From S2P Require Import Prelude GoStrings GoValue RunPlanTypes ResolverArgs Resolver.

(** The values an entry may hold. *)
Inductive source_value :=
| VNone
| VAny (v : any)
| VDevice (d : DeviceMapping)
| VMount (m : MountMapping)
| VBinding (b : DeviceBinding).

Record SourceChainEntry := { sce_Layer : string; sce_Value : source_value; sce_Reason : string }.

Record ParameterSourceEntry := {
  se_Key : string; se_Target : string; se_Path : list string; se_Arg : string; se_Value : source_value;
  se_FinalValue : source_value; se_RawValue : source_value; se_EffectiveSource : string; se_SourceLayer : string;
  se_SourceKind : string; se_Derived : bool; se_UserEditable : bool; se_ReadonlyReason : string; se_PatchTarget : string;
  se_DockerEffect : string; se_Severity : string; se_Blocking : bool; se_Reason : string; se_ConfigSetKey : string;
  se_LastValueLayer : string; se_SourceChain : list SourceChainEntry
}.

Record ParameterSourceMap := {
  sm_Image : list ParameterSourceEntry; sm_Args : list ParameterSourceEntry; sm_Env : list ParameterSourceEntry;
  sm_Mounts : list ParameterSourceEntry; sm_Ports : list ParameterSourceEntry; sm_Devices : list ParameterSourceEntry;
  sm_DockerOptions : list ParameterSourceEntry; sm_HealthCheck : list ParameterSourceEntry;
  sm_ResourceControls : list ParameterSourceEntry; sm_SystemGenerated : list ParameterSourceEntry
}.

(** ** Enrichment *)

Definition sourceEntryPath (key target : string) : list string := if key =s EmptyString then [target] else [target; key].

Definition sourceLayerFor (source fallback : string) : string :=
  if fallback <>s EmptyString then fallback
  else if source =s "backend_version" then "BackendVersion"
  else if source =s "backend_runtime" then "BackendRuntime"
  else if source =s "node_backend_runtime" then "NodeBackendRuntime"
  else if (source =s "deployment_override") || (source =s "deployment_service") then "ModelDeployment"
  else if source =s "model_location" then "ModelLocation"
  else if (source =s "system_generated") || (source =s "derived") || (source =s "node_inventory") then "RunPlanResolver"
  else if source =s "configedit_effect" then "DeploymentConfigEdit"
  else source.

Definition sourceKindFor (source : string) : string :=
  if source =s "deployment_override" then "user_override"
  else if source =s "deployment_service" then "deployment_selection"
  else if (source =s "backend_runtime") || (source =s "node_backend_runtime") then "inherited"
  else if source =s "backend_version" then "system_default"
  else if source =s "model_location" then "deployment_selection"
  else if source =s "configedit_effect" then "configedit_component_effect"
  else source.

Definition sourcePatchTarget (source configSetKey : string) : string :=
  if source =s "deployment_override" then "deployment.config_overrides"
  else if source =s "deployment_service" then "deployment.service_json"
  else if source =s "node_backend_runtime" then "node_backend_runtime.config_snapshot_json"
  else if source =s "backend_runtime" then "backend_runtime.config_set_json"
  else if source =s "model_location" then "model_location"
  else if (source =s "system_generated") || (source =s "derived") || (source =s "node_inventory") then "deployment.placement_json"
  else if source =s "configedit_effect" then "runtime.device_binding"
  else configSetKey.

Definition docker_option_effect (key : string) : string :=
  if key =s "docker.shm_size" then "--shm-size"
  else if key =s "docker.ipc_mode" then "--ipc"
  else if key =s "docker.network_mode" then "--network"
  else if key =s "docker.privileged" then "--privileged"
  else if (key =s "docker.gpus") || (key =s "runtime.device_binding") then "--gpus"
  else "docker option".

Definition sourceDockerEffect (target key arg : string) : string :=
  if target =s "image" then "docker image"
  else if target =s "args" then (if arg <>s EmptyString then arg else "container command")
  else if target =s "env" then "-e " +s+ key
  else if target =s "mounts" then "-v"
  else if target =s "ports" then "-p"
  else if target =s "devices" then "--device"
  else if target =s "docker_options" then docker_option_effect key
  else if target =s "health_check" then "container health check"
  else if target =s "system_generated" then
    (if (key =s "docker.gpus") || (key =s "gpu_device_ids") then "--gpus"
     else if (key =s "gpu_visible_env") || (key =s "gpu_visible_env_key") then "-e" else "system generated")
  else EmptyString.

Definition default_reason (source : string) : string :=
  if source =s "deployment_override" then "deployment override"
  else if source =s "deployment_service" then "deployment service setting"
  else if source =s "node_backend_runtime" then "node runtime configuration snapshot"
  else if source =s "backend_runtime" then "runtime template snapshot"
  else if source =s "backend_version" then "backend version default"
  else if source =s "model_location" then "resolved model location"
  else if (source =s "system_generated") || (source =s "derived") then "derived by runplan resolver"
  else if source =s "configedit_effect" then "compiled from ConfigEdit component effect"
  else source.

Definition sourceReason (chain : list SourceChainEntry) (source : string) : string :=
  match last chain with
  | Some c => if sce_Reason c <>s EmptyString then sce_Reason c else default_reason source
  | None => default_reason source
  end.

Definition or_else (s d : string) : string := if s =s EmptyString then d else s.

Definition derived_source (source : string) : bool :=
  (source =s "system_generated") || (source =s "derived") || (source =s "model_location").

Definition editable_source (source : string) : bool :=
  (source =s "deployment_override") || (source =s "deployment_service") || (source =s "node_backend_runtime")
  || (source =s "backend_runtime") || (source =s "configedit_effect").

Definition enrichSourceEntry (e : ParameterSourceEntry) : ParameterSourceEntry :=
  let source := se_EffectiveSource e in
  {| se_Key := se_Key e; se_Target := se_Target e;
     se_Path := match se_Path e with [] => sourceEntryPath (se_Key e) (se_Target e) | p => p end;
     se_Arg := se_Arg e; se_Value := se_Value e; se_FinalValue := se_FinalValue e; se_RawValue := se_RawValue e;
     se_EffectiveSource := source;
     se_SourceLayer := or_else (se_SourceLayer e) (sourceLayerFor source (se_LastValueLayer e));
     se_SourceKind := or_else (se_SourceKind e) (sourceKindFor source);
     se_Derived := derived_source source || se_Derived e;
     se_UserEditable := editable_source source || se_UserEditable e;
     se_ReadonlyReason :=
       if negb (se_UserEditable e) && (se_ReadonlyReason e =s EmptyString) && derived_source source
       then "derived from deployment selection or node inventory" else se_ReadonlyReason e;
     se_PatchTarget := or_else (se_PatchTarget e) (sourcePatchTarget source (se_ConfigSetKey e));
     se_DockerEffect := or_else (se_DockerEffect e) (sourceDockerEffect (se_Target e) (se_Key e) (se_Arg e));
     se_Severity := or_else (se_Severity e) "info"; se_Blocking := se_Blocking e;
     se_Reason := or_else (se_Reason e) (sourceReason (se_SourceChain e) source);
     se_ConfigSetKey := se_ConfigSetKey e; se_LastValueLayer := se_LastValueLayer e; se_SourceChain := se_SourceChain e |}.

(** The entry the builder's [Add] methods make: they differ in the target and in
    the flag, which only arguments have. *)
Definition entry (target key flag : string) (value : source_value) (source configSetKey layer : string)
    (chain : list SourceChainEntry) : ParameterSourceEntry :=
  enrichSourceEntry
    {| se_Key := key; se_Target := target; se_Path := []; se_Arg := flag; se_Value := value; se_FinalValue := value;
       se_RawValue := VNone; se_EffectiveSource := source; se_SourceLayer := EmptyString; se_SourceKind := EmptyString;
       se_Derived := false; se_UserEditable := false; se_ReadonlyReason := EmptyString; se_PatchTarget := EmptyString;
       se_DockerEffect := EmptyString; se_Severity := EmptyString; se_Blocking := false; se_Reason := EmptyString;
       se_ConfigSetKey := configSetKey; se_LastValueLayer := layer; se_SourceChain := chain |}.

Definition step_of (layer : string) (value : source_value) (reason : string) : list SourceChainEntry :=
  [{| sce_Layer := layer; sce_Value := value; sce_Reason := reason |}].

(** ** The map of a plan *)

Definition text (s : string) : source_value := VAny (AStr s).

Definition nbr_arg_entry (pv : ParameterValue) : list ParameterSourceEntry :=
  if pv_Enabled pv
  then [entry "args" (pv_Key pv) (pv_CliName pv) (VAny (pv_Value pv)) (or_else (pv_Source pv) "node_backend_runtime")
          (pv_Key pv) "NodeBackendRuntime"
          (step_of "NodeBackendRuntimeConfigBundle" (VAny (pv_Value pv)) "nbr parameter value")]
  else [].

Definition deployment_arg_entry (pv : ParameterValue) : list ParameterSourceEntry :=
  if pv_Enabled pv
  then [entry "args" (pv_Key pv) (pv_CliName pv) (VAny (pv_Value pv)) "deployment_override" (pv_Key pv) "Deployment"
          (step_of "DeploymentConfigBundle" (VAny (pv_Value pv)) "deployment override")]
  else [].

Definition arg_entries (inp : ResolveInput) (plan : ResolvedRunPlan) : list ParameterSourceEntry :=
  match in_NBRConfigSnapshot inp with
  | Some snap => concat (map nbr_arg_entry (nbr_ParameterValues snap))
  | None => []
  end
  ++ concat (map deployment_arg_entry (di_ParameterValues (in_Deployment inp)))
  ++ match rp_Args plan with
     | [] => []
     | args => [entry "args" "launcher.command" EmptyString (VAny (AStrs args)) "node_backend_runtime" "launcher.command"
                  "NodeBackendRuntime" (step_of "NodeBackendRuntime" (VAny (AStrs args)) "final container command arguments")]
     end.

Definition env_entry (plan : ResolvedRunPlan) (kv : string * string) : ParameterSourceEntry :=
  let bound := match rp_DeviceBinding plan with
               | Some b => (kv.1 =s db_VisibleEnvKey b) && (kv.2 =s db_VisibleEnvValue b)
               | None => false
               end in
  let layer := if bound then "DeploymentConfigEdit" else "NodeBackendRuntime" in
  entry "env" kv.1 EmptyString (text kv.2) (if bound then "configedit_effect" else "node_backend_runtime") "runtime.env" layer
    (step_of layer (text kv.2) "resolved environment variable").

Definition docker_entry (key configSetKey : string) (value : source_value) : ParameterSourceEntry :=
  entry "docker_options" key EmptyString value "node_backend_runtime" configSetKey "NodeBackendRuntime" [].

Definition docker_text (key configSetKey value : string) : list ParameterSourceEntry :=
  if value <>s EmptyString then [docker_entry key configSetKey (text value)] else [].

Definition binding_entry (target key : string) (value : source_value) (chain : list SourceChainEntry) : ParameterSourceEntry :=
  entry target key EmptyString value "configedit_effect" "runtime.device_binding" "DeploymentConfigEdit" chain.

Definition health_entry (field : string) (value : any) : ParameterSourceEntry :=
  entry "health_check" ("health_check." +s+ field) EmptyString (VAny value) "node_backend_runtime" ("runtime.health." +s+ field)
    "NodeBackendRuntime" [].

Definition health_entries (hc : HealthCheck) : list ParameterSourceEntry :=
  if hc_Path hc =s EmptyString then []
  else [health_entry "path" (AStr (hc_Path hc)); health_entry "expected_status" (AInt (hc_ExpectedStatus hc));
        health_entry "startup_timeout_seconds" (AInt (hc_StartupTimeoutSeconds hc));
        health_entry "interval_seconds" (AInt (hc_IntervalSeconds hc)); health_entry "timeout_seconds" (AInt (hc_TimeoutSeconds hc))].

Definition mount_entry (m : MountMapping) : ParameterSourceEntry :=
  entry "mounts" "runtime.model_mount" EmptyString (VMount m) "model_location" "runtime.model_mount" "ModelLocation"
    (step_of "ModelLocation" (VMount m) "model host path mounted into container").

Definition device_entry (d : DeviceMapping) : ParameterSourceEntry :=
  entry "devices" (dm_HostPath d) EmptyString (VDevice d) "node_backend_runtime" "launcher.devices" "NodeBackendRuntime" [].

Definition port_entry (key : string) (port : Z) : ParameterSourceEntry :=
  entry "ports" key EmptyString (VAny (AInt port)) "deployment_service" key "Deployment" [].

Section SourceMap.
Context `{MR : MapRange}.

Definition plan_docker_entries (plan : ResolvedRunPlan) : list ParameterSourceEntry :=
  docker_text "docker.shm_size" "launcher.docker_options.shm_size" (rp_ShmSize plan)
  ++ docker_text "docker.ipc_mode" "launcher.docker_options.ipc_mode" (rp_IPCMode plan)
  ++ docker_text "docker.network_mode" "launcher.docker_options.network_mode" (rp_NetworkMode plan)
  ++ (if rp_Privileged plan
      then [docker_entry "docker.privileged" "launcher.docker_options.privileged" (VAny (ABool true))] else [])
  ++ map (fun s => docker_entry "docker.security_options" "launcher.docker_options.security_options" (text s)) (rp_SecurityOptions plan)
  ++ map (fun kv => docker_entry ("docker.ulimits." +s+ kv.1) "launcher.docker_options.ulimits" (text kv.2)) (range (rp_Ulimits plan))
  ++ map (fun g => docker_entry "docker.group_add" "launcher.docker_options.group_add" (text g)) (rp_GroupAdd plan)
  ++ map (fun c => docker_entry "docker.cap_add" "launcher.docker_options.cap_add" (text c)) (rp_CapAdd plan)
  ++ map (fun c => docker_entry "docker.cap_drop" "launcher.docker_options.cap_drop" (text c)) (rp_CapDrop plan).

(** The entries of the device binding: docker options, devices, environment. *)
Definition binding_entries (plan : ResolvedRunPlan) :
    list ParameterSourceEntry * list ParameterSourceEntry * list ParameterSourceEntry :=
  match rp_DeviceBinding plan with
  | None => ([], [], [])
  | Some b =>
      ([binding_entry "docker_options" "runtime.device_binding" (VBinding b)
          (step_of "DeploymentConfigEdit" (VBinding b) "device binding component effect")]
       ++ (if db_DockerGPUOption b <>s EmptyString
           then [binding_entry "docker_options" "docker.gpus" (text (db_DockerGPUOption b)) []] else [])
       ++ (if rp_GpuDriver plan <>s EmptyString
           then [binding_entry "docker_options" "gpu_driver" (text (rp_GpuDriver plan)) []] else []),
       match rp_GPUDeviceIDs plan with
       | [] => []
       | ids => [binding_entry "devices" "runtime.device_binding.accelerator_ids" (VAny (AStrs ids)) []]
       end,
       if (rp_GPUVisibleEnvKey plan <>s EmptyString) && (db_VisibleEnvValue b <>s EmptyString)
       then [binding_entry "env" (rp_GPUVisibleEnvKey plan) (text (db_VisibleEnvValue b)) []] else [])
  end.

Definition buildSourceMap (inp : ResolveInput) (plan : ResolvedRunPlan) : ParameterSourceMap :=
  let '(bound_options, bound_devices, bound_env) := binding_entries plan in
  {| sm_Image := [entry "image" "launcher.image" EmptyString (text (rp_Image plan)) "node_backend_runtime" "launcher.image"
                    "NodeBackendRuntime" (step_of "NodeBackendRuntime" (text (rp_Image plan)) "resolved runtime image")];
     sm_Args := arg_entries inp plan;
     sm_Env := map (env_entry plan) (range (rp_Env plan)) ++ bound_env;
     sm_Mounts := map mount_entry (rp_Mounts plan);
     sm_Ports := [port_entry "service.container_port" (rp_ContainerPort plan); port_entry "deployment.host_port" (rp_HostPort plan)];
     sm_Devices := map device_entry (rp_Devices plan) ++ bound_devices;
     sm_DockerOptions := plan_docker_entries plan ++ bound_options;
     sm_HealthCheck := health_entries (rp_HealthCheck plan);
     sm_ResourceControls := []; sm_SystemGenerated := [] |}.

Context (input_hash : ResolveInput -> string) (plan_hash : ResolvedRunPlan -> string).

Definition ResolveWithSourceMap (inp : ResolveInput) :
    option (ResolvedRunPlan * ParameterSourceMap) * list ResolveError * list ResolveWarning :=
  let '(plan, errs, warns) := Resolve input_hash plan_hash inp in
  ((fun p => (p, buildSourceMap inp p)) <$> plan, errs, warns).
End SourceMap.

(** ** Properties *)

Definition all_entries (m : ParameterSourceMap) : list ParameterSourceEntry :=
  sm_Image m ++ sm_Args m ++ sm_Env m ++ sm_Mounts m ++ sm_Ports m ++ sm_Devices m ++ sm_DockerOptions m ++ sm_HealthCheck m
  ++ sm_ResourceControls m ++ sm_SystemGenerated m.

(** What a reader of the map relies on. *)
Definition entry_consistent (e : ParameterSourceEntry) : Prop :=
  (exists p, se_Path e = se_Target e :: p) /\ se_FinalValue e = se_Value e /\ se_Severity e = "info" /\
  negb (se_Derived e && se_UserEditable e) = true /\ (se_Derived e = true -> se_ReadonlyReason e <> "") /\
  se_Derived e = derived_source (se_EffectiveSource e) /\ se_UserEditable e = editable_source (se_EffectiveSource e).

Lemma derived_not_editable source : derived_source source = true -> editable_source source = false.
Proof.
  unfold derived_source. rewrite !orb_true_iff, !String.eqb_eq. by intros [[-> | ->] | ->].
Qed.

Lemma entry_ok target key flag value source csk layer chain :
  entry_consistent (entry target key flag value source csk layer chain).
Proof.
  unfold entry, enrichSourceEntry, entry_consistent. cbn. rewrite !orb_false_r. split_and!; try done.
  - unfold sourceEntryPath. by destruct (key =s ""); eexists.
  - destruct (derived_source source) eqn:E; [|done]. by rewrite derived_not_editable.
  - by intros ->.
Qed.
#[export] Hint Resolve entry_ok : go.

Lemma Forall_map_all {A B} (P : B -> Prop) (g : A -> B) l : (forall x, P (g x)) -> Forall P (map g l).
Proof. intros H. induction l; constructor; auto. Qed.

Lemma Forall_concat_all {A B} (P : B -> Prop) (g : A -> list B) l : (forall x, Forall P (g x)) -> Forall P (concat (map g l)).
Proof. intros H. induction l; cbn; [done|]. by apply Forall_app. Qed.

(** Lists of entries built by literals, conditions, appends and maps. *)
Ltac entries :=
  repeat match goal with
  | |- Forall _ (_ ++ _) => apply Forall_app; split
  | |- Forall _ (map _ _) => apply Forall_map_all; intros; apply entry_ok
  | |- Forall _ (concat (map _ _)) => apply Forall_concat_all; intros
  | |- Forall _ (if ?b then _ else _) => destruct b
  | |- Forall _ (match ?x with _ => _ end) => destruct x
  | |- Forall _ [] => constructor
  | |- Forall _ (_ :: _) => constructor; [apply entry_ok|]
  end.

Section SourceMapFacts.
Context `{MR : MapRange}.

(** Every entry of a source map is consistent: its path starts with its target, its
    final value is its value, and what is derived is not editable and says why. *)
Theorem source_map_consistent inp plan : Forall entry_consistent (all_entries (buildSourceMap inp plan)).
Proof.
  unfold all_entries, buildSourceMap. destruct (binding_entries plan) as [[bo bd] be] eqn:E.
  assert (Forall entry_consistent bo /\ Forall entry_consistent bd /\ Forall entry_consistent be) as (Ho & Hd & He).
  { unfold binding_entries in E. destruct (rp_DeviceBinding plan); injection E as <- <- <-; split_and!; entries. }
  cbn [sm_Image sm_Args sm_Env sm_Mounts sm_Ports sm_Devices sm_DockerOptions sm_HealthCheck sm_ResourceControls sm_SystemGenerated].
  unfold arg_entries, plan_docker_entries, docker_text, health_entries, nbr_arg_entry, deployment_arg_entry. entries; done.
Qed.

(** Every variable of a plan's environment has its entry with its final text, and
    mounts, devices and the command have theirs, whatever the order of the maps. *)
Theorem source_map_complete inp plan :
  let m := buildSourceMap inp plan in
  (forall k v, rp_Env plan !! k = Some v -> exists e, e ∈ sm_Env m /\ se_Key e = k /\ se_FinalValue e = text v) /\
  (forall x, x ∈ rp_Mounts plan -> exists e, e ∈ sm_Mounts m /\ se_FinalValue e = VMount x) /\
  (forall d, d ∈ rp_Devices plan -> exists e, e ∈ sm_Devices m /\ se_FinalValue e = VDevice d) /\
  (rp_Args plan <> [] -> exists e, e ∈ sm_Args m /\ se_FinalValue e = VAny (AStrs (rp_Args plan))).
Proof.
  unfold buildSourceMap. destruct (binding_entries plan) as [[bo bd] be].
  cbn [sm_Args sm_Env sm_Mounts sm_Devices]. split_and!.
  - intros k v Hk. exists (env_entry plan (k, v)). split; [|by split].
    apply elem_of_app. left. apply list_elem_of_In, in_map, list_elem_of_In. by apply elem_of_range.
  - intros x Hx. exists (mount_entry x). split; [|done]. by apply list_elem_of_In, in_map, list_elem_of_In.
  - intros d Hd. exists (device_entry d). split; [|done]. apply elem_of_app. left. by apply list_elem_of_In, in_map, list_elem_of_In.
  - intros Ha. destruct (rp_Args plan) as [|a args] eqn:E; [done|]. eexists. unfold arg_entries. rewrite E.
    rewrite !elem_of_app. split; [right; right; apply list_elem_of_here|done].
Qed.
End SourceMapFacts.

(** The map lists a deployment value as an override although the command keeps the
    value of the snapshot. *)
Example override_listed_but_ignored :
  (buildArgs demo_input demo_vars).1 = ["--model"; "/models/qwen"; "--port"; "8000"; "--max-model-len"; "4096"; "--host"; "0.0.0.0"] /\
  map (fun e => (se_Arg e, se_FinalValue e, se_SourceKind e))
      (concat (map deployment_arg_entry (di_ParameterValues (in_Deployment demo_input)))) =
  [("--max-model-len", VAny (AInt 8192), "user_override")].
Proof. split; by vm_compute. Qed.
