(* ===== verification/Store.v ===== *)
(** * The server's tables (internal/server/db/db.go)

    The rows the life cycle of nodes, tasks, instances, leases and deployments
    reads and writes, as lists in insertion order, and the SQL statements the
    handlers issue on them: UPDATE ... WHERE is [update_where], DELETE FROM is
    [delete_where], an INSERT that a key or index refuses is [None].  Times are
    seconds; a NULL time is [None], a NULL text is the empty string (the handlers
    read it through COALESCE). *)
From S2P Require Import Prelude GoStrings GoValue.
From Stdlib Require Import Sorted.

(** ** Rows *)

Record node_facts := {
  nf_hostname : string; nf_primary_ip : string; nf_advertised : string;
  nf_os : string; nf_arch : string; nf_kernel : string; nf_version : string;
  nf_metrics_enabled : bool; nf_metrics_scheme : string; nf_metrics_port : Z; nf_metrics_path : string
}.

Record node_row := {
  n_id : string; n_agent : string; n_facts : node_facts;
  n_status : string; n_heartbeat : Z; n_tenant : string; n_updated : Z
}.

Record gpu_row := {
  g_id : string; g_node : string; g_vendor : string; g_index : Z; g_name : string; g_uuid : string; g_pci : string; g_driver : string;
  g_total : Z; g_used : Z; g_free : Z;
  g_util : option float64; g_mem_util : option float64; g_temperature : option float64; g_power : option float64;
  g_health : string; g_status : string; g_tenant : string; g_collected : option string; g_reported : string; g_created : Z; g_updated : Z
}.

Record task_row := {
  t_id : string; t_type : string; t_status : string; t_tenant : string; t_deployment : string;
  t_instance : string; t_node : string; t_agent : string; t_payload : string;
  t_result : option (gmap string any);
  t_timeout : Z; t_retry_count : Z; t_claimed_at : option Z; t_finished_at : option Z;
  t_lease_owner : string; t_lease_expires : option Z; t_operation : string;
  t_generation : Z; t_attempt : Z; t_created : Z; t_updated : Z
}.

Record instance_row := {
  i_id : string; i_deployment : string; i_tenant : string; i_node : string; i_gpus : list string;
  i_host_port : Z; i_container_port : Z; i_run_plan : string; i_actual : string; i_desired : string;
  i_container : string; i_endpoint : string; i_last_error : any;
  i_started : option Z; i_stopped : option Z; i_created : Z; i_updated : Z
}.

Record lease_row := {
  l_id : string; l_gpu : string; l_node : string; l_deployment : string; l_instance : string;
  l_tenant : string; l_status : string; l_expires : option Z; l_reserved : Z;
  l_activated : option Z; l_released : option Z; l_updated : Z
}.

Record deployment_row := { d_id : string; d_tenant : string; d_desired : string; d_status : string; d_updated : Z }.

Record run_plan_row := { r_id : string; r_deployment : string; r_instance : string; r_tenant : string; r_preview : string }.

Record group_row := { gr_id : string; gr_deployment : string; gr_status : string }.

Record audit_row := { au_tenant : string; au_action : string; au_type : string; au_id : string; au_result : string; au_actor : string }.

Record DB := {
  db_tenants : list (string * string);
  db_nodes : list node_row;
  db_gpus : list gpu_row;
  db_tasks : list task_row;
  db_instances : list instance_row;
  db_leases : list lease_row;
  db_deployments : list deployment_row;
  db_run_plans : list run_plan_row;
  db_groups : list group_row;
  db_audits : list audit_row
}.

Definition set_nodes (f : list node_row -> list node_row) (db : DB) : DB :=
  {| db_tenants := db_tenants db; db_nodes := f (db_nodes db); db_gpus := db_gpus db; db_tasks := db_tasks db;
     db_instances := db_instances db; db_leases := db_leases db; db_deployments := db_deployments db;
     db_run_plans := db_run_plans db; db_groups := db_groups db; db_audits := db_audits db |}.
Definition set_gpus (f : list gpu_row -> list gpu_row) (db : DB) : DB :=
  {| db_tenants := db_tenants db; db_nodes := db_nodes db; db_gpus := f (db_gpus db); db_tasks := db_tasks db;
     db_instances := db_instances db; db_leases := db_leases db; db_deployments := db_deployments db;
     db_run_plans := db_run_plans db; db_groups := db_groups db; db_audits := db_audits db |}.
Definition set_tasks (f : list task_row -> list task_row) (db : DB) : DB :=
  {| db_tenants := db_tenants db; db_nodes := db_nodes db; db_gpus := db_gpus db; db_tasks := f (db_tasks db);
     db_instances := db_instances db; db_leases := db_leases db; db_deployments := db_deployments db;
     db_run_plans := db_run_plans db; db_groups := db_groups db; db_audits := db_audits db |}.
Definition set_instances (f : list instance_row -> list instance_row) (db : DB) : DB :=
  {| db_tenants := db_tenants db; db_nodes := db_nodes db; db_gpus := db_gpus db; db_tasks := db_tasks db;
     db_instances := f (db_instances db); db_leases := db_leases db; db_deployments := db_deployments db;
     db_run_plans := db_run_plans db; db_groups := db_groups db; db_audits := db_audits db |}.
Definition set_leases (f : list lease_row -> list lease_row) (db : DB) : DB :=
  {| db_tenants := db_tenants db; db_nodes := db_nodes db; db_gpus := db_gpus db; db_tasks := db_tasks db;
     db_instances := db_instances db; db_leases := f (db_leases db); db_deployments := db_deployments db;
     db_run_plans := db_run_plans db; db_groups := db_groups db; db_audits := db_audits db |}.
Definition set_deployments (f : list deployment_row -> list deployment_row) (db : DB) : DB :=
  {| db_tenants := db_tenants db; db_nodes := db_nodes db; db_gpus := db_gpus db; db_tasks := db_tasks db;
     db_instances := db_instances db; db_leases := db_leases db; db_deployments := f (db_deployments db);
     db_run_plans := db_run_plans db; db_groups := db_groups db; db_audits := db_audits db |}.
Definition set_run_plans (f : list run_plan_row -> list run_plan_row) (db : DB) : DB :=
  {| db_tenants := db_tenants db; db_nodes := db_nodes db; db_gpus := db_gpus db; db_tasks := db_tasks db;
     db_instances := db_instances db; db_leases := db_leases db; db_deployments := db_deployments db;
     db_run_plans := f (db_run_plans db); db_groups := db_groups db; db_audits := db_audits db |}.
Definition set_groups (f : list group_row -> list group_row) (db : DB) : DB :=
  {| db_tenants := db_tenants db; db_nodes := db_nodes db; db_gpus := db_gpus db; db_tasks := db_tasks db;
     db_instances := db_instances db; db_leases := db_leases db; db_deployments := db_deployments db;
     db_run_plans := db_run_plans db; db_groups := f (db_groups db); db_audits := db_audits db |}.
Definition add_audit (a : audit_row) (db : DB) : DB :=
  {| db_tenants := db_tenants db; db_nodes := db_nodes db; db_gpus := db_gpus db; db_tasks := db_tasks db;
     db_instances := db_instances db; db_leases := db_leases db; db_deployments := db_deployments db;
     db_run_plans := db_run_plans db; db_groups := db_groups db; db_audits := db_audits db ++ [a] |}.

(** ** Statements *)

Section Statements.
Context {A : Type}.

Definition update_where (p : A -> bool) (f : A -> A) (rows : list A) : list A :=
  map (fun r => if p r then f r else r) rows.

Definition delete_where (p : A -> bool) (rows : list A) : list A := List.filter (fun r => negb (p r)) rows.

Definition count_where (p : A -> bool) (rows : list A) : nat := length (List.filter p rows).

(** An INSERT under a condition on the rows already there. *)
Definition insert_checked (ok : list A -> bool) (r : A) (rows : list A) : option (list A) :=
  if ok rows then Some (rows ++ [r]) else None.
End Statements.

(** A primary key that is not taken. *)
Definition id_free {A} (key : A -> string) (id : string) (rows : list A) : bool :=
  negb (existsb (fun r => key r =s id) rows).

Definition gpu_with (status tenant : string) (now : Z) (g : gpu_row) : gpu_row :=
  {| g_id := g_id g; g_node := g_node g; g_vendor := g_vendor g; g_index := g_index g; g_name := g_name g; g_uuid := g_uuid g; g_pci := g_pci g;
     g_driver := g_driver g; g_total := g_total g; g_used := g_used g; g_free := g_free g; g_util := g_util g; g_mem_util := g_mem_util g;
     g_temperature := g_temperature g; g_power := g_power g; g_health := g_health g; g_status := status; g_tenant := tenant;
     g_collected := g_collected g; g_reported := g_reported g; g_created := g_created g; g_updated := now |}.

(** [ORDER BY key]: the relative order of equal keys is the engine's. *)
Class SqlOrder := {
  order_by : forall {A : Type}, (A -> Z) -> list A -> list A;
  order_by_perm : forall (A : Type) (key : A -> Z) l, order_by key l ≡ₚ l;
  order_by_sorted : forall (A : Type) (key : A -> Z) l,
    StronglySorted (fun x y => (key x <= key y)%Z) (order_by key l)
}.

(** A stable engine, for concrete inputs. *)
Section InsertionSort.
Context {A : Type} (key : A -> Z).

Fixpoint sort_insert (x : A) (l : list A) : list A :=
  match l with
  | [] => [x]
  | y :: l' => if (key x <=? key y)%Z then x :: l else y :: sort_insert x l'
  end.

Definition insertion_sort (l : list A) : list A := foldr sort_insert [] l.

Lemma sort_insert_perm x l : sort_insert x l ≡ₚ x :: l.
Proof.
  induction l as [|y l IH]; cbn; [done|]. destruct (_ <=? _)%Z; [done|]. rewrite IH. constructor.
Qed.

Lemma insertion_sort_perm l : insertion_sort l ≡ₚ l.
Proof. induction l as [|x l IH]; cbn; [done|]. by rewrite sort_insert_perm, IH. Qed.

Lemma sort_insert_sorted x l :
  StronglySorted (fun x y => (key x <= key y)%Z) l -> StronglySorted (fun x y => (key x <= key y)%Z) (sort_insert x l).
Proof.
  induction 1 as [|y l Hs IH Hy]; cbn; [by repeat constructor|].
  destruct (Z.leb_spec (key x) (key y)) as [Hle|Hlt].
  - constructor; [by constructor|]. constructor; [done|]. eapply Forall_impl; [done|]. cbn. intros; lia.
  - constructor; [done|]. rewrite sort_insert_perm. constructor; [lia|done].
Qed.

Lemma insertion_sort_sorted l : StronglySorted (fun x y => (key x <= key y)%Z) (insertion_sort l).
Proof. induction l as [|x l IH]; cbn; [constructor|by apply sort_insert_sorted]. Qed.
End InsertionSort.

Definition stable_order : SqlOrder :=
  {| order_by := @insertion_sort; order_by_perm := @insertion_sort_perm; order_by_sorted := @insertion_sort_sorted |}.

(** ** Lemmas on statements *)

Section StatementFacts.
Context {A : Type}.
Implicit Types (p : A -> bool) (f : A -> A) (rows : list A).

Lemma elem_of_update p f rows r :
  r ∈ update_where p f rows <-> exists r0, r0 ∈ rows /\ r = if p r0 then f r0 else r0.
Proof.
  unfold update_where. rewrite list_elem_of_In, in_map_iff. split.
  - intros (r0 & <- & Hr0%list_elem_of_In). by exists r0.
  - intros (r0 & Hr0%list_elem_of_In & ->). by exists r0.
Qed.

Lemma elem_of_delete p rows r : r ∈ delete_where p rows <-> r ∈ rows /\ p r = false.
Proof.
  unfold delete_where. rewrite !list_elem_of_In, filter_In, negb_true_iff. done.
Qed.

(** A field that an update does not write. *)
Lemma update_map {B} (g : A -> B) p f rows :
  (forall r, g (f r) = g r) -> map g (update_where p f rows) = map g rows.
Proof.
  intros Hg. unfold update_where. rewrite map_map. apply map_ext. intros r. by destruct (p r).
Qed.

Lemma update_Forall (P : A -> Prop) p f rows :
  (forall r, P r -> P (f r)) -> Forall P rows -> Forall P (update_where p f rows).
Proof.
  intros Hf HP. unfold update_where. apply Forall_forall. intros r Hr.
  apply elem_of_update in Hr as (r0 & Hr0 & ->). rewrite Forall_forall in HP. destruct (p r0); auto.
Qed.

Lemma update_Forall_where (P : A -> Prop) p f rows :
  (forall r, p r = true -> P r -> P (f r)) -> Forall P rows -> Forall P (update_where p f rows).
Proof.
  intros Hf HP. apply Forall_forall. intros r Hr.
  apply elem_of_update in Hr as (r0 & Hr0 & ->). rewrite Forall_forall in HP. destruct (p r0) eqn:E; auto.
Qed.

Lemma delete_Forall (P : A -> Prop) p rows : Forall P rows -> Forall P (delete_where p rows).
Proof. rewrite !Forall_forall. intros HP r [Hr _]%elem_of_delete. auto. Qed.

(** An update that matches nothing. *)
Lemma update_none p f rows : Forall (fun r => p r = false) rows -> update_where p f rows = rows.
Proof.
  unfold update_where. induction 1 as [|r rows Hr _ IH]; cbn; [done|]. by rewrite Hr, IH.
Qed.

Lemma delete_NoDup_map {B} (g : A -> B) p rows : NoDup (map g rows) -> NoDup (map g (delete_where p rows)).
Proof.
  unfold delete_where. induction rows as [|r rows IH]; cbn; [done|].
  intros [Hr Hnd]%NoDup_cons. destruct (negb (p r)); cbn; [|by apply IH].
  apply NoDup_cons. split; [|by apply IH]. intros Hin. apply Hr.
  apply list_elem_of_In, in_map_iff in Hin as (r' & Heq & Hr'). apply filter_In in Hr' as [Hr' _].
  apply list_elem_of_In, in_map_iff. by exists r'.
Qed.
End StatementFacts.

(** ** Keys *)

Lemma id_free_notin {A} (key : A -> string) id rows : id_free key id rows = true -> id ∉ map key rows.
Proof.
  unfold id_free. intros H Hin. apply negb_true_iff in H. apply not_true_iff_false in H. apply H.
  apply list_elem_of_In, in_map_iff in Hin as (r & <- & Hr). apply existsb_exists.
  exists r. split; [done|apply String.eqb_refl].
Qed.

Lemma insert_checked_Some {A} ok (r : A) rows rows' :
  insert_checked ok r rows = Some rows' -> ok rows = true /\ rows' = rows ++ [r].
Proof. unfold insert_checked. by destruct (ok rows); intros; simplify_eq. Qed.

Lemma find_none_notin {A} (key : A -> string) id rows : find (fun r => key r =s id) rows = None -> id ∉ map key rows.
Proof.
  intros Hf Hin. apply list_elem_of_In, in_map_iff in Hin as (r & Heq & Hr).
  pose proof (find_none _ _ Hf r Hr) as Hn. cbn in Hn. by rewrite Heq, String.eqb_refl in Hn.
Qed.

Lemma NoDup_key_eq {A B} (key : A -> B) rows x y :
  NoDup (map key rows) -> x ∈ rows -> y ∈ rows -> key x = key y -> x = y.
Proof.
  induction rows as [|r rows IH]; cbn; intros Hnd Hx Hy Heq; [by apply elem_of_nil in Hx|].
  apply NoDup_cons in Hnd as [Hr Hnd].
  assert (forall z, z ∈ rows -> key z ∈ map key rows) as Hmem.
  { intros z Hz. apply list_elem_of_In, in_map_iff. exists z. split; [done|by apply list_elem_of_In]. }
  apply elem_of_cons in Hx as [->|Hx], Hy as [->|Hy]; [done| | |by apply IH];
  exfalso; apply Hr; [rewrite Heq|rewrite <- Heq]; by apply Hmem.
Qed.

Lemma find_Some_key {A} (key : A -> string) id rows r :
  find (fun r => key r =s id) rows = Some r -> r ∈ rows /\ key r = id.
Proof. intros [Hin He]%find_some. split; [by apply list_elem_of_In|by apply String.eqb_eq]. Qed.

