(* ===== verification/AgentTasks.v ===== *)
(** * Nodes and the agent task queue (internal/server/api/agent_handlers.go, constants.go)

    Registration, heartbeats, the claim with its sweep, task results, and the
    offline detector, each handler as a function from the tables to its answer
    and the tables after it.  Statements that cannot violate a constraint are
    assumed to succeed; log lines and metrics are not modelled. *)
From S2P Require Import Prelude GoStrings GoValue Store.

(** ** Constants *)

Definition TaskStatusPending := "pending".
Definition TaskStatusClaimed := "claimed".
Definition TaskStatusInProgress := "in_progress".
Definition TaskStatusCompleted := "completed".
Definition TaskStatusFailed := "failed".
Definition TaskStatusTimedOut := "timed_out".

Definition InstanceStatePending := "pending".
Definition InstanceStateFailed := "failed".

Definition LeaseReserved := "reserved".
Definition LeaseActive := "active".
Definition LeaseReleased := "released".
Definition LeaseFailed := "failed".

(** [status IN ('reserved','active')]: the rows the unique index is about. *)
Definition lease_live (l : lease_row) : bool := (l_status l =s LeaseReserved) || (l_status l =s LeaseActive).

(** [completed], [failed] and [timed_out]. *)
Definition task_terminal (s : string) : bool :=
  (s =s "completed") || (s =s "failed") || (s =s "timed_out").

(** ** Row updates *)

Definition task_with_status (status : string) (finished updated : Z) (t : task_row) : task_row :=
  {| t_id := t_id t; t_type := t_type t; t_status := status; t_tenant := t_tenant t; t_deployment := t_deployment t;
     t_instance := t_instance t; t_node := t_node t; t_agent := t_agent t; t_payload := t_payload t;
     t_result := t_result t; t_timeout := t_timeout t; t_retry_count := t_retry_count t;
     t_claimed_at := t_claimed_at t; t_finished_at := Some finished; t_lease_owner := t_lease_owner t;
     t_lease_expires := t_lease_expires t; t_operation := t_operation t; t_generation := t_generation t;
     t_attempt := t_attempt t; t_created := t_created t; t_updated := updated |}.

Definition task_with_result (status : string) (result : gmap string any) (now : Z) (t : task_row) : task_row :=
  {| t_id := t_id t; t_type := t_type t; t_status := status; t_tenant := t_tenant t; t_deployment := t_deployment t;
     t_instance := t_instance t; t_node := t_node t; t_agent := t_agent t; t_payload := t_payload t;
     t_result := Some result; t_timeout := t_timeout t; t_retry_count := t_retry_count t;
     t_claimed_at := t_claimed_at t; t_finished_at := Some now; t_lease_owner := t_lease_owner t;
     t_lease_expires := t_lease_expires t; t_operation := t_operation t; t_generation := t_generation t;
     t_attempt := t_attempt t; t_created := t_created t; t_updated := now |}.

Definition task_claim (agentID : string) (now leaseExpiry : Z) (t : task_row) : task_row :=
  {| t_id := t_id t; t_type := t_type t; t_status := TaskStatusClaimed; t_tenant := t_tenant t;
     t_deployment := t_deployment t; t_instance := t_instance t; t_node := t_node t; t_agent := agentID;
     t_payload := t_payload t; t_result := t_result t; t_timeout := t_timeout t;
     t_retry_count := t_retry_count t + 1; t_claimed_at := Some now; t_finished_at := t_finished_at t;
     t_lease_owner := agentID; t_lease_expires := Some leaseExpiry; t_operation := t_operation t;
     t_generation := t_generation t + 1; t_attempt := t_attempt t + 1; t_created := t_created t; t_updated := now |}.

(** The columns of an instance the handlers write; the rest is kept. *)
Definition instance_with (actual desired container endpoint : string) (last_error : any)
    (started stopped : option Z) (updated : Z) (i : instance_row) : instance_row :=
  {| i_id := i_id i; i_deployment := i_deployment i; i_tenant := i_tenant i; i_node := i_node i; i_gpus := i_gpus i;
     i_host_port := i_host_port i; i_container_port := i_container_port i; i_run_plan := i_run_plan i;
     i_actual := actual; i_desired := desired; i_container := container; i_endpoint := endpoint;
     i_last_error := last_error; i_started := started; i_stopped := stopped; i_created := i_created i;
     i_updated := updated |}.

Definition instance_fail (now : Z) (i : instance_row) : instance_row :=
  instance_with InstanceStateFailed (i_desired i) (i_container i) (i_endpoint i) (i_last_error i)
    (i_started i) (i_stopped i) now i.

Definition instance_fail_error (err : any) (now : Z) (i : instance_row) : instance_row :=
  instance_with InstanceStateFailed (i_desired i) (i_container i) (i_endpoint i) err (i_started i) (i_stopped i) now i.

Definition instance_stopped (now : Z) (i : instance_row) : instance_row :=
  instance_with "stopped" "stopped" (i_container i) (i_endpoint i) (i_last_error i) (i_started i) (Some now) now i.

Definition instance_started (actual container endpoint : string) (now : Z) (i : instance_row) : instance_row :=
  instance_with actual (i_desired i) container endpoint (i_last_error i) (Some now) (i_stopped i) (i_updated i) i.

Definition instance_error (err : any) (now : Z) (i : instance_row) : instance_row :=
  instance_with (i_actual i) (i_desired i) (i_container i) (i_endpoint i) err (i_started i) (i_stopped i) now i.

(** [container_id = CASE WHEN ? != '' THEN ? ELSE container_id END] *)
Definition instance_start_failed (container : string) (err : any) (i : instance_row) : instance_row :=
  instance_with "failed" (i_desired i) (if container <>s EmptyString then container else i_container i) (i_endpoint i)
    err (i_started i) (i_stopped i) (i_updated i) i.

Definition lease_with (status : string) (activated released : option Z) (updated : Z) (l : lease_row) : lease_row :=
  {| l_id := l_id l; l_gpu := l_gpu l; l_node := l_node l; l_deployment := l_deployment l; l_instance := l_instance l;
     l_tenant := l_tenant l; l_status := status; l_expires := l_expires l; l_reserved := l_reserved l;
     l_activated := activated; l_released := released; l_updated := updated |}.

Definition lease_fail (updated : Z) (l : lease_row) : lease_row :=
  lease_with LeaseFailed (l_activated l) (l_released l) updated l.

Definition deployment_with (desired status : string) (now : Z) (d : deployment_row) : deployment_row :=
  {| d_id := d_id d; d_tenant := d_tenant d; d_desired := desired; d_status := status; d_updated := now |}.

Definition node_with (agent : string) (facts : node_facts) (status : string) (heartbeat : Z) (tenant : string)
    (now : Z) (n : node_row) : node_row :=
  {| n_id := n_id n; n_agent := agent; n_facts := facts; n_status := status; n_heartbeat := heartbeat;
     n_tenant := tenant; n_updated := now |}.

Definition find_node (db : DB) (id : string) : option node_row := find (fun n => n_id n =s id) (db_nodes db).
Definition find_task (db : DB) (id : string) : option task_row := find (fun t => t_id t =s id) (db_tasks db).
Definition find_instance (db : DB) (id : string) : option instance_row := find (fun i => i_id i =s id) (db_instances db).

(** ** Registration *)

Inductive register_response :=
| RegisterBadRequest
| RegisterConflict
| Registered (nodeID agentID tenantID : string).

Definition facts_defaults (f : node_facts) : node_facts :=
  {| nf_hostname := nf_hostname f; nf_primary_ip := nf_primary_ip f; nf_advertised := nf_advertised f;
     nf_os := nf_os f; nf_arch := nf_arch f; nf_kernel := nf_kernel f; nf_version := nf_version f;
     nf_metrics_enabled := nf_metrics_enabled f;
     nf_metrics_scheme := if nf_metrics_scheme f =s EmptyString then "http" else nf_metrics_scheme f;
     nf_metrics_port := if (nf_metrics_port f =? 0)%Z then 9090 else nf_metrics_port f;
     nf_metrics_path := if nf_metrics_path f =s EmptyString then "/metrics" else nf_metrics_path f |}.

Definition DefaultTenantID (db : DB) : string :=
  match find (fun t => snd t =s "default") (db_tenants db) with Some t => fst t | None => "" end.

Definition HandleRegister (nodeID agentID : string) (facts : node_facts) (now : Z) (db : DB) : register_response * DB :=
  if nodeID =s EmptyString then (RegisterBadRequest, db)
  else
    let facts := facts_defaults facts in
    let tenant := DefaultTenantID db in
    match find_node db nodeID with
    | None =>
        (Registered nodeID agentID tenant,
         set_nodes (fun rows => rows ++ [{| n_id := nodeID; n_agent := agentID; n_facts := facts; n_status := "online";
                                            n_heartbeat := now; n_tenant := tenant; n_updated := now |}]) db)
    | Some n =>
        if (n_agent n <>s EmptyString) && (n_agent n <>s agentID) then (RegisterConflict, db)
        else
          (Registered nodeID agentID tenant,
           set_nodes (update_where (fun n => n_id n =s nodeID)
                        (fun n => node_with agentID facts "online" now (n_tenant n) now n)) db)
    end.

(** ** Claiming *)

(** [sweepExpiredTasks]: the four statements, in order. *)
Definition task_expired (nodeID : string) (now : Z) (t : task_row) : bool :=
  (t_node t =s nodeID)
  && ((t_status t =s TaskStatusPending) || (t_status t =s TaskStatusClaimed) || (t_status t =s TaskStatusInProgress))
  && (t_timeout t <? now - t_created t)%Z.

Definition sweep_tasks (nodeID : string) (now : Z) (db : DB) : DB :=
  set_tasks (update_where (task_expired nodeID now) (task_with_status TaskStatusTimedOut now now)) db.

Definition instance_timed_out (db : DB) (nodeID : string) (i : instance_row) : bool :=
  existsb (fun t => (t_status t =s TaskStatusTimedOut) && (t_node t =s nodeID) && (t_instance t <>s EmptyString)
                    && (t_instance t =s i_id i)) (db_tasks db).

Definition sweep_instances (nodeID : string) (now : Z) (db : DB) : DB :=
  set_instances (update_where (instance_timed_out db nodeID) (instance_fail now)) db.

Definition lease_expired (now : Z) (l : lease_row) : bool :=
  match l_expires l with Some e => (e <? now)%Z && (l_status l =s LeaseReserved) | None => false end.

Definition sweep_leases (now : Z) (db : DB) : DB :=
  set_leases (update_where (lease_expired now) (lease_fail now)) db.

Definition deployment_has_failed (db : DB) (d : deployment_row) : bool :=
  existsb (fun i => (i_actual i =s InstanceStateFailed) && (i_deployment i =s d_id d)) (db_instances db).

Definition sweep_deployments (now : Z) (db : DB) : DB :=
  set_deployments (update_where (deployment_has_failed db) (fun d => deployment_with (d_desired d) "failed" now d)) db.

Definition sweepExpiredTasks (nodeID : string) (now : Z) (db : DB) : DB :=
  sweep_deployments now (sweep_leases now (sweep_instances nodeID now (sweep_tasks nodeID now db))).

Definition maxTasks : nat := 10.
Definition lease_seconds : Z := 300.

Section Claim.
Context `{SO : SqlOrder}.

Definition pending_on (nodeID : string) (t : task_row) : bool :=
  (t_node t =s nodeID) && (t_status t =s TaskStatusPending).

(** The ids the sub-select of the conditional UPDATE returns. *)
Definition claimable (nodeID : string) (db : DB) : list string :=
  map t_id (take maxTasks (order_by t_created (List.filter (pending_on nodeID) (db_tasks db)))).

Definition claimed_now (nodeID agentID : string) (now : Z) (t : task_row) : bool :=
  (t_node t =s nodeID) && (t_status t =s TaskStatusClaimed) && (t_agent t =s agentID)
  && bool_decide (t_claimed_at t = Some now).

Definition claim_update (nodeID agentID : string) (now : Z) (db : DB) : DB :=
  set_tasks (update_where (fun t => existsb (String.eqb (t_id t)) (claimable nodeID db))
               (task_claim agentID now (now + lease_seconds))) db.

Definition claimAndReturnTasks (nodeID agentID : string) (now : Z) (db : DB) : list task_row * DB :=
  let db := sweepExpiredTasks nodeID now db in
  let db := claim_update nodeID agentID now db in
  (take maxTasks (order_by t_created (List.filter (claimed_now nodeID agentID now) (db_tasks db))), db).

(** ** Heartbeat *)

Inductive heartbeat_response :=
| HeartbeatBadRequest
| HeartbeatForbidden
| HeartbeatNeedRegister
| HeartbeatOk (tasks : list task_row).

Definition HandleHeartbeat (nodeID agentID : string) (now : Z) (db : DB) : heartbeat_response * DB :=
  if nodeID =s EmptyString then (HeartbeatBadRequest, db)
  else
    match find_node db nodeID with
    | None => (HeartbeatNeedRegister, db)
    | Some n =>
        if (n_agent n <>s EmptyString) && (n_agent n <>s agentID) then (HeartbeatForbidden, db)
        else
          let db := set_nodes (update_where (fun n => n_id n =s nodeID)
                      (fun n => node_with (n_agent n) (n_facts n) "online" now (n_tenant n) now n)) db in
          let '(tasks, db) := claimAndReturnTasks nodeID agentID now db in
          (HeartbeatOk tasks, db)
    end.
End Claim.

(** ** Offline detection *)

Definition heartbeat_late (cutoff : Z) (n : node_row) : bool :=
  (n_status n =s "online") && (n_heartbeat n <? cutoff)%Z.

Definition MarkOfflineNodes (threshold now : Z) (db : DB) : nat * DB :=
  let cutoff := (now - threshold)%Z in
  (count_where (heartbeat_late cutoff) (db_nodes db),
   set_nodes (update_where (heartbeat_late cutoff)
                (fun n => node_with (n_agent n) (n_facts n) "offline" (n_heartbeat n) (n_tenant n) now n)) db).

(** ** Task results *)

Definition strVal (m : gmap string any) (key def : string) : string :=
  match m !! key with Some (AStr s) => s | _ => def end.
Definition boolVal (m : gmap string any) (key : string) (def : bool) : bool :=
  match m !! key with Some (ABool b) => b | _ => def end.
Definition intVal (m : gmap string any) (key : string) (def : Z) : Z :=
  match m !! key with
  | Some (AFloat f) => f64_to_int f
  | Some (AInt n) => n
  | _ => def
  end.

(** The JSON object stored as the last error of a failed start. *)
Definition buildStartFailureLastError (req : gmap string any) (errorMsg containerID : string) : any :=
  let containerID := if containerID =s EmptyString then strVal req "container_id" "" else containerID in
  let opt key := if strVal req key "" <>s EmptyString then [(key, AStr (strVal req key ""))] else [] in
  AMap ([("container_id", AStr containerID); ("error", AStr errorMsg);
         ("exit_code", AInt (intVal req "exit_code" (-1)));
         ("failure_reason_code", AStr (strVal req "failure_reason_code" "task_failed"))]
        ++ opt "stderr_tail_preview" ++ opt "stdout_tail_preview").

Inductive result_response := ResultOk | ResultIgnored (reason : string).

Definition finish_task (taskID status : string) (req : gmap string any) (now : Z) (db : DB) : DB :=
  set_tasks (update_where (fun t => t_id t =s taskID) (task_with_result status req now)) db.

Definition on_instance (id : string) (f : instance_row -> instance_row) (db : DB) : DB :=
  set_instances (update_where (fun i => i_id i =s id) f) db.

Definition on_leases (instance : string) (p : lease_row -> bool) (f : lease_row -> lease_row) (db : DB) : DB :=
  set_leases (update_where (fun l => (l_instance l =s instance) && p l) f) db.

Definition is_reserved (l : lease_row) : bool := l_status l =s LeaseReserved.

Definition release_leases (instance : string) (now : Z) (db : DB) : DB :=
  on_leases instance lease_live (fun l => lease_with LeaseReleased (l_activated l) (Some now) now l) db.

Definition activate_leases (instance : string) (now : Z) (db : DB) : DB :=
  on_leases instance is_reserved (fun l => lease_with LeaseActive (Some now) (l_released l) (l_updated l) l) db.

Definition fail_leases (instance : string) (db : DB) : DB :=
  on_leases instance is_reserved (fun l => lease_fail (l_updated l) l) db.

Definition start_audit (t : task_row) (req : gmap string any) (instance action result : string) (db : DB) : DB :=
  if t_type t =s "model_instance_start"
  then add_audit {| au_tenant := t_tenant t; au_action := action; au_type := "model_instance"; au_id := instance;
                    au_result := result; au_actor := strVal req "agent_id" (t_lease_owner t) |} db
  else db.

Definition endpoint_url (db : DB) (instance : string) : string :=
  match find_instance db instance with
  | Some i => if (0 <? i_host_port i)%Z then "http://127.0.0.1:" +s+ Itoa (i_host_port i) else ""
  | None => ""
  end.

(** The case of a report [completed] or [success]. *)
Definition result_completed (t : task_row) (instance : string) (req : gmap string any) (now : Z) (db : DB) : DB :=
  let errorMsg := strVal req "error_message" (strVal req "error" "") in
  let success := boolVal req "success" true && (errorMsg =s EmptyString) in
  let db := finish_task (t_id t) (if success then "completed" else "failed") req now db in
  if t_type t =s "model_instance_logs" then db
  else if t_type t =s "model_instance_stop" then
    if instance <>s EmptyString then
      if success then release_leases instance now (on_instance instance (instance_stopped now) db)
      else on_instance instance
             (instance_fail_error (AStr (strVal req "error_message" (strVal req "error" "docker stop failed"))) now) db
    else db
  else if instance <>s EmptyString then
    let containerID := strVal req "container_id" "" in
    let endpoint := endpoint_url db instance in
    let db := on_instance instance
                (instance_started (if success then "running" else "failed") containerID endpoint now) db in
    if success then start_audit t req instance "instance.start.succeeded" "success" (activate_leases instance now db)
    else
      start_audit t req instance "instance.start.failed" "failure"
        (fail_leases instance
           (on_instance instance (instance_error (buildStartFailureLastError req errorMsg containerID) now) db))
  else db.

(** The case of a report [failed] or [error]. *)
Definition result_failed (t : task_row) (instance : string) (req : gmap string any) (now : Z) (db : DB) : DB :=
  let db := finish_task (t_id t) "failed" req now db in
  let errorMsg := strVal req "error_message" (strVal req "error" "unknown") in
  if t_type t =s "model_instance_logs" then db
  else if t_type t =s "model_instance_stop" then
    if instance <>s EmptyString then on_instance instance (instance_fail_error (AStr errorMsg) now) db else db
  else if instance <>s EmptyString then
    let containerID := strVal req "container_id" "" in
    start_audit t req instance "instance.start.failed" "failure"
      (fail_leases instance
         (on_instance instance
            (instance_start_failed containerID (buildStartFailureLastError req errorMsg containerID)) db))
  else db.

Definition HandleTaskResult (taskID : string) (req : gmap string any) (now : Z) (db : DB) : result_response * DB :=
  let status := strVal req "status" "completed" in
  match find_task db taskID with
  | None => (ResultIgnored "task_not_found", db)
  | Some t =>
      if task_terminal (t_status t) then (ResultIgnored "task_already_terminal", db)
      else
        let agentID := strVal req "agent_id" "" in
        if (t_lease_owner t <>s EmptyString) && (agentID <>s EmptyString) && (t_lease_owner t <>s agentID)
        then (ResultIgnored "lease_owner_mismatch", db)
        else
          let instance := if t_instance t =s EmptyString then strVal req "instance_id" "" else t_instance t in
          if (status =s "completed") || (status =s "success") then (ResultOk, result_completed t instance req now db)
          else if (status =s "failed") || (status =s "error") then (ResultOk, result_failed t instance req now db)
          else (ResultOk, db)
  end.
