(* ===== verification/Deployments.v ===== *)
(** * Deployment life cycle (internal/server/api/deployment_lifecycle_handlers.go and HandlePatchNodeTenant)

    Start, stop, delete, log fetching and the transfer of a node.  Identifiers
    drawn with [uuid.NewString] are arguments.  The pre-flight validation (image
    and model lookups, plan resolution) is an argument too: its outcome is
    either errors or the values the transaction writes.  While the stop handler
    waits for an agent, other requests run: [wait] is what they do to the
    tables. *)
From S2P Require Import Prelude GoStrings GoValue Store AgentTasks.

(** ** The session *)

Record session := { s_user : string; s_tenant : string; s_admin : bool; s_perms : list string }.

Definition tenantScopeCheck (s : session) (resource : string) : bool :=
  if s_admin s then true else resource =s s_tenant s.

Definition hasPerm (perms : list string) (required : string) : bool := existsb (String.eqb required) perms.

Definition find_deployment (db : DB) (id : string) : option deployment_row :=
  find (fun d => d_id d =s id) (db_deployments db).

(** ** The active run of a deployment *)

Inductive active_run :=
| NotActive
| Blocked (reason instance task state : string).

Definition active_states : list string := ["pending"; "starting"; "provisioning"; "running"; "healthy"; "stopping"].

Definition instance_active_in (deployID : string) (i : instance_row) : bool :=
  (i_deployment i =s deployID) && existsb (String.eqb (i_actual i)) active_states.

Definition task_active_in (deployID : string) (t : task_row) : bool :=
  (t_deployment t =s deployID)
  && ((t_type t =s "model_instance_start") || (t_type t =s "model_instance_stop"))
  && ((t_status t =s "pending") || (t_status t =s "in_progress")).

Definition blocking_reason (state : string) : string :=
  if (state =s "pending") || (state =s "starting") || (state =s "provisioning") then "deployment_starting"
  else if (state =s "running") || (state =s "healthy") then "deployment_running"
  else if state =s "stopping" then "deployment_stopping"
  else "deployment_active".

Section Handlers.
Context `{SO : SqlOrder}.

(** [ORDER BY created_at DESC LIMIT 1] is the head under the opposite key. *)
Definition activeDeploymentRun (deployID : string) (db : DB) : active_run :=
  match order_by (fun i => - i_created i)%Z (List.filter (instance_active_in deployID) (db_instances db)) with
  | i :: _ => Blocked (blocking_reason (i_actual i)) (i_id i) "" (i_actual i)
  | [] =>
      match order_by (fun t => - t_created t)%Z (List.filter (task_active_in deployID) (db_tasks db)) with
      | t :: _ => Blocked "deployment_task_active" "" (t_id t) (t_status t)
      | [] => NotActive
      end
  end.

(** ** Start *)

Record preflight := {
  pf_tenant : string; pf_node : string; pf_accelerators : list string;
  pf_host_port : Z; pf_container_port : Z; pf_agent_payload : string; pf_preview : string
}.

(** The identifiers drawn by one start. *)
Record start_ids := {
  si_instance : string; si_run_plan : string; si_task : string; si_group : string;
  si_leases : list string; si_operation : string
}.

Inductive start_response :=
| StartConflict (active : active_run)
| StartBadRequest (errors : list string)
| StartInternalError
| Started (instance task run_plan : string).

Definition new_instance (ids : start_ids) (deployID : string) (pf : preflight) (now : Z) : instance_row :=
  {| i_id := si_instance ids; i_deployment := deployID; i_tenant := pf_tenant pf; i_node := pf_node pf;
     i_gpus := pf_accelerators pf; i_host_port := pf_host_port pf; i_container_port := pf_container_port pf;
     i_run_plan := si_run_plan ids; i_actual := "pending"; i_desired := "running"; i_container := "";
     i_endpoint := ""; i_last_error := AStr ""; i_started := None; i_stopped := None; i_created := now; i_updated := now |}.

(** The column [expires_at] is not in the INSERT: it is NULL. *)
Definition new_lease (ids : start_ids) (deployID : string) (pf : preflight) (now : Z) (leaseID gid : string) : lease_row :=
  {| l_id := leaseID; l_gpu := gid; l_node := pf_node pf; l_deployment := deployID; l_instance := si_instance ids;
     l_tenant := pf_tenant pf; l_status := LeaseReserved; l_expires := None; l_reserved := now;
     l_activated := None; l_released := None; l_updated := now |}.

(** A row of [agent_tasks] as the three handlers insert it. *)
Definition new_task (taskID type tenant deployID instanceID nodeID payload : string) (timeout : Z)
    (operation : string) (now : Z) : task_row :=
  {| t_id := taskID; t_type := type; t_status := TaskStatusPending; t_tenant := tenant; t_deployment := deployID;
     t_instance := instanceID; t_node := nodeID; t_agent := ""; t_payload := payload; t_result := None;
     t_timeout := timeout; t_retry_count := 0; t_claimed_at := None; t_finished_at := None; t_lease_owner := "";
     t_lease_expires := None; t_operation := operation; t_generation := 0; t_attempt := 1; t_created := now;
     t_updated := now |}.

Definition insert_task (t : task_row) (db : DB) : option DB :=
  rows ← insert_checked (id_free t_id (t_id t)) t (db_tasks db); Some (set_tasks (fun _ => rows) db).

Definition insert_instance (i : instance_row) (db : DB) : option DB :=
  rows ← insert_checked (id_free i_id (i_id i)) i (db_instances db);
  if existsb (fun d => d_id d =s i_deployment i) (db_deployments db)
  then Some (set_instances (fun _ => rows) db) else None.

(** The partial unique index on live leases. *)
Definition lease_insertable (l : lease_row) (rows : list lease_row) : bool :=
  id_free l_id (l_id l) rows && negb (existsb (fun r => lease_live r && (l_gpu r =s l_gpu l)) rows).

Definition insert_lease (l : lease_row) (db : DB) : option DB :=
  rows ← insert_checked (lease_insertable l) l (db_leases db); Some (set_leases (fun _ => rows) db).

Fixpoint insert_leases (mk : string -> string -> lease_row) (leaseIDs gids : list string) (db : DB)
    {struct gids} : option DB :=
  match gids, leaseIDs with
  | [], _ => Some db
  | gid :: gids, leaseID :: leaseIDs => db ← insert_lease (mk leaseID gid) db; insert_leases mk leaseIDs gids db
  | _ :: _, [] => None
  end.

(** The transaction: [None] is a rollback. *)
Definition start_transaction (ids : start_ids) (deployID : string) (pf : preflight) (now : Z) (db : DB) : option DB :=
  db ← insert_instance (new_instance ids deployID pf now) db;
  groups ← insert_checked (id_free gr_id (si_group ids))
             {| gr_id := si_group ids; gr_deployment := deployID; gr_status := "pending" |} (db_groups db);
  plans ← insert_checked (id_free r_id (si_run_plan ids))
             {| r_id := si_run_plan ids; r_deployment := deployID; r_instance := si_instance ids;
                r_tenant := pf_tenant pf; r_preview := pf_preview pf |} (db_run_plans db);
  db ← insert_leases (new_lease ids deployID pf now) (si_leases ids) (pf_accelerators pf)
         (set_run_plans (fun _ => plans) (set_groups (fun _ => groups) db));
  db ← insert_task (new_task (si_task ids) "model_instance_start" (pf_tenant pf) deployID (si_instance ids)
                      (pf_node pf) (pf_agent_payload pf) 300 (si_operation ids) now) db;
  Some (set_deployments (update_where (fun d => d_id d =s deployID) (deployment_with "running" "running" now)) db).

Definition HandleStartDeployment (s : session) (deployID : string) (pf : preflight + list string) (ids : start_ids)
    (now : Z) (db : DB) : start_response * DB :=
  match activeDeploymentRun deployID db with
  | Blocked r i t st => (StartConflict (Blocked r i t st), db)
  | NotActive =>
      match pf with
      | inr errors => (StartBadRequest errors, db)
      | inl pf =>
          match start_transaction ids deployID pf now db with
          | None => (StartInternalError, db)
          | Some db =>
              (Started (si_instance ids) (si_task ids) (si_run_plan ids),
               add_audit {| au_tenant := pf_tenant pf; au_action := "instance.start.requested";
                            au_type := "model_instance"; au_id := si_instance ids; au_result := "success";
                            au_actor := if s_user s <>s EmptyString then s_user s else "system" |} db)
          end
      end
  end.

(** ** Stop *)

Definition instance_stopping (now : Z) (i : instance_row) : instance_row :=
  instance_with (if i_actual i =s "running" then "stopping" else i_actual i) "stopped" (i_container i) (i_endpoint i)
    (i_last_error i) (i_started i) (i_stopped i) now i.

(** The rows the handler reads first: identifier, node, container, node status. *)
Record stop_target := { st_id : string; st_node : string; st_container : string; st_node_status : string }.

Definition node_status (db : DB) (nodeID : string) : string :=
  match find_node db nodeID with Some n => n_status n | None => "unknown" end.

Definition stop_targets (deployID : string) (db : DB) : list stop_target :=
  map (fun i => {| st_id := i_id i; st_node := i_node i; st_container := i_container i;
                   st_node_status := node_status db (i_node i) |})
      (List.filter (fun i => (i_deployment i =s deployID) && negb (i_actual i =s "stopped")) (db_instances db)).

Definition mark_stopping (instance : string) (now : Z) (db : DB) : DB :=
  on_instance instance (instance_stopping now) db.

Inductive stop_warning :=
| NodeNotOnline (node status instance : string)
| DispatchFailed (instance : string)
| StopTimedOut (instance : string)
| StopFailed (instance : string) (message : string).

(** What waiting for the task ended with. *)
Inductive wait_result := WaitError | WaitDone (status : string) (result : gmap string any).

Section Stop.
Variable payload_of : stop_target -> string.
Variable wait : string -> DB -> wait_result * DB.

Definition stop_task (tenant deployID operation : string) (now : Z) (taskID : string) (st : stop_target) : task_row :=
  new_task taskID "model_instance_stop" tenant deployID (st_id st) (st_node st) (payload_of st) 90 operation now.

(** One turn of the loop. *)
Definition stop_one (tenant deployID operation : string) (now : Z) (taskID : string) (st : stop_target) (db : DB)
    : list stop_warning * DB :=
  let db := mark_stopping (st_id st) now db in
  if negb (st_node_status st =s "online") then ([NodeNotOnline (st_node st) (st_node_status st) (st_id st)], db)
  else
    match insert_task (stop_task tenant deployID operation now taskID st) db with
    | None => ([DispatchFailed (st_id st)], db)
    | Some db =>
        match wait taskID db with
        | (WaitError, db) => ([StopTimedOut (st_id st)], db)
        | (WaitDone status result, db) =>
            if negb (status =s "completed")
            then ([StopFailed (st_id st) (strVal result "error_message" (strVal result "error" "docker stop task failed"))], db)
            else ([], db)
        end
    end.

Fixpoint stop_loop (tenant deployID operation : string) (now : Z) (taskIDs : list string) (sts : list stop_target) (db : DB)
    {struct sts} : list stop_warning * DB :=
  match sts, taskIDs with
  | st :: sts, taskID :: taskIDs =>
      let '(w1, db) := stop_one tenant deployID operation now taskID st db in
      let '(w2, db) := stop_loop tenant deployID operation now taskIDs sts db in
      (w1 ++ w2, db)
  | _, _ => ([], db)
  end.

Definition finish_stop (deployID : string) (now : Z) (db : DB) : DB :=
  set_deployments (update_where (fun d => d_id d =s deployID) (deployment_with "stopped" "stopped" now)) db.

Definition stop_audit (s : session) (tenant : string) (st : stop_target) (db : DB) : DB :=
  add_audit {| au_tenant := tenant; au_action := "instance.stop"; au_type := "model_instance"; au_id := st_id st;
               au_result := "success"; au_actor := if s_user s <>s EmptyString then s_user s else "system" |} db.

Inductive stop_response := StopNotFound | Stopped (instances : nat) (warnings : list stop_warning).

Definition HandleStopDeployment (s : session) (deployID operation : string) (taskIDs : list string) (now : Z) (db : DB)
    : stop_response * DB :=
  match find_deployment db deployID with
  | None => (StopNotFound, db)
  | Some d =>
      if negb (tenantScopeCheck s (d_tenant d)) then (StopNotFound, db)
      else
        let sts := stop_targets deployID db in
        let '(warnings, db) := stop_loop (d_tenant d) deployID operation now taskIDs sts db in
        let db := finish_stop deployID now db in
        (Stopped (length sts) warnings, foldl (fun db st => stop_audit s (d_tenant d) st db) db sts)
  end.
End Stop.

(** ** Delete *)

Definition instance_delete_stop (now : Z) (i : instance_row) : instance_row :=
  instance_with "stopped" "stopped" (i_container i) (i_endpoint i) (i_last_error i) (i_started i) (Some now)
    (i_updated i) i.

Definition delete_transaction (id : string) (now : Z) (db : DB) : DB :=
  let db := set_instances (update_where (fun i => (i_deployment i =s id) && negb (i_actual i =s "stopped"))
                             (instance_delete_stop now)) db in
  let db := set_leases (update_where (fun l => (l_deployment l =s id) && lease_live l)
                          (fun l => lease_with LeaseReleased (l_activated l) (Some now) (l_updated l) l)) db in
  let db := set_tasks (update_where (fun t => (t_deployment t =s id) && negb ((t_status t =s "completed") || (t_status t =s "failed")))
                         (fun t => task_with_status "failed" now (t_updated t) t)) db in
  let db := set_tasks (delete_where (fun t => t_deployment t =s id)) db in
  let db := set_run_plans (delete_where (fun r => r_deployment r =s id)) db in
  let db := set_groups (delete_where (fun g => gr_deployment g =s id)) db in
  let db := set_leases (delete_where (fun l => l_deployment l =s id)) db in
  let db := set_instances (delete_where (fun i => i_deployment i =s id)) db in
  set_deployments (delete_where (fun d => d_id d =s id)) db.

Inductive delete_response := DeleteNotFound | Deleted.

Definition HandleDeleteDeployment (s : session) (id : string) (now : Z) (db : DB) : delete_response * DB :=
  match find_deployment db id with
  | None => (DeleteNotFound, db)
  | Some d =>
      if negb (tenantScopeCheck s (d_tenant d)) then (DeleteNotFound, db)
      else (Deleted, delete_transaction id now db)
  end.

(** ** Fetching logs: the task the handler dispatches *)

Inductive logs_response := LogsNotFound | LogsNodeOffline | LogsInternalError | LogsDispatched (task : string).

(** [JOIN model_instances], [JOIN nodes]: a missing row is no row. *)
Definition HandleGetNodeRunPlanLogs (s : session) (runPlanID taskID payload : string) (now : Z) (db : DB)
    : logs_response * DB :=
  match find (fun r => r_id r =s runPlanID) (db_run_plans db) with
  | None => (LogsNotFound, db)
  | Some r =>
      match find_instance db (r_instance r) with
      | None => (LogsNotFound, db)
      | Some i =>
          match find_node db (i_node i) with
          | None => (LogsNotFound, db)
          | Some n =>
              if negb (tenantScopeCheck s (r_tenant r)) then (LogsNotFound, db)
              else if negb (n_status n =s "online") then (LogsNodeOffline, db)
              else
                match insert_task (new_task taskID "model_instance_logs" (r_tenant r) (r_deployment r) (r_instance r)
                                     (i_node i) payload 30 taskID now) db with
                | None => (LogsInternalError, db)
                | Some db => (LogsDispatched taskID, db)
                end
          end
      end
  end.

(** ** Transfer of a node to another tenant *)

Inductive transfer_response :=
| TransferBadRequest | TransferUnauthorized | TransferNotFound | TransferForbidden | TransferUnknownTenant
| TransferActiveLeases | TransferActiveInstances | Transferred (tenant : string).

Definition transfer_busy (i : instance_row) : bool :=
  existsb (String.eqb (i_actual i)) ["pending"; "starting"; "running"; "stopping"].

(** [active_tenants] are the rows of [tenants] whose status is active. *)
Definition HandlePatchNodeTenant (active_tenants : list string) (info : option session) (nodeID newTenant : string)
    (now : Z) (db : DB) : transfer_response * DB :=
  if nodeID =s EmptyString then (TransferBadRequest, db)
  else
    match info with
    | None => (TransferUnauthorized, db)
    | Some s =>
        if newTenant =s EmptyString then (TransferBadRequest, db)
        else
          match find_node db nodeID with
          | None => (TransferNotFound, db)
          | Some n =>
              if negb (s_admin s) && (negb (n_tenant n =s s_tenant s) || negb (hasPerm (s_perms s) "node:transfer"))
              then (TransferForbidden, db)
              else if negb (existsb (String.eqb newTenant) active_tenants) then (TransferUnknownTenant, db)
              else if (0 <? count_where (fun l => (l_node l =s nodeID) && lease_live l) (db_leases db))%nat
              then (TransferActiveLeases, db)
              else if (0 <? count_where (fun i => (i_node i =s nodeID) && transfer_busy i) (db_instances db))%nat
              then (TransferActiveInstances, db)
              else
                let db := set_nodes (update_where (fun n => n_id n =s nodeID)
                            (fun n => node_with (n_agent n) (n_facts n) (n_status n) (n_heartbeat n) newTenant now n)) db in
                let db := set_gpus (update_where (fun g => g_node g =s nodeID)
                            (fun g => gpu_with (g_status g) newTenant now g)) db in
                (Transferred newTenant,
                 add_audit {| au_tenant := ""; au_action := "transfer_tenant"; au_type := "node"; au_id := nodeID;
                              au_result := ""; au_actor := s_user s |} db)
          end
    end.
End Handlers.
