(* ===== verification/RunPlanViews.v ===== *)
(** * Views of a plan and checks around it (internal/server/runplan: preview.go, dryrun.go, resource_controls.go)

    The text of an equivalent docker command, the database checks of a dry run, and
    the resource controls of a backend version. *)
From S2P Require Import Prelude GoStrings GoValue GoJson GoJsonText RunPlanTypes Store AgentTasks Deployments.
From Stdlib Require Import Ascii.

(** ** preview.go *)

Section Preview.
Context `{MR : MapRange}.

Definition flag_if (flag value : string) : list string := if value <>s EmptyString then [flag; value] else [].

Definition flag_all (flag : string) (values : list string) : list string :=
  concat (map (fun v => [flag; v]) values).

Definition quoted (s : string) : string := String dquote (s +s+ String dquote EmptyString).

Definition preview_gpus (plan : ResolvedRunPlan) : list string :=
  match rp_DeviceBinding plan with
  | Some b =>
      if db_Enabled b && (db_DockerGPUOption b <>s EmptyString) then ["--gpus"; quoted (db_DockerGPUOption b)]
      else match rp_GPUDeviceIDs plan with
           | _ :: _ => ["--gpus"; quoted ("device=" +s+ Join (rp_GPUDeviceIDs plan) ",")]
           | [] => if (rp_GpuDriver plan <>s EmptyString) || (0 <? length (rp_GpuCapabilities plan))%nat
                   then ["--gpus"; "all"] else []
           end
  | None =>
      match rp_GPUDeviceIDs plan with
      | _ :: _ => ["--gpus"; quoted ("device=" +s+ Join (rp_GPUDeviceIDs plan) ",")]
      | [] => if (rp_GpuDriver plan <>s EmptyString) || (0 <? length (rp_GpuCapabilities plan))%nat
              then ["--gpus"; "all"] else []
      end
  end.

Definition preview_device (d : DeviceMapping) : string :=
  if dm_Permissions d <>s EmptyString
  then dm_HostPath d +s+ ":" +s+ dm_ContainerPath d +s+ ":" +s+ dm_Permissions d
  else dm_HostPath d +s+ ":" +s+ dm_ContainerPath d.

Definition preview_mount (v : MountMapping) : string :=
  mm_HostPath v +s+ ":" +s+ mm_ContainerPath v +s+ (if mm_Readonly v then ":ro" else EmptyString).

Definition key_value (kv : string * string) : string := kv.1 +s+ "=" +s+ kv.2.

(** The parts the command is joined from. *)
Definition command_parts (plan : ResolvedRunPlan) : list string :=
  ["docker"; "run"; "-d"]
  ++ flag_if "--name" (rp_ContainerName plan)
  ++ (if rp_Privileged plan then ["--privileged"] else [])
  ++ flag_if "--ipc" (rp_IPCMode plan)
  ++ flag_if "--uts" (rp_UTSMode plan)
  ++ flag_if "--network" (rp_NetworkMode plan)
  ++ flag_if "--shm-size" (rp_ShmSize plan)
  ++ flag_all "--group-add" (rp_GroupAdd plan)
  ++ flag_all "--security-opt" (rp_SecurityOptions plan)
  ++ flag_all "--cap-add" (rp_CapAdd plan)
  ++ flag_all "--cap-drop" (rp_CapDrop plan)
  ++ flag_all "--ulimit" (map key_value (range (rp_Ulimits plan)))
  ++ preview_gpus plan
  ++ flag_all "--device" (map preview_device (rp_Devices plan))
  ++ flag_all "-v" (map preview_mount (rp_Mounts plan))
  ++ flag_all "-e" (map key_value (range (rp_Env plan)))
  ++ (if (0 <? rp_HostPort plan)%Z && (rp_NetworkMode plan <>s "host")
      then ["-p"; Itoa (rp_HostPort plan) +s+ ":" +s+ Itoa (rp_ContainerPort plan) +s+ "/tcp"] else [])
  ++ rp_ExtraArgs plan
  ++ match rp_Entrypoint plan with e :: _ => ["--entrypoint"; e] | [] => [] end
  ++ [rp_Image plan]
  ++ tl (rp_Entrypoint plan)
  ++ rp_Args plan.

Definition EquivalentCommandPreview (plan : ResolvedRunPlan) : string := Join (command_parts plan) " ".
End Preview.

(** ** dryrun.go

    The answers of the querier: a row's columns, or none. *)
Record DBQuerier := {
  q_node : string -> option string;
  q_gpu : string -> option (string * string * string);
  q_lease : string -> option string;
  q_port : Z -> option Z
}.

Record DryRunInput := {
  dr_NodeID : string; dr_AcceleratorIds : list string; dr_HostPort : Z; dr_RuntimeVendor : string;
  dr_ModelArtifactID : string; dr_ModelPath : string
}.

Record DryRunResult := { dres_Valid : bool; dres_Errors : list string; dres_Warnings : list string }.

Definition vendor_warning : string :=
  "Runtime vendor=custom, GPU vendor strict matching skipped. Please verify compatibility.".

Definition node_errors (db : DBQuerier) (nodeID : string) : list string :=
  if nodeID =s EmptyString then ["node_id is required"]
  else match q_node db nodeID with
       | None => ["specified node does not exist"]
       | Some status => if status <>s "online" then ["specified node is not online (status=" +s+ status +s+ ")"] else []
       end.

(** One turn of the loop over the devices: errors and warnings. *)
Definition gpu_checks (db : DBQuerier) (vendor gpuID : string) : list string * list string :=
  match q_gpu db gpuID with
  | None => (["GPU " +s+ gpuID +s+ " does not exist"], [])
  | Some (health, status, gpuVendor) =>
      ((if health <>s "healthy" then ["GPU " +s+ gpuID +s+ " health=" +s+ health +s+ " (required: healthy)"] else [])
       ++ (if status =s "unavailable" then ["GPU " +s+ gpuID +s+ " is unavailable"] else [])
       ++ match q_lease db gpuID with
          | Some lease => ["GPU " +s+ gpuID +s+ " is already reserved/active (lease " +s+ lease +s+ ")"]
          | None => []
          end
       ++ (if (vendor <>s EmptyString) && (vendor <>s "custom") && (gpuVendor <>s EmptyString) && (gpuVendor <>s vendor)
           then ["GPU " +s+ gpuID +s+ " vendor=" +s+ gpuVendor +s+ " does not match runtime vendor=" +s+ vendor] else []),
       if vendor =s "custom" then [vendor_warning] else [])
  end.

Definition ValidateDryRun (db : DBQuerier) (inp : DryRunInput) : DryRunResult :=
  let gpus := map (gpu_checks db (dr_RuntimeVendor inp)) (dr_AcceleratorIds inp) in
  let errors :=
    node_errors db (dr_NodeID inp)
    ++ (if (dr_ModelArtifactID inp <>s EmptyString) && (dr_ModelPath inp =s EmptyString)
        then ["model path is empty for the specified artifact"] else [])
    ++ concat (map fst gpus)
    ++ (if (0 <? dr_HostPort inp)%Z
        then match q_port db (dr_HostPort inp) with
             | Some _ => ["host_port " +s+ Itoa (dr_HostPort inp) +s+ " is already in use by another model instance"]
             | None => []
             end
        else []) in
  {| dres_Valid := match errors with [] => true | _ => false end; dres_Errors := errors;
     dres_Warnings := concat (map snd gpus) |}.

(** ** resource_controls.go

    A float pointer is an option. *)
Record ResourceControlDef := {
  rcd_Supported : option bool; rcd_Arg : string; rcd_Type : string; rcd_Min : option float64; rcd_Max : option float64;
  rcd_Default : any; rcd_Values : list string; rcd_ValuesHint : list string; rcd_Semantics : string; rcd_Reason : string
}.

(** [None] is the nil map. *)
Definition ResourceControlsMap : Type := option (gmap string ResourceControlDef).

(** Whether the decoder reports no error for a field of a control. *)
Definition control_field_ok (kv : string * any) : bool :=
  let named l := existsb (EqualFold kv.1) l in
  if named ["arg"; "type"; "semantics"; "reason"] then text_or_nil kv.2
  else if named ["values"; "values_hint"] then texts_or_nil kv.2
  else if named ["min"; "max"] then match kv.2 with AFloat _ | ANil => true | _ => false end
  else if named ["supported"] then match kv.2 with ABool _ | ANil => true | _ => false end
  else true.

Definition control_ok (v : any) : bool := match v with AMap m => forallb control_field_ok m | ANil => true | _ => false end.

(** A pointer is reset by null and set by a value. *)
Definition dec_pointer {A} (dec : any -> option A) (v : any) : option (option A) :=
  match v with ANil => Some None | _ => Some <$> dec v end.

Definition decode_control (v : any) : ResourceControlDef :=
  let m := default [] (as_map v) in
  {| rcd_Supported := field m "supported" (dec_pointer dec_bool) None; rcd_Arg := field m "arg" dec_str ""; rcd_Type := field m "type" dec_str "";
     rcd_Min := field m "min" (dec_pointer (fun v => match v with AFloat f => Some f | _ => None end)) None;
     rcd_Max := field m "max" (dec_pointer (fun v => match v with AFloat f => Some f | _ => None end)) None;
     rcd_Default := field m "default" Some ANil; rcd_Values := field m "values" dec_strs []; rcd_ValuesHint := field m "values_hint" dec_strs [];
     rcd_Semantics := field m "semantics" dec_str ""; rcd_Reason := field m "reason" dec_str "" |}.

(** Every error, and a map without entries, is the nil map.  No number of the text is
    out of the range of a float64. *)
Definition ParseResourceControls (vendorOptionsJSON : string) : ResourceControlsMap :=
  if (vendorOptionsJSON =s "") || (vendorOptionsJSON =s "{}") then None
  else match Unmarshal vendorOptionsJSON with
       | Some (AMap raw) =>
           match obj_get raw "resource_controls" with
           | Some (AMap ((_ :: _) as rc)) => if forallb (fun kv => control_ok kv.2) rc then Some (decode_control <$> obj_map rc) else None
           | _ => None
           end
       | _ => None
       end.

Definition unsupported (d : ResourceControlDef) : bool :=
  match rcd_Supported d with Some b => negb b | None => false end.

Definition control (rcm : ResourceControlsMap) (name : string) : option ResourceControlDef :=
  match rcm with None => None | Some m => m !! name end.

Definition ResourceControlArg (rcm : ResourceControlsMap) (name : string) : string :=
  match control rcm name with
  | None => EmptyString
  | Some d => if unsupported d then EmptyString else rcd_Arg d
  end.

Definition IsSupported (rcm : ResourceControlsMap) (name : string) : bool :=
  match control rcm name with
  | None => false
  | Some d => negb (unsupported d)
  end.

Definition numeric (v : any) : option float64 :=
  match v with
  | AFloat f => Some f
  | AInt z | AInt64 z => Some (f64_of_Z z)
  | _ => None
  end.

Definition type_name (v : any) : string :=
  match v with
  | ANil => "<nil>" | ABool _ => "bool" | AInt _ => "int" | AInt64 _ => "int64" | AFloat _ => "float64" | AStr _ => "string"
  | AList _ => "[]interface {}" | AStrs _ => "[]string" | AMap _ => "map[string]interface {}"
  end.

Definition below (d : ResourceControlDef) (f : float64) : bool :=
  match rcd_Min d with Some m => SpecFloat.SFltb f m | None => false end.
Definition above (d : ResourceControlDef) (f : float64) : bool :=
  match rcd_Max d with Some m => SpecFloat.SFltb m f | None => false end.

Definition control_of (name : string) : string := "resource control " +s+ Quote name.

Definition ValidateResourceControlValue (rcm : ResourceControlsMap) (name : string) (value : any) : string :=
  match control rcm name with
  | None => EmptyString
  | Some d =>
      if unsupported d then control_of name +s+ " is not supported for this backend: " +s+ rcd_Reason d
      else if (rcd_Type d =s "float") || (rcd_Type d =s "int") then
        match numeric value with
        | None => control_of name +s+ " expects numeric value, got " +s+ type_name value
        | Some f =>
            if below d f
            then control_of name +s+ " value " +s+ fmt_float f +s+ " below minimum " +s+ fmt_v (from_option AFloat ANil (rcd_Min d))
            else if above d f
            then control_of name +s+ " value " +s+ fmt_float f +s+ " above maximum " +s+ fmt_v (from_option AFloat ANil (rcd_Max d))
            else EmptyString
        end
      else if rcd_Type d =s "enum" then
        let sval := fmt_v value in
        match rcd_Values d with
        | [] => EmptyString
        | _ :: _ =>
            if existsb (String.eqb sval) (rcd_Values d) then EmptyString
            else control_of name +s+ " value " +s+ Quote sval +s+ " not in allowed values " +s+ bracket (rcd_Values d)
        end
      else EmptyString
  end.

Definition replaceDash (s : string) : string := ReplaceAll s "-"%char "_"%char.

Definition normalized_arg (arg : string) : string :=
  replaceDash (if (2 <? str_len arg)%Z && (str_take 2 arg =s "--") then str_drop 2 arg else arg).

(** The value a control takes: by its name, then by its flag. *)
Definition control_value (params : gmap string any) (name : string) (d : ResourceControlDef) : option any :=
  match params !! name with
  | Some v => Some v
  | None => match params !! normalized_arg (rcd_Arg d) with
            | Some v => Some v
            | None => params !! rcd_Arg d
            end
  end.

Definition control_args (params : gmap string any) (rcm : ResourceControlsMap) (nd : string * ResourceControlDef) : list string :=
  let '(name, d) := nd in
  if unsupported d || (rcd_Arg d =s EmptyString) then []
  else match control_value params name d with
       | None => []
       | Some v => if ValidateResourceControlValue rcm name v <>s EmptyString then [] else [rcd_Arg d; fmt_v v]
       end.

Definition BuildResourceControlArgs `{MR : MapRange} (params : gmap string any) (rcm : ResourceControlsMap) : list string :=
  match rcm with
  | None => []
  | Some m => if (size params =? 0)%nat then [] else concat (map (control_args params rcm) (range m))
  end.

(** ** Properties of the dry run *)

Definition gpu_free (db : DBQuerier) (vendor gpuID : string) : Prop :=
  exists status gpuVendor, q_gpu db gpuID = Some ("healthy", status, gpuVendor) /\ status <> "unavailable" /\
    q_lease db gpuID = None /\ (vendor = "" \/ vendor = "custom" \/ gpuVendor = "" \/ gpuVendor = vendor).

Lemma if_nil (b : bool) (x : string) (P : Prop) : (b = false <-> P) -> ((if b then [x] else []) = [] <-> P).
Proof. intros <-. by destruct b. Qed.

Lemma neqb_false (a b : string) : (a <>s b) = false <-> a = b.
Proof. by rewrite negb_false_iff, String.eqb_eq. Qed.

Lemma gpu_checks_nil db vendor gpuID : (gpu_checks db vendor gpuID).1 = [] <-> gpu_free db vendor gpuID.
Proof.
  unfold gpu_checks, gpu_free. destruct (q_gpu db gpuID) as [[[health status] gv]|]; cbn [fst]; [|split; [done|by intros (? & ? & ? & _)]].
  rewrite !app_nil, (if_nil _ _ _ (neqb_false health _)), (if_nil _ _ _ (String.eqb_neq status _)).
  rewrite (if_nil _ _ (vendor = "" \/ vendor = "custom" \/ gv = "" \/ gv = vendor)).
  2: { rewrite !andb_false_iff, !neqb_false. tauto. }
  split.
  - intros (-> & Hs & Hl & Hv). exists status, gv. split_and!; [done|done|by destruct (q_lease db gpuID)|done].
  - intros (s' & v' & [= -> -> ->] & Hs & -> & Hv). done.
Qed.

Lemma concat_nil {A B} (f : A -> list B) (l : list A) : concat (map f l) = [] <-> Forall (fun x => f x = []) l.
Proof.
  induction l as [|x l IH]; cbn; [by split|]. by rewrite app_nil, IH, Forall_cons.
Qed.

(** A dry run is valid exactly when the node is online, the model has a path, every
    device exists, is healthy, available, free of live leases and of the vendor, and
    no live instance holds the port. *)
Theorem ValidateDryRun_valid_iff db inp :
  dres_Valid (ValidateDryRun db inp) = true <->
  dr_NodeID inp <> "" /\ q_node db (dr_NodeID inp) = Some "online" /\
  (dr_ModelArtifactID inp = "" \/ dr_ModelPath inp <> "") /\
  Forall (gpu_free db (dr_RuntimeVendor inp)) (dr_AcceleratorIds inp) /\
  ((dr_HostPort inp <= 0)%Z \/ q_port db (dr_HostPort inp) = None).
Proof.
  unfold ValidateDryRun. cbn [dres_Valid].
  assert (forall l : list string, match l with [] => true | _ => false end = true <-> l = []) as -> by (by intros []).
  rewrite !app_nil, map_map, concat_nil. setoid_rewrite gpu_checks_nil.
  rewrite (if_nil _ _ (dr_ModelArtifactID inp = "" \/ dr_ModelPath inp <> "")).
  2: { rewrite andb_false_iff, neqb_false, String.eqb_neq. done. }
  assert (node_errors db (dr_NodeID inp) = [] <-> dr_NodeID inp <> "" /\ q_node db (dr_NodeID inp) = Some "online") as ->.
  { unfold node_errors. destruct (dr_NodeID inp =s "") eqn:E; bool_facts; [by split; [|intros []]|].
    destruct (q_node db _) as [status|]; [|by split; [|intros []]].
    rewrite (if_nil _ _ _ (neqb_false status _)). split; [by intros ->|by intros [_ [= ->]]]. }
  assert ((if (0 <? dr_HostPort inp)%Z
           then match q_port db (dr_HostPort inp) with
                | Some _ => ["host_port " +s+ Itoa (dr_HostPort inp) +s+ " is already in use by another model instance"]
                | None => []
                end else []) = [] <-> (dr_HostPort inp <= 0)%Z \/ q_port db (dr_HostPort inp) = None) as ->.
  { destruct (0 <? dr_HostPort inp)%Z eqn:E; bool_facts; [|by split; [left|]].
    destruct (q_port db (dr_HostPort inp)); split; try done; [intros [?|?]; [lia|done]|by right]. }
  tauto.
Qed.

(** The querier of the life cycle's tables, where the device columns and the ports
    come from elsewhere. *)
Definition querier (db : DB) (gpu : string -> option (string * string * string)) (port : Z -> option Z) : DBQuerier :=
  {| q_node := fun id => n_status <$> find_node db id; q_gpu := gpu;
     q_lease := fun id => l_id <$> List.find (fun l => (l_gpu l =s id) && lease_live l) (db_leases db); q_port := port |}.

Lemma existsb_app_one {A} (p : A -> bool) l x : existsb p (l ++ [x]) = existsb p l || p x.
Proof. rewrite existsb_app. cbn. by rewrite orb_false_r. Qed.

(** Leases on distinct free devices under fresh identifiers are all inserted. *)
Lemma insert_leases_free mk gids leaseIDs db :
  (forall id g, l_id (mk id g) = id /\ l_gpu (mk id g) = g) ->
  length leaseIDs = length gids -> NoDup gids -> NoDup leaseIDs ->
  Forall (fun id => id_free l_id id (db_leases db) = true) leaseIDs ->
  Forall (fun g => existsb (fun l => lease_live l && (l_gpu l =s g)) (db_leases db) = false) gids ->
  is_Some (insert_leases mk leaseIDs gids db).
Proof.
  intros Hmk. revert leaseIDs db. induction gids as [|g gids IH]; intros [|id leaseIDs] db; [by eexists|done|done|].
  intros [= Hlen] [Hg Hgs]%NoDup_cons [Hid Hids]%NoDup_cons [Hn Hnew]%Forall_cons [Hf Hfree]%Forall_cons.
  destruct (Hmk id g) as [Eid Eg]. cbn [insert_leases].
  unfold insert_lease, insert_checked, lease_insertable. rewrite Eid, Eg, Hn, Hf. cbn [negb andb mbind option_bind].
  apply IH; [done|done|done| |].
  - apply Forall_forall. intros id' Hin. pose proof (proj1 (Forall_forall _ _) Hnew _ Hin) as H. cbn.
    unfold id_free in *. rewrite existsb_app_one, negb_orb, H, Eid. cbn [andb]. apply negb_true_iff, String.eqb_neq. by intros ->.
  - apply Forall_forall. intros g' Hin. pose proof (proj1 (Forall_forall _ _) Hfree _ Hin) as H. cbn.
    rewrite existsb_app_one, H, Eg. cbn [orb]. apply andb_false_iff. right. apply String.eqb_neq. by intros ->.
Qed.

(** After a valid dry run the leases of a start on distinct devices are inserted,
    whatever fresh identifiers they get. *)
Theorem dry_run_leases_insert db gpu port inp mk leaseIDs :
  dres_Valid (ValidateDryRun (querier db gpu port) inp) = true ->
  NoDup (dr_AcceleratorIds inp) -> length leaseIDs = length (dr_AcceleratorIds inp) -> NoDup leaseIDs ->
  Forall (fun id => id_free l_id id (db_leases db) = true) leaseIDs ->
  (forall id g, l_id (mk id g) = id /\ l_gpu (mk id g) = g) ->
  is_Some (insert_leases mk leaseIDs (dr_AcceleratorIds inp) db).
Proof.
  intros (_ & _ & _ & Hfree & _)%ValidateDryRun_valid_iff Hgpus Hlen Hids Hnew Hmk.
  apply insert_leases_free; [done..|]. eapply Forall_impl; [exact Hfree|]. intros g (_ & _ & _ & _ & Hl & _).
  cbn in Hl. apply fmap_None in Hl. apply not_true_iff_false. rewrite existsb_exists. intros (l & Hin & Hp).
  pose proof (List.find_none _ _ Hl l Hin) as H. cbn in H. by rewrite andb_comm, Hp in H.
Qed.

(** ** Properties of the resource controls *)

(** A numeric value is accepted exactly when it is within the bounds that are set. *)
Lemma numeric_control_valid m name d f :
  m !! name = Some d -> unsupported d = false -> rcd_Type d = "float" \/ rcd_Type d = "int" ->
  ValidateResourceControlValue (Some m) name (AFloat f) = "" <-> below d f = false /\ above d f = false.
Proof.
  intros Hm Hu Ht. unfold ValidateResourceControlValue, control. rewrite Hm, Hu.
  assert ((rcd_Type d =s "float") || (rcd_Type d =s "int") = true) as -> by (by destruct Ht as [-> | ->]).
  cbn [numeric]. destruct (below d f); [by split; [|intros []]|]. by destruct (above d f); [split; [|intros []]|].
Qed.

Definition control_pair (params : gmap string any) (rcm : ResourceControlsMap) (pair : list string) : Prop :=
  exists name d v, control rcm name = Some d /\ unsupported d = false /\ rcd_Arg d <> "" /\
    control_value params name d = Some v /\ ValidateResourceControlValue rcm name v = "" /\ pair = [rcd_Arg d; fmt_v v].

(** The built arguments are flag and value pairs, one for each supported control
    with a flag and a valid value, whatever the order of the map. *)
Lemma BuildResourceControlArgs_pairs `{MR : MapRange} params m :
  exists pairs, BuildResourceControlArgs params (Some m) = concat pairs /\
    Forall (control_pair params (Some m)) pairs /\
    ((size params <> 0)%nat -> forall pair, control_pair params (Some m) pair -> pair ∈ pairs).
Proof.
  unfold BuildResourceControlArgs. destruct (size params =? 0)%nat eqn:E.
  - exists []. split_and!; [done|done|]. intros Hs. apply Nat.eqb_eq in E. done.
  - set (f := control_args params (Some m)).
    exists (List.filter (fun l => negb (bool_decide (l = []))) (map f (range m))). split_and!.
    + induction (range m) as [|nd l IH]; [done|]. cbn. case_bool_decide as Hd; cbn; [by rewrite Hd, IH|by rewrite IH].
    + apply Forall_forall. intros pair [Hin Hne]%list_elem_of_In%List.filter_In. apply negb_true_iff, bool_decide_eq_false in Hne.
      apply in_map_iff in Hin as ([name d] & <- & Hin%list_elem_of_In%elem_of_range).
      unfold f, control_args in *. destruct (unsupported d) eqn:Hu; [done|]. destruct (rcd_Arg d =s "") eqn:Ha; [done|]. cbn [orb] in *.
      destruct (control_value params name d) as [v|] eqn:Hv; [|done].
      destruct (ValidateResourceControlValue (Some m) name v =s "") eqn:Hok; [|done]. bool_facts.
      exists name, d, v. by split_and!.
    + intros _ pair (name & d & v & Hc & Hu & Ha & Hv & Hok & ->). apply list_elem_of_In, List.filter_In. split; [|done].
      apply in_map_iff. exists (name, d). split; [|by apply list_elem_of_In, elem_of_range].
      unfold f, control_args. rewrite Hu, Hv, Hok. apply String.eqb_neq in Ha. by rewrite Ha.
Qed.

(** A control is looked up under its name; one ill-typed field of one control leaves no
    control at all. *)
Lemma parsed_control s m name : ParseResourceControls s = Some m ->
  exists raw rc, Unmarshal s = Some (AMap raw) /\ obj_get raw "resource_controls" = Some (AMap rc) /\
    m !! name = decode_control <$> obj_get rc name /\ Forall (fun kv => control_ok kv.2 = true) rc.
Proof.
  unfold ParseResourceControls. destruct (_ || _); [done|]. destruct (Unmarshal s) as [v|]; [|done]. destruct v as [| | | | | | | |raw]; try done.
  destruct (obj_get raw "resource_controls") as [v|] eqn:E; [|done]. destruct v as [| | | | | | | |rc]; try done. destruct rc as [|kv rc]; [done|].
  destruct (forallb _ _) eqn:Ef; [|done]. intros [= <-]. exists raw, (kv :: rc). split_and!; [done..| |].
  - etrans; [apply lookup_fmap|]. f_equal. apply (obj_map_lookup (kv :: rc)).
  - by apply Forall_forall; intros x Hx%list_elem_of_In; rewrite forallb_forall in Ef; apply Ef.
Qed.

Example parsed_controls :
  let text low := jq ("{`resource_controls`: {`ctx`: {`arg`: `--ctx`, `type`: `int`, `min`: " +s+ low +s+ "}, `mem`: {`supported`: false, `arg`: `--mem`}}}") in
  (ResourceControlArg (ParseResourceControls (text "1")) "ctx", ResourceControlArg (ParseResourceControls (text "1")) "mem") = ("--ctx", "")
  /\ ResourceControlArg (ParseResourceControls (text "`1`")) "ctx" = "".
Proof. split; vm_compute; reflexivity. Qed.
