(* ===== verification/GpuProtocol.v ===== *)
(** * The protocol of the GPU collectors (internal/agent/collector)

    The lines a vendor script prints, parsed into devices and metrics (protocol.go), the
    answers of nvidia-smi (nvidia.go), and what running a script gives (external.go,
    probe.go), merged into devices with metrics by the registry (registry.go).  Running a command is a parameter of the last two.  Times are the seconds of the clock. *)
From S2P Require Import Prelude GoStrings GoNumbers GoValue GoJson GoJsonText LogClassifier.
From Stdlib Require Import SpecFloat Ascii.

(** ** Records (collector.go) *)

Record GPUDeviceInfo := {
  dv_Vendor : string; dv_Index : Z; dv_Name : string; dv_UUID : string; dv_PCIBusID : string; dv_DriverVersion : string;
  dv_MemoryTotalBytes : Z; dv_Status : string; dv_CollectedAt : Z
}.

Record GPUMetricInfo := {
  mc_Vendor : string; mc_Index : Z; mc_Name : string; mc_UUID : string;
  mc_MemoryTotalBytes : Z; mc_MemoryUsedBytes : Z; mc_MemoryFreeBytes : Z;
  mc_GPUUtilization : option float64; mc_MemoryUtilization : option float64; mc_Temperature : option float64; mc_PowerDraw : option float64;
  mc_Health : string; mc_CollectedAt : Z
}.

Record CollectorDiagnosis := {
  dg_Name : string; dg_Type : string; dg_Vendor : string; dg_Available : bool; dg_ToolPath : string; dg_Error : string; dg_CheckedAt : Z
}.

(** ** Characters *)

(** [[]rune(s)], each character as its bytes; a byte that is not UTF-8 is the replacement
    character. *)
Fixpoint runes_go (fuel : nat) (s : string) : list string :=
  match fuel, s with
  | S fuel, String _ rest =>
      match utf8_len s with
      | O => rune_error :: runes_go fuel rest
      | n => str_take n s :: runes_go fuel (str_drop n s)
      end
  | _, _ => []
  end.
Definition runes (s : string) : list string := runes_go (String.length s) s.

(** [string(runes)] *)
Definition rune_text (l : list string) : string := foldr String.append "" l.

Definition blank_rune (r : string) : bool := (r =s " ") || (r =s String (ascii_of_nat 9) "").
Definition quote_rune : string := String dquote "".

Fixpoint span_until (p : string -> bool) (l : list string) : list string * list string :=
  match l with
  | [] => ([], [])
  | r :: rest => if p r then ([], l) else let '(taken, after) := span_until p rest in (r :: taken, after)
  end.
Definition skip_blanks (l : list string) : list string := (span_until (fun r => negb (blank_rune r)) l).2.

(** A quoted value up to its closing quote, which is dropped: a backslash keeps the character after it
    from closing the value, and both stay. *)
Fixpoint quoted_value (l : list string) : option (list string * list string) :=
  match l with
  | [] => None
  | r :: rest =>
      if r =s quote_rune then Some ([], rest)
      else if r =s "\" then
        match rest with
        | [] => None
        | x :: rest => '(taken, after) ← quoted_value rest; Some (r :: x :: taken, after)
        end
      else '(taken, after) ← quoted_value rest; Some (r :: taken, after)
  end.

(** ** Keys and values *)

Definition pairs_or_error : Type := (gmap string string + string)%type.

(** [n]: the number of characters of the text. *)
Fixpoint kv_loop (fuel : nat) (n : Z) (l : list string) (result : gmap string string) : pairs_or_error :=
  match fuel with
  | O => inl result
  | S fuel =>
      match skip_blanks l with
      | [] => inl result
      | l =>
          match span_until (String.eqb "=") l with
          | (_, []) => inr ("expected '=' after key at position " +s+ Itoa n)
          | (key, _ :: l) =>
              let key := rune_text key in
              match l with
              | [] => inr ("missing value for key " +s+ Quote key)
              | r :: rest =>
                  if r =s quote_rune
                  then match quoted_value rest with
                       | None => inr ("unterminated quoted value for key " +s+ Quote key)
                       | Some (value, l) => kv_loop fuel n l (<[key := rune_text value]> result)
                       end
                  else let '(value, l) := span_until blank_rune l in kv_loop fuel n l (<[key := rune_text value]> result)
              end
          end
      end
  end.

Definition parseKeyValues (s : string) : pairs_or_error :=
  let l := runes s in kv_loop (S (length l)) (Z.of_nat (length l)) l ∅.

(** ** Lines *)

Definition kv_get (kv : gmap string string) (k : string) : string := default "" (kv !! k).
Definition stringOr (kv : gmap string string) (key def : string) : string := default def (kv !! key).

(** The first required key that is not there. *)
Definition missing_key (kv : gmap string string) (required : list string) : option string := find (fun k => bool_decide (kv !! k = None)) required.

Definition kv_uint (kv : gmap string string) (k : string) : Z := match kv !! k with Some v => (ParseUint v).1 | None => 0%Z end.

Definition parseFloatOrNil (s : string) : option float64 :=
  let s := TrimSpace s in
  if existsb (String.eqb s) [""; "null"; "N/A"; "[N/A]"; "Unknown"] then None else ParseFloat s.

Definition parseUintOrZero (s : string) : Z :=
  let s := TrimSpace s in
  if existsb (String.eqb s) [""; "N/A"; "[N/A]"] then 0%Z else match ParseUint s with (v, None) => v | _ => 0%Z end.

Definition kv_float (kv : gmap string string) (k : string) : option float64 := v ← kv !! k; parseFloatOrNil v.

Definition parse_index (kv : gmap string string) : Z + string :=
  match Atoi (kv_get kv "index") with inl z => inl z | inr e => inr ("invalid index: " +s+ NumError "Atoi" (kv_get kv "index") e) end.

Definition parseDeviceLine (kv : gmap string string) (collectedAt : Z) : GPUDeviceInfo + string :=
  match missing_key kv ["vendor"; "index"; "name"; "uuid"] with
  | Some k => inr ("DEVICE missing required field " +s+ Quote k)
  | None =>
      match parse_index kv with
      | inr e => inr e
      | inl index =>
          inl {| dv_Vendor := kv_get kv "vendor"; dv_Index := index; dv_Name := kv_get kv "name"; dv_UUID := kv_get kv "uuid";
                 dv_PCIBusID := kv_get kv "pci_bus_id"; dv_DriverVersion := kv_get kv "driver_version";
                 dv_MemoryTotalBytes := kv_uint kv "memory_total_bytes"; dv_Status := stringOr kv "status" "available"; dv_CollectedAt := collectedAt |}
      end
  end.

Definition parseMetricLine (kv : gmap string string) (collectedAt : Z) : GPUMetricInfo + string :=
  match missing_key kv ["vendor"; "index"; "uuid"] with
  | Some k => inr ("METRIC missing required field " +s+ Quote k)
  | None =>
      match parse_index kv with
      | inr e => inr e
      | inl index =>
          inl {| mc_Vendor := kv_get kv "vendor"; mc_Index := index; mc_Name := stringOr kv "name" ""; mc_UUID := kv_get kv "uuid";
                 mc_MemoryTotalBytes := kv_uint kv "memory_total_bytes"; mc_MemoryUsedBytes := kv_uint kv "memory_used_bytes";
                 mc_MemoryFreeBytes := kv_uint kv "memory_free_bytes"; mc_GPUUtilization := kv_float kv "gpu_utilization_percent";
                 mc_MemoryUtilization := kv_float kv "memory_utilization_percent"; mc_Temperature := kv_float kv "temperature_celsius";
                 mc_PowerDraw := kv_float kv "power_draw_watts"; mc_Health := stringOr kv "health" "unknown"; mc_CollectedAt := collectedAt |}
      end
  end.

(** ** Output *)

Definition lineStatus : string := "STATUS".
Definition lineDevice : string := "DEVICE".
Definition lineMetric : string := "METRIC".

Record parsed_output := { po_devices : list GPUDeviceInfo; po_metrics : list GPUMetricInfo; po_diag : CollectorDiagnosis }.

Definition status_line (kv : gmap string string) (d : CollectorDiagnosis) : CollectorDiagnosis :=
  let available := kv_get kv "ok" =s "true" in
  {| dg_Name := kv_get kv "name"; dg_Type := dg_Type d; dg_Vendor := kv_get kv "vendor"; dg_Available := available; dg_ToolPath := dg_ToolPath d;
     dg_Error := (match kv !! "message" with Some msg => if available then dg_Error d else msg | None => dg_Error d end);
     dg_CheckedAt := dg_CheckedAt d |}.

(** The type of a line and what follows its first space. *)
Definition line_parts (line : string) : option (string * string) :=
  let i := Index line " "%char in
  if (i <? 0)%Z then None else Some (str_take (Z.to_nat i) line, str_drop (S (Z.to_nat i)) line).

(** One line; the error is the text without the line number. *)
Definition parse_line (collectedAt : Z) (line : string) (st : parsed_output) : parsed_output + string :=
  match line_parts line with
  | None => inr "invalid format, expected TYPE key=value..."
  | Some (lineType, kvString) =>
      match parseKeyValues kvString with
      | inr e => inr e
      | inl kv =>
          if lineType =s lineStatus then inl {| po_devices := po_devices st; po_metrics := po_metrics st; po_diag := status_line kv (po_diag st) |}
          else if lineType =s lineDevice then
            match parseDeviceLine kv collectedAt with
            | inl d => inl {| po_devices := po_devices st ++ [d]; po_metrics := po_metrics st; po_diag := po_diag st |}
            | inr e => inr e
            end
          else if lineType =s lineMetric then
            match parseMetricLine kv collectedAt with
            | inl m => inl {| po_devices := po_devices st; po_metrics := po_metrics st ++ [m]; po_diag := po_diag st |}
            | inr e => inr e
            end
          else inr ("unknown type " +s+ Quote lineType)
      end
  end.

Fixpoint parse_lines (collectedAt : Z) (lineNo : Z) (lines : list string) (st : parsed_output) : parsed_output * option string :=
  match lines with
  | [] => (st, None)
  | line :: lines =>
      let lineNo := (lineNo + 1)%Z in
      let line := TrimSpace line in
      if (line =s "") || HasPrefix line "#" then parse_lines collectedAt lineNo lines st
      else match parse_line collectedAt line st with
           | inl st => parse_lines collectedAt lineNo lines st
           | inr e => (st, Some ("line " +s+ Itoa lineNo +s+ ": " +s+ e))
           end
  end.

(** [scanner.Err()]: a line that does not fit the buffer. *)
Definition line_too_long (output : string) : bool := existsb (fun l => max_line <=? str_len l)%Z (Split output newline).

Definition new_diagnosis (collectedAt : Z) : CollectorDiagnosis :=
  {| dg_Name := ""; dg_Type := "gpu"; dg_Vendor := ""; dg_Available := false; dg_ToolPath := ""; dg_Error := ""; dg_CheckedAt := collectedAt |}.

(** On an error no device and no metric is returned. *)
Definition ParseProtocolOutput (output : string) (collectedAt : Z) : parsed_output * option string :=
  let failed st e := ({| po_devices := []; po_metrics := []; po_diag := po_diag st |}, Some e) in
  let start := {| po_devices := []; po_metrics := []; po_diag := new_diagnosis collectedAt |} in
  match parse_lines collectedAt 0 (text_lines output) start with
  | (st, Some e) => failed st e
  | (st, None) => if line_too_long output then failed st "read output: bufio.Scanner: token too long" else (st, None)
  end.

(** ** nvidia-smi (nvidia.go) *)

Definition u64 (z : Z) : Z := (z mod 2 ^ 64)%Z.
Definition mib (z : Z) : Z := u64 (u64 (z * 1024) * 1024).

(** The fields of the lines that are not blank; an error is the text of the first line that has fewer
    than eight, or of the parser of a line. *)
Definition csv_lines (output : string) : list string := List.filter (fun l => l <>s "") (map TrimSpace (Split (TrimSpace output) newline)).

Definition parse_csv {A} (parse : list string -> A + string) (output : string) : list A + string :=
  (fix go (lines : list string) : list A + string :=
     match lines with
     | [] => inl []
     | line :: lines =>
         let fields := Split line ","%char in
         if (length fields <? 8)%nat then inr ("expected at least 8 fields, got " +s+ Itoa (Z.of_nat (length fields)) +s+ " in line: " +s+ line)
         else match parse (map TrimSpace fields) with
              | inr e => inr e
              | inl x => match go lines with inl l => inl (x :: l) | inr e => inr e end
              end
     end) (csv_lines output).

Definition csv_field (fields : list string) (i : nat) : string := default "" (fields !! i).
Definition csv_index (fields : list string) : Z + string :=
  let f := csv_field fields 0 in
  match Atoi f with inl z => inl z | inr e => inr ("invalid index '" +s+ f +s+ "': " +s+ NumError "Atoi" f e) end.

Definition parseNvidiaCSV (output : string) (collectedAt : Z) : list GPUDeviceInfo + string :=
  parse_csv (fun fields =>
    match csv_index fields with
    | inr e => inr e
    | inl index =>
        let f := csv_field fields 5 in
        match ParseUint f with
        | (_, Some e) => inr ("invalid memory.total '" +s+ f +s+ "': " +s+ NumError "ParseUint" f e)
        | (total, None) =>
            inl {| dv_Vendor := "nvidia"; dv_Index := index; dv_Name := csv_field fields 1; dv_UUID := csv_field fields 2;
                   dv_PCIBusID := csv_field fields 3; dv_DriverVersion := csv_field fields 4; dv_MemoryTotalBytes := mib total;
                   dv_Status := "available"; dv_CollectedAt := collectedAt |}
        end
    end) output.

Definition csv_float (fields : list string) (i : nat) : option float64 := f ← fields !! i; parseFloatOrNil f.

Definition parseNvidiaMetricsCSV (output : string) (collectedAt : Z) : list GPUMetricInfo + string :=
  parse_csv (fun fields =>
    match csv_index fields with
    | inr e => inr e
    | inl index =>
        inl {| mc_Vendor := "nvidia"; mc_Index := index; mc_Name := ""; mc_UUID := csv_field fields 2; mc_MemoryTotalBytes := 0;
               mc_MemoryUsedBytes := mib (parseUintOrZero (csv_field fields 6)); mc_MemoryFreeBytes := mib (parseUintOrZero (csv_field fields 7));
               mc_GPUUtilization := csv_float fields 8; mc_MemoryUtilization := csv_float fields 9; mc_Temperature := csv_float fields 10;
               mc_PowerDraw := csv_float fields 11; mc_Health := "healthy"; mc_CollectedAt := collectedAt |}
    end) output.

(** ** Commands

    [command_result]: what running a command gave, an exit code of -1 when it did not
    exit by itself; [cr_failed]: [cmd.Run] answered an error. *)
Record command_result := { cr_stdout : string; cr_stderr : string; cr_failed : bool; cr_exit : Z }.

Definition outcome_of (name vendor tool : string) (available : bool) (error : string) (now : Z) : CollectorDiagnosis :=
  {| dg_Name := name; dg_Type := "gpu"; dg_Vendor := vendor; dg_Available := available; dg_ToolPath := tool; dg_Error := error; dg_CheckedAt := now |}.

(** The collector that runs nvidia-smi itself.  [missing]: the error of [exec.LookPath], if any;
    [run_error]: the text of the error of the run. *)
Definition nvidia_query {A} (parse : string -> Z -> list A + string) (tool : string) (missing : option string) (run_error : string) (r : command_result)
    (now : Z) : list A * CollectorDiagnosis :=
  let failed e := ([], outcome_of "nvidia" "nvidia" tool false e now) in
  match missing with
  | Some e => failed ("nvidia-smi not found: " +s+ e)
  | None =>
      if cr_failed r then failed ("nvidia-smi failed: " +s+ run_error +s+ " (stderr: " +s+ cr_stderr r +s+ ")")
      else match parse (cr_stdout r) now with
           | inr e => failed ("parse nvidia-smi output: " +s+ e)
           | inl l => (l, outcome_of "nvidia" "nvidia" tool true "" now)
           end
  end.
Definition NvidiaDiscover := nvidia_query parseNvidiaCSV.
Definition NvidiaMetrics := nvidia_query parseNvidiaMetricsCSV.

(** ** Scripts (external.go, probe.go) *)
Record ExternalCommandConfig := { ec_Name : string; ec_Vendor : string; ec_DiscoverCmd : string; ec_MetricsCmd : string }.

Definition truncateStr (s : string) (maxLen : Z) : string :=
  if (str_len s <=? maxLen)%Z then s else str_take (Z.to_nat maxLen) s +s+ "...".

Definition started (cfg : ExternalCommandConfig) (now : Z) : CollectorDiagnosis :=
  outcome_of (ec_Name cfg) (ec_Vendor cfg) "" true "" now.

Definition with_outcome (name vendor : string) (available : bool) (error : string) (d : CollectorDiagnosis) : CollectorDiagnosis :=
  {| dg_Name := name; dg_Type := dg_Type d; dg_Vendor := vendor; dg_Available := available; dg_ToolPath := dg_ToolPath d; dg_Error := error;
     dg_CheckedAt := dg_CheckedAt d |}.
Definition outcome (available : bool) (error : string) (d : CollectorDiagnosis) : CollectorDiagnosis :=
  with_outcome (dg_Name d) (dg_Vendor d) available error d.

(** The same for both commands. *)
Definition handleError (r : command_result) (d : CollectorDiagnosis) : CollectorDiagnosis :=
  let stderr := truncateStr (cr_stderr r) 200 in
  if (cr_exit r =? 10)%Z then outcome false ("not_available: " +s+ stderr) d
  else if (cr_exit r =? 20)%Z then outcome (dg_Available d) ("partial_success: " +s+ stderr) d
  else outcome false ("command_failed (exit=" +s+ Itoa (cr_exit r) +s+ "): " +s+ stderr) d.

Section Scripts.
Context (run : string -> command_result).

Definition Discover (cfg : ExternalCommandConfig) (now : Z) : list GPUDeviceInfo * CollectorDiagnosis :=
  let r := run (ec_DiscoverCmd cfg) in
  let diag := started cfg now in
  if cr_failed r then ([], handleError r diag)
  else match ParseProtocolOutput (cr_stdout r) now with
       | (_, Some e) => ([], outcome false ("parse error: " +s+ e) diag)
       | (po, None) => (po_devices po, with_outcome (dg_Name (po_diag po)) (dg_Vendor (po_diag po)) (dg_Available (po_diag po)) (dg_Error (po_diag po)) diag)
       end.

Definition Metrics (cfg : ExternalCommandConfig) (now : Z) : list GPUMetricInfo * CollectorDiagnosis :=
  let r := run (ec_MetricsCmd cfg) in
  let diag := started cfg now in
  if cr_failed r then ([], handleError r diag)
  else match ParseProtocolOutput (cr_stdout r) now with
       | (_, Some e) => ([], outcome false ("parse error: " +s+ e) diag)
       | (po, None) => (po_metrics po, outcome (dg_Available (po_diag po)) (dg_Error (po_diag po)) diag)
       end.

Record ProbeResult := { pr_Vendor : string; pr_Available : bool; pr_DeviceCount : Z; pr_Error : string; pr_ExitCode : Z }.

Definition Probe (def : ExternalCommandConfig) (now : Z) : ProbeResult :=
  let r := run (ec_DiscoverCmd def) in
  let exit := if cr_failed r then cr_exit r else 0%Z in
  let result available count error :=
    {| pr_Vendor := ec_Vendor def; pr_Available := available; pr_DeviceCount := count; pr_Error := error; pr_ExitCode := exit |} in
  let stderr := truncateStr (cr_stderr r) 200 in
  if (exit =? 0)%Z then
    match ParseProtocolOutput (cr_stdout r) now with
    | (_, Some e) => result false 0%Z ("parse error: " +s+ e)
    | (po, None) =>
        match po_devices po with
        | [] => result false 0%Z "no DEVICE output from discover"
        | l => result true (Z.of_nat (length l)) ""
        end
    end
  else if (exit =? 10)%Z then result false 0%Z ("not_available: " +s+ stderr)
  else result false 0%Z ("probe failed (exit=" +s+ Itoa exit +s+ "): " +s+ stderr).
End Scripts.

(** The probes that are built in. *)
Definition builtin_probe (vendor : string) : ExternalCommandConfig :=
  {| ec_Name := vendor; ec_Vendor := vendor; ec_DiscoverCmd := "deploy/collectors/gpu/" +s+ vendor +s+ "/discover.sh";
     ec_MetricsCmd := "deploy/collectors/gpu/" +s+ vendor +s+ "/metrics.sh" |}.
Definition DefaultProbes : list ExternalCommandConfig := map builtin_probe ["nvidia"; "metax"].

(** The collectors the agent registers in its automatic mode (cmd/agent/main.go). *)
Definition auto_collectors (run : string -> command_result) (probes : list ExternalCommandConfig) (now : Z) : list ExternalCommandConfig :=
  List.filter (fun def => pr_Available (Probe run def now)) (match probes with [] => DefaultProbes | _ => probes end).

(** * The inventory of a node (internal/agent/collector)

    Devices and metrics merged into one list of GPUs (collector.go), the cycles of the
    registry, which keeps what was last collected (registry.go), and the collector
    for tests (mock_gpu.go).  A collector is what it answers in a cycle. *)
(** ** Records *)

Record FilesystemSnapshot := {
  fsn_MountPoint : string; fsn_Device : string; fsn_FSType : string; fsn_TotalBytes : Z; fsn_UsedBytes : Z; fsn_FreeBytes : Z; fsn_UsedPercent : float64
}.
Record NetworkInterfaceSnapshot := { net_Name : string; net_Addresses : list string; net_Up : bool; net_BytesRecv : Z; net_BytesSent : Z }.

Record SystemSnapshot := {
  ss_Hostname : string; ss_OS : string; ss_OSVersion : string; ss_KernelVersion : string; ss_CPUModel : string; ss_CPUCores : Z;
  ss_CPUUtilization : float64; ss_Load1 : float64; ss_Load5 : float64; ss_Load15 : float64;
  ss_MemoryTotalBytes : Z; ss_MemoryUsedBytes : Z; ss_SwapTotalBytes : Z; ss_SwapUsedBytes : Z; ss_UptimeSeconds : Z;
  ss_Filesystems : list FilesystemSnapshot; ss_NetworkInterfaces : list NetworkInterfaceSnapshot; ss_CollectedAt : Z
}.

Record GPUResource := {
  gr_Vendor : string; gr_Index : Z; gr_UUID : string; gr_Name : string; gr_PCIBusID : string; gr_DriverVersion : string;
  gr_MemoryTotalBytes : Z; gr_MemoryUsedBytes : Z; gr_MemoryFreeBytes : Z;
  gr_GPUUtilization : option float64; gr_MemUtilization : option float64; gr_Temperature : option float64; gr_PowerDraw : option float64;
  gr_Health : string; gr_Status : string; gr_CollectedAt : Z
}.

(** ** Merging *)

(** The digits of a positive number; nothing for a negative one. *)
Fixpoint itoa_loop (fuel : nat) (n : Z) (digits : string) : string :=
  match fuel with
  | O => digits
  | S fuel => if (0 <? n)%Z then itoa_loop fuel (n / 10) (String (Z_byte (48 + n mod 10)) digits) else digits
  end.
Definition itoa (i : Z) : string := if (i =? 0)%Z then "0" else itoa_loop 20 i "".

(** The key of a GPU: its UUID, its index without one. *)
Definition gpu_key (vendor uuid : string) (index : Z) : string := vendor +s+ ":" +s+ (if uuid =s "" then itoa index else uuid).
Definition device_key (d : GPUDeviceInfo) : string := gpu_key (dv_Vendor d) (dv_UUID d) (dv_Index d).
Definition metric_key (m : GPUMetricInfo) : string := gpu_key (mc_Vendor m) (mc_UUID m) (mc_Index m).
Definition UniqueKey (g : GPUResource) : string := gpu_key (gr_Vendor g) (gr_UUID g) (gr_Index g).

Definition metricByKey (metrics : list GPUMetricInfo) : gmap string GPUMetricInfo := foldl (fun acc m => <[metric_key m := m]> acc) ∅ metrics.

Definition text_or (s d : string) : string := if s =s "" then d else s.

Definition merged (d : GPUDeviceInfo) (found : option GPUMetricInfo) : GPUResource :=
  match found with
  | Some m =>
      {| gr_Vendor := dv_Vendor d; gr_Index := dv_Index d; gr_UUID := dv_UUID d; gr_Name := text_or (mc_Name m) (dv_Name d);
         gr_PCIBusID := dv_PCIBusID d; gr_DriverVersion := dv_DriverVersion d;
         gr_MemoryTotalBytes := (if (0 <? mc_MemoryTotalBytes m)%Z then mc_MemoryTotalBytes m else dv_MemoryTotalBytes d);
         gr_MemoryUsedBytes := mc_MemoryUsedBytes m; gr_MemoryFreeBytes := mc_MemoryFreeBytes m;
         gr_GPUUtilization := mc_GPUUtilization m; gr_MemUtilization := mc_MemoryUtilization m; gr_Temperature := mc_Temperature m;
         gr_PowerDraw := mc_PowerDraw m; gr_Health := text_or (mc_Health m) "unknown"; gr_Status := text_or (dv_Status d) "available";
         gr_CollectedAt := Z.max (dv_CollectedAt d) (mc_CollectedAt m) |}
  | None =>
      {| gr_Vendor := dv_Vendor d; gr_Index := dv_Index d; gr_UUID := dv_UUID d; gr_Name := dv_Name d;
         gr_PCIBusID := dv_PCIBusID d; gr_DriverVersion := dv_DriverVersion d; gr_MemoryTotalBytes := dv_MemoryTotalBytes d;
         gr_MemoryUsedBytes := 0; gr_MemoryFreeBytes := 0; gr_GPUUtilization := None; gr_MemUtilization := None; gr_Temperature := None;
         gr_PowerDraw := None; gr_Health := "unknown"; gr_Status := text_or (dv_Status d) "available"; gr_CollectedAt := dv_CollectedAt d |}
  end.

Definition of_metric (m : GPUMetricInfo) : GPUResource :=
  {| gr_Vendor := mc_Vendor m; gr_Index := mc_Index m; gr_UUID := mc_UUID m; gr_Name := mc_Name m; gr_PCIBusID := ""; gr_DriverVersion := "";
     gr_MemoryTotalBytes := mc_MemoryTotalBytes m; gr_MemoryUsedBytes := mc_MemoryUsedBytes m; gr_MemoryFreeBytes := mc_MemoryFreeBytes m;
     gr_GPUUtilization := mc_GPUUtilization m; gr_MemUtilization := mc_MemoryUtilization m; gr_Temperature := mc_Temperature m;
     gr_PowerDraw := mc_PowerDraw m; gr_Health := text_or (mc_Health m) "unknown"; gr_Status := "available"; gr_CollectedAt := mc_CollectedAt m |}.

(** A loop that skips the keys it has seen. *)
Definition once_step {A} (key : A -> string) (make : A -> GPUResource) (st : gset string * list GPUResource) (x : A) : gset string * list GPUResource :=
  let '(seen, result) := st in
  if bool_decide (key x ∈ seen) then st else (seen ∪ {[ key x ]}, result ++ [make x]).

Definition NormalizeGPUs (devices : list GPUDeviceInfo) (metrics : list GPUMetricInfo) : list GPUResource :=
  let byKey := metricByKey metrics in
  let st := foldl (once_step device_key (fun d => merged d (byKey !! device_key d))) (∅, []) devices in
  (foldl (once_step metric_key of_metric) st metrics).2.

(** ** The registry *)

Record Registry := {
  rg_lastSystem : option SystemSnapshot; rg_lastGPUDevices : list GPUDeviceInfo; rg_lastGPUMetrics : list GPUMetricInfo;
  rg_lastGPUResources : list GPUResource; rg_lastDiagnostics : list CollectorDiagnosis
}.
Definition NewRegistry : Registry :=
  {| rg_lastSystem := None; rg_lastGPUDevices := []; rg_lastGPUMetrics := []; rg_lastGPUResources := []; rg_lastDiagnostics := [] |}.

Record ResourceReport := {
  rr_AgentID : string; rr_System : option SystemSnapshot; rr_GPUDevices : list GPUDeviceInfo; rr_GPUMetrics : list GPUMetricInfo;
  rr_GPUResources : list GPUResource; rr_Diagnostics : list CollectorDiagnosis; rr_CollectedAt : Z
}.

(** What a GPU collector answers in a cycle; its metrics are asked for only when its
    devices are available. *)
Record gpu_cycle := { gc_discover : list GPUDeviceInfo * CollectorDiagnosis; gc_metrics : list GPUMetricInfo * CollectorDiagnosis }.
Definition cycle_available (c : gpu_cycle) : bool := dg_Available (gc_discover c).2.

Definition set_name (m : GPUMetricInfo) (name : string) : GPUMetricInfo :=
  {| mc_Vendor := mc_Vendor m; mc_Index := mc_Index m; mc_Name := name; mc_UUID := mc_UUID m; mc_MemoryTotalBytes := mc_MemoryTotalBytes m;
     mc_MemoryUsedBytes := mc_MemoryUsedBytes m; mc_MemoryFreeBytes := mc_MemoryFreeBytes m; mc_GPUUtilization := mc_GPUUtilization m;
     mc_MemoryUtilization := mc_MemoryUtilization m; mc_Temperature := mc_Temperature m; mc_PowerDraw := mc_PowerDraw m; mc_Health := mc_Health m;
     mc_CollectedAt := mc_CollectedAt m |}.

(** The names of the devices by UUID; a later device of a UUID wins. *)
Definition PairMetricsWithDevices (devices : list GPUDeviceInfo) (metrics : list GPUMetricInfo) : list GPUMetricInfo :=
  let nameMap : gmap string string := foldl (fun acc d => <[dv_UUID d := dv_Name d]> acc) ∅ devices in
  map (fun m => match nameMap !! mc_UUID m with Some name => set_name m name | None => m end) metrics.

Definition fresh_or {A} (fresh last : list A) : list A := match fresh with [] => last | _ => fresh end.

(** [system]: what the collectors of the host answer, a snapshot or none.  The metrics of
    the report are the slice the registry keeps, so the names written into it show in
    both. *)
Definition Collect (agentID : string) (now : Z) (system : list (option SystemSnapshot * CollectorDiagnosis)) (gpus : list gpu_cycle) (r : Registry) :
    ResourceReport * Registry :=
  let sys := foldl (fun acc s => match s.1 with Some x => Some x | None => acc end) None system in
  let lastSystem := match sys with Some _ => sys | None => rg_lastSystem r end in
  let live := List.filter cycle_available gpus in
  let devices := fresh_or (concat (map (fun c => (gc_discover c).1) live)) (rg_lastGPUDevices r) in
  let metrics := fresh_or (concat (map (fun c => (gc_metrics c).1) live)) (rg_lastGPUMetrics r) in
  let resources := fresh_or (NormalizeGPUs devices metrics) (rg_lastGPUResources r) in
  let paired := PairMetricsWithDevices devices metrics in
  let diags := map snd system ++ concat (map (fun c => (gc_discover c).2 :: (if cycle_available c then [(gc_metrics c).2] else [])) gpus) in
  ({| rr_AgentID := agentID; rr_System := lastSystem; rr_GPUDevices := devices; rr_GPUMetrics := paired; rr_GPUResources := resources;
      rr_Diagnostics := diags; rr_CollectedAt := now |},
   {| rg_lastSystem := lastSystem; rg_lastGPUDevices := devices; rg_lastGPUMetrics := paired; rg_lastGPUResources := resources;
      rg_lastDiagnostics := diags |}).

Definition GPUCount (r : Registry) : Z := Z.of_nat (length (rg_lastGPUDevices r)).

(** A cycle of the collectors that run scripts. *)
Definition external_cycle (run : string -> command_result) (now : Z) (cfg : ExternalCommandConfig) : gpu_cycle :=
  {| gc_discover := Discover run cfg now; gc_metrics := Metrics run cfg now |}.

(** ** The collector for tests (mock_gpu.go) *)

Definition gib : Z := (1024 * 1024 * 1024)%Z.

Definition mock_diagnosis (now : Z) : CollectorDiagnosis :=
  {| dg_Name := "mock_gpu"; dg_Type := "gpu"; dg_Vendor := "mock"; dg_Available := true; dg_ToolPath := ""; dg_Error := ""; dg_CheckedAt := now |}.

Definition mock_cycle (now : Z) : gpu_cycle :=
  let uuid := "GPU-mock-00000000-0000-0000-0000-000000000000" in
  {| gc_discover :=
       ([{| dv_Vendor := "mock"; dv_Index := 0; dv_Name := "Mock GPU 24GB"; dv_UUID := uuid; dv_PCIBusID := "0000:00:00.0";
            dv_DriverVersion := "mock.0.1"; dv_MemoryTotalBytes := 24 * gib; dv_Status := "available"; dv_CollectedAt := now |}], mock_diagnosis now);
     gc_metrics :=
       ([{| mc_Vendor := "mock"; mc_Index := 0; mc_Name := ""; mc_UUID := uuid; mc_MemoryTotalBytes := 0; mc_MemoryUsedBytes := 8 * gib;
            mc_MemoryFreeBytes := 16 * gib; mc_GPUUtilization := Some (f64_of_Z 45); mc_MemoryUtilization := Some (f64_of_Z 30);
            mc_Temperature := Some (f64_of_Z 55); mc_PowerDraw := Some (f64_of_Z 120); mc_Health := "healthy"; mc_CollectedAt := now |}],
        mock_diagnosis now) |}.

(** ** The collectors of an agent (cmd/agent/main.go) *)

Inductive gpu_collector := ExternalCollector (cfg : ExternalCommandConfig) | MockCollector.

(** [explicit]: the collectors of the configuration with their switch. *)
Definition gpu_collectors (run : string -> command_result) (mode profile : string) (mock_enabled : bool) (explicit : list (ExternalCommandConfig * bool))
    (probes : list ExternalCommandConfig) (now : Z) : list gpu_collector :=
  (if mode =s "disabled" then []
   else if mode =s "explicit" then map (fun d => ExternalCollector d.1) (List.filter snd explicit)
   else map ExternalCollector (auto_collectors run probes now))
  ++ (if ((profile =s "development") || (profile =s "test")) && mock_enabled then [MockCollector] else []).

Definition cycle_of (run : string -> command_result) (now : Z) (c : gpu_collector) : gpu_cycle :=
  match c with ExternalCollector cfg => external_cycle run now cfg | MockCollector => mock_cycle now end.
