(* ===== verification/GpuProtocolProps.v ===== *)
(** * The protocol of the GPU collectors is read as it is written

    A writer of status and device lines; what the parser makes of its output; and outputs
    that are read as something else than the script meant. *)
From S2P Require Import Prelude GoStrings GoNumbers GoValue GoJson GoJsonText LogClassifier GpuProtocol.
From Stdlib Require Import SpecFloat Ascii.

(** ** Characters *)

Definition is_char (c : string) : bool := (0 <? utf8_len c)%nat && (utf8_len c =? String.length c)%nat.

(** A text of well-formed characters. *)
Definition well_encoded (s : string) : bool := forallb is_char (runes s) && (rune_text (runes s) =s s).

Lemma is_char_app c t : is_char c = true -> utf8_len (c +s+ t) = String.length c.
Proof.
  unfold is_char. rewrite andb_true_iff, Nat.ltb_lt, Nat.eqb_eq. intros [H0 H]. revert H H0.
  destruct c as [|b1 [|b2 [|b3 [|b4 [|b5 c]]]]]; cbn [String.append utf8_len String.length].
  - cbn. lia.
  - by destruct (between 0 127 b1).
  - destruct (between 0 127 b1); [done|]. by destruct (between 194 223 b1).
  - destruct (between 0 127 b1); [done|]. destruct (between 194 223 b1); [by destruct (between 128 191 b2)|]. by destruct (between 224 239 b1).
  - destruct (between 0 127 b1); [done|]. destruct (between 194 223 b1); [by destruct (between 128 191 b2)|].
    destruct (between 224 239 b1); [by destruct (andb _ _)|done].
  - destruct (between 0 127 b1); [done|]. destruct (between 194 223 b1); [by destruct (between 128 191 b2)|].
    destruct (between 224 239 b1); [by destruct (andb _ _)|]. by destruct (andb _ _).
Qed.

Lemma is_char_nonempty c : is_char c = true -> 0 < String.length c.
Proof. unfold is_char. rewrite andb_true_iff, Nat.ltb_lt, Nat.eqb_eq. lia. Qed.

Lemma runes_go_enough fuel s : String.length s <= fuel -> runes_go fuel s = runes s.
Proof.
  unfold runes. remember (String.length s) as n eqn:E. revert fuel s E. induction (lt_wf n) as [n _ IH]. intros fuel s E Hf.
  destruct s as [|a s]; [cbn in E; subst n; by destruct fuel|]. destruct fuel as [|fuel]; [cbn in E; lia|]. cbn in E. subst n. cbn [runes_go].
  set (l := String a s). pose proof (utf8_len_le l) as Hl. destruct (utf8_len l) as [|k] eqn:Ek.
  - f_equal. apply (IH (String.length s)); lia.
  - f_equal. set (d := str_drop (S k) l). assert (String.length d <= String.length s) as Hd by (unfold d, l; rewrite str_drop_length; cbn; lia).
    rewrite (IH (String.length d) ltac:(lia) fuel d eq_refl) by lia. symmetry. apply (IH (String.length d)); lia.
Qed.

Lemma runes_cons c s : is_char c = true -> runes (c +s+ s) = c :: runes s.
Proof.
  intros Hc. pose proof (is_char_app c s Hc) as Hl. pose proof (is_char_nonempty c Hc) as Hn. unfold runes at 1. rewrite sapp_length.
  destruct c as [|a c]; [cbn in Hn; lia|]. cbn [String.length Nat.add]. cbn [String.append runes_go].
  change (String a (c +s+ s)) with (String a c +s+ s)%go in *. rewrite Hl. cbn [String.length].
  change (S (String.length c)) with (String.length (String a c)). rewrite str_take_app, str_drop_app. f_equal. apply runes_go_enough. lia.
Qed.

Lemma runes_text l s : forallb is_char l = true -> runes (rune_text l +s+ s) = l ++ runes s.
Proof.
  induction l as [|c l IH]; [done|]. cbn [forallb]. intros [Hc Hl]%andb_true_iff. change (rune_text (c :: l)) with (c +s+ rune_text l)%go.
  rewrite sapp_assoc, runes_cons by done. by rewrite IH.
Qed.

Lemma runes_app s t : well_encoded s = true -> runes (s +s+ t) = runes s ++ runes t.
Proof. unfold well_encoded. intros [Hc Ht%String.eqb_eq]%andb_true_iff. by rewrite <- (runes_text (runes s) t Hc), Ht. Qed.

Lemma rune_text_app a b : rune_text (a ++ b) = (rune_text a +s+ rune_text b)%go.
Proof.
  induction a as [|c a IH]; [done|]. change (rune_text ((c :: a) ++ b)) with (c +s+ rune_text (a ++ b))%go. rewrite IH.
  change (rune_text (c :: a)) with (c +s+ rune_text a)%go. by rewrite sapp_assoc.
Qed.

Lemma rune_text_runes s : well_encoded s = true -> rune_text (runes s) = s.
Proof. unfold well_encoded. by intros [_ H%String.eqb_eq]%andb_true_iff. Qed.

(** ** The writer *)

(** The scripts put a backslash before quotes and backslashes. *)
Definition escape_rune (r : string) : list string := if (r =s quote_rune) || (r =s "\") then ["\"; r] else [r].
Definition escaped (l : list string) : list string := concat (map escape_rune l).

(** A value that may stand without quotes. *)
Definition plain (l : list string) : bool := match l with [] => false | r :: _ => negb (r =s quote_rune) && forallb (fun r => negb (blank_rune r)) l end.
Definition written_value (l : list string) : list string := if plain l then l else quote_rune :: escaped l ++ [quote_rune].

Definition write_pair (kv : string * string) : string := kv.1 +s+ "=" +s+ rune_text (written_value (runes kv.2)).
Definition write_pairs (l : list (string * string)) : string := foldr (fun kv s => " " +s+ write_pair kv +s+ s) "" l.
Definition write_line (lineType : string) (l : list (string * string)) : string := lineType +s+ write_pairs l.

(** What comes back: in a quoted value the backslashes stay. *)
Definition read_value (v : string) : string := if plain (runes v) then v else rune_text (escaped (runes v)).

Definition key_ok (k : string) : bool :=
  well_encoded k && match runes k with [] => false | r :: _ => negb (blank_rune r) end && negb (existsb (String.eqb "=") (runes k)).
Definition pair_ok (kv : string * string) : bool := key_ok kv.1 && well_encoded kv.2.

(** ** Keys and values *)

Lemma span_until_stop p l r rest : forallb (fun x => negb (p x)) l = true -> p r = true -> span_until p (l ++ r :: rest) = (l, r :: rest).
Proof.
  intros Hl Hr. induction l as [|x l IH]; cbn in *; [by rewrite Hr|]. apply andb_true_iff in Hl as [Hx%negb_true_iff Hl]. by rewrite Hx, (IH Hl).
Qed.

Lemma span_until_all p l : forallb (fun x => negb (p x)) l = true -> span_until p l = (l, []).
Proof. intros Hl. induction l as [|x l IH]; cbn in *; [done|]. apply andb_true_iff in Hl as [Hx%negb_true_iff Hl]. by rewrite Hx, (IH Hl). Qed.

Lemma quoted_escaped l rest : quoted_value (escaped l ++ quote_rune :: rest) = Some (escaped l, rest).
Proof.
  induction l as [|r l IH]; [done|]. change (escaped (r :: l)) with (escape_rune r ++ escaped l). unfold escape_rune.
  destruct ((r =s quote_rune) || (r =s "\")) eqn:E; cbn [app quoted_value].
  - change ("\" =s quote_rune) with false. change ("\" =s "\") with true. cbn iota. by rewrite IH.
  - apply orb_false_iff in E as [-> ->]. by rewrite IH.
Qed.

Definition pair_runes (kv : string * string) : list string := runes kv.1 ++ "=" :: written_value (runes kv.2).
Definition pairs_runes (l : list (string * string)) : list string := concat (map (fun kv => " " :: pair_runes kv) l).
Definition read_pairs (l : list (string * string)) (acc : gmap string string) : gmap string string := foldl (fun acc kv => <[kv.1 := read_value kv.2]> acc) acc l.

Lemma skip_blanks_blank l : skip_blanks (" " :: l) = skip_blanks l.
Proof. unfold skip_blanks. cbn [span_until]. change (blank_rune " ") with true. cbn. by destruct (span_until _ l). Qed.

Lemma kv_loop_blank fuel n l acc : kv_loop (S fuel) n (" " :: l) acc = kv_loop (S fuel) n l acc.
Proof. cbn [kv_loop]. by rewrite skip_blanks_blank. Qed.

(** One pair, followed by nothing or by a blank. *)
Lemma kv_loop_pair kv rest fuel n acc :
  pair_ok kv = true -> match rest with [] => True | r :: _ => blank_rune r = true end ->
  kv_loop (S fuel) n (pair_runes kv ++ rest) acc = kv_loop fuel n rest (<[kv.1 := read_value kv.2]> acc).
Proof.
  unfold pair_ok, key_ok. destruct kv as [k v]. cbn [fst snd]. intros [[[Hek Hb]%andb_true_iff Hq%negb_true_iff]%andb_true_iff Hev]%andb_true_iff Hrest.
  unfold pair_runes. cbn [fst snd]. rewrite <- app_assoc. cbn [app]. set (w := written_value (runes v) ++ rest). cbn [kv_loop].
  destruct (runes k) as [|r0 kr] eqn:Ek; [done|]. assert (skip_blanks ((r0 :: kr) ++ "=" :: w) = r0 :: kr ++ "=" :: w) as ->.
  { unfold skip_blanks. cbn. by rewrite Hb. }
  assert (span_until (String.eqb "=") (r0 :: kr ++ "=" :: w) = (r0 :: kr, "=" :: w)) as ->.
  { apply (span_until_stop _ (r0 :: kr)); [|done]. apply forallb_forall. intros x Hx. destruct (String.eqb "=" x) eqn:E; [|done].
    rewrite <- not_true_iff_false in Hq. destruct Hq. apply existsb_exists. by exists x. }
  cbn [app]. rewrite <- Ek, (rune_text_runes _ Hek). unfold w, written_value, read_value. destruct (plain (runes v)) eqn:Ep.
  - unfold plain in Ep. destruct (runes v) as [|r1 vr] eqn:Ev; [done|]. apply andb_true_iff in Ep as [H1%negb_true_iff H2]. cbn [app]. rewrite H1.
    change (r1 :: vr ++ rest) with ((r1 :: vr) ++ rest). assert (span_until blank_rune ((r1 :: vr) ++ rest) = (r1 :: vr, rest)) as ->.
    { destruct rest as [|r2 rest]; [rewrite app_nil_r; by apply span_until_all|by apply span_until_stop]. }
    by rewrite <- Ev, (rune_text_runes _ Hev).
  - cbn [app]. change (quote_rune =s quote_rune) with true. cbn iota. rewrite <- app_assoc. cbn [app]. by rewrite quoted_escaped.
Qed.

Lemma kv_loop_pairs l fuel n acc : forallb pair_ok l = true -> length l < fuel -> kv_loop fuel n (pairs_runes l) acc = inl (read_pairs l acc).
Proof.
  revert fuel acc. induction l as [|kv l IH]; intros [|fuel] acc Hl Hf; cbn in Hf; try lia; [done|]. cbn in Hl. apply andb_true_iff in Hl as [Hk Hl].
  change (pairs_runes (kv :: l)) with (" " :: pair_runes kv ++ pairs_runes l). rewrite kv_loop_blank, kv_loop_pair by (done || by destruct l).
  apply IH; [done|lia].
Qed.

Lemma written_chars l : forallb is_char l = true -> forallb is_char (written_value l) = true.
Proof.
  intros H. unfold written_value. destruct (plain l); [done|]. change (forallb is_char (escaped l ++ [quote_rune]) = true).
  rewrite forallb_app. apply andb_true_iff. split; [|done]. induction l as [|r l IH]; [done|]. cbn [forallb] in H. apply andb_true_iff in H as [Hr H].
  change (escaped (r :: l)) with (escape_rune r ++ escaped l). rewrite forallb_app, (IH H), andb_true_r. unfold escape_rune.
  destruct (orb _ _); cbn [forallb]; by rewrite Hr.
Qed.

Lemma runes_write_pairs l : forallb pair_ok l = true -> runes (write_pairs l) = pairs_runes l.
Proof.
  induction l as [|[k v] l IH]; cbn [forallb]; [done|]. intros [[Hk Hv]%andb_true_iff Hl]%andb_true_iff. cbn [fst snd] in Hk, Hv.
  unfold write_pairs. cbn [foldr]. fold (write_pairs l). rewrite runes_cons by done. unfold write_pair. cbn [fst snd]. rewrite !sapp_assoc.
  unfold key_ok in Hk. apply andb_true_iff in Hk as [[Hk _]%andb_true_iff _]. rewrite runes_app by done. rewrite runes_cons by done.
  unfold well_encoded in Hv. apply andb_true_iff in Hv as [Hv _]. rewrite runes_text by (by apply written_chars). rewrite IH by done.
  unfold pairs_runes. cbn [map concat]. unfold pair_runes. cbn [fst snd]. cbn [app]. by rewrite <- app_assoc.
Qed.

Lemma pairs_runes_length l : 2 * length l <= length (pairs_runes l).
Proof.
  induction l as [|p ps IH]; [done|]. change (pairs_runes (p :: ps)) with (" " :: pair_runes p ++ pairs_runes ps).
  cbn [length]. rewrite length_app. unfold pair_runes. rewrite length_app. cbn [length]. lia.
Qed.

(** A line of pairs is read back: every key has the value written last for it. *)
Lemma parse_pairs kv l : forallb pair_ok (kv :: l) = true ->
  parseKeyValues (str_drop 1 (write_pairs (kv :: l))) = inl (read_pairs (kv :: l) ∅).
Proof.
  intros Hl. pose proof (runes_write_pairs _ Hl) as Hr. unfold write_pairs in Hr. cbn [foldr] in Hr. fold (write_pairs l) in Hr.
  rewrite runes_cons in Hr by done. change (str_drop 1 (write_pairs (kv :: l))) with (write_pair kv +s+ write_pairs l)%go.
  set (s := (write_pair kv +s+ write_pairs l)%go) in *. unfold parseKeyValues.
  rewrite <- (kv_loop_pairs (kv :: l) (S (length (runes s))) (Z.of_nat (length (runes s))) ∅ Hl).
  - rewrite <- Hr. by rewrite kv_loop_blank.
  - apply (f_equal length) in Hr. pose proof (pairs_runes_length (kv :: l)) as Hn. cbn [length] in *. lia.
Qed.

(** ** Clean texts *)

Definition special_rune (r : string) : bool := (r =s quote_rune) || (r =s "\").

(** Neither quotes nor backslashes, and no white space but the space: such a text comes back
    as it is. *)
Definition clean (s : string) : bool :=
  well_encoded s && negb (existsb special_rune (runes s)) && negb (any_byte (fun c => is_space c && negb (Ascii.eqb c " "%char)) s).

Lemma escaped_clean l : existsb special_rune l = false -> escaped l = l.
Proof.
  induction l as [|r l IH]; cbn [existsb]; [done|]. intros [Hr Hl]%orb_false_iff. change (escaped (r :: l)) with (escape_rune r ++ escaped l).
  rewrite (IH Hl). unfold escape_rune. unfold special_rune in Hr. by rewrite Hr.
Qed.

Lemma clean_escaped s : clean s = true -> rune_text (escaped (runes s)) = s.
Proof. unfold clean. intros [[He Hs%negb_true_iff]%andb_true_iff _]%andb_true_iff. rewrite escaped_clean by done. by apply rune_text_runes. Qed.

Lemma clean_encoded s : clean s = true -> well_encoded s = true.
Proof. unfold clean. by intros [[He _]%andb_true_iff _]%andb_true_iff. Qed.

Lemma read_clean s : clean s = true -> read_value s = s.
Proof. intros H. unfold read_value. rewrite clean_escaped by done. by destruct (plain _). Qed.

Lemma written_clean s : clean s = true -> rune_text (written_value (runes s)) = s \/ rune_text (written_value (runes s)) = (quote_rune +s+ s +s+ quote_rune)%go.
Proof.
  intros H. unfold written_value. destruct (plain _); [left; by apply rune_text_runes, clean_encoded|right].
  change (rune_text (quote_rune :: ?l)) with (quote_rune +s+ rune_text l)%go. rewrite rune_text_app, clean_escaped by done. reflexivity.
Qed.

Lemma clean_no_newline s : clean s = true -> any_byte (Ascii.eqb newline) s = false.
Proof.
  unfold clean. intros [_ H%negb_true_iff]%andb_true_iff. induction s as [|c s IH]; [done|]. cbn [any_byte] in *. apply orb_false_iff in H as [Hc H].
  rewrite (IH H), orb_false_r. destruct (Ascii.eqb_spec newline c) as [<-|]; [done|done].
Qed.

Lemma written_no_newline s : clean s = true -> any_byte (Ascii.eqb newline) (rune_text (written_value (runes s))) = false.
Proof. intros H. destruct (written_clean s H) as [-> | ->]; rewrite ?any_byte_app, (clean_no_newline s H); done. Qed.

(** *** Numerals *)

Lemma digit_char c : is_digit c = true -> is_char (String c "") = true /\ blank_rune (String c "") = false /\ special_rune (String c "") = false.
Proof. destruct c as [[] [] [] [] [] [] [] []]; by vm_compute. Qed.

Lemma digits_runes s : any_byte non_digit s = false ->
  forallb (fun r => is_char r && negb (blank_rune r) && negb (special_rune r)) (runes s) = true /\ rune_text (runes s) = s.
Proof.
  induction s as [|c s IH]; [done|]. cbn [any_byte]. unfold non_digit at 1. intros [Hc%negb_false_iff Hs]%orb_false_iff. destruct (IH Hs) as [H1 H2].
  destruct (digit_char c Hc) as (Hk & Hb & Hq). change (String c s) with (String c "" +s+ s)%go. rewrite (runes_cons _ _ Hk). cbn [forallb].
  rewrite Hk, Hb, Hq, H1. split; [done|]. change (rune_text (?a :: ?l)) with (a +s+ rune_text l)%go. by rewrite H2.
Qed.

Lemma numeral n : (0 <= n)%Z -> clean (Itoa n) = true /\ plain (runes (Itoa n)) = true.
Proof.
  intros Hn. pose proof (Itoa_digits n Hn) as Hd. destruct (digits_runes _ Hd) as [H1 H2]. rewrite forallb_forall in H1. split.
  - unfold clean, well_encoded. rewrite H2, String.eqb_refl, andb_true_r. rewrite !andb_true_iff, !negb_true_iff. split_and!.
    + apply forallb_forall. intros r Hr. by destruct (andb_prop _ _ (H1 r Hr)) as [[]%andb_prop _].
    + apply not_true_iff_false. intros (r & Hr & Hs)%existsb_exists. specialize (H1 r Hr). rewrite Hs in H1. by rewrite andb_false_r in H1.
    + clear -Hd. induction (Itoa n) as [|c s IH]; [done|]. cbn [any_byte] in *. apply orb_false_iff in Hd as [Hc Hs]. rewrite (IH Hs), orb_false_r.
      unfold non_digit in Hc. apply negb_false_iff in Hc. destruct (digit_not_special c Hc) as (_ & -> & _). done.
  - destruct (Itoa_head n Hn) as (c & s & E & Hc). rewrite E in *. change (String c s) with (String c "" +s+ s)%go in *.
    destruct (digit_char c Hc) as (Hk & _). rewrite (runes_cons _ _ Hk) in *. unfold plain. apply andb_true_iff. split.
    + specialize (H1 (String c "") (or_introl eq_refl)). apply andb_prop in H1 as [_ H1]. unfold special_rune in H1. by destruct (_ =s quote_rune).
    + apply forallb_forall. intros r Hr. by destruct (andb_prop _ _ (H1 r Hr)) as [[]%andb_prop _].
Qed.

Lemma decimal_Itoa n : (0 <= n)%Z -> decimal_digits (Itoa n) = true /\ digits_Z (Itoa n) = n.
Proof.
  intros Hn. split.
  - unfold decimal_digits. pose proof (Itoa_digits n Hn : any_byte (fun c => negb (is_digit c)) _ = false) as ->.
    by destruct (Itoa_head n Hn) as (c & s & -> & _).
  - unfold digits_Z. destruct (scan_digits_Itoa n "" Hn I) as [d Hd]. rewrite sapp_nil_r in Hd. by rewrite Hd.
Qed.

Lemma Atoi_Itoa n : (0 <= n < 2 ^ 63)%Z -> Atoi (Itoa n) = inl n.
Proof.
  intros Hn. destruct (decimal_Itoa n ltac:(lia)) as [H1 H2]. unfold Atoi.
  assert (match Itoa n with String "-"%char r => (true, r) | String "+"%char r => (false, r) | _ => (false, Itoa n) end = (false, Itoa n)) as ->.
  { destruct (Itoa_head n ltac:(lia)) as (c & s & -> & Hc). destruct c as [[] [] [] [] [] [] [] []]; done. }
  rewrite H1, H2. cbn [negb]. unfold in_int64. rewrite (proj2 (Z.leb_le _ _)), (proj2 (Z.ltb_lt _ _)) by lia. done.
Qed.

Lemma ParseUint_Itoa n : (0 <= n < 2 ^ 64)%Z -> ParseUint (Itoa n) = (n, None).
Proof.
  intros Hn. destruct (decimal_Itoa n ltac:(lia)) as [H1 H2]. unfold ParseUint. rewrite H1, H2. cbn [negb].
  destruct (Z.leb_spec (2 ^ 64) n); [lia|done].
Qed.

(** ** Devices *)

Definition device_pairs (d : GPUDeviceInfo) : list (string * string) :=
  [("vendor", dv_Vendor d); ("index", Itoa (dv_Index d)); ("uuid", dv_UUID d); ("name", dv_Name d); ("pci_bus_id", dv_PCIBusID d);
   ("driver_version", dv_DriverVersion d); ("status", dv_Status d); ("memory_total_bytes", Itoa (dv_MemoryTotalBytes d))].
Definition device_line (d : GPUDeviceInfo) : string := write_line lineDevice (device_pairs d).
Definition status_pairs (vendor name : string) : list (string * string) := [("vendor", vendor); ("name", name); ("ok", "true")].
Definition status_line_of (vendor name : string) : string := write_line lineStatus (status_pairs vendor name).

Definition write_lines (lines : list string) : string := foldr (fun l s => l +s+ String newline s) "" lines.
Definition write_output (vendor name : string) (devices : list GPUDeviceInfo) : string :=
  write_lines (map device_line devices ++ [status_line_of vendor name]).

(** The texts are clean, the numbers are of their width and the line fits the buffer. *)
Record device_ok (d : GPUDeviceInfo) : Prop := {
  do_texts : forallb clean [dv_Vendor d; dv_UUID d; dv_Name d; dv_PCIBusID d; dv_DriverVersion d; dv_Status d] = true;
  do_index : (0 <= dv_Index d < 2 ^ 63)%Z;
  do_memory : (0 <= dv_MemoryTotalBytes d < 2 ^ 64)%Z;
  do_length : (str_len (device_line d) < max_line)%Z
}.

Definition device_at (now : Z) (d : GPUDeviceInfo) : GPUDeviceInfo :=
  {| dv_Vendor := dv_Vendor d; dv_Index := dv_Index d; dv_Name := dv_Name d; dv_UUID := dv_UUID d; dv_PCIBusID := dv_PCIBusID d;
     dv_DriverVersion := dv_DriverVersion d; dv_MemoryTotalBytes := dv_MemoryTotalBytes d; dv_Status := dv_Status d; dv_CollectedAt := now |}.

Lemma device_values d : device_ok d -> forallb (fun kv => clean kv.2) (device_pairs d) = true.
Proof.
  intros [Ht Hi Hm _]. cbn [forallb] in Ht. cbn [device_pairs forallb snd]. repeat (apply andb_prop in Ht as [? Ht]).
  rewrite (proj1 (numeral (dv_Index d) ltac:(lia))), (proj1 (numeral (dv_MemoryTotalBytes d) ltac:(lia))). rewrite !andb_true_iff. by split_and!.
Qed.

(** Literal keys. *)
Lemma pairs_ok l : forallb (fun kv => key_ok kv.1) l = true -> forallb (fun kv => clean kv.2) l = true -> forallb pair_ok l = true.
Proof.
  rewrite !forallb_forall. intros Hk Hv kv Hin. unfold pair_ok. rewrite (Hk kv Hin). cbn. by apply clean_encoded, Hv.
Qed.

Lemma read_pairs_clean l acc : forallb (fun kv => clean kv.2) l = true -> read_pairs l acc = foldl (fun acc kv => <[kv.1 := kv.2]> acc) acc l.
Proof.
  revert acc. induction l as [|kv l IH]; intros acc; [done|]. cbn [forallb]. intros [Hv Hl]%andb_true_iff. cbn [read_pairs foldl].
  rewrite (read_clean _ Hv). by apply IH.
Qed.

Lemma parse_device_pairs d now : device_ok d -> parseDeviceLine (read_pairs (device_pairs d) ∅) now = inl (device_at now d).
Proof.
  intros H. rewrite read_pairs_clean by (by apply device_values). cbn [device_pairs foldl fst snd]. set (kv := <[_ := _]> _).
  assert (forall k v, find (fun p => p.1 =s k) (device_pairs d) = Some (k, v) -> kv !! k = Some v) as Hkv.
  { intros k v. unfold kv, device_pairs. cbn [find fst].
    repeat (match goal with |- context [(?a =s k)] => destruct (String.eqb_spec a k) as [<-|] end; [intros [= <-]; by simplify_map_eq|]). done. }
  unfold parseDeviceLine, missing_key, parse_index, kv_get, kv_uint, stringOr. cbn [find].
  rewrite (Hkv "vendor" _ eq_refl), (Hkv "index" _ eq_refl), (Hkv "name" _ eq_refl), (Hkv "uuid" _ eq_refl), (Hkv "pci_bus_id" _ eq_refl),
    (Hkv "driver_version" _ eq_refl), (Hkv "status" _ eq_refl), (Hkv "memory_total_bytes" _ eq_refl).
  rewrite !bool_decide_eq_false_2 by done. cbn [default]. unfold default, from_option, id.
  rewrite (Atoi_Itoa _ (do_index _ H)), (ParseUint_Itoa _ (do_memory _ H)). done.
Qed.

(** ** Lines *)

Definition ends_in (line : string) : Prop := exists s c, line = (s +s+ String c "")%go /\ is_space c = false.

Lemma TrimRight_ends p s c : p c = false -> TrimRightFunc p (s +s+ String c "") = (s +s+ String c "")%go.
Proof.
  intros Hc. induction s as [|x s IH]; cbn; [by rewrite Hc|]. rewrite IH. by destruct (s +s+ String c "")%go eqn:E; [destruct s|].
Qed.

Lemma TrimSpace_ends c0 line : is_space c0 = false -> ends_in (String c0 line) -> TrimSpace (String c0 line) = String c0 line.
Proof.
  intros H0 (s & c & E & Hc). unfold TrimSpace. rewrite TrimLeftFunc_fix by done. rewrite E. by apply TrimRight_ends.
Qed.

Lemma ends_in_app s t : ends_in t -> ends_in (s +s+ t)%go.
Proof. intros (a & c & -> & Hc). exists (s +s+ a)%go, c. by rewrite sapp_assoc. Qed.

Lemma drop_cr_ends line : ends_in line -> drop_cr line = line.
Proof.
  intros (s & c & -> & Hc). unfold drop_cr. destruct (HasSuffix _ _) eqn:E; [|done]. exfalso. unfold HasSuffix in E. apply andb_true_iff in E as [_ E%String.eqb_eq].
  rewrite sapp_length in E. cbn [String.length] in E. replace (String.length s + 1 - 1) with (String.length s) in E by lia. rewrite str_drop_app in E.
  injection E as ->. by vm_compute in Hc.
Qed.

Record line_ok (line : string) : Prop := {
  lo_ends : ends_in line;
  lo_newline : any_byte (Ascii.eqb newline) line = false;
  lo_fits : (str_len line < max_line)%Z
}.

Lemma Split_lines lines : Forall line_ok lines -> Split (write_lines lines) newline = lines ++ [""].
Proof.
  induction 1 as [|l lines [_ Hn _] _ IH]; [done|]. unfold write_lines. cbn [foldr]. fold (write_lines lines). rewrite Split_app_sep by done. by rewrite IH.
Qed.

Lemma text_lines_written lines : Forall line_ok lines -> text_lines (write_lines lines) = lines /\ line_too_long (write_lines lines) = false.
Proof.
  intros H. unfold text_lines, line_too_long. rewrite (Split_lines _ H). split.
  - induction H as [|l lines [He _ Hf] H IH]; [done|]. cbn [app]. destruct (lines ++ [""]) as [|l1 rest] eqn:E; [by destruct lines|].
    change (scan_lines (l :: l1 :: rest)) with (if (max_line <=? str_len l)%Z then [] else drop_cr l :: scan_lines (l1 :: rest)).
    rewrite <- E. destruct (Z.leb_spec max_line (str_len l)); [lia|]. rewrite E, IH. by rewrite drop_cr_ends.
  - rewrite existsb_app. apply orb_false_iff. split; [|done]. apply not_true_iff_false. intros (l & Hl%list_elem_of_In & Hm)%existsb_exists.
    rewrite Forall_forall in H. pose proof (lo_fits _ (H l Hl)). lia.
Qed.

(** A written line ends in what its last value ends in. *)
Lemma write_line_ends lineType l k v : ends_in v -> plain (runes v) = true -> well_encoded v = true -> ends_in (write_line lineType (l ++ [(k, v)])).
Proof.
  intros He Hp Hw. unfold write_line. apply ends_in_app. induction l as [|kv l IH].
  - unfold write_pairs. cbn [app foldr]. rewrite sapp_nil_r. apply ends_in_app. unfold write_pair. cbn [fst snd]. do 2 apply ends_in_app.
    unfold written_value. by rewrite Hp, rune_text_runes.
  - unfold write_pairs. cbn [app foldr]. by do 2 apply ends_in_app.
Qed.

Lemma write_line_newline lineType l : any_byte (Ascii.eqb newline) lineType = false -> forallb (fun kv => negb (any_byte (Ascii.eqb newline) kv.1)) l = true ->
  forallb (fun kv => clean kv.2) l = true -> any_byte (Ascii.eqb newline) (write_line lineType l) = false.
Proof.
  intros Ht Hk Hv. unfold write_line. rewrite any_byte_app, Ht. cbn [orb]. induction l as [|kv l IH]; [done|]. cbn [forallb] in Hk, Hv.
  apply andb_prop in Hk as [Hk%negb_true_iff Hks]. apply andb_prop in Hv as [Hv Hvs]. unfold write_pairs. cbn [foldr]. fold (write_pairs l).
  rewrite !any_byte_app, (IH Hks Hvs). unfold write_pair. rewrite !any_byte_app, Hk, written_no_newline by done. done.
Qed.

Lemma numeral_ends n : (0 <= n)%Z -> ends_in (Itoa n).
Proof.
  intros Hn. pose proof (Itoa_digits n Hn) as Hd. destruct (Itoa_head n Hn) as (c & s & E & _). rewrite E in *. clear E. revert c Hd.
  induction s as [|c' s IH]; intros c Hd; cbn [any_byte] in Hd; apply orb_false_iff in Hd as [Hc Hd].
  - exists "", c. split; [done|]. unfold non_digit in Hc. apply negb_false_iff in Hc. by destruct (digit_not_special c Hc) as (_ & ? & _).
  - apply (ends_in_app (String c "")). by apply IH.
Qed.

Lemma device_line_ok d : device_ok d -> line_ok (device_line d).
Proof.
  intros H. pose proof (device_values d H) as Hv. destruct (numeral (dv_MemoryTotalBytes d) (proj1 (do_memory _ H))) as [Hc Hp]. split; [| |apply H].
  - apply (write_line_ends lineDevice (take 7 (device_pairs d)) "memory_total_bytes"); [by apply numeral_ends, H|done|by apply clean_encoded].
  - by apply write_line_newline.
Qed.

Lemma status_line_ok vendor name : clean vendor = true -> clean name = true -> (str_len (status_line_of vendor name) < max_line)%Z -> line_ok (status_line_of vendor name).
Proof.
  intros Hv Hn Hl. split; [| |done].
  - apply (write_line_ends lineStatus [("vendor", vendor); ("name", name)] "ok" "true"); [by exists "tru", "e"%char|done|done].
  - apply write_line_newline; [done|done|]. cbn [status_pairs forallb snd]. by rewrite Hv, Hn.
Qed.

(** ** The round trip *)

Definition written_diagnosis (vendor name : string) (now : Z) : CollectorDiagnosis :=
  {| dg_Name := name; dg_Type := "gpu"; dg_Vendor := vendor; dg_Available := true; dg_ToolPath := ""; dg_Error := ""; dg_CheckedAt := now |}.

Lemma parse_device_line now d st : device_ok d ->
  parse_line now (device_line d) st = inl {| po_devices := po_devices st ++ [device_at now d]; po_metrics := po_metrics st; po_diag := po_diag st |}.
Proof.
  intros H. unfold parse_line. change (line_parts (device_line d)) with (Some ("DEVICE", str_drop 1 (write_pairs (device_pairs d)))).
  unfold device_pairs at 1. rewrite parse_pairs by (by apply pairs_ok; [|apply device_values]). fold (device_pairs d).
  change ("DEVICE" =s lineStatus) with false. change ("DEVICE" =s lineDevice) with true. cbn iota. by rewrite parse_device_pairs.
Qed.

Lemma parse_status_line now vendor name st : clean vendor = true -> clean name = true ->
  parse_line now (status_line_of vendor name) st
  = inl {| po_devices := po_devices st; po_metrics := po_metrics st; po_diag := status_line (foldl (fun acc kv => <[kv.1 := kv.2]> acc) ∅ (status_pairs vendor name)) (po_diag st) |}.
Proof.
  intros Hv Hn. unfold parse_line.
  change (line_parts (status_line_of vendor name)) with (Some ("STATUS", str_drop 1 (write_pairs (status_pairs vendor name)))).
  assert (forallb (fun kv => clean kv.2) (status_pairs vendor name) = true) as Hc by (cbn [status_pairs forallb snd]; by rewrite Hv, Hn).
  unfold status_pairs at 1. rewrite parse_pairs by (by apply pairs_ok). fold (status_pairs vendor name). by rewrite read_pairs_clean.
Qed.

(** A line that starts with a letter is parsed as it stands. *)
Lemma parse_lines_cons now k line lines st :
  ends_in line -> match line with String c _ => is_space c = false /\ c <> "#"%char | "" => False end ->
  parse_lines now k (line :: lines) st
  = match parse_line now line st with
    | inl st => parse_lines now (k + 1) lines st
    | inr e => (st, Some ("line " +s+ Itoa (k + 1) +s+ ": " +s+ e)%go)
    end.
Proof.
  destruct line as [|c line]; [done|]. intros He [Hc Hh]. cbn [parse_lines]. rewrite TrimSpace_ends by done.
  assert (HasPrefix (String c line) "#" = false) as -> by (unfold HasPrefix; cbn; by case_match; [congruence|]). done.
Qed.

Lemma parse_lines_devices now ds lines k st : Forall device_ok ds ->
  parse_lines now k (map device_line ds ++ lines) st
  = parse_lines now (k + Z.of_nat (length ds)) lines
      {| po_devices := po_devices st ++ map (device_at now) ds; po_metrics := po_metrics st; po_diag := po_diag st |}.
Proof.
  intros H. revert k st. induction H as [|d ds Hd _ IH]; intros k st.
  - cbn. rewrite app_nil_r, Z.add_0_r. by destruct st.
  - cbn [map app]. rewrite parse_lines_cons by (done || exact (lo_ends _ (device_line_ok d Hd))).
    rewrite parse_device_line by done. rewrite IH. cbn [po_devices po_metrics po_diag]. rewrite <- app_assoc. cbn [length]. f_equal. lia.
Qed.

Lemma written_output_read vendor name devices now :
  Forall device_ok devices -> clean vendor = true -> clean name = true -> (str_len (status_line_of vendor name) < max_line)%Z ->
  ParseProtocolOutput (write_output vendor name devices) now
  = ({| po_devices := map (device_at now) devices; po_metrics := []; po_diag := written_diagnosis vendor name now |}, None).
Proof.
  intros Hd Hv Hn Hl. pose proof (status_line_ok vendor name Hv Hn Hl) as Hs. unfold ParseProtocolOutput, write_output.
  destruct (text_lines_written (map device_line devices ++ [status_line_of vendor name])) as [-> ->].
  { apply Forall_app. split; [|by apply Forall_singleton]. apply Forall_map. eapply Forall_impl; [exact Hd|]. apply device_line_ok. }
  rewrite parse_lines_devices by done. rewrite parse_lines_cons by (done || exact (lo_ends _ Hs)).
  rewrite parse_status_line by done. cbn [parse_lines po_devices po_metrics po_diag app]. do 2 f_equal.
Qed.

(** The output of a script that writes its devices, each text clean, and a status is
    read back: the same devices, the vendor and the name, available. *)
Theorem protocol_round_trip vendor name devices now :
  Forall device_ok devices -> clean vendor = true -> clean name = true -> (str_len (status_line_of vendor name) < max_line)%Z ->
  ParseProtocolOutput (write_output vendor name devices) now
  = ({| po_devices := map (device_at now) devices; po_metrics := []; po_diag := written_diagnosis vendor name now |}, None).
Proof. apply written_output_read. Qed.

(** ** Concrete outputs *)

Definition demo_device : GPUDeviceInfo :=
  {| dv_Vendor := "nvidia"; dv_Index := 0; dv_Name := "NVIDIA RTX 5090"; dv_UUID := "GPU-1"; dv_PCIBusID := "00:01.0"; dv_DriverVersion := "";
     dv_MemoryTotalBytes := 34359738368; dv_Status := "available"; dv_CollectedAt := 0 |}.

Lemma demo_device_ok : device_ok demo_device.
Proof. split; try (cbn; lia); vm_compute; reflexivity. Qed.

Lemma demo_status_fits : (str_len (status_line_of "nvidia" "nvidia") < max_line)%Z.
Proof. vm_compute. reflexivity. Qed.

Lemma protocol_round_trip_witness :
  device_ok demo_device /\
  ParseProtocolOutput (write_output "nvidia" "nvidia" [demo_device]) 7
  = ({| po_devices := map (device_at 7) [demo_device]; po_metrics := []; po_diag := written_diagnosis "nvidia" "nvidia" 7 |}, None).
Proof.
  split; [exact demo_device_ok|].
  exact (protocol_round_trip "nvidia" "nvidia" [demo_device] 7 (Forall_cons_2 _ _ _ demo_device_ok (Forall_nil_2 _)) eq_refl eq_refl demo_status_fits).
Defined.

Definition parsed_names (output : string) : list string * option string :=
  let '(po, e) := ParseProtocolOutput output 0 in (map dv_Name (po_devices po), e).

(** The scripts put a backslash before a quote of a name; it is not taken off again. *)
Example escapes_stay :
  parsed_names (jq ("DEVICE vendor=x index=0 uuid=u name=`A \`B\` C`" +s+ String newline "STATUS vendor=x ok=true")) = (["A \" +s+ jq "`B\` C"], None).
Proof. vm_compute. reflexivity. Qed.

(** A number that is too large is the largest one, not zero as for other texts. *)
Example memory_saturates :
  map (fun v => (fun d => dv_MemoryTotalBytes d) <$> po_devices (ParseProtocolOutput ("DEVICE vendor=x index=0 uuid=u name=n memory_total_bytes=" +s+ v) 0).1)
    ["null"; "99999999999999999999"] = [[0%Z]; [18446744073709551615%Z]].
Proof. vm_compute. reflexivity. Qed.

(** One line that is not understood hides every device of the output. *)
Example one_bad_line :
  parsed_names ("DEVICE vendor=x index=0 uuid=u name=n" +s+ String newline "warning: no fan") = ([], Some "line 2: expected '=' after key at position 6").
Proof. vm_compute. reflexivity. Qed.

Definition one_script (output : string) : string -> command_result :=
  fun _ => {| cr_stdout := output; cr_stderr := ""; cr_failed := false; cr_exit := 0 |}.

(** A script without a status line passes the probe, but its devices are never
    available; and the name of its collector is lost. *)
Example probe_without_status :
  let run := one_script "DEVICE vendor=x index=0 uuid=u name=n" in
  let cfg := builtin_probe "x" in
  (pr_Available (Probe run cfg 0), dg_Available (Discover run cfg 0).2, dg_Name (Discover run cfg 0).2) = (true, false, "").
Proof. vm_compute. reflexivity. Qed.

(** The status line of the scripts names no collector: the name of the diagnosis is emptied. *)
Example status_clears_name :
  let run := one_script "STATUS vendor=nvidia ok=true message=ok" in dg_Name (Discover run (builtin_probe "nvidia") 0).2 = "".
Proof. vm_compute. reflexivity. Qed.
