(* ===== verification/GpuReport.v ===== *)
(** * Resource reports (internal/server/api/resource_handlers.go)

    What the server makes of the report of an agent: the host tables, the node's
    life, its GPUs; the marking of stale GPUs and the read handlers.  Which
    unsigned numbers the database driver takes is a parameter, as are the texts of
    times and the order of equal rows. *)
From S2P Require Import Prelude GoStrings GoNumbers GoValue GoJson Store AgentTasks Deployments GpuProtocol.
From Stdlib Require Import SpecFloat.

(** ** Requests *)

Record GPUResourceReq := {
  gq_Vendor : string; gq_Index : Z; gq_UUID : string; gq_Name : string; gq_PCIBusID : string; gq_DriverVersion : string;
  gq_MemoryTotalBytes : Z; gq_MemoryUsedBytes : Z; gq_MemoryFreeBytes : Z;
  gq_GPUUtilization : option float64; gq_MemUtilization : option float64; gq_Temperature : option float64; gq_PowerDraw : option float64;
  gq_Health : string; gq_Status : string; gq_CollectedAt : string
}.

Record ResourceReportRequest := { rq_AgentID : string; rq_System : option SystemSnapshot; rq_GPUResources : list GPUResourceReq }.

(** ** The host tables *)

Record system_row := {
  sy_node : string; sy_cpu : string; sy_memory_total : Z; sy_memory_used : Z; sy_swap_total : Z; sy_swap_used : Z; sy_uptime : string; sy_cores : Z;
  sy_load1 : string; sy_load5 : string; sy_load15 : string; sy_collected : string
}.
Record filesystem_row := {
  fy_node : string; fy_mount : string; fy_device : string; fy_type : string; fy_total : Z; fy_used : Z; fy_free : Z; fy_percent : string;
  fy_collected : string
}.
Record network_row := { ny_node : string; ny_name : string; ny_up : bool; ny_recv : Z; ny_sent : Z; ny_collected : string }.

Record host_tables := { ht_system : list system_row; ht_filesystems : list filesystem_row; ht_networks : list network_row }.

(** [INSERT OR REPLACE]: the row of the key goes, the new one is added. *)
Definition replace_row {A} (same : A -> A -> bool) (r : A) (rows : list A) : list A := delete_where (same r) rows ++ [r].

(** ["%.nf"]: the digits are rounded to the nearest, halves to even. *)
Definition pad_zeros (n : nat) (s : string) : string := zeros (n - String.length s) +s+ s.
Definition fmt_fixed (n : nat) (f : float64) : string :=
  let decimal (neg : bool) num den :=
    let scaled := (num * 10 ^ Z.of_nat n)%Z in
    let q := (scaled / den)%Z in
    let r := (2 * (scaled - q * den))%Z in
    let t := if (den <? r)%Z || ((den =? r)%Z && Z.odd q) then (q + 1)%Z else q in
    (if neg then "-" else "") +s+ Itoa (t / 10 ^ Z.of_nat n) +s+ "." +s+ pad_zeros n (Itoa (t mod 10 ^ Z.of_nat n)) in
  match f with
  | S754_nan => "NaN"
  | S754_infinity s => if s then "-Inf" else "+Inf"
  | S754_zero s => decimal s 0%Z 1%Z
  | S754_finite s m e => if (0 <=? e)%Z then decimal s (Zpos m * 2 ^ e)%Z 1%Z else decimal s (Zpos m) (2 ^ (- e))%Z
  end.

Section Report.
Context (driver_takes : Z -> bool) (rfc3339 : Z -> string).

Definition take_all (l : list Z) : bool := forallb driver_takes l.

Definition save_system (nodeID : string) (now : Z) (sys : SystemSnapshot) (rows : list system_row) : list system_row :=
  if take_all [ss_MemoryTotalBytes sys; ss_MemoryUsedBytes sys; ss_SwapTotalBytes sys; ss_SwapUsedBytes sys]
  then rows ++ [{| sy_node := nodeID; sy_cpu := fmt_fixed 1 (ss_CPUUtilization sys); sy_memory_total := ss_MemoryTotalBytes sys;
                   sy_memory_used := ss_MemoryUsedBytes sys; sy_swap_total := ss_SwapTotalBytes sys; sy_swap_used := ss_SwapUsedBytes sys;
                   sy_uptime := Itoa (ss_UptimeSeconds sys); sy_cores := ss_CPUCores sys; sy_load1 := fmt_fixed 2 (ss_Load1 sys);
                   sy_load5 := fmt_fixed 2 (ss_Load5 sys); sy_load15 := fmt_fixed 2 (ss_Load15 sys); sy_collected := rfc3339 now |}]
  else rows.

Definition save_filesystem (nodeID : string) (now : Z) (rows : list filesystem_row) (f : FilesystemSnapshot) : list filesystem_row :=
  if fsn_MountPoint f =s "" then rows
  else if take_all [fsn_TotalBytes f; fsn_UsedBytes f; fsn_FreeBytes f]
  then replace_row (fun r r' => (fy_node r =s fy_node r') && (fy_mount r =s fy_mount r'))
         {| fy_node := nodeID; fy_mount := fsn_MountPoint f; fy_device := fsn_Device f; fy_type := fsn_FSType f; fy_total := fsn_TotalBytes f;
            fy_used := fsn_UsedBytes f; fy_free := fsn_FreeBytes f; fy_percent := fmt_fixed 1 (fsn_UsedPercent f); fy_collected := rfc3339 now |} rows
  else rows.

Definition save_network (nodeID : string) (now : Z) (rows : list network_row) (n : NetworkInterfaceSnapshot) : list network_row :=
  if take_all [net_BytesRecv n; net_BytesSent n]
  then replace_row (fun r r' => (ny_node r =s ny_node r') && (ny_name r =s ny_name r'))
         {| ny_node := nodeID; ny_name := net_Name n; ny_up := net_Up n; ny_recv := net_BytesRecv n; ny_sent := net_BytesSent n;
            ny_collected := rfc3339 now |} rows
  else rows.

Definition save_host (nodeID : string) (now : Z) (sys : SystemSnapshot) (ht : host_tables) : host_tables :=
  {| ht_system := save_system nodeID now sys (ht_system ht);
     ht_filesystems := foldl (save_filesystem nodeID now) (ht_filesystems ht) (ss_Filesystems sys);
     ht_networks := foldl (save_network nodeID now) (ht_networks ht) (ss_NetworkInterfaces sys) |}.

(** The node is alive; its operating system and kernel are taken from the snapshot when it names
    them. *)
Definition facts_with_os (os kernel : string) (f : node_facts) : node_facts :=
  {| nf_hostname := nf_hostname f; nf_primary_ip := nf_primary_ip f; nf_advertised := nf_advertised f; nf_os := text_or os (nf_os f);
     nf_arch := nf_arch f; nf_kernel := text_or kernel (nf_kernel f); nf_version := nf_version f; nf_metrics_enabled := nf_metrics_enabled f;
     nf_metrics_scheme := nf_metrics_scheme f; nf_metrics_port := nf_metrics_port f; nf_metrics_path := nf_metrics_path f |}.

Definition node_alive (nodeID : string) (now : Z) (sys : SystemSnapshot) : DB -> DB :=
  set_nodes (update_where (fun n => n_id n =s nodeID)
    (fun n => node_with (n_agent n) (facts_with_os (ss_OS sys) (ss_KernelVersion sys) (n_facts n)) "online" now (n_tenant n) now n)).

(** ** The GPUs *)

Definition reported_key (g : GPUResourceReq) : string := gq_Vendor g +s+ ":" +s+ (if gq_UUID g =s "" then Itoa (gq_Index g) else gq_UUID g).
Definition row_key (g : gpu_row) : string := g_vendor g +s+ ":" +s+ g_uuid g.

(** The total that is stored: the sum of the parts when it is missing, on 64 bits. *)
Definition total_of (g : GPUResourceReq) : Z :=
  let sum := u64 (gq_MemoryUsedBytes g + gq_MemoryFreeBytes g) in
  if (gq_MemoryTotalBytes g =? 0)%Z && (0 <? sum)%Z then sum else gq_MemoryTotalBytes g.

Definition of_device (nodeID uuid : string) (g : gpu_row) : bool := (g_node g =s nodeID) && (g_uuid g =s uuid).

Definition collected_of (now : Z) (g : GPUResourceReq) : string := text_or (gq_CollectedAt g) (rfc3339 now).

Definition new_gpu (id nodeID tenant : string) (now : Z) (g : GPUResourceReq) : gpu_row :=
  {| g_id := id; g_node := nodeID; g_vendor := gq_Vendor g; g_index := gq_Index g; g_name := gq_Name g; g_uuid := gq_UUID g; g_pci := gq_PCIBusID g;
     g_driver := gq_DriverVersion g; g_total := total_of g; g_used := gq_MemoryUsedBytes g; g_free := gq_MemoryFreeBytes g;
     g_util := gq_GPUUtilization g; g_mem_util := gq_MemUtilization g; g_temperature := gq_Temperature g; g_power := gq_PowerDraw g;
     g_health := gq_Health g; g_status := gq_Status g; g_tenant := tenant; g_collected := Some (collected_of now g); g_reported := rfc3339 now;
     g_created := now; g_updated := now |}.

(** The update of a known GPU: its identifier, node, UUID, bus address and tenant stay. *)
Definition gpu_report (now : Z) (g : GPUResourceReq) (r : gpu_row) : gpu_row :=
  {| g_id := g_id r; g_node := g_node r; g_vendor := gq_Vendor g; g_index := gq_Index g; g_name := gq_Name g; g_uuid := g_uuid r; g_pci := g_pci r;
     g_driver := gq_DriverVersion g; g_total := total_of g; g_used := gq_MemoryUsedBytes g; g_free := gq_MemoryFreeBytes g;
     g_util := gq_GPUUtilization g; g_mem_util := gq_MemUtilization g; g_temperature := gq_Temperature g; g_power := gq_PowerDraw g;
     g_health := gq_Health g; g_status := gq_Status g; g_tenant := g_tenant r; g_collected := Some (collected_of now g); g_reported := rfc3339 now;
     g_created := g_created r; g_updated := now |}.

(** The tenant of a new GPU: that of its node, the default one without. *)
Definition node_tenant (nodeID : string) (db : DB) : string :=
  match find_node db nodeID with Some n => text_or (n_tenant n) (DefaultTenantID db) | None => DefaultTenantID db end.

(** One GPU of the report; [None]: a statement failed and the transaction is rolled back.
    [ids]: the identifiers drawn for new rows. *)
Definition save_gpu (nodeID tenant : string) (now : Z) (st : option (list gpu_row * list string)) (g : GPUResourceReq) :
    option (list gpu_row * list string) :=
  '(rows, ids) ← st;
  if negb (take_all [total_of g; gq_MemoryUsedBytes g; gq_MemoryFreeBytes g]) then None
  else match find (of_device nodeID (gq_UUID g)) rows, ids with
       | Some r, _ => Some (update_where (fun r' => g_id r' =s g_id r) (gpu_report now g) rows, ids)
       | None, id :: ids => rows ← insert_checked (id_free g_id id) (new_gpu id nodeID tenant now g) rows; Some (rows, ids)
       | None, [] => None
       end.

Definition unavailable : string := "unavailable".

(** The UUIDs of the GPUs that were there and are not in the report. *)
Definition gone_uuids (nodeID : string) (reported : list string) (rows : list gpu_row) : list string :=
  map g_uuid (List.filter (fun g => (g_node g =s nodeID) && (g_status g <>s unavailable) && negb (existsb (String.eqb (row_key g)) reported)) rows).

Definition mark_gone (nodeID : string) (reported : list string) (now : Z) (rows : list gpu_row) : list gpu_row :=
  let gone := gone_uuids nodeID reported rows in
  update_where (fun g => (g_node g =s nodeID) && existsb (String.eqb (g_uuid g)) gone) (fun g => gpu_with unavailable (g_tenant g) now g) rows.

Definition save_gpus (nodeID : string) (now : Z) (ids : list string) (l : list GPUResourceReq) (db : DB) : option DB :=
  '(rows, _) ← foldl (save_gpu nodeID (node_tenant nodeID db) now) (Some (db_gpus db, ids)) l;
  let rows := match l with [] => rows | _ => mark_gone nodeID (map reported_key l) now rows end in
  Some (set_gpus (fun _ => rows) db).

(** ** The handler *)

Inductive report_response := ReportInvalid | ReportNoAgent | ReportUnknownAgent | ReportFailed | ReportOK.

Definition HandleResourceReport (req : option ResourceReportRequest) (ids : list string) (now : Z) (ht : host_tables) (db : DB) :
    report_response * (host_tables * DB) :=
  match req with
  | None => (ReportInvalid, (ht, db))
  | Some req =>
      if rq_AgentID req =s "" then (ReportNoAgent, (ht, db))
      else match find (fun n => n_agent n =s rq_AgentID req) (db_nodes db) with
           | None => (ReportUnknownAgent, (ht, db))
           | Some n =>
               let nodeID := n_id n in
               let '(ht', db') := match rq_System req with Some sys => (save_host nodeID now sys ht, node_alive nodeID now sys db) | None => (ht, db) end in
               match save_gpus nodeID now ids (rq_GPUResources req) db' with
               | Some db'' => (ReportOK, (ht', db''))
               | None => (ReportFailed, (ht, db))
               end
           end
  end.

(** The GPUs whose time of collection is before the cutoff, as texts. *)
Definition MarkStaleGPUs (nodeID : string) (threshold now : Z) (db : DB) : nat * DB :=
  let cutoff := rfc3339 (now - threshold) in
  let stale g := (g_node g =s nodeID) && (g_status g <>s unavailable)
                 && match g_collected g with Some c => String.ltb c cutoff | None => false end in
  (count_where stale (db_gpus db), set_gpus (update_where stale (fun g => gpu_with unavailable (g_tenant g) now g)) db).

(** One round of the health checker (cmd/server/main.go): when a node went offline, the GPUs
    of every offline node are marked. *)
Definition health_check (threshold now : Z) (db : DB) : DB :=
  let '(n, db) := MarkOfflineNodes (if (threshold =? 0)%Z then 30 else threshold) now db in
  match n with
  | O => db
  | S _ => foldl (fun db nodeID => (MarkStaleGPUs nodeID 0 now db).2) db (map n_id (List.filter (fun n => n_status n =s "offline") (db_nodes db)))
  end.
End Report.

(** ** The read handlers

    [text_of_time]: the text a time column holds; [by_index]: the order of the rows of a list. *)
Section Views.
Context (text_of_time : Z -> string) (by_index : list gpu_row -> list gpu_row).

Definition when_some {A} (key : string) (f : A -> any) (o : option A) : list (string * any) := match o with Some x => [(key, f x)] | None => [] end.

Definition scanGPU (g : gpu_row) : any :=
  AMap (when_some "collected_at" AStr (g_collected g) ++ [("created_at", AStr (text_of_time (g_created g))); ("driver_version", AStr (g_driver g))]
        ++ when_some "gpu_utilization_percent" AFloat (g_util g) ++ [("health", AStr (g_health g)); ("id", AStr (g_id g)); ("index", AInt (g_index g));
          ("memory_free_bytes", AInt (g_free g)); ("memory_total_bytes", AInt (g_total g)); ("memory_used_bytes", AInt (g_used g))]
        ++ when_some "memory_utilization_percent" AFloat (g_mem_util g) ++ [("name", AStr (g_name g)); ("node_id", AStr (g_node g)); ("pci_bus_id", AStr (g_pci g))]
        ++ when_some "power_draw_watts" AFloat (g_power g) ++ [("status", AStr (g_status g))] ++ when_some "temperature_celsius" AFloat (g_temperature g)
        ++ [("updated_at", AStr (text_of_time (g_updated g))); ("uuid", AStr (g_uuid g)); ("vendor", AStr (g_vendor g))]).

(** The tenant a caller's list is restricted to; [None] is none. *)
Definition list_tenant (info : option session) (db : DB) : option string :=
  match info with
  | Some s => if s_admin s then None else Some (text_or (s_tenant s) (DefaultTenantID db))
  | None => Some (DefaultTenantID db)
  end.

Definition listed_gpu (info : option session) (nodeID vendor : string) (db : DB) (g : gpu_row) : bool :=
  match list_tenant info db with Some t => g_tenant g =s t | None => true end
  && ((nodeID =s "") || (g_node g =s nodeID)) && ((vendor =s "") || (g_vendor g =s vendor)).

Definition HandleListGPUs (info : option session) (nodeID vendor : string) (db : DB) : any :=
  AList (map scanGPU (by_index (List.filter (listed_gpu info nodeID vendor db) (db_gpus db)))).

Definition HandleGetGPU (info : option session) (gpuID : string) (db : DB) : option any :=
  g ← find (fun g => g_id g =s gpuID) (db_gpus db);
  match info with
  | Some s => if negb (s_admin s) && (s_tenant s <>s "") && (g_tenant g <>s s_tenant s) then None else Some (scanGPU g)
  | None => Some (scanGPU g)
  end.

(** The latest snapshot by the text of its time, the first of equal ones. *)
Definition latest_system (rows : list system_row) : option system_row :=
  foldl (fun acc r => match acc with Some a => if String.ltb (sy_collected a) (sy_collected r) then Some r else acc | None => Some r end) None rows.

Definition no_system : system_row :=
  {| sy_node := ""; sy_cpu := ""; sy_memory_total := 0; sy_memory_used := 0; sy_swap_total := 0; sy_swap_used := 0; sy_uptime := ""; sy_cores := 0;
     sy_load1 := ""; sy_load5 := ""; sy_load15 := ""; sy_collected := "" |}.

Definition filesystem_info (r : filesystem_row) : any :=
  AMap [("device", AStr (fy_device r)); ("free_bytes", AInt (fy_free r)); ("fs_type", AStr (fy_type r)); ("mount_point", AStr (fy_mount r));
        ("total_bytes", AInt (fy_total r)); ("used_bytes", AInt (fy_used r)); ("used_percent", AStr (fy_percent r))].
Definition network_info (r : network_row) : any :=
  AMap [("bytes_recv", AInt (ny_recv r)); ("bytes_sent", AInt (ny_sent r)); ("name", AStr (ny_name r)); ("up", ABool (ny_up r))].

Inductive system_reply := SystemBadRequest | SystemNotFound | SystemInfo (body : any).

Definition HandleGetNodeSystem (info : option session) (nodeID : string) (ht : host_tables) (db : DB) : system_reply :=
  let foreign := match info, find_node db nodeID with
                 | Some s, Some n => (s_tenant s <>s "") && (n_tenant n <>s s_tenant s)
                 | _, _ => false
                 end in
  if nodeID =s "" then SystemBadRequest
  else if foreign then SystemNotFound
  else
    let s := default no_system (latest_system (List.filter (fun r => sy_node r =s nodeID) (ht_system ht))) in
    SystemInfo (AMap [("collected_at", AStr (sy_collected s)); ("cpu_cores", AInt (sy_cores s)); ("cpu_utilization_percent", AStr (sy_cpu s));
      ("filesystems", AList (map filesystem_info (List.filter (fun r => fy_node r =s nodeID) (ht_filesystems ht))));
      ("load1", AStr (sy_load1 s)); ("load15", AStr (sy_load15 s)); ("load5", AStr (sy_load5 s)); ("memory_total_bytes", AInt (sy_memory_total s));
      ("memory_used_bytes", AInt (sy_memory_used s)); ("networks", AList (map network_info (List.filter (fun r => ny_node r =s nodeID) (ht_networks ht))));
      ("swap_total_bytes", AInt (sy_swap_total s)); ("swap_used_bytes", AInt (sy_swap_used s)); ("uptime_seconds", AStr (sy_uptime s))]).
End Views.

(** ** The agent's side (cmd/agent/main.go)

    The body of a report, of texts in UTF-8: encoding fails when a number of it is not finite, and
    nothing is sent.  [rfc3339nano]: the text of a time in it. *)
Section Sent.
Context (rfc3339nano : Z -> string).

Definition finite_or_none (o : option float64) : bool := match o with Some f => finite f | None => true end.
Definition gpu_encodable (g : GPUResource) : bool :=
  finite_or_none (gr_GPUUtilization g) && finite_or_none (gr_MemUtilization g) && finite_or_none (gr_Temperature g) && finite_or_none (gr_PowerDraw g).
Definition metric_encodable (m : GPUMetricInfo) : bool :=
  finite_or_none (mc_GPUUtilization m) && finite_or_none (mc_MemoryUtilization m) && finite_or_none (mc_Temperature m) && finite_or_none (mc_PowerDraw m).
Definition system_encodable (s : SystemSnapshot) : bool :=
  forallb finite [ss_CPUUtilization s; ss_Load1 s; ss_Load5 s; ss_Load15 s] && forallb (fun f => finite (fsn_UsedPercent f)) (ss_Filesystems s).

Definition encodable (r : ResourceReport) : bool :=
  forallb gpu_encodable (rr_GPUResources r) && forallb metric_encodable (rr_GPUMetrics r)
  && match rr_System r with Some s => system_encodable s | None => true end.

Definition sent_gpu (g : GPUResource) : GPUResourceReq :=
  {| gq_Vendor := gr_Vendor g; gq_Index := gr_Index g; gq_UUID := gr_UUID g; gq_Name := gr_Name g; gq_PCIBusID := gr_PCIBusID g;
     gq_DriverVersion := gr_DriverVersion g; gq_MemoryTotalBytes := gr_MemoryTotalBytes g; gq_MemoryUsedBytes := gr_MemoryUsedBytes g;
     gq_MemoryFreeBytes := gr_MemoryFreeBytes g; gq_GPUUtilization := gr_GPUUtilization g; gq_MemUtilization := gr_MemUtilization g;
     gq_Temperature := gr_Temperature g; gq_PowerDraw := gr_PowerDraw g; gq_Health := gr_Health g; gq_Status := gr_Status g;
     gq_CollectedAt := rfc3339nano (gr_CollectedAt g) |}.

(** The request the server decodes; [None]: the agent sends nothing. *)
Definition sent_report (r : ResourceReport) : option ResourceReportRequest :=
  if encodable r then Some {| rq_AgentID := rr_AgentID r; rq_System := rr_System r; rq_GPUResources := map sent_gpu (rr_GPUResources r) |} else None.
End Sent.

(** [collectAndReport]: a cycle of the agent and what the server makes of it. *)
Definition collect_and_report (driver_takes : Z -> bool) (rfc3339 rfc3339nano : Z -> string) (agentID : string) (now : Z)
    (system : list (option SystemSnapshot * CollectorDiagnosis)) (gpus : list gpu_cycle) (ids : list string) (r : Registry) (ht : host_tables) (db : DB) :
    option report_response * Registry * (host_tables * DB) :=
  let '(report, r) := Collect agentID now system gpus r in
  match sent_report rfc3339nano report with
  | None => (None, r, (ht, db))
  | Some req => let '(resp, tables) := HandleResourceReport driver_takes rfc3339 (Some req) ids now ht db in (Some resp, r, tables)
  end.
