(* ===== verification/GpuReportProps.v ===== *)
(** * What a resource report does to the GPUs

    The rows of GPUs keep their keys, a report is followed exactly on its node, and a
    device a script prints reaches its row.  Concrete reports show where the inventory
    departs from the machine. *)
From S2P Require Import Prelude GoStrings GoNumbers GoValue GoJson GoJsonText LogClassifier Store AgentTasks Deployments GpuProtocol GpuReport.
From Stdlib Require Import SpecFloat.

(** ** The keys of the table *)

(** Where a GPU is: its node and its UUID there. *)
Definition gpu_place (g : gpu_row) : string * string := (g_node g, g_uuid g).

Record gpus_ok (rows : list gpu_row) : Prop := {
  ok_gpu_ids : NoDup (map g_id rows);
  ok_gpu_places : NoDup (map gpu_place rows)
}.

Lemma gpus_ok_update p f rows : (forall g, g_id (f g) = g_id g /\ gpu_place (f g) = gpu_place g) -> gpus_ok rows -> gpus_ok (update_where p f rows).
Proof. intros Hf []. split; rewrite update_map; try done; intros g; apply Hf. Qed.

Lemma of_device_place nodeID uuid g : of_device nodeID uuid g = true <-> gpu_place g = (nodeID, uuid).
Proof. unfold of_device, gpu_place. rewrite andb_true_iff, !String.eqb_eq. split; [by intros [-> ->]|by intros [= -> ->]]. Qed.

Lemma of_device_none nodeID uuid rows : find (of_device nodeID uuid) rows = None -> (nodeID, uuid) ∉ map gpu_place rows.
Proof.
  intros Hf Hin. apply list_elem_of_In, in_map_iff in Hin as (g & Hg & Hin). pose proof (find_none _ _ Hf g Hin) as Hn.
  apply of_device_place in Hg. congruence.
Qed.

(** The row keeps its identity, its place and its tenant. *)
Definition same_gpu (g g' : gpu_row) : Prop := g_id g' = g_id g /\ gpu_place g' = gpu_place g /\ g_tenant g' = g_tenant g.

#[export] Instance same_gpu_preorder : PreOrder same_gpu.
Proof. split; [by intros g|]. intros a b c (?&?&?) (?&?&?). split_and!; congruence. Qed.

Section Facts.
Context (driver_takes : Z -> bool) (rfc3339 : Z -> string).

(** The columns of a row that a report fills show that report: the total is the one
    reported or, when it is zero, the sum of the parts on 64 bits; the time of collection
    is the one reported or that of the report. *)
Record shows (now : Z) (q : GPUResourceReq) (g : gpu_row) : Prop := {
  sh_vendor : g_vendor g = gq_Vendor q;
  sh_index : g_index g = gq_Index q;
  sh_name : g_name g = gq_Name q;
  sh_driver : g_driver g = gq_DriverVersion q;
  sh_total : g_total g = if decide (gq_MemoryTotalBytes q = 0%Z) then ((gq_MemoryUsedBytes q + gq_MemoryFreeBytes q) mod 2 ^ 64)%Z else gq_MemoryTotalBytes q;
  sh_used : g_used g = gq_MemoryUsedBytes q;
  sh_free : g_free g = gq_MemoryFreeBytes q;
  sh_util : g_util g = gq_GPUUtilization q;
  sh_mem_util : g_mem_util g = gq_MemUtilization q;
  sh_temperature : g_temperature g = gq_Temperature q;
  sh_power : g_power g = gq_PowerDraw q;
  sh_health : g_health g = gq_Health q;
  sh_status : g_status g = gq_Status q;
  sh_collected : g_collected g = Some (if decide (gq_CollectedAt q = "") then rfc3339 now else gq_CollectedAt q);
  sh_reported : g_reported g = rfc3339 now;
  sh_updated : g_updated g = now
}.

Lemma total_shown q : total_of q = if decide (gq_MemoryTotalBytes q = 0%Z) then ((gq_MemoryUsedBytes q + gq_MemoryFreeBytes q) mod 2 ^ 64)%Z else gq_MemoryTotalBytes q.
Proof.
  unfold total_of, u64. pose proof (Z.mod_pos_bound (gq_MemoryUsedBytes q + gq_MemoryFreeBytes q) (2 ^ 64) ltac:(lia)) as Hb.
  destruct (Z.eqb_spec (gq_MemoryTotalBytes q) 0) as [E|E]; cbn [andb]; [rewrite decide_True by done|by rewrite decide_False].
  destruct (Z.ltb_spec 0 ((gq_MemoryUsedBytes q + gq_MemoryFreeBytes q) mod 2 ^ 64)); lia.
Qed.

Lemma collected_shown now q : collected_of rfc3339 now q = if decide (gq_CollectedAt q = "") then rfc3339 now else gq_CollectedAt q.
Proof. unfold collected_of, text_or. destruct (String.eqb_spec (gq_CollectedAt q) ""); [by rewrite decide_True|by rewrite decide_False]. Qed.

Lemma report_shows now q g : shows now q (gpu_report rfc3339 now q g).
Proof. split; cbn [gpu_report g_vendor g_index g_name g_driver g_total g_used g_free g_util g_mem_util g_temperature g_power g_health g_status g_collected g_reported g_updated];
  try reflexivity; [apply total_shown|by rewrite collected_shown]. Qed.

Lemma new_shows id nodeID tenant now q : shows now q (new_gpu rfc3339 id nodeID tenant now q).
Proof. split; cbn [new_gpu g_vendor g_index g_name g_driver g_total g_used g_free g_util g_mem_util g_temperature g_power g_health g_status g_collected g_reported g_updated];
  try reflexivity; [apply total_shown|by rewrite collected_shown]. Qed.

Definition last_reported (uuid : string) (l : list GPUResourceReq) : option GPUResourceReq := find (fun q => gq_UUID q =s uuid) (rev l).

Lemma last_reported_snoc uuid l q : last_reported uuid (l ++ [q]) = if gq_UUID q =s uuid then Some q else last_reported uuid l.
Proof. unfold last_reported. by rewrite rev_app_distr. Qed.

(** What saving reports does: keys stay, rows elsewhere stay as they are, every
    reported place shows its last report. *)
Record saved (nodeID : string) (now : Z) (l : list GPUResourceReq) (rows rows' : list gpu_row) : Prop := {
  sv_ok : gpus_ok rows';
  sv_other : forall g, g_node g <> nodeID \/ last_reported (g_uuid g) l = None -> g ∈ rows' <-> g ∈ rows;
  sv_shown : forall uuid q, last_reported uuid l = Some q -> exists g, g ∈ rows' /\ gpu_place g = (nodeID, uuid) /\ shows now q g;
  sv_kept : forall g, g ∈ rows -> exists g', g' ∈ rows' /\ same_gpu g g'
}.

Lemma saved_nil nodeID now rows : gpus_ok rows -> saved nodeID now [] rows rows.
Proof. intros H. split; [done|done|done|]. intros g Hg. by exists g. Qed.

(** One more report at a place whose rows [rows'] are replaced by [rows'']. *)
Lemma saved_snoc nodeID now l q rows rows' rows'' :
  saved nodeID now l rows rows' -> gpus_ok rows'' ->
  (forall g, gpu_place g <> (nodeID, gq_UUID q) -> g ∈ rows'' <-> g ∈ rows') ->
  (exists g, g ∈ rows'' /\ gpu_place g = (nodeID, gq_UUID q) /\ shows now q g) ->
  (forall g, g ∈ rows' -> exists g', g' ∈ rows'' /\ same_gpu g g') ->
  saved nodeID now (l ++ [q]) rows rows''.
Proof.
  intros [_ Ho Hs Hk] Hok Hp Hq Hk'. split; [done|..].
  - intros g. rewrite last_reported_snoc. destruct (String.eqb_spec (gq_UUID q) (g_uuid g)) as [E|E]; intros [Hn|Hn]; try done.
    + rewrite Hp by (unfold gpu_place; congruence). apply Ho. by left.
    + rewrite Hp by (unfold gpu_place; congruence). apply Ho. by left.
    + rewrite Hp by (unfold gpu_place; congruence). apply Ho. by right.
  - intros uuid q'. rewrite last_reported_snoc. destruct (String.eqb_spec (gq_UUID q) uuid) as [<-|E]; [by intros [= <-]|].
    intros (g & Hg & Hpl & Hsh)%Hs. exists g. split; [apply Hp; [|done]; rewrite Hpl; congruence|done].
  - intros g Hg. destruct (Hk g Hg) as (g1 & H1 & S1). destruct (Hk' g1 H1) as (g2 & H2 & S2). exists g2. split; [done|by etrans].
Qed.

Lemma save_known nodeID now l q r rows rows' :
  saved nodeID now l rows rows' -> r ∈ rows' -> gpu_place r = (nodeID, gq_UUID q) ->
  saved nodeID now (l ++ [q]) rows (update_where (fun r' => g_id r' =s g_id r) (gpu_report rfc3339 now q) rows').
Proof.
  intros H Hr Hp. pose proof (sv_ok _ _ _ _ _ H) as Hok. set (f := gpu_report rfc3339 now q). apply (saved_snoc _ _ _ _ _ rows'); [done|..].
  - by apply gpus_ok_update.
  - intros g Hg. assert (g_id g = g_id r -> g ∈ rows' -> False) as Hne.
    { intros E Hin. by rewrite (NoDup_key_eq g_id _ _ _ (ok_gpu_ids _ Hok) Hin Hr E) in Hg. }
    rewrite elem_of_update. split.
    + intros (g0 & H0 & ->). destruct (String.eqb_spec (g_id g0) (g_id r)) as [E|]; [|done].
      rewrite (NoDup_key_eq g_id _ _ _ (ok_gpu_ids _ Hok) H0 Hr E) in Hg. by destruct Hg.
    + intros Hin. exists g. split; [done|]. destruct (String.eqb_spec (g_id g) (g_id r)) as [E|]; [by destruct (Hne E Hin)|done].
  - exists (f r). split_and!; [|done|apply report_shows]. apply elem_of_update. exists r. by rewrite String.eqb_refl.
  - intros g Hg. eexists. split; [apply elem_of_update; by exists g|]. by case_match.
Qed.

Lemma save_new nodeID tenant now l q id rows rows' :
  saved nodeID now l rows rows' -> find (of_device nodeID (gq_UUID q)) rows' = None -> id_free g_id id rows' = true ->
  saved nodeID now (l ++ [q]) rows (rows' ++ [new_gpu rfc3339 id nodeID tenant now q]).
Proof.
  intros H Hf Hid. pose proof (sv_ok _ _ _ _ _ H) as [Hi Hp]. set (g0 := new_gpu _ _ _ _ _ _). apply (saved_snoc _ _ _ _ _ rows'); [done|..].
  - split; rewrite map_app; apply NoDup_snoc; try done; [by apply id_free_notin|by apply of_device_none].
  - intros g Hg. rewrite elem_of_app, list_elem_of_singleton. split; [intros [H1| ->]; [done|by destruct Hg]|by left].
  - exists g0. split_and!; [|done|apply new_shows]. apply elem_of_app. right. by apply list_elem_of_singleton.
  - intros g Hg. exists g. split; [|done]. apply elem_of_app. by left.
Qed.

Lemma save_gpu_saved nodeID tenant now l q rows rows' ids rows'' ids' :
  saved nodeID now l rows rows' -> save_gpu driver_takes rfc3339 nodeID tenant now (Some (rows', ids)) q = Some (rows'', ids') ->
  saved nodeID now (l ++ [q]) rows rows''.
Proof.
  intros H Hs. unfold save_gpu in Hs. cbn in Hs. destruct (negb _); [done|]. destruct (find _ rows') as [r|] eqn:Ef.
  - injection Hs as <- <-. apply find_some in Ef as [Hr%list_elem_of_In Hp%of_device_place]. by apply save_known.
  - destruct ids as [|id ids]; [done|]. destruct (insert_checked _ _ _) as [rows1|] eqn:E; [|done]. cbn in Hs. injection Hs as <- <-.
    apply insert_checked_Some in E as [Hid ->]. by apply save_new.
Qed.

Lemma save_gpu_none nodeID tenant now l : foldl (save_gpu driver_takes rfc3339 nodeID tenant now) None l = None.
Proof. by induction l. Qed.

Lemma save_loop nodeID tenant now l rows ids rows' ids' :
  gpus_ok rows -> foldl (save_gpu driver_takes rfc3339 nodeID tenant now) (Some (rows, ids)) l = Some (rows', ids') -> saved nodeID now l rows rows'.
Proof.
  intros Hok. revert rows' ids'. induction l as [|q l IH] using rev_ind; intros rows' ids' Hs.
  - injection Hs as <- <-. by apply saved_nil.
  - rewrite foldl_app in Hs. cbn [foldl] in Hs. destruct (foldl _ _ l) as [[rows1 ids1]|] eqn:E; [|done].
    eapply save_gpu_saved; [by eapply IH|done].
Qed.

(** ** Marking what is gone *)

Lemma mark_gone_row nodeID reported now rows g' :
  g' ∈ mark_gone nodeID reported now rows ->
  exists g, g ∈ rows /\ same_gpu g g' /\ (g' = g \/ (g_node g = nodeID /\ g' = gpu_with unavailable (g_tenant g) now g)).
Proof.
  unfold mark_gone. intros (g & Hg & ->)%elem_of_update. exists g. split; [done|]. destruct (andb _ _) eqn:E; [|split; [done|by left]].
  split; [done|]. right. bool_facts. done.
Qed.

Lemma mark_gone_keeps nodeID reported now rows g : g ∈ rows -> exists g', g' ∈ mark_gone nodeID reported now rows /\ same_gpu g g'.
Proof. intros Hg. eexists. split; [apply elem_of_update; by exists g|]. by case_match. Qed.

Lemma mark_gone_live nodeID reported now rows g' :
  g' ∈ mark_gone nodeID reported now rows -> g_node g' = nodeID -> g_status g' <> unavailable -> row_key g' ∈ reported.
Proof.
  unfold mark_gone. set (gone := gone_uuids nodeID reported rows). intros (g & Hg & ->)%elem_of_update. destruct (andb _ _) eqn:E; [done|].
  intros Hn Hl. apply existsb_eqb_In. destruct (existsb (String.eqb (row_key g)) reported) eqn:Er; [done|]. exfalso.
  rewrite Hn, String.eqb_refl in E. cbn in E. apply not_true_iff_false in E. apply E, existsb_eqb_In. unfold gone, gone_uuids.
  apply list_elem_of_In, in_map. apply filter_In. split; [by apply list_elem_of_In|]. apply String.eqb_neq in Hl. by rewrite Hn, String.eqb_refl, Hl, Er.
Qed.

Lemma mark_gone_reported nodeID reported now rows g :
  gpus_ok rows -> g ∈ rows -> row_key g ∈ reported -> g ∈ mark_gone nodeID reported now rows.
Proof.
  intros Hok Hg Hk. unfold mark_gone. apply elem_of_update. exists g. split; [done|]. destruct (andb _ _) eqn:E; [|done]. exfalso.
  apply andb_true_iff in E as [Hn%String.eqb_eq Hu%existsb_eqb_In]. unfold gone_uuids in Hu. apply list_elem_of_In, in_map_iff in Hu as (g1 & Hu & H1).
  apply filter_In in H1 as [H1%list_elem_of_In Hc]. apply andb_true_iff in Hc as [[Hn1%String.eqb_eq _]%andb_true_iff Hr%negb_true_iff].
  assert (g1 = g) as -> by (apply (NoDup_key_eq gpu_place _ _ _ (ok_gpu_places _ Hok)); [done..|unfold gpu_place; congruence]).
  apply not_true_iff_false in Hr. by apply Hr, existsb_eqb_In.
Qed.

Lemma last_reported_in uuid l q : last_reported uuid l = Some q -> q ∈ l /\ gq_UUID q = uuid.
Proof. intros [Hin He%String.eqb_eq]%find_some. by apply in_rev, list_elem_of_In in Hin. Qed.

Lemma shown_key now q g uuid nodeID : gpu_place g = (nodeID, uuid) -> shows now q g -> gq_UUID q = uuid -> uuid <> "" -> row_key g = reported_key q.
Proof.
  intros [= _ Hu] Hs Hq Hne. unfold row_key, reported_key. apply String.eqb_neq in Hne. by rewrite (sh_vendor _ _ _ Hs), Hq, Hne, Hu.
Qed.

Lemma save_gpus_ok nodeID now ids l db db' : gpus_ok (db_gpus db) -> save_gpus driver_takes rfc3339 nodeID now ids l db = Some db' -> gpus_ok (db_gpus db').
Proof.
  intros Hok Hs. unfold save_gpus in Hs. destruct (foldl _ _ l) as [[rows ids']|] eqn:E; [|done]. cbn in Hs. injection Hs as <-. cbn.
  pose proof (sv_ok _ _ _ _ _ (save_loop _ _ _ _ _ _ _ _ Hok E)) as H. destruct l; [done|]. by apply gpus_ok_update.
Qed.

(** The GPUs of a node after reports [l] were saved. *)
Record followed (nodeID : string) (now : Z) (l : list GPUResourceReq) (rows rows' : list gpu_row) : Prop := {
  fw_ok : gpus_ok rows';
  fw_other : forall g, g_node g <> nodeID -> g ∈ rows' <-> g ∈ rows;
  fw_kept : forall g, g ∈ rows -> exists g', g' ∈ rows' /\ same_gpu g g';
  fw_shown : forall uuid q, uuid <> "" -> last_reported uuid l = Some q -> exists g, g ∈ rows' /\ gpu_place g = (nodeID, uuid) /\ shows now q g;
  fw_live : l <> [] -> forall g, g ∈ rows' -> g_node g = nodeID -> g_status g <> unavailable -> row_key g ∈ map reported_key l
}.

Lemma saved_followed nodeID now l rows rows' :
  saved nodeID now l rows rows' ->
  followed nodeID now l rows (match l with [] => rows' | _ => mark_gone nodeID (map reported_key l) now rows' end).
Proof.
  intros H. pose proof H as [Hok Ho Hs Hk]. destruct l as [|q0 l0].
  - split; [done|by intros g Hg; apply Ho; left|done|done|done].
  - set (l := q0 :: l0) in *. split.
    + by apply gpus_ok_update.
    + intros g Hg. rewrite <- Ho by (by left). split; [|intros Hin].
      * intros (g0 & H0 & (_ & [= En _] & _) & [->|[Hn ->]])%mark_gone_row; [done|]. by cbn in Hg.
      * apply elem_of_update. exists g. split; [done|]. by apply String.eqb_neq in Hg as ->.
    + intros g (g1 & H1 & S1)%Hk. destruct (mark_gone_keeps nodeID (map reported_key l) now rows' g1 H1) as (g2 & H2 & S2). exists g2. split; [done|by etrans].
    + intros uuid q Hne Hq. destruct (Hs uuid q Hq) as (g & Hg & Hp & Hsh). exists g. split_and!; [|done|done]. apply mark_gone_reported; [done|done|].
      apply last_reported_in in Hq as [Hin Hu]. rewrite (shown_key _ _ _ _ _ Hp Hsh Hu Hne). by apply list_elem_of_In, in_map, list_elem_of_In.
    + intros _ g. apply mark_gone_live.
Qed.

Lemma report_followed req ids now ht db resp ht' db' :
  gpus_ok (db_gpus db) ->
  HandleResourceReport driver_takes rfc3339 (Some req) ids now ht db = (resp, (ht', db')) ->
  match resp with
  | ReportOK => exists n, n ∈ db_nodes db /\ n_agent n = rq_AgentID req /\ followed (n_id n) now (rq_GPUResources req) (db_gpus db) (db_gpus db')
  | _ => ht' = ht /\ db' = db
  end.
Proof.
  intros Hok Hr. unfold HandleResourceReport in Hr. destruct (rq_AgentID req =s ""); [by injection Hr as <- <- <-|].
  destruct (find _ (db_nodes db)) as [n|] eqn:En; [|by injection Hr as <- <- <-]. apply find_Some_key in En as [Hn Ha].
  destruct (match rq_System req with Some _ => _ | None => _ end) as [ht1 db1] eqn:E1.
  assert (db_gpus db1 = db_gpus db) as Eg by (by destruct (rq_System req); injection E1 as <- <-).
  destruct (save_gpus _ _ _ _ _ _ db1) as [db2|] eqn:E2; [|by injection Hr as <- <- <-]. injection Hr as <- <- <-.
  exists n. split_and!; [done|done|]. unfold save_gpus in E2. rewrite Eg in E2.
  destruct (foldl _ _ (rq_GPUResources req)) as [[rows ids']|] eqn:E; [|done]. cbn in E2. injection E2 as <-. cbn.
  apply saved_followed. by eapply save_loop.
Qed.

(** A report writes to the tables of nodes and GPUs only. *)
Lemma report_frame req ids now ht db :
  let db' := (HandleResourceReport driver_takes rfc3339 req ids now ht db).2.2 in
  db' = db \/ exists nodeID rows sys, db' = set_gpus (fun _ => rows) (match sys with Some sys => node_alive nodeID now sys db | None => db end).
Proof.
  cbv zeta. unfold HandleResourceReport. destruct req as [req|]; [|by left]. destruct (_ =s _); [by left|].
  destruct (find _ (db_nodes db)) as [n|]; [|by left].
  destruct (match rq_System req with Some _ => _ | None => _ end) as [ht1 db1] eqn:E1.
  assert (db1 = match rq_System req with Some sys => node_alive (n_id n) now sys db | None => db end) as ->
    by (by destruct (rq_System req); injection E1 as <- <-).
  destruct (save_gpus _ _ _ _ _ _ _) as [db2|] eqn:E2; [|by left]. cbn [snd]. unfold save_gpus in E2.
  destruct (foldl _ _ _) as [[rows ids']|]; [|done]. cbn in E2. injection E2 as <-. right. by eexists _, _, _.
Qed.

Lemma report_gpus_ok req ids now ht db :
  gpus_ok (db_gpus db) -> gpus_ok (db_gpus (HandleResourceReport driver_takes rfc3339 req ids now ht db).2.2).
Proof.
  intros Hok. destruct req as [req|]; [|done]. destruct (HandleResourceReport _ _ _ _ _ _ _) as [resp [ht' db']] eqn:E.
  pose proof (report_followed _ _ _ _ _ _ _ _ Hok E) as H. cbn. destruct resp; try (by destruct H as [_ ->]). by destruct H as (n & _ & _ & []).
Qed.

(** C40. What a report does to the GPUs, in a state with one row per identifier and per place.
    A report that is accepted belongs to a node of the agent.  Rows of other nodes stay
    exactly as they are, and no row is lost, changes its UUID or its tenant.  Every UUID
    that is reported and not empty has one row on the node, and its columns are those of
    the last report of that UUID: vendor, index, name, driver, memory, utilisation,
    temperature, power, health, status and times.  When the report lists at least one
    GPU, a row of the node whose vendor and UUID it does not list is unavailable (a
    report without GPUs marks nothing, [empty_report_keeps]).  A report that is refused
    changes no table. *)
Theorem report_inventory req ids now ht db resp ht' db' :
  gpus_ok (db_gpus db) ->
  HandleResourceReport driver_takes rfc3339 (Some req) ids now ht db = (resp, (ht', db')) ->
  match resp with
  | ReportOK => exists n, n ∈ db_nodes db /\ n_agent n = rq_AgentID req /\ followed (n_id n) now (rq_GPUResources req) (db_gpus db) (db_gpus db')
  | _ => ht' = ht /\ db' = db
  end.
Proof. apply report_followed. Qed.
End Facts.

(** ** A concrete report *)

Definition demo_node : node_row :=
  {| n_id := "n1"; n_agent := "a1"; n_status := "online"; n_heartbeat := 0; n_tenant := "t1"; n_updated := 0;
     n_facts := {| nf_hostname := "h"; nf_primary_ip := ""; nf_advertised := ""; nf_os := "linux"; nf_arch := "amd64"; nf_kernel := ""; nf_version := "";
                   nf_metrics_enabled := false; nf_metrics_scheme := ""; nf_metrics_port := 0; nf_metrics_path := "" |} |}.
Definition demo_db : DB :=
  {| db_tenants := []; db_nodes := [demo_node]; db_gpus := []; db_tasks := []; db_instances := []; db_leases := []; db_deployments := [];
     db_run_plans := []; db_groups := []; db_audits := [] |}.
Definition no_host : host_tables := {| ht_system := []; ht_filesystems := []; ht_networks := [] |}.

(** A driver that refuses what does not fit a signed integer. *)
Definition signed_driver (z : Z) : bool := (z <? 2 ^ 63)%Z.

Definition demo_gpu (vendor uuid : string) (index total : Z) : GPUResourceReq :=
  {| gq_Vendor := vendor; gq_Index := index; gq_UUID := uuid; gq_Name := "g"; gq_PCIBusID := ""; gq_DriverVersion := ""; gq_MemoryTotalBytes := total;
     gq_MemoryUsedBytes := 0; gq_MemoryFreeBytes := 0; gq_GPUUtilization := None; gq_MemUtilization := None; gq_Temperature := None; gq_PowerDraw := None;
     gq_Health := "healthy"; gq_Status := "available"; gq_CollectedAt := "" |}.
Definition demo_report (l : list GPUResourceReq) : ResourceReportRequest := {| rq_AgentID := "a1"; rq_System := None; rq_GPUResources := l |}.
Definition reported (now : Z) (l : list GPUResourceReq) (db : DB) : report_response * (host_tables * DB) :=
  HandleResourceReport signed_driver Itoa (Some (demo_report l)) ["g1"; "g2"; "g3"] now no_host db.
Definition listed (db : DB) : list (string * string * string) := map (fun g => (g_vendor g, g_uuid g, g_status g)) (db_gpus db).

Lemma gpus_ok_nil : gpus_ok [].
Proof. split; apply NoDup_nil_2. Qed.

Lemma report_inventory_witness :
  let l := [demo_gpu "x" "u1" 0 8; demo_gpu "x" "u2" 1 8] in
  (reported 7 l demo_db).1 = ReportOK
  /\ exists n, n ∈ db_nodes demo_db /\ n_agent n = "a1" /\ followed Itoa (n_id n) 7 l [] (db_gpus (reported 7 l demo_db).2.2).
Proof.
  cbv zeta. set (l := [_; _]). split; [vm_compute; reflexivity|].
  exact (report_inventory signed_driver Itoa (demo_report l) ["g1"; "g2"; "g3"] 7 no_host demo_db ReportOK (reported 7 l demo_db).2.1
    (reported 7 l demo_db).2.2 gpus_ok_nil eq_refl).
Defined.

(** A GPU without a UUID is keyed by its index in the report and by its empty UUID in the
    table: the report that brings it marks it as gone, and two of them are one row. *)
Example no_uuid_is_gone :
  let r := reported 7 [demo_gpu "x" "" 0 8; demo_gpu "x" "" 1 8] demo_db in (r.1, listed r.2.2) = (ReportOK, [("x", "", "unavailable")]).
Proof. vm_compute. reflexivity. Qed.

(** A report without a single GPU marks nothing: what was there stays available. *)
Example empty_report_keeps :
  listed (reported 8 [] (reported 7 [demo_gpu "x" "u1" 0 8] demo_db).2.2).2.2 = [("x", "u1", "available")].
Proof. vm_compute. reflexivity. Qed.

(** One number the driver does not take refuses the report of every GPU. *)
Example huge_number_refuses :
  let r := reported 7 [demo_gpu "x" "u1" 0 8; demo_gpu "x" "u2" 1 18446744073709551615] demo_db in (r.1, listed r.2.2) = (ReportFailed, []).
Proof. vm_compute. reflexivity. Qed.

(** The missing total is the sum of the parts on 64 bits. *)
Example total_wraps :
  let g used free := {| gq_Vendor := "x"; gq_Index := 0; gq_UUID := "u"; gq_Name := ""; gq_PCIBusID := ""; gq_DriverVersion := ""; gq_MemoryTotalBytes := 0;
     gq_MemoryUsedBytes := used; gq_MemoryFreeBytes := free; gq_GPUUtilization := None; gq_MemUtilization := None; gq_Temperature := None; gq_PowerDraw := None;
     gq_Health := ""; gq_Status := ""; gq_CollectedAt := "" |} in
  (total_of (g 3%Z 4%Z), total_of (g 18446744073709551615%Z 1%Z)) = (7%Z, 0%Z).
Proof. vm_compute. reflexivity. Qed.

(** A report without a snapshot of the host does not prove that the node is alive. *)
Example no_snapshot_no_heartbeat :
  map n_heartbeat (db_nodes (reported 7 [demo_gpu "x" "u1" 0 8] demo_db).2.2) = [0%Z].
Proof. vm_compute. reflexivity. Qed.
