(* ===== verification/GpuInventoryProps.v ===== *)
(** * The inventory from the scripts to the tables

    The merge of devices and metrics, the way of a device from the line that names it to
    its row, and cycles in which the rows say something else than the machine. *)
From S2P Require Import Prelude GoStrings GoNumbers GoValue GoJson GoJsonText LogClassifier Store AgentTasks Deployments GpuProtocol GpuProtocolProps GpuReport GpuReportProps.
From Stdlib Require Import SpecFloat.

(** ** Loops that skip what they have seen *)

Section Once.
Context {A : Type} (key : A -> string).

Fixpoint firsts (seen : gset string) (l : list A) : list A :=
  match l with
  | [] => []
  | x :: l => if bool_decide (key x ∈ seen) then firsts seen l else x :: firsts (seen ∪ {[ key x ]}) l
  end.

Definition keys (l : list A) : gset string := list_to_set (map key l).

Lemma once_loop (make : A -> GPUResource) l seen result :
  foldl (once_step key make) (seen, result) l = (seen ∪ keys l, result ++ map make (firsts seen l)).
Proof.
  revert seen result. induction l as [|x l IH]; intros seen result; cbn [foldl firsts once_step].
  - cbn. rewrite app_nil_r. apply f_equal2; [unfold keys; set_solver|done].
  - destruct (bool_decide_reflect (key x ∈ seen)); rewrite IH; unfold keys; cbn [map list_to_set]; apply f_equal2; [set_solver|done|set_solver|].
    by rewrite <- app_assoc.
Qed.

Lemma firsts_key seen l k : k ∈ map key (firsts seen l) <-> k ∉ seen /\ k ∈ map key l.
Proof.
  revert seen. induction l as [|x l IH]; intros seen; cbn [firsts map]; [set_solver|].
  destruct (bool_decide_reflect (key x ∈ seen)); cbn [map]; rewrite ?elem_of_cons, IH; [set_solver|]. destruct (decide (k = key x)) as [->|]; set_solver.
Qed.

Lemma firsts_NoDup seen l : NoDup (map key (firsts seen l)).
Proof.
  revert seen. induction l as [|x l IH]; intros seen; cbn [firsts]; [apply NoDup_nil_2|]. destruct (bool_decide _); [done|].
  cbn [map]. apply NoDup_cons. split; [rewrite firsts_key; set_solver|done].
Qed.

Lemma firsts_find seen l x : key x ∉ seen -> find (fun y => key y =s key x) l = Some x -> x ∈ firsts seen l.
Proof.
  revert seen. induction l as [|y l IH]; intros seen Hs; cbn [find firsts]; [done|]. destruct (String.eqb_spec (key y) (key x)) as [E|E].
  - intros [= ->]. rewrite bool_decide_eq_false_2 by done. apply list_elem_of_here.
  - intros Hf. destruct (bool_decide _); [by apply IH|]. apply list_elem_of_further, IH; [set_solver|done].
Qed.
End Once.

(** ** The merge *)

Lemma normalized devices metrics :
  NormalizeGPUs devices metrics
  = map (fun d => merged d (metricByKey metrics !! device_key d)) (firsts device_key ∅ devices)
    ++ map of_metric (firsts metric_key (keys device_key devices) metrics).
Proof. unfold NormalizeGPUs. rewrite !once_loop. cbn [snd]. by rewrite (left_id_L ∅ (∪)). Qed.

Lemma normalized_keys devices metrics :
  map UniqueKey (NormalizeGPUs devices metrics)
  = map device_key (firsts device_key ∅ devices) ++ map metric_key (firsts metric_key (keys device_key devices) metrics).
Proof.
  rewrite normalized, map_app, !map_map. f_equal. apply map_ext. intros d. by destruct (_ !! _).
Qed.

Lemma metricByKey_last metrics k : metricByKey metrics !! k = find (fun m => metric_key m =s k) (rev metrics).
Proof.
  unfold metricByKey. induction metrics as [|m metrics IH] using rev_ind; [done|]. rewrite foldl_app, rev_app_distr. cbn [foldl rev app find].
  destruct (String.eqb_spec (metric_key m) k) as [<-|E]; [by rewrite lookup_insert_eq|by rewrite lookup_insert_ne].
Qed.

Lemma keys_elem {A} (key : A -> string) l k : k ∈ keys key l <-> k ∈ map key l.
Proof. unfold keys. by rewrite elem_of_list_to_set. Qed.

Lemma normalized_NoDup devices metrics : NoDup (map UniqueKey (NormalizeGPUs devices metrics)).
Proof.
  rewrite normalized_keys. apply NoDup_app. split_and!; [apply firsts_NoDup| |apply firsts_NoDup].
  intros k. rewrite !firsts_key, keys_elem. tauto.
Qed.

Lemma normalized_elem devices metrics k :
  k ∈ map UniqueKey (NormalizeGPUs devices metrics) <-> k ∈ map device_key devices \/ k ∈ map metric_key metrics.
Proof.
  rewrite normalized_keys, elem_of_app, !firsts_key, keys_elem. destruct (decide (k ∈ map device_key devices)); set_solver.
Qed.

Lemma normalized_device devices metrics d :
  find (fun d' => device_key d' =s device_key d) devices = Some d ->
  merged d (find (fun m => metric_key m =s device_key d) (rev metrics)) ∈ NormalizeGPUs devices metrics.
Proof.
  intros Hd. rewrite normalized, <- metricByKey_last, elem_of_app. left.
  apply (list_elem_of_fmap_2 (fun d => merged d (metricByKey metrics !! device_key d))), firsts_find; [set_solver|done].
Qed.

Lemma normalized_metric devices metrics m :
  metric_key m ∉ map device_key devices -> find (fun m' => metric_key m' =s metric_key m) metrics = Some m -> of_metric m ∈ NormalizeGPUs devices metrics.
Proof.
  intros Hn Hm. rewrite normalized, elem_of_app. right. apply (list_elem_of_fmap_2 of_metric), firsts_find; [by rewrite keys_elem|done].
Qed.

(** The merged list has one GPU per key, exactly the keys of the devices and of the
    metrics; a device that is the first of its key is merged with the last metric of that
    key, and a metric without a device stands for itself. *)
Theorem NormalizeGPUs_spec devices metrics :
  let l := NormalizeGPUs devices metrics in
  NoDup (map UniqueKey l)
  /\ (forall k, k ∈ map UniqueKey l <-> k ∈ map device_key devices \/ k ∈ map metric_key metrics)
  /\ (forall d, find (fun d' => device_key d' =s device_key d) devices = Some d ->
        merged d (find (fun m => metric_key m =s device_key d) (rev metrics)) ∈ l)
  /\ (forall m, metric_key m ∉ map device_key devices -> find (fun m' => metric_key m' =s metric_key m) metrics = Some m -> of_metric m ∈ l).
Proof.
  cbv zeta. split_and!; [apply normalized_NoDup|intros k; apply normalized_elem|intros d; apply normalized_device|intros m; apply normalized_metric].
Qed.

(** ** From a line of a script to a row *)

(** Where a GPU of the merged list comes from. *)
Lemma normalized_source devices metrics g :
  g ∈ NormalizeGPUs devices metrics ->
  (exists d, d ∈ devices /\ gr_UUID g = dv_UUID d /\ gr_Vendor g = dv_Vendor d)
  \/ (exists m, m ∈ metrics /\ gr_UUID g = mc_UUID m /\ gr_Vendor g = mc_Vendor m).
Proof.
  assert (forall A (key : A -> string) l seen x, x ∈ firsts key seen l -> x ∈ l) as Hf.
  { intros A key l. induction l as [|y l IH]; intros seen x; cbn [firsts]; [done|]. case_match; [intros H0%IH; by apply list_elem_of_further|].
    rewrite !elem_of_cons. intros [->|H0%IH]; [by left|by right]. }
  rewrite normalized, elem_of_app. intros [Hg|Hg]; apply list_elem_of_In, in_map_iff in Hg as (x & <- & Hx%list_elem_of_In%Hf); [left|right]; exists x; [|done].
  by destruct (_ !! _).
Qed.

Lemma find_rev_only {A} (p : A -> bool) l x : x ∈ l -> p x = true -> (forall y, y ∈ l -> p y = true -> y = x) -> find p (rev l) = Some x.
Proof.
  intros Hx Hp Hu. destruct (find p (rev l)) as [y|] eqn:E.
  - apply find_some in E as [Hy%in_rev%list_elem_of_In Hpy]. by rewrite (Hu y Hy Hpy).
  - pose proof (find_none _ _ E x) as H. rewrite Hp in H. by discriminate H; apply in_rev; rewrite rev_involutive; apply list_elem_of_In.
Qed.

Lemma keyed vendor uuid index : uuid <> "" -> gpu_key vendor uuid index = (vendor +s+ ":" +s+ uuid)%go.
Proof. intros H. unfold gpu_key. by apply String.eqb_neq in H as ->. Qed.

(** The UUID and the key of the device are its own. *)
Record owns_uuid (d : GPUDeviceInfo) (devices : list GPUDeviceInfo) (metrics : list GPUMetricInfo) : Prop := {
  ow_uuid : dv_UUID d <> "";
  ow_devices : forall d', d' ∈ devices -> dv_UUID d' = dv_UUID d \/ device_key d' = device_key d -> d' = d;
  ow_metrics : forall m, m ∈ metrics -> mc_UUID m = dv_UUID d -> mc_Vendor m = dv_Vendor d
}.

Lemma owner_merged devices metrics d :
  d ∈ devices -> owns_uuid d devices metrics ->
  exists g, g = merged d (metricByKey metrics !! device_key d)
    /\ find (fun g => gr_UUID g =s dv_UUID d) (rev (NormalizeGPUs devices metrics)) = Some g.
Proof.
  intros Hd [Hne Hod Hom]. exists (merged d (metricByKey metrics !! device_key d)). split; [done|].
  assert (gr_UUID (merged d (metricByKey metrics !! device_key d)) = dv_UUID d /\ gr_Vendor (merged d (metricByKey metrics !! device_key d)) = dv_Vendor d) as [Hu Hv]
    by (by destruct (_ !! _)).
  assert (merged d (metricByKey metrics !! device_key d) ∈ NormalizeGPUs devices metrics) as Hin.
  { rewrite metricByKey_last. apply normalized_device.
    destruct (find _ devices) as [d'|] eqn:E; [apply find_Some_key in E as [Hd' E]; by rewrite (Hod d') by (by (done || right))|].
    pose proof (find_none _ _ E d (proj1 (list_elem_of_In _ _) Hd)) as H. cbn beta in H. by rewrite String.eqb_refl in H. }
  apply find_rev_only; [done|by rewrite Hu; apply String.eqb_refl|]. intros g Hg He%String.eqb_eq.
  apply (NoDup_key_eq UniqueKey (NormalizeGPUs devices metrics)); [apply normalized_NoDup|done|done|].
  unfold UniqueKey. rewrite Hu, Hv, He, !keyed by done. do 2 f_equal.
  apply normalized_source in Hg as [(d' & Hd' & E1 & ->)|(m & Hm & E1 & ->)]; [by rewrite (Hod d') by (done || left; congruence)|by apply Hom; [|congruence]].
Qed.

Lemma owns_at now d devices metrics : owns_uuid d devices metrics -> owns_uuid (device_at now d) (map (device_at now) devices) metrics.
Proof.
  intros [Hne Hd Hm]. split; [done| |done]. intros d' (d0 & <- & H0)%list_elem_of_In%in_map_iff H. f_equal. by apply Hd; [apply list_elem_of_In|].
Qed.

(** What a cycle reports when the only collector prints [devices]. *)
Lemma printed_cycle run cfg vendor name devices now agentID system r :
  Forall device_ok devices -> clean vendor = true -> clean name = true -> (str_len (status_line_of vendor name) < max_line)%Z ->
  run (ec_DiscoverCmd cfg) = {| cr_stdout := write_output vendor name devices; cr_stderr := ""; cr_failed := false; cr_exit := 0 |} ->
  devices <> [] ->
  rr_GPUResources (Collect agentID now system [external_cycle run now cfg] r).1
  = NormalizeGPUs (map (device_at now) devices) (fresh_or (Metrics run cfg now).1 (rg_lastGPUMetrics r)).
Proof.
  intros Hd Hv Hn Hl Hr Hne. assert (Discover run cfg now = (map (device_at now) devices, written_diagnosis vendor name now)) as ED.
  { unfold Discover. rewrite Hr. cbn [cr_failed cr_stdout]. by rewrite written_output_read. }
  unfold external_cycle. rewrite ED. unfold Collect. cbn [fst snd rr_GPUResources List.filter cycle_available gc_discover gc_metrics dg_Available written_diagnosis map concat].
  rewrite !app_nil_r.
  destruct devices as [|d devices]; [done|]. cbn [map fresh_or]. unfold fresh_or at 1.
  destruct (NormalizeGPUs _ _) as [|g l] eqn:E; [|done]. exfalso.
  assert (device_key (device_at now d) ∈ map UniqueKey []) as H by (rewrite <- E; apply normalized_elem; left; by left). by apply elem_of_nil in H.
Qed.

Lemma find_map_sent rfc3339nano uuid l g :
  find (fun g => gr_UUID g =s uuid) (rev l) = Some g -> last_reported uuid (map (sent_gpu rfc3339nano) l) = Some (sent_gpu rfc3339nano g).
Proof.
  unfold last_reported. rewrite <- map_rev. induction (rev l) as [|g' l' IH]; [done|]. cbn [find map]. change (gq_UUID (sent_gpu rfc3339nano g')) with (gr_UUID g').
  destruct (_ =s _); [by intros [= ->]|done].
Qed.

(** The row of a node that names device [d] as it was found. *)
Definition lists_device (rfc3339 : Z -> string) (nodeID : string) (now : Z) (d : GPUDeviceInfo) (g : gpu_row) : Prop :=
  g_node g = nodeID /\ g_uuid g = dv_UUID d /\ g_vendor g = dv_Vendor d /\ g_index g = dv_Index d /\ g_driver g = dv_DriverVersion d
  /\ g_status g = text_or (dv_Status d) "available" /\ g_reported g = rfc3339 now /\ g_updated g = now.

(** C39. A device that a script prints is in the table when the report of the cycle is
    accepted.  Take a cycle of an agent with one collector, whose script succeeds and
    prints devices and the status line within the line limit, and a device among them
    that owns its UUID: the UUID is not empty, no other device of the output has that
    UUID or its key, and no metric gives that UUID to another vendor
    ([owns_uuid]; a device without a UUID is marked as gone, [no_uuid_is_gone]).  If
    the server accepts the report, the table having one row per identifier and place,
    then a row of a node of the agent has the UUID, vendor, index and driver of the
    device, its status (available when it has none) and the time of the cycle. *)
Theorem printed_device_is_listed driver_takes rfc3339 rfc3339nano run cfg vendor name devices d agentID now system ids r ht db r' ht' db' :
  Forall device_ok devices -> clean vendor = true -> clean name = true -> (str_len (status_line_of vendor name) < max_line)%Z ->
  run (ec_DiscoverCmd cfg) = {| cr_stdout := write_output vendor name devices; cr_stderr := ""; cr_failed := false; cr_exit := 0 |} ->
  d ∈ devices -> owns_uuid d devices (fresh_or (Metrics run cfg now).1 (rg_lastGPUMetrics r)) ->
  gpus_ok (db_gpus db) ->
  collect_and_report driver_takes rfc3339 rfc3339nano agentID now system [external_cycle run now cfg] ids r ht db = (Some ReportOK, r', (ht', db')) ->
  exists n g, n ∈ db_nodes db /\ n_agent n = agentID /\ g ∈ db_gpus db' /\ lists_device rfc3339 (n_id n) now d g.
Proof.
  intros Hd Hv Hn Hl Hr Hin Ho Hok Hc. unfold collect_and_report in Hc. destruct (Collect _ _ _ _ _) as [report r1] eqn:EC.
  assert (devices <> []) as Hne by (by intros ->; apply elem_of_nil in Hin).
  pose proof (printed_cycle run cfg vendor name devices now agentID system r Hd Hv Hn Hl Hr Hne) as HR. rewrite EC in HR. cbn [fst] in HR.
  assert (rr_AgentID report = agentID) as HA by (by injection EC as <- _).
  unfold sent_report in Hc. destruct (encodable report); [|done]. destruct (HandleResourceReport _ _ _ _ _ _ _) as [resp tables] eqn:EH.
  injection Hc as -> _ ->. apply report_followed in EH as (n & Hnode & Ha & Hf); [|done]. cbn [rq_AgentID rq_GPUResources] in Ha, Hf.
  destruct (owner_merged (map (device_at now) devices) _ (device_at now d) ltac:(by apply (list_elem_of_fmap_2 (device_at now))) (owns_at now _ _ _ Ho))
    as (g0 & Eg & Hg0). rewrite <- HR in Hg0. apply (find_map_sent rfc3339nano) in Hg0.
  destruct (fw_shown _ _ _ _ _ _ Hf _ _ (ow_uuid _ _ _ (owns_at now _ _ _ Ho)) Hg0) as (g & Hg & [= Hpn Hpu] & Hsh).
  exists n, g. split_and!; [done|congruence|done|]. unfold lists_device. destruct Hsh as [Sv Si _ Sd _ _ _ _ _ _ _ _ Ss _ Sr Su].
  rewrite Sv, Si, Sd, Ss, Sr, Su. split_and!; [done|done|..]; rewrite ?Eg; by destruct (_ !! _).
Qed.

(** ** Concrete cycles *)

Definition demo_run : string -> command_result := one_script (write_output "nvidia" "nvidia" [demo_device]).
Definition demo_cfg : ExternalCommandConfig := builtin_probe "nvidia".
Definition demo_cycle : option report_response * Registry * (host_tables * DB) :=
  collect_and_report signed_driver Itoa Itoa "a1" 7 [] [external_cycle demo_run 7 demo_cfg] ["g1"] NewRegistry no_host demo_db.

Lemma demo_owns : owns_uuid demo_device [demo_device] [].
Proof. split; [done|by intros d' ->%list_elem_of_singleton|by intros m ?%elem_of_nil]. Qed.

Lemma printed_device_is_listed_witness :
  exists n g, n ∈ [demo_node] /\ n_agent n = "a1" /\ g ∈ db_gpus demo_cycle.2.2 /\ lists_device Itoa (n_id n) 7 demo_device g.
Proof.
  exact (printed_device_is_listed signed_driver Itoa Itoa demo_run demo_cfg "nvidia" "nvidia" [demo_device] demo_device "a1" 7 [] ["g1"] NewRegistry
    no_host demo_db demo_cycle.1.2 demo_cycle.2.1 demo_cycle.2.2 (Forall_cons_2 _ _ _ demo_device_ok (Forall_nil_2 _)) eq_refl eq_refl demo_status_fits
    eq_refl (list_elem_of_here _ _) demo_owns gpus_ok_nil eq_refl).
Defined.

(** What the cycles of an agent with two collectors leave in the table. *)
Definition device (vendor uuid : string) : GPUDeviceInfo :=
  {| dv_Vendor := vendor; dv_Index := 0; dv_Name := "g"; dv_UUID := uuid; dv_PCIBusID := ""; dv_DriverVersion := ""; dv_MemoryTotalBytes := 8;
     dv_Status := "available"; dv_CollectedAt := 0 |}.
Definition answers (available : bool) (devices : list GPUDeviceInfo) : gpu_cycle :=
  {| gc_discover := (devices, outcome available "" (mock_diagnosis 0)); gc_metrics := ([], mock_diagnosis 0) |}.
Definition two_cycles (first second : list gpu_cycle) : list (string * string * string) :=
  let '(_, r, (ht, db)) := collect_and_report signed_driver Itoa Itoa "a1" 7 [] first ["g1"; "g2"] NewRegistry no_host demo_db in
  listed (collect_and_report signed_driver Itoa Itoa "a1" 8 [] second ["g3"; "g4"] r ht db).2.2.

(** GPUs that are all gone are reported from memory as available, for ever. *)
Example vanished_stay_available : two_cycles [answers true [device "x" "u1"]] [answers true []] = [("x", "u1", "available")].
Proof. vm_compute. reflexivity. Qed.

(** The collector of one vendor fails: its GPUs are not kept, as the other's hide the
    failure. *)
Example one_vendor_fails :
  two_cycles [answers true [device "x" "u1"]; answers true [device "y" "u2"]] [answers true [device "x" "u1"]; answers false []]
  = [("x", "u1", "available"); ("y", "u2", "unavailable")].
Proof. vm_compute. reflexivity. Qed.

(** A metric that is not a number keeps the whole report from being sent. *)
Example nan_is_not_sent :
  let m v := external_cycle (one_script ("METRIC vendor=x index=0 uuid=u gpu_utilization_percent=" +s+ v +s+ String newline "STATUS ok=true")) 0 (builtin_probe "x") in
  map (fun v => (collect_and_report signed_driver Itoa Itoa "a1" 7 [] [m v] ["g1"] NewRegistry no_host demo_db).1.1) ["50"; "nan"; "inf"]
  = [Some ReportOK; None; None].
Proof. vm_compute. reflexivity. Qed.

(** A negative index has no digits, so two GPUs without UUIDs share a key. *)
Example negative_index : map (fun i => gpu_key "x" "" i) [-1; -2; 12]%Z = ["x:"; "x:"; "x:12"].
Proof. vm_compute. reflexivity. Qed.
