(* ===== verification/Lifecycle.v ===== *)
(** * The life cycle as a transition system

    Every handler that writes the tables is a step; a stop is the sequence of
    the writes it makes, with whatever other requests do while it waits.  The
    invariant [wf] holds in every state reachable from empty tables. *)
From S2P Require Import Prelude GoStrings GoValue Store AgentTasks Deployments GpuProtocol GpuReport GpuReportProps.

(** ** Steps *)

Section Steps.
Context `{SO : SqlOrder}.

(** The row a create request adds. *)
Definition insert_deployment (d : deployment_row) (db : DB) : option DB :=
  rows ← insert_checked (id_free d_id (d_id d)) d (db_deployments db); Some (set_deployments (fun _ => rows) db).

Inductive step : DB -> DB -> Prop :=
| step_register node agent facts now db : step db (HandleRegister node agent facts now db).2
| step_heartbeat node agent now db : step db (HandleHeartbeat node agent now db).2
| step_offline threshold now db : step db (MarkOfflineNodes threshold now db).2
| step_result task req now db : step db (HandleTaskResult task req now db).2
| step_create id tenant now db db' :
    insert_deployment {| d_id := id; d_tenant := tenant; d_desired := "stopped"; d_status := "stopped"; d_updated := now |} db = Some db' ->
    step db db'
| step_start s deployID pf ids now db : step db (HandleStartDeployment s deployID pf ids now db).2
| step_mark_stopping instance now db : step db (mark_stopping instance now db)
| step_dispatch_stop payload_of tenant deployID operation now taskID st db db' :
    insert_task (stop_task payload_of tenant deployID operation now taskID st) db = Some db' -> step db db'
| step_finish_stop deployID now db : step db (finish_stop deployID now db)
| step_audit a db : step db (add_audit a db)
| step_delete s id now db : step db (HandleDeleteDeployment s id now db).2
| step_logs s runPlan taskID payload now db : step db (HandleGetNodeRunPlanLogs s runPlan taskID payload now db).2
| step_transfer tenants info node tenant now db :
    step db (HandlePatchNodeTenant tenants info node tenant now db).2
| step_report driver_takes rfc3339 req ids now hosts db :
    step db (HandleResourceReport driver_takes rfc3339 req ids now hosts db).2.2
| step_stale rfc3339 node threshold now db : step db (MarkStaleGPUs rfc3339 node threshold now db).2.

(** A round of the health checker is a sequence of steps. *)
Lemma health_check_steps rfc3339 threshold now db : rtc step db (health_check rfc3339 threshold now db).
Proof.
  unfold health_check. pose proof (step_offline (if (threshold =? 0)%Z then 30 else threshold) now db) as H1.
  destruct (MarkOfflineNodes _ now db) as [[|n] db1]; cbn in H1; eapply rtc_l; [exact H1|apply rtc_refl|exact H1|].
  set (nodes := map n_id _). clearbody nodes. clear H1. revert db1. induction nodes as [|node nodes IH]; intros db1; [apply rtc_refl|].
  eapply rtc_l; [apply step_stale|apply IH].
Qed.

(** The whole stop handler is a sequence of steps when waiting is. *)
Section StopIsSteps.
Variable payload_of : stop_target -> string.
Variable wait : string -> DB -> wait_result * DB.
Hypothesis wait_steps : forall taskID db, rtc step db (wait taskID db).2.

Lemma stop_one_steps tenant deployID op now taskID st db :
  rtc step db (stop_one payload_of wait tenant deployID op now taskID st db).2.
Proof.
  unfold stop_one. eapply rtc_l; [apply (step_mark_stopping (st_id st) now)|].
  destruct (negb _); [apply rtc_refl|].
  destruct (insert_task _ _) as [db1|] eqn:E; [|apply rtc_refl].
  eapply rtc_l; [by eapply step_dispatch_stop|].
  pose proof (wait_steps taskID db1) as Hw. destruct (wait taskID db1) as [[|status result] db2]; [exact Hw|].
  by destruct (negb _).
Qed.

Lemma stop_loop_steps tenant deployID op now taskIDs sts db :
  rtc step db (stop_loop payload_of wait tenant deployID op now taskIDs sts db).2.
Proof.
  revert taskIDs db. induction sts as [|st sts IH]; intros taskIDs db; [apply rtc_refl|].
  destruct taskIDs as [|taskID taskIDs]; [apply rtc_refl|]. cbn [stop_loop].
  pose proof (stop_one_steps tenant deployID op now taskID st db) as H1.
  destruct (stop_one _ _ _ _ _ _ _ _ _) as [w1 db1]. pose proof (IH taskIDs db1) as H2.
  destruct (stop_loop _ _ _ _ _ _ _ _ _) as [w2 db2]. by etrans.
Qed.

Lemma audits_steps s tenant sts db :
  rtc step db (foldl (fun db st => stop_audit s tenant st db) db sts).
Proof.
  revert db. induction sts as [|st sts IH]; intros db; [apply rtc_refl|]. cbn [foldl].
  eapply rtc_l; [apply step_audit|]. apply IH.
Qed.

Lemma HandleStopDeployment_steps s deployID op taskIDs now db :
  rtc step db (HandleStopDeployment payload_of wait s deployID op taskIDs now db).2.
Proof.
  unfold HandleStopDeployment. destruct (find_deployment db deployID) as [d|]; [|apply rtc_refl].
  destruct (negb _); [apply rtc_refl|].
  pose proof (stop_loop_steps (d_tenant d) deployID op now taskIDs (stop_targets deployID db) db) as H1.
  destruct (stop_loop _ _ _ _ _ _ _ _ _) as [w db1]. cbn [snd]. etrans; [exact H1|].
  eapply rtc_l; [apply step_finish_stop|]. apply audits_steps.
Qed.
End StopIsSteps.
End Steps.

(** ** The invariant *)

Definition task_statuses : list string := ["pending"; "claimed"; "completed"; "failed"; "timed_out"].
Definition instance_states : list string := ["pending"; "running"; "stopping"; "stopped"; "failed"].
Definition lease_statuses : list string := ["reserved"; "active"; "released"; "failed"].

(** A pending task was never claimed, a claimed one once. *)
Definition task_ok (t : task_row) : Prop :=
  t_status t ∈ task_statuses /\ (0 <= t_generation t <= 1)%Z /\
  (t_status t = "pending" -> t_generation t = 0%Z) /\ (t_status t = "claimed" -> t_generation t = 1%Z).

Definition instance_ok (i : instance_row) : Prop := i_actual i ∈ instance_states.

(** No lease carries an expiry. *)
Definition lease_ok (l : lease_row) : Prop := l_status l ∈ lease_statuses /\ l_expires l = None.

Definition instance_keys (db : DB) : list (string * string) := map (fun i => (i_id i, i_deployment i)) (db_instances db).
Definition lease_keys (db : DB) : list (string * string) := map (fun l => (l_instance l, l_deployment l)) (db_leases db).
Definition live_gpus (rows : list lease_row) : list string := map l_gpu (List.filter lease_live rows).

Record wf (db : DB) : Prop := {
  wf_node_ids : NoDup (map n_id (db_nodes db));
  wf_task_ids : NoDup (map t_id (db_tasks db));
  wf_instance_ids : NoDup (map i_id (db_instances db));
  wf_lease_ids : NoDup (map l_id (db_leases db));
  wf_live_gpus : NoDup (live_gpus (db_leases db));
  wf_tasks : Forall task_ok (db_tasks db);
  wf_instances : Forall instance_ok (db_instances db);
  wf_leases : Forall lease_ok (db_leases db);
  wf_lease_instances : forall k, k ∈ lease_keys db -> k ∈ instance_keys db;
  wf_gpu_rows : gpus_ok (db_gpus db)
}.

Definition empty_db (tenants : list (string * string)) : DB :=
  {| db_tenants := tenants; db_nodes := []; db_gpus := []; db_tasks := []; db_instances := []; db_leases := [];
     db_deployments := []; db_run_plans := []; db_groups := []; db_audits := [] |}.

Lemma wf_empty tenants : wf (empty_db tenants).
Proof. constructor; cbn; try apply NoDup_nil_2; repeat constructor; done. Qed.

(** ** Table by table *)

Lemma wf_nodes db f : NoDup (map n_id (f (db_nodes db))) -> wf db -> wf (set_nodes f db).
Proof. intros Hn []. by constructor. Qed.

Lemma wf_nodes_update db p f : (forall n, n_id (f n) = n_id n) -> wf db -> wf (set_nodes (update_where p f) db).
Proof. intros Hf H. apply wf_nodes; [|done]. rewrite (update_map n_id) by done. apply H. Qed.

Lemma wf_gpus db f : gpus_ok (f (db_gpus db)) -> wf db -> wf (set_gpus f db).
Proof. intros Hg []. by constructor. Qed.
Lemma wf_gpus_update db p status tenant now :
  wf db -> wf (set_gpus (update_where p (fun g => gpu_with (status g) (tenant g) now g)) db).
Proof. intros H. apply wf_gpus, H. apply gpus_ok_update; [done|apply H]. Qed.
Lemma wf_deployments db f : wf db -> wf (set_deployments f db).
Proof. intros []. by constructor. Qed.
Lemma wf_run_plans db f : wf db -> wf (set_run_plans f db).
Proof. intros []. by constructor. Qed.
Lemma wf_groups db f : wf db -> wf (set_groups f db).
Proof. intros []. by constructor. Qed.
Lemma wf_audit db a : wf db -> wf (add_audit a db).
Proof. intros []. by constructor. Qed.

Lemma wf_tasks_update db p f :
  (forall t, t_id (f t) = t_id t) -> (forall t, p t = true -> task_ok t -> task_ok (f t)) ->
  wf db -> wf (set_tasks (update_where p f) db).
Proof.
  intros Hid Hok []. constructor; cbn; try done.
  - by rewrite (update_map t_id).
  - by apply update_Forall_where.
Qed.

Lemma wf_instances_update db p f :
  (forall i, i_id (f i) = i_id i /\ i_deployment (f i) = i_deployment i) ->
  (forall i, p i = true -> instance_ok i -> instance_ok (f i)) ->
  wf db -> wf (set_instances (update_where p f) db).
Proof.
  intros Hid Hok []. constructor; cbn; try done.
  - rewrite (update_map i_id); [done|]. intros i. apply Hid.
  - by apply update_Forall_where.
  - unfold instance_keys in *. cbn. rewrite update_map; [done|]. intros i. destruct (Hid i) as [-> ->]. done.
Qed.

(** Leases are never revived. *)
Lemma live_gpus_update p f rows :
  (forall l, l_gpu (f l) = l_gpu l) -> (forall l, p l = true -> lease_live (f l) = true -> lease_live l = true) ->
  live_gpus (update_where p f rows) `sublist_of` live_gpus rows.
Proof.
  intros Hg Hl. unfold live_gpus, update_where. induction rows as [|l rows IH]; cbn; [done|].
  destruct (p l) eqn:Ep; [destruct (lease_live (f l)) eqn:E1|].
  - rewrite (Hl l Ep E1). cbn. rewrite Hg. by constructor.
  - destruct (lease_live l); cbn; [by constructor|done].
  - destruct (lease_live l); cbn; [by constructor|done].
Qed.

Lemma wf_leases_update db p f :
  (forall l, l_id (f l) = l_id l /\ l_gpu (f l) = l_gpu l /\ l_instance (f l) = l_instance l /\
             l_deployment (f l) = l_deployment l) ->
  (forall l, p l = true -> lease_live (f l) = true -> lease_live l = true) ->
  (forall l, p l = true -> lease_ok l -> lease_ok (f l)) ->
  wf db -> wf (set_leases (update_where p f) db).
Proof.
  intros Hk Hlive Hok []. constructor; cbn; try done.
  - rewrite (update_map l_id); [done|]. intros l. apply Hk.
  - eapply sublist_NoDup; [|apply live_gpus_update]; try done. intros l. apply Hk.
  - by apply update_Forall_where.
  - unfold lease_keys in *. cbn. rewrite update_map; [done|]. intros l. by destruct (Hk l) as (_ & _ & -> & ->).
Qed.

(** ** Preservation, operation by operation *)

Lemma wf_sweep node now db : wf db -> wf (sweepExpiredTasks node now db).
Proof.
  intros H. unfold sweepExpiredTasks, sweep_deployments, sweep_leases, sweep_instances, sweep_tasks.
  apply wf_deployments, wf_leases_update; [done| | |apply wf_instances_update; [done| |apply wf_tasks_update; [done| |done]]].
  - intros l _. done.
  - intros l _ [_ He]. by split; [set_solver|].
  - intros i _ _. unfold instance_ok. cbn. set_solver.
  - intros t _ (_ & Hg & _). unfold task_ok. cbn. split_and!; [set_solver|lia|lia|discriminate|discriminate].
Qed.

Lemma wf_on_instance id f db :
  (forall i, i_id (f i) = i_id i /\ i_deployment (f i) = i_deployment i) ->
  (forall i, instance_ok i -> instance_ok (f i)) -> wf db -> wf (on_instance id f db).
Proof. intros ? ? ?. apply wf_instances_update; auto. Qed.

Lemma wf_finish_task id status req now db :
  status ∈ ["completed"; "failed"] -> wf db -> wf (finish_task id status req now db).
Proof.
  intros Hs H. apply wf_tasks_update; [done| |done]. intros t _ (_ & Hg & _).
  unfold task_ok. cbn. split_and!; [set_solver|lia|lia|intros ->; set_solver|intros ->; set_solver].
Qed.

Lemma wf_on_leases id p f db :
  (forall l, l_id (f l) = l_id l /\ l_gpu (f l) = l_gpu l /\ l_instance (f l) = l_instance l /\
             l_deployment (f l) = l_deployment l) ->
  (forall l, p l = true -> lease_live l = true) ->
  (forall l, lease_ok l -> lease_ok (f l)) -> wf db -> wf (on_leases id p f db).
Proof.
  intros Hk Hp Hok H. apply wf_leases_update; try done.
  - intros l [_ Hl]%andb_true_iff _. auto.
  - intros l _. auto.
Qed.

Lemma reserved_live l : is_reserved l = true -> lease_live l = true.
Proof. unfold is_reserved, lease_live. intros ->. done. Qed.

Lemma wf_release_leases id now db : wf db -> wf (release_leases id now db).
Proof. apply wf_on_leases; [done|done|]. intros l [_ He]. by split; [set_solver|]. Qed.
Lemma wf_activate_leases id now db : wf db -> wf (activate_leases id now db).
Proof. apply wf_on_leases; [done|apply reserved_live|]. intros l [_ He]. by split; [set_solver|]. Qed.
Lemma wf_fail_leases id db : wf db -> wf (fail_leases id db).
Proof. apply wf_on_leases; [done|apply reserved_live|]. intros l [_ He]. by split; [set_solver|]. Qed.

Lemma wf_start_audit t req i a r db : wf db -> wf (start_audit t req i a r db).
Proof. intros H. unfold start_audit. destruct (_ =s _); [by apply wf_audit|done]. Qed.

Lemma wf_if (b : bool) db1 db2 : wf db1 -> wf db2 -> wf (if b then db1 else db2).
Proof. by destruct b. Qed.

Ltac instance_state := intros ?; unfold instance_ok; cbn; set_solver.

Ltac wf_step :=
  first
    [ assumption
    | apply wf_if
    | apply wf_start_audit | apply wf_audit | apply wf_activate_leases | apply wf_fail_leases | apply wf_release_leases
    | apply wf_on_instance; [done|instance_state|]
    | apply wf_finish_task; [set_solver|] ].

Lemma wf_result_completed t instance req now db : wf db -> wf (result_completed t instance req now db).
Proof. intros H. unfold result_completed. destruct (andb (boolVal req "success" true) _); repeat wf_step. Qed.

Lemma wf_result_failed t instance req now db : wf db -> wf (result_failed t instance req now db).
Proof. intros H. unfold result_failed. repeat wf_step. Qed.

Lemma wf_HandleTaskResult task req now db : wf db -> wf (HandleTaskResult task req now db).2.
Proof.
  intros H. unfold HandleTaskResult. destruct (find_task db task) as [t|]; [|done].
  repeat (case_match; cbn [snd]; [by auto using wf_result_completed, wf_result_failed|]); done.
Qed.

Lemma wf_insert_task t db db' : insert_task t db = Some db' -> task_ok t -> wf db -> wf db'.
Proof.
  intros Hi Ht []. unfold insert_task in Hi.
  destruct (insert_checked _ _ _) as [rows|] eqn:E; [|done]. cbn in Hi. injection Hi as <-.
  apply insert_checked_Some in E as [Hfree%id_free_notin ->]. constructor; cbn; try done.
  - rewrite map_app. by apply NoDup_snoc.
  - apply Forall_app. split; [done|by apply Forall_singleton].
Qed.

Lemma new_task_ok id ty te dep ins node pay tmo op now : task_ok (new_task id ty te dep ins node pay tmo op now).
Proof. unfold task_ok. cbn. split_and!; [set_solver|lia|lia|done|discriminate]. Qed.

Lemma wf_insert_instance i db db' :
  insert_instance i db = Some db' -> instance_ok i -> wf db -> wf db' /\ (i_id i, i_deployment i) ∈ instance_keys db'.
Proof.
  intros Hi Hok []. unfold insert_instance in Hi.
  destruct (insert_checked _ _ _) as [rows|] eqn:E; [|done]. cbn in Hi.
  destruct (existsb _ _); [|done]. injection Hi as <-.
  apply insert_checked_Some in E as [Hfree%id_free_notin ->].
  unfold instance_keys in *. split; [constructor; cbn; try done|].
  - rewrite map_app. by apply NoDup_snoc.
  - apply Forall_app. split; [done|by apply Forall_singleton].
  - intros k Hk. unfold instance_keys. cbn. rewrite map_app. apply elem_of_app. left. auto.
  - cbn. rewrite map_app. apply elem_of_app. right. cbn. by apply list_elem_of_singleton.
Qed.

Lemma wf_insert_lease l db db' :
  insert_lease l db = Some db' -> lease_ok l -> (l_instance l, l_deployment l) ∈ instance_keys db ->
  wf db -> wf db' /\ instance_keys db' = instance_keys db.
Proof.
  intros Hi Hok Hk []. unfold insert_lease in Hi.
  destruct (insert_checked _ _ _) as [rows|] eqn:E; [|done]. cbn in Hi. injection Hi as <-.
  apply insert_checked_Some in E as [[Hfree%id_free_notin Hlive]%andb_true_iff ->].
  split; [constructor; cbn; try done|done].
  - rewrite map_app. by apply NoDup_snoc.
  - unfold live_gpus. rewrite List.filter_app, map_app. cbn. destruct (lease_live l); cbn; [|by rewrite app_nil_r].
    apply NoDup_snoc; [done|]. intros Hin. apply negb_true_iff, not_true_iff_false in Hlive. apply Hlive.
    apply list_elem_of_In, in_map_iff in Hin as (r & Hg & Hr). apply filter_In in Hr as [Hr Hrl].
    apply existsb_exists. exists r. split; [done|]. by rewrite Hrl, Hg, String.eqb_refl.
  - apply Forall_app. split; [done|by apply Forall_singleton].
  - intros k. unfold lease_keys. cbn. rewrite map_app. intros [Hin|Hin]%elem_of_app; [by apply wf_lease_instances0|].
    by apply list_elem_of_singleton in Hin as ->.
Qed.

Lemma wf_insert_leases ids dep pf now lids gids db db' :
  insert_leases (new_lease ids dep pf now) lids gids db = Some db' ->
  (si_instance ids, dep) ∈ instance_keys db -> wf db -> wf db' /\ instance_keys db' = instance_keys db.
Proof.
  revert lids db. induction gids as [|gid gids IH]; intros lids db Hi Hk H; cbn in Hi; [by injection Hi as <-|].
  destruct lids as [|lid lids]; [done|]. destruct (insert_lease _ db) as [db1|] eqn:E; [|done]. cbn in Hi.
  apply wf_insert_lease in E as [H1 Hk1]; [|split; [set_solver|done]|done|done].
  destruct (IH lids db1 Hi) as [H2 Hk2]; [by rewrite Hk1|done|]. by rewrite Hk2.
Qed.

Lemma wf_start_transaction ids dep pf now db db' : start_transaction ids dep pf now db = Some db' -> wf db -> wf db'.
Proof.
  intros Hi H. unfold start_transaction in Hi.
  destruct (insert_instance _ db) as [db1|] eqn:E1; [|done]. cbn in Hi.
  destruct (insert_checked _ _ (db_groups db1)) as [groups|]; [|done]. cbn in Hi.
  destruct (insert_checked _ _ (db_run_plans db1)) as [plans|]; [|done]. cbn in Hi.
  destruct (insert_leases _ _ _ _) as [db2|] eqn:E2; [|done]. cbn in Hi.
  destruct (insert_task _ db2) as [db3|] eqn:E3; [|done]. cbn in Hi. injection Hi as <-.
  apply wf_insert_instance in E1 as [H1 Hk1]; [|unfold instance_ok; cbn; set_solver|done].
  apply wf_insert_leases in E2 as [H2 _]; [|done|by apply wf_run_plans, wf_groups].
  apply wf_deployments. eapply wf_insert_task; [done|apply new_task_ok|done].
Qed.

Lemma wf_delete_tasks p db : wf db -> wf (set_tasks (delete_where p) db).
Proof. intros []. constructor; cbn; try done; [by apply delete_NoDup_map|by apply delete_Forall]. Qed.

Lemma live_gpus_delete p rows : live_gpus (delete_where p rows) `sublist_of` live_gpus rows.
Proof.
  unfold live_gpus, delete_where. induction rows as [|l rows IH]; cbn; [done|].
  destruct (negb (p l)); cbn; destruct (lease_live l); cbn; [by constructor|done|by constructor|done].
Qed.

Lemma keys_delete {A} (key : A -> string * string) p rows k :
  k ∈ map key (delete_where p rows) -> k ∈ map key rows.
Proof.
  intros Hk. apply list_elem_of_In, in_map_iff in Hk as (r & <- & Hr). apply filter_In in Hr as [Hr _].
  apply list_elem_of_In, in_map_iff. by exists r.
Qed.

Lemma wf_delete_leases p db : wf db -> wf (set_leases (delete_where p) db).
Proof.
  intros []. constructor; cbn; try done.
  - by apply delete_NoDup_map.
  - eapply sublist_NoDup; [done|apply live_gpus_delete].
  - by apply delete_Forall.
  - intros k Hk. apply wf_lease_instances0. by eapply keys_delete.
Qed.

Lemma wf_delete_instances id db :
  (forall l, l ∈ db_leases db -> l_deployment l <> id) -> wf db ->
  wf (set_instances (delete_where (fun i => i_deployment i =s id)) db).
Proof.
  intros Hl []. constructor; cbn; try done.
  - by apply delete_NoDup_map.
  - by apply delete_Forall.
  - intros k Hk. pose proof (wf_lease_instances0 k Hk) as Hi. unfold lease_keys, instance_keys in *.
    apply list_elem_of_In, in_map_iff in Hk as (l & <- & Hin%list_elem_of_In).
    apply list_elem_of_In, in_map_iff in Hi as (i & Hkey & Hiin%list_elem_of_In).
    apply list_elem_of_In, in_map_iff. exists i. split; [done|]. apply list_elem_of_In, elem_of_delete.
    split; [done|]. apply String.eqb_neq. injection Hkey as _ ->. by apply Hl.
Qed.

Lemma wf_delete_transaction id now db : wf db -> wf (delete_transaction id now db).
Proof.
  intros H. unfold delete_transaction. apply wf_deployments, wf_delete_instances.
  - intros l. cbn. intros [_ Hl]%elem_of_delete. by apply String.eqb_neq.
  - apply wf_delete_leases, wf_groups, wf_run_plans, wf_delete_tasks, wf_tasks_update; [done| |].
    + intros t _ (_ & Hg & _). unfold task_ok. cbn. split_and!; [set_solver|lia|lia|discriminate|discriminate].
    + apply wf_leases_update; [done| | |].
      * intros l [_ Hl]%andb_true_iff _. done.
      * intros l _ [_ He]. by split; [set_solver|].
      * apply wf_instances_update; [done| |done]. intros i _ _. unfold instance_ok. cbn. set_solver.
Qed.

Lemma wf_mark_stopping id now db : wf db -> wf (mark_stopping id now db).
Proof.
  apply wf_on_instance; [done|]. intros i. unfold instance_ok. cbn.
  destruct (String.eqb_spec (i_actual i) "running"); set_solver.
Qed.

Section Reachable.
Context `{SO : SqlOrder}.

Lemma claimable_pending node db id t :
  wf db -> id ∈ claimable node db -> t ∈ db_tasks db -> t_id t = id -> pending_on node t = true.
Proof.
  intros H Hid Ht Heq. unfold claimable in Hid.
  apply list_elem_of_In, in_map_iff in Hid as (t' & Hid & Ht'%list_elem_of_In).
  assert (t' ∈ order_by t_created (List.filter (pending_on node) (db_tasks db))) as Hin.
  { rewrite <- (take_drop maxTasks (order_by _ _)). apply elem_of_app. by left. }
  rewrite order_by_perm in Hin. apply list_elem_of_In, filter_In in Hin as [Hin%list_elem_of_In Hp].
  assert (t' = t) as ->; [|done].
  pose proof (wf_task_ids db H) as Hnd. rewrite <- Heq in Hid.
  clear -Hin Ht Hid Hnd. induction (db_tasks db) as [|x l IH]; [by apply elem_of_nil in Ht|].
  cbn in Hnd. apply NoDup_cons in Hnd as [Hx Hnd].
  assert (forall y, y ∈ l -> t_id y ∈ map t_id l) as Hmem.
  { intros y Hy. apply list_elem_of_In, in_map_iff. exists y. split; [done|by apply list_elem_of_In]. }
  apply elem_of_cons in Hin as [->|Hin], Ht as [->|Ht]; [done| | |by apply IH].
  - exfalso. apply Hx. rewrite Hid. by apply Hmem.
  - exfalso. apply Hx. rewrite <- Hid. by apply Hmem.
Qed.

Lemma wf_claim_update node agent now db : wf db -> wf (claim_update node agent now db).
Proof.
  intros H. unfold claim_update.
  assert (Forall (fun t => existsb (String.eqb (t_id t)) (claimable node db) = true -> t_status t = "pending") (db_tasks db)) as Hp.
  { apply Forall_forall. intros t Ht Hc%existsb_eqb_In.
    pose proof (claimable_pending node db _ t H Hc Ht eq_refl) as Hpend.
    unfold pending_on in Hpend. apply andb_true_iff in Hpend as [_ Hs]. by apply String.eqb_eq. }
  destruct H. constructor; cbn; try done.
  - by rewrite (update_map t_id).
  - apply Forall_forall. intros t Ht. apply elem_of_update in Ht as (t0 & Ht0 & ->).
    rewrite Forall_forall in wf_tasks0, Hp. destruct (existsb _ _) eqn:E; [|by apply wf_tasks0].
    specialize (Hp t0 Ht0 E). destruct (wf_tasks0 t0 Ht0) as (_ & _ & Hg & _).
    unfold task_ok. cbn. rewrite (Hg Hp). split_and!; [set_solver|lia|lia|discriminate|done].
Qed.

Lemma wf_HandleHeartbeat node agent now db : wf db -> wf (HandleHeartbeat node agent now db).2.
Proof.
  intros H. unfold HandleHeartbeat. destruct (_ =s _); [done|]. destruct (find_node db node) as [n|]; [|done].
  case_match; [done|]. apply wf_claim_update, wf_sweep, wf_nodes_update; done.
Qed.

Lemma wf_HandleRegister node agent facts now db : wf db -> wf (HandleRegister node agent facts now db).2.
Proof.
  intros H. unfold HandleRegister. destruct (_ =s _); [done|].
  destruct (find_node db node) as [n|] eqn:Ef; [case_match; [done|by apply wf_nodes_update]|].
  apply wf_nodes; [|done]. rewrite map_app. apply NoDup_snoc; [apply H|]. by apply find_none_notin.
Qed.

Lemma wf_HandleResourceReport driver_takes rfc3339 req ids now hosts db :
  wf db -> wf (HandleResourceReport driver_takes rfc3339 req ids now hosts db).2.2.
Proof.
  intros H. pose proof (report_gpus_ok driver_takes rfc3339 req ids now hosts db (wf_gpu_rows _ H)) as Hg.
  destruct (report_frame driver_takes rfc3339 req ids now hosts db) as [->|(nodeID & rows & sys & E)]; [done|]. rewrite E in *.
  apply wf_gpus; [done|]. destruct sys; [by apply wf_nodes_update|done].
Qed.

Lemma wf_step_preserved db db' : step db db' -> wf db -> wf db'.
Proof.
  intros Hs H. destruct Hs.
  - by apply wf_HandleRegister.
  - by apply wf_HandleHeartbeat.
  - by apply wf_nodes_update.
  - by apply wf_HandleTaskResult.
  - unfold insert_deployment in *. destruct (insert_checked _ _ _); simplify_eq/=. by apply wf_deployments.
  - unfold HandleStartDeployment. destruct (activeDeploymentRun _ _); [|done]. destruct pf as [pf|]; [|done].
    destruct (start_transaction _ _ _ _ _) eqn:E; [|done]. by eapply wf_audit, wf_start_transaction.
  - by apply wf_mark_stopping.
  - eapply wf_insert_task; [done|apply new_task_ok|done].
  - by apply wf_deployments.
  - by apply wf_audit.
  - unfold HandleDeleteDeployment. destruct (find_deployment db id); [|done]. case_match; [done|].
    by apply wf_delete_transaction.
  - unfold HandleGetNodeRunPlanLogs. repeat (case_match; try done).
    cbn. eapply wf_insert_task; [done|apply new_task_ok|done].
  - unfold HandlePatchNodeTenant. repeat (case_match; try done).
    cbn. by apply wf_audit, (wf_gpus_update _ _ g_status (fun _ => tenant)), wf_nodes_update.
  - by apply wf_HandleResourceReport.
  - by apply (wf_gpus_update _ _ (fun _ => unavailable) g_tenant).
Qed.

Definition reachable (db : DB) : Prop := exists tenants, rtc step (empty_db tenants) db.

Lemma reachable_wf db : reachable db -> wf db.
Proof.
  intros [tenants Hr]. pose proof (wf_empty tenants) as H. induction Hr as [|db1 db2 db3 Hs _ IH]; [done|].
  apply IH. by eapply wf_step_preserved.
Qed.
End Reachable.
