(* ===== verification/LifecycleProps.v ===== *)
(** * What the life cycle guarantees

    The properties of the transition system of Lifecycle.v, and concrete runs
    that show where it falls short of what the code's comments intend. *)
From S2P Require Import Prelude GoStrings GoValue Store AgentTasks Deployments GpuProtocol GpuReport GpuReportProps Lifecycle.
From stdpp Require Import sorting.
From Stdlib Require Import Sorted.

(** ** Tasks *)

(** The edges of a task's life: claimed once while pending, ended by the sweep
    or by a report while not terminal. *)
Inductive task_edge (t : task_row) : task_row -> Prop :=
| edge_stay : task_edge t t
| edge_claim agent now : t_status t = "pending" -> task_edge t (task_claim agent now (now + lease_seconds) t)
| edge_timeout now : task_terminal (t_status t) = false -> task_edge t (task_with_status TaskStatusTimedOut now now t)
| edge_result status req now :
    task_terminal (t_status t) = false -> status ∈ ["completed"; "failed"] ->
    task_edge t (task_with_result status req now t).

(** A task after a step comes from one before along an edge, or is new. *)
Definition tasks_evolve (db db' : DB) : Prop :=
  forall t', t' ∈ db_tasks db' ->
    (exists t, t ∈ db_tasks db /\ t_id t = t_id t' /\ task_edge t t') \/
    (t_id t' ∉ map t_id (db_tasks db) /\ t_status t' = "pending" /\ t_generation t' = 0%Z).

Lemma evolve_same db db' : db_tasks db' = db_tasks db -> tasks_evolve db db'.
Proof. intros Heq t' Ht'. rewrite Heq in Ht'. left. exists t'. split_and!; [done|done|constructor]. Qed.

Lemma evolve_sub db db' : (forall t, t ∈ db_tasks db' -> t ∈ db_tasks db) -> tasks_evolve db db'.
Proof. intros Hs t' Ht'. left. exists t'. split_and!; [auto|done|constructor]. Qed.

Lemma evolve_insert t db db' :
  insert_task t db = Some db' -> t_status t = "pending" -> t_generation t = 0%Z -> tasks_evolve db db'.
Proof.
  intros Hi Hs Hg. unfold insert_task in Hi. destruct (insert_checked _ _ _) as [rows|] eqn:E; [|done].
  cbn in Hi. injection Hi as <-. apply insert_checked_Some in E as [Hfree%id_free_notin ->].
  intros t'. cbn. intros [Ht'|Ht'%list_elem_of_singleton]%elem_of_app.
  - left. exists t'. split_and!; [done|done|constructor].
  - right. by subst t'.
Qed.

Lemma expired_not_terminal node now t : task_expired node now t = true -> task_terminal (t_status t) = false.
Proof.
  unfold task_expired. intros [[_ Hs]%andb_true_iff _]%andb_true_iff.
  apply orb_true_iff in Hs as [[Hs|Hs]%orb_true_iff|Hs]; apply String.eqb_eq in Hs; by rewrite Hs.
Qed.

Section TaskSteps.
Context `{SO : SqlOrder}.

(** The claim after the sweep. *)
Lemma evolve_claim node agent now db :
  wf db -> tasks_evolve db (claimAndReturnTasks node agent now db).2.
Proof.
  intros H t' Ht'. left. unfold claimAndReturnTasks in Ht'. cbn [snd] in Ht'.
  set (db1 := sweepExpiredTasks node now db) in *. pose proof (wf_sweep node now db H) as H1. fold db1 in H1.
  apply elem_of_update in Ht' as (t1 & Ht1 & ->).
  assert (exists t, t ∈ db_tasks db /\ t_id t = t_id t1 /\
            t1 = if task_expired node now t then task_with_status TaskStatusTimedOut now now t else t)
    as (t & Ht & Hid & Heq).
  { apply elem_of_update in Ht1 as (t & Ht & ->). exists t. split_and!; [done| |done]. by destruct (task_expired _ _ _). }
  exists t. split; [done|]. destruct (existsb _ (claimable node db1)) eqn:Ec.
  - apply existsb_eqb_In in Ec. pose proof (claimable_pending node db1 _ t1 H1 Ec Ht1 eq_refl) as Hp.
    unfold pending_on in Hp. apply andb_true_iff in Hp as [_ Hp%String.eqb_eq].
    destruct (task_expired node now t); [subst t1; discriminate|]. subst t1. split; [done|]. by apply edge_claim.
  - split; [done|]. subst t1. destruct (task_expired node now t) eqn:Ee; [|constructor].
    apply edge_timeout. by eapply expired_not_terminal.
Qed.

Lemma start_audit_tasks t req i a r db : db_tasks (start_audit t req i a r db) = db_tasks db.
Proof. unfold start_audit. by destruct (_ =s _). Qed.

Lemma result_completed_tasks t i req now db :
  exists status, status ∈ ["completed"; "failed"] /\
    db_tasks (result_completed t i req now db) = db_tasks (finish_task (t_id t) status req now db).
Proof.
  unfold result_completed.
  set (success := andb (boolVal req "success" true) _). exists (if success then "completed" else "failed").
  split; [destruct success; set_solver|].
  destruct (t_type t =s "model_instance_logs"); [done|]. destruct (t_type t =s "model_instance_stop").
  - destruct (i <>s EmptyString); [|done]. by destruct success.
  - destruct (i <>s EmptyString); [|done]. by destruct success; rewrite start_audit_tasks.
Qed.

Lemma result_failed_tasks t i req now db :
  db_tasks (result_failed t i req now db) = db_tasks (finish_task (t_id t) "failed" req now db).
Proof.
  unfold result_failed. destruct (t_type t =s "model_instance_logs"); [done|].
  destruct (t_type t =s "model_instance_stop"); destruct (i <>s EmptyString); try done.
  by rewrite start_audit_tasks.
Qed.

Lemma evolve_finish t status req now db :
  wf db -> t ∈ db_tasks db -> task_terminal (t_status t) = false -> status ∈ ["completed"; "failed"] ->
  tasks_evolve db (finish_task (t_id t) status req now db).
Proof.
  intros H Ht Hterm Hs t' Ht'. left. apply elem_of_update in Ht' as (t0 & Ht0 & ->).
  exists t0. split; [done|]. destruct (String.eqb_spec (t_id t0) (t_id t)) as [Heq|]; [|by split; [|constructor]].
  split; [done|]. apply edge_result; [|done].
  by rewrite (NoDup_key_eq t_id _ _ _ (wf_task_ids _ H) Ht0 Ht Heq).
Qed.

Lemma evolve_trans_same db db1 db2 : tasks_evolve db db1 -> db_tasks db2 = db_tasks db1 -> tasks_evolve db db2.
Proof. intros He Heq t' Ht'. rewrite Heq in Ht'. by apply He. Qed.

Lemma evolve_HandleTaskResult task req now db : wf db -> tasks_evolve db (HandleTaskResult task req now db).2.
Proof.
  intros H. unfold HandleTaskResult. destruct (find_task db task) as [t|] eqn:Ef; [|by apply evolve_same].
  apply find_Some_key in Ef as [Ht _].
  destruct (task_terminal (t_status t)) eqn:Et; [by apply evolve_same|].
  destruct (andb (andb _ _) _); [by apply evolve_same|].
  set (i := if t_instance t =s EmptyString then _ else _).
  destruct (orb (strVal req "status" "completed" =s "completed") _); cbn [snd].
  - destruct (result_completed_tasks t i req now db) as (status & Hs & Heq).
    eapply evolve_trans_same; [by apply (evolve_finish t status req now)|done].
  - destruct (orb _ _); cbn [snd]; [|by apply evolve_same].
    eapply evolve_trans_same; [by apply (evolve_finish t "failed" req now); [..|set_solver]|apply result_failed_tasks].
Qed.

Lemma insert_leases_tasks mk lids gids db db' : insert_leases mk lids gids db = Some db' -> db_tasks db' = db_tasks db.
Proof.
  revert lids db. induction gids as [|g gids IH]; intros [|lid lids] db Hi; cbn in Hi; simplify_eq; [done..|].
  unfold insert_lease in Hi. destruct (insert_checked _ _ _); [|done]. cbn in Hi. by apply IH in Hi.
Qed.

Lemma evolve_start ids dep pf now db db' : start_transaction ids dep pf now db = Some db' -> tasks_evolve db db'.
Proof.
  intros Hi. unfold start_transaction in Hi.
  destruct (insert_instance _ db) as [db1|] eqn:E1; [|done]. cbn in Hi.
  destruct (insert_checked _ _ (db_groups db1)) as [groups|]; [|done]. cbn in Hi.
  destruct (insert_checked _ _ (db_run_plans db1)) as [plans|]; [|done]. cbn in Hi.
  destruct (insert_leases _ _ _ _) as [db2|] eqn:E2; [|done]. cbn in Hi.
  destruct (insert_task _ db2) as [db3|] eqn:E3; [|done]. cbn in Hi. injection Hi as <-.
  apply insert_leases_tasks in E2. cbn in E2.
  unfold insert_instance in E1. destruct (insert_checked _ _ (db_instances db)); [|done]. cbn in E1.
  destruct (existsb _ _); [|done]. injection E1 as <-. cbn in E2.
  pose proof (evolve_insert _ _ _ E3 eq_refl eq_refl) as He. intros t' Ht'. cbn in Ht'.
  destruct (He t' Ht') as [(t & Ht & Hx)|(Hn & Hx)]; rewrite E2 in *; [left; by exists t|by right].
Qed.

(** C2. The life of a task: in one step of the system every task is what it was,
    or is claimed by exactly one claim while pending, or is ended once by the
    sweep or by a report, or is new and pending; a terminal row never changes,
    and no task becomes pending again. *)
Theorem task_lifecycle db db' :
  wf db -> step db db' -> tasks_evolve db db'.
Proof.
  intros H Hs. destruct Hs; try by apply evolve_same.
  - apply evolve_same. unfold HandleRegister. by repeat case_match.
  - unfold HandleHeartbeat. destruct (_ =s _); [by apply evolve_same|].
    destruct (find_node db node) as [n|]; [|by apply evolve_same].
    case_match; [by apply evolve_same|]. cbn [snd]. set (db1 := set_nodes _ db).
    assert (wf db1) as H1 by (by apply wf_nodes_update). exact (evolve_claim node agent now db1 H1).
  - by apply evolve_HandleTaskResult.
  - apply evolve_same. unfold insert_deployment in *. by destruct (insert_checked _ _ _); simplify_eq/=.
  - unfold HandleStartDeployment. destruct (activeDeploymentRun _ _); [|by apply evolve_same].
    destruct pf as [pf|]; [|by apply evolve_same].
    destruct (start_transaction _ _ _ _ _) eqn:E; [|by apply evolve_same].
    eapply evolve_trans_same; [by eapply evolve_start|done].
  - by eapply evolve_insert.
  - unfold HandleDeleteDeployment. destruct (find_deployment db id); [|by apply evolve_same].
    case_match; [by apply evolve_same|]. apply evolve_sub. intros t. cbn.
    intros [Ht Hd]%elem_of_delete. apply elem_of_update in Ht as (t0 & Ht0 & ->).
    destruct (andb _ _) eqn:Ed; [|done]. apply andb_true_iff in Ed as [Ed _]. cbn in Hd. congruence.
  - unfold HandleGetNodeRunPlanLogs. repeat (case_match; try by apply evolve_same). by eapply evolve_insert.
  - unfold HandlePatchNodeTenant. repeat (case_match; try by apply evolve_same).
  - apply evolve_same. destruct (report_frame driver_takes rfc3339 req ids now hosts db) as [->|(nodeID & rows & sys & ->)]; [done|by destruct sys].
Qed.
End TaskSteps.

(** ** Leases *)

Lemma live_gpu_unique rows l1 l2 :
  NoDup (live_gpus rows) -> l1 ∈ rows -> l2 ∈ rows -> lease_live l1 = true -> lease_live l2 = true ->
  l_gpu l1 = l_gpu l2 -> l1 = l2.
Proof.
  intros Hnd H1 H2 Hl1 Hl2. apply (NoDup_key_eq l_gpu (List.filter lease_live rows)); [done| |];
  by apply list_elem_of_In, filter_In; split; [apply list_elem_of_In|].
Qed.

Lemma sweep_leases_id now db : wf db -> sweep_leases now db = db.
Proof.
  intros H. unfold sweep_leases. destruct db. unfold set_leases. cbn. f_equal. apply update_none.
  pose proof (wf_leases _ H) as Hl. cbn in Hl. eapply Forall_impl; [exact Hl|].
  intros l [_ He]. unfold lease_expired. by rewrite He.
Qed.

Section LeaseProps.
Context `{SO : SqlOrder}.

(** C1. No GPU is ever leased twice: in every reachable state two reserved or
    active leases of the same GPU are the same row, and the lease's instance
    exists in the same deployment. *)
Theorem gpu_exclusive db l1 l2 :
  reachable db -> l1 ∈ db_leases db -> l2 ∈ db_leases db ->
  lease_live l1 = true -> lease_live l2 = true -> l_gpu l1 = l_gpu l2 ->
  l1 = l2 /\ exists i, i ∈ db_instances db /\ i_id i = l_instance l1 /\ i_deployment i = l_deployment l1.
Proof.
  intros Hr H1 H2 Hl1 Hl2 Hg. apply reachable_wf in Hr.
  split; [by eapply live_gpu_unique; [apply (wf_live_gpus _ Hr)|..]|].
  assert ((l_instance l1, l_deployment l1) ∈ lease_keys db) as Hk.
  { apply list_elem_of_In, in_map_iff. exists l1. split; [done|by apply list_elem_of_In]. }
  apply (wf_lease_instances _ Hr) in Hk. apply list_elem_of_In, in_map_iff in Hk as (i & Heq & Hi).
  exists i. split; [by apply list_elem_of_In|]. by injection Heq.
Qed.

(** The sweep of expired leases never frees anything: in every reachable
    state a heartbeat leaves the leases as they are, because no lease carries an
    expiry, so the lease of a start that timed out stays reserved. *)
Theorem heartbeat_keeps_leases db node agent now :
  reachable db -> db_leases (HandleHeartbeat node agent now db).2 = db_leases db.
Proof.
  intros Hr%reachable_wf. unfold HandleHeartbeat. destruct (_ =s _); [done|].
  destruct (find_node db node) as [n|]; [|done]. case_match; [done|]. cbn [snd].
  set (db1 := set_nodes _ db). assert (wf db1) as H1 by (by apply wf_nodes_update).
  change (db_leases (claim_update node agent now (sweepExpiredTasks node now db1)) = db_leases db1).
  change (db_leases (sweepExpiredTasks node now db1) = db_leases db1).
  unfold sweepExpiredTasks, sweep_deployments. cbn.
  unfold sweep_instances. cbn. apply update_none. eapply Forall_impl; [apply (wf_leases _ H1)|].
  intros l [_ He]. unfold lease_expired. by rewrite He.
Qed.

(** ** Claims *)

Lemma claimable_length node db :
  length (claimable node db) = Nat.min maxTasks (count_where (pending_on node) (db_tasks db)).
Proof.
  unfold claimable, count_where. rewrite length_map, length_take.
  by rewrite (Permutation_length (order_by_perm _ t_created _)).
Qed.

(** A pending task outside the claim sits after every claimed one. *)
Lemma claimable_oldest node db t1 t2 :
  wf db -> t1 ∈ db_tasks db -> t2 ∈ db_tasks db -> t_id t1 ∈ claimable node db ->
  pending_on node t2 = true -> t_id t2 ∉ claimable node db -> (t_created t1 <= t_created t2)%Z.
Proof.
  intros H H1 H2 Hc1 Hp2 Hc2. unfold claimable in *.
  pose proof (order_by_sorted _ t_created (List.filter (pending_on node) (db_tasks db))) as Hs.
  set (l := order_by t_created _) in *.
  assert (forall t, t ∈ l -> t ∈ db_tasks db) as Hl.
  { intros t Ht. subst l. rewrite order_by_perm in Ht. apply list_elem_of_In, filter_In in Ht as [Ht _].
    by apply list_elem_of_In. }
  apply list_elem_of_In, in_map_iff in Hc1 as (t1' & Hid & Ht1'%list_elem_of_In).
  assert (t1' = t1) as ->.
  { apply (NoDup_key_eq t_id _ _ _ (wf_task_ids _ H)); [|done|done]. apply Hl.
    rewrite <- (take_drop maxTasks l). apply elem_of_app. by left. }
  assert (t2 ∈ drop maxTasks l) as Ht2.
  { assert (t2 ∈ l) as Hin.
    { subst l. rewrite order_by_perm. apply list_elem_of_In, filter_In. split; [by apply list_elem_of_In|done]. }
    rewrite <- (take_drop maxTasks l) in Hin. apply elem_of_app in Hin as [Hin|Hin]; [|done].
    exfalso. apply Hc2. apply list_elem_of_In, in_map_iff. exists t2. split; [done|by apply list_elem_of_In]. }
  rewrite <- (take_drop maxTasks l) in Hs. exact (StronglySorted_app_1_elem_of _ _ _ _ _ Hs Ht1' Ht2).
Qed.

(** What a claim hands out: at most ten tasks, each of the node, claimed by the
    caller in the tables it leaves.  As many pending tasks are claimed as there
    are, up to ten, and first in, first out: a task left pending is no older than
    any task the claim took. *)
Theorem claim_fifo db node agent now :
  wf db ->
  let db1 := sweepExpiredTasks node now db in
  let '(tasks, db') := claimAndReturnTasks node agent now db in
  length tasks <= 10 /\
  Forall (fun t => t ∈ db_tasks db' /\ t_node t = node /\ t_status t = "claimed" /\ t_agent t = agent) tasks /\
  length (claimable node db1) = Nat.min 10 (count_where (pending_on node) (db_tasks db1)) /\
  (forall t, t ∈ db_tasks db1 -> t_id t ∈ claimable node db1 ->
     pending_on node t = true /\ task_claim agent now (now + lease_seconds) t ∈ db_tasks db') /\
  (forall t1 t2, t1 ∈ db_tasks db1 -> t2 ∈ db_tasks db1 -> t_id t1 ∈ claimable node db1 ->
     pending_on node t2 = true -> t_id t2 ∉ claimable node db1 -> (t_created t1 <= t_created t2)%Z).
Proof.
  intros H. cbv zeta. unfold claimAndReturnTasks. set (db1 := sweepExpiredTasks node now db).
  assert (wf db1) as H1 by (by apply wf_sweep). split_and!.
  - rewrite length_take. unfold maxTasks. lia.
  - apply Forall_forall. intros t Ht.
    assert (t ∈ order_by t_created (List.filter (claimed_now node agent now) (db_tasks (claim_update node agent now db1)))) as Hin.
    { rewrite <- (take_drop maxTasks (order_by _ _)). apply elem_of_app. by left. }
    rewrite order_by_perm in Hin. apply list_elem_of_In, filter_In in Hin as [Hin%list_elem_of_In Hc].
    unfold claimed_now in Hc. repeat apply andb_true_iff in Hc as [Hc ?]. bool_facts. done.
  - apply claimable_length.
  - intros t Ht Hc. split; [by eapply claimable_pending|]. apply elem_of_update. exists t. split; [done|].
    apply existsb_eqb_In in Hc. by rewrite Hc.
  - intros t1 t2 Ht1 Ht2 Hc1 Hp Hc2. by eapply claimable_oldest.
Qed.
End LeaseProps.

(** ** Reports *)

Lemma find_update {A} (key : A -> string) id p f rows :
  (forall r, key (f r) = key r) ->
  find (fun r => key r =s id) (update_where p f rows) =
  option_map (fun r => if p r then f r else r) (find (fun r => key r =s id) rows).
Proof.
  intros Hk. unfold update_where. induction rows as [|r rows IH]; [done|]. cbn [map find].
  assert (key (if p r then f r else r) = key r) as -> by (destruct (p r); [apply Hk|done]).
  by destruct (key r =s id).
Qed.

Definition known_status (req : gmap string any) : Prop :=
  strVal req "status" "completed" ∈ ["completed"; "success"; "failed"; "error"].

Lemma HandleTaskResult_ok task req now db db1 :
  HandleTaskResult task req now db = (ResultOk, db1) -> known_status req ->
  exists t status, find_task db task = Some t /\ status ∈ ["completed"; "failed"] /\
    db_tasks db1 = db_tasks (finish_task task status req now db).
Proof.
  unfold HandleTaskResult, known_status. intros Hr Hk.
  destruct (find_task db task) as [t|] eqn:Ef; [|done]. pose proof (find_Some_key _ _ _ _ Ef) as [_ Hid].
  destruct (task_terminal (t_status t)); [done|]. destruct (andb (andb _ _) _); [done|].
  set (i := if t_instance t =s EmptyString then _ else _) in *. exists t.
  destruct (String.eqb_spec (strVal req "status" "completed") "completed"); cbn [orb] in Hr;
  [|destruct (String.eqb_spec (strVal req "status" "completed") "success"); cbn [orb] in Hr;
    [|destruct (String.eqb_spec (strVal req "status" "completed") "failed"); cbn [orb] in Hr;
      [|destruct (String.eqb_spec (strVal req "status" "completed") "error"); cbn [orb] in Hr;
        [|exfalso; clear -Hk n n0 n1 n2; set_solver]]]];
  injection Hr as <-.
  1,2: destruct (result_completed_tasks t i req now db) as (status & Hs & Heq); exists status; by rewrite <- Hid.
  all: exists "failed"; split_and!; [done|set_solver|]; rewrite <- Hid; apply result_failed_tasks.
Qed.

(** A report is accepted once: after a report with a known status, every later
    report for the same task is ignored and changes nothing. *)
Theorem report_once task req now db db1 :
  HandleTaskResult task req now db = (ResultOk, db1) -> known_status req ->
  forall req2 now2, HandleTaskResult task req2 now2 db1 = (ResultIgnored "task_already_terminal", db1).
Proof.
  intros Hr Hk req2 now2. destruct (HandleTaskResult_ok _ _ _ _ _ Hr Hk) as (t & status & Hf & Hs & Ht).
  unfold HandleTaskResult, find_task. rewrite Ht. cbn [finish_task set_tasks db_tasks].
  rewrite (find_update t_id) by done. unfold find_task in Hf. rewrite Hf. cbn [option_map].
  apply find_Some_key in Hf as [_ ->]. rewrite String.eqb_refl. cbn [t_status task_with_result].
  replace (task_terminal status) with true; [done|].
  clear -Hs. apply elem_of_cons in Hs as [->|Hs]; [done|]. apply list_elem_of_singleton in Hs as ->. done.
Qed.

(** A report of plain success. *)
Definition success_report (req : gmap string any) : Prop :=
  strVal req "status" "completed" ∈ ["completed"; "success"] /\
  boolVal req "success" true = true /\ strVal req "error_message" (strVal req "error" "") = "".

Lemma HandleTaskResult_success task req now db t :
  find_task db task = Some t -> task_terminal (t_status t) = false ->
  (t_lease_owner t = "" \/ strVal req "agent_id" "" = "" \/ strVal req "agent_id" "" = t_lease_owner t) ->
  success_report req -> t_instance t <> "" ->
  (HandleTaskResult task req now db).2 = result_completed t (t_instance t) req now db.
Proof.
  intros Hf Ht Ho (Hs & _) Hi. unfold HandleTaskResult. rewrite Hf, Ht.
  replace (andb (andb _ _) _) with false; [|symmetry; destruct Ho as [Ho|[Ho|Ho]]; rewrite Ho].
  - apply String.eqb_neq in Hi. rewrite Hi.
    replace (orb (strVal req "status" "completed" =s "completed") _) with true; [done|].
    apply elem_of_cons in Hs as [->|Hs]; [done|]. apply list_elem_of_singleton in Hs as ->. done.
  - done.
  - by rewrite andb_false_r.
  - by rewrite String.eqb_refl, andb_false_r.
Qed.

Lemma result_completed_success t i req now db :
  success_report req -> i <> "" ->
  result_completed t i req now db =
  let db := finish_task (t_id t) "completed" req now db in
  if t_type t =s "model_instance_logs" then db
  else if t_type t =s "model_instance_stop" then release_leases i now (on_instance i (instance_stopped now) db)
  else start_audit t req i "instance.start.succeeded" "success"
         (activate_leases i now
            (on_instance i (instance_started "running" (strVal req "container_id" "") (endpoint_url db i) now) db)).
Proof.
  intros (_ & Hb & He) Hi. apply String.eqb_neq in Hi. unfold result_completed. rewrite Hb, He, Hi. reflexivity.
Qed.

Lemma on_instance_found id (f : instance_row -> instance_row) db i :
  i ∈ db_instances (on_instance id f db) -> i_id i = id ->
  (forall j, i_id (f j) = i_id j) -> exists i0, i = f i0.
Proof.
  intros Hi Hid Hf. apply elem_of_update in Hi as (i0 & _ & ->).
  destruct (String.eqb_spec (i_id i0) id) as [Heq|Hne]; [by exists i0|done].
Qed.

Lemma on_leases_other id p f db l :
  l ∈ db_leases db -> l_instance l <> id -> l ∈ db_leases (on_leases id p f db).
Proof.
  intros Hl Hne. apply elem_of_update. exists l. split; [done|]. apply String.eqb_neq in Hne. by rewrite Hne.
Qed.

Lemma start_audit_leases t req i a r db : db_leases (start_audit t req i a r db) = db_leases db.
Proof. unfold start_audit. by destruct (_ =s _). Qed.
Lemma start_audit_instances t req i a r db : db_instances (start_audit t req i a r db) = db_instances db.
Proof. unfold start_audit. by destruct (_ =s _). Qed.

(** C8. What a successful report settles.  A stop leaves its instance stopped and
    no reserved or active lease of it; a start leaves its instance running and
    turns exactly its reserved leases into active ones.  Leases of other instances are
    untouched. *)
Theorem success_settles task req now db t :
  find_task db task = Some t -> task_terminal (t_status t) = false ->
  (t_lease_owner t = "" \/ strVal req "agent_id" "" = "" \/ strVal req "agent_id" "" = t_lease_owner t) ->
  success_report req -> t_instance t <> "" ->
  let db1 := (HandleTaskResult task req now db).2 in
  (t_type t = "model_instance_stop" ->
     (forall i, i ∈ db_instances db1 -> i_id i = t_instance t -> i_actual i = "stopped") /\
     (forall l, l ∈ db_leases db1 -> l_instance l = t_instance t -> lease_live l = false)) /\
  (t_type t = "model_instance_start" ->
     (forall i, i ∈ db_instances db1 -> i_id i = t_instance t -> i_actual i = "running") /\
     (forall l, l ∈ db_leases db -> l_instance l = t_instance t -> l_status l = "reserved" ->
        exists l1, l1 ∈ db_leases db1 /\ l_id l1 = l_id l /\ l_status l1 = "active") /\
     (forall l1, l1 ∈ db_leases db1 -> l_instance l1 = t_instance t -> l_status l1 <> "reserved")) /\
  (forall l, l ∈ db_leases db -> l_instance l <> t_instance t -> l ∈ db_leases db1).
Proof.
  intros Hf Ht Ho Hsucc Hi db1. subst db1. rewrite (HandleTaskResult_success _ _ _ _ t) by done.
  rewrite result_completed_success by done. pose proof (proj2 (String.eqb_neq _ _) Hi) as Hib.
  destruct (String.eqb_spec (t_type t) "model_instance_logs") as [->|Hlogs]; [by split_and!|].
  destruct (String.eqb_spec (t_type t) "model_instance_stop") as [->|Hstop].
  - split_and!; [intros _|done|].
    + split; [intros i Hin Hid; by destruct (on_instance_found _ _ _ i Hin Hid) as [? ->]|]. intros l Hl Hli.
      apply elem_of_update in Hl as (l0 & _ & ->). destruct (andb _ _) eqn:E; [done|].
      rewrite Hli, String.eqb_refl in E. exact E.
    + intros l Hl Hli. by apply on_leases_other.
  - split_and!; [done|intros _|].
    + split_and!; [intros i; rewrite start_audit_instances; intros Hin Hid; by destruct (on_instance_found _ _ _ i Hin Hid) as [? ->]|..].
      * intros l Hl Hli Hs. rewrite start_audit_leases. eexists. split; [apply elem_of_update; by exists l|].
        unfold is_reserved. by rewrite Hli, Hs, String.eqb_refl.
      * intros l1. rewrite start_audit_leases. intros Hl Hli. apply elem_of_update in Hl as (l0 & _ & ->).
        destruct (andb _ _) eqn:E; [done|]. rewrite Hli, String.eqb_refl in E. by apply String.eqb_neq.
    + intros l Hl Hli. rewrite start_audit_leases. by apply on_leases_other.
Qed.

(** ** Start, delete, transfer *)

Lemma insert_leases_Some mk lids gids db db' :
  (forall lid gid, l_gpu (mk lid gid) = gid /\ lease_live (mk lid gid) = true) ->
  insert_leases mk lids gids db = Some db' ->
  db' = set_leases (fun rows => rows ++ zip_with mk lids gids) db /\
  NoDup gids /\ (forall g l, g ∈ gids -> l ∈ db_leases db -> lease_live l = true -> l_gpu l <> g) /\
  length gids <= length lids.
Proof.
  intros Hmk. revert lids db. induction gids as [|g gids IH]; intros lids db Hi; cbn in Hi.
  - injection Hi as <-. split_and!; [|apply NoDup_nil_2|set_solver|cbn; lia].
    destruct db, lids; unfold set_leases; cbn; by rewrite app_nil_r.
  - destruct lids as [|lid lids]; [done|]. unfold insert_lease in Hi at 1.
    destruct (insert_checked _ _ _) as [rows|] eqn:E; [|done]. cbn in Hi.
    apply insert_checked_Some in E as [[_ Hlive]%andb_true_iff ->]. destruct (Hmk lid g) as [Hg Hl].
    apply IH in Hi as (-> & Hnd & Hfree & Hlen). cbn [db_leases set_leases] in *.
    assert (forall l, l ∈ db_leases db -> lease_live l = true -> l_gpu l <> g) as Hnew.
    { intros l Hin Hll Heq. apply negb_true_iff, not_true_iff_false in Hlive. apply Hlive.
      apply existsb_exists. exists l. split; [by apply list_elem_of_In|]. by rewrite Hll, Hg, Heq, String.eqb_refl. }
    split_and!.
    + unfold set_leases. cbn. by rewrite <- app_assoc.
    + apply NoDup_cons. split; [|done]. intros Hin. apply (Hfree g (mk lid g)); [done| |done|done].
      apply elem_of_app. right. by apply list_elem_of_singleton.
    + intros g' l [->|Hg']%elem_of_cons Hin; [by apply Hnew|]. apply Hfree; [done|]. apply elem_of_app. by left.
    + cbn. lia.
Qed.

Section RequestProps.
Context `{SO : SqlOrder}.

Lemma start_transaction_Some ids dep p now db db' :
  start_transaction ids dep p now db = Some db' ->
  NoDup (pf_accelerators p) /\
  (forall g l, g ∈ pf_accelerators p -> l ∈ db_leases db -> lease_live l = true -> l_gpu l <> g) /\
  length (pf_accelerators p) <= length (si_leases ids) /\
  db_instances db' = db_instances db ++ [new_instance ids dep p now] /\
  db_leases db' = db_leases db ++ zip_with (new_lease ids dep p now) (si_leases ids) (pf_accelerators p) /\
  db_tasks db' = db_tasks db ++ [new_task (si_task ids) "model_instance_start" (pf_tenant p) dep
                    (si_instance ids) (pf_node p) (pf_agent_payload p) 300 (si_operation ids) now] /\
  db_nodes db' = db_nodes db.
Proof.
  intros E. unfold start_transaction in E.
  destruct (insert_instance _ db) as [db2|] eqn:E1; [|done]. cbn in E.
  destruct (insert_checked _ _ (db_groups db2)) as [groups|]; [|done]. cbn in E.
  destruct (insert_checked _ _ (db_run_plans db2)) as [plans|]; [|done]. cbn in E.
  destruct (insert_leases _ _ _ _) as [db3|] eqn:E2; [|done]. cbn in E.
  destruct (insert_task _ db3) as [db4|] eqn:E3; [|done]. cbn in E. injection E as <-.
  unfold insert_instance in E1. destruct (insert_checked _ _ (db_instances db)) as [rows|] eqn:Ei; [|done].
  cbn in E1. destruct (existsb _ _); [|done]. injection E1 as <-. apply insert_checked_Some in Ei as [_ ->].
  apply insert_leases_Some in E2 as (-> & Hnd & Hfree & Hlen); [|done]. cbn [db_leases set_leases set_run_plans set_groups set_instances] in Hfree.
  unfold insert_task in E3. destruct (insert_checked _ _ _) as [tasks|] eqn:Et; [|done]. cbn in E3.
  injection E3 as <-. apply insert_checked_Some in Et as [_ ->]. by split_and!.
Qed.

(** C3. A start is all or nothing.  When it answers that it started, the
    deployment had no active run, its accelerators are distinct and none was under
    a live lease, and exactly one pending instance, one reserved lease per accelerator and one
    pending start task are added; with any other answer the tables are unchanged. *)
Theorem start_all_or_nothing s dep pf ids now db resp db' :
  HandleStartDeployment s dep pf ids now db = (resp, db') ->
  match resp with
  | Started i t r =>
      exists p, pf = inl p /\ activeDeploymentRun dep db = NotActive /\
        NoDup (pf_accelerators p) /\
        (forall g l, g ∈ pf_accelerators p -> l ∈ db_leases db -> lease_live l = true -> l_gpu l <> g) /\
        length (pf_accelerators p) <= length (si_leases ids) /\
        db_instances db' = db_instances db ++ [new_instance ids dep p now] /\
        db_leases db' = db_leases db ++ zip_with (new_lease ids dep p now) (si_leases ids) (pf_accelerators p) /\
        db_tasks db' = db_tasks db ++ [new_task (si_task ids) "model_instance_start" (pf_tenant p) dep
                          (si_instance ids) (pf_node p) (pf_agent_payload p) 300 (si_operation ids) now] /\
        db_nodes db' = db_nodes db
  | _ => db' = db
  end.
Proof.
  unfold HandleStartDeployment. intros Hr.
  destruct (activeDeploymentRun dep db) eqn:Ea; [|by injection Hr as <- <-].
  destruct pf as [p|errors]; [|by injection Hr as <- <-].
  destruct (start_transaction ids dep p now db) as [db1|] eqn:E; [|by injection Hr as <- <-].
  injection Hr as <- <-. exists p. apply start_transaction_Some in E. by split_and!; try apply E.
Qed.

(** Deleting a deployment removes its tasks, instances, leases, run plans, groups and
    its own row, and keeps every row of any other deployment; when it is not found
    or belongs to another tenant nothing changes. *)
Theorem delete_complete s id now db resp db' :
  HandleDeleteDeployment s id now db = (resp, db') ->
  match resp with
  | Deleted =>
      (exists d, find_deployment db id = Some d /\ tenantScopeCheck s (d_tenant d) = true) /\
      db_tasks db' = delete_where (fun t => t_deployment t =s id) (db_tasks db) /\
      db_instances db' = delete_where (fun i => i_deployment i =s id) (db_instances db) /\
      db_leases db' = delete_where (fun l => l_deployment l =s id) (db_leases db) /\
      db_run_plans db' = delete_where (fun r => r_deployment r =s id) (db_run_plans db) /\
      db_groups db' = delete_where (fun g => gr_deployment g =s id) (db_groups db) /\
      db_deployments db' = delete_where (fun d => d_id d =s id) (db_deployments db) /\
      db_nodes db' = db_nodes db
  | DeleteNotFound => db' = db
  end.
Proof.
  assert (forall A (key : A -> string) q f rows, (forall r, key (f r) = key r) ->
            delete_where (fun r => key r =s id) (update_where (fun r => (key r =s id) && q r) f rows)
            = delete_where (fun r => key r =s id) rows) as Hdu.
  { intros A key q f rows Hk. unfold delete_where, update_where.
    induction rows as [|r rows IH]; [done|]. cbn [map List.filter].
    destruct (key r =s id) eqn:Ek; cbn [andb negb].
    - assert ((key (if q r then f r else r) =s id) = true) as -> by (destruct (q r); rewrite ?Hk; done). exact IH.
    - rewrite Ek. cbn [negb]. by rewrite IH. }
  unfold HandleDeleteDeployment. intros Hr.
  destruct (find_deployment db id) as [d|] eqn:Ed; [|by injection Hr as <- <-].
  destruct (tenantScopeCheck s (d_tenant d)) eqn:Et; cbn [negb] in Hr; [|by injection Hr as <- <-].
  injection Hr as <- <-. split_and!; [by exists d| | | |reflexivity..].
  - by apply (Hdu _ t_deployment (fun t => negb ((t_status t =s "completed") || (t_status t =s "failed")))).
  - by apply (Hdu _ i_deployment (fun i => negb (i_actual i =s "stopped"))).
  - by apply (Hdu _ l_deployment lease_live).
Qed.

Lemma count_zero {A} (p : A -> bool) rows : (0 <? count_where p rows)%nat = false -> forall r, r ∈ rows -> p r = false.
Proof.
  unfold count_where. intros Hc r Hr. apply Nat.ltb_ge in Hc. destruct (p r) eqn:E; [|done]. exfalso.
  assert (In r (List.filter p rows)) as Hin by (apply filter_In; split; [by apply list_elem_of_In|done]).
  destruct (List.filter p rows); [done|cbn in Hc; lia].
Qed.

(** A node changes tenant only when it is idle and the caller may move it: the
    caller is a platform administrator or has [node:transfer] in the node's own
    tenant, the target tenant is active, no lease of the node is live and none of its instances
    is pending, starting, running or stopping; then the node and its GPUs carry the new tenant.
    With any other answer nothing changes. *)
Theorem transfer_only_idle tenants info node target now db resp db' :
  HandlePatchNodeTenant tenants info node target now db = (resp, db') ->
  match resp with
  | Transferred t =>
      t = target /\
      (exists s n, info = Some s /\ find_node db node = Some n /\
         (s_admin s = true \/ (n_tenant n = s_tenant s /\ "node:transfer" ∈ s_perms s))) /\
      target ∈ tenants /\
      (forall l, l ∈ db_leases db -> l_node l = node -> lease_live l = false) /\
      (forall i, i ∈ db_instances db -> i_node i = node -> i_actual i ∉ ["pending"; "starting"; "running"; "stopping"]) /\
      (forall n, n ∈ db_nodes db' -> n_id n = node -> n_tenant n = target) /\
      (forall g, g ∈ db_gpus db' -> g_node g = node -> g_tenant g = target)
  | _ => db' = db
  end.
Proof.
  unfold HandlePatchNodeTenant. intros Hr.
  destruct (node =s EmptyString); [by injection Hr as <- <-|]. destruct info as [s|]; [|by injection Hr as <- <-].
  destruct (target =s EmptyString); [by injection Hr as <- <-|].
  destruct (find_node db node) as [n|] eqn:En; [|by injection Hr as <- <-].
  destruct (andb (negb (s_admin s)) _) eqn:Ea; [by injection Hr as <- <-|].
  destruct (existsb (String.eqb target) tenants) eqn:Et; cbn [negb] in Hr; [|by injection Hr as <- <-].
  destruct (0 <? count_where _ (db_leases db))%nat eqn:El; [by injection Hr as <- <-|].
  destruct (0 <? count_where _ (db_instances db))%nat eqn:Ei; [by injection Hr as <- <-|].
  injection Hr as <- <-. split_and!; [done| |by apply existsb_eqb_In|..].
  - exists s, n. split_and!; [done..|]. destruct (s_admin s); [by left|]. right. cbn in Ea.
    apply orb_false_iff in Ea as [Ea1 Ea2]. bool_facts. split; [done|by apply existsb_eqb_In].
  - intros l Hl Hn. pose proof (count_zero _ _ El l Hl) as Hz. cbn in Hz. by rewrite Hn, String.eqb_refl in Hz.
  - intros i Hin Hn. pose proof (count_zero _ _ Ei i Hin) as Hz. cbn in Hz. rewrite Hn, String.eqb_refl in Hz.
    by apply existsb_eqb_notIn.
  - intros m. cbn. intros (m0 & _ & ->)%elem_of_update Hm. destruct (String.eqb_spec (n_id m0) node); done.
  - intros g. cbn. intros (g0 & _ & ->)%elem_of_update Hg. destruct (String.eqb_spec (g_node g0) node); done.
Qed.

(** Nodes after a step: known ones keep their agent, others are new. *)
Definition nodes_evolve (db db' : DB) : Prop :=
  forall n', n' ∈ db_nodes db' ->
    (exists n, n ∈ db_nodes db /\ n_id n = n_id n' /\ (n_agent n <> "" -> n_agent n' = n_agent n)) \/
    n_id n' ∉ map n_id (db_nodes db).

Lemma nodes_same db db' : db_nodes db' = db_nodes db -> nodes_evolve db db'.
Proof. intros Heq n' Hn. rewrite Heq in Hn. left. by exists n'. Qed.

Lemma nodes_update p f db :
  (forall n, n_id (f n) = n_id n) ->
  (forall n, n ∈ db_nodes db -> p n = true -> n_agent n <> "" -> n_agent (f n) = n_agent n) ->
  nodes_evolve db (set_nodes (update_where p f) db).
Proof.
  intros Hid Hf n' Hn. apply elem_of_update in Hn as (n & Hn & ->). left. exists n.
  destruct (p n) eqn:E; [by auto|done].
Qed.

Lemma start_audit_nodes t req i a r db : db_nodes (start_audit t req i a r db) = db_nodes db.
Proof. unfold start_audit. by destruct (_ =s _). Qed.

Lemma result_nodes task req now db : db_nodes (HandleTaskResult task req now db).2 = db_nodes db.
Proof.
  unfold HandleTaskResult, result_completed, result_failed. destruct (find_task db task) as [t|]; [|done].
  set (success := andb (boolVal req "success" true) _).
  repeat (case_match; cbn [snd]; rewrite ?start_audit_nodes; try done).
Qed.

Lemma insert_leases_nodes mk lids gids db db' : insert_leases mk lids gids db = Some db' -> db_nodes db' = db_nodes db.
Proof.
  revert lids db. induction gids as [|g gids IH]; intros [|lid lids] db Hi; cbn in Hi; simplify_eq; [done..|].
  unfold insert_lease in Hi. destruct (insert_checked _ _ _); [|done]. cbn in Hi. by apply IH in Hi.
Qed.

Lemma insert_task_nodes t db db' : insert_task t db = Some db' -> db_nodes db' = db_nodes db.
Proof. unfold insert_task. intros Hi. destruct (insert_checked _ _ _); [|done]. cbn in Hi. by injection Hi as <-. Qed.

Lemma start_nodes s dep pf ids now db : db_nodes (HandleStartDeployment s dep pf ids now db).2 = db_nodes db.
Proof.
  unfold HandleStartDeployment. destruct (activeDeploymentRun dep db); [|done]. destruct pf as [p|]; [|done].
  destruct (start_transaction ids dep p now db) as [db1|] eqn:E; [|done]. cbn. unfold start_transaction in E.
  destruct (insert_instance _ db) as [db2|] eqn:E1; [|done]. cbn in E.
  destruct (insert_checked _ _ (db_groups db2)) as [groups|]; [|done]. cbn in E.
  destruct (insert_checked _ _ (db_run_plans db2)) as [plans|]; [|done]. cbn in E.
  destruct (insert_leases _ _ _ _) as [db3|] eqn:E2; [|done]. cbn in E.
  destruct (insert_task _ db3) as [db4|] eqn:E3; [|done]. cbn in E. injection E as <-. cbn.
  apply insert_task_nodes in E3 as ->. apply insert_leases_nodes in E2 as ->. cbn.
  unfold insert_instance in E1. destruct (insert_checked _ _ (db_instances db)); [|done]. cbn in E1.
  destruct (existsb _ _); [|done]. by injection E1 as <-.
Qed.

(** A node keeps its agent: after any step of the system, a node that was bound to an agent
    is still bound to it; only a node not yet bound, or not yet known, takes one. *)
Theorem node_agent_binding db db' : wf db -> step db db' -> nodes_evolve db db'.
Proof.
  intros H Hs. destruct Hs; try by apply nodes_same.
  - unfold HandleRegister. destruct (_ =s _); [by apply nodes_same|].
    destruct (find_node db node) as [n|] eqn:Ef.
    + apply find_Some_key in Ef as [Hn Hid]. destruct (andb _ _) eqn:Eb; [by apply nodes_same|].
      apply nodes_update; [done|]. intros m Hm Hmid%String.eqb_eq Hne. cbn.
      assert (m = n) as -> by (apply (NoDup_key_eq n_id _ _ _ (wf_node_ids _ H) Hm Hn); congruence).
      apply String.eqb_neq in Hne. rewrite Hne in Eb. cbn in Eb. by bool_facts.
    + intros n'. cbn. intros [Hn|Hn%list_elem_of_singleton]%elem_of_app; [left; by exists n'|].
      right. subst n'. by apply find_none_notin.
  - unfold HandleHeartbeat. destruct (_ =s _); [by apply nodes_same|].
    destruct (find_node db node) as [n|]; [|by apply nodes_same]. destruct (andb _ _); [by apply nodes_same|].
    by apply (nodes_update (fun n => n_id n =s node)
                (fun n => node_with (n_agent n) (n_facts n) "online" now (n_tenant n) now n)).
  - by apply nodes_update.
  - apply nodes_same, result_nodes.
  - apply nodes_same. unfold insert_deployment in *. by destruct (insert_checked _ _ _); simplify_eq/=.
  - apply nodes_same, start_nodes.
  - apply nodes_same. by eapply insert_task_nodes.
  - apply nodes_same. unfold HandleDeleteDeployment. destruct (find_deployment db id); [|done]. by case_match.
  - apply nodes_same. unfold HandleGetNodeRunPlanLogs. repeat (case_match; try done). by eapply insert_task_nodes.
  - unfold HandlePatchNodeTenant. repeat (case_match; try by apply nodes_same).
    by apply (nodes_update (fun n => n_id n =s node)
                (fun n => node_with (n_agent n) (n_facts n) (n_status n) (n_heartbeat n) tenant now n)).
  - destruct (report_frame driver_takes rfc3339 req ids now hosts db) as [->|(nodeID & rows & sys & ->)]; [by apply nodes_same|].
    destruct sys as [sys|]; [|by apply nodes_same].
    by apply (nodes_update (fun n => n_id n =s nodeID)
                (fun n => node_with (n_agent n) (facts_with_os (ss_OS sys) (ss_KernelVersion sys) (n_facts n)) "online" now (n_tenant n) now n)).
Qed.

(** The stop handler refines the transition system: whatever steps others take
    while it waits, the tables it leaves are reached by a sequence of steps, so
    that every state invariant also holds of them. *)
Theorem stop_refines_steps payload_of wait s dep op taskIDs now db :
  (forall taskID db, rtc step db (wait taskID db).2) -> reachable db ->
  rtc step db (HandleStopDeployment payload_of wait s dep op taskIDs now db).2 /\
  wf (HandleStopDeployment payload_of wait s dep op taskIDs now db).2.
Proof.
  intros Hw Hr.
  assert (rtc step db (HandleStopDeployment payload_of wait s dep op taskIDs now db).2) as Hs
    by (by apply HandleStopDeployment_steps).
  split; [exact Hs|]. apply reachable_wf. destruct Hr as [tenants Hr]. exists tenants. by etrans.
Qed.
End RequestProps.

(** ** Concrete runs *)

Section Runs.
#[local] Existing Instance stable_order.

Definition run_facts : node_facts :=
  {| nf_hostname := "h1"; nf_primary_ip := "10.0.0.1"; nf_advertised := "10.0.0.1"; nf_os := "linux"; nf_arch := "amd64";
     nf_kernel := "6"; nf_version := "1"; nf_metrics_enabled := true; nf_metrics_scheme := ""; nf_metrics_port := 0;
     nf_metrics_path := "" |}.

Definition run_session : session := {| s_user := "u1"; s_tenant := "t0"; s_admin := false; s_perms := ["node:transfer"] |}.

Definition run_preflight (gpus : list string) : preflight :=
  {| pf_tenant := "t0"; pf_node := "n1"; pf_accelerators := gpus; pf_host_port := 8001; pf_container_port := 8000;
     pf_agent_payload := "spec"; pf_preview := "docker run" |}.

Definition run_ids (k : string) : start_ids :=
  {| si_instance := "i" +s+ k; si_run_plan := "r" +s+ k; si_task := "s" +s+ k; si_group := "g" +s+ k;
     si_leases := ["l" +s+ k]; si_operation := "o" +s+ k |}.

Definition success (agent : string) : gmap string any :=
  {["status" := AStr "completed"; "agent_id" := AStr agent; "container_id" := AStr "c1"]}.

(** A registered node and a stopped deployment. *)
Definition run_base : DB :=
  set_deployments (fun rows => rows ++ [{| d_id := "d1"; d_tenant := "t0"; d_desired := "stopped"; d_status := "stopped"; d_updated := 0 |}])
    (HandleRegister "n1" "a1" run_facts 100 (empty_db [("t0", "default")])).2.

Definition do_start (k : string) (gpus : list string) (now : Z) (db : DB) : DB :=
  (HandleStartDeployment run_session "d1" (inl (run_preflight gpus)) (run_ids k) now db).2.
Definition do_beat (now : Z) (db : DB) : DB := (HandleHeartbeat "n1" "a1" now db).2.
Definition do_report (task : string) (now : Z) (db : DB) : DB := (HandleTaskResult task (success "a1") now db).2.

Definition run_started : DB := do_start "1" ["gpu0"] 110 run_base.
Definition run_claimed : DB := do_beat 112 run_started.
Definition run_running : DB := do_report "s1" 115 run_claimed.

Lemma run_base_reachable : reachable run_base.
Proof.
  exists [("t0", "default")]. eapply rtc_l; [apply (step_register "n1" "a1" run_facts 100)|].
  eapply rtc_l; [eapply (step_create "d1" "t0" 0); reflexivity|]. apply rtc_refl.
Qed.

Lemma reachable_step db db' : reachable db -> step db db' -> reachable db'.
Proof. intros [tenants Hr] Hs. exists tenants. by eapply rtc_r. Qed.

Lemma run_started_reachable : reachable run_started.
Proof. eapply reachable_step; [apply run_base_reachable|apply step_start]. Qed.
Lemma run_claimed_reachable : reachable run_claimed.
Proof. eapply reachable_step; [apply run_started_reachable|apply step_heartbeat]. Qed.
Lemma run_running_reachable : reachable run_running.
Proof. eapply reachable_step; [apply run_claimed_reachable|apply step_result]. Qed.

Definition states (db : DB) : list (string * string) := map (fun i => (i_id i, i_actual i)) (db_instances db).
Definition leases (db : DB) : list (string * string) := map (fun l => (l_gpu l, l_status l)) (db_leases db).

Example run_normal :
  states run_running = [("i1", "running")] /\ leases run_running = [("gpu0", "active")] /\
  map t_status (db_tasks run_running) = ["completed"].
Proof. split_and!; by vm_compute. Qed.

(** A start whose agent never answers: the sweep fails the instance and the
    deployment, the GPU stays reserved, and a second start cannot take it. *)
Definition run_timed_out : DB := do_beat 500 run_claimed.

Example run_lease_leak :
  states run_timed_out = [("i1", "failed")] /\ map d_status (db_deployments run_timed_out) = ["failed"] /\
  leases run_timed_out = [("gpu0", "reserved")] /\ activeDeploymentRun "d1" run_timed_out = NotActive /\
  (HandleStartDeployment run_session "d1" (inl (run_preflight ["gpu0"])) (run_ids "2") 510 run_timed_out).1 = StartInternalError.
Proof. split_and!; by vm_compute. Qed.

(** A log request nobody answers fails the running instance it is about. *)
Definition run_logs_timeout : DB :=
  do_beat 200 (HandleGetNodeRunPlanLogs run_session "r1" "t2" "{}" 120 run_running).2.

Example run_logs_kill :
  states run_logs_timeout = [("i1", "failed")] /\ map d_status (db_deployments run_logs_timeout) = ["failed"] /\
  leases run_logs_timeout = [("gpu0", "active")] /\ activeDeploymentRun "d1" run_logs_timeout = NotActive.
Proof. split_and!; by vm_compute. Qed.

(** A stop that overtakes the start it cancels: the claimed start task does not
    block a second start, and its late report revives the stopped instance. *)
Definition run_stop_target : stop_target := {| st_id := "i1"; st_node := "n1"; st_container := ""; st_node_status := "online" |}.
Definition run_stopped : DB :=
  finish_stop "d1" 120
    (do_report "x1" 118 (do_beat 117 (default run_claimed
      (insert_task (stop_task (fun _ => "{}") "t0" "d1" "o" 116 "x1" run_stop_target) (mark_stopping "i1" 116 run_claimed))))).

Example run_two_instances :
  states run_stopped = [("i1", "stopped")] /\ activeDeploymentRun "d1" run_stopped = NotActive /\
  let db := do_report "s2" 132 (do_report "s1" 131 (do_beat 130 (do_start "2" ["gpu0"] 125 run_stopped))) in
  states db = [("i1", "running"); ("i2", "running")] /\
  leases db = [("gpu0", "released"); ("gpu0", "active")].
Proof. split_and!; by vm_compute. Qed.

(** A node moved to another tenant is told the default tenant when it registers again. *)
Example run_register_tenant :
  let moved := (HandlePatchNodeTenant ["t1"] (Some run_session) "n1" "t1" 150 run_base).2 in
  map n_tenant (db_nodes moved) = ["t1"] /\
  (HandleRegister "n1" "a1" run_facts 160 moved).1 = Registered "n1" "a1" "t0".
Proof. split; by vm_compute. Qed.

(** Two heartbeats within one second hand the same task out twice. *)
Example run_claimed_twice :
  let '(r1, db1) := HandleHeartbeat "n1" "a1" 112 run_started in
  let '(r2, _) := HandleHeartbeat "n1" "a1" 112 db1 in
  r1 = r2 /\ r1 <> HeartbeatOk [].
Proof. vm_compute. split; [done|discriminate]. Qed.
(** *** The theorems at these runs *)

Lemma task_lifecycle_witness : tasks_evolve run_started run_claimed.
Proof.
  apply (task_lifecycle run_started run_claimed).
  - apply reachable_wf, run_started_reachable.
  - apply step_heartbeat.
Defined.

Definition run_lease : lease_row := new_lease (run_ids "1") "d1" (run_preflight ["gpu0"]) 110 "l1" "gpu0".

Lemma gpu_exclusive_witness :
  run_lease ∈ db_leases run_claimed /\
  exists i, i ∈ db_instances run_claimed /\ i_id i = "i1" /\ i_deployment i = "d1".
Proof.
  assert (run_lease ∈ db_leases run_claimed) as Hin by (vm_compute; left).
  split; [exact Hin|].
  exact (proj2 (gpu_exclusive run_claimed run_lease run_lease run_claimed_reachable Hin Hin eq_refl eq_refl eq_refl)).
Defined.

Lemma heartbeat_keeps_leases_witness : leases run_timed_out = [("gpu0", "reserved")].
Proof.
  unfold leases, run_timed_out, do_beat.
  rewrite (heartbeat_keeps_leases run_claimed "n1" "a1" 500 run_claimed_reachable). by vm_compute.
Defined.

Lemma claim_fifo_witness :
  length (claimAndReturnTasks "n1" "a1" 112 run_started).1 <= 10 /\
  length (claimable "n1" (sweepExpiredTasks "n1" 112 run_started)) = 1.
Proof.
  pose proof (claim_fifo run_started "n1" "a1" 112 (reachable_wf _ run_started_reachable)) as H. cbv zeta in H.
  destruct (claimAndReturnTasks "n1" "a1" 112 run_started) as [tasks db'].
  destruct H as (H1 & _ & H3 & _). split; [exact H1|]. etrans; [exact H3|]. by vm_compute.
Defined.

Lemma report_once_witness :
  (HandleTaskResult "s1" (success "a1") 116 run_running).1 = ResultIgnored "task_already_terminal".
Proof.
  rewrite (report_once "s1" (success "a1") 115 run_claimed run_running); [done| |].
  - unfold run_running, do_report. by vm_compute.
  - unfold known_status. vm_compute. left.
Defined.

Lemma success_settles_witness :
  exists l1, l1 ∈ db_leases run_running /\ l_id l1 = "l1" /\ l_status l1 = "active".
Proof.
  destruct (find_task run_claimed "s1") as [t|] eqn:E; [|vm_compute in E; discriminate].
  assert (find_task run_claimed "s1" = Some t) as Hf by exact E.
  vm_compute in E. injection E as <-.
  destruct (success_settles "s1" (success "a1") 115 run_claimed _ Hf) as (_ & Hstart & _).
  - reflexivity.
  - right. right. by vm_compute.
  - unfold success_report. split_and!; [vm_compute; left|by vm_compute..].
  - discriminate.
  - destruct (Hstart eq_refl) as (_ & Hact & _). apply (Hact run_lease); [vm_compute; left|by vm_compute..].
Defined.

Lemma start_all_or_nothing_witness :
  db_leases run_started = [run_lease] /\ length (db_tasks run_started) = 1.
Proof.
  assert (HandleStartDeployment run_session "d1" (inl (run_preflight ["gpu0"])) (run_ids "1") 110 run_base
          = (Started "i1" "s1" "r1", run_started)) as E by (by vm_compute).
  destruct (start_all_or_nothing run_session "d1" _ (run_ids "1") 110 run_base _ _ E)
    as (p & Hp & _ & _ & _ & _ & _ & Hl & Ht & _).
  injection Hp as <-. rewrite Hl, Ht. split; by vm_compute.
Defined.

Lemma delete_complete_witness :
  db_leases (HandleDeleteDeployment run_session "d1" 140 run_running).2 = [].
Proof.
  destruct (HandleDeleteDeployment run_session "d1" 140 run_running) as [resp db'] eqn:E.
  pose proof (delete_complete run_session "d1" 140 run_running resp db' E) as H.
  assert (resp = Deleted) as -> by (by injection E).
  destruct H as (_ & _ & _ & Hl & _). cbn [snd]. rewrite Hl. by vm_compute.
Defined.

Lemma transfer_only_idle_witness :
  "t1" ∈ ["t1"] /\
  Forall (fun n => n_id n = "n1" -> n_tenant n = "t1")
    (db_nodes (HandlePatchNodeTenant ["t1"] (Some run_session) "n1" "t1" 150 run_base).2).
Proof.
  destruct (HandlePatchNodeTenant ["t1"] (Some run_session) "n1" "t1" 150 run_base) as [resp db'] eqn:E.
  pose proof (transfer_only_idle ["t1"] (Some run_session) "n1" "t1" 150 run_base resp db' E) as H.
  assert (resp = Transferred "t1") as -> by (by injection E).
  destruct H as (_ & _ & Ht & _ & _ & Hn & _). split; [exact Ht|]. by apply Forall_forall.
Defined.

Lemma node_agent_binding_witness : nodes_evolve run_started run_claimed.
Proof.
  apply (node_agent_binding run_started run_claimed).
  - apply reachable_wf, run_started_reachable.
  - apply step_heartbeat.
Defined.

(** Waiting while the agent takes the task and reports. *)
Definition run_wait (taskID : string) (db : DB) : wait_result * DB :=
  (WaitDone "completed" (success "a1"), do_report taskID 122 (do_beat 121 db)).

Lemma run_wait_steps taskID db : rtc step db (run_wait taskID db).2.
Proof. eapply rtc_l; [apply step_heartbeat|]. eapply rtc_l; [apply step_result|]. apply rtc_refl. Qed.

Example run_stop :
  let '(resp, db) := HandleStopDeployment (fun _ => "{}") run_wait run_session "d1" "o" ["x1"] 120 run_running in
  resp = Stopped 1 [] /\ states db = [("i1", "stopped")] /\ leases db = [("gpu0", "released")].
Proof. vm_compute. by split_and!. Qed.

Lemma stop_refines_steps_witness :
  wf (HandleStopDeployment (fun _ => "{}") run_wait run_session "d1" "o" ["x1"] 120 run_running).2.
Proof.
  exact (proj2 (stop_refines_steps (fun _ => "{}") run_wait run_session "d1" "o" ["x1"] 120 run_running
                  run_wait_steps run_running_reachable)).
Defined.
End Runs.
