(* ===== verification/Detection.v ===== *)
(** * Detecting how a container process starts (internal/server/runplan/profiles.go, detection.go) *)
From S2P Require Import Prelude GoStrings.

(** ** Profiles *)

Record ProcessStartDetectionHints := {
  h_EntrypointKinds : list string;
  h_AvoidIfEntrypointAlreadyStartsBackend : bool
}.

Record ProcessStartProfile := {
  p_ID : string; p_BackendFamily : string; p_EntrypointMode : string; p_Entrypoint : list string;
  p_CommandPrefix : list string; p_Priority : Z; p_Description : string;
  p_DetectionHints : option ProcessStartDetectionHints; p_Warnings : list string
}.

Definition vllm_profiles : list ProcessStartProfile :=
  [{| p_ID := "vllm.image_default"; p_BackendFamily := "vllm"; p_EntrypointMode := "image_default"; p_Entrypoint := [];
      p_CommandPrefix := []; p_Priority := 100; p_Description := "Preserve image ENTRYPOINT, pass model args as CMD.";
      p_DetectionHints := Some {| h_EntrypointKinds := ["server_binary"; "empty"; "unknown"];
                                  h_AvoidIfEntrypointAlreadyStartsBackend := false |};
      p_Warnings := [] |}].

Definition sglang_profiles : list ProcessStartProfile :=
  [{| p_ID := "sglang.python_module_launcher"; p_BackendFamily := "sglang"; p_EntrypointMode := "image_default";
      p_Entrypoint := []; p_CommandPrefix := ["python3"; "-m"; "sglang.launch_server"]; p_Priority := 100;
      p_Description := "Run SGLang through python module launcher as Docker CMD, preserving image ENTRYPOINT.";
      p_DetectionHints := Some {| h_EntrypointKinds := ["wrapper_script"; "empty"; "unknown"];
                                  h_AvoidIfEntrypointAlreadyStartsBackend := true |};
      p_Warnings := [] |};
   {| p_ID := "sglang.custom_entrypoint"; p_BackendFamily := "sglang"; p_EntrypointMode := "custom";
      p_Entrypoint := ["python3"; "-m"; "sglang.launch_server"]; p_CommandPrefix := []; p_Priority := 40;
      p_Description := "Set ENTRYPOINT explicitly to python3 module launcher.";
      p_DetectionHints := Some {| h_EntrypointKinds := ["server_binary"; "empty"; "unknown"];
                                  h_AvoidIfEntrypointAlreadyStartsBackend := false |};
      p_Warnings := ["May bypass image ENTRYPOINT wrapper."] |}].

Definition llamacpp_profiles : list ProcessStartProfile :=
  [{| p_ID := "llamacpp.image_default"; p_BackendFamily := "llamacpp"; p_EntrypointMode := "image_default";
      p_Entrypoint := []; p_CommandPrefix := []; p_Priority := 100;
      p_Description := "Preserve image ENTRYPOINT, pass model args as CMD.";
      p_DetectionHints := Some {| h_EntrypointKinds := ["server_binary"; "empty"; "unknown"];
                                  h_AvoidIfEntrypointAlreadyStartsBackend := false |};
      p_Warnings := [] |}].

Definition DefaultProcessStartProfiles : gmap string (list ProcessStartProfile) :=
  {["vllm" := vllm_profiles; "sglang" := sglang_profiles; "llamacpp" := llamacpp_profiles]}.

(** ** The entrypoint's shape *)

Definition ClassifyEntrypointShape (entrypoint : list string) : string :=
  match entrypoint with
  | [] => "empty"
  | first :: _ =>
      if (first =s "python") || (first =s "python3") then "python_launcher"
      else if HasSuffix first ".sh" || Contains first "entrypoint" || Contains first "nvidia" then "wrapper_script"
      else if HasPrefix first "/" || Contains first "llama" || Contains first "vllm" || Contains first "sglang"
      then "server_binary"
      else if negb (Contains first "/") && negb (Contains first ".") then "server_binary"
      else "unknown"
  end.

(** ** Scoring *)

Record DetectionCandidate := {
  c_ProfileID : string; c_Score : Z; c_Confidence : string; c_Reasons : list string; c_Warnings : list string
}.

Definition token_starts_backend (token : string) : bool :=
  let lower := ToLower token in
  Contains lower "sglang" || Contains lower "vllm" || Contains lower "llama" || Contains lower "server".

Definition double_launch (hints : ProcessStartDetectionHints) (shape : string) (entrypoint : list string) : bool :=
  h_AvoidIfEntrypointAlreadyStartsBackend hints && (shape =s "server_binary")
  && existsb token_starts_backend entrypoint.

(** The change of score, the reasons and the warnings of the hints. *)
Definition hint_score (hints : ProcessStartDetectionHints) (shape : string) (entrypoint : list string)
    : Z * list string * list string :=
  let '(score, reasons, warnings) :=
    if existsb (String.eqb shape) (h_EntrypointKinds hints)
    then (20, ["entrypoint_shape=" +s+ shape +s+ " matches profile hints"], [])%Z
    else if shape =s "unknown"
    then (-10, ["entrypoint_shape=unknown reduces confidence"],
          ["image entrypoint shape is unknown; detection may be inaccurate"])%Z
    else (-20, ["entrypoint_shape=" +s+ shape +s+ " not in profile hints"], [])%Z in
  if double_launch hints shape entrypoint
  then (score - 30, reasons,
        warnings ++ ["image entrypoint may already start the backend; command_prefix could cause double-launch"])%Z
  else (score, reasons, warnings).

Definition scoreProfile (p : ProcessStartProfile) (shape : string) (entrypoint : list string) : DetectionCandidate :=
  let '(delta, reasons, warnings) :=
    match p_DetectionHints p with
    | Some hints => hint_score hints shape entrypoint
    | None => (0%Z, [], [])
    end in
  let score := (p_Priority p + delta)%Z in
  {| c_ProfileID := p_ID p; c_Score := score;
     c_Confidence := if (100 <=? score)%Z then "high" else if (70 <=? score)%Z then "medium" else "low";
     c_Reasons := ("backend_family=" +s+ p_BackendFamily p) :: reasons;
     c_Warnings := warnings |}.

(** ** Detection *)

Record DetectionEvidence := {
  e_BackendFamily : string; e_ImageRef : string; e_ImageEntrypoint : list string; e_ImageCmd : list string;
  e_MatchedSignals : list string
}.

Record ProcessStartDetection := {
  det_Status : string; det_SelectedProfile : string; det_EntrypointMode : string; det_Entrypoint : list string;
  det_CommandPrefix : list string; det_ShellMode : bool; det_Confidence : string; det_Source : string;
  det_CandidateProfile : option DetectionCandidate; det_AllCandidates : list DetectionCandidate;
  det_Evidence : DetectionEvidence; det_Warnings : list string
}.

Definition no_profiles (family : string) (evidence : DetectionEvidence) (warnings : list string) : ProcessStartDetection :=
  {| det_Status := "no_profiles"; det_SelectedProfile := ""; det_EntrypointMode := ""; det_Entrypoint := [];
     det_CommandPrefix := []; det_ShellMode := false; det_Confidence := "low";
     det_Source := "backend_profile+image_inspect"; det_CandidateProfile := None; det_AllCandidates := [];
     det_Evidence := evidence; det_Warnings := warnings |}.

(** The loop that keeps the first candidate with the highest score. *)
Definition best_of (first : DetectionCandidate) (rest : list DetectionCandidate) : DetectionCandidate :=
  foldl (fun best c => if (c_Score best <? c_Score c)%Z then c else best) first rest.

Definition DetectProcessStart (backendFamily imageRef : string) (imageEntrypoint imageCmd : list string)
    : ProcessStartDetection :=
  let evidence signals := {| e_BackendFamily := backendFamily; e_ImageRef := imageRef;
                             e_ImageEntrypoint := imageEntrypoint; e_ImageCmd := imageCmd; e_MatchedSignals := signals |} in
  match DefaultProcessStartProfiles !! backendFamily with
  | None | Some [] =>
      no_profiles backendFamily (evidence [])
        ["no process start profiles defined for backend_family=" +s+ backendFamily]
  | Some profiles =>
      let shape := ClassifyEntrypointShape imageEntrypoint in
      let ev := evidence ["backend_family"; "entrypoint_shape:" +s+ shape] in
      let candidates := map (fun p => scoreProfile p shape imageEntrypoint) profiles in
      match candidates with
      | [] => no_profiles backendFamily ev []
      | first :: rest =>
          let best := best_of first rest in
          let selected := find (fun p => p_ID p =s c_ProfileID best) profiles in
          {| det_Status := "candidate_found"; det_SelectedProfile := c_ProfileID best;
             det_EntrypointMode := match selected with Some p => p_EntrypointMode p | None => "" end;
             det_Entrypoint := match selected with Some p => p_Entrypoint p | None => [] end;
             det_CommandPrefix := match selected with Some p => p_CommandPrefix p | None => [] end;
             det_ShellMode := false; det_Confidence := c_Confidence best;
             det_Source := "backend_profile+image_inspect"; det_CandidateProfile := Some best;
             det_AllCandidates := candidates; det_Evidence := ev;
             det_Warnings := c_Warnings best ++ match selected with Some p => p_Warnings p | None => [] end |}
      end
  end.

Definition DeriveBackendFamily (backendID : string) : string :=
  if HasPrefix backendID "backend." then TrimPrefix backendID "backend."
  else if HasPrefix backendID "backend-" then TrimPrefix backendID "backend-"
  else backendID.

(** ** Properties *)

Lemma best_of_in first rest : best_of first rest ∈ first :: rest.
Proof.
  unfold best_of. revert first. induction rest as [|c rest IH]; intros first; cbn; [left|].
  specialize (IH (if (c_Score first <? c_Score c)%Z then c else first)).
  destruct (_ <? _)%Z; [by right|]. apply elem_of_cons in IH as [->|IH]; [left|by right; right].
Qed.

Lemma best_of_max first rest c : c ∈ first :: rest -> (c_Score c <= c_Score (best_of first rest))%Z.
Proof.
  unfold best_of. revert first c. induction rest as [|d rest IH]; intros first c Hc; cbn.
  - apply list_elem_of_singleton in Hc as ->. lia.
  - assert (forall x, (c_Score x <= c_Score (foldl (fun best c => if (c_Score best <? c_Score c)%Z then c else best) x rest))%Z) as Hself
      by (intros x; apply IH; left).
    destruct (Z.ltb_spec (c_Score first) (c_Score d)) as [Hlt|Hle].
    + apply elem_of_cons in Hc as [->|Hc]; [specialize (Hself d); lia|by apply IH].
    + apply elem_of_cons in Hc as [->|[->|Hc]%elem_of_cons]; [apply Hself|specialize (Hself first); lia|].
      apply IH. by right.
Qed.

(** Detection picks a best profile: for a known family the selected candidate is
    among the scored ones, none scores higher, and the entrypoint mode, entrypoint
    and command prefix are those of the profile with its identifier; an unknown
    family has no selection. *)
Theorem DetectProcessStart_best family image entrypoint cmd :
  let d := DetectProcessStart family image entrypoint cmd in
  match DefaultProcessStartProfiles !! family with
  | Some (p0 :: ps) =>
      det_Status d = "candidate_found" /\
      exists best, det_CandidateProfile d = Some best /\ best ∈ det_AllCandidates d /\
        det_SelectedProfile d = c_ProfileID best /\
        (forall c, c ∈ det_AllCandidates d -> (c_Score c <= c_Score best)%Z) /\
        exists p, p ∈ p0 :: ps /\ p_ID p = c_ProfileID best /\ det_EntrypointMode d = p_EntrypointMode p /\
          det_Entrypoint d = p_Entrypoint p /\ det_CommandPrefix d = p_CommandPrefix p
  | _ => det_Status d = "no_profiles" /\ det_SelectedProfile d = "" /\ det_AllCandidates d = []
  end.
Proof.
  cbv zeta. unfold DetectProcessStart.
  destruct (DefaultProcessStartProfiles !! family) as [[|p0 ps]|]; [done| |done].
  set (shape := ClassifyEntrypointShape entrypoint). cbn [map].
  set (first := scoreProfile p0 shape entrypoint). set (rest := map _ ps).
  pose proof (best_of_in first rest) as Hin. set (best := best_of first rest) in *.
  split; [done|]. exists best. cbn. split_and!; [done|done|done|intros c; apply best_of_max|].
  assert (exists p, p ∈ p0 :: ps /\ p_ID p = c_ProfileID best) as (p & Hp & Hid).
  { assert (best ∈ map (fun p => scoreProfile p shape entrypoint) (p0 :: ps)) as Hm by exact Hin.
    apply list_elem_of_In, in_map_iff in Hm as (p & <- & Hp%list_elem_of_In). exists p. split; [done|].
    unfold scoreProfile. by destruct (match p_DetectionHints p with Some _ => _ | None => _ end) as [[? ?] ?]. }
  change (if p_ID p0 =s c_ProfileID best then Some p0 else find (fun q => p_ID q =s c_ProfileID best) ps)
    with (find (fun q => p_ID q =s c_ProfileID best) (p0 :: ps)).
  destruct (find (fun q => p_ID q =s c_ProfileID best) (p0 :: ps)) as [q|] eqn:Ef.
  - apply find_some in Ef as [Hq Hqid]. exists q. split_and!; [by apply list_elem_of_In|by apply String.eqb_eq|done..].
  - exfalso. pose proof (find_none _ _ Ef p (proj1 (list_elem_of_In _ _) Hp)) as Hn. cbn in Hn.
    by rewrite Hid, String.eqb_refl in Hn.
Qed.

(** An image that already launches SGLang through python is started twice,
    without a warning: the check looks at binaries only. *)
Example sglang_double_launch :
  let d := DetectProcessStart "sglang" "img" ["python3"; "-m"; "sglang.launch_server"] [] in
  det_SelectedProfile d = "sglang.python_module_launcher" /\
  det_CommandPrefix d = ["python3"; "-m"; "sglang.launch_server"] /\ det_Confidence d = "medium" /\ det_Warnings d = [].
Proof. by vm_compute. Qed.

Example sglang_binary_detected :
  det_SelectedProfile (DetectProcessStart "sglang" "img" ["/opt/sglang-server"] []) = "sglang.custom_entrypoint".
Proof. by vm_compute. Qed.
