(* ===== verification/SemanticAdapter.v ===== *)
(** * Applying a semantic snapshot (internal/server/runplan/semantic_adapter.go)

    The snapshot's items overlay the deployment's service settings, parameters
    and structured values. *)
From S2P Require Import Prelude GoStrings GoValue RunPlanTypes ResolverArgs.

(** The fields of [semanticconfig.Item] the adapter reads. *)
Record snapshot_item := { item_Value : any; item_Enabled : bool; item_CopiedFrom : string }.

Definition adapterFlag (backendName semanticKey : string) : string :=
  if backendName =s "sglang" then
    if semanticKey =s "model_runtime.max_model_len" then "--context-length"
    else if semanticKey =s "model_runtime.gpu_memory_utilization" then "--mem-fraction-static"
    else if semanticKey =s "deployment.served_model_name" then "--served-model-name"
    else ""
  else if backendName =s "llamacpp" then
    if semanticKey =s "model_runtime.max_model_len" then "--ctx-size" else ""
  else if semanticKey =s "model_runtime.max_model_len" then "--max-model-len"
  else if semanticKey =s "model_runtime.gpu_memory_utilization" then "--gpu-memory-utilization"
  else if semanticKey =s "deployment.served_model_name" then "--served-model-name"
  else "".

Definition same_parameter (next existing : ParameterValue) : bool :=
  (pv_Key existing =s pv_Key next) || (pv_CliName existing =s pv_CliName next).

(** The loop: replace the first match, append when there is none. *)
Fixpoint replace_first (next : ParameterValue) (values : list ParameterValue) : option (list ParameterValue) :=
  match values with
  | [] => None
  | v :: rest => if same_parameter next v then Some (next :: rest) else cons v <$> replace_first next rest
  end.

Definition upsertParameterValue (values : list ParameterValue) (next : ParameterValue) : list ParameterValue :=
  if pv_CliName next =s EmptyString then values
  else match replace_first next values with Some l => l | None => values ++ [next] end.

Definition intFromSemantic (value : any) : Z :=
  match value with
  | AInt v => v
  | AInt64 v => v
  | AFloat f => f64_to_int f
  | _ => 0
  end.

Definition semantic_value (key type cli : string) (item : snapshot_item) (value : any) : ParameterValue :=
  {| pv_Key := key; pv_Type := type; pv_Target := "arg"; pv_CliName := cli; pv_EnvName := "";
     pv_RenderStyle := "flag_space_value"; pv_Enabled := item_Enabled item; pv_Value := value; pv_Default := ANil;
     pv_Source := "semantic_snapshot"; pv_CopiedFrom := item_CopiedFrom item; pv_UserOverride := false |}.

Definition with_service (s : ServiceInfo) (d : DeploymentInfo) : DeploymentInfo :=
  {| di_ID := di_ID d; di_Name := di_Name d; di_Parameters := di_Parameters d; di_EnvOverrides := di_EnvOverrides d;
     di_ParameterValues := di_ParameterValues d; di_DisabledParameters := di_DisabledParameters d;
     di_Placement := di_Placement d; di_Service := s |}.

Definition with_parameter (name : string) (v : any) (pv : ParameterValue) (d : DeploymentInfo) : DeploymentInfo :=
  {| di_ID := di_ID d; di_Name := di_Name d; di_Parameters := <[name := v]> (di_Parameters d);
     di_EnvOverrides := di_EnvOverrides d; di_ParameterValues := upsertParameterValue (di_ParameterValues d) pv;
     di_DisabledParameters := di_DisabledParameters d; di_Placement := di_Placement d; di_Service := di_Service d |}.

(** One [if item, ok := snapshot.Items[key]; ok] block. *)
Definition if_item (items : gmap string snapshot_item) (key : string)
    (f : snapshot_item -> DeploymentInfo -> DeploymentInfo) (d : DeploymentInfo) : DeploymentInfo :=
  match items !! key with Some item => f item d | None => d end.

Definition set_host_port (item : snapshot_item) (d : DeploymentInfo) : DeploymentInfo :=
  let s := di_Service d in
  with_service {| sv_HostPort := intFromSemantic (item_Value item); sv_ContainerPort := sv_ContainerPort s;
                  sv_AppPort := sv_AppPort s; sv_ListenHost := sv_ListenHost s; sv_HealthPort := sv_HealthPort s;
                  sv_APITestPort := sv_APITestPort s |} d.

Definition set_container_port (item : snapshot_item) (d : DeploymentInfo) : DeploymentInfo :=
  let s := di_Service d in
  let port := intFromSemantic (item_Value item) in
  with_service {| sv_HostPort := sv_HostPort s; sv_ContainerPort := port; sv_AppPort := port;
                  sv_ListenHost := sv_ListenHost s; sv_HealthPort := sv_HealthPort s;
                  sv_APITestPort := sv_APITestPort s |} d.

Definition set_listen_host (item : snapshot_item) (d : DeploymentInfo) : DeploymentInfo :=
  let s := di_Service d in
  let host := fmt_v (item_Value item) in
  if (host <>s EmptyString) && (host <>s "<nil>")
  then with_service {| sv_HostPort := sv_HostPort s; sv_ContainerPort := sv_ContainerPort s; sv_AppPort := sv_AppPort s;
                       sv_ListenHost := host; sv_HealthPort := sv_HealthPort s;
                       sv_APITestPort := sv_APITestPort s |} d
  else d.

Definition set_served (backendName : string) (item : snapshot_item) (d : DeploymentInfo) : DeploymentInfo :=
  let value := AStr (fmt_v (item_Value item)) in
  let flag := adapterFlag backendName "deployment.served_model_name" in
  if flag <>s EmptyString
  then with_parameter "served_model_name" value
         (semantic_value "deployment.served_model_name" "string" flag item value) d
  else d.

Definition set_runtime (backendName key name type : string) (item : snapshot_item) (d : DeploymentInfo) : DeploymentInfo :=
  with_parameter name (item_Value item)
    (semantic_value key type (adapterFlag backendName key) item (item_Value item)) d.

(** On the deployment (which the code creates when it is nil). *)
Definition apply_items (items : gmap string snapshot_item) (backendName : string) (d : DeploymentInfo) : DeploymentInfo :=
  let d := if_item items "deployment.host_port" set_host_port d in
  let d := if_item items "service.container_port" set_container_port d in
  let d := if_item items "service.listen_host" set_listen_host d in
  let d := if_item items "deployment.served_model_name" (set_served backendName) d in
  let d := if_item items "model_runtime.max_model_len"
             (set_runtime backendName "model_runtime.max_model_len" "max_model_len" "integer") d in
  if_item items "model_runtime.gpu_memory_utilization"
    (set_runtime backendName "model_runtime.gpu_memory_utilization" "gpu_memory_utilization" "number") d.

Definition ApplySemanticSnapshot (inp : ResolveInput) (items : gmap string snapshot_item) (backendName : string) : ResolveInput :=
  {| in_Backend := in_Backend inp; in_BackendVersion := in_BackendVersion inp; in_BackendRuntime := in_BackendRuntime inp;
     in_NodeRuntimeOverride := in_NodeRuntimeOverride inp; in_Artifact := in_Artifact inp;
     in_Deployment := apply_items items backendName (in_Deployment inp);
     in_InstanceID := in_InstanceID inp; in_Node := in_Node inp; in_AssignedGPUs := in_AssignedGPUs inp;
     in_ProcessStartConfig := in_ProcessStartConfig inp; in_NBRConfigSnapshot := in_NBRConfigSnapshot inp |}.

(** ** Properties of the upsert *)

Lemma replace_first_None next values :
  replace_first next values = None <-> Forall (fun v => same_parameter next v = false) values.
Proof.
  induction values as [|v rest IH]; cbn; [by split; [constructor|]|]. rewrite Forall_cons, <- IH.
  destruct (same_parameter next v); [split; [done|by intros []]|]. rewrite fmap_None. by split; [|intros []].
Qed.

Lemma same_parameter_refl v : same_parameter v v = true.
Proof. unfold same_parameter. by rewrite String.eqb_refl. Qed.

Lemma replace_first_Some next values l :
  replace_first next values = Some l ->
  exists a v b, values = a ++ v :: b /\ Forall (fun x => same_parameter next x = false) a /\
    same_parameter next v = true /\ l = a ++ next :: b.
Proof.
  revert l. induction values as [|v rest IH]; intros l; cbn; [done|].
  destruct (same_parameter next v) eqn:E.
  - intros [= <-]. by exists [], v, rest.
  - destruct (replace_first next rest) as [l'|]; [|done]. intros [= <-].
    destruct (IH l' eq_refl) as (a & w & b & -> & Ha & Hw & ->).
    exists (v :: a), w, b. split_and!; [done|by constructor|done|done].
Qed.

(** Upserting a structured value either replaces the first value with its key or flag
    in place, or appends it when there is none; the rest is untouched, the value is
    there afterwards, and doing it again changes nothing.  A value without a flag
    changes nothing at all. *)
Theorem upsertParameterValue_spec values next :
  (pv_CliName next = "" -> upsertParameterValue values next = values) /\
  (pv_CliName next <> "" ->
     next ∈ upsertParameterValue values next /\
     upsertParameterValue (upsertParameterValue values next) next = upsertParameterValue values next /\
     ((exists a v b, values = a ++ v :: b /\ Forall (fun x => same_parameter next x = false) a /\
         same_parameter next v = true /\ upsertParameterValue values next = a ++ next :: b) \/
      (Forall (fun x => same_parameter next x = false) values /\ upsertParameterValue values next = values ++ [next]))).
Proof.
  assert (forall a b, Forall (fun x => same_parameter next x = false) a ->
            replace_first next (a ++ next :: b) = Some (a ++ next :: b)) as Hre.
  { intros a b. induction 1 as [|x a Hx _ IH]; cbn; [by rewrite same_parameter_refl|]. by rewrite Hx, IH. }
  unfold upsertParameterValue. split; [by intros ->|]. intros Hc. apply String.eqb_neq in Hc. rewrite Hc.
  destruct (replace_first next values) as [l|] eqn:E.
  - apply replace_first_Some in E as (a & v & b & -> & Ha & Hv & ->). rewrite Hre by done.
    split_and!; [apply elem_of_app; right; left|done|]. left. by exists a, v, b.
  - apply replace_first_None in E. rewrite (Hre values []) by done.
    split_and!; [apply elem_of_app; right; left|done|]. by right.
Qed.

(** A length of a million or more, read from JSON, reaches the command line in
    exponent form, which the backends do not read as an integer. *)
Example semantic_length_exponent :
  let items := {["model_runtime.max_model_len" := {| item_Value := AFloat (f64_of_Z 1048576); item_Enabled := true;
                                                     item_CopiedFrom := "" |}]} in
  let inp := ApplySemanticSnapshot (sample_input (sample_deployment [] [] no_service) (Some (sample_snapshot [] [] []))) items "vllm" in
  fst (buildArgs inp ∅) = ["--max-model-len"; "1.048576e+06"].
Proof. by vm_compute. Qed.
