(* ===== verification/SemanticRegistry.v ===== *)
(** * The semantic registry (internal/server/semanticconfig: types.go, registry.go)

    The canonical configuration keys, their types and owners, and the legacy keys
    that stand for them. *)
From S2P Require Import Prelude GoStrings GoValue GoJson.

Definition OwnerRuntimeEnvironment : string := "runtime_environment".
Definition OwnerRuntimeService : string := "runtime_service".
Definition OwnerDeploymentExposure : string := "deployment_exposure".
Definition OwnerDeploymentService : string := "deployment_service".
Definition OwnerModelRuntime : string := "model_runtime".
Definition OwnerModelArtifact : string := "model_artifact".
Definition OwnerSchedulerResource : string := "scheduler_resource".
Definition OwnerBackendCapability : string := "backend_capability".

Definition TierRequired : string := "required".
Definition TierCommon : string := "common".
Definition TierRecommended : string := "recommended".
Definition TierAdvanced : string := "advanced".
Definition TierDiagnostic : string := "diagnostic".
Definition TierDeploymentCommonAdvanced : string := "Deployment common/advanced".

Definition TypeString : string := "string".
Definition TypeInteger : string := "integer".
Definition TypeNumber : string := "number".
Definition TypeBoolean : string := "boolean".
Definition TypeArray : string := "array".
Definition TypeObject : string := "object".

Definition WarningConflict : string := "conflict".
Definition WarningLegacyNormalized : string := "legacy_normalized".

Record ConfigDefinition := {
  def_Key : string; def_Owner : string; def_ValueType : string; def_DisplayTier : string; def_Label : string;
  def_LegacyKeys : list string; def_DefaultSource : string; def_WarningRules : list string;
  def_HardValidation : list string; def_ResolverMappings : list (string * string)
}.

Record Warning := { w_Code : string; w_SemanticKey : string; w_LegacyKey : string; w_Message : string }.

Record SnapshotItem := {
  it_Key : string; it_Owner : string; it_Type : string; it_DisplayTier : string; it_Label : string; it_Value : any;
  it_DefaultValue : any; it_Enabled : bool; it_Source : obj; it_CopiedFrom : string; it_SourceSnapshot : string;
  it_CopiedAt : string; it_Dirty : bool; it_Warnings : list Warning; it_Diagnostic : bool
}.

Record Snapshot := {
  sn_SchemaVersion : Z; sn_Context : gmap string string; sn_Items : gmap string SnapshotItem; sn_Warnings : list Warning
}.

Record Registry := { reg_defs : gmap string ConfigDefinition; reg_legacyMap : gmap string string }.

Definition def_of (key owner type tier label : string) (legacy : list string) (source : string) (rules : list string)
    (mappings : list (string * string)) : ConfigDefinition :=
  {| def_Key := key; def_Owner := owner; def_ValueType := type; def_DisplayTier := tier; def_Label := label;
     def_LegacyKeys := legacy; def_DefaultSource := source; def_WarningRules := rules; def_HardValidation := []; def_ResolverMappings := mappings |}.

Definition service_definitions : list ConfigDefinition :=
  [def_of "runtime.image_ref" OwnerRuntimeEnvironment TypeString TierRequired "Image" ["launcher.image"; "image_ref"]
     "Runtime YAML image candidates; node image picker at NBR create" [] [];
   def_of "runtime.command" OwnerRuntimeEnvironment TypeArray TierDiagnostic "Command" ["launcher.command"; "default_args"]
     "Backend/runtime YAML command/profile" [] [];
   def_of "runtime.entrypoint" OwnerRuntimeEnvironment TypeArray TierDiagnostic "Entrypoint" ["launcher.entrypoint"; "default_entrypoint"]
     "Backend/runtime YAML entrypoint" [] [];
   def_of "runtime.env" OwnerRuntimeEnvironment TypeObject TierCommon "Environment variables" ["env"; "env_overrides"]
     "Runtime YAML env/env_schema" [] [];
   def_of "service.listen_host" OwnerRuntimeService TypeString TierCommon "Container listen host" ["backend.common.host"; "launcher.listen_host"]
     "BackendVersion default host or adapter default" [] [("vllm", "--host"); ("sglang", "--host"); ("llamacpp", "--host")];
   def_of "service.container_port" OwnerRuntimeService TypeInteger TierCommon "Container listen port" ["backend.common.port"; "launcher.container_port"; "service_json.container_port"]
     "BackendVersion default port; runtime port defaults" [] [("vllm", "--port"); ("sglang", "--port"); ("llamacpp", "--port")];
   def_of "deployment.host_port" OwnerDeploymentExposure TypeInteger TierCommon "Host port" ["host_port"; "service.host_port"; "service_json.host_port"]
     "User input or allocator recommendation" [] [];
   def_of "deployment.served_model_name" OwnerDeploymentService TypeString TierCommon "Served model name" ["backend.common.served_model_name"; "backend.arg.served_model_name"; "served_model_name"]
     "Artifact name" [] [("vllm", "--served-model-name"); ("sglang", "--served-model-name")]].

Definition model_runtime_definitions : list ConfigDefinition :=
  [def_of "model_runtime.context_length" OwnerModelArtifact TypeInteger TierRecommended "Model context length" ["context_length"; "backend.arg.context_length"; "default_context_length"]
     "Scanner/HF/GGUF metadata" [] [];
   def_of "model_runtime.max_model_len" OwnerModelRuntime TypeInteger TierDeploymentCommonAdvanced "Max model length" ["backend.arg.max_model_len"; "max_model_len"; "--max-model-len"]
     "model_runtime.context_length / ModelArtifact facts / backend recommendation" ["above model context length"; "estimated VRAM risk"] [("vllm", "--max-model-len"); ("sglang", "--context-length"); ("llamacpp", "--ctx-size")];
   def_of "model_runtime.gpu_memory_utilization" OwnerModelRuntime TypeNumber TierAdvanced "GPU memory utilization" ["backend.arg.gpu_memory_utilization"; "gpu_memory_utilization"]
     "Backend recommendation" [] [];
   def_of "model_runtime.dtype" OwnerModelRuntime TypeString TierCommon "Data type" ["backend.arg.dtype"; "dtype"; "--dtype"]
     "Backend recommendation" [] [];
   def_of "model_runtime.tensor_parallel_size" OwnerModelRuntime TypeInteger TierCommon "Tensor parallel size" ["backend.arg.tensor_parallel_size"; "tensor_parallel_size"; "--tensor-parallel-size"]
     "Backend recommendation or user override" [] [];
   def_of "model_runtime.pipeline_parallel_size" OwnerModelRuntime TypeInteger TierAdvanced "Pipeline parallel size" ["backend.arg.pipeline_parallel_size"; "pipeline_parallel_size"; "--pipeline-parallel-size"]
     "Backend recommendation or user override" [] [];
   def_of "model_runtime.max_num_batched_tokens" OwnerModelRuntime TypeInteger TierAdvanced "Max batched tokens" ["backend.arg.max_num_batched_tokens"; "max_num_batched_tokens"; "--max-num-batched-tokens"]
     "Backend recommendation or user override" [] [];
   def_of "model_runtime.max_num_seqs" OwnerModelRuntime TypeInteger TierAdvanced "Max concurrent sequences" ["backend.arg.max_num_seqs"; "max_num_seqs"; "--max-num-seqs"]
     "Backend recommendation or user override" [] [];
   def_of "model_runtime.kv_cache_dtype" OwnerModelRuntime TypeString TierAdvanced "KV cache data type" ["backend.arg.kv_cache_dtype"; "kv_cache_dtype"; "--kv-cache-dtype"]
     "Backend recommendation or user override" [] [];
   def_of "model_runtime.cpu_offload_gb" OwnerModelRuntime TypeNumber TierAdvanced "CPU offload capacity" ["backend.arg.cpu_offload_gb"; "cpu_offload_gb"; "--cpu-offload-gb"]
     "Backend recommendation or user override" [] [];
   def_of "model_runtime.swap_space" OwnerModelRuntime TypeNumber TierAdvanced "Swap space" ["backend.arg.swap_space"; "swap_space"; "--swap-space"]
     "Backend recommendation or user override" [] [];
   def_of "model_runtime.enforce_eager" OwnerModelRuntime TypeBoolean TierDiagnostic "Enforce eager mode" ["backend.arg.enforce_eager"; "enforce_eager"; "--enforce-eager"]
     "Backend recommendation or user override" [] []].

Definition model_launch_definitions : list ConfigDefinition :=
  [def_of "model_runtime.trust_remote_code" OwnerModelRuntime TypeBoolean TierDiagnostic "Trust remote code" ["backend.arg.trust_remote_code"; "trust_remote_code"; "--trust-remote-code"]
     "User security decision" [] [];
   def_of "model_runtime.safetensors_load_strategy" OwnerModelRuntime TypeString TierAdvanced "Safetensors load strategy" ["backend.arg.safetensors_load_strategy"; "safetensors_load_strategy"; "--safetensors-load-strategy"]
     "Backend recommendation or user override" [] [];
   def_of "model_runtime.download_dir" OwnerModelRuntime TypeString TierDiagnostic "Model download directory" ["backend.arg.download_dir"; "download_dir"; "--download-dir"]
     "Backend recommendation or user override" [] [];
   def_of "model_runtime.model" OwnerModelRuntime TypeString TierDiagnostic "Model path" ["backend.arg.model"; "model"; "--model"]
     "Model location injection" [] [];
   def_of "model_runtime.host" OwnerRuntimeService TypeString TierDiagnostic "Listen host" ["backend.arg.host"; "host"; "--host"]
     "BackendVersion default host or adapter default" [] [];
   def_of "model_runtime.port" OwnerRuntimeService TypeInteger TierDiagnostic "Service port" ["backend.arg.port"; "port"; "--port"]
     "BackendVersion default port; runtime port defaults" [] []].

Definition launcher_definitions : list ConfigDefinition :=
  [def_of "runtime.health" OwnerRuntimeService TypeObject TierRecommended "Health check" ["health_check"; "default_health_check"]
     "Backend/runtime YAML health" [] [];
   def_of "runtime.model_mount" OwnerRuntimeEnvironment TypeObject TierCommon "Model mount" ["model_mount"; "default_model_mount"]
     "Runtime/backend YAML model mount" [] [];
   def_of "runtime.extra_env" OwnerRuntimeEnvironment TypeString TierAdvanced "Extra environment variables" ["extra_env"; "env_lines"]
     "User runtime overrides" [] [];
   def_of "backend.extra_args" OwnerModelRuntime TypeString TierAdvanced "Extra launch arguments" ["extra_args"; "backend.arg.extra_args"]
     "User runtime overrides" [] [];
   def_of "launcher.kind" OwnerRuntimeEnvironment TypeString TierDiagnostic "Launcher type" ["runner_type"; "launcher_type"]
     "Runtime YAML" [] [];
   def_of "launcher.devices" OwnerRuntimeEnvironment TypeArray TierAdvanced "Device bindings" ["devices"]
     "Runtime YAML or vendor adapter" [] [];
   def_of "launcher.ports" OwnerRuntimeService TypeArray TierAdvanced "Port mappings" ["ports"]
     "Runtime YAML" [] [];
   def_of "launcher.volumes" OwnerRuntimeEnvironment TypeArray TierAdvanced "Volume mounts" ["volumes"]
     "Runtime YAML or model location injection" [] [];
   def_of "docker.shm_size" OwnerRuntimeEnvironment TypeString TierCommon "Shared memory" ["launcher.docker_options.shm_size"; "docker_options.shm_size"]
     "Runtime YAML Docker options" [] [];
   def_of "docker.ipc_mode" OwnerRuntimeEnvironment TypeString TierAdvanced "IPC mode" ["launcher.docker_options.ipc_mode"; "docker_options.ipc_mode"]
     "Runtime YAML Docker options" [] [];
   def_of "docker.privileged" OwnerRuntimeEnvironment TypeBoolean TierAdvanced "Privileged container" ["launcher.docker_options.privileged"; "docker_options.privileged"]
     "Runtime YAML Docker options" [] [];
   def_of "docker.network_mode" OwnerRuntimeEnvironment TypeString TierAdvanced "Network mode" ["launcher.docker_options.network_mode"; "docker_options.network_mode"]
     "Runtime YAML Docker options" [] [];
   def_of "docker.devices" OwnerRuntimeEnvironment TypeArray TierAdvanced "Docker devices" ["launcher.docker_options.devices"; "docker_options.devices"; "devices"]
     "Runtime YAML Docker options" [] [];
   def_of "docker.group_add" OwnerRuntimeEnvironment TypeArray TierAdvanced "Additional groups" ["launcher.docker_options.group_add"; "docker_options.group_add"; "group_add"]
     "Runtime YAML Docker options" [] []].

Definition default_definitions : list ConfigDefinition :=
  service_definitions ++ model_runtime_definitions ++ model_launch_definitions ++ launcher_definitions.

(** A definition enters under its key, and its key under each legacy key; later
    definitions replace. *)
Definition register (reg : Registry) (def : ConfigDefinition) : Registry :=
  {| reg_defs := <[def_Key def := def]> (reg_defs reg);
     reg_legacyMap := foldl (fun m legacy => <[legacy := def_Key def]> m) (reg_legacyMap reg) (def_LegacyKeys def) |}.

Definition DefaultRegistry : Registry := foldl register {| reg_defs := ∅; reg_legacyMap := ∅ |} default_definitions.

Definition reg_Get (reg : Registry) (key : string) : option ConfigDefinition := reg_defs reg !! key.

Definition CanonicalKey (reg : Registry) (key : string) : option string :=
  match reg_defs reg !! key with Some _ => Some key | None => reg_legacyMap reg !! key end.

Definition IsLegacyKey (reg : Registry) (key : string) : bool :=
  match reg_legacyMap reg !! key with Some _ => true | None => false end.

(** ** Properties *)

(** What the clients rely on: a definition is found under its key, and a legacy key
    stands for a definition. *)
Record registry_ok (reg : Registry) : Prop := {
  rok_keys : forall k def, reg_Get reg k = Some def -> def_Key def = k;
  rok_legacy : forall l k, reg_legacyMap reg !! l = Some k -> is_Some (reg_Get reg k)
}.

Lemma foldl_legacy l (key : string) (m : gmap string string) k v :
  foldl (fun m legacy => <[legacy := key]> m) m l !! k = Some v -> v = key \/ m !! k = Some v.
Proof.
  revert m. induction l as [|x l IH]; intros m; cbn; [by right|]. intros [->|H]%IH; [by left|].
  destruct (decide (x = k)) as [->|Hne]; [rewrite lookup_insert_eq in H; left; congruence|].
  rewrite lookup_insert_ne in H by done. by right.
Qed.

Lemma register_ok reg def : registry_ok reg -> registry_ok (register reg def).
Proof.
  intros [Hk Hl]. split; unfold register, reg_Get; cbn.
  - intros k d. destruct (decide (def_Key def = k)) as [<-|Hne].
    + rewrite lookup_insert_eq. by intros [= <-].
    + rewrite lookup_insert_ne by done. apply Hk.
  - intros l k [->|H]%foldl_legacy; [by rewrite lookup_insert_eq|].
    destruct (decide (def_Key def = k)) as [<-|Hne]; [by rewrite lookup_insert_eq|]. rewrite lookup_insert_ne by done. by eapply Hl.
Qed.

Lemma DefaultRegistry_ok : registry_ok DefaultRegistry.
Proof.
  unfold DefaultRegistry. assert (registry_ok {| reg_defs := ∅; reg_legacyMap := ∅ |}) as H.
  { split; unfold reg_Get; cbn; intros ? ?; by rewrite lookup_empty. }
  revert H. generalize ({| reg_defs := ∅; reg_legacyMap := ∅ |} : Registry).
  induction default_definitions as [|d l IH]; intros reg H; cbn; [done|]. by apply IH, register_ok.
Qed.
#[export] Hint Resolve DefaultRegistry_ok : go.

Lemma CanonicalKey_Get reg key c : registry_ok reg -> CanonicalKey reg key = Some c -> is_Some (reg_Get reg c).
Proof.
  intros Hok. unfold CanonicalKey. destruct (reg_defs reg !! key) as [d|] eqn:E; [|by apply Hok].
  intros [= <-]. by exists d.
Qed.

(** Every definition of the list is the one found under its key, no canonical key is
    a legacy key, and a legacy key stands for a definition that lists it. *)
Lemma default_registry_consistent :
  forallb (fun d => bool_decide (option_map def_Label (reg_Get DefaultRegistry (def_Key d)) = Some (def_Label d))
                    && negb (IsLegacyKey DefaultRegistry (def_Key d))) default_definitions = true.
Proof. vm_compute. reflexivity. Qed.

(** One legacy key is listed twice: [devices] of the launcher's devices stands for the
    devices of the docker options. *)
Example shadowed_legacy_keys :
  concat (map (fun d => List.filter (fun l => negb (bool_decide (CanonicalKey DefaultRegistry l = Some (def_Key d)))) (def_LegacyKeys d))
              default_definitions) = ["devices"].
Proof. vm_compute. reflexivity. Qed.
