(* ===== verification/SemanticConfig.v ===== *)
(** * Semantic configuration (internal/server/semanticconfig: normalizer.go, validator.go, snapshot.go, warnings.go)

    A configuration set is normalised to a snapshot: an item per canonical key.
    Snapshots are copied from layer to layer and patched. *)
From S2P Require Import Prelude GoStrings GoNumbers GoValue GoJson SemanticRegistry.
From Stdlib Require Import Ascii.

(** ** Reading tiers *)

Definition intFromAny (v : any) (fallback : Z) : Z :=
  match v with AInt z | AInt64 z => z | AFloat f => f64_to_int f | _ => fallback end.

Definition boolFromAny (v : any) (fallback : bool) : bool := default fallback (as_bool v).
Definition stringFromAny (v : any) : string := default EmptyString (as_str v).

(** [stringMap]: the entries that are strings. *)
Definition stringMap (v : any) : gmap string string :=
  match v with
  | AMap m => omap as_str (obj_map m)
  | _ => ∅
  end.

Definition anyMap (v : any) : obj := default [] (as_map v).

Definition tieredString (item : obj) (tierKey fieldKey : string) : string :=
  match get_obj item tierKey with Some tier => stringFromAny (get_any tier fieldKey) | None => EmptyString end.

Definition tieredBool (item : obj) (tierKey fieldKey : string) : bool :=
  match get_obj item tierKey with Some tier => boolFromAny (get_any tier fieldKey) false | None => false end.

Definition tieredValue (item : obj) (fieldKey : string) : any :=
  match get_obj item "value" with Some vt => get_any vt fieldKey | None => ANil end.

Definition ensureTieredValue (item : obj) (value : any) : obj :=
  let vt := default [] (get_obj item "value") in
  let vt := obj_set "effective_value" value vt in
  let vt := if is_nil (get_any vt "default_value") then obj_set "default_value" value vt else vt in
  obj_set "value" (AMap vt) item.

Definition ensureTieredState (item : obj) (enabled : bool) : obj :=
  let st := default [] (get_obj item "state") in
  obj_set "state" (AMap (obj_set "enabled" (ABool enabled) st)) item.

(** ** Normalisation *)

Definition add_warning (w : Warning) (it : SnapshotItem) : SnapshotItem :=
  {| it_Key := it_Key it; it_Owner := it_Owner it; it_Type := it_Type it; it_DisplayTier := it_DisplayTier it;
     it_Label := it_Label it; it_Value := it_Value it; it_DefaultValue := it_DefaultValue it; it_Enabled := it_Enabled it;
     it_Source := it_Source it; it_CopiedFrom := it_CopiedFrom it; it_SourceSnapshot := it_SourceSnapshot it;
     it_CopiedAt := it_CopiedAt it; it_Dirty := it_Dirty it; it_Warnings := it_Warnings it ++ [w]; it_Diagnostic := it_Diagnostic it |}.

Definition with_warnings (ws : list Warning) (it : SnapshotItem) : SnapshotItem :=
  {| it_Key := it_Key it; it_Owner := it_Owner it; it_Type := it_Type it; it_DisplayTier := it_DisplayTier it;
     it_Label := it_Label it; it_Value := it_Value it; it_DefaultValue := it_DefaultValue it; it_Enabled := it_Enabled it;
     it_Source := it_Source it; it_CopiedFrom := it_CopiedFrom it; it_SourceSnapshot := it_SourceSnapshot it;
     it_CopiedAt := it_CopiedAt it; it_Dirty := it_Dirty it; it_Warnings := ws; it_Diagnostic := it_Diagnostic it |}.

Definition set_item (k : string) (it : SnapshotItem) (s : Snapshot) : Snapshot :=
  {| sn_SchemaVersion := sn_SchemaVersion s; sn_Context := sn_Context s; sn_Items := <[k := it]> (sn_Items s);
     sn_Warnings := sn_Warnings s |}.

Definition warn_snapshot (w : Warning) (s : Snapshot) : Snapshot :=
  {| sn_SchemaVersion := sn_SchemaVersion s; sn_Context := sn_Context s; sn_Items := sn_Items s;
     sn_Warnings := sn_Warnings s ++ [w] |}.

Definition itemFromDefinition (def : ConfigDefinition) (value defaultValue : any) (enabled : bool) : SnapshotItem :=
  {| it_Key := def_Key def; it_Owner := def_Owner def; it_Type := def_ValueType def; it_DisplayTier := def_DisplayTier def;
     it_Label := def_Label def; it_Value := value; it_DefaultValue := defaultValue; it_Enabled := enabled; it_Source := [];
     it_CopiedFrom := EmptyString; it_SourceSnapshot := EmptyString; it_CopiedAt := EmptyString; it_Dirty := false;
     it_Warnings := []; it_Diagnostic := false |}.

(** The item an entry of the set makes: [canonical] is its key. *)
Definition normalized_item (def : ConfigDefinition) (canonical : string) (item : obj) : SnapshotItem :=
  let value := tieredValue item "effective_value" in
  let default_value := tieredValue item "default_value" in
  {| it_Key := canonical; it_Owner := def_Owner def; it_Type := def_ValueType def; it_DisplayTier := def_DisplayTier def;
     it_Label := def_Label def; it_Value := value;
     it_DefaultValue := if is_nil default_value then value else default_value;
     it_Enabled := tieredBool item "schema" "required" || tieredBool item "state" "enabled";
     it_Source := anyMap (get_any item "source"); it_CopiedFrom := EmptyString; it_SourceSnapshot := EmptyString;
     it_CopiedAt := EmptyString; it_Dirty := false; it_Warnings := []; it_Diagnostic := false |}.

Definition conflict_warning (canonical sourceKey : string) : Warning :=
  {| w_Code := WarningConflict; w_SemanticKey := canonical; w_LegacyKey := sourceKey;
     w_Message := "conflicting values for " +s+ canonical +s+ " from " +s+ sourceKey |}.

Definition legacy_warning (canonical sourceKey : string) : Warning :=
  {| w_Code := WarningLegacyNormalized; w_SemanticKey := canonical; w_LegacyKey := sourceKey;
     w_Message := "normalized legacy key " +s+ sourceKey +s+ " to " +s+ canonical |}.

Definition addNormalizedItem (reg : Registry) (canonical sourceKey : string) (item : obj) (s : Snapshot) : Snapshot :=
  match reg_Get reg canonical with
  | None => s
  | Some def =>
      let next := normalized_item def canonical item in
      match sn_Items s !! canonical with
      | Some existing =>
          if DeepEqual (it_Value existing) (it_Value next) then s
          else
            let w := conflict_warning canonical sourceKey in
            if sourceKey =s canonical
            then set_item canonical (with_warnings (it_Warnings existing ++ [w]) next) (warn_snapshot w s)
            else set_item canonical (add_warning w existing) (warn_snapshot w s)
      | None =>
          if sourceKey <>s canonical
          then let w := legacy_warning canonical sourceKey in set_item canonical (add_warning w next) (warn_snapshot w s)
          else set_item canonical next s
      end
  end.

Section Normalize.
Context `{MR : MapRange}.

(** One docker option becomes an item of its own, in a copy of the parent. *)
Definition docker_sub_item (legacy : string) (value : any) (parentEnabled : bool) (item : obj) : obj :=
  let sub := ensureTieredState (ensureTieredValue (reread_obj item) value) parentEnabled in
  obj_set "schema" (AMap (obj_set "key" (AStr legacy) (default [] (get_obj sub "schema")))) sub.

Definition normalizeDockerOptions (reg : Registry) (item : obj) (s : Snapshot) : Snapshot :=
  match (vt ← get_obj item "value"; get_obj vt "effective_value") with
  | None => s
  | Some values =>
      foldl (fun s kv =>
        let legacy := "launcher.docker_options." +s+ kv.1 in
        match CanonicalKey reg legacy with
        | None => s
        | Some canonical =>
            addNormalizedItem reg canonical legacy (docker_sub_item legacy kv.2 (tieredBool item "state" "enabled") item) s
        end) s (range (obj_map values))
  end.

(** An entry of the set: its key, else the key it is filed under. *)
Definition normalize_entry (reg : Registry) (s : Snapshot) (kv : string * any) : Snapshot :=
  match as_map kv.2 with
  | None => s
  | Some item =>
      let code := tieredString item "schema" "key" in
      let code := if code =s EmptyString then kv.1 else code in
      if code =s "launcher.docker_options" then normalizeDockerOptions reg item s
      else match CanonicalKey reg code with
           | Some canonical => addNormalizedItem reg canonical code item s
           | None =>
               if HasPrefix code "backend.arg."
               then warn_snapshot {| w_Code := WarningLegacyNormalized; w_SemanticKey := EmptyString; w_LegacyKey := code;
                                     w_Message := "legacy backend arg " +s+ Quote code +s+ " has no semantic mapping" |} s
               else s
           end
  end.

Definition empty_snapshot (set : obj) : Snapshot :=
  {| sn_SchemaVersion := intFromAny (get_any set "schema_version") 1; sn_Context := stringMap (get_any set "context");
     sn_Items := ∅; sn_Warnings := [] |}.

Definition NormalizeConfigSet (reg : Registry) (set : obj) : Snapshot :=
  foldl (normalize_entry reg) (empty_snapshot set) (range (obj_map (default [] (get_obj set "items")))).
End Normalize.

(** ** Validation *)

Definition legacy_patch_key (reg : Registry) (key : string) : bool :=
  IsLegacyKey reg key || HasPrefix key "backend.arg." || HasPrefix key "backend.common." || HasPrefix key "launcher.listen_"
  || HasPrefix key "launcher.container_".

(** The first error, if any. *)
Fixpoint ValidatePatchKeys (reg : Registry) (keys : list string) : option string :=
  match keys with
  | [] => None
  | key :: keys =>
      if legacy_patch_key reg key
      then Some ("direct legacy key patch " +s+ Quote key +s+ " is not allowed; use canonical semantic key")
      else match reg_Get reg key with
           | None => Some ("unknown canonical key " +s+ Quote key)
           | Some _ => ValidatePatchKeys reg keys
           end
  end.

Definition validPort (value : any) : bool := (1 <=? intFromAny value 0)%Z && (intFromAny value 0 <=? 65535)%Z.

Definition type_error (def : ConfigDefinition) (value : any) : option string :=
  let expects what := Some ("field " +s+ def_Key def +s+ " expects " +s+ what) in
  if def_ValueType def =s TypeInteger then (if (intFromAny value (-1) <? 0)%Z then expects "integer" else None)
  else if def_ValueType def =s TypeNumber then
    match value with AInt _ | AInt64 _ | AFloat _ => None | _ => expects "number" end
  else if def_ValueType def =s TypeBoolean then match value with ABool _ => None | _ => expects "boolean" end
  else if def_ValueType def =s TypeString then match value with AStr _ => None | _ => expects "string" end
  else if def_ValueType def =s TypeArray then match value with AList _ | AStrs _ => None | _ => expects "array" end
  else if def_ValueType def =s TypeObject then match value with AMap _ => None | _ => expects "object" end
  else None.

Definition validateValueType (def : ConfigDefinition) (value : any) : option string :=
  match type_error def value with
  | Some e => Some e
  | None =>
      if ((def_Key def =s "service.container_port") || (def_Key def =s "deployment.host_port")) && negb (validPort value)
      then Some ("field " +s+ def_Key def +s+ " expects port 1-65535") else None
  end.

Record PatchField := { pf_Key : string; pf_Value : any; pf_Enabled : option bool }.

Definition zero_definition : ConfigDefinition := def_of "" "" "" "" "" [] "" [] [].

Fixpoint validate_values (reg : Registry) (fields : list PatchField) : option string :=
  match fields with
  | [] => None
  | f :: fields =>
      match validateValueType (default zero_definition (reg_Get reg (pf_Key f))) (pf_Value f) with
      | Some e => Some e
      | None => validate_values reg fields
      end
  end.

Definition ValidateSnapshotPatch (reg : Registry) (fields : list PatchField) : option string :=
  match ValidatePatchKeys reg (map pf_Key fields) with
  | Some e => Some e
  | None => validate_values reg fields
  end.

(** ** Patches and copies

    Copies of a snapshot share nothing with it; values are immutable here, so a copy
    is the snapshot itself.  [now] is the text of the current time. *)

Definition patched_item (reg : Registry) (now : string) (items : gmap string SnapshotItem) (f : PatchField) : SnapshotItem :=
  let found := match items !! pf_Key f with
               | Some it => if it_Key it =s EmptyString then None else Some it
               | None => None
               end in
  let item := default (itemFromDefinition (default zero_definition (reg_Get reg (pf_Key f))) (pf_Value f) (pf_Value f) true) found in
  {| it_Key := it_Key item; it_Owner := it_Owner item; it_Type := it_Type item; it_DisplayTier := it_DisplayTier item;
     it_Label := it_Label item; it_Value := pf_Value f; it_DefaultValue := it_DefaultValue item;
     it_Enabled := default (it_Enabled item) (pf_Enabled f);
     it_Source := [("reason", AStr "semantic_patch"); ("updated_at", AStr now)]; it_CopiedFrom := it_CopiedFrom item;
     it_SourceSnapshot := it_SourceSnapshot item; it_CopiedAt := it_CopiedAt item; it_Dirty := true;
     it_Warnings := it_Warnings item; it_Diagnostic := it_Diagnostic item |}.

Definition patch_step (reg : Registry) (now : string) (s : Snapshot) (f : PatchField) : Snapshot :=
  set_item (pf_Key f) (patched_item reg now (sn_Items s) f) s.

Definition ApplyPatch (reg : Registry) (now : string) (s : Snapshot) (fields : list PatchField) : string + Snapshot :=
  match ValidateSnapshotPatch reg fields with
  | Some e => inl e
  | None => inr (foldl (patch_step reg now) s fields)
  end.

Definition DerivedServiceJSON (s : Snapshot) : obj :=
  let put key name out := match sn_Items s !! key with Some it => obj_set name (it_Value it) out | None => out end in
  put "deployment.served_model_name" "served_model_name"
    (put "service.container_port" "container_port" (put "deployment.host_port" "host_port" [])).

Definition copied (from sourceID now : string) (it : SnapshotItem) : SnapshotItem :=
  {| it_Key := it_Key it; it_Owner := it_Owner it; it_Type := it_Type it; it_DisplayTier := it_DisplayTier it;
     it_Label := it_Label it; it_Value := it_Value it; it_DefaultValue := it_DefaultValue it; it_Enabled := it_Enabled it;
     it_Source := it_Source it; it_CopiedFrom := from; it_SourceSnapshot := sourceID; it_CopiedAt := now; it_Dirty := false;
     it_Warnings := it_Warnings it; it_Diagnostic := it_Diagnostic it |}.

Definition with_value (value : any) (it : SnapshotItem) : SnapshotItem :=
  {| it_Key := it_Key it; it_Owner := it_Owner it; it_Type := it_Type it; it_DisplayTier := it_DisplayTier it;
     it_Label := it_Label it; it_Value := value;
     it_DefaultValue := if is_nil (it_DefaultValue it) then value else it_DefaultValue it; it_Enabled := true;
     it_Source := it_Source it; it_CopiedFrom := it_CopiedFrom it; it_SourceSnapshot := it_SourceSnapshot it;
     it_CopiedAt := it_CopiedAt it; it_Dirty := it_Dirty it; it_Warnings := it_Warnings it; it_Diagnostic := it_Diagnostic it |}.

Section Copies.
Context `{MR : MapRange}.

Definition value_step (reg : Registry) (from sourceID now : string) (items : gmap string SnapshotItem) (kv : string * any) :
    gmap string SnapshotItem :=
  let found := match items !! kv.1 with
               | Some it => if it_Key it =s EmptyString then None else Some it
               | None => None
               end in
  let item := default (itemFromDefinition (default zero_definition (reg_Get reg kv.1)) kv.2 kv.2 true) found in
  <[kv.1 := copied from sourceID now (with_value kv.2 item)]> items.

Definition copySnapshot (reg : Registry) (now : string) (source : Snapshot) (sourceKind sourceID targetKind targetID : string)
    (values : gmap string any) : string + Snapshot :=
  let from := sourceKind +s+ ":" +s+ sourceID in
  match ValidatePatchKeys reg (range values).*1 with
  | Some e => inl e
  | None =>
      inr {| sn_SchemaVersion := sn_SchemaVersion source;
             sn_Context := <["object_id" := targetID]> (<["object_kind" := targetKind]> (sn_Context source));
             sn_Items := foldl (value_step reg from sourceID now) (copied from sourceID now <$> sn_Items source) (range values);
             sn_Warnings := sn_Warnings source |}
  end.

Record BuildInput := {
  bin_SourceKind : string; bin_SourceID : string; bin_TargetKind : string; bin_TargetID : string; bin_ConfigSet : obj;
  bin_Snapshot : Snapshot; bin_Values : gmap string any
}.

Definition baseSnapshot (reg : Registry) (inp : BuildInput) : Snapshot :=
  if (0 <? size (sn_Items (bin_Snapshot inp)))%nat then bin_Snapshot inp else NormalizeConfigSet reg (bin_ConfigSet inp).

(** [BuildBackendRuntimeSnapshot] and [BuildNodeBackendRuntimeSnapshot] have the same body. *)
Definition BuildBackendRuntimeSnapshot (reg : Registry) (now : string) (inp : BuildInput) : string + Snapshot :=
  copySnapshot reg now (baseSnapshot reg inp) (bin_SourceKind inp) (bin_SourceID inp) (bin_TargetKind inp) (bin_TargetID inp)
    (bin_Values inp).
Definition BuildNodeBackendRuntimeSnapshot := BuildBackendRuntimeSnapshot.

Record DeploymentBuildInput := {
  db_SourceKind : string; db_SourceID : string; db_TargetID : string; db_Snapshot : Snapshot; db_HostPort : Z;
  db_ContainerPort : Z; db_ServedModelName : string; db_ContextLength : Z; db_Values : gmap string any
}.

Definition deployment_values (inp : DeploymentBuildInput) : gmap string any :=
  let put (b : bool) k v (m : gmap string any) := if b then <[k := v]> m else m in
  let m := db_Values inp in
  let m := put (negb (db_HostPort inp =? 0)%Z) "deployment.host_port" (AInt (db_HostPort inp)) m in
  let m := put (negb (db_ContainerPort inp =? 0)%Z) "service.container_port" (AInt (db_ContainerPort inp)) m in
  let m := put (db_ServedModelName inp <>s EmptyString) "deployment.served_model_name" (AStr (db_ServedModelName inp)) m in
  if (db_ContextLength inp =? 0)%Z then m
  else
    let m := <["model_runtime.context_length" := AInt (db_ContextLength inp)]> m in
    match m !! "model_runtime.max_model_len" with
    | Some _ => m
    | None => <["model_runtime.max_model_len" := AInt (db_ContextLength inp)]> m
    end.

Definition BuildDeploymentSnapshot (reg : Registry) (now : string) (inp : DeploymentBuildInput) : string + Snapshot :=
  copySnapshot reg now (db_Snapshot inp) (db_SourceKind inp) (db_SourceID inp) "Deployment" (db_TargetID inp) (deployment_values inp).
End Copies.

(** ** Warnings *)

Definition item_value (s : Snapshot) (key : string) : any :=
  match sn_Items s !! key with Some it => it_Value it | None => ANil end.

Definition EvaluateWarnings (s : Snapshot) : gmap string (list Warning) :=
  let contextLen := intFromAny (item_value s "model_runtime.context_length") 0 in
  let maxLen := intFromAny (item_value s "model_runtime.max_model_len") 0 in
  let out : gmap string (list Warning) :=
    if (0 <? contextLen)%Z && (contextLen <? maxLen)%Z
    then {["model_runtime.max_model_len" :=
             [{| w_Code := "value_risk"; w_SemanticKey := "model_runtime.max_model_len"; w_LegacyKey := EmptyString;
                 w_Message := "max_model_len " +s+ Itoa maxLen +s+ " is above model context length " +s+ Itoa contextLen |}]]}
    else ∅ in
  match item_value s "docker.privileged" with
  | ABool true =>
      <["docker.privileged" := [{| w_Code := "security_risk"; w_SemanticKey := "docker.privileged"; w_LegacyKey := EmptyString;
                                   w_Message := "privileged container weakens isolation" |}]]> out
  | _ => out
  end.
