(* ===== verification/SemanticProps.v ===== *)
(** * Theorems on semantic configuration

    What a normalised snapshot holds for every order of the maps, what a patch
    accepts and does, and that every operation keeps snapshots well formed. *)
From S2P Require Import Prelude GoStrings GoNumbers GoValue GoJson SemanticRegistry SemanticConfig.

(** ** The values of a type

    What the value types of the registry stand for, stated on the values alone. *)

(** The whole number of a value: floats are cut. *)
Inductive whole_number : any -> Z -> Prop :=
| Whole_int n : whole_number (AInt n) n
| Whole_int64 n : whole_number (AInt64 n) n
| Whole_float f : whole_number (AFloat f) (f64_to_int f).

Inductive value_of_type : string -> any -> Prop :=
| Integer_value v n : whole_number v n -> (0 <= n)%Z -> value_of_type "integer" v
| Number_value v n : whole_number v n -> value_of_type "number" v
| Boolean_value b : value_of_type "boolean" (ABool b)
| String_value t : value_of_type "string" (AStr t)
| Array_values l : value_of_type "array" (AList l)
| Array_texts l : value_of_type "array" (AStrs l)
| Object_value m : value_of_type "object" (AMap m)
| Free_value ty v : ty ∉ ["integer"; "number"; "boolean"; "string"; "array"; "object"] -> value_of_type ty v.

Definition port_keys : list string := ["service.container_port"; "deployment.host_port"].

(** What a patch may write under a key of a value type. *)
Definition admitted (key ty : string) (v : any) : Prop :=
  value_of_type ty v /\ (key ∈ port_keys -> exists n, whole_number v n /\ (1 <= n <= 65535)%Z).

Lemma whole_number_int v d n : intFromAny v d = n -> n <> d -> whole_number v n.
Proof. destruct v; cbn; intros <- Hd; try done; constructor. Qed.

Lemma validated_admitted def v : validateValueType def v = None -> admitted (def_Key def) (def_ValueType def) v.
Proof.
  unfold validateValueType. destruct (type_error def v) eqn:Et; [done|]. destruct (_ && negb _) eqn:Ep; [done|]. intros _. split.
  - revert Et. unfold type_error. generalize (def_ValueType def). intros ty Et. unfold TypeInteger, TypeNumber, TypeBoolean, TypeString, TypeArray, TypeObject in Et.
    destruct (String.eqb_spec ty "integer") as [Ety|?]; [rewrite Ety; destruct (_ <? 0)%Z eqn:En; [done|]; apply Z.ltb_ge in En;
      apply (Integer_value v (intFromAny v (-1))); [apply (whole_number_int v (-1) _ eq_refl); lia|done]|].
    destruct (String.eqb_spec ty "number") as [Ety|?]; [rewrite Ety; destruct v; try done; eapply Number_value; constructor|].
    destruct (String.eqb_spec ty "boolean") as [Ety|?]; [rewrite Ety; destruct v; try done; constructor|].
    destruct (String.eqb_spec ty "string") as [Ety|?]; [rewrite Ety; destruct v; try done; constructor|].
    destruct (String.eqb_spec ty "array") as [Ety|?]; [rewrite Ety; destruct v; try done; constructor|].
    destruct (String.eqb_spec ty "object") as [Ety|?]; [rewrite Ety; destruct v; try done; constructor|].
    apply Free_value. rewrite !not_elem_of_cons. by repeat split; [..|apply not_elem_of_nil].
  - intros Hk. apply andb_false_iff in Ep as [Ep|Ep].
    + apply orb_false_iff in Ep as [E1%String.eqb_neq E2%String.eqb_neq]. unfold port_keys in Hk. set_solver.
    + apply negb_false_iff, andb_true_iff in Ep as [E1%Z.leb_le E2%Z.leb_le]. eexists. split; [apply (whole_number_int _ 0 _ eq_refl); lia|lia].
Qed.

(** ** Well-formed snapshots

    An item is filed under its key, which the registry defines, carries the definition's
    owner, type, tier and label, and, when a patch wrote it, has a value the definition
    admits. *)
Definition item_ok (reg : Registry) (k : string) (it : SnapshotItem) : Prop :=
  k <> "" /\ it_Key it = k /\
  (exists def, reg_Get reg k = Some def /\ it_Owner it = def_Owner def /\ it_Type it = def_ValueType def /\
    it_DisplayTier it = def_DisplayTier def /\ it_Label it = def_Label def) /\
  (it_Dirty it = true -> admitted k (it_Type it) (it_Value it)).

Definition items_ok (reg : Registry) (items : gmap string SnapshotItem) : Prop := map_Forall (item_ok reg) items.

(** The registry defines no empty key. *)
Definition named_registry (reg : Registry) : Prop := registry_ok reg /\ reg_Get reg "" = None.

Lemma DefaultRegistry_named : named_registry DefaultRegistry.
Proof. split; [apply DefaultRegistry_ok|]. vm_compute. reflexivity. Qed.

Section Props.
Variable reg : Registry.
Hypothesis Hreg : named_registry reg.

Lemma Get_nonempty k def : reg_Get reg k = Some def -> k <> "" /\ def_Key def = k.
Proof. intros H. split; [intros ->; by rewrite (proj2 Hreg) in H|]. by apply Hreg. Qed.

Lemma set_item_ok k it s : items_ok reg (sn_Items s) -> item_ok reg k it -> items_ok reg (sn_Items (set_item k it s)).
Proof. intros Hs Hi. by apply map_Forall_insert_2. Qed.

Lemma normalized_item_ok k def item : reg_Get reg k = Some def -> item_ok reg k (normalized_item def k item).
Proof. intros H. split; [by eapply Get_nonempty|]. split; [done|]. split; [by exists def|done]. Qed.

Lemma definition_item_ok k def v d b : reg_Get reg k = Some def -> item_ok reg k (itemFromDefinition def v d b).
Proof. intros H. destruct (Get_nonempty _ _ H) as [Hne Hk]. split; [done|]. split; [done|]. split; [by exists def|done]. Qed.

Lemma add_item_ok c src item s : items_ok reg (sn_Items s) -> items_ok reg (sn_Items (addNormalizedItem reg c src item s)).
Proof.
  intros Hs. unfold addNormalizedItem. destruct (reg_Get reg c) as [def|] eqn:Ed; [|done].
  pose proof (normalized_item_ok c def item Ed) as Hn. destruct (sn_Items s !! c) as [it|] eqn:Ei.
  - destruct (DeepEqual _ _); [done|]. destruct (src =s c); (apply set_item_ok; [exact Hs|]); [exact Hn|exact (Hs c it Ei)].
  - destruct (src <>s c); apply set_item_ok; [exact Hs|exact Hn|exact Hs|exact Hn].
Qed.

Context `{MR : MapRange}.

Lemma foldl_items_ok {A} (f : Snapshot -> A -> Snapshot) l s :
  (forall s x, items_ok reg (sn_Items s) -> items_ok reg (sn_Items (f s x))) ->
  items_ok reg (sn_Items s) -> items_ok reg (sn_Items (foldl f s l)).
Proof. intros Hf. revert s. induction l as [|x l IH]; intros s Hs; cbn; [done|]. by apply IH, Hf. Qed.

Lemma normalize_entry_ok s kv : items_ok reg (sn_Items s) -> items_ok reg (sn_Items (normalize_entry reg s kv)).
Proof.
  intros Hs. unfold normalize_entry. destruct (as_map kv.2) as [item|]; [|done]. destruct (_ =s "launcher.docker_options").
  - unfold normalizeDockerOptions. destruct (_ ≫= _) as [values|]; [|done]. apply foldl_items_ok; [|done].
    intros s' [k v] Hs'. destruct (CanonicalKey _ _); [by apply add_item_ok|done].
  - destruct (CanonicalKey _ _); [by apply add_item_ok|]. by destruct (HasPrefix _ _).
Qed.

Lemma NormalizeConfigSet_items_ok set : items_ok reg (sn_Items (NormalizeConfigSet reg set)).
Proof. apply foldl_items_ok; [apply normalize_entry_ok|]. apply map_Forall_empty. Qed.

(** ** Patches *)

Definition valid_field (f : PatchField) : Prop :=
  legacy_patch_key reg (pf_Key f) = false /\
  exists def, reg_Get reg (pf_Key f) = Some def /\ validateValueType def (pf_Value f) = None.

Lemma ValidateSnapshotPatch_none fields : ValidateSnapshotPatch reg fields = None <-> Forall valid_field fields.
Proof.
  unfold ValidateSnapshotPatch. split.
  - destruct (ValidatePatchKeys reg (map pf_Key fields)) eqn:Ek; [done|]. revert Ek.
    induction fields as [|f fields IH]; intros Ek Ev; [done|]. cbn in Ek, Ev.
    destruct (legacy_patch_key reg (pf_Key f)) eqn:El; [done|]. destruct (reg_Get reg (pf_Key f)) as [def|] eqn:Ed; [|done].
    cbn in Ev. destruct (validateValueType def (pf_Value f)) eqn:Et; [done|]. constructor; [|by apply IH].
    split; [done|]. by exists def.
  - induction 1 as [|f fields (El & def & Ed & Et) _ IH]; cbn; [done|]. rewrite El, Ed. cbn.
    destruct (ValidatePatchKeys reg (map pf_Key fields)); [done|]. by rewrite Et.
Qed.

Lemma ApplyPatch_inr now s fields s' :
  ApplyPatch reg now s fields = inr s' <-> Forall valid_field fields /\ s' = foldl (patch_step reg now) s fields.
Proof.
  unfold ApplyPatch. rewrite <- ValidateSnapshotPatch_none.
  destruct (ValidateSnapshotPatch reg fields); [by split; [|intros []]|]. split; [by intros [= <-]|by intros [_ ->]].
Qed.

Lemma patched_ok now items f : items_ok reg items -> valid_field f -> item_ok reg (pf_Key f) (patched_item reg now items f).
Proof.
  intros Hs (_ & def & Ed & Hv). unfold patched_item. rewrite Ed. cbn.
  set (found := match items !! pf_Key f with Some it => _ | None => None end).
  assert (item_ok reg (pf_Key f) (default (itemFromDefinition def (pf_Value f) (pf_Value f) true) found)) as H.
  { unfold found. destruct (items !! pf_Key f) as [it|] eqn:Ei; [|by apply definition_item_ok].
    destruct (it_Key it =s ""); [by apply definition_item_ok|]. by apply (Hs (pf_Key f)). }
  destruct H as (Hn & Hk & (def' & Ed' & Ho & Hty & Hrest) & _). split_and!; [exact Hn|exact Hk|by exists def'|]. intros _. cbn [it_Type it_Value].
  rewrite Ed' in Ed. injection Ed as ->. change (admitted (pf_Key f) (it_Type (default (itemFromDefinition def (pf_Value f) (pf_Value f) true) found)) (pf_Value f)).
  rewrite Hty. destruct (Get_nonempty _ _ Ed') as [_ <-]. by apply validated_admitted.
Qed.

Lemma foldl_patch_ok now fields s :
  Forall valid_field fields -> items_ok reg (sn_Items s) -> items_ok reg (sn_Items (foldl (patch_step reg now) s fields)).
Proof.
  intros Hf. revert s. induction Hf as [|f fields Hf _ IH]; intros s Hs; cbn; [done|]. by apply IH, set_item_ok, patched_ok.
Qed.

(** The last field for a key. *)
Definition last_field (k : string) (fields : list PatchField) : option PatchField :=
  last (List.filter (fun f => pf_Key f =s k) fields).

Lemma last_field_snoc k fields f : last_field k (fields ++ [f]) = if pf_Key f =s k then Some f else last_field k fields.
Proof.
  unfold last_field. rewrite List.filter_app. cbn. destruct (pf_Key f =s k); [by rewrite last_snoc|by rewrite app_nil_r].
Qed.

Lemma patch_step_items now s f :
  sn_Items (patch_step reg now s f) = <[pf_Key f := patched_item reg now (sn_Items s) f]> (sn_Items s).
Proof. reflexivity. Qed.

Lemma foldl_patch_lookup now fields s k :
  match last_field k fields with
  | None => sn_Items (foldl (patch_step reg now) s fields) !! k = sn_Items s !! k
  | Some f => exists it, sn_Items (foldl (patch_step reg now) s fields) !! k = Some it /\
                it_Value it = pf_Value f /\ it_Dirty it = true /\ (forall b, pf_Enabled f = Some b -> it_Enabled it = b)
  end.
Proof.
  induction fields as [|f fields IH] using rev_ind; [done|]. rewrite last_field_snoc, foldl_app. cbn [foldl].
  rewrite patch_step_items. destruct (pf_Key f =s k) eqn:E; bool_facts.
  - subst k. eexists. rewrite lookup_insert_eq. split; [done|]. split; [done|]. split; [done|].
    intros b Hb. unfold patched_item. cbn. by rewrite Hb.
  - by destruct (last_field k fields) as [g|]; rewrite lookup_insert_ne.
Qed.

(** ** Copies *)

Lemma copied_ok k it from id now : item_ok reg k it -> item_ok reg k (copied from id now it).
Proof. intros (H1 & H2 & H3 & _). by split_and!. Qed.

Lemma foldl_values_ok from id now l items :
  Forall (fun kv : string * any => is_Some (reg_Get reg kv.1)) l -> items_ok reg items ->
  items_ok reg (foldl (value_step reg from id now) items l).
Proof.
  intros Hl. revert items. induction Hl as [|[k v] l [def Ed] _ IH]; intros items Hs; cbn [foldl]; [done|].
  apply IH, map_Forall_insert_2; [|done]. cbn [fst snd].
  set (found := match items !! k with Some it => _ | None => None end).
  enough (item_ok reg k (default (itemFromDefinition (default zero_definition (reg_Get reg k)) v v true) found)) as (H1 & H2 & H3 & _)
    by exact (conj H1 (conj H2 (conj H3 (fun E => False_ind _ (Bool.diff_false_true E))))).
  unfold found. change (reg_Get reg k = Some def) in Ed. rewrite Ed. destruct (items !! k) as [it|] eqn:Ei; [|by apply definition_item_ok].
  destruct (it_Key it =s ""); [by apply definition_item_ok|by apply (Hs k)].
Qed.

Lemma ValidatePatchKeys_None keys : ValidatePatchKeys reg keys = None ->
  Forall (fun k => is_Some (reg_Get reg k)) keys.
Proof.
  induction keys as [|k keys IH]; cbn; [done|]. destruct (legacy_patch_key reg k); [done|].
  destruct (reg_Get reg k) eqn:E; [|done]. intros H. constructor; [by eexists|]. by apply IH.
Qed.

Lemma copySnapshot_ok now source sk sid tk tid values s :
  items_ok reg (sn_Items source) -> copySnapshot reg now source sk sid tk tid values = inr s -> items_ok reg (sn_Items s).
Proof.
  intros Hs. unfold copySnapshot. destruct (ValidatePatchKeys _ _) eqn:Ek; [done|]. intros [= <-]. cbn [sn_Items].
  apply foldl_values_ok; [exact (proj1 (Forall_fmap _ _ _) (ValidatePatchKeys_None _ Ek))|]. apply map_Forall_fmap.
  intros k it Hk. by apply copied_ok, (Hs k it).
Qed.

(** ** Snapshots the program can hold

    Snapshots come from normalising a configuration set, from a patch that was
    accepted and from building the next layer on a snapshot. *)
Inductive built : Snapshot -> Prop :=
| Built_normalized set : built (NormalizeConfigSet reg set)
| Built_patched now s fields s' : built s -> ApplyPatch reg now s fields = inr s' -> built s'
| Built_runtime now inp s : built (bin_Snapshot inp) -> BuildBackendRuntimeSnapshot reg now inp = inr s -> built s
| Built_runtime_set now inp s : sn_Items (bin_Snapshot inp) = ∅ -> BuildBackendRuntimeSnapshot reg now inp = inr s -> built s
| Built_deployment now inp s : built (db_Snapshot inp) -> BuildDeploymentSnapshot reg now inp = inr s -> built s.


(** ** What normalisation keeps

    An event is an entry, or a docker option of an entry, that stands for a
    canonical key: the key, the key it is written under, the item. *)
Definition event : Type := string * string * obj.
Definition ev_value (e : event) : any := tieredValue e.2 "effective_value".

Definition code_of (k : string) (item : obj) : string :=
  let code := tieredString item "schema" "key" in if code =s "" then k else code.

Definition docker_key (k : string) : string := "launcher.docker_options." +s+ k.

Definition docker_values (item : obj) : option obj := vt ← get_obj item "value"; get_obj vt "effective_value".

Definition set_entries (set : obj) : obj := default [] (get_obj set "items").

Inductive emits (set : obj) : event -> Prop :=
| Emits_entry k item c : obj_get (set_entries set) k = Some (AMap item) ->
    code_of k item <> "launcher.docker_options" -> CanonicalKey reg (code_of k item) = Some c ->
    emits set (c, code_of k item, item)
| Emits_docker k item values key v c : obj_get (set_entries set) k = Some (AMap item) ->
    code_of k item = "launcher.docker_options" -> docker_values item = Some values -> obj_get values key = Some v ->
    CanonicalKey reg (docker_key key) = Some c ->
    emits set (c, docker_key key, docker_sub_item (docker_key key) v (tieredBool item "state" "enabled") item).

Definition docker_event (item : obj) (kv : string * any) : list event :=
  match CanonicalKey reg (docker_key kv.1) with
  | Some c => [(c, docker_key kv.1, docker_sub_item (docker_key kv.1) kv.2 (tieredBool item "state" "enabled") item)]
  | None => []
  end.

Definition entry_events (kv : string * any) : list event :=
  match as_map kv.2 with
  | None => []
  | Some item =>
      if code_of kv.1 item =s "launcher.docker_options"
      then match docker_values item with
           | Some values => concat (map (docker_event item) (range (obj_map values)))
           | None => []
           end
      else match CanonicalKey reg (code_of kv.1 item) with Some c => [(c, code_of kv.1 item, item)] | None => [] end
  end.

Definition events (set : obj) : list event := concat (map entry_events (range (obj_map (set_entries set)))).

Lemma as_map_inv v item : as_map v = Some item -> v = AMap item.
Proof. destruct v; try done. by intros [= ->]. Qed.

Lemma entry_events_emits set k v e : obj_get (set_entries set) k = Some v -> e ∈ entry_events (k, v) -> emits set e.
Proof.
  intros Hk. unfold entry_events; cbn [fst snd]. destruct (as_map v) as [item|] eqn:Ei; [|by intros ?%not_elem_of_nil].
  apply as_map_inv in Ei as ->. destruct (code_of k item =s _) eqn:Ec; bool_facts.
  - destruct (docker_values item) as [values|] eqn:Ev; [|by intros ?%not_elem_of_nil].
    intros ([j w] & Hj%elem_of_range & He)%elem_of_concat_map. rewrite obj_map_lookup in Hj. revert He.
    unfold docker_event; cbn [fst snd]. destruct (CanonicalKey _ _) as [c|] eqn:Eq; [|by intros ?%not_elem_of_nil].
    intros ->%list_elem_of_singleton. by eapply Emits_docker.
  - destruct (CanonicalKey _ _) as [c|] eqn:Eq; [|by intros ?%not_elem_of_nil].
    intros ->%list_elem_of_singleton. by eapply Emits_entry.
Qed.

Lemma events_emits set e : e ∈ events set <-> emits set e.
Proof.
  unfold events. rewrite elem_of_concat_map. split.
  - intros ([k v] & Hk%elem_of_range & He). rewrite obj_map_lookup in Hk. by eapply entry_events_emits.
  - intros [k item c Hk Hc Hq|k item values key v c Hk Hc Hv Hkey Hq]; exists (k, AMap item);
      (split; [apply elem_of_range; by rewrite obj_map_lookup|]); unfold entry_events; cbn [fst snd as_map].
    + apply String.eqb_neq in Hc as ->. rewrite Hq. by apply list_elem_of_singleton.
    + rewrite Hc, String.eqb_refl, Hv. apply elem_of_concat_map. exists (key, v).
      split; [apply elem_of_range; by rewrite obj_map_lookup|]. unfold docker_event; cbn [fst snd]. rewrite Hq.
      by apply list_elem_of_singleton.
Qed.

Definition add_event (s : Snapshot) (e : event) : Snapshot := addNormalizedItem reg e.1.1 e.1.2 e.2 s.

(** Adding reads and writes the items only through one another. *)
Lemma add_event_items s s' e : sn_Items s = sn_Items s' -> sn_Items (add_event s e) = sn_Items (add_event s' e).
Proof.
  intros H. unfold add_event, addNormalizedItem. rewrite H. destruct (reg_Get reg _); [|done].
  destruct (sn_Items s' !! _); [destruct (DeepEqual _ _); [done|]|]; (case_match; cbn; by rewrite H).
Qed.

Lemma foldl_add_items l s s' :
  sn_Items s = sn_Items s' -> sn_Items (foldl add_event s l) = sn_Items (foldl add_event s' l).
Proof. revert s s'. induction l as [|e l IH]; intros s s' H; cbn; [done|]. by apply IH, add_event_items. Qed.

Lemma normalize_entry_events s kv : sn_Items (normalize_entry reg s kv) = sn_Items (foldl add_event s (entry_events kv)).
Proof.
  unfold normalize_entry, entry_events, code_of. destruct (as_map kv.2) as [item|]; [|done]. cbv zeta.
  destruct (_ =s "launcher.docker_options").
  - unfold normalizeDockerOptions, docker_values. destruct (_ ≫= _) as [values|]; [|done]. f_equal.
    generalize (range (obj_map values)). intros l. revert s. induction l as [|x l IH]; intros s; [done|].
    cbn [map concat foldl]. rewrite foldl_app, <- IH. f_equal. unfold docker_event, docker_key. by destruct (CanonicalKey _ _).
  - destruct (CanonicalKey _ _); [done|]. by destruct (HasPrefix _ _).
Qed.

Lemma NormalizeConfigSet_events set :
  sn_Items (NormalizeConfigSet reg set) = sn_Items (foldl add_event (empty_snapshot set) (events set)).
Proof.
  unfold NormalizeConfigSet, events, set_entries. generalize (range (obj_map (default [] (get_obj set "items")))). intros l.
  generalize (empty_snapshot set). induction l as [|x l IH]; intros s; [done|]. cbn [map concat foldl].
  rewrite foldl_app, IH. apply foldl_add_items, normalize_entry_events.
Qed.

(** The item agrees with an event: the event's value is its own or equal to it. *)
Definition agrees (it : SnapshotItem) (e : event) : Prop :=
  it_Value it = ev_value e \/ DeepEqual (it_Value it) (ev_value e) = true.

(** What holds of the item of [c] after the events of [P]. *)
Definition kept (P : event -> Prop) (c : string) (oi : option SnapshotItem) : Prop :=
  match oi with
  | None => forall e, P e -> e.1.1 <> c
  | Some it =>
      (exists def e, reg_Get reg c = Some def /\ P e /\ e.1.1 = c /\ it = with_warnings (it_Warnings it) (normalized_item def c e.2)) /\
      ((exists e, P e /\ e.1 = (c, c)) -> exists e, P e /\ e.1 = (c, c) /\ agrees it e) /\
      (it_Warnings it = [] -> forall e, P e -> e.1.1 = c -> agrees it e)
  end.

Definition after (P : event -> Prop) (e : event) : event -> Prop := fun e' => P e' \/ e' = e.

Lemma kept_other P c e oi : e.1.1 <> c -> kept P c oi -> kept (after P e) c oi.
Proof.
  intros Hne. destruct oi as [it|]; cbn.
  - intros ((def & e0 & Hd & H0 & Hc & Hit) & Hcan & Hw). split; [|split].
    + exists def, e0. split; [done|]. split; [by left|done].
    + intros (e' & [He'| ->] & Hee); [|by rewrite Hee in Hne]. destruct Hcan as (e2 & H2 & Hrest); [by exists e'|].
      exists e2. split; [by left|done].
    + intros Hn e' [He'| ->] Hee; [by apply Hw|done].
  - intros H e' [He'| ->]; [by apply H|done].
Qed.

Lemma kept_first P c e def ws :
  reg_Get reg c = Some def -> e.1.1 = c -> kept P c None -> kept (after P e) c (Some (with_warnings ws (normalized_item def c e.2))).
Proof.
  intros Hd Hc Hnone. split; [|split].
  - exists def, e. split; [done|]. split; [by right|done].
  - intros (e' & [He'| ->] & Hee).
    + exfalso. eapply Hnone; [exact He'|]. by rewrite Hee.
    + exists e. split; [by right|]. split; [done|by left].
  - intros _ e' [He'| ->] Hee; [by eapply Hnone in He'|by left].
Qed.

(** An agreeing event changes nothing. *)
Lemma kept_agreeing P c e it :
  e.1.1 = c -> agrees it e -> kept P c (Some it) -> kept (after P e) c (Some it).
Proof.
  intros Hc Ha ((def & e0 & Hd & H0 & Hc0 & Hit) & Hcan & Hw). split; [|split].
  - exists def, e0. split; [done|]. split; [by left|done].
  - intros (e' & [He'| ->] & Hee).
    + destruct Hcan as (e2 & H2 & Hrest); [by exists e'|]. exists e2. split; [by left|done].
    + exists e. split; [by right|done].
  - intros Hn e' [He'| ->] Hee; [by apply Hw|done].
Qed.

(** A conflicting legacy event leaves a warning. *)
Lemma kept_warned P c e w it :
  e.1.1 = c -> e.1 <> (c, c) -> kept P c (Some it) -> kept (after P e) c (Some (add_warning w it)).
Proof.
  intros Hc Hl ((def & e0 & Hd & H0 & Hc0 & Hit) & Hcan & Hw). split; [|split].
  - exists def, e0. split; [done|]. split; [by left|]. split; [done|]. rewrite Hit. done.
  - intros (e' & [He'| ->] & Hee); [|done].
    destruct Hcan as (e2 & H2 & Hrest); [by exists e'|]. exists e2. split; [by left|done].
  - cbn. intros Hn. by destruct (it_Warnings it).
Qed.

(** A conflicting canonical event takes the place of the item. *)
Lemma kept_replaced P c e def w ws :
  reg_Get reg c = Some def -> e.1 = (c, c) ->
  kept (after P e) c (Some (with_warnings (ws ++ [w]) (normalized_item def c e.2))).
Proof.
  intros Hd He. split; [|split].
  - exists def, e. split; [done|]. split; [by right|]. by rewrite He.
  - intros _. exists e. split; [by right|]. split; [done|by left].
  - cbn. intros Hn. by destruct ws.
Qed.

Lemma event_key (e : event) c : e.1.1 = c -> e.1.2 = c -> e.1 = (c, c).
Proof. destruct e as [[a b] i]; cbn. by intros -> ->. Qed.

Lemma kept_step P c e s : is_Some (reg_Get reg e.1.1) -> kept P c (sn_Items s !! c) -> kept (after P e) c (sn_Items (add_event s e) !! c).
Proof.
  intros [def Hd] Hk. unfold add_event, addNormalizedItem. rewrite Hd. cbv zeta.
  destruct (decide (e.1.1 = c)) as [Hc|Hne].
  - subst c. destruct (sn_Items s !! e.1.1) as [it|] eqn:Ei; [destruct (DeepEqual _ _) eqn:Eq|].
    + rewrite Ei. apply kept_agreeing; [done|by right|done].
    + destruct (e.1.2 =s e.1.1) eqn:Es; bool_facts; cbn; rewrite lookup_insert_eq.
      * by apply kept_replaced, event_key.
      * apply kept_warned; [done| |done]. intros H. by rewrite H in Es.
    + destruct (e.1.2 <>s e.1.1); cbn; rewrite lookup_insert_eq.
      * by apply (kept_first P e.1.1 e def [legacy_warning e.1.1 e.1.2]).
      * by apply (kept_first P e.1.1 e def []).
  - apply kept_other; [done|]. destruct (sn_Items s !! e.1.1) as [it|]; [destruct (DeepEqual _ _)|];
      [done|destruct (e.1.2 =s e.1.1)|destruct (e.1.2 <>s e.1.1)]; cbn; by rewrite ?lookup_insert_ne.
Qed.

Lemma kept_ext P Q c oi : (forall e, P e <-> Q e) -> kept P c oi -> kept Q c oi.
Proof.
  intros H. unfold kept. destruct oi; by setoid_rewrite H.
Qed.

Lemma kept_all l P c s : Forall (fun e : event => is_Some (reg_Get reg e.1.1)) l -> kept P c (sn_Items s !! c) ->
  kept (fun e => P e \/ e ∈ l) c (sn_Items (foldl add_event s l) !! c).
Proof.
  intros Hl. revert P s. induction Hl as [|e l He _ IH]; intros P s Hk; cbn [foldl].
  - eapply kept_ext; [|exact Hk]. intros e. split; [by left|]. by intros [|?%not_elem_of_nil].
  - eapply kept_ext; [|apply IH, kept_step; [exact He|exact Hk]]. intros e'. unfold after. rewrite elem_of_cons. tauto.
Qed.

(** C19. Normalising a configuration set gives, for every order in which Go ranges over
    its maps, an item for a canonical key exactly when an entry or a docker option
    stands for it; the item is that of one of them; when an entry is written under
    the canonical key itself, the value is such an entry's value whatever the
    legacy entries say; and an item without warnings agrees with every entry that
    stands for its key. *)
Theorem normalized_items set c :
  match sn_Items (NormalizeConfigSet reg set) !! c with
  | None => forall src item, ~ emits set (c, src, item)
  | Some it =>
      (exists def src item, reg_Get reg c = Some def /\ emits set (c, src, item) /\
         it = with_warnings (it_Warnings it) (normalized_item def c item)) /\
      ((exists item, emits set (c, c, item)) -> exists item, emits set (c, c, item) /\ agrees it (c, c, item)) /\
      (it_Warnings it = [] -> forall src item, emits set (c, src, item) -> agrees it (c, src, item))
  end.
Proof.
  assert (kept (emits set) c (sn_Items (NormalizeConfigSet reg set) !! c)) as Hk.
  { rewrite NormalizeConfigSet_events. apply (kept_ext (fun e => False \/ e ∈ events set)); [|apply (kept_all _ (fun _ => False))].
    - intros e. rewrite events_emits. tauto.
    - apply Forall_forall. intros e [? ? ? ? ? H|? ? ? ? ? ? ? ? ? ? H]%events_emits; by eapply CanonicalKey_Get; [apply Hreg|].
    - cbn [empty_snapshot sn_Items]. rewrite lookup_empty. by intros e []. }
  destruct (sn_Items _ !! c) as [it|]; [|by intros src item ?%Hk].
  destruct Hk as ((def & [[c' src] item] & Hd & He & Hc & Hit) & Hcan & Hw). cbn in Hc. subst c'. split; [|split].
  - by exists def, src, item.
  - intros (item' & He'). destruct Hcan as ([[c1 s1] i1] & H1 & [= -> ->] & Ha); [by exists (c, c, item')|]. by exists i1.
  - intros Hn src' item' He'. by apply Hw.
Qed.

(** A patch is accepted exactly when every field names a canonical key of the
    registry, by a name that is not a legacy one, with a value of the definition's
    type and a port between 1 and 65535; then the last field for a key gives the
    item's value and marks it changed, and the other items are untouched. *)
Theorem ApplyPatch_spec now s fields :
  match ApplyPatch reg now s fields with
  | inl _ => ~ Forall valid_field fields
  | inr s' =>
      Forall valid_field fields /\
      forall k, match last_field k fields with
                | None => sn_Items s' !! k = sn_Items s !! k
                | Some f => exists it, sn_Items s' !! k = Some it /\ it_Value it = pf_Value f /\ it_Dirty it = true /\
                              (forall b, pf_Enabled f = Some b -> it_Enabled it = b)
                end
  end.
Proof.
  destruct (ApplyPatch reg now s fields) as [e|s'] eqn:E.
  - intros H. assert (inl e = inr (foldl (patch_step reg now) s fields) :> string + Snapshot) as [=].
    rewrite <- E. by apply ApplyPatch_inr.
  - apply ApplyPatch_inr in E as [Hf ->]. split; [done|]. intros k. apply foldl_patch_lookup.
Qed.
End Props.

(** The ports of an accepted patch. *)
Lemma valid_field_port reg f : registry_ok reg -> valid_field reg f ->
  pf_Key f = "service.container_port" \/ pf_Key f = "deployment.host_port" ->
  (1 <= intFromAny (pf_Value f) 0 <= 65535)%Z.
Proof.
  intros Hok (_ & def & Hd & Hv) Hk. apply Hok in Hd. unfold validateValueType in Hv.
  destruct (type_error _ _); [done|]. rewrite Hd in Hv.
  replace ((pf_Key f =s _) || (pf_Key f =s _)) with true in Hv.
  - unfold validPort in Hv. cbn in Hv. destruct (_ && _) eqn:E in Hv; [|done]. bool_facts. lia.
  - destruct Hk as [-> | ->]; by rewrite String.eqb_refl, ?orb_true_r.
Qed.

(** ** At concrete inputs *)

Definition reverse_range : MapRange.
Proof. refine {| range := fun V m => rev (map_to_list m) |}. intros V m. symmetry. apply Permutation_rev. Defined.

Definition demo_entry (key : string) (v : any) : any :=
  AMap [("schema", AMap [("key", AStr key)]); ("state", AMap [("enabled", ABool true)]);
        ("value", AMap [("effective_value", v)])].

Definition demo_set (entries : list (string * any)) : obj := [("items", AMap (map (fun kv => (kv.1, demo_entry kv.1 kv.2)) entries))].

Definition demo_value (MR : MapRange) (set : obj) (k : string) : option (any * list string) :=
  (fun it => (it_Value it, map w_Code (it_Warnings it))) <$> sn_Items (NormalizeConfigSet (MR := MR) DefaultRegistry set) !! k.

(** Two legacy keys of one setting with different values: the order of the map
    decides which value the snapshot takes. *)
Definition conflicting_set : obj := demo_set [("backend.arg.max_model_len", AInt 4096); ("max_model_len", AInt 8192)].

Example conflicting_legacy_keys :
  demo_value canonical_range conflicting_set "model_runtime.max_model_len" <>
  demo_value reverse_range conflicting_set "model_runtime.max_model_len".
Proof. vm_compute. discriminate. Qed.

(** With the canonical key written too, its value is taken in either order. *)
Definition settled_set : obj :=
  demo_set [("backend.arg.max_model_len", AInt 4096); ("max_model_len", AInt 8192); ("model_runtime.max_model_len", AInt 2048)].

Example canonical_wins :
  (fst <$> demo_value canonical_range settled_set "model_runtime.max_model_len") = Some (AInt 2048) /\
  (fst <$> demo_value reverse_range settled_set "model_runtime.max_model_len") = Some (AInt 2048).
Proof. split; vm_compute; reflexivity. Qed.

(** A docker option of a set whose options have defaults: the default of the item is
    the object of all defaults, not the option's. *)
Definition docker_set : obj :=
  [("items", AMap [("launcher.docker_options",
     AMap [("value", AMap [("default_value", AMap [("privileged", ABool false)]);
                           ("effective_value", AMap [("privileged", ABool true)])])])])].

Example docker_option_default :
  it_DefaultValue <$> sn_Items (NormalizeConfigSet (MR := canonical_range) DefaultRegistry docker_set) !! "docker.privileged"
  = Some (AMap [("privileged", ABool false)]).
Proof. vm_compute. reflexivity. Qed.

Definition settled_item : obj := default [] (as_map (demo_entry "model_runtime.max_model_len" (AInt 2048))).

Lemma normalized_items_witness :
  named_registry DefaultRegistry /\ emits DefaultRegistry settled_set
    ("model_runtime.max_model_len", "model_runtime.max_model_len", settled_item) /\
  exists it, sn_Items (NormalizeConfigSet (MR := canonical_range) DefaultRegistry settled_set) !! "model_runtime.max_model_len" = Some it /\
    exists item, emits DefaultRegistry settled_set ("model_runtime.max_model_len", "model_runtime.max_model_len", item).
Proof.
  pose proof (normalized_items DefaultRegistry DefaultRegistry_named (MR := canonical_range) settled_set "model_runtime.max_model_len") as H.
  assert (emits DefaultRegistry settled_set ("model_runtime.max_model_len", "model_runtime.max_model_len", settled_item)) as He.
  { change (emits DefaultRegistry settled_set
              ("model_runtime.max_model_len", code_of "model_runtime.max_model_len" settled_item, settled_item)).
    apply Emits_entry; [reflexivity|discriminate|reflexivity]. }
  split; [apply DefaultRegistry_named|]. split; [exact He|].
  destruct (sn_Items _ !! _) as [it|]; [|by destruct (H _ _ He)]. exists it. split; [done|].
  destruct H as (_ & Hcan & _). destruct Hcan as (item & Hi & _); [by eexists|]. by exists item.
Defined.

(** A normalised set may hold a text where the registry has a number, and a patch with the
    same value is refused. *)
Example unvalidated_value :
  let s := NormalizeConfigSet (MR := canonical_range) DefaultRegistry (demo_set [("deployment.host_port", AStr "many")]) in
  ((fun it => (it_Type it, it_Value it, it_Dirty it)) <$> sn_Items s !! "deployment.host_port",
   ApplyPatch DefaultRegistry "now" s [{| pf_Key := "deployment.host_port"; pf_Value := AStr "many"; pf_Enabled := None |}],
   ApplyPatch DefaultRegistry "now" s [{| pf_Key := "deployment.host_port"; pf_Value := AInt 65536; pf_Enabled := None |}])
  = (Some ("integer", AStr "many", false), inl "field deployment.host_port expects integer", inl "field deployment.host_port expects port 1-65535").
Proof. vm_compute. reflexivity. Qed.

