(* ===== verification/SemanticView.v ===== *)
(** * Semantic snapshots as a form (internal/server/semanticconfig/projector.go)

    A snapshot's items are grouped by tier and sorted; the result does not depend on
    the order in which Go ranges over the items. *)
From S2P Require Import Prelude GoStrings GoValue GoJson SemanticRegistry SemanticConfig.
From stdpp Require Import sorting.

Record ProjectOptions := { po_ObjectKind : string; po_Layer : string }.

Record ProjectedField := {
  pj_Key : string; pj_SemanticKey : string; pj_Owner : string; pj_Tier : string; pj_Label : string; pj_Type : string;
  pj_Value : any; pj_DefaultValue : any; pj_Enabled : bool; pj_Required : bool; pj_Readonly : bool; pj_CopiedFrom : string;
  pj_SourceSnapshot : string; pj_Dirty : bool; pj_Warnings : list Warning; pj_Diagnostic : bool; pj_OriginalValue : any;
  pj_OriginalEnabled : bool
}.

Record ProjectedSection := { ps_Key : string; ps_Label : string; ps_Order : Z; ps_Fields : list ProjectedField }.

Record ProjectedView := { pw_ObjectKind : string; pw_Layer : string; pw_Sections : list ProjectedSection }.

Definition sectionKeyForTier (tier : string) : string :=
  if tier =s TierRequired then "required"
  else if (tier =s TierCommon) || (tier =s TierDeploymentCommonAdvanced) then "common"
  else if tier =s TierRecommended then "recommended"
  else if tier =s TierDiagnostic then "diagnostic" else "advanced".

Definition sectionLabel (key : string) : string :=
  if key =s "required" then "Required" else if key =s "common" then "Common"
  else if key =s "recommended" then "Recommended" else if key =s "diagnostic" then "Diagnostic" else "Advanced".

Definition sectionOrder (key : string) : Z :=
  if key =s "required" then 10 else if key =s "common" then 20 else if key =s "recommended" then 30
  else if key =s "advanced" then 40 else 90.

(** [firstOwner], [firstType], [firstTier] *)
Definition first_text (value fallback : string) : string := if value <>s "" then value else fallback.

Definition projected_field (def : ConfigDefinition) (warnings : gmap string (list Warning)) (key : string) (item : SnapshotItem) :
    ProjectedField :=
  let tier := first_text (it_DisplayTier item) (def_DisplayTier def) in
  {| pj_Key := key; pj_SemanticKey := key; pj_Owner := first_text (it_Owner item) (def_Owner def); pj_Tier := tier;
     pj_Label := first_text (it_Label item) (def_Label def); pj_Type := first_text (it_Type item) (def_ValueType def);
     pj_Value := it_Value item; pj_DefaultValue := it_DefaultValue item; pj_Enabled := it_Enabled item; pj_Required := false;
     pj_Readonly := false; pj_CopiedFrom := it_CopiedFrom item; pj_SourceSnapshot := it_SourceSnapshot item;
     pj_Dirty := it_Dirty item; pj_Warnings := it_Warnings item ++ default [] (warnings !! key);
     pj_Diagnostic := it_Diagnostic item || (tier =s TierDiagnostic); pj_OriginalValue := it_Value item;
     pj_OriginalEnabled := it_Enabled item |}.

Definition item_field (reg : Registry) (warnings : gmap string (list Warning)) (kv : string * SnapshotItem) : option ProjectedField :=
  def ← reg_Get reg kv.1; Some (projected_field def warnings kv.1 kv.2).

Definition add_field (sections : gmap string (list ProjectedField)) (f : ProjectedField) : gmap string (list ProjectedField) :=
  let key := sectionKeyForTier (pj_Tier f) in
  <[key := default [] (sections !! key) ++ [f]]> sections.

Definition field_le (a b : ProjectedField) : Prop := strings.String.le (pj_Key a) (pj_Key b).
Definition section_le (a b : ProjectedSection) : Prop := (ps_Order a <= ps_Order b)%Z.
#[export] Instance field_le_dec : RelDecision field_le.
Proof. intros a b. unfold field_le. apply _. Defined.
#[export] Instance section_le_dec : RelDecision section_le.
Proof. intros a b. unfold section_le. apply _. Defined.

Definition section_of (kf : string * list ProjectedField) : ProjectedSection :=
  {| ps_Key := kf.1; ps_Label := sectionLabel kf.1; ps_Order := sectionOrder kf.1; ps_Fields := merge_sort field_le kf.2 |}.

Section Project.
Context `{MR : MapRange}.

Definition snapshot_fields (reg : Registry) (s : Snapshot) : list ProjectedField :=
  omap (item_field reg (EvaluateWarnings s)) (range (sn_Items s)).

Definition ProjectSnapshot (reg : Registry) (s : Snapshot) (opts : ProjectOptions) : ProjectedView :=
  let sections := foldl add_field ∅ (snapshot_fields reg s) in
  {| pw_ObjectKind := po_ObjectKind opts; pw_Layer := po_Layer opts;
     pw_Sections := merge_sort section_le (map section_of (range sections)) |}.
End Project.

(** ** Sorting by a key *)

Section Sorted.
Context {A K : Type} (key : A -> K) (R : relation K) `{!AntiSymm (=) R}.

(** Two sorted arrangements of elements with distinct keys are the same. *)
Lemma sorted_by_key_unique (l1 l2 : list A) :
  StronglySorted (fun a b => R (key a) (key b)) l1 -> StronglySorted (fun a b => R (key a) (key b)) l2 ->
  l1 ≡ₚ l2 -> NoDup (key <$> l1) -> l1 = l2.
Proof.
  intros H1. revert l2. induction H1 as [|a l1 H1 IH Ha]; intros l2 H2 Hp Hn.
  - by apply Permutation_nil_l in Hp.
  - destruct H2 as [|b l2 H2 Hb]; [by apply symmetry, Permutation_nil_cons in Hp|]. apply NoDup_cons in Hn as [Hna Hn].
    assert (a = b) as <-; [|f_equal; apply IH; [done|by apply Permutation_cons_inv in Hp|done]].
    assert (a ∈ b :: l2) as [->|Hin]%elem_of_cons by (rewrite <- Hp; apply list_elem_of_here); [done|].
    assert (b ∈ a :: l1) as [->|Hin']%elem_of_cons by (rewrite Hp; apply list_elem_of_here); [done|].
    rewrite Forall_forall in Ha, Hb. specialize (Ha _ Hin'). specialize (Hb _ Hin). destruct Hna.
    rewrite (anti_symm R (key a) (key b)) by done. by apply list_elem_of_fmap_2.
Qed.
End Sorted.

#[local] Instance field_le_total : Total field_le.
Proof. intros a b. apply (total strings.String.le). Qed.
#[local] Instance field_le_trans : Transitive field_le.
Proof. intros a b c. unfold field_le. apply transitivity. Qed.
#[local] Instance section_le_total : Total section_le.
Proof. intros a b. unfold section_le. lia. Qed.
#[local] Instance section_le_trans : Transitive section_le.
Proof. intros a b c. unfold section_le. lia. Qed.

Lemma sort_fields_unique l1 l2 : l1 ≡ₚ l2 -> NoDup (pj_Key <$> l1) -> merge_sort field_le l1 = merge_sort field_le l2.
Proof.
  intros Hp Hn. apply (sorted_by_key_unique pj_Key strings.String.le); [apply StronglySorted_merge_sort; apply _..| |].
  - by rewrite !merge_sort_Permutation.
  - by rewrite merge_sort_Permutation.
Qed.

Lemma sort_sections_unique l1 l2 : l1 ≡ₚ l2 -> NoDup (ps_Order <$> l1) -> merge_sort section_le l1 = merge_sort section_le l2.
Proof.
  intros Hp Hn. apply (sorted_by_key_unique ps_Order Z.le); [apply StronglySorted_merge_sort; apply _..| |].
  - by rewrite !merge_sort_Permutation.
  - by rewrite merge_sort_Permutation.
Qed.

(** ** Sections *)

Definition in_section (k : string) (f : ProjectedField) : bool := sectionKeyForTier (pj_Tier f) =s k.

Definition non_empty {A} (l : list A) : option (list A) := match l with [] => None | _ => Some l end.

Lemma sections_lookup l k : foldl add_field ∅ l !! k = non_empty (List.filter (in_section k) l).
Proof.
  induction l as [|f l IH] using rev_ind; [done|]. rewrite foldl_app, List.filter_app. cbn [foldl List.filter].
  unfold add_field at 1, in_section at 2. destruct (sectionKeyForTier (pj_Tier f) =s k) eqn:E; bool_facts.
  - subst k. rewrite lookup_insert_eq, IH. by destruct (List.filter _ l).
  - by rewrite lookup_insert_ne, IH, app_nil_r.
Qed.

Definition section_names : list string := ["required"; "common"; "recommended"; "diagnostic"; "advanced"].

Lemma section_named tier : sectionKeyForTier tier ∈ section_names.
Proof. unfold sectionKeyForTier, section_names. repeat case_match; set_solver. Qed.

Lemma section_in_names l k fs : foldl add_field ∅ l !! k = Some fs -> k ∈ section_names.
Proof.
  rewrite sections_lookup. destruct (List.filter _ l) as [|f fs'] eqn:E; [done|]. intros _.
  assert (In f (List.filter (in_section k) l)) as [_ Hk]%filter_In by (rewrite E; by left).
  unfold in_section in Hk. bool_facts. subst k. apply section_named.
Qed.

Lemma section_order_inj k1 k2 : k1 ∈ section_names -> k2 ∈ section_names -> sectionOrder k1 = sectionOrder k2 -> k1 = k2.
Proof.
  intros H1 H2. unfold section_names in *. rewrite !elem_of_cons, elem_of_nil in H1, H2.
  destruct_or?; subst; by vm_compute.
Qed.

Lemma filter_sublist_keys (P : ProjectedField -> bool) l : NoDup (pj_Key <$> l) -> NoDup (pj_Key <$> List.filter P l).
Proof.
  induction l as [|f l IH]; cbn; [done|]. intros [Hf Hn]%NoDup_cons. destruct (P f); [|by apply IH].
  apply NoDup_cons. split; [|by apply IH]. intros (g & Hg & Hin)%list_elem_of_fmap. apply Hf.
  apply list_elem_of_fmap. exists g. split; [done|]. rewrite list_elem_of_In in Hin |- *. by apply filter_In in Hin as [? _].
Qed.

#[export] Instance filter_perm {A} (P : A -> bool) : Proper ((≡ₚ) ==> (≡ₚ)) (List.filter P).
Proof.
  induction 1 as [|x l1 l2 _ IH|x y l|l1 l2 l3 _ IH1 _ IH2]; cbn; [done|by destruct (P x); rewrite IH| |by rewrite IH1].
  destruct (P x), (P y); try done. apply Permutation_swap.
Qed.

(** The sections with their fields sorted do not depend on the order of the fields. *)
Lemma sections_perm l1 l2 : l1 ≡ₚ l2 -> NoDup (pj_Key <$> l1) ->
  merge_sort field_le <$> foldl add_field ∅ l1 = merge_sort field_le <$> foldl add_field ∅ l2.
Proof.
  intros Hp Hn. apply map_eq. intros k. rewrite !lookup_fmap, !sections_lookup.
  assert (List.filter (in_section k) l1 ≡ₚ List.filter (in_section k) l2) as Hf by (by rewrite Hp).
  assert (forall l : list ProjectedField, merge_sort field_le <$> non_empty l = if decide (l = []) then None else Some (merge_sort field_le l))
    as Hmap by (intros []; by case_decide).
  rewrite !Hmap. rewrite (sort_fields_unique _ _ Hf) by (by apply filter_sublist_keys).
  case_decide as E1; case_decide as E2; [done| | |done].
  - rewrite E1 in Hf. by apply Permutation_nil_l in Hf.
  - rewrite E2 in Hf. by apply Permutation_nil_r in Hf.
Qed.

Definition sorted_section (kf : string * list ProjectedField) : ProjectedSection :=
  {| ps_Key := kf.1; ps_Label := sectionLabel kf.1; ps_Order := sectionOrder kf.1; ps_Fields := kf.2 |}.

Lemma sections_of_map `{MR : MapRange} (m : gmap string (list ProjectedField)) :
  map section_of (range m) ≡ₚ map sorted_section (map_to_list (merge_sort field_le <$> m)).
Proof.
  rewrite (Permutation_map section_of (range_perm _ m)), map_to_list_fmap. unfold fmap.
  assert (list_fmap = @map) as -> by done. rewrite map_map. apply reflexive_eq, map_ext. by intros [k fs].
Qed.

Lemma sections_orders `{MR : MapRange} l : NoDup (ps_Order <$> map section_of (range (foldl add_field ∅ l))).
Proof.
  assert (ps_Order <$> map section_of (range (foldl add_field ∅ l)) = sectionOrder <$> (range (foldl add_field ∅ l)).*1) as ->.
  { rewrite <- list_fmap_compose. unfold fmap. assert (list_fmap = @map) as -> by done. by rewrite map_map. }
  apply NoDup_fmap_2_strong; [|apply range_NoDup].
  intros k1 k2 H1 H2. apply section_order_inj.
  - apply list_elem_of_fmap in H1 as ([k fs] & -> & H1%elem_of_range). by eapply section_in_names.
  - apply list_elem_of_fmap in H2 as ([k fs] & -> & H2%elem_of_range). by eapply section_in_names.
Qed.

Lemma item_field_key reg w kv f : item_field reg w kv = Some f -> pj_Key f = kv.1.
Proof. unfold item_field. destruct (reg_Get reg kv.1); [|done]. by intros [= <-]. Qed.

Lemma snapshot_fields_keys `{MR : MapRange} reg s : NoDup (pj_Key <$> snapshot_fields reg s).
Proof.
  unfold snapshot_fields. pose proof (range_NoDup (sn_Items s)) as Hn. induction (range (sn_Items s)) as [|kv l IH]; [constructor|].
  apply NoDup_cons in Hn as [Hk Hn]. cbn. destruct (item_field _ _ kv) as [f|] eqn:E; [|by apply IH].
  apply NoDup_cons. split; [|by apply IH]. intros (g & Hg & (kv' & Hin & Ef)%list_elem_of_omap)%list_elem_of_fmap. apply Hk.
  rewrite <- (item_field_key _ _ _ _ E), Hg, (item_field_key _ _ _ _ Ef). by apply list_elem_of_fmap_2.
Qed.

(** The form does not depend on the order in which Go ranges over the items or over
    the sections. *)
Theorem ProjectSnapshot_order_independent (MR1 MR2 : MapRange) reg s opts :
  ProjectSnapshot (MR := MR1) reg s opts = ProjectSnapshot (MR := MR2) reg s opts.
Proof.
  unfold ProjectSnapshot. f_equal. apply sort_sections_unique; [|apply sections_orders].
  rewrite !sections_of_map. apply Permutation_map. rewrite (sections_perm (snapshot_fields (MR := MR1) reg s) (snapshot_fields (MR := MR2) reg s)); [done| |apply snapshot_fields_keys].
  unfold snapshot_fields. by rewrite (range_perm (MapRange := MR1)), (range_perm (MapRange := MR2)).
Qed.
