(* ===== verification/EditForm.v ===== *)
(** * A configuration set as a form (internal/server/configedit/project.go)

    Every item of a set becomes a field of the editor, the container options one field
    each, and keys that stand for one setting a single field.  Fields are grouped into
    sections, sorted, and gathered into components with a preview of their effects.
    The order in which Go ranges over the items is a parameter, as is [marshal], the JSON of
    a set. *)
From S2P Require Import Prelude GoStrings GoNumbers GoValue GoJson GoJsonText GoWeb SemanticRegistry ConfigEdit GpuProtocol.
From Stdlib Require Import Ascii.

(** ** Records (types.go) *)

Record ObjectRef := { or_ObjectKind : string; or_ObjectID : string; or_SnapshotID : string }.
Record ChildInitContract := { ci_Strategy : string; ci_AllowedChildren : list string; ci_CopyScope : string }.

Record ProjectInput := {
  pi_ConfigSet : obj; pi_Layer : string; pi_ObjectKind : string; pi_ObjectID : string; pi_ObjectLabel : string; pi_Readonly : bool;
  pi_Mode : string; pi_ViewLevel : string; pi_TemplateID : string; pi_SnapshotID : string; pi_Parent : option ObjectRef;
  pi_ChildInit : option ChildInitContract
}.

Record EditEffectPreview := {
  ep_ComponentKey : string; ep_FieldKey : string; ep_Type : string; ep_Target : string; ep_Key : string; ep_Value : any; ep_Source : string;
  ep_PatchTarget : string; ep_DockerEffect : string
}.
Record EditOption := { eo_Label : string; eo_Value : any }.
Record ResetBehavior := { rb_AllowResetToParent : bool; rb_AllowResetToDefault : bool }.

Record EditField := {
  ef_Key : string; ef_InternalKey : string; ef_SemanticKey : string; ef_Owner : string; ef_Tier : string; ef_ParentKey : string; ef_Path : list string;
  ef_Label : string; ef_LabelI18nKey : string; ef_TitleI18nKey : string; ef_DescriptionI18nKey : string; ef_HelpI18nKey : string;
  ef_TooltipI18nKey : string; ef_Title : string; ef_Description : string; ef_Help : string; ef_CliFlag : string; ef_EnvKey : string;
  ef_TechnicalKey : string; ef_Section : string; ef_Group : string; ef_Order : Z; ef_Type : string; ef_Widget : string; ef_Value : any;
  ef_DefaultValue : any; ef_Enabled : bool; ef_HasEnable : bool; ef_Required : bool; ef_Readonly : bool; ef_Advanced : bool; ef_Visibility : string;
  ef_Options : list EditOption; ef_Constraints : obj; ef_ValidationRules : obj; ef_Placeholder : string; ef_Sensitive : bool; ef_Disabled : bool;
  ef_Source : obj; ef_ValueSource : string; ef_LastValueLayer : string; ef_InheritedValue : any; ef_CopyBehavior : string;
  ef_OverrideBehavior : string; ef_DisableBehavior : string; ef_PatchTarget : string; ef_CopiedFrom : string; ef_Dirty : bool;
  ef_Warnings : list any; ef_Diagnostic : bool; ef_Risk : string; ef_OriginalValue : any; ef_OriginalEnabled : bool; ef_ComponentKey : string;
  ef_View : string; ef_Reset : ResetBehavior; ef_Effects : list EditEffectPreview
}.

Record EditSection := {
  se_Key : string; se_Label : string; se_Order : Z; se_Advanced : bool; se_Collapsed : bool; se_Fields : list EditField
}.
Record EditComponent := {
  ec_Key : string; ec_Type : string; ec_Renderer : string; ec_Label : string; ec_Section : string; ec_View : string; ec_Order : Z;
  ec_Fields : list string; ec_Enabled : bool; ec_Readonly : bool; ec_Source : obj; ec_Reset : ResetBehavior; ec_Effects : list EditEffectPreview
}.
Record ConfigEditView := {
  cv_Layer : string; cv_ObjectID : string; cv_ObjectKind : string; cv_TemplateID : string; cv_SnapshotID : string; cv_Parent : option ObjectRef;
  cv_ChildInit : ChildInitContract; cv_ViewLevel : string; cv_Readonly : bool; cv_Sections : list EditSection; cv_Components : list EditComponent;
  cv_Fields : list EditField; cv_EffectsPreview : list EditEffectPreview; cv_RawConfigSet : obj; cv_Metadata : obj
}.

(** ** Sorting

    [sort.SliceStable]: an element goes before those that are not less than it. *)
Section StableSort.
Context {A : Type} (less : A -> A -> bool).

Fixpoint stable_insert (x : A) (l : list A) : list A :=
  match l with
  | [] => [x]
  | y :: l' => if less y x then y :: stable_insert x l' else x :: l
  end.
Definition stable_sort (l : list A) : list A := foldr stable_insert [] l.
End StableSort.

(** ** Levels of view *)

Definition normalizeViewLevel (view : string) : string :=
  let v := ToLower (TrimSpace view) in
  if (v =s "high-risk") || (v =s "high_risk") then "security"
  else if existsb (String.eqb v) ["normal"; "advanced"; "security"; "developer"] then v else "".

Definition viewLevelFromMode (mode : string) : string :=
  let m := ToLower (TrimSpace mode) in
  if m =s "advanced" then "advanced"
  else if existsb (String.eqb m) ["security"; "high-risk"; "high_risk"] then "security"
  else if m =s "normal" then "normal" else "developer".

Definition shown_at (view visibility : string) (advanced diagnostic : bool) : bool :=
  if view =s "developer" then true
  else
    let seen := (visibility <>s "internal") && (visibility <>s "hidden") in
    if (view =s "advanced") || (view =s "security") then seen else negb advanced && negb diagnostic && seen.
Definition fieldVisibleAtView (f : EditField) (view : string) : bool := shown_at view (ef_Visibility f) (ef_Advanced f) (ef_Diagnostic f).

(** ** Components and effects *)

Definition at_or_under (candidate key : string) : bool := (candidate =s key) || HasPrefix candidate (key +s+ ".").

Definition componentKeyForRaw (key internalKey : string) : string :=
  let c := if internalKey =s "" then key else internalKey in
  if at_or_under c "runtime.device_binding" then "runtime.device_binding"
  else if at_or_under c "service.port_binding" then "service.port_binding"
  else if at_or_under c "runtime.model_mount" then "runtime.model_mount"
  else if at_or_under c "runtime.health" then "runtime.health_check"
  else if at_or_under c "runtime.env" then "runtime.env"
  else if at_or_under c "runtime.extra_env" then "runtime.extra_env"
  else if at_or_under c "backend.extra_args" then "backend.extra_args"
  else if at_or_under c "launcher.docker_options" then "launcher.docker_options"
  else if HasPrefix c "backend.arg." || HasPrefix c "model_runtime." then "backend.args"
  else if existsb (String.eqb c) ["service.container_port"; "service.listen_host"; "deployment.host_port"; "deployment.served_model_name"]
  then "service.port_binding" else c.

Definition componentKeyForField (f : EditField) : string :=
  if ef_ComponentKey f =s "" then componentKeyForRaw (ef_Key f) (ef_InternalKey f) else ef_ComponentKey f.

Definition component_types : list (string * string) :=
  [("runtime.device_binding", "accelerator_binding"); ("service.port_binding", "port_binding"); ("runtime.model_mount", "model_mount");
   ("runtime.health_check", "health_check"); ("runtime.env", "env"); ("runtime.extra_env", "env"); ("backend.args", "args");
   ("backend.extra_args", "args"); ("launcher.docker_options", "docker_options")].
Definition componentTypeForField (f : EditField) : string := default "field" (lookup_text component_types (componentKeyForField f)).

Definition component_renderers : list (string * string) :=
  [("accelerator_binding", "accelerator_binding"); ("port_binding", "port_binding"); ("model_mount", "mount_form"); ("health_check", "health_check_form");
   ("env", "key_value_table"); ("args", "args_editor"); ("docker_options", "docker_options")].
Definition componentRendererForField (f : EditField) : string := default (ef_Widget f) (lookup_text component_renderers (componentTypeForField f)).

Definition component_labels : list (string * string) :=
  [("runtime.device_binding", "Device binding"); ("service.port_binding", "Service port"); ("runtime.model_mount", "Model mount");
   ("runtime.health_check", "Health check"); ("runtime.env", "Runtime environment"); ("runtime.extra_env", "Extra environment");
   ("backend.args", "Backend arguments"); ("backend.extra_args", "Extra arguments"); ("launcher.docker_options", "Docker options")].
Definition componentLabelForField (f : EditField) : string := default (ef_Label f) (lookup_text component_labels (componentKeyForField f)).

Definition viewForField (advanced : bool) (visibility : string) : string :=
  if (visibility =s "internal") || (visibility =s "hidden") then "developer" else if advanced then "advanced" else "normal".

Definition docker_flags : list (string * string) :=
  [("shm_size", "--shm-size"); ("ipc_mode", "--ipc"); ("network_mode", "--network"); ("privileged", "--privileged"); ("devices", "--device");
   ("group_add", "--group-add"); ("cap_add", "--cap-add"); ("cap_drop", "--cap-drop")].
Definition sourceEffectForDockerField (key : string) : string := default "docker option" (snd <$> find (fun kf => Contains key kf.1) docker_flags).

(** The effects of a field: [source] is where its value comes from, [flag] its flag. *)
Definition effects_of (component key value_source target flag : string) (value : any) : list EditEffectPreview :=
  let effect source type place k docker :=
    {| ep_ComponentKey := component; ep_FieldKey := key; ep_Type := type; ep_Target := place; ep_Key := k; ep_Value := value; ep_Source := source;
       ep_PatchTarget := target; ep_DockerEffect := docker |} in
  let source := firstString [value_source; "configedit_snapshot"] in
  if component =s "runtime.device_binding" then [effect "" "docker" "docker.gpus" "" "--gpus"; effect "" "env" "env" "visible_devices" "-e"]
  else if component =s "service.port_binding" then [effect source "port" "ports" "" "-p / backend CLI port"]
  else if component =s "runtime.model_mount" then [effect source "mount" "mounts" "" "-v"]
  else if component =s "runtime.health_check" then [effect source "health_check" "health_check" "" ""]
  else if (component =s "runtime.env") || (component =s "runtime.extra_env") then [effect source "env" "env" "" "-e"]
  else if (component =s "backend.args") || (component =s "backend.extra_args") then [effect source "cli_arg" "args" flag flag]
  else if component =s "launcher.docker_options" then [effect source "docker" "docker_options" "" (sourceEffectForDockerField key)]
  else [].

(** ** Items *)

Definition normalizeTier (tier : string) : string :=
  let t := ToLower (TrimSpace tier) in
  if existsb (String.eqb t) ["common"; "required"; "recommended"; "deployment_common_advanced"] then "common"
  else if existsb (String.eqb t) ["expert"; "dangerous"; "diagnostic"] then "expert" else "advanced".

Definition displayTierFor (key : string) (item : obj) (registryTier : option string) : string :=
  let named := firstString (stringValue (get_any item "tier") :: in_parts item "tier" ["render"; "extensions"]) in
  if named <>s "" then normalizeTier named
  else if boolValue (get_any item "dangerous") || existsb (String.eqb key) expertRuntimeArgs then "expert"
  else if existsb (String.eqb key) commonRuntimeArgs || tieredBoolField item "schema" "visible_by_default" then "common"
  else match registryTier with Some t => normalizeTier t | None => "advanced" end.

Definition isLowLevelLauncherArray (code : string) : bool := existsb (String.eqb code) ["launcher.ports"; "launcher.volumes"; "launcher.devices"].

Definition valueOrDefault (item : obj) : any :=
  let v := itemEffectiveValue item in
  if negb (is_nil v) then v
  else match s ← get_obj item "schema"; obj_get s "default_value" with Some dv => dv | None => get_any item "default_value" end.

Definition widget_types : list (string * string) :=
  [("boolean", "boolean"); ("bool", "boolean"); ("integer", "number"); ("int", "number"); ("number", "number"); ("float", "number"); ("select", "select");
   ("enum", "select"); ("multi_select", "multi_select"); ("object", "raw_json"); ("array", "string_list"); ("list", "string_list")].

Definition widgetFor (item : obj) : string :=
  let w := nestedString item "render" "widget" in
  if w <>s "" then w
  else if nestedString item "render" "style" =s "raw_lines" then "textarea"
  else match lookup_text widgetOverrides (stringValue (get_any item "code")) with
       | Some w => w
       | None => default "string" (lookup_text widget_types (stringValue (get_any item "type")))
       end.

Definition list_of (v : any) : list any := match v with AList l => l | _ => [] end.

(** The first list that has an element. *)
Definition first_list (l : list (list any)) : list any := default [] (find (fun x => match x with [] => false | _ => true end) l).

Definition option_of (v : any) : option EditOption :=
  match v with
  | AMap opt => Some {| eo_Label := firstString [stringValue (get_any opt "label"); stringValue (get_any opt "value")]; eo_Value := get_any opt "value" |}
  | AStr s => Some {| eo_Label := s; eo_Value := v |}
  | _ => None
  end.

Definition optionsFor (item : obj) : list EditOption :=
  let schema := nestedMap item "schema" in
  omap option_of (first_list [list_of (get_any (nestedMap item "render") "options"); list_of (get_any (nestedMap item "constraints") "options");
                              list_of (get_any (nestedMap schema "constraints") "options"); list_of (get_any schema "choices")]).

Definition key_flags : list (string * string) :=
  [("service.container_port", "container_port"); ("service.listen_host", "--host"); ("deployment.host_port", "host_port");
   ("deployment.served_model_name", "--served-model-name"); ("model_runtime.max_model_len", "--max-model-len / --context-length / --ctx-size");
   ("model_runtime.gpu_memory_utilization", "--gpu-memory-utilization / --mem-fraction-static"); ("model_runtime.dtype", "--dtype");
   ("model_runtime.tensor_parallel_size", "--tensor-parallel-size"); ("model_runtime.pipeline_parallel_size", "--pipeline-parallel-size");
   ("model_runtime.max_num_batched_tokens", "--max-num-batched-tokens"); ("model_runtime.max_num_seqs", "--max-num-seqs");
   ("model_runtime.kv_cache_dtype", "--kv-cache-dtype"); ("model_runtime.cpu_offload_gb", "--cpu-offload-gb"); ("model_runtime.swap_space", "--swap-space");
   ("model_runtime.enforce_eager", "--enforce-eager"); ("model_runtime.trust_remote_code", "--trust-remote-code");
   ("model_runtime.safetensors_load_strategy", "--safetensors-load-strategy"); ("model_runtime.download_dir", "--download-dir");
   ("model_runtime.model", "--model"); ("model_runtime.host", "--host"); ("model_runtime.port", "--port");
   ("model_runtime.mem_fraction_static", "--mem-fraction-static"); ("model_runtime.context_length", "--context-length");
   ("model_runtime.gpu_layers", "-ngl"); ("model_runtime.ctx_size", "--ctx-size")].

Definition configEditCliFlag (key : string) (item : obj) : string :=
  let named := firstString (in_parts item "arg_name" ["schema"] ++ in_parts item "cli_flag" ["schema"] ++ in_parts item "arg_name" ["render"]
                            ++ in_parts item "cli_flag" ["render"] ++ in_parts item "flag" ["render"] ++ in_parts item "arg_name" ["extensions"]
                            ++ in_parts item "cli_flag" ["extensions"] ++ in_parts item "flag" ["extensions"]) in
  if named <>s "" then named else default "" (lookup_text key_flags key).

Definition configEditEnvKey (key : string) (item : obj) : string :=
  let named := firstString (in_parts item "env_key" ["schema"; "render"; "extensions"]) in
  if named <>s "" then named else if HasPrefix key "runtime.env." then TrimPrefix key "runtime.env." else "".

Definition diagnosticForField (key : string) (item : obj) (visibility : string) : bool :=
  (visibility =s "internal") || (visibility =s "hidden") || existsb (String.eqb (itemCategory item)) ["internal"; "debug"; "source"; "resolver"]
  || meta_code key || existsb (Contains key) [".debug"; "debug_"; "_debug"; ".profile"; "profile_"; "_profile"].

Definition riskForField (key : string) (item : obj) (section : string) : string :=
  let named := firstString (in_parts item "risk" ["schema"; "render"]) in
  if named <>s "" then named
  else if boolValue (get_any item "dangerous") || (section =s "security_high_risk") || isHighRiskDockerOptionCode key then "high" else "".

(** The definition the registry has for a key, under its own name or its canonical one. *)
Definition definition_for (key : string) : string * option ConfigDefinition :=
  match reg_Get DefaultRegistry key with
  | Some d => (key, Some d)
  | None => match CanonicalKey DefaultRegistry key with
            | Some canonical => (canonical, reg_Get DefaultRegistry canonical)
            | None => (key, None)
            end
  end.

Definition display_key (key : string) : string :=
  let '(semantic, def) := definition_for key in
  match def with Some _ => if semantic =s "" then key else semantic | None => key end.

Definition is_deprecated (item : obj) : bool := tieredBoolField item "state" "deprecated" || (itemVisibility item =s "deprecated").
Definition debug_like (key : string) (item : obj) : bool := (itemCategory item =s "debug") || Contains key "debug" || Contains key "profile".
Definition unseen (visibility : string) : bool := (visibility =s "internal") || (visibility =s "hidden").

(** An array of the launcher that is empty shows only as raw configuration. *)
Definition empty_array (key : string) (item : obj) : bool := isLowLevelLauncherArray key && isEmptyValue (valueOrDefault item).

Definition item_section (mode key displayKey tier : string) (item : obj) : string :=
  let odd := is_deprecated item || debug_like key item || unseen (itemVisibility item) in
  let section := sectionFor displayKey item in
  let section := if (mode <>s "advanced") && odd then "advanced_raw" else section in
  let section := if isModelServingCode key || HasPrefix displayKey "model_runtime."
                 then (if tier =s "common" then "model_serving" else if tier =s "expert" then "expert_parameters" else "advanced_parameters")
                 else section in
  let section := if capability_code key || meta_code key || odd
                 then (if existsb (String.eqb section) ["advanced_parameters"; "expert_parameters"; "security_high_risk"] then section else "advanced_raw")
                 else section in
  if empty_array key item then "advanced_raw" else section.

Definition item_visibility (key : string) (item : obj) : string := if empty_array key item then "internal" else itemVisibility item.

Definition item_readonly (input : ProjectInput) (key internalKey : string) (item : obj) : bool :=
  let visibility := item_visibility key item in
  pi_Readonly input || itemReadonly item || capability_code key || (visibility =s "readonly") || (visibility =s "internal")
  || isLayerReadonly key (pi_Layer input) || ((pi_Layer input =s "deployment") && existsb (String.eqb internalKey) deploymentProtectedFields)
  || match valueOrDefault item with AStr s => Contains s "{{" | _ => false end.

Definition item_advanced (key tier : string) (item : obj) : bool :=
  tieredBoolField item "schema" "advanced" || (tier =s "advanced") || (tier =s "expert") || capability_code key || meta_code key
  || unseen (itemVisibility item) || is_deprecated item || debug_like key item || empty_array key item.

Definition item_enabled (item : obj) : bool := itemRequired item || itemEnabled item.

Definition projectItem (key internalKey : string) (path : list string) (item : obj) (input : ProjectInput) : EditField :=
  let '(semanticKey, def) := definition_for key in
  let displayKey := display_key key in
  let required := itemRequired item in
  let enabled := item_enabled item in
  let tier := displayTierFor displayKey item (def_DisplayTier <$> def) in
  let section := item_section (pi_Mode input) key displayKey tier item in
  let visibility := item_visibility key item in
  let advanced := item_advanced key tier item in
  let readonly := item_readonly input key internalKey item in
  let value := valueOrDefault item in
  let flag := configEditCliFlag displayKey item in
  let target := firstString (in_parts item "patch_target" ["schema"] ++ [internalKey]) in
  let value_source := nestedString item "provenance" "value_source" in
  let component := componentKeyForRaw displayKey internalKey in
  let text k parts := firstString (in_parts item k parts) in
  let text_or k parts d := firstString (in_parts item k parts ++ [d]) in
  let all := ["schema"; "render"; "extensions"] in
  let label := fieldLabel displayKey item in
  {| ef_Key := displayKey; ef_InternalKey := internalKey; ef_SemanticKey := semanticKey; ef_Owner := (match def with Some d => def_Owner d | None => "" end);
     ef_Tier := tier; ef_ParentKey := (match path with [] => "" | _ => internalKey end); ef_Path := path;
     ef_Label := (match def with Some d => firstString [label; def_Label d] | None => label end);
     ef_LabelI18nKey := text_or "label_i18n_key" all ("configEdit.labels." +s+ displayKey); ef_TitleI18nKey := text "title_i18n_key" all;
     ef_DescriptionI18nKey := text_or "description_i18n_key" all ("configEdit.descriptions." +s+ displayKey);
     ef_HelpI18nKey := text_or "help_i18n_key" all ("configEdit.descriptions." +s+ displayKey); ef_TooltipI18nKey := text "tooltip_i18n_key" all;
     ef_Title := text "title" all; ef_Description := text "description" all;
     ef_Help := firstString (in_parts item "help_text" ["schema"] ++ in_parts item "help" all); ef_CliFlag := flag;
     ef_EnvKey := configEditEnvKey displayKey item; ef_TechnicalKey := firstString [displayKey; key; internalKey]; ef_Section := section;
     ef_Group := text "group" ["render"; "extensions"]; ef_Order := firstInt [tieredAnyField item "schema" "display_order"; get_any item "order"];
     ef_Type := firstString [tieredStringField item "schema" "type"; stringValue (get_any item "type"); "string"];
     ef_Widget := (if capability_code key && (section =s "advanced_raw") then "readonly_summary" else widgetFor item); ef_Value := value;
     ef_DefaultValue := itemDefaultValue item; ef_Enabled := enabled; ef_HasEnable := negb required && negb readonly; ef_Required := required;
     ef_Readonly := readonly; ef_Advanced := advanced || (section =s "advanced_raw"); ef_Visibility := visibility; ef_Options := optionsFor item;
     ef_Constraints := constraintsFor item; ef_ValidationRules := validationRulesFor item;
     ef_Placeholder := text "placeholder" ["schema"; "presentation"; "render"; "extensions"]; ef_Sensitive := tieredBoolField item "presentation" "sensitive";
     ef_Disabled := readonly; ef_Source := sourceFor item; ef_ValueSource := value_source;
     ef_LastValueLayer := nestedString item "provenance" "last_value_layer"; ef_InheritedValue := itemInheritedValue item;
     ef_CopyBehavior := text_or "copy_behavior" ["schema"; "render"] "copy_on_create";
     ef_OverrideBehavior := text_or "override_behavior" ["schema"; "render"] "patch_local_value";
     ef_DisableBehavior := text_or "disable_behavior" ["schema"; "render"] "retain_value_when_disabled"; ef_PatchTarget := target;
     ef_CopiedFrom := firstString (in_parts item "snapshot_from_id" ["snapshot"] ++ [stringValue (get_any item "copied_from"); stringValue (get_any item "copiedFrom")]);
     ef_Dirty := boolValue (get_any item "dirty"); ef_Warnings := list_of (get_any item "warnings");
     ef_Diagnostic := diagnosticForField displayKey item visibility; ef_Risk := riskForField displayKey item section; ef_OriginalValue := value;
     ef_OriginalEnabled := enabled; ef_ComponentKey := component; ef_View := viewForField advanced visibility;
     ef_Reset := {| rb_AllowResetToParent := true; rb_AllowResetToDefault := true |};
     ef_Effects := effects_of component displayKey value_source target flag value |}.

(** ** Container options *)

(** The sum of the characters of a path, modulo a hundred. *)
Definition rune_value (r : string) : Z :=
  match map (fun c => Z.of_nat (byte_nat c)) (String.list_ascii_of_string r) with
  | [a] => a
  | [a; b] => (a - 192) * 64 + (b - 128)
  | [a; b; c] => (a - 224) * 4096 + (b - 128) * 64 + (c - 128)
  | [a; b; c; d] => (a - 240) * 262144 + (b - 128) * 4096 + (c - 128) * 64 + (d - 128)
  | _ => 0
  end%Z.
Definition stablePathOrder (path : string) : Z := (foldl Z.add 0 (map rune_value (runes path)) mod 100)%Z.

Definition inferredConfigType (v : any) : string :=
  match v with
  | ABool _ => "boolean" | AInt _ | AInt64 _ => "integer" | AFloat _ => "number" | AList _ | AStrs _ => "array" | AMap _ => "object" | _ => "string"
  end.

Definition dockerSectionFor (path : string) : string :=
  if isHighRiskDockerOptionCode (docker_prefix +s+ path) then "security_high_risk"
  else if (path =s "devices") || (path =s "group_add") then "devices_mounts" else "container_resources".

Definition dockerWidgetFor (path : string) (v : any) : string :=
  if path =s "devices" then "device_table" else if path =s "ulimits" then "key_value_table" else if path =s "privileged" then "boolean"
  else match v with
       | AList _ | AStrs _ => "string_list" | AMap _ => "key_value_table" | ABool _ => "boolean" | AInt _ | AInt64 _ | AFloat _ => "number" | _ => "string"
       end.

Definition dockerOrderFor (path : string) : Z :=
  match find (fun sp => sp_Path sp =s path) dockerFieldSpecs with Some sp => sp_Order sp | None => (200 + stablePathOrder path)%Z end.

Definition high_risk_warning : any :=
  AMap [("level", AStr "warning"); ("message", AStr "High-risk Docker option. Review host isolation and device exposure before enabling.")].

(** A field with another place, look and guard. *)
Definition field_with (f : EditField) (section widget type label view : string) (order : Z) (advanced diagnostic readonly : bool) (warnings : list any) : EditField :=
  {| ef_Key := ef_Key f; ef_InternalKey := ef_InternalKey f; ef_SemanticKey := ef_SemanticKey f; ef_Owner := ef_Owner f; ef_Tier := ef_Tier f;
     ef_ParentKey := ef_ParentKey f; ef_Path := ef_Path f; ef_Label := label; ef_LabelI18nKey := ef_LabelI18nKey f; ef_TitleI18nKey := ef_TitleI18nKey f;
     ef_DescriptionI18nKey := ef_DescriptionI18nKey f; ef_HelpI18nKey := ef_HelpI18nKey f; ef_TooltipI18nKey := ef_TooltipI18nKey f; ef_Title := ef_Title f;
     ef_Description := ef_Description f; ef_Help := ef_Help f; ef_CliFlag := ef_CliFlag f; ef_EnvKey := ef_EnvKey f; ef_TechnicalKey := ef_TechnicalKey f;
     ef_Section := section; ef_Group := ef_Group f; ef_Order := order; ef_Type := type; ef_Widget := widget; ef_Value := ef_Value f;
     ef_DefaultValue := ef_DefaultValue f; ef_Enabled := ef_Enabled f; ef_HasEnable := ef_HasEnable f && negb readonly; ef_Required := ef_Required f;
     ef_Readonly := ef_Readonly f || readonly; ef_Advanced := advanced; ef_Visibility := ef_Visibility f; ef_Options := ef_Options f;
     ef_Constraints := ef_Constraints f; ef_ValidationRules := ef_ValidationRules f; ef_Placeholder := ef_Placeholder f; ef_Sensitive := ef_Sensitive f;
     ef_Disabled := ef_Disabled f || readonly; ef_Source := ef_Source f; ef_ValueSource := ef_ValueSource f; ef_LastValueLayer := ef_LastValueLayer f;
     ef_InheritedValue := ef_InheritedValue f; ef_CopyBehavior := ef_CopyBehavior f; ef_OverrideBehavior := ef_OverrideBehavior f;
     ef_DisableBehavior := ef_DisableBehavior f; ef_PatchTarget := ef_PatchTarget f; ef_CopiedFrom := ef_CopiedFrom f; ef_Dirty := ef_Dirty f;
     ef_Warnings := warnings; ef_Diagnostic := diagnostic; ef_Risk := ef_Risk f; ef_OriginalValue := ef_OriginalValue f;
     ef_OriginalEnabled := ef_OriginalEnabled f; ef_ComponentKey := ef_ComponentKey f; ef_View := view; ef_Reset := ef_Reset f; ef_Effects := ef_Effects f |}.

Definition applyDockerFieldPolicy (path : string) (v : any) (f : EditField) : EditField :=
  let label := fieldLabel (docker_prefix +s+ path) [] in
  let order := dockerOrderFor path in
  let type := inferredConfigType v in
  if Contains path "capabilities" || Contains path "supported_config"
  then field_with f "advanced_raw" "readonly_summary" type label "developer" order true true true (ef_Warnings f)
  else
    let section := dockerSectionFor path in
    let widget := dockerWidgetFor path v in
    if section =s "security_high_risk"
    then field_with f section widget type label "security" order true false false (match ef_Warnings f with [] => [high_risk_warning] | l => l end)
    else field_with f section widget type label (ef_View f) order (ef_Advanced f) (ef_Diagnostic f) false (ef_Warnings f).

(** The item of one option: its value in every tier, enabled on its own. *)
Definition docker_item (item : obj) (type : string) (v : any) (enabled : bool) : obj :=
  let out := obj_set "enabled" (ABool enabled) (obj_set "required" (ABool false)
    (obj_set "value" (AMap [("default_value", v); ("effective_value", v); ("local_value", v)]) (obj_set "type" (AStr type) (reread_obj item)))) in
  match get_obj out "state" with Some st => obj_set "state" (AMap (obj_set "enabled" (ABool enabled) st)) out | None => out end.

(** The options an item holds; none when its effective value is no object. *)
Definition docker_values (item : obj) : obj := match valueMap item with InEffective _ m => m | InFlat m => m | InNew | Nowhere => [] end.

Definition docker_field (item : obj) (input : ProjectInput) (type path : string) (enabled : bool) : EditField :=
  let v := get_any (docker_values item) path in
  applyDockerFieldPolicy path v (projectItem (docker_prefix +s+ path) "launcher.docker_options" [path] (docker_item item type v enabled) input).

Definition docker_enabled (item : obj) (path : string) : bool := boolValue (get_any (nestedMap item "enabled_fields") path).

Definition projectDockerOptions (item : obj) (input : ProjectInput) : list EditField :=
  let values := docker_values item in
  let extra := stable_sort String.ltb (List.filter (fun p => negb (existsb (fun sp => sp_Path sp =s p) dockerFieldSpecs) && (TrimSpace p <>s "")) (map fst values)) in
  map (fun sp => docker_field item input (sp_Type sp) (sp_Path sp) (docker_enabled item (sp_Path sp))) dockerFieldSpecs
  ++ map (fun p => let v := get_any values p in
                   docker_field item input (inferredConfigType v) p
                     (match obj_get (nestedMap item "enabled_fields") p with Some e => boolValue e | None => negb (isEmptyValue v) end)) extra.

(** ** Which items are shown *)

Definition hasConfigItem (items : obj) (code : string) : bool := match get_obj items code with Some _ => true | None => false end.

Definition shouldHideLowLevelLauncherArray (code : string) (item items : obj) (view : string) : bool :=
  if (view =s "developer") || negb (isLowLevelLauncherArray code) || negb (isEmptyValue (itemEffectiveValue item)) then false
  else if code =s "launcher.ports" then existsb (hasConfigItem items) ["service.container_port"; "service.listen_host"; "deployment.host_port"]
  else if code =s "launcher.volumes" then hasConfigItem items "runtime.model_mount"
  else hasConfigItem items "runtime.device_binding" || hasConfigItem items "launcher.docker_options".

Definition hideFromOrdinaryFlow (key : string) (item : obj) (layer : string) : bool :=
  if (layer <>s "node_backend_runtime") && (layer <>s "deployment") then false
  else
    let visibility := itemVisibility item in
    unseen visibility || (visibility =s "deprecated") || tieredBoolField item "state" "deprecated" || (itemCategory item =s "internal")
    || (itemCategory item =s "debug") || meta_code key.

(** [nestedMap(out, "render")[k] = v], lost when the field is something else than an object. *)
Definition put_render (k v : string) (out : obj) : obj :=
  match obj_get out "render" with
  | None | Some ANil => obj_set "render" (AMap [(k, AStr v)]) out
  | Some (AMap r) => obj_set "render" (AMap (obj_set k (AStr v) r)) out
  | Some _ => out
  end.

(** The value of a canonical key: that of the item at hand, or the first alias that has one;
    of an alias the whole tier is taken. *)
Definition canonical_value (canon : string) (item items : obj) : any :=
  let own := itemEffectiveValue item in
  if isEmptyValue own
  then match g ← group_of canon; find (fun v => negb (isEmptyValue v)) (omap (fun a => i ← get_obj items a; Some (get_any i "value")) (ag_Aliases g)) with
       | Some v => v
       | None => own
       end
  else own.

Definition mergeCanonicalItem (canon : string) (item items : obj) : obj :=
  let out := obj_set "value" (canonical_value canon item items) (obj_set "code" (AStr canon) (reread_obj item)) in
  match group_of canon with
  | Some g => put_render "widget" (ag_Widget g) (put_render "section" (ag_Section g) (put_render "label" (ag_Label g) out))
  | None => out
  end.

(** The fields of an item; [shown]: the canonical keys that have their field. *)
Definition item_fields (input : ProjectInput) (view : string) (items : obj) (shown : gset string) (code : string) (item : obj) : list EditField * gset string :=
  let keep := List.filter (fun f => fieldVisibleAtView f view) in
  if isLayerHidden code (pi_Layer input) then ([], shown)
  else match aliasCanonicalOf code with
       | Some canon =>
           if bool_decide (canon ∈ shown) then ([], shown)
           else (keep [projectItem canon canon [] (mergeCanonicalItem canon item items) input], {[canon]} ∪ shown)
       | None =>
           if code =s "launcher.docker_options"
           then (keep (List.filter (fun f => negb (isLayerHidden (ef_Key f) (pi_Layer input))) (projectDockerOptions item input)), shown)
           else (keep [projectItem code code [] item input], shown)
       end.

Definition skipped (input : ProjectInput) (view : string) (items : obj) (code : string) (item : obj) : bool :=
  shouldHideLowLevelLauncherArray code item items view || ((pi_Mode input <>s "advanced") && hideFromOrdinaryFlow code item (pi_Layer input)).

(** What the loop leaves in an item it did not skip: its code, and an empty value for
    container options without one. *)
Definition touched (input : ProjectInput) (code : string) (item : obj) : obj :=
  let item := obj_set "code" (AStr code) item in
  if (code =s "launcher.docker_options") && negb (isLayerHidden code (pi_Layer input))
  then match valueMap item with InNew => obj_set "value" (AMap [("effective_value", AMap [])]) item | _ => item end
  else item.

Record form_state := { fo_shown : gset string; fo_fields : list EditField; fo_items : obj }.

Definition form_step (input : ProjectInput) (view : string) (items : obj) (st : form_state) (kv : string * any) : form_state :=
  match as_map kv.2 with
  | None => st
  | Some item =>
      if skipped input view items kv.1 item then st
      else
        let item' := obj_set "code" (AStr kv.1) item in
        let '(fields, shown) := item_fields input view items (fo_shown st) kv.1 item' in
        {| fo_shown := shown; fo_fields := fo_fields st ++ fields; fo_items := obj_set kv.1 (AMap (touched input kv.1 item)) (fo_items st) |}
  end.

(** ** The view *)

Definition rank (section : string) : Z := sectionOrder section.

(** By section, order and a text. *)
Definition before (place : EditField -> string) (a b : EditField) : bool :=
  if (ef_Order a =? ef_Order b)%Z then String.ltb (place a) (place b) else (ef_Order a <? ef_Order b)%Z.

Definition quiet_sections : list string := ["advanced_raw"; "advanced_parameters"; "expert_parameters"].

Definition section_of (fields : list EditField) (kl : string * string) : EditSection :=
  let quiet := existsb (String.eqb kl.1) quiet_sections in
  {| se_Key := kl.1; se_Label := kl.2; se_Order := rank kl.1; se_Advanced := quiet; se_Collapsed := quiet || (kl.1 =s "environment");
     se_Fields := stable_sort (before ef_Label) (List.filter (fun f => ef_Section f =s kl.1) fields) |}.

Definition sections_of (fields : list EditField) : list EditSection :=
  stable_sort (fun a b => (se_Order a <? se_Order b)%Z)
    (List.filter (fun s => (match se_Fields s with [] => false | _ => true end) || (se_Key s =s "advanced_raw")) (map (section_of fields) sectionLabels)).

Definition flattenSectionFields (sections : list EditSection) : list EditField :=
  stable_sort (fun a b => if ef_Section a =s ef_Section b then before ef_Key a b else (rank (ef_Section a) <? rank (ef_Section b))%Z)
    (concat (map se_Fields sections)).

Definition new_component (f : EditField) : EditComponent :=
  {| ec_Key := componentKeyForField f; ec_Type := componentTypeForField f; ec_Renderer := componentRendererForField f;
     ec_Label := componentLabelForField f; ec_Section := ef_Section f; ec_View := ef_View f; ec_Order := ef_Order f; ec_Fields := [];
     ec_Enabled := ef_Enabled f; ec_Readonly := ef_Readonly f; ec_Source := ef_Source f; ec_Reset := ef_Reset f; ec_Effects := [] |}.

Definition with_field (f : EditField) (c : EditComponent) : EditComponent :=
  {| ec_Key := ec_Key c; ec_Type := ec_Type c; ec_Renderer := ec_Renderer c; ec_Label := ec_Label c; ec_Section := ec_Section c; ec_View := ec_View c;
     ec_Order := ec_Order c; ec_Fields := ec_Fields c ++ [ef_Key f]; ec_Enabled := ec_Enabled c || ef_Enabled f;
     ec_Readonly := ec_Readonly c && ef_Readonly f; ec_Source := ec_Source c; ec_Reset := ec_Reset c; ec_Effects := ec_Effects c ++ ef_Effects f |}.

(** The component of a field, made by the first one. *)
Fixpoint add_to_component (f : EditField) (l : list EditComponent) : list EditComponent :=
  match l with
  | [] => [with_field f (new_component f)]
  | c :: l => if ec_Key c =s componentKeyForField f then with_field f c :: l else c :: add_to_component f l
  end.

Definition buildComponents (fields : list EditField) : list EditComponent :=
  stable_sort (fun a b => if ec_Section a =s ec_Section b
                          then (if (ec_Order a =? ec_Order b)%Z then String.ltb (ec_Key a) (ec_Key b) else (ec_Order a <? ec_Order b)%Z)
                          else (rank (ec_Section a) <? rank (ec_Section b))%Z)
    (foldl (fun l f => add_to_component f l) [] fields).

Definition buildEffectsPreview (components : list EditComponent) : list EditEffectPreview := concat (map ec_Effects components).

Definition templateIDFor (set : obj) (objectKind : string) : string :=
  let ctx := nestedMap set "context" in
  let backend := TrimSpace (stringValue (get_any ctx "backend")) in
  let vendor := TrimSpace (stringValue (get_any ctx "vendor")) in
  let vendor := if vendor =s "" then TrimSpace (stringValue (get_any ctx "accelerator_vendor")) else vendor in
  if (backend <>s "") && (vendor <>s "") then backend +s+ "-" +s+ vendor +s+ "-docker-configedit-v1"
  else if backend <>s "" then backend +s+ "-docker-configedit-v1"
  else if objectKind <>s "" then objectKind +s+ "-configedit-v1" else "generic-configedit-v1".

Section Project.
Context `{MR : MapRange} (marshal : obj -> string).

Definition snapshotIDForConfigSet (set : obj) : string := "sha256:" +s+ str_take 16 (HexEncode (Sum256 (marshal set))).

Definition view_level (input : ProjectInput) : string :=
  let v := normalizeViewLevel (pi_ViewLevel input) in if v =s "" then viewLevelFromMode (pi_Mode input) else v.

Definition form_of (input : ProjectInput) : form_state :=
  let items := itemsMap (NormalizeConfigSet (pi_ConfigSet input)) in
  foldl (form_step input (view_level input) items) {| fo_shown := ∅; fo_fields := []; fo_items := items |} (range (obj_map items)).

(** [None]: a field names a section that does not exist, and the nil section is written to. *)
Definition ProjectConfigSetToEditView (input : ProjectInput) : option ConfigEditView :=
  let form := form_of input in
  if forallb (fun f => existsb (fun kl => kl.1 =s ef_Section f) sectionLabels) (fo_fields form) then
    let sections := sections_of (fo_fields form) in
    let fields := flattenSectionFields sections in
    let components := buildComponents fields in
    let set := obj_set "items" (AMap (fo_items form)) (NormalizeConfigSet (pi_ConfigSet input)) in
    Some {| cv_Layer := pi_Layer input; cv_ObjectID := pi_ObjectID input; cv_ObjectKind := pi_ObjectKind input;
            cv_TemplateID := firstString [pi_TemplateID input; templateIDFor set (pi_ObjectKind input)];
            cv_SnapshotID := firstString [pi_SnapshotID input; snapshotIDForConfigSet set]; cv_Parent := pi_Parent input;
            cv_ChildInit := default {| ci_Strategy := "copy_effective_snapshot"; ci_AllowedChildren := []; ci_CopyScope := "whole_effective_configedit_snapshot" |}
                              (pi_ChildInit input);
            cv_ViewLevel := view_level input; cv_Readonly := pi_Readonly input; cv_Sections := sections; cv_Components := components;
            cv_Fields := fields; cv_EffectsPreview := buildEffectsPreview components; cv_RawConfigSet := set;
            cv_Metadata := [("mode", AStr (pi_Mode input)); ("object_label", AStr (pi_ObjectLabel input))] |}
  else None.
End Project.
