(* ===== verification/EditFormProps.v ===== *)
(** * What the form shows and accepts

    Every field of a form belongs to its section and its component; a field that the form
    offers for editing is accepted when it is patched, and shows the value it was given.
    Concrete sets show where the form and the patch part. *)
From S2P Require Import Prelude GoStrings GoNumbers GoValue GoJson GoJsonText GoWeb SemanticRegistry ConfigSets ConfigSetProps ConfigEdit ConfigEditProps EditForm.
From Stdlib Require Import Ascii Sorted OrderedTypeEx.

(** ** Sorting and splitting *)

Section Sorting.
Context {A : Type} (less : A -> A -> bool).

Lemma stable_insert_perm x l : stable_insert less x l ≡ₚ x :: l.
Proof.
  induction l as [|y l IH]; cbn; [done|]. destruct (less y x); [|done]. rewrite IH. constructor.
Qed.

Lemma stable_sort_perm l : stable_sort less l ≡ₚ l.
Proof. induction l as [|x l IH]; cbn; [done|]. by rewrite stable_insert_perm, IH. Qed.

(** Nothing that comes later is less, for an order in which "not less" is transitive. *)
Context (le_trans : forall x y z, less y x = false -> less z y = false -> less z x = false) (asym : forall x y, less x y = true -> less y x = false).

Lemma stable_insert_sorted x l : StronglySorted (fun a b => less b a = false) l -> StronglySorted (fun a b => less b a = false) (stable_insert less x l).
Proof.
  induction 1 as [|y l Hs IH Hy]; cbn; [repeat constructor|]. destruct (less y x) eqn:E.
  - constructor; [done|]. rewrite stable_insert_perm. constructor; [by apply asym|done].
  - constructor; [by constructor|]. constructor; [done|]. eapply Forall_impl; [exact Hy|]. intros z Hz. by eapply le_trans.
Qed.

Lemma stable_sort_sorted l : StronglySorted (fun a b => less b a = false) (stable_sort less l).
Proof. induction l as [|x l IH]; cbn; [constructor|]. by apply stable_insert_sorted. Qed.
End Sorting.

(** The order of texts. *)
Lemma ltb_lt x y : String.ltb x y = true <-> String_as_OT.lt x y.
Proof. unfold String.ltb. rewrite <- String_as_OT.cmp_lt. unfold String_as_OT.cmp. by destruct (String.compare x y). Qed.

Lemma ltb_asym x y : String.ltb x y = true -> String.ltb y x = false.
Proof.
  rewrite ltb_lt, <- not_true_iff_false, ltb_lt. intros H1 H2. by apply (String_as_OT.lt_not_eq x x (String_as_OT.lt_trans _ _ _ H1 H2)).
Qed.

Lemma ltb_le_trans x y z : String.ltb y x = false -> String.ltb z y = false -> String.ltb z x = false.
Proof.
  rewrite <- !not_true_iff_false, !ltb_lt. intros Hyx Hzy Hzx. destruct (String_as_OT.compare y z) as [H|H|H].
  - apply Hyx. by eapply String_as_OT.lt_trans.
  - apply Hyx. by rewrite H.
  - by apply Hzy.
Qed.

Lemma before_asym place x y : before place x y = true -> before place y x = false.
Proof.
  unfold before. rewrite (Z.eqb_sym (ef_Order y)). destruct (Z.eqb_spec (ef_Order x) (ef_Order y)); [apply ltb_asym|]. rewrite Z.ltb_lt, Z.ltb_ge. lia.
Qed.

Lemma before_le_trans place x y z : before place y x = false -> before place z y = false -> before place z x = false.
Proof.
  unfold before. destruct (Z.eqb_spec (ef_Order y) (ef_Order x)), (Z.eqb_spec (ef_Order z) (ef_Order y)), (Z.eqb_spec (ef_Order z) (ef_Order x));
    rewrite ?Z.ltb_ge; try lia. apply ltb_le_trans.
Qed.

(** ** Sections *)

Lemma section_labels_NoDup : NoDup (map fst sectionLabels).
Proof. apply (bool_decide_unpack _). vm_compute. exact I. Qed.

Definition known_section (f : EditField) : bool := existsb (fun kl => kl.1 =s ef_Section f) sectionLabels.

Lemma known_sections f : known_section f = existsb (String.eqb (ef_Section f)) (map fst sectionLabels).
Proof. unfold known_section. induction sectionLabels as [|kl l IH]; [done|]. cbn. by rewrite String.eqb_sym, IH. Qed.

(** The sections hold the fields, each once. *)
Lemma form_sections_perm fields : forallb known_section fields = true -> concat (map se_Fields (sections_of fields)) ≡ₚ fields.
Proof.
  intros Hk. unfold sections_of. rewrite (concat_perm _ _ (Permutation_map se_Fields (stable_sort_perm _ _))).
  rewrite concat_nonempty by (intros s [H _]%orb_false_iff; by destruct (se_Fields s)). rewrite map_map.
  rewrite (concat_map_perm _ (fun kl => List.filter (fun f => ef_Section f =s kl.1) fields)) by (intros kl; apply stable_sort_perm).
  rewrite <- (map_map fst (fun k => List.filter (fun f => ef_Section f =s k) fields)), (split_by_key ef_Section) by apply section_labels_NoDup.
  rewrite filter_all; [done|]. revert Hk. rewrite !forallb_forall. intros Hk f Hf. rewrite <- known_sections. by apply Hk.
Qed.

(** What a section holds. *)
Lemma section_fields fields s : s ∈ sections_of fields -> exists kl, s = section_of fields kl /\ kl ∈ sectionLabels.
Proof.
  unfold sections_of. rewrite stable_sort_perm. intros [Hin _]%list_elem_of_In%filter_In. apply in_map_iff in Hin as (kl & <- & Hkl).
  exists kl. split; [done|by apply list_elem_of_In].
Qed.

Lemma section_of_fields fields kl : se_Fields (section_of fields kl) ≡ₚ List.filter (fun f => ef_Section f =s kl.1) fields.
Proof. apply stable_sort_perm. Qed.

(** ** Components *)

(** The fields of the component of a key. *)
Definition fields_of (key : string) (fields : list EditField) : list EditField := List.filter (fun f => componentKeyForField f =s key) fields.

(** A component is made of the fields [l]. *)
Record gathers (c : EditComponent) (l : list EditField) : Prop := {
  ga_fields : ec_Fields c = map ef_Key l;
  ga_enabled : ec_Enabled c = existsb ef_Enabled l;
  ga_readonly : ec_Readonly c = forallb ef_Readonly l;
  ga_effects : ec_Effects c = concat (map ef_Effects l)
}.

Record gathered (components : list EditComponent) (fields : list EditField) : Prop := {
  gd_keys : NoDup (map ec_Key components);
  gd_fields : forall c, c ∈ components -> gathers c (fields_of (ec_Key c) fields);
  gd_all : forall f, f ∈ fields -> componentKeyForField f ∈ map ec_Key components
}.

Lemma gathers_with c l f : gathers c l -> gathers (with_field f c) (l ++ [f]).
Proof.
  intros [Hf He Hr Hx]. split; cbn [with_field ec_Fields ec_Enabled ec_Readonly ec_Effects]; rewrite ?map_app, ?existsb_app, ?forallb_app, ?concat_app; cbn.
  - by rewrite Hf.
  - by rewrite He, orb_false_r.
  - by rewrite Hr, andb_true_r.
  - by rewrite Hx, app_nil_r.
Qed.

Lemma fields_of_snoc key fields f : fields_of key (fields ++ [f]) = fields_of key fields ++ (if componentKeyForField f =s key then [f] else []).
Proof. unfold fields_of. rewrite List.filter_app. cbn. by destruct (_ =s key). Qed.

Lemma fields_of_none key fields : (forall f, f ∈ fields -> componentKeyForField f <> key) -> fields_of key fields = [].
Proof.
  intros H. unfold fields_of. induction fields as [|f fields IH]; [done|]. cbn. rewrite (proj2 (String.eqb_neq _ _)) by (apply H; by left).
  apply IH. intros g Hg. apply H. by right.
Qed.

Lemma add_keys f l : map ec_Key (add_to_component f l) = if existsb (String.eqb (componentKeyForField f)) (map ec_Key l) then map ec_Key l else map ec_Key l ++ [componentKeyForField f].
Proof.
  induction l as [|c l IH]; [done|]. cbn [add_to_component map existsb]. rewrite (String.eqb_sym (componentKeyForField f)).
  destruct (ec_Key c =s componentKeyForField f); [done|]. cbn [map orb]. rewrite IH. by destruct (existsb _ _).
Qed.

Lemma add_elem f l c : NoDup (map ec_Key l) -> c ∈ add_to_component f l ->
  (c ∈ l /\ ec_Key c <> componentKeyForField f)
  \/ (exists c0, c = with_field f c0 /\ ec_Key c0 = componentKeyForField f /\ (c0 ∈ l \/ (c0 = new_component f /\ componentKeyForField f ∉ map ec_Key l))).
Proof.
  induction l as [|c0 l IH]; cbn [add_to_component map].
  - intros _ ->%list_elem_of_singleton. right. exists (new_component f). split_and!; [done|done|]. right. split; [done|apply not_elem_of_nil].
  - intros [Hn Hl]%NoDup_cons. destruct (String.eqb_spec (ec_Key c0) (componentKeyForField f)) as [E|E]; intros [->|Hc]%elem_of_cons.
    + right. exists c0. split_and!; [done|done|left; by left].
    + left. split; [by right|]. intros E'. apply Hn. rewrite E, <- E'. by apply (list_elem_of_fmap_2 ec_Key).
    + left. split; [by left|done].
    + destruct (IH Hl Hc) as [[? ?]|(c1 & ? & ? & [?|[? ?]])]; [left; split; [by right|done]|right; exists c1; split_and!; [done|done|left; by right]|].
      right. exists c1. split_and!; [done|done|]. right. split; [done|]. apply not_elem_of_cons. done.
Qed.

Lemma gathered_foldl fields : gathered (foldl (fun l f => add_to_component f l) [] fields) fields.
Proof.
  induction fields as [|f fields IH] using rev_ind.
  - split; [apply NoDup_nil_2|by intros c ?%elem_of_nil|by intros f ?%elem_of_nil].
  - rewrite foldl_app. cbn [foldl]. set (l := foldl _ [] fields) in *. destruct IH as [Hk Hf Ha]. split.
    + rewrite add_keys. destruct (existsb _ _) eqn:E; [done|]. apply NoDup_snoc; [done|]. intros Hin. apply not_true_iff_false in E.
      by apply E, existsb_eqb_In.
    + intros c Hc. rewrite fields_of_snoc. destruct (add_elem _ _ _ Hk Hc) as [[Hin Hne]|(c0 & -> & Hc0 & H0)].
      * rewrite (proj2 (String.eqb_neq _ _)), app_nil_r by congruence. by apply Hf.
      * cbn [with_field ec_Key]. rewrite Hc0, String.eqb_refl. destruct H0 as [H0|[-> H0]]; [rewrite <- Hc0; by apply gathers_with, Hf|].
        rewrite fields_of_none by (intros g Hg E; apply H0; rewrite <- E; by apply Ha). cbn [app].
        split; cbn; rewrite ?orb_diag, ?orb_false_r, ?andb_diag, ?andb_true_r, ?app_nil_r; done.
    + intros g. rewrite elem_of_app, list_elem_of_singleton, add_keys. intros [Hg| ->]; destruct (existsb _ _) eqn:E; rewrite ?elem_of_app.
      * by apply Ha.
      * left. by apply Ha.
      * by apply existsb_eqb_In.
      * right. by apply list_elem_of_singleton.
Qed.

Lemma gathered_perm l l' fields : l ≡ₚ l' -> gathered l fields -> gathered l' fields.
Proof.
  intros Hp [Hk Hf Ha]. split.
  - by rewrite <- (Permutation_map ec_Key Hp).
  - intros c Hc. apply Hf. by rewrite Hp.
  - intros f Hin. rewrite <- (Permutation_map ec_Key Hp). by apply Ha.
Qed.

Lemma components_gathered fields : gathered (buildComponents fields) fields.
Proof. eapply gathered_perm; [symmetry; apply stable_sort_perm|apply gathered_foldl]. Qed.

(** ** The view *)

Section View.
Context `{MR : MapRange} (marshal : obj -> string).

(** What a view is made of. *)
Lemma view_inv input view : ProjectConfigSetToEditView marshal input = Some view ->
  let fields := fo_fields (form_of input) in
  forallb known_section fields = true /\ cv_Sections view = sections_of fields /\ cv_Fields view = flattenSectionFields (cv_Sections view)
  /\ cv_Components view = buildComponents (cv_Fields view) /\ cv_ViewLevel view = view_level input.
Proof.
  unfold ProjectConfigSetToEditView. destruct (forallb _ _) eqn:E; [|done]. by intros [= <-].
Qed.

Lemma view_fields_perm input view : ProjectConfigSetToEditView marshal input = Some view ->
  cv_Fields view ≡ₚ concat (map se_Fields (cv_Sections view)) /\ cv_Fields view ≡ₚ fo_fields (form_of input).
Proof.
  intros (Hk & Hs & Hf & _)%view_inv. assert (cv_Fields view ≡ₚ concat (map se_Fields (cv_Sections view))) as H by (rewrite Hf; apply stable_sort_perm).
  split; [done|]. rewrite H, Hs. by apply form_sections_perm.
Qed.

(** ** Where a field comes from *)

Definition docker_code : string := "launcher.docker_options".
Definition coded (code : string) (item : obj) : obj := obj_set "code" (AStr code) item.

Variant origin (input : ProjectInput) (items : obj) (f : EditField) : Prop :=
| From_item code item : get_obj items code = Some item -> aliasCanonicalOf code = None -> isLayerHidden code (pi_Layer input) = false ->
    code <> docker_code -> f = projectItem code code [] (coded code item) input -> origin input items f
| From_alias canon code item : get_obj items code = Some item -> aliasCanonicalOf code = Some canon ->
    f = projectItem canon canon [] (mergeCanonicalItem canon (coded code item) items) input -> origin input items f
| From_docker type path enabled item : get_obj items docker_code = Some item -> isLayerHidden docker_code (pi_Layer input) = false ->
    isLayerHidden (ef_Key f) (pi_Layer input) = false ->
    f = docker_field (coded docker_code item) input type path enabled -> origin input items f.

Lemma item_fields_origin input view items shown code item f :
  get_obj items code = Some item -> f ∈ (item_fields input view items shown code (coded code item)).1 ->
  fieldVisibleAtView f view = true /\ origin input items f.
Proof.
  intros Hi. unfold item_fields. destruct (isLayerHidden code _) eqn:Eh; [by intros ?%elem_of_nil|].
  assert (forall l, f ∈ List.filter (fun f => fieldVisibleAtView f view) l -> f ∈ l /\ fieldVisibleAtView f view = true) as Hv
    by (intros l [? ?]%list_elem_of_In%filter_In; split; [by apply list_elem_of_In|done]).
  destruct (aliasCanonicalOf code) as [canon|] eqn:Ea.
  - case_bool_decide; [by intros ?%elem_of_nil|]. intros [->%list_elem_of_singleton Hs]%Hv. split; [done|]. by eapply From_alias.
  - destruct (String.eqb_spec code "launcher.docker_options") as [->|Hne].
    + intros [[Hf Hk%negb_true_iff]%list_elem_of_In%filter_In Hs]%Hv. split; [done|]. apply list_elem_of_In in Hf.
      unfold projectDockerOptions in Hf. apply elem_of_app in Hf as [Hf|Hf]; apply list_elem_of_In, in_map_iff in Hf as (x & <- & _); by eapply From_docker.
    + intros [->%list_elem_of_singleton Hs]%Hv. split; [done|]. by eapply From_item.
Qed.

Lemma form_fields input f : f ∈ fo_fields (form_of input) ->
  fieldVisibleAtView f (view_level input) = true /\ origin input (itemsMap (NormalizeConfigSet (pi_ConfigSet input))) f.
Proof.
  unfold form_of. set (items := itemsMap _). assert (forall kv, kv ∈ range (obj_map items) -> obj_get items kv.1 = Some kv.2) as Hr.
  { intros [k v] H%elem_of_range. by rewrite obj_map_lookup in H. }
  induction (range (obj_map items)) as [|kv l IH] using rev_ind; [by intros ?%elem_of_nil|]. rewrite foldl_app. cbn [foldl].
  set (st := foldl _ _ l) in *. intros Hf. assert (f ∈ fo_fields st -> fieldVisibleAtView f (view_level input) = true /\ origin input items f) as Hst.
  { apply IH. intros kv' H'. apply Hr, elem_of_app. by left. }
  unfold form_step in Hf. destruct (as_map kv.2) as [item|] eqn:E; [|by apply Hst]. destruct (skipped _ _ _ _ _); [by apply Hst|].
  destruct (item_fields _ _ _ _ _ _) as [fields shown] eqn:Ei. cbn [fo_fields] in Hf. apply elem_of_app in Hf as [Hf|Hf]; [by apply Hst|].
  apply (item_fields_origin input _ _ (fo_shown st) kv.1 item); [|unfold coded; by rewrite Ei]. unfold get_obj. rewrite (Hr kv) by (apply elem_of_app; right; by left). done.
Qed.

(** ** The shape of a view *)

(** A view is well formed: its sections come in order, each holds the fields that
    name it, sorted by their order and label; the list of fields is that of the sections;
    every field is visible at the level of the view; and the components, one per key,
    gather the fields of the view: their keys, whether one is enabled, whether all are
    read-only, and their effects. *)
Theorem view_well_formed input view : ProjectConfigSetToEditView marshal input = Some view ->
  StronglySorted (fun a b => (se_Order a <= se_Order b)%Z) (cv_Sections view)
  /\ Forall (fun s => Forall (fun f => ef_Section f = se_Key s) (se_Fields s) /\ StronglySorted (fun a b => before ef_Label b a = false) (se_Fields s)) (cv_Sections view)
  /\ cv_Fields view ≡ₚ concat (map se_Fields (cv_Sections view))
  /\ Forall (fun f => fieldVisibleAtView f (cv_ViewLevel view) = true) (cv_Fields view)
  /\ gathered (cv_Components view) (cv_Fields view).
Proof.
  intros H. pose proof (view_fields_perm _ _ H) as [Hp Hp']. apply view_inv in H as (_ & Hs & _ & -> & ->). split_and!; [..|by apply components_gathered].
  - rewrite Hs. unfold sections_of. set (l := List.filter _ _). pose proof (stable_sort_sorted (fun a b => (se_Order a <? se_Order b)%Z)) as Hsort.
    specialize (Hsort ltac:(intros x y z; rewrite !Z.ltb_ge; lia) ltac:(intros x y; rewrite Z.ltb_lt, Z.ltb_ge; lia) l).
    clear -Hsort. induction Hsort as [|s l' _ IH Hall]; constructor; [done|]. eapply Forall_impl; [exact Hall|]. intros s'. by rewrite Z.ltb_ge.
  - apply Forall_forall. intros s Hin. rewrite Hs in Hin. apply section_fields in Hin as (kl & -> & _). split.
    + rewrite section_of_fields. apply Forall_forall. by intros f [_ ?%String.eqb_eq]%list_elem_of_In%filter_In.
    + apply stable_sort_sorted; [apply before_le_trans|apply before_asym].
  - done.
  - apply Forall_forall. intros f. rewrite Hp'. by intros [? _]%form_fields.
Qed.

(** ** What the form offers *)

Lemma normalized_decoded set : decoded (AMap set) -> decoded (AMap (NormalizeConfigSet set)).
Proof. intros H. unfold NormalizeConfigSet. rewrite reread_obj_decoded by done. destruct (get_obj set "items"); [done|]. documents. Qed.

Lemma normalized_item set code item : decoded (AMap set) -> get_obj (itemsMap (NormalizeConfigSet set)) code = Some item -> decoded (AMap item).
Proof.
  intros H%normalized_decoded Hi. refine (doc_get_obj (P := decoded) _ _ _ _ Hi). unfold itemsMap. documents.
Qed.

(** The patch a field sends. *)
Definition patch_of (f : EditField) (v : any) (enabled : option bool) : EditFieldPatch :=
  {| fp_Key := ef_Key f; fp_InternalKey := ef_InternalKey f; fp_Path := ef_Path f; fp_Value := v; fp_Enabled := enabled |}.

(** A field offered for editing: the form shows it, and not as read-only. *)
Record offered (f : EditField) : Prop := { of_editable : ef_Readonly f = false; of_visible : ef_Visibility f <> "hidden" }.

(** Sets kept under current names, as far as the layer asks: outside node runtimes the
    registry knows every launch argument by its old name, at deployments the model mount
    has its own name, and a key that stands for another comes with the item of that one,
    which is marked like it. *)
Record current_set (layer : string) (items : obj) : Prop := {
  cs_args : forall code item, layer <> "node_backend_runtime" -> get_obj items code = Some item -> isDirectLegacyPatchKey code = true ->
    is_Some (CanonicalKey DefaultRegistry code);
  cs_mount : forall code item, layer = "deployment" -> get_obj items code = Some item -> CanonicalKey DefaultRegistry code = Some "runtime.model_mount" ->
    code = "runtime.model_mount";
  cs_alias : forall code canon item, get_obj items code = Some item -> aliasCanonicalOf code = Some canon ->
    exists item', get_obj items canon = Some item' /\ itemReadonly item' = itemReadonly item /\ itemVisibility item' = itemVisibility item
}.

Lemma no_key_hidden : forallb (fun d => negb (existsb (String.eqb (def_Key d)) ["launcher.image"; "backend.capabilities"; "backend.supported_config_items"; "launcher.docker_options"])
                                        && negb (HasPrefix (def_Key d) docker_prefix)) default_definitions = true.
Proof. vm_compute. reflexivity. Qed.

(** Keys of the registry are no legacy ones, and the layers take them, the model mount apart. *)
Lemma no_key_refused : forallb (fun d => negb (isDirectLegacyPatchKey (def_Key d))
  && ((def_Key d =s "runtime.model_mount") || negb (existsb (String.eqb (def_Key d)) ["launcher.command"; "launcher.entrypoint"; "runtime.model_mount"]))) default_definitions = true.
Proof. vm_compute. reflexivity. Qed.

Lemma registry_keys : forallb (fun kd => existsb (fun d => def_Key d =s kd.1) default_definitions) (map_to_list (reg_defs DefaultRegistry)) = true.
Proof. vm_compute. reflexivity. Qed.

Lemma no_empty_key : reg_Get DefaultRegistry "" = None.
Proof. vm_compute. reflexivity. Qed.

#[local] Opaque DefaultRegistry default_definitions.

Lemma registered key d : reg_Get DefaultRegistry key = Some d -> exists d', In d' default_definitions /\ def_Key d' = key.
Proof.
  intros H. pose proof registry_keys as Hk. rewrite forallb_forall in Hk. specialize (Hk (key, d)).
  assert (In (key, d) (map_to_list (reg_defs DefaultRegistry))) as Hin by exact (proj1 (list_elem_of_In _ _) (proj2 (elem_of_map_to_list _ _ _) H)).
  specialize (Hk Hin). apply existsb_exists in Hk as (d' & Hd' & E%String.eqb_eq). exact (ex_intro _ d' (conj Hd' E)).
Qed.

Lemma registered_shown key d layer : reg_Get DefaultRegistry key = Some d -> isLayerHidden key layer = false.
Proof.
  intros (d' & Hd' & <-)%registered. pose proof no_key_hidden as H. rewrite forallb_forall in H. specialize (H d' Hd').
  apply andb_true_iff in H as [H1%negb_true_iff H2%negb_true_iff]. unfold isLayerHidden. change "launcher.docker_options." with docker_prefix.
  rewrite H2, andb_false_r, orb_false_r. unfold layerHiddenCodes. cbn [existsb] in H1. repeat apply orb_false_iff in H1 as [? H1].
  repeat case_match; cbn [existsb]; by rewrite ?orb_false_iff.
Qed.

Lemma registered_current key d layer : reg_Get DefaultRegistry key = Some d ->
  isDirectLegacyPatchKey key = false /\ (key = "runtime.model_mount" /\ layer = "deployment" \/ isLayerReadonly key layer = false).
Proof.
  intros (d' & Hd' & <-)%registered. pose proof no_key_refused as H. rewrite forallb_forall in H. specialize (H d' Hd').
  apply andb_true_iff in H as [H1%negb_true_iff [H2%String.eqb_eq|H2%negb_true_iff]%orb_true_iff]; (split; [exact H1|]); unfold isLayerReadonly, layerReadonlyCodes;
    destruct (String.eqb_spec layer "deployment"); try (by right); by left.
Qed.

(** A key is shown under the key of the registry it stands for, or under its own name. *)
Lemma display_known key : is_Some (CanonicalKey DefaultRegistry key) ->
  CanonicalKey DefaultRegistry key = Some (display_key key) /\ exists d, reg_Get DefaultRegistry (display_key key) = Some d.
Proof.
  intros [c Hc]. pose proof Hc as [d Hd]%(CanonicalKey_Get _ _ _ DefaultRegistry_ok). rewrite Hc. unfold display_key, definition_for.
  destruct (reg_Get DefaultRegistry key) as [d'|] eqn:Eg.
  - assert (c = key) as -> by (unfold CanonicalKey in Hc; change (reg_Get DefaultRegistry key) with (reg_defs DefaultRegistry !! key) in Eg; rewrite Eg in Hc; congruence).
    destruct (key =s ""); (split; [done|by exists d]).
  - rewrite Hc, Hd. destruct (String.eqb_spec c "") as [->|]; [by rewrite no_empty_key in Hd|]. split; [done|by exists d].
Qed.

Lemma display_unknown key : CanonicalKey DefaultRegistry key = None -> display_key key = key.
Proof.
  intros Hc. unfold display_key, definition_for. rewrite Hc. unfold CanonicalKey in Hc. change (reg_Get DefaultRegistry key) with (reg_defs DefaultRegistry !! key).
  by destruct (reg_defs DefaultRegistry !! key).
Qed.

Lemma display_hidden key layer : isLayerHidden key layer = false -> isLayerHidden (display_key key) layer = false.
Proof.
  intros H. destruct (CanonicalKey DefaultRegistry key) eqn:E; [|by rewrite display_unknown].
  destruct (display_known key ltac:(by eexists)) as [_ [d Hd]]. by eapply registered_shown.
Qed.

(** The key a field of an item is shown under passes the checks of the layer. *)
Lemma display_taken layer items code item : current_set layer items -> get_obj items code = Some item -> isLayerReadonly code layer = false ->
  (layer = "node_backend_runtime" \/ isDirectLegacyPatchKey (display_key code) = false) /\ isLayerReadonly (display_key code) layer = false.
Proof.
  intros [Ha Hm _] Hi Hr. destruct (CanonicalKey DefaultRegistry code) as [c|] eqn:E.
  - destruct (display_known code ltac:(by eexists)) as [Hc [d Hd]]. destruct (registered_current _ _ layer Hd) as [Hl [[Ek ->]|Hro]]; (split; [by right|]); [|done].
    rewrite Ek in Hc |- *. by rewrite <- (Hm code item eq_refl Hi Hc).
  - rewrite display_unknown by done. split; [|done]. destruct (decide (layer = "node_backend_runtime")); [by left|right].
    destruct (isDirectLegacyPatchKey code) eqn:El; [|done]. destruct (Ha code item) as [c Hc]; [done..|]. congruence.
Qed.

Lemma patch_target f v e : (ef_InternalKey f = "" -> ef_Key f = "") -> target_key (patch_of f v e) = ef_InternalKey f.
Proof. intros H. unfold target_key. cbn. destruct (String.eqb_spec (ef_InternalKey f) "") as [E|]; [|done]. by rewrite E, H. Qed.

(** The checks of a patch, one by one. *)
Lemma accepted_patch items layer f item :
  get_obj items (target_key f) = Some item -> (layer = "node_backend_runtime" \/ isDirectLegacyPatchKey (fp_Key f) = false) ->
  isLayerHidden (fp_Key f) layer = false -> isLayerHidden (target_key f) layer = false ->
  isLayerReadonly (fp_Key f) layer = false -> isLayerReadonly (target_key f) layer = false ->
  (layer = "deployment" -> target_key f ∉ deploymentProtectedFields) -> itemReadonly item = false -> unseen (itemVisibility item) = false ->
  field_error items layer f = None.
Proof.
  intros Hi Hl Hh Hh' Hr Hr' Hp Hro Hv. unfold field_error. rewrite Hi, Hh, Hh', Hr, Hr', !andb_false_r.
  assert ((layer <>s "node_backend_runtime") && isDirectLegacyPatchKey (fp_Key f) = false) as -> by (destruct Hl as [-> | ->]; [done|by rewrite andb_false_r]).
  assert ((layer =s "deployment") && existsb (String.eqb (target_key f)) deploymentProtectedFields = false) as ->.
  { destruct (String.eqb_spec layer "deployment"); [|done]. by apply existsb_eqb_notIn, Hp. }
  unfold unseen in Hv. by rewrite Hro, <- orb_assoc, Hv.
Qed.

Lemma nested_set item k k' v : k <> k' -> nestedMap (obj_set k v item) k' = nestedMap item k'.
Proof. intros H. unfold nestedMap. by rewrite get_obj_set_ne. Qed.

Lemma docker_schema item type v e : decoded (AMap item) -> nestedMap (docker_item item type v e) "schema" = nestedMap item "schema".
Proof.
  intros Hd. unfold docker_item. rewrite reread_obj_decoded by done. cbv zeta. destruct (get_obj _ "state"); rewrite !nested_set by done; done.
Qed.

(** A field that is not read-only: its item is not, and the layer leaves its key alone. *)
Lemma editable_item input key internal item :
  item_readonly input key internal item = false -> item_visibility key item <> "hidden" ->
  itemReadonly item = false /\ unseen (itemVisibility item) = false /\ isLayerReadonly key (pi_Layer input) = false
  /\ (pi_Layer input = "deployment" -> internal ∉ deploymentProtectedFields).
Proof.
  unfold item_readonly. rewrite !orb_false_iff. intros [[[[[[[_ Hr] _] _] Hi] Hl] Hp] _] Hh. split_and!; [done| |done|].
  - unfold item_visibility in *. destruct (empty_array key item); [done|]. unfold unseen. rewrite Hi. by apply String.eqb_neq.
  - intros E. rewrite E in Hp. by apply existsb_eqb_notIn.
Qed.

Lemma docker_readonly path v f : ef_Readonly (applyDockerFieldPolicy path v f) = false -> ef_Readonly f = false.
Proof. unfold applyDockerFieldPolicy. repeat case_match; cbn; rewrite ?orb_true_r, ?orb_false_r; done. Qed.

Lemma docker_same path v f : ef_Visibility (applyDockerFieldPolicy path v f) = ef_Visibility f
  /\ ef_InternalKey (applyDockerFieldPolicy path v f) = ef_InternalKey f /\ ef_Key (applyDockerFieldPolicy path v f) = ef_Key f.
Proof. unfold applyDockerFieldPolicy. by repeat case_match. Qed.

Lemma project_key key internal path item input : ef_Key (projectItem key internal path item input) = display_key key.
Proof. unfold projectItem. by destruct (definition_for key). Qed.
Lemma project_internal key internal path item input : ef_InternalKey (projectItem key internal path item input) = internal.
Proof. unfold projectItem. by destruct (definition_for key). Qed.
Lemma project_readonly key internal path item input : ef_Readonly (projectItem key internal path item input) = item_readonly input key internal item.
Proof. unfold projectItem. by destruct (definition_for key). Qed.
Lemma project_visibility key internal path item input : ef_Visibility (projectItem key internal path item input) = item_visibility key item.
Proof. unfold projectItem. by destruct (definition_for key). Qed.
Lemma project_value key internal path item input : ef_Value (projectItem key internal path item input) = valueOrDefault item.
Proof. unfold projectItem. by destruct (definition_for key). Qed.
Lemma project_enabled key internal path item input : ef_Enabled (projectItem key internal path item input) = item_enabled item.
Proof. unfold projectItem. by destruct (definition_for key). Qed.

Lemma empty_key : display_key "" = "".
Proof. vm_compute. reflexivity. Qed.

Lemma alias_keys code canon : aliasCanonicalOf code = Some canon -> canon = "service.listen_host" \/ canon = "service.container_port".
Proof.
  unfold aliasCanonicalOf. destruct (find _ canonicalAliases) as [g|] eqn:E; [|done]. apply find_some in E as [[<-|[<-|[]]] _]; intros [= <-]; [by left|by right].
Qed.

Lemma canonical_key canon layer : canon = "service.listen_host" \/ canon = "service.container_port" ->
  aliasCanonicalOf canon = Some canon /\ isLayerHidden canon layer = false /\ isLayerReadonly canon layer = false /\ canon ∉ deploymentProtectedFields.
Proof.
  intros [-> | ->]; (split_and!; [done| | |by apply existsb_eqb_notIn]); unfold isLayerHidden, isLayerReadonly, layerHiddenCodes, layerReadonlyCodes;
    destruct (layer =s "backend_runtime"), (layer =s "node_backend_runtime"), (layer =s "deployment"); reflexivity.
Qed.

(** An alias is shown with the marks of its item. *)
Lemma put_render_schema k v out : nestedMap (put_render k v out) "schema" = nestedMap out "schema".
Proof. unfold put_render. repeat case_match; by rewrite ?nested_set. Qed.

Lemma merged_schema canon item items : decoded (AMap item) -> nestedMap (mergeCanonicalItem canon item items) "schema" = nestedMap item "schema".
Proof.
  intros Hd. unfold mergeCanonicalItem. rewrite reread_obj_decoded by done. destruct (group_of canon); rewrite ?put_render_schema, !nested_set by done; done.
Qed.

(** The key of an option of the container. *)
Lemma docker_key_taken layer path : isLayerHidden docker_code layer = false ->
  isDirectLegacyPatchKey (display_key (docker_prefix +s+ path)) = false /\ isLayerReadonly (display_key (docker_prefix +s+ path)) layer = false.
Proof.
  intros Hh. assert (isLayerReadonly (display_key (docker_prefix +s+ path)) layer = false) as Hr.
  { unfold isLayerReadonly, layerReadonlyCodes. destruct (String.eqb_spec layer "deployment") as [->|]; [done|done]. }
  split; [|exact Hr]. destruct (CanonicalKey DefaultRegistry (docker_prefix +s+ path)) as [c|] eqn:E; [|by rewrite display_unknown].
  destruct (display_known _ ltac:(by eexists)) as [_ [d Hd]]. by apply (registered_current _ _ layer Hd).
Qed.

Lemma docker_layer layer : isLayerReadonly docker_code layer = false.
Proof. unfold isLayerReadonly, layerReadonlyCodes. by destruct (layer =s "deployment"). Qed.

#[local] Opaque projectItem display_key aliasCanonicalOf NormalizeConfigSet.

(** The patch of an offered field passes. *)
Lemma offered_accepted input f v e : let items := itemsMap (NormalizeConfigSet (pi_ConfigSet input)) in
  decoded (AMap (pi_ConfigSet input)) -> current_set (pi_Layer input) items -> origin input items f -> offered f ->
  field_error items (pi_Layer input) (patch_of f v e) = None.
Proof.
  intros items Hd Hs Ho [Hro Hvis]. destruct Ho as [code item Hi Ha Hh Hne ->|canon code item Hi Ha ->|type path enabled item Hi Hh Hk ->].
  - rewrite project_readonly in Hro. rewrite project_visibility in Hvis.
    destruct (editable_item _ _ _ _ Hro Hvis) as (Hr & Hu & Hl & Hp). unfold coded, itemReadonly, itemVisibility, schema_bool, schema_text, nestedString in Hr, Hu.
    rewrite nested_set in Hr, Hu by done. destruct (display_taken _ _ _ _ Hs Hi Hl) as [Hleg Hkey].
    assert (target_key (patch_of (projectItem code code [] (coded code item) input) v e) = code) as Et.
    { rewrite patch_target; rewrite ?project_internal, ?project_key; [done|]. intros ->. apply empty_key. }
    apply (accepted_patch _ _ _ item); rewrite ?Et; cbn [patch_of fp_Key]; rewrite ?project_key; try assumption. by apply display_hidden.
  - rewrite project_readonly in Hro. rewrite project_visibility in Hvis. destruct (editable_item _ _ _ _ Hro Hvis) as (Hr & Hu & _ & _).
    assert (decoded (AMap (coded code item))) as Hdi by exact (doc_set (P := decoded) "code" (AStr code) item I (normalized_item _ _ _ Hd Hi)).
    unfold itemReadonly, itemVisibility, schema_bool, schema_text, nestedString in Hr, Hu. rewrite merged_schema in Hr, Hu by done.
    unfold coded in Hr, Hu. rewrite nested_set in Hr, Hu by done. fold (itemReadonly item) in Hr. destruct (cs_alias _ _ Hs _ _ _ Hi Ha) as (item' & Hi' & Er & Ev).
    destruct (canonical_key canon (pi_Layer input) (alias_keys _ _ Ha)) as (_ & Hh & Hl & Hp). destruct (display_taken _ _ _ _ Hs Hi' Hl) as [Hleg Hkey].
    assert (target_key (patch_of (projectItem canon canon [] (mergeCanonicalItem canon (coded code item) items) input) v e) = canon) as Et.
    { rewrite patch_target; rewrite ?project_internal, ?project_key; [reflexivity|]. intros ->. apply empty_key. }
    apply (accepted_patch _ _ _ item'); rewrite ?Et; cbn [patch_of fp_Key]; rewrite ?project_key; try assumption;
      [by apply display_hidden|by intros _|etrans; [exact Er|exact Hr]|rewrite Ev; exact Hu].
  - unfold docker_field in *. set (g := projectItem _ _ _ _ _) in *. set (w := get_any _ path) in *. destruct (docker_same path w g) as (Ev & Ei & Ek).
    apply docker_readonly in Hro. rewrite Ev in Hvis. rewrite Ek in Hk. unfold g in Hro, Hvis, Hk. rewrite project_readonly in Hro. rewrite project_visibility in Hvis.
    rewrite project_key in Hk. destruct (docker_key_taken _ path Hh) as [Hleg Hkey].
    destruct (editable_item _ _ _ _ Hro Hvis) as (Hr & Hu & _ & Hp). unfold itemReadonly, itemVisibility, schema_bool, schema_text, nestedString in Hr, Hu.
    assert (decoded (AMap (coded docker_code item))) as Hdi by exact (doc_set (P := decoded) "code" (AStr docker_code) item I (normalized_item _ _ _ Hd Hi)).
    rewrite docker_schema in Hr, Hu by done. unfold coded in Hr, Hu. rewrite nested_set in Hr, Hu by done.
    assert (target_key (patch_of (applyDockerFieldPolicy path w g) v e) = docker_code) as Et.
    { rewrite patch_target; rewrite Ei; unfold g; rewrite project_internal; [reflexivity|discriminate]. }
    apply (accepted_patch _ _ _ item); rewrite ?Et; cbn [patch_of fp_Key]; rewrite ?Ek; unfold g; rewrite ?project_key; try assumption; try (by right); apply docker_layer.
Qed.

(** C23. What the form offers the patch accepts.  Take a set read from JSON that keeps its
    items under current names as far as the layer asks ([current_set]): outside node
    runtimes every launch argument under an old name is known to the registry, at a
    deployment the model mount has its own name, and an alias comes with the item it
    stands for, marked read-only and visible as that one.  Then the fields of its view
    that are neither read-only nor hidden can be patched, with any values and in any
    number.  Sets with other names are refused in part ([alias_is_refused],
    [legacy_argument_is_refused]). *)
Theorem offered_fields_accepted input view object (l : list (EditField * (any * option bool))) :
  decoded (AMap (pi_ConfigSet input)) -> current_set (pi_Layer input) (itemsMap (NormalizeConfigSet (pi_ConfigSet input))) ->
  ProjectConfigSetToEditView marshal input = Some view ->
  Forall (fun x => x.1 ∈ cv_Fields view /\ offered x.1) l ->
  ValidateEditPatch (pi_ConfigSet input)
    {| cp_Layer := pi_Layer input; cp_ObjectID := object; cp_Fields := map (fun x => patch_of x.1 x.2.1 x.2.2) l |} = None.
Proof.
  intros Hd Hs Hv Hl. unfold ValidateEditPatch. cbn [cp_Layer cp_Fields].
  assert (omap (field_error (itemsMap (NormalizeConfigSet (pi_ConfigSet input))) (pi_Layer input)) (map (fun x => patch_of x.1 x.2.1 x.2.2) l) = []) as ->; [|done].
  induction Hl as [|[f [v e]] l [Hf Ho] _ IH]; [done|]. cbn [map fst snd]. cbn [omap list_omap]. rewrite offered_accepted; [exact IH|done..| |done].
  apply view_fields_perm in Hv as [_ Hp]. rewrite Hp in Hf. by apply form_fields in Hf as [_ ?].
Qed.

(** ** The form of an edited set *)

(** The item a patch leaves under the key of its last whole value. *)
Lemma edited_item set patch layer ref now out l1 f l2 :
  ApplyEditPatchToConfigSet set patch layer ref now = Edited out -> cp_Fields patch = l1 ++ f :: l2 -> fp_Path f = [] ->
  target_key f ∉ map target_key l2 ->
  exists item, get_obj (itemsMap out) (target_key f) = Some item /\ get_any (nestedMap item "value") "effective_value" = fp_Value f
    /\ (forall b, fp_Enabled f = Some b -> item_enabled item = itemRequired item || b).
Proof.
  intros H El Hp Hl. apply edited_inv in H as (st & -> & He & _ & Hin & _). rewrite El in He, Hin.
  destruct (edit_fields_value layer ref now {| es_items := itemsMap (NormalizeConfigSet set); es_shared := ∅ |} st l1 f l2 Hin He Hp Hl) as (item & Hi & Hv & Hb).
  exists (enabled_if_required item). rewrite itemsMap_edited, get_obj_enable, Hi. split_and!; [done| |].
  - unfold nestedMap. by rewrite enabled_keeps.
  - intros b Eb. specialize (Hb b Eb). assert (itemRequired (enabled_if_required item) = itemRequired item) as Er.
    { unfold itemRequired at 1, schema_bool, nestedMap. by rewrite enabled_keeps. }
    unfold item_enabled. rewrite Er. destruct (itemRequired item) eqn:E; [done|]. unfold enabled_if_required. by rewrite E, Hb.
Qed.

Lemma value_shown code item v : get_any (nestedMap item "value") "effective_value" = v -> is_nil v = false -> valueOrDefault (coded code item) = v.
Proof.
  intros Hv Hn. assert (itemEffectiveValue (coded code item) = v) as E.
  { unfold itemEffectiveValue, coded. rewrite get_obj_set_ne by done. unfold nestedMap in Hv. destruct (get_obj item "value") as [t|]; cbn [default from_option id] in Hv.
    - by rewrite Hv, Hn.
    - unfold get_any in Hv. cbn in Hv. by subst v. }
  unfold valueOrDefault. by rewrite E, Hn.
Qed.

Lemma project_required key internal path item input : ef_Required (projectItem key internal path item input) = itemRequired item.
Proof. with_strategy transparent [projectItem] (unfold projectItem). by destruct (definition_for key). Qed.

Lemma edited_normalized set patch layer ref now out :
  decoded (AMap set) -> Forall (fun f => decoded (fp_Value f)) (cp_Fields patch) -> ApplyEditPatchToConfigSet set patch layer ref now = Edited out ->
  itemsMap (NormalizeConfigSet out) = itemsMap out.
Proof.
  intros Hs Hp H. pose proof (edited_decoded _ _ _ _ _ _ Hs Hp H) as Hd. apply edited_inv in H as (st & Eo & _).
  with_strategy transparent [NormalizeConfigSet] (unfold NormalizeConfigSet). rewrite reread_obj_decoded by done. rewrite Eo. by rewrite get_obj_set.
Qed.

End View.

(** ** Concrete forms *)

Definition no_field : EditField :=
  projectItem "" "" [] [] {| pi_ConfigSet := []; pi_Layer := ""; pi_ObjectKind := ""; pi_ObjectID := ""; pi_ObjectLabel := ""; pi_Readonly := false;
    pi_Mode := ""; pi_ViewLevel := ""; pi_TemplateID := ""; pi_SnapshotID := ""; pi_Parent := None; pi_ChildInit := None |}.

Definition form_input (layer : string) (set : obj) : ProjectInput :=
  {| pi_ConfigSet := set; pi_Layer := layer; pi_ObjectKind := layer; pi_ObjectID := "o1"; pi_ObjectLabel := "o"; pi_Readonly := false;
     pi_Mode := "edit"; pi_ViewLevel := "developer"; pi_TemplateID := "t"; pi_SnapshotID := "s"; pi_Parent := None; pi_ChildInit := None |}.

Definition reverse_range : MapRange.
Proof. refine {| range := fun V m => rev (map_to_list m) |}. intros V m. by rewrite <- Permutation_rev. Defined.

Definition fields_in (MR : MapRange) (layer : string) (items : obj) : option (list EditField) :=
  cv_Fields <$> @ProjectConfigSetToEditView MR (fun _ => "") (form_input layer [("items", AMap items)]).
Definition shown_values (MR : MapRange) (layer : string) (items : obj) : option (list (string * any)) :=
  map (fun f => (ef_Key f, ef_Value f)) <$> fields_in MR layer items.

Definition plain_item (v : any) : any := AMap [("schema", AMap [("type", AStr "string")]); ("value", AMap [("effective_value", v)])].

(** Keys that stand for one setting are one field, with the value of the one Go happens to
    range over first. *)
Example first_alias_wins :
  let items := [("backend.common.host", plain_item (AStr "0.0.0.0")); ("service.listen_host", plain_item (AStr "127.0.0.1"))] in
  (shown_values canonical_range "backend_runtime" items, shown_values reverse_range "backend_runtime" items)
  = (Some [("service.listen_host", AStr "127.0.0.1")], Some [("service.listen_host", AStr "0.0.0.0")]).
Proof. vm_compute. reflexivity. Qed.

(** The form of an alias alone names the canonical key, which the patch does not find. *)
Example alias_is_refused :
  let items := [("backend.common.port", plain_item (AFloat (f64_of_Z 8000)))] in
  let refusal f := ValidateEditPatch [("items", AMap items)] {| cp_Layer := "backend_runtime"; cp_ObjectID := ""; cp_Fields := [patch_of f (AFloat (f64_of_Z 9000)) None] |} in
  (fun l => map (fun f => (ef_Readonly f, refusal f)) l) <$> fields_in canonical_range "backend_runtime" items
  = Some [(false, Some ("unknown config field " +s+ Quote "service.container_port")%go)].
Proof. vm_compute. reflexivity. Qed.

(** A backend argument the registry does not know is offered at a deployment and refused. *)
Example legacy_argument_is_refused :
  let items := [("backend.arg.seed", plain_item (AStr "1"))] in
  let refusal f := ValidateEditPatch [("items", AMap items)] {| cp_Layer := "deployment"; cp_ObjectID := ""; cp_Fields := [patch_of f (AStr "2") None] |} in
  (fun l => map (fun f => (ef_Readonly f, refusal f)) l) <$> fields_in canonical_range "deployment" items
  = Some [(false, Some ("direct legacy key patch " +s+ Quote "backend.arg.seed" +s+ " is not allowed")%go)].
Proof. vm_compute. reflexivity. Qed.

(** A section that does not exist ends the request in a panic. *)
Example unknown_section_panics :
  fields_in canonical_range "backend_runtime" [("x", AMap [("render", AMap [("section", AStr "misc")])])] = None.
Proof. vm_compute. reflexivity. Qed.

(** An image under its old and its new key makes two fields of one key. *)
Example two_fields_one_key :
  (fun l => map (fun f => (ef_Key f, ef_InternalKey f)) l) <$> fields_in canonical_range "node_backend_runtime"
    [("launcher.image", plain_item (AStr "a")); ("runtime.image_ref", plain_item (AStr "b"))]
  = Some [("runtime.image_ref", "runtime.image_ref"); ("runtime.image_ref", "launcher.image")].
Proof. vm_compute. reflexivity. Qed.

(** The widget and the type of an option without a value are not those of its
    specification. *)
Definition option_looks (path : string) (l : list EditField) : list (string * string) :=
  map (fun f => (ef_Type f, ef_Widget f)) (List.filter (fun f => GoStrings.Join (ef_Path f) "." =s path) l).

Example option_specification_is_lost :
  (option_looks "group_add" <$> fields_in canonical_range "backend_runtime" [("launcher.docker_options", plain_item (AMap []))],
   map (fun sp => (sp_Type sp, sp_Widget sp)) (List.filter (fun sp => sp_Path sp =s "group_add") dockerFieldSpecs))
  = (Some [("string", "string")], [("array", "string_list")]).
Proof. vm_compute. reflexivity. Qed.

(** *** Witnesses *)

Definition no_view : ConfigEditView :=
  {| cv_Layer := ""; cv_ObjectID := ""; cv_ObjectKind := ""; cv_TemplateID := ""; cv_SnapshotID := ""; cv_Parent := None;
     cv_ChildInit := {| ci_Strategy := ""; ci_AllowedChildren := []; ci_CopyScope := "" |}; cv_ViewLevel := ""; cv_Readonly := false; cv_Sections := [];
     cv_Components := []; cv_Fields := []; cv_EffectsPreview := []; cv_RawConfigSet := []; cv_Metadata := [] |}.
Definition view_of (set : obj) : ConfigEditView := default no_view (@ProjectConfigSetToEditView canonical_range (fun _ => "") (form_input "backend_runtime" set)).
Definition field_named (key : string) (set : obj) : EditField := default no_field (find (fun f => ef_Key f =s key) (cv_Fields (view_of set))).

Definition shm_patch : ConfigEditPatch :=
  {| cp_Layer := "backend_runtime"; cp_ObjectID := "o1"; cp_Fields := [patch_of (field_named "runtime.shm_size" demo_set) (AStr "8g") (Some true)] |}.
Definition shm_set : obj := edited (ApplyEditPatchToConfigSet demo_set shm_patch "backend_runtime" "o1" "now").

Lemma demo_set_decoded : decoded (AMap demo_set).
Proof. vm_compute. tauto. Qed.

Lemma field_in_view key set f : find (fun f => ef_Key f =s key) (cv_Fields (view_of set)) = Some f -> f ∈ cv_Fields (view_of set).
Proof. intros [H _]%find_some. by apply list_elem_of_In. Qed.

Lemma view_well_formed_witness :
  ProjectConfigSetToEditView (MR := canonical_range) (fun _ => "") (form_input "backend_runtime" demo_set) = Some (view_of demo_set)
  /\ gathered (cv_Components (view_of demo_set)) (cv_Fields (view_of demo_set)).
Proof.
  assert (ProjectConfigSetToEditView (MR := canonical_range) (fun _ => "") (form_input "backend_runtime" demo_set) = Some (view_of demo_set)) as H
    by (vm_compute; reflexivity).
  split; [exact H|]. exact (proj2 (proj2 (proj2 (proj2 (view_well_formed (MR := canonical_range) (fun _ => "") _ _ H))))).
Defined.

Lemma get_obj_key m k i : get_obj m k = Some i -> k ∈ map fst m.
Proof.
  unfold get_obj. induction m as [|[k' v] m IH]; cbn [obj_get map fst]; [done|]. destruct (String.eqb_spec k k') as [->|]; [by left|]. intros H. right. by apply IH.
Qed.

Lemma demo_set_current : current_set "backend_runtime" (itemsMap (NormalizeConfigSet demo_set)).
Proof.
  assert (forall code item, get_obj (itemsMap (NormalizeConfigSet demo_set)) code = Some item -> isDirectLegacyPatchKey code = false /\ aliasCanonicalOf code = None) as H.
  { intros code item Hk%get_obj_key. apply list_elem_of_In in Hk. vm_compute in Hk. destruct Hk as [<-|[<-|[<-|[]]]]; split; vm_compute; reflexivity. }
  split.
  - intros code item _ Hi El. destruct (H _ _ Hi) as [E _]. congruence.
  - discriminate.
  - intros code canon item Hi Ea. destruct (H _ _ Hi) as [_ E]. congruence.
Qed.

Lemma offered_fields_accepted_witness :
  field_named "runtime.shm_size" demo_set ∈ cv_Fields (view_of demo_set) /\ ValidateEditPatch demo_set shm_patch = None.
Proof.
  assert (field_named "runtime.shm_size" demo_set ∈ cv_Fields (view_of demo_set)) as Hin by (apply (field_in_view "runtime.shm_size"); vm_compute; reflexivity).
  split; [exact Hin|].
  apply (offered_fields_accepted (MR := canonical_range) (fun _ => "") (form_input "backend_runtime" demo_set) (view_of demo_set) "o1"
    [(field_named "runtime.shm_size" demo_set, (AStr "8g", Some true))]).
  - exact demo_set_decoded.
  - exact demo_set_current.
  - vm_compute. reflexivity.
  - constructor; [|constructor]. split; [exact Hin|]. split; [vm_compute; reflexivity|vm_compute; discriminate].
Defined.

