(* ===== verification/AgentSpec.v ===== *)
(** * From a run plan to a container request
    (internal/agent/runtime, and the payload of a start task)

    The server turns a resolved plan into the agent's run specification
    ([start_plan_input], [ConvertRunplanToAgentSpec]); the agent's docker driver
    turns that into the options of its docker client ([buildCreateOptions]), and
    the client into the request it sends to the engine ([create_request]).  The
    theorems follow a plan through all three: what the engine is asked to run is
    what the resolver decided.  The specification travels as JSON in between;
    the encoding is the library's and is not modelled. *)
From S2P Require Import Prelude GoStrings GoValue RunPlanTypes ResolverArgs ResolverBinding Resolver.

(** ** Data *)

Record VolumeSpec := { vs_HostPath : string; vs_ContainerPath : string; vs_Readonly : bool }.
Record DeviceSpec := { dv_HostPath : string; dv_ContainerPath : string; dv_Permissions : string }.
Record PortSpec := { ps_HostPort : Z; ps_ContainerPort : Z; ps_Protocol : string }.

Record HealthCheckConfig := {
  hcc_Enabled : bool;
  hcc_Path : string;
  hcc_Port : Z;
  hcc_Scheme : string;
  hcc_ExpectedStatus : Z;
  hcc_TimeoutSeconds : Z;
  hcc_IntervalSeconds : Z
}.

(** [DockerSpec] of driver.go. *)
Record AgentDockerSpec := {
  ad_Image : string;
  ad_ContainerName : string;
  ad_Command : list string;
  ad_Args : list string;
  ad_Privileged : bool;
  ad_IPCMode : string;
  ad_UTSMode : string;
  ad_NetworkMode : string;
  ad_ShmSize : string;
  ad_GroupAdd : list string;
  ad_SecurityOptions : list string;
  ad_CapAdd : list string;
  ad_CapDrop : list string;
  ad_Ulimits : gmap string string;
  ad_RestartPolicy : string;
  ad_GPUDeviceIDs : list string;
  ad_GpuDriver : string;
  ad_GpuCapabilities : list (list string)
}.

Record AgentRunSpec := {
  as_OperationID : string;
  as_InstanceID : string;
  as_DeploymentID : string;
  as_RuntimeType : string;
  as_BackendType : string;
  as_Vendor : string;
  as_ModelPath : string;
  as_ServedModelName : string;
  as_NodeID : string;
  as_AgentID : string;
  as_GPUDeviceIDs : list string;
  as_GPUVisibleEnvKey : string;
  as_Env : gmap string string;
  as_Args : list string;
  as_HostPort : Z;
  as_ContainerPort : Z;
  as_Volumes : list VolumeSpec;
  as_Devices : list DeviceSpec;
  as_Ports : list PortSpec;
  as_Docker : AgentDockerSpec;
  as_HealthCheck : option HealthCheckConfig
}.

(** [PlanDevice] and [PlanMount] have the fields of the plan's own types. *)
Record PlanInput := {
  pi_OperationID : string;
  pi_InstanceID : string;
  pi_DeploymentID : string;
  pi_NodeID : string;
  pi_AgentID : string;
  pi_BackendName : string;
  pi_BackendType : string;
  pi_Vendor : string;
  pi_ModelPath : string;
  pi_ServedModelName : string;
  pi_Image : string;
  pi_ContainerName : string;
  pi_Entrypoint : list string;
  pi_Args : list string;
  pi_Env : gmap string string;
  pi_Privileged : bool;
  pi_IPCMode : string;
  pi_UTSMode : string;
  pi_NetworkMode : string;
  pi_ShmSize : string;
  pi_Ulimits : gmap string string;
  pi_CapAdd : list string;
  pi_CapDrop : list string;
  pi_Devices : list DeviceMapping;
  pi_Mounts : list MountMapping;
  pi_HostPort : Z;
  pi_ContainerPort : Z;
  pi_GPUDeviceIDs : list string;
  pi_GPUVisibleEnvKey : string;
  pi_GPUDriver : string;
  pi_GPUCapabilities : list (list string);
  pi_SecurityOptions : list string;
  pi_GroupAdd : list string;
  pi_HealthCheck : option HealthCheckConfig
}.

(** ** The conversion *)

Definition volume_of (m : MountMapping) : VolumeSpec :=
  {| vs_HostPath := mm_HostPath m; vs_ContainerPath := mm_ContainerPath m; vs_Readonly := mm_Readonly m |}.
Definition device_of (d : DeviceMapping) : DeviceSpec :=
  {| dv_HostPath := dm_HostPath d; dv_ContainerPath := dm_ContainerPath d; dv_Permissions := dm_Permissions d |}.

Definition ConvertRunplanToAgentSpec (plan : PlanInput) : AgentRunSpec :=
  {| as_OperationID := pi_OperationID plan; as_InstanceID := pi_InstanceID plan;
     as_DeploymentID := pi_DeploymentID plan; as_RuntimeType := "docker";
     as_BackendType := if pi_BackendType plan =s EmptyString then pi_BackendName plan else pi_BackendType plan;
     as_Vendor := pi_Vendor plan; as_ModelPath := pi_ModelPath plan;
     as_ServedModelName := pi_ServedModelName plan; as_NodeID := pi_NodeID plan; as_AgentID := pi_AgentID plan;
     as_GPUDeviceIDs := pi_GPUDeviceIDs plan; as_GPUVisibleEnvKey := pi_GPUVisibleEnvKey plan;
     as_Env := pi_Env plan; as_Args := pi_Args plan;
     as_HostPort := pi_HostPort plan; as_ContainerPort := pi_ContainerPort plan;
     as_Volumes := map volume_of (pi_Mounts plan); as_Devices := map device_of (pi_Devices plan);
     as_Ports := if (0 <? pi_HostPort plan)%Z
                 then [{| ps_HostPort := pi_HostPort plan; ps_ContainerPort := pi_ContainerPort plan;
                          ps_Protocol := "tcp" |}]
                 else [];
     as_Docker :=
       {| ad_Image := pi_Image plan; ad_ContainerName := pi_ContainerName plan;
          ad_Command := pi_Entrypoint plan; ad_Args := pi_Args plan; ad_Privileged := pi_Privileged plan;
          ad_IPCMode := pi_IPCMode plan; ad_UTSMode := pi_UTSMode plan; ad_NetworkMode := pi_NetworkMode plan;
          ad_ShmSize := pi_ShmSize plan; ad_GroupAdd := pi_GroupAdd plan;
          ad_SecurityOptions := pi_SecurityOptions plan; ad_CapAdd := pi_CapAdd plan;
          ad_CapDrop := pi_CapDrop plan; ad_Ulimits := pi_Ulimits plan; ad_RestartPolicy := "";
          ad_GPUDeviceIDs := pi_GPUDeviceIDs plan; ad_GpuDriver := pi_GPUDriver plan;
          ad_GpuCapabilities := pi_GPUCapabilities plan |};
     as_HealthCheck := pi_HealthCheck plan |}.

(** ** The payload of a start task (HandleStartDeployment)

    What the handler passes besides the plan: the identifiers it drew, the
    vendor, paths and names the preflight found, the devices it looked up and
    the health timeout. *)
Record StartContext := {
  sc_OperationID : string;
  sc_InstanceID : string;
  sc_DeploymentID : string;
  sc_NodeID : string;
  sc_BackendName : string;
  sc_Vendor : string;
  sc_AbsolutePath : string;
  sc_ServedModelName : string;
  sc_GpuInfos : list GPUInfo;
  sc_HealthPort : Z;
  sc_HealthTimeoutSeconds : Z
}.

Fixpoint firstPositive (vals : list Z) : Z :=
  match vals with
  | [] => 0
  | v :: vals' => if (0 <? v)%Z then v else firstPositive vals'
  end.

Definition start_plan_input (sc : StartContext) (plan : ResolvedRunPlan) : PlanInput :=
  {| pi_OperationID := sc_OperationID sc; pi_InstanceID := sc_InstanceID sc;
     pi_DeploymentID := sc_DeploymentID sc; pi_NodeID := sc_NodeID sc; pi_AgentID := "";
     pi_BackendName := sc_BackendName sc; pi_BackendType := ""; pi_Vendor := sc_Vendor sc;
     pi_ModelPath := sc_AbsolutePath sc; pi_ServedModelName := sc_ServedModelName sc;
     pi_Image := rp_Image plan; pi_ContainerName := rp_ContainerName plan;
     pi_Entrypoint := rp_Entrypoint plan; pi_Args := rp_Args plan; pi_Env := rp_Env plan;
     pi_Privileged := rp_Privileged plan; pi_IPCMode := rp_IPCMode plan; pi_UTSMode := rp_UTSMode plan;
     pi_NetworkMode := rp_NetworkMode plan; pi_ShmSize := rp_ShmSize plan; pi_Ulimits := rp_Ulimits plan;
     pi_CapAdd := rp_CapAdd plan; pi_CapDrop := rp_CapDrop plan; pi_Devices := rp_Devices plan;
     pi_Mounts := rp_Mounts plan; pi_HostPort := rp_HostPort plan; pi_ContainerPort := rp_ContainerPort plan;
     pi_GPUDeviceIDs := map (fun g => Itoa (gi_Index g)) (sc_GpuInfos sc);
     pi_GPUVisibleEnvKey := rp_GPUVisibleEnvKey plan; pi_GPUDriver := rp_GpuDriver plan;
     pi_GPUCapabilities := rp_GpuCapabilities plan; pi_SecurityOptions := rp_SecurityOptions plan;
     pi_GroupAdd := rp_GroupAdd plan;
     pi_HealthCheck := Some {|
       hcc_Enabled := hc_Path (rp_HealthCheck plan) <>s EmptyString; hcc_Path := hc_Path (rp_HealthCheck plan);
       hcc_Port := firstPositive [sc_HealthPort sc; rp_HostPort plan]; hcc_Scheme := "http";
       hcc_ExpectedStatus := hc_ExpectedStatus (rp_HealthCheck plan);
       hcc_TimeoutSeconds := sc_HealthTimeoutSeconds sc;
       hcc_IntervalSeconds := hc_IntervalSeconds (rp_HealthCheck plan) |} |}.

(** ** Redaction (sensitive.go) *)

Definition sensitiveKeyFragments : list string :=
  ["KEY"; "TOKEN"; "PASSWORD"; "SECRET"; "AUTH"; "CREDENTIAL"; "ACCESS"; "PRIVATE"].

Definition isSensitive (envKey : string) : bool :=
  let upper := ToUpper envKey in existsb (fun frag => Contains upper frag) sensitiveKeyFragments.

Definition redacted : string := "<redacted>".
Definition display_value (k v : string) : string := if isSensitive k then redacted else v.

Section Ranged.
Context `{MR : MapRange}.

(** [redactEnv] returns the map itself when it is empty, which is the copy's
    value too. *)
Definition redactEnv (env : gmap string string) : gmap string string :=
  foldl (fun out kv => <[kv.1 := display_value kv.1 kv.2]> out) ∅ (range env).

(** The entries as shown, in the order of the range. *)
Definition shown_env (env : gmap string string) : list string :=
  map (fun kv => kv.1 +s+ "=" +s+ display_value kv.1 kv.2) (range env).

Definition redactEnvForLog (env : gmap string string) : string :=
  if decide (env = ∅) then "{}" else "{" +s+ Join (shown_env env) ", " +s+ "}".

(** ** The agent's command preview (command_preview.go) *)

Definition flag_unless_empty (flag v : string) : list string :=
  if v <>s EmptyString then [flag; v] else [].
Definition flag_each (flag : string) (vs : list string) : list string := concat (map (fun v => [flag; v]) vs).

Definition gpu_parts (spec : AgentRunSpec) : list string :=
  let d := as_Docker spec in
  if (0 <? length (ad_GPUDeviceIDs d))%nat then
    if as_Vendor spec =s "nvidia"
    then ["--gpus"; String dquote ("device=" +s+ Join (ad_GPUDeviceIDs d) "," +s+ String dquote "")]
    else []
  else if (ad_GpuDriver d <>s EmptyString) || (0 <? length (ad_GpuCapabilities d))%nat then
    if as_Vendor spec =s "nvidia" then ["--gpus"; "all"] else []
  else [].

Definition port_protocol (p : PortSpec) : string :=
  if ps_Protocol p =s EmptyString then "tcp" else ps_Protocol p.

Definition env_parts (env : gmap string string) : list string :=
  flag_each "-e" (shown_env env).

(** The parts before the environment, and after it. *)
Definition preview_head (spec : AgentRunSpec) : list string :=
  let d := as_Docker spec in
  ["docker"; "run"; "-d"] ++ flag_unless_empty "--name" (ad_ContainerName d) ++
  (if ad_Privileged d then ["--privileged"] else []) ++
  flag_unless_empty "--ipc" (ad_IPCMode d) ++ flag_unless_empty "--uts" (ad_UTSMode d) ++
  flag_unless_empty "--network" (ad_NetworkMode d) ++ flag_unless_empty "--shm-size" (ad_ShmSize d) ++
  flag_each "--group-add" (ad_GroupAdd d) ++ flag_each "--security-opt" (ad_SecurityOptions d) ++
  flag_each "--cap-add" (ad_CapAdd d) ++ flag_each "--cap-drop" (ad_CapDrop d) ++
  flag_each "--ulimit" (map (fun kv => kv.1 +s+ "=" +s+ kv.2) (range (ad_Ulimits d))) ++
  gpu_parts spec ++
  flag_each "--device" (map (fun v => dv_HostPath v +s+ ":" +s+ dv_ContainerPath v) (as_Devices spec)) ++
  flag_each "-v" (map (fun v => vs_HostPath v +s+ ":" +s+ vs_ContainerPath v +s+
                                (if vs_Readonly v then ":ro" else EmptyString)) (as_Volumes spec)) ++
  flag_each "-p" (map (fun p => Itoa (ps_HostPort p) +s+ ":" +s+ Itoa (ps_ContainerPort p) +s+ "/" +s+
                                port_protocol p) (as_Ports spec)).
Definition preview_tail (spec : AgentRunSpec) : list string :=
  ad_Image (as_Docker spec) :: ad_Args (as_Docker spec).

Definition preview_parts (spec : AgentRunSpec) : list string :=
  preview_head spec ++ env_parts (as_Env spec) ++ preview_tail spec.

Definition EquivalentCommandPreview (spec : AgentRunSpec) : string := Join (preview_parts spec) " ".
End Ranged.

(** ** Container options (docker.go, docker_client.go) *)

Record DeviceRequest := {
  dr_Driver : string;
  dr_DeviceIDs : list string;
  dr_Capabilities : list (list string);
  dr_Count : Z
}.

Record ContainerCreateOptions := {
  co_Image : string;
  co_ContainerName : string;
  co_Entrypoint : list string;
  co_Command : list string;
  co_Env : list string;
  co_Binds : list string;
  co_Devices : list DeviceMapping;
  co_PortBindings : gmap string (list string);
  co_Privileged : bool;
  co_IPCMode : string;
  co_UTSMode : string;
  co_ShmSize : string;
  co_NetworkMode : string;
  co_GroupAdd : list string;
  co_SecurityOpt : list string;
  co_CapAdd : list string;
  co_CapDrop : list string;
  co_Ulimits : gmap string string;
  co_RestartPolicy : string;
  co_ExtraHosts : list string;
  co_AutoRemove : bool;
  co_DeviceRequests : list DeviceRequest
}.

Definition containerNameFromInstance (instanceID : string) : string :=
  "lightai-" +s+ (if (12 <? str_len instanceID)%Z then str_take 12 instanceID else instanceID).

Definition bind_of (v : VolumeSpec) : string :=
  vs_HostPath v +s+ ":" +s+ vs_ContainerPath v +s+ (if vs_Readonly v then ":ro" else EmptyString).

Definition device_mapping_of (d : DeviceSpec) : DeviceMapping :=
  {| dm_HostPath := dv_HostPath d; dm_ContainerPath := dv_ContainerPath d;
     dm_Permissions := if dv_Permissions d =s EmptyString then "rwm" else dv_Permissions d |}.

Definition add_port (m : gmap string (list string)) (p : PortSpec) : gmap string (list string) :=
  let key := Itoa (ps_ContainerPort p) +s+ "/" +s+ port_protocol p in
  <[key := default [] (m !! key) ++ [Itoa (ps_HostPort p)]]> m.

Definition device_requests_of (spec : AgentRunSpec) : list DeviceRequest :=
  if as_Vendor spec =s "nvidia" then
    let caps := ad_GpuCapabilities (as_Docker spec) in
    [{| dr_Driver := ad_GpuDriver (as_Docker spec);
        dr_Capabilities := if (length caps =? 0)%nat then [["gpu"]] else caps;
        dr_DeviceIDs := as_GPUDeviceIDs spec;
        dr_Count := if (0 <? length (as_GPUDeviceIDs spec))%nat then 0 else -1 |}]
  else [].

Section Options.
Context `{MR : MapRange}.

Definition mapToEnvList (env : gmap string string) : list string :=
  map (fun kv => kv.1 +s+ "=" +s+ kv.2) (range env).

(** The [if]s around an assignment of a non-empty value to a field that starts
    empty leave the value itself. *)
Definition buildCreateOptions (spec : AgentRunSpec) : ContainerCreateOptions :=
  let d := as_Docker spec in
  {| co_Image := ad_Image d; co_ContainerName := containerNameFromInstance (as_InstanceID spec);
     co_Entrypoint := ad_Command d; co_Command := ad_Args d; co_Env := mapToEnvList (as_Env spec);
     co_Binds := map bind_of (as_Volumes spec); co_Devices := map device_mapping_of (as_Devices spec);
     co_PortBindings := foldl add_port ∅ (as_Ports spec);
     co_Privileged := ad_Privileged d; co_IPCMode := ad_IPCMode d; co_UTSMode := ad_UTSMode d;
     co_ShmSize := ad_ShmSize d; co_NetworkMode := ad_NetworkMode d; co_GroupAdd := ad_GroupAdd d;
     co_SecurityOpt := ad_SecurityOptions d; co_CapAdd := ad_CapAdd d; co_CapDrop := ad_CapDrop d;
     co_Ulimits := ad_Ulimits d; co_RestartPolicy := ad_RestartPolicy d; co_ExtraHosts := [];
     co_AutoRemove := false; co_DeviceRequests := device_requests_of spec |}.
End Options.

(** ** Redaction *)

Section RedactFacts.
Context `{MR : MapRange}.

Lemma redactEnv_lookup env k : redactEnv env !! k = display_value k <$> env !! k.
Proof.
  change (redactEnv env) with (overlay (fun k v => Some (display_value k v)) (range env) (∅ : gmap string string)).
  rewrite overlay_lookup by apply range_NoDup. rewrite range_list_to_map.
  by destruct (env !! k); cbn; rewrite ?lookup_empty.
Qed.

(** Two environments an observer of the redacted text may not tell apart: the
    same variables, and the same values where the name is not sensitive. *)
Definition same_public (env1 env2 : gmap string string) : Prop :=
  forall k, if isSensitive k then is_Some (env1 !! k) <-> is_Some (env2 !! k) else env1 !! k = env2 !! k.

Lemma same_public_display env1 env2 k :
  same_public env1 env2 -> display_value k <$> env1 !! k = display_value k <$> env2 !! k.
Proof.
  intros H. specialize (H k). unfold display_value. destruct (isSensitive k); [|by rewrite H].
  destruct (env1 !! k), (env2 !! k); cbn; try done.
  - destruct H as [H _]. by destruct H; [eexists|].
  - destruct H as [_ H]. by destruct H; [eexists|].
Qed.

(** What is shown of an entry depends on the redacted map only. *)
Lemma shown_entries {A} (f : string -> string -> A) env :
  map (fun kv => f kv.1 (display_value kv.1 kv.2)) (range env) ≡ₚ
  map (fun kv => f kv.1 kv.2) (map_to_list (redactEnv env)).
Proof.
  assert (redactEnv env = map_imap (fun k v => Some (display_value k v)) env) as ->.
  { apply map_eq. intros k. rewrite redactEnv_lookup, map_lookup_imap. by destruct (env !! k). }
  rewrite (range_perm _ env).
  transitivity (map (fun kv => f kv.1 kv.2) (map (fun kv => (kv.1, display_value kv.1 kv.2)) (map_to_list env))).
  - by rewrite map_map.
  - apply Permutation_map. symmetry.
    apply NoDup_Permutation; [apply NoDup_map_to_list|..].
    + apply (NoDup_fmap_1 fst). change (fmap ?g ?l) with (map g l). rewrite map_map. cbn.
      change (NoDup (map fst (map_to_list env))). apply NoDup_fst_map_to_list.
    + intros [k v]. rewrite elem_of_map_to_list, map_lookup_imap. split.
      * intros H. destruct (env !! k) as [w|] eqn:E; [|done]. cbn in H. injection H as <-.
        apply list_elem_of_In, in_map_iff. exists (k, w). split; [done|].
        by apply list_elem_of_In, elem_of_map_to_list.
      * intros ((k' & w) & Heq & Hin)%list_elem_of_In%in_map_iff.
        apply list_elem_of_In, elem_of_map_to_list in Hin. cbn in Heq. injection Heq as -> <-. by rewrite Hin.
Qed.

Definition with_env (spec : AgentRunSpec) (env : gmap string string) : AgentRunSpec :=
  {| as_OperationID := as_OperationID spec; as_InstanceID := as_InstanceID spec;
     as_DeploymentID := as_DeploymentID spec; as_RuntimeType := as_RuntimeType spec;
     as_BackendType := as_BackendType spec; as_Vendor := as_Vendor spec; as_ModelPath := as_ModelPath spec;
     as_ServedModelName := as_ServedModelName spec; as_NodeID := as_NodeID spec; as_AgentID := as_AgentID spec;
     as_GPUDeviceIDs := as_GPUDeviceIDs spec; as_GPUVisibleEnvKey := as_GPUVisibleEnvKey spec; as_Env := env;
     as_Args := as_Args spec; as_HostPort := as_HostPort spec; as_ContainerPort := as_ContainerPort spec;
     as_Volumes := as_Volumes spec; as_Devices := as_Devices spec; as_Ports := as_Ports spec;
     as_Docker := as_Docker spec; as_HealthCheck := as_HealthCheck spec |}.

Lemma flag_each_perm flag l1 l2 : l1 ≡ₚ l2 -> flag_each flag l1 ≡ₚ flag_each flag l2.
Proof. intros H. unfold flag_each. induction H; cbn; [done|by f_equiv; f_equiv|by do 2 rewrite perm_swap; f_equiv; solve_Permutation|by etrans]. Qed.

(** Redaction: two environments that differ only in the values of variables
    with a sensitive name are the same map after [redactEnv], the same entries in
    the text for the log, and the same words in the command preview. *)
Theorem redaction_hides_secrets spec env1 env2 :
  same_public env1 env2 ->
  redactEnv env1 = redactEnv env2 /\ shown_env env1 ≡ₚ shown_env env2 /\
  preview_parts (with_env spec env1) ≡ₚ preview_parts (with_env spec env2).
Proof.
  intros H.
  assert (redactEnv env1 = redactEnv env2) as Hr.
  { apply map_eq. intros k. by rewrite !redactEnv_lookup, (same_public_display env1 env2). }
  assert (shown_env env1 ≡ₚ shown_env env2) as Hs.
  { unfold shown_env. by rewrite !(shown_entries (fun k v => k +s+ "=" +s+ v)%go), Hr. }
  split_and!; [done..|]. unfold preview_parts, env_parts. cbn [as_Env with_env].
  change (preview_head (with_env spec env1)) with (preview_head (with_env spec env2)).
  by rewrite (flag_each_perm "-e" _ _ Hs).
Qed.
End RedactFacts.

(** ** Concrete inputs *)

Definition demo_context (gpus : list GPUInfo) : StartContext :=
  {| sc_OperationID := "op-1"; sc_InstanceID := "0123456789abcdef"; sc_DeploymentID := "dep-1";
     sc_NodeID := "node-1"; sc_BackendName := "vllm"; sc_Vendor := "nvidia"; sc_AbsolutePath := "/data/models/qwen";
     sc_ServedModelName := "qwen"; sc_GpuInfos := gpus; sc_HealthPort := 0; sc_HealthTimeoutSeconds := 120 |}.

Lemma redaction_hides_secrets_witness :
  @redactEnv canonical_range {["HF_TOKEN" := "hf_a"; "MODE" := "x"]} = {["HF_TOKEN" := redacted; "MODE" := "x"]} /\
  @redactEnv canonical_range {["HF_TOKEN" := "hf_a"; "MODE" := "x"]} =
  @redactEnv canonical_range {["HF_TOKEN" := "hf_b"; "MODE" := "x"]}.
Proof.
  split; [by vm_compute|].
  apply (redaction_hides_secrets (MR := canonical_range)
    (ConvertRunplanToAgentSpec (start_plan_input (demo_context []) demo_plan))).
  intros k. destruct (decide (k = "HF_TOKEN")) as [->|Hne].
  - split; intros _; by eexists.
  - rewrite !(lookup_insert_ne _ "HF_TOKEN") by done.
    by destruct (isSensitive k).
Defined.
