(* ===== verification/Preflight.v ===== *)
(** * Validation before a start (internal/server/api: preflightDeployment, HandleStartDeployment)

    The dry run and the start read the rows a deployment refers to, check that they
    can be deployed, build the resolver's input from the deployment's frozen
    configuration set and resolve the plan.  The tables are lists of rows, in the
    order SQLite returns them; JSON columns hold their text. *)
From S2P Require Import Prelude GoStrings GoNumbers GoValue GoJson GoJsonText RuntimeContract RunPlanTypes ConfigSets RunPlanLint Resolver SourceMap.
From S2P Require Import Store Deployments RunPlanViews SemanticAdapter SemanticRegistry SemanticConfig AgentSpec.
From Stdlib Require Import Ascii.
From stdpp Require Import sorting.

(** ** Rows *)

Record deployment_doc := {
  dd_id : string; dd_name : string; dd_tenant : string; dd_artifact : string; dd_runtime : string; dd_nbr : string;
  dd_placement : string; dd_service : string; dd_config_set : string
}.

Record artifact_doc := {
  ad_id : string; ad_name : string; ad_display_name : string; ad_path : string; ad_format : string; ad_task_type : string; ad_architecture : string;
  ad_context_length : Z
}.

(** A backend runtime joined with its backend. *)
Record runtime_doc := { br_id : string; br_backend : string; br_version : string; br_vendor : string; br_type : string; br_name : string }.

Record nbr_doc := { nb_id : string; nb_status : string; nb_runtime : string; nb_node : string; nb_probe : string }.

Record gpu_doc := { gd_id : string; gd_node : string; gd_status : string; gd_index : Z; gd_vendor : string }.

Record location_doc := {
  lo_id : string; lo_artifact : string; lo_node : string; lo_path_type : string; lo_root : string; lo_relative : string;
  lo_absolute : string; lo_metadata : string; lo_match : string; lo_verification : string; lo_last_error : string
}.

Record node_doc := { no_id : string; no_primary_ip : string; no_tenant : string }.

Record documents := {
  dc_deployments : list deployment_doc; dc_artifacts : list artifact_doc; dc_runtimes : list runtime_doc; dc_nbrs : list nbr_doc;
  dc_gpus : list gpu_doc; dc_locations : list location_doc; dc_nodes : list node_doc
}.

Definition by_id {A} (key : A -> string) (id : string) (rows : list A) : option A := List.find (fun r => key r =s id) rows.

(** ** Node runtimes *)

Definition isNBRDeployable (status : string) : bool := (status =s "ready") || (status =s "ready_with_warnings").

Definition nbrDisabledReason (status reason : string) : string :=
  if isNBRDeployable status then ""
  else if status =s "missing_image" then "Docker image is not present on the node; pull the image or check the image reference"
  else if status =s "needs_check" then "Node runtime config has not been checked; run agent check first"
  else if status =s "inspect_failed" then "Docker image inspect failed; verify Docker daemon and image availability"
  else if status =s "runtime_image_mismatch" then "Docker image does not match the declared backend; verify the image reference"
  else if status =s "agent_unreachable" then "Agent is unreachable; verify node connectivity and agent status"
  else if status =s "docker_error" then "Docker daemon error; verify Docker is running on the node"
  else if status =s "unsupported_device" then "Node has no matching GPU vendor for this runtime"
  else if status =s "disabled" then "Node runtime config is disabled"
  else if status =s "evidence_missing" then "No image reference configured; set an image_ref before checking"
  else if (status =s "node_offline") || (status =s "failed") then "Node is offline or in failed state"
  else if reason <>s "" then reason
  else "Node runtime is not deployable (status=" +s+ status +s+ ")".

(** ** Model locations (model_location_eligibility.go) *)

Definition deployableVerificationStatuses : list string := ["verified"; "warning"; "manually_accepted"].
Definition deployableMatchStatuses : list string := ["exact_match"; "probable_match"; "manual_attested"].

Definition location_deployable (nodeID : string) (l : location_doc) : bool :=
  (lo_node l =s nodeID) && existsb (String.eqb (lo_verification l)) deployableVerificationStatuses
  && existsb (String.eqb (lo_match l)) deployableMatchStatuses.

(** ORDER BY node_id, absolute_path *)
Definition location_le (a b : location_doc) : Prop :=
  Is_true (if lo_node a =s lo_node b then String.leb (lo_absolute a) (lo_absolute b) else String.leb (lo_node a) (lo_node b)).
#[export] Instance location_le_dec : RelDecision location_le.
Proof. intros a b. unfold location_le. apply _. Defined.

Definition listModelLocations (dc : documents) (artifactID : string) : list location_doc :=
  merge_sort location_le (List.filter (fun l => lo_artifact l =s artifactID) (dc_locations dc)).

Definition getModelLocation (dc : documents) (id : string) : option location_doc := by_id lo_id id (dc_locations dc).

Definition location_text (l : location_doc) : string :=
  "id=" +s+ lo_id l +s+ " node_id=" +s+ lo_node l +s+ " verification_status=" +s+ lo_verification l +s+ " match_status=" +s+ lo_match l
  +s+ " last_error=" +s+ lo_last_error l.

Definition modelLocationEligibilityReason (modelArtifactID artifactName nodeID : string) (locations : list location_doc) : string :=
  let visible := match locations with [] => ["<none>"] | _ => map location_text locations end in
  "model_location_missing: model_artifact_id=" +s+ modelArtifactID +s+ " model=" +s+ artifactName +s+ " selected node_id=" +s+ nodeID
  +s+ " has no deployable location; deployable verification_status in [verified warning manually_accepted] and match_status in [exact_match probable_match manual_attested]; visible locations: "
  +s+ GoStrings.Join visible "; ".

Definition findDeployableModelLocation (dc : documents) (modelArtifactID nodeID : string) : option location_doc * string :=
  let artifactName := match by_id ad_id modelArtifactID (dc_artifacts dc) with
                      | Some a => or_else (ad_display_name a) (or_else (ad_name a) modelArtifactID)
                      | None => modelArtifactID
                      end in
  let locations := listModelLocations dc modelArtifactID in
  match List.find (location_deployable nodeID) locations with
  | Some l => (Some l, "")
  | None => (None, modelLocationEligibilityReason modelArtifactID artifactName nodeID locations)
  end.

(** ** JSON columns *)

(** [json.Unmarshal(raw, &structure)] with the error dropped. *)
Definition column_obj (raw : string) : obj := match Unmarshal raw with Some (AMap m) => m | _ => [] end.

Definition decode_placement (raw : string) : string * list string :=
  let m := column_obj raw in (field m "node_id" dec_str "", field m "accelerator_ids" dec_strs []).

Definition decode_service (raw : string) : ServiceInfo :=
  let m := column_obj raw in
  {| sv_HostPort := field m "host_port" dec_int 0%Z; sv_ContainerPort := field m "container_port" dec_int 0%Z;
     sv_AppPort := field m "app_port" dec_int 0%Z; sv_ListenHost := ""; sv_HealthPort := field m "health_port" dec_int 0%Z;
     sv_APITestPort := field m "api_test_port" dec_int 0%Z |}.

(** [intFromAny(v, def)]: [fmt.Sscanf] fails without a digit and out of range. *)
Definition Sscanf_ok (s : string) : bool :=
  match skip_space s with
  | None => false
  | Some s => let '(neg, ds) := signed_digits s in
              let '(v, n) := scan_digits 0 0 ds in
              negb (n =? 0)%nat && in_int64 (if neg then - v else v)%Z
  end.

Definition api_intFromAny (v : any) (def : Z) : Z :=
  match v with
  | AInt z | AInt64 z => z
  | AFloat f => f64_to_int f
  | AStr s => if Sscanf_ok s then Sscanf_d s else def
  | _ => def
  end.

(** [strconv.Atoi(s)] with the error dropped: the nearest bound out of range, 0 for a syntax error. *)
Definition Atoi_value (s : string) : Z :=
  let '(neg, ds) := signed_digits s in
  let '(v, n) := scan_digits 0 0 ds in
  if (n =? 0)%nat || negb (n =? String.length ds)%nat then 0%Z
  else Z.max min_int64 (Z.min max_int64 (if neg then - v else v)%Z).

Definition intFromInterface (v : any) : Z :=
  match v with AFloat f => f64_to_int f | AInt z | AInt64 z => z | AStr s => Atoi_value s | _ => 0%Z end.

Definition toStringSlice (v : any) : list string :=
  match v with AList l => map (fun x => default "" (as_str x)) l | _ => [] end.

Definition successStatusFromRaw (m : obj) : list Z :=
  match get_any m "success_status" with
  | AList l => omap (fun v => match v with AFloat f => Some (f64_to_int f) | _ => None end) l
  | _ => []
  end.

Definition positive_of (v : any) : option Z :=
  match v with
  | AFloat f => if SpecFloat.SFltb (SpecFloat.S754_zero false) f then Some (f64_to_int f) else None
  | AInt z => if (0 <? z)%Z then Some z else None
  | _ => None
  end.

Definition planHealthTimeout2 (m : obj) : Z :=
  default 30%Z (head (omap (fun k => v ← obj_get m k; positive_of v)
                           ["startup_timeout_seconds"; "startupTimeoutSeconds"; "timeout_seconds"; "timeoutSeconds"])).

Definition processStartConfigFromProbe (raw : string) : option ProcessStartConfig :=
  if (TrimSpace raw =s "") || (TrimSpace raw =s "{}") then None
  else
    psd ← get_obj (column_obj raw) "process_start_detection";
    if trimmed (get_any psd "status") <>s "candidate_found" then None
    else
      let mode := trimmed (get_any psd "entrypoint_mode") in
      let prefix := toStringSlice (get_any psd "command_prefix") in
      let entrypoint := toStringSlice (get_any psd "entrypoint") in
      if (mode =s "") && (length prefix =? 0)%nat && (length entrypoint =? 0)%nat then None
      else Some {| psc_EntrypointMode := mode; psc_Entrypoint := entrypoint; psc_CommandPrefix := prefix;
                   psc_ShellMode := default false (as_bool (get_any psd "shell_mode"));
                   psc_ProfileID := trimmed (get_any psd "selected_profile_id"); psc_Source := "probe_results";
                   psc_Confidence := trimmed (get_any psd "confidence"); psc_Warnings := toStringSlice (get_any psd "warnings") |}.

(** ** Declared capabilities (compat.go, ParseBackendCapabilities) *)

(** Whether the decoder reports no error for an entry. *)
Definition capability_ok (kv : string * any) : bool :=
  if existsb (EqualFold kv.1) ["supported_formats"; "supported_tasks"; "supported_capabilities"; "model_path_modes"; "serving_protocols"]
  then texts_or_nil kv.2
  else if EqualFold kv.1 "test_endpoints" then match kv.2 with AMap _ | ANil => true | _ => false end
  else if EqualFold kv.1 "blocked_architectures" then match kv.2 with AMap m => forallb (fun e => text_or_nil e.2) m | ANil => true | _ => false end
  else true.

Definition ParseBackendCapabilities (raw : option any) : option BackendDescriptor :=
  match raw with
  | Some (AMap m) =>
      if forallb capability_ok m
      then Some {| bd_BackendName := ""; bd_SupportedFormats := field m "supported_formats" dec_strs [];
                   bd_SupportedTasks := field m "supported_tasks" dec_strs [];
                   bd_SupportedCapabilities := field m "supported_capabilities" dec_strs [];
                   bd_ModelPathModes := field m "model_path_modes" dec_strs [];
                   bd_ServingProtocols := field m "serving_protocols" dec_strs [];
                   bd_BlockedArchitectures := field m "blocked_architectures" dec_str_map ∅ |}
      else None
  | _ => None
  end.

Definition no_capabilities (backendName : string) : BackendDescriptor :=
  {| bd_BackendName := backendName; bd_SupportedFormats := []; bd_SupportedTasks := []; bd_SupportedCapabilities := [];
     bd_ModelPathModes := []; bd_ServingProtocols := []; bd_BlockedArchitectures := ∅ |}.

Definition backend_capabilities (set : obj) (backendName : string) : BackendDescriptor :=
  match ParseBackendCapabilities (reread (AMap (configObject set "backend.capabilities"))) with
  | Some d =>
      match bd_SupportedFormats d with
      | [] => no_capabilities backendName
      | formats => {| bd_BackendName := backendName; bd_SupportedFormats := formats; bd_SupportedTasks := bd_SupportedTasks d;
                      bd_SupportedCapabilities := bd_SupportedCapabilities d; bd_ModelPathModes := bd_ModelPathModes d;
                      bd_ServingProtocols := bd_ServingProtocols d; bd_BlockedArchitectures := bd_BlockedArchitectures d |}
      end
  | None => no_capabilities backendName
  end.

(** ** The outcome *)

Inductive message :=
| Text (s : string)
| ResolverError (e : ResolveError)
| ResolverWarning (w : ResolveWarning).

Record PreflightError := { pe_Code : string; pe_Message : message; pe_Context : obj }.

(** The rows a deployment is resolved against; [pk_runtime] is empty when the
    template is unknown. *)
Record picked := {
  pk_deployment : deployment_doc; pk_artifact : artifact_doc; pk_runtime : runtime_doc; pk_nbr : nbr_doc; pk_location : location_doc;
  pk_accelerators : list string; pk_gpus : list GPUInfo; pk_node_ip : string
}.

Record preflightResult := {
  pr_errs : list PreflightError; pr_warns : list message; pr_preview : string; pr_picked : option picked;
  pr_params : gmap string any; pr_plan : option (ResolvedRunPlan * ParameterSourceMap); pr_lint : option LintResult
}.

Definition text_error (code msg : string) (context : obj) : PreflightError :=
  {| pe_Code := code; pe_Message := Text msg; pe_Context := context |}.

(** Findings collected before the resolution. *)
Record findings := { fi_errs : list PreflightError; fi_warns : list message; fi_preview : string }.

Definition refused (f : findings) (e : PreflightError) : preflightResult :=
  {| pr_errs := fi_errs f ++ [e]; pr_warns := fi_warns f; pr_preview := fi_preview f; pr_picked := None; pr_params := ∅;
     pr_plan := None; pr_lint := None |}.

Definition no_findings : findings := {| fi_errs := []; fi_warns := []; fi_preview := "" |}.

(** ** The context length check *)

Definition service_params (sv : ServiceInfo) : gmap string any :=
  let m := if (0 <? sv_AppPort sv)%Z
           then <["port" := AFloat (f64_of_Z (sv_AppPort sv))]> (<["--port" := AFloat (f64_of_Z (sv_AppPort sv))]> (∅ : gmap string any))
           else ∅ in
  if (0 <? sv_HostPort sv)%Z then <["--host-port" := AFloat (f64_of_Z (sv_HostPort sv))]> m else m.

(** The parameter and the flag a backend takes its context length from. *)
Definition context_names (backendName : string) : option (string * string) :=
  if Contains backendName "vllm" then Some ("max_model_len", "--max-model-len")
  else if Contains backendName "sglang" then Some ("context_length", "--context-length")
  else if Contains backendName "llamacpp" then Some ("ctx_size", "--ctx-size")
  else None.

Definition user_context (params : gmap string any) (names : option (string * string)) : Z * string :=
  match names with
  | None => (0%Z, "")
  | Some (name, flag) =>
      let v := match params !! name with Some v => intFromInterface v | None => 0%Z end in
      if (v =? 0)%Z then match params !! flag with Some v => (intFromInterface v, flag) | None => (0%Z, name) end else (v, name)
  end.

Definition context_info (code status param : string) (user model : Z) : string :=
  jq ("{`code`:`" +s+ code +s+ "`,`model_context`:" +s+ Itoa model +s+ ",`param_name`:`" +s+ param +s+ "`,`status`:`" +s+ status
      +s+ "`,`user_context`:" +s+ Itoa user +s+ "}").

Definition with_note (preview info : string) : string := preview +s+ String newline EmptyString +s+ "# context_validation: " +s+ info.

(** [rope]: whether the artifact document has an entry rope_scaling. *)
Definition validateContextLength (rope : bool) (backendName artifactID : string) (modelCtx : Z) (params : gmap string any) : findings :=
  let '(user, param) := user_context params (context_names backendName) in
  if (user =? 0)%Z then no_findings
  else if (modelCtx =? 0)%Z
  then {| fi_errs := [];
          fi_warns := [Text ("unknown_model_context_length: cannot validate user " +s+ param +s+ "=" +s+ Itoa user
                             +s+ " against model; model default_context_length is not set")];
          fi_preview := with_note "" (context_info "unknown_model_context_length" "warning" param user modelCtx) |}
  else if (user <=? modelCtx)%Z then no_findings
  else
    let msg := "user " +s+ param +s+ "=" +s+ Itoa user +s+ " exceeds model default_context_length=" +s+ Itoa modelCtx in
    if rope
    then {| fi_errs := []; fi_warns := [Text msg; Text "model has rope_scaling; extended context may be supported"];
            fi_preview := with_note "" (context_info "context_length_exceeded_with_rope" "warning" param user modelCtx) |}
    else {| fi_errs := [text_error "context_length_exceeded" msg
                          [("artifact_id", AStr artifactID); ("model_context", AInt modelCtx); ("param_name", AStr param); ("user_context", AInt user)]];
            fi_warns := []; fi_preview := with_note "" (context_info "context_length_exceeded" "error" param user modelCtx) |}.

(** ** The resolver's input *)

(** The first free device of the placement's node, when the placement names none. *)
Definition assigned_accelerators (dc : documents) (node : string) (ids : list string) : list string :=
  match ids with
  | [] => if node =s "" then []
          else match List.find (fun g => (gd_node g =s node) && (gd_status g =s "available")) (dc_gpus dc) with
               | Some g => if gd_id g =s "" then [] else [gd_id g]
               | None => []
               end
  | ids => ids
  end.

(** Devices that are not found are skipped. *)
Definition gpu_infos (dc : documents) (ids : list string) : list GPUInfo :=
  omap (fun id => (fun g => {| gi_Index := gd_index g; gi_Vendor := gd_vendor g |}) <$> by_id gd_id id (dc_gpus dc)) ids.

Definition deployment_set (d : deployment_doc) : obj := mapFromAny (AStr (dd_config_set d)).

Section Preflight.
Context `{MR : MapRange}.

Definition semanticDeploymentSnapshot (now : string) (set service : obj) : Snapshot :=
  let snapshot := NormalizeConfigSet DefaultRegistry set in
  let hostPort := api_intFromAny (get_any service "host_port") 0 in
  let containerPort := api_intFromAny (get_any service "container_port") 0 in
  let servedName := match obj_get service "served_model_name" with Some (AStr s) => s | _ => "" end in
  let fields :=
    (if (0 <? hostPort)%Z then [{| pf_Key := "deployment.host_port"; pf_Value := AInt hostPort; pf_Enabled := None |}] else [])
    ++ (if (0 <? containerPort)%Z then [{| pf_Key := "service.container_port"; pf_Value := AInt containerPort; pf_Enabled := None |}] else [])
    ++ (if servedName <>s "" then [{| pf_Key := "deployment.served_model_name"; pf_Value := AStr servedName; pf_Enabled := None |}] else []) in
  match fields with
  | [] => snapshot
  | _ => match ApplyPatch DefaultRegistry now snapshot fields with inr s => s | inl _ => snapshot end
  end.

Definition adapter_items (s : Snapshot) : gmap string snapshot_item :=
  (fun it => {| item_Value := it_Value it; item_Enabled := it_Enabled it; item_CopiedFrom := it_CopiedFrom it |}) <$> sn_Items s.

(** The definitions are written to JSON and read back. *)
Definition reread_defs (defs : list ParameterDef) : list ParameterDef :=
  default [] (mapM (fun d => v ← reread (pd_Default d);
                             Some {| pd_Name := pd_Name d; pd_CliName := pd_CliName d; pd_Alias := pd_Alias d; pd_Type := pd_Type d;
                                     pd_Default := v; pd_Required := pd_Required d |}) defs).

Definition health_obj (set : obj) : obj := reread_obj (configObject set "runtime.health").

Definition decode_health (m : obj) : HealthCheckInput :=
  {| hi_Path := field m "path" dec_str ""; hi_ExpectedStatus := field m "expected_status" dec_int 0%Z;
     hi_StartupTimeoutSeconds := field m "startup_timeout_seconds" dec_int 0%Z;
     hi_IntervalSeconds := field m "interval_seconds" dec_int 0%Z; hi_TimeoutSeconds := field m "timeout_seconds" dec_int 0%Z |}.

(** The version's check: the status falls back to the first of [success_status]. *)
Definition version_health (m : obj) : HealthCheckInput :=
  let hc := decode_health m in
  {| hi_Path := hi_Path hc;
     hi_ExpectedStatus := if (hi_ExpectedStatus hc =? 0)%Z then default 0%Z (head (successStatusFromRaw m)) else hi_ExpectedStatus hc;
     hi_StartupTimeoutSeconds := hi_StartupTimeoutSeconds hc; hi_IntervalSeconds := hi_IntervalSeconds hc;
     hi_TimeoutSeconds := hi_TimeoutSeconds hc |}.

Definition rtHCOverridePtr (hc : HealthCheckInput) : option HealthCheckInput := if hi_Path hc =s "" then None else Some hc.

Definition nbr_snapshot (set : obj) : NBRSnapshotInfo :=
  {| nbr_ArgsOverride := configStringSlice set "launcher.command"; nbr_DefaultEnv := configStringMap set "runtime.env";
     nbr_EntrypointOverride := configStringSlice set "launcher.entrypoint"; nbr_Docker := configDockerSpec set;
     nbr_ModelMount := configModelMount set; nbr_HealthCheckOverride := rtHCOverridePtr (decode_health (health_obj set));
     nbr_DeviceBinding := configDeviceBinding set; nbr_ServicePortBinding := configServicePortBinding set;
     nbr_ParameterSchema := reread_defs (configSetParameterDefs set); nbr_ParameterValues := configSetParameterValues set |}.

Definition version_info (rt : runtime_doc) (set : obj) : VersionInfo :=
  {| vi_ID := br_version rt; vi_Version := ""; vi_DefaultEntrypoint := configStringSlice set "launcher.entrypoint";
     vi_DefaultArgs := configStringSlice set "launcher.command"; vi_DefaultBackendParams := [];
     vi_ParameterDefs := reread_defs (configSetParameterDefs set); vi_HealthCheck := version_health (health_obj set);
     vi_DefaultContainerPort := api_intFromAny (configValue set "backend.common.port" (AInt 8000)) 8000;
     vi_DefaultImages := {[br_vendor rt := configString set "launcher.image" ""]}; vi_Env := configStringMap set "runtime.env";
     vi_VendorOptionsJSON := "{}" |}.

Definition runtime_info (pk : picked) (set : obj) : RuntimeInfo :=
  {| ri_ID := nb_runtime (pk_nbr pk); ri_Vendor := br_vendor (pk_runtime pk); ri_RuntimeType := br_type (pk_runtime pk);
     ri_LauncherKind := configLauncherKind set (br_type (pk_runtime pk)); ri_ImageName := configString set "launcher.image" "";
     ri_EntrypointOverride := configStringSlice set "launcher.entrypoint"; ri_ArgsOverride := configStringSlice set "launcher.command";
     ri_DefaultEnv := configStringMap set "runtime.env"; ri_Docker := configDockerSpec set; ri_ModelMount := configModelMount set;
     ri_HealthCheckOverride := rtHCOverridePtr (decode_health (health_obj set)) |}.

Definition artifact_info (pk : picked) : ArtifactInfo :=
  {| ai_ID := dd_artifact (pk_deployment pk); ai_Name := ad_name (pk_artifact pk); ai_Path := lo_absolute (pk_location pk);
     ai_ModelRoot := lo_root (pk_location pk); ai_RelativePath := lo_relative (pk_location pk) |}.

Definition deployment_info (pk : picked) : DeploymentInfo :=
  let d := pk_deployment pk in
  let sv := decode_service (dd_service d) in
  {| di_ID := dd_id d; di_Name := dd_name d; di_Parameters := service_params sv; di_EnvOverrides := ∅; di_ParameterValues := [];
     di_DisabledParameters := [];
     di_Placement := {| pl_NodeID := nb_node (pk_nbr pk); pl_AcceleratorIds := pk_accelerators pk; pl_AcceleratorSelectionMode := "";
                        pl_AcceleratorCount := 0; pl_DeviceBindingEnabled := None; pl_AllowAutoSelect := false |};
     di_Service := sv |}.

(** [instanceID] is drawn here and is not the one the start uses.  The adapter writes
    its parameters to the map the caller keeps. *)
Definition resolve_input (now instanceID : string) (pk : picked) : ResolveInput :=
  let set := deployment_set (pk_deployment pk) in
  let rt := pk_runtime pk in
  let sv := decode_service (dd_service (pk_deployment pk)) in
  ApplySemanticSnapshot
    {| in_Backend := {| bi_ID := br_backend rt; bi_Name := br_name rt; bi_DefaultVersion := ""; bi_DefaultEnv := ∅ |};
       in_BackendVersion := version_info rt set; in_BackendRuntime := runtime_info pk set; in_NodeRuntimeOverride := None;
       in_Artifact := artifact_info pk; in_Deployment := deployment_info pk; in_InstanceID := instanceID;
       in_Node := {| ni_ID := nb_node (pk_nbr pk); ni_IP := pk_node_ip pk |}; in_AssignedGPUs := pk_gpus pk;
       in_ProcessStartConfig := processStartConfigFromProbe (nb_probe (pk_nbr pk)); in_NBRConfigSnapshot := Some (nbr_snapshot set) |}
    (adapter_items (semanticDeploymentSnapshot now set
       [("container_port", AInt (sv_ContainerPort sv)); ("host_port", AInt (sv_HostPort sv))])) (br_name rt).

Context (input_hash : ResolveInput -> string) (plan_hash : ResolvedRunPlan -> string).

(** ** Compatibility *)

Definition model_descriptor (dc : documents) (a : artifact_doc) (locationID : string) : ModelDescriptor :=
  let loc := getModelLocation dc locationID in
  let declared := match loc with Some l => get_any (column_obj (lo_metadata l)) "deployable" | None => ANil end in
  {| md_Format := ad_format a; md_Task := ad_task_type a; md_Deployable := default true (as_bool declared);
     md_PathType := match loc with
                    | Some l => or_else (lo_path_type l) (if ad_format a =s "gguf" then "file" else "directory")
                    | None => "directory"
                    end;
     md_Architecture := ad_architecture a |}.

(** ** The resolution *)

Definition planRunplanDockerSpec (plan : ResolvedRunPlan) : DockerSpecInfo :=
  {| ds_Privileged := rp_Privileged plan; ds_IPCMode := rp_IPCMode plan; ds_UTSMode := ""; ds_NetworkMode := "";
     ds_ShmSize := rp_ShmSize plan; ds_GPUVisibleEnvKey := ""; ds_Ulimits := ∅; ds_SecurityOptions := rp_SecurityOptions plan;
     ds_CapAdd := rp_CapAdd plan; ds_CapDrop := rp_CapDrop plan; ds_Devices := []; ds_GroupAdd := []; ds_GpuDriver := "";
     ds_GpuCapabilities := [] |}.

Definition preflight_lint (backendName : string) (plan : ResolvedRunPlan) : LintResult :=
  LintRunPlan {| li_PreDedupArgs := []; li_FinalArgs := rp_Args plan; li_Env := rp_Env plan; li_PlatformOwnedParams := DefaultLogicalParamSpecs;
                 li_BackendName := backendName; li_DockerSpec := Some (planRunplanDockerSpec plan);
                 li_EnvSources := (fun _ => "platform") <$> rp_Env plan; li_RequiredParamKeys := []; li_DisabledParamKeys := [];
                 li_DisabledParamSources := ∅; li_ActiveParamKeys := []; li_Vendor := ""; li_BackendArgsSchema := [] |}.

Definition resolution (now instanceID : string) (f : findings) (pk : picked) : preflightResult :=
  let inp := resolve_input now instanceID pk in
  let '(plan, errs, warns) := ResolveWithSourceMap input_hash plan_hash inp in
  let errs := fi_errs f ++ map (fun e => {| pe_Code := "unknown"; pe_Message := ResolverError e; pe_Context := [] |}) errs in
  let warns := fi_warns f ++ map ResolverWarning warns in
  let params := di_Parameters (in_Deployment inp) in
  match plan with
  | Some (p, sources) =>
      {| pr_errs := errs; pr_warns := warns; pr_preview := RunPlanViews.EquivalentCommandPreview p; pr_picked := Some pk;
         pr_params := params; pr_plan := Some (p, sources); pr_lint := Some (preflight_lint (br_name (pk_runtime pk)) p) |}
  | None =>
      {| pr_errs := match errs with [] => [text_error "unknown" "runplan resolution returned no plan" []] | _ => errs end;
         pr_warns := warns; pr_preview := fi_preview f; pr_picked := Some pk; pr_params := params; pr_plan := None; pr_lint := None |}
  end.

Definition nbr_status (nb : option nbr_doc) : string := match nb with Some n => nb_status n | None => "" end.

Definition nbr_refusal (d : deployment_doc) (node : string) (nb : option nbr_doc) : PreflightError :=
  let reason := if nbr_status nb =s "" then "node_backend_runtime_id not found; recreate deployment with a valid NBR"
                else nbrDisabledReason (nbr_status nb) "" in
  text_error "node_backend_runtime_not_ready" reason
    [("nbr_status", AStr (nbr_status nb)); ("node_id", AStr (match nb with Some n => nb_node n | None => node end));
     ("node_runtime_id", AStr (dd_nbr d)); ("runtime_id", AStr (match nb with Some n => nb_runtime n | None => dd_runtime d end))].

Definition no_runtime : runtime_doc := {| br_id := ""; br_backend := ""; br_version := ""; br_vendor := ""; br_type := ""; br_name := "" |}.

(** The part of the check that follows the rows of the deployment and its artifact. *)
Definition preflight_artifact (dc : documents) (now instanceID : string) (d : deployment_doc) (a : artifact_doc) : preflightResult :=
  let '(node, ids) := decode_placement (dd_placement d) in
  let rt := default no_runtime (by_id br_id (dd_runtime d) (dc_runtimes dc)) in
  let f := validateContextLength false (br_name rt) (dd_artifact d) (ad_context_length a) (service_params (decode_service (dd_service d))) in
  let ip := match by_id no_id node (dc_nodes dc) with Some n => no_primary_ip n | None => "127.0.0.1" end in
  let accelerators := assigned_accelerators dc node ids in
  let nb := by_id nb_id (dd_nbr d) (dc_nbrs dc) in
  if negb (isNBRDeployable (nbr_status nb)) then refused f (nbr_refusal d node nb)
  else match nb with
       | None => refused f (nbr_refusal d node nb)
       | Some nb =>
           match findDeployableModelLocation dc (dd_artifact d) (nb_node nb) with
           | (None, reason) =>
               refused f (text_error "model_location_missing" reason
                            [("artifact_id", AStr (dd_artifact d)); ("node_id", AStr (nb_node nb))])
           | (Some loc, _) =>
               let compat := CheckCompatibility (model_descriptor dc a (lo_id loc)) (backend_capabilities (deployment_set d) (br_name rt)) in
               if negb (cr_Compatible compat)
               then refused f (text_error (cr_Code compat) (cr_Reason compat)
                                 [("artifact_id", AStr (dd_artifact d)); ("backend", AStr (br_name rt)); ("model_format", AStr (ad_format a));
                                  ("model_task", AStr (ad_task_type a))])
               else resolution now instanceID f
                      {| pk_deployment := d; pk_artifact := a; pk_runtime := rt; pk_nbr := nb; pk_location := loc;
                         pk_accelerators := accelerators; pk_gpus := gpu_infos dc accelerators; pk_node_ip := ip |}
           end
       end.

Definition preflightDeployment (dc : documents) (s : session) (now instanceID deployID : string) : preflightResult :=
  match by_id dd_id deployID (dc_deployments dc) with
  | None => refused no_findings (text_error "unknown" "deployment not found" [])
  | Some d =>
      if negb (tenantScopeCheck s (dd_tenant d)) then refused no_findings (text_error "unknown" "deployment not found" [])
      else if dd_artifact d =s ""
      then refused no_findings (text_error "unknown" "model_artifact_id is required" [("artifact_id", AStr "")])
      else if dd_nbr d =s ""
      then refused no_findings
             (text_error "node_backend_runtime_not_ready" "deployment has no node_backend_runtime_id reference; recreate with a valid NBR"
                [("deployment_id", AStr deployID)])
      else match by_id ad_id (dd_artifact d) (dc_artifacts dc) with
           | None => refused no_findings (text_error "model_location_missing" "model artifact not found" [("artifact_id", AStr (dd_artifact d))])
           | Some a => preflight_artifact dc now instanceID d a
           end
  end.
End Preflight.

(** ** The check without a deployment (preflight_handlers.go) *)

Inductive check_response :=
| CheckBadRequest (msg : string)
| Checked (can_run : bool) (candidate_nodes errors warnings : list any).

Definition fieldPath (field : string) : any := if field =s "" then ANil else AStrs (Split field ".").

Definition errEntry (code msg field severity : string) : any :=
  AMap [("blocking", ABool (severity =s "error")); ("code", AStr code); ("field", AStr field); ("key", AStr field); ("message", AStr msg);
        ("path", fieldPath field); ("reason", AStr msg); ("severity", AStr severity); ("source", AStr "preflight")].

Definition entry4 (code msg field severity : string) : any :=
  AMap [("code", AStr code); ("field", AStr field); ("message", AStr msg); ("severity", AStr severity)].

(** [intVal(m, key, def)] *)
Definition api_intVal (m : obj) (key : string) (def : Z) : Z :=
  match obj_get m key with Some (AFloat f) => f64_to_int f | Some (AInt z) => z | _ => def end.

Definition free_gpus (dc : documents) (node : string) : list gpu_doc :=
  List.filter (fun g => (gd_node g =s node) && (gd_status g =s "available")) (dc_gpus dc).

(** The answers once the node runtime is known to be ready. *)
Definition check_ready (dc : documents) (s : session) (body : obj) (artifactID : string) (nb : nbr_doc) : check_response :=
  let node := nb_node nb in
  let asked := field body "node_id" dec_str "" in
  let warnings := if nb_status nb =s "ready_with_warnings"
                  then [entry4 "nbr_ready_with_warnings" "NBR is ready with warnings — deployment may succeed but has non-blocking issues"
                          "node_backend_runtime_id" "warning"] else [] in
  if (asked <>s "") && (asked <>s node) then CheckBadRequest "node_id does not match node_backend_runtime_id node"
  else
    let errors := match obj_get body "replicas" with
                  | Some _ => if (1 <? api_intVal body "replicas" 1)%Z
                              then [errEntry "replicas_unsupported" "multi-replica deployments are not yet supported" "replicas" "error"] else []
                  | None => []
                  end in
    match findDeployableModelLocation dc artifactID node with
    | (None, reason) => Checked false [] [entry4 "model_location_missing" reason "model_artifact_id" "error"] warnings
    | (Some _, _) =>
        let owner := match by_id no_id node (dc_nodes dc) with Some n => no_tenant n | None => "" end in
        if negb (s_admin s) && (owner <>s s_tenant s) && (owner <>s "")
        then Checked false [] [entry4 "tenant_mismatch" "tenant does not have access to the NBR's node" "node_id" "error"] warnings
        else
          let warnings := warnings ++ match free_gpus dc node with
                                      | [] => [entry4 "no_available_gpu" "no available GPU found on node" "node_id" "warning"]
                                      | _ => []
                                      end in
          Checked (match errors with [] => true | _ => false end) [AMap [("node_id", AStr node); ("status", AStr (nb_status nb))]] errors warnings
    end.

(** [body] is the decoded request: [None] when it is not an object. *)
Definition HandlePreflightDeployments (dc : documents) (s : session) (body : option obj) : check_response :=
  match body with
  | None => CheckBadRequest "invalid request"
  | Some body =>
      match obj_get body "backend_runtime_id" with
      | Some _ => CheckBadRequest "BackendRuntime is a template and cannot be used for deployment. Use node_backend_runtime_id."
      | None =>
          let artifactID := field body "model_artifact_id" dec_str "" in
          let nbrID := field body "node_backend_runtime_id" dec_str "" in
          if artifactID =s "" then CheckBadRequest "model_artifact_id is required"
          else if nbrID =s "" then CheckBadRequest "node_backend_runtime_id is required"
          else match by_id nb_id nbrID (dc_nbrs dc) with
               | None => CheckBadRequest "node_backend_runtime_id not found"
               | Some nb =>
                   if negb (isNBRDeployable (nb_status nb))
                   then Checked false []
                          [entry4 "nbr_not_deployable" ("NBR status=" +s+ nb_status nb +s+ ": " +s+ nbrDisabledReason (nb_status nb) "")
                             "node_backend_runtime_id" "error"] []
                   else check_ready dc s body artifactID nb
               end
      end
  end.

(** ** The dry run (HandleDeploymentDryRun) *)

Record dry_run := {
  dr_valid : bool; dr_errors : list PreflightError; dr_warnings : list message; dr_plan : option (ResolvedRunPlan * ParameterSourceMap);
  dr_command : string; dr_lint : option LintResult
}.

Definition lint_note (f : LintFinding) : list message :=
  if (lf_Severity f =s LintSeverityError) || (lf_Severity f =s LintSeverityWarning) || (lf_Severity f =s LintSeverityAdvisory)
  then [Text ("[lint] " +s+ lf_ID f +s+ ": " +s+ lf_Message f)] else [].

Definition HandleDeploymentDryRun (pr : preflightResult) : dry_run :=
  {| dr_valid := match pr_errs pr with [] => true | _ => false end; dr_errors := pr_errs pr;
     dr_warnings := pr_warns pr ++ match pr_lint pr with Some l => concat (map lint_note (lr_Findings l)) | None => [] end;
     dr_plan := pr_plan pr; dr_command := match pr_plan pr with Some _ => pr_preview pr | None => "" end; dr_lint := pr_lint pr |}.

(** ** The start (HandleStartDeployment)

    The payload of the task is the agent's specification; its JSON text is the
    parameter [encode]. *)

Definition variables_text (names : list string) : string := "undefined variable(s): " +s+ GoStrings.Join names ", ".

Definition resolve_error_text (e : ResolveError) : string :=
  match e with
  | UnsupportedLauncherKind k => "unsupported launcher kind: " +s+ k +s+ " (only docker is supported)"
  | NoImageAvailable v => "no image available: configure launcher.image in the runtime ConfigSet for vendor " +s+ v
  | SnapshotMissing => "node backend runtime parameter snapshot is missing; recreate node backend runtime or rebuild database"
  | UndefinedVariables names => variables_text names
  | EmptyParameterValue c => "parameter " +s+ Quote c +s+ " is enabled but has empty value; provide a value or disable the parameter"
  | ParameterRenderError c names => "parameter " +s+ Quote c +s+ ": " +s+ variables_text names
  | DeploymentProtectedParameter c =>
      "deployment parameter " +s+ Quote c +s+ " is protected and cannot be overridden by deployment; modify at NBR or BackendRuntime layer"
  | DeploymentEmptyParameterValue c =>
      "deployment parameter " +s+ Quote c +s+ " is enabled but has empty value; provide a value or disable the parameter"
  | DeploymentParameterRenderError c names => "deployment parameter " +s+ Quote c +s+ ": " +s+ variables_text names
  | RequiredParameterMissing n => "required parameter " +s+ Quote n +s+ " missing"
  | RelativePathEmpty => "model relative_path is empty"
  | RelativePathDotDot p => "model relative_path is invalid: " +s+ Quote p +s+ " (must not contain ..)"
  | RelativePathAbsolute p => "model relative_path must not be absolute: " +s+ Quote p
  | MountEscapes p c => "container model path escapes mount dir: " +s+ Quote p +s+ " (cleaned: " +s+ Quote c +s+ ")"
  end.

Definition resolve_warning_text (w : ResolveWarning) : string :=
  match w with
  | EnvSnapshotMissing => "node backend runtime parameter snapshot is missing; env will be empty"
  | EnvUndefinedVariables k names => "env " +s+ k +s+ ": " +s+ variables_text names
  | EnvEmptyValue n => "env parameter " +s+ Quote n +s+ " is enabled but has empty value; provide a value or disable the parameter"
  | EnvOverrideUndefinedVariables k names => "env_overrides " +s+ k +s+ ": " +s+ variables_text names
  end.

Definition message_text (m : message) : string :=
  match m with Text s => s | ResolverError e => resolve_error_text e | ResolverWarning w => resolve_warning_text w end.

Definition start_context (ids : start_ids) (params : gmap string any) (pk : picked) : StartContext :=
  let d := pk_deployment pk in
  {| sc_OperationID := si_operation ids; sc_InstanceID := si_instance ids; sc_DeploymentID := dd_id d; sc_NodeID := nb_node (pk_nbr pk);
     sc_BackendName := br_name (pk_runtime pk); sc_Vendor := br_vendor (pk_runtime pk); sc_AbsolutePath := lo_absolute (pk_location pk);
     sc_ServedModelName := default (ad_name (pk_artifact pk)) (v ← params !! "served_model_name"; as_str v); sc_GpuInfos := pk_gpus pk;
     sc_HealthPort := sv_HealthPort (decode_service (dd_service d));
     sc_HealthTimeoutSeconds := planHealthTimeout2 (health_obj (deployment_set d)) |}.

(** What the transaction of the start writes. *)
Definition start_rows (encode : AgentRunSpec -> string) (ids : start_ids) (pr : preflightResult) (pk : picked) (plan : ResolvedRunPlan) : preflight :=
  {| pf_tenant := dd_tenant (pk_deployment pk); pf_node := nb_node (pk_nbr pk); pf_accelerators := pk_accelerators pk;
     pf_host_port := rp_HostPort plan; pf_container_port := rp_ContainerPort plan;
     pf_agent_payload := encode (ConvertRunplanToAgentSpec (start_plan_input (start_context ids (pr_params pr) pk) plan));
     pf_preview := pr_preview pr |}.

(** Without errors there is a plan ([preflight_accepts]); a nil plan would panic. *)
Definition start_preflight (encode : AgentRunSpec -> string) (ids : start_ids) (pr : preflightResult) : preflight + list string :=
  match pr_errs pr, pr_picked pr, pr_plan pr with
  | [], Some pk, Some (plan, _) => inl (start_rows encode ids pr pk plan)
  | errs, _, _ => inr (map (fun e => message_text (pe_Message e)) errs)
  end.

Section Start.
Context `{MR : MapRange} `{SO : SqlOrder} (input_hash : ResolveInput -> string) (plan_hash : ResolvedRunPlan -> string) (encode : AgentRunSpec -> string).

Definition StartDeployment (dc : documents) (s : session) (clock resolved_as deployID : string) (ids : start_ids) (now : Z) (db : DB) :
    start_response * DB :=
  HandleStartDeployment s deployID
    (start_preflight encode ids (preflightDeployment input_hash plan_hash dc s clock resolved_as deployID)) ids now db.
End Start.
