(* ===== verification/PreflightProps.v ===== *)
(** * What the validation before a start guarantees

    The check accepts exactly what can be resolved, and a start that is answered
    with a task carries a plan that was resolved without errors. *)
From S2P Require Import Prelude GoStrings GoNumbers GoValue GoJson GoJsonText RuntimeContract RunPlanTypes ConfigSets Catalog CatalogLoad CatalogProps Resolver SourceMap.
From S2P Require Import Store Deployments LifecycleProps SemanticAdapter SemanticRegistry SemanticConfig AgentSpec Preflight.
From Stdlib Require Import Ascii.

(** ** Properties *)

Lemma service_params_keys sv k :
  k <> "port" -> k <> "--port" -> k <> "--host-port" -> service_params sv !! k = None.
Proof.
  intros H1 H2 H3. unfold service_params. destruct (0 <? sv_HostPort sv)%Z; [rewrite lookup_insert_ne by congruence|].
  all: destruct (0 <? sv_AppPort sv)%Z; [rewrite !lookup_insert_ne by congruence|]; apply lookup_empty.
Qed.

(** The parameters the check looks at are those made from the service ports, which are
    never the ones that carry a context length: the check cannot report anything. *)
Theorem context_check_never_fires rope backendName artifactID modelCtx sv :
  validateContextLength rope backendName artifactID modelCtx (service_params sv) = no_findings.
Proof.
  unfold validateContextLength.
  assert (exists param, user_context (service_params sv) (context_names backendName) = (0%Z, param)) as [param ->].
  { unfold user_context, context_names. repeat case_match; simplify_eq; rewrite ?service_params_keys in * by congruence; simplify_eq/=; by eexists. }
  reflexivity.
Qed.

(** A status declared under success_status is not used: with a path the runtime's
    check, which leaves it out, takes precedence. *)
Theorem success_status_ignored `{MR : MapRange} now instanceID pk :
  let inp := resolve_input now instanceID pk in
  let hc := decode_health (health_obj (deployment_set (pk_deployment pk))) in
  hi_Path hc <> "" -> hc_ExpectedStatus (buildHealthCheck inp) = or_default (hi_ExpectedStatus hc) 200.
Proof.
  cbv zeta. intros Hp. destruct (buildHealthCheck_defaults (resolve_input now instanceID pk)) as (_ & _ & H).
  cbn [resolve_input ApplySemanticSnapshot in_BackendRuntime runtime_info ri_HealthCheckOverride] in H. unfold rtHCOverridePtr in H.
  apply String.eqb_neq in Hp as Hp'. rewrite Hp' in H. by apply H in Hp as [-> _].
Qed.

Section Accept.
Context `{MR : MapRange} (input_hash : ResolveInput -> string) (plan_hash : ResolvedRunPlan -> string).

(** What a deployment must refer to. *)
Record deployable (dc : documents) (s : session) (deployID : string) (pk : picked) : Prop := {
  dp_deployment : by_id dd_id deployID (dc_deployments dc) = Some (pk_deployment pk);
  dp_tenant : tenantScopeCheck s (dd_tenant (pk_deployment pk)) = true;
  dp_artifact_id : dd_artifact (pk_deployment pk) <> "";
  dp_nbr_id : dd_nbr (pk_deployment pk) <> "";
  dp_artifact : by_id ad_id (dd_artifact (pk_deployment pk)) (dc_artifacts dc) = Some (pk_artifact pk);
  dp_runtime : pk_runtime pk = default no_runtime (by_id br_id (dd_runtime (pk_deployment pk)) (dc_runtimes dc));
  dp_nbr : by_id nb_id (dd_nbr (pk_deployment pk)) (dc_nbrs dc) = Some (pk_nbr pk);
  dp_nbr_ready : isNBRDeployable (nb_status (pk_nbr pk)) = true;
  dp_location : List.find (location_deployable (nb_node (pk_nbr pk)))
                  (listModelLocations dc (dd_artifact (pk_deployment pk))) = Some (pk_location pk);
  dp_compatible : cr_Compatible (CheckCompatibility (model_descriptor dc (pk_artifact pk) (lo_id (pk_location pk)))
                                  (backend_capabilities (deployment_set (pk_deployment pk)) (br_name (pk_runtime pk)))) = true;
  dp_accelerators : pk_accelerators pk = assigned_accelerators dc (decode_placement (dd_placement (pk_deployment pk))).1
                                           (decode_placement (dd_placement (pk_deployment pk))).2;
  dp_gpus : pk_gpus pk = gpu_infos dc (pk_accelerators pk);
  dp_ip : pk_node_ip pk = match by_id no_id (decode_placement (dd_placement (pk_deployment pk))).1 (dc_nodes dc) with
                          | Some n => no_primary_ip n | None => "127.0.0.1" end
}.

Lemma refused_errs f e : pr_errs (refused f e) <> [].
Proof. cbn. by destruct (fi_errs f). Qed.

Lemma resolution_accepts now instanceID pk pr :
  resolution input_hash plan_hash now instanceID no_findings pk = pr -> pr_errs pr = [] ->
  exists plan sources warns,
    ResolveWithSourceMap input_hash plan_hash (resolve_input now instanceID pk) = (Some (plan, sources), [], warns)
    /\ pr_picked pr = Some pk /\ pr_plan pr = Some (plan, sources)
    /\ pr_params pr = di_Parameters (in_Deployment (resolve_input now instanceID pk)).
Proof.
  unfold resolution. destruct (ResolveWithSourceMap _ _ _) as [[[[plan sources]|] errs] warns]; cbn [fi_errs no_findings app];
    intros <-; cbn [pr_errs].
  - intros H%map_eq_nil. subst errs. by exists plan, sources, warns.
  - by destruct errs.
Qed.

Lemma picked_eta pk :
  {| pk_deployment := pk_deployment pk; pk_artifact := pk_artifact pk; pk_runtime := pk_runtime pk; pk_nbr := pk_nbr pk;
     pk_location := pk_location pk; pk_accelerators := pk_accelerators pk; pk_gpus := pk_gpus pk; pk_node_ip := pk_node_ip pk |} = pk.
Proof. by destruct pk. Qed.

Lemma preflight_artifact_deployable dc s now instanceID deployID pk :
  deployable dc s deployID pk ->
  preflight_artifact input_hash plan_hash dc now instanceID (pk_deployment pk) (pk_artifact pk)
  = resolution input_hash plan_hash now instanceID no_findings pk.
Proof.
  intros D. unfold preflight_artifact. destruct (decode_placement (dd_placement (pk_deployment pk))) as [node ids] eqn:Ep.
  rewrite context_check_never_fires, (dp_nbr _ _ _ _ D). cbn [nbr_status]. rewrite (dp_nbr_ready _ _ _ _ D). cbn [negb].
  unfold findDeployableModelLocation. rewrite (dp_location _ _ _ _ D), <- (dp_runtime _ _ _ _ D), (dp_compatible _ _ _ _ D). cbn [negb].
  pose proof (dp_accelerators _ _ _ _ D) as Ha. pose proof (dp_ip _ _ _ _ D) as Hi. rewrite Ep in Ha, Hi. cbn in Ha, Hi.
  by rewrite <- Ha, <- Hi, <- (dp_gpus _ _ _ _ D), picked_eta.
Qed.

Lemma preflight_accepted dc s now instanceID deployID :
  let pr := preflightDeployment input_hash plan_hash dc s now instanceID deployID in
  pr_errs pr = [] ->
  exists pk plan sources warns, deployable dc s deployID pk
    /\ ResolveWithSourceMap input_hash plan_hash (resolve_input now instanceID pk) = (Some (plan, sources), [], warns)
    /\ pr_picked pr = Some pk /\ pr_plan pr = Some (plan, sources)
    /\ pr_params pr = di_Parameters (in_Deployment (resolve_input now instanceID pk)).
Proof.
  cbv zeta. intros H. unfold preflightDeployment in *. destruct (by_id dd_id deployID _) as [d|] eqn:Ed; [|by destruct (refused_errs _ _ H)].
  destruct (tenantScopeCheck s (dd_tenant d)) eqn:Et; cbn [negb] in *; [|by destruct (refused_errs _ _ H)].
  destruct (dd_artifact d =s "") eqn:Ea; [by destruct (refused_errs _ _ H)|]. destruct (dd_nbr d =s "") eqn:En; [by destruct (refused_errs _ _ H)|].
  destruct (by_id ad_id _ _) as [a|] eqn:Ear; [|by destruct (refused_errs _ _ H)].
  unfold preflight_artifact in *. destruct (decode_placement (dd_placement d)) as [node ids] eqn:Ep. rewrite context_check_never_fires in *.
  destruct (isNBRDeployable _) eqn:Er; cbn [negb] in *; [|by destruct (refused_errs _ _ H)].
  destruct (by_id nb_id _ _) as [nb|] eqn:Enb; [|by destruct (refused_errs _ _ H)]. cbn [nbr_status] in Er.
  unfold findDeployableModelLocation in *. destruct (List.find _ _) as [loc|] eqn:El; [|by destruct (refused_errs _ _ H)].
  destruct (cr_Compatible _) eqn:Ec; cbn [negb] in *; [|by destruct (refused_errs _ _ H)].
  bool_facts. destruct (resolution_accepts _ _ _ _ eq_refl H) as (plan & sources & warns & Hr & Hk & Hp & Hq).
  eexists _, plan, sources, warns. split; [|split; [exact Hr|done]]. split; cbn -[decode_placement]; rewrite ?Ep; done.
Qed.

(** The validation accepts exactly the deployments that can be resolved: the
    deployment is the caller's, its artifact exists, its node runtime is ready, the
    artifact has a verified location on the node of the runtime, the backend's declared
    capabilities fit the model, and the plan resolved from the deployment's frozen
    configuration set has no errors; the answer then carries that plan and those rows. *)
Theorem preflight_accepts dc s now instanceID deployID :
  let pr := preflightDeployment input_hash plan_hash dc s now instanceID deployID in
  pr_errs pr = [] <->
  exists pk plan sources warns, deployable dc s deployID pk
    /\ ResolveWithSourceMap input_hash plan_hash (resolve_input now instanceID pk) = (Some (plan, sources), [], warns)
    /\ pr_picked pr = Some pk /\ pr_plan pr = Some (plan, sources)
    /\ pr_params pr = di_Parameters (in_Deployment (resolve_input now instanceID pk)).
Proof.
  cbv zeta. split.
  - apply preflight_accepted.
  - intros (pk & plan & sources & warns & D & Hr & _). unfold preflightDeployment.
    rewrite (dp_deployment _ _ _ _ D), (dp_tenant _ _ _ _ D). cbn [negb].
    rewrite (proj2 (String.eqb_neq _ _) (dp_artifact_id _ _ _ _ D)), (proj2 (String.eqb_neq _ _) (dp_nbr_id _ _ _ _ D)), (dp_artifact _ _ _ _ D).
    rewrite (preflight_artifact_deployable _ _ now instanceID _ _ D). unfold resolution. by rewrite Hr.
Qed.
End Accept.

(** ** Derived capabilities

    A catalogue version without capabilities_detail declares no path mode, so that no
    model fits: every deployment of it is refused. *)
Theorem derived_capabilities_refuse b v set backendName m :
  configObject set "backend.capabilities" = default [] (as_map (derived_capabilities b v)) ->
  cr_Compatible (CheckCompatibility m (backend_capabilities set backendName)) = false.
Proof.
  intros Hs. assert (bd_ModelPathModes (backend_capabilities set backendName) = []) as Hm.
  { unfold backend_capabilities. rewrite Hs. destruct (ParseBackendCapabilities _) as [d|] eqn:E; [|done].
    assert (bd_ModelPathModes d = []) as Hd; [|by destruct (bd_SupportedFormats d)].
    cbn [derived_capabilities as_map default from_option] in E. rewrite reread_map in E.
    match type of E with ParseBackendCapabilities (AMap <$> reread_fields ?l) = _ => set (o := l) in E end.
    destruct (reread_fields o) as [o'|] eqn:Ho; [|done]. cbn in E. destruct (forallb capability_ok o'); [|done]. injection E as <-. cbn.
    apply field_absent, Forall_forall. intros kv Hkv. apply reread_fields_keys in Ho.
    assert (kv.1 ∈ map fst o) as Hin by (rewrite <- Ho; by apply list_elem_of_fmap_2). unfold o in Hin. cbn in Hin.
    repeat (apply elem_of_cons in Hin as [->|Hin]; [by vm_compute|]). by apply not_elem_of_nil in Hin. }
  unfold CheckCompatibility. rewrite Hm. repeat case_match; done.
Qed.

(** ** The start *)

Section Start.
Context `{MR : MapRange} `{SO : SqlOrder} (input_hash : ResolveInput -> string) (plan_hash : ResolvedRunPlan -> string) (encode : AgentRunSpec -> string).

(** C4. A start that answers with a task was validated: the deployment refers to rows that
    can be deployed, its plan was resolved from its frozen configuration set without
    errors, and exactly one instance on the node of its node runtime, one lease per
    assigned device and one task, whose payload is the agent's specification of that
    plan, were added; no other answer changes a table. *)
Theorem start_is_validated dc s clock resolved_as deployID ids now db resp db' :
  StartDeployment input_hash plan_hash encode dc s clock resolved_as deployID ids now db = (resp, db') ->
  match resp with
  | Started inst task _ =>
      exists pk plan sources warns p, deployable dc s deployID pk
        /\ ResolveWithSourceMap input_hash plan_hash (resolve_input clock resolved_as pk) = (Some (plan, sources), [], warns)
        /\ pf_node p = nb_node (pk_nbr pk) /\ pf_accelerators p = pk_accelerators pk /\ pf_tenant p = dd_tenant (pk_deployment pk)
        /\ pf_agent_payload p = encode (ConvertRunplanToAgentSpec (start_plan_input (start_context ids
                                  (di_Parameters (in_Deployment (resolve_input clock resolved_as pk))) pk) plan))
        /\ activeDeploymentRun deployID db = NotActive
        /\ db_instances db' = db_instances db ++ [new_instance ids deployID p now]
        /\ db_leases db' = db_leases db ++ zip_with (new_lease ids deployID p now) (si_leases ids) (pf_accelerators p)
        /\ db_tasks db' = db_tasks db ++ [new_task task "model_instance_start" (pf_tenant p) deployID inst (pf_node p)
                                            (pf_agent_payload p) 300 (si_operation ids) now]
  | _ => db' = db
  end.
Proof.
  unfold StartDeployment, HandleStartDeployment. destruct (activeDeploymentRun deployID db) eqn:Ea; [|by intros [= <- <-]].
  set (pr := preflightDeployment _ _ _ _ _ _ _). destruct (start_preflight encode ids pr) as [p|errs] eqn:Ep; [|by intros [= <- <-]].
  destruct (start_transaction ids deployID p now db) as [db1|] eqn:E; [|by intros [= <- <-]]. intros [= <- <-].
  unfold start_preflight in Ep. destruct (pr_errs pr) eqn:He; [|done].
  destruct (preflight_accepted input_hash plan_hash dc s clock resolved_as deployID He) as (pk & plan & sources & warns & D & Hr & Hpk & Hpl & Hpa).
  fold pr in Hpk, Hpl, Hpa. rewrite Hpk, Hpl in Ep. injection Ep as <-. apply start_transaction_Some in E as (_ & _ & _ & Hi & Hl & Ht & _).
  exists pk, plan, sources, warns, (start_rows encode ids pr pk plan). cbn [start_rows pf_node pf_accelerators pf_tenant pf_agent_payload] in *.
  rewrite <- Hpa. by split_and!.
Qed.
End Start.

(** ** The check without a deployment *)

(** The check without a deployment agrees with the validation: for a deployment that
    passes it, a request for the same artifact and node runtime, with neither a node nor
    replicas of its own, can run exactly when the caller may use the node, and the answer
    names the node the instance would be placed on. *)
Theorem check_agrees `{MR : MapRange} dc s deployID pk body :
  deployable dc s deployID pk ->
  obj_get body "backend_runtime_id" = None -> obj_get body "replicas" = None ->
  field body "model_artifact_id" dec_str "" = dd_artifact (pk_deployment pk) ->
  field body "node_backend_runtime_id" dec_str "" = dd_nbr (pk_deployment pk) -> field body "node_id" dec_str "" = "" ->
  let owner := match by_id no_id (nb_node (pk_nbr pk)) (dc_nodes dc) with Some n => no_tenant n | None => "" end in
  exists nodes errors warnings,
    HandlePreflightDeployments dc s (Some body)
    = Checked (bool_decide (s_admin s = true \/ owner = s_tenant s \/ owner = "")) nodes errors warnings
    /\ ((s_admin s = true \/ owner = s_tenant s \/ owner = "") ->
        errors = [] /\ nodes = [AMap [("node_id", AStr (nb_node (pk_nbr pk))); ("status", AStr (nb_status (pk_nbr pk)))]]).
Proof.
  intros D Hl Hrep Ha Hn Hnode owner. unfold HandlePreflightDeployments. rewrite Hl, Ha, Hn.
  rewrite (proj2 (String.eqb_neq _ _) (dp_artifact_id _ _ _ _ D)), (proj2 (String.eqb_neq _ _) (dp_nbr_id _ _ _ _ D)), (dp_nbr _ _ _ _ D).
  rewrite (dp_nbr_ready _ _ _ _ D). cbn [negb]. unfold check_ready. rewrite Hnode, Hrep. cbn [negb andb String.eqb].
  unfold findDeployableModelLocation. rewrite (dp_location _ _ _ _ D). fold owner.
  assert (negb (s_admin s) && (owner <>s s_tenant s) && (owner <>s "") = negb (bool_decide (s_admin s = true \/ owner = s_tenant s \/ owner = ""))) as ->.
  { destruct (s_admin s); cbn; [by rewrite bool_decide_true by tauto|]. destruct (String.eqb_spec owner (s_tenant s)) as [Ho|Ho]; cbn.
    - by rewrite bool_decide_true by tauto.
    - destruct (String.eqb_spec owner "") as [He|He]; cbn; [by rewrite bool_decide_true by tauto|]. rewrite bool_decide_false; [done|]. intros [?|[?|?]]; done. }
  case_bool_decide as H; cbn [negb]; eexists _, _, _; (split; [reflexivity|]); done.
Qed.

(** ** Concrete documents *)

Section Demo.
#[local] Existing Instance canonical_range.
#[local] Existing Instance stable_order.

Definition demo_column : string := jq
  "{`items`: {`launcher.image`: {`value`: {`effective_value`: `vllm:1`}},
     `launcher.command`: {`value`: {`effective_value`: [`serve`, `{{MODEL_CONTAINER_PATH}}`]}},
     `runtime.health`: {`value`: {`effective_value`: {`path`: `/health`, `success_status`: [204]}}},
     `runtime.device_binding`: {`value`: {`effective_value`: {`mode`: `explicit`, `enabled`: true}}},
     `backend.capabilities`: {`value`: {`effective_value`: {`supported_formats`: [`huggingface`], `supported_tasks`: [`chat`],
       `model_path_modes`: [`directory`]}}}}}".

Definition demo_deployment (placement : string) : deployment_doc :=
  {| dd_id := "d1"; dd_name := "qwen"; dd_tenant := "t0"; dd_artifact := "m1"; dd_runtime := "rt1"; dd_nbr := "nb1";
     dd_placement := placement; dd_service := jq "{`host_port`: 8001, `app_port`: 8000}"; dd_config_set := demo_column |}.

Definition demo_documents (placement : string) : documents :=
  {| dc_deployments := [demo_deployment placement];
     dc_artifacts := [{| ad_id := "m1"; ad_name := "qwen"; ad_display_name := ""; ad_path := "/data/qwen"; ad_format := "huggingface"; ad_task_type := "chat";
                         ad_architecture := "Qwen2"; ad_context_length := 4096 |}];
     dc_runtimes := [{| br_id := "rt1"; br_backend := "backend.vllm"; br_version := "v1"; br_vendor := "nvidia"; br_type := "docker"; br_name := "vllm" |}];
     dc_nbrs := [{| nb_id := "nb1"; nb_status := "ready"; nb_runtime := "rt1"; nb_node := "n1"; nb_probe := "{}" |}];
     dc_gpus := [{| gd_id := "gpu9"; gd_node := "n2"; gd_status := "available"; gd_index := 3; gd_vendor := "nvidia" |};
                 {| gd_id := "gpu0"; gd_node := "n1"; gd_status := "available"; gd_index := 0; gd_vendor := "nvidia" |}];
     dc_locations := [{| lo_id := "l1"; lo_artifact := "m1"; lo_node := "n1"; lo_path_type := "directory"; lo_root := "/data"; lo_relative := "qwen";
                         lo_absolute := "/data/qwen"; lo_metadata := "{}"; lo_match := "exact_match"; lo_verification := "verified";
                         lo_last_error := "" |}];
     dc_nodes := [{| no_id := "n1"; no_primary_ip := "10.0.0.1"; no_tenant := "t9" |}; {| no_id := "n2"; no_primary_ip := "10.0.0.2"; no_tenant := "t0" |}] |}.

Definition demo_check (placement : string) : preflightResult :=
  preflightDeployment hash_stub hash_stub (demo_documents placement) run_session "t" "x" "d1".

Lemma preflight_accepts_witness :
  exists pk, deployable (demo_documents (jq "{`node_id`: `n1`}")) run_session "d1" pk /\ pk_accelerators pk = ["gpu0"].
Proof.
  destruct (proj1 (preflight_accepts hash_stub hash_stub (demo_documents (jq "{`node_id`: `n1`}")) run_session "t" "x" "d1"))
    as (pk & plan & sources & warns & D & _ & Hp & _).
  - vm_compute. reflexivity.
  - exists pk. split; [exact D|]. rewrite (dp_accelerators _ _ _ _ D). vm_compute in Hp. injection Hp as <-. vm_compute. reflexivity.
Defined.

Lemma check_agrees_witness :
  exists nodes warnings, HandlePreflightDeployments (demo_documents "null") {| s_user := "u"; s_tenant := "t0"; s_admin := true; s_perms := [] |}
    (Some [("model_artifact_id", AStr "m1"); ("node_backend_runtime_id", AStr "nb1")]) = Checked true nodes [] warnings.
Proof.
  destruct (preflight_accepted hash_stub hash_stub (demo_documents "null") {| s_user := "u"; s_tenant := "t0"; s_admin := true; s_perms := [] |}
              "t" "x" "d1") as (pk & plan & sources & warns & D & _); [vm_compute; reflexivity|].
  assert (pk_deployment pk = demo_deployment "null") as Hd by (apply (inj Some); by rewrite <- (dp_deployment _ _ _ _ D)).
  destruct (check_agrees _ _ _ _ [("model_artifact_id", AStr "m1"); ("node_backend_runtime_id", AStr "nb1")] D)
    as (nodes & errors & warnings & Hc & He); try (rewrite ?Hd; reflexivity).
  destruct He as [-> _]; [by left|]. exists nodes, warnings. rewrite Hc.
  rewrite bool_decide_true; [reflexivity|by left].
Defined.

(** A patched placement that names another node: the device reserved is that node's,
    while the instance runs on the node of the node runtime. *)
Example device_of_another_node :
  (fun pk => (pk_accelerators pk, nb_node (pk_nbr pk), pk_node_ip pk)) <$> pr_picked (demo_check (jq "{`node_id`: `n2`}"))
  = Some (["gpu9"], "n1", "10.0.0.2") /\ pr_errs (demo_check (jq "{`node_id`: `n2`}")) = [].
Proof. split; vm_compute; reflexivity. Qed.

(** The check without a deployment refuses the node of another tenant; the start of a
    deployment on that node is accepted. *)
Example node_of_another_tenant :
  (match HandlePreflightDeployments (demo_documents (jq "{`node_id`: `n1`}")) run_session
           (Some [("model_artifact_id", AStr "m1"); ("node_backend_runtime_id", AStr "nb1")]) with
   | Checked can_run _ errors _ => (can_run, map (fun e => get_any (default [] (as_map e)) "code") errors)
   | CheckBadRequest _ => (true, [])
   end, pr_errs (demo_check (jq "{`node_id`: `n1`}"))) = ((false, [AStr "tenant_mismatch"]), []).
Proof. vm_compute. reflexivity. Qed.

(** The declared status 204 is lost. *)
Example demo_health_status :
  (fun ps => hc_ExpectedStatus (rp_HealthCheck ps.1)) <$> pr_plan (demo_check (jq "{`node_id`: `n1`}")) = Some 200%Z.
Proof. vm_compute. reflexivity. Qed.

Lemma start_is_validated_witness :
  exists db' pk, (StartDeployment hash_stub hash_stub (fun _ => "spec") (demo_documents (jq "{`node_id`: `n1`}")) run_session "t" "x" "d1"
                    (run_ids "1") 110 run_base) = (Started "i1" "s1" "r1", db') /\ pk_accelerators pk = ["gpu0"] /\
    length (db_leases db') = 1.
Proof.
  destruct (StartDeployment hash_stub hash_stub (fun _ => "spec") (demo_documents (jq "{`node_id`: `n1`}")) run_session "t" "x" "d1"
              (run_ids "1") 110 run_base) as [resp db'] eqn:E.
  pose proof (start_is_validated _ _ _ _ _ _ _ _ _ _ _ _ _ E) as H.
  assert (resp = Started "i1" "s1" "r1") as -> by (apply (f_equal fst) in E; vm_compute in E; by rewrite <- E).
  destruct H as (pk & plan & sources & warns & p & D & _ & _ & Ha & _ & _ & _ & _ & Hl & _). exists db', pk.
  assert (pk_accelerators pk = ["gpu0"]) as Hg.
  { rewrite (dp_accelerators _ _ _ _ D).
    assert (pk_deployment pk = demo_deployment (jq "{`node_id`: `n1`}")) as -> by (apply (inj Some); by rewrite <- (dp_deployment _ _ _ _ D)).
    vm_compute. reflexivity. }
  split; [reflexivity|]. split; [exact Hg|]. rewrite Hl, Ha, Hg. vm_compute. reflexivity.
Defined.
End Demo.
