(* ===== verification/NodeRuntimes.v ===== *)
(** * Node runtimes (internal/server/api: runtime_handlers.go, node_runtime_handlers.go)

    A node runtime is a runtime template enabled on a node: its row holds the frozen
    configuration set, the image and the outcome of the last check.  A check asks the
    agent for its images and for the inspection of the image, and decides the status
    that lets deployments use the row.  A JSON column is its decoded document; text
    columns a request writes follow the conversion of SQLite. *)
From S2P Require Import Prelude GoStrings GoNumbers GoValue GoJson GoJsonText RuntimeContract RunPlanTypes ConfigSets ConfigEdit.
From S2P Require Import Store Deployments Detection RunPlanViews Preflight.
From Stdlib Require Import Ascii.

(** ** Rows *)

Record template_row := {
  bt_id : string; bt_name : string; bt_display : string; bt_backend : string; bt_version : string; bt_source : string; bt_vendor : string;
  bt_editable : bool; bt_tenant : string; bt_managed : string; bt_status : string; bt_visibility : string; bt_config : any; bt_metadata : any;
  bt_checksum : string; bt_updated : string
}.

Record nbr_row := {
  nr_id : string; nr_runtime : string; nr_node : string; nr_display : string; nr_image_ref : string; nr_image_id : string;
  nr_image_digest : string; nr_image_present : bool; nr_docker : bool; nr_driver : string; nr_toolkit : string; nr_device_check : any;
  nr_status : string; nr_reason : string; nr_checked : string; nr_probe : any; nr_config : any; nr_metadata : any; nr_tenant : string;
  nr_updated : string
}.

(** The rows a handler of node runtimes reads and does not write; [sr_deployed] are the
    node runtimes of the deployments, [sr_running] runtime, node runtime and state of
    the instances with a plan. *)
Record surroundings := {
  sr_templates : list template_row; sr_nodes : list node_row; sr_devices : list gpu_doc; sr_deployed : list string;
  sr_running : list (string * string * string)
}.

(** What a handler answers; a panic closes the connection. *)
Inductive reply := Reply (code : Z) (body : any) | Panicked.

Definition api_error (code : Z) (msg : string) : reply := Reply code (AMap [("error", AStr msg)]).
Definition not_found : reply := api_error 404 "not found".

(** ** Documents *)

(** [strVal], [boolVal] *)
Definition obj_strVal (m : obj) (key def : string) : string := match obj_get m key with Some (AStr s) => s | _ => def end.
Definition obj_boolVal (m : obj) (key : string) (def : bool) : bool := match obj_get m key with Some (ABool b) => b | _ => def end.

(** The document a column holds once the value is written as JSON. *)
Definition stored (v : any) : any := default ANil (reread v).

(** [copyConfigSet] and [parseConfigSet] of the column's text. *)
Definition copy_of (doc : any) : obj := match doc with AMap m => m | _ => empty_set end.
Definition parse_of (doc : any) : obj :=
  match doc with
  | AMap m => match obj_get m "items" with Some _ => m | None => obj_set "items" (AMap []) m end
  | _ => empty_set
  end.

Lemma copyConfigSet_of raw doc : Unmarshal raw = Some doc -> copyConfigSet raw = copy_of doc.
Proof. intros H. unfold copyConfigSet, copy_of, Unmarshal_map. rewrite H. by destruct doc. Qed.

Lemma parseConfigSet_of raw doc : Unmarshal raw = Some doc -> parseConfigSet raw = parse_of doc.
Proof. intros H. unfold parseConfigSet, parse_of, Unmarshal_map. rewrite H. by destruct doc. Qed.

(** The image a template names. *)
Definition template_image (rt : template_row) : string := configString (parse_of (bt_config rt)) "launcher.image" "".

(** ** Edit patches of a request (config_edit_handlers.go, decodeConfigEditPatch) *)

Definition bool_or_nil (v : any) : bool := match v with ABool _ | ANil => true | _ => false end.

(** Whether the decoder reports no error for a field of a patch. *)
Definition field_ok (kv : string * any) : bool :=
  if EqualFold kv.1 "key" || EqualFold kv.1 "internal_key" then text_or_nil kv.2
  else if EqualFold kv.1 "path" then texts_or_nil kv.2
  else if EqualFold kv.1 "enabled" then bool_or_nil kv.2
  else true.

Definition fields_ok (v : any) : bool :=
  match v with
  | AList l => forallb (fun x => match x with AMap m => forallb field_ok m | ANil => true | _ => false end) l
  | ANil => true
  | _ => false
  end.

Definition patch_ok (kv : string * any) : bool :=
  if EqualFold kv.1 "layer" || EqualFold kv.1 "object_id" then text_or_nil kv.2
  else if EqualFold kv.1 "fields" then fields_ok kv.2
  else true.

Definition dec_flag (v : any) : option (option bool) := match v with ABool b => Some (Some b) | ANil => Some None | _ => None end.

Definition decode_field (m : obj) : EditFieldPatch :=
  {| fp_Key := field m "key" dec_str ""; fp_InternalKey := field m "internal_key" dec_str ""; fp_Path := field m "path" dec_strs [];
     fp_Value := field m "value" Some ANil; fp_Enabled := field m "enabled" dec_flag None |}.

Definition decodeConfigEditPatch (raw : any) : option ConfigEditPatch :=
  match reread raw with
  | Some (AMap m) =>
      if forallb patch_ok m
      then Some {| cp_Layer := field m "layer" dec_str ""; cp_ObjectID := field m "object_id" dec_str "";
                   cp_Fields := field m "fields" (dec_list decode_field) [] |}
      else None
  | _ => None
  end.

(** The set after the patch of the request, if any. *)
Definition applyEditableConfigPatchIfPresent (decode_error : any -> string) (set req : obj) (layer ref now : string) : edit_outcome :=
  match obj_get req "editable_config_patch" with
  | None | Some ANil => Edited set
  | Some raw =>
      match decodeConfigEditPatch raw with
      | None => EditRefused (decode_error raw)
      | Some patch => ApplyEditPatchToConfigSet set (with_layer layer patch) layer ref now
      end
  end.

(** ** Enabling a template on a node *)

Section Enable.
Context `{MR : MapRange} (decode_error : any -> string) (sr : surroundings).

(** [s]: the caller; a row that does not exist belongs to nobody. *)
Definition in_tenant (s : session) (tenant : option string) : bool :=
  s_admin s || match tenant with Some t => t =s s_tenant s | None => false end.

Definition node_of (nodeID : string) : option node_row := by_id n_id nodeID (sr_nodes sr).
Definition template_of (id : string) : option template_row := by_id bt_id id (sr_templates sr).

Definition evaluateNodeBackendRuntime (nodeID vendor imageRef : string) (imagePresent dockerAvailable : bool) : string * string :=
  if negb (match node_of nodeID with Some n => n_status n =s "online" | None => false end) then ("failed", "node is offline")
  else if (vendor =s "huawei") || (vendor =s "ascend")
  then ("template_only", "Huawei/Ascend runtime is a template only until an adapter and hardware validation are available")
  else if (vendor <>s "cpu")
          && negb (existsb (fun g => (gd_node g =s nodeID) && (ToLower (gd_vendor g) =s ToLower vendor)) (sr_devices sr))
  then ("unsupported_device", "node has no matching GPU vendor")
  else if negb dockerAvailable then ("unknown", "docker availability has not been verified")
  else if (imageRef <>s "") && negb imagePresent then ("missing_image", "docker image is not present on node")
  else ("ready", "runtime verified for node").

Definition snapshot_refusal (req : obj) : option string :=
  if has_key req "config_set" then Some "config_set is not accepted; use editable_config_patch to modify individual parameters"
  else if has_key req "config_set_json" then Some "config_set_json is not accepted; use editable_config_patch to modify individual parameters"
  else None.

(** The frozen set of a new row. *)
Definition buildRuntimeConfigSnapshot (rt : template_row) (runtimeID imageRef : string) (req : obj) (now : string) : edit_outcome :=
  match snapshot_refusal req with
  | Some e => EditRefused e
  | None =>
      let set := copy_of (bt_config rt) in
      let set := if imageRef <>s "" then setConfigValue set "launcher.image" (AStr imageRef) "NodeBackendRuntime" runtimeID else set in
      let set := match mapFromAny (get_any req "config_overrides") with
                 | [] => set
                 | overrides => applyConfigOverrides "NodeBackendRuntime" runtimeID set overrides
                 end in
      applyEditableConfigPatchIfPresent decode_error set req "node_backend_runtime" runtimeID now
  end.

Definition source_metadata (rt : template_row) (runtimeID : string) : any :=
  AMap [("copy_boundary", AStr "detached_after_create"); ("copy_semantics", AStr "copy_on_create"); ("source_backend_runtime_id", AStr runtimeID);
        ("source_runtime_name", AStr (bt_name rt)); ("source_runtime_revision", AStr (bt_updated rt)); ("source_type", AStr "node_backend_runtime")].

Definition enable_display (nodeID runtimeID : string) (rt : template_row) (req : obj) : string :=
  let given := TrimSpace (obj_strVal req "display_name" "") in
  if given =s "" then (if bt_display rt =s "" then bt_name rt else bt_display rt) +s+ (if nodeID <>s "" then " - " +s+ nodeID else "") else given.

(** The status an enable records: a caller cannot claim that the image was verified. *)
Definition enabled_status (verdict : string * string) : string * string :=
  if existsb (String.eqb verdict.1) ["failed"; "unsupported_device"; "template_only"] then verdict
  else ("needs_check", "awaiting agent verification of Docker and image availability").

Definition device_check (vendor : string) : any := AMap [("vendor", AStr vendor)].

(** The columns a check result changes. *)
Definition with_result (imagePresent dockerAvailable : bool) (driver toolkit vendor : string) (verdict : string * string) (now : string)
    (probe : any) (r : nbr_row) : nbr_row :=
  {| nr_id := nr_id r; nr_runtime := nr_runtime r; nr_node := nr_node r; nr_display := nr_display r; nr_image_ref := nr_image_ref r;
     nr_image_id := nr_image_id r; nr_image_digest := nr_image_digest r; nr_image_present := imagePresent; nr_docker := dockerAvailable;
     nr_driver := driver; nr_toolkit := toolkit; nr_device_check := device_check vendor; nr_status := verdict.1; nr_reason := verdict.2;
     nr_checked := now; nr_probe := probe; nr_config := nr_config r; nr_metadata := nr_metadata r; nr_tenant := nr_tenant r;
     nr_updated := now |}.

Definition enable_reply (id runtimeID nodeID display imageRef now : string) (present docker : bool) (verdict : string * string) : reply :=
  Reply 200 (AMap [("backend_runtime_id", AStr runtimeID); ("deployable", ABool (isNBRDeployable verdict.1));
    ("disabled_reason", AStr (nbrDisabledReason verdict.1 verdict.2)); ("display_name", AStr display); ("docker_available", ABool docker);
    ("id", AStr id); ("image_present", ABool present); ("image_ref", AStr imageRef); ("last_checked_at", AStr now); ("name", AStr display);
    ("node_id", AStr nodeID); ("status", AStr verdict.1); ("status_reason", AStr verdict.2)]).

(** The write: a new row unless the node has the template already. *)
Definition enable_row (s : session) (nodeID runtimeID imageRef : string) (rt : template_row) (req : obj) (present docker : bool)
    (verdict : string * string) (now : string) (rows : list nbr_row) : reply * list nbr_row :=
  let id := nodeID +s+ ":" +s+ runtimeID in
  let display := enable_display nodeID runtimeID rt req in
  let driver := obj_strVal req "driver_version" "" in
  let toolkit := obj_strVal req "toolkit_version" "" in
  let ok := enable_reply id runtimeID nodeID display imageRef now present docker verdict in
  match List.find (fun r => (nr_node r =s nodeID) && (nr_runtime r =s runtimeID)) rows with
  | Some old =>
      (ok, update_where (fun r => nr_id r =s nr_id old)
             (fun r => with_result present docker driver toolkit (bt_vendor rt) verdict now (nr_probe r) r) rows)
  | None =>
      match buildRuntimeConfigSnapshot rt runtimeID imageRef req now with
      | EditRefused e => (api_error 400 e, rows)
      | EditPanic => (Panicked, rows)
      | Edited set =>
          if existsb (fun r => nr_id r =s id) rows || bool_decide (node_of nodeID = None) then (api_error 500 "internal error", rows)
          else (ok, rows ++ [{| nr_id := id; nr_runtime := runtimeID; nr_node := nodeID; nr_display := display; nr_image_ref := imageRef;
                                nr_image_id := ""; nr_image_digest := ""; nr_image_present := present; nr_docker := docker; nr_driver := driver;
                                nr_toolkit := toolkit; nr_device_check := device_check (bt_vendor rt); nr_status := verdict.1;
                                nr_reason := verdict.2; nr_checked := now; nr_probe := AMap []; nr_config := stored (AMap set);
                                nr_metadata := source_metadata rt runtimeID; nr_tenant := s_tenant s; nr_updated := now |}])
      end
  end.

(** [req]: the decoded body, [None] when it is no object. *)
Definition upsertNodeBackendRuntime (s : session) (nodeID : string) (req : option obj) (checkOnly : bool) (now : string) (rows : list nbr_row) :
    reply * list nbr_row :=
  if negb (in_tenant s (n_tenant <$> node_of nodeID)) then (not_found, rows)
  else match req with
  | None => (api_error 400 "invalid request", rows)
  | Some req =>
      let runtimeID := obj_strVal req "backend_runtime_id" "" in
      if runtimeID =s "" then (api_error 400 "backend_runtime_id is required", rows)
      else if negb checkOnly && has_key req "image_present"
      then (api_error 400 "image_present is server/agent verified evidence; call check-request after enable", rows)
      else if negb checkOnly && has_key req "docker_available"
      then (api_error 400 "docker_available is server/agent verified evidence; call check-request after enable", rows)
      else match template_of runtimeID with
           | None => (api_error 404 "backend runtime not found", rows)
           | Some rt =>
               let imageRef := obj_strVal req "image_ref" (template_image rt) in
               let present := obj_boolVal req "image_present" false in
               let docker := obj_boolVal req "docker_available" false in
               let verdict := evaluateNodeBackendRuntime nodeID (bt_vendor rt) imageRef present docker in
               if checkOnly && (verdict.1 =s "unknown")
               then (api_error 400 "agent check evidence required (image_present, docker_available); UI must call /check-request endpoint instead",
                     rows)
               else enable_row s nodeID runtimeID imageRef rt req present docker (if checkOnly then verdict else enabled_status verdict) now rows
           end
  end.

Definition HandleEnableNodeBackendRuntime (s : session) (nodeID : string) (req : option obj) (now : string) (rows : list nbr_row) :=
  upsertNodeBackendRuntime s nodeID req false now rows.
End Enable.

(** ** The image check (HandleRequestNodeBackendRuntimeCheck) *)

(** What the agent of a node answers to a path with its parameters: a body, or the text
    of the client's error; [ag_configured]: the server has a client. *)
Record agent_access := { ag_configured : bool; ag_get : string -> list (string * string) -> string + string }.

(** *** Level 1: the list of images, evidence only *)

Record listed := { ls_doc : obj; ls_docker : bool; ls_present : bool; ls_error : string }.

Definition list_failed (e : string) : listed :=
  {| ls_doc := [("error", AStr e); ("image_present", ABool false); ("source", AStr "docker_images_list")];
     ls_docker := false; ls_present := false; ls_error := e |}.

Definition listed_ref (img : obj) : string :=
  let ref := obj_strVal img "image_ref" "" in
  if ref <>s "" then ref
  else let repo := obj_strVal img "repository" "" in
       let tag := obj_strVal img "tag" "" in
       if (repo <>s "") && (tag <>s "") && (tag <>s "<none>") then repo +s+ ":" +s+ tag else "".

Definition ref_matches (ref imgRef : string) : bool := (ref =s imgRef) || Contains imgRef ref || Contains ref imgRef.

Definition found_doc (img : obj) : obj :=
  [("created_at", AStr (obj_strVal img "created_at" "")); ("digest", AStr (obj_strVal img "digest" "")); ("image_id", AStr (obj_strVal img "image_id" ""));
   ("image_present", ABool true); ("image_ref", AStr (listed_ref img)); ("size", AStr (obj_strVal img "size" ""));
   ("source", AStr "docker_images_list")].

Definition absent_doc (ref : string) : obj :=
  [("image_present", ABool false); ("image_ref", AStr ref); ("note", AStr "image not in docker images list; authoritative check via ImageInspect");
   ("source", AStr "docker_images_list")].

Definition list_images (agent : agent_access) (addr : string) (port : Z) (ref : string) : listed :=
  if (addr =s "") || (port =? 0)%Z then list_failed "node has no advertised address or metrics port"
  else if negb (ag_configured agent) then list_failed "agent client not configured"
  else match ag_get agent "/docker-images" [("limit", "1000")] with
       | inr e => list_failed ("agent unreachable: " +s+ e)
       | inl body =>
           let reached doc present := {| ls_doc := doc; ls_docker := true; ls_present := present; ls_error := "" |} in
           if ref =s "" then reached [] false
           else match Unmarshal_map body with
                | None => reached [] false
                | Some result =>
                    let images := omap as_map (elements (get_any (default [] result) "images")) in
                    match List.find (fun img => (listed_ref img <>s "") && ref_matches ref (listed_ref img)) images with
                    | Some img => reached (found_doc img) true
                    | None => reached (absent_doc ref) false
                    end
                end
       end.

(** *** Level 2: the inspection, authoritative *)

Record inspected := {
  in_doc : obj; in_success : bool; in_not_found : bool; in_tags : list string; in_labels : option obj;
  in_entrypoint : list string; in_cmd : list string
}.

Definition not_inspected (doc : obj) (not_found : bool) : inspected :=
  {| in_doc := doc; in_success := false; in_not_found := not_found; in_tags := []; in_labels := None; in_entrypoint := []; in_cmd := [] |}.

(** A value that is no slice gives the nil slice, whose JSON is null. *)
Definition slice_any (v : any) : any := match v with AList _ => AStrs (toStringSlice v) | _ => ANil end.
Definition map_any (m : option obj) : any := match m with Some m => AMap m | None => ANil end.

Definition image_config (data : obj) : option obj :=
  match get_obj data "Config" with Some c => Some c | None => get_obj data "ContainerConfig" end.

Definition inspected_of (data : obj) : inspected :=
  let labels := image_config data ≫= fun c => get_obj c "Labels" in
  {| in_doc := [("architecture", AStr (obj_strVal data "Architecture" "")); ("cmd", slice_any (get_any data "Cmd"));
                ("created", AStr (obj_strVal data "Created" "")); ("entrypoint", slice_any (get_any data "Entrypoint"));
                ("env", match image_config data with Some c => slice_any (get_any c "Env") | None => ANil end);
                ("exposed_ports", map_any (image_config data ≫= fun c => get_obj c "ExposedPorts"));
                ("image_id", AStr (obj_strVal data "Id" "")); ("inspect_success", ABool true); ("labels", map_any labels);
                ("os", AStr (obj_strVal data "Os" "")); ("repodigests", slice_any (get_any data "RepoDigests"));
                ("repotags", slice_any (get_any data "RepoTags")); ("size_bytes", get_any data "Size")];
     in_success := true; in_not_found := false; in_tags := toStringSlice (get_any data "RepoTags"); in_labels := labels;
     in_entrypoint := toStringSlice (get_any data "Entrypoint"); in_cmd := toStringSlice (get_any data "Cmd") |}.

Definition says_not_found (e : string) : bool :=
  Contains (ToLower e) "no such image" || Contains (ToLower e) "not found" || Contains (ToLower e) "does not exist".

Definition inspect_image (agent : agent_access) (addr : string) (port : Z) (ref : string) : inspected :=
  if (addr <>s "") && (0 <? port)%Z && (ref <>s "") && ag_configured agent
  then match ag_get agent "/docker-image-inspect" [("ref", ref)] with
       | inr e => not_inspected [("error", AStr ("inspect request failed: " +s+ e)); ("inspect_success", ABool false)] false
       | inl body =>
           match Unmarshal_map body with
           | None => not_inspected [] false
           | Some result =>
               let result := default [] result in
               match get_obj result "inspect" with
               | Some data => inspected_of data
               | None =>
                   let e := obj_strVal result "error" "" in
                   if e =s "" then not_inspected [] false
                   else not_inspected [("error", AStr e); ("inspect_not_found", ABool (says_not_found e)); ("inspect_success", ABool false)]
                          (says_not_found e)
               end
           end
       end
  else not_inspected [("error", AStr "agent not reachable or no image_ref for inspect"); ("inspect_success", ABool false)] false.

(** *** Level 3: the backend the image was built for *)

Definition image_patterns (baseID : string) : option (list string) :=
  if baseID =s "vllm" then Some ["vllm"; "vllm-openai"]
  else if baseID =s "sglang" then Some ["sglang"; "lmsysorg/sglang"]
  else if baseID =s "llamacpp" then Some ["llama.cpp"; "llama-cpp"; "llamacpp"; "ghcr.io/ggml-org/llama.cpp"]
  else if baseID =s "ollama" then Some ["ollama"]
  else None.

Definition match_doc (backendID status method detail : string) (confirmed warning : bool) : obj :=
  [("backend_id", AStr backendID); ("backend_match_status", AStr status); ("blocking", ABool false); ("confirmed_match", ABool confirmed);
   ("match_detail", AStr detail); ("match_method", AStr method); ("warning", ABool warning)].

Section Match.
Context `{MR : MapRange}.

(** The labels are joined in the order of the map. *)
Definition label_text (labels : option obj) : string :=
  match labels with
  | None => ""
  | Some labels =>
      ToLower (GoStrings.Join (omap (fun kv => match kv.2 with AStr v => Some (kv.1 +s+ "=" +s+ v) | _ => None end) (range (obj_map labels))) " ")
  end.

Definition matchBackendType (backendID : string) (repoTags : list string) (labels : option obj) : obj :=
  let tags := ToLower (GoStrings.Join repoTags " ") in
  let text := label_text labels in
  let baseID := TrimPrefix backendID "backend." in
  match image_patterns baseID with
  | None =>
      match_doc backendID "declared_match_unverified" "unknown_backend"
        ("backend_id '" +s+ baseID +s+ "' has no matching patterns; declared match not verified") false true
  | Some patterns =>
      match List.find (fun p => Contains tags p || Contains text p) patterns with
      | Some p =>
          if Contains tags p
          then match_doc backendID "confirmed_match" "repo_pattern"
                 ("repo tags match pattern '" +s+ p +s+ "' for backend '" +s+ backendID +s+ "'") true false
          else match_doc backendID "confirmed_match" "label_match"
                 ("labels match pattern '" +s+ p +s+ "' for backend '" +s+ backendID +s+ "'") true false
      | None =>
          match_doc backendID "declared_match_unverified" "no_pattern_match"
            ("no pattern matched for backend '" +s+ backendID +s+ "' (expected: " +s+ fmt_v (AStrs patterns) +s+ ") in repo tags "
             +s+ fmt_v (AStrs repoTags) +s+ "; declared match not verified") false true
      end
  end.

Definition not_checked_doc : obj :=
  [("backend_match_status", AStr "not_checked"); ("blocking", ABool false); ("confirmed_match", ABool false);
   ("match_detail", AStr "inspect data not available for backend type matching"); ("warning", ABool true)].

Definition level4_doc : obj :=
  [("blocking", ABool false); ("compatibility_check_status", AStr "not_run");
   ("message", AStr "Image existence and backend matching check completed. Version probe is not yet available.");
   ("probe_skipped", ABool true); ("version_probe_status", AStr "not_available"); ("version_probed", ABool false)].

(** *** The suggested process start, as JSON *)

Definition text_entry (k s : string) : obj := if s =s "" then [] else [(k, AStr s)].
Definition texts_entry (k : string) (l : list string) : obj := match l with [] => [] | _ => [(k, AStrs l)] end.

Definition candidate_json (c : DetectionCandidate) : any :=
  AMap ([("confidence", AStr (c_Confidence c)); ("profile_id", AStr (c_ProfileID c))] ++ texts_entry "reasons" (c_Reasons c)
        ++ [("score", AInt (c_Score c))] ++ texts_entry "warnings" (c_Warnings c)).

Definition evidence_json (e : DetectionEvidence) : any :=
  AMap (text_entry "backend_family" (e_BackendFamily e) ++ texts_entry "image_cmd" (e_ImageCmd e)
        ++ texts_entry "image_entrypoint" (e_ImageEntrypoint e) ++ text_entry "image_ref" (e_ImageRef e)
        ++ texts_entry "matched_signals" (e_MatchedSignals e)).

Definition detection_json (d : ProcessStartDetection) : obj :=
  match det_CandidateProfile d with Some c => [("candidate_profile", candidate_json c)] | None => [] end
  ++ match det_AllCandidates d with [] => [] | l => [("candidate_profiles", AList (map candidate_json l))] end
  ++ texts_entry "command_prefix" (det_CommandPrefix d) ++ text_entry "confidence" (det_Confidence d)
  ++ texts_entry "entrypoint" (det_Entrypoint d) ++ text_entry "entrypoint_mode" (det_EntrypointMode d)
  ++ [("evidence", evidence_json (det_Evidence d))] ++ text_entry "selected_profile_id" (det_SelectedProfile d)
  ++ (if det_ShellMode d then [("shell_mode", ABool true)] else []) ++ text_entry "source" (det_Source d)
  ++ [("status", AStr (det_Status d))] ++ texts_entry "warnings" (det_Warnings d).

Definition not_inspected_detection (family ref : string) : ProcessStartDetection :=
  {| det_Status := "image_not_inspected"; det_SelectedProfile := ""; det_EntrypointMode := ""; det_Entrypoint := []; det_CommandPrefix := [];
     det_ShellMode := false; det_Confidence := "low"; det_Source := "backend_profile+image_inspect"; det_CandidateProfile := None;
     det_AllCandidates := [];
     det_Evidence := {| e_BackendFamily := family; e_ImageRef := ref; e_ImageEntrypoint := []; e_ImageCmd := []; e_MatchedSignals := [] |};
     det_Warnings := ["image inspect data not available; cannot detect process start config"] |}.

(** *** The verdict *)

Definition match_warning (level3 : obj) : list string :=
  let status := obj_strVal level3 "backend_match_status" "" in
  if (status =s "declared_match_unverified") || (status =s "ambiguous") then ["backend match: " +s+ status] else [].

Definition version_warning (level4 : obj) : list string :=
  if negb (obj_boolVal level4 "version_probed" false) && negb (obj_boolVal level4 "probe_skipped" false) then ["version not probed"] else [].

Definition evaluateProbeStatus (nodeID imageRef addr : string) (port : Z) (dockerAvailable : bool) (dockerErr : string) (insp : inspected)
    (level3 level4 : obj) : string * string :=
  if (addr =s "") || (port =? 0)%Z then ("agent_unreachable", dockerErr)
  else if negb dockerAvailable && (dockerErr <>s "")
  then (if Contains dockerErr "agent unreachable" then ("agent_unreachable", dockerErr) else ("docker_error", dockerErr))
  else if imageRef =s "" then ("evidence_missing", "no image_ref configured for this node backend runtime")
  else if in_not_found insp
  then ("missing_image", "docker image " +s+ imageRef +s+ " is not present on node " +s+ nodeID +s+ " (ImageInspect: not found)")
  else if negb (in_success insp)
  then ("inspect_failed", "docker inspect failed for image " +s+ imageRef +s+ ": "
                          +s+ or_field (obj_strVal (in_doc insp) "error" "") "docker image inspect failed")
  else if obj_strVal level3 "backend_match_status" "" =s "confirmed_mismatch"
  then ("runtime_image_mismatch", "image " +s+ imageRef +s+ " does not match expected backend")
  else match match_warning level3 ++ version_warning level4 with
       | [] => ("ready", "runtime verified for node (image=" +s+ imageRef +s+ ")")
       | warnings => ("ready_with_warnings", "image " +s+ imageRef +s+ " verified (inspect ok); warnings: " +s+ GoStrings.Join warnings "; ")
       end.

Record probe_record := { pb_doc : obj; pb_present : bool; pb_docker : bool; pb_verdict : string * string }.

Definition run_probe (agent : agent_access) (addr : string) (port : Z) (nodeID ref backendID : string) : probe_record :=
  let l1 := list_images agent addr port ref in
  let l2 := inspect_image agent addr port ref in
  let level3 := if in_success l2 then matchBackendType backendID (in_tags l2) (in_labels l2) else not_checked_doc in
  let family := DeriveBackendFamily backendID in
  let detection := if in_success l2 then DetectProcessStart family ref (in_entrypoint l2) (in_cmd l2) else not_inspected_detection family ref in
  {| pb_doc := [("level1", AMap (ls_doc l1)); ("level2", AMap (in_doc l2)); ("level3", AMap level3); ("level4", AMap level4_doc);
                ("process_start_detection", AMap (detection_json detection))];
     pb_present := ls_present l1 || in_success l2; pb_docker := ls_docker l1;
     pb_verdict := evaluateProbeStatus nodeID ref addr port (ls_docker l1) (ls_error l1) l2 level3 level4_doc |}.

(** *** Warnings shown for a check (extractProbeWarnings) *)

Definition extractProbeWarnings (doc : obj) : list string :=
  (match get_obj doc "level3" with
   | Some l3 => if obj_boolVal l3 "warning" false && (obj_strVal l3 "match_detail" "" <>s "")
                then ["backend_match: " +s+ obj_strVal l3 "match_detail" ""] else []
   | None => []
   end)
  ++ (match get_obj doc "level4" with Some l4 => version_warning l4 | None => [] end)
  ++ (match get_obj doc "process_start_detection" with
      | Some psd => List.filter (fun s => s <>s "") (omap as_str (elements (get_any psd "warnings")))
      | None => []
      end).
End Match.

(** ** The check request *)

(** What a check reads before it asks the agent. *)
Record check_start := { cs_nbr : nbr_row; cs_template : template_row; cs_ref : string; cs_addr : string; cs_port : Z }.

Section Check.
Context `{MR : MapRange} (sr : surroundings).

Definition begin_check (s : session) (nodeID nbrID : string) (rows : list nbr_row) : reply + check_start :=
  if negb (in_tenant s (nr_tenant <$> by_id nr_id nbrID rows)) then inl not_found
  else if (nodeID =s "") || (nbrID =s "") then inl (api_error 400 "node_id and nbr_id are required")
  else match List.find (fun r => (nr_id r =s nbrID) && (nr_node r =s nodeID)) rows with
       | None => inl (api_error 404 "node backend runtime not found")
       | Some nbr =>
           match template_of sr (nr_runtime nbr) with
           | None => inl (api_error 404 "backend runtime not found")
           | Some rt =>
               let '(addr, port) := match node_of sr nodeID with Some n => (nf_advertised (n_facts n), nf_metrics_port (n_facts n)) | None => ("", 0%Z) end in
               inr {| cs_nbr := nbr; cs_template := rt; cs_ref := if nr_image_ref nbr =s "" then template_image rt else nr_image_ref nbr;
                      cs_addr := addr; cs_port := port |}
           end
       end.

Definition check_probe (agent : agent_access) (st : check_start) : probe_record :=
  run_probe agent (cs_addr st) (cs_port st) (nr_node (cs_nbr st)) (cs_ref st) (bt_backend (cs_template st)).

Definition finish_check (agent : agent_access) (st : check_start) (now : string) (rows : list nbr_row) : list nbr_row :=
  let p := check_probe agent st in
  update_where (fun r => nr_id r =s nr_id (cs_nbr st))
    (with_result (pb_present p) (pb_docker p) "" "" (bt_vendor (cs_template st)) (pb_verdict p) now (stored (AMap (pb_doc p)))) rows.

Definition check_reply (agent : agent_access) (st : check_start) (now : string) : reply :=
  let p := check_probe agent st in
  Reply 200 (AMap [("backend_runtime_id", AStr (nr_runtime (cs_nbr st))); ("checked_image_ref", AStr (cs_ref st));
    ("deployable", ABool (isNBRDeployable (pb_verdict p).1)); ("disabled_reason", AStr (nbrDisabledReason (pb_verdict p).1 (pb_verdict p).2));
    ("docker_available", ABool (pb_docker p)); ("id", AStr (nr_id (cs_nbr st))); ("image_present", ABool (pb_present p));
    ("image_ref", AStr (cs_ref st)); ("last_checked_at", AStr now); ("node_id", AStr (nr_node (cs_nbr st))); ("probe_results", AMap (pb_doc p));
    ("status", AStr (pb_verdict p).1); ("status_reason", AStr (pb_verdict p).2);
    ("warnings", AStrs (extractProbeWarnings (reread_obj (pb_doc p))))]).

(** The check with nothing in between its reads and its write. *)
Definition HandleRequestNodeBackendRuntimeCheck (agent : agent_access) (s : session) (nodeID nbrID now : string) (rows : list nbr_row) :
    reply * list nbr_row :=
  match begin_check s nodeID nbrID rows with
  | inl r => (r, rows)
  | inr st => (check_reply agent st now, finish_check agent st now rows)
  end.
End Check.

(** ** Patching a row (HandlePatchNodeBackendRuntime) *)

(** [real_text]: the text SQLite stores for a REAL in a TEXT column. *)
Section Patch.
Context (real_text : float64 -> string).

(** A value of a request as the text of a NOT NULL column; the driver refuses maps and slices. *)
Definition sql_text (v : any) : option string :=
  match v with
  | AStr s => Some s
  | ABool b => Some (if b then "1" else "0")
  | AInt z | AInt64 z => Some (Itoa z)
  | AFloat f => Some (real_text f)
  | _ => None
  end.

Inductive column_update :=
| SetDisplay (v : any) | SetImageRef (v : any) | SetImageID (v : any) | SetImageDigest (v : any) | SetDriver (v : any) | SetToolkit (v : any)
| SetConfig (v : any) | SetMetadata (v : any) | SetDeviceCheck (v : any) | SetStatus (s : string).

Definition set_column (u : column_update) (r : nbr_row) : option nbr_row :=
  let keep display ref id digest driver toolkit check status config metadata :=
    {| nr_id := nr_id r; nr_runtime := nr_runtime r; nr_node := nr_node r; nr_display := display; nr_image_ref := ref; nr_image_id := id;
       nr_image_digest := digest; nr_image_present := nr_image_present r; nr_docker := nr_docker r; nr_driver := driver; nr_toolkit := toolkit;
       nr_device_check := check; nr_status := status; nr_reason := nr_reason r; nr_checked := nr_checked r; nr_probe := nr_probe r;
       nr_config := config; nr_metadata := metadata; nr_tenant := nr_tenant r; nr_updated := nr_updated r |} in
  let text v k := s ← sql_text v; Some (k s) in
  match u with
  | SetDisplay v => text v (fun s => keep s (nr_image_ref r) (nr_image_id r) (nr_image_digest r) (nr_driver r) (nr_toolkit r) (nr_device_check r) (nr_status r) (nr_config r) (nr_metadata r))
  | SetImageRef v => text v (fun s => keep (nr_display r) s (nr_image_id r) (nr_image_digest r) (nr_driver r) (nr_toolkit r) (nr_device_check r) (nr_status r) (nr_config r) (nr_metadata r))
  | SetImageID v => text v (fun s => keep (nr_display r) (nr_image_ref r) s (nr_image_digest r) (nr_driver r) (nr_toolkit r) (nr_device_check r) (nr_status r) (nr_config r) (nr_metadata r))
  | SetImageDigest v => text v (fun s => keep (nr_display r) (nr_image_ref r) (nr_image_id r) s (nr_driver r) (nr_toolkit r) (nr_device_check r) (nr_status r) (nr_config r) (nr_metadata r))
  | SetDriver v => text v (fun s => keep (nr_display r) (nr_image_ref r) (nr_image_id r) (nr_image_digest r) s (nr_toolkit r) (nr_device_check r) (nr_status r) (nr_config r) (nr_metadata r))
  | SetToolkit v => text v (fun s => keep (nr_display r) (nr_image_ref r) (nr_image_id r) (nr_image_digest r) (nr_driver r) s (nr_device_check r) (nr_status r) (nr_config r) (nr_metadata r))
  | SetConfig v => Some (keep (nr_display r) (nr_image_ref r) (nr_image_id r) (nr_image_digest r) (nr_driver r) (nr_toolkit r) (nr_device_check r) (nr_status r) (stored v) (nr_metadata r))
  | SetMetadata v => Some (keep (nr_display r) (nr_image_ref r) (nr_image_id r) (nr_image_digest r) (nr_driver r) (nr_toolkit r) (nr_device_check r) (nr_status r) (nr_config r) (stored v))
  | SetDeviceCheck v => Some (keep (nr_display r) (nr_image_ref r) (nr_image_id r) (nr_image_digest r) (nr_driver r) (nr_toolkit r) (stored v) (nr_status r) (nr_config r) (nr_metadata r))
  | SetStatus st => Some (keep (nr_display r) (nr_image_ref r) (nr_image_id r) (nr_image_digest r) (nr_driver r) (nr_toolkit r) (nr_device_check r) st (nr_config r) (nr_metadata r))
  end.

(** Assignments from left to right: of two to one column the last counts. *)
Fixpoint set_columns (l : list column_update) (r : nbr_row) : option nbr_row :=
  match l with [] => Some r | u :: l => r ← set_column u r; set_columns l r end.

Definition touched (now : string) (r : nbr_row) : nbr_row :=
  {| nr_id := nr_id r; nr_runtime := nr_runtime r; nr_node := nr_node r; nr_display := nr_display r; nr_image_ref := nr_image_ref r;
     nr_image_id := nr_image_id r; nr_image_digest := nr_image_digest r; nr_image_present := nr_image_present r; nr_docker := nr_docker r;
     nr_driver := nr_driver r; nr_toolkit := nr_toolkit r; nr_device_check := nr_device_check r; nr_status := nr_status r;
     nr_reason := nr_reason r; nr_checked := nr_checked r; nr_probe := nr_probe r; nr_config := nr_config r; nr_metadata := nr_metadata r;
     nr_tenant := nr_tenant r; nr_updated := now |}.

Definition given (req : obj) (key : string) (mk : any -> column_update) : list column_update :=
  match obj_get req key with Some v => [mk v] | None => [] end.

(** The display name is trimmed and must not be empty. *)
Definition display_update (req : obj) : option (list column_update) :=
  match obj_get req "display_name" with
  | None => Some []
  | Some (AStr s) => if TrimSpace s =s "" then None else Some [SetDisplay (AStr (TrimSpace s))]
  | Some v => Some [SetDisplay v]
  end.

Definition needs_recheck (req : obj) : bool :=
  existsb (has_key req) ["image_ref"; "image_id"; "image_digest"; "config_set"; "config_set_json"].

Definition status_update (req : obj) : list column_update :=
  if obj_boolVal req "disabled" false then [SetStatus "disabled"] else if needs_recheck req then [SetStatus "needs_check"] else [].

Definition patch_updates (req : obj) (display : list column_update) : list column_update :=
  display ++ given req "image_ref" SetImageRef ++ given req "image_id" SetImageID ++ given req "image_digest" SetImageDigest
  ++ given req "driver_version" SetDriver ++ given req "toolkit_version" SetToolkit ++ given req "config_set" SetConfig
  ++ given req "config_set_json" SetConfig ++ given req "source_metadata" SetMetadata ++ given req "source_metadata_json" SetMetadata
  ++ given req "device_check_json" SetDeviceCheck ++ status_update req.

Definition HandlePatchNodeBackendRuntime (s : session) (nbrID : string) (req : option obj) (now : string) (rows : list nbr_row) :
    reply * list nbr_row :=
  if negb (in_tenant s (nr_tenant <$> by_id nr_id nbrID rows)) then (not_found, rows)
  else match req with
  | None => (api_error 400 "invalid request", rows)
  | Some req =>
      if has_key req "image_present" then (api_error 400 "image_present is server/agent verified evidence; call check-request", rows)
      else if has_key req "docker_available" then (api_error 400 "docker_available is server/agent verified evidence; call check-request", rows)
      else match display_update req with
           | None => (api_error 400 "display_name is required", rows)
           | Some display =>
               match mapM (fun r => if nr_id r =s nbrID then touched now <$> set_columns (patch_updates req display) r else Some r) rows with
               | None => (api_error 500 "internal error", rows)
               | Some rows' => (Reply 200 (AMap [("status", AStr "updated")]), rows')
               end
           end
  end.
End Patch.

(** ** Deleting a row *)

Definition active_state (st : string) : bool := existsb (String.eqb st) ["pending"; "starting"; "running"].

Definition HandleDeleteNodeBackendRuntime (sr : surroundings) (s : session) (nbrID : string) (rows : list nbr_row) : reply * list nbr_row :=
  if negb (in_tenant s (nr_tenant <$> by_id nr_id nbrID rows)) then (not_found, rows)
  else match by_id nr_id nbrID rows with
       | None => (not_found, rows)
       | Some nbr =>
           if existsb (String.eqb nbrID) (sr_deployed sr) then (api_error 409 "node runtime is used by deployments", rows)
           else if existsb (fun x => (x.1.1 =s nr_runtime nbr) && (x.1.2 =s nbrID) && active_state x.2) (sr_running sr)
           then (api_error 409 "node runtime is used by active instances", rows)
           else (Reply 200 (AMap [("status", AStr "deleted")]), delete_where (fun r => nr_id r =s nbrID) rows)
       end.

(** ** Editing the set of a row (config_edit_handlers.go, for objects of kind node_backend_runtime)

    [None]: there is no such row (404). *)

Definition with_edited_config (set : obj) (now : string) (r : nbr_row) : nbr_row :=
  {| nr_id := nr_id r; nr_runtime := nr_runtime r; nr_node := nr_node r; nr_display := nr_display r; nr_image_ref := nr_image_ref r;
     nr_image_id := nr_image_id r; nr_image_digest := nr_image_digest r; nr_image_present := nr_image_present r; nr_docker := nr_docker r;
     nr_driver := nr_driver r; nr_toolkit := nr_toolkit r; nr_device_check := nr_device_check r; nr_status := "needs_check";
     nr_reason := "configuration changed"; nr_checked := nr_checked r; nr_probe := nr_probe r; nr_config := stored (AMap set);
     nr_metadata := nr_metadata r; nr_tenant := nr_tenant r; nr_updated := now |}.

Definition edit_node_runtime (id layer : string) (patch : ConfigEditPatch) (reset : option reset_request) (now : string) (rows : list nbr_row) :
    option apply_response * list nbr_row :=
  match by_id nr_id id rows with
  | None => (None, rows)
  | Some r =>
      match HandleConfigEditApply false (copy_of (nr_config r)) patch reset layer id now with
      | Applied set => (Some (Applied set), update_where (fun r => nr_id r =s id) (with_edited_config set now) rows)
      | resp => (Some resp, rows)
      end
  end.

(** ** The row the validation of a start reads *)

(** [raw]: the text of the probe column. *)
Definition shown_nbr (r : nbr_row) (raw : string) : nbr_doc :=
  {| nb_id := nr_id r; nb_status := nr_status r; nb_runtime := nr_runtime r; nb_node := nr_node r; nb_probe := raw |}.
