(* ===== verification/NodeRuntimeProps.v ===== *)
(** * What a deployable node runtime was checked for

    A check makes a row deployable exactly when the agent answered and the engine
    inspected the image; in every run of the handlers a deployable row still names the
    image of such a check. *)
From S2P Require Import Prelude GoStrings GoNumbers GoValue GoJson GoJsonText RuntimeContract RunPlanTypes ConfigSets ConfigSetProps ConfigEdit.
From S2P Require Import Store Deployments Detection RunPlanViews Preflight NodeRuntimes.
From Stdlib Require Import Ascii.

(** ** The verdict of a probe *)

(** The agent's engine inspected the image. *)
Definition engine_inspected (agent : agent_access) (ref : string) : Prop :=
  exists body result data, ag_get agent "/docker-image-inspect" [("ref", ref)] = inl body /\ Unmarshal_map body = Some (Some result)
    /\ get_obj result "inspect" = Some data.

(** The agent answered the request for its images. *)
Definition agent_answered (agent : agent_access) : Prop :=
  ag_configured agent = true /\ exists body, ag_get agent "/docker-images" [("limit", "1000")] = inl body.

Lemma list_images_docker agent addr port ref :
  ls_docker (list_images agent addr port ref) = true <-> addr <> "" /\ port <> 0%Z /\ agent_answered agent.
Proof.
  unfold list_images, agent_answered. destruct (addr =s "") eqn:Ea; bool_facts; [by split; [|intros []]|].
  destruct (Z.eqb_spec port 0) as [->|Hp]; [by split; [|intros (_ & [] & _)]|]. cbn [orb].
  destruct (ag_configured agent) eqn:Ec; cbn [negb]; [|by split; [|intros (_ & _ & [=] & _)]].
  destruct (ag_get _ _ _) as [body|e]; [|by split; [|intros (_ & _ & _ & ? & [=])]].
  split; [intros _; split_and!; [done..|by eexists]|]. intros _. repeat case_match; done.
Qed.

Lemma list_images_error agent addr port ref : ls_docker (list_images agent addr port ref) = true -> ls_error (list_images agent addr port ref) = "".
Proof. unfold list_images. repeat case_match; done. Qed.

Lemma list_images_failed agent addr port ref : ls_docker (list_images agent addr port ref) = false -> ls_error (list_images agent addr port ref) <> "".
Proof. unfold list_images. repeat case_match; done. Qed.

Lemma inspect_success agent addr port ref :
  in_success (inspect_image agent addr port ref) = true <->
  addr <> "" /\ (0 < port)%Z /\ ref <> "" /\ ag_configured agent = true /\ engine_inspected agent ref.
Proof.
  unfold inspect_image, engine_inspected. destruct (addr =s "") eqn:Ea; bool_facts; [by split; [|intros []]|].
  destruct (Z.ltb_spec 0 port); [|by split; [|intros (_ & ? & _); lia]]. destruct (ref =s "") eqn:Er; bool_facts; [by split; [|intros (_ & _ & [] & _)]|].
  destruct (ag_configured agent); [|by split; [|intros (_ & _ & _ & [=] & _)]]. cbn [negb andb].
  destruct (ag_get _ _ _) as [body|e]; [|by split; [|intros (_ & _ & _ & _ & ? & ? & ? & [=] & _)]].
  destruct (Unmarshal_map body) as [[result|]|] eqn:Eu; cbn [default from_option id].
  - destruct (get_obj result "inspect") as [data|] eqn:Ei.
    + split; [|done]. intros _. split_and!; [done..|]. by exists body, result, data.
    + split; [by destruct (_ =s "")|]. intros (_ & _ & _ & _ & b & r & d & Hb & Hu & Hd). congruence.
  - split; [done|]. intros (_ & _ & _ & _ & b & r & d & Hb & Hu & Hd). congruence.
  - split; [done|]. intros (_ & _ & _ & _ & b & r & d & Hb & Hu & Hd). congruence.
Qed.

Lemma success_found agent addr port ref :
  in_success (inspect_image agent addr port ref) = true -> in_not_found (inspect_image agent addr port ref) = false.
Proof. unfold inspect_image. repeat case_match; done. Qed.

Section Verdict.
Context `{MR : MapRange}.

(** The backend of an image is never found to be another one. *)
Lemma match_status backendID tags labels :
  obj_strVal (matchBackendType backendID tags labels) "backend_match_status" "" ∈ ["confirmed_match"; "declared_match_unverified"].
Proof. unfold matchBackendType. repeat case_match; cbn; set_solver. Qed.

(** A check makes a node runtime deployable exactly when the node has an address and a
    port, the agent answered the request for its images, an image is named and the
    engine inspected it; the row is then marked with the image present and the engine
    available. *)
Theorem probe_deployable agent addr port nodeID ref backendID :
  let p := run_probe agent addr port nodeID ref backendID in
  isNBRDeployable (pb_verdict p).1 = true <->
  addr <> "" /\ (0 < port)%Z /\ agent_answered agent /\ ref <> "" /\ engine_inspected agent ref
    /\ pb_present p = true /\ pb_docker p = true.
Proof.
  cbv zeta. unfold run_probe; cbn [pb_verdict pb_present pb_docker]. set (l1 := list_images agent addr port ref). set (l2 := inspect_image agent addr port ref).
  pose proof (list_images_docker agent addr port ref) as Hd. pose proof (inspect_success agent addr port ref) as Hi. fold l1 in Hd. fold l2 in Hi.
  unfold evaluateProbeStatus. split.
  - destruct (addr =s "") eqn:Ea; bool_facts; [done|]. destruct (Z.eqb_spec port 0) as [->|Hp]; [done|]. cbn [orb].
    destruct (ls_docker l1) eqn:E1; cbn [negb andb]; [|destruct (ls_error l1 =s "") eqn:Ee; [apply String.eqb_eq in Ee; by destruct (list_images_failed _ _ _ _ E1)|];
      cbn [negb]; by destruct (Contains _ _)].
    destruct (ref =s "") eqn:Er; bool_facts; [done|]. destruct (in_not_found l2); [done|]. destruct (in_success l2) eqn:E2; [|done]. intros _.
    destruct (proj1 Hd eq_refl) as (_ & _ & Hans). destruct (proj1 Hi eq_refl) as (_ & Hpos & _ & _ & Hins). split_and!; try done. by rewrite orb_true_r.
  - intros (Ha & Hp & Hans & Hr & Hins & _ & _). assert (ls_docker l1 = true) as E1 by (apply Hd; split_and!; [done|lia|done]).
    assert (in_success l2 = true) as E2 by (apply Hi; split_and!; try done; by destruct Hans).
    apply String.eqb_neq in Ha as ->. destruct (Z.eqb_spec port 0); [lia|]. rewrite E1, E2. cbn [negb andb orb]. apply String.eqb_neq in Hr as ->.
    pose proof (success_found _ _ _ _ E2) as Hnf. fold l2 in Hnf. rewrite Hnf.
    pose proof (match_status backendID (in_tags l2) (in_labels l2)) as Hm. destruct (_ =s "confirmed_mismatch") eqn:Em.
    { apply String.eqb_eq in Em. rewrite Em in Hm. set_solver. }
    by destruct (match_warning _ ++ _).
Qed.
End Verdict.

(** ** Runs of the handlers *)

Section Runs.
Context `{MR : MapRange} (decode_error : any -> string) (real_text : float64 -> string).

(** The checks of a run: the row, the agent asked and the image. *)
Definition check_event : Type := string * agent_access * string.

(** Every handler that writes the table; other tables may change in between. *)
Inductive nbr_run : list check_event -> list nbr_row -> Prop :=
| run_empty : nbr_run [] []
| run_enable tr rows sr s nodeID req now :
    nbr_run tr rows -> nbr_run tr (HandleEnableNodeBackendRuntime decode_error sr s nodeID req now rows).2
| run_check tr rows sr s nodeID nbrID now agent st :
    nbr_run tr rows -> begin_check sr s nodeID nbrID rows = inr st ->
    nbr_run ((nbrID, agent, cs_ref st) :: tr) (HandleRequestNodeBackendRuntimeCheck sr agent s nodeID nbrID now rows).2
| run_patch tr rows s nbrID req now : nbr_run tr rows -> nbr_run tr (HandlePatchNodeBackendRuntime real_text s nbrID req now rows).2
| run_delete tr rows sr s nbrID : nbr_run tr rows -> nbr_run tr (HandleDeleteNodeBackendRuntime sr s nbrID rows).2
| run_edit tr rows id layer patch reset now : nbr_run tr rows -> nbr_run tr (edit_node_runtime id layer patch reset now rows).2.

(** What the run knows about a row. *)
Definition verified (tr : list check_event) (r : nbr_row) : Prop :=
  isNBRDeployable (nr_status r) = true ->
  nr_image_present r = true /\ nr_docker r = true /\
  exists agent ref, (nr_id r, agent, ref) ∈ tr /\ agent_answered agent /\ engine_inspected agent ref /\ (nr_image_ref r <> "" -> ref = nr_image_ref r).

Definition sound (tr : list check_event) (rows : list nbr_row) : Prop := NoDup (map nr_id rows) /\ Forall (verified tr) rows.

Lemma not_deployable_verified tr r : isNBRDeployable (nr_status r) = false -> verified tr r.
Proof. intros H. unfold verified. by rewrite H. Qed.

Lemma verified_more tr e r : verified tr r -> verified (e :: tr) r.
Proof. intros H Hd. destruct (H Hd) as (? & ? & agent & ref & Hin & ?). split_and!; [done..|]. exists agent, ref. split; [by right|done]. Qed.

Lemma update_ids p f rows : (forall r, nr_id (f r) = nr_id r) -> map nr_id (update_where p f rows) = map nr_id rows.
Proof. apply update_map. Qed.

Lemma enabled_not_deployable verdict : isNBRDeployable (enabled_status verdict).1 = false.
Proof.
  unfold enabled_status. destruct (existsb _ _) eqn:E; [|done]. apply existsb_exists in E as (x & Hx & Heq%String.eqb_eq). rewrite Heq.
  apply list_elem_of_In in Hx. rewrite !elem_of_cons, elem_of_nil in Hx. by destruct Hx as [->|[->|[->|[]]]].
Qed.

Lemma enable_row_sound tr sr s nodeID runtimeID imageRef rt req present docker verdict now rows :
  isNBRDeployable verdict.1 = false -> sound tr rows ->
  sound tr (enable_row decode_error sr s nodeID runtimeID imageRef rt req present docker verdict now rows).2.
Proof.
  intros Hv [Hn Hr]. unfold enable_row. destruct (List.find _ rows) as [old|]; cbn [snd].
  - split; [by rewrite update_ids|]. apply update_Forall_where; [|done]. intros r _ _. by apply not_deployable_verified.
  - destruct (buildRuntimeConfigSnapshot _ _ _ _ _ _); [done..|]. destruct (_ || _) eqn:E; cbn [snd]; [done|]. bool_facts. split.
    + rewrite map_app. apply NoDup_app. split_and!; [done| |by apply NoDup_singleton]. intros x Hx Hs. apply list_elem_of_singleton in Hs as ->.
      apply list_elem_of_fmap in Hx as (r & Heq & Hin). cbn in Heq.
      assert (existsb (fun r => nr_id r =s nodeID +s+ ":" +s+ runtimeID) rows = true) as Ht; [|congruence].
      apply existsb_exists. exists r. split; [by apply list_elem_of_In|]. by rewrite <- Heq, String.eqb_refl.
    + apply Forall_app. split; [done|]. constructor; [|done]. by apply not_deployable_verified.
Qed.

Lemma enable_sound tr sr s nodeID req now rows : sound tr rows -> sound tr (HandleEnableNodeBackendRuntime decode_error sr s nodeID req now rows).2.
Proof.
  intros H. unfold HandleEnableNodeBackendRuntime, upsertNodeBackendRuntime. repeat case_match; try done; cbn [negb andb] in *; try discriminate.
  apply enable_row_sound; [apply enabled_not_deployable|done].
Qed.

Lemma begin_check_inv sr s nodeID nbrID rows st : begin_check sr s nodeID nbrID rows = inr st ->
  cs_nbr st ∈ rows /\ nr_id (cs_nbr st) = nbrID /\ (nr_image_ref (cs_nbr st) <> "" -> cs_ref st = nr_image_ref (cs_nbr st)).
Proof.
  unfold begin_check. destruct (negb _); [done|]. destruct (_ || _); [done|]. destruct (List.find _ rows) as [nbr|] eqn:E; [|done].
  apply List.find_some in E as [Hin E]. bool_facts. destruct (template_of _ _) as [rt|]; [|done].
  destruct (match node_of _ _ with Some _ => _ | None => _ end) as [addr port]. intros [= <-]. cbn. split_and!; [by apply list_elem_of_In|done|].
  intros Hr. by apply String.eqb_neq in Hr as ->.
Qed.

Lemma same_id_same_row rows r1 r2 : NoDup (map nr_id rows) -> r1 ∈ rows -> r2 ∈ rows -> nr_id r1 = nr_id r2 -> r1 = r2.
Proof.
  intros Hn. induction rows as [|r rows IH]; [by intros ?%not_elem_of_nil|]. cbn in Hn. apply NoDup_cons in Hn as [Hr Hn].
  rewrite !elem_of_cons. intros [->|H1] [->|H2] He; try done.
  - destruct Hr. rewrite He. by apply (list_elem_of_fmap_2 nr_id).
  - destruct Hr. rewrite <- He. by apply (list_elem_of_fmap_2 nr_id).
  - by apply IH.
Qed.

Lemma check_sound tr sr s nodeID nbrID now agent st rows :
  sound tr rows -> begin_check sr s nodeID nbrID rows = inr st ->
  sound ((nbrID, agent, cs_ref st) :: tr) (HandleRequestNodeBackendRuntimeCheck sr agent s nodeID nbrID now rows).2.
Proof.
  intros [Hn Hr] Hb. unfold HandleRequestNodeBackendRuntimeCheck. rewrite Hb. cbn [snd]. apply begin_check_inv in Hb as (Hin & Hid & Href).
  split; [by unfold finish_check; rewrite update_ids|]. unfold finish_check. apply Forall_forall. intros r Hr'.
  apply elem_of_update in Hr' as (r0 & Hr0 & ->). rewrite Forall_forall in Hr. destruct (nr_id r0 =s nr_id (cs_nbr st)) eqn:E.
  - apply String.eqb_eq in E. assert (r0 = cs_nbr st) as -> by (by eapply same_id_same_row). unfold verified. cbn [nr_status with_result nr_image_present nr_docker nr_id nr_image_ref].
    intros Hd. apply probe_deployable in Hd as (_ & _ & Hans & _ & Hins & Hp & Hk). split_and!; [done..|]. exists agent, (cs_ref st).
    split_and!; [rewrite Hid; by left|done..].
  - by apply verified_more, Hr.
Qed.

(** *** Patches *)

Definition harmless_update (u : column_update) : Prop := match u with SetImageRef _ | SetStatus _ => False | _ => True end.

Lemma set_column_keeps u r r' : set_column real_text u r = Some r' ->
  nr_id r' = nr_id r /\ nr_image_present r' = nr_image_present r /\ nr_docker r' = nr_docker r /\
  (harmless_update u -> nr_status r' = nr_status r /\ nr_image_ref r' = nr_image_ref r).
Proof. destruct u; cbn; try (destruct (sql_text real_text v); [|done]); cbn; intros [= <-]; split_and!; done. Qed.

Lemma set_columns_keeps l r r' : set_columns real_text l r = Some r' ->
  nr_id r' = nr_id r /\ nr_image_present r' = nr_image_present r /\ nr_docker r' = nr_docker r /\
  (Forall harmless_update l -> nr_status r' = nr_status r /\ nr_image_ref r' = nr_image_ref r).
Proof.
  revert r. induction l as [|u l IH]; intros r; cbn [set_columns]; [by intros [= <-]|].
  destruct (set_column real_text u r) as [r1|] eqn:E; [|done]. cbn [mbind option_bind]. intros H.
  apply set_column_keeps in E as (E1 & E2 & E3 & E4). apply IH in H as (H1 & H2 & H3 & H4). split_and!; [congruence..|].
  intros [Hu Hl]%Forall_cons. destruct (E4 Hu), (H4 Hl). split; congruence.
Qed.

Lemma set_columns_status l st r r' : set_columns real_text (l ++ [SetStatus st]) r = Some r' -> nr_status r' = st.
Proof.
  revert r. induction l as [|u l IH]; intros r; cbn [app set_columns]; [by intros [= <-]|].
  destruct (set_column real_text u r) as [r1|]; [|done]. apply IH.
Qed.

Lemma given_absent req key mk : has_key req key = false -> given req key mk = [].
Proof. unfold has_key, given. by destruct (obj_get req key). Qed.

Lemma given_harmless req key mk : (forall v, harmless_update (mk v)) -> Forall harmless_update (given req key mk).
Proof. intros H. unfold given. destruct (obj_get req key); by repeat constructor. Qed.

Lemma display_harmless req l : display_update req = Some l -> Forall harmless_update l.
Proof. unfold display_update. repeat case_match; intros [= <-]; by repeat constructor. Qed.

Lemma patch_updates_quiet req display : display_update req = Some display -> status_update req = [] -> Forall harmless_update (patch_updates req display).
Proof.
  intros Hd Hs. unfold patch_updates. rewrite Hs. unfold status_update in Hs. destruct (obj_boolVal req "disabled" false); [done|].
  unfold needs_recheck in Hs. cbn [existsb] in Hs.
  destruct (has_key req "image_ref") eqn:E1; [done|]. destruct (has_key req "image_id"); [done|]. destruct (has_key req "image_digest"); [done|].
  rewrite (given_absent _ _ SetImageRef E1). repeat (apply Forall_app; split); try (by apply given_harmless); [by eapply display_harmless|done..].
Qed.

Lemma patch_updates_loud req display r r' : status_update req <> [] -> set_columns real_text (patch_updates req display) r = Some r' ->
  isNBRDeployable (nr_status r') = false.
Proof.
  unfold patch_updates, status_update. intros Hs. repeat case_match; try done; rewrite !app_assoc; intros ->%set_columns_status; done.
Qed.

Lemma patch_row_verified tr req display now r r' :
  display_update req = Some display -> verified tr r -> set_columns real_text (patch_updates req display) r = Some r' ->
  verified tr (touched now r').
Proof.
  intros Hd Hv Hs. unfold verified. cbn [nr_status touched nr_image_present nr_docker nr_id nr_image_ref]. intros Hdep.
  destruct (status_update req) as [|u l] eqn:Eu; [|by rewrite (patch_updates_loud _ _ _ _ ltac:(by rewrite Eu) Hs) in Hdep].
  apply set_columns_keeps in Hs as (Hi & Hp & Hk & Hq). destruct (Hq (patch_updates_quiet _ _ Hd Eu)) as [Hst Hr].
  rewrite Hst in Hdep. rewrite Hi, Hp, Hk, Hr. by apply Hv.
Qed.

Lemma mapM_ids (f : nbr_row -> option nbr_row) rows rows' :
  (forall r r', f r = Some r' -> nr_id r' = nr_id r) -> mapM f rows = Some rows' -> map nr_id rows' = map nr_id rows.
Proof.
  intros Hf H%mapM_Some. induction H as [|r r' rows rows' Hr _ IH]; [done|]. cbn. by rewrite IH, (Hf _ _ Hr).
Qed.

Lemma patch_sound tr s nbrID req now rows : sound tr rows -> sound tr (HandlePatchNodeBackendRuntime real_text s nbrID req now rows).2.
Proof.
  intros [Hn Hr]. unfold HandlePatchNodeBackendRuntime. destruct (negb _); [done|]. destruct req as [req|]; [|done].
  destruct (has_key req "image_present"); [done|]. destruct (has_key req "docker_available"); [done|].
  destruct (display_update req) as [display|] eqn:Ed; [|done]. destruct (mapM _ rows) as [rows'|] eqn:Em; [|done]. cbn [snd]. split.
  - enough (map nr_id rows' = map nr_id rows) as -> by done. refine (mapM_ids _ _ _ _ Em). intros r r'. destruct (_ =s _); [|by intros [= <-]].
    destruct (set_columns _ _ r) as [r1|] eqn:Es; [|done]. intros [= <-]. by apply set_columns_keeps in Es as [Hi _].
  - apply mapM_Some in Em. apply Forall_forall. intros r' Hr'. apply list_elem_of_lookup in Hr' as [i Hi].
    destruct (Forall2_lookup_r _ _ _ _ _ Em Hi) as (r & Hri & Hf). apply list_elem_of_lookup_2 in Hri. rewrite Forall_forall in Hr.
    destruct (_ =s _); [|injection Hf as <-; by apply Hr]. destruct (set_columns _ _ r) as [r1|] eqn:Es; [|done]. injection Hf as <-.
    eapply patch_row_verified; [done|by apply Hr|done].
Qed.

Lemma delete_sound tr sr s nbrID rows : sound tr rows -> sound tr (HandleDeleteNodeBackendRuntime sr s nbrID rows).2.
Proof.
  intros [Hn Hr]. unfold HandleDeleteNodeBackendRuntime. repeat case_match; try done. split; [by apply delete_NoDup_map|by apply delete_Forall].
Qed.

Lemma edit_sound tr id layer patch reset now rows : sound tr rows -> sound tr (edit_node_runtime id layer patch reset now rows).2.
Proof.
  intros [Hn Hr]. unfold edit_node_runtime. repeat case_match; try done. cbn [snd]. split; [by rewrite update_ids|].
  apply update_Forall; [|done]. intros r _. by apply not_deployable_verified.
Qed.

Lemma run_sound tr rows : nbr_run tr rows -> sound tr rows.
Proof.
  induction 1; [split; [constructor|done]|by apply enable_sound|by apply check_sound|by apply patch_sound|by apply delete_sound|by apply edit_sound].
Qed.

(** C6. In every run of the handlers, each answering before the next starts, a node
    runtime that deployments may use was checked: the agent answered, its engine
    inspected an image, and that image is the one the row names, if it names one. *)
Theorem deployable_was_inspected tr rows r :
  nbr_run tr rows -> r ∈ rows -> isNBRDeployable (nr_status r) = true ->
  nr_image_present r = true /\ nr_docker r = true /\
  exists agent ref, (nr_id r, agent, ref) ∈ tr /\ agent_answered agent /\ engine_inspected agent ref /\ (nr_image_ref r <> "" -> ref = nr_image_ref r).
Proof. intros [_ H]%run_sound Hr Hd. rewrite Forall_forall in H. by apply (H r Hr Hd). Qed.
End Runs.

(** ** At concrete rows *)

Section Demo.
#[local] Existing Instance canonical_range.

Definition nbr_session : session := {| s_user := "u1"; s_tenant := "t0"; s_admin := false; s_perms := [] |}.

Definition nbr_facts : node_facts :=
  {| nf_hostname := "h"; nf_primary_ip := "10.0.0.1"; nf_advertised := "10.0.0.1"; nf_os := "linux"; nf_arch := "amd64"; nf_kernel := "6"; nf_version := "1";
     nf_metrics_enabled := true; nf_metrics_scheme := "http"; nf_metrics_port := 19091; nf_metrics_path := "/metrics" |}.

(** [config]: the set of the template. *)
Definition nbr_template (tenant : string) (config : any) : template_row :=
  {| bt_id := "rt1"; bt_name := "vllm"; bt_display := "vLLM"; bt_backend := "backend.vllm"; bt_version := "v1"; bt_source := "system"; bt_vendor := "nvidia";
     bt_editable := true; bt_tenant := tenant; bt_managed := "user"; bt_status := "active"; bt_visibility := "private"; bt_config := config;
     bt_metadata := AMap []; bt_checksum := ""; bt_updated := "" |}.

Definition nbr_image_set (image : string) : any :=
  AMap [("items", AMap [("launcher.image", AMap [("value", AMap [("effective_value", AStr image)])])])].

Definition nbr_surroundings (tenant : string) (config : any) : surroundings :=
  {| sr_templates := [nbr_template tenant config];
     sr_nodes := [{| n_id := "n1"; n_agent := "a1"; n_facts := nbr_facts; n_status := "online"; n_heartbeat := 0; n_tenant := "t0"; n_updated := 0 |}];
     sr_devices := [{| gd_id := "gpu0"; gd_node := "n1"; gd_status := "available"; gd_index := 0; gd_vendor := "nvidia" |}]; sr_deployed := []; sr_running := [] |}.

(** An agent with one image, tagged [vllm:1]. *)
Definition nbr_agent : agent_access :=
  {| ag_configured := true;
     ag_get path _ := if path =s "/docker-images" then inl (jq "{`images`: []}") else inl (jq "{`inspect`: {`Id`: `sha256:1`, `RepoTags`: [`vllm:1`]}}") |}.

Definition no_error_text (v : any) : string := "invalid patch".
Definition no_real_text (f : float64) : string := "1.0".

Definition nbr_enabled (tenant : string) (config : any) (request : obj) : list nbr_row :=
  (HandleEnableNodeBackendRuntime no_error_text (nbr_surroundings tenant config) nbr_session "n1"
     (Some (obj_set "backend_runtime_id" (AStr "rt1") request)) "t1" []).2.

Definition nbr_checked (tenant : string) (config : any) (rows : list nbr_row) : list nbr_row :=
  (HandleRequestNodeBackendRuntimeCheck (nbr_surroundings tenant config) nbr_agent nbr_session "n1" "n1:rt1" "t2" rows).2.

Definition nbr_patched (request : obj) (rows : list nbr_row) : list nbr_row :=
  (HandlePatchNodeBackendRuntime no_real_text nbr_session "n1:rt1" (Some request) "t3" rows).2.

Definition ready_rows : list nbr_row := nbr_checked "t0" (nbr_image_set "vllm:1") (nbr_enabled "t0" (nbr_image_set "vllm:1") [("image_ref", AStr "vllm:1")]).

Definition enabled_start : check_start :=
  {| cs_nbr := default {| nr_id := ""; nr_runtime := ""; nr_node := ""; nr_display := ""; nr_image_ref := ""; nr_image_id := ""; nr_image_digest := "";
                          nr_image_present := false; nr_docker := false; nr_driver := ""; nr_toolkit := ""; nr_device_check := ANil; nr_status := "";
                          nr_reason := ""; nr_checked := ""; nr_probe := ANil; nr_config := ANil; nr_metadata := ANil; nr_tenant := ""; nr_updated := "" |}
               (head (nbr_enabled "t0" (nbr_image_set "vllm:1") [("image_ref", AStr "vllm:1")]));
     cs_template := nbr_template "t0" (nbr_image_set "vllm:1"); cs_ref := "vllm:1"; cs_addr := "10.0.0.1"; cs_port := 19091 |}.

Lemma ready_run : nbr_run no_error_text no_real_text [("n1:rt1", nbr_agent, "vllm:1")] ready_rows.
Proof.
  apply (run_check _ _ _ _ _ _ _ _ _ _ enabled_start); [apply run_enable, run_empty|vm_compute; reflexivity].
Qed.

Lemma deployable_was_inspected_witness :
  exists r, head ready_rows = Some r /\ nr_image_present r = true /\ exists agent ref, (nr_id r, agent, ref) ∈ [("n1:rt1", nbr_agent, "vllm:1")] /\ ref = nr_image_ref r.
Proof.
  destruct (head ready_rows) as [r|] eqn:E; [|by vm_compute in E]. exists r.
  assert (r ∈ ready_rows) as Hr by (destruct ready_rows; simplify_eq/=; by left).
  assert (nr_image_ref r = "vllm:1") as Hi by (vm_compute in E; by injection E as <-).
  destruct (deployable_was_inspected _ _ _ _ r ready_run Hr) as (Hp & _ & agent & ref & Hin & _ & _ & Href).
  - vm_compute in E. injection E as <-. vm_compute. reflexivity.
  - split; [reflexivity|]. split; [exact Hp|]. exists agent, ref. split; [exact Hin|]. apply Href. by rewrite Hi.
Defined.

(** A patch between the two halves of a check: the row ends deployable with an image
    that no engine was asked for. *)
Example check_patch_race :
  match begin_check (nbr_surroundings "t0" (nbr_image_set "vllm:1")) nbr_session "n1" "n1:rt1" ready_rows with
  | inr st => map (fun r => (nr_status r, nr_image_ref r)) (finish_check nbr_agent st "t4" (nbr_patched [("image_ref", AStr "other:2")] ready_rows))
              = [("ready", "other:2")] /\ cs_ref st = "vllm:1"
  | inl _ => False
  end.
Proof. vm_compute. by split. Qed.

(** A check forgets the versions written by a patch. *)
Example check_wipes_versions :
  let rows := nbr_patched [("driver_version", AStr "550"); ("toolkit_version", AStr "12.4")] ready_rows in
  map (fun r => (nr_driver r, nr_toolkit r, nr_status r)) rows = [("550", "12.4", "ready")]
  /\ map (fun r => (nr_driver r, nr_toolkit r)) (nbr_checked "t0" (nbr_image_set "vllm:1") rows) = [("", "")].
Proof. split; vm_compute; reflexivity. Qed.

(** Without an image reference of its own a row is checked for the image its template
    names today, while deployments copy the set frozen when it was enabled. *)
Example frozen_image_not_checked :
  let rows := nbr_patched [("image_ref", AStr "")] (nbr_enabled "t0" (nbr_image_set "vllm:old") []) in
  match begin_check (nbr_surroundings "t0" (nbr_image_set "vllm:1")) nbr_session "n1" "n1:rt1" rows with
  | inr st => cs_ref st = "vllm:1" /\
              map (fun r => (nr_status r, configString (copy_of (nr_config r)) "launcher.image" "")) (finish_check nbr_agent st "t4" rows) = [("ready", "vllm:old")]
  | inl _ => False
  end.
Proof. vm_compute. by split. Qed.

(** A set sent as text is stored as a JSON string, which is no set. *)
Example config_set_text_lost :
  map (fun r => copy_of (nr_config r)) (nbr_patched [("config_set_json", AStr (jq "{`items`: {}}"))] ready_rows) = [empty_set].
Proof. vm_compute. reflexivity. Qed.

(** The private template of another tenant can be enabled, and its set is copied. *)
Example template_of_another_tenant :
  map (fun r => (nr_tenant r, configString (copy_of (nr_config r)) "launcher.image" "")) (nbr_enabled "t9" (nbr_image_set "secret:1") []) = [("t0", "secret:1")].
Proof. vm_compute. reflexivity. Qed.
End Demo.
