(* ===== verification/DeploymentDocs.v ===== *)
(** * Deployment documents (internal/server/api: deployment_lifecycle_handlers.go, config_edit_handlers.go)

    Creating a deployment freezes the set of its node runtime, applies the overrides and
    the edit patch of the request and derives port and device bindings; patching and
    template synchronisation change the row afterwards.  JSON columns are decoded
    documents, as in [NodeRuntimes]. *)
From S2P Require Import Prelude GoStrings GoNumbers GoValue GoJson GoJsonText RuntimeContract RunPlanTypes ConfigSets ConfigEdit.
From S2P Require Import Store Deployments Detection RunPlanViews AgentSpec Preflight NodeRuntimes.
From Stdlib Require Import Ascii.

Record deployment_full := {
  de_id : string; de_name : string; de_display : string; de_description : string; de_artifact : string; de_runtime : string; de_nbr : string;
  de_replicas : Z; de_placement : any; de_service : any; de_overrides : any; de_source_runtime : string; de_source_hash : string;
  de_config : any; de_metadata : any; de_desired : string; de_status : string; de_tenant : string; de_copied : string;
  de_created : string; de_updated : string
}.

(** ** Names *)

Definition slug_char (c : ascii) : bool := is_lower c || is_digit c || Ascii.eqb c "-"%char.
Definition slug_replace (c : ascii) : ascii :=
  if existsb (Ascii.eqb c) [" "%char; "/"%char; "_"%char; "."%char; ":"%char] then "-"%char else c.

Fixpoint keep_bytes (p : ascii -> bool) (s : string) : string :=
  match s with "" => "" | String c s => if p c then String c (keep_bytes p s) else keep_bytes p s end.

Definition slugify (s : string) : string :=
  let s := keep_bytes slug_char (map_str slug_replace (ToLower (TrimSpace s))) in
  or_field (TrimRight (TrimLeft s "-"%char) "-"%char) "version".

(** [stamp]: the time as 14 digits. *)
Definition defaultDeploymentName (dc : documents) (rows : list nbr_row) (artifactID nbrID stamp : string) : string :=
  let artifact := match by_id ad_id artifactID (dc_artifacts dc) with
                  | Some a => if ad_display_name a =s "" then ad_name a else ad_display_name a
                  | None => ""
                  end in
  let artifact := if TrimSpace artifact =s "" then "model" else artifact in
  let runtime := match by_id nr_id nbrID rows with
                 | Some r => if nr_display r =s "" then nr_id r else nr_display r
                 | None => ""
                 end in
  let runtime := if TrimSpace runtime =s "" then "runtime" else runtime in
  str_take 120 (slugify (artifact +s+ "-" +s+ runtime) +s+ "-" +s+ stamp).

(** ** The frozen set *)

(** [None]: there is no snapshot. *)
Definition deploymentConfigSnapshotFromNBR (nbr_config : any) (imageRef : string) : option any :=
  match nbr_config with
  | AMap [] => None
  | doc =>
      let set := copy_of doc in
      Some (stored (AMap (if imageRef <>s "" then setConfigValue set "launcher.image" (AStr imageRef) "NodeBackendRuntime" "" else set)))
  end.

(** [boolFromAny], [stringSliceFromAny] of the handlers *)
Definition api_boolFromAny (v : any) (def : bool) : bool :=
  match v with
  | ABool b => b
  | AStr s =>
      let t := ToLower (TrimSpace s) in
      if existsb (String.eqb t) ["true"; "1"; "yes"; "on"] then true
      else if existsb (String.eqb t) ["false"; "0"; "no"; "off"] then false else def
  | AFloat f => negb (f64_eqb f (SpecFloat.S754_zero false))
  | AInt n => negb (n =? 0)%Z
  | _ => def
  end.

Definition stringSliceFromAny (v : any) : list string :=
  List.filter (fun s => (s <>s "") && (s <>s "<nil>")) (map fmt_v (elements v)).

(** *** Bindings derived from the request (materializeDeploymentCompatConfig) *)

Definition port_binding (service : obj) : obj :=
  [("container_port", AInt (firstPositive [api_intFromAny (get_any service "container_port") 0; api_intFromAny (get_any service "app_port") 0]));
   ("host_port", AInt (api_intFromAny (get_any service "host_port") 0)); ("listen_host", AStr (firstNonEmpty [obj_strVal service "listen_host" ""; "0.0.0.0"]));
   ("protocol", AStr (firstNonEmpty [obj_strVal service "protocol" ""; "tcp"])); ("served_model_name", AStr (obj_strVal service "served_model_name" ""))].

(** [if v := binding[k]; v is not zero { setConfigValue(...) }] *)
Definition set_unless_zero (layer ref code : string) (v : any) (set : obj) : obj :=
  match v with AInt 0 => set | AStr "" => set | _ => setConfigValue set code v layer ref end.

Definition materialize_service (layer ref : string) (service set : obj) : obj :=
  match service with
  | [] => set
  | _ =>
      let b := port_binding service in
      let set := setConfigValue set "service.port_binding" (AMap b) layer ref in
      let set := set_unless_zero layer ref "deployment.host_port" (get_any b "host_port") set in
      let set := set_unless_zero layer ref "service.container_port" (get_any b "container_port") set in
      set_unless_zero layer ref "deployment.served_model_name" (get_any b "served_model_name") set
  end.

Definition derived_mode (placement : obj) (ids : list string) : bool * string :=
  let enabled := match obj_get placement "device_binding_enabled" with Some v => api_boolFromAny v true | None => true end in
  let mode := if enabled then TrimSpace (obj_strVal placement "accelerator_selection_mode" "") else "disabled" in
  (enabled, or_field mode (match ids with [] => "auto" | _ => "manual" end)).

Definition device_binding (placement : obj) : obj :=
  let ids := stringSliceFromAny (get_any placement "accelerator_ids") in
  let '(enabled, mode) := derived_mode placement ids in
  [("accelerator_count", AInt (firstPositive [api_intFromAny (get_any placement "accelerator_count") 0; Z.of_nat (length ids)]));
   ("accelerator_ids", AStrs ids); ("device_mounts", AStrs (stringSliceFromAny (get_any placement "device_mounts")));
   ("docker_gpu_option", AStr (obj_strVal placement "docker_gpu_option" "")); ("enabled", ABool enabled); ("mode", AStr mode);
   ("vendor", AStr (obj_strVal placement "vendor" "")); ("visible_env_key", AStr (obj_strVal placement "visible_env_key" ""));
   ("visible_env_value", AStr (obj_strVal placement "visible_env_value" ""))].

Definition materialize_placement (layer ref : string) (placement set : obj) : obj :=
  match placement with [] => set | _ => setConfigValue set "runtime.device_binding" (AMap (device_binding placement)) layer ref end.

Definition materializeDeploymentCompatConfig (layer ref : string) (placement service set : obj) : obj :=
  materialize_placement layer ref placement (materialize_service layer ref service set).

(** ** What the handlers answer

    The row joined with the names of its artifact and of the node runtime it was copied
    from; the columns of the template are never written. *)

Definition getDeploymentJSON (dc : documents) (rows : list nbr_row) (id : string) (ds : list deployment_full) : option obj :=
  d ← by_id de_id id ds;
  let artifact := by_id ad_id (de_artifact d) (dc_artifacts dc) in
  let obj_of v := match v with AMap m => m | _ => [] end in
  Some [("backend_runtime_id", AStr (de_runtime d)); ("config_overrides", AMap (obj_of (de_overrides d))); ("config_overrides_json", de_overrides d);
        ("config_set", AMap (parse_of (de_config d))); ("config_set_json", de_config d); ("copied_at", AStr (de_copied d));
        ("created_at", AStr (de_created d)); ("description", AStr (de_description d)); ("desired_state", AStr (de_desired d));
        ("display_name", AStr (de_display d)); ("id", AStr (de_id d)); ("model_artifact_id", AStr (de_artifact d));
        ("model_display_name", AStr (from_option ad_display_name "" artifact)); ("model_name", AStr (from_option ad_name "" artifact));
        ("name", AStr (de_name d)); ("placement_json", de_placement d); ("replicas", AInt (de_replicas d)); ("service_json", de_service d);
        ("source_backend_runtime_id", AStr (de_source_runtime d)); ("source_config_hash", AStr (de_source_hash d));
        ("source_metadata", AMap (obj_of (de_metadata d))); ("source_metadata_json", de_metadata d);
        ("source_node_backend_runtime_display_name", AStr (from_option nr_display "" (by_id nr_id (de_nbr d) rows)));
        ("source_node_backend_runtime_id", AStr (de_nbr d)); ("source_template_name", AStr ""); ("source_template_version", AStr "");
        ("status", AStr (de_status d)); ("tenant_id", AStr (de_tenant d)); ("updated_at", AStr (de_updated d))].

Definition hidden_columns : list string := ["backend_runtime_id"; "config_overrides_json"; "config_set_json"; "source_metadata_json"].
Definition publicDeploymentJSON (m : option obj) : obj :=
  List.filter (fun kv => negb (existsb (String.eqb kv.1) hidden_columns)) (default [] m).

Definition HandleGetDeployment (dc : documents) (rows : list nbr_row) (s : session) (id : string) (ds : list deployment_full) : reply :=
  match by_id de_id id ds with
  | None => not_found
  | Some d => if negb (tenantScopeCheck s (de_tenant d)) then not_found else Reply 200 (AMap (publicDeploymentJSON (getDeploymentJSON dc rows id ds)))
  end.

(** ** Creating a deployment *)

Section Create.
Context `{MR : MapRange} (decode_error : any -> string) (hash_of : any -> string) (real_text : float64 -> string).

(** The placement written: the node of the node runtime is filled in; [None]: it names another node. *)
Definition create_placement (node : string) (req : obj) : option any :=
  match obj_get req "placement_json" with
  | None | Some ANil => Some (AMap [("node_id", AStr node)])
  | Some (AMap pm) =>
      let named := obj_strVal pm "node_id" "" in
      if (named <>s "") && (named <>s node) then None else Some (AMap (obj_set "node_id" (AStr node) pm))
  | Some v => Some v
  end.

(** The configuration set of the new row. *)
Definition create_config (nbr : nbr_row) (snapshot : any) (overrides placement service req : obj) (id now : string) : edit_outcome :=
  let set := applyConfigOverrides "Deployment" id (copy_of snapshot) overrides in
  match applyEditableConfigPatchIfPresent decode_error set req "deployment" id now with
  | Edited set => Edited (materializeDeploymentCompatConfig "deployment" id placement service set)
  | other => other
  end.

Definition create_overrides (req : obj) : obj :=
  match obj_get req "config_overrides" with Some v => mapFromAny v | None => [] end.

Definition deployment_metadata (nbr : nbr_row) (config : any) : any :=
  AMap [("copy_semantics", AStr "copy_on_create"); ("source_backend_runtime_id", AStr (nr_runtime nbr)); ("source_config_hash", AStr (hash_of config));
        ("source_node_backend_runtime_id", AStr (nr_id nbr)); ("source_node_runtime_metadata", AMap (match nr_metadata nbr with AMap m => m | _ => [] end));
        ("source_runtime_config_authority", AStr "config_set"); ("source_type", AStr "node_backend_runtime")].

Definition new_deployment (s : session) (id name : string) (req : obj) (nbr : nbr_row) (placement : any) (overrides set : obj) (now : string) :
    deployment_full :=
  let config := stored (AMap set) in
  {| de_id := id; de_name := name; de_display := or_field (obj_strVal req "display_name" "") name; de_description := obj_strVal req "description" "";
     de_artifact := obj_strVal req "model_artifact_id" ""; de_runtime := nr_runtime nbr; de_nbr := nr_id nbr; de_replicas := api_intVal req "replicas" 1;
     de_placement := stored placement; de_service := stored (get_any req "service_json"); de_overrides := stored (AMap overrides);
     de_source_runtime := nr_runtime nbr; de_source_hash := hash_of config; de_config := config;
     de_metadata := stored (deployment_metadata nbr config); de_desired := "stopped"; de_status := "saved"; de_tenant := s_tenant s; de_copied := now;
     de_created := now; de_updated := now |}.

(** The checks before anything is derived. *)
Definition create_refusal (dc : documents) (rows : list nbr_row) (req : obj) : reply + nbr_row :=
  let artifactID := obj_strVal req "model_artifact_id" "" in
  let nbrID := obj_strVal req "node_backend_runtime_id" "" in
  let legacy := rejectLegacyDeploymentPayload req in
  if legacy <>s ""
  then inl (api_error 400 (legacy +s+ " is not accepted by the ConfigSet deployment contract; use node_backend_runtime_id and config_overrides"))
  else if (1 <? api_intVal req "replicas" 1)%Z then inl (api_error 400 "multi-replica deployments are not yet supported; use replicas=1")
  else if nbrID =s "" then inl (api_error 400 "node_backend_runtime_id is required")
  else match by_id nr_id nbrID rows with
       | None => inl (api_error 400 "node_backend_runtime_id not found")
       | Some nbr =>
           if negb (isNBRDeployable (nr_status nbr))
           then inl (api_error 400 ("node backend runtime is not deployable (status=" +s+ nr_status nbr +s+ "): " +s+ nbrDisabledReason (nr_status nbr) ""))
           else match create_placement (nr_node nbr) req with
                | None => inl (api_error 400 "placement node_id does not match node_backend_runtime_id node")
                | Some _ =>
                    if (artifactID <>s "") && bool_decide (by_id ad_id artifactID (dc_artifacts dc) = None)
                    then inl (api_error 400 "model_artifact_id not found")
                    else match findDeployableModelLocation dc artifactID (nr_node nbr) with
                         | (None, reason) => if (artifactID <>s "") && (nr_node nbr <>s "") then inl (api_error 400 reason) else inr nbr
                         | (Some _, _) => inr nbr
                         end
                end
       end.

(** [req]: the decoded body; a row without an artifact violates the foreign key. *)
Definition HandleCreateDeployment (dc : documents) (rows : list nbr_row) (s : session) (req : option obj) (id stamp now : string)
    (ds : list deployment_full) : reply * list deployment_full :=
  match req with
  | None => (api_error 400 "invalid request", ds)
  | Some req =>
      match create_refusal dc rows req with
      | inl r => (r, ds)
      | inr nbr =>
          let placement := default ANil (create_placement (nr_node nbr) req) in
          let artifactID := obj_strVal req "model_artifact_id" "" in
          let name := obj_strVal req "name" "" in
          let name := if (name =s "") || (name =s "deployment") then defaultDeploymentName dc rows artifactID (nr_id nbr) stamp else name in
          match deploymentConfigSnapshotFromNBR (nr_config nbr) (nr_image_ref nbr) with
          | None => (api_error 400 "node backend runtime config snapshot is missing; recreate node backend runtime", ds)
          | Some snapshot =>
              match create_config nbr snapshot (create_overrides req) (default [] (as_map placement)) (default [] (get_obj req "service_json")) req id now with
              | EditRefused e => (api_error 400 e, ds)
              | EditPanic => (Panicked, ds)
              | Edited set =>
                  if bool_decide (by_id ad_id artifactID (dc_artifacts dc) = None) || existsb (fun d => de_id d =s id) ds
                  then (api_error 500 "internal error", ds)
                  else let d := new_deployment s id name req nbr placement (create_overrides req) set now in
                       (Reply 201 (AMap (publicDeploymentJSON (getDeploymentJSON dc rows id (ds ++ [d])))), ds ++ [d])
              end
          end
      end
  end.

(** ** Patching a deployment *)

Inductive deployment_update :=
| PutName (v : any) | PutDisplay (v : any) | PutDescription (v : any) | PutArtifact (v : any) | PutPlacement (v : any) | PutService (v : any)
| PutConfig (overrides set : obj) | PutReplicas (n : Z).

Definition put_update (u : deployment_update) (d : deployment_full) : option deployment_full :=
  let keep name display description artifact placement service overrides config replicas :=
    {| de_id := de_id d; de_name := name; de_display := display; de_description := description; de_artifact := artifact; de_runtime := de_runtime d;
       de_nbr := de_nbr d; de_replicas := replicas; de_placement := placement; de_service := service; de_overrides := overrides;
       de_source_runtime := de_source_runtime d; de_source_hash := de_source_hash d; de_config := config; de_metadata := de_metadata d;
       de_desired := de_desired d; de_status := de_status d; de_tenant := de_tenant d; de_copied := de_copied d;
     de_created := de_created d; de_updated := de_updated d |} in
  let n := de_name d in let dn := de_display d in let de := de_description d in let a := de_artifact d in let p := de_placement d in
  let s := de_service d in let o := de_overrides d in let c := de_config d in let r := de_replicas d in
  match u with
  | PutName v => t ← sql_text real_text v; Some (keep t dn de a p s o c r)
  | PutDisplay v => t ← sql_text real_text v; Some (keep n t de a p s o c r)
  | PutDescription v => t ← sql_text real_text v; Some (keep n dn t a p s o c r)
  | PutArtifact v => t ← sql_text real_text v; Some (keep n dn de t p s o c r)
  | PutPlacement v => Some (keep n dn de a (stored v) s o c r)
  | PutService v => Some (keep n dn de a p (stored v) o c r)
  | PutConfig overrides set => Some (keep n dn de a p s (stored (AMap overrides)) (stored (AMap set)) r)
  | PutReplicas k => Some (keep n dn de a p s o c k)
  end.

Fixpoint put_updates (l : list deployment_update) (d : deployment_full) : option deployment_full :=
  match l with [] => Some d | u :: l => d ← put_update u d; put_updates l d end.

Definition trimmed_text (v : any) : any := match v with AStr s => AStr (TrimSpace s) | v => v end.
Definition if_given (req : obj) (key : string) (mk : any -> deployment_update) : list deployment_update :=
  match obj_get req key with Some v => [mk v] | None => [] end.

(** The overrides apply to the stored set, which already holds the earlier ones. *)
Definition patched_config (d : deployment_full) (v : any) : deployment_update :=
  let overrides := mapFromAny v in
  PutConfig overrides (applyConfigOverrides "Deployment" (de_id d) (copy_of (stored (AMap (parse_of (de_config d))))) overrides).

Definition deployment_updates (d : deployment_full) (req : obj) : list deployment_update :=
  if_given req "name" (fun v => PutName (trimmed_text v)) ++ if_given req "display_name" (fun v => PutDisplay (trimmed_text v))
  ++ if_given req "description" (fun v => PutDescription (trimmed_text v)) ++ if_given req "model_artifact_id" (fun v => PutArtifact (trimmed_text v))
  ++ if_given req "placement_json" PutPlacement ++ if_given req "service_json" PutService
  ++ if_given req "config_overrides" (patched_config d)
  ++ match obj_get req "replicas" with Some v => [PutReplicas (api_intVal [("replicas", v)] "replicas" 1)] | None => [] end.

Definition touched_deployment (now : string) (d : deployment_full) : deployment_full :=
  {| de_id := de_id d; de_name := de_name d; de_display := de_display d; de_description := de_description d; de_artifact := de_artifact d;
     de_runtime := de_runtime d; de_nbr := de_nbr d; de_replicas := de_replicas d; de_placement := de_placement d; de_service := de_service d;
     de_overrides := de_overrides d; de_source_runtime := de_source_runtime d; de_source_hash := de_source_hash d; de_config := de_config d;
     de_metadata := de_metadata d; de_desired := de_desired d; de_status := de_status d; de_tenant := de_tenant d; de_copied := de_copied d;
     de_created := de_created d; de_updated := now |}.

Definition replace_deployment (d' : deployment_full) (ds : list deployment_full) : list deployment_full :=
  update_where (fun d => de_id d =s de_id d') (fun _ => d') ds.

(** The artifact column has a foreign key. *)
Definition HandlePatchDeployment (dc : documents) (rows : list nbr_row) (s : session) (id : string) (req : option obj) (now : string)
    (ds : list deployment_full) : reply * list deployment_full :=
  match by_id de_id id ds with
  | None => (not_found, ds)
  | Some d =>
      if negb (tenantScopeCheck s (de_tenant d)) then (not_found, ds)
      else match req with
      | None => (api_error 400 "invalid request", ds)
      | Some req =>
          let legacy := rejectLegacyDeploymentPayload req in
          if legacy <>s "" then (api_error 400 (legacy +s+ " is not accepted by the ConfigSet deployment contract; use config_overrides"), ds)
          else if match obj_get req "name" with Some (AStr n) => TrimSpace n =s "" | _ => false end then (api_error 400 "name is required", ds)
          else match put_updates (deployment_updates d req) d with
               | None => (api_error 500 "internal error", ds)
               | Some d' =>
                   if bool_decide (by_id ad_id (de_artifact d') (dc_artifacts dc) = None) then (api_error 500 "internal error", ds)
                   else let ds' := replace_deployment (touched_deployment now d') ds in
                        (Reply 200 (AMap (publicDeploymentJSON (getDeploymentJSON dc rows id ds'))), ds')
               end
      end
  end.
End Create.

(** ** Template synchronisation *)

Record TemplateSyncDiff := {
  ts_Field : string; ts_DeployValue : any; ts_TemplateValue : any; ts_AppliedValue : any; ts_UserModified : bool; ts_Conflict : bool
}.

Definition sync_diff (field : string) (old new : any) : TemplateSyncDiff :=
  {| ts_Field := field; ts_DeployValue := old; ts_TemplateValue := new; ts_AppliedValue := new; ts_UserModified := false; ts_Conflict := false |}.

Section Sync.
Context `{MR : MapRange} (hash_of : any -> string).

(** Items are compared by their %v text. *)
Definition computeConfigSetDiffs (old new : any) : list TemplateSyncDiff :=
  let oldItems := configSetItems (parse_of old) in
  let newItems := configSetItems (parse_of new) in
  omap (fun kv => if fmt_v kv.2 =s fmt_v (get_any newItems kv.1) then None else Some (sync_diff kv.1 kv.2 (get_any newItems kv.1)))
       (range (obj_map oldItems))
  ++ omap (fun kv => if has_key oldItems kv.1 then None else Some (sync_diff kv.1 ANil kv.2)) (range (obj_map newItems)).

Definition changedFieldsFromDiffs (diffs : list TemplateSyncDiff) : list string :=
  map ts_Field (List.filter (fun d => negb (ts_Conflict d)) diffs).
Definition conflictedFieldsFromDiffs (diffs : list TemplateSyncDiff) : list string := map ts_Field (List.filter ts_Conflict diffs).

(** What the answer reports as changed under a strategy. *)
Definition reported_changes (strategy : string) (diffs : list TemplateSyncDiff) : list string :=
  map ts_Field (List.filter (fun d => negb (ts_Conflict d) && negb ((strategy =s "preserve_overrides") && ts_UserModified d)) diffs).

Definition sync_source (d : deployment_full) : string := if de_source_runtime d =s "" then de_runtime d else de_source_runtime d.

(** The set of the template; the text {} stands for a missing template. *)
Definition buildDeploymentRuntimeSnapshot (sr : surroundings) (runtimeID : string) : any :=
  match template_of sr runtimeID with Some rt => bt_config rt | None => AMap [] end.

Definition HandleDeploymentTemplateSyncPreview (sr : surroundings) (s : session) (id : string) (ds : list deployment_full) : reply :=
  match by_id de_id id ds with
  | None => not_found
  | Some d =>
      if negb (tenantScopeCheck s (de_tenant d)) then not_found
      else
        let config := buildDeploymentRuntimeSnapshot sr (sync_source d) in
        let diffs := computeConfigSetDiffs (de_config d) config in
        let hash := match config with AMap [] => "" | _ => hash_of config end in
        Reply 200 (AMap [("changed_fields", AStrs (changedFieldsFromDiffs diffs)); ("conflicted_fields", AStrs (conflictedFieldsFromDiffs diffs));
          ("current_template_hash", AStr hash); ("deployment_id", AStr id); ("original_config_hash", AStr (de_source_hash d));
          ("source_exists", ABool (bool_decide (is_Some (template_of sr (sync_source d))))); ("source_runtime_id", AStr (sync_source d));
          ("template_changed", ABool (de_source_hash d <>s hash))])
  end.

Definition synced (config : any) (hash now : string) (d : deployment_full) : deployment_full :=
  {| de_id := de_id d; de_name := de_name d; de_display := de_display d; de_description := de_description d; de_artifact := de_artifact d;
     de_runtime := de_runtime d; de_nbr := de_nbr d; de_replicas := de_replicas d; de_placement := de_placement d; de_service := de_service d;
     de_overrides := de_overrides d; de_source_runtime := de_source_runtime d; de_source_hash := hash; de_config := config;
     de_metadata := de_metadata d; de_desired := de_desired d; de_status := de_status d; de_tenant := de_tenant d; de_copied := de_copied d;
     de_created := de_created d; de_updated := now |}.

Definition HandleDeploymentTemplateSyncApply (sr : surroundings) (s : session) (id : string) (req : option obj) (now : string)
    (ds : list deployment_full) : reply * list deployment_full :=
  match by_id de_id id ds with
  | None => (not_found, ds)
  | Some d =>
      if negb (tenantScopeCheck s (de_tenant d)) then (not_found, ds)
      else match req with
      | None => (api_error 400 "invalid request", ds)
      | Some req =>
          let strategy := obj_strVal req "strategy" "preserve_overrides" in
          match template_of sr (sync_source d) with
          | None => (api_error 400 "source runtime template not found", ds)
          | Some rt =>
              let diffs := computeConfigSetDiffs (de_config d) (bt_config rt) in
              (Reply 200 (AMap [("changed_fields", AStrs (reported_changes strategy diffs)); ("conflicted_fields", AStrs (conflictedFieldsFromDiffs diffs));
                 ("deployment_id", AStr id); ("new_config_hash", AStr (hash_of (bt_config rt))); ("status", AStr "synced");
                 ("strategy", AStr strategy); ("updated_at", AStr now)]),
               update_where (fun x => de_id x =s id) (synced (bt_config rt) (hash_of (bt_config rt)) now) ds)
          end
      end
  end.
End Sync.

(** ** Editing the set of a deployment (config_edit_handlers.go, for objects of kind deployment)

    The bindings are derived again from the columns before the edit. *)

Definition deployment_edit_set (d : deployment_full) : obj :=
  let obj_of v := match v with AMap m => m | _ => [] end in
  reread_obj (materializeDeploymentCompatConfig "deployment" (de_id d) (obj_of (de_placement d)) (obj_of (de_service d)) (copy_of (de_config d))).

Definition edit_deployment (id layer : string) (patch : ConfigEditPatch) (reset : option reset_request) (now : string) (ds : list deployment_full) :
    option apply_response * list deployment_full :=
  match by_id de_id id ds with
  | None => (None, ds)
  | Some d =>
      match HandleConfigEditApply false (deployment_edit_set d) patch reset layer id now with
      | Applied set => (Some (Applied set), update_where (fun x => de_id x =s id) (synced (stored (AMap set)) (de_source_hash d) now) ds)
      | resp => (Some resp, ds)
      end
  end.

(** ** The row the validation of a start reads

    [placement], [service], [config]: the texts of the columns. *)
Definition shown_deployment (d : deployment_full) (placement service config : string) : deployment_doc :=
  {| dd_id := de_id d; dd_name := de_name d; dd_tenant := de_tenant d; dd_artifact := de_artifact d; dd_runtime := de_runtime d; dd_nbr := de_nbr d;
     dd_placement := placement; dd_service := service; dd_config_set := config |}.
