(* ===== verification/DeploymentDocProps.v ===== *)
(** * What a deployment freezes

    A created deployment refers to a node runtime deployments may use and to a model
    location on its node; the frozen set names the image that runtime was checked for,
    and the plan of an accepted start runs that image. *)
From S2P Require Import Prelude GoStrings GoNumbers GoValue GoJson GoJsonText RuntimeContract RunPlanTypes ConfigSets ConfigSetProps ConfigEdit ConfigEditProps.
From S2P Require Import Resolver SourceMap Store Deployments LifecycleProps Detection SemanticAdapter RunPlanViews AgentSpec Preflight PreflightProps NodeRuntimes NodeRuntimeProps DeploymentDocs.
From Stdlib Require Import Ascii.

Definition image_code : string := "launcher.image".

(** ** The patch of a request *)

Lemma field_ind {A} (P : any -> Prop) (Q : A -> Prop) m name dec (zero : A) :
  Forall (fun kv => P kv.2) m -> Q zero -> (forall v x, P v -> dec v = Some x -> Q x) -> Q (field m name dec zero).
Proof.
  intros Hm Hz Hd. unfold field. revert zero Hz. induction Hm as [|[k v] m Hv _ IH]; intros acc Ha; [done|]. cbn [foldl fst snd]. apply IH.
  destruct (EqualFold k name); [|done]. destruct (dec v) eqn:E; [by eapply Hd|done].
Qed.

Lemma decoded_patch raw patch : decoded raw -> decodeConfigEditPatch raw = Some patch -> Forall (fun f => decoded (fp_Value f)) (cp_Fields patch).
Proof.
  intros Hr. unfold decodeConfigEditPatch. rewrite reread_decoded by done. destruct raw as [| | | | | | | |m]; try done.
  destruct (forallb patch_ok m); [|done]. intros [= <-]. cbn [cp_Fields]. apply (field_ind decoded); [by apply decoded_map|constructor|].
  intros v l Hv. destruct v as [| | | | | |es| |]; try done; cbn; [by intros [= <-]|]. intros [= <-]. apply Forall_map.
  apply decoded_list in Hv. eapply Forall_impl; [exact Hv|]. intros x Hx.
  destruct x as [| | | | | | | |fm]; try apply (doc_nil (P := decoded)). cbn. by apply (doc_field_value (P := decoded)).
Qed.

(** ** Requests that leave the image alone

    They override no setting of that name, and a patch they carry is one of the
    deployment layer. *)
Record image_kept (req : obj) : Prop := {
  ik_key : obj_get (create_overrides req) image_code = None;
  ik_values : forall l, obj_get (create_overrides req) "parameter_values" = Some l -> Forall (elsewhere image_code) (elements l);
  ik_patch : forall raw patch, obj_get req "editable_config_patch" = Some raw -> decodeConfigEditPatch raw = Some patch ->
               cp_Layer patch ∈ [""; "deployment"]
}.

Section Image.
Context `{MR : MapRange} (decode_error : any -> string) (hash_of : any -> string).

Lemma create_overrides_decoded req : decoded (AMap req) -> decoded (AMap (create_overrides req)).
Proof.
  intros H. unfold create_overrides. destruct (obj_get req "config_overrides") as [v|] eqn:E; [|done].
  apply (doc_from_any (P := decoded)). exact (doc_get (P := decoded) _ _ _ H E).
Qed.

Lemma overrides_keep_image layer ref set req :
  image_kept req -> setting (applyConfigOverrides layer ref set (create_overrides req)) image_code = setting set image_code.
Proof.
  intros [Hk Hv _]. unfold applyConfigOverrides. apply setting_steps; [done|]. apply Forall_forall. intros [k v] Hin%elem_of_range.
  rewrite obj_map_lookup in Hin. split; cbn [fst snd]; [congruence|]. intros ->. by apply Hv.
Qed.

Lemma normalize_setting set code : decoded (AMap set) -> setting (NormalizeConfigSet set) code = setting set code.
Proof.
  intros H. unfold NormalizeConfigSet. rewrite reread_obj_decoded by done. destruct (get_obj set "items") eqn:E; [done|].
  unfold setting, configItem, configSetItems. by rewrite get_obj_set, E.
Qed.

Lemma item_setting a b code : configItem a code = enabled_if_required <$> configItem b code -> setting a code = setting b code.
Proof. unfold setting. intros ->. destruct (configItem b code) as [item|]; [|done]. cbn. apply enabled_value. Qed.

(** The set after the patch of a creation request. *)
Lemma patch_keeps_image set req id now set' :
  decoded (AMap set) -> decoded (AMap req) -> image_kept req ->
  applyEditableConfigPatchIfPresent decode_error set req "deployment" id now = Edited set' ->
  decoded (AMap set') /\ setting set' image_code = setting set image_code.
Proof.
  intros Hs Hr Hk. unfold applyEditableConfigPatchIfPresent. destruct (obj_get req "editable_config_patch") as [raw|] eqn:E; [|by intros [= <-]].
  destruct (decodeConfigEditPatch raw) as [patch|] eqn:Ep; [|destruct raw; try done; by intros [= <-]].
  assert (ApplyEditPatchToConfigSet set (with_layer "deployment" patch) "deployment" id now = Edited set' ->
    decoded (AMap set') /\ setting set' image_code = setting set image_code) as Hx; [|by destruct raw; [intros [= <-]| apply Hx..]].
  intros H. pose proof (ik_patch _ Hk _ _ E Ep) as Hl.
  assert (cp_Layer (with_layer "deployment" patch) ∈ [""; "deployment"]) as Hl'
    by (unfold with_layer; destruct (_ =s ""); cbn; set_solver).
  assert (cp_Fields (with_layer "deployment" patch) = cp_Fields patch) as Hf by (unfold with_layer; by case_match).
  split.
  - eapply edited_decoded; [exact Hs| |exact H]. rewrite Hf. eapply decoded_patch; [exact (doc_get (P := decoded) _ _ _ Hr E)|exact Ep].
  - rewrite <- (normalize_setting set) by done. apply item_setting. eapply deployment_patch_keeps; [exact H|exact Hl'|]. left. by left.
Qed.

(** ** Derived bindings *)

Lemma jsonable_ints z : jsonable (AInt z).
Proof. by eexists. Qed.
Lemma jsonable_strs l : jsonable (AStrs l).
Proof. by eexists. Qed.

Lemma materialize_keeps layer ref placement service set code :
  code ∉ ["service.port_binding"; "deployment.host_port"; "service.container_port"; "deployment.served_model_name"; "runtime.device_binding"] ->
  jsonable (AMap set) ->
  jsonable (AMap (materializeDeploymentCompatConfig layer ref placement service set)) /\
  setting (materializeDeploymentCompatConfig layer ref placement service set) code = setting set code.
Proof.
  rewrite !not_elem_of_cons. intros (H1 & H2 & H3 & H4 & H5 & _) Hs. unfold materializeDeploymentCompatConfig, materialize_placement, materialize_service.
  assert (forall s c v, jsonable v -> jsonable (AMap s) -> c <> code ->
    jsonable (AMap (setConfigValue s c v layer ref)) /\ setting (setConfigValue s c v layer ref) code = setting s code) as Hset.
  { intros s c v Hv Hj Hc. split; [by apply (doc_set_value (P := jsonable))|by apply setting_set_ne]. }
  assert (forall s c v, jsonable v -> jsonable (AMap s) -> c <> code ->
    jsonable (AMap (set_unless_zero layer ref c v s)) /\ setting (set_unless_zero layer ref c v s) code = setting s code) as Hz.
  { intros s c v Hv Hj Hc. unfold set_unless_zero. repeat case_match; try done; by apply Hset. }
  assert (forall v, jsonable (AMap (port_binding v)) /\ jsonable (AMap (device_binding v))) as Hb.
  { intros v. split; [by eexists|]. unfold device_binding. destruct (derived_mode _ _). by eexists. }
  match goal with |- context [match placement with [] => ?s | _ => _ end] => set (S1 := s) end.
  assert (jsonable (AMap S1) /\ setting S1 code = setting set code) as [Hj1 Hs1].
  { unfold S1. destruct service as [|kv service]; [done|]. set (b := port_binding _). destruct (Hb (kv :: service)) as [Hbp _]. fold b in Hbp.
    destruct (Hset set "service.port_binding" (AMap b)) as [J1 E1]; [done..|by auto|].
    destruct (Hz _ "deployment.host_port" (get_any b "host_port") (doc_get_any (P := jsonable) _ _ Hbp) J1) as [J2 E2]; [by auto|].
    destruct (Hz _ "service.container_port" (get_any b "container_port") (doc_get_any (P := jsonable) _ _ Hbp) J2) as [J3 E3]; [by auto|].
    destruct (Hz _ "deployment.served_model_name" (get_any b "served_model_name") (doc_get_any (P := jsonable) _ _ Hbp) J3) as [J4 E4]; [by auto|].
    split; [exact J4|]. by rewrite E4, E3, E2, E1. }
  destruct placement as [|kv placement]; [done|]. destruct (Hset S1 "runtime.device_binding" (AMap (device_binding (kv :: placement)))) as [J E];
    [apply Hb|done|by auto|]. split; [done|]. by rewrite E.
Qed.

(** ** The frozen set *)

Lemma snapshot_image m ref snapshot :
  decoded (AMap m) -> ref <> "" -> deploymentConfigSnapshotFromNBR (AMap m) ref = Some snapshot ->
  exists set, snapshot = AMap set /\ decoded (AMap set) /\ setting set image_code = Some (AStr ref).
Proof.
  intros Hm Hr. apply String.eqb_neq in Hr as Hr'. unfold deploymentConfigSnapshotFromNBR. destruct m as [|kv m]; [done|]. rewrite Hr'. cbn [negb copy_of].
  intros [= <-]. set (set := setConfigValue _ _ _ _ _). assert (decoded (AMap set)) as Hd by (apply (doc_set_value (P := decoded)); [done|exact Hm]).
  exists set. unfold stored. rewrite reread_decoded by done. split_and!; [done..|]. by apply setting_set.
Qed.

Lemma created_image nbr m snapshot req placement service id now set :
  nr_config nbr = AMap m -> decoded (AMap m) -> decoded (AMap req) -> nr_image_ref nbr <> "" -> image_kept req ->
  deploymentConfigSnapshotFromNBR (nr_config nbr) (nr_image_ref nbr) = Some snapshot ->
  create_config decode_error nbr snapshot (create_overrides req) placement service req id now = Edited set ->
  exists frozen, stored (AMap set) = AMap frozen /\ setting frozen image_code = Some (AStr (nr_image_ref nbr)).
Proof.
  intros Hc Hm Hr Hi Hk Hs. rewrite Hc in Hs. destruct (snapshot_image _ _ _ Hm Hi Hs) as (s1 & -> & H1 & E1). unfold create_config. cbn [copy_of].
  destruct (applyEditableConfigPatchIfPresent _ _ _ _ _ _) as [e| |s3] eqn:E; [done..|]. intros [= <-].
  apply patch_keeps_image in E as [H3 E3]; [|by apply (doc_overrides (P := decoded)); [|apply create_overrides_decoded]|done..].
  rewrite overrides_keep_image in E3 by done.
  destruct (materialize_keeps "deployment" id placement service s3 image_code) as [H4 E4]; [set_solver|by apply decoded_jsonable|].
  eexists. unfold stored. rewrite (reread_obj_jsonable _ H4). split; [reflexivity|]. by rewrite setting_reread, E4, E3, E1.
Qed.

(** ** Creation *)

Lemma create_refusal_inr dc rows req nbr : create_refusal dc rows req = inr nbr ->
  by_id nr_id (obj_strVal req "node_backend_runtime_id" "") rows = Some nbr /\ isNBRDeployable (nr_status nbr) = true /\
  is_Some (create_placement (nr_node nbr) req) /\
  (obj_strVal req "model_artifact_id" "" <> "" -> nr_node nbr <> "" ->
   exists loc, List.find (location_deployable (nr_node nbr)) (listModelLocations dc (obj_strVal req "model_artifact_id" "")) = Some loc).
Proof.
  unfold create_refusal. destruct (_ <>s ""); [done|]. destruct (1 <? _)%Z; [done|]. destruct (_ =s ""); [done|].
  destruct (by_id _ _ _) as [n|]; [|done]. destruct (isNBRDeployable (nr_status n)) eqn:Ed; [|done]. cbn [negb].
  destruct (create_placement (nr_node n) req) as [p|] eqn:Ep; [|done]. destruct (_ && bool_decide _); [done|]. unfold findDeployableModelLocation.
  destruct (List.find _ _) as [loc|] eqn:El.
  - intros [= <-]. rewrite Ep. split_and!; [done|done|by eexists|]. intros _ _. by exists loc.
  - destruct ((_ <>s "") && (nr_node n <>s "")) eqn:E; [done|]. intros [= <-]. rewrite Ep. split_and!; [done|done|by eexists|]. intros Ha Hn.
    apply String.eqb_neq in Ha as Ha', Hn as Hn'. by rewrite Ha', Hn' in E.
Qed.

(** The placement that is stored names the node. *)
Definition placed_on (node : string) (placement : any) : Prop :=
  match placement with AMap pm => obj_get pm "node_id" = Some (AStr node) | _ => True end.

Lemma create_placement_node node req p : create_placement node req = Some p -> placed_on node (stored p).
Proof.
  assert (forall pm, obj_get pm "node_id" = Some (AStr node) -> placed_on node (stored (AMap pm))) as H.
  { intros pm Hp. unfold stored. destruct (reread (AMap pm)) as [v|] eqn:E; [|done]. destruct v as [| | | | | | | |pm']; try done. cbn.
    rewrite (reread_get _ _ _ E), Hp. done. }
  unfold create_placement. destruct (obj_get req "placement_json") as [v|]; [|intros [= <-]; by apply H].
  destruct v as [| | | | |f| | |pm]; intros Hp; simplify_eq; try done.
  - unfold stored. cbn. by destruct (finite f).
  - unfold stored. cbn. by destruct ((_ : list any -> option (list any)) l).
  - destruct (_ && _); [done|]. simplify_eq. apply H, obj_get_set.
Qed.

(** The set a creation freezes: the copy of the set of the node runtime under its image,
    then the overrides and the patch of the request, then the bindings. *)
Definition frozen_from (req : obj) (nbr : nbr_row) (id now : string) (d : deployment_full) : Prop :=
  exists snapshot set placement,
    deploymentConfigSnapshotFromNBR (nr_config nbr) (nr_image_ref nbr) = Some snapshot /\ create_placement (nr_node nbr) req = Some placement
    /\ create_config decode_error nbr snapshot (create_overrides req) (default [] (as_map placement)) (default [] (get_obj req "service_json")) req id now = Edited set
    /\ de_config d = stored (AMap set).

(** A new row, and why it was made. *)
Definition created_from (dc : documents) (rows : list nbr_row) (req : obj) (id now : string) (d : deployment_full) : Prop :=
  exists nbr, by_id nr_id (obj_strVal req "node_backend_runtime_id" "") rows = Some nbr /\ isNBRDeployable (nr_status nbr) = true
    /\ de_id d = id /\ de_nbr d = nr_id nbr /\ de_runtime d = nr_runtime nbr /\ de_artifact d = obj_strVal req "model_artifact_id" ""
    /\ is_Some (by_id ad_id (de_artifact d) (dc_artifacts dc)) /\ placed_on (nr_node nbr) (de_placement d)
    /\ (de_artifact d <> "" -> nr_node nbr <> "" ->
        exists loc, List.find (location_deployable (nr_node nbr)) (listModelLocations dc (de_artifact d)) = Some loc)
    /\ frozen_from req nbr id now d
    /\ (forall m, nr_config nbr = AMap m -> decoded (AMap m) -> decoded (AMap req) -> nr_image_ref nbr <> "" -> image_kept req ->
        exists frozen, de_config d = AMap frozen /\ setting frozen image_code = Some (AStr (nr_image_ref nbr))).

Lemma create_created dc rows s req id stamp now ds resp ds' :
  HandleCreateDeployment decode_error hash_of dc rows s (Some req) id stamp now ds = (resp, ds') ->
  (exists d, resp = Reply 201 (AMap (publicDeploymentJSON (getDeploymentJSON dc rows id ds'))) /\ ds' = ds ++ [d] /\ created_from dc rows req id now d)
  \/ (ds' = ds /\ forall body, resp <> Reply 201 body).
Proof.
  unfold HandleCreateDeployment. destruct (create_refusal dc rows req) as [r|nbr] eqn:Er.
  { intros [= <- <-]. right. split; [done|]. intros body ->. revert Er. unfold create_refusal. repeat case_match; done. }
  apply create_refusal_inr in Er as (Hn & Hd & [p Hp] & Hl). rewrite Hp. cbn [default from_option].
  destruct (deploymentConfigSnapshotFromNBR _ _) as [snapshot|] eqn:Es; [|intros [= <- <-]; by right].
  destruct (create_config _ _ _ _ _ _ _ _ _) as [e| |set] eqn:Ec; [intros [= <- <-]; by right..|].
  destruct (bool_decide _ || _) eqn:Eb; [intros [= <- <-]; by right|]. apply orb_false_iff in Eb as [Ea _]. apply bool_decide_eq_false in Ea.
  intros [= <- <-]. left. eexists. split_and!; [done..|]. exists nbr. cbn [new_deployment de_id de_nbr de_runtime de_artifact de_placement de_config].
  split_and!; try done; [by destruct (by_id ad_id _ _); [eexists|]|by eapply create_placement_node|by eexists _, _, _|].
  intros m Hm Hdm Hr Hi Hk. by eapply created_image.
Qed.

End Image.

(** ** From the check of an image to the plan that runs it *)

Lemma unmarshal_column column m : Unmarshal column = Some (AMap m) -> mapFromAny (AStr column) = m.
Proof. intros H. cbn. unfold Unmarshal_map. by rewrite H. Qed.

Lemma plan_image `{MR : MapRange} input_hash plan_hash now instanceID pk plan sources errs warns :
  ResolveWithSourceMap input_hash plan_hash (resolve_input now instanceID pk) = (Some (plan, sources), errs, warns) ->
  rp_Image plan = configString (deployment_set (pk_deployment pk)) image_code "" /\ rp_Image plan <> "".
Proof.
  unfold ResolveWithSourceMap. destruct (Resolve _ _ _) as [[[p|] e] w] eqn:E; [|done]. intros [= <- _ _ _].
  apply Resolve_Some in E as (ms & ph & (_ & Hi & _) & -> & _). cbn [plan_of rp_Image]. by split.
Qed.

Lemma config_string_of set code s : setting set code = Some (AStr s) -> configString set code "" <> "" -> configString set code "" = s.
Proof. intros H. unfold configString. rewrite configValue_setting, H. cbn. by destruct (TrimSpace s =s ""). Qed.

Section Chain.
Context `{MR : MapRange} (decode_error : any -> string) (real_text : float64 -> string) (hash_of : any -> string).
Context (input_hash : ResolveInput -> string) (plan_hash : ResolvedRunPlan -> string).

(** C5. Take a deployment created in a run of the node runtime handlers from a node runtime
    that names an image, by a request that leaves the image alone ([image_kept]: no
    override of launcher.image, no patch of another layer), the set of the runtime and
    the request being documents read from JSON.  If its row still holds the frozen set
    when it is validated, and the validation of a start accepts it with a plan, then the
    plan runs exactly the image its node runtime named at creation, and that image was
    inspected by the engine of an agent that answered a check of that node runtime.
    Requests that override the image ([image_overridden]) and rows synchronised with a
    template ([sync_keeps_nothing]) are outside the theorem. *)
Theorem deployed_image_was_inspected tr rows dc s req id stamp now ds body d nbr m dc' s' clock resolved_as placement service column plan sources :
  nbr_run decode_error real_text tr rows ->
  HandleCreateDeployment decode_error hash_of dc rows s (Some req) id stamp now ds = (Reply 201 body, ds ++ [d]) ->
  by_id nr_id (obj_strVal req "node_backend_runtime_id" "") rows = Some nbr ->
  nr_image_ref nbr <> "" -> image_kept req -> nr_config nbr = AMap m -> decoded (AMap m) -> decoded (AMap req) ->
  by_id dd_id id (dc_deployments dc') = Some (shown_deployment d placement service column) -> Unmarshal column = Some (de_config d) ->
  let pr := preflightDeployment input_hash plan_hash dc' s' clock resolved_as id in
  pr_errs pr = [] -> pr_plan pr = Some (plan, sources) ->
  rp_Image plan = nr_image_ref nbr /\
  exists agent, (nr_id nbr, agent, rp_Image plan) ∈ tr /\ agent_answered agent /\ engine_inspected agent (rp_Image plan).
Proof.
  intros Hrun Hc Hn Hi Hk Hm Hdm Hdr Hrow Hcol pr He Hp. apply create_created in Hc as [(d' & _ & Hd & C)|[Hd _]];
    [|by apply (f_equal length) in Hd; rewrite length_app in Hd; cbn in Hd; lia].
  apply app_inj_2 in Hd as [_ [= <-]]; [|done]. destruct C as (nbr' & Hn' & Hdep & _ & _ & _ & _ & _ & _ & _ & _ & Himg).
  rewrite Hn in Hn'. injection Hn' as <-. destruct (Himg m Hm Hdm Hdr Hi Hk) as (frozen & Hf & Hset).
  destruct (preflight_accepted input_hash plan_hash dc' s' clock resolved_as id He) as (pk & plan' & sources' & warns & D & Hr & _ & Hp' & _).
  fold pr in Hp'. rewrite Hp in Hp'. injection Hp' as <- <-. apply plan_image in Hr as [Hplan Hne].
  pose proof (dp_deployment _ _ _ _ D) as Hpk. rewrite Hrow in Hpk. injection Hpk as Hpk. rewrite <- Hpk in Hplan.
  unfold deployment_set in Hplan. cbn [dd_config_set shown_deployment] in Hplan. rewrite Hf in Hcol. rewrite (unmarshal_column _ _ Hcol) in Hplan.
  assert (rp_Image plan = nr_image_ref nbr) as E by (rewrite Hplan; apply config_string_of; [done|by rewrite <- Hplan]). split; [done|].
  pose proof (run_sound _ _ _ _ Hrun) as [_ Hv]. rewrite Forall_forall in Hv.
  assert (nbr ∈ rows) as Hin by (apply List.find_some in Hn as [Hn _]; by apply list_elem_of_In).
  destruct (Hv _ Hin Hdep) as (_ & _ & agent & ref & Htr & Ha & Hins & Href). rewrite E, <- (Href Hi). by exists agent.
Qed.
End Chain.

(** ** At concrete documents *)

Section Demo.
#[local] Existing Instance canonical_range.

Definition chain_set : any := default ANil (Unmarshal demo_column).

(** The node runtime is enabled and checked. *)
Definition chain_rows : list nbr_row := nbr_checked "t0" chain_set (nbr_enabled "t0" chain_set [("image_ref", AStr "vllm:1")]).

Definition chain_start : check_start :=
  {| cs_nbr := default (cs_nbr enabled_start) (head (nbr_enabled "t0" chain_set [("image_ref", AStr "vllm:1")]));
     cs_template := nbr_template "t0" chain_set; cs_ref := "vllm:1"; cs_addr := "10.0.0.1"; cs_port := 19091 |}.

Lemma chain_run : nbr_run no_error_text no_real_text [("n1:rt1", nbr_agent, "vllm:1")] chain_rows.
Proof. apply (run_check _ _ _ _ _ _ _ _ _ _ chain_start); [apply run_enable, run_empty|vm_compute; reflexivity]. Qed.

Definition chain_request (overrides : obj) : obj :=
  [("config_overrides", AMap overrides); ("model_artifact_id", AStr "m1"); ("name", AStr "qwen"); ("node_backend_runtime_id", AStr "n1:rt1")].

Definition chain_create (overrides : obj) : reply * list deployment_full :=
  HandleCreateDeployment no_error_text (fun _ => "hash") (demo_documents "null") chain_rows nbr_session (Some (chain_request overrides)) "d1"
    "20250101000000" "t3" [].

Definition no_deployment : deployment_full :=
  {| de_id := ""; de_name := ""; de_display := ""; de_description := ""; de_artifact := ""; de_runtime := ""; de_nbr := ""; de_replicas := 0;
     de_placement := ANil; de_service := ANil; de_overrides := ANil; de_source_runtime := ""; de_source_hash := ""; de_config := ANil; de_metadata := ANil;
     de_desired := ""; de_status := ""; de_tenant := ""; de_copied := ""; de_created := ""; de_updated := "" |}.

Definition chain_deployment (overrides : obj) : deployment_full := default no_deployment (head (chain_create overrides).2).
Definition frozen_image (d : deployment_full) : string := configString (copy_of (de_config d)) "launcher.image" "".

(** The text of the frozen set. *)
Definition chain_column : string := jq
  "{`items`: {`backend.capabilities`: {`value`: {`effective_value`: {`model_path_modes`: [`directory`], `supported_formats`: [`huggingface`],
       `supported_tasks`: [`chat`]}}},
     `launcher.command`: {`value`: {`effective_value`: [`serve`, `{{MODEL_CONTAINER_PATH}}`]}},
     `launcher.image`: {`provenance`: {`last_value_layer`: `NodeBackendRuntime`, `last_value_owner_id`: ``, `value_source`: `NodeBackendRuntime`},
       `state`: {`enabled`: true}, `value`: {`effective_value`: `vllm:1`, `local_value`: `vllm:1`}},
     `runtime.device_binding`: {`provenance`: {`last_value_layer`: `deployment`, `last_value_owner_id`: `d1`, `value_source`: `deployment`},
       `state`: {`enabled`: true},
       `value`: {`effective_value`: {`accelerator_count`: 0, `accelerator_ids`: [], `device_mounts`: [], `docker_gpu_option`: ``, `enabled`: true,
           `mode`: `auto`, `vendor`: ``, `visible_env_key`: ``, `visible_env_value`: ``},
         `local_value`: {`accelerator_count`: 0, `accelerator_ids`: [], `device_mounts`: [], `docker_gpu_option`: ``, `enabled`: true,
           `mode`: `auto`, `vendor`: ``, `visible_env_key`: ``, `visible_env_value`: ``}}},
     `runtime.health`: {`value`: {`effective_value`: {`path`: `/health`, `success_status`: [204]}}},
     `runtime.shm_size`: {`provenance`: {`last_value_layer`: `Deployment`, `last_value_owner_id`: `d1`, `value_source`: `Deployment`},
       `schema`: {`key`: `runtime.shm_size`}, `state`: {`enabled`: true}, `value`: {`effective_value`: `8g`, `local_value`: `8g`}}}}".

Definition shm : obj := [("runtime.shm_size", AStr "8g")].

(** The tables when the deployment is started. *)
Definition chain_documents : documents :=
  let dc := demo_documents "null" in
  {| dc_deployments := [shown_deployment (chain_deployment shm) (jq "{`node_id`: `n1`}") "null" chain_column];
     dc_artifacts := dc_artifacts dc; dc_runtimes := dc_runtimes dc;
     dc_nbrs := [{| nb_id := "n1:rt1"; nb_status := "ready"; nb_runtime := "rt1"; nb_node := "n1"; nb_probe := "{}" |}];
     dc_gpus := dc_gpus dc; dc_locations := dc_locations dc; dc_nodes := dc_nodes dc |}.

Lemma chain_kept : image_kept (chain_request shm).
Proof. split; [reflexivity|intros l; discriminate|intros raw patch; discriminate]. Qed.

Definition chain_nbr : nbr_row := default (cs_nbr enabled_start) (head chain_rows).
Definition chain_map : obj := default [] (as_map (nr_config chain_nbr)).

Lemma chain_found : by_id nr_id (obj_strVal (chain_request shm) "node_backend_runtime_id" "") chain_rows = Some chain_nbr.
Proof. vm_compute. reflexivity. Qed.
Lemma chain_image : nr_image_ref chain_nbr = "vllm:1" /\ nr_id chain_nbr = "n1:rt1".
Proof. vm_compute. by split. Qed.
Lemma chain_config : nr_config chain_nbr = AMap chain_map.
Proof. vm_compute. reflexivity. Qed.
Lemma chain_decoded : decoded (AMap chain_map) /\ decoded (AMap (chain_request shm)).
Proof. vm_compute. tauto. Qed.
(** The answer to the creation. *)
Definition chain_answer : any :=
  AMap (publicDeploymentJSON (getDeploymentJSON (demo_documents "null") chain_rows "d1" [chain_deployment shm])).

Lemma chain_created :
  HandleCreateDeployment no_error_text (fun _ => "hash") (demo_documents "null") chain_rows nbr_session (Some (chain_request shm)) "d1"
    "20250101000000" "t3" [] = (Reply 201 chain_answer, [chain_deployment shm]).
Proof. vm_compute. reflexivity. Qed.
Lemma chain_text : Unmarshal chain_column = Some (de_config (chain_deployment shm)).
Proof. vm_compute. reflexivity. Qed.

Lemma chain_accepted :
  pr_errs (preflightDeployment hash_stub hash_stub chain_documents nbr_session "t" "x" "d1") = [] /\
  is_Some (pr_plan (preflightDeployment hash_stub hash_stub chain_documents nbr_session "t" "x" "d1")).
Proof. split; vm_compute; [reflexivity|by eexists]. Qed.

Lemma chain_row :
  by_id dd_id "d1" (dc_deployments chain_documents) = Some (shown_deployment (chain_deployment shm) (jq "{`node_id`: `n1`}") "null" chain_column).
Proof. vm_compute. reflexivity. Qed.

(** The public document hides four columns, and names the artifact and the runtime. *)
Example answer_keys :
  match chain_answer with
  | AMap m => map (has_key m) hidden_columns = [false; false; false; false] /\ length m = 25%nat
      /\ get_any m "id" = AStr "d1" /\ get_any m "desired_state" = AStr "stopped" /\ get_any m "created_at" = AStr "t3"
  | _ => False
  end.
Proof. split_and!; vm_compute; reflexivity. Qed.


Lemma deployed_image_was_inspected_witness :
  exists plan, rp_Image plan = "vllm:1" /\
    exists agent, ("n1:rt1", agent, rp_Image plan) ∈ [("n1:rt1", nbr_agent, "vllm:1")] /\ engine_inspected agent (rp_Image plan).
Proof.
  destruct chain_accepted as [He [[plan sources] Hp]]. destruct chain_image as [Hi Hid]. exists plan.
  destruct (deployed_image_was_inspected no_error_text no_real_text (fun _ => "hash") hash_stub hash_stub [("n1:rt1", nbr_agent, "vllm:1")] chain_rows
    (demo_documents "null") nbr_session (chain_request shm) "d1" "20250101000000" "t3" [] chain_answer (chain_deployment shm)
    chain_nbr chain_map chain_documents nbr_session "t" "x" (jq "{`node_id`: `n1`}") "null" chain_column plan sources chain_run chain_created chain_found)
    as (Hplan & agent & Hin & _ & Hins).
  - by rewrite Hi.
  - exact chain_kept.
  - exact chain_config.
  - exact (proj1 chain_decoded).
  - exact (proj2 chain_decoded).
  - exact chain_row.
  - exact chain_text.
  - exact He.
  - exact Hp.
  - rewrite Hi in Hplan. rewrite Hid in Hin. split; [exact Hplan|]. exists agent. split; [exact Hin|exact Hins].
Defined.

(** The overrides of a request reach the image, which the patches of a deployment may
    not touch. *)
Example image_overridden : frozen_image (chain_deployment [("launcher.image", AStr "other:2")]) = "other:2".
Proof. vm_compute. reflexivity. Qed.

(** ** Template synchronisation *)

Definition sync_rows (strategy : string) (set : any) : reply * list deployment_full :=
  HandleDeploymentTemplateSyncApply (fun _ => "hash2") (nbr_surroundings "t0" set) nbr_session "d1" (Some [("strategy", AStr strategy)]) "t5"
    [chain_deployment shm].

(** Applying the template keeps no override under any strategy, and replaces the image
    that was checked; the list of conflicts is always empty. *)
Example sync_keeps_nothing :
  let result := sync_rows "preserve_overrides" (nbr_image_set "new:3") in
  map (fun d => (frozen_image d, de_config d)) result.2 = [("new:3", nbr_image_set "new:3")]
  /\ match result.1 with Reply 200 (AMap m) => get_any m "conflicted_fields" = AStrs [] | _ => False end
  /\ match (sync_rows "overwrite" (nbr_image_set "new:3")).2 with ds => ds = result.2 end.
Proof. split_and!; vm_compute; reflexivity. Qed.

(** ** Columns and frozen settings *)

Definition chain_patched (request : obj) : deployment_full :=
  default no_deployment (head (HandlePatchDeployment no_real_text (demo_documents "null") chain_rows nbr_session "d1" (Some request) "t6" [chain_deployment shm]).2).

(** Patching the service column leaves the frozen port binding, which the resolver reads
    first. *)
Example service_patch_keeps_ports :
  let d := default no_deployment (head (HandleCreateDeployment no_error_text (fun _ => "hash") (demo_documents "null") chain_rows nbr_session
    (Some (obj_set "service_json" (AMap [("host_port", AInt 8001)]) (chain_request []))) "d1" "20250101000000" "t3" []).2) in
  let d' := default no_deployment (head (HandlePatchDeployment no_real_text (demo_documents "null") chain_rows nbr_session "d1"
    (Some [("service_json", AMap [("host_port", AInt 9001)])]) "t6" [d]).2) in
  de_service d' = AMap [("host_port", AFloat (f64_of_Z 9001))]
  /\ get_any (configObject (copy_of (de_config d')) "service.port_binding") "host_port" = AFloat (f64_of_Z 8001).
Proof. split; vm_compute; reflexivity. Qed.

(** The editor derives the bindings again before every edit: what an earlier edit wrote
    into the device binding is lost. *)
Example edited_binding_lost :
  let edit v := edit_deployment "d1" "deployment" {| cp_Layer := ""; cp_ObjectID := "d1"; cp_Fields := [v] |} None "t7" in
  let first := (edit {| fp_Key := "runtime.device_binding"; fp_InternalKey := ""; fp_Path := ["vendor"]; fp_Value := AStr "nvidia"; fp_Enabled := None |}
                 [chain_deployment shm]).2 in
  let second := (edit {| fp_Key := "runtime.shm_size"; fp_InternalKey := ""; fp_Path := []; fp_Value := AStr "1g"; fp_Enabled := None |} first).2 in
  let vendor ds := map (fun d => get_any (configObject (copy_of (de_config d)) "runtime.device_binding") "vendor") ds in
  vendor first = [AStr "nvidia"] /\ vendor second = [AStr ""].
Proof. split; vm_compute; reflexivity. Qed.
End Demo.
