(* ===== verification/DockerWire.v ===== *)
(** * The engine's wire formats (internal/agent/runtime/docker_real.go)

    [RealDockerClient.ContainerCreate] up to its call of the engine
    ([create_request]), the number parsers it uses, and [decodeDockerStream], the
    demultiplexer of log streams.  A string is a byte string.  Sizes are 64-bit
    integers whose product wraps around. *)
From S2P Require Import Prelude GoStrings GoNumbers GoValue RunPlanTypes ResolverArgs ResolverBinding Resolver AgentSpec.
From Stdlib Require Import Ascii.

Definition TrimSuffix (s suf : string) : string :=
  if HasSuffix s suf then str_take (String.length s - String.length suf) s else s.

(** The cases of the switch, in order. *)
Definition shm_units : list (string * Z) :=
  [("gb", 1024 * 1024 * 1024); ("g", 1024 * 1024 * 1024); ("mb", 1024 * 1024); ("m", 1024 * 1024);
   ("kb", 1024); ("k", 1024)]%Z.

Definition parseShmSize (s : string) : Z :=
  let s := TrimSpace (ToLower s) in
  let '(s, multiplier) :=
    match List.find (fun u => HasSuffix s u.1) shm_units with
    | Some u => (TrimSuffix s u.1, u.2)
    | None => (s, 1%Z)
    end in
  wrap64 (Sscanf_d s * multiplier).

Definition parseUlimit (val : string) : Z := Sscanf_d val.

(** ** The create request

    The fields of the engine's [container.Config] and [container.HostConfig] the
    client sets; [cr_Name] is the name it passes beside them. *)

Record EngineDeviceRequest := {
  er_Driver : string;
  er_Count : Z;
  er_DeviceIDs : list string;
  er_Capabilities : list (list string)
}.

Record Ulimit := { ul_Name : string; ul_Hard : Z; ul_Soft : Z }.

Record CreateRequest := {
  cr_Name : string;
  cr_Image : string;
  cr_Env : list string;
  cr_Entrypoint : list string;
  cr_Cmd : list string;
  cr_ExposedPorts : gset string;
  cr_Privileged : bool;
  cr_NetworkMode : string;
  cr_GroupAdd : list string;
  cr_SecurityOpt : list string;
  cr_CapAdd : list string;
  cr_CapDrop : list string;
  cr_AutoRemove : bool;
  cr_ShmSize : Z;
  cr_IpcMode : string;
  cr_UTSMode : string;
  cr_RestartPolicy : string;
  cr_Binds : list string;
  cr_Devices : list DeviceMapping;
  cr_DeviceRequests : list EngineDeviceRequest;
  cr_PortBindings : gmap string (list string);
  cr_Ulimits : list Ulimit;
  cr_ExtraHosts : list string
}.

Definition engine_device_request (dr : DeviceRequest) : EngineDeviceRequest :=
  {| er_Driver := dr_Driver dr;
     er_Count := if (dr_Count dr <? 0)%Z then dr_Count dr else 0;
     er_DeviceIDs := if (dr_Count dr <? 0)%Z then [] else dr_DeviceIDs dr;
     er_Capabilities := dr_Capabilities dr |}.

Definition ulimit_of (kv : string * string) : Ulimit :=
  let hard := parseUlimit kv.2 in {| ul_Name := kv.1; ul_Hard := hard; ul_Soft := hard |}.

Section Request.
Context `{MR : MapRange}.
(** [nat.NewPort] (protocol, port): the engine's port name, or an error. *)
Variable NewPort : string -> string -> option string.

Definition split_port (portProto : string) : string * string :=
  let idx := LastIndex portProto slash in
  if (0 <=? idx)%Z then (str_drop (Z.to_nat idx + 1) portProto, str_take (Z.to_nat idx) portProto)
  else ("tcp", portProto).

Definition port_step (m : gmap string (list string)) (kb : string * list string) : gmap string (list string) :=
  let '(proto, port) := split_port kb.1 in
  match NewPort proto port with
  | Some np => <[np := kb.2]> m
  | None => m
  end.

(** [RestartPolicy] is the name, which the code sets when it is not empty. *)
Definition create_request (opts : ContainerCreateOptions) : CreateRequest :=
  let ports := foldl port_step ∅ (range (co_PortBindings opts)) in
  {| cr_Name := co_ContainerName opts; cr_Image := co_Image opts; cr_Env := co_Env opts;
     cr_Entrypoint := co_Entrypoint opts; cr_Cmd := co_Command opts; cr_ExposedPorts := dom ports;
     cr_Privileged := co_Privileged opts; cr_NetworkMode := co_NetworkMode opts;
     cr_GroupAdd := co_GroupAdd opts; cr_SecurityOpt := co_SecurityOpt opts; cr_CapAdd := co_CapAdd opts;
     cr_CapDrop := co_CapDrop opts; cr_AutoRemove := co_AutoRemove opts;
     cr_ShmSize := if co_ShmSize opts =s EmptyString then 0 else parseShmSize (co_ShmSize opts);
     cr_IpcMode := co_IPCMode opts; cr_UTSMode := co_UTSMode opts; cr_RestartPolicy := co_RestartPolicy opts;
     cr_Binds := co_Binds opts; cr_Devices := co_Devices opts;
     cr_DeviceRequests := map engine_device_request (co_DeviceRequests opts);
     cr_PortBindings := ports; cr_Ulimits := map ulimit_of (range (co_Ulimits opts));
     cr_ExtraHosts := co_ExtraHosts opts |}.
End Request.

(** ** Log streams *)

(** A reader: the bytes it delivers and how it ends, at end of file or with an
    error. *)
Record Reader := { rd_bytes : string; rd_error : option string }.

Inductive stream_error := HeaderError (msg : string) | TooLarge (n : Z) | PayloadError (msg : string).

(** binary.BigEndian.Uint32 *)
Definition Uint32 (b0 b1 b2 b3 : ascii) : Z :=
  Z.lor (Z.shiftl (byte_Z b0) 24) (Z.lor (Z.shiftl (byte_Z b1) 16) (Z.lor (Z.shiftl (byte_Z b2) 8) (byte_Z b3))).

Definition maxStreamPayload : Z := 100 * 1024 * 1024.

(** io.ReadFull of a payload that is cut short. *)
Definition short_read (rd_err : option string) (got : string) : string :=
  match rd_err with
  | Some e => e
  | None => if got =s EmptyString then "EOF" else "unexpected EOF"
  end.

(** One iteration reads a header and its payload; each consumes at least the
    eight bytes of the header, so a number of iterations one above the length of
    the input is enough ([stream_loop_enough]). *)
Fixpoint stream_loop (fuel : nat) (rd_err : option string) (s stdout stderr : string)
    : option (string * string + stream_error) :=
  match fuel with
  | O => None
  | S fuel =>
      match s with
      | String t (String _ (String _ (String _ (String b0 (String b1 (String b2 (String b3 rest))))))) =>
          let payloadLen := Uint32 b0 b1 b2 b3 in
          if (maxStreamPayload <? payloadLen)%Z then Some (inr (TooLarge payloadLen))
          else if (payloadLen =? 0)%Z then stream_loop fuel rd_err rest stdout stderr
          else if (str_len rest <? payloadLen)%Z then Some (inr (PayloadError (short_read rd_err rest)))
          else
            let payload := str_take (Z.to_nat payloadLen) rest in
            let rest := str_drop (Z.to_nat payloadLen) rest in
            if (byte_Z t =? 2)%Z then stream_loop fuel rd_err rest stdout (stderr +s+ payload)
            else stream_loop fuel rd_err rest (stdout +s+ payload) stderr
      | _ => match rd_err with
             | Some e => Some (inr (HeaderError e))
             | None => Some (inl (stdout, stderr))
             end
      end
  end.

Definition decodeDockerStream (r : Reader) : option (string * string + stream_error) :=
  stream_loop (S (String.length (rd_bytes r))) (rd_error r) (rd_bytes r) EmptyString EmptyString.

(** ** Frames *)

(** What the engine writes: stream type, padding, length, payload. *)
Record Frame := { f_type : ascii; f_pad : ascii * ascii * ascii; f_payload : string }.

Definition be32 (n : Z) (rest : string) : string :=
  String (Z_byte (n / 2 ^ 24)) (String (Z_byte (n / 2 ^ 16)) (String (Z_byte (n / 2 ^ 8)) (String (Z_byte n) rest))).

Definition encode_frame (f : Frame) (rest : string) : string :=
  let '(p0, p1, p2) := f_pad f in
  String (f_type f) (String p0 (String p1 (String p2 (be32 (str_len (f_payload f)) (f_payload f +s+ rest))))).

Definition encode_stream (fs : list Frame) (rest : string) : string := fold_right encode_frame rest fs.

Definition frame_ok (f : Frame) : Prop := (str_len (f_payload f) <= maxStreamPayload)%Z.

Definition is_stderr (f : Frame) : bool := (byte_Z (f_type f) =? 2)%Z.

(** The payloads of the frames whose type satisfies [p], joined. *)
Definition payloads (p : Frame -> bool) (fs : list Frame) : string :=
  fold_right (fun f s => if p f then (f_payload f +s+ s) else s) EmptyString fs.

Definition stdout_of (fs : list Frame) : string := payloads (fun f => negb (is_stderr f)) fs.
Definition stderr_of (fs : list Frame) : string := payloads is_stderr fs.

Lemma Uint32_sum b0 b1 b2 b3 :
  Uint32 b0 b1 b2 b3 = (byte_Z b0 * 2 ^ 24 + byte_Z b1 * 2 ^ 16 + byte_Z b2 * 2 ^ 8 + byte_Z b3)%Z.
Proof.
  pose proof (byte_Z_bound b0). pose proof (byte_Z_bound b1).
  pose proof (byte_Z_bound b2). pose proof (byte_Z_bound b3).
  unfold Uint32. rewrite (lor_shiftl_add (byte_Z b2) _ 8) by lia.
  rewrite (lor_shiftl_add (byte_Z b1) _ 16) by lia. rewrite lor_shiftl_add by lia. lia.
Qed.

Lemma Uint32_be n :
  (0 <= n < 2 ^ 32)%Z -> Uint32 (Z_byte (n / 2 ^ 24)) (Z_byte (n / 2 ^ 16)) (Z_byte (n / 2 ^ 8)) (Z_byte n) = n.
Proof. intros Hn. rewrite Uint32_sum, !byte_Z_Z_byte. Z.div_mod_to_equations. lia. Qed.

Lemma be_Uint32 b0 b1 b2 b3 rest :
  be32 (Uint32 b0 b1 b2 b3) rest = String b0 (String b1 (String b2 (String b3 rest))).
Proof.
  pose proof (byte_Z_bound b0). pose proof (byte_Z_bound b1).
  pose proof (byte_Z_bound b2). pose proof (byte_Z_bound b3).
  unfold be32. rewrite Uint32_sum.
  rewrite (Z_byte_byte_Z b0), (Z_byte_byte_Z b1), (Z_byte_byte_Z b2), (Z_byte_byte_Z b3); [done|..];
    Z.div_mod_to_equations; lia.
Qed.

(** ** The loop *)

Lemma stream_loop_short fuel err s o e :
  (str_len s < 8)%Z ->
  stream_loop (S fuel) err s o e = Some (match err with Some m => inr (HeaderError m) | None => inl (o, e) end).
Proof. intros H. unfold str_len in H. do 8 (destruct s as [|? s]; [by destruct err|]). cbn in H. lia. Qed.

Lemma payloads_cons p f fs :
  payloads p (f :: fs) = ((if p f then f_payload f else EmptyString) +s+ payloads p fs)%go.
Proof. cbn. by destruct (p f). Qed.

Lemma stream_loop_frame fuel err f rest o e :
  frame_ok f ->
  stream_loop (S fuel) err (encode_frame f rest) o e =
  stream_loop fuel err rest (o +s+ (if is_stderr f then EmptyString else f_payload f))
                            (e +s+ (if is_stderr f then f_payload f else EmptyString)).
Proof.
  intros Hf. unfold encode_frame, be32. destruct (f_pad f) as [[p0 p1] p2]. cbn [stream_loop].
  unfold frame_ok, maxStreamPayload in Hf. pose proof (str_len_nonneg (f_payload f)) as Hn.
  rewrite Uint32_be by lia.
  replace (maxStreamPayload <? str_len (f_payload f))%Z with false
    by (symmetry; unfold maxStreamPayload; apply Z.ltb_ge; lia).
  destruct (Z.eqb_spec (str_len (f_payload f)) 0) as [H0|H0].
  - assert (f_payload f = EmptyString) as -> by (destruct (f_payload f); [done|unfold str_len in H0; cbn in H0; lia]).
    cbn [String.append]. by destruct (is_stderr f); rewrite !sapp_nil_r.
  - replace (str_len (f_payload f +s+ rest) <? str_len (f_payload f))%Z with false
      by (symmetry; apply Z.ltb_ge; unfold str_len; rewrite sapp_length; lia).
    unfold str_len. rewrite Nat2Z.id, str_take_app, str_drop_app. unfold is_stderr.
    by destruct (byte_Z (f_type f) =? 2)%Z; rewrite !sapp_nil_r.
Qed.

Lemma encode_frame_length f rest : (String.length rest + 8 <= String.length (encode_frame f rest))%nat.
Proof. unfold encode_frame, be32. destruct (f_pad f) as [[p0 p1] p2]. cbn. rewrite sapp_length. lia. Qed.

Lemma stream_loop_stream fs tail err fuel o e :
  Forall frame_ok fs -> (str_len tail < 8)%Z -> (String.length (encode_stream fs tail) < fuel)%nat ->
  stream_loop fuel err (encode_stream fs tail) o e =
  Some (match err with
        | Some m => inr (HeaderError m)
        | None => inl (o +s+ stdout_of fs, e +s+ stderr_of fs)
        end)%go.
Proof.
  intros Hfs Ht. revert fuel o e. induction Hfs as [|f fs Hf _ IH]; intros fuel o e Hfuel.
  - destruct fuel as [|fuel]; [lia|]. rewrite stream_loop_short by done. by cbn; rewrite !sapp_nil_r.
  - change (encode_stream (f :: fs) tail) with (encode_frame f (encode_stream fs tail)) in *.
    pose proof (encode_frame_length f (encode_stream fs tail)). destruct fuel as [|fuel]; [lia|].
    rewrite stream_loop_frame, IH by (done || lia). unfold stdout_of, stderr_of. rewrite !payloads_cons, !sapp_assoc.
    by destruct (is_stderr f).
Qed.

(** A result comes from a sequence of frames and a tail shorter than a header. *)
Lemma stream_loop_inv fuel err s o e o' e' :
  stream_loop fuel err s o e = Some (inl (o', e')) ->
  err = None /\ exists fs tail, s = encode_stream fs tail /\ Forall frame_ok fs /\ (str_len tail < 8)%Z /\
    o' = (o +s+ stdout_of fs)%go /\ e' = (e +s+ stderr_of fs)%go.
Proof.
  revert s o e. induction fuel as [|fuel IH]; intros s o e H; [done|].
  destruct (Z.ltb_spec (str_len s) 8) as [Hs|Hs].
  { rewrite stream_loop_short in H by done. destruct err; [done|]. injection H as <- <-. split; [done|].
    exists [], s. cbn. rewrite !sapp_nil_r. done. }
  do 8 (destruct s as [|? s]; [unfold str_len in Hs; cbn in Hs; lia|]).
  rename a into t, a0 into p0, a1 into p1, a2 into p2, a3 into b0, a4 into b1, a5 into b2, a6 into b3.
  assert (exists f rest, String t (String p0 (String p1 (String p2 (String b0 (String b1 (String b2 (String b3 s)))))))
      = encode_frame f rest /\ frame_ok f) as (f & rest & Heq & Hf).
  { cbn [stream_loop] in H. destruct (Z.ltb_spec maxStreamPayload (Uint32 b0 b1 b2 b3)); [done|].
    pose proof (Uint32_sum b0 b1 b2 b3). pose proof (byte_Z_bound b0). pose proof (byte_Z_bound b1).
    pose proof (byte_Z_bound b2). pose proof (byte_Z_bound b3).
    assert (Uint32 b0 b1 b2 b3 <= str_len s)%Z as Hlen.
    { destruct (Z.eqb_spec (Uint32 b0 b1 b2 b3) 0) as [->|]; [apply str_len_nonneg|].
      destruct (Z.ltb_spec (str_len s) (Uint32 b0 b1 b2 b3)); [done|lia]. }
    set (n := Z.to_nat (Uint32 b0 b1 b2 b3)) in *.
    exists {| f_type := t; f_pad := (p0, p1, p2); f_payload := str_take n s |}, (str_drop n s).
    assert (str_len (str_take n s) = Uint32 b0 b1 b2 b3) as Hn.
    { unfold str_len in *. rewrite str_take_length; lia. }
    unfold encode_frame, frame_ok. cbn [f_type f_pad f_payload].
    by rewrite Hn, be_Uint32, str_take_drop. }
  rewrite Heq in H |- *. rewrite stream_loop_frame in H by done.
  apply IH in H as [-> (fs & tail & -> & Hfs & Ht & -> & ->)]. split; [done|].
  exists (f :: fs), tail. split_and!; [done|by constructor|done|..];
    unfold stdout_of, stderr_of; rewrite payloads_cons, sapp_assoc; by destruct (is_stderr f).
Qed.

Lemma stream_loop_enough fuel err s o e : (String.length s < fuel)%nat -> stream_loop fuel err s o e <> None.
Proof.
  revert s o e. induction fuel as [|fuel IH]; intros s o e Hf; [lia|].
  do 8 (destruct s as [|? s]; [by destruct err|]). cbn [stream_loop String.length] in *.
  repeat (case_match; try done); apply IH; rewrite ?str_drop_length; lia.
Qed.

(** [decodeDockerStream] always returns; it returns a pair of texts exactly on
    a stream of well-formed frames (up to seven stray bytes at the end, which it
    drops) from a reader that ends without an error, and the texts are then the
    payloads of the frames, in order, split by stream type.  In particular it
    inverts the engine's framing. *)
Theorem decodeDockerStream_spec r :
  decodeDockerStream r <> None /\
  forall o e, decodeDockerStream r = Some (inl (o, e)) <->
    rd_error r = None /\ exists fs tail, rd_bytes r = encode_stream fs tail /\ Forall frame_ok fs /\
      (str_len tail < 8)%Z /\ o = stdout_of fs /\ e = stderr_of fs.
Proof.
  unfold decodeDockerStream. split; [apply stream_loop_enough; lia|]. intros o e. split.
  - apply stream_loop_inv.
  - intros (-> & fs & tail & -> & Hfs & Ht & -> & ->). by rewrite stream_loop_stream by (done || lia).
Qed.

Lemma TrimSuffix_app s suf : TrimSuffix (s +s+ suf) suf = s.
Proof.
  unfold TrimSuffix. rewrite HasSuffix_app, sapp_length, Nat.add_sub. apply str_take_app.
Qed.

Lemma HasSuffix_inv s suf : HasSuffix s suf = true -> exists a, s = (a +s+ suf)%go.
Proof.
  unfold HasSuffix. intros [_ H]%andb_prop. apply String.eqb_eq in H.
  exists (str_take (String.length s - String.length suf) s). by rewrite <- H at 2; rewrite str_take_drop.
Qed.

Lemma sapp_inj_tail s s' t t' : String.length t = String.length t' -> (s +s+ t)%go = (s' +s+ t')%go -> t = t'.
Proof.
  intros Hl H. assert (String.length s = String.length s') as Hs.
  { apply (f_equal String.length) in H. rewrite !sapp_length in H. lia. }
  apply (f_equal (str_drop (String.length s))) in H. rewrite str_drop_app, Hs, str_drop_app in H. done.
Qed.

Lemma HasSuffix_diff s t suf :
  String.length t = String.length suf -> t <> suf -> HasSuffix (s +s+ t) suf = false.
Proof.
  intros Hl Hne. apply not_true_iff_false. intros [a Ha]%HasSuffix_inv. by apply sapp_inj_tail in Ha.
Qed.

(** A numeral does not end in a suffix with a byte that is no digit. *)
Lemma HasSuffix_digits s suf :
  any_byte non_digit s = false -> any_byte non_digit suf = true -> HasSuffix s suf = false.
Proof.
  intros Hs Hsuf. apply not_true_iff_false. intros [a ->]%HasSuffix_inv.
  rewrite any_byte_app, Hsuf, orb_true_r in Hs. done.
Qed.

(** Likewise when one byte that is not the suffix's last follows. *)
Lemma HasSuffix_last s c a b : c <> b -> HasSuffix (s +s+ String c EmptyString) (String a (String b EmptyString)) = false.
Proof.
  intros Hne. apply not_true_iff_false. intros [x Hx]%HasSuffix_inv.
  change (String a (String b EmptyString)) with (String a EmptyString +s+ String b EmptyString)%go in Hx.
  rewrite <- sapp_assoc in Hx. apply sapp_inj_tail in Hx; [|done]. by injection Hx.
Qed.

Lemma HasSuffix_second s a b c : b <> c -> HasSuffix (s +s+ String a (String b EmptyString)) (String c EmptyString) = false.
Proof.
  intros Hne. change (String a (String b EmptyString)) with (String a EmptyString +s+ String b EmptyString)%go.
  rewrite <- sapp_assoc. apply HasSuffix_diff; [done|]. by intros [= ->].
Qed.

(** The recognised spellings of a unit, and the bare number. *)
Definition size_units : list (string * Z) := (EmptyString, 1%Z) :: shm_units.

Lemma shm_unit_found n u m :
  (0 <= n)%Z -> (u, m) ∈ size_units ->
  match List.find (fun v => HasSuffix (Itoa n +s+ u) v.1) shm_units with
  | Some v => TrimSuffix (Itoa n +s+ u) v.1 = Itoa n /\ v.2 = m
  | None => u = EmptyString /\ m = 1%Z
  end.
Proof.
  intros Hn Hu. pose proof (Itoa_digits n Hn) as Hd.
  unfold size_units, shm_units in Hu |- *. repeat (apply elem_of_cons in Hu as [Hu|Hu]); [..|by apply not_elem_of_nil in Hu];
    injection Hu as -> ->; rewrite ?sapp_nil_r; cbn [List.find fst snd];
    rewrite ?HasSuffix_last by done; rewrite ?HasSuffix_second by done; rewrite ?HasSuffix_app; rewrite ?(HasSuffix_diff (Itoa n)) by done;
    rewrite ?(HasSuffix_digits (Itoa n)) by done; cbn [fst snd]; rewrite ?TrimSuffix_app; done.
Qed.

(** The shared-memory size of a container: a decimal number with one of the
    units the parser knows, in any case and with blanks around it, denotes that
    many bytes as long as they fit in 63 bits; whatever the text, the result is a
    64-bit integer. *)
Theorem parseShmSize_spec s :
  (- 2 ^ 63 <= parseShmSize s < 2 ^ 63)%Z /\
  forall n u m, TrimSpace (ToLower s) = (Itoa n +s+ u)%go -> (u, m) ∈ size_units -> (0 <= n)%Z ->
    (n * m < 2 ^ 63)%Z -> parseShmSize s = (n * m)%Z.
Proof.
  unfold parseShmSize. split; [case_match; apply wrap64_range|].
  intros n u m -> Hu Hn Hm. pose proof (shm_unit_found n u m Hn Hu) as Hf.
  assert (1 <= m)%Z as H1.
  { unfold size_units, shm_units in Hu.
    repeat (apply elem_of_cons in Hu as [Hu|Hu]; [injection Hu; lia|]). by apply not_elem_of_nil in Hu. }
  assert (Sscanf_d (Itoa n) = n) as Hs by (rewrite <- (sapp_nil_r (Itoa n)); apply Sscanf_d_Itoa; [nia|done]).
  destruct (List.find _ _) as [v|].
  - destruct Hf as [-> ->]. rewrite Hs. apply wrap64_small; nia.
  - destruct Hf as [-> ->]. rewrite sapp_nil_r, Hs. apply wrap64_small; nia.
Qed.

(** A fraction is cut at the point, and a product past 63 bits wraps around. *)
Example parseShmSize_fraction :
  parseShmSize "1.5g" = (1024 * 1024 * 1024)%Z /\ parseShmSize "0.5g" = 0%Z /\
  parseShmSize "9000000000g" = (-8783067657709551616)%Z.
Proof. split_and!; by vm_compute. Qed.

(** A soft and hard limit of the form soft:hard is read up to the colon. *)
Example parseUlimit_pair : parseUlimit "1024:65536" = 1024%Z.
Proof. by vm_compute. Qed.

(** ** From the plan to the request *)

Section PlanRequest.
Context `{MR : MapRange}.
Variable NewPort : string -> string -> option string.

(** The three translations composed: the payload of the start task, the driver's
    options, the client's request. *)
Definition start_request (sc : StartContext) (plan : ResolvedRunPlan) : CreateRequest :=
  create_request NewPort (buildCreateOptions (ConvertRunplanToAgentSpec (start_plan_input sc plan))).

Lemma split_port_tcp port :
  any_byte (Ascii.eqb slash) port = false -> split_port (port +s+ "/tcp") = ("tcp", port).
Proof.
  intros Hp. unfold split_port.
  assert (LastIndex (port +s+ "/tcp") slash = str_len port) as ->.
  { revert Hp. induction port as [|c port IH]; [by vm_compute|]. cbn [any_byte String.append LastIndex].
    intros [Hc Hp]%orb_false_iff. rewrite IH by done. unfold str_len. cbn [String.length].
    destruct (Z.leb_spec 0 (Z.of_nat (String.length port))); lia. }
  unfold str_len. rewrite Nat2Z.id.
  rewrite (proj2 (Z.leb_le _ _)) by lia. rewrite str_take_app. f_equal.
  change "/tcp" with ("/" +s+ "tcp")%go. rewrite <- sapp_assoc.
  replace (String.length port + 1)%nat with (String.length (port +s+ "/")) by (rewrite sapp_length; cbn; lia).
  apply str_drop_app.
Qed.

Lemma range_singleton {V} k (v : V) : range ({[k := v]} : gmap string V) = [(k, v)].
Proof. apply Permutation_singleton_r. by rewrite (range_perm V), map_to_list_singleton. Qed.

Lemma Itoa_no_slash z : any_byte (Ascii.eqb slash) (Itoa z) = false.
Proof.
  assert (forall s, any_byte non_digit s = false -> any_byte (Ascii.eqb slash) s = false) as Hd.
  { induction s as [|c s IH]; [done|]. cbn [any_byte]. intros [Hc Hs]%orb_false_iff. rewrite (IH Hs), orb_false_r.
    destruct (Ascii.eqb_spec slash c) as [<-|]; [by vm_compute in Hc|done]. }
  destruct z as [|p|p]; [by apply Hd, Itoa_digits|by apply Hd, Itoa_digits|].
  change (Itoa (Z.neg p)) with (String "-" (Itoa (Z.pos p))). cbn [any_byte].
  by rewrite Hd by (by apply Itoa_digits).
Qed.

(** A mount and a device as the engine reads them. *)
Definition mount_text (m : MountMapping) : string :=
  mm_HostPath m +s+ ":" +s+ mm_ContainerPath m +s+ (if mm_Readonly m then ":ro" else EmptyString).
Definition device_with_permissions (d : DeviceMapping) : DeviceMapping :=
  {| dm_HostPath := dm_HostPath d; dm_ContainerPath := dm_ContainerPath d;
     dm_Permissions := if dm_Permissions d =s EmptyString then "rwm" else dm_Permissions d |}.

(** C26. The engine is asked to run the plan: image, entrypoint, arguments,
    environment, mounts, devices, isolation options and published port of the
    request are those of the resolved plan, and nothing else is published.  The
    name is the one derived from the instance. *)
Theorem container_runs_the_plan sc plan :
  let req := start_request sc plan in
  cr_Name req = containerNameFromInstance (sc_InstanceID sc) /\
  cr_Image req = rp_Image plan /\ cr_Entrypoint req = rp_Entrypoint plan /\ cr_Cmd req = rp_Args plan /\
  cr_Env req ≡ₚ map (fun kv => kv.1 +s+ "=" +s+ kv.2)%go (map_to_list (rp_Env plan)) /\
  cr_Binds req = map mount_text (rp_Mounts plan) /\
  cr_Devices req = map device_with_permissions (rp_Devices plan) /\
  (cr_Privileged req = rp_Privileged plan /\ cr_NetworkMode req = rp_NetworkMode plan /\
   cr_IpcMode req = rp_IPCMode plan /\ cr_UTSMode req = rp_UTSMode plan /\
   cr_CapAdd req = rp_CapAdd plan /\ cr_CapDrop req = rp_CapDrop plan /\
   cr_SecurityOpt req = rp_SecurityOptions plan /\ cr_GroupAdd req = rp_GroupAdd plan) /\
  (forall np, (0 < rp_HostPort plan)%Z -> NewPort "tcp" (Itoa (rp_ContainerPort plan)) = Some np ->
     cr_PortBindings req = {[np := [Itoa (rp_HostPort plan)]]} /\ cr_ExposedPorts req = {[np]}) /\
  ((rp_HostPort plan <= 0)%Z -> cr_PortBindings req = ∅ /\ cr_ExposedPorts req = ∅).
Proof.
  cbv zeta. unfold start_request. split_and!; try done.
  - apply Permutation_map, (range_perm string).
  - cbn. by rewrite map_map.
  - cbn. by rewrite map_map.
  - intros np Hp Hnp. apply Z.ltb_lt in Hp.
    cbn [cr_PortBindings cr_ExposedPorts create_request co_PortBindings buildCreateOptions as_Ports
         ConvertRunplanToAgentSpec start_plan_input pi_HostPort pi_ContainerPort].
    rewrite Hp. cbn [foldl]. unfold add_port, port_protocol. cbn [ps_Protocol ps_ContainerPort ps_HostPort String.eqb].
    rewrite lookup_empty. cbn [default from_option app]. rewrite insert_empty, range_singleton. cbn [foldl].
    unfold port_step. cbn [fst snd]. change (Itoa (rp_ContainerPort plan) +s+ "/" +s+ "tcp")%go
      with (Itoa (rp_ContainerPort plan) +s+ "/tcp")%go.
    rewrite split_port_tcp by apply Itoa_no_slash. rewrite Hnp, insert_empty.
    split; [done|]. by rewrite dom_singleton_L.
  - intros Hp. apply Z.ltb_ge in Hp.
    cbn [cr_PortBindings cr_ExposedPorts create_request co_PortBindings buildCreateOptions as_Ports
         ConvertRunplanToAgentSpec start_plan_input pi_HostPort pi_ContainerPort].
    rewrite Hp. cbn [foldl]. rewrite range_empty. cbn [foldl]. by rewrite dom_empty_L.
Qed.

(** GPU isolation at the engine: a container of an nvidia runtime carries one
    device request.  With devices looked up for the instance it names exactly
    their indices and no count; without any it asks for every device of the node.
    Containers of other vendors carry none. *)
Theorem gpu_request_matches_assignment sc plan :
  let req := start_request sc plan in
  (sc_Vendor sc <> "nvidia" -> cr_DeviceRequests req = []) /\
  (sc_Vendor sc = "nvidia" ->
     exists r, cr_DeviceRequests req = [r] /\ er_Driver r = rp_GpuDriver plan /\ er_Capabilities r <> [] /\
       (rp_GpuCapabilities plan <> [] -> er_Capabilities r = rp_GpuCapabilities plan) /\
       (sc_GpuInfos sc <> [] ->
          er_Count r = 0%Z /\ er_DeviceIDs r = map (fun g => Itoa (gi_Index g)) (sc_GpuInfos sc)) /\
       (sc_GpuInfos sc = [] -> er_Count r = (-1)%Z /\ er_DeviceIDs r = [])).
Proof.
  cbv zeta. unfold start_request. cbn [cr_DeviceRequests create_request co_DeviceRequests buildCreateOptions].
  unfold device_requests_of. cbn [as_Vendor ConvertRunplanToAgentSpec start_plan_input pi_Vendor]. split.
  - intros Hv%String.eqb_neq. by rewrite Hv.
  - intros ->. cbn [String.eqb map]. eexists. split; [reflexivity|]. cbn. split_and!.
    + done.
    + by destruct (rp_GpuCapabilities plan).
    + by destruct (rp_GpuCapabilities plan).
    + by destruct (sc_GpuInfos sc).
    + by intros ->.
Qed.
End PlanRequest.

(** ** Concrete inputs *)

(** The engine's port names, for valid ports. *)
Definition tcp_port (proto port : string) : option string := Some (port +s+ "/" +s+ proto).

Definition demo_request (gpus : list GPUInfo) : CreateRequest :=
  @start_request canonical_range tcp_port (demo_context gpus) demo_plan.

Lemma container_runs_the_plan_witness :
  cr_PortBindings (demo_request []) = {["8000/tcp" := ["8001"]]}.
Proof.
  destruct (container_runs_the_plan (MR := canonical_range) tcp_port (demo_context []) demo_plan)
    as (_ & _ & _ & _ & _ & _ & _ & _ & Hports & _).
  etrans; [apply (Hports "8000/tcp"); by vm_compute|by vm_compute].
Defined.

Lemma gpu_request_matches_assignment_witness :
  map er_DeviceIDs (cr_DeviceRequests (demo_request [{| gi_Index := 3; gi_Vendor := "nvidia" |}])) = [["3"]].
Proof.
  destruct (gpu_request_matches_assignment (MR := canonical_range) tcp_port
    (demo_context [{| gi_Index := 3; gi_Vendor := "nvidia" |}]) demo_plan) as [_ Hn].
  destruct Hn as (r & Hr & _ & _ & _ & Hids & _); [done|].
  unfold demo_request. rewrite Hr. cbn [map]. by rewrite (proj2 (Hids ltac:(done))).
Defined.

(** The plan binds no device (its visibility variable is unset), yet the request
    of its nvidia container is for all of them. *)
Definition unbound_plan : ResolvedRunPlan :=
  match @Resolve canonical_range hash_stub hash_stub
          {| in_Backend := in_Backend resolve_demo; in_BackendVersion := in_BackendVersion resolve_demo;
             in_BackendRuntime := in_BackendRuntime resolve_demo; in_NodeRuntimeOverride := None;
             in_Artifact := in_Artifact resolve_demo; in_Deployment := in_Deployment resolve_demo;
             in_InstanceID := in_InstanceID resolve_demo; in_Node := in_Node resolve_demo; in_AssignedGPUs := [];
             in_ProcessStartConfig := None; in_NBRConfigSnapshot := in_NBRConfigSnapshot resolve_demo |} with
  | (Some p, _, _) => p
  | _ => demo_plan
  end.

Example unbound_plan_requests_all_gpus :
  rp_GPUDeviceIDs unbound_plan = [] /\ rp_Env unbound_plan !! "CUDA_VISIBLE_DEVICES" = None /\
  map er_Count (cr_DeviceRequests (@start_request canonical_range tcp_port (demo_context []) unbound_plan)) = [(-1)%Z].
Proof. split_and!; by vm_compute. Qed.

Lemma parseShmSize_spec_witness : parseShmSize " 16GB " = (16 * (1024 * 1024 * 1024))%Z.
Proof. apply (proj2 (parseShmSize_spec " 16GB ") 16%Z "gb" (1024 * 1024 * 1024)%Z); [by vm_compute|set_solver|lia|lia]. Defined.

Definition demo_frames : list Frame :=
  [{| f_type := ascii_of_nat 1; f_pad := (zero, zero, zero); f_payload := "loading" |};
   {| f_type := ascii_of_nat 2; f_pad := (zero, zero, zero); f_payload := "warn" |};
   {| f_type := ascii_of_nat 1; f_pad := (zero, zero, zero); f_payload := " done" |}].

Lemma decodeDockerStream_spec_witness :
  decodeDockerStream {| rd_bytes := encode_stream demo_frames "xyz"; rd_error := None |} =
  Some (inl ("loading done", "warn")).
Proof.
  apply (proj2 (decodeDockerStream_spec {| rd_bytes := encode_stream demo_frames "xyz"; rd_error := None |})).
  split; [done|]. exists demo_frames, "xyz". split_and!; [done| |done|done|done].
  repeat constructor; by vm_compute.
Defined.

(** A frame cut short loses what was read before it. *)
Example truncated_stream_loses_all :
  decodeDockerStream {| rd_bytes := encode_stream demo_frames (encode_frame
    {| f_type := ascii_of_nat 1; f_pad := (zero, zero, zero); f_payload := EmptyString |}
    (String (ascii_of_nat 1) (String zero (String zero (String zero (be32 5 "ab")))))); rd_error := None |} =
  Some (inr (PayloadError "unexpected EOF")).
Proof. by vm_compute. Qed.
