(* ===== verification/AgentDriver.v ===== *)
(** * The agent's docker driver (internal/agent/runtime: docker.go, health.go,
    docker_client.go)

    [DockerClient] is the driver's interface to the engine: a class of operations
    that read and change a world [W].  [Start], [Stop], [Inspect], [Logs] and the
    readiness poll [CheckEndpointReady] are written against it in a state monad.
    Log output is left out, what the log calls evaluate is not: a nil [info] read
    for a log line is a panic ([Panicked]).  [CallTrace] runs any client with a
    record of the calls it received, which is how the theorems speak of order. *)
From S2P Require Import Prelude GoStrings GoNumbers GoValue RunPlanTypes ResolverArgs Resolver AgentSpec DockerWire.
From Stdlib Require Import Ascii.

(** ** Results and the monad *)

(** A value or an error text. *)
Definition result (A : Type) : Type := (A + string)%type.

Definition M (W A : Type) : Type := W -> A * W.
Definition ret {W A} (a : A) : M W A := fun w => (a, w).
Definition bind {W A B} (m : M W A) (k : A -> M W B) : M W B := fun w => let '(a, w) := m w in k a w.
Notation "x <-- m ;; k" := (bind m (fun x => k)) (at level 100, m at next level, right associativity) : go_scope.

(** ** The client interface (docker_client.go) *)

Record InspectResult := {
  ir_ID : string;
  ir_Name : string;
  ir_State : string;
  ir_ExitCode : Z;
  ir_Error : string;
  ir_StartedAt : string;
  ir_FinishedAt : string
}.

Record LogFetchOptions := { lf_Tail : Z; lf_Timestamps : bool; lf_Since : string; lf_Until : string }.

(** An error of an operation without a value is [Some] text. *)
Class DockerClient (W : Type) := {
  ContainerCreate : ContainerCreateOptions -> M W (result string);
  ContainerStart : string -> M W (option string);
  ContainerStop : string -> Z -> M W (option string);
  ContainerInspect : string -> M W (result InspectResult);
  ContainerLogs : string -> LogFetchOptions -> M W (result (string * string));
  ContainerRemove : string -> bool -> M W (option string)
}.

(** What the readiness poll uses besides: the clock (nanoseconds), one HTTP
    request, and a pause that ends by itself ([None]) or with the error of a
    cancelled context. *)
Inductive probe := BadRequest (msg : string) | NoAnswer (msg : string) | Answer (status : Z).
Class PollEnv (W : Type) := {
  now : M W Z;
  http_get : string -> M W probe;
  pause : Z -> M W (option string)
}.

(** ** Small functions of docker.go *)

Definition shortContainerID (containerID : string) : string :=
  if (str_len containerID <=? 12)%Z then containerID else str_take 12 containerID.

Definition mapContainerState (dockerState : string) : string :=
  let s := ToLower dockerState in
  if s =s "created" then "pending" else if s =s "running" then "running" else if s =s "paused" then "unhealthy"
  else if s =s "restarting" then "starting" else if s =s "removing" then "stopping"
  else if s =s "exited" then "stopped" else if s =s "dead" then "failed" else "unknown".

(** The replacer of line feeds, carriage returns and tabs. *)
Fixpoint escape_controls (s : string) : string :=
  match s with
  | EmptyString => EmptyString
  | String c s' =>
      (if Ascii.eqb c newline then "\n" else if Ascii.eqb c (ascii_of_nat 13) then "\r"
       else if Ascii.eqb c (ascii_of_nat 9) then "\t" else String c EmptyString) +s+ escape_controls s'
  end.

Definition singleLineTail (s : string) (maxBytes : nat) : string * bool * Z :=
  let long := (maxBytes <? String.length s)%nat in
  (escape_controls (if long then str_take maxBytes s else s), long, str_len s).

Definition singleLineTailStr (s : string) (maxBytes : nat) : string := (singleLineTail s maxBytes).1.1.

(** ** Result types (driver.go) *)

Record RuntimeInstance := {
  rti_InstanceID : string;
  rti_ContainerID : string;
  rti_ContainerName : string;
  rti_EndpointURL : string;
  rti_HostPort : Z;
  rti_ExitCode : Z;
  rti_FailureReasonCode : string;
  rti_StdoutTailPreview : string;
  rti_StderrTailPreview : string;
  rti_ContainerState : string;
  rti_ContainerError : string
}.

Record RuntimeInstanceStatus := {
  rst_InstanceID : string;
  rst_ContainerID : string;
  rst_State : string;
  rst_ExitCode : Z;
  rst_Error : string;
  rst_StartedAt : string;
  rst_FinishedAt : string
}.

Record LogOptions := { lo_Tail : Z; lo_Timestamps : bool; lo_Since : string; lo_Until : string }.

(** ** Readiness (health.go) *)

Definition resolveDefaults (c : HealthCheckConfig) (hostPort : Z) : HealthCheckConfig :=
  if negb (hcc_Enabled c) then c
  else
    {| hcc_Enabled := hcc_Enabled c;
       hcc_Path := if hcc_Path c =s EmptyString then "/v1/models" else hcc_Path c;
       hcc_Port := if (hcc_Port c =? 0)%Z then if (0 <? hostPort)%Z then hostPort else 8080 else hcc_Port c;
       hcc_Scheme := if hcc_Scheme c =s EmptyString then "http" else hcc_Scheme c;
       hcc_ExpectedStatus := if (hcc_ExpectedStatus c =? 0)%Z then 200 else hcc_ExpectedStatus c;
       hcc_TimeoutSeconds := if (hcc_TimeoutSeconds c =? 0)%Z then 30 else hcc_TimeoutSeconds c;
       hcc_IntervalSeconds := if (hcc_IntervalSeconds c =? 0)%Z then 2 else hcc_IntervalSeconds c |}.

Definition resolveHealthCheckConfig (cfg : option HealthCheckConfig) (hostPort : Z) : option HealthCheckConfig :=
  match cfg with Some c => Some (resolveDefaults c hostPort) | None => None end.

Definition endpointURL (c : HealthCheckConfig) : string :=
  hcc_Scheme c +s+ "://127.0.0.1:" +s+ Itoa (hcc_Port c) +s+ hcc_Path c.

(** time.Duration(n) * time.Second, a 64-bit product. *)
Definition seconds (n : Z) : Z := wrap64 (n * 1000000000).

Definition aborted (state : string) (code : Z) (where_ : string) (attempt : Z) : string :=
  "health check aborted: container " +s+ state +s+ " (exit_code=" +s+ Itoa code +s+ ")" +s+ where_ +s+
  " after " +s+ Itoa attempt +s+ " attempts".
Definition timed_out (attempt lastStatus : Z) (lastError : string) : string :=
  "health check timeout after " +s+ Itoa attempt +s+ " attempts: last status=" +s+ Itoa lastStatus +s+
  ", error=" +s+ lastError.

Section Driver.
Context {W : Type} `{DC : DockerClient W} `{PE : PollEnv W}.

(** One request of the poll and what it leaves: the result when it is decided,
    otherwise the new count of refusals, last status and last error. *)
Definition poll_once (cfg : HealthCheckConfig) (inspect : option (M W (result (string * Z))))
    (attempt refused lastStatus : Z) : M W (option (option string) * Z * Z * string) :=
  p <-- http_get (endpointURL cfg);;
  match p with
  | BadRequest msg => ret (None, refused, lastStatus, msg)
  | NoAnswer msg =>
      match inspect with
      | Some insp =>
          if (2 <=? refused + 1)%Z then
            r <-- insp;;
            match r with
            | inl (state, code) =>
                if state <>s "running"
                then ret (Some (Some (aborted state code EmptyString attempt)), refused, 0, msg)
                else ret (None, 0, 0, msg)
            | inr _ => ret (None, 0, 0, msg)
            end
          else ret (None, refused + 1, 0, msg)
      | None => ret (None, refused + 1, 0, msg)
      end
  | Answer status =>
      if (status =? hcc_ExpectedStatus cfg)%Z then ret (Some None, 0, status, EmptyString)
      else ret (None, 0, status,
                "HTTP " +s+ Itoa status +s+ " (expected " +s+ Itoa (hcc_ExpectedStatus cfg) +s+ ")")
  end%Z.

(** Past the deadline: a last inspection decides between the two errors. *)
Definition poll_expired (inspect : option (M W (result (string * Z)))) (attempt lastStatus : Z) (lastError : string)
    : M W string :=
  match inspect with
  | Some insp =>
      r <-- insp;;
      match r with
      | inl (state, code) =>
          if state <>s "running" then ret (aborted state code " during endpoint wait" attempt)
          else ret (timed_out attempt lastStatus lastError)
      | inr _ => ret (timed_out attempt lastStatus lastError)
      end
  | None => ret (timed_out attempt lastStatus lastError)
  end.

(** The [for] loop.  [None]: out of fuel; [Some None]: ready; [Some (Some e)]: the
    error. *)
Fixpoint poll_loop (fuel : nat) (cfg : HealthCheckConfig) (inspect : option (M W (result (string * Z))))
    (deadline interval attempt refused lastStatus : Z) (lastError : string) : M W (option (option string)) :=
  match fuel with
  | O => ret None
  | S fuel =>
      let attempt := (attempt + 1)%Z in
      t <-- now;;
      if (deadline <? t)%Z then
        e <-- poll_expired inspect attempt lastStatus lastError;; ret (Some (Some e))
      else
        x <-- poll_once cfg inspect attempt refused lastStatus;;
        match x with
        | (Some res, _, _, _) => ret (Some res)
        | (None, refused, lastStatus, lastError) =>
            c <-- pause interval;;
            match c with
            | Some e => ret (Some (Some ("health check cancelled: " +s+ e)))
            | None => poll_loop fuel cfg inspect deadline interval attempt refused lastStatus lastError
            end
        end
  end.

(** The number of iterations that always suffices when the interval is positive
    ([CheckEndpointReady_returns]). *)
Definition poll_fuel (cfg : HealthCheckConfig) : nat :=
  Z.to_nat (Z.max 0 (seconds (hcc_TimeoutSeconds cfg) / seconds (hcc_IntervalSeconds cfg)) + 2).

Definition CheckEndpointReady (cfg : option HealthCheckConfig) (inspect : option (M W (result (string * Z))))
    : M W (option (option string)) :=
  match cfg with
  | Some cfg =>
      if negb (hcc_Enabled cfg) then ret (Some None)
      else
        startTime <-- now;;
        poll_loop (poll_fuel cfg) cfg inspect (startTime + seconds (hcc_TimeoutSeconds cfg))
          (seconds (hcc_IntervalSeconds cfg)) 0 0 0 EmptyString
  | None => ret (Some None)
  end.

(** ** The driver (docker.go) *)

Definition tail_preview (s : string) : string :=
  if s <>s EmptyString then singleLineTailStr s 2048 else EmptyString.

Definition tail_options (n : Z) : LogFetchOptions :=
  {| lf_Tail := n; lf_Timestamps := false; lf_Since := EmptyString; lf_Until := EmptyString |}.

(** What the diagnosis reports, before and after its two reads. *)
Definition failed_instance (spec : AgentRunSpec) (containerID containerName reasonCode : string) : RuntimeInstance :=
  {| rti_InstanceID := as_InstanceID spec; rti_ContainerID := containerID; rti_ContainerName := containerName;
     rti_EndpointURL := EmptyString; rti_HostPort := as_HostPort spec; rti_ExitCode := -1;
     rti_FailureReasonCode := reasonCode; rti_StdoutTailPreview := EmptyString;
     rti_StderrTailPreview := EmptyString; rti_ContainerState := EmptyString; rti_ContainerError := EmptyString |}.

Definition inspected_instance (spec : AgentRunSpec) (containerName reasonCode : string) (info : InspectResult)
    (stdout stderr : string) : RuntimeInstance :=
  {| rti_InstanceID := as_InstanceID spec; rti_ContainerID := ir_ID info; rti_ContainerName := containerName;
     rti_EndpointURL := EmptyString; rti_HostPort := as_HostPort spec; rti_ExitCode := ir_ExitCode info;
     rti_FailureReasonCode :=
       if (reasonCode =s EmptyString) && (ir_State info <>s EmptyString) && (ir_State info <>s "running")
       then "container_exited" else reasonCode;
     rti_StdoutTailPreview := tail_preview stdout; rti_StderrTailPreview := tail_preview stderr;
     rti_ContainerState := ir_State info; rti_ContainerError := ir_Error info |}.

Definition diagnoseContainerFailure (spec : AgentRunSpec) (containerID containerName reasonCode : string)
    : M W RuntimeInstance :=
  i <-- ContainerInspect containerName;;
  match i with
  | inr _ => ret (failed_instance spec containerID containerName reasonCode)
  | inl info =>
      l <-- ContainerLogs containerID (tail_options 50);;
      match l with
      | inr _ => ret (inspected_instance spec containerName reasonCode info EmptyString EmptyString)
      | inl (stdout, stderr) => ret (inspected_instance spec containerName reasonCode info stdout stderr)
      end
  end.

(** [Returned]: the instance pointer and the error.  [Panicked]: a nil pointer was
    read; the deferred cleanup then sees no error.  [Stuck]: the poll ran out of
    fuel, which a positive interval excludes. *)
Inductive start_outcome :=
| Returned (inst : option RuntimeInstance) (err : option string)
| Panicked
| Stuck.

Definition health_reason (err : string) : string :=
  let e := ToLower err in
  if Contains e "timeout" then "health_timeout"
  else if Contains e "container" && Contains e "exit_code" then "container_exited"
  else "health_check_failed".

Definition started_instance (spec : AgentRunSpec) (containerID containerName : string) : RuntimeInstance :=
  {| rti_InstanceID := as_InstanceID spec; rti_ContainerID := containerID; rti_ContainerName := containerName;
     rti_EndpointURL := if (as_HostPort spec =? 0)%Z then EmptyString
                        else "http://localhost:" +s+ Itoa (as_HostPort spec);
     rti_HostPort := as_HostPort spec; rti_ExitCode := 0; rti_FailureReasonCode := EmptyString;
     rti_StdoutTailPreview := EmptyString; rti_StderrTailPreview := EmptyString;
     rti_ContainerState := EmptyString; rti_ContainerError := EmptyString |}.

Definition inspect_state (containerID : string) : M W (result (string * Z)) :=
  i <-- ContainerInspect containerID;;
  match i with inl info => ret (inl (ir_State info, ir_ExitCode info)) | inr e => ret (inr e) end.

(** From the readiness check on. *)
Definition await_ready (spec : AgentRunSpec) (containerID containerName : string) : M W start_outcome :=
  let enabled := match as_HealthCheck spec with Some c => hcc_Enabled c | None => false end in
  if enabled then
    h <-- CheckEndpointReady (resolveHealthCheckConfig (as_HealthCheck spec) (as_HostPort spec))
            (Some (inspect_state containerID));;
    match h with
    | None => ret Stuck
    | Some (Some err) =>
        inst <-- diagnoseContainerFailure spec containerID containerName (health_reason err);;
        ret (Returned (Some inst) (Some ("health check failed: " +s+ err)))
    | Some None => ret (Returned (Some (started_instance spec containerID containerName)) None)
    end
  else ret (Returned (Some (started_instance spec containerID containerName)) None).

(** From the start of the created container on. *)
Definition start_created (spec : AgentRunSpec) (containerID containerName : string) : M W start_outcome :=
  s <-- ContainerStart containerID;;
  match s with
  | Some err =>
      inst <-- diagnoseContainerFailure spec containerID containerName "container_exited";;
      ret (Returned (Some inst) (Some ("docker start: " +s+ err)))
  | None =>
      i <-- ContainerInspect containerID;;
      match i with
      | inr _ => ret Panicked
      | inl info =>
          if ir_State info <>s "running" then
            inst <-- diagnoseContainerFailure spec containerID containerName "container_exited";;
            ret (Returned (Some inst)
                   (Some ("container " +s+ shortContainerID containerID +s+ " is " +s+ ir_State info +s+
                          " (exit_code=" +s+ Itoa (ir_ExitCode info) +s+ "): " +s+ ir_Error info)))
          else await_ready spec containerID containerName
      end
  end.

(** The deferred function: with an error, the logs are read and dropped and the
    container is removed by force; what the removal answers is ignored. *)
Definition cleanup_on_error (containerID : string) (out : start_outcome) : M W start_outcome :=
  match out with
  | Returned _ (Some _) =>
      _ <-- ContainerLogs containerID (tail_options 100);;
      _ <-- ContainerRemove containerID true;;
      ret out
  | _ => ret out
  end.

Section Start.
Context `{MR : MapRange}.

Definition Start (spec : AgentRunSpec) : M W start_outcome :=
  if as_RuntimeType spec <>s "docker"
  then ret (Returned None (Some ("unsupported runtime type: " +s+ Quote (as_RuntimeType spec))))
  else
    let opts := buildCreateOptions spec in
    c <-- ContainerCreate opts;;
    match c with
    | inr err => ret (Returned None (Some ("docker create: " +s+ err)))
    | inl containerID =>
        out <-- start_created spec containerID (co_ContainerName opts);;
        cleanup_on_error containerID out
    end.
End Start.

Definition Stop (instanceID : string) : M W (option string) :=
  i <-- ContainerInspect (containerNameFromInstance instanceID);;
  match i with
  | inr _ => ret None
  | inl info =>
      s <-- ContainerStop (ir_ID info) 30;;
      match s with
      | Some err => ret (Some ("docker stop: " +s+ err))
      | None =>
          r <-- ContainerRemove (ir_ID info) false;;
          match r with
          | Some err => ret (Some ("docker remove: " +s+ err))
          | None => ret None
          end
      end
  end.

Definition Inspect (instanceID : string) : M W (result RuntimeInstanceStatus) :=
  i <-- ContainerInspect (containerNameFromInstance instanceID);;
  match i with
  | inr err => ret (inr ("inspect: " +s+ err))
  | inl info =>
      ret (inl {| rst_InstanceID := instanceID; rst_ContainerID := ir_ID info;
                  rst_State := mapContainerState (ir_State info); rst_ExitCode := ir_ExitCode info;
                  rst_Error := ir_Error info; rst_StartedAt := ir_StartedAt info;
                  rst_FinishedAt := ir_FinishedAt info |})
  end.

(** Where [Logs] reads from: the container, or the name derived from the instance
    when the container is not named or not found. *)
Definition logs_target (containerID instanceID : string) : M W (result string) :=
  if containerID =s EmptyString then ret (inl (containerNameFromInstance instanceID))
  else
    i <-- ContainerInspect containerID;;
    match i with
    | inl _ => ret (inl containerID)
    | inr err =>
        if instanceID <>s EmptyString then ret (inl (containerNameFromInstance instanceID))
        else ret (inr ("logs: container " +s+ containerID +s+ " not found and no instance ID for fallback: " +s+ err))
    end.

Definition Logs (containerID instanceID : string) (opts : LogOptions) : M W (result (string * string)) :=
  t <-- logs_target containerID instanceID;;
  match t with
  | inr err => ret (inr err)
  | inl target =>
      l <-- ContainerLogs target {| lf_Tail := lo_Tail opts; lf_Timestamps := lo_Timestamps opts;
                                    lf_Since := lo_Since opts; lf_Until := lo_Until opts |};;
      match l with
      | inr err => ret (inr ("logs: " +s+ err))
      | inl so => ret (inl so)
      end
  end.
End Driver.

(** ** A client with a record of its calls *)

Inductive call :=
| CCreate (opts : ContainerCreateOptions)
| CStart (id : string)
| CStop (id : string) (timeout : Z)
| CInspect (id : string)
| CLogs (id : string)
| CRemove (id : string) (force : bool).

Section CallTrace.
Context {W : Type}.

Definition record_call {A} (c : call) (m : M W A) : M (W * list call) A :=
  fun wt => let '(a, w) := m wt.1 in (a, (w, wt.2 ++ [c])).

Definition unrecorded {A} (m : M W A) : M (W * list call) A :=
  fun wt => let '(a, w) := m wt.1 in (a, (w, wt.2)).

#[export] Instance CallTrace `{DC : DockerClient W} : DockerClient (W * list call) :=
  {| ContainerCreate opts := record_call (CCreate opts) (ContainerCreate opts);
     ContainerStart id := record_call (CStart id) (ContainerStart id);
     ContainerStop id n := record_call (CStop id n) (ContainerStop id n);
     ContainerInspect id := record_call (CInspect id) (ContainerInspect id);
     ContainerLogs id o := record_call (CLogs id) (ContainerLogs id o);
     ContainerRemove id f := record_call (CRemove id f) (ContainerRemove id f) |}.

#[export] Instance PollTrace `{PE : PollEnv W} : PollEnv (W * list call) :=
  {| now := unrecorded now; http_get url := unrecorded (http_get url); pause d := unrecorded (pause d) |}.
End CallTrace.

(** ** The poll returns *)

(** What the readiness poll needs of its environment: a clock that does not go
    back, and pauses that last. *)
Class PollLaws (W : Type) `{PE : PollEnv W} := {
  time : W -> Z;
  now_time : forall w, (time w <= (now w).1)%Z /\ ((now w).1 <= time (now w).2)%Z;
  http_time : forall url w, (time w <= time (http_get url w).2)%Z;
  pause_time : forall d w, (pause d w).1 = None -> (time w + d <= time (pause d w).2)%Z
}.

Section PollFacts.
Context {W : Type} `{PL : PollLaws W}.

Definition never_back {A} (m : M W A) : Prop := forall w, (time w <= time (m w).2)%Z.

Lemma poll_once_time cfg insp attempt refused status :
  never_back insp -> never_back (poll_once cfg (Some insp) attempt refused status).
Proof.
  intros Hi w. unfold poll_once, bind, ret. pose proof (http_time (endpointURL cfg) w) as Hh.
  destruct (http_get (endpointURL cfg) w) as [p w1] eqn:E. cbn [snd] in Hh. destruct p as [msg|msg|st]; cbn [snd].
  - done.
  - destruct (2 <=? refused + 1)%Z; [|done]. pose proof (Hi w1) as H1.
    destruct (insp w1) as [r w2]. cbn [snd] in H1. destruct r as [[s c]|?]; [destruct (s <>s "running")|]; cbn [snd]; lia.
  - destruct (st =? hcc_ExpectedStatus cfg)%Z; done.
Qed.

Lemma poll_loop_returns fuel cfg insp deadline interval attempt refused status err w :
  never_back insp -> (0 < interval)%Z -> (deadline - time w < Z.of_nat fuel * interval)%Z ->
  (poll_loop (S fuel) cfg (Some insp) deadline interval attempt refused status err w).1 <> None.
Proof.
  intros Hi Hint. revert attempt refused status err w.
  induction fuel as [|fuel IH]; intros attempt refused status err w Hf;
    cbn [poll_loop]; unfold bind, ret;
    destruct (now_time w) as [Hn1 Hn2]; destruct (now w) as [t w1]; cbn [fst snd] in *;
    (destruct (Z.ltb_spec deadline t); [by destruct (poll_expired _ _ _ _ w1)|]); [lia|].
  pose proof (poll_once_time cfg insp (attempt + 1) refused status Hi w1) as H1.
  destruct (poll_once _ _ _ _ _ w1) as [[[[[res|] refused'] status'] err'] w2]; [done|]. cbn [snd] in H1.
  pose proof (pause_time interval w2) as Hp. destruct (pause interval w2) as [[e|] w3]; [done|]. cbn [fst snd] in Hp.
  specialize (Hp eq_refl). apply (IH (attempt + 1)%Z refused' status' err' w3). lia.
Qed.

(** A ready endpoint has answered a request with the expected status. *)
Lemma poll_loop_ready fuel cfg insp deadline interval attempt refused status err w :
  (poll_loop fuel cfg insp deadline interval attempt refused status err w).1 = Some None ->
  exists w', (http_get (endpointURL cfg) w').1 = Answer (hcc_ExpectedStatus cfg).
Proof.
  revert attempt refused status err w. induction fuel as [|fuel IH]; intros attempt refused status err w; [done|].
  cbn [poll_loop]. unfold bind, ret. destruct (now w) as [t w1]. destruct (deadline <? t)%Z.
  { by destruct (poll_expired _ _ _ _ w1). }
  destruct (poll_once cfg insp (attempt + 1) refused status w1) as [[[[res refused'] status'] err'] w2] eqn:E.
  destruct res as [res|]; cbn [fst].
  - intros [= ->]. exists w1. unfold poll_once, bind, ret in E.
    destruct (http_get (endpointURL cfg) w1) as [[msg|msg|st] w3]; cbn [fst]; [done| |].
    + destruct insp as [insp|]; [|done]. destruct (2 <=? refused + 1)%Z; [|done].
      destruct (insp w3) as [[[s c]|?] w4]; [destruct (s <>s "running")|]; done.
    + destruct (Z.eqb_spec st (hcc_ExpectedStatus cfg)); [by subst|done].
  - destruct (pause interval w2) as [[e|] w3]; [done|]. apply IH.
Qed.

Lemma seconds_pos n : (0 < n <= 9000000000)%Z -> (0 < seconds n)%Z.
Proof. intros H. unfold seconds. rewrite wrap64_small; lia. Qed.

(** C35. The readiness poll ends.  With a configuration as the driver resolves it
    (an interval that is not negative and fits a duration), on a clock that runs
    forward and pauses that last, [CheckEndpointReady] returns within the
    iterations allotted; it reports a ready endpoint only when the endpoint
    answered with the expected status. *)
Theorem CheckEndpointReady_returns c hostPort insp w :
  hcc_Enabled c = true -> (0 <= hcc_IntervalSeconds c <= 9000000000)%Z -> never_back insp ->
  let cfg := resolveDefaults c hostPort in
  exists res, (CheckEndpointReady (Some cfg) (Some insp) w).1 = Some res /\
    (res = None -> exists w', (http_get (endpointURL cfg) w').1 = Answer (hcc_ExpectedStatus cfg)).
Proof.
  intros He Hint Hi cfg. assert (hcc_Enabled cfg = true) as Hen by (unfold cfg, resolveDefaults; by rewrite He).
  assert (0 < seconds (hcc_IntervalSeconds cfg))%Z as Hpos.
  { apply seconds_pos. unfold cfg, resolveDefaults. rewrite He. cbn.
    destruct (Z.eqb_spec (hcc_IntervalSeconds c) 0); lia. }
  unfold CheckEndpointReady. rewrite Hen. cbn [negb]. unfold bind.
  destruct (now_time w) as [Hn1 Hn2]. destruct (now w) as [t w1]. cbn [fst snd] in *.
  set (T := seconds (hcc_TimeoutSeconds cfg)) in *. set (I := seconds (hcc_IntervalSeconds cfg)) in *.
  assert (exists n, poll_fuel cfg = S n /\ (T < Z.of_nat n * I)%Z) as (n & Hfuel & HT).
  { exists (Z.to_nat (Z.max 0 (T / I) + 1)). unfold poll_fuel. fold T I. split; [lia|].
    rewrite Z2Nat.id by lia. pose proof (Z.mul_succ_div_gt T I ltac:(lia)). nia. }
  rewrite Hfuel.
  destruct (poll_loop _ _ _ _ _ _ _ _ _ w1).1 as [res|] eqn:E.
  - exists res. split; [done|]. intros ->. by apply poll_loop_ready in E.
  - exfalso. revert E. apply poll_loop_returns; [done|lia|lia].
Qed.
End PollFacts.

(** ** Which calls an operation makes *)

Section Emits.
Context {W : Type} `{DC : DockerClient W} `{PE : PollEnv W}.
Abbreviation TW := (W * list call)%type.

(** Whatever the client answers, [m] returns [a] having made the calls [cs] with
    [P a cs]. *)
Definition emits {A} (m : M TW A) (P : A -> list call -> Prop) : Prop :=
  forall w tr, exists cs, (m (w, tr)).2.2 = tr ++ cs /\ P (m (w, tr)).1 cs.

Definition is_read (c : call) : Prop := match c with CInspect _ | CLogs _ => True | _ => False end.
Definition reads {A} (_ : A) (cs : list call) : Prop := Forall is_read cs.

Lemma emits_weaken {A} (m : M TW A) (P Q : A -> list call -> Prop) :
  emits m P -> (forall a cs, P a cs -> Q a cs) -> emits m Q.
Proof. intros H HQ w tr. destruct (H w tr) as (cs & Hc & HP). eauto. Qed.

Lemma emits_ret {A} (a : A) (P : A -> list call -> Prop) : P a [] -> emits (ret a) P.
Proof. intros H w tr. exists []. by rewrite app_nil_r. Qed.

Lemma emits_bind {A B} (m : M TW A) (k : A -> M TW B) (P : A -> list call -> Prop) (Q : B -> list call -> Prop) :
  emits m P -> (forall a cs, P a cs -> emits (k a) (fun b cs' => Q b (cs ++ cs'))) -> emits (bind m k) Q.
Proof.
  intros Hm Hk w tr. unfold bind. destruct (Hm w tr) as (cs & Hc & HP).
  destruct (m (w, tr)) as [a [w1 tr1]]. cbn [fst snd] in *. subst tr1.
  destruct (Hk a cs HP w1 (tr ++ cs)) as (cs' & Hc' & HQ). exists (cs ++ cs'). by rewrite app_assoc.
Qed.

Lemma emits_call {A} (c : call) (m : M W A) : emits (record_call c m) (fun _ cs => cs = [c]).
Proof. intros w tr. unfold record_call. cbn [fst snd]. destruct (m w). by exists [c]. Qed.

Lemma emits_unrecorded {A} (m : M W A) : emits (unrecorded m) (fun _ cs => cs = []).
Proof. intros w tr. unfold unrecorded. cbn [fst snd]. destruct (m w). exists []. by rewrite app_nil_r. Qed.

(** Reading first and reading on is reading. *)
Lemma reads_bind {A B} (m : M TW A) (k : A -> M TW B) : emits m reads -> (forall a, emits (k a) reads) -> emits (bind m k) reads.
Proof.
  intros Hm Hk. apply (emits_bind m k reads); [done|]. intros a cs Hcs.
  apply (emits_weaken _ reads); [apply Hk|]. intros b cs' H. by apply Forall_app.
Qed.

Lemma reads_ret {A} (a : A) : emits (ret a : M TW A) reads.
Proof. apply emits_ret. by constructor. Qed.

Lemma reads_inspect id : emits (ContainerInspect id : M TW _) reads.
Proof. eapply emits_weaken; [apply emits_call|]. intros ? ? ->. by constructor. Qed.
Lemma reads_logs id o : emits (ContainerLogs id o : M TW _) reads.
Proof. eapply emits_weaken; [apply emits_call|]. intros ? ? ->. by constructor. Qed.
Lemma reads_unrecorded {A} (m : M W A) : emits (unrecorded m) reads.
Proof. eapply emits_weaken; [apply emits_unrecorded|]. intros ? ? ->. constructor. Qed.
End Emits.

#[export] Hint Resolve reads_ret reads_inspect reads_logs reads_unrecorded : go.

(** Decompose a program made of reads. *)
Ltac reads_step :=
  match goal with
  | |- emits (bind _ _) reads => apply reads_bind; [|intros ?]
  | |- emits (match ?x with _ => _ end) reads => destruct x
  | |- emits now reads => apply reads_unrecorded
  | |- emits (http_get _) reads => apply reads_unrecorded
  | |- emits (pause _) reads => apply reads_unrecorded
  | |- _ => eauto with go
  end.
Ltac solve_reads := repeat reads_step.

Section DriverTrace.
Context {W : Type} `{DC : DockerClient W} `{PE : PollEnv W} `{MR : MapRange}.
Abbreviation TW := (W * list call)%type.

Lemma diagnose_reads spec id name reason : emits (W := W) (diagnoseContainerFailure spec id name reason) reads.
Proof. unfold diagnoseContainerFailure. solve_reads. Qed.

Lemma poll_loop_reads fuel cfg insp deadline interval attempt refused status err :
  emits (W := W) insp reads ->
  emits (W := W) (poll_loop fuel cfg (Some insp) deadline interval attempt refused status err) reads.
Proof.
  intros Hi. revert attempt refused status err.
  induction fuel as [|fuel IH]; intros attempt refused status err; cbn [poll_loop];
    unfold poll_expired, poll_once; solve_reads.
Qed.

Lemma await_ready_reads spec id name : emits (W := W) (await_ready spec id name) reads.
Proof.
  unfold await_ready. destruct (match as_HealthCheck spec with Some c => hcc_Enabled c | None => false end); [|solve_reads].
  apply reads_bind.
  - unfold CheckEndpointReady. destruct (resolveHealthCheckConfig _ _) as [cfg|]; [|solve_reads].
    destruct (negb (hcc_Enabled cfg)); [solve_reads|]. apply reads_bind; [apply reads_unrecorded|]. intros t.
    apply poll_loop_reads. unfold inspect_state. solve_reads.
  - intros h. pose proof (diagnose_reads spec id name). solve_reads.
Qed.

(** A step of reads between a prefix and the rest. *)
Lemma emits_after_reads {A B} (m : M TW A) (k : A -> M TW B) (Q : B -> list call -> Prop) :
  emits m reads -> (forall a cs, Forall is_read cs -> emits (k a) (fun b cs' => Q b (cs ++ cs'))) -> emits (bind m k) Q.
Proof. intros Hm Hk. apply (emits_bind m k reads); [done|]. intros a cs. apply Hk. Qed.

Definition created_result (spec : AgentRunSpec) (id name : string) (out : start_outcome) : Prop :=
  match out with
  | Returned None _ => False
  | Returned (Some i) None => i = started_instance spec id name
  | _ => True
  end.

Lemma await_ready_result spec id name (w : TW) :
  created_result spec id name (await_ready spec id name w).1.
Proof.
  unfold await_ready, bind, ret. destruct (match as_HealthCheck spec with Some c => hcc_Enabled c | None => false end); [|done].
  destruct (CheckEndpointReady _ _ w) as [[[err|]|] w1]; [|done|done].
  by destruct (diagnoseContainerFailure spec id name (health_reason err) w1).
Qed.

Lemma start_created_emits spec id name :
  emits (W := W) (start_created spec id name) (fun out cs =>
    created_result spec id name out /\ exists rs, cs = CStart id :: rs /\ Forall is_read rs).
Proof.
  unfold start_created. apply (emits_bind _ _ _ _ (emits_call (CStart id) _)). intros [err|] cs ->.
  - apply emits_after_reads; [apply diagnose_reads|]. intros i cs Hcs. apply emits_ret. split; [done|].
    exists (cs ++ []). by rewrite app_nil_r.
  - apply emits_after_reads; [apply reads_inspect|]. intros [info|e] cs Hcs.
    + destruct (ir_State info <>s "running").
      * apply emits_after_reads; [apply diagnose_reads|]. intros i cs' Hcs'. apply emits_ret. split; [done|].
        exists (cs ++ cs' ++ []). rewrite app_nil_r. split; [done|]. by apply Forall_app.
      * intros w tr. destruct (await_ready_reads spec id name w tr) as (cs' & Htr & Hr). exists cs'. split; [done|].
        split; [|exists (cs ++ cs'); split; [done|by apply Forall_app]].
        apply await_ready_result.
    + apply emits_ret. split; [done|]. exists (cs ++ []). by rewrite app_nil_r.
Qed.

(** C27. The driver's protocol, for every client.  [Start] creates at most one
    container.  If it returns an error after creating one, its last call removes
    that container by force; if it returns an instance without error, the
    container was created with the options built from the specification, was
    started, and has only been read since; it never answers an instance and no
    error otherwise. *)
Theorem Start_protocol (spec : AgentRunSpec) (w : W) :
  let r := Start spec (w, []) in
  let create := CCreate (buildCreateOptions spec) in
  match r.1 with
  | Returned None err => err <> None /\ (r.2.2 = [] \/ r.2.2 = [create])
  | Returned (Some inst) (Some err) =>
      exists id rs, r.2.2 = create :: CStart id :: rs ++ [CLogs id; CRemove id true] /\ Forall is_read rs
  | Returned (Some inst) None =>
      inst = started_instance spec (rti_ContainerID inst) (containerNameFromInstance (as_InstanceID spec)) /\
      exists rs, r.2.2 = create :: CStart (rti_ContainerID inst) :: rs /\ Forall is_read rs
  | Panicked | Stuck => exists id rs, r.2.2 = create :: CStart id :: rs /\ Forall is_read rs
  end.
Proof.
  destruct (Start spec (w, [])) as [out [w' tr]] eqn:E. cbn [fst snd]. unfold Start in E.
  destruct (as_RuntimeType spec <>s "docker"); [injection E as <- <- <-; split; [done|by left]|].
  unfold bind at 1 in E. cbn [ContainerCreate CallTrace] in E. unfold record_call at 1 in E. cbn [fst snd] in E.
  destruct (ContainerCreate (buildCreateOptions spec) w) as [[id|e] w1]; [|injection E as <- <- <-; split; [done|by right]].
  set (name := co_ContainerName (buildCreateOptions spec)) in *.
  destruct (start_created_emits spec id name w1 ([] ++ [CCreate (buildCreateOptions spec)])) as (cs & Hcs & Hres & rs & -> & Hrs).
  unfold bind in E. destruct (start_created spec id name _) as [out1 [w2 tr2]]. cbn [fst snd] in *. subst tr2.
  destruct out1 as [[inst|] [err|]| |]; cbn [cleanup_on_error] in E; try done;
    [|unfold ret in E; injection E as <- <- <-; try by exists id, rs..].
  - unfold bind in E. cbn [ContainerLogs ContainerRemove CallTrace] in E. unfold record_call in E. cbn [fst snd] in E.
    destruct (ContainerLogs id (tail_options 100) w2) as [l w3]. cbn [fst snd] in E.
    destruct (ContainerRemove id true w3) as [rm w4]. unfold ret in E. injection E as <- <- <-. exists id, rs. split; [|done]. by rewrite <- app_assoc.
  - cbn in Hres. subst inst. cbn [rti_ContainerID started_instance]. split; [done|]. by exists rs.
Qed.

(** [Stop] looks the container up under the name derived from the instance,
    stops it with thirty seconds of grace and then removes it without force.  It
    reports success exactly when the lookup failed, for whatever reason, or both
    steps succeeded. *)
Theorem Stop_protocol (instanceID : string) (w : W) :
  let name := containerNameFromInstance instanceID in
  let r := Stop instanceID (w, []) in
  match (ContainerInspect name w).1 with
  | inr _ => r.1 = None /\ r.2.2 = [CInspect name]
  | inl info =>
      let w1 := (ContainerInspect name w).2 in
      let stopped := ContainerStop (ir_ID info) 30 w1 in
      match stopped.1 with
      | Some err => r.1 = Some ("docker stop: " +s+ err)%go /\ r.2.2 = [CInspect name; CStop (ir_ID info) 30]
      | None => (r.1 = None <-> (ContainerRemove (ir_ID info) false stopped.2).1 = None) /\
                r.2.2 = [CInspect name; CStop (ir_ID info) 30; CRemove (ir_ID info) false]
      end
  end.
Proof.
  cbv zeta. unfold Stop, bind, ret. cbn [ContainerInspect ContainerStop ContainerRemove CallTrace].
  unfold record_call. cbn [fst snd].
  destruct (ContainerInspect _ w) as [[info|e] w1]; cbn; [|done].
  destruct (ContainerStop (ir_ID info) 30 w1) as [[err|] w2]; cbn; [done|].
  by destruct (ContainerRemove (ir_ID info) false w2) as [[err|] w3]; cbn.
Qed.

(** The first inspection after a start that the engine does not answer makes the
    driver read a nil pointer: the container stays as it was started. *)
Lemma start_inspect_error_panics spec id name w w1 w2 e :
  ContainerStart id w = (None, w1) -> ContainerInspect id w1 = (inr e, w2) ->
  start_created spec id name w = (Panicked, w2) /\ cleanup_on_error id Panicked w2 = (Panicked, w2).
Proof. intros Hs Hi. unfold start_created, bind. by rewrite Hs, Hi. Qed.
End DriverTrace.

(** The preview of a failure keeps the beginning of what the engine delivered as
    the tail, not its end. *)
Example singleLineTail_keeps_the_head :
  singleLineTail ("a" +s+ String newline "bc") 3 = ("a\nb", true, 4%Z).
Proof. by vm_compute. Qed.

(** ** A client for concrete runs

    It answers inspections from a list, one entry per call. *)

Record Script := { sc_time : Z; sc_probes : list probe; sc_states : list (result InspectResult); sc_start : option string }.

Definition inspect_running (state : string) : InspectResult :=
  {| ir_ID := "c1"; ir_Name := "lightai-i1"; ir_State := state; ir_ExitCode := 0; ir_Error := EmptyString;
     ir_StartedAt := EmptyString; ir_FinishedAt := EmptyString |}.

#[export] Instance ScriptClient : DockerClient Script :=
  {| ContainerCreate _ := ret (inl "c1");
     ContainerStart _ := fun s => (sc_start s, s);
     ContainerStop _ _ := ret None;
     ContainerInspect _ := fun s =>
       match sc_states s with
       | x :: xs => (x, {| sc_time := sc_time s; sc_probes := sc_probes s; sc_states := xs; sc_start := sc_start s |})
       | [] => (inr "cannot connect to the docker daemon", s)
       end;
     ContainerLogs _ _ := ret (inl ("out", "err"));
     ContainerRemove _ _ := ret None |}.

#[export] Instance ScriptPoll : PollEnv Script :=
  {| now := fun s => (sc_time s, s);
     http_get _ := fun s =>
       match sc_probes s with
       | p :: ps => (p, {| sc_time := sc_time s; sc_probes := ps; sc_states := sc_states s; sc_start := sc_start s |})
       | [] => (NoAnswer "connection refused", s)
       end;
     pause d := fun s =>
       (None, {| sc_time := sc_time s + Z.max 0 d; sc_probes := sc_probes s; sc_states := sc_states s;
                 sc_start := sc_start s |}) |}.

#[export] Instance ScriptLaws : PollLaws Script.
Proof.
  refine {| time := sc_time |}; [intros w; cbn; lia| |].
  - intros url w. cbn. by destruct (sc_probes w).
  - intros d w _. cbn. lia.
Defined.

Definition demo_spec (health : option HealthCheckConfig) : AgentRunSpec :=
  let s := ConvertRunplanToAgentSpec (start_plan_input (demo_context []) demo_plan) in
  {| as_OperationID := as_OperationID s; as_InstanceID := as_InstanceID s; as_DeploymentID := as_DeploymentID s;
     as_RuntimeType := as_RuntimeType s; as_BackendType := as_BackendType s; as_Vendor := as_Vendor s;
     as_ModelPath := as_ModelPath s; as_ServedModelName := as_ServedModelName s; as_NodeID := as_NodeID s;
     as_AgentID := as_AgentID s; as_GPUDeviceIDs := as_GPUDeviceIDs s; as_GPUVisibleEnvKey := as_GPUVisibleEnvKey s;
     as_Env := as_Env s; as_Args := as_Args s; as_HostPort := as_HostPort s; as_ContainerPort := as_ContainerPort s;
     as_Volumes := as_Volumes s; as_Devices := as_Devices s; as_Ports := as_Ports s; as_Docker := as_Docker s;
     as_HealthCheck := health |}.

Definition demo_health : HealthCheckConfig :=
  {| hcc_Enabled := true; hcc_Path := "/health"; hcc_Port := 8001; hcc_Scheme := "http"; hcc_ExpectedStatus := 200;
     hcc_TimeoutSeconds := 10; hcc_IntervalSeconds := 0 |}.

Definition script (probes : list probe) (states : list (result InspectResult)) : Script :=
  {| sc_time := 0; sc_probes := probes; sc_states := states; sc_start := None |}.

(** A container that becomes ready at the third request, one that exits while it
    is polled, one that never answers. *)
Definition run_start (s : Script) : start_outcome * (Script * list call) :=
  @Start (Script * list call) _ _ canonical_range (demo_spec (Some demo_health)) (s, []).

Definition reason_of (out : start_outcome) : string :=
  match out with Returned (Some i) (Some _) => rti_FailureReasonCode i | Returned (Some _) None => "ready" | _ => "" end.

Example start_ready :
  reason_of (run_start (script [NoAnswer "refused"; Answer 503; Answer 200] [inl (inspect_running "running")])).1 = "ready".
Proof. by vm_compute. Qed.
Example start_exits :
  reason_of (run_start (script [NoAnswer "refused"; NoAnswer "refused"]
    (inl (inspect_running "running") :: repeat (inl (inspect_running "exited")) 3))).1 = "container_exited".
Proof. by vm_compute. Qed.
Example start_times_out :
  reason_of (run_start (script [] (repeat (inl (inspect_running "running")) 9))).1 = "health_timeout".
Proof. by vm_compute. Qed.

(** The engine does not answer the lookup of a running container: [Stop] reports
    success and touches nothing. *)
Example stop_unreachable :
  (@Stop (Script * list call) _ "i1" (script [] [], [])) = (None, (script [] [], [CInspect "lightai-i1"])).
Proof. by vm_compute. Qed.

Lemma CheckEndpointReady_returns_witness :
  (CheckEndpointReady (Some (resolveDefaults demo_health 8001)) (Some (ret (inr "gone"))) (script [] [])).1 <> None.
Proof.
  destruct (CheckEndpointReady_returns demo_health 8001 (ret (inr "gone")) (script [] [])) as (res & Hres & _).
  - done.
  - by cbn.
  - intros w. cbn. lia.
  - intros Hn. pose proof (eq_trans (eq_sym Hn) Hres) as Heq. discriminate Heq.
Defined.
