(* ===== verification/FakeDocker.v ===== *)
(** * The in-memory engine (internal/agent/runtime/docker_fake.go)

    [FakeDockerClient], the client the repository's tests run the driver on: an
    instance of the driver's interface, with an invariant every operation keeps.
    The driver's theorems on it are about containers: a failed start leaves the
    engine as it was, and a start followed by a stop does too.  The clock is a
    text of the state; container identifiers come from the library's generator,
    the sequence [uuid]. *)
From S2P Require Import Prelude GoStrings GoNumbers GoValue RunPlanTypes ResolverArgs Resolver AgentSpec DockerWire AgentDriver.

(** ** State *)

(** A zero time is the empty text; the log builder is its text. *)
Record fakeContainer := {
  fc_ID : string;
  fc_Name : string;
  fc_Image : string;
  fc_Env : list string;
  fc_Args : list string;
  fc_Binds : list string;
  fc_PortBindings : gmap string (list string);
  fc_Privileged : bool;
  fc_IPCMode : string;
  fc_UTSMode : string;
  fc_ShmSize : string;
  fc_NetworkMode : string;
  fc_GroupAdd : list string;
  fc_SecurityOpt : list string;
  fc_CapAdd : list string;
  fc_CapDrop : list string;
  fc_Ulimits : gmap string string;
  fc_RestartPolicy : string;
  fc_DeviceRequests : list DeviceRequest;
  fc_State : string;
  fc_ExitCode : Z;
  fc_StartedAt : string;
  fc_FinishedAt : string;
  fc_Logs : string
}.

Record FakeDockerClient := {
  fd_containers : gmap string fakeContainer;
  fd_nameIndex : gmap string string;
  fd_StartError : option string;
  fd_now : string;
  fd_drawn : nat
}.

(** ** Field updates *)

Definition set_run (c : fakeContainer) (state : string) (code : Z) (started finished logs : string) : fakeContainer :=
  {| fc_ID := fc_ID c; fc_Name := fc_Name c; fc_Image := fc_Image c; fc_Env := fc_Env c; fc_Args := fc_Args c;
     fc_Binds := fc_Binds c; fc_PortBindings := fc_PortBindings c; fc_Privileged := fc_Privileged c;
     fc_IPCMode := fc_IPCMode c; fc_UTSMode := fc_UTSMode c; fc_ShmSize := fc_ShmSize c;
     fc_NetworkMode := fc_NetworkMode c; fc_GroupAdd := fc_GroupAdd c; fc_SecurityOpt := fc_SecurityOpt c;
     fc_CapAdd := fc_CapAdd c; fc_CapDrop := fc_CapDrop c; fc_Ulimits := fc_Ulimits c;
     fc_RestartPolicy := fc_RestartPolicy c; fc_DeviceRequests := fc_DeviceRequests c; fc_State := state;
     fc_ExitCode := code; fc_StartedAt := started; fc_FinishedAt := finished; fc_Logs := logs |}.

Definition set_containers (f : FakeDockerClient) (cs : gmap string fakeContainer) (ns : gmap string string)
    (drawn : nat) : FakeDockerClient :=
  {| fd_containers := cs; fd_nameIndex := ns; fd_StartError := fd_StartError f; fd_now := fd_now f; fd_drawn := drawn |}.

Definition put (f : FakeDockerClient) (c : fakeContainer) : FakeDockerClient :=
  set_containers f (<[fc_ID c := c]> (fd_containers f)) (fd_nameIndex f) (fd_drawn f).

(** ** Operations *)

Section Fake.
(** [uuid.NewString], by the number of earlier calls. *)
Variable uuid : nat -> string.
(** The test's hook, run after a start. *)
Variable AfterStart : string -> FakeDockerClient -> FakeDockerClient.

Definition new_container (id name : string) (opts : ContainerCreateOptions) : fakeContainer :=
  {| fc_ID := id; fc_Name := name; fc_Image := co_Image opts; fc_Env := co_Env opts; fc_Args := co_Command opts;
     fc_Binds := co_Binds opts; fc_PortBindings := co_PortBindings opts; fc_Privileged := co_Privileged opts;
     fc_IPCMode := co_IPCMode opts; fc_UTSMode := co_UTSMode opts; fc_ShmSize := co_ShmSize opts;
     fc_NetworkMode := co_NetworkMode opts; fc_GroupAdd := co_GroupAdd opts; fc_SecurityOpt := co_SecurityOpt opts;
     fc_CapAdd := co_CapAdd opts; fc_CapDrop := co_CapDrop opts; fc_Ulimits := co_Ulimits opts;
     fc_RestartPolicy := co_RestartPolicy opts; fc_DeviceRequests := co_DeviceRequests opts; fc_State := "created";
     fc_ExitCode := 0; fc_StartedAt := EmptyString; fc_FinishedAt := EmptyString; fc_Logs := EmptyString |}.

Definition fake_create (opts : ContainerCreateOptions) : M FakeDockerClient (result string) := fun f =>
  let id := str_take 12 (uuid (fd_drawn f)) in
  let name := if co_ContainerName opts =s EmptyString then "lightai-" +s+ id else co_ContainerName opts in
  match fd_nameIndex f !! name with
  | Some _ => (inr ("container name " +s+ Quote name +s+ " already in use"),
               set_containers f (fd_containers f) (fd_nameIndex f) (S (fd_drawn f)))
  | None => (inl id, set_containers f (<[id := new_container id name opts]> (fd_containers f))
                       (<[name := id]> (fd_nameIndex f)) (S (fd_drawn f)))
  end.

Definition not_found (id : string) : string := "container " +s+ id +s+ " not found".

Definition fake_start (containerID : string) : M FakeDockerClient (option string) := fun f =>
  match fd_containers f !! containerID with
  | None => (Some (not_found containerID), f)
  | Some c =>
      if fc_State c <>s "created"
      then (Some ("container " +s+ containerID +s+ " is in state " +s+ Quote (fc_State c) +s+ ", cannot start"), f)
      else match fd_StartError f with
           | Some e => (Some e, put f (set_run c (fc_State c) 128 (fc_StartedAt c) (fc_FinishedAt c) (fc_Logs c)))
           | None => (None, AfterStart containerID
                              (put f (set_run c "running" (fc_ExitCode c) (fd_now f) (fc_FinishedAt c) (fc_Logs c))))
           end
  end.

Definition fake_stop (containerID : string) (timeoutSeconds : Z) : M FakeDockerClient (option string) := fun f =>
  match fd_containers f !! containerID with
  | None => (Some (not_found containerID), f)
  | Some c => (None, if fc_State c =s "running"
                     then put f (set_run c "exited" 0 (fc_StartedAt c) (fd_now f) (fc_Logs c)) else f)
  end.

(** By identifier, or else by name. *)
Definition find_container (f : FakeDockerClient) (key : string) : option fakeContainer :=
  match fd_containers f !! key with
  | Some c => Some c
  | None => match fd_nameIndex f !! key with Some id => fd_containers f !! id | None => None end
  end.

Definition fake_inspect (containerID : string) : M FakeDockerClient (result InspectResult) := fun f =>
  match find_container f containerID with
  | None => (inr (not_found containerID), f)
  | Some c => (inl {| ir_ID := fc_ID c; ir_Name := fc_Name c; ir_State := fc_State c; ir_ExitCode := fc_ExitCode c;
                      ir_Error := EmptyString; ir_StartedAt := fc_StartedAt c; ir_FinishedAt := fc_FinishedAt c |}, f)
  end.

Definition fake_logs (containerID : string) (opts : LogFetchOptions) : M FakeDockerClient (result (string * string)) := fun f =>
  match find_container f containerID with
  | None => (inr (not_found containerID), f)
  | Some c =>
      let logs := if fc_State c =s "running"
                  then fc_Logs c +s+ "[" +s+ fd_now f +s+ "] container " +s+ fc_Name c +s+ " running" +s+
                       String newline EmptyString
                  else fc_Logs c in
      (inl (logs, EmptyString), put f (set_run c (fc_State c) (fc_ExitCode c) (fc_StartedAt c) (fc_FinishedAt c) logs))
  end.

Definition fake_remove (containerID : string) (force : bool) : M FakeDockerClient (option string) := fun f =>
  match fd_containers f !! containerID with
  | None => (None, f)
  | Some c => (None, set_containers f (delete containerID (fd_containers f)) (delete (fc_Name c) (fd_nameIndex f)) (fd_drawn f))
  end.

Definition FakeClient : DockerClient FakeDockerClient :=
  {| ContainerCreate := fake_create; ContainerStart := fake_start; ContainerStop := fake_stop;
     ContainerInspect := fake_inspect; ContainerLogs := fake_logs; ContainerRemove := fake_remove |}.

(** ** Test helpers *)

Definition SetState (containerID state : string) (exitCode : Z) (f : FakeDockerClient) : FakeDockerClient :=
  match fd_containers f !! containerID with
  | Some c => put f (set_run c state exitCode (fc_StartedAt c)
                       (if state =s "exited" then fd_now f else fc_FinishedAt c) (fc_Logs c))
  | None => f
  end.

Definition AppendLogs (containerID line : string) (f : FakeDockerClient) : FakeDockerClient :=
  match fd_containers f !! containerID with
  | Some c => put f (set_run c (fc_State c) (fc_ExitCode c) (fc_StartedAt c) (fc_FinishedAt c) (fc_Logs c +s+ line))
  | None => f
  end.

Definition Count (f : FakeDockerClient) : nat := size (fd_containers f).
End Fake.

(** ** The invariant *)

Section FakeFacts.
Variable uuid : nat -> string.

(** Identifiers are not container names. *)
Hypothesis uuid_no_name : forall k, HasPrefix (str_take 12 (uuid k)) "lightai-" = false.

(** Containers are stored under their identifier, the index is exactly their
    names, and no identifier reads as the name of an instance's container. *)
Record fake_ok (f : FakeDockerClient) : Prop := {
  fk_stored : forall id c, fd_containers f !! id = Some c -> fc_ID c = id /\ fd_nameIndex f !! fc_Name c = Some id;
  fk_named : forall n id, fd_nameIndex f !! n = Some id -> exists c, fd_containers f !! id = Some c /\ fc_Name c = n;
  fk_ids : forall id c, fd_containers f !! id = Some c -> HasPrefix id "lightai-" = false
}.

(** The identifier drawn next is not in use. *)
Definition next_fresh (f : FakeDockerClient) : Prop := fd_containers f !! str_take 12 (uuid (fd_drawn f)) = None.

Lemma create_ok opts f : fake_ok f -> next_fresh f -> fake_ok (fake_create uuid opts f).2.
Proof.
  intros Hok Hfresh. unfold next_fresh in Hfresh. unfold fake_create. pose proof (uuid_no_name (fd_drawn f)) as Hno.
  set (id := str_take 12 (uuid (fd_drawn f))) in *. clearbody id.
  set (name := if co_ContainerName opts =s EmptyString then _ else _).
  destruct (fd_nameIndex f !! name) as [i|] eqn:En; cbn [snd].
  - by destruct Hok as [H1 H2 H3].
  - destruct Hok as [H1 H2 H3]. split; cbn.
    + intros i c [[<- <-]|[Hne Hc]]%lookup_insert_Some; [by cbn; rewrite lookup_insert_eq|].
      destruct (H1 _ _ Hc) as [Hi Hn]. split; [done|]. rewrite lookup_insert_ne; [done|]. intros Heq. rewrite Heq in En. congruence.
    + intros n i [[<- <-]|[Hne Hn]]%lookup_insert_Some; [by exists (new_container id name opts); rewrite lookup_insert_eq|].
      destruct (H2 _ _ Hn) as (c & Hc & <-). exists c. split; [|done]. rewrite lookup_insert_ne; [done|].
      intros Heq. by rewrite <- Heq, Hfresh in Hc.
    + intros i c [[<- <-]|[Hne Hc]]%lookup_insert_Some; [done|by apply (H3 _ c)].
Qed.

(** Overwriting a container with one of the same identifier and name. *)
Lemma put_ok f c c' :
  fake_ok f -> fd_containers f !! fc_ID c' = Some c -> fc_Name c' = fc_Name c -> fake_ok (put f c').
Proof.
  intros [H1 H2 H3] Hc Hn. split; cbn.
  - intros i d [[<- <-]|[Hne Hd]]%lookup_insert_Some; [rewrite Hn; split; [done|by destruct (H1 _ _ Hc)]|by apply H1].
  - intros n i Hi. destruct (H2 _ _ Hi) as (d & Hd & Hdn). destruct (decide (fc_ID c' = i)) as [<-|Hne].
    + exists c'. rewrite lookup_insert_eq. split; [done|]. simplify_eq. done.
    + exists d. by rewrite lookup_insert_ne.
  - intros i d [[<- <-]|[Hne Hd]]%lookup_insert_Some; [by apply (H3 _ c)|by apply (H3 _ d)].
Qed.

Lemma set_run_ok f id c state code started finished logs :
  fake_ok f -> fd_containers f !! id = Some c -> fake_ok (put f (set_run c state code started finished logs)).
Proof.
  intros Hok Hc. destruct (fk_stored f Hok _ _ Hc) as [Hi _]. apply (put_ok f c); [done| |done]. cbn. by rewrite Hi.
Qed.

Lemma find_container_stored f key c : fake_ok f -> find_container f key = Some c -> fd_containers f !! fc_ID c = Some c.
Proof.
  intros Hok. unfold find_container. destruct (fd_containers f !! key) as [d|] eqn:E.
  - intros [= ->]. destruct (fk_stored f Hok _ _ E) as [-> _]. done.
  - destruct (fd_nameIndex f !! key) as [id|]; [|done]. intros Hc. by destruct (fk_stored f Hok _ _ Hc) as [-> _].
Qed.

Lemma remove_ok id force f : fake_ok f -> fake_ok (fake_remove id force f).2.
Proof.
  intros Hok. unfold fake_remove. destruct (fd_containers f !! id) as [c|] eqn:E; [|done].
  destruct (fk_stored f Hok _ _ E) as [Hid Hname]. destruct Hok as [H1 H2 H3]. split; cbn.
  - intros i d [Hne Hd]%lookup_delete_Some. destruct (H1 _ _ Hd) as [Hi Hn]. split; [done|].
    rewrite lookup_delete_ne; [done|]. intros Heq. rewrite <- Heq, Hname in Hn. by injection Hn.
  - intros n i [Hne Hn]%lookup_delete_Some. destruct (H2 _ _ Hn) as (d & Hd & Hdn). exists d. split; [|done].
    rewrite lookup_delete_ne; [done|]. intros <-. simplify_eq.
  - intros i d [_ Hd]%lookup_delete_Some. by apply (H3 i d).
Qed.

(** Every operation of the in-memory engine keeps its invariant, the hook and
    the test helpers included: names and identifiers stay in one-to-one
    correspondence with the containers. *)
Theorem fake_operations_ok AfterStart (f : FakeDockerClient) :
  fake_ok f -> (forall id g, fake_ok g -> fake_ok (AfterStart id g)) ->
  (forall opts, next_fresh f -> fake_ok (fake_create uuid opts f).2) /\
  (forall id, fake_ok (fake_start AfterStart id f).2) /\
  (forall id n, fake_ok (fake_stop id n f).2) /\
  (forall key, fake_ok (fake_inspect key f).2) /\
  (forall key o, fake_ok (fake_logs key o f).2) /\
  (forall id force, fake_ok (fake_remove id force f).2) /\
  (forall id s n, fake_ok (SetState id s n f)) /\
  (forall id line, fake_ok (AppendLogs id line f)).
Proof.
  intros Hok Hhook. split_and!.
  - intros opts Hf. by apply create_ok.
  - intros id. unfold fake_start. destruct (fd_containers f !! id) as [c|] eqn:E; [|done].
    destruct (fc_State c <>s "created"); [done|]. destruct (fd_StartError f); cbn; [|apply Hhook]; by apply (set_run_ok f id).
  - intros id n. unfold fake_stop. destruct (fd_containers f !! id) as [c|] eqn:E; [|done]. cbn.
    destruct (fc_State c =s "running"); [by apply (set_run_ok f id)|done].
  - intros key. unfold fake_inspect. by destruct (find_container f key).
  - intros key o. unfold fake_logs. destruct (find_container f key) as [c|] eqn:E; [|done]. cbn.
    apply (set_run_ok f (fc_ID c)); [done|]. by apply (find_container_stored f key).
  - intros id force. by apply remove_ok.
  - intros id s n. unfold SetState. destruct (fd_containers f !! id) as [c|] eqn:E; [|done]. by apply (set_run_ok f id).
  - intros id line. unfold AppendLogs. destruct (fd_containers f !! id) as [c|] eqn:E; [|done]. by apply (set_run_ok f id).
Qed.

(** ** The driver on the engine *)

Context `{MR : MapRange} `{PE : PollEnv FakeDockerClient}.
(** The engine with one more container. *)
Definition with_container (f : FakeDockerClient) (c : fakeContainer) (drawn : nat) : FakeDockerClient :=
  set_containers f (<[fc_ID c := c]> (fd_containers f)) (<[fc_Name c := fc_ID c]> (fd_nameIndex f)) drawn.

Lemma with_container_put f c c' n :
  fc_ID c' = fc_ID c -> fc_Name c' = fc_Name c -> put (with_container f c n) c' = with_container f c' n.
Proof. intros Hi Hn. unfold put, with_container, set_containers. cbn. by rewrite Hi, Hn, insert_insert_eq. Qed.

Lemma with_container_id f c n : fd_containers (with_container f c n) !! fc_ID c = Some c.
Proof. cbn. by rewrite lookup_insert_eq. Qed.

Lemma name_is_no_id f instanceID : fake_ok f -> fd_containers f !! containerNameFromInstance instanceID = None.
Proof.
  intros Hok. destruct (fd_containers f !! _) as [c|] eqn:E; [|done].
  pose proof (fk_ids f Hok _ _ E) as Hp.
  unfold containerNameFromInstance in Hp. by rewrite HasPrefix_app in Hp.
Qed.

Lemma with_container_find f c n : fake_ok f ->
  fd_containers f !! fc_Name c = None -> fc_Name c <> fc_ID c ->
  find_container (with_container f c n) (fc_ID c) = Some c /\ find_container (with_container f c n) (fc_Name c) = Some c.
Proof.
  intros Hok Hn Hne. unfold find_container. rewrite with_container_id. split; [done|].
  cbn. rewrite lookup_insert_ne by done. by rewrite Hn, lookup_insert_eq, lookup_insert_eq.
Qed.

Lemma with_container_remove f c n force :
  fd_containers f !! fc_ID c = None -> fd_nameIndex f !! fc_Name c = None ->
  fake_remove (fc_ID c) force (with_container f c n) = (None, set_containers f (fd_containers f) (fd_nameIndex f) n).
Proof.
  intros Hc Hn. unfold fake_remove. rewrite with_container_id. unfold with_container, set_containers. cbn.
  by rewrite !delete_insert_id.
Qed.

Section Hooked.
(** The hook of the repository's tests: force a state after the start. *)
Variables (state : string) (code : Z).
#[local] Instance engine : DockerClient FakeDockerClient := FakeClient uuid (fun id => SetState id state code).

(** [c'] is [c] later on. *)
Definition same_run (c c' : fakeContainer) : Prop :=
  fc_ID c' = fc_ID c /\ fc_Name c' = fc_Name c /\ fc_State c' = fc_State c.

Lemma logs_kept f c n key o :
  find_container (with_container f c n) key = Some c ->
  exists out c', ContainerLogs key o (with_container f c n) = (inl out, with_container f c' n) /\ same_run c c'.
Proof.
  intros Hf. cbn [ContainerLogs engine FakeClient]. unfold fake_logs. rewrite Hf.
  eexists _, _. split; [by rewrite with_container_put by done|done].
Qed.

Section NewContainer.
Variables (f : FakeDockerClient) (spec : AgentRunSpec) (id : string).
Let name := containerNameFromInstance (as_InstanceID spec).
Hypothesis Hok : fake_ok f.
Hypothesis Hid : fd_containers f !! id = None.
Hypothesis Hname : fd_nameIndex f !! name = None.
Hypothesis Hne : name <> id.

(** A container just made for the specification. *)
Definition is_new (c : fakeContainer) : Prop := fc_ID c = id /\ fc_Name c = name.

Lemma find_new c n : is_new c ->
  find_container (with_container f c n) id = Some c /\ find_container (with_container f c n) name = Some c.
Proof.
  intros [Hi Hn]. rewrite <- Hi, <- Hn. apply with_container_find; rewrite ?Hi, ?Hn; [done| |done].
  by apply name_is_no_id.
Qed.

Lemma inspect_new c n key : is_new c -> key = id \/ key = name -> exists info,
  ContainerInspect key (with_container f c n) = (inl info, with_container f c n) /\ ir_ID info = id /\ ir_State info = fc_State c.
Proof.
  intros Hc Hkey. destruct (find_new c n Hc) as [H1 H2].
  assert (find_container (with_container f c n) key = Some c) as Hf by (destruct Hkey as [-> | ->]; done).
  cbn [ContainerInspect engine FakeClient]. unfold fake_inspect. rewrite Hf. eexists. split; [done|]. cbn. by destruct Hc.
Qed.

Lemma diagnose_new c n reason : is_new c -> exists inst c',
  diagnoseContainerFailure spec id name reason (with_container f c n) = (inst, with_container f c' n) /\ is_new c'.
Proof.
  intros Hc. unfold diagnoseContainerFailure, bind.
  destruct (inspect_new c n name Hc (or_intror eq_refl)) as (info & -> & _ & _).
  destruct (logs_kept f c n id (tail_options 50)) as (out & c' & -> & Hi & Hn & _); [by apply find_new|].
  destruct out as [so se]. eexists _, c'. split; [done|]. unfold is_new. rewrite Hi, Hn. done.
Qed.

Lemma cleanup_new c n inst err : is_new c ->
  cleanup_on_error id (Returned inst (Some err)) (with_container f c n) =
  (Returned inst (Some err), set_containers f (fd_containers f) (fd_nameIndex f) n).
Proof.
  intros Hc. cbn [cleanup_on_error]. unfold bind.
  destruct (logs_kept f c n id (tail_options 100)) as (out & c' & -> & Hi & Hn & _); [by apply find_new|].
  cbn [ContainerRemove engine FakeClient]. destruct Hc as [Hc Hcn]. rewrite <- Hc, <- Hi.
  rewrite with_container_remove; [done| |]; congruence.
Qed.

Lemma fake_start_new c n : is_new c -> fc_State c = "created" -> exists c',
  ContainerStart id (with_container f c n) = (fd_StartError f, with_container f c' n) /\ is_new c' /\
  (fd_StartError f = None -> fc_State c' = state).
Proof.
  intros [Hi Hn] Hs. cbn [ContainerStart engine FakeClient]. unfold fake_start. rewrite <- Hi, with_container_id, Hs.
  cbn [String.eqb negb]. change (fd_StartError (with_container f c n)) with (fd_StartError f).
  destruct (fd_StartError f) as [e|].
  - eexists. split; [by rewrite with_container_put by done|done].
  - rewrite with_container_put by done. set (c1 := set_run c _ _ _ _ _). unfold SetState.
    change (fc_ID c) with (fc_ID c1). rewrite with_container_id.
    eexists. split; [by rewrite with_container_put by done|]. by cbn.
Qed.
End NewContainer.

(** The same containers under the same names. *)
Definition same_engine (g f : FakeDockerClient) : Prop :=
  fd_containers g = fd_containers f /\ fd_nameIndex g = fd_nameIndex f.

Definition health_disabled (spec : AgentRunSpec) : Prop :=
  match as_HealthCheck spec with Some c => hcc_Enabled c = false | None => True end.

(** What the driver promises of [Start] from the state [f]. *)
Definition start_promise (spec : AgentRunSpec) (f : FakeDockerClient) (r : start_outcome * FakeDockerClient) : Prop :=
  match r.1 with
  | Returned (Some inst) None =>
      (exists c, find_container r.2 (containerNameFromInstance (as_InstanceID spec)) = Some c /\
         fc_State c = "running" /\ fc_ID c = rti_ContainerID inst) /\
      (Stop (as_InstanceID spec) r.2).1 = None /\ same_engine (Stop (as_InstanceID spec) r.2).2 f
  | Returned _ (Some _) => same_engine r.2 f
  | _ => False
  end.

Section Promise.
Variables (f : FakeDockerClient) (spec : AgentRunSpec) (id : string) (n : nat).
Let name := containerNameFromInstance (as_InstanceID spec).
Hypothesis Hok : fake_ok f.
Hypothesis Hid : fd_containers f !! id = None.
Hypothesis Hname : fd_nameIndex f !! name = None.
Hypothesis Hne : name <> id.

Lemma stop_new c : is_new spec id c ->
  (Stop (as_InstanceID spec) (with_container f c n)).1 = None /\
  same_engine (Stop (as_InstanceID spec) (with_container f c n)).2 f.
Proof.
  intros Hc. unfold Stop, bind, ret.
  destruct (inspect_new f spec id Hok Hne c n name Hc (or_intror eq_refl)) as (info & Hi & Hinfo & _).
  unfold name in Hi. rewrite Hi, Hinfo. cbn [ContainerStop ContainerRemove engine FakeClient]. destruct Hc as [Hc Hcn]. change (fc_Name c = name) in Hcn. rewrite <- Hc.
  unfold fake_stop. rewrite with_container_id. destruct (String.eqb (fc_State c) "running").
  - rewrite with_container_put by done. set (c1 := set_run c _ _ _ _ _). change (fc_ID c) with (fc_ID c1).
    rewrite with_container_remove; [done|cbn; congruence|cbn; congruence].
  - rewrite with_container_remove; [done|congruence|congruence].
Qed.

Lemma failed_new c reason err : is_new spec id c ->
  start_promise spec f
    ((inst <-- diagnoseContainerFailure spec id name reason;;
      cleanup_on_error id (Returned (Some inst) (Some err))) (with_container f c n)).
Proof.
  intros Hc. unfold bind, name. destruct (diagnose_new f spec id Hok Hne c n reason Hc) as (inst & c' & -> & Hc').
  by rewrite (cleanup_new f spec id Hok Hid Hname Hne).
Qed.

Lemma start_created_new opts :
  health_disabled spec -> name <> EmptyString ->
  start_promise spec f
    ((out <-- start_created spec id name;; cleanup_on_error id out)
       (with_container f (new_container id name opts) n)).
Proof.
  intros Hh _. assert (is_new spec id (new_container id name opts)) as Hc by done.
  destruct (fake_start_new f spec id _ n Hc eq_refl) as (c1 & Hs & Hc1 & Hst).
  unfold start_created, bind at 1 2. rewrite Hs. destruct (fd_StartError f) as [e|].
  - pose proof (failed_new c1 "container_exited" ("docker start: " +s+ e)%go Hc1) as Hf. unfold bind in *.
    by destruct (diagnoseContainerFailure _ _ _ _ _) as [inst g].
  - specialize (Hst eq_refl). unfold bind at 1.
    destruct (inspect_new f spec id Hok Hne c1 n id Hc1 (or_introl eq_refl)) as (info & Hi & Hinfo & Hstate).
    rewrite Hi, Hstate, Hst. destruct (String.eqb_spec state "running") as [Hrun|]; cbn [negb].
    + unfold await_ready. unfold health_disabled in Hh.
      replace (match as_HealthCheck spec with Some c => hcc_Enabled c | None => false end) with false
        by (destruct (as_HealthCheck spec); [by rewrite Hh|done]).
      unfold ret. cbn [cleanup_on_error]. unfold ret, start_promise. cbn [fst snd]. split.
      * exists c1. destruct (find_new f spec id Hok Hne c1 n Hc1) as [_ Hf].
        split; [done|]. split; [congruence|]. by destruct Hc1.
      * by apply stop_new.
    + match goal with |- context [Some ?m] =>
        pose proof (failed_new c1 "container_exited" m Hc1) as Hf end. unfold bind in *.
      by destruct (diagnoseContainerFailure _ _ _ _ _) as [inst g].
Qed.
End Promise.

(** On the in-memory engine, with any error or any state the hook can force on
    a start: when [Start] returns an error the engine is as it was before, no
    container left; when it succeeds the instance's container is running under
    its name, and [Stop] then succeeds and restores the engine. *)
Theorem Start_atomic (f : FakeDockerClient) (spec : AgentRunSpec) :
  fake_ok f -> next_fresh f -> health_disabled spec -> start_promise spec f (Start spec f).
Proof.
  intros Hok Hfresh Hh. unfold next_fresh in Hfresh. unfold Start. destruct (String.eqb (as_RuntimeType spec) "docker"); cbn [negb]; [|done].
  unfold bind at 1. cbn [ContainerCreate engine FakeClient]. unfold fake_create.
  cbn [co_ContainerName buildCreateOptions]. set (name := containerNameFromInstance (as_InstanceID spec)).
  assert (String.eqb name EmptyString = false) as -> by done.
  pose proof (uuid_no_name (fd_drawn f)) as Hno.
  set (id := str_take 12 (uuid (fd_drawn f))) in *. clearbody id.
  assert (name <> id) as Hne.
  { intros Heq. rewrite <- Heq in Hno. unfold name, containerNameFromInstance in Hno. by rewrite HasPrefix_app in Hno. }
  destruct (fd_nameIndex f !! name) eqn:En; [done|].
  change (set_containers f _ _ _) with (with_container f (new_container id name (buildCreateOptions spec)) (S (fd_drawn f))).
  apply start_created_new; try done.
Qed.
End Hooked.
End FakeFacts.

(** ** Concrete inputs *)

Definition demo_uuid (_ : nat) : string := "3f2a9c01-7d44-4b1e".

Definition empty_engine : FakeDockerClient :=
  {| fd_containers := ∅; fd_nameIndex := ∅; fd_StartError := None; fd_now := "2026-06-15T00:00:00Z"; fd_drawn := 0 |}.

#[export] Instance IdlePoll : PollEnv FakeDockerClient :=
  {| now := ret 0%Z; http_get _ := ret (NoAnswer "connection refused"); pause _ := ret None |}.

Lemma empty_engine_ok : fake_ok empty_engine.
Proof. split; cbn; intros *; by rewrite lookup_empty. Qed.

Definition demo_start (state : string) : start_outcome * FakeDockerClient :=
  @Start FakeDockerClient (FakeClient demo_uuid (fun id => SetState id state 1)) IdlePoll canonical_range
    (demo_spec None) empty_engine.

(** The container exits at once: the start fails and nothing is left. *)
Lemma Start_atomic_witness : fd_containers (demo_start "exited").2 = ∅ /\ Count (demo_start "running").2 = 1%nat.
Proof.
  split; [|by vm_compute].
  assert (start_promise demo_uuid "exited" 1 (demo_spec None) empty_engine (demo_start "exited")) as H.
  { apply (@Start_atomic demo_uuid ltac:(done) canonical_range IdlePoll); [apply empty_engine_ok|done|done]. }
  unfold start_promise in H.
  replace (demo_start "exited").1 with
    (Returned (Some (inspected_instance (demo_spec None) "lightai-0123456789ab" "container_exited"
       {| ir_ID := "3f2a9c01-7d4"; ir_Name := "lightai-0123456789ab"; ir_State := "exited"; ir_ExitCode := 1;
          ir_Error := EmptyString; ir_StartedAt := "2026-06-15T00:00:00Z"; ir_FinishedAt := "2026-06-15T00:00:00Z" |}
       EmptyString EmptyString))
      (Some "container 3f2a9c01-7d4 is exited (exit_code=1): ")) in H by (by vm_compute).
  exact (proj1 H).
Defined.

Lemma fake_operations_ok_witness :
  fake_ok (fake_create demo_uuid (buildCreateOptions (MR := canonical_range) (demo_spec None)) empty_engine).2.
Proof.
  destruct (fake_operations_ok demo_uuid ltac:(done) (fun _ f => f) empty_engine) as [H _].
  - apply empty_engine_ok.
  - done.
  - apply H. done.
Defined.
