(* ===== verification/AgentWork.v ===== *)
(** * The agent process: its tasks, its identity and its loop (cmd/agent/main.go, internal/agent/state, internal/agent/register)

    First the execution of a task, then the identity file of the node, the registration with its
    waits, the turn of the heartbeat, and the agent and the server as one system
    ([agent_step]); the decoding of a heartbeat's answer, which carries raw JSON, is a parameter.

    [processTask] runs a claimed task with the docker driver and builds the report
    the server's [HandleTaskResult] reads.  The payloads are decoded by the JSON
    library (parameters); so are the connection to the engine, its ping and the
    text of the current time.  [start_task_recorded] joins both ends: what the server
    records is what the driver did. *)
From S2P Require Import Prelude GoStrings GoNumbers GoValue GoJson GoJsonText RunPlanTypes Store AgentTasks Deployments Lifecycle LifecycleProps AgentSpec DockerWire AgentDriver.

(** ** Data (internal/agent/register/register.go) *)

Record AgentTask := {
  wt_ID : string;
  wt_TaskType : string;
  wt_TenantID : string;
  wt_DeploymentID : string;
  wt_InstanceID : string;
  wt_NodeID : string;
  wt_TimeoutSeconds : Z;
  wt_AgentRunSpec : string
}.

Record TaskResult := {
  tr_TaskID : string;
  tr_OperationID : string;
  tr_NodeID : string;
  tr_Success : bool;
  tr_Status : string;
  tr_InstanceID : string;
  tr_DeploymentID : string;
  tr_ContainerID : string;
  tr_RuntimeState : string;
  tr_ExitCode : Z;
  tr_FailureReasonCode : string;
  tr_StdoutTailPreview : string;
  tr_StderrTailPreview : string;
  tr_ErrorMessage : string;
  tr_LogsSummary : string;
  tr_Stdout : string;
  tr_Stderr : string;
  tr_Logs : string;
  tr_StartedAt : string;
  tr_FinishedAt : string
}.

(** The result's JSON object as the server decodes it: numbers are floats, the
    fields marked omitempty are absent when empty. *)
Definition text_field (omitempty : bool) (key v : string) (m : gmap string any) : gmap string any :=
  if omitempty && (v =s EmptyString) then m else <[key := AStr v]> m.

Definition result_json (r : TaskResult) : gmap string any :=
  text_field false "task_id" (tr_TaskID r) (text_field true "operation_id" (tr_OperationID r)
  (text_field false "node_id" (tr_NodeID r) (<["success" := ABool (tr_Success r)]>
  (text_field false "status" (tr_Status r) (text_field false "instance_id" (tr_InstanceID r)
  (text_field true "deployment_id" (tr_DeploymentID r) (text_field false "container_id" (tr_ContainerID r)
  (text_field false "runtime_state" (tr_RuntimeState r) (<["exit_code" := AFloat (f64_of_Z (tr_ExitCode r))]>
  (text_field true "failure_reason_code" (tr_FailureReasonCode r)
  (text_field true "stdout_tail_preview" (tr_StdoutTailPreview r)
  (text_field true "stderr_tail_preview" (tr_StderrTailPreview r)
  (text_field false "error_message" (tr_ErrorMessage r) (text_field true "logs_summary" (tr_LogsSummary r)
  (text_field true "stdout" (tr_Stdout r) (text_field true "stderr" (tr_Stderr r) (text_field true "logs" (tr_Logs r)
  (text_field true "started_at" (tr_StartedAt r) (text_field true "finished_at" (tr_FinishedAt r) ∅))))))))))))))))))).

(** ** Updates of a result *)

Definition new_result (task : AgentTask) (opID startedAt : string) : TaskResult :=
  {| tr_TaskID := wt_ID task; tr_OperationID := opID; tr_NodeID := ""; tr_Success := false; tr_Status := "";
     tr_InstanceID := wt_InstanceID task; tr_DeploymentID := ""; tr_ContainerID := ""; tr_RuntimeState := "";
     tr_ExitCode := 0; tr_FailureReasonCode := ""; tr_StdoutTailPreview := ""; tr_StderrTailPreview := "";
     tr_ErrorMessage := ""; tr_LogsSummary := ""; tr_Stdout := ""; tr_Stderr := ""; tr_Logs := "";
     tr_StartedAt := startedAt; tr_FinishedAt := "" |}.

(** [Success = false] and the message. *)
Definition with_error (msg : string) (exitCode : Z) (r : TaskResult) : TaskResult :=
  {| tr_TaskID := tr_TaskID r; tr_OperationID := tr_OperationID r; tr_NodeID := tr_NodeID r; tr_Success := false;
     tr_Status := tr_Status r; tr_InstanceID := tr_InstanceID r; tr_DeploymentID := tr_DeploymentID r;
     tr_ContainerID := tr_ContainerID r; tr_RuntimeState := tr_RuntimeState r; tr_ExitCode := exitCode;
     tr_FailureReasonCode := tr_FailureReasonCode r; tr_StdoutTailPreview := tr_StdoutTailPreview r;
     tr_StderrTailPreview := tr_StderrTailPreview r; tr_ErrorMessage := msg; tr_LogsSummary := tr_LogsSummary r;
     tr_Stdout := tr_Stdout r; tr_Stderr := tr_Stderr r; tr_Logs := tr_Logs r; tr_StartedAt := tr_StartedAt r;
     tr_FinishedAt := tr_FinishedAt r |}.

(** The fields every successful task sets, and its output. *)
Definition with_success (task : AgentTask) (status state instance container stdout stderr : string) (r : TaskResult)
    : TaskResult :=
  {| tr_TaskID := tr_TaskID r; tr_OperationID := tr_OperationID r; tr_NodeID := wt_NodeID task; tr_Success := true;
     tr_Status := status; tr_InstanceID := instance; tr_DeploymentID := wt_DeploymentID task;
     tr_ContainerID := container; tr_RuntimeState := state; tr_ExitCode := tr_ExitCode r;
     tr_FailureReasonCode := tr_FailureReasonCode r; tr_StdoutTailPreview := tr_StdoutTailPreview r;
     tr_StderrTailPreview := tr_StderrTailPreview r; tr_ErrorMessage := tr_ErrorMessage r;
     tr_LogsSummary := stdout +s+ stderr; tr_Stdout := stdout; tr_Stderr := stderr; tr_Logs := stdout +s+ stderr;
     tr_StartedAt := tr_StartedAt r; tr_FinishedAt := tr_FinishedAt r |}.

Definition applyStartFailureDiagnostics (inst : option RuntimeInstance) (err : string) (r : TaskResult) : TaskResult :=
  let '(container, code, reason, out, errOut) :=
    match inst with
    | None => (tr_ContainerID r, (-1)%Z, "task_failed", tr_StdoutTailPreview r, tr_StderrTailPreview r)
    | Some i =>
        (if rti_ContainerID i <>s EmptyString then rti_ContainerID i else tr_ContainerID r,
         if negb (rti_ExitCode i =? 0)%Z || (rti_FailureReasonCode i <>s EmptyString) ||
            (rti_ContainerState i <>s EmptyString) then rti_ExitCode i else (-1)%Z,
         if rti_FailureReasonCode i <>s EmptyString then rti_FailureReasonCode i else "task_failed",
         rti_StdoutTailPreview i, rti_StderrTailPreview i)
    end in
  {| tr_TaskID := tr_TaskID r; tr_OperationID := tr_OperationID r; tr_NodeID := tr_NodeID r; tr_Success := false;
     tr_Status := "failed"; tr_InstanceID := tr_InstanceID r; tr_DeploymentID := tr_DeploymentID r;
     tr_ContainerID := container; tr_RuntimeState := tr_RuntimeState r; tr_ExitCode := code;
     tr_FailureReasonCode := reason; tr_StdoutTailPreview := out; tr_StderrTailPreview := errOut;
     tr_ErrorMessage := err; tr_LogsSummary := tr_LogsSummary r; tr_Stdout := tr_Stdout r; tr_Stderr := tr_Stderr r;
     tr_Logs := tr_Logs r; tr_StartedAt := tr_StartedAt r; tr_FinishedAt := tr_FinishedAt r |}.

Definition with_finish (status finishedAt : string) (r : TaskResult) : TaskResult :=
  {| tr_TaskID := tr_TaskID r; tr_OperationID := tr_OperationID r; tr_NodeID := tr_NodeID r;
     tr_Success := tr_Success r; tr_Status := status; tr_InstanceID := tr_InstanceID r;
     tr_DeploymentID := tr_DeploymentID r; tr_ContainerID := tr_ContainerID r; tr_RuntimeState := tr_RuntimeState r;
     tr_ExitCode := tr_ExitCode r; tr_FailureReasonCode := tr_FailureReasonCode r;
     tr_StdoutTailPreview := tr_StdoutTailPreview r; tr_StderrTailPreview := tr_StderrTailPreview r;
     tr_ErrorMessage := tr_ErrorMessage r; tr_LogsSummary := tr_LogsSummary r; tr_Stdout := tr_Stdout r;
     tr_Stderr := tr_Stderr r; tr_Logs := tr_Logs r; tr_StartedAt := tr_StartedAt r; tr_FinishedAt := finishedAt |}.

Definition applyDefaultTaskResultStatus (r : TaskResult) : TaskResult :=
  if tr_Status r <>s EmptyString then r
  else with_finish (if tr_Success r then "completed" else "failed") (tr_FinishedAt r) r.

Definition maxTaskResultBytes : Z := 10 * 1024 * 1024.

Definition clip_output (s : string) : string :=
  if (maxTaskResultBytes <? str_len s)%Z
  then str_take (Z.to_nat maxTaskResultBytes) s +s+ String newline "... [truncated]" else s.

(** The object of a stop or log task. *)
Record task_ref := { rf_InstanceID : string; rf_ContainerID : string; rf_Tail : Z; rf_Since : string }.

(** ** Execution *)

(** A report, or the end of the process by a panic; [Unfinished] is the driver out
    of fuel. *)
Inductive work := Reported (r : TaskResult) | Died | Unfinished.

Section Work.
Context {W : Type} `{DC : DockerClient W} `{PE : PollEnv W} `{MR : MapRange}.
(** json.Unmarshal into the specification and into the object of a reference. *)
Variable decode_spec : string -> result AgentRunSpec.
Variable decode_ref : string -> result task_ref.
(** The error of connecting to the engine, and of its ping. *)
Variable NewRealDockerClient : M W (option string).
Variable Ping : M W (option string).
Variable now_text : M W string.

(** What a start task does before and with the driver: an error text, or the
    driver's outcome. *)
Definition attempt_start (task : AgentTask) : M W (start_outcome + string) :=
  match decode_spec (wt_AgentRunSpec task) with
  | inr e => ret (inr ("invalid agent run spec: " +s+ e))
  | inl spec =>
      c <-- NewRealDockerClient;;
      match c with
      | Some e => ret (inr ("cannot create docker client: " +s+ e))
      | None =>
          p <-- Ping;;
          match p with
          | Some e => ret (inr ("docker daemon unavailable: " +s+ e))
          | None => out <-- Start spec;; ret (inl out)
          end
      end
  end.

(** What becomes of the result. *)
Definition start_report (task : AgentTask) (a : start_outcome + string) (r : TaskResult) : work :=
  match a with
  | inr msg => Reported (with_error msg (tr_ExitCode r) r)
  | inl (Returned inst (Some err)) => Reported (applyStartFailureDiagnostics inst err r)
  | inl (Returned (Some inst) None) =>
      Reported (with_success task "completed" "running" (rti_InstanceID inst) (rti_ContainerID inst) "" "" r)
  | inl (Returned None None) | inl Panicked => Died
  | inl Stuck => Unfinished
  end.

Definition processStartTask (task : AgentTask) (r : TaskResult) : M W work :=
  a <-- attempt_start task;; ret (start_report task a r).

Definition processStopTask (task : AgentTask) (r : TaskResult) : M W work :=
  match decode_ref (wt_AgentRunSpec task) with
  | inr e => ret (Reported (with_error ("invalid stop payload: " +s+ e) (tr_ExitCode r) r))
  | inl payload =>
      c <-- NewRealDockerClient;;
      match c with
      | Some e => ret (Reported (with_error ("cannot create docker client: " +s+ e) (tr_ExitCode r) r))
      | None =>
          s <-- Stop (rf_InstanceID payload);;
          match s with
          | Some err => ret (Reported (with_error err (-1) r))
          | None => ret (Reported (with_success task (tr_Status r) "stopped" (rf_InstanceID payload)
                                     (rf_ContainerID payload) "" "" r))
          end
      end
  end.

Definition processLogsTask (task : AgentTask) (r : TaskResult) : M W work :=
  match decode_ref (wt_AgentRunSpec task) with
  | inr e => ret (Reported (with_error ("invalid logs payload: " +s+ e) (tr_ExitCode r) r))
  | inl payload =>
      let tail := if (rf_Tail payload <=? 0)%Z then 200%Z else rf_Tail payload in
      c <-- NewRealDockerClient;;
      match c with
      | Some e => ret (Reported (with_error ("cannot create docker client: " +s+ e) (tr_ExitCode r) r))
      | None =>
          l <-- Logs (rf_ContainerID payload) (rf_InstanceID payload)
                  {| lo_Tail := tail; lo_Timestamps := false; lo_Since := rf_Since payload; lo_Until := "" |};;
          match l with
          | inr err => ret (Reported (with_error err (tr_ExitCode r) r))
          | inl (stdout, stderr) =>
              ret (Reported (with_success task (tr_Status r) "ok" (rf_InstanceID payload) (rf_ContainerID payload)
                               (clip_output stdout) (clip_output stderr) r))
          end
      end
  end.

Definition operation_id (task : AgentTask) : string :=
  let opID := match decode_spec (wt_AgentRunSpec task) with inl spec => as_OperationID spec | inr _ => "" end in
  if opID =s EmptyString then wt_ID task else opID.

Definition run_task (task : AgentTask) (r : TaskResult) : M W work :=
  if wt_TaskType task =s "model_instance_start" then processStartTask task r
  else if wt_TaskType task =s "model_instance_stop" then processStopTask task r
  else if wt_TaskType task =s "model_instance_logs" then processLogsTask task r
  else ret (Reported (with_error ("unknown task type: " +s+ wt_TaskType task) (tr_ExitCode r) r)).

(** Up to the report; posting it is an HTTP request. *)
Definition processTask (task : AgentTask) : M W work :=
  startedAt <-- now_text;;
  x <-- run_task task (new_result task (operation_id task) startedAt);;
  match x with
  | Reported r =>
      finishedAt <-- now_text;;
      ret (Reported (applyDefaultTaskResultStatus (with_finish (tr_Status r) finishedAt r)))
  | Died => ret Died
  | Unfinished => ret Unfinished
  end.
End Work.

(** ** The report on the server *)

Lemma text_field_eq key v m : text_field false key v m !! key = Some (AStr v).
Proof. unfold text_field. cbn [andb]. apply lookup_insert_eq. Qed.

Lemma text_field_ne o key v m k : key <> k -> text_field o key v m !! k = m !! k.
Proof. intros H. unfold text_field. destruct (andb _ _); [done|]. by rewrite lookup_insert_ne. Qed.

(** Reading a key of the result's object. *)
Ltac result_key :=
  unfold result_json;
  repeat first [ rewrite text_field_eq | rewrite lookup_insert_eq
               | rewrite text_field_ne by done | rewrite lookup_insert_ne by done
               | rewrite lookup_empty ];
  reflexivity.

Lemma result_status r : result_json r !! "status" = Some (AStr (tr_Status r)).
Proof. result_key. Qed.
Lemma result_success r : result_json r !! "success" = Some (ABool (tr_Success r)).
Proof. result_key. Qed.
Lemma result_error r : result_json r !! "error_message" = Some (AStr (tr_ErrorMessage r)).
Proof. result_key. Qed.
Lemma result_container r : result_json r !! "container_id" = Some (AStr (tr_ContainerID r)).
Proof. result_key. Qed.

(** The report does not say which agent sends it, so the server's comparison with
    the owner of the task never refuses one. *)
Lemma result_agent r : result_json r !! "agent_id" = None.
Proof. result_key. Qed.

Lemma result_agent_empty r : strVal (result_json r) "agent_id" "" = "".
Proof. unfold strVal. by rewrite result_agent. Qed.

Lemma success_result_report r :
  tr_Status r = "completed" -> tr_Success r = true -> tr_ErrorMessage r = "" -> success_report (result_json r).
Proof.
  intros Hs Hb He. unfold success_report, strVal, boolVal. rewrite result_status, result_success, result_error, Hs, Hb, He.
  split_and!; [left|done..].
Qed.

Lemma HandleTaskResult_failure r taskID now db t :
  find_task db taskID = Some t -> task_terminal (t_status t) = false -> t_instance t <> "" -> tr_Status r = "failed" ->
  (HandleTaskResult taskID (result_json r) now db).2 = result_failed t (t_instance t) (result_json r) now db.
Proof.
  intros Hf Ht Hi Hs. unfold HandleTaskResult. rewrite Hf, Ht, result_agent_empty. cbn [String.eqb negb].
  rewrite andb_false_r. cbn [andb]. apply String.eqb_neq in Hi. rewrite Hi.
  unfold strVal at 1 2 3 4. by rewrite result_status, Hs.
Qed.

(** What the tables say of an instance after a report on its start. *)
Definition start_recorded (instance : string) (running : option string) (db : DB) : Prop :=
  (forall i, i ∈ db_instances db -> i_id i = instance ->
     match running with
     | Some container => i_actual i = "running" /\ i_container i = container
     | None => i_actual i = "failed"
     end) /\
  (forall l, l ∈ db_leases db -> l_instance l = instance -> l_status l <> "reserved").

Lemma on_leases_none instance f db :
  (forall l, l_instance (f l) = l_instance l /\ l_status (f l) <> "reserved") ->
  forall l, l ∈ db_leases (on_leases instance is_reserved f db) -> l_instance l = instance -> l_status l <> "reserved".
Proof.
  intros Hf l Hl Hi. apply elem_of_update in Hl as (l0 & _ & ->). destruct (andb _ _) eqn:E; [by destruct (Hf l0)|].
  rewrite Hi, String.eqb_refl in E. cbn [andb] in E. by apply String.eqb_neq.
Qed.

Lemma start_success_recorded r taskID now db t :
  find_task db taskID = Some t -> task_terminal (t_status t) = false -> t_instance t <> "" ->
  t_type t = "model_instance_start" ->
  tr_Status r = "completed" -> tr_Success r = true -> tr_ErrorMessage r = "" ->
  start_recorded (t_instance t) (Some (tr_ContainerID r)) (HandleTaskResult taskID (result_json r) now db).2.
Proof.
  intros Hf Ht Hi Hty Hs Hb He. pose proof (success_result_report r Hs Hb He) as Hrep.
  rewrite (HandleTaskResult_success _ _ _ _ t) by (done || by right; left; apply result_agent_empty).
  rewrite result_completed_success, Hty by done. cbv zeta.
  change ("model_instance_start" =s "model_instance_logs") with false.
  change ("model_instance_start" =s "model_instance_stop") with false. cbn iota. split.
  - intros i. rewrite start_audit_instances. intros Hin Hid.
    destruct (on_instance_found _ _ _ i Hin Hid) as [i0 ->]; [done|].
    cbn [instance_started instance_with i_actual i_container]. unfold strVal. by rewrite result_container.
  - intros l. rewrite start_audit_leases. by apply on_leases_none.
Qed.

Lemma start_failure_recorded r taskID now db t :
  find_task db taskID = Some t -> task_terminal (t_status t) = false -> t_instance t <> "" ->
  t_type t = "model_instance_start" -> tr_Status r = "failed" ->
  start_recorded (t_instance t) None (HandleTaskResult taskID (result_json r) now db).2.
Proof.
  intros Hf Ht Hi Hty Hs. rewrite (HandleTaskResult_failure r taskID now db t) by done.
  unfold result_failed. rewrite Hty. change ("model_instance_start" =s "model_instance_logs") with false.
  change ("model_instance_start" =s "model_instance_stop") with false. apply String.eqb_neq in Hi. rewrite Hi.
  cbn [negb]. split.
  - intros i. rewrite start_audit_instances. intros Hin Hid.
    by destruct (on_instance_found _ _ _ i Hin Hid) as [i0 ->].
  - intros l. rewrite start_audit_leases. by apply on_leases_none.
Qed.

Section EndToEnd.
Context {W : Type} `{DC : DockerClient W} `{PE : PollEnv W} `{MR : MapRange}.
Variable decode_spec : string -> result AgentRunSpec.
Variable decode_ref : string -> result task_ref.
Variables (NewRealDockerClient Ping : M W (option string)) (now_text : M W string).

(** The container of an outcome that succeeded. *)
Definition running_container (a : start_outcome + string) : option string :=
  match a with inl (Returned (Some inst) None) => Some (rti_ContainerID inst) | _ => None end.

(** The report of a start task says what the driver answered. *)
Lemma start_report_spec task w r w' :
  wt_TaskType task = "model_instance_start" ->
  processTask decode_spec decode_ref NewRealDockerClient Ping now_text task w = (Reported r, w') ->
  exists w0, match running_container (attempt_start decode_spec NewRealDockerClient Ping task w0).1 with
             | Some container => tr_Status r = "completed" /\ tr_Success r = true /\ tr_ErrorMessage r = "" /\
                                 tr_ContainerID r = container
             | None => tr_Status r = "failed" /\ tr_Success r = false
             end.
Proof.
  intros Hty. unfold processTask, run_task. rewrite Hty. change ("model_instance_start" =s "model_instance_start") with true.
  cbn iota. unfold processStartTask, bind, ret. destruct (now_text w) as [startedAt w0]. intros Hp. exists w0. revert Hp.
  destruct (attempt_start decode_spec NewRealDockerClient Ping task w0) as [a w1]. cbn [fst].
  destruct a as [[[inst|] [err|]| |]|msg]; cbn [start_report running_container]; cbv beta iota;
    try (by intros [=]); destruct (now_text w1) as [finishedAt w2]; cbv beta iota; intros [= <- _]; by cbn.
Qed.

(** C29. From the driver to the tables: once the report of a start task is accepted
    for its task, the instance is recorded running, with the driver's container,
    exactly when the driver's start returned an instance without error, and failed
    otherwise; in both cases no lease of the instance is left reserved. *)
Theorem start_task_recorded task w r w' now db t :
  wt_TaskType task = "model_instance_start" ->
  processTask decode_spec decode_ref NewRealDockerClient Ping now_text task w = (Reported r, w') ->
  find_task db (wt_ID task) = Some t -> task_terminal (t_status t) = false ->
  t_type t = wt_TaskType task -> t_instance t <> "" ->
  exists w0, start_recorded (t_instance t)
    (running_container (attempt_start decode_spec NewRealDockerClient Ping task w0).1)
    (HandleTaskResult (wt_ID task) (result_json r) now db).2.
Proof.
  intros Hty Hp Hf Ht Htt Hi. destruct (start_report_spec task w r w' Hty Hp) as [w0 Hr]. exists w0.
  rewrite Hty in Htt. destruct (running_container _) as [container|].
  - destruct Hr as (Hs & Hb & He & <-). by apply start_success_recorded.
  - destruct Hr as [Hs _]. by apply start_failure_recorded.
Qed.
End EndToEnd.

(** ** Concrete inputs *)

Definition demo_task : AgentTask :=
  {| wt_ID := "s1"; wt_TaskType := "model_instance_start"; wt_TenantID := "t0"; wt_DeploymentID := "d1";
     wt_InstanceID := "i1"; wt_NodeID := "n1"; wt_TimeoutSeconds := 300; wt_AgentRunSpec := "{}" |}.

Definition demo_decode (_ : string) : result AgentRunSpec := inl (demo_spec None).
Definition no_ref (_ : string) : result task_ref := inr "unexpected end of JSON input".

Definition demo_run (states : list (result InspectResult)) : work * Script :=
  @processTask Script _ _ canonical_range demo_decode no_ref (ret None) (ret None) (ret "2026-06-15T00:00:00Z")
    demo_task (script [] states).

Definition demo_report (states : list (result InspectResult)) : TaskResult :=
  match (demo_run states).1 with Reported r => r | _ => new_result demo_task "" "" end.

Example demo_report_ready : tr_Status (demo_report [inl (inspect_running "running")]) = "completed".
Proof. by vm_compute. Qed.
Example demo_report_exited :
  tr_FailureReasonCode (demo_report [inl (inspect_running "exited"); inl (inspect_running "exited")]) = "container_exited".
Proof. by vm_compute. Qed.

(** The engine stops answering after the start: the agent dies and nothing is
    reported. *)
Example demo_run_dies : (demo_run []).1 = Died.
Proof. by vm_compute. Qed.

(** The lease owner's name is not compared: the report of another agent, which
    carries no name either, settles the task. *)
Example report_without_agent :
  (HandleTaskResult "s1" (result_json (demo_report [inl (inspect_running "running")])) 115 run_claimed).1 = ResultOk /\
  map t_lease_owner (db_tasks run_claimed) = ["a1"].
Proof. split; by vm_compute. Qed.

Lemma start_task_recorded_witness :
  let db1 := (HandleTaskResult "s1" (result_json (demo_report [inl (inspect_running "running")])) 115 run_claimed).2 in
  (exists container, start_recorded "i1" container db1) /\ map i_actual (db_instances db1) = ["running"].
Proof.
  split; [|by vm_compute].
  destruct (start_task_recorded (MR := canonical_range) demo_decode no_ref (ret None) (ret None) (ret "2026-06-15T00:00:00Z")
    demo_task (script [] [inl (inspect_running "running")]) (demo_report [inl (inspect_running "running")])
    (demo_run [inl (inspect_running "running")]).2 115 run_claimed
    (default (new_task "" "" "" "" "" "" "" 0 "" 0) (find_task run_claimed "s1"))) as (w0 & H).
  1-6: by vm_compute.
  eexists. exact H.
Defined.

(** * The identity of the node (internal/agent/state/state.go)

    One JSON file; [None]: it does not exist.  The mutex is left out: the agent loop is the
    only writer. *)

Record Identity := {
  ident_NodeID : string;
  ident_AgentID : string;
  ident_Hostname : string;
  ident_CreatedAt : string
}.

Definition identity_file : Type := option string.

(** [os.WriteFile] truncates the file when it opens it: it may fail before that, or
    after some bytes. *)
Inductive write_outcome := Written | NotOpened | Torn (bytes : nat).

Definition identity_text (i : Identity) : string :=
  json_texts indented [("node_id", ident_NodeID i); ("agent_id", ident_AgentID i);
                       ("hostname", ident_Hostname i); ("created_at", ident_CreatedAt i)].

(** Whether the file was written, and the file. *)
Definition saveLocked (o : write_outcome) (i : Identity) (file : identity_file) : bool * identity_file :=
  match o with
  | Written => (true, Some (identity_text i))
  | NotOpened => (false, file)
  | Torn n => (false, Some (str_take n (identity_text i)))
  end.

(** Decoding into a structure of texts: the value of a field is a text or null. *)
Definition texts_only (names : list string) (m : obj) : bool :=
  forallb (fun kv => negb (existsb (EqualFold kv.1) names) || text_or_nil kv.2) m.

Definition decode_texts (names : list string) (text : string) : option obj :=
  match Unmarshal text with
  | Some ANil => Some []
  | Some (AMap m) => if texts_only names m then Some m else None
  | _ => None
  end.

Definition named_text (m : obj) (name : string) : string := field m name dec_str "".

Definition decode_identity (text : string) : option Identity :=
  m ← decode_texts ["node_id"; "agent_id"; "hostname"; "created_at"] text;
  Some {| ident_NodeID := named_text m "node_id"; ident_AgentID := named_text m "agent_id";
          ident_Hostname := named_text m "hostname"; ident_CreatedAt := named_text m "created_at" |}.

(** What a start draws and how the calls on files end: creating the directory, reading
    a file that exists, writing. *)
Record LoadEnv := { le_dir : bool; le_read : bool; le_write : write_outcome; le_uuid : string; le_now : string }.

Inductive load_error := DirFailed | ReadFailed | WriteFailed | Corrupt | EmptyNodeID.

Definition Load (env : LoadEnv) (agentID hostname : string) (file : identity_file) : (Identity + load_error) * identity_file :=
  if negb (le_dir env) then (inr DirFailed, file)
  else if negb (le_read env) then (inr ReadFailed, file)
  else match file with
  | None =>
      let i := {| ident_NodeID := "node-" +s+ le_uuid env; ident_AgentID := agentID; ident_Hostname := hostname;
                  ident_CreatedAt := le_now env |} in
      let '(ok, file) := saveLocked (le_write env) i file in
      (if ok then inl i else inr WriteFailed, file)
  | Some text =>
      match decode_identity text with
      | None => (inr Corrupt, file)
      | Some id =>
          if ident_NodeID id =s "" then (inr EmptyNodeID, file)
          else (inl {| ident_NodeID := ident_NodeID id; ident_AgentID := agentID; ident_Hostname := hostname;
                       ident_CreatedAt := if ident_CreatedAt id =s "" then le_now env else ident_CreatedAt id |}, file)
      end
  end.

Definition SetNodeID (o : write_outcome) (nodeID : string) (i : Identity) (file : identity_file) : bool * Identity * identity_file :=
  let i := {| ident_NodeID := nodeID; ident_AgentID := ident_AgentID i; ident_Hostname := ident_Hostname i;
              ident_CreatedAt := ident_CreatedAt i |} in
  let '(ok, file) := saveLocked o i file in (ok, i, file).

Definition CheckMismatch (i : Identity) (serverNodeID : string) : bool :=
  let cached := ident_NodeID i in
  if (cached =s "") || (serverNodeID =s "") then false else cached <>s serverNodeID.

(** * Registration and heartbeats (internal/agent/register/register.go) *)

Record RegisterResponse := { rg_NodeID : string; rg_AgentID : string; rg_TenantID : string; rg_ServerTime : string }.

Definition decode_registration (text : string) : option RegisterResponse :=
  m ← decode_texts ["node_id"; "agent_id"; "tenant_id"; "server_time"] text;
  Some {| rg_NodeID := named_text m "node_id"; rg_AgentID := named_text m "agent_id"; rg_TenantID := named_text m "tenant_id";
          rg_ServerTime := named_text m "server_time" |}.

(** How a request ends: without an answer (an address no request can be made from
    included), or with a status and the bytes of the body, whose reading may fail. *)
Inductive exchange := NoAnswer | Answered (status : Z) (body : string) (complete : bool).

Inductive register_error := RequestFailed | BadStatus (status : Z) | BadResponse | NodeIDMissing.

Definition register_limit : nat := 4096.

(** The part of the answer that is read; an error of the reading is dropped. *)
Definition register_answer (status : Z) (body : string) : string + register_error :=
  if negb (status =? 201)%Z && negb (status =? 200)%Z then inr (BadStatus status)
  else match decode_registration (str_take register_limit body) with
       | None => inr BadResponse
       | Some resp => if rg_NodeID resp =s "" then inr NodeIDMissing else inl (rg_NodeID resp)
       end.

Definition Do (x : exchange) (o : write_outcome) (i : Identity) (file : identity_file) :
    (string + register_error) * Identity * identity_file :=
  match x with
  | NoAnswer => (inr RequestFailed, i, file)
  | Answered status body _ =>
      match register_answer status body with
      | inr e => (inr e, i, file)
      | inl serverNodeID =>
          let cached := ident_NodeID i in
          let '(i, file) := if (cached =s "") || (cached <>s serverNodeID)
                            then let '(_, i, file) := SetNodeID o serverNodeID i file in (i, file) else (i, file) in
          (inl serverNodeID, i, file)
      end
  end.

Record HeartbeatResponse := {
  hb_Status : string; hb_ServerTime : string; hb_NeedRegister : bool; hb_Tasks : list AgentTask
}.

Inductive heartbeat_error := HeartbeatFailed | ReadHeartbeatFailed | HeartbeatTooLarge | BadHeartbeat.

Definition maxHB : Z := 2 ^ 20.

(** The response and the error, as the code returns them. *)
Definition SendHeartbeat (decode : string -> option HeartbeatResponse) (x : exchange) :
    option HeartbeatResponse * option heartbeat_error :=
  match x with
  | NoAnswer => (None, Some HeartbeatFailed)
  | Answered _ body complete =>
      if negb complete then (None, Some ReadHeartbeatFailed)
      else if (maxHB <? str_len body)%Z then (None, Some HeartbeatTooLarge)
      else match decode body with
           | None => (None, Some BadHeartbeat)
           | Some resp => (Some resp, None)
           end
  end.

(** * The agent loop (cmd/agent/main.go) *)

(** What a start does with the identity: an agent ID that is not configured is drawn
    ([fresh]), a node ID in the configuration has to be that of the file. *)
Definition start_identity (env : LoadEnv) (fresh agentID hostname nodeID : string) (file : identity_file) :
    option Identity * identity_file :=
  match Load env (if agentID =s "" then fresh else agentID) hostname file with
  | (inr _, file) => (None, file)
  | (inl i, file) => (if (nodeID <>s "") && (ident_NodeID i <>s nodeID) then None else Some i, file)
  end.

(** [al_node]: the variable of the loop; [al_snap]: the node ID of the metrics. *)
Record AgentLoop := { al_node : string; al_snap : string; al_failures : Z; al_identity : Identity; al_file : identity_file }.

Definition second : Z := 1000000000.
Definition maxRegBackoff : Z := 60 * second.
Definition next_backoff (b : Z) : Z := Z.min (b * 2) maxRegBackoff.

(** The registration at the start, as long as there are answers: where the loop begins,
    [None] while it still waits, and the waits. *)
Fixpoint register_loop (backoff : Z) (answers : list (exchange * write_outcome)) (i : Identity) (file : identity_file) :
    option AgentLoop * list Z :=
  match answers with
  | [] => (None, [])
  | (x, o) :: rest =>
      match Do x o i file with
      | (inl nodeID, i, file) => (Some {| al_node := nodeID; al_snap := nodeID; al_failures := 0; al_identity := i; al_file := file |}, [])
      | (inr _, i, file) => let '(a, waits) := register_loop (next_backoff backoff) rest i file in (a, backoff :: waits)
      end
  end.

(** A turn of the heartbeat ticker and the tasks it starts.  [again]: how a registration
    would end.  The node ID of a new registration stays in the scope of its block. *)
Definition heartbeat_turn (decode : string -> option HeartbeatResponse) (x : exchange) (again : exchange * write_outcome) (a : AgentLoop) :
    AgentLoop * list AgentTask :=
  let counted n := {| al_node := al_node a; al_snap := al_snap a; al_failures := n; al_identity := al_identity a; al_file := al_file a |} in
  match SendHeartbeat decode x with
  | (resp, Some _) =>
      let a := counted (al_failures a + 1)%Z in
      match resp with
      | Some r =>
          if hb_NeedRegister r
          then match Do again.1 again.2 (al_identity a) (al_file a) with
               | (inl nodeID, i, file) => ({| al_node := al_node a; al_snap := nodeID; al_failures := 0; al_identity := i; al_file := file |}, [])
               | (inr _, i, file) => ({| al_node := al_node a; al_snap := al_snap a; al_failures := al_failures a; al_identity := i; al_file := file |}, [])
               end
          else (a, [])
      | None => (a, [])
      end
  | (resp, None) => (counted 0%Z, match resp with Some r => hb_Tasks r | None => [] end)
  end.

(** * The agent and the server *)

(** The request [Do] sends, as the server decodes it. *)
Definition sent_facts (f : node_facts) : node_facts :=
  {| nf_hostname := valid_text (nf_hostname f); nf_primary_ip := valid_text (nf_primary_ip f); nf_advertised := valid_text (nf_advertised f);
     nf_os := valid_text (nf_os f); nf_arch := valid_text (nf_arch f); nf_kernel := valid_text (nf_kernel f); nf_version := valid_text (nf_version f);
     nf_metrics_enabled := nf_metrics_enabled f; nf_metrics_scheme := valid_text (nf_metrics_scheme f); nf_metrics_port := nf_metrics_port f;
     nf_metrics_path := valid_text (nf_metrics_path f) |}.

(** [http.Error] and the JSON encoder end the body with a line feed. *)
Definition register_reply (now_text : string) (r : register_response) : Z * string :=
  match r with
  | RegisterBadRequest => (400, json_texts compact [("error", "node_id is required")] +s+ String newline "")
  | RegisterConflict => (409, json_texts compact [("error", "node_id already bound to a different agent_id")] +s+ String newline "")
  | Registered nodeID agentID tenantID =>
      (201, json_texts compact [("node_id", nodeID); ("agent_id", agentID); ("tenant_id", tenantID); ("agent_token", "");
                                ("server_time", now_text)] +s+ String newline "")
  end%Z.

(** A registration that reaches the server: its answer, and the tables.  The agent ID is
    that of the identity, which the start gave it. *)
Definition registration (facts : node_facts) (now : Z) (now_text : string) (i : Identity) (db : DB) : exchange * DB :=
  let '(resp, db) := HandleRegister (valid_text (ident_NodeID i)) (valid_text (ident_AgentID i)) (sent_facts facts) now db in
  let '(status, body) := register_reply now_text resp in (Answered status body true, db).

(** The answer is read to its end. *)
Definition fits (x : exchange) : Prop :=
  match x with NoAnswer => True | Answered _ body _ => String.length body <= register_limit end.

(** The identity file, the agent when it runs, and the tables of the server. *)
Record AgentSystem := { sy_file : identity_file; sy_agent : option Identity; sy_db : DB }.

Inductive agent_step : AgentSystem -> AgentSystem -> Prop :=
| agent_starts env fresh agentID hostname nodeID i file s :
    start_identity env fresh agentID hostname nodeID (sy_file s) = (i, file) ->
    agent_step s {| sy_file := file; sy_agent := i; sy_db := sy_db s |}
| agent_ends s : agent_step s {| sy_file := sy_file s; sy_agent := None; sy_db := sy_db s |}
| agent_registers facts now now_text o x db i r i' file s :
    sy_agent s = Some i -> registration facts now now_text i (sy_db s) = (x, db) -> fits x -> Do x o i (sy_file s) = (r, i', file) ->
    agent_step s {| sy_file := file; sy_agent := Some i'; sy_db := db |}
| agent_register_fails x o i e i' file db s :
    sy_agent s = Some i -> Do x o i (sy_file s) = (inr e, i', file) ->
    agent_step s {| sy_file := file; sy_agent := Some i'; sy_db := db |}
| server_works db s : agent_step s {| sy_file := sy_file s; sy_agent := sy_agent s; sy_db := db |}.

Inductive agent_steps : AgentSystem -> AgentSystem -> Prop :=
| agent_steps_refl s : agent_steps s s
| agent_steps_next s s' s'' : agent_steps s s' -> agent_step s' s'' -> agent_steps s s''.

(** ** The file is read back *)

Definition valid_identity (i : Identity) : Identity :=
  {| ident_NodeID := valid_text (ident_NodeID i); ident_AgentID := valid_text (ident_AgentID i);
     ident_Hostname := valid_text (ident_Hostname i); ident_CreatedAt := valid_text (ident_CreatedAt i) |}.

Definition ascii_text (s : string) : Prop := any_byte (fun c => negb (between 0 127 c)) s = false.

Lemma Unmarshal_object ly m w : spaced ly -> m <> [] -> blank w -> Forall (fun kv => ascii_text kv.1) m ->
  Unmarshal (json_texts ly m +s+ w) = Some (AMap (foldl (fun o kv => obj_set kv.1 (AStr (valid_text kv.2)) o) [] m)).
Proof.
  intros Hly Hm Hw Hk. rewrite Unmarshal_texts by done. unfold read_texts.
  enough (forall o, foldl (fun o kv => obj_set (valid_text kv.1) (AStr (valid_text kv.2)) o) o m
                    = foldl (fun o kv => obj_set kv.1 (AStr (valid_text kv.2)) o) o m) as -> by done.
  clear Hm. induction Hk as [|kv l Hkv _ IH]; intros o; [done|]. cbn [foldl]. rewrite (valid_text_ascii kv.1 Hkv). apply IH.
Qed.

Lemma Unmarshal_identity i : Unmarshal (identity_text i) =
  Some (AMap [("agent_id", AStr (valid_text (ident_AgentID i))); ("created_at", AStr (valid_text (ident_CreatedAt i)));
              ("hostname", AStr (valid_text (ident_Hostname i))); ("node_id", AStr (valid_text (ident_NodeID i)))]).
Proof.
  unfold identity_text. rewrite <- (sapp_nil_r (json_texts _ _)), Unmarshal_object;
    [reflexivity|apply json_texts_spaces|done..|by repeat constructor].
Qed.

Lemma decode_identity_text i : decode_identity (identity_text i) = Some (valid_identity i).
Proof. unfold decode_identity, decode_texts. rewrite Unmarshal_identity. reflexivity. Qed.

(** An existing file is never written, whatever it holds. *)
Lemma Load_keeps env agentID hostname text : (Load env agentID hostname (Some text)).2 = Some text.
Proof. unfold Load. by repeat case_match. Qed.

Lemma Load_existing env agentID hostname text i :
  (Load env agentID hostname (Some text)).1 = inl i ->
  exists id, decode_identity text = Some id /\ ident_NodeID id <> "" /\ ident_NodeID i = ident_NodeID id /\
             ident_AgentID i = agentID /\ ident_Hostname i = hostname.
Proof.
  unfold Load. destruct (le_dir env), (le_read env); try done. cbn [negb]. destruct (decode_identity text) as [id|]; [|done].
  destruct (ident_NodeID id =s "") eqn:E; [done|]. intros [= <-]. bool_facts. by exists id.
Qed.

Lemma Load_again env agentID hostname text id :
  decode_identity text = Some id -> ident_NodeID id <> "" -> le_dir env = true -> le_read env = true ->
  exists i, Load env agentID hostname (Some text) = (inl i, Some text) /\ ident_NodeID i = ident_NodeID id /\ ident_AgentID i = agentID.
Proof.
  intros Hd Hn H1 H2. unfold Load. rewrite H1, H2, Hd. cbn [negb]. apply String.eqb_neq in Hn. rewrite Hn. by eexists.
Qed.

(** A first start that succeeds left its identity in the file. *)
Lemma Load_first env agentID hostname i file : Load env agentID hostname None = (inl i, file) ->
  file = Some (identity_text i) /\ ident_NodeID i = "node-" +s+ le_uuid env.
Proof.
  unfold Load. destruct (le_dir env), (le_read env); try done. cbn [negb]. unfold saveLocked.
  destruct (le_write env); [|done..]. by intros [= <- <-].
Qed.

(** ** Registration *)

Lemma Do_failed x o i file e i' file' : Do x o i file = (inr e, i', file') -> i' = i /\ file' = file.
Proof.
  unfold Do. destruct x as [|status body complete]; [by intros [= _ <- <-]|]. destruct (register_answer status body); [|by intros [= _ <- <-]].
  cbv zeta. match goal with |- (let '(_, _) := ?p in _) = _ -> _ => by destruct p end.
Qed.

(** The node ID the agent has is confirmed: nothing changes. *)
Lemma Do_confirmed status body complete o i file nodeID :
  register_answer status body = inl nodeID -> ident_NodeID i = nodeID -> nodeID <> "" ->
  Do (Answered status body complete) o i file = (inl nodeID, i, file).
Proof.
  intros Ha He Hn. unfold Do. rewrite Ha, He. apply String.eqb_neq in Hn. cbn zeta. by rewrite Hn, String.eqb_refl.
Qed.

Lemma Unmarshal_reply now_text nodeID agentID tenantID : Unmarshal (register_reply now_text (Registered nodeID agentID tenantID)).2 =
  Some (AMap [("agent_id", AStr (valid_text agentID)); ("agent_token", AStr ""); ("node_id", AStr (valid_text nodeID));
              ("server_time", AStr (valid_text now_text)); ("tenant_id", AStr (valid_text tenantID))]).
Proof. 
  cbn [register_reply snd]. rewrite Unmarshal_object; [reflexivity|apply json_texts_spaces|done..|by repeat constructor].
Qed.

Lemma str_take_all n s : String.length s <= n -> str_take n s = s.
Proof. revert s. induction n as [|n IH]; intros [|c s]; cbn; [done|lia|done|]. intros H. rewrite IH by lia. done. Qed.

Lemma registered_answer now_text nodeID agentID tenantID :
  let reply := register_reply now_text (Registered nodeID agentID tenantID) in
  String.length reply.2 <= register_limit -> valid_text nodeID <> "" -> register_answer reply.1 reply.2 = inl (valid_text nodeID).
Proof.
  intros reply Hf Hn. unfold register_answer. change (reply.1) with 201%Z. cbn [Z.eqb negb andb]. rewrite str_take_all by done.
  unfold decode_registration, decode_texts. unfold reply. rewrite Unmarshal_reply. apply String.eqb_neq in Hn. cbv iota. change (texts_only _ _) with true.
  cbn [mbind option_bind rg_NodeID]. change (named_text _ "node_id") with (valid_text nodeID). by rewrite Hn.
Qed.

Lemma refused_answer status body : status <> 201%Z -> status <> 200%Z -> register_answer status body = inr (BadStatus status).
Proof. intros H1%Z.eqb_neq H2%Z.eqb_neq. unfold register_answer. by rewrite H1, H2. Qed.

(** What a registration is answered: the node ID itself, or a refusal. *)
Lemma registration_answer facts now now_text i db x db' :
  registration facts now now_text i db = (x, db') -> fits x -> ident_NodeID i <> "" ->
  exists status body, x = Answered status body true /\
    (register_answer status body = inl (valid_text (ident_NodeID i)) \/ exists e, register_answer status body = inr e).
Proof.
  unfold registration. intros H Hf Hn. destruct (HandleRegister _ _ _ _ _) as [resp db1] eqn:Eh.
  destruct (register_reply now_text resp) as [status body] eqn:Er. injection H as <- <-. exists status, body. split; [done|].
  unfold HandleRegister in Eh. destruct resp as [| |n a t].
  1,2: apply (f_equal fst) in Er; cbn [fst register_reply] in Er; right; exists (BadStatus status); subst status; by apply refused_answer.
  assert (n = valid_text (ident_NodeID i)) as -> by (repeat case_match; congruence).
  left. pose proof (registered_answer now_text (valid_text (ident_NodeID i)) a t) as Ha. cbv zeta in Ha. rewrite Er in Ha.
  rewrite valid_text_idem in Ha. cbn [fst snd] in Ha. apply Ha; [done|]. by rewrite valid_text_nil.
Qed.

(** ** One identity for the life of the file *)

Record settled (n text : string) (s : AgentSystem) : Prop := {
  settled_file : sy_file s = Some text;
  settled_text : exists id, decode_identity text = Some id /\ ident_NodeID id = n;
  settled_some : n <> "";
  settled_valid : valid_text n = n;
  settled_agent : forall i, sy_agent s = Some i -> ident_NodeID i = n
}.

Lemma start_identity_existing env fresh agentID hostname nodeID text i file :
  start_identity env fresh agentID hostname nodeID (Some text) = (i, file) ->
  file = Some text /\ forall i', i = Some i' -> exists id, decode_identity text = Some id /\ ident_NodeID i' = ident_NodeID id.
Proof.
  unfold start_identity. set (a := if agentID =s "" then fresh else agentID). pose proof (Load_keeps env a hostname text) as Hk.
  destruct (Load env a hostname (Some text)) as [[i0|e] file0] eqn:El; cbn [snd] in Hk; subst file0; [|by intros [= <- <-]].
  destruct (Load_existing env a hostname text i0) as (id & Hd & _ & Hn & _); [by rewrite El|].
  intros [= <- <-]. split; [done|]. intros i'. destruct (_ && _); [done|]. intros [= <-]. by exists id.
Qed.

Lemma agent_step_settled n text s s' : agent_step s s' -> settled n text s -> settled n text s'.
Proof.
  intros Hs Hok. pose proof Hok as [Hf (id & Hd & Hn) Hne Hv Ha].
  destruct Hs as [env fresh agentID hostname nodeID i file s Hi|s|facts now now_text o x db i r i' file s Hi Hr Hfit Hdo|x o i e i' file db s Hi Hdo|db s].
  - rewrite Hf in Hi. apply start_identity_existing in Hi as [-> Hi]. split; cbn [sy_file sy_agent]; [done|by exists id|done..|].
    intros i' E. destruct (Hi i' E) as (id' & Hd' & ->). congruence.
  - split; cbn [sy_file sy_agent]; [done|by exists id|done..].
  - specialize (Ha i Hi). rewrite <- Ha in Hne, Hv. destruct (registration_answer _ _ _ _ _ _ _ Hr Hfit Hne) as (status & body & -> & [E|[e E]]).
    + rewrite Hv in E. rewrite (Do_confirmed _ _ _ _ _ _ _ E) in Hdo by done. injection Hdo as <- <- <-.
      split; cbn [sy_file sy_agent]; [done|by exists id|congruence..].
    + unfold Do in Hdo. rewrite E in Hdo. injection Hdo as <- <- <-. split; cbn [sy_file sy_agent]; [done|by exists id|congruence..].
  - apply Do_failed in Hdo as [-> ->]. split; cbn [sy_file sy_agent]; [done|by exists id|done..|]. intros i0 [= <-]. by apply Ha.
  - split; cbn [sy_file sy_agent]; [done|by exists id|done..].
Qed.

Lemma agent_steps_settled n text s s' : agent_steps s s' -> settled n text s -> settled n text s'.
Proof. induction 1 as [|s s' s'' _ IH Hs]; [done|]. intros H. by eapply agent_step_settled, IH. Qed.

Lemma ascii_valid s : ascii_text s -> valid_text s = s.
Proof. apply valid_text_ascii. Qed.

Lemma first_start_settled env agentID hostname i file db :
  ascii_text (le_uuid env) -> Load env agentID hostname None = (inl i, file) ->
  settled (ident_NodeID i) (identity_text i) {| sy_file := file; sy_agent := Some i; sy_db := db |}.
Proof.
  intros Hu Hl. apply Load_first in Hl as [-> Hn].
  assert (ascii_text (ident_NodeID i)) as Hv by (rewrite Hn; unfold ascii_text; by rewrite any_byte_app).
  split; cbn [sy_file sy_agent]; [done| |by rewrite Hn|by apply ascii_valid|congruence].
  exists (valid_identity i). split; [apply decode_identity_text|]. cbn [valid_identity ident_NodeID]. by apply ascii_valid.
Qed.

(** C30. The identity of a node.  After a first start that succeeds, whatever restarts follow
    (under any agent ID and host name, with files that fail or not), whatever the server answers or
    loses and whatever else the server does: the identity file is never written again, an
    agent that runs has the node ID that was drawn at the first start, and a start that can read
    the file succeeds with that node ID. *)
Theorem agent_identity_stable env agentID hostname i file db s :
  ascii_text (le_uuid env) -> Load env agentID hostname None = (inl i, file) ->
  agent_steps {| sy_file := file; sy_agent := Some i; sy_db := db |} s ->
  sy_file s = file /\ (forall i', sy_agent s = Some i' -> ident_NodeID i' = "node-" +s+ le_uuid env) /\
  forall env' agentID' hostname', le_dir env' = true -> le_read env' = true ->
    exists i', Load env' agentID' hostname' (sy_file s) = (inl i', file) /\ ident_NodeID i' = "node-" +s+ le_uuid env /\
               ident_AgentID i' = agentID'.
Proof.
  intros Hu Hl Hs. pose proof (first_start_settled _ _ _ _ _ db Hu Hl) as H0. destruct (Load_first _ _ _ _ _ Hl) as [-> Hn].
  destruct (agent_steps_settled _ _ _ _ Hs H0) as [Hf (id & Hd & Hid) Hne _ Ha]. rewrite Hf, <- Hn. split_and!; [done|exact Ha|].
  intros env' agentID' hostname' H1 H2. rewrite <- Hid in Hne |- *. by apply Load_again.
Qed.

(** ** What a registration does *)

(** The node is free for this agent: unknown, not bound, or bound to it. *)
Definition node_free (n a : string) (db : DB) : Prop :=
  match find_node db n with Some row => n_agent row = "" \/ n_agent row = a | None => True end.

Lemma find_node_app db n row : find_node db n = None -> n_id row = n ->
  find_node (set_nodes (fun rows => rows ++ [row]) db) n = Some row.
Proof.
  unfold find_node. intros H Hn. cbn [db_nodes set_nodes]. induction (db_nodes db) as [|r rows IH]; cbn in *.
  - by rewrite Hn, String.eqb_refl.
  - destruct (n_id r =s n); [done|]. by apply IH.
Qed.

Lemma find_node_update db n f row : find_node db n = Some row -> (forall r, n_id (f r) = n_id r) ->
  find_node (set_nodes (update_where (fun r => n_id r =s n) f) db) n = Some (f row).
Proof.
  unfold find_node. intros H Hf. cbn [db_nodes set_nodes]. induction (db_nodes db) as [|r rows IH]; cbn in *; [done|].
  destruct (n_id r =s n) eqn:E; cbn; [rewrite Hf, E; by injection H as ->|]. rewrite E. by apply IH.
Qed.

Lemma HandleHeartbeat_bound `{SO : SqlOrder} n a now db row :
  n <> "" -> find_node db n = Some row -> n_agent row = a -> exists tasks, (HandleHeartbeat n a now db).1 = HeartbeatOk tasks.
Proof.
  intros Hn Hf Ha. unfold HandleHeartbeat. apply String.eqb_neq in Hn. rewrite Hn, Hf, Ha, String.eqb_refl, andb_false_r.
  destruct (claimAndReturnTasks _ _ _ _) as [tasks db']. by exists tasks.
Qed.

(** C31. A registration end to end.  When the node is free for the agent, the agent keeps its node
    ID and its file, the row of the node is bound to the agent and online, and the heartbeats that
    follow are answered with tasks; when the node is bound to another agent, the agent is refused
    with 409 and neither side changes. *)
Theorem registration_outcome `{SO : SqlOrder} facts now now_text i db x db' o file :
  registration facts now now_text i db = (x, db') -> fits x -> ident_NodeID i <> "" -> valid_text (ident_NodeID i) = ident_NodeID i ->
  let n := ident_NodeID i in let a := valid_text (ident_AgentID i) in
  (node_free n a db ->
     Do x o i file = (inl n, i, file) /\
     (exists row, find_node db' n = Some row /\ n_agent row = a /\ n_status row = "online" /\ n_heartbeat row = now) /\
     forall later, exists tasks, (HandleHeartbeat n a later db').1 = HeartbeatOk tasks) /\
  (~ node_free n a db -> Do x o i file = (inr (BadStatus 409), i, file) /\ db' = db).
Proof.
  intros Hr Hfit Hne Hv n a. pose proof (registration_answer _ _ _ _ _ _ _ Hr Hfit Hne) as (status & body & -> & Hans).
  unfold registration in Hr. rewrite Hv in Hr. fold n in Hr, Hv, Hne, Hans. fold a in Hr. rewrite Hv in Hans.
  unfold HandleRegister, node_free in *. rewrite (proj2 (String.eqb_neq n "") Hne) in Hr.
  assert (forall t db2, (let '(status, body) := register_reply now_text (Registered n a t) in (Answered status body true, db2)) = (Answered status body true, db') ->
      find_node db2 n <> None -> (forall row, find_node db2 n = Some row -> n_agent row = a /\ n_status row = "online" /\ n_heartbeat row = now) ->
      Do (Answered status body true) o i file = (inl n, i, file) /\
      (exists row, find_node db' n = Some row /\ n_agent row = a /\ n_status row = "online" /\ n_heartbeat row = now) /\
      forall later, exists tasks, (HandleHeartbeat n a later db').1 = HeartbeatOk tasks) as Hok.
  { intros t db2 E Hsome Hrow. pose proof (registered_answer now_text n a t) as Hreg. cbv zeta in Hreg.
    destruct (register_reply now_text (Registered n a t)) as [st b] eqn:Er. injection E as <- <- <-. cbn [fst snd fits] in *.
    rewrite Hv in Hreg. specialize (Hreg Hfit Hne). split; [by apply Do_confirmed|].
    destruct (find_node db2 n) as [row|] eqn:Ef; [|done]. destruct (Hrow row eq_refl) as (Ha & Hs & Hb).
    split; [by exists row|]. intros later. by eapply HandleHeartbeat_bound. }
  destruct (find_node db n) as [row|] eqn:Ef.
  - destruct ((n_agent row <>s "") && (n_agent row <>s a)) eqn:Eb.
    + split; [intros [H|H]; rewrite H in Eb; [done|by rewrite String.eqb_refl, andb_false_r in Eb]|]. intros _.
      destruct (register_reply now_text RegisterConflict) as [st b] eqn:Er. apply (f_equal fst) in Er. cbn [register_reply fst] in Er.
      injection Hr as <- <- <-. split; [|done]. unfold Do. rewrite <- Er. by rewrite refused_answer.
    + split; [intros _; eapply Hok; [exact Hr|..]; rewrite (find_node_update _ _ _ row); try done; by intros row' [= <-]|].
      intros []. apply andb_false_iff in Eb as [Eb|Eb]; bool_facts; [by left|by right].
  - split; [intros _; eapply Hok; [exact Hr|..]; rewrite find_node_app; try done; by intros row' [= <-]|done].
Qed.

(** ** The loop *)

(** An answer that registers the agent. *)
Definition accepted (x : exchange) : bool :=
  match x with Answered status body _ => match register_answer status body with inl _ => true | inr _ => false end | NoAnswer => false end.

Lemma Do_accepted x o i file : accepted x = true <-> exists n i' file', Do x o i file = (inl n, i', file').
Proof.
  unfold accepted, Do. destruct x as [|status body complete]; [split; [done|by intros (? & ? & ? & ?)]|].
  destruct (register_answer status body) as [n|e]; [|split; [done|by intros (? & ? & ? & ?)]]. split; [|done]. intros _. cbv zeta.
  match goal with |- context [let '(_, _) := ?p in _] => destruct p as [i' file'] end. by exists n, i', file'.
Qed.

(** The loop begins at the first answer that registers the agent, after as many waits as
    answers before it; every wait is twice the one before, a minute at most. *)
Lemma register_loop_spec backoff answers i file :
  let '(a, waits) := register_loop backoff answers i file in
  (is_Some a <-> Exists (fun y => accepted y.1 = true) answers) /\
  forall k w, waits !! k = Some w -> w = Nat.iter k next_backoff backoff /\
    (exists y, answers !! k = Some y /\ accepted y.1 = false).
Proof.
  revert backoff i file. induction answers as [|[x o] answers IH]; intros backoff i file; cbn [register_loop].
  { split; [by split; [intros []|intros H%Exists_nil]|done]. }
  destruct (Do x o i file) as [[[n|e] i'] file'] eqn:E.
  - split; [|done]. split; [|by eexists]. intros _. left. apply (Do_accepted x o i file). by exists n, i', file'.
  - destruct (register_loop (next_backoff backoff) answers i' file') as [a waits] eqn:El. specialize (IH (next_backoff backoff) i' file').
    rewrite El in IH. destruct IH as [IHa IHw]. assert (accepted x = false) as Hx.
    { apply not_true_iff_false. rewrite (Do_accepted x o i file), E. by intros (? & ? & ? & ?). }
    split; [rewrite Exists_cons, IHa; cbn [fst]; split; [by right|by intros [?|?]; [congruence|]]|].
    intros [|k] w Hw; cbn in Hw; [injection Hw as <-; split; [done|by exists (x, o)]|]. destruct (IHw k w Hw) as [-> Hy]. split; [|exact Hy].
    by rewrite Nat.iter_succ_r.
Qed.

Lemma backoff_bound k : (0 < Nat.iter k next_backoff second <= maxRegBackoff)%Z.
Proof. induction k as [|k IH]; [by vm_compute|].
  change (Nat.iter (S k) next_backoff second) with (next_backoff (Nat.iter k next_backoff second)).
  generalize dependent (Nat.iter k next_backoff second). intros b IH. unfold next_backoff, maxRegBackoff, second in *. lia. Qed.

(** A heartbeat never leads to a registration, whatever the server answers: the code looks at
    [NeedRegister] where there is no response. *)
Lemma heartbeat_never_registers decode x again a :
  let a' := (heartbeat_turn decode x again a).1 in
  al_node a' = al_node a /\ al_snap a' = al_snap a /\ al_identity a' = al_identity a /\ al_file a' = al_file a.
Proof.
  unfold heartbeat_turn, SendHeartbeat. destruct x as [|status body complete]; [done|]. destruct complete; [|done]. cbn [negb].
  destruct (_ <? _)%Z; [done|]. by destruct (decode body).
Qed.

(** ** Concrete runs *)

Definition demo_env (uuid : string) : LoadEnv :=
  {| le_dir := true; le_read := true; le_write := Written; le_uuid := uuid; le_now := "2026-06-15T00:00:00Z" |}.

Definition demo_facts : node_facts :=
  {| nf_hostname := "gpu-host"; nf_primary_ip := "10.0.0.5"; nf_advertised := ""; nf_os := "linux"; nf_arch := "amd64"; nf_kernel := "6.8";
     nf_version := "1.0"; nf_metrics_enabled := true; nf_metrics_scheme := ""; nf_metrics_port := 0; nf_metrics_path := "" |}.

Definition demo_server : DB := empty_db [("t0", "default")].

(** A start, then a registration that reaches the server. *)
Definition boot_and_register (fresh agentID hostname : string) (file : identity_file) (db : DB) :
    option (string + register_error) * identity_file * DB :=
  match start_identity (demo_env "u1") fresh agentID hostname "" file with
  | (None, file) => (None, file, db)
  | (Some i, file) =>
      let '(x, db) := registration demo_facts 100 "2026-06-15T00:00:00Z" i db in
      let '(r, _, file) := Do x Written i file in (Some r, file, db)
  end.

Definition first_boot (agentID : string) : option (string + register_error) * identity_file * DB :=
  boot_and_register "drawn-1" agentID "h1" None demo_server.

Example first_registration : (first_boot "agent-01").1.1 = Some (inl "node-u1").
Proof. by vm_compute. Qed.

Example restart_registers_again :
  let '(_, file, db) := first_boot "agent-01" in (boot_and_register "drawn-2" "agent-01" "h2" file db).1.1 = Some (inl "node-u1").
Proof. by vm_compute. Qed.

(** Without an agent ID in the configuration one is drawn at every start, while the node ID
    stays: after a restart the server refuses the agent for ever. *)
Example restart_without_agent_id :
  let '(_, file, db) := first_boot "" in (boot_and_register "drawn-2" "" "h1" file db).1.1 = Some (inr (BadStatus 409)).
Proof. by vm_compute. Qed.

(** A node ID of the configuration is compared after a new one was drawn and written. *)
Example configured_node_id_refused :
  let '(i, file) := start_identity (demo_env "u1") "drawn-1" "agent-01" "h1" "node-7" None in
  i = None /\ (ident_NodeID <$> (file ≫= decode_identity)) = Some "node-u1".
Proof. by vm_compute. Qed.

(** A first write that is torn leaves a file every later start refuses. *)
Example torn_identity :
  let '(i, file) := Load {| le_dir := true; le_read := true; le_write := Torn 20; le_uuid := "u1"; le_now := "" |} "agent-01" "h1" None in
  i = inr WriteFailed /\ (Load (demo_env "u2") "agent-01" "h1" file).1 = inr Corrupt.
Proof. by vm_compute. Qed.

(** The server does not know the node (its tables were restored) and asks for a registration: the
    answer counts as a success and the node stays unknown.  So does a refusal. *)
Definition asks_for_registration (text : string) : option HeartbeatResponse :=
  match Unmarshal text with
  | Some (AMap m) => Some {| hb_Status := named_text m "status"; hb_ServerTime := named_text m "server_time";
                             hb_NeedRegister := field m "need_register" dec_bool false; hb_Tasks := [] |}
  | _ => None
  end.

Example unknown_node_stays_unknown :
  let a := {| al_node := "node-u1"; al_snap := "node-u1"; al_failures := 3; al_identity := {| ident_NodeID := "node-u1"; ident_AgentID := "agent-01"; ident_Hostname := "h1"; ident_CreatedAt := "" |}; al_file := None |} in
  let again := ((Answered 201 (jq "{`node_id`:`node-u1`}") true, Written) : exchange * write_outcome) in
  let turn status text := al_failures (heartbeat_turn asks_for_registration (Answered status (jq text) true) again a).1 in
  option_map hb_NeedRegister (asks_for_registration (jq "{`status`:`error`,`server_time`:`t`,`need_register`:true}")) = Some true /\
  turn 200%Z "{`status`:`error`,`server_time`:`t`,`need_register`:true}" = 0%Z /\
  turn 403%Z "{`error`:`agent_id mismatch for this node`}" = 0%Z.
Proof. by vm_compute. Qed.

Definition demo_first : Identity := 
  {| ident_NodeID := "node-u1"; ident_AgentID := "agent-01"; ident_Hostname := "h1"; ident_CreatedAt := "2026-06-15T00:00:00Z" |}.

Lemma agent_identity_stable_witness :
  let s := {| sy_file := Some (identity_text demo_first); sy_agent := None; sy_db := demo_server |} in
  exists i', Load (demo_env "u2") "agent-02" "h2" (sy_file s) = (inl i', Some (identity_text demo_first)) /\ ident_NodeID i' = "node-u1" /\
             ident_AgentID i' = "agent-02".
Proof.
  apply (agent_identity_stable (demo_env "u1") "agent-01" "h1" demo_first (Some (identity_text demo_first)) demo_server
           {| sy_file := Some (identity_text demo_first); sy_agent := None; sy_db := demo_server |}); [by vm_compute..| |done|done].
  eapply agent_steps_next; [apply agent_steps_refl|apply agent_ends].
Defined.

Lemma registration_outcome_witness :
  let '(x, db) := registration demo_facts 100 "2026-06-15T00:00:00Z" demo_first demo_server in
  Do x Written demo_first None = (inl "node-u1", demo_first, None) /\
  exists row, find_node db "node-u1" = Some row /\ n_agent row = "agent-01".
Proof.
  destruct (registration demo_facts 100 "2026-06-15T00:00:00Z" demo_first demo_server) as [x db] eqn:E.
  destruct (registration_outcome (SO := stable_order) demo_facts 100 "2026-06-15T00:00:00Z" demo_first demo_server x db Written None E) as [H _].
  - replace x with (registration demo_facts 100 "2026-06-15T00:00:00Z" demo_first demo_server).1 by (by rewrite E). vm_compute. lia.
  - done.
  - by vm_compute.
  - destruct H as (HDo & (row & Hf & Ha & _) & _); [by vm_compute|]. split; [exact HDo|]. exists row. split; [exact Hf|]. rewrite Ha. by vm_compute.
Defined.
