(* ===== verification/ModelPaths.v ===== *)
(** * Model path checks (cmd/agent/main.go, internal/server/api/model_browser_handlers.go)

    What a request may name under the roots a node offers for model files.  The
    library functions [filepath.Clean], [Join] and [IsAbs] are written out for
    Unix; [filepath.EvalSymlinks] and [os.Stat] read the file system and are
    parameters.  The specification reads a clean absolute path as its list of
    segments. *)
From S2P Require Import Prelude GoStrings GoValue RunPlanTypes ResolverArgs ResolverMounts.
From Stdlib Require Import Ascii.

(** ** path/filepath *)

Definition IsAbs (p : string) : bool := HasPrefix p "/".

(** The stack of segments, last first: a dot-dot removes the segment before it, is
    dropped at the root and kept in front of a relative path. *)
Definition clean_step (rooted : bool) (stack : list string) (seg : string) : list string :=
  if (seg =s EmptyString) || (seg =s ".") then stack
  else if seg =s ".." then
    match stack with
    | top :: rest => if top =s ".." then seg :: stack else rest
    | [] => if rooted then [] else [seg]
    end
  else seg :: stack.

Definition clean_segments (rooted : bool) (segs : list string) : list string :=
  rev (foldl (clean_step rooted) [] segs).

Definition Clean (p : string) : string :=
  let rooted := IsAbs p in
  let body := Join (clean_segments rooted (FieldsFunc p is_slash)) "/" in
  if rooted then "/" +s+ body else if body =s EmptyString then "." else body.

(** [filepath.Join] of two elements: empty ones are left out. *)
Definition Join2 (a b : string) : string :=
  match List.filter (fun e => e <>s EmptyString) [a; b] with
  | [] => EmptyString
  | es => Clean (Join es "/")
  end.

(** ** Roots (cmd/agent/main.go) *)

Record ModelBrowserConfig := {
  mb_Enabled : bool;
  mb_AllowedRoots : list string;
  mb_DeniedRoots : list string;
  mb_MaxEntries : Z;
  mb_MaxScanDepth : Z;
  mb_FollowSymlinks : bool;
  mb_AllowRuntimeRootAdd : bool
}.

(** [seen] holds what [out] holds. *)
Definition add_root (out : list string) (value : string) : list string :=
  let clean := Clean (TrimSpace value) in
  if (clean =s ".") || (clean =s EmptyString) || existsb (String.eqb clean) out then out else out ++ [clean].

(** [extra]: the environment variable LIGHTAI_MODEL_BROWSER_EXTRA_ROOTS. *)
Definition agentAllowedModelRoots (extra : string) (cfg : ModelBrowserConfig) : list string :=
  let out := foldl add_root [] (mb_AllowedRoots cfg) in
  if mb_AllowRuntimeRootAdd cfg then foldl add_root out (Split extra ",") else out.

Definition parseExtraModelRoots (value : string) : list string :=
  if TrimSpace value =s EmptyString then []
  else List.filter (fun r => r <>s EmptyString) (map TrimSpace (Split value ",")).

Definition defaultDeniedModelRoots : list string :=
  ["/"; "/etc"; "/root"; "/boot"; "/proc"; "/sys"; "/dev"; "/run"; "/var/run"; "/var/lib/docker"].

Definition agentDeniedModelRoots (cfg : ModelBrowserConfig) : list string :=
  if (0 <? length (mb_DeniedRoots cfg))%nat then mb_DeniedRoots cfg else defaultDeniedModelRoots.

(** [agentPathWithinRoot] and the server's [pathWithinRoot] are the same code. *)
Definition pathWithinRoot (path root : string) : bool :=
  let cleanPath := Clean path in
  let cleanRoot := Clean root in
  if cleanRoot =s "/" then cleanPath =s cleanRoot
  else (cleanPath =s cleanRoot) || HasPrefix cleanPath (cleanRoot +s+ "/").

Inductive path_error := RootNotAllowed | TraversalBlocked.

Section FileSystem.
(** [filepath.EvalSymlinks]: [None] is an error. *)
Variable EvalSymlinks : string -> option string.

Definition denied_by (denied : list string) (path : string) : bool := existsb (pathWithinRoot path) denied.

Definition agentValidateModelPath (extra : string) (cfg : ModelBrowserConfig) (root relPath : string)
    : string + path_error :=
  let cleanRoot := Clean (TrimSpace root) in
  if (cleanRoot =s ".") || (cleanRoot =s EmptyString) || negb (IsAbs cleanRoot) then inr RootNotAllowed
  else if denied_by (agentDeniedModelRoots cfg) cleanRoot then inr RootNotAllowed
  else if match EvalSymlinks cleanRoot with
          | Some realRoot => denied_by (agentDeniedModelRoots cfg) (Clean realRoot)
          | None => false
          end then inr RootNotAllowed
  else if negb (existsb (fun allowed => Clean allowed =s cleanRoot) (agentAllowedModelRoots extra cfg))
  then inr RootNotAllowed
  else
    let cleanRel := Clean (TrimSpace relPath) in
    let cleanRel := if cleanRel =s "." then EmptyString else cleanRel in
    if IsAbs cleanRel || (cleanRel =s "..") || HasPrefix cleanRel "../" then inr TraversalBlocked
    else
      let absPath := Clean (Join2 cleanRoot cleanRel) in
      if negb (pathWithinRoot absPath cleanRoot) then inr TraversalBlocked
      else if negb (mb_FollowSymlinks cfg) &&
              match EvalSymlinks absPath with
              | Some realPath => negb (pathWithinRoot (Clean realPath) cleanRoot)
              | None => false
              end then inr TraversalBlocked
      else inl absPath.

(** ** Roots and relative paths on the server (model_browser_handlers.go) *)

(** [os.Stat]: [None] is an error, else whether it is a directory. *)
Variable Stat : string -> option bool.

Inductive root_error := RootRequired | RootNotAbsolute | RootDenied | RootMissing | RootNotDirectory.

Definition normalizeAllowedModelRoot (path : string) : string + root_error :=
  let clean := Clean (TrimSpace path) in
  if (clean =s ".") || (clean =s EmptyString) then inr RootRequired
  else if negb (IsAbs clean) then inr RootNotAbsolute
  else if denied_by defaultDeniedModelRoots clean then inr RootDenied
  else match Stat clean with
       | None => inr RootMissing
       | Some false => inr RootNotDirectory
       | Some true =>
           match EvalSymlinks clean with
           | Some realPath => if denied_by defaultDeniedModelRoots (Clean realPath) then inr RootDenied else inl clean
           | None => inl clean
           end
       end.
End FileSystem.

Definition safeRelativePath (value : string) : option string :=
  let rel := Clean (TrimSpace value) in
  if (rel =s ".") || (rel =s EmptyString) then Some EmptyString
  else if IsAbs rel || HasPrefix rel "../" || (rel =s "..") then None
  else Some rel.

(** ** Clean paths and their segments *)

(** A segment that names a directory entry. *)
Definition plain (seg : string) : Prop :=
  seg <> EmptyString /\ seg <> "." /\ seg <> ".." /\ any_byte is_slash seg = false.

Definition abs_path (segs : list string) : string := "/" +s+ Join segs "/".

Lemma plain_segment segs :
  Forall plain segs -> Forall (fun w => w <> EmptyString /\ any_byte is_slash w = false) segs.
Proof. intros H. eapply Forall_impl; [done|]. by intros s (? & _ & _ & ?). Qed.

Lemma segments_abs segs : Forall plain segs -> segments (abs_path segs) = segs.
Proof.
  intros H. unfold segments, abs_path. change ("/" +s+ Join segs "/")%go with (String slash (Join segs "/")).
  rewrite FieldsFunc_cons_sep by done. apply (FieldsFunc_Join is_slash slash); [done|]. by apply plain_segment.
Qed.

Lemma clean_step_plain rooted stack seg : plain seg -> clean_step rooted stack seg = seg :: stack.
Proof.
  intros (H1 & H2 & H3 & _). unfold clean_step.
  by rewrite (proj2 (String.eqb_neq _ _) H1), (proj2 (String.eqb_neq _ _) H2), (proj2 (String.eqb_neq _ _) H3).
Qed.

Lemma clean_plain rooted segs stack :
  Forall plain segs -> foldl (clean_step rooted) stack segs = rev segs ++ stack.
Proof.
  intros H. revert stack. induction H as [|seg segs Hs _ IH]; intros stack; [done|].
  cbn [foldl rev]. rewrite clean_step_plain, IH by done. by rewrite <- app_assoc.
Qed.

(** At the root the stack stays plain. *)
Lemma clean_rooted_plain segs stack :
  Forall (fun w => w <> EmptyString /\ any_byte is_slash w = false) segs -> Forall plain stack ->
  Forall plain (foldl (clean_step true) stack segs).
Proof.
  intros H. revert stack. induction H as [|seg segs [Hne Hsl] _ IH]; intros stack Hst; [done|].
  cbn [foldl]. apply IH. unfold clean_step. rewrite (proj2 (String.eqb_neq _ _) Hne). cbn [orb].
  destruct (String.eqb_spec seg "."); [done|]. destruct (String.eqb_spec seg "..").
  - destruct stack as [|top rest]; [done|]. apply Forall_cons in Hst as [(_ & _ & Ht & _) Hr].
    by rewrite (proj2 (String.eqb_neq _ _) Ht).
  - by constructor.
Qed.

Lemma IsAbs_cons p : IsAbs p = true -> exists q, p = ("/" +s+ q)%go.
Proof. intros [t Ht]%HasPrefix_spec. by exists t. Qed.

Lemma IsAbs_abs segs : IsAbs (abs_path segs) = true.
Proof. apply HasPrefix_app. Qed.

(** A cleaned absolute path is a list of plain segments. *)
Lemma Clean_abs p : IsAbs p = true -> exists segs, Clean p = abs_path segs /\ Forall plain segs.
Proof.
  intros Hp. exists (clean_segments true (FieldsFunc p is_slash)). split.
  - unfold Clean. by rewrite Hp.
  - unfold clean_segments. apply Forall_rev, clean_rooted_plain; [apply FieldsFunc_Forall|done].
Qed.

Lemma Clean_abs_path segs : Forall plain segs -> Clean (abs_path segs) = abs_path segs.
Proof.
  intros H. unfold Clean. rewrite IsAbs_abs. unfold clean_segments.
  change (FieldsFunc (abs_path segs) is_slash) with (segments (abs_path segs)).
  rewrite segments_abs, clean_plain, app_nil_r, rev_involutive by done. done.
Qed.

(** A segment of a path: not empty, no slash. *)
Definition is_segment (w : string) : Prop := w <> EmptyString /\ any_byte is_slash w = false.

Lemma clean_step_segment rooted stack seg :
  is_segment seg -> Forall is_segment stack -> Forall is_segment (clean_step rooted stack seg).
Proof.
  intros Hs Hst. unfold clean_step. case_match; [done|]. case_match; [|by constructor].
  destruct stack as [|top rest]; [destruct rooted; [done|by apply Forall_cons]|].
  pose proof Hst as [Ht Hr]%Forall_cons. case_match; [by apply Forall_cons|done].
Qed.

Lemma clean_segments_segment rooted segs :
  Forall is_segment segs -> Forall is_segment (clean_segments rooted segs).
Proof.
  intros Hf. unfold clean_segments. apply Forall_rev.
  assert (forall stack, Forall is_segment stack -> Forall is_segment (foldl (clean_step rooted) stack segs)) as H; [|by apply H].
  induction Hf as [|seg segs Hs _ IH]; intros stack Hst; [done|]. cbn [foldl]. by apply IH, clean_step_segment.
Qed.

(** Cleaning only ever makes an absolute path of an absolute one. *)
Lemma IsAbs_Clean p : IsAbs (Clean p) = true -> IsAbs p = true.
Proof.
  unfold Clean. destruct (IsAbs p) eqn:E; [done|]. destruct (String.eqb _ _) eqn:Eb; [done|].
  intros Habs. exfalso. pose proof (clean_segments_segment false _ (FieldsFunc_Forall is_slash p)) as Hc.
  apply IsAbs_cons in Habs as [q Hq]. destruct (clean_segments false _) as [|w ws]; [done|].
  apply Forall_cons in Hc as [[Hne Hsl] _]. destruct w as [|c w]; [done|].
  assert (c = slash) as -> by (destruct ws; cbn in Hq; by injection Hq).
  by cbn in Hsl.
Qed.

Lemma abs_path_within a b :
  Forall plain a -> Forall plain b -> b <> [] ->
  (abs_path a =s abs_path b) || HasPrefix (abs_path a) (abs_path b +s+ "/") = true <-> exists c, a = b ++ c.
Proof.
  intros Ha Hb Hne. split.
  - intros [Heq|Hp]%orb_true_iff.
    + apply String.eqb_eq, (f_equal segments) in Heq. rewrite !segments_abs in Heq by done. exists []. by rewrite app_nil_r.
    + apply HasPrefix_spec in Hp as [t Ht]. rewrite sapp_assoc in Ht. apply (f_equal segments) in Ht.
      rewrite segments_abs in Ht by done. exists (segments t). rewrite Ht. unfold segments.
      change ("/" +s+ t)%go with (String slash t). rewrite FieldsFunc_sep by done. f_equal. by apply segments_abs.
  - intros [c ->]. destruct c as [|w c]; [by rewrite app_nil_r, String.eqb_refl|].
    apply orb_true_iff. right. unfold abs_path. rewrite Join_app by done.
    replace ("/" +s+ Join b "/" +s+ "/" +s+ Join (w :: c) "/")%go
      with ((("/" +s+ Join b "/") +s+ "/") +s+ Join (w :: c) "/")%go by by rewrite !sapp_assoc.
    apply HasPrefix_app.
Qed.

Lemma abs_path_root segs : Forall plain segs -> abs_path segs = "/" -> segs = [].
Proof. intros H Heq. apply (f_equal segments) in Heq. by rewrite segments_abs in Heq. Qed.

(** Being within a root, on segments; only the root directory is within itself. *)
Lemma pathWithinRoot_abs a b :
  Forall plain a -> Forall plain b ->
  pathWithinRoot (abs_path a) (abs_path b) = true <-> if decide (b = []) then a = [] else exists c, a = b ++ c.
Proof.
  intros Ha Hb. unfold pathWithinRoot. rewrite !Clean_abs_path by done. case_decide as Hne.
  - subst b. change (abs_path [] =s "/") with true. cbn iota. split.
    + intros Heq%String.eqb_eq. by apply abs_path_root.
    + by intros ->.
  - destruct (String.eqb_spec (abs_path b) "/") as [Heq|_]; [by apply abs_path_root in Heq|].
    by apply abs_path_within.
Qed.

(** A cleaned relative path: dot-dots first, plain segments after them. *)
Definition dots_first (stack : list string) : Prop :=
  exists ps k, stack = ps ++ repeat ".." k /\ Forall plain ps.

Lemma clean_step_dots stack seg : is_segment seg -> dots_first stack -> dots_first (clean_step false stack seg).
Proof.
  intros [Hne Hsl] (ps & k & -> & Hps). unfold clean_step. rewrite (proj2 (String.eqb_neq _ _) Hne). cbn [orb].
  destruct (String.eqb_spec seg "."); [by exists ps, k|]. destruct (String.eqb_spec seg "..") as [->|].
  - destruct ps as [|p ps]; cbn [app].
    + destruct k as [|k]; cbn [repeat]; [by exists [], 1%nat|]. rewrite String.eqb_refl. by exists [], (S (S k)).
    + pose proof Hps as [(_ & _ & Hp & _) Hr]%Forall_cons. rewrite (proj2 (String.eqb_neq _ _) Hp). by exists ps, k.
  - exists (seg :: ps), k. split; [done|]. by apply Forall_cons.
Qed.

Lemma clean_relative segs : Forall is_segment segs ->
  exists k ps, clean_segments false segs = repeat ".." k ++ ps /\ Forall plain ps.
Proof.
  intros Hf. unfold clean_segments.
  assert (forall stack, dots_first stack -> dots_first (foldl (clean_step false) stack segs)) as H.
  { induction Hf as [|seg segs Hs _ IH]; intros stack Hst; [done|]. cbn [foldl]. by apply IH, clean_step_dots. }
  destruct (H [] ltac:(by exists [], 0%nat)) as (ps & k & -> & Hps). exists k, (rev ps).
  rewrite rev_app_distr. split; [|by apply Forall_rev]. f_equal.
  clear. induction k as [|k IH]; [done|]. cbn [repeat rev]. rewrite IH. clear IH.
  induction k as [|k IH]; [done|]. cbn [repeat app]. by rewrite IH.
Qed.

(** The segments a relative path names. *)
Definition relative_segments (p : string) : list string := clean_segments false (FieldsFunc p is_slash).

(** A relative path that passes the dot-dot tests names plain segments only. *)
Lemma relative_plain p :
  IsAbs p = false -> (Clean p =s "..") = false -> HasPrefix (Clean p) "../" = false ->
  Forall plain (relative_segments p) /\
  Clean p = if decide (relative_segments p = []) then "." else Join (relative_segments p) "/".
Proof.
  intros Habs H1 H2. unfold relative_segments in *. pose proof (FieldsFunc_Forall is_slash p) as Hf.
  destruct (clean_relative _ Hf) as (k & ps & Hk & Hps). unfold Clean in *. rewrite Habs, Hk in *.
  destruct k as [|k]; cbn [repeat app] in *.
  - split; [done|]. case_decide as Hp; [by rewrite Hp|].
    destruct (String.eqb_spec (Join ps "/") EmptyString) as [He|]; [|done]. exfalso.
    destruct ps as [|w ps]; [done|]. apply Forall_cons in Hps as [(Hw & _) _].
    destruct w as [|c w]; [done|]. by destruct ps.
  - exfalso. destruct (repeat ".." k ++ ps) as [|w rest] eqn:E; [by vm_compute in H1|].
    rewrite Join_cons in H2 by done. unfold HasPrefix in H2. cbn in H2.
    assert (forall s, String.prefix EmptyString s = true) as Hp by (by intros []). by rewrite Hp in H2.
Qed.

Section Confinement.
Variable EvalSymlinks : string -> option string.

(** Joining a clean root and a clean relative path. *)
Lemma Clean_Join2 rs rel :
  Forall plain rs -> IsAbs rel = false -> (Clean rel =s "..") = false -> HasPrefix (Clean rel) "../" = false ->
  Clean (Join2 (abs_path rs) (if Clean rel =s "." then EmptyString else Clean rel)) =
  abs_path (rs ++ relative_segments rel).
Proof.
  intros Hrs Habs H1 H2. destruct (relative_plain rel Habs H1 H2) as [Hes Hrel]. rewrite Hrel.
  set (es := relative_segments rel) in *. unfold Join2. cbn [List.filter].
  assert ((abs_path rs =s EmptyString) = false) as -> by done. cbn [negb].
  case_decide as He.
  - rewrite He, app_nil_r. change (Join _ "/") with (abs_path rs). by rewrite !Clean_abs_path.
  - destruct es as [|w es'] eqn:E; [done|].
    assert ((Join (w :: es') "/" =s ".") = false) as ->.
    { apply String.eqb_neq. intros Heq. apply (f_equal segments) in Heq. unfold segments in Heq.
      rewrite (FieldsFunc_Join is_slash slash) in Heq by (done || by apply plain_segment).
      apply Forall_cons in Hes as [(_ & Hd & _) _]. vm_compute in Heq. by injection Heq. }
    assert ((Join (w :: es') "/" =s EmptyString) = false) as ->.
    { apply Forall_cons in Hes as [(Hw & _) _]. destruct w as [|c w]; [done|]. by destruct es'. }
    cbn [negb]. change (Join [abs_path rs; Join (w :: es') "/"] "/")
      with (abs_path rs +s+ String slash (Join (w :: es') "/"))%go.
    assert (IsAbs (abs_path rs +s+ String slash (Join (w :: es') "/")) = true) as Ha
      by (unfold abs_path; rewrite sapp_assoc; apply HasPrefix_app).
    unfold Clean at 2. rewrite Ha. rewrite FieldsFunc_sep by done.
    rewrite (FieldsFunc_Join is_slash slash) by (done || by apply plain_segment).
    change (FieldsFunc (abs_path rs) is_slash) with (segments (abs_path rs)). rewrite segments_abs by done.
    unfold clean_segments. assert (Forall plain (rs ++ w :: es')) as Hall by by apply Forall_app.
    rewrite clean_plain, app_nil_r, rev_involutive by done. by apply Clean_abs_path.
Qed.

Lemma denied_by_false denied path d : denied_by denied path = false -> d ∈ denied -> pathWithinRoot path d = false.
Proof.
  unfold denied_by. intros H Hd. apply not_true_iff_false. intros Hp. apply not_true_iff_false in H. apply H.
  apply existsb_exists. exists d. split; [by apply list_elem_of_In|done].
Qed.

(** C37. A path the agent accepts for browsing or scanning is the requested root
    followed by the plain segments of the requested relative path.  The root is
    one the node offers, and neither it nor the directory it resolves to is denied
    or inside a denied one; unless links may be followed, the path does not
    resolve to a place outside the root. *)
Theorem agentValidateModelPath_confined extra cfg root relPath p :
  agentValidateModelPath EvalSymlinks extra cfg root relPath = inl p ->
  exists rs, Clean (TrimSpace root) = abs_path rs /\
    p = abs_path (rs ++ relative_segments (TrimSpace relPath)) /\
    Forall plain (rs ++ relative_segments (TrimSpace relPath)) /\
    (exists allowed, allowed ∈ agentAllowedModelRoots extra cfg /\ Clean allowed = abs_path rs) /\
    (forall d, d ∈ agentDeniedModelRoots cfg -> pathWithinRoot (abs_path rs) d = false) /\
    (forall d real, d ∈ agentDeniedModelRoots cfg -> EvalSymlinks (abs_path rs) = Some real ->
       pathWithinRoot (Clean real) d = false) /\
    (mb_FollowSymlinks cfg = false -> forall real, EvalSymlinks p = Some real ->
       pathWithinRoot (Clean real) (abs_path rs) = true).
Proof.
  unfold agentValidateModelPath.
  destruct (orb _ (negb (IsAbs (Clean (TrimSpace root))))) eqn:E0; [done|].
  apply orb_false_iff in E0 as [_ Habs%negb_false_iff].
  destruct (Clean_abs _ (IsAbs_Clean _ Habs)) as (rs & Hroot & Hrs). rewrite Hroot in *.
  destruct (denied_by _ (abs_path rs)) eqn:E1; [done|].
  destruct (match EvalSymlinks (abs_path rs) with Some _ => _ | None => false end) eqn:E2; [done|].
  destruct (existsb _ (agentAllowedModelRoots extra cfg)) eqn:E3; cbn [negb]; [|done].
  set (rel := TrimSpace relPath) in *.
  destruct (orb _ _) eqn:E4; [done|]. apply orb_false_iff in E4 as [[E4 E5]%orb_false_iff E6].
  assert (IsAbs rel = false /\ (Clean rel =s "..") = false /\ HasPrefix (Clean rel) "../" = false) as (Hra & Hr1 & Hr2).
  { split.
    - destruct (IsAbs rel) eqn:Er; [|done]. destruct (Clean_abs _ Er) as (segs & Hc & _). rewrite Hc in E4.
      destruct (abs_path segs =s ".") eqn:Ed; [by destruct segs|]. by rewrite IsAbs_abs in E4.
    - destruct (String.eqb_spec (Clean rel) ".") as [->|]; done. }
  rewrite Clean_Join2 by done. destruct (relative_plain rel Hra Hr1 Hr2) as [Hes _].
  destruct (negb (pathWithinRoot _ _)); [done|].
  destruct (andb _ _) eqn:E7; [done|]. intros [= <-]. exists rs. split_and!; try done.
  - by apply Forall_app.
  - apply existsb_exists in E3 as (a & Ha & Heq%String.eqb_eq). exists a. split; [by apply list_elem_of_In|done].
  - intros d Hd. by apply (denied_by_false (agentDeniedModelRoots cfg)).
  - intros d real Hd Hreal. rewrite Hreal in E2. by apply (denied_by_false (agentDeniedModelRoots cfg)).
  - intros Hf real Hreal. rewrite Hf, Hreal in E7. cbn [negb andb] in E7. by apply negb_false_iff in E7.
Qed.
End Confinement.

(** The server's two checks promise the same: a stored root is absolute, clean and
    outside the denied directories; a stored relative path is plain. *)
Lemma normalizeAllowedModelRoot_safe EvalSymlinks Stat path p :
  normalizeAllowedModelRoot EvalSymlinks Stat path = inl p ->
  (exists rs, p = abs_path rs /\ Forall plain rs) /\ Stat p = Some true /\
  (forall d, d ∈ defaultDeniedModelRoots -> pathWithinRoot p d = false) /\
  (forall d real, d ∈ defaultDeniedModelRoots -> EvalSymlinks p = Some real -> pathWithinRoot (Clean real) d = false).
Proof.
  unfold normalizeAllowedModelRoot. destruct (orb _ _); [done|].
  destruct (IsAbs (Clean (TrimSpace path))) eqn:Ea; cbn [negb]; [|done].
  destruct (Clean_abs _ (IsAbs_Clean _ Ea)) as (rs & Heq & Hrs). rewrite Heq.
  destruct (denied_by _ (abs_path rs)) eqn:E1; [done|]. destruct (Stat (abs_path rs)) as [[]|] eqn:Es; try done.
  intros H. assert (p = abs_path rs) as ->
    by (destruct (EvalSymlinks (abs_path rs)) as [real|]; [destruct (denied_by _ (Clean real))|]; by simplify_eq).
  split_and!; [by exists rs|done| |].
  - intros d Hd. by apply (denied_by_false defaultDeniedModelRoots).
  - intros d real Hd Hreal. rewrite Hreal in H. destruct (denied_by _ (Clean real)) eqn:E2; [done|].
    by apply (denied_by_false defaultDeniedModelRoots).
Qed.

Lemma safeRelativePath_plain value rel :
  safeRelativePath value = Some rel -> rel = EmptyString \/ exists es, rel = Join es "/" /\ Forall plain es.
Proof.
  unfold safeRelativePath. set (v := TrimSpace value).
  destruct (String.eqb_spec (Clean v) ".") as [E1|E1]; cbn [orb]; [by intros [= <-]; left|].
  destruct (String.eqb (Clean v) EmptyString); cbn [orb]; [by intros [= <-]; left|].
  destruct (orb _ _) eqn:E2; [done|]. apply orb_false_iff in E2 as [[Ha Hp]%orb_false_iff Hd]. intros [= <-]. right.
  assert (IsAbs v = false) as Hv.
  { destruct (IsAbs v) eqn:E; [|done]. destruct (Clean_abs _ E) as (segs & Hc & _). by rewrite Hc, IsAbs_abs in Ha. }
  destruct (relative_plain v Hv Hd Hp) as [Hes Hc]. exists (relative_segments v). split; [|done].
  case_decide; [congruence|done].
Qed.

(** ** Concrete inputs *)

Definition browser (allowed : list string) : ModelBrowserConfig :=
  {| mb_Enabled := true; mb_AllowedRoots := allowed; mb_DeniedRoots := []; mb_MaxEntries := 0; mb_MaxScanDepth := 0;
     mb_FollowSymlinks := false; mb_AllowRuntimeRootAdd := false |}.

Example validate_accepts :
  agentValidateModelPath Some "" (browser ["/data/models"]) " /data//models/" "qwen/./../llama" = inl "/data/models/llama".
Proof. by vm_compute. Qed.
Example validate_dotdot :
  agentValidateModelPath Some "" (browser ["/data/models"]) "/data/models" "qwen/../../x" = inr TraversalBlocked.
Proof. by vm_compute. Qed.
Example validate_symlink :
  agentValidateModelPath (fun p => if p =s "/data/models/out" then Some "/etc" else Some p) ""
    (browser ["/data/models"]) "/data/models" "out" = inr TraversalBlocked.
Proof. by vm_compute. Qed.

(** A denied directory below an allowed root is served: the list is consulted for
    the root only. *)
Example validate_denied_below :
  agentValidateModelPath Some "" (browser ["/var"]) "/var" "lib/docker/volumes" = inl "/var/lib/docker/volumes" /\
  "/var/lib/docker" ∈ agentDeniedModelRoots (browser ["/var"]).
Proof. split; [by vm_compute|set_solver]. Qed.

Lemma agentValidateModelPath_confined_witness :
  pathWithinRoot "/data/models" "/etc" = false.
Proof.
  destruct (agentValidateModelPath_confined Some "" (browser ["/data/models"]) "/data/models" "llama" "/data/models/llama")
    as (rs & Hrs & _ & _ & _ & Hd & _).
  - by vm_compute.
  - replace "/data/models" with (abs_path rs) by (rewrite <- Hrs; by vm_compute).
    apply Hd. set_solver.
Defined.
