(* ===== verification/Gguf.v ===== *)
(** * Reading the header of a GGUF file (internal/agent/collector/gguf_reader.go)

    The reader takes the bytes of a file and gives its metadata or an error.  The loops
    over counts the file announces run on fuel; [Gguf] is followed by the theorem that
    the length of the file is enough. *)
From S2P Require Import Prelude GoStrings GoNumbers GoValue.
From Stdlib Require Import SpecFloat Ascii.

(** ** Readers *)

Inductive gguf_error :=
| EOF | UnexpectedEOF | StringTooLong (n : Z) | ArrayTooLong (n : Z) | UnknownType (t : Z) | NotGGUF (magic : Z)
| Wrapped (what : string) (e : gguf_error) | OutOfFuel.

Definition reader (A : Type) : Type := string -> (A * string) + gguf_error.

#[export] Instance reader_ret : MRet reader := fun A x s => inl (x, s).
#[export] Instance reader_bind : MBind reader := fun A B f r s => match r s with inl (x, s') => f x s' | inr e => inr e end.
#[export] Instance reader_map : FMap reader := fun A B f r s => match r s with inl (x, s') => inl (f x, s') | inr e => inr e end.

Definition rfail {A} (e : gguf_error) : reader A := fun _ => inr e.
(** [fmt.Errorf("what: %w", err)] *)
Definition wrap {A} (what : string) (r : reader A) : reader A :=
  fun s => match r s with inl x => inl x | inr OutOfFuel => inr OutOfFuel | inr e => inr (Wrapped what e) end.

(** [io.ReadFull] *)
Definition ReadFull (n : Z) : reader string := fun s =>
  if (n <=? 0)%Z then inl ("", s)
  else if s =s "" then inr EOF
  else if (str_len s <? n)%Z then inr UnexpectedEOF
  else inl (str_take (Z.to_nat n) s, str_drop (Z.to_nat n) s).

Fixpoint le_Z (s : string) : Z := match s with "" => 0 | String c s => (byte_Z c + 256 * le_Z s)%Z end.

(** [binary.Read] of an unsigned integer of [n] bytes *)
Definition read_le (n : Z) : reader Z := le_Z <$> ReadFull n.
Definition signed (n z : Z) : Z := if (2 ^ (8 * n - 1) <=? z)%Z then (z - 2 ^ (8 * n))%Z else z.

(** ** Values

    An integer keeps its type code, a float its bits. *)
Inductive gguf_value :=
| GInt (t z : Z) | GFloat32 (bits : Z) | GBool (b : bool) | GString (s : string) | GArray (et : Z) (l : list gguf_value) | GFloat64 (bits : Z).

Definition ggufMagic : Z := 0x46554747.
Definition ggufTypeUint8 : Z := 0.
Definition ggufTypeInt8 : Z := 1.
Definition ggufTypeUint16 : Z := 2.
Definition ggufTypeInt16 : Z := 3.
Definition ggufTypeUint32 : Z := 4.
Definition ggufTypeInt32 : Z := 5.
Definition ggufTypeFloat32 : Z := 6.
Definition ggufTypeBool : Z := 7.
Definition ggufTypeString : Z := 8.
Definition ggufTypeArray : Z := 9.
Definition ggufTypeUint64 : Z := 10.
Definition ggufTypeInt64 : Z := 11.
Definition ggufTypeFloat64 : Z := 12.

(** Bytes of an integer type; 0 for the other types. *)
Definition int_width (t : Z) : Z :=
  if (t =? ggufTypeUint8)%Z || (t =? ggufTypeInt8)%Z then 1
  else if (t =? ggufTypeUint16)%Z || (t =? ggufTypeInt16)%Z then 2
  else if (t =? ggufTypeUint32)%Z || (t =? ggufTypeInt32)%Z then 4
  else if (t =? ggufTypeUint64)%Z || (t =? ggufTypeInt64)%Z then 8 else 0.
Definition int_signed (t : Z) : bool := existsb (Z.eqb t) [ggufTypeInt8; ggufTypeInt16; ggufTypeInt32; ggufTypeInt64].

Definition maxString : Z := (10 * 1024 * 1024)%Z.
Definition maxArray : Z := 1000000.

Definition readGGUFString : reader string :=
  length ← read_le 8;
  if (maxString <? length)%Z then rfail (StringTooLong length) else ReadFull length.

Definition read_int (t : Z) : reader gguf_value :=
  z ← read_le (int_width t); mret (GInt t (if int_signed t then signed (int_width t) z else z)).

Fixpoint readGGUFValue (fuel : nat) (valType : Z) : reader gguf_value :=
  match fuel with
  | O => rfail OutOfFuel
  | S fuel =>
      if (0 <? int_width valType)%Z then read_int valType
      else if (valType =? ggufTypeFloat32)%Z then GFloat32 <$> read_le 4
      else if (valType =? ggufTypeBool)%Z then (fun v => GBool (negb (v =? 0)%Z)) <$> read_le 1
      else if (valType =? ggufTypeString)%Z then GString <$> readGGUFString
      else if (valType =? ggufTypeFloat64)%Z then GFloat64 <$> read_le 8
      else if (valType =? ggufTypeArray)%Z then
        elemType ← read_le 4;
        count ← read_le 8;
        if (maxArray <? count)%Z then rfail (ArrayTooLong count) else GArray elemType <$> readGGUFArray fuel elemType count
      else rfail (UnknownType valType)
  end
with readGGUFArray (fuel : nat) (elemType count : Z) : reader (list gguf_value) :=
  match fuel with
  | O => rfail OutOfFuel
  | S fuel =>
      if (count <=? 0)%Z then mret []
      else (v ← readGGUFValue fuel elemType; l ← readGGUFArray fuel elemType (count - 1); mret (v :: l))
  end.

Definition readGGUFKV (fuel : nat) : reader (string * gguf_value) :=
  key ← wrap "read key" readGGUFString;
  valType ← wrap "read value type" (read_le 4);
  val ← wrap "read value" (readGGUFValue fuel valType);
  mret (key, val).

(** The pairs of the header: a key given again replaces its value. *)
Fixpoint read_pairs (fuel : nat) (i kvCount : Z) (kv : gmap string gguf_value) : reader (gmap string gguf_value) :=
  match fuel with
  | O => rfail OutOfFuel
  | S fuel' =>
      if (kvCount <=? i)%Z then mret kv
      else p ← wrap ("read kv[" +s+ Itoa i +s+ "]") (readGGUFKV fuel); read_pairs fuel' (i + 1) kvCount (<[p.1 := p.2]> kv)
  end.

(** ** Known fields *)

Definition f64_of_bits (b : Z) : float64 :=
  let s := (2 ^ 63 <=? b)%Z in
  let e := ((b / 2 ^ 52) mod 2 ^ 11)%Z in
  let m := (b mod 2 ^ 52)%Z in
  if (e =? 2047)%Z then (if (m =? 0)%Z then S754_infinity s else S754_nan)
  else match (if (e =? 0)%Z then m else m + 2 ^ 52)%Z with
       | Zpos p => S754_finite s p (if (e =? 0)%Z then -1074 else e - 1075)%Z
       | _ => S754_zero s
       end.

(** [float64(v)] of a [float32], exact *)
Definition f64_of_f32_bits (b : Z) : float64 :=
  let s := (2 ^ 31 <=? b)%Z in
  let e := ((b / 2 ^ 23) mod 2 ^ 8)%Z in
  let m := (b mod 2 ^ 23)%Z in
  if (e =? 255)%Z then (if (m =? 0)%Z then S754_infinity s else S754_nan)
  else let m := (if (e =? 0)%Z then m else m + 2 ^ 23)%Z in
       binary_normalize 53 1024 (if s then - m else m) (if (e =? 0)%Z then -149 else e - 150)%Z s.

(** The value as it is kept in the map of the reader. *)
Fixpoint any_of (v : gguf_value) : any :=
  match v with
  | GInt _ z => AInt z
  | GFloat32 b => AFloat (f64_of_f32_bits b)
  | GFloat64 b => AFloat (f64_of_bits b)
  | GBool b => ABool b
  | GString s => AStr s
  | GArray _ l => AList (map any_of l)
  end.

Definition ggufString (kv : gmap string gguf_value) (key : string) : string :=
  match kv !! key with Some v => fmt_v (any_of v) | None => "" end.

Definition ggufInt (kv : gmap string gguf_value) (key : string) : Z :=
  match kv !! key with
  | Some (GInt _ z) => wrap64 z
  | Some (GFloat32 b) => f64_to_int (f64_of_f32_bits b)
  | Some (GFloat64 b) => f64_to_int (f64_of_bits b)
  | _ => 0
  end.

(** ** Quantization *)

Definition assoc (l : list (Z * string)) (t : Z) : option string := snd <$> List.find (fun kv => (kv.1 =? t)%Z) l.

Definition tensor_types : list (Z * string) :=
  [(0, "f32"); (1, "f16"); (2, "q4_0"); (3, "q4_1"); (6, "q5_0"); (7, "q5_1"); (8, "q8_0"); (9, "q8_1"); (10, "q2_k"); (11, "q3_k"); (12, "q4_k");
   (13, "q5_k"); (14, "q6_k"); (15, "q8_k"); (16, "iq2_xxs"); (17, "iq2_xs"); (18, "iq3_xxs"); (19, "iq1_s"); (20, "iq4_nl"); (21, "iq3_s");
   (22, "iq2_s"); (23, "iq4_xs"); (24, "i8"); (25, "i16"); (26, "i32"); (27, "i64"); (28, "f64"); (29, "iq1_m"); (30, "bf16")]%Z.

Definition tensorTypeName (t : Z) : string := default ("type_" +s+ Itoa t) (assoc tensor_types t).

Definition canonical_quants : list (string * string) :=
  [("f32", "F32"); ("f16", "F16"); ("bf16", "BF16"); ("q4_0", "Q4_0"); ("q4_1", "Q4_1"); ("q5_0", "Q5_0"); ("q5_1", "Q5_1"); ("q8_0", "Q8_0");
   ("q8_1", "Q8_1"); ("q2_k", "Q2_K"); ("q3_k", "Q3_K"); ("q4_k", "Q4_K_M"); ("q5_k", "Q5_K_M"); ("q6_k", "Q6_K"); ("q8_k", "Q8_K");
   ("iq1_s", "IQ1_S"); ("iq1_m", "IQ1_M"); ("iq2_xxs", "IQ2_XXS"); ("iq2_xs", "IQ2_XS"); ("iq2_s", "IQ2_S"); ("iq3_xxs", "IQ3_XXS");
   ("iq3_s", "IQ3_S"); ("iq4_nl", "IQ4_NL"); ("iq4_xs", "IQ4_XS"); ("i8", "I8"); ("i16", "I16"); ("i32", "I32"); ("i64", "I64")].

Definition quantNameFromGGML (t : string) : string := default (ToUpper t) (snd <$> List.find (fun kv => kv.1 =s t) canonical_quants).

Definition quant_patterns : list string :=
  ["iq1_s"; "iq1_m"; "iq2_xxs"; "iq2_xs"; "iq2_s"; "iq3_xxs"; "iq3_s"; "iq4_nl"; "iq4_xs"; "q2_k"; "q3_k_s"; "q3_k_m"; "q3_k_l"; "q4_k_s"; "q4_k_m";
   "q4_0"; "q4_1"; "q5_k_s"; "q5_k_m"; "q5_0"; "q5_1"; "q6_k"; "q8_k"; "q8_0"; "q8_1"; "f16"; "f32"; "bf16"].

Definition guessQuantFromFilename (filename : string) : string :=
  match List.find (Contains (ToLower filename)) quant_patterns with Some p => ToUpper p | None => "unknown" end.

(** The size of the skipped dimensions is computed on 32 bits. *)
Definition read_tensor : reader Z :=
  _ ← readGGUFString;
  nDims ← read_le 4;
  _ ← ReadFull ((nDims * 8) mod 2 ^ 32)%Z;
  ttype ← read_le 4;
  _ ← read_le 8;
  mret ttype.

Record tally := { ty_count : gmap string Z; ty_dominant : string; ty_top : Z }.
Definition no_tally : tally := {| ty_count := ∅; ty_dominant := ""; ty_top := 0 |}.

Definition count_type (st : tally) (t : Z) : tally :=
  let name := tensorTypeName t in
  let n := (default 0 (ty_count st !! name) + 1)%Z in
  let counts := <[name := n]> (ty_count st) in
  if (ty_top st <? n)%Z then {| ty_count := counts; ty_dominant := name; ty_top := n |}
  else {| ty_count := counts; ty_dominant := ty_dominant st; ty_top := ty_top st |}.

(** The loop over the tensors: an error ends it.  [None]: out of fuel. *)
Fixpoint count_tensors (fuel : nat) (n : Z) (st : tally) (s : string) : option tally :=
  match fuel with
  | O => None
  | S fuel =>
      if (n <=? 0)%Z then Some st
      else match read_tensor s with inl (t, s) => count_tensors fuel (n - 1) (count_type st t) s | inr _ => Some st end
  end.

Section Quantization.
Context `{MR : MapRange}.

Definition quantized (t : string) : bool := HasPrefix t "q" || HasPrefix t "iq".

Definition quantization_of (st : tally) : string :=
  let dominant := ty_dominant st in
  if dominant =s "" then "unknown"
  else if (dominant =s "f16") || (dominant =s "f32")
  then match List.find (fun kv => quantized kv.1 && (default 0 (ty_count st !! dominant) / 4 <? kv.2)%Z) (range (ty_count st)) with
       | Some kv => quantNameFromGGML kv.1
       | None => dominant
       end
  else quantNameFromGGML dominant.

Definition detectGGUFQuantization (tensorCount : Z) (s : string) : option string :=
  if (tensorCount =? 0)%Z then Some (guessQuantFromFilename "")
  else quantization_of <$> count_tensors (S (String.length s)) tensorCount no_tally s.

(** ** The header *)

Record GGUFMetadata := {
  gm_Architecture : string; gm_ContextLength : Z; gm_EmbeddingLength : Z; gm_BlockCount : Z; gm_VocabSize : Z; gm_HeadCount : Z; gm_HeadCountKV : Z;
  gm_Quantization : string; gm_FileSizeBytes : Z; gm_Warnings : list string
}.

Definition metadata_of (kv : gmap string gguf_value) (quantization : string) (fileSize : Z) : GGUFMetadata :=
  let found := ggufString kv "general.architecture" in
  let arch := if found =s "" then "unknown" else found in
  let int field := ggufInt kv (arch +s+ field) in
  {| gm_Architecture := arch; gm_ContextLength := int ".context_length"; gm_EmbeddingLength := int ".embedding_length";
     gm_BlockCount := int ".block_count"; gm_VocabSize := int ".vocab_size"; gm_HeadCount := int ".attention.head_count";
     gm_HeadCountKV := (if (int ".attention.head_count_kv" =? 0)%Z then int ".attention.head_count" else int ".attention.head_count_kv");
     gm_Quantization := quantization; gm_FileSizeBytes := fileSize;
     gm_Warnings := (if found =s "" then ["architecture not found in GGUF metadata"] else [])
                    ++ (if (int ".context_length" =? 0)%Z then ["context_length not found in GGUF metadata"] else []) |}.

(** The counts of tensors and the pairs; what follows are the tensors. *)
Definition read_header (fuel : nat) : reader (Z * gmap string gguf_value) :=
  magic ← wrap "read magic" (read_le 4);
  if negb (magic =? ggufMagic)%Z then rfail (NotGGUF magic)
  else
    _ ← wrap "read version" (read_le 4);
    tensorCount ← wrap "read tensor_count" (read_le 8);
    kvCount ← wrap "read kv_count" (read_le 8);
    kv ← read_pairs fuel 0 kvCount ∅;
    mret (tensorCount, kv).

(** [content]: the bytes of the opened file. *)
Definition readGGUFMeta (content : string) : GGUFMetadata + gguf_error :=
  match read_header (S (String.length content)) content with
  | inl ((tensorCount, kv), rest) =>
      match detectGGUFQuantization tensorCount rest with
      | Some q => inl (metadata_of kv q (str_len content))
      | None => inr OutOfFuel
      end
  | inr e => inr e
  end.
End Quantization.

(** ** Error texts *)

Definition hex_digit (z : Z) : ascii := ascii_of_nat (Z.to_nat (if (z <? 10)%Z then z + 48 else z + 87)).
Fixpoint hex (n : nat) (z : Z) : string := match n with O => "" | S n => hex n (z / 16) +s+ String (hex_digit (z mod 16)) "" end.

Fixpoint error_text (e : gguf_error) : string :=
  match e with
  | EOF => "EOF"
  | UnexpectedEOF => "unexpected EOF"
  | StringTooLong n => "string too long: " +s+ Itoa n
  | ArrayTooLong n => "array too long: " +s+ Itoa n
  | UnknownType t => "unknown GGUF type: " +s+ Itoa t
  | NotGGUF magic => "not a GGUF file: magic=" +s+ hex 8 magic
  | Wrapped what e => what +s+ ": " +s+ error_text e
  | OutOfFuel => ""
  end.
