(* ===== verification/GgufProps.v ===== *)
(** * Theorems on the GGUF reader

    The reader ends on every file, and it inverts the format: the header written for a
    list of pairs and tensors reads back as those pairs and the types of those tensors. *)
From S2P Require Import Prelude GoStrings GoNumbers GoValue Gguf.
From Stdlib Require Import SpecFloat Ascii.

(** ** What a reader consumes *)

Lemma ReadFull_inv n s x r : ReadFull n s = inl (x, r) ->
  s = (x +s+ r)%go /\ str_len x = Z.max 0 n.
Proof.
  unfold ReadFull. destruct (Z.leb_spec n 0); [intros [= <- <-]; split; [done|change (0 = Z.max 0 n)%Z; lia]|]. destruct (s =s ""); [done|].
  destruct (Z.ltb_spec (str_len s) n); [done|]. intros [= <- <-]. split; [by rewrite str_take_drop|].
  unfold str_len in *. rewrite str_take_length; lia.
Qed.

Lemma ReadFull_app n x r : str_len x = n -> ReadFull n (x +s+ r) = inl (x, r).
Proof.
  intros <-. unfold ReadFull. destruct (Z.leb_spec (str_len x) 0) as [H|H]; [destruct x; [done|cbn in H; unfold str_len in H; cbn in H; lia]|].
  assert ((x +s+ r)%go <> "") as Hne by (destruct x; [unfold str_len in H; cbn in H; lia|done]). apply String.eqb_neq in Hne as ->.
  unfold str_len in *. rewrite sapp_length. destruct (Z.ltb_spec (Z.of_nat (String.length x + String.length r)) (Z.of_nat (String.length x))); [lia|].
  by rewrite Nat2Z.id, str_take_app, str_drop_app.
Qed.

(** [n] bytes are consumed at least. *)
Definition consumes {A} (n : nat) (r : reader A) : Prop := forall s x s', r s = inl (x, s') -> String.length s' + n <= String.length s.
Definition fails_no_fuel {A} (r : reader A) : Prop := forall s, r s <> inr OutOfFuel.

Lemma ReadFull_consumes n : consumes (Z.to_nat n) (ReadFull n).
Proof. intros s x s' H. apply ReadFull_inv in H as [-> Hl]. rewrite sapp_length. unfold str_len in Hl. lia. Qed.

Lemma ReadFull_no_fuel n : fails_no_fuel (ReadFull n).
Proof. intros s. unfold ReadFull. repeat case_match; done. Qed.

Lemma bind_inl {A B} (r : reader A) (f : A -> reader B) s y s' :
  (x ← r; f x) s = inl (y, s') -> exists x s1, r s = inl (x, s1) /\ f x s1 = inl (y, s').
Proof. cbv [mbind reader_bind]. destruct (r s) as [[x s1]|]; [|done]. intros H. by exists x, s1. Qed.

Lemma map_inl {A B} (f : A -> B) (r : reader A) s y s' : (f <$> r) s = inl (y, s') -> exists x, r s = inl (x, s') /\ y = f x.
Proof. cbv [fmap reader_map]. destruct (r s) as [[x s1]|]; [|done]. intros [= <- <-]. by exists x. Qed.

Lemma bind_run {A B} (r : reader A) (f : A -> reader B) s x s1 : r s = inl (x, s1) -> (x ← r; f x) s = f x s1.
Proof. cbv [mbind reader_bind]. by intros ->. Qed.

Lemma map_run {A B} (f : A -> B) (r : reader A) s x s1 : r s = inl (x, s1) -> (f <$> r) s = inl (f x, s1).
Proof. cbv [fmap reader_map]. by intros ->. Qed.

Lemma bind_fuel {A B} (r : reader A) (f : A -> reader B) s :
  r s <> inr OutOfFuel -> (forall x s1, r s = inl (x, s1) -> f x s1 <> inr OutOfFuel) -> (x ← r; f x) s <> inr OutOfFuel.
Proof. cbv [mbind reader_bind]. destruct (r s) as [[x s1]|e]; [|congruence]. intros _ H. by apply H. Qed.

Lemma map_fuel {A B} (f : A -> B) (r : reader A) s : r s <> inr OutOfFuel -> (f <$> r) s <> inr OutOfFuel.
Proof. cbv [fmap reader_map]. destruct (r s) as [[x s1]|e]; [done|congruence]. Qed.

Lemma wrap_fuel {A} what (r : reader A) s : r s <> inr OutOfFuel -> wrap what r s <> inr OutOfFuel.
Proof. unfold wrap. destruct (r s) as [|[]]; done. Qed.

Lemma wrap_inl {A} what (r : reader A) s x : wrap what r s = inl x -> r s = inl x.
Proof. unfold wrap. by destruct (r s) as [|[]]. Qed.

Lemma wrap_run {A} what (r : reader A) s x : r s = inl x -> wrap what r s = inl x.
Proof. unfold wrap. by intros ->. Qed.

Create HintDb gguf.

Lemma read_le_consumes n : consumes (Z.to_nat n) (read_le n).
Proof. intros s x s' H. apply map_inl in H as (y & H & _). by apply ReadFull_consumes in H. Qed.

Lemma read_le_no_fuel n s : read_le n s <> inr OutOfFuel.
Proof. apply map_fuel, ReadFull_no_fuel. Qed.

Lemma readGGUFString_consumes : consumes 8 readGGUFString.
Proof.
  intros s x s' H. apply bind_inl in H as (n & s1 & H1 & H2). apply read_le_consumes in H1. destruct (_ <? _)%Z; [done|].
  apply ReadFull_consumes in H2. lia.
Qed.

Lemma readGGUFString_no_fuel s : readGGUFString s <> inr OutOfFuel.
Proof. apply bind_fuel; [apply read_le_no_fuel|]. intros n s1 _. destruct (_ <? _)%Z; [done|apply ReadFull_no_fuel]. Qed.

#[export] Hint Resolve read_le_no_fuel readGGUFString_no_fuel map_fuel wrap_fuel : gguf.

(** ** The fuel is enough *)

Lemma width_cases t : int_width t ∈ [0; 1; 2; 4; 8]%Z.
Proof. unfold int_width. repeat case_match; set_solver. Qed.

Lemma value_consumes fuel :
  (forall t, consumes 1 (readGGUFValue fuel t)) /\ (forall et n, consumes 0 (readGGUFArray fuel et n)).
Proof.
  induction fuel as [|fuel [IHv IHa]]; [done|]. split.
  - intros t s x s'. cbn [readGGUFValue]. destruct (Z.ltb_spec 0 (int_width t)) as [Hw|_].
    { intros (z & s1 & H1 & H2)%bind_inl. injection H2 as _ <-. apply read_le_consumes in H1. lia. }
    destruct (_ =? _)%Z; [intros (z & H & _)%map_inl; apply read_le_consumes in H; lia|].
    destruct (_ =? _)%Z; [intros (z & H & _)%map_inl; apply read_le_consumes in H; lia|].
    destruct (_ =? _)%Z; [intros (z & H & _)%map_inl; apply readGGUFString_consumes in H; lia|].
    destruct (_ =? _)%Z; [intros (z & H & _)%map_inl; apply read_le_consumes in H; lia|].
    destruct (_ =? _)%Z; [|done]. intros (et & s1 & H1 & H)%bind_inl. apply bind_inl in H as (n & s2 & H2 & H3).
    apply read_le_consumes in H1, H2. destruct (_ <? _)%Z; [done|]. apply map_inl in H3 as (l & H3 & _). apply IHa in H3. lia.
  - intros et n s x s'. cbn [readGGUFArray]. destruct (n <=? 0)%Z; [intros [= _ <-]; lia|].
    intros (v & s1 & H1 & H)%bind_inl. apply bind_inl in H as (l & s2 & H2 & H3). injection H3 as _ <-. apply IHv in H1. apply IHa in H2. lia.
Qed.

Lemma value_fuel fuel :
  (forall t s, String.length s < fuel -> readGGUFValue fuel t s <> inr OutOfFuel) /\
  (forall et n s, String.length s + 1 < fuel -> readGGUFArray fuel et n s <> inr OutOfFuel).
Proof.
  induction fuel as [|fuel [IHv IHa]]; [split; intros; lia|]. split.
  - intros t s Hs. cbn [readGGUFValue]. destruct (0 <? int_width t)%Z; [apply bind_fuel; [auto with gguf|done]|].
    repeat (destruct (_ =? _)%Z; [auto with gguf; fail|]). destruct (_ =? _)%Z; [|done].
    apply bind_fuel; [auto with gguf|]. intros et s1 H1. apply bind_fuel; [auto with gguf|]. intros n s2 H2. apply read_le_consumes in H1, H2.
    destruct (_ <? _)%Z; [done|]. apply map_fuel, IHa. lia.
  - intros et n s Hs. cbn [readGGUFArray]. destruct (n <=? 0)%Z; [done|]. apply bind_fuel; [apply IHv; lia|]. intros v s1 H1.
    apply value_consumes in H1. apply bind_fuel; [apply IHa; lia|done].
Qed.

Lemma pair_consumes fuel : consumes 13 (readGGUFKV fuel).
Proof.
  intros s x s' H. apply bind_inl in H as (k & s1 & H1 & H). apply bind_inl in H as (t & s2 & H2 & H). apply bind_inl in H as (v & s3 & H3 & H).
  injection H as _ <-. apply wrap_inl in H1, H2, H3. apply readGGUFString_consumes in H1. apply read_le_consumes in H2. apply value_consumes in H3. lia.
Qed.

Lemma pair_fuel fuel s : String.length s < fuel -> readGGUFKV fuel s <> inr OutOfFuel.
Proof.
  intros Hs. apply bind_fuel; [auto with gguf|]. intros k s1 H1. apply bind_fuel; [auto with gguf|]. intros t s2 H2. apply wrap_inl in H1, H2.
  apply readGGUFString_consumes in H1. apply read_le_consumes in H2. apply bind_fuel; [apply wrap_fuel, value_fuel; lia|done].
Qed.

Lemma pairs_fuel fuel i n kv s : String.length s < fuel -> read_pairs fuel i n kv s <> inr OutOfFuel.
Proof.
  revert i kv s. induction fuel as [|fuel IH]; intros i kv s Hs; [lia|]. cbn [read_pairs]. destruct (n <=? i)%Z; [done|].
  apply bind_fuel; [by apply wrap_fuel, pair_fuel|]. intros p s1 H1. apply wrap_inl, pair_consumes in H1. apply IH. lia.
Qed.

Lemma read_tensor_consumes : consumes 24 read_tensor.
Proof.
  intros s x s' H. apply bind_inl in H as (nm & s1 & H1 & H). apply bind_inl in H as (d & s2 & H2 & H). apply bind_inl in H as (b & s3 & H3 & H).
  apply bind_inl in H as (t & s4 & H4 & H). apply bind_inl in H as (o & s5 & H5 & H). injection H as _ <-.
  apply readGGUFString_consumes in H1. apply ReadFull_consumes in H3. apply read_le_consumes in H2, H4, H5. lia.
Qed.

Lemma count_tensors_total fuel n st s : String.length s < fuel -> is_Some (count_tensors fuel n st s).
Proof.
  revert n st s. induction fuel as [|fuel IH]; intros n st s Hs; [lia|]. cbn [count_tensors]. destruct (n <=? 0)%Z; [by eexists|].
  destruct (read_tensor s) as [[t s1]|] eqn:E; [|by eexists]. apply read_tensor_consumes in E. apply IH. lia.
Qed.

Lemma header_fuel s : read_header (S (String.length s)) s <> inr OutOfFuel.
Proof.
  apply bind_fuel; [auto with gguf|]. intros m s1 H1. destruct (negb _); [done|]. apply bind_fuel; [auto with gguf|]. intros v s2 H2.
  apply bind_fuel; [auto with gguf|]. intros tc s3 H3. apply bind_fuel; [auto with gguf|]. intros kc s4 H4. apply wrap_inl, read_le_consumes in H1, H2, H3, H4.
  apply bind_fuel; [apply pairs_fuel; lia|done].
Qed.

(** The reader returns on every file: with metadata or with an error of its own. *)
Theorem readGGUFMeta_returns `{MR : MapRange} content : readGGUFMeta content <> inr OutOfFuel.
Proof.
  unfold readGGUFMeta. pose proof (header_fuel content) as H. destruct (read_header _ content) as [[[tc kv] rest]|e]; [|congruence].
  unfold detectGGUFQuantization. destruct (tc =? 0)%Z; [done|].
  destruct (count_tensors_total (S (String.length rest)) tc no_tally rest ltac:(lia)) as [st ->]. done.
Qed.

(** ** The format *)

Fixpoint le_bytes (n : nat) (z : Z) : string := match n with O => "" | S n => String (Z_byte z) (le_bytes n (z / 256)) end.

Lemma le_bytes_len n z : str_len (le_bytes n z) = Z.of_nat n.
Proof. unfold str_len. f_equal. revert z. induction n as [|n IH]; intros z; [done|]. cbn. by rewrite IH. Qed.

Lemma le_Z_bytes n z : le_Z (le_bytes n z) = (z mod 256 ^ Z.of_nat n)%Z.
Proof.
  revert z. induction n as [|n IH]; intros z; [by rewrite Z.mod_1_r|]. cbn [le_bytes le_Z]. rewrite IH, byte_Z_Z_byte.
  rewrite Nat2Z.inj_succ, Z.pow_succ_r, Z.rem_mul_r by lia. done.
Qed.

Lemma read_le_bytes n z r : (0 <= z < 256 ^ Z.of_nat n)%Z -> read_le (Z.of_nat n) (le_bytes n z +s+ r) = inl (z, r).
Proof.
  intros Hz. unfold read_le. erewrite map_run by (by apply ReadFull_app, le_bytes_len). by rewrite le_Z_bytes, Z.mod_small.
Qed.

Definition enc_string (s : string) : string := le_bytes 8 (str_len s) +s+ s.

Definition type_of (v : gguf_value) : Z :=
  match v with
  | GInt t _ => t | GFloat32 _ => ggufTypeFloat32 | GBool _ => ggufTypeBool | GString _ => ggufTypeString | GArray _ _ => ggufTypeArray
  | GFloat64 _ => ggufTypeFloat64
  end.

Fixpoint enc_value (v : gguf_value) : string :=
  match v with
  | GInt t z => le_bytes (Z.to_nat (int_width t)) (z mod 2 ^ (8 * int_width t))
  | GFloat32 b => le_bytes 4 b
  | GBool b => le_bytes 1 (if b then 1 else 0)
  | GString s => enc_string s
  | GFloat64 b => le_bytes 8 b
  | GArray et l => le_bytes 4 et +s+ le_bytes 8 (Z.of_nat (length l))
                   +s+ (fix go l := match l with [] => "" | v :: l => enc_value v +s+ go l end) l
  end.

Definition enc_values (l : list gguf_value) : string := foldr (fun v s => enc_value v +s+ s) "" l.

Lemma enc_array et l : enc_value (GArray et l) = (le_bytes 4 et +s+ le_bytes 8 (Z.of_nat (length l)) +s+ enc_values l)%go.
Proof. reflexivity. Qed.

(** What a file may hold: integers of their width, texts and arrays within the limits. *)
Definition int_range (t z : Z) : Prop :=
  let w := (8 * int_width t)%Z in (0 < w)%Z /\ if int_signed t then (- 2 ^ (w - 1) <= z < 2 ^ (w - 1))%Z else (0 <= z < 2 ^ w)%Z.

Fixpoint well_formed (v : gguf_value) : Prop :=
  match v with
  | GInt t z => int_range t z
  | GFloat32 b => (0 <= b < 2 ^ 32)%Z
  | GFloat64 b => (0 <= b < 2 ^ 64)%Z
  | GBool _ => True
  | GString s => (str_len s <= maxString)%Z
  | GArray et l => (0 <= et < 2 ^ 32)%Z /\ (Z.of_nat (length l) <= maxArray)%Z /\
                   (fix go l := match l with [] => True | v :: l => (type_of v = et /\ well_formed v) /\ go l end) l
  end.

Lemma well_formed_array et l : well_formed (GArray et l) <->
  (0 <= et < 2 ^ 32)%Z /\ (Z.of_nat (length l) <= maxArray)%Z /\ Forall (fun v => type_of v = et /\ well_formed v) l.
Proof.
  cbn [well_formed]. assert ((fix go l := match l with [] => True | v :: l => (type_of v = et /\ well_formed v) /\ go l end) l
    <-> Forall (fun v => type_of v = et /\ well_formed v) l) as H; [|by rewrite H].
  induction l as [|v l IH]; [by split|]. by rewrite Forall_cons, IH.
Qed.

Lemma value_nested_ind (P : gguf_value -> Prop) :
  (forall t z, P (GInt t z)) -> (forall b, P (GFloat32 b)) -> (forall b, P (GBool b)) -> (forall s, P (GString s)) ->
  (forall et l, Forall P l -> P (GArray et l)) -> (forall b, P (GFloat64 b)) -> forall v, P v.
Proof.
  intros H1 H2 H3 H4 H5 H6. fix IH 1. intros [t z|b|b|s|et l|b]; [apply H1|apply H2|apply H3|apply H4| |apply H6].
  apply H5. induction l as [|v l IHl]; constructor; [apply IH|exact IHl].
Qed.

(** ** Reading what was written *)

Lemma int_width_le t : (int_width t <= 8)%Z.
Proof. pose proof (width_cases t) as H. rewrite !elem_of_cons, elem_of_nil in H. lia. Qed.

Lemma signed_mod w z : (0 < w)%Z -> (- 2 ^ (8 * w - 1) <= z < 2 ^ (8 * w - 1))%Z -> signed w (z mod 2 ^ (8 * w)) = z.
Proof.
  intros Hw Hz. unfold signed. assert (2 ^ (8 * w) = 2 * 2 ^ (8 * w - 1))%Z as E by (rewrite <- Z.pow_succ_r by lia; f_equal; lia).
  destruct (Z.leb_spec 0 z).
  - rewrite Z.mod_small by lia. destruct (Z.leb_spec (2 ^ (8 * w - 1)) z); lia.
  - assert (z mod 2 ^ (8 * w) = z + 2 ^ (8 * w))%Z as ->.
    { symmetry. apply (Z.mod_unique_pos _ _ (-1)); lia. }
    destruct (Z.leb_spec (2 ^ (8 * w - 1)) (z + 2 ^ (8 * w))); lia.
Qed.

Lemma read_int_bytes t z r : int_range t z -> read_int t (enc_value (GInt t z) +s+ r) = inl (GInt t z, r).
Proof.
  intros [Hw Hz]. unfold read_int. cbn [enc_value]. pose proof (int_width_le t).
  assert (256 ^ Z.of_nat (Z.to_nat (int_width t)) = 2 ^ (8 * int_width t))%Z as Ep.
  { rewrite Z2Nat.id, Z.pow_mul_r by lia. done. }
  erewrite bind_run; [|rewrite <- (Z2Nat.id (int_width t)) at 1 by lia; apply read_le_bytes; rewrite Ep; apply Z.mod_pos_bound; lia].
  cbv [mret reader_ret]. do 3 f_equal. destruct (int_signed t); [apply signed_mod; [lia|done]|]. apply Z.mod_small. lia.
Qed.

Lemma read_string_bytes s r : (str_len s <= maxString)%Z -> readGGUFString (enc_string s +s+ r) = inl (s, r).
Proof.
  intros Hs. unfold readGGUFString, enc_string. rewrite sapp_assoc. pose proof (str_len_nonneg s).
  erewrite bind_run; [|apply (read_le_bytes 8); unfold maxString in Hs; lia].
  destruct (Z.ltb_spec maxString (str_len s)); [lia|]. by apply ReadFull_app.
Qed.

Lemma le_bytes_length n z : String.length (le_bytes n z) = n.
Proof. pose proof (le_bytes_len n z) as H. unfold str_len in H. lia. Qed.

Lemma enc_value_pos v : well_formed v -> 1 <= String.length (enc_value v).
Proof.
  destruct v as [t z|b|b|s|et l|b]; intros H; rewrite ?enc_array; cbn [enc_value]; unfold enc_string; rewrite ?sapp_length, ?le_bytes_length; try lia.
  destruct H as [Hw _]. lia.
Qed.

Lemma value_round_trip v : well_formed v -> forall fuel s, String.length (enc_value v) < fuel ->
  readGGUFValue fuel (type_of v) (enc_value v +s+ s) = inl (v, s).
Proof.
  induction v as [t z|b|b|str|et l IH|b] using value_nested_ind; intros Hw [|fuel] s Hf; try lia; cbn [readGGUFValue type_of].
  - destruct (Z.ltb_spec 0 (int_width t)); [by apply read_int_bytes|]. destruct Hw as [Hw _]. lia.
  - apply map_run, (read_le_bytes 4). cbn in Hw |- *. lia.
  - change (((fun v => GBool (negb (v =? 0)%Z)) <$> read_le 1) (le_bytes 1 (if b then 1 else 0) +s+ s)%go = inl (GBool b, s)).
    erewrite map_run by (by apply (read_le_bytes 1); destruct b). by destruct b.
  - by apply map_run, read_string_bytes.
  - apply well_formed_array in Hw as (He & Hl & Hw). rewrite enc_array in *. rewrite !sapp_length, !le_bytes_length in Hf. rewrite !sapp_assoc.
    change ((elemType ← read_le 4; count ← read_le 8;
      if (maxArray <? count)%Z then rfail (ArrayTooLong count) else GArray elemType <$> readGGUFArray fuel elemType count)
      (le_bytes 4 et +s+ le_bytes 8 (Z.of_nat (length l)) +s+ enc_values l +s+ s)%go = inl (GArray et l, s)).
    erewrite bind_run by (apply (read_le_bytes 4); cbn; lia). unfold maxArray in *. erewrite bind_run by (apply (read_le_bytes 8); cbn; lia).
    destruct (Z.ltb_spec 1000000 (Z.of_nat (length l))); [lia|]. apply map_run.
    assert (String.length (enc_values l) + 1 < fuel) as Hf' by lia. clear Hf Hl H He. revert fuel Hf'.
    induction l as [|v l IHl]; intros [|fuel] Hf; try lia; [done|]. cbn [readGGUFArray enc_values foldr] in *. fold (enc_values l) in *.
    apply Forall_cons in IH as [IHv IH]. apply Forall_cons in Hw as [[Ht Hv] Hw]. rewrite sapp_length in Hf. pose proof (enc_value_pos v Hv).
    destruct (Z.leb_spec (Z.of_nat (length (v :: l))) 0); [cbn in *; lia|]. rewrite sapp_assoc, <- Ht.
    erewrite bind_run by (apply IHv; [done|lia]). rewrite Ht. replace (Z.of_nat (length (v :: l)) - 1)%Z with (Z.of_nat (length l)) by (cbn [length]; lia).
    erewrite bind_run by (apply IHl; [done|done|lia]). done.
  - apply map_run, (read_le_bytes 8). cbn in Hw |- *. lia.
Qed.

(** ** Headers *)

Definition pair_ok (p : string * gguf_value) : Prop := (str_len p.1 <= maxString)%Z /\ well_formed p.2.
Definition enc_pair (p : string * gguf_value) : string := enc_string p.1 +s+ le_bytes 4 (type_of p.2) +s+ enc_value p.2.
Definition enc_pairs (l : list (string * gguf_value)) : string := foldr (fun p s => enc_pair p +s+ s) "" l.
Definition add_pair (kv : gmap string gguf_value) (p : string * gguf_value) : gmap string gguf_value := <[p.1 := p.2]> kv.

Lemma type_range v : well_formed v -> (0 <= type_of v < 2 ^ 32)%Z.
Proof.
  destruct v as [t z| | | | |]; cbn; try done. intros [Hw _]. unfold int_width in Hw.
  destruct ((t =? ggufTypeUint8)%Z || _) eqn:E1; [apply orb_prop in E1 as [E|E]; apply Z.eqb_eq in E; by subst|].
  destruct ((t =? ggufTypeUint16)%Z || _) eqn:E2; [apply orb_prop in E2 as [E|E]; apply Z.eqb_eq in E; by subst|].
  destruct ((t =? ggufTypeUint32)%Z || _) eqn:E3; [apply orb_prop in E3 as [E|E]; apply Z.eqb_eq in E; by subst|].
  destruct ((t =? ggufTypeUint64)%Z || _) eqn:E4; [apply orb_prop in E4 as [E|E]; apply Z.eqb_eq in E; by subst|]. lia.
Qed.

Lemma pair_round_trip p fuel s : pair_ok p -> String.length (enc_pair p) < fuel -> readGGUFKV fuel (enc_pair p +s+ s) = inl (p, s).
Proof.
  destruct p as [k v]. intros [Hk Hv] Hf. unfold readGGUFKV, enc_pair in *. cbn [fst snd] in *. rewrite !sapp_length in Hf. rewrite !sapp_assoc.
  pose proof (type_range v Hv). erewrite bind_run by (by apply wrap_run, read_string_bytes).
  erewrite bind_run by (apply wrap_run, (read_le_bytes 4); cbn; lia). erewrite bind_run by (apply wrap_run, value_round_trip; [done|lia]). done.
Qed.

Lemma pairs_round_trip l fuel i kv s : Forall pair_ok l -> String.length (enc_pairs l) < fuel ->
  read_pairs fuel i (i + Z.of_nat (length l)) kv (enc_pairs l +s+ s) = inl (foldl add_pair kv l, s).
Proof.
  intros Hl. revert fuel i kv. induction Hl as [|p l Hp Hl IH]; intros [|fuel] i kv Hf; try lia; cbn [read_pairs].
  - cbn [length Z.of_nat]. rewrite Z.add_0_r, Z.leb_refl. done.
  - destruct (Z.leb_spec (i + Z.of_nat (length (p :: l))) i); [cbn in *; lia|]. cbn [enc_pairs foldr] in *. fold (enc_pairs l) in *.
    rewrite sapp_length in Hf. rewrite sapp_assoc. erewrite bind_run by (apply wrap_run, pair_round_trip; [done|lia]).
    replace (i + Z.of_nat (length (p :: l)))%Z with ((i + 1) + Z.of_nat (length l))%Z by (cbn [length]; lia). cbn [foldl]. apply IH.
    assert (1 <= String.length (enc_pair p)) by (unfold enc_pair, enc_string; rewrite !sapp_length, le_bytes_length; lia). lia.
Qed.

Record tensor := { tn_name : string; tn_dims : list Z; tn_type : Z; tn_offset : Z }.
Definition tensor_ok (t : tensor) : Prop :=
  (str_len (tn_name t) <= maxString)%Z /\ (Z.of_nat (length (tn_dims t)) < 2 ^ 29)%Z /\ (0 <= tn_type t < 2 ^ 32)%Z /\ (0 <= tn_offset t < 2 ^ 64)%Z.
Definition enc_dims (l : list Z) : string := foldr (fun d s => le_bytes 8 d +s+ s) "" l.
Definition enc_tensor (t : tensor) : string :=
  enc_string (tn_name t) +s+ le_bytes 4 (Z.of_nat (length (tn_dims t))) +s+ enc_dims (tn_dims t) +s+ le_bytes 4 (tn_type t) +s+ le_bytes 8 (tn_offset t).
Definition enc_tensors (l : list tensor) : string := foldr (fun t s => enc_tensor t +s+ s) "" l.

Lemma enc_dims_len l : str_len (enc_dims l) = (8 * Z.of_nat (length l))%Z.
Proof.
  induction l as [|d l IH]; [done|]. cbn [enc_dims foldr length]. unfold str_len in *. rewrite sapp_length, le_bytes_length.
  fold (enc_dims l). lia.
Qed.

Lemma tensor_round_trip t s : tensor_ok t -> read_tensor (enc_tensor t +s+ s) = inl (tn_type t, s).
Proof.
  intros (Hn & Hd & Ht & Ho). unfold read_tensor, enc_tensor. rewrite !sapp_assoc. erewrite bind_run by (by apply read_string_bytes).
  erewrite bind_run by (apply (read_le_bytes 4); cbn; lia). rewrite Z.mod_small by lia.
  erewrite bind_run by (apply ReadFull_app; rewrite enc_dims_len; lia). erewrite bind_run by (apply (read_le_bytes 4); cbn; lia).
  erewrite bind_run by (apply (read_le_bytes 8); cbn; lia). done.
Qed.

Lemma tensors_round_trip l fuel st s : Forall tensor_ok l -> length l < fuel ->
  count_tensors fuel (Z.of_nat (length l)) st (enc_tensors l +s+ s) = Some (foldl count_type st (map tn_type l)).
Proof.
  intros Hl. revert fuel st. induction Hl as [|t l Ht Hl IH]; intros [|fuel] st Hf; try (cbn in Hf; lia); cbn [count_tensors]; [done|].
  destruct (Z.leb_spec (Z.of_nat (length (t :: l))) 0); [cbn in *; lia|]. cbn [enc_tensors foldr]. fold (enc_tensors l).
  rewrite sapp_assoc, tensor_round_trip by done.
  replace (Z.of_nat (length (t :: l)) - 1)%Z with (Z.of_nat (length l)) by (cbn [length]; lia). cbn [map foldl]. apply IH. cbn in Hf. lia.
Qed.

Lemma enc_tensors_length l : length l <= String.length (enc_tensors l).
Proof.
  induction l as [|t l IH]; [cbn; lia|]. cbn [enc_tensors foldr length]. fold (enc_tensors l). rewrite sapp_length.
  assert (1 <= String.length (enc_tensor t)) by (unfold enc_tensor, enc_string; rewrite !sapp_length, le_bytes_length; lia). lia.
Qed.

Record gguf_file := { gf_version : Z; gf_pairs : list (string * gguf_value); gf_tensors : list tensor; gf_data : string }.

Definition file_ok (f : gguf_file) : Prop :=
  (0 <= gf_version f < 2 ^ 32)%Z /\ (Z.of_nat (length (gf_pairs f)) < 2 ^ 64)%Z /\ (Z.of_nat (length (gf_tensors f)) < 2 ^ 64)%Z
  /\ Forall pair_ok (gf_pairs f) /\ Forall tensor_ok (gf_tensors f).

Definition enc_file (f : gguf_file) : string :=
  le_bytes 4 ggufMagic +s+ le_bytes 4 (gf_version f) +s+ le_bytes 8 (Z.of_nat (length (gf_tensors f))) +s+ le_bytes 8 (Z.of_nat (length (gf_pairs f)))
  +s+ enc_pairs (gf_pairs f) +s+ enc_tensors (gf_tensors f) +s+ gf_data f.

Section File.
Context `{MR : MapRange}.

(** What the metadata of a file should be. *)
Definition file_metadata (f : gguf_file) : GGUFMetadata :=
  metadata_of (foldl add_pair ∅ (gf_pairs f)) (quantization_of (foldl count_type no_tally (map tn_type (gf_tensors f)))) (str_len (enc_file f)).

(** C36. The reader inverts the format: of every file it returns the fields its pairs
    define, a repeated key counting last, the quantization its tensor types define, and
    its size. *)
Theorem gguf_round_trip f : file_ok f -> readGGUFMeta (enc_file f) = inl (file_metadata f).
Proof.
  intros (Hv & Hp & Ht & Hps & Hts). unfold readGGUFMeta.
  assert (read_header (S (String.length (enc_file f))) (enc_file f)
          = inl ((Z.of_nat (length (gf_tensors f)), foldl add_pair ∅ (gf_pairs f)), (enc_tensors (gf_tensors f) +s+ gf_data f)%go)) as ->.
  { assert (String.length (enc_pairs (gf_pairs f)) < S (String.length (enc_file f))) as Hf by (unfold enc_file; rewrite !sapp_length; lia).
    revert Hf. generalize (S (String.length (enc_file f))). intros fuel Hf. unfold read_header, enc_file.
    erewrite bind_run by (by apply wrap_run, (read_le_bytes 4)). cbn [Z.eqb ggufMagic Pos.eqb negb].
    erewrite bind_run by (apply wrap_run, (read_le_bytes 4); cbn; lia). erewrite bind_run by (apply wrap_run, (read_le_bytes 8); cbn; lia).
    erewrite bind_run by (apply wrap_run, (read_le_bytes 8); cbn; lia). erewrite bind_run by (by apply (pairs_round_trip _ _ 0)). done. }
  unfold detectGGUFQuantization. destruct (Z.eqb_spec (Z.of_nat (length (gf_tensors f))) 0) as [E|E].
  - by destruct (gf_tensors f) eqn:Eg; [unfold file_metadata; rewrite Eg|cbn in E; lia].
  - rewrite tensors_round_trip; [done|done|]. rewrite sapp_length. pose proof (enc_tensors_length (gf_tensors f)). lia.
Qed.
End File.

(** ** The quantization *)

Definition occurrences (name : string) (l : list string) : Z := Z.of_nat (count_occ String.string_dec l name).

Record tally_of (l : list string) (st : tally) : Prop := {
  tl_count name : default 0%Z (ty_count st !! name) = occurrences name l;
  tl_top name : (occurrences name l <= ty_top st)%Z;
  tl_dominant : l <> [] -> ty_dominant st ∈ l /\ ty_top st = occurrences (ty_dominant st) l;
  tl_empty : l = [] -> ty_dominant st = "" /\ ty_top st = 0%Z
}.

Lemma occurrences_snoc name l x : occurrences name (l ++ [x]) = (occurrences name l + (if x =s name then 1 else 0))%Z.
Proof.
  unfold occurrences. rewrite count_occ_app. cbn. destruct (String.string_dec x name) as [->|Hne]; [rewrite String.eqb_refl; lia|].
  apply String.eqb_neq in Hne as ->. lia.
Qed.

Lemma occurrences_nonneg name l : (0 <= occurrences name l)%Z.
Proof. unfold occurrences. lia. Qed.

Lemma count_type_tally l st t : tally_of l st -> tally_of (l ++ [tensorTypeName t]) (count_type st t).
Proof.
  intros [Hc Ht Hd He]. set (x := tensorTypeName t). unfold count_type. fold x. pose proof (Hc x) as Hx. rewrite Hx.
  assert (forall name, default 0%Z (<[x := (occurrences x l + 1)%Z]> (ty_count st) !! name) = occurrences name (l ++ [x])) as Hcount.
  { intros name. rewrite occurrences_snoc. destruct (String.eqb_spec x name) as [<-|Hne]; [by rewrite lookup_insert_eq|].
    by rewrite lookup_insert_ne, Hc, Z.add_0_r. }
  destruct (Z.ltb_spec (ty_top st) (occurrences x l + 1)) as [Hlt|Hge]; split; cbn [ty_count ty_dominant ty_top]; try done; try (by destruct l).
  - intros name. rewrite occurrences_snoc. pose proof (Ht name). destruct (String.eqb_spec x name) as [<-|Hne]; lia.
  - intros _. split; [apply elem_of_app; right; by left|]. by rewrite occurrences_snoc, String.eqb_refl.
  - intros name. rewrite occurrences_snoc. pose proof (Ht name). destruct (String.eqb_spec x name) as [<-|Hne]; lia.
  - intros _. pose proof (occurrences_nonneg x l). destruct l as [|y l].
    { destruct (He eq_refl) as [_ E]. rewrite E in Hge. change (occurrences x []) with 0%Z in Hge. lia. }
    destruct (Hd ltac:(done)) as [Hin Htop]. split; [apply elem_of_app; by left|]. rewrite occurrences_snoc, Htop.
    destruct (String.eqb_spec x (ty_dominant st)) as [Heq|Hne]; [|lia]. rewrite Htop, <- Heq in Hge. lia.
Qed.

Lemma tally_types l : tally_of (map tensorTypeName l) (foldl count_type no_tally l).
Proof.
  induction l as [|t l IH] using rev_ind; [split; [intros name; cbn; by rewrite lookup_empty|done..]|].
  rewrite foldl_app, map_app. by apply count_type_tally.
Qed.

Lemma range_count `{MR : MapRange} l st name n : tally_of l st -> (name, n) ∈ range (ty_count st) -> n = occurrences name l.
Proof. intros H Hin. apply elem_of_range in Hin. pose proof (tl_count _ _ H name) as Hc. by rewrite Hin in Hc. Qed.

Lemma count_range `{MR : MapRange} l st name : tally_of l st -> (0 < occurrences name l)%Z -> (name, occurrences name l) ∈ range (ty_count st).
Proof.
  intros H Hp. apply elem_of_range. pose proof (tl_count _ _ H name) as Hc. destruct (ty_count st !! name); cbn in Hc; [by subst|lia].
Qed.

Lemma type_name_nonempty t : tensorTypeName t <> "".
Proof.
  unfold tensorTypeName, assoc. destruct (List.find _ tensor_types) as [[n s]|] eqn:E; [|done]. apply List.find_some in E as [Hin _]. cbn.
  apply list_elem_of_In in Hin. unfold tensor_types in Hin. intros ->.
  repeat (apply elem_of_cons in Hin as [Heq|Hin]; [discriminate|]). by apply not_elem_of_nil in Hin.
Qed.

(** The reported quantization is that of a most frequent tensor type; when that type is
    f16 or f32, that of a quantized type with more than a quarter of its occurrences, if
    there is one; without tensors it is unknown. *)
Theorem quantization_dominant `{MR : MapRange} types :
  let names := map tensorTypeName types in
  let q := quantization_of (foldl count_type no_tally types) in
  match names with
  | [] => q = "unknown"
  | _ => exists d, d ∈ names /\ (forall t, (occurrences t names <= occurrences d names)%Z) /\
           ((d <> "f16" /\ d <> "f32" /\ q = quantNameFromGGML d) \/
            ((d = "f16" \/ d = "f32") /\
             ((exists t, quantized t = true /\ (occurrences d names / 4 < occurrences t names)%Z /\ q = quantNameFromGGML t) \/
              ((forall t, quantized t = true -> (occurrences t names <= occurrences d names / 4)%Z) /\ q = d))))
  end.
Proof.
  cbv zeta. pose proof (tally_types types) as H. set (st := foldl count_type no_tally types) in *. destruct (map tensorTypeName types) as [|x l] eqn:El.
  { unfold quantization_of. by rewrite (proj1 (tl_empty _ _ H eq_refl)). }
  destruct (tl_dominant _ _ H ltac:(done)) as [Hin Htop]. exists (ty_dominant st). split; [done|]. split; [intros t; rewrite <- Htop; apply (tl_top _ _ H)|].
  assert (ty_dominant st <> "") as Hne.
  { rewrite <- El in Hin. apply list_elem_of_fmap in Hin as (t & -> & _). apply type_name_nonempty. }
  unfold quantization_of. apply String.eqb_neq in Hne as ->. rewrite (tl_count _ _ H).
  destruct (ty_dominant st =s "f16") eqn:E1; [|destruct (ty_dominant st =s "f32") eqn:E2]; bool_facts; [| |by left]; cbn [orb]; right; (split; [tauto|]).
  all: destruct (List.find _ _) as [[t n]|] eqn:Ef; [left|right].
  1,3: apply List.find_some in Ef as [Hr Hq]; apply list_elem_of_In, (range_count _ _ _ _ H) in Hr; subst n; cbn [fst snd] in Hq;
    apply andb_prop in Hq as [Hq Hn]; apply Z.ltb_lt in Hn; by exists t.
  all: split; [|done]; intros t Hq; apply Z.nlt_ge; intros Hn;
    assert (0 < occurrences t (x :: l))%Z as Hpos
      by (pose proof (Z.div_pos (occurrences (ty_dominant st) (x :: l)) 4 (occurrences_nonneg _ _) eq_refl); lia);
    apply (count_range _ _ _ H), list_elem_of_In in Hpos; apply (List.find_none _ _ Ef) in Hpos; cbn [fst snd] in Hpos;
    rewrite Hq in Hpos; apply Z.ltb_ge in Hpos; lia.
Qed.

(** ** Ranges *)

Lemma f64_to_int_range f : (- 2 ^ 63 <= f64_to_int f < 2 ^ 63)%Z.
Proof.
  unfold f64_to_int, min_int64, max_int64. destruct f as [s|s| |s m e]; try lia. cbv zeta.
  match goal with |- context [if (?a <=? ?z)%Z && _ then _ else _] => generalize z end. intros z.
  destruct (Z.leb_spec (- 2 ^ 63) z), (Z.leb_spec z (2 ^ 63 - 1)); cbn [andb]; lia.
Qed.

Lemma ggufInt_range kv key : (- 2 ^ 63 <= ggufInt kv key < 2 ^ 63)%Z.
Proof. unfold ggufInt. destruct (kv !! key) as [[]|]; try lia; [apply wrap64_range|apply f64_to_int_range..]. Qed.

(** Whatever the bytes of the file, the reader answers, within fuel given by their
    number, and every number of the metadata it returns is a 64-bit integer. *)
Theorem readGGUFMeta_bounds `{MR : MapRange} content :
  match readGGUFMeta content with
  | inl m => Forall (fun z => (- 2 ^ 63 <= z < 2 ^ 63)%Z)
               [gm_ContextLength m; gm_EmbeddingLength m; gm_BlockCount m; gm_VocabSize m; gm_HeadCount m; gm_HeadCountKV m]
             /\ gm_FileSizeBytes m = str_len content /\ gm_Architecture m <> ""
  | inr e => e <> OutOfFuel
  end.
Proof.
  pose proof (readGGUFMeta_returns content) as Hr. destruct (readGGUFMeta content) as [m|e] eqn:E; [|congruence].
  unfold readGGUFMeta in E. destruct (read_header _ content) as [[[tc kv] rest]|]; [|done]. destruct (detectGGUFQuantization tc rest); [|done].
  injection E as <-. split_and!.
  - repeat constructor; cbn; try apply ggufInt_range; by case_match; apply ggufInt_range.
  - done.
  - cbn. destruct (ggufString kv "general.architecture" =s "") eqn:Ea; bool_facts; done.
Qed.

(** ** Concrete files *)

Section Demo.
#[local] Existing Instance canonical_range.

Definition demo_tensor (t : Z) : tensor := {| tn_name := "t"; tn_dims := [4096; 32]%Z; tn_type := t; tn_offset := 0 |}.

Definition demo_gguf (types : list Z) : gguf_file :=
  {| gf_version := 3;
     gf_pairs := [("general.architecture", GString "llama"); ("llama.context_length", GInt ggufTypeUint32 4096);
                  ("llama.attention.head_count", GInt ggufTypeInt16 (-3)); ("x", GArray ggufTypeString [GString "a"; GString "b"]);
                  ("llama.block_count", GInt ggufTypeUint64 (2 ^ 64 - 1))];
     gf_tensors := map demo_tensor types; gf_data := "data" |}.

Lemma demo_gguf_ok : file_ok (demo_gguf [12; 12; 0]%Z).
Proof. unfold file_ok, pair_ok, tensor_ok. cbn. split_and!; try (repeat constructor; cbn; lia); repeat constructor; cbn; done. Qed.

Lemma gguf_round_trip_witness :
  file_ok (demo_gguf [12; 12; 0]%Z) /\
  exists m, readGGUFMeta (enc_file (demo_gguf [12; 12; 0]%Z)) = inl m /\
    (gm_Architecture m, gm_ContextLength m, gm_HeadCountKV m, gm_Quantization m) = ("llama", 4096%Z, (-3)%Z, "Q4_K_M").
Proof.
  split; [exact demo_gguf_ok|]. exists (file_metadata (demo_gguf [12; 12; 0]%Z)). split; [exact (gguf_round_trip _ demo_gguf_ok)|].
  vm_compute. reflexivity.
Defined.

(** An unsigned 64-bit value above the signed range becomes negative. *)
Example uint64_wraps : (fun m => gm_BlockCount m) <$> (match readGGUFMeta (enc_file (demo_gguf [])) with inl m => Some m | inr _ => None end) = Some (-1)%Z.
Proof. vm_compute. reflexivity. Qed.

(** The size of the dimensions is computed modulo 2^32: a tensor that announces 2^29
    dimensions is read as one without any. *)
Example dimensions_wrap :
  read_tensor (enc_string "t" +s+ le_bytes 4 (2 ^ 29) +s+ le_bytes 4 12 +s+ le_bytes 8 0) = inl (12%Z, "").
Proof. vm_compute. reflexivity. Qed.

(** No file name is recognised as BF16: the pattern f16 comes first. *)
Example bf16_is_f16 : guessQuantFromFilename "model-BF16.gguf" = "F16".
Proof. vm_compute. reflexivity. Qed.

(** Unquantized files keep the lower-case name of the type. *)
Example f16_lower_case : quantization_of (foldl count_type no_tally [1; 1; 0]%Z) = "f16" /\ quantNameFromGGML "f16" = "F16".
Proof. split; vm_compute; reflexivity. Qed.
End Demo.

(** With f16 dominant the quantized type that is reported depends on the order of the map,
    not on the counts. *)
Definition rev_range : MapRange.
Proof.
  refine {| range := fun V m => rev (map_to_list m) |}. intros V m. symmetry. apply Permutation_rev.
Defined.

Example quantization_by_map_order :
  let types := ([1; 1; 1; 1; 1; 1; 1; 1] ++ [12; 12; 12; 12; 12] ++ [14; 14; 14])%Z in
  let st := foldl count_type no_tally types in
  map (fun MR => @quantization_of MR st) [canonical_range; rev_range] = ["Q6_K"; "Q4_K_M"]
  \/ map (fun MR => @quantization_of MR st) [canonical_range; rev_range] = ["Q4_K_M"; "Q6_K"].
Proof. vm_compute. first [by left|by right]. Qed.
