(* ===== verification/ModelScan.v ===== *)
(** * Scanning model paths (internal/agent/collector/model_scanner.go)

    A directory or a file under a model root is classified from facts about its files:
    each detector of the registry gives candidates, the generic one is dropped when a
    more specific one matched, and a single candidate is selected.  The file system is a
    record of the system calls the scanner makes. *)
From S2P Require Import Prelude GoStrings GoNumbers GoValue GoJson GoJsonText RuntimeContract RunPlanTypes ResolverArgs ResolverMounts ModelPaths Gguf.
From Stdlib Require Import SpecFloat Ascii.

(** ** The file system *)

Record file_info := { fi_dir : bool; fi_size : Z }.

(** [fs_stat] gives the information or the text of the error; [fs_names] are the sorted
    names of a directory; [fs_open] is the content of a file or the error of opening it;
    [fs_walk] adds the sizes of the files below a directory ([filepath.Walk]); [fs_lstat_ok]: a name
    exists, be it a dangling link; [fs_expand] gives the
    directories a path with metacharacters matches ([filepath.Glob]). *)
Record file_system := {
  fs_stat : string -> file_info + string; fs_names : string -> list string; fs_open : string -> string + string; fs_walk : string -> Z;
  fs_lstat_ok : string -> bool; fs_expand : string -> list string
}.

Section Scan.
Context `{MR : MapRange} (fs : file_system).

Definition stat_ok (p : string) : option file_info := match fs_stat fs p with inl i => Some i | inr _ => None end.
Definition fileExists (p : string) : bool := bool_decide (is_Some (stat_ok p)).

(** [filepath.Glob] of [dir/*suffix] and of [dir/name] *)
Definition has_meta (p : string) : bool := any_byte (fun c => existsb (Ascii.eqb c) ["*"; "?"; "["; "\"]%char) p.
Definition glob_dirs (dir : string) : list string := if has_meta dir then fs_expand fs dir else [dir].
Definition is_dir (p : string) : bool := match stat_ok p with Some i => fi_dir i | None => false end.
Definition Glob_suffix (dir suffix : string) : list string :=
  concat (map (fun d => if is_dir d then map (Join2 d) (List.filter (fun n => HasSuffix n suffix) (fs_names fs d)) else []) (glob_dirs dir)).
Definition Glob_name (dir name : string) : list string :=
  if has_meta dir then concat (map (fun d => if is_dir d then map (Join2 d) (List.filter (String.eqb name) (fs_names fs d)) else []) (glob_dirs dir))
  else if fs_lstat_ok fs (Join2 dir name) then [Join2 dir name] else [].

(** [None]: the file cannot be read or holds no object. *)
Definition readJSONFile (p : string) : option obj :=
  match fs_open fs p with inl data => match Unmarshal_map data with Some m => m | None => None end | inr _ => None end.

(** ** Facts *)

Record FileFacts := {
  ff_AbsPath : string; ff_IsDirectory : bool; ff_DirEntries : list string;
  ff_ConfigJSON : option obj; ff_GenerationConfigJSON : option obj; ff_TokenizerConfigJSON : option obj; ff_SentenceBertConfigJSON : option obj;
  ff_AdapterConfigJSON : option obj; ff_ModelIndexJSON : option obj;
  ff_GGUFFiles : list string; ff_ONNXFiles : list string; ff_EngineFiles : list string; ff_SafetensorFiles : list string; ff_XMLFiles : list string;
  ff_BinFiles : list string; ff_PTModelFiles : list string;
  ff_HasTokenizerConfigJSON : bool; ff_HasGenerationConfigJSON : bool; ff_HasSentenceBertConfigJSON : bool; ff_HasModulesJSON : bool;
  ff_HasOnePooling : bool; ff_HasAdapterModelSafetensors : bool; ff_HasPreprocessorConfigJSON : bool; ff_HasImageProcessorConfigJSON : bool;
  ff_EvidenceFiles : list string
}.

Definition parsed (o : option obj) : bool := match o with Some _ => true | None => false end.
Definition ff_HasConfigJSON (f : FileFacts) : bool := parsed (ff_ConfigJSON f).
Definition ff_HasAdapterConfigJSON (f : FileFacts) : bool := parsed (ff_AdapterConfigJSON f).
Definition ff_HasModelIndexJSON (f : FileFacts) : bool := parsed (ff_ModelIndexJSON f).

Definition no_facts (absPath : string) (dir : bool) : FileFacts :=
  {| ff_AbsPath := absPath; ff_IsDirectory := dir; ff_DirEntries := []; ff_ConfigJSON := None; ff_GenerationConfigJSON := None;
     ff_TokenizerConfigJSON := None; ff_SentenceBertConfigJSON := None; ff_AdapterConfigJSON := None; ff_ModelIndexJSON := None;
     ff_GGUFFiles := []; ff_ONNXFiles := []; ff_EngineFiles := []; ff_SafetensorFiles := []; ff_XMLFiles := []; ff_BinFiles := []; ff_PTModelFiles := [];
     ff_HasTokenizerConfigJSON := false; ff_HasGenerationConfigJSON := false; ff_HasSentenceBertConfigJSON := false; ff_HasModulesJSON := false;
     ff_HasOnePooling := false; ff_HasAdapterModelSafetensors := false; ff_HasPreprocessorConfigJSON := false; ff_HasImageProcessorConfigJSON := false;
     ff_EvidenceFiles := [] |}.

Definition evidence_names : list string :=
  ["config.json"; "tokenizer_config.json"; "tokenizer.json"; "generation_config.json"; "modules.json"; "sentence_bert_config.json";
   "config_sentence_transformers.json"; "adapter_config.json"; "adapter_model.safetensors"; "preprocessor_config.json";
   "image_processor_config.json"; "model_index.json"].

Definition evidence_of (n : string) : list string :=
  if HasPrefix n "." then []
  else if existsb (String.eqb n) evidence_names then [n]
  else if n =s "1_Pooling" then ["1_Pooling/config.json"] else [].

Definition when {A} (b : bool) (l : list A) : list A := if b then l else [].
Definition some_files (l : list string) : bool := match l with [] => false | _ => true end.

Definition collectFileFacts (absPath : string) : FileFacts :=
  match stat_ok absPath with
  | None => no_facts absPath false
  | Some info =>
      if negb (fi_dir info) then no_facts absPath false
      else
        let names := fs_names fs absPath in
        let json n := readJSONFile (Join2 absPath n) in
        let exists_ n := fileExists (Join2 absPath n) in
        let gguf := Glob_suffix absPath ".gguf" in
        let onnx := Glob_suffix absPath ".onnx" in
        let engine := Glob_suffix absPath ".engine" in
        {| ff_AbsPath := absPath; ff_IsDirectory := true; ff_DirEntries := names; ff_ConfigJSON := json "config.json";
           ff_GenerationConfigJSON := json "generation_config.json"; ff_TokenizerConfigJSON := json "tokenizer_config.json";
           ff_SentenceBertConfigJSON := json "sentence_bert_config.json"; ff_AdapterConfigJSON := json "adapter_config.json";
           ff_ModelIndexJSON := json "model_index.json"; ff_GGUFFiles := gguf; ff_ONNXFiles := onnx; ff_EngineFiles := engine;
           ff_SafetensorFiles := Glob_suffix absPath ".safetensors"; ff_XMLFiles := Glob_suffix absPath ".xml";
           ff_BinFiles := Glob_suffix absPath ".bin"; ff_PTModelFiles := Glob_name absPath "pytorch_model.bin";
           ff_HasTokenizerConfigJSON := exists_ "tokenizer_config.json"; ff_HasGenerationConfigJSON := exists_ "generation_config.json";
           ff_HasSentenceBertConfigJSON := parsed (json "sentence_bert_config.json") || exists_ "config_sentence_transformers.json";
           ff_HasModulesJSON := exists_ "modules.json"; ff_HasOnePooling := exists_ "1_Pooling/config.json";
           ff_HasAdapterModelSafetensors := exists_ "adapter_model.safetensors"; ff_HasPreprocessorConfigJSON := exists_ "preprocessor_config.json";
           ff_HasImageProcessorConfigJSON := exists_ "image_processor_config.json";
           ff_EvidenceFiles := concat (map evidence_of names) ++ when (some_files gguf) ["*.gguf"] ++ when (some_files onnx) ["*.onnx"]
                               ++ when (some_files engine) ["*.engine"] |}
  end.

Definition nameMatches (path : string) (keywords : list string) : bool := existsb (Contains (ToLower path)) keywords.

(** ** Candidates *)

Record ScanCandidate := {
  sc_Path : string; sc_PathType : string; sc_Kind : string; sc_Format : string; sc_Task : string; sc_Capabilities : list string;
  sc_DefaultTestMode : string; sc_Deployable : bool; sc_RequiresBaseModel : bool; sc_RecommendedBackends : option (list string);
  sc_Confidence : string; sc_Evidence : list string; sc_UnsupportedReason : string; sc_DetectedMetadata : obj; sc_Warnings : list string;
  sc_AutoSelected : bool; sc_SelectionReason : string; sc_SizeBytes : Z; sc_SizeLabel : string
}.

(** A candidate as a detector starts it. *)
Definition new_candidate (path pathType : string) (evidence : list string) : ScanCandidate :=
  {| sc_Path := path; sc_PathType := pathType; sc_Kind := ""; sc_Format := ""; sc_Task := ""; sc_Capabilities := []; sc_DefaultTestMode := "";
     sc_Deployable := false; sc_RequiresBaseModel := false; sc_RecommendedBackends := None; sc_Confidence := ""; sc_Evidence := evidence;
     sc_UnsupportedReason := ""; sc_DetectedMetadata := []; sc_Warnings := []; sc_AutoSelected := false; sc_SelectionReason := ""; sc_SizeBytes := 0;
     sc_SizeLabel := "" |}.

Definition with_findings (md : obj) (warnings evidence : list string) (size : Z) (label : string) (c : ScanCandidate) : ScanCandidate :=
  {| sc_Path := sc_Path c; sc_PathType := sc_PathType c; sc_Kind := sc_Kind c; sc_Format := sc_Format c; sc_Task := sc_Task c;
     sc_Capabilities := sc_Capabilities c; sc_DefaultTestMode := sc_DefaultTestMode c; sc_Deployable := sc_Deployable c;
     sc_RequiresBaseModel := sc_RequiresBaseModel c; sc_RecommendedBackends := sc_RecommendedBackends c; sc_Confidence := sc_Confidence c;
     sc_Evidence := evidence; sc_UnsupportedReason := sc_UnsupportedReason c; sc_DetectedMetadata := md; sc_Warnings := warnings;
     sc_AutoSelected := sc_AutoSelected c; sc_SelectionReason := sc_SelectionReason c; sc_SizeBytes := size; sc_SizeLabel := label |}.

Definition with_metadata (md : obj) (warnings : list string) (c : ScanCandidate) : ScanCandidate :=
  with_findings md warnings (sc_Evidence c) (sc_SizeBytes c) (sc_SizeLabel c) c.
Definition with_size (md : obj) (warnings : list string) (size : Z) (label : string) (c : ScanCandidate) : ScanCandidate :=
  with_findings md warnings (sc_Evidence c) size label c.
Definition with_evidence (evidence : list string) (c : ScanCandidate) : ScanCandidate :=
  with_findings (sc_DetectedMetadata c) (sc_Warnings c) evidence (sc_SizeBytes c) (sc_SizeLabel c) c.

(** *** Sizes *)

Fixpoint size_loop (fuel : nat) (n div : Z) (exp : nat) : Z * nat :=
  match fuel with
  | O => (div, exp)
  | S fuel => if (1024 <=? n)%Z then size_loop fuel (n / 1024) (div * 1024) (S exp) else (div, exp)
  end.

(** ["KMGTPE"[exp]]; [None] is an index out of range. *)
Definition size_unit (exp : nat) : option string := ["K"; "M"; "G"; "T"; "P"; "E"] !! exp.

(** ["%.1f"] of a float divided by a power of two, for a value that is not negative: the
    tenths are rounded to the nearest, halves to even. *)
Definition one_decimal (f : float64) (div : Z) : string :=
  let '(num, den) := match f with
                     | S754_finite _ m e => if (0 <=? e)%Z then (Zpos m * 2 ^ e, div)%Z else (Zpos m, div * 2 ^ (- e))%Z
                     | _ => (0, 1)%Z
                     end in
  let q := (10 * num / den)%Z in
  let r := (2 * (10 * num - q * den))%Z in
  let t := if (den <? r)%Z || ((den =? r)%Z && Z.odd q) then (q + 1)%Z else q in
  Itoa (t / 10) +s+ "." +s+ Itoa (t mod 10).

Definition FormatBytes (bytes : Z) : option string :=
  if (bytes <? 1024)%Z then Some (Itoa bytes +s+ " B")
  else let '(div, exp) := size_loop 64 (bytes / 1024) 1024 0 in
       u ← size_unit exp; Some (one_decimal (f64_of_Z bytes) div +s+ " " +s+ u +s+ "iB").

Definition size_label (bytes : Z) : string := default "" (FormatBytes bytes).
Definition float_of (z : Z) : any := AFloat (f64_of_Z z).

(** *** Metadata *)

Definition put_positive (key : string) (z : Z) (md : obj) : obj := if (0 <? z)%Z then obj_set key (float_of z) md else md.

Definition extractGGUFMetadata (path : string) (c : ScanCandidate) : ScanCandidate :=
  let md := sc_DetectedMetadata c in
  let failed text :=
    let md := if is_nil (get_any md "quantization") then obj_set "quantization" (AStr (guessQuantFromFilename path)) md else md in
    with_metadata md (sc_Warnings c ++ ["GGUF metadata read failed: " +s+ text]) c in
  match fs_open fs path with
  | inr e => failed ("open: " +s+ e)
  | inl content =>
      match readGGUFMeta content with
      | inr e => failed (error_text e)
      | inl m =>
          let md := obj_set "architecture" (AStr (gm_Architecture m)) md in
          let md := put_positive "context_length" (gm_ContextLength m) md in
          let md := put_positive "embedding_length" (gm_EmbeddingLength m) md in
          let md := put_positive "block_count" (gm_BlockCount m) md in
          let md := put_positive "vocab_size" (gm_VocabSize m) md in
          let md := put_positive "head_count" (gm_HeadCount m) md in
          let md := put_positive "head_count_kv" (gm_HeadCountKV m) md in
          let md := obj_set "file_size_bytes" (float_of (gm_FileSizeBytes m)) md in
          let q := if (gm_Quantization m =s "") || (gm_Quantization m =s "unknown") then guessQuantFromFilename path else gm_Quantization m in
          let md := if (q <>s "") && (q <>s "unknown") then obj_set "quantization" (AStr q) md else md in
          with_metadata md (sc_Warnings c ++ gm_Warnings m) c
      end
  end.

(** [if v, ok := config[k]; ok { metadata[k] = v }] *)
Definition copy_key (config : obj) (md : obj) (k : string) : obj :=
  match obj_get config k with Some v => obj_set k v md | None => md end.

Definition hf_architectures (config md : obj) : obj :=
  match obj_get config "architectures" with
  | None => md
  | Some arch =>
      let md := obj_set "architectures" arch md in
      match arch with AList (a :: _) => obj_set "architecture" a md | _ => md end
  end.

Definition hf_positions (config md : obj) : obj :=
  match obj_get config "max_position_embeddings" with
  | None => md
  | Some v => let md := obj_set "max_position_embeddings" v md in
              match v with AFloat _ => obj_set "context_length" v md | _ => md end
  end.

Definition sizes_of (paths : list string) : Z := foldr (fun p n => match stat_ok p with Some i => fi_size i + n | None => n end)%Z 0%Z paths.

Definition extractHFMetadata (absPath : string) (config : obj) (c : ScanCandidate) : ScanCandidate :=
  let md := obj_set "format" (AStr "huggingface") (sc_DetectedMetadata c) in
  let md := hf_architectures config md in
  let md := foldl (copy_key config) md ["model_type"; "torch_dtype"] in
  let md := hf_positions config md in
  let md := foldl (copy_key config) md ["hidden_size"; "num_hidden_layers"; "num_attention_heads"; "num_key_value_heads"; "vocab_size"; "rope_scaling";
                                        "quantization_config"] in
  let matches := Glob_suffix absPath ".safetensors" in
  let total := match matches with [] => fs_walk fs absPath | _ => wrap64 (sizes_of matches) end in
  let md := match matches with [] => md | _ => obj_set "safetensors_count" (float_of (Z.of_nat (length matches))) md end in
  let md := obj_set "file_size_bytes" (float_of total) md in
  let md := if fileExists (Join2 absPath "tokenizer_config.json") then obj_set "has_tokenizer" (ABool true) md else md in
  let md := match readJSONFile (Join2 absPath "generation_config.json") with
            | Some g => match obj_get g "max_length" with Some ml => obj_set "generation_max_length" ml md | None => md end
            | None => md
            end in
  with_size md
    (sc_Warnings c ++ when (is_nil (get_any md "max_position_embeddings")) ["max_position_embeddings not found in config.json"]
                   ++ when (is_nil (get_any md "architectures")) ["architectures not found in config.json"])
    total (size_label total) c.

Definition with_config (facts : FileFacts) (c : ScanCandidate) : ScanCandidate :=
  match ff_ConfigJSON facts with Some config => extractHFMetadata (ff_AbsPath facts) config c | None => c end.

(** ** Detectors *)

Definition here (facts : FileFacts) (evidence : list string) : ScanCandidate := new_candidate (ff_AbsPath facts) "directory" evidence.

Definition DetectHuggingFaceChat (facts : FileFacts) : list ScanCandidate :=
  when (ff_HasConfigJSON facts)
    [with_config facts (here facts
       (["config.json"] ++ when (ff_HasTokenizerConfigJSON facts) ["tokenizer_config.json"]
        ++ when (ff_HasGenerationConfigJSON facts) ["generation_config.json"] ++ when (some_files (ff_SafetensorFiles facts)) ["*.safetensors"]))].

Definition gguf_candidate (path : string) : ScanCandidate :=
  let c := new_candidate path "file" ["*.gguf"] in
  let c := match stat_ok path with
           | Some i => with_size [("file_size_bytes", float_of (fi_size i))] [] (fi_size i) (size_label (fi_size i)) c
           | None => c
           end in
  extractGGUFMetadata path (with_metadata (obj_set "format" (AStr "gguf") (sc_DetectedMetadata c)) (sc_Warnings c) c).

Definition DetectGGUF (facts : FileFacts) : list ScanCandidate := map gguf_candidate (ff_GGUFFiles facts).

Definition embedding_words : list string :=
  ["bge"; "e5"; "gte"; "embedding"; "embeddings"; "sentence-transformers"; "text2vec"; "m3e"; "jina-embeddings"; "stella"; "multilingual-e5";
   "bce-embedding"].
Definition reranker_words : list string := ["reranker"; "rerank"; "cross-encoder"; "cross_encoder"; "ranker"].

Definition DetectSentenceTransformers (facts : FileFacts) : list ScanCandidate :=
  let structure := ff_HasModulesJSON facts && ff_HasOnePooling facts in
  let config := ff_HasSentenceBertConfigJSON facts || parsed (ff_SentenceBertConfigJSON facts) in
  let name := negb (nameMatches (ff_AbsPath facts) reranker_words) && nameMatches (ff_AbsPath facts) embedding_words in
  when (structure || config || name)
    [with_config facts (here facts
       (when (ff_HasModulesJSON facts) ["modules.json"] ++ when (ff_HasOnePooling facts) ["1_Pooling/config.json"]
        ++ when (ff_HasSentenceBertConfigJSON facts) ["config_sentence_transformers.json"]
        ++ when (parsed (ff_SentenceBertConfigJSON facts)) ["sentence_bert_config.json"]))].

Definition DetectReranker (facts : FileFacts) : list ScanCandidate :=
  when (nameMatches (ff_AbsPath facts) (reranker_words ++ ["bge-reranker"; "jina-reranker"; "ms-marco"; "bce-reranker"])
        && (ff_HasConfigJSON facts || some_files (ff_SafetensorFiles facts) || some_files (ff_PTModelFiles facts)))
    [with_config facts (here facts
       (["name contains reranker/cross-encoder"] ++ when (ff_HasConfigJSON facts) ["config.json"]
        ++ when (some_files (ff_SafetensorFiles facts)) ["*.safetensors"]))].

Definition vision_words : list string :=
  ["internvl"; "qwen-vl"; "qwen2-vl"; "qwen2.5-vl"; "llava"; "minicpm-v"; "glm-4v"; "cogvlm"; "phi-3-vision"; "phi-3.5-vision"; "paligemma"; "fuyu";
   "idefics"].

Definition DetectVisionLanguage (facts : FileFacts) : list ScanCandidate :=
  let chat := fileExists (Join2 (ff_AbsPath facts) "configuration_internvl_chat.py") in
  let vit := fileExists (Join2 (ff_AbsPath facts) "configuration_intern_vit.py") in
  when ((nameMatches (ff_AbsPath facts) vision_words || chat || vit || ff_HasImageProcessorConfigJSON facts || ff_HasPreprocessorConfigJSON facts)
        && ff_HasConfigJSON facts)
    [with_config facts (here facts
       (["name contains vision-language model pattern"] ++ when chat ["configuration_internvl_chat.py"] ++ when vit ["configuration_intern_vit.py"]
        ++ when (ff_HasImageProcessorConfigJSON facts) ["image_processor_config.json"]
        ++ when (ff_HasPreprocessorConfigJSON facts) ["preprocessor_config.json"]))].

Definition DetectLoRAAdapter (facts : FileFacts) : list ScanCandidate :=
  when (ff_HasAdapterConfigJSON facts || ff_HasAdapterModelSafetensors facts)
    [with_metadata (copy_key (default [] (ff_AdapterConfigJSON facts)) [] "base_model_name_or_path") []
       (here facts (when (ff_HasAdapterConfigJSON facts) ["adapter_config.json"]
                    ++ when (ff_HasAdapterModelSafetensors facts) ["adapter_model.safetensors"]))].

Definition DetectDiffusers (facts : FileFacts) : list ScanCandidate :=
  let unet := fileExists (Join2 (ff_AbsPath facts) "unet") in
  when (ff_HasModelIndexJSON facts || unet) [here facts (when (ff_HasModelIndexJSON facts) ["model_index.json"] ++ when unet ["unet/"])].

Definition DetectASR (facts : FileFacts) : list ScanCandidate :=
  when (nameMatches (ff_AbsPath facts) ["whisper"; "funasr"; "paraformer"; "sensevoice"] && ff_HasConfigJSON facts)
    [here facts ["name contains asr model pattern"; "config.json"]].

Definition DetectTTS (facts : FileFacts) : list ScanCandidate :=
  when (nameMatches (ff_AbsPath facts) ["cosyvoice"; "chattts"; "gpt-sovits"; "fish-speech"; "bark"] && ff_HasConfigJSON facts)
    [here facts ["name contains tts model pattern"; "config.json"]].

Definition class_architecture (v : any) : bool :=
  match v with
  | AStr s => existsb (Contains s) ["SequenceClassification"; "TokenClassification"; "ImageClassification"; "AudioClassification"]
  | _ => false
  end.

Definition DetectClassification (facts : FileFacts) : list ScanCandidate :=
  match ff_ConfigJSON facts with
  | None => []
  | Some config =>
      let architectures := match obj_get config "architectures" with Some (AList l) => l | _ => [] end in
      when (existsb class_architecture architectures) [here facts ["config.json: classification architecture"]]
  end.

Definition DetectOpenVINO (facts : FileFacts) : list ScanCandidate :=
  when (some_files (ff_XMLFiles facts) && some_files (ff_BinFiles facts)) [here facts ["*.xml"; "*.bin"]].
Definition DetectTensorRT (facts : FileFacts) : list ScanCandidate := when (some_files (ff_EngineFiles facts)) [here facts ["*.engine"]].
Definition DetectONNX (facts : FileFacts) : list ScanCandidate := map (fun p => new_candidate p "file" ["*.onnx"]) (ff_ONNXFiles facts).

(** ** The registry *)

Record ModelTypeDefaults := {
  td_Kind : string; td_Format : string; td_Task : string; td_Capabilities : list string; td_DefaultTestMode : string; td_Deployable : bool;
  td_RequiresBaseModel : bool; td_RecommendedBackends : list string; td_Confidence : string; td_UnsupportedReason : string
}.

Record ModelTypePlugin := { mp_ID : string; mp_Detect : FileFacts -> list ScanCandidate; mp_Defaults : ModelTypeDefaults }.

Definition servable (kind format task : string) (capabilities : list string) (mode : string) (backends : list string) (confidence : string) : ModelTypeDefaults :=
  {| td_Kind := kind; td_Format := format; td_Task := task; td_Capabilities := capabilities; td_DefaultTestMode := mode; td_Deployable := true;
     td_RequiresBaseModel := false; td_RecommendedBackends := backends; td_Confidence := confidence; td_UnsupportedReason := "" |}.
Definition unservable (kind format task : string) (capabilities : list string) (base : bool) (confidence reason : string) : ModelTypeDefaults :=
  {| td_Kind := kind; td_Format := format; td_Task := task; td_Capabilities := capabilities; td_DefaultTestMode := TestModeAuto; td_Deployable := false;
     td_RequiresBaseModel := base; td_RecommendedBackends := []; td_Confidence := confidence; td_UnsupportedReason := reason |}.

Definition loRADefaults : ModelTypeDefaults :=
  unservable "adapter" FormatLoRAAdapter TaskAdapter [] true "high" "这是 LoRA/Adapter，需要选择基础模型后使用，不能作为独立模型直接部署。".
Definition sentenceTransformersDefaults : ModelTypeDefaults :=
  servable "directory" FormatSentenceTransformers TaskEmbedding [CapabilityEmbedding] TestModeEmbedding ["vllm"; "sglang"] "high".
Definition rerankerDefaults : ModelTypeDefaults :=
  servable "directory" FormatHuggingFace TaskRerank [CapabilityRerank] TestModeRerank ["vllm"; "sglang"] "medium".
Definition visionLanguageDefaults : ModelTypeDefaults :=
  servable "directory" FormatHuggingFace TaskVisionChat [CapabilityChat; CapabilityVision] TestModeChat ["vllm"; "sglang"] "high".
Definition hfChatDefaults : ModelTypeDefaults :=
  servable "directory" FormatHuggingFace TaskChat [CapabilityChat; CapabilityCompletion] TestModeChat ["vllm"; "sglang"] "medium".
Definition diffusersDefaults : ModelTypeDefaults :=
  unservable "directory" FormatDiffusers TaskImageGeneration [CapabilityImageGeneration] false "high" "当前平台尚未配置 Diffusers/Image Generation 后端。".
Definition asrDefaults : ModelTypeDefaults :=
  unservable "directory" FormatHuggingFace TaskASR [CapabilityASR] false "medium" "当前平台尚未配置 ASR 后端。".
Definition ttsDefaults : ModelTypeDefaults :=
  unservable "directory" FormatHuggingFace TaskTTS [CapabilityTTS] false "medium" "当前平台尚未配置 TTS 后端。".
Definition classificationDefaults : ModelTypeDefaults :=
  unservable "directory" FormatHuggingFace TaskClassification [CapabilityClassification] false "medium" "当前平台尚未配置分类模型服务后端。".
Definition openvinoDefaults : ModelTypeDefaults := unservable "bundle" FormatOpenVINO TaskUnknown [] false "high" "当前平台尚未配置 OpenVINO 后端。".
Definition tensorrtDefaults : ModelTypeDefaults := unservable "bundle" FormatTensorRT TaskUnknown [] false "high" "当前平台尚未配置 TensorRT-LLM 后端。".
Definition onnxDefaults : ModelTypeDefaults := unservable "file" FormatONNX TaskUnknown [] false "high" "当前平台尚未配置 ONNX Runtime 后端。".
Definition ggufDefaults : ModelTypeDefaults :=
  servable "file" FormatGGUF TaskChat [CapabilityChat; CapabilityCompletion] TestModeChat ["llamacpp"] "high".

Definition plugin (id : string) (detect : FileFacts -> list ScanCandidate) (defaults : ModelTypeDefaults) : ModelTypePlugin :=
  {| mp_ID := id; mp_Detect := detect; mp_Defaults := defaults |}.

Definition modelTypePlugins : list ModelTypePlugin :=
  [plugin "lora_adapter" DetectLoRAAdapter loRADefaults; plugin "sentence_transformers" DetectSentenceTransformers sentenceTransformersDefaults;
   plugin "reranker" DetectReranker rerankerDefaults; plugin "vision_language" DetectVisionLanguage visionLanguageDefaults;
   plugin "diffusers" DetectDiffusers diffusersDefaults; plugin "asr" DetectASR asrDefaults; plugin "tts" DetectTTS ttsDefaults;
   plugin "classification" DetectClassification classificationDefaults; plugin "hf_chat" DetectHuggingFaceChat hfChatDefaults;
   plugin "openvino" DetectOpenVINO openvinoDefaults; plugin "tensorrt" DetectTensorRT tensorrtDefaults; plugin "onnx" DetectONNX onnxDefaults;
   plugin "gguf" DetectGGUF ggufDefaults].

Definition or_list (l d : list string) : list string := match l with [] => d | _ => l end.
Definition or_text (s d : string) : string := if s =s "" then d else s.

Definition applyDefaults (d : ModelTypeDefaults) (c : ScanCandidate) : ScanCandidate :=
  {| sc_Path := sc_Path c; sc_PathType := sc_PathType c; sc_Kind := or_text (sc_Kind c) (td_Kind d); sc_Format := or_text (sc_Format c) (td_Format d);
     sc_Task := or_text (sc_Task c) (td_Task d); sc_Capabilities := or_list (sc_Capabilities c) (td_Capabilities d);
     sc_DefaultTestMode := or_text (sc_DefaultTestMode c) (td_DefaultTestMode d); sc_Deployable := td_Deployable d;
     sc_RequiresBaseModel := td_RequiresBaseModel d;
     sc_RecommendedBackends := match sc_RecommendedBackends c with Some (b :: l) => Some (b :: l) | _ => Some (td_RecommendedBackends d) end;
     sc_Confidence := or_text (sc_Confidence c) (td_Confidence d); sc_Evidence := sc_Evidence c;
     sc_UnsupportedReason := or_text (sc_UnsupportedReason c) (td_UnsupportedReason d); sc_DetectedMetadata := sc_DetectedMetadata c;
     sc_Warnings := sc_Warnings c; sc_AutoSelected := sc_AutoSelected c; sc_SelectionReason := sc_SelectionReason c; sc_SizeBytes := sc_SizeBytes c;
     sc_SizeLabel := sc_SizeLabel c |}.

(** ** Directories *)

Record ScanResult := { sr_ScanRoot : string; sr_Candidates : list ScanCandidate; sr_Warnings : list string; sr_Error : string }.

Definition detected (facts : FileFacts) (p : ModelTypePlugin) : list ScanCandidate :=
  map (fun c => let c := applyDefaults (mp_Defaults p) c in
                match sc_Evidence c with [] => with_evidence (ff_EvidenceFiles facts) c | _ => c end)
      (mp_Detect p facts).

Definition specific (c : ScanCandidate) : bool :=
  existsb (String.eqb (sc_Format c)) ["sentence_transformers"; "lora_adapter"; "diffusers"; "openvino"; "tensorrt_engine"; "onnx"]
  || existsb (String.eqb (sc_Task c)) ["rerank"; "vision_chat"; "image_generation"; "asr"; "tts"; "classification"].

Definition generic_chat (c : ScanCandidate) : bool := (sc_Format c =s "huggingface") && (sc_Task c =s "chat").

Definition deduplicate (l : list ScanCandidate) : list ScanCandidate :=
  if existsb specific l then List.filter (fun c => negb (generic_chat c)) l else l.

Definition select (reason : string) (c : ScanCandidate) : ScanCandidate :=
  {| sc_Path := sc_Path c; sc_PathType := sc_PathType c; sc_Kind := sc_Kind c; sc_Format := sc_Format c; sc_Task := sc_Task c;
     sc_Capabilities := sc_Capabilities c; sc_DefaultTestMode := sc_DefaultTestMode c; sc_Deployable := sc_Deployable c;
     sc_RequiresBaseModel := sc_RequiresBaseModel c; sc_RecommendedBackends := sc_RecommendedBackends c; sc_Confidence := sc_Confidence c;
     sc_Evidence := sc_Evidence c; sc_UnsupportedReason := sc_UnsupportedReason c; sc_DetectedMetadata := sc_DetectedMetadata c;
     sc_Warnings := sc_Warnings c; sc_AutoSelected := true; sc_SelectionReason := reason; sc_SizeBytes := sc_SizeBytes c; sc_SizeLabel := sc_SizeLabel c |}.

Definition scan_result (absPath : string) (l : list ScanCandidate) : ScanResult :=
  match l with
  | [] => {| sr_ScanRoot := absPath; sr_Candidates := []; sr_Warnings := []; sr_Error := "no recognizable model files found in directory" |}
  | [c] => {| sr_ScanRoot := absPath; sr_Candidates := [select ("single " +s+ sc_Format c +s+ " candidate in directory") c]; sr_Warnings := [];
              sr_Error := "" |}
  | _ => {| sr_ScanRoot := absPath; sr_Candidates := l;
            sr_Warnings := [if forallb (fun c => sc_Format c =s "gguf") l
                            then "found " +s+ Itoa (Z.of_nat (length l)) +s+ " GGUF files, user must select one"
                            else "mixed model types found, user must select one"];
            sr_Error := "" |}
  end.

Definition scanDirectory (absPath : string) : ScanResult :=
  let facts := collectFileFacts absPath in
  scan_result absPath (deduplicate (concat (map (detected facts) modelTypePlugins))).

(** ** Files *)

(** [filepath.Ext]: from the last dot of the last element. *)
Definition Ext (path : string) : string :=
  let base := str_drop (Z.to_nat (LastIndex path slash + 1)) path in
  let i := LastIndex base "."%char in
  if (i <? 0)%Z then "" else str_drop (Z.to_nat i) base.

Definition custom_file (c : ScanCandidate) (relPath : string) : ScanCandidate :=
  {| sc_Path := sc_Path c; sc_PathType := sc_PathType c; sc_Kind := sc_Kind c; sc_Format := "custom"; sc_Task := "unknown";
     sc_Capabilities := sc_Capabilities c; sc_DefaultTestMode := sc_DefaultTestMode c; sc_Deployable := sc_Deployable c;
     sc_RequiresBaseModel := sc_RequiresBaseModel c; sc_RecommendedBackends := sc_RecommendedBackends c; sc_Confidence := sc_Confidence c;
     sc_Evidence := sc_Evidence c ++ ["file extension: " +s+ Ext relPath]; sc_UnsupportedReason := sc_UnsupportedReason c;
     sc_DetectedMetadata := obj_set "format" (AStr "custom") (sc_DetectedMetadata c); sc_Warnings := sc_Warnings c;
     sc_AutoSelected := sc_AutoSelected c; sc_SelectionReason := sc_SelectionReason c; sc_SizeBytes := sc_SizeBytes c; sc_SizeLabel := sc_SizeLabel c |}.

Definition scanSingleFile (absPath relPath : string) (info : file_info) : ScanResult :=
  let c := select "single file selected" (new_candidate absPath "file" []) in
  let c := with_size [("file_size_bytes", float_of (fi_size info))] [] (fi_size info) (size_label (fi_size info)) c in
  let c := if HasSuffix (ToLower relPath) ".gguf"
           then let c := applyDefaults ggufDefaults c in
                let c := extractGGUFMetadata absPath (with_metadata (obj_set "format" (AStr "gguf") (sc_DetectedMetadata c)) (sc_Warnings c) c) in
                with_evidence (sc_Evidence c ++ ["*.gguf"]) c
           else custom_file c relPath in
  {| sr_ScanRoot := absPath; sr_Candidates := [c]; sr_Warnings := []; sr_Error := "" |}.

(** ** Answers *)

Definition strs_or_nil (l : list string) : any := match l with [] => ANil | _ => AStrs l end.

Definition candidateToMap (c : ScanCandidate) : any :=
  AMap [("auto_selected", ABool (sc_AutoSelected c)); ("capabilities", AList (map AStr (sc_Capabilities c))); ("confidence", AStr (sc_Confidence c));
        ("default_test_mode", AStr (sc_DefaultTestMode c)); ("deployable", ABool (sc_Deployable c)); ("detected_metadata", AMap (sc_DetectedMetadata c));
        ("evidence", AList (map AStr (sc_Evidence c))); ("format", AStr (sc_Format c)); ("kind", AStr (sc_Kind c)); ("path", AStr (sc_Path c));
        ("path_type", AStr (sc_PathType c));
        ("recommended_backends", match sc_RecommendedBackends c with Some l => AStrs l | None => ANil end);
        ("requires_base_model", ABool (sc_RequiresBaseModel c)); ("selection_reason", AStr (sc_SelectionReason c)); ("size_bytes", AInt64 (sc_SizeBytes c));
        ("size_label", AStr (sc_SizeLabel c)); ("task", AStr (sc_Task c)); ("unsupported_reason", AStr (sc_UnsupportedReason c));
        ("warnings", strs_or_nil (sc_Warnings c))].

Definition toMap (sr : ScanResult) : any :=
  if sr_Error sr =s ""
  then AMap [("candidates", AList (map candidateToMap (sr_Candidates sr))); ("scan_root", AStr (sr_ScanRoot sr)); ("warnings", strs_or_nil (sr_Warnings sr))]
  else AMap [("candidates", AList []); ("error", AStr (sr_Error sr)); ("scan_root", AStr (sr_ScanRoot sr)); ("warnings", strs_or_nil (sr_Warnings sr))].

Definition scan_path (root relPath : string) : ScanResult + string :=
  let absPath := Join2 root relPath in
  match fs_stat fs absPath with
  | inr e => inr ("cannot access path: " +s+ e)
  | inl info => inl (if fi_dir info then scanDirectory absPath else scanSingleFile absPath relPath info)
  end.

Definition ScanModelPath (root relPath : string) : any :=
  match scan_path root relPath with inl r => toMap r | inr e => AMap [("error", AStr e)] end.
End Scan.
