(* ===== verification/ModelScanProps.v ===== *)
(** * Properties of the model scanner

    The candidates of a scan speak the contract vocabulary and say of themselves what the
    rest of the platform relies on; the labels of sizes; the lists a scan answers. *)
From S2P Require Import Prelude GoStrings GoNumbers GoValue GoJson GoJsonText RuntimeContract RunPlanTypes ResolverArgs ResolverMounts ModelPaths Gguf ModelScan.
From Stdlib Require Import SpecFloat Ascii.

(** ** Well-typed candidates *)

(** A candidate whose every identifier is of the contract, that gives a reason exactly when
    it cannot be deployed, recommends a backend exactly when it can, needs a base model only when
    it cannot, and has a test mode of its own exactly when it can. *)
Record well_typed (c : ScanCandidate) : Prop := {
  wt_kind : sc_Kind c ∈ ["directory"; "file"; "adapter"; "bundle"];
  wt_path : IsValidPathMode (sc_PathType c) = true;
  wt_format : IsValidFormat (sc_Format c) = true;
  wt_task : IsValidTask (sc_Task c) = true;
  wt_capabilities : forallb IsValidCapability (sc_Capabilities c) = true;
  wt_mode : IsValidTestMode (sc_DefaultTestMode c) = true;
  wt_reason : sc_Deployable c = true <-> sc_UnsupportedReason c = "";
  wt_backends : exists l, sc_RecommendedBackends c = Some l /\ (sc_Deployable c = true <-> l <> []);
  wt_base : sc_RequiresBaseModel c = true -> sc_Deployable c = false;
  wt_auto : sc_Deployable c = true <-> sc_DefaultTestMode c <> TestModeAuto
}.

(** The candidate of a detector, before the defaults of its plugin. *)
Record undecided (c : ScanCandidate) : Prop := {
  un_kind : sc_Kind c = "";
  un_path : IsValidPathMode (sc_PathType c) = true;
  un_format : sc_Format c = "";
  un_task : sc_Task c = "";
  un_capabilities : sc_Capabilities c = [];
  un_mode : sc_DefaultTestMode c = "";
  un_backends : sc_RecommendedBackends c = None;
  un_reason : sc_UnsupportedReason c = "";
  un_auto : sc_AutoSelected c = false
}.

(** The candidate the defaults themselves stand for. *)
Definition typed_defaults (d : ModelTypeDefaults) : Prop := well_typed (applyDefaults d (new_candidate "" PathModeDirectory [])).

#[local] Ltac typed := constructor; cbn; try done; try set_solver; try (by split); try (eexists; split; [done|by split]).

Lemma plugins_typed `{MR : MapRange} fs : Forall (fun p => typed_defaults (mp_Defaults p)) (modelTypePlugins fs).
Proof. unfold modelTypePlugins. repeat apply Forall_cons_2; [..|apply Forall_nil_2]; typed. Qed.

Lemma typed_applyDefaults d c : typed_defaults d -> undecided c -> well_typed (applyDefaults d c).
Proof.
  intros [] []. constructor; cbn in *; rewrite ?un_kind0, ?un_format0, ?un_task0, ?un_capabilities0, ?un_mode0, ?un_backends0, ?un_reason0; done.
Qed.

Lemma typed_with_evidence e c : well_typed c -> well_typed (with_evidence e c).
Proof. intros []; by constructor. Qed.
Lemma typed_select r c : well_typed c -> well_typed (select r c).
Proof. intros []; by constructor. Qed.

(** *** Detectors *)

Lemma undecided_new p t e : IsValidPathMode t = true -> undecided (new_candidate p t e).
Proof. by constructor. Qed.
Lemma undecided_here f e : undecided (here f e).
Proof. by apply undecided_new. Qed.
Lemma undecided_findings md w e sz l c : undecided c -> undecided (with_findings md w e sz l c).
Proof. intros []; by constructor. Qed.
Lemma undecided_metadata md w c : undecided c -> undecided (with_metadata md w c).
Proof. apply undecided_findings. Qed.

Section Undecided.
Context `{MR : MapRange} (fs : file_system).

Lemma undecided_config f c : undecided c -> undecided (with_config fs f c).
Proof. intros Hc. unfold with_config. destruct (ff_ConfigJSON f); [|done]. by apply undecided_findings. Qed.

Lemma undecided_extract p c : undecided c -> undecided (extractGGUFMetadata fs p c).
Proof.
  intros Hc. unfold extractGGUFMetadata. destruct (fs_open fs p); [|by apply undecided_findings].
  destruct (readGGUFMeta _); by apply undecided_findings.
Qed.

Lemma undecided_gguf p : undecided (gguf_candidate fs p).
Proof.
  apply undecided_extract, undecided_findings. destruct (stat_ok fs p); [apply undecided_findings|]; by apply undecided_new.
Qed.

Lemma Forall_when {A} (P : A -> Prop) b l : Forall P l -> Forall P (when b l).
Proof. by destruct b. Qed.

#[local] Hint Resolve undecided_here undecided_config undecided_metadata undecided_findings undecided_gguf : undecided.

Lemma detectors_undecided f : Forall (fun p => Forall undecided (mp_Detect p f)) (modelTypePlugins fs).
Proof.
  unfold modelTypePlugins. repeat (apply Forall_cons; split); [..|apply Forall_nil; done]; cbn [plugin mp_Detect].
  all: try (apply Forall_when; apply Forall_singleton; auto with undecided; fail).
  - unfold DetectClassification. destruct (ff_ConfigJSON f); [|constructor]. apply Forall_when, Forall_singleton. auto with undecided.
  - apply Forall_map, Forall_true. intros p. by apply undecided_new.
  - apply Forall_map, Forall_true. intros p. apply undecided_gguf.
Qed.

Lemma detected_typed f p : typed_defaults (mp_Defaults p) -> Forall undecided (mp_Detect p f) ->
  Forall (fun c => well_typed c /\ sc_AutoSelected c = false) (detected f p).
Proof.
  intros Hd Hu. unfold detected. apply Forall_map. eapply Forall_impl; [exact Hu|]. intros c Hc.
  pose proof (typed_applyDefaults _ _ Hd Hc) as Ht. cbn. case_match; split; try by apply typed_with_evidence; done.
  all: by destruct Hc.
Qed.

Lemma candidates_typed f : Forall (fun c => well_typed c /\ sc_AutoSelected c = false) (concat (map (detected f) (modelTypePlugins fs))).
Proof.
  apply Forall_concat, Forall_map. pose proof (plugins_typed fs) as Hp. pose proof (detectors_undecided f) as Hu.
  eapply Forall_impl; [exact (proj2 (Forall_and _ _) (conj Hp Hu))|]. intros p [Hd Hc]. by apply detected_typed.
Qed.

Lemma concat_nil_in {A} (l : list (list A)) x : concat l = [] -> In x l -> x = [].
Proof. induction l as [|y l IH]; cbn; [done|]. intros [-> Hl]%app_eq_nil [<-|Hx]; [done|by apply IH]. Qed.

Lemma config_recognised f : ff_HasConfigJSON f = true -> concat (map (detected f) (modelTypePlugins fs)) <> [].
Proof.
  intros Hc El. set (p := plugin "hf_chat" (DetectHuggingFaceChat fs) hfChatDefaults).
  assert (In p (modelTypePlugins fs)) as Hp by (unfold modelTypePlugins; do 8 right; by left).
  pose proof (concat_nil_in _ _ El (in_map (detected f) _ _ Hp)) as Hn.
  unfold detected, p in Hn. cbn [plugin mp_Detect] in Hn. unfold DetectHuggingFaceChat in Hn. by rewrite Hc in Hn.
Qed.
End Undecided.

Lemma deduplicate_incl l : deduplicate l ⊆ l.
Proof.
  unfold deduplicate. destruct (existsb _ _); [|done]. intros c Hc. apply list_elem_of_In in Hc. apply list_elem_of_In.
  exact (proj1 (proj1 (filter_In _ _ _) Hc)).
Qed.

Lemma deduplicate_Forall (P : ScanCandidate -> Prop) l : Forall P l -> Forall P (deduplicate l).
Proof. rewrite !Forall_forall. intros H c Hc. by apply H, deduplicate_incl. Qed.

Lemma specific_not_generic c : specific c = true -> generic_chat c = false.
Proof.
  unfold specific, generic_chat. destruct (sc_Format c =s "huggingface") eqn:Ef; [|done]. destruct (sc_Task c =s "chat") eqn:Et; [|done].
  bool_facts. by rewrite Ef, Et.
Qed.

Lemma deduplicate_no_generic l c d : c ∈ deduplicate l -> d ∈ deduplicate l -> specific c = true -> generic_chat d = false.
Proof.
  unfold deduplicate. destruct (existsb specific l) eqn:E.
  - intros _ Hd _. apply list_elem_of_In, filter_In in Hd as [_ Hd]. by destruct (generic_chat d).
  - intros Hc _ Hs. exfalso. rewrite <- not_true_iff_false in E. apply E, existsb_exists. exists c. by rewrite <- list_elem_of_In.
Qed.

Lemma deduplicate_keeps_one l : l <> [] -> deduplicate l <> [].
Proof.
  unfold deduplicate. destruct (existsb specific l) eqn:E; [|done]. intros _ H. apply existsb_exists in E as (c & Hc & Hs).
  apply (in_nil (a := c)). rewrite <- H. apply filter_In. by rewrite (specific_not_generic c Hs).
Qed.

Lemma scan_result_auto p l : Forall (fun c => sc_AutoSelected c = false) l ->
  forall c, c ∈ sr_Candidates (scan_result p l) -> sc_AutoSelected c = true <-> sr_Candidates (scan_result p l) = [c].
Proof.
  intros Hl c. destruct l as [|a [|b l]]; cbn.
  - set_solver.
  - intros ->%list_elem_of_singleton. done.
  - intros Hc. rewrite Forall_forall in Hl. rewrite (Hl c Hc). by split.
Qed.

Lemma scan_result_specific p l c d :
  c ∈ sr_Candidates (scan_result p (deduplicate l)) -> d ∈ sr_Candidates (scan_result p (deduplicate l)) -> specific c = true -> generic_chat d = false.
Proof.
  pose proof (deduplicate_no_generic l) as H. destruct (deduplicate l) as [|a [|b l']]; [set_solver| |exact (H c d)].
  cbn. intros ->%list_elem_of_singleton ->%list_elem_of_singleton Hs.
  change (generic_chat a = false). apply (H a a); [by apply list_elem_of_singleton..|exact Hs].
Qed.

(** Every candidate of a directory speaks the contract vocabulary and is consistent:
    it gives a reason and no backend exactly when it cannot be deployed.  It is selected
    exactly when it is the only one, a generic chat model is never listed beside a more
    specific reading of the same files, and a directory whose config.json is an object is
    always recognised. *)
Theorem scanned_candidates `{MR : MapRange} fs p :
  let r := scanDirectory fs p in
  Forall well_typed (sr_Candidates r)
  /\ (forall c, c ∈ sr_Candidates r -> sc_AutoSelected c = true <-> sr_Candidates r = [c])
  /\ (forall c d, c ∈ sr_Candidates r -> d ∈ sr_Candidates r -> specific c = true -> generic_chat d = false)
  /\ (sr_Error r = "" <-> sr_Candidates r <> [])
  /\ (ff_HasConfigJSON (collectFileFacts fs p) = true -> sr_Error r = "").
Proof.
  cbv zeta. unfold scanDirectory. set (f := collectFileFacts fs p). set (l := concat _).
  pose proof (candidates_typed fs f) as Hl. fold l in Hl. apply deduplicate_Forall in Hl. apply Forall_and in Hl as [Ht Ha].
  split_and!.
  - destruct (deduplicate l) as [|a [|b l']]; cbn; [done| |done]. apply Forall_singleton, typed_select. exact (proj1 (Forall_singleton _ _) Ht).
  - exact (scan_result_auto _ _ Ha).
  - exact (scan_result_specific p l).
  - destruct (deduplicate l) as [|a [|b l']]; cbn; by split.
  - intros Hc. assert (deduplicate l <> []) as Hn.
    { apply deduplicate_keeps_one. exact (config_recognised fs f Hc). }
    by destruct (deduplicate l) as [|a [|b l']].
Qed.

(** ** Sizes *)

Lemma size_loop_spec fuel : forall n div exp (k : nat), (0 < n < 1024 ^ Z.of_nat k)%Z -> k <= fuel ->
  exists j, j < k /\ size_loop fuel n div exp = ((div * 1024 ^ Z.of_nat j)%Z, exp + j) /\ (1024 ^ Z.of_nat j <= n < 1024 ^ Z.of_nat (S j))%Z.
Proof.
  induction fuel as [|fuel IH]; intros n div exp k Hn Hk.
  - replace k with 0 in Hn by lia. cbn in Hn. lia.
  - destruct k as [|k]; [cbn in Hn; lia|]. rewrite Nat2Z.inj_succ, Z.pow_succ_r in Hn by lia. cbn [size_loop]. destruct (Z.leb_spec 1024 n) as [Hb|Hs].
    + destruct (IH (n / 1024)%Z (div * 1024)%Z (S exp) k) as (j & Hj & -> & Hp).
      { split; [apply Z.div_str_pos; lia|apply Z.div_lt_upper_bound; lia]. } { lia. }
      exists (S j). rewrite !Nat2Z.inj_succ, !Z.pow_succ_r in * by lia. split_and!; [lia|f_equal; lia| |].
      * pose proof (Z.mul_div_le n 1024). lia.
      * pose proof (Z.mul_succ_div_gt n 1024). lia.
    + exists 0. rewrite Z.mul_1_r, Nat.add_0_r. split_and!; [lia|done|cbn; lia|cbn; lia].
Qed.

(** C38. A label is computed for every 64-bit size, without an index out of range: below
    1024 the bytes themselves, otherwise the quotient by the largest power of 1024 that
    does not exceed the size, with the unit of that power. *)
Theorem FormatBytes_bounds z (Hz : (z < 2 ^ 63)%Z) :
  if (z <? 1024)%Z then FormatBytes z = Some (Itoa z +s+ " B")
  else exists e u, ["K"; "M"; "G"; "T"; "P"; "E"] !! e = Some u /\ (1024 ^ Z.of_nat (S e) <= z < 1024 ^ Z.of_nat (S (S e)))%Z
       /\ FormatBytes z = Some (one_decimal (f64_of_Z z) (1024 ^ Z.of_nat (S e)) +s+ " " +s+ u +s+ "iB").
Proof.
  unfold FormatBytes. destruct (Z.ltb_spec z 1024) as [_|Hb]; [done|].
  destruct (size_loop_spec 64 (z / 1024) 1024 0 6) as (j & Hj & -> & Hlo & Hhi); [|lia|].
  { split; [apply Z.div_str_pos; lia|apply Z.div_lt_upper_bound; lia]. }
  assert (exists u, size_unit j = Some u) as [u Hu] by (apply lookup_lt_is_Some; cbn; lia).
  exists j, u. cbn [Nat.add]. rewrite Hu. rewrite !Nat2Z.inj_succ, !Z.pow_succ_r in * by lia. split_and!; [done| | |done].
  - pose proof (Z.mul_div_le z 1024). lia.
  - pose proof (Z.mul_succ_div_gt z 1024). lia.
Qed.

Lemma FormatBytes_bounds_witness :
  (5580000000 < 2 ^ 63)%Z /\
  exists e u, ["K"; "M"; "G"; "T"; "P"; "E"] !! e = Some u /\ (1024 ^ Z.of_nat (S e) <= 5580000000 < 1024 ^ Z.of_nat (S (S e)))%Z
    /\ FormatBytes 5580000000 = Some (one_decimal (f64_of_Z 5580000000) (1024 ^ Z.of_nat (S e)) +s+ " " +s+ u +s+ "iB").
Proof. split; [lia|]. exact (FormatBytes_bounds 5580000000 ltac:(lia)). Defined.

(** The labels of the test of the source, and the largest size. *)
Example labels :
  map FormatBytes [0; 500; 1024; 1536; 1048576; 1073741824; 5580000000; 2 ^ 63 - 1]%Z
  = map Some ["0 B"; "500 B"; "1.0 KiB"; "1.5 KiB"; "1.0 MiB"; "1.0 GiB"; "5.2 GiB"; "8.0 EiB"].
Proof. vm_compute. reflexivity. Qed.

(** ** Concrete directories *)

Section Demo.
#[local] Existing Instance canonical_range.

(** One directory with files; a pattern with brackets matches no directory. *)
Definition one_directory (dir : string) (files : list (string * string)) : file_system :=
  let content p := snd <$> find (fun f => p =s Join2 dir f.1) files in
  {| fs_stat := fun p => if p =s dir then inl {| fi_dir := true; fi_size := 0 |}
                         else match content p with Some c => inl {| fi_dir := false; fi_size := str_len c |} | None => inr "no such file" end;
     fs_names := fun p => if p =s dir then map fst files else [];
     fs_open := fun p => match content p with Some c => inl c | None => inr "no such file" end;
     fs_walk := fun _ => foldr (fun f n => str_len f.2 + n)%Z 0%Z files;
     fs_lstat_ok := fun p => match content p with Some _ => true | None => false end;
     fs_expand := fun _ => [] |}.

Definition scanned (fs : file_system) (dir : string) : list (string * string * bool) :=
  map (fun c => (sc_Format c, sc_Task c, sc_Deployable c)) (sr_Candidates (scanDirectory fs dir)).

Definition llama_files : list (string * string) :=
  [("config.json", jq "{`architectures`:[`LlamaForCausalLM`],`max_position_embeddings`:4096}"); ("model.safetensors", "weights")].

Example chat_directory : scanned (one_directory "/models/qwen" llama_files) "/models/qwen" = [("huggingface", "chat", true)].
Proof. vm_compute. reflexivity. Qed.

(** The words are looked for in the whole path: a parent directory decides. *)
Example parent_directory_decides :
  scanned (one_directory "/data/stage5/qwen" llama_files) "/data/stage5/qwen" = [("sentence_transformers", "embedding", true)].
Proof. vm_compute. reflexivity. Qed.

(** A speech model has a preprocessor_config.json and is offered as a deployable vision model. *)
Example whisper_is_a_vision_model :
  let d := "/models/whisper-large" in
  scanned (one_directory d (llama_files ++ [("preprocessor_config.json", "{}")])) d = [("huggingface", "vision_chat", true); ("huggingface", "asr", false)].
Proof. vm_compute. reflexivity. Qed.

(** The directory is part of the pattern: with a bracket in its name no file is found. *)
Example bracket_hides_files :
  map (fun d => sr_Error (scanDirectory (one_directory d [("model.gguf", "x")]) d)) ["/models/qwen-awq"; "/models/qwen[awq]"]
  = [""; "no recognizable model files found in directory"].
Proof. vm_compute. reflexivity. Qed.

(** A file that is not a GGUF file gets a format outside the contract, no kind and no test mode. *)
Example custom_format :
  let fs := one_directory "/models" [("m.safetensors", "x")] in
  match scan_path fs "/models" "m.safetensors" with
  | inl r => map (fun c => (sc_Format c, IsValidFormat (sc_Format c), IsValidTestMode (sc_DefaultTestMode c))) (sr_Candidates r)
  | inr _ => []
  end = [("custom", false, false)].
Proof. vm_compute. reflexivity. Qed.
End Demo.
