(* ===== verification/AccessStore.v ===== *)
(** * The access tables (internal/server/db/db.go, lines 88-166) and password hashes (internal/server/auth/argon2.go)

    Users, tenants, memberships, roles, permissions and sessions as lists in
    insertion order, with the constraints the schema declares: an INSERT or DELETE
    that violates one is [inl] with the engine's message, and leaves the tables as
    they were.  A transaction that is rolled back likewise: handlers keep the
    tables they started from.  Foreign keys are enforced (the connection sets the
    pragma).  Integer flags are written 0 or 1 and read back by [== 1]: booleans. *)
From S2P Require Import Prelude GoStrings GoNumbers GoWeb Store.
From Stdlib Require Import Ascii.

(** ** Instants

    Nanoseconds since 1970.  A TEXT timestamp is RFC 3339, to the second, or what
    SQLite's [datetime('now')] writes, which [time.Parse(time.RFC3339, _)] refuses. *)
Definition nanosecond : Z := 1000000000.
Definition hour : Z := 3600 * nanosecond.
Definition minute : Z := 60 * nanosecond.

Inductive stamp := RFC3339 (sec : Z) | Datetime (sec : Z).

(** [time.Time{}]: the first instant of year 1. *)
Definition zero_time : Z := -62135596800 * nanosecond.

Definition FormatRFC3339 (t : Z) : stamp := RFC3339 (t / nanosecond).

(** [t, _ := time.Parse(time.RFC3339, s)] *)
Definition ParseRFC3339 (s : stamp) : Z :=
  match s with
  | RFC3339 sec => sec * nanosecond
  | Datetime _ => zero_time
  end.

(** [t.Sub(u)], which saturates. *)
Definition time_sub (t u : Z) : Z := Z.max (- 2 ^ 63) (Z.min (2 ^ 63 - 1) (t - u)).

(** ** Rows *)

Record user_row := {
  u_id : string; u_username : string; u_password_hash : string; u_display : string; u_status : string;
  u_admin : bool; u_must_change : bool; u_created : stamp; u_updated : stamp
}.

(** [te_slug] is NOT NULL without a default: [None] is the absent column of an INSERT. *)
Record tenant_row := {
  te_id : string; te_slug : option string; te_name : string; te_status : string;
  te_created : stamp; te_updated : stamp
}.

Record member_row := {
  m_id : string; m_user : string; m_tenant : string; m_status : string; m_created : stamp; m_updated : stamp
}.

(** [ro_tenant] is NULL for the built-in roles. *)
Record role_row := {
  ro_id : string; ro_tenant : option string; ro_name : string; ro_display : string; ro_description : string;
  ro_built_in : bool; ro_status : string; ro_created : stamp; ro_updated : stamp
}.

Record perm_row := {
  p_id : string; p_code : string; p_scope : string; p_description : string; p_created : stamp; p_updated : stamp
}.

Record role_perm_row := { rp_id : string; rp_role : string; rp_perm : string; rp_created : stamp }.

Record member_role_row := { mr_id : string; mr_member : string; mr_role : string; mr_created : stamp }.

Record session_row := {
  s_id : string; s_user : string; s_tenant : string; s_csrf : string;
  s_expires : stamp; s_revoked : option stamp; s_created : stamp; s_seen : stamp
}.

Record AccessDB := {
  users : list user_row;
  tenants : list tenant_row;
  members : list member_row;
  roles : list role_row;
  perms : list perm_row;
  role_perms : list role_perm_row;
  member_roles : list member_role_row;
  sessions : list session_row
}.

Definition set_users (f : list user_row -> list user_row) (db : AccessDB) : AccessDB :=
  {| users := f (users db); tenants := tenants db; members := members db; roles := roles db; perms := perms db;
     role_perms := role_perms db; member_roles := member_roles db; sessions := sessions db |}.
Definition set_tenants (f : list tenant_row -> list tenant_row) (db : AccessDB) : AccessDB :=
  {| users := users db; tenants := f (tenants db); members := members db; roles := roles db; perms := perms db;
     role_perms := role_perms db; member_roles := member_roles db; sessions := sessions db |}.
Definition set_members (f : list member_row -> list member_row) (db : AccessDB) : AccessDB :=
  {| users := users db; tenants := tenants db; members := f (members db); roles := roles db; perms := perms db;
     role_perms := role_perms db; member_roles := member_roles db; sessions := sessions db |}.
Definition set_roles (f : list role_row -> list role_row) (db : AccessDB) : AccessDB :=
  {| users := users db; tenants := tenants db; members := members db; roles := f (roles db); perms := perms db;
     role_perms := role_perms db; member_roles := member_roles db; sessions := sessions db |}.
Definition set_perms (f : list perm_row -> list perm_row) (db : AccessDB) : AccessDB :=
  {| users := users db; tenants := tenants db; members := members db; roles := roles db; perms := f (perms db);
     role_perms := role_perms db; member_roles := member_roles db; sessions := sessions db |}.
Definition set_role_perms (f : list role_perm_row -> list role_perm_row) (db : AccessDB) : AccessDB :=
  {| users := users db; tenants := tenants db; members := members db; roles := roles db; perms := perms db;
     role_perms := f (role_perms db); member_roles := member_roles db; sessions := sessions db |}.
Definition set_member_roles (f : list member_role_row -> list member_role_row) (db : AccessDB) : AccessDB :=
  {| users := users db; tenants := tenants db; members := members db; roles := roles db; perms := perms db;
     role_perms := role_perms db; member_roles := f (member_roles db); sessions := sessions db |}.
Definition set_sessions (f : list session_row -> list session_row) (db : AccessDB) : AccessDB :=
  {| users := users db; tenants := tenants db; members := members db; roles := roles db; perms := perms db;
     role_perms := role_perms db; member_roles := member_roles db; sessions := f (sessions db) |}.

(** ** Lookups *)

Definition has {A} (p : A -> bool) (rows : list A) : bool := existsb p rows.

Definition user_by_id (id : string) (db : AccessDB) := List.find (fun u => u_id u =s id) (users db).
Definition user_by_name (name : string) (db : AccessDB) := List.find (fun u => u_username u =s name) (users db).
Definition tenant_by_id (id : string) (db : AccessDB) := List.find (fun t => te_id t =s id) (tenants db).
Definition member_by_id (id : string) (db : AccessDB) := List.find (fun m => m_id m =s id) (members db).
Definition role_by_id (id : string) (db : AccessDB) := List.find (fun r => ro_id r =s id) (roles db).
Definition perm_by_id (id : string) (db : AccessDB) := List.find (fun p => p_id p =s id) (perms db).
Definition session_by_id (id : string) (db : AccessDB) := List.find (fun s => s_id s =s id) (sessions db).

(** ** Statements that a constraint can refuse *)

Definition unique_failed (cols : string) : string := "UNIQUE constraint failed: " +s+ cols.
Definition not_null_failed (col : string) : string := "NOT NULL constraint failed: " +s+ col.
Definition foreign_key_failed : string := "FOREIGN KEY constraint failed".

(** [strings.Contains(err.Error(), "UNIQUE")] *)
Definition is_unique_error (err : string) : bool := Contains err "UNIQUE".

Notation "'refuse' err 'if' c ';' k" := (if c then inl err else k) (at level 200, err at level 100, k at level 200) : go_scope.

Definition insert_user (r : user_row) (db : AccessDB) : string + AccessDB :=
  refuse unique_failed "users.id" if has (fun u => u_id u =s u_id r) (users db);
  refuse unique_failed "users.username" if has (fun u => u_username u =s u_username r) (users db);
  inr (set_users (fun l => l ++ [r]) db).

Definition same_slug (a b : option string) : bool :=
  match a, b with Some a, Some b => a =s b | _, _ => false end.

Definition insert_tenant (r : tenant_row) (db : AccessDB) : string + AccessDB :=
  refuse not_null_failed "tenants.slug" if match te_slug r with None => true | Some _ => false end;
  refuse unique_failed "tenants.id" if has (fun t => te_id t =s te_id r) (tenants db);
  refuse unique_failed "tenants.slug" if has (fun t => same_slug (te_slug t) (te_slug r)) (tenants db);
  inr (set_tenants (fun l => l ++ [r]) db).

Definition insert_member (r : member_row) (db : AccessDB) : string + AccessDB :=
  refuse unique_failed "tenant_memberships.id" if has (fun m => m_id m =s m_id r) (members db);
  refuse unique_failed "tenant_memberships.user_id, tenant_memberships.tenant_id"
    if has (fun m => (m_user m =s m_user r) && (m_tenant m =s m_tenant r)) (members db);
  refuse foreign_key_failed
    if negb (has (fun u => u_id u =s m_user r) (users db)) || negb (has (fun t => te_id t =s m_tenant r) (tenants db));
  inr (set_members (fun l => l ++ [r]) db).

(** NULLs are distinct in a UNIQUE constraint. *)
Definition same_role_key (a b : role_row) : bool :=
  match ro_tenant a, ro_tenant b with
  | Some s, Some t => (s =s t) && (ro_name a =s ro_name b)
  | _, _ => false
  end.

Definition insert_role (r : role_row) (db : AccessDB) : string + AccessDB :=
  refuse unique_failed "roles.id" if has (fun x => ro_id x =s ro_id r) (roles db);
  refuse unique_failed "roles.tenant_id, roles.name" if has (fun x => same_role_key x r) (roles db);
  inr (set_roles (fun l => l ++ [r]) db).

Definition insert_perm (r : perm_row) (db : AccessDB) : string + AccessDB :=
  refuse unique_failed "permissions.id" if has (fun p => p_id p =s p_id r) (perms db);
  refuse unique_failed "permissions.code" if has (fun p => p_code p =s p_code r) (perms db);
  inr (set_perms (fun l => l ++ [r]) db).

Definition insert_role_perm (r : role_perm_row) (db : AccessDB) : string + AccessDB :=
  refuse unique_failed "role_permissions.id" if has (fun x => rp_id x =s rp_id r) (role_perms db);
  refuse unique_failed "role_permissions.role_id, role_permissions.permission_id"
    if has (fun x => (rp_role x =s rp_role r) && (rp_perm x =s rp_perm r)) (role_perms db);
  refuse foreign_key_failed
    if negb (has (fun x => ro_id x =s rp_role r) (roles db)) || negb (has (fun p => p_id p =s rp_perm r) (perms db));
  inr (set_role_perms (fun l => l ++ [r]) db).

Definition insert_member_role (r : member_role_row) (db : AccessDB) : string + AccessDB :=
  refuse unique_failed "tenant_membership_roles.id" if has (fun x => mr_id x =s mr_id r) (member_roles db);
  refuse unique_failed "tenant_membership_roles.membership_id, tenant_membership_roles.role_id"
    if has (fun x => (mr_member x =s mr_member r) && (mr_role x =s mr_role r)) (member_roles db);
  refuse foreign_key_failed
    if negb (has (fun m => m_id m =s mr_member r) (members db)) || negb (has (fun x => ro_id x =s mr_role r) (roles db));
  inr (set_member_roles (fun l => l ++ [r]) db).

Definition insert_session (r : session_row) (db : AccessDB) : string + AccessDB :=
  refuse unique_failed "sessions.id" if has (fun s => s_id s =s s_id r) (sessions db);
  refuse foreign_key_failed
    if negb (has (fun u => u_id u =s s_user r) (users db)) || negb (has (fun t => te_id t =s s_tenant r) (tenants db));
  inr (set_sessions (fun l => l ++ [r]) db).

(** [DELETE FROM roles WHERE id = ?] *)
Definition delete_role (id : string) (db : AccessDB) : string + AccessDB :=
  refuse foreign_key_failed
    if has (fun r => ro_id r =s id) (roles db) &&
       (has (fun x => rp_role x =s id) (role_perms db) || has (fun x => mr_role x =s id) (member_roles db));
  inr (set_roles (delete_where (fun r => ro_id r =s id)) db).

(** INSERT OR IGNORE: a row that NOT NULL or UNIQUE refuses is skipped, a foreign
    key still fails. *)
Definition or_ignore (db : AccessDB) (r : string + AccessDB) : option (AccessDB * bool) :=
  match r with
  | inr db' => Some (db', true)
  | inl err => if err =s foreign_key_failed then None else Some (db, false)
  end.

(** * Password hashes (internal/server/auth/argon2.go)

    The text form of an Argon2id hash and its verification.  The key derivation
    itself (golang.org/x/crypto/argon2) is a parameter with its documented output
    length; it panics on zero rounds or threads, which no stored hash has
    ([HashPassword] is the only writer).  [salt] is what rand.Read returned, [None]
    its failure. *)
Class Argon2 := {
  IDKey : forall (password salt : string) (time memory threads keyLen : Z), string;
  IDKey_length : forall p s t m th n, String.length (IDKey p s t m th n) = Z.to_nat n
}.

Definition argon2Time : Z := 3.
Definition argon2Memory : Z := 64 * 1024.
Definition argon2Threads : Z := 4.
Definition argon2KeyLen : Z := 32.
Definition argon2SaltLen : Z := 16.

(** One [%d] of a scan, and the text after it. *)
Definition scan_d (s : string) : option (Z * string) :=
  match skip_space s with
  | None => None
  | Some s =>
      let '(neg, ds) := signed_digits s in
      let '(v, n) := scan_digits 0 0 ds in
      let v := if neg then (- v)%Z else v in
      if (n =? 0)%nat then None else if in_int64 v then Some (v, str_drop n ds) else None
  end.

(** Literal text of the format. *)
Definition scan_text (lit s : string) : option string :=
  if HasPrefix s lit then Some (TrimPrefix s lit) else None.

(** [fmt.Sscanf(s, "m=%d,t=%d,p=%d", &memory, &time, &threads)]: input left over is no error. *)
Definition scan_params (s : string) : option (Z * Z * Z) :=
  s ← scan_text "m=" s; m ← scan_d s;
  s ← scan_text ",t=" m.2; t ← scan_d s;
  s ← scan_text ",p=" t.2; p ← scan_d s;
  Some (m.1, t.1, p.1).

Section Passwords.
Context `{A2 : Argon2}.

Definition HashPassword (password : string) (salt : option string) : option string :=
  match salt with
  | None => None
  | Some salt =>
      let hash := IDKey password salt argon2Time argon2Memory argon2Threads argon2KeyLen in
      let b64Salt := RawStdEncode salt in
      let b64Hash := RawStdEncode hash in
      Some ("$argon2id$v=19$m=" +s+ Itoa argon2Memory +s+ ",t=" +s+ Itoa argon2Time +s+ ",p=" +s+
            Itoa argon2Threads +s+ "$" +s+ b64Salt +s+ "$" +s+ b64Hash)
  end.

(** [None] is an error. *)
Definition VerifyPassword (password encodedHash : string) : option bool :=
  match Split encodedHash "$" with
  | [_; _; _; params; salt; hash] =>
      p ← scan_params params;
      let '(memory, time, threads) := p in
      salt ← RawStdDecode salt;
      expectedHash ← RawStdDecode hash;
      let computedHash :=
        IDKey password salt (time mod 2 ^ 32) (memory mod 2 ^ 32) (threads mod 2 ^ 8) (str_len expectedHash mod 2 ^ 32) in
      Some (ConstantTimeCompare computedHash expectedHash =? 1)%Z
  | _ => None
  end.

(** [if err != nil || !ok] *)
Definition password_accepted (password encodedHash : string) : bool :=
  match VerifyPassword password encodedHash with Some true => true | _ => false end.

(** ** Lemmas *)

Lemma ConstantTimeCompare_spec x y : (ConstantTimeCompare x y =? 1)%Z = (x =s y).
Proof. unfold ConstantTimeCompare. by destruct (x =s y). Qed.

(** The six parts of a text with five separators. *)
Lemma Split_six a b c d e f s :
  any_byte (Ascii.eqb s) a = false -> any_byte (Ascii.eqb s) b = false -> any_byte (Ascii.eqb s) c = false ->
  any_byte (Ascii.eqb s) d = false -> any_byte (Ascii.eqb s) e = false -> any_byte (Ascii.eqb s) f = false ->
  Split (a +s+ String s (b +s+ String s (c +s+ String s (d +s+ String s (e +s+ String s f))))) s = [a; b; c; d; e; f].
Proof. intros. rewrite !Split_app_sep by done. by rewrite Split_none. Qed.

(** The key the code derives for a password. *)
Definition derived (password salt : string) : string :=
  IDKey password salt argon2Time argon2Memory argon2Threads argon2KeyLen.

(** See [VerifyPassword_HashPassword]. *)
Lemma VerifyPassword_hash password password' salt h :
  HashPassword password (Some salt) = Some h ->
  VerifyPassword password' h = Some (derived password' salt =s derived password salt).
Proof.
  unfold HashPassword. intros H. apply (inj Some) in H as <-. unfold VerifyPassword. change (Itoa argon2Memory) with "65536". change (Itoa argon2Time) with "3".
  change (Itoa argon2Threads) with "4".
  assert (forall salt64 hash64, any_byte (Ascii.eqb "$") salt64 = false -> any_byte (Ascii.eqb "$") hash64 = false ->
    Split ("$argon2id$v=19$m=" +s+ "65536" +s+ ",t=" +s+ "3" +s+ ",p=" +s+ "4" +s+ "$" +s+ salt64 +s+ "$" +s+ hash64) "$"
    = [EmptyString; "argon2id"; "v=19"; "m=65536,t=3,p=4"; salt64; hash64]) as Hsplit.
  { intros. by apply (Split_six EmptyString "argon2id" "v=19" "m=65536,t=3,p=4"). }
  rewrite Hsplit by apply RawStdEncode_no_dollar.
  change (scan_params "m=65536,t=3,p=4") with (Some (65536, 3, 4)%Z). cbn [mbind option_bind].
  rewrite !RawStdDecode_Encode. cbn [mbind option_bind]. rewrite ConstantTimeCompare_spec.
  unfold derived at 1. unfold str_len. rewrite IDKey_length. done.
Qed.

(** A stored hash is read back: verification of any password against
    the text [HashPassword] made recomputes the key with the recorded salt and
    parameters and accepts exactly when the keys agree; in particular it accepts
    the password that was hashed. *)
Theorem VerifyPassword_HashPassword password password' salt h :
  HashPassword password (Some salt) = Some h ->
  VerifyPassword password' h = Some (derived password' salt =s derived password salt).
Proof. apply VerifyPassword_hash. Qed.
End Passwords.

(** ** Concrete inputs *)

(** A derivation of the right length: the password and the salt, cut or padded. *)
Fixpoint pad_to (n : nat) (s : string) : string :=
  match n with
  | O => EmptyString
  | S n' => match s with
            | EmptyString => String "0" (pad_to n' EmptyString)
            | String c s' => String c (pad_to n' s')
            end
  end.

Lemma pad_to_length n s : String.length (pad_to n s) = n.
Proof. revert s. induction n as [|n IH]; intros [|c s]; cbn; by rewrite ?IH. Qed.

Definition demo_argon2 : Argon2 :=
  {| IDKey := fun p s _ _ _ n => pad_to (Z.to_nat n) (p +s+ s);
     IDKey_length := fun p s _ _ _ n => pad_to_length (Z.to_nat n) (p +s+ s) |}.

Lemma VerifyPassword_HashPassword_witness :
  let h := default EmptyString (@HashPassword demo_argon2 "correct horse" (Some "0123456789abcdef")) in
  @VerifyPassword demo_argon2 "correct horse" h = Some true /\ @VerifyPassword demo_argon2 "wrong" h = Some false.
Proof.
  cbv zeta. split.
  - rewrite (@VerifyPassword_HashPassword demo_argon2 "correct horse" "correct horse" "0123456789abcdef"); [reflexivity|].
    reflexivity.
  - rewrite (@VerifyPassword_HashPassword demo_argon2 "correct horse" "wrong" "0123456789abcdef"); [reflexivity|].
    reflexivity.
Defined.
