(* ===== verification/Auth.v ===== *)
(** * Authentication (internal/server/auth: session.go, csrf.go, ratelimit.go, middleware.go, handlers.go)

    Sessions, CSRF and origin checks, the login rate limiter, the middleware
    chain and the authentication handlers.  A handler is a function from the
    request, its context and the state to the answer and the state after it; a
    middleware maps handlers to handlers, as in the code.  One request reads one
    clock value ([env_now]); [env_rand] is what its reads of crypto/rand return,
    [env_uuid] the identifiers google/uuid makes.  Request bodies arrive decoded,
    [None] where the decoder fails.  SQL statements fail only on a constraint; log
    lines and the disposal of rows are left out.  At the end, the checks of
    internal/server/authz/checks.go. *)
From S2P Require Import Prelude GoStrings GoNumbers GoWeb GoValue Store AccessStore.
From Stdlib Require Import Ascii.

(** ** Requests, answers, environment *)

Record http_request := {
  rq_method : string; rq_path : string; rq_host : string; rq_remote : string;
  rq_header : gmap string string; rq_cookie : gmap string string
}.

(** Header names compare without case: the keys of the map are in lower case. *)
Definition Header_Get (r : http_request) (k : string) : string := default EmptyString (rq_header r !! ToLower k).

Record cookie := {
  ck_name : string; ck_value : string; ck_http_only : bool; ck_lax : bool; ck_secure : bool;
  ck_expires : option Z; ck_max_age : Z
}.

Record response := { rs_code : Z; rs_body : any; rs_cookie : option cookie }.

(** [http.Error(w, `{"error": msg}`, code)] *)
Definition http_error (code : Z) (msg : string) : response :=
  {| rs_code := code; rs_body := AMap [("error", AStr msg)]; rs_cookie := None |}.

(** [json.NewEncoder(w).Encode(v)]; an object lists its entries in the order written. *)
Definition json_reply (code : Z) (v : any) : response := {| rs_code := code; rs_body := v; rs_cookie := None |}.

Definition status_ok : any := AMap [("status", AStr "ok")].

Record Env := { env_now : Z; env_rand : nat -> option string; env_uuid : nat -> string }.

(** ** session.go *)

Record SessionConfig := {
  CookieName : string; IdleTimeoutHours : Z; RefreshWindowHours : Z; Secure : bool
}.

Definition DefaultSessionConfig : SessionConfig :=
  {| CookieName := "lightai_session"; IdleTimeoutHours := 12; RefreshWindowHours := 6; Secure := false |}.

(** [time.Duration(h) * time.Hour] *)
Definition hours (h : Z) : Z := wrap64 (h * hour).

Definition generateRandomHex (bytes : option string) : option string := option_map HexEncode bytes.

(** [sessionHashKey] is the empty string when the key could not be generated. *)
Definition hashString (sessionHashKey s : string) : string :=
  if (0 <? String.length sessionHashKey)%nat then HexEncode (HmacSha256 sessionHashKey s)
  else HexEncode (Sum256 s).

Record SessionInfo := {
  SessionID : string; UserID : string; TenantID : string; IsPlatformAdmin : bool;
  UserStatus : string; TenantStatus : string; CSRFSecretHash : string;
  CreatedAt : Z; LastSeenAt : Z; ExpiresAt : Z; RevokedAt : option Z
}.

Section SessionStore.
Variable cfg : SessionConfig.
(** [SessionStore.hashKey], which is also the package's [sessionHashKey]. *)
Variable key : string.

(** The secrets handed to the client and the tables after the INSERT; [None] is an error. *)
Definition CreateSession (env : Env) (userID tenantID : string) (db : AccessDB) : option (string * string * AccessDB) :=
  sessionID ← generateRandomHex (env_rand env 0);
  csrfSecret ← generateRandomHex (env_rand env 1);
  let now := env_now env in
  let expiresAt := (now + hours (IdleTimeoutHours cfg))%Z in
  match insert_session
          {| s_id := hashString key sessionID; s_user := userID; s_tenant := tenantID;
             s_csrf := hashString key csrfSecret; s_expires := FormatRFC3339 expiresAt; s_revoked := None;
             s_created := FormatRFC3339 now; s_seen := FormatRFC3339 now |} db with
  | inl _ => None
  | inr db' => Some (sessionID, csrfSecret, db')
  end.

(** [UPDATE sessions SET last_seen_at = ?, expires_at = ?] *)
Definition session_refresh (seen expires : stamp) (s : session_row) : session_row :=
  {| s_id := s_id s; s_user := s_user s; s_tenant := s_tenant s; s_csrf := s_csrf s; s_expires := expires;
     s_revoked := s_revoked s; s_created := s_created s; s_seen := seen |}.

Definition session_revoke (now : stamp) (s : session_row) : session_row :=
  {| s_id := s_id s; s_user := s_user s; s_tenant := s_tenant s; s_csrf := s_csrf s; s_expires := s_expires s;
     s_revoked := Some now; s_created := s_created s; s_seen := s_seen s |}.

Definition session_csrf (secret : string) (s : session_row) : session_row :=
  {| s_id := s_id s; s_user := s_user s; s_tenant := s_tenant s; s_csrf := secret; s_expires := s_expires s;
     s_revoked := s_revoked s; s_created := s_created s; s_seen := s_seen s |}.

Definition session_switch (tenant : string) (seen : stamp) (s : session_row) : session_row :=
  {| s_id := s_id s; s_user := s_user s; s_tenant := tenant; s_csrf := s_csrf s; s_expires := s_expires s;
     s_revoked := s_revoked s; s_created := s_created s; s_seen := seen |}.

(** [revoked_at IS NULL] *)
Definition not_revoked (s : session_row) : bool := match s_revoked s with None => true | Some _ => false end.

(** The row of the query: the session joined with its user and its tenant. *)
Definition session_info (sessionID : string) (s : session_row) (u : user_row) (t : tenant_row) : SessionInfo :=
  {| SessionID := sessionID; UserID := s_user s; TenantID := s_tenant s; IsPlatformAdmin := u_admin u;
     UserStatus := u_status u; TenantStatus := te_status t; CSRFSecretHash := s_csrf s;
     CreatedAt := ParseRFC3339 (s_created s); LastSeenAt := ParseRFC3339 (s_seen s);
     ExpiresAt := ParseRFC3339 (s_expires s); RevokedAt := option_map ParseRFC3339 (s_revoked s) |}.

Definition ValidateSession (now : Z) (sessionID : string) (db : AccessDB) : option SessionInfo * AccessDB :=
  if sessionID =s EmptyString then (None, db)
  else
    let sessionIDHash := hashString key sessionID in
    match (s ← session_by_id sessionIDHash db; u ← user_by_id (s_user s) db; t ← tenant_by_id (s_tenant s) db;
           Some (session_info sessionID s u t)) with
    | None => (None, db)
    | Some info =>
        match RevokedAt info with
        | Some _ => (None, db)
        | None =>
            if (ExpiresAt info <? now)%Z then (None, db)
            else if (UserStatus info <>s "active") || (TenantStatus info <>s "active") then (None, db)
            else if (hours (RefreshWindowHours cfg) <? time_sub now (LastSeenAt info))%Z then
              let newExpiresAt := (now + hours (IdleTimeoutHours cfg))%Z in
              (Some info,
               set_sessions (update_where (fun s => s_id s =s sessionIDHash)
                               (session_refresh (FormatRFC3339 now) (FormatRFC3339 newExpiresAt))) db)
            else (Some info, db)
        end
    end.

Definition RevokeSession (now : Z) (sessionID : string) : AccessDB -> AccessDB :=
  set_sessions (update_where (fun s => s_id s =s hashString key sessionID) (session_revoke (FormatRFC3339 now))).

Definition RotateCSRFSecret (bytes : option string) (sessionID : string) (db : AccessDB) : option (string * AccessDB) :=
  csrfSecret ← generateRandomHex bytes;
  Some (csrfSecret,
        set_sessions (update_where (fun s => (s_id s =s hashString key sessionID) && not_revoked s)
                        (session_csrf (hashString key csrfSecret))) db).

Definition RevokeUserSessions (now : Z) (userID exceptSessionID : string) : AccessDB -> AccessDB :=
  set_sessions (update_where
    (fun s => (s_user s =s userID) && (s_id s <>s hashString key exceptSessionID) && not_revoked s)
    (session_revoke (FormatRFC3339 now))).

Definition SetSessionCookie (now : Z) (sessionID : string) : cookie :=
  {| ck_name := CookieName cfg; ck_value := sessionID; ck_http_only := true; ck_lax := true; ck_secure := Secure cfg;
     ck_expires := Some (now + hours (IdleTimeoutHours cfg))%Z; ck_max_age := 0 |}.

Definition ClearSessionCookie : cookie :=
  {| ck_name := CookieName cfg; ck_value := EmptyString; ck_http_only := true; ck_lax := true; ck_secure := Secure cfg;
     ck_expires := None; ck_max_age := -1 |}.
End SessionStore.

(** ** csrf.go *)

Definition CSRFHeader : string := "X-CSRF-Token".

Definition ValidateCSRF (key : string) (r : http_request) (csrfSecretHash : string) : bool :=
  let token := Header_Get r CSRFHeader in
  if token =s EmptyString then false
  else (ConstantTimeCompare (hashString key token) csrfSecretHash =? 1)%Z.

Definition ValidateOrigin (is_ipv6 : string -> bool) (r : http_request) : bool :=
  let origin := Header_Get r "Origin" in
  let origin := if origin =s EmptyString then Header_Get r "Referer" else origin in
  if origin =s EmptyString then false
  else if rq_host r =s EmptyString then false
  else match url_host is_ipv6 origin with
       | None => false
       | Some originHost => (originHost <>s EmptyString) && (originHost =s rq_host r)
       end.

(** ** ratelimit.go

    The token bucket (golang.org/x/time/rate) is a parameter: a bucket, a new one,
    and the answer of [Allow] at an instant with the bucket after it. *)
Class TokenBucket := {
  Bucket : Type;
  NewLimiter : float64 -> Z -> Bucket;
  BucketAllow : Z -> Bucket -> bool * Bucket
}.

Section RateLimit.
Context `{TB : TokenBucket}.

Record rateLimiterEntry := { rl_limiter : Bucket; rl_lastUsed : Z }.

Record LoginRateLimiter := {
  rl_limiters : gmap string rateLimiterEntry; rl_rate : float64; rl_burst : Z; rl_lastCleanup : Z
}.

Definition NewLoginRateLimiter (now : Z) (rate : float64) (burst : Z) : LoginRateLimiter :=
  {| rl_limiters := ∅; rl_rate := rate; rl_burst := burst; rl_lastCleanup := now |}.

(** Entries unused for an hour are dropped, at most once a minute; the entry just
    used is not one of them, and its bucket answers after the lock is released. *)
Definition checkKey (now : Z) (key : string) (l : LoginRateLimiter) : bool * LoginRateLimiter :=
  let limiter := match rl_limiters l !! key with
                 | Some e => rl_limiter e
                 | None => NewLimiter (rl_rate l) (rl_burst l)
                 end in
  let limiters := <[key := {| rl_limiter := limiter; rl_lastUsed := now |}]> (rl_limiters l) in
  let '(limiters, lastCleanup) :=
    if (minute <? time_sub now (rl_lastCleanup l))%Z
    then (filter (fun ke => (time_sub now (rl_lastUsed ke.2) <= hour)%Z) limiters, now)
    else (limiters, rl_lastCleanup l) in
  let '(ok, limiter) := BucketAllow now limiter in
  (ok, {| rl_limiters := alter (fun e => {| rl_limiter := limiter; rl_lastUsed := rl_lastUsed e |}) key limiters;
          rl_rate := rl_rate l; rl_burst := rl_burst l; rl_lastCleanup := lastCleanup |}).

Definition clientIP (r : http_request) : string :=
  let xff := Header_Get r "X-Forwarded-For" in
  if xff <>s EmptyString then TrimSpace (default EmptyString (head (Split xff ","%char)))
  else
    let xri := Header_Get r "X-Real-IP" in
    if xri <>s EmptyString then xri
    else match split_host (rq_remote r) with
         | None => rq_remote r
         | Some host => host
         end.

Definition Allow (now : Z) (r : http_request) (username : string) (l : LoginRateLimiter) : bool * LoginRateLimiter :=
  let '(ok, l) := checkKey now ("user:" +s+ ToLower username) l in
  if negb ok then (false, l)
  else
    let '(ok, l) := checkKey now ("ip:" +s+ clientIP r) l in
    (ok, l).
End RateLimit.

(** ** State, contexts and handlers *)

Record AuthState `{TB : TokenBucket} := {
  st_db : AccessDB;
  st_key : string;
  st_limiter : LoginRateLimiter;
  st_logins_ok : Z;
  st_logins_failed : Z
}.

Record Ctx := { ctx_session : option SessionInfo; ctx_perms : list string; ctx_roles : list string }.

(** The context of a request no middleware has seen. *)
Definition empty_ctx : Ctx := {| ctx_session := None; ctx_perms := []; ctx_roles := [] |}.

Section Server.
Context `{MR : MapRange} `{A2 : Argon2} `{TB : TokenBucket}.
Variable is_ipv6 : string -> bool.
Variable cfg : SessionConfig.

Definition Handler : Type := Env -> http_request -> Ctx -> AuthState -> response * AuthState.

Definition with_db (f : AccessDB -> AccessDB) (st : AuthState) : AuthState :=
  {| st_db := f (st_db st); st_key := st_key st; st_limiter := st_limiter st;
     st_logins_ok := st_logins_ok st; st_logins_failed := st_logins_failed st |}.
Definition with_limiter (l : LoginRateLimiter) (st : AuthState) : AuthState :=
  {| st_db := st_db st; st_key := st_key st; st_limiter := l;
     st_logins_ok := st_logins_ok st; st_logins_failed := st_logins_failed st |}.
Definition IncLoginSuccess (st : AuthState) : AuthState :=
  {| st_db := st_db st; st_key := st_key st; st_limiter := st_limiter st;
     st_logins_ok := st_logins_ok st + 1; st_logins_failed := st_logins_failed st |}.
Definition IncLoginFailed (st : AuthState) : AuthState :=
  {| st_db := st_db st; st_key := st_key st; st_limiter := st_limiter st;
     st_logins_ok := st_logins_ok st; st_logins_failed := st_logins_failed st + 1 |}.

(** ** middleware.go *)

(** The rows of the permission query: role and code, by membership role, then by role permission. *)
Definition granted (membershipID : string) (db : AccessDB) : list (string * string) :=
  tmr ← List.filter (fun x => mr_member x =s membershipID) (member_roles db);
  r ← List.filter (fun r => (ro_id r =s mr_role tmr) && (ro_status r =s "active")) (roles db);
  rp ← List.filter (fun x => rp_role x =s ro_id r) (role_perms db);
  p ← List.filter (fun p => p_id p =s rp_perm rp) (perms db);
  [(ro_id r, p_code p)].

Definition active_membership (userID tenantID : string) (db : AccessDB) : option member_row :=
  List.find (fun m => (m_user m =s userID) && (m_tenant m =s tenantID) && (m_status m =s "active")) (members db).

Definition platform_permissions : list string :=
  ["platform:user:manage"; "platform:tenant:manage"; "platform:settings:write"].

Definition set_of (l : list string) (s : gmap string bool) : gmap string bool :=
  foldl (fun s x => <[x := true]> s) s l.

Definition resolvePermissions (db : AccessDB) (userID tenantID : string) (isPlatformAdmin : bool) :
    list string * list string :=
  let rows := match active_membership userID tenantID db with
              | None => []
              | Some m => granted (m_id m) db
              end in
  let roleSet := set_of rows.*1 ∅ in
  let permSet := set_of rows.*2 ∅ in
  let permSet := if isPlatformAdmin then set_of platform_permissions permSet else permSet in
  ((range roleSet).*1, (range permSet).*1).

Definition hasPermission (permissions : list string) (required : string) : bool :=
  existsb (fun p => p =s required) permissions.

Definition SessionMiddleware (next : Handler) : Handler := fun env r ctx st =>
  match rq_cookie r !! CookieName cfg with
  | None => next env r ctx st
  | Some value =>
      let '(info, db) := ValidateSession cfg (st_key st) (env_now env) value (st_db st) in
      let st := with_db (fun _ => db) st in
      match info with
      | None => next env r ctx st
      | Some info =>
          let '(roleIDs, permissions) :=
            resolvePermissions (st_db st) (UserID info) (TenantID info) (IsPlatformAdmin info) in
          next env r {| ctx_session := Some info; ctx_perms := permissions; ctx_roles := roleIDs |} st
      end
  end.

Definition RequirePermission (permission : string) (next : Handler) : Handler := fun env r ctx st =>
  match ctx_session ctx with
  | None => (http_error 401 "unauthorized", st)
  | Some _ =>
      if hasPermission (ctx_perms ctx) permission then next env r ctx st else (http_error 403 "forbidden", st)
  end.

Definition RequirePlatformAdmin (next : Handler) : Handler := fun env r ctx st =>
  match ctx_session ctx with
  | Some info => if IsPlatformAdmin info then next env r ctx st else (http_error 403 "forbidden", st)
  | None => (http_error 403 "forbidden", st)
  end.

Definition read_method (m : string) : bool := (m =s "GET") || (m =s "HEAD") || (m =s "OPTIONS").

Definition RequirePasswordNotExpired (next : Handler) : Handler := fun env r ctx st =>
  if read_method (rq_method r) then next env r ctx st
  else if (rq_path r =s "/api/v1/auth/change-password") || (rq_path r =s "/api/v1/auth/logout") then next env r ctx st
  else match ctx_session ctx with
       | None => next env r ctx st
       | Some info =>
           match user_by_id (UserID info) (st_db st) with
           | Some u =>
               if u_must_change u
               then (json_reply 403 (AMap [("error", AStr "password change required"); ("code", AStr "must_change_password")]), st)
               else next env r ctx st
           | None => next env r ctx st
           end
       end.

Definition AgentAuthMiddleware (agentToken : string) (next : Handler) : Handler := fun env r ctx st =>
  let authHeader := Header_Get r "Authorization" in
  if (authHeader =s EmptyString) || negb (HasPrefix authHeader "Bearer ") then (http_error 401 "unauthorized", st)
  else if TrimPrefix authHeader "Bearer " <>s agentToken then (http_error 401 "unauthorized", st)
  else next env r ctx st.

Definition CSRFMiddleware (next : Handler) : Handler := fun env r ctx st =>
  if read_method (rq_method r) then next env r ctx st
  else match ctx_session ctx with
       | None => next env r ctx st
       | Some info =>
           if negb (ValidateCSRF (st_key st) r (CSRFSecretHash info)) then (http_error 403 "invalid csrf token", st)
           else if negb (ValidateOrigin is_ipv6 r) then (http_error 403 "invalid origin", st)
           else next env r ctx st
       end.

(** router.go: the chains. *)
Definition chain (middlewares : list (Handler -> Handler)) (h : Handler) : Handler :=
  foldr (fun m h => m h) h middlewares.

Definition sessionChain (h : Handler) : Handler := chain [SessionMiddleware; CSRFMiddleware] h.

Definition platformChain (h : Handler) : Handler :=
  SessionMiddleware (CSRFMiddleware (RequirePasswordNotExpired (RequirePlatformAdmin h))).

Definition tenantChain (h : Handler) (permission : string) : Handler :=
  chain [SessionMiddleware; CSRFMiddleware; RequirePasswordNotExpired; RequirePermission permission] h.

(** ** handlers.go *)

Record LoginRequest := { lr_username : string; lr_password : string; lr_tenant : string }.

(** Active memberships of the user in active tenants, oldest first. *)
Definition active_tenants (userID : string) (db : AccessDB) : list string :=
  tm ← List.filter (fun m => (m_user m =s userID) && (m_status m =s "active")) (members db);
  t ← List.filter (fun t => (te_id t =s m_tenant tm) && (te_status t =s "active")) (tenants db);
  [m_tenant tm].

(** The tenant of the new session, or the answer that refuses the login. *)
Definition login_tenant (requested userID : string) (db : AccessDB) : response + string :=
  if requested =s EmptyString then
    match active_tenants userID db with
    | [] => inl (http_error 403 "no active membership")
    | [tid] => inr tid
    | tids => inl (json_reply 409 (AMap [("error", AStr "tenant_selection_required"); ("available_tenant_ids", AStrs tids)]))
    end
  else if (length (List.filter (fun tid => tid =s requested) (active_tenants userID db)) =? 0)%nat
  then inl (http_error 403 "invalid tenant")
  else inr requested.

(** From the tenant on: the session, the cookie, the counter and the answer. *)
Definition login_session (env : Env) (u : user_row) (tenantID : string) (st : AuthState) : response * AuthState :=
  match tenant_by_id tenantID (st_db st) with
  | None => (http_error 403 "tenant disabled", st)
  | Some t =>
      if te_status t <>s "active" then (http_error 403 "tenant disabled", st)
      else
        match CreateSession cfg (st_key st) env (u_id u) tenantID (st_db st) with
        | None => (http_error 500 "internal error", st)
        | Some (sessionID, csrfSecret, db) =>
            ({| rs_code := 200;
                rs_body := AMap [("user_id", AStr (u_id u)); ("username", AStr (u_username u));
                                 ("display_name", AStr (u_display u)); ("is_platform_admin", ABool (u_admin u));
                                 ("must_change_password", ABool (u_must_change u)); ("tenant_id", AStr tenantID);
                                 ("tenant_name", AStr (te_name t)); ("csrf_token", AStr csrfSecret)];
                rs_cookie := Some (SetSessionCookie cfg (env_now env) sessionID) |},
             IncLoginSuccess (with_db (fun _ => db) st))
        end
  end.

(** After the rate limits: credentials, tenant, session. *)
Definition login_credentials (env : Env) (req : LoginRequest) (st : AuthState) : response * AuthState :=
  match user_by_name (lr_username req) (st_db st) with
  | None => (http_error 401 "invalid credentials", IncLoginFailed st)
  | Some u =>
      if u_status u <>s "active" then (http_error 401 "invalid credentials", IncLoginFailed st)
      else if negb (password_accepted (lr_password req) (u_password_hash u))
      then (http_error 401 "invalid credentials", IncLoginFailed st)
      else match login_tenant (lr_tenant req) (u_id u) (st_db st) with
           | inl answer => (answer, st)
           | inr tenantID => login_session env u tenantID st
           end
  end.

Definition HandleLogin (body : option LoginRequest) : Handler := fun env r _ st =>
  if rq_method r <>s "POST" then (http_error 405 "method not allowed", st)
  else
    let '(ok, l) := Allow (env_now env) r EmptyString (st_limiter st) in
    let st := with_limiter l st in
    if negb ok then (http_error 429 "too many requests", st)
    else if negb (ValidateOrigin is_ipv6 r) then (http_error 403 "invalid origin", st)
    else match body with
         | None => (http_error 400 "invalid request", st)
         | Some req =>
             if (lr_username req =s EmptyString) || (lr_password req =s EmptyString)
             then (http_error 401 "invalid credentials", st)
             else
               let '(ok, l) := Allow (env_now env) r (lr_username req) (st_limiter st) in
               let st := with_limiter l st in
               if negb ok then (http_error 429 "too many requests", st)
               else login_credentials env req st
         end.

Definition HandleLogout : Handler := fun env _ ctx st =>
  match ctx_session ctx with
  | None => (http_error 401 "not logged in", st)
  | Some info =>
      ({| rs_code := 200; rs_body := status_ok; rs_cookie := Some (ClearSessionCookie cfg) |},
       with_db (RevokeSession (st_key st) (env_now env) (SessionID info)) st)
  end.

Definition role_info (r : role_row) : any :=
  AMap [("id", AStr (ro_id r)); ("name", AStr (ro_name r)); ("built_in", ABool (ro_built_in r))].

Definition HandleMe : Handler := fun env _ ctx st =>
  match ctx_session ctx with
  | None => (http_error 401 "unauthorized", st)
  | Some info =>
      match user_by_id (UserID info) (st_db st) with
      | None => (http_error 500 "internal error", st)
      | Some u =>
          let tenantName := match tenant_by_id (TenantID info) (st_db st) with Some t => te_name t | None => "Unknown" end in
          let shown := List.filter (fun r => existsb (fun id => ro_id r =s id) (ctx_roles ctx)) (roles (st_db st)) in
          let body csrf :=
            AMap ([("user", AMap [("id", AStr (UserID info)); ("username", AStr (u_username u));
                                  ("display_name", AStr (u_display u)); ("is_platform_admin", ABool (u_admin u));
                                  ("must_change_password", ABool (u_must_change u))]);
                   ("tenant", AMap [("id", AStr (TenantID info)); ("name", AStr tenantName)]);
                   ("roles", AList (map role_info shown)); ("permissions", AStrs (ctx_perms ctx))] ++ csrf) in
          match RotateCSRFSecret (st_key st) (env_rand env 0) (SessionID info) (st_db st) with
          | Some (csrfToken, db) => (json_reply 200 (body [("csrf_token", AStr csrfToken)]), with_db (fun _ => db) st)
          | None => (json_reply 200 (body []), st)
          end
      end
  end.

Record ChangePasswordRequest := { cp_current : string; cp_new : string }.

(** [UPDATE users SET password_hash = ?, must_change_password = ?, updated_at = ?] *)
Definition user_with_password (hash : string) (must_change : bool) (now : stamp) (u : user_row) : user_row :=
  {| u_id := u_id u; u_username := u_username u; u_password_hash := hash; u_display := u_display u;
     u_status := u_status u; u_admin := u_admin u; u_must_change := must_change; u_created := u_created u; u_updated := now |}.

Definition HandleChangePassword (body : option ChangePasswordRequest) : Handler := fun env _ ctx st =>
  match ctx_session ctx with
  | None => (http_error 401 "unauthorized", st)
  | Some info =>
      match body with
      | None => (http_error 400 "invalid request", st)
      | Some req =>
          if (cp_current req =s EmptyString) || (cp_new req =s EmptyString)
          then (http_error 400 "current and new password required", st)
          else if (str_len (cp_new req) <? 8)%Z then (http_error 400 "new password must be at least 8 characters", st)
          else match user_by_id (UserID info) (st_db st) with
               | None => (http_error 500 "internal error", st)
               | Some u =>
                   if negb (password_accepted (cp_current req) (u_password_hash u))
                   then (http_error 400 "current password is incorrect", st)
                   else match HashPassword (cp_new req) (env_rand env 0) with
                        | None => (http_error 500 "internal error", st)
                        | Some newHash =>
                            let now := env_now env in
                            (json_reply 200 status_ok,
                             with_db (fun db =>
                               RevokeUserSessions (st_key st) now (UserID info) (SessionID info)
                                 (set_users (update_where (fun u => u_id u =s UserID info)
                                               (user_with_password newHash false (FormatRFC3339 now))) db)) st)
                        end
               end
      end
  end.

Definition HandleSwitchTenant (body : option string) : Handler := fun env r ctx st =>
  match ctx_session ctx with
  | None => (http_error 401 "unauthorized", st)
  | Some info =>
      match body with
      | None => (http_error 400 "tenant_id is required", st)
      | Some tenantID =>
          if tenantID =s EmptyString then (http_error 400 "tenant_id is required", st)
          else if negb (IsPlatformAdmin info) &&
                  match active_membership (UserID info) tenantID (st_db st) with None => true | Some _ => false end
          then (http_error 403 "not a member of this tenant", st)
          else match tenant_by_id tenantID (st_db st) with
               | None => (http_error 400 "tenant not found or inactive", st)
               | Some t =>
                   if te_status t <>s "active" then (http_error 400 "tenant not found or inactive", st)
                   else match rq_cookie r !! CookieName cfg with
                        | None => (http_error 400 "no session cookie", st)
                        | Some value =>
                            (json_reply 200 (AMap [("tenant_id", AStr tenantID); ("status", AStr "ok")]),
                             with_db (set_sessions (update_where (fun s => s_id s =s hashString (st_key st) value)
                               (session_switch tenantID (Datetime (env_now env / nanosecond))))) st)
                        end
               end
      end
  end.

Definition HandleCSRFToken : Handler := fun _ r _ st =>
  match rq_cookie r !! CookieName cfg with
  | None => (http_error 401 "no session", st)
  | Some value =>
      match List.find (fun s => (s_id s =s hashString (st_key st) value) && not_revoked s) (sessions (st_db st)) with
      | None => (http_error 401 "no session", st)
      | Some _ =>
          (json_reply 200 (AMap [("message", AStr "CSRF token was provided at login. Use GET /me for a fresh token if lost.");
                                 ("csrf_valid", AStr "true")]), st)
      end
  end.
End Server.

(** * Tenant checks on other tables (internal/server/authz/checks.go)

    Each check reads the tenant of one row and compares it with the session's; a
    table is given as its pairs of identifier and tenant. *)
(** [isPlatformAdmin] and [tenantID] of the request's context. *)
Definition isPlatformAdmin (ctx : Ctx) : bool :=
  match ctx_session ctx with None => false | Some info => IsPlatformAdmin info end.

Definition tenantID (ctx : Ctx) : string :=
  match ctx_session ctx with None => EmptyString | Some info => TenantID info end.

(** [SELECT tenant_id FROM ... WHERE id = ?] *)
Definition row_tenant (table : list (string * string)) (id : string) : option string :=
  option_map snd (List.find (fun row => row.1 =s id) table).

Definition same_tenant (ctx : Ctx) (row : option string) : bool :=
  if isPlatformAdmin ctx then true
  else match row with
       | None => false
       | Some tid => tid =s tenantID ctx
       end.

Definition CheckNodeTenant (ctx : Ctx) (nodes : list node_row) (nodeID : string) : bool :=
  same_tenant ctx (row_tenant (map (fun n => (n_id n, n_tenant n)) nodes) nodeID).

Definition CheckNBRTenant (ctx : Ctx) (node_backend_runtimes : list (string * string)) (nbrID : string) : bool :=
  same_tenant ctx (row_tenant node_backend_runtimes nbrID).

Definition CheckModelRootTenant (ctx : Ctx) (node_model_roots : list (string * string)) (rootID : string) : bool :=
  same_tenant ctx (row_tenant node_model_roots rootID).

Definition CheckModelLocationTenant (ctx : Ctx) (model_locations : list (string * string)) (locationID : string) : bool :=
  same_tenant ctx (row_tenant model_locations locationID).

(** A check passes for a platform administrator, and else exactly when the row
    exists and its tenant is the one of the session (the empty text without one). *)
Lemma same_tenant_spec ctx row :
  same_tenant ctx row = true <-> isPlatformAdmin ctx = true \/ row = Some (tenantID ctx).
Proof.
  unfold same_tenant. destruct (isPlatformAdmin ctx); [split; [by left|done]|].
  destruct row as [tid|]; [rewrite String.eqb_eq|]; split; try done.
  - intros ->. by right.
  - by intros [[=]|[= ->]].
  - by intros [[=]|[=]].
Qed.

Lemma CheckNodeTenant_spec ctx nodes nodeID n info :
  ctx_session ctx = Some info -> IsPlatformAdmin info = false ->
  List.find (fun n => n_id n =s nodeID) nodes = Some n ->
  CheckNodeTenant ctx nodes nodeID = (n_tenant n =s TenantID info).
Proof.
  intros Hc Ha Hn. unfold CheckNodeTenant, same_tenant, isPlatformAdmin, tenantID, row_tenant. rewrite Hc, Ha.
  assert (List.find (fun row => row.1 =s nodeID) (map (fun n => (n_id n, n_tenant n)) nodes) = Some (n_id n, n_tenant n)) as ->; [|done].
  induction nodes as [|m nodes IH]; cbn in *; [done|]. destruct (n_id m =s nodeID); [by injection Hn as ->|by apply IH].
Qed.
