(* ===== verification/Rbac.v ===== *)
(** * User, tenant, membership and role management (internal/server/rbac/handlers.go)

    The handlers that change the access tables, and the listings.  A transaction
    works on its own copy of the tables, which becomes the state when it commits.
    A listing without ORDER BY keeps the order of the table; [ORDER BY] on a text is
    a stable sort by bytes; the timestamps of the listings are left out. *)
From S2P Require Import Prelude GoStrings GoNumbers GoValue Store AccessStore Auth.

(** ** Row updates *)

Definition user_with_display (display : string) (now : stamp) (u : user_row) : user_row :=
  {| u_id := u_id u; u_username := u_username u; u_password_hash := u_password_hash u; u_display := display;
     u_status := u_status u; u_admin := u_admin u; u_must_change := u_must_change u; u_created := u_created u; u_updated := now |}.
Definition user_with_admin (admin : bool) (now : stamp) (u : user_row) : user_row :=
  {| u_id := u_id u; u_username := u_username u; u_password_hash := u_password_hash u; u_display := u_display u;
     u_status := u_status u; u_admin := admin; u_must_change := u_must_change u; u_created := u_created u; u_updated := now |}.
Definition user_with_status (status : string) (now : stamp) (u : user_row) : user_row :=
  {| u_id := u_id u; u_username := u_username u; u_password_hash := u_password_hash u; u_display := u_display u;
     u_status := status; u_admin := u_admin u; u_must_change := u_must_change u; u_created := u_created u; u_updated := now |}.
Definition tenant_with_name (name : string) (now : stamp) (t : tenant_row) : tenant_row :=
  {| te_id := te_id t; te_slug := te_slug t; te_name := name; te_status := te_status t; te_created := te_created t; te_updated := now |}.
Definition tenant_with_status (status : string) (now : stamp) (t : tenant_row) : tenant_row :=
  {| te_id := te_id t; te_slug := te_slug t; te_name := te_name t; te_status := status; te_created := te_created t; te_updated := now |}.
Definition member_with_status (status : string) (now : stamp) (m : member_row) : member_row :=
  {| m_id := m_id m; m_user := m_user m; m_tenant := m_tenant m; m_status := status; m_created := m_created m; m_updated := now |}.

(** ORDER BY on a text key. *)
Section SortText.
Context {A : Type} (key : A -> string).

Fixpoint text_insert (x : A) (l : list A) : list A :=
  match l with
  | [] => [x]
  | y :: l' => if String.leb (key x) (key y) then x :: l else y :: text_insert x l'
  end.

Definition order_by_text (l : list A) : list A := foldr text_insert [] l.
End SortText.

(** A nil dereference: net/http recovers it and drops the connection. *)
Definition panicked : response := {| rs_code := 0; rs_body := ANil; rs_cookie := None |}.

Section Rbac.
Context `{TB : TokenBucket} `{A2 : Argon2}.

(** ** Users *)

Definition user_view (u : user_row) : any :=
  AMap [("id", AStr (u_id u)); ("username", AStr (u_username u)); ("display_name", AStr (u_display u));
        ("status", AStr (u_status u)); ("is_platform_admin", ABool (u_admin u));
        ("must_change_password", ABool (u_must_change u))].

Definition HandleListUsers : Handler := fun _ _ _ st =>
  (json_reply 200 (AList (map user_view (order_by_text u_username (users (st_db st))))), st).

Record CreateUserRequest := { cu_username : string; cu_password : string; cu_display : string; cu_admin : option bool }.

Definition HandleCreateUser (body : option CreateUserRequest) : Handler := fun env _ _ st =>
  match body with
  | None => (http_error 400 "invalid request", st)
  | Some req =>
      if (cu_username req =s EmptyString) || (cu_password req =s EmptyString)
      then (http_error 400 "username and password required", st)
      else if (str_len (cu_password req) <? 8)%Z then (http_error 400 "password must be at least 8 characters", st)
      else match HashPassword (cu_password req) (env_rand env 0) with
           | None => (http_error 500 "internal error", st)
           | Some passwordHash =>
               let displayName := if cu_display req =s EmptyString then cu_username req else cu_display req in
               let isPA := match cu_admin req with Some b => b | None => false end in
               let now := FormatRFC3339 (env_now env) in
               let userID := env_uuid env 0 in
               match insert_user {| u_id := userID; u_username := cu_username req; u_password_hash := passwordHash;
                                    u_display := displayName; u_status := "active"; u_admin := isPA;
                                    u_must_change := false; u_created := now; u_updated := now |} (st_db st) with
               | inl err =>
                   if is_unique_error err then (http_error 409 "username already exists", st)
                   else (http_error 500 "internal error", st)
               | inr db =>
                   (json_reply 201 (AMap [("id", AStr userID); ("username", AStr (cu_username req));
                                          ("display_name", AStr displayName); ("is_platform_admin", ABool isPA);
                                          ("status", AStr "active")]), with_db (fun _ => db) st)
               end
           end
  end.

Definition HandleGetUser (userID : string) : Handler := fun _ _ _ st =>
  if userID =s EmptyString then (http_error 400 "user id required", st)
  else match user_by_id userID (st_db st) with
       | None => (http_error 404 "user not found", st)
       | Some u => (json_reply 200 (user_view u), st)
       end.

(** [SELECT COUNT( * ) FROM users WHERE is_platform_admin = 1 AND status = 'active' AND id != ?] *)
Definition other_admins (userID : string) (db : AccessDB) : nat :=
  count_where (fun u => u_admin u && (u_status u =s "active") && (u_id u <>s userID)) (users db).

Record UpdateUserRequest := { uu_display : option string; uu_admin : option bool }.

Definition HandleUpdateUser (userID : string) (body : option UpdateUserRequest) : Handler := fun env _ _ st =>
  if userID =s EmptyString then (http_error 400 "user id required", st)
  else match body with
       | None => (http_error 400 "invalid request", st)
       | Some req =>
           let now := FormatRFC3339 (env_now env) in
           let st := match uu_display req with
                     | None => st
                     | Some display =>
                         with_db (set_users (update_where (fun u => u_id u =s userID) (user_with_display display now))) st
                     end in
           match uu_admin req with
           | None => (json_reply 200 status_ok, st)
           | Some isPA =>
               if negb isPA && (other_admins userID (st_db st) =? 0)%nat
               then (http_error 400 "cannot remove last active platform admin", st)
               else (json_reply 200 status_ok,
                     with_db (set_users (update_where (fun u => u_id u =s userID) (user_with_admin isPA now))) st)
           end
       end.

(** [UPDATE sessions SET revoked_at = ? WHERE user_id = ? AND revoked_at IS NULL] *)
Definition revoke_user (now : stamp) (userID : string) : AccessDB -> AccessDB :=
  set_sessions (update_where (fun s => (s_user s =s userID) && not_revoked s) (session_revoke now)).

Definition HandleDisableUser (userID : string) : Handler := fun env _ _ st =>
  if userID =s EmptyString then (http_error 400 "user id required", st)
  else
    let isPA := match user_by_id userID (st_db st) with Some u => u_admin u | None => false end in
    if isPA && (other_admins userID (st_db st) =? 0)%nat
    then (http_error 400 "cannot disable last active platform admin", st)
    else
      let now := FormatRFC3339 (env_now env) in
      (json_reply 200 status_ok,
       with_db (fun db =>
         revoke_user now userID
           (set_users (update_where (fun u => u_id u =s userID) (user_with_status "disabled" now)) db)) st).

Definition HandleResetPassword (userID : string) (body : option string) : Handler := fun env _ _ st =>
  match body with
  | None => (http_error 400 "invalid request", st)
  | Some newPassword =>
      if (str_len newPassword <? 8)%Z then (http_error 400 "password must be at least 8 characters", st)
      else match HashPassword newPassword (env_rand env 0) with
           | None => (http_error 500 "internal error", st)
           | Some passwordHash =>
               let now := FormatRFC3339 (env_now env) in
               (json_reply 200 status_ok,
                with_db (fun db =>
                  revoke_user now userID
                    (set_users (update_where (fun u => u_id u =s userID) (user_with_password passwordHash true now)) db)) st)
           end
  end.

(** ** Tenants *)

Definition tenant_view (t : tenant_row) : any :=
  AMap [("id", AStr (te_id t)); ("name", AStr (te_name t)); ("status", AStr (te_status t))].

Definition HandleListTenants : Handler := fun _ _ _ st =>
  (json_reply 200 (AList (map tenant_view (order_by_text te_name (tenants (st_db st))))), st).

Record CreateTenantRequest := { ct_name : string; ct_admin : string }.

(** The statements of the transaction; [inl] is the answer after a rollback. *)
Definition create_tenant_tx (env : Env) (name adminUserID : string) (db : AccessDB) : response + AccessDB :=
  let now := FormatRFC3339 (env_now env) in
  let tenantID := env_uuid env 0 in
  match insert_tenant {| te_id := tenantID; te_slug := None; te_name := name; te_status := "active";
                         te_created := now; te_updated := now |} db with
  | inl err => inl (if is_unique_error err then http_error 409 "tenant name already exists" else http_error 500 "internal error")
  | inr db =>
      let membershipID := env_uuid env 1 in
      match insert_member {| m_id := membershipID; m_user := adminUserID; m_tenant := tenantID; m_status := "active";
                             m_created := now; m_updated := now |} db with
      | inl _ => inl (http_error 500 "internal error")
      | inr db =>
          match List.find (fun r => match ro_tenant r with None => ro_name r =s "admin" | Some _ => false end) (roles db) with
          | None => inl (http_error 500 "internal error")
          | Some adminRole =>
              match insert_member_role {| mr_id := env_uuid env 2; mr_member := membershipID; mr_role := ro_id adminRole;
                                          mr_created := now |} db with
              | inl _ => inl (http_error 500 "internal error")
              | inr db => inr db
              end
          end
      end
  end.

Definition HandleCreateTenant (body : option CreateTenantRequest) : Handler := fun env _ _ st =>
  match body with
  | None => (http_error 400 "invalid request", st)
  | Some req =>
      if (ct_name req =s EmptyString) || (ct_admin req =s EmptyString)
      then (http_error 400 "name and admin_username required", st)
      else match List.find (fun u => (u_username u =s ct_admin req) && (u_status u =s "active")) (users (st_db st)) with
           | None => (http_error 400 "admin user not found or not active", st)
           | Some u =>
               match create_tenant_tx env (ct_name req) (u_id u) (st_db st) with
               | inl answer => (answer, st)
               | inr db =>
                   (json_reply 201 (AMap [("id", AStr (env_uuid env 0)); ("name", AStr (ct_name req)); ("status", AStr "active")]),
                    with_db (fun _ => db) st)
               end
           end
  end.

Definition HandleGetTenant (tenantID : string) : Handler := fun _ _ _ st =>
  match tenant_by_id tenantID (st_db st) with
  | None => (http_error 404 "tenant not found", st)
  | Some t => (json_reply 200 (tenant_view t), st)
  end.

Definition HandleUpdateTenant (tenantID : string) (body : option (option string)) : Handler := fun env _ _ st =>
  match body with
  | None => (http_error 400 "invalid request", st)
  | Some None => (json_reply 200 status_ok, st)
  | Some (Some name) =>
      (json_reply 200 status_ok,
       with_db (set_tenants (update_where (fun t => te_id t =s tenantID)
                               (tenant_with_name name (FormatRFC3339 (env_now env))))) st)
  end.

Definition HandleDisableTenant (tenantID : string) : Handler := fun env _ _ st =>
  let now := FormatRFC3339 (env_now env) in
  (json_reply 200 status_ok,
   with_db (fun db =>
     set_sessions (update_where (fun s => (s_tenant s =s tenantID) && not_revoked s) (session_revoke now))
       (set_tenants (update_where (fun t => te_id t =s tenantID) (tenant_with_status "disabled" now)) db)) st).

(** ** Memberships of the session's tenant *)

Definition member_view (mu : member_row * user_row) : any :=
  let '(m, u) := mu in
  AMap [("id", AStr (m_id m)); ("tenant_id", AStr (m_tenant m)); ("user_id", AStr (m_user m));
        ("username", AStr (u_username u)); ("status", AStr (m_status m))].

(** The join of the listing. *)
Definition memberships_of (tenantID : string) (db : AccessDB) : list (member_row * user_row) :=
  tm ← List.filter (fun m => m_tenant m =s tenantID) (members db);
  u ← List.filter (fun u => u_id u =s m_user tm) (users db);
  [(tm, u)].

Definition HandleListMemberships : Handler := fun _ _ ctx st =>
  match ctx_session ctx with
  | None => (http_error 401 "unauthorized", st)
  | Some info =>
      (json_reply 200 (AList (map member_view
         (order_by_text (fun mu => u_username mu.2) (memberships_of (TenantID info) (st_db st))))), st)
  end.

Record CreateMembershipRequest := { cm_username : string; cm_roles : list string }.

(** An active role of that identifier. *)
Definition active_role (roleID : string) (db : AccessDB) : option role_row :=
  List.find (fun r => (ro_id r =s roleID) && (ro_status r =s "active")) (roles db).

(** [roleTenantID.Valid && roleTenantID.String != tenantID] *)
Definition foreign_role (r : role_row) (tenantID : string) : bool :=
  match ro_tenant r with Some t => t <>s tenantID | None => false end.

(** The loop that validates the roles: the first answer that refuses one. *)
Fixpoint validate_roles (tenantID : string) (ids : list string) (db : AccessDB) : option response :=
  match ids with
  | [] => None
  | roleID :: ids =>
      match active_role roleID db with
      | None => Some (http_error 400 ("role not found: " +s+ roleID))
      | Some r =>
          if foreign_role r tenantID then Some (http_error 400 "role does not belong to this tenant")
          else validate_roles tenantID ids db
      end
  end.

(** The loop that inserts the roles of the membership, with the identifiers from [n] on. *)
Fixpoint insert_member_roles (env : Env) (n : nat) (membershipID : string) (ids : list string) (db : AccessDB) : string + AccessDB :=
  match ids with
  | [] => inr db
  | roleID :: ids =>
      match insert_member_role {| mr_id := env_uuid env n; mr_member := membershipID; mr_role := roleID;
                                  mr_created := FormatRFC3339 (env_now env) |} db with
      | inl err => inl err
      | inr db => insert_member_roles env (S n) membershipID ids db
      end
  end.

Definition HandleCreateMembership (body : option CreateMembershipRequest) : Handler := fun env _ ctx st =>
  match ctx_session ctx with
  | None => (http_error 401 "unauthorized", st)
  | Some info =>
      match body with
      | None => (http_error 400 "invalid request", st)
      | Some req =>
          if (cm_username req =s EmptyString) || (length (cm_roles req) =? 0)%nat
          then (http_error 400 "username and at least one role_id required", st)
          else match List.find (fun u => (u_username u =s cm_username req) && (u_status u =s "active")) (users (st_db st)) with
               | None => (http_error 400 "user not found or not active", st)
               | Some u =>
                   if has (fun m => (m_tenant m =s TenantID info) && (m_user m =s u_id u)) (members (st_db st))
                   then (http_error 409 "user already has a membership in this tenant", st)
                   else match validate_roles (TenantID info) (cm_roles req) (st_db st) with
                        | Some answer => (answer, st)
                        | None =>
                            let now := FormatRFC3339 (env_now env) in
                            let membershipID := env_uuid env 0 in
                            match insert_member {| m_id := membershipID; m_user := u_id u; m_tenant := TenantID info;
                                                   m_status := "active"; m_created := now; m_updated := now |} (st_db st) with
                            | inl _ => (http_error 500 "internal error", st)
                            | inr db =>
                                match insert_member_roles env 1 membershipID (cm_roles req) db with
                                | inl _ => (http_error 500 "internal error", st)
                                | inr db =>
                                    (json_reply 201 (AMap [("id", AStr membershipID); ("tenant_id", AStr (TenantID info));
                                                           ("user_id", AStr (u_id u)); ("status", AStr "active")]),
                                     with_db (fun _ => db) st)
                                end
                            end
                        end
               end
      end
  end.

Definition HandleDisableMembership (membershipID : string) : Handler := fun env _ ctx st =>
  match member_by_id membershipID (st_db st) with
  | None => (http_error 404 "membership not found", st)
  | Some m =>
      match ctx_session ctx with
      | None => (panicked, st)
      | Some info =>
          if m_tenant m <>s TenantID info then (http_error 403 "forbidden", st)
          else (json_reply 200 status_ok,
                with_db (set_members (update_where (fun m => m_id m =s membershipID)
                                        (member_with_status "disabled" (FormatRFC3339 (env_now env))))) st)
      end
  end.

Definition HandleAddMembershipRole (membershipID : string) (body : option string) : Handler := fun env _ ctx st =>
  match ctx_session ctx with
  | None => (http_error 401 "unauthorized", st)
  | Some info =>
      match body with
      | None => (http_error 400 "invalid request", st)
      | Some roleID =>
          match List.find (fun m => (m_id m =s membershipID) && (m_status m =s "active")) (members (st_db st)) with
          | None => (http_error 404 "membership not found", st)
          | Some m =>
              if m_tenant m <>s TenantID info then (http_error 403 "forbidden", st)
              else match active_role roleID (st_db st) with
                   | None => (http_error 400 "role not found", st)
                   | Some r =>
                       if foreign_role r (TenantID info) then (http_error 403 "role does not belong to this tenant", st)
                       else match insert_member_role {| mr_id := env_uuid env 0; mr_member := membershipID; mr_role := roleID;
                                                        mr_created := FormatRFC3339 (env_now env) |} (st_db st) with
                            | inl err =>
                                if is_unique_error err then (http_error 409 "role already assigned", st)
                                else (http_error 500 "internal error", st)
                            | inr db => (json_reply 201 status_ok, with_db (fun _ => db) st)
                            end
                   end
          end
      end
  end.

Definition HandleRemoveMembershipRole (membershipID roleID : string) : Handler := fun _ _ ctx st =>
  match ctx_session ctx with
  | None => (http_error 401 "unauthorized", st)
  | Some info =>
      match member_by_id membershipID (st_db st) with
      | None => (http_error 404 "membership not found", st)
      | Some m =>
          if m_tenant m <>s TenantID info then (http_error 403 "forbidden", st)
          else if (m_status m =s "active") &&
                  (count_where (fun x => mr_member x =s membershipID) (member_roles (st_db st)) <=? 1)%nat
          then (http_error 400 "cannot remove last role from active membership", st)
          else (json_reply 200 status_ok,
                with_db (set_member_roles (delete_where (fun x => (mr_member x =s membershipID) && (mr_role x =s roleID)))) st)
      end
  end.

(** ** Roles of the session's tenant *)

Definition role_view (r : role_row) : any :=
  AMap ([("id", AStr (ro_id r)); ("name", AStr (ro_name r)); ("display_name", AStr (ro_display r));
         ("description", AStr (ro_description r)); ("built_in", ABool (ro_built_in r)); ("status", AStr (ro_status r))] ++
        match ro_tenant r with Some t => [("tenant_id", AStr t)] | None => [] end).

(** [tenant_id IS NULL OR tenant_id = ?] *)
Definition roles_visible (tenantID : string) (db : AccessDB) : list role_row :=
  List.filter (fun r => match ro_tenant r with None => true | Some t => t =s tenantID end) (roles db).

(** ORDER BY built_in DESC, name *)
Definition role_key (r : role_row) : string := (if ro_built_in r then "0" else "1") +s+ ro_name r.

Definition HandleListRoles : Handler := fun _ _ ctx st =>
  match ctx_session ctx with
  | None => (http_error 401 "unauthorized", st)
  | Some info => (json_reply 200 (AList (map role_view (order_by_text role_key (roles_visible (TenantID info) (st_db st))))), st)
  end.

Record CreateRoleRequest := { cr_name : string; cr_display : string; cr_description : string }.

Definition HandleCreateRole (body : option CreateRoleRequest) : Handler := fun env _ ctx st =>
  match ctx_session ctx with
  | None => (http_error 401 "unauthorized", st)
  | Some info =>
      match body with
      | None => (http_error 400 "invalid request", st)
      | Some req =>
          if cr_name req =s EmptyString then (http_error 400 "name required", st)
          else
            let now := FormatRFC3339 (env_now env) in
            let roleID := env_uuid env 0 in
            match insert_role {| ro_id := roleID; ro_tenant := Some (TenantID info); ro_name := cr_name req;
                                 ro_display := cr_display req; ro_description := cr_description req; ro_built_in := false;
                                 ro_status := "active"; ro_created := now; ro_updated := now |} (st_db st) with
            | inl err =>
                if is_unique_error err then (http_error 409 "role name already exists in this tenant", st)
                else (http_error 500 "internal error", st)
            | inr db =>
                (json_reply 201 (AMap [("id", AStr roleID); ("name", AStr (cr_name req)); ("display_name", AStr (cr_display req));
                                       ("tenant_id", AStr (TenantID info)); ("built_in", ABool false); ("status", AStr "active")]),
                 with_db (fun _ => db) st)
            end
      end
  end.

(** [!tenantID.Valid || tenantID.String != info.TenantID] *)
Definition not_own_role (r : role_row) (tenantID : string) : bool :=
  match ro_tenant r with Some t => t <>s tenantID | None => true end.

Definition HandleDeleteRole (roleID : string) : Handler := fun _ _ ctx st =>
  match ctx_session ctx with
  | None => (http_error 401 "unauthorized", st)
  | Some info =>
      match role_by_id roleID (st_db st) with
      | None => (http_error 404 "role not found", st)
      | Some r =>
          if ro_built_in r then (http_error 403 "cannot delete built-in role", st)
          else if not_own_role r (TenantID info) then (http_error 403 "forbidden", st)
          else if (0 <? count_where (fun x => mr_role x =s roleID) (member_roles (st_db st)))%nat
          then (http_error 409 "role is assigned to memberships, unassign first", st)
          else match delete_role roleID (st_db st) with
               | inl _ => (http_error 500 "internal error", st)
               | inr db => (json_reply 200 status_ok, with_db (fun _ => db) st)
               end
      end
  end.

(** The loop that adds the permissions, with the identifiers from [n] on. *)
Fixpoint insert_role_perms (env : Env) (n : nat) (roleID : string) (ids : list string) (db : AccessDB) : response + AccessDB :=
  match ids with
  | [] => inr db
  | permID :: ids =>
      match perm_by_id permID db with
      | None => inl (http_error 400 ("permission not found: " +s+ permID))
      | Some p =>
          if p_scope p =s "platform" then inl (http_error 400 "cannot assign platform permission to tenant role")
          else match insert_role_perm {| rp_id := env_uuid env n; rp_role := roleID; rp_perm := permID;
                                         rp_created := FormatRFC3339 (env_now env) |} db with
               | inl _ => inl (http_error 500 "internal error")
               | inr db => insert_role_perms env (S n) roleID ids db
               end
      end
  end.

Definition HandleUpdateRolePermissions (roleID : string) (body : option (list string)) : Handler := fun env _ ctx st =>
  match role_by_id roleID (st_db st) with
  | None => (http_error 404 "role not found", st)
  | Some r =>
      if ro_built_in r then (http_error 403 "cannot modify built-in role permissions", st)
      else match ctx_session ctx with
           | None => (match ro_tenant r with None => http_error 403 "forbidden" | Some _ => panicked end, st)
           | Some info =>
               if not_own_role r (TenantID info) then (http_error 403 "forbidden", st)
               else match body with
                    | None => (http_error 400 "invalid request", st)
                    | Some permIDs =>
                        match insert_role_perms env 0 roleID permIDs
                                (set_role_perms (delete_where (fun x => rp_role x =s roleID)) (st_db st)) with
                        | inl answer => (answer, st)
                        | inr db => (json_reply 200 status_ok, with_db (fun _ => db) st)
                        end
                    end
           end
  end.

Definition perm_view (p : perm_row) : any :=
  AMap [("id", AStr (p_id p)); ("code", AStr (p_code p)); ("scope", AStr (p_scope p)); ("description", AStr (p_description p))].

(** The join of the permissions of a role. *)
Definition perms_of_role (roleID : string) (db : AccessDB) : list perm_row :=
  p ← perms db;
  rp ← List.filter (fun x => (rp_perm x =s p_id p) && (rp_role x =s roleID)) (role_perms db);
  [p].

Definition HandleGetRolePermissions (roleID : string) : Handler := fun _ _ ctx st =>
  match ctx_session ctx with
  | None => (http_error 401 "unauthorized", st)
  | Some info =>
      match role_by_id roleID (st_db st) with
      | None => (http_error 404 "role not found", st)
      | Some r =>
          if foreign_role r (TenantID info) then (http_error 403 "forbidden", st)
          else (json_reply 200 (AList (map perm_view (order_by_text p_code (perms_of_role roleID (st_db st))))), st)
      end
  end.

Definition HandleListPermissions : Handler := fun _ _ _ st =>
  (json_reply 200 (AList (map perm_view (order_by_text p_code (perms (st_db st))))), st).
End Rbac.
