(* ===== verification/AccessControl.v ===== *)
(** * The start of the server, its access routes and the states they lead to (internal/server/auth/bootstrap.go, internal/server/api/router.go, cmd/server/main.go)

    First the bootstrap, then the routes with their chains, [serve], the reset of the
    administrator's password and [access_reachable].

    The permission catalog, the built-in roles and [InitBootstrap], one transaction
    on the access tables run at every start of the server.  Environment variables
    and the credentials file are arguments; writing the file is part of the result. *)
From S2P Require Import Prelude GoStrings GoNumbers GoWeb GoValue Store AccessStore Auth Rbac.
From Stdlib Require Import Ascii.

Record BootstrapConfig := {
  bc_Username : string; bc_Password : string; bc_PasswordEnv : string; bc_InitialPasswordEnv : string;
  bc_ForceChangePassword : bool
}.

Record PermissionDef := { pd_code : string; pd_scope : string; pd_description : string }.

Definition perm_def (code scope description : string) : PermissionDef :=
  {| pd_code := code; pd_scope := scope; pd_description := description |}.

Record BuiltinRoleDef := {
  rd_name : string; rd_display : string; rd_description : string; rd_permissions : list string
}.

Definition PermissionCatalog : list PermissionDef :=
  [perm_def "dashboard:read" "tenant" "View dashboard"; perm_def "node:read" "tenant" "View nodes";
   perm_def "node:transfer" "tenant" "Transfer node to another tenant";
   perm_def "node_model_root:read" "tenant" "View node model roots";
   perm_def "node_model_root:write" "tenant" "Manage node model roots";
   perm_def "node_file:read" "tenant" "Browse node model files"; perm_def "gpu:read" "tenant" "View GPUs";
   perm_def "monitoring:read" "tenant" "View monitoring"; perm_def "log:read" "tenant" "View logs";
   perm_def "backend:read" "tenant" "View inference backends and versions";
   perm_def "backend:write" "tenant" "Manage inference backends (platform admin only in v1)";
   perm_def "backend_runtime:read" "tenant" "View backend runtimes and templates";
   perm_def "backend_runtime:write" "tenant" "Manage backend runtimes";
   perm_def "node_runtime_override:read" "tenant" "View node runtime overrides";
   perm_def "node_runtime_override:write" "tenant" "Manage node runtime overrides";
   perm_def "model_artifact:read" "tenant" "View model artifacts";
   perm_def "model_artifact:write" "tenant" "Manage model artifacts";
   perm_def "model_deployment:read" "tenant" "View model deployments";
   perm_def "model_deployment:write" "tenant" "Manage model deployments";
   perm_def "model_deployment:start" "tenant" "Start model deployments";
   perm_def "model_deployment:stop" "tenant" "Stop model deployments";
   perm_def "model_instance:read" "tenant" "View model instances";
   perm_def "model_instance:logs" "tenant" "View model instance logs";
   perm_def "run_plan:read" "tenant" "View resolved run plans";
   perm_def "run_plan:preview" "tenant" "Preview run plans (dry run)";
   perm_def "gpu_lease:read" "tenant" "View GPU leases"; perm_def "gpu_lease:write" "tenant" "Manage GPU leases";
   perm_def "agent_task:read" "tenant" "View agent tasks"; perm_def "agent_task:write" "tenant" "Manage agent tasks";
   perm_def "audit:read" "tenant" "View audit logs"; perm_def "membership:read" "tenant" "View memberships";
   perm_def "membership:write" "tenant" "Manage memberships"; perm_def "role:read" "tenant" "View roles";
   perm_def "role:write" "tenant" "Manage custom roles";
   perm_def "tenant:settings:write" "tenant" "Manage tenant settings";
   perm_def "platform:user:manage" "platform" "Manage global users";
   perm_def "platform:tenant:manage" "platform" "Manage tenants";
   perm_def "platform:settings:write" "platform" "Manage platform settings"].

Definition BuiltinRoles : list BuiltinRoleDef :=
 [{| rd_name := "admin"; rd_display := "Admin"; rd_description := "Tenant administrator with full tenant scope access";
     rd_permissions :=
       ["dashboard:read"; "node:read"; "node_model_root:read"; "node_file:read"; "gpu:read"; "monitoring:read";
        "log:read"; "backend:read"; "backend_runtime:read"; "node_runtime_override:read"; "model_artifact:read";
        "model_deployment:read"; "model_instance:read"; "run_plan:read"; "run_plan:preview"; "gpu_lease:read";
        "agent_task:read"; "backend_runtime:write"; "node_runtime_override:write"; "node_model_root:write";
        "model_artifact:write"; "model_deployment:write"; "model_deployment:start"; "model_deployment:stop";
        "model_instance:logs"; "membership:read"; "membership:write"; "role:read"; "role:write"; "node:transfer";
        "tenant:settings:write"; "audit:read"; "gpu_lease:write"; "agent_task:write"; "backend:write"] |};
  {| rd_name := "operator"; rd_display := "Operator"; rd_description := "Tenant operator with resource management access";
     rd_permissions :=
       ["dashboard:read"; "node:read"; "node_model_root:read"; "node_file:read"; "gpu:read"; "monitoring:read";
        "log:read"; "backend:read"; "backend_runtime:read"; "node_runtime_override:read"; "model_artifact:read";
        "model_deployment:read"; "model_instance:read"; "run_plan:read"; "run_plan:preview"; "gpu_lease:read";
        "agent_task:read"; "backend_runtime:write"; "node_runtime_override:write"; "node_model_root:write";
        "model_artifact:write"; "model_deployment:write"; "model_deployment:start"; "model_deployment:stop";
        "model_instance:logs"] |};
  {| rd_name := "viewer"; rd_display := "Viewer"; rd_description := "Read-only tenant access";
     rd_permissions :=
       ["dashboard:read"; "node:read"; "node_model_root:read"; "node_file:read"; "gpu:read"; "monitoring:read";
        "log:read"; "backend:read"; "backend_runtime:read"; "node_runtime_override:read"; "model_artifact:read";
        "model_deployment:read"; "model_instance:read"; "run_plan:read"; "run_plan:preview"; "gpu_lease:read";
        "agent_task:read"] |}].

(** ** The transaction

    [n] counts the identifiers drawn so far; [None] is an error, after which the
    transaction is rolled back. *)
Section Bootstrap.
Context `{A2 : Argon2}.
Variable env : Env.

Definition boot_now : stamp := FormatRFC3339 (env_now env).

Record BootState := { bs_n : nat; bs_db : AccessDB }.

(** Step 1, one permission: its identifier, found or made. *)
Definition init_perm (acc : option (BootState * gmap string string)) (p : PermissionDef) : option (BootState * gmap string string) :=
  '(bs, permMap) ← acc;
  '(db, _) ← or_ignore (bs_db bs)
    (insert_perm {| p_id := env_uuid env (bs_n bs); p_code := pd_code p; p_scope := pd_scope p;
                    p_description := pd_description p; p_created := boot_now; p_updated := boot_now |} (bs_db bs));
  actual ← List.find (fun x => p_code x =s pd_code p) (perms db);
  Some ({| bs_n := S (bs_n bs); bs_db := db |}, <[pd_code p := p_id actual]> permMap).

Definition init_role_perm (permMap : gmap string string) (roleID : string) (acc : option BootState) (code : string) : option BootState :=
  bs ← acc;
  permID ← permMap !! code;
  '(db, _) ← or_ignore (bs_db bs)
    (insert_role_perm {| rp_id := env_uuid env (bs_n bs); rp_role := roleID; rp_perm := permID; rp_created := boot_now |} (bs_db bs));
  Some {| bs_n := S (bs_n bs); bs_db := db |}.

(** [SELECT id FROM roles WHERE tenant_id IS NULL AND name = ?] *)
Definition builtin_named (name : string) (r : role_row) : bool :=
  match ro_tenant r with None => ro_name r =s name | Some _ => false end.

(** Step 2, one role and its permissions. *)
Definition init_role (permMap : gmap string string) (acc : option BootState) (role : BuiltinRoleDef) : option BootState :=
  bs ← acc;
  '(db, _) ← or_ignore (bs_db bs)
    (insert_role {| ro_id := env_uuid env (bs_n bs); ro_tenant := None; ro_name := rd_name role; ro_display := rd_display role;
                    ro_description := rd_description role; ro_built_in := true; ro_status := "active";
                    ro_created := boot_now; ro_updated := boot_now |} (bs_db bs));
  actual ← List.find (builtin_named (rd_name role)) (roles db);
  foldl (init_role_perm permMap (ro_id actual)) (Some {| bs_n := S (bs_n bs); bs_db := db |}) (rd_permissions role).

Definition default_tenant_id : string := "a0000000-0000-0000-0000-000000000001".

(** Step 3: the default tenant. *)
Definition init_tenant (db : AccessDB) : option (string * AccessDB) :=
  match List.find (fun t => same_slug (te_slug t) (Some "default")) (tenants db) with
  | Some t => Some (te_id t, db)
  | None =>
      match insert_tenant {| te_id := default_tenant_id; te_slug := Some "default"; te_name := "Default Tenant";
                             te_status := "active"; te_created := boot_now; te_updated := boot_now |} db with
      | inl _ => None
      | inr db => Some (default_tenant_id, db)
      end
  end.

(** ** The password *)

(** The word after the label on the first line that starts with it and has one. *)
Definition password_line (line : string) : option string :=
  let trimmed := TrimSpace line in
  if HasPrefix trimmed "Password:" then nth_error (Fields trimmed) 1 else None.

Fixpoint first_password (lines : list string) : string :=
  match lines with
  | [] => EmptyString
  | line :: lines => match password_line line with Some p => p | None => first_password lines end
  end.

Definition readPasswordFromCredentialsFile (file : option string) : string :=
  match file with
  | None => EmptyString
  | Some data => first_password (Split data newline)
  end.

(** Step 4: the configured password, the preferred variable over it, then the
    legacy variable, the credentials file and a generated one, each only where
    nothing was found before.  [random] is what rand.Read returned. *)
Definition bootstrap_password (getenv : string -> string) (file random : option string) (cfg : BootstrapConfig) : option string :=
  let password := bc_Password cfg in
  let password :=
    if (bc_InitialPasswordEnv cfg <>s EmptyString) && (getenv (bc_InitialPasswordEnv cfg) <>s EmptyString)
    then getenv (bc_InitialPasswordEnv cfg) else password in
  let password :=
    if (password =s EmptyString) && (bc_PasswordEnv cfg <>s EmptyString) && (getenv (bc_PasswordEnv cfg) <>s EmptyString)
    then getenv (bc_PasswordEnv cfg) else password in
  let password := if password =s EmptyString then readPasswordFromCredentialsFile file else password in
  if password =s EmptyString then generateRandomHex random else Some password.

(** ** InitBootstrap *)

(** Steps 6 to 8: the administrator, the membership and the role. *)
Definition init_admin (cfg : BootstrapConfig) (tenantID passwordHash : string) (bs : BootState) : option (BootState * bool) :=
  let n := bs_n bs in
  '(db, userCreated) ← or_ignore (bs_db bs)
    (insert_user {| u_id := env_uuid env n; u_username := bc_Username cfg; u_password_hash := passwordHash;
                    u_display := "Administrator"; u_status := "active"; u_admin := true;
                    u_must_change := bc_ForceChangePassword cfg; u_created := boot_now; u_updated := boot_now |} (bs_db bs));
  user ← user_by_name (bc_Username cfg) db;
  '(db, _) ← or_ignore db
    (insert_member {| m_id := env_uuid env (n + 1); m_user := u_id user; m_tenant := tenantID; m_status := "active";
                      m_created := boot_now; m_updated := boot_now |} db);
  member ← List.find (fun m => (m_tenant m =s tenantID) && (m_user m =s u_id user)) (members db);
  adminRole ← List.find (builtin_named "admin") (roles db);
  '(db, _) ← or_ignore db
    (insert_member_role {| mr_id := env_uuid env (n + 2); mr_member := m_id member; mr_role := ro_id adminRole;
                           mr_created := boot_now |} db);
  Some ({| bs_n := n + 3; bs_db := db |}, userCreated).

(** The tables after the commit, and the password to write down when the user is new. *)
Definition InitBootstrap (getenv : string -> string) (file : option string) (cfg : BootstrapConfig) (db : AccessDB) :
    option (AccessDB * option string) :=
  '(bs, permMap) ← foldl init_perm (Some ({| bs_n := 0; bs_db := db |}, ∅ : gmap string string)) PermissionCatalog;
  bs ← foldl (init_role permMap) (Some bs) BuiltinRoles;
  '(tenantID, db) ← init_tenant (bs_db bs);
  password ← bootstrap_password getenv file (env_rand env 0) cfg;
  passwordHash ← HashPassword password (env_rand env 1);
  '(bs, userCreated) ← init_admin cfg tenantID passwordHash {| bs_n := bs_n bs; bs_db := db |};
  Some (bs_db bs, if (userCreated : bool) then Some password else None).

(** The text of the credentials file; [generated] is the time as text. *)
Definition credentials_text (generated username password : string) : string :=
  Join ["============================================"; "LightAI Go - Initial Credentials"; "Generated: " +s+ generated;
        "============================================"; EmptyString; "[Web/Admin]"; "Username: " +s+ username;
        "Password: " +s+ password; "Note: Change this password after first login."; EmptyString; "[Grafana]";
        "See: runtime/initial-credentials.txt (appended by start-observability.sh)";
        "Note: If Grafana is in use, start observability to record its password."; EmptyString]
       (String newline EmptyString).

(** The file afterwards: one that exists is kept. *)
Definition writeInitialCredentials (generated : string) (file : option string) (username password : string) : option string :=
  match file with
  | Some data => Some data
  | None => Some (credentials_text generated username password)
  end.
End Bootstrap.

(** * The access API as a transition system (internal/server/api/router.go, cmd/server/main.go)

    The routes of authentication and access management with their middleware
    chains, the start of the server, and the states reachable by starts and
    requests.  A request is one step: handlers are not interleaved. *)
(** ** Routes

    A call is a route with its path values and decoded body. *)
Inductive api_call :=
| CLogin (body : option LoginRequest)
| CCSRFToken
| CLogout
| CChangePassword (body : option ChangePasswordRequest)
| CMe
| CSwitchTenant (body : option string)
| CListUsers
| CCreateUser (body : option CreateUserRequest)
| CGetUser (id : string)
| CUpdateUser (id : string) (body : option UpdateUserRequest)
| CDisableUser (id : string)
| CResetPassword (id : string) (body : option string)
| CListTenants
| CCreateTenant (body : option CreateTenantRequest)
| CGetTenant (id : string)
| CUpdateTenant (id : string) (body : option (option string))
| CDisableTenant (id : string)
| CListMemberships
| CCreateMembership (body : option CreateMembershipRequest)
| CDisableMembership (id : string)
| CAddMembershipRole (id : string) (body : option string)
| CRemoveMembershipRole (id role_id : string)
| CListRoles
| CCreateRole (body : option CreateRoleRequest)
| CDeleteRole (id : string)
| CUpdateRolePermissions (id : string) (body : option (list string))
| CGetRolePermissions (id : string)
| CListPermissions.

(** The pattern the call was matched by. *)
Definition call_pattern (c : api_call) : string * string :=
  match c with
  | CLogin _ => ("POST", "/api/v1/auth/login")
  | CCSRFToken => ("GET", "/api/v1/auth/csrf-token")
  | CLogout => ("POST", "/api/v1/auth/logout")
  | CChangePassword _ => ("POST", "/api/v1/auth/change-password")
  | CMe => ("GET", "/api/v1/auth/me")
  | CSwitchTenant _ => ("POST", "/api/v1/session/switch-tenant")
  | CListUsers => ("GET", "/api/v1/users")
  | CCreateUser _ => ("POST", "/api/v1/users")
  | CGetUser id => ("GET", "/api/v1/users/" +s+ id)
  | CUpdateUser id _ => ("PUT", "/api/v1/users/" +s+ id)
  | CDisableUser id => ("POST", "/api/v1/users/" +s+ id +s+ "/disable")
  | CResetPassword id _ => ("POST", "/api/v1/users/" +s+ id +s+ "/reset-password")
  | CListTenants => ("GET", "/api/v1/tenants")
  | CCreateTenant _ => ("POST", "/api/v1/tenants")
  | CGetTenant id => ("GET", "/api/v1/tenants/" +s+ id)
  | CUpdateTenant id _ => ("PUT", "/api/v1/tenants/" +s+ id)
  | CDisableTenant id => ("POST", "/api/v1/tenants/" +s+ id +s+ "/disable")
  | CListMemberships => ("GET", "/api/v1/tenant-memberships")
  | CCreateMembership _ => ("POST", "/api/v1/tenant-memberships")
  | CDisableMembership id => ("POST", "/api/v1/tenant-memberships/" +s+ id +s+ "/disable")
  | CAddMembershipRole id _ => ("POST", "/api/v1/tenant-memberships/" +s+ id +s+ "/roles")
  | CRemoveMembershipRole id rid => ("DELETE", "/api/v1/tenant-memberships/" +s+ id +s+ "/roles/" +s+ rid)
  | CListRoles => ("GET", "/api/v1/roles")
  | CCreateRole _ => ("POST", "/api/v1/roles")
  | CDeleteRole id => ("DELETE", "/api/v1/roles/" +s+ id)
  | CUpdateRolePermissions id _ => ("PUT", "/api/v1/roles/" +s+ id +s+ "/permissions")
  | CGetRolePermissions id => ("GET", "/api/v1/roles/" +s+ id +s+ "/permissions")
  | CListPermissions => ("GET", "/api/v1/permissions")
  end.

(** The chain of a route. *)
Inductive route_kind := Open | Session | Platform | Tenant (permission : string).

#[export] Instance route_kind_eq_dec : EqDecision route_kind.
Proof. solve_decision. Defined.

Definition call_kind (c : api_call) : route_kind :=
  match c with
  | CLogin _ | CCSRFToken => Open
  | CLogout | CChangePassword _ | CMe | CSwitchTenant _ => Session
  | CListUsers | CCreateUser _ | CGetUser _ | CUpdateUser _ _ | CDisableUser _ | CResetPassword _ _
  | CListTenants | CCreateTenant _ | CGetTenant _ | CUpdateTenant _ _ | CDisableTenant _ => Platform
  | CListMemberships => Tenant "membership:read"
  | CCreateMembership _ | CDisableMembership _ | CAddMembershipRole _ _ | CRemoveMembershipRole _ _ => Tenant "membership:write"
  | CListRoles | CGetRolePermissions _ | CListPermissions => Tenant "role:read"
  | CCreateRole _ | CDeleteRole _ | CUpdateRolePermissions _ _ => Tenant "role:write"
  end.

Section Access.
Context `{MR : MapRange} `{A2 : Argon2} `{TB : TokenBucket}.
Variable is_ipv6 : string -> bool.
Variable cfg : SessionConfig.

Definition call_handler (c : api_call) : Handler :=
  match c with
  | CLogin b => HandleLogin is_ipv6 cfg b
  | CCSRFToken => HandleCSRFToken cfg
  | CLogout => HandleLogout cfg
  | CChangePassword b => HandleChangePassword b
  | CMe => HandleMe
  | CSwitchTenant b => HandleSwitchTenant cfg b
  | CListUsers => HandleListUsers
  | CCreateUser b => HandleCreateUser b
  | CGetUser id => HandleGetUser id
  | CUpdateUser id b => HandleUpdateUser id b
  | CDisableUser id => HandleDisableUser id
  | CResetPassword id b => HandleResetPassword id b
  | CListTenants => HandleListTenants
  | CCreateTenant b => HandleCreateTenant b
  | CGetTenant id => HandleGetTenant id
  | CUpdateTenant id b => HandleUpdateTenant id b
  | CDisableTenant id => HandleDisableTenant id
  | CListMemberships => HandleListMemberships
  | CCreateMembership b => HandleCreateMembership b
  | CDisableMembership id => HandleDisableMembership id
  | CAddMembershipRole id b => HandleAddMembershipRole id b
  | CRemoveMembershipRole id rid => HandleRemoveMembershipRole id rid
  | CListRoles => HandleListRoles
  | CCreateRole b => HandleCreateRole b
  | CDeleteRole id => HandleDeleteRole id
  | CUpdateRolePermissions id b => HandleUpdateRolePermissions id b
  | CGetRolePermissions id => HandleGetRolePermissions id
  | CListPermissions => HandleListPermissions
  end.

Definition SetupRoutes (c : api_call) : Handler :=
  match call_kind c with
  | Open => call_handler c
  | Session => sessionChain is_ipv6 cfg (call_handler c)
  | Platform => platformChain is_ipv6 cfg (call_handler c)
  | Tenant permission => tenantChain is_ipv6 cfg (call_handler c) permission
  end.

(** The request as the mux hands it over. *)
Definition matched (c : api_call) (r : http_request) : http_request :=
  {| rq_method := (call_pattern c).1; rq_path := (call_pattern c).2; rq_host := rq_host r; rq_remote := rq_remote r;
     rq_header := rq_header r; rq_cookie := rq_cookie r |}.

Definition serve (c : api_call) (env : Env) (r : http_request) (st : AuthState) : response * AuthState :=
  SetupRoutes c env (matched c r) empty_ctx st.

(** ** Start of the server *)

(** [NewSessionStore]: the key of this process, empty when rand.Read fails. *)
Definition NewSessionStore (random : option string) : string := default EmptyString random.

(** The tables [createConfigSetSchema] leaves. *)
Definition schema_db (created : stamp) : AccessDB :=
  {| users := [];
     tenants := [{| te_id := default_tenant_id; te_slug := Some "default"; te_name := "Default Tenant";
                    te_status := "active"; te_created := created; te_updated := created |}];
     members := []; roles := []; perms := []; role_perms := []; member_roles := []; sessions := [] |}.

Definition server_bootstrap : BootstrapConfig :=
  {| bc_Username := "admin"; bc_Password := EmptyString; bc_PasswordEnv := "LIGHTAI_BOOTSTRAP_ADMIN_PASSWORD";
     bc_InitialPasswordEnv := "LIGHTAI_BOOTSTRAP_INITIAL_PASSWORD"; bc_ForceChangePassword := true |}.

(** The server after its start on the given tables; [None] when the bootstrap
    fails and the process exits. *)
Definition start_server (env : Env) (getenv : string -> string) (file : option string) (rate : float64) (db : AccessDB) :
    option AuthState :=
  '(db, _) ← InitBootstrap env getenv file server_bootstrap db;
  Some {| st_db := db; st_key := NewSessionStore (env_rand env 2); st_limiter := NewLoginRateLimiter (env_now env) rate 5;
          st_logins_ok := 0; st_logins_failed := 0 |}.

(** ** Reset of the administrator's password

    [runResetAdminPassword], a process of its own on the tables of the server.
    [typed]: what is typed at the prompt, if it is interactive; [None]: the process exits
    and nothing is written.  The file of credentials gets the password that is returned. *)
Definition runResetAdminPassword (env : Env) (newPassword : string) (typed : option string) (db : AccessDB) : option (AccessDB * string) :=
  chosen ← match typed with
           | Some EmptyString => None
           | Some input => Some input
           | None => if newPassword =s "" then HexEncode <$> env_rand env 0 else Some newPassword
           end;
  hash ← HashPassword chosen (env_rand env 1);
  if existsb (fun u => u_username u =s "admin") (users db)
  then Some (set_users (update_where (fun u => u_username u =s "admin")
                          (user_with_password hash true (Datetime (env_now env / nanosecond)))) db, chosen)
  else None.

(** ** Steps *)

Inductive access_step : AuthState -> AuthState -> Prop :=
| step_request c env r st : access_step st (serve c env r st).2
| step_restart env getenv file rate st st' :
    start_server env getenv file rate (st_db st) = Some st' -> access_step st st'
| step_reset env newPassword typed chosen db st :
    runResetAdminPassword env newPassword typed (st_db st) = Some (db, chosen) -> access_step st (with_db (fun _ => db) st).

Inductive access_steps : AuthState -> AuthState -> Prop :=
| steps_refl st : access_steps st st
| steps_next st st' st'' : access_steps st st' -> access_step st' st'' -> access_steps st st''.

Inductive access_reachable : AuthState -> Prop :=
| access_reachable_start created env getenv file rate st :
    start_server env getenv file rate (schema_db created) = Some st -> access_reachable st
| access_reachable_step st st' : access_reachable st -> access_step st st' -> access_reachable st'.

Lemma access_reachable_steps st st' : access_reachable st -> access_steps st st' -> access_reachable st'.
Proof. intros Hr. induction 1 as [|st st' st'' _ IH Hs]; [done|]. by eapply access_reachable_step, Hs; auto. Qed.

(** ** The chains as equations *)

Definition session_of (env : Env) (r : http_request) (st : AuthState) : option SessionInfo * AccessDB :=
  match rq_cookie r !! CookieName cfg with
  | None => (None, st_db st)
  | Some value => ValidateSession cfg (st_key st) (env_now env) value (st_db st)
  end.

Definition session_ctx (db : AccessDB) (info : SessionInfo) : Ctx :=
  let '(roleIDs, permissions) := resolvePermissions db (UserID info) (TenantID info) (IsPlatformAdmin info) in
  {| ctx_session := Some info; ctx_perms := permissions; ctx_roles := roleIDs |}.

Lemma with_db_id st : with_db (fun _ => st_db st) st = st.
Proof. by destruct st. Qed.

Lemma SessionMiddleware_eq next env r st :
  SessionMiddleware cfg next env r empty_ctx st =
  let '(info, db) := session_of env r st in
  next env r (match info with None => empty_ctx | Some i => session_ctx db i end) (with_db (fun _ => db) st).
Proof.
  unfold SessionMiddleware, session_of, session_ctx. destruct (rq_cookie r !! CookieName cfg) as [v|]; [|by rewrite with_db_id].
  destruct (ValidateSession _ _ _ _ _) as [[i|] db]; [|done]. cbn [st_db with_db].
  by destruct (resolvePermissions _ _ _ _).
Qed.

(** The origin and token check of a request that changes state. *)
Definition csrf_ok (key : string) (r : http_request) (info : SessionInfo) : bool :=
  read_method (rq_method r) || (ValidateCSRF key r (CSRFSecretHash info) && ValidateOrigin is_ipv6 r).

Definition password_ok (r : http_request) (info : SessionInfo) (db : AccessDB) : bool :=
  read_method (rq_method r) || (rq_path r =s "/api/v1/auth/change-password") || (rq_path r =s "/api/v1/auth/logout") ||
  negb (match user_by_id (UserID info) db with Some u => u_must_change u | None => false end).

Lemma CSRFMiddleware_eq next env r ctx st :
  CSRFMiddleware is_ipv6 next env r ctx st =
  match ctx_session ctx with
  | None => next env r ctx st
  | Some info =>
      if csrf_ok (st_key st) r info then next env r ctx st
      else if ValidateCSRF (st_key st) r (CSRFSecretHash info) then (http_error 403 "invalid origin", st)
      else (http_error 403 "invalid csrf token", st)
  end.
Proof.
  unfold CSRFMiddleware, csrf_ok. destruct (read_method _), (ctx_session ctx) as [i|]; [done|done| |done]. cbn [orb].
  by destruct (ValidateCSRF _ _ _), (ValidateOrigin _ _).
Qed.

Lemma RequirePasswordNotExpired_eq next env r ctx st :
  exists refusal, rs_code refusal = 403%Z /\
  RequirePasswordNotExpired next env r ctx st =
  match ctx_session ctx with
  | None => next env r ctx st
  | Some info => if password_ok r info (st_db st) then next env r ctx st else (refusal, st)
  end.
Proof.
  unfold RequirePasswordNotExpired, password_ok.
  exists (json_reply 403 (AMap [("error", AStr "password change required"); ("code", AStr "must_change_password")])).
  split; [done|].
  destruct (read_method _); [by destruct (ctx_session ctx)|]. cbn [orb].
  destruct (_ =s _), (_ =s _), (ctx_session ctx) as [i|]; try done; cbn [orb].
  destruct (user_by_id _ _) as [u|]; [|done]. by destruct (u_must_change u).
Qed.
End Access.
