(* ===== verification/AccessChanges.v ===== *)
(** * What the access handlers write

    Every change of the access tables is a sequence of statements [stmt], each with
    the guard under which the code issues it.  The relation is indexed by a scope:
    [Some t] holds the statements of a handler that acts for tenant [t], [None] all
    of them.  The handlers and the bootstrap refine it ([call_changes],
    [InitBootstrap_changes]); invariants are proved on statements. *)
From stdpp Require Import relations.
From S2P Require Import Prelude GoStrings GoNumbers GoWeb GoValue Store AccessStore Auth Rbac AccessControl.

(** ** Searching rows *)

Section Rows.
Context {A : Type}.
Implicit Types (p : A -> bool) (l : list A).

Lemma find_elem p l x : List.find p l = Some x -> x ∈ l /\ p x = true.
Proof. intros [H1 H2]%find_some. split; [by apply list_elem_of_In|done]. Qed.

Lemma has_true p l : has p l = true -> exists x, x ∈ l /\ p x = true.
Proof. intros (x & Hx & Hp)%existsb_exists. exists x. split; [by apply list_elem_of_In|done]. Qed.

Lemma has_false p l x : has p l = false -> x ∈ l -> p x = false.
Proof.
  intros H Hx. apply not_true_iff_false. intros Hp. apply not_true_iff_false in H. apply H.
  apply existsb_exists. exists x. split; [by apply list_elem_of_In|done].
Qed.

Lemma has_intro p l x : x ∈ l -> p x = true -> has p l = true.
Proof. intros Hx Hp. apply existsb_exists. exists x. split; [by apply list_elem_of_In|done]. Qed.

(** The key of a row identifies it. *)
Lemma key_unique (key : A -> string) l x y : NoDup (map key l) -> x ∈ l -> y ∈ l -> key x = key y -> x = y.
Proof.
  induction l as [|z l IH]; intros Hnd Hx Hy Hk; [by apply not_elem_of_nil in Hx|].
  cbn in Hnd. apply NoDup_cons in Hnd as [Hz Hnd].
  assert (forall w, w ∈ l -> key w ≠ key z) as Hne.
  { intros w Hw He. apply Hz. rewrite <- He. apply list_elem_of_In, in_map. by apply list_elem_of_In. }
  apply elem_of_cons in Hx as [->|Hx], Hy as [->|Hy]; [done| | |by apply IH].
  - by destruct (Hne y Hy).
  - by destruct (Hne x Hx).
Qed.

Lemma find_key (key : A -> string) l x :
  NoDup (map key l) -> x ∈ l -> List.find (fun y => String.eqb (key y) (key x)) l = Some x.
Proof.
  intros Hnd Hx. destruct (List.find _ l) as [y|] eqn:E.
  - apply find_elem in E as [Hy He]. apply String.eqb_eq in He. f_equal. by apply (key_unique key l).
  - eapply List.find_none in E; [|by apply list_elem_of_In]. by rewrite String.eqb_refl in E.
Qed.

Lemma NoDup_key_app (key : A -> string) l x :
  NoDup (map key l) -> has (fun y => String.eqb (key y) (key x)) l = false -> NoDup (map key (l ++ [x])).
Proof.
  intros Hnd Hx. rewrite map_app. apply NoDup_app. split; [done|]. split; [|apply NoDup_singleton].
  intros k Hk ->%list_elem_of_singleton. apply list_elem_of_In, in_map_iff in Hk as (y & Hy & Hin%list_elem_of_In).
  apply (has_false _ _ _ Hx) in Hin. cbn in Hin. by rewrite Hy, String.eqb_refl in Hin.
Qed.

Lemma find_app_some p l l' x : List.find p l = Some x -> List.find p (l ++ l') = Some x.
Proof. induction l as [|y l IH]; cbn; [done|]. by destruct (p y). Qed.

Lemma find_app_new p l x : has p l = false -> p x = true -> List.find p (l ++ [x]) = Some x.
Proof.
  induction l as [|y l IH]; cbn; intros Hl Hx; [by rewrite Hx|]. apply orb_false_iff in Hl as [-> Hl]. by apply IH.
Qed.

(** An update that keeps the condition updates the row found. *)
Lemma find_updated p q (f : A -> A) l :
  (forall x, p (f x) = p x) -> List.find p (update_where q f l) = option_map (fun x => if q x then f x else x) (List.find p l).
Proof.
  intros Hp. induction l as [|x l IH]; cbn; [done|].
  assert (p (if q x then f x else x) = p x) as -> by (by destruct (q x)). by destruct (p x).
Qed.
End Rows.

(** ** Statements *)

Definition in_scope (scope : option string) (t : string) : Prop := scope = None \/ scope = Some t.

(** The row is updated, not replaced, and a revocation stays. *)
Definition keeps_session (f : session_row -> session_row) : Prop :=
  forall s, s_id (f s) = s_id s /\ s_user (f s) = s_user s /\ (s_revoked s <> None -> s_revoked (f s) <> None).

Definition keeps_user (f : user_row -> user_row) : Prop :=
  forall u, u_id (f u) = u_id u /\ u_admin (f u) = u_admin u /\ u_status (f u) = u_status u.

Inductive stmt (scope : option string) : AccessDB -> AccessDB -> Prop :=
| st_sessions p f db : keeps_session f -> stmt scope db (set_sessions (update_where p f) db)
| st_insert_session s db db' : insert_session s db = inr db' -> stmt scope db db'
| st_users p f db : scope = None -> keeps_user f -> stmt scope db (set_users (update_where p f) db)
| st_admin id isPA now db :
    scope = None -> isPA = true \/ other_admins id db <> 0%nat ->
    stmt scope db (set_users (update_where (fun u => u_id u =s id) (user_with_admin isPA now)) db)
| st_disable_user id now db :
    scope = None -> (forall u, user_by_id id db = Some u -> u_admin u = true -> other_admins id db <> 0%nat) ->
    stmt scope db (set_users (update_where (fun u => u_id u =s id) (user_with_status "disabled" now)) db)
| st_insert_user u db db' : scope = None -> insert_user u db = inr db' -> stmt scope db db'
| st_tenants p f db : scope = None -> stmt scope db (set_tenants (update_where p f) db)
| st_insert_tenant t db db' : scope = None -> insert_tenant t db = inr db' -> stmt scope db db'
| st_insert_member m db db' : in_scope scope (m_tenant m) -> insert_member m db = inr db' -> stmt scope db db'
| st_member_status id m status now db :
    member_by_id id db = Some m -> in_scope scope (m_tenant m) ->
    stmt scope db (set_members (update_where (fun m => m_id m =s id) (member_with_status status now)) db)
| st_insert_builtin r db db' :
    scope = None -> ro_tenant r = None -> ro_built_in r = true -> insert_role r db = inr db' -> stmt scope db db'
| st_insert_role r t db db' :
    in_scope scope t -> ro_tenant r = Some t -> ro_built_in r = false -> insert_role r db = inr db' -> stmt scope db db'
| st_delete_role id r t db db' :
    role_by_id id db = Some r -> ro_tenant r = Some t -> in_scope scope t -> delete_role id db = inr db' -> stmt scope db db'
| st_insert_member_role x m r db db' :
    m ∈ members db -> m_id m = mr_member x -> in_scope scope (m_tenant m) ->
    r ∈ roles db -> ro_id r = mr_role x -> ro_tenant r = None \/ ro_tenant r = Some (m_tenant m) ->
    insert_member_role x db = inr db' -> stmt scope db db'
| st_delete_member_role id m rid db :
    member_by_id id db = Some m -> in_scope scope (m_tenant m) ->
    stmt scope db (set_member_roles (delete_where (fun x => (mr_member x =s id) && (mr_role x =s rid))) db)
| st_insert_role_perm x r p db db' :
    r ∈ roles db -> ro_id r = rp_role x -> scope = None \/ (ro_tenant r <> None /\ scope = ro_tenant r) ->
    p ∈ perms db -> p_id p = rp_perm x -> p_scope p <> "platform" ->
    insert_role_perm x db = inr db' -> stmt scope db db'
| st_delete_role_perms id r t db :
    role_by_id id db = Some r -> ro_tenant r = Some t -> in_scope scope t ->
    stmt scope db (set_role_perms (delete_where (fun x => rp_role x =s id)) db)
| st_insert_perm p db db' :
    scope = None -> p_scope p = "platform" <-> p_code p ∈ platform_permissions -> insert_perm p db = inr db' -> stmt scope db db'.

Definition changes (scope : option string) : AccessDB -> AccessDB -> Prop := rtc (stmt scope).

Lemma changes_one scope db db' : stmt scope db db' -> changes scope db db'.
Proof. apply rtc_once. Qed.

Lemma changes_trans scope db db' db'' : changes scope db db' -> changes scope db' db'' -> changes scope db db''.
Proof. intros H1 H2. by transitivity db'. Qed.

Lemma in_scope_weaken scope t : in_scope scope t -> in_scope None t.
Proof. by left. Qed.

Lemma member_role_change scope i m r c db db' :
  m ∈ members db -> in_scope scope (m_tenant m) -> r ∈ roles db -> ro_tenant r = None \/ ro_tenant r = Some (m_tenant m) ->
  insert_member_role {| mr_id := i; mr_member := m_id m; mr_role := ro_id r; mr_created := c |} db = inr db' ->
  changes scope db db'.
Proof. intros. by eapply changes_one, (st_insert_member_role _ {| mr_id := i; mr_member := m_id m; mr_role := ro_id r; mr_created := c |} m r). Qed.

Lemma role_perm_change scope i r p c db db' :
  r ∈ roles db -> scope = None \/ (ro_tenant r <> None /\ scope = ro_tenant r) -> p ∈ perms db -> p_scope p <> "platform" ->
  insert_role_perm {| rp_id := i; rp_role := ro_id r; rp_perm := p_id p; rp_created := c |} db = inr db' ->
  changes scope db db'.
Proof. intros. by eapply changes_one, (st_insert_role_perm _ {| rp_id := i; rp_role := ro_id r; rp_perm := p_id p; rp_created := c |} r p). Qed.

Lemma changes_then_sessions scope p f db db' :
  stmt scope db db' -> keeps_session f -> changes scope db (set_sessions (update_where p f) db').
Proof. intros H Hf. eapply rtc_l; [exact H|]. by apply changes_one, st_sessions. Qed.

(** What a tenant may do, the server may do. *)
Lemma stmt_weaken scope db db' : stmt scope db db' -> stmt None db db'.
Proof.
  destruct 1; [eapply st_sessions|eapply st_insert_session|eapply st_users|eapply st_admin|eapply st_disable_user|
    eapply st_insert_user|eapply st_tenants|eapply st_insert_tenant|eapply st_insert_member|eapply st_member_status|
    eapply st_insert_builtin|eapply st_insert_role|eapply st_delete_role|eapply st_insert_member_role|
    eapply st_delete_member_role|eapply st_insert_role_perm|eapply st_delete_role_perms|eapply st_insert_perm];
    eauto using in_scope_weaken.
Qed.

Lemma changes_weaken scope db db' : changes scope db db' -> changes None db db'.
Proof. induction 1; [constructor|econstructor; eauto using stmt_weaken]. Qed.

Create HintDb access.
#[export] Hint Constructors stmt : access.
#[export] Hint Resolve changes_one rtc_refl : access.

(** ** The writes keep what they must *)

Lemma keeps_refresh seen expires : keeps_session (session_refresh seen expires).
Proof. by intros s. Qed.
Lemma keeps_revoke now : keeps_session (session_revoke now).
Proof. by intros s. Qed.
Lemma keeps_csrf secret : keeps_session (session_csrf secret).
Proof. by intros s. Qed.
Lemma keeps_switch tenant seen : keeps_session (session_switch tenant seen).
Proof. by intros s. Qed.
Lemma keeps_password hash must now : keeps_user (user_with_password hash must now).
Proof. by intros u. Qed.
Lemma keeps_display display now : keeps_user (user_with_display display now).
Proof. by intros u. Qed.

#[export] Hint Resolve keeps_refresh keeps_revoke keeps_csrf keeps_switch keeps_password keeps_display : access.

(** ** The handlers refine the statements *)

(** Walk through the branches of a handler; branches that write nothing are closed. *)
Ltac walk :=
  repeat (case_match_goal; cbn [fst snd st_db with_db with_limiter IncLoginFailed IncLoginSuccess]); try apply rtc_refl.

Section Handlers.
Context `{MR : MapRange} `{A2 : Argon2} `{TB : TokenBucket}.
Variable is_ipv6 : string -> bool.
Variable cfg : SessionConfig.
Implicit Types (env : Env) (r : http_request) (ctx : Ctx) (st : AuthState) (scope : option string).

Lemma ValidateSession_changes scope key now sid db : changes scope db (ValidateSession cfg key now sid db).2.
Proof. unfold ValidateSession. walk. all: cbn; auto with access. Qed.

Lemma session_of_changes scope env r st : changes scope (st_db st) (session_of cfg env r st).2.
Proof. unfold session_of. destruct (_ !! _); [apply ValidateSession_changes|apply rtc_refl]. Qed.

Lemma CreateSession_changes scope key env user tenant db sid csrf db' :
  CreateSession cfg key env user tenant db = Some (sid, csrf, db') -> changes scope db db'.
Proof.
  unfold CreateSession. destruct (generateRandomHex (env_rand env 0)) as [a|]; [|done].
  destruct (generateRandomHex (env_rand env 1)) as [b|]; [|done]. cbn [mbind option_bind].
  destruct (insert_session _ _) as [|db1] eqn:E; [done|]. intros [= _ _ <-]. eauto with access.
Qed.

Lemma login_session_changes scope env u tenant st :
  changes scope (st_db st) (st_db (login_session cfg env u tenant st).2).
Proof.
  unfold login_session. destruct (tenant_by_id _ _) as [t|]; [|apply rtc_refl].
  destruct (te_status t <>s "active"); [apply rtc_refl|].
  destruct (CreateSession _ _ _ _ _ _) as [[[sid csrf] db]|] eqn:E; [|apply rtc_refl].
  cbn. by eapply CreateSession_changes.
Qed.

Lemma login_credentials_changes scope env req st :
  changes scope (st_db st) (st_db (login_credentials cfg env req st).2).
Proof.
  unfold login_credentials. destruct (user_by_name _ _) as [u|]; [|apply rtc_refl].
  destruct (u_status u <>s "active"); [apply rtc_refl|]. destruct (negb _); [apply rtc_refl|].
  destruct (login_tenant _ _ _) as [answer|tid]; [apply rtc_refl|apply login_session_changes].
Qed.

Lemma HandleLogin_changes scope body env r ctx st :
  changes scope (st_db st) (st_db (HandleLogin is_ipv6 cfg body env r ctx st).2).
Proof.
  unfold HandleLogin. destruct (rq_method r <>s "POST"); [apply rtc_refl|].
  destruct (Allow _ _ _ _) as [ok l]. destruct (negb ok); [apply rtc_refl|]. destruct (negb _); [apply rtc_refl|].
  destruct body as [req|]; [|apply rtc_refl]. destruct (_ || _); [apply rtc_refl|].
  destruct (Allow _ _ (lr_username req) _) as [ok' l']. destruct (negb ok'); [apply rtc_refl|].
  exact (login_credentials_changes scope env req (with_limiter l' (with_limiter l st))).
Qed.

Lemma HandleLogout_changes scope env r ctx st : changes scope (st_db st) (st_db (HandleLogout cfg env r ctx st).2).
Proof. unfold HandleLogout. walk. unfold RevokeSession. auto with access. Qed.

Lemma HandleMe_changes scope env r ctx st : changes scope (st_db st) (st_db (HandleMe env r ctx st).2).
Proof.
  unfold HandleMe. walk. all: match goal with H : RotateCSRFSecret _ _ _ _ = _ |- _ => revert H end.
  all: unfold RotateCSRFSecret; destruct (generateRandomHex _); [|done]; intros [= _ <-]; auto with access.
Qed.

Lemma HandleChangePassword_changes body env r ctx st :
  changes None (st_db st) (st_db (HandleChangePassword body env r ctx st).2).
Proof.
  unfold HandleChangePassword. walk. unfold RevokeUserSessions. apply changes_then_sessions; auto with access.
Qed.

Lemma HandleSwitchTenant_changes scope body env r ctx st :
  changes scope (st_db st) (st_db (HandleSwitchTenant cfg body env r ctx st).2).
Proof. unfold HandleSwitchTenant. walk. all: apply changes_one, st_sessions; auto with access. Qed.

Lemma HandleCSRFToken_same env r ctx st : (HandleCSRFToken cfg env r ctx st).2 = st.
Proof. unfold HandleCSRFToken. by walk. Qed.

(** Users and tenants: statements of the server's own scope. *)
Lemma HandleCreateUser_changes body env r ctx st :
  changes None (st_db st) (st_db (HandleCreateUser body env r ctx st).2).
Proof. unfold HandleCreateUser. walk. all: by eapply changes_one, st_insert_user. Qed.

Lemma HandleUpdateUser_changes id body env r ctx st :
  changes None (st_db st) (st_db (HandleUpdateUser id body env r ctx st).2).
Proof.
  unfold HandleUpdateUser. destruct (id =s EmptyString); [apply rtc_refl|]. destruct body as [req|]; [|apply rtc_refl].
  cbv zeta. set (st1 := match uu_display req with None => st | Some d => _ end).
  assert (changes None (st_db st) (st_db st1)) as H1.
  { subst st1. destruct (uu_display req); [|apply rtc_refl]. cbn. auto with access. }
  destruct (uu_admin req) as [isPA|]; [|done]. destruct (negb isPA && _) eqn:E; [done|]. cbn [snd st_db with_db].
  eapply changes_trans; [exact H1|]. apply changes_one, st_admin; [done|].
  destruct isPA; [by left|right]. cbn in E. by apply Nat.eqb_neq.
Qed.

Lemma HandleDisableUser_changes id env r ctx st :
  changes None (st_db st) (st_db (HandleDisableUser id env r ctx st).2).
Proof.
  unfold HandleDisableUser. destruct (id =s EmptyString); [apply rtc_refl|]. cbv zeta.
  destruct (_ && _) eqn:E; [apply rtc_refl|]. cbn [snd st_db with_db]. unfold revoke_user.
  apply changes_then_sessions; [|auto with access]. apply st_disable_user; [done|].
  intros u Hu Ha. rewrite Hu, Ha in E. cbn in E. by apply Nat.eqb_neq.
Qed.

Lemma HandleResetPassword_changes id body env r ctx st :
  changes None (st_db st) (st_db (HandleResetPassword id body env r ctx st).2).
Proof. unfold HandleResetPassword. walk. unfold revoke_user. apply changes_then_sessions; auto with access. Qed.

(** The INSERT of a tenant names no slug. *)
Lemma create_tenant_tx_refused env name user db : create_tenant_tx env name user db = inl (http_error 500 "internal error").
Proof. done. Qed.

Lemma HandleCreateTenant_same body env r ctx st : (HandleCreateTenant body env r ctx st).2 = st.
Proof.
  unfold HandleCreateTenant. destruct body as [req|]; [|done]. destruct (_ || _); [done|].
  destruct (List.find _ _) as [u|]; [|done]. by rewrite create_tenant_tx_refused.
Qed.

Lemma HandleUpdateTenant_changes id body env r ctx st :
  changes None (st_db st) (st_db (HandleUpdateTenant id body env r ctx st).2).
Proof. unfold HandleUpdateTenant. walk. auto with access. Qed.

Lemma HandleDisableTenant_changes id env r ctx st :
  changes None (st_db st) (st_db (HandleDisableTenant id env r ctx st).2).
Proof. unfold HandleDisableTenant. cbn [snd st_db with_db]. apply changes_then_sessions; auto with access. Qed.

(** Memberships and roles: statements in the scope of the session's tenant. *)
Definition tenant_scope (ctx : Ctx) : option string := option_map TenantID (ctx_session ctx).

Lemma neqs_false a b : (a <>s b) = false -> a = b.
Proof. intros H%negb_false_iff. by apply String.eqb_eq. Qed.

Lemma foreign_role_false role t : foreign_role role t = false -> ro_tenant role = None \/ ro_tenant role = Some t.
Proof. unfold foreign_role. destruct (ro_tenant role) as [t'|]; [|by left]. intros ->%neqs_false. by right. Qed.

Lemma not_own_role_false role t : not_own_role role t = false -> ro_tenant role = Some t.
Proof. unfold not_own_role. destruct (ro_tenant role) as [t'|]; [|done]. by intros ->%neqs_false. Qed.

Lemma active_role_elem id db role : active_role id db = Some role -> role ∈ roles db /\ ro_id role = id.
Proof. intros [H1 H2]%find_elem. cbn in H2. bool_facts. done. Qed.

Lemma validate_roles_elem tenant ids db :
  validate_roles tenant ids db = None ->
  Forall (fun id => exists role, role ∈ roles db /\ ro_id role = id /\ (ro_tenant role = None \/ ro_tenant role = Some tenant)) ids.
Proof.
  induction ids as [|id ids IH]; cbn; [constructor|]. destruct (active_role id db) as [role|] eqn:E; [|done].
  destruct (foreign_role role tenant) eqn:F; [done|]. intros H. constructor; [|by apply IH].
  apply active_role_elem in E as [H1 H2]. exists role. auto using foreign_role_false.
Qed.

Lemma insert_member_elem m db db' :
  insert_member m db = inr db' -> m ∈ members db' /\ roles db' = roles db /\ perms db' = perms db.
Proof.
  unfold insert_member. destruct (has _ _); [done|]. destruct (has _ _); [done|]. destruct (_ || _); [done|].
  intros [= <-]. cbn. split; [|done]. apply elem_of_app. right. by apply list_elem_of_singleton.
Qed.

Lemma insert_member_role_tables x db db' :
  insert_member_role x db = inr db' -> members db' = members db /\ roles db' = roles db /\ perms db' = perms db.
Proof.
  unfold insert_member_role. destruct (has _ _); [done|]. destruct (has _ _); [done|]. destruct (_ || _); [done|].
  by intros [= <-].
Qed.

Lemma insert_member_roles_changes env n m ids db db' scope :
  in_scope scope (m_tenant m) -> m ∈ members db ->
  Forall (fun id => exists role, role ∈ roles db /\ ro_id role = id /\ (ro_tenant role = None \/ ro_tenant role = Some (m_tenant m))) ids ->
  insert_member_roles env n (m_id m) ids db = inr db' -> changes scope db db'.
Proof.
  intros Hs. revert n db. induction ids as [|id ids IH]; intros n db Hm Hids; cbn; [intros [= <-]; apply rtc_refl|].
  apply Forall_cons in Hids as [(role & Hr & <- & Ht) Hids].
  destruct (insert_member_role _ db) as [|db1] eqn:E; [done|]. intros H.
  pose proof (insert_member_role_tables _ _ _ E) as (Em & Er & _).
  eapply changes_trans; [|eapply IH, H; [by rewrite Em|by rewrite Er]].
  eapply member_role_change, E; done.
Qed.

Lemma HandleCreateMembership_changes body env r ctx st :
  changes (tenant_scope ctx) (st_db st) (st_db (HandleCreateMembership body env r ctx st).2).
Proof.
  unfold HandleCreateMembership, tenant_scope. walk. cbn [option_map].
  match goal with H : insert_member _ _ = inr _, H' : insert_member_roles _ _ _ _ _ = inr _, V : validate_roles _ _ _ = None |- _ =>
    pose proof (insert_member_elem _ _ _ H) as (Hm & Hr & _); apply validate_roles_elem in V; rewrite <- Hr in V;
    eapply rtc_l; [eapply st_insert_member, H; by right|];
    eapply (insert_member_roles_changes _ _ _ _ _ _ _ (or_intror eq_refl) Hm V H')
  end.
Qed.

Lemma HandleDisableMembership_changes id env r ctx st :
  changes (tenant_scope ctx) (st_db st) (st_db (HandleDisableMembership id env r ctx st).2).
Proof.
  unfold HandleDisableMembership, tenant_scope. walk. apply neqs_false in E1. cbn.
  eapply changes_one, st_member_status; [done|]. rewrite E1. by right.
Qed.

Lemma HandleAddMembershipRole_changes id body env r ctx st :
  changes (tenant_scope ctx) (st_db st) (st_db (HandleAddMembershipRole id body env r ctx st).2).
Proof.
  unfold HandleAddMembershipRole, tenant_scope. walk. cbn.
  repeat match goal with
  | H : List.find _ _ = Some _ |- _ => apply find_elem in H as [? ?]
  | H : active_role _ _ = Some _ |- _ => apply active_role_elem in H as [? ?]
  | H : (_ <>s _) = false |- _ => apply neqs_false in H
  | H : foreign_role _ _ = false |- _ => apply foreign_role_false in H
  end. bool_facts. subst.
  match goal with H : insert_member_role _ _ = inr _ |- _ => eapply member_role_change, H; [done|right; cbn; congruence|done|congruence] end.
Qed.

Lemma HandleRemoveMembershipRole_changes id rid env r ctx st :
  changes (tenant_scope ctx) (st_db st) (st_db (HandleRemoveMembershipRole id rid env r ctx st).2).
Proof.
  unfold HandleRemoveMembershipRole, tenant_scope. walk. all: apply neqs_false in E1; cbn.
  all: eapply changes_one, st_delete_member_role; [eassumption|]; rewrite E1; by right.
Qed.

Lemma HandleCreateRole_changes body env r ctx st :
  changes (tenant_scope ctx) (st_db st) (st_db (HandleCreateRole body env r ctx st).2).
Proof.
  unfold HandleCreateRole, tenant_scope. walk. cbn.
  eapply changes_one, st_insert_role; [| | |eassumption]; [by right|done|done].
Qed.

Lemma HandleDeleteRole_changes id env r ctx st :
  changes (tenant_scope ctx) (st_db st) (st_db (HandleDeleteRole id env r ctx st).2).
Proof.
  unfold HandleDeleteRole, tenant_scope. walk. cbn. apply not_own_role_false in E2.
  eapply changes_one, st_delete_role; [eassumption|eassumption|by right|eassumption].
Qed.

Lemma insert_role_perm_tables x db db' :
  insert_role_perm x db = inr db' -> roles db' = roles db /\ perms db' = perms db.
Proof.
  unfold insert_role_perm. destruct (has _ _); [done|]. destruct (has _ _); [done|]. destruct (_ || _); [done|].
  by intros [= <-].
Qed.

Lemma insert_role_perms_changes env n role t ids db db' scope :
  role ∈ roles db -> ro_tenant role = Some t -> in_scope scope t ->
  insert_role_perms env n (ro_id role) ids db = inr db' -> changes scope db db'.
Proof.
  intros Hr Ht Hs. revert n db Hr. induction ids as [|id ids IH]; intros n db Hr; cbn; [intros [= <-]; apply rtc_refl|].
  destruct (perm_by_id id db) as [p|] eqn:Ep; [|done]. destruct (p_scope p =s "platform") eqn:Es; [done|].
  destruct (insert_role_perm _ db) as [|db1] eqn:E; [done|]. intros H.
  pose proof (insert_role_perm_tables _ _ _ E) as (Er & _). apply find_elem in Ep as [Hp Hid]. bool_facts. subst id.
  eapply changes_trans; [|eapply IH, H; by rewrite Er].
  assert (scope = None \/ (ro_tenant role <> None /\ scope = ro_tenant role)) as Hs'.
  { destruct Hs as [Hs|Hs]; [by left|right]. by rewrite Ht, Hs. }
  eapply role_perm_change, E; done.
Qed.

Lemma HandleUpdateRolePermissions_changes id body env r ctx st :
  changes (tenant_scope ctx) (st_db st) (st_db (HandleUpdateRolePermissions id body env r ctx st).2).
Proof.
  unfold HandleUpdateRolePermissions, tenant_scope. walk. cbn [option_map].
  apply not_own_role_false in E2. pose proof (find_elem _ _ _ E) as [Hin Hid]. cbn in Hid. bool_facts. subst id.
  eapply rtc_l; [eapply st_delete_role_perms; [exact E|exact E2|by right]|].
  eapply (insert_role_perms_changes _ _ r0); [exact Hin|exact E2|by right|exact E4].
Qed.

(** The scope of a call: the session's tenant on the routes of tenant administration. *)
Definition call_scope (c : api_call) (ctx : Ctx) : option string :=
  match call_kind c with Tenant _ => tenant_scope ctx | _ => None end.

Lemma call_changes c env r ctx st :
  changes (call_scope c ctx) (st_db st) (st_db (call_handler is_ipv6 cfg c env r ctx st).2).
Proof.
  destruct c; cbn [call_handler call_scope call_kind];
    auto using HandleLogin_changes, HandleLogout_changes, HandleChangePassword_changes, HandleMe_changes,
      HandleSwitchTenant_changes, HandleCreateUser_changes, HandleUpdateUser_changes, HandleDisableUser_changes,
      HandleResetPassword_changes, HandleUpdateTenant_changes, HandleDisableTenant_changes,
      HandleCreateMembership_changes, HandleDisableMembership_changes, HandleAddMembershipRole_changes,
      HandleRemoveMembershipRole_changes, HandleCreateRole_changes, HandleDeleteRole_changes,
      HandleUpdateRolePermissions_changes.
  - rewrite HandleCSRFToken_same. apply rtc_refl.
  - apply rtc_refl.
  - unfold HandleGetUser. walk.
  - apply rtc_refl.
  - rewrite HandleCreateTenant_same. apply rtc_refl.
  - unfold HandleGetTenant. walk.
  - unfold HandleListMemberships. walk.
  - unfold HandleListRoles. walk.
  - unfold HandleGetRolePermissions. walk.
  - apply rtc_refl.
Qed.
End Handlers.
