(* ===== verification/AccessInv.v ===== *)
(** * Invariants of the access tables

    [access_ok]: keys are unique, every assignment of a role pairs a membership
    with a built-in role or one of its own tenant, every permission of a role
    exists and is not a platform permission, and built-in roles are the ones
    without a tenant.  It holds of the schema and is kept by every statement, hence
    by every handler and by the bootstrap.  What the statements keep beside it: an
    active platform administrator, a disabled user, a revoked session. *)
From stdpp Require Import relations.
From S2P Require Import Prelude GoStrings GoNumbers GoWeb GoValue Store AccessStore Auth Rbac AccessControl AccessChanges.

Definition assignment_ok (db : AccessDB) (x : member_role_row) : Prop :=
  exists m r, m ∈ members db /\ m_id m = mr_member x /\ r ∈ roles db /\ ro_id r = mr_role x /\
    (ro_tenant r = None \/ ro_tenant r = Some (m_tenant m)).

Definition grant_ok (db : AccessDB) (x : role_perm_row) : Prop :=
  exists r p, r ∈ roles db /\ ro_id r = rp_role x /\ p ∈ perms db /\ p_id p = rp_perm x /\ p_scope p <> "platform".

Record access_ok (db : AccessDB) : Prop := {
  ok_users : NoDup (map u_id (users db));
  ok_members : NoDup (map m_id (members db));
  ok_roles : NoDup (map ro_id (roles db));
  ok_perms : NoDup (map p_id (perms db));
  ok_builtin : Forall (fun r => ro_built_in r = true <-> ro_tenant r = None) (roles db);
  ok_scopes : Forall (fun p => p_scope p = "platform" <-> p_code p ∈ platform_permissions) (perms db);
  ok_assignments : Forall (assignment_ok db) (member_roles db);
  ok_grants : Forall (grant_ok db) (role_perms db)
}.

(** ** Inserted rows *)

Ltac unfold_insert f :=
  unfold f; repeat match goal with
  | |- context [if ?c then inl _ else _] => let E := fresh "C" in destruct c eqn:E; [discriminate|]
  end; intros H; apply (inj inr) in H; subst.

Lemma insert_user_inv u db db' : insert_user u db = inr db' ->
  has (fun x => u_id x =s u_id u) (users db) = false /\ has (fun x => u_username x =s u_username u) (users db) = false /\
  db' = set_users (fun l => l ++ [u]) db.
Proof. by unfold_insert insert_user. Qed.

Lemma insert_tenant_inv t db db' : insert_tenant t db = inr db' -> db' = set_tenants (fun l => l ++ [t]) db.
Proof. by unfold_insert insert_tenant. Qed.

Lemma insert_member_inv m db db' : insert_member m db = inr db' ->
  has (fun x => m_id x =s m_id m) (members db) = false /\ db' = set_members (fun l => l ++ [m]) db.
Proof. by unfold_insert insert_member. Qed.

Lemma insert_role_inv r db db' : insert_role r db = inr db' ->
  has (fun x => ro_id x =s ro_id r) (roles db) = false /\ db' = set_roles (fun l => l ++ [r]) db.
Proof. by unfold_insert insert_role. Qed.

Lemma insert_perm_inv p db db' : insert_perm p db = inr db' ->
  has (fun x => p_id x =s p_id p) (perms db) = false /\ db' = set_perms (fun l => l ++ [p]) db.
Proof. by unfold_insert insert_perm. Qed.

Lemma insert_role_perm_inv x db db' : insert_role_perm x db = inr db' -> db' = set_role_perms (fun l => l ++ [x]) db.
Proof. by unfold_insert insert_role_perm. Qed.

Lemma insert_member_role_inv x db db' : insert_member_role x db = inr db' -> db' = set_member_roles (fun l => l ++ [x]) db.
Proof. by unfold_insert insert_member_role. Qed.

Lemma insert_session_inv s db db' : insert_session s db = inr db' ->
  has (fun x => s_id x =s s_id s) (sessions db) = false /\ db' = set_sessions (fun l => l ++ [s]) db.
Proof. by unfold_insert insert_session. Qed.

Lemma delete_role_inv id r db db' : role_by_id id db = Some r -> delete_role id db = inr db' ->
  has (fun x => rp_role x =s id) (role_perms db) = false /\ has (fun x => mr_role x =s id) (member_roles db) = false /\
  db' = set_roles (delete_where (fun x => ro_id x =s id)) db.
Proof.
  intros [Hr Hid]%find_elem. unfold delete_role.
  rewrite (has_intro (fun x => ro_id x =s id) (roles db) r Hr Hid). cbn [andb].
  destruct (_ || _) eqn:E; [done|]. apply orb_false_iff in E as [E1 E2]. by intros [= <-].
Qed.

(** ** Every statement keeps [access_ok] *)

(** Rows that survive keep their partners. *)
Lemma assignment_mono db db' x :
  (forall m, m ∈ members db -> exists m', m' ∈ members db' /\ m_id m' = m_id m /\ m_tenant m' = m_tenant m) ->
  (forall r, r ∈ roles db -> ro_id r = mr_role x -> r ∈ roles db') ->
  assignment_ok db x -> assignment_ok db' x.
Proof.
  intros Hm Hr (m & r & H1 & H2 & H3 & H4 & H5). destruct (Hm m H1) as (m' & H1' & E1 & E2).
  exists m', r. rewrite E1, E2. auto.
Qed.

Lemma grant_mono db db' x :
  (forall r, r ∈ roles db -> ro_id r = rp_role x -> r ∈ roles db') -> (forall p, p ∈ perms db -> p ∈ perms db') ->
  grant_ok db x -> grant_ok db' x.
Proof. intros Hr Hp (r & p & H1 & H2 & H3 & H4 & H5). exists r, p. auto. Qed.

Lemma Forall_snoc {A} (P : A -> Prop) l x : Forall P l -> P x -> Forall P (l ++ [x]).
Proof. intros. apply Forall_app. split; [done|]. by apply Forall_singleton. Qed.

Lemma ok_set_users f db : NoDup (map u_id (f (users db))) -> access_ok db -> access_ok (set_users f db).
Proof. intros Hu []. by constructor. Qed.

Lemma ok_set_tenants f db : access_ok db -> access_ok (set_tenants f db).
Proof. intros []. by constructor. Qed.

Lemma ok_set_sessions f db : access_ok db -> access_ok (set_sessions f db).
Proof. intros []. by constructor. Qed.

Lemma ok_set_members f db :
  NoDup (map m_id (f (members db))) ->
  (forall m, m ∈ members db -> exists m', m' ∈ f (members db) /\ m_id m' = m_id m /\ m_tenant m' = m_tenant m) ->
  access_ok db -> access_ok (set_members f db).
Proof.
  intros Hn Hm []. constructor; try done. eapply Forall_impl; [done|]. intros x. apply assignment_mono; auto.
Qed.

Lemma ok_set_roles f db :
  NoDup (map ro_id (f (roles db))) -> Forall (fun r => ro_built_in r = true <-> ro_tenant r = None) (f (roles db)) ->
  (forall r, r ∈ roles db -> (forall x, x ∈ role_perms db -> rp_role x <> ro_id r) /\
                             (forall x, x ∈ member_roles db -> mr_role x <> ro_id r) \/ r ∈ f (roles db)) ->
  access_ok db -> access_ok (set_roles f db).
Proof.
  intros Hn Hb Hr []. constructor; try done; apply Forall_forall; intros x Hx.
  - eapply (assignment_mono db); [eauto| |by eapply Forall_forall in ok_assignments0].
    intros r H1 H2. destruct (Hr r H1) as [[_ H]|H]; [|done]. by destruct (H x Hx).
  - eapply (grant_mono db); [|done|by eapply Forall_forall in ok_grants0].
    intros r H1 H2. destruct (Hr r H1) as [[H _]|H]; [|done]. by destruct (H x Hx).
Qed.

Lemma ok_set_perms p db :
  has (fun x => p_id x =s p_id p) (perms db) = false -> (p_scope p = "platform" <-> p_code p ∈ platform_permissions) ->
  access_ok db -> access_ok (set_perms (fun l => l ++ [p]) db).
Proof.
  intros Hn Hs []. constructor; try done; cbn.
  - by apply NoDup_key_app.
  - by apply Forall_snoc.
  - eapply Forall_impl; [done|]. intros x. apply grant_mono; [done|]. intros q Hq. apply elem_of_app. by left.
Qed.

Lemma ok_set_member_roles f db :
  Forall (assignment_ok db) (f (member_roles db)) -> access_ok db -> access_ok (set_member_roles f db).
Proof. intros Hf []. by constructor. Qed.

Lemma ok_set_role_perms f db :
  Forall (grant_ok db) (f (role_perms db)) -> access_ok db -> access_ok (set_role_perms f db).
Proof. intros Hf []. by constructor. Qed.

Lemma in_or_app_l {A} (x : A) l l' : x ∈ l -> x ∈ l ++ l'.
Proof. intros. apply elem_of_app. by left. Qed.
#[export] Hint Resolve in_or_app_l : access.

Lemma stmt_ok scope db db' : stmt scope db db' -> access_ok db -> access_ok db'.
Proof.
  intros Hst Hok. destruct Hst as
    [p f db Hf|s db db' H|p f db _ Hf|id isPA now db _ _|id now db _ _|u db db' _ H|p f db _|t db db' _ H|m db db' _ H
    |id m status now db _ _|r db db' _ Ht Hb H|r t db db' _ Ht Hb H|id r t db db' Hr Ht _ H
    |x m r db db' Hm Hmi _ Hr Hri Ht H|id m rid db _ _|x r p db db' Hr Hri _ Hp Hpi Hs H|id r t db _ _ _|p db db' _ Hs H].
  - by apply ok_set_sessions.
  - apply insert_session_inv in H as [_ ->]. by apply ok_set_sessions.
  - apply ok_set_users; [|done]. rewrite update_map; [apply Hok|]. intros u. apply Hf.
  - apply ok_set_users; [|done]. rewrite update_map; [apply Hok|done].
  - apply ok_set_users; [|done]. rewrite update_map; [apply Hok|done].
  - apply insert_user_inv in H as (Hn & _ & ->). apply ok_set_users; [|done]. apply NoDup_key_app; [apply Hok|done].
  - by apply ok_set_tenants.
  - apply insert_tenant_inv in H as ->. by apply ok_set_tenants.
  - apply insert_member_inv in H as [Hn ->]. apply ok_set_members; [|by eauto with access|done].
    apply NoDup_key_app; [apply Hok|done].
  - apply ok_set_members; [rewrite update_map; [apply Hok|done]| |done].
    intros m' Hm'. eexists. split; [apply elem_of_update; by exists m'|]. by destruct (m_id m' =s id).
  - apply insert_role_inv in H as [Hn ->]. apply ok_set_roles; [|apply Forall_snoc; [apply Hok|by rewrite Hb, Ht]| |done].
    + apply NoDup_key_app; [apply Hok|done].
    + intros r' Hr'. right. by apply in_or_app_l.
  - apply insert_role_inv in H as [Hn ->].
    apply ok_set_roles; [|apply Forall_snoc; [apply Hok|rewrite Hb, Ht; by split]| |done].
    + apply NoDup_key_app; [apply Hok|done].
    + intros r' Hr'. right. by apply in_or_app_l.
  - destruct (delete_role_inv _ _ _ _ Hr H) as (Hp & Hm & ->).
    apply ok_set_roles; [apply delete_NoDup_map, Hok|apply delete_Forall, Hok| |done].
    intros r' Hr'. destruct (ro_id r' =s id) eqn:E; [left|right; by apply elem_of_delete]. bool_facts. subst id. split.
    + intros x Hx He. apply (has_false _ _ x Hp) in Hx. by rewrite He, String.eqb_refl in Hx.
    + intros x Hx He. apply (has_false _ _ x Hm) in Hx. by rewrite He, String.eqb_refl in Hx.
  - apply insert_member_role_inv in H as ->. apply ok_set_member_roles; [|done].
    apply Forall_snoc; [apply Hok|]. by exists m, r.
  - apply ok_set_member_roles; [|done]. apply delete_Forall, Hok.
  - apply insert_role_perm_inv in H as ->. apply ok_set_role_perms; [|done].
    apply Forall_snoc; [apply Hok|]. by exists r, p.
  - apply ok_set_role_perms; [|done]. apply delete_Forall, Hok.
  - apply insert_perm_inv in H as [Hn ->]. by apply ok_set_perms.
Qed.

Lemma changes_ok scope db db' : changes scope db db' -> access_ok db -> access_ok db'.
Proof. induction 1; eauto using stmt_ok. Qed.

Lemma schema_ok created : access_ok (schema_db created).
Proof. constructor; cbn; constructor. Qed.

(** ** An active platform administrator remains *)

Definition active_admin (u : user_row) : bool := u_admin u && (u_status u =s "active").

Definition has_admin (db : AccessDB) : Prop := exists u, u ∈ users db /\ active_admin u = true.

Lemma other_admins_some id db : other_admins id db <> 0%nat -> exists u, u ∈ users db /\ active_admin u = true /\ u_id u <> id.
Proof.
  unfold other_admins, count_where. intros H.
  destruct (List.filter _ (users db)) as [|u l] eqn:E; [done|].
  assert (In u (List.filter (fun u => u_admin u && (u_status u =s "active") && (u_id u <>s id)) (users db))) as Hu
    by (rewrite E; by left).
  apply filter_In in Hu as [Hu Hp]. exists u. apply andb_true_iff in Hp as [Hp Hne]. bool_facts.
  split; [by apply list_elem_of_In|]. unfold active_admin. split; [|done]. apply andb_true_iff. by rewrite String.eqb_eq.
Qed.

(** The administrator of another identifier survives an update of one user. *)
Lemma has_admin_update_other db id f :
  other_admins id db <> 0%nat ->
  exists u, u ∈ update_where (fun u => u_id u =s id) f (users db) /\ active_admin u = true.
Proof.
  intros (u & Hu & Ha & Hne)%other_admins_some. exists u. split; [|done].
  apply elem_of_update. exists u. split; [done|]. destruct (String.eqb_spec (u_id u) id); [by destruct Hne|done].
Qed.

(** What a statement does to the users, and to the sessions. *)
Inductive users_change (db : AccessDB) : list user_row -> Prop :=
| uc_same : users_change db (users db)
| uc_update p f : keeps_user f -> users_change db (update_where p f (users db))
| uc_admin id isPA now : isPA = true \/ other_admins id db <> 0%nat ->
    users_change db (update_where (fun u => u_id u =s id) (user_with_admin isPA now) (users db))
| uc_disable id now : (forall u, user_by_id id db = Some u -> u_admin u = true -> other_admins id db <> 0%nat) ->
    users_change db (update_where (fun u => u_id u =s id) (user_with_status "disabled" now) (users db))
| uc_insert u : has (fun x => u_id x =s u_id u) (users db) = false -> users_change db (users db ++ [u]).

Inductive sessions_change (db : AccessDB) : list session_row -> Prop :=
| sc_same : sessions_change db (sessions db)
| sc_update p f : keeps_session f -> sessions_change db (update_where p f (sessions db))
| sc_insert s : sessions_change db (sessions db ++ [s]).

Ltac statement_rows H :=
  first [apply insert_session_inv in H as [_ ->]|apply insert_user_inv in H as (? & _ & ->)|apply insert_tenant_inv in H as ->
        |apply insert_member_inv in H as [_ ->]|apply insert_role_inv in H as [_ ->]|apply insert_perm_inv in H as [_ ->]
        |apply insert_role_perm_inv in H as ->|apply insert_member_role_inv in H as ->
        |eapply delete_role_inv in H as (_ & _ & ->); [|eassumption]].

Lemma stmt_users_change scope db db' : stmt scope db db' -> users_change db (users db').
Proof.
  destruct 1; try match goal with H : _ = inr _ |- _ => statement_rows H end; cbn;
    auto using uc_same, uc_update, uc_admin, uc_disable, uc_insert.
Qed.

Lemma stmt_sessions_change scope db db' : stmt scope db db' -> sessions_change db (sessions db').
Proof.
  destruct 1; try match goal with H : _ = inr _ |- _ => statement_rows H end; cbn; auto using sc_same, sc_update, sc_insert.
Qed.

Lemma stmt_has_admin scope db db' : stmt scope db db' -> access_ok db -> has_admin db -> has_admin db'.
Proof.
  intros Hst Hok (u & Hu & Hadm). unfold has_admin.
  destruct (stmt_users_change _ _ _ Hst) as [|p f Hf|id isPA now Hg|id now Hg|v _].
  - by exists u.
  - exists (if p u then f u else u). split; [apply elem_of_update; by exists u|]. destruct (p u); [|done].
    destruct (Hf u) as (_ & E1 & E2). unfold active_admin. by rewrite E1, E2.
  - destruct Hg as [->|Hg]; [|by apply has_admin_update_other].
    eexists. split; [apply elem_of_update; by exists u|].
    destruct (u_id u =s id); [|done]. apply andb_true_iff in Hadm as [_ Hact]. exact Hact.
  - destruct (String.eqb_spec (u_id u) id) as [<-|Hne].
    + apply has_admin_update_other. apply (Hg u); [|by apply andb_true_iff in Hadm as [? _]].
      by apply (find_key u_id); [apply Hok|].
    + exists u. split; [|done]. apply elem_of_update. exists u. split; [done|]. by apply String.eqb_neq in Hne as ->.
  - exists u. split; [|done]. by apply in_or_app_l.
Qed.

Lemma changes_has_admin scope db db' : changes scope db db' -> access_ok db -> has_admin db -> has_admin db'.
Proof. induction 1; eauto using stmt_ok, stmt_has_admin. Qed.

(** ** A disabled user stays disabled, a revoked session revoked *)

Definition user_disabled (id : string) (db : AccessDB) : Prop :=
  exists u, user_by_id id db = Some u /\ u_status u <> "active".

Definition session_revoked (id : string) (db : AccessDB) : Prop :=
  exists s, session_by_id id db = Some s /\ s_revoked s <> None.

Lemma stmt_user_disabled scope id db db' : stmt scope db db' -> user_disabled id db -> user_disabled id db'.
Proof.
  intros Hst (u & Hu & Hs). unfold user_disabled, user_by_id in *.
  destruct (stmt_users_change _ _ _ Hst) as [|p f Hf|id' isPA now _|id' now _|v _].
  - by exists u.
  - rewrite find_updated by (intros x; destruct (Hf x) as (-> & _); done). rewrite Hu. eexists. split; [done|].
    destruct (p u); [|done]. destruct (Hf u) as (_ & _ & ->). done.
  - rewrite find_updated by done. rewrite Hu. eexists. split; [done|]. by destruct (u_id u =s id').
  - rewrite find_updated by done. rewrite Hu. eexists. split; [done|]. by destruct (u_id u =s id').
  - exists u. split; [|done]. by apply find_app_some.
Qed.

Lemma stmt_session_revoked scope id db db' : stmt scope db db' -> session_revoked id db -> session_revoked id db'.
Proof.
  intros Hst (s & Hs & Hr). unfold session_revoked, session_by_id in *.
  destruct (stmt_sessions_change _ _ _ Hst) as [|p f Hf|v].
  - by exists s.
  - rewrite find_updated by (intros x; destruct (Hf x) as (-> & _); done). rewrite Hs. eexists. split; [done|].
    destruct (p s); [|done]. by apply (Hf s).
  - exists s. split; [|done]. by apply find_app_some.
Qed.

Lemma changes_user_disabled scope id db db' : changes scope db db' -> user_disabled id db -> user_disabled id db'.
Proof. induction 1; eauto using stmt_user_disabled. Qed.

Lemma changes_session_revoked scope id db db' : changes scope db db' -> session_revoked id db -> session_revoked id db'.
Proof. induction 1; eauto using stmt_session_revoked. Qed.

(** ** The bootstrap refines the statements *)

Lemma or_ignore_changes scope db r db' b :
  (forall db1, r = inr db1 -> changes scope db db1) -> or_ignore db r = Some (db', b) -> changes scope db db'.
Proof.
  intros Hr. destruct r as [err|db1]; cbn; [|intros [= <- _]; by apply Hr].
  destruct (err =s _); [done|]. intros [= <- _]. apply rtc_refl.
Qed.

Lemma or_ignore_cases db r db' b : or_ignore db r = Some (db', b) -> db' = db \/ r = inr db'.
Proof. destruct r as [err|db1]; cbn; [destruct (err =s _); [done|]|]; intros [= <- _]; auto. Qed.

(** The map from codes to identifiers names permissions of the table. *)
Definition names_perms (permMap : gmap string string) (db : AccessDB) : Prop :=
  forall code id, permMap !! code = Some id -> exists p, p ∈ perms db /\ p_id p = id /\ p_code p = code.

Lemma names_perms_mono permMap db db' : (forall p, p ∈ perms db -> p ∈ perms db') -> names_perms permMap db -> names_perms permMap db'.
Proof. intros Hp Hm code id H. destruct (Hm code id H) as (p & H1 & H2). exists p. auto. Qed.

Lemma foldl_none {A B} (f : option A -> B -> option A) l : (forall x, f None x = None) -> foldl f None l = None.
Proof. intros Hf. induction l as [|x l IH]; cbn; [done|]. by rewrite Hf. Qed.

Section Boot.
Context `{A2 : Argon2}.
Variable env : Env.

Lemma init_perm_changes bs permMap p bs' permMap' :
  (pd_scope p = "platform" <-> pd_code p ∈ platform_permissions) -> names_perms permMap (bs_db bs) ->
  init_perm env (Some (bs, permMap)) p = Some (bs', permMap') ->
  changes None (bs_db bs) (bs_db bs') /\ names_perms permMap' (bs_db bs').
Proof.
  intros Hs Hm. unfold init_perm. cbn [mbind option_bind].
  destruct (or_ignore _ _) as [[db b]|] eqn:E; [|done]. cbn [mbind option_bind].
  destruct (List.find _ (perms db)) as [q|] eqn:F; [|done]. cbn [mbind option_bind]. intros [= <- <-]. cbn [bs_db]. split.
  - eapply or_ignore_changes, E. intros db1 H. eapply changes_one, st_insert_perm; [done| |exact H]. exact Hs.
  - apply find_elem in F as [Hq Hc]. cbn in Hc. apply String.eqb_eq in Hc.
    assert (names_perms permMap db) as Hm'.
    { eapply names_perms_mono, Hm. destruct (or_ignore_cases _ _ _ _ E) as [->|H]; [done|].
      apply insert_perm_inv in H as [_ ->]. intros. by apply in_or_app_l. }
    intros code id. destruct (decide (pd_code p = code)) as [<-|Hne].
    + rewrite lookup_insert_eq. intros [= <-]. by exists q.
    + rewrite lookup_insert_ne by done. apply Hm'.
Qed.

Lemma init_perms_changes l bs permMap bs' permMap' :
  Forall (fun p => pd_scope p = "platform" <-> pd_code p ∈ platform_permissions) l -> names_perms permMap (bs_db bs) ->
  foldl (init_perm env) (Some (bs, permMap)) l = Some (bs', permMap') ->
  changes None (bs_db bs) (bs_db bs') /\ names_perms permMap' (bs_db bs').
Proof.
  intros Hl. revert bs permMap. induction Hl as [|p l Hp _ IH]; intros bs permMap Hm; cbn [foldl].
  - intros [= <- <-]. split; [apply rtc_refl|done].
  - destruct (init_perm env (Some (bs, permMap)) p) as [[bs1 m1]|] eqn:E; [|by rewrite foldl_none].
    destruct (init_perm_changes _ _ _ _ _ Hp Hm E) as [Hc Hm1]. intros H. destruct (IH _ _ Hm1 H) as [Hc' Hm'].
    split; [by eapply changes_trans|done].
Qed.

Lemma init_role_perm_changes permMap role bs code bs' :
  code ∉ platform_permissions -> access_ok (bs_db bs) -> names_perms permMap (bs_db bs) -> role ∈ roles (bs_db bs) ->
  init_role_perm env permMap (ro_id role) (Some bs) code = Some bs' ->
  changes None (bs_db bs) (bs_db bs') /\ roles (bs_db bs') = roles (bs_db bs) /\ perms (bs_db bs') = perms (bs_db bs).
Proof.
  intros Hcode Hok Hm Hr. unfold init_role_perm. cbn [mbind option_bind].
  destruct (permMap !! code) as [id|] eqn:Em; [|done]. cbn [mbind option_bind].
  destruct (Hm _ _ Em) as (p & Hp & <- & Hpc).
  destruct (or_ignore _ _) as [[db b]|] eqn:E; [|done]. cbn [mbind option_bind]. intros [= <-]. cbn [bs_db]. split.
  - eapply or_ignore_changes, E. intros db1 H. eapply role_perm_change, H; [done|by left|done|].
    pose proof (proj1 (Forall_forall _ _) (ok_scopes _ Hok) p Hp) as Hsc. cbn in Hsc. rewrite Hpc in Hsc. tauto.
  - destruct (or_ignore_cases _ _ _ _ E) as [->|H]; [done|]. by apply insert_role_perm_inv in H as ->.
Qed.

Lemma init_role_perms_changes permMap role codes bs bs' :
  Forall (fun code => code ∉ platform_permissions) codes -> access_ok (bs_db bs) -> names_perms permMap (bs_db bs) ->
  role ∈ roles (bs_db bs) -> foldl (init_role_perm env permMap (ro_id role)) (Some bs) codes = Some bs' ->
  changes None (bs_db bs) (bs_db bs') /\ perms (bs_db bs') = perms (bs_db bs).
Proof.
  intros Hl. revert bs. induction Hl as [|code codes Hc _ IH]; intros bs Hok Hm Hr; cbn [foldl].
  - intros [= <-]. split; [apply rtc_refl|done].
  - destruct (init_role_perm env permMap (ro_id role) (Some bs) code) as [bs1|] eqn:E; [|by rewrite foldl_none].
    destruct (init_role_perm_changes _ _ _ _ _ Hc Hok Hm Hr E) as (H1 & H2 & H3). intros H.
    destruct (IH bs1) as [H4 H5]; [by eapply changes_ok|by eapply names_perms_mono, Hm; rewrite H3|by rewrite H2|done|].
    split; [by eapply changes_trans|by rewrite H5].
Qed.

Lemma init_role_changes permMap bs role bs' :
  Forall (fun code => code ∉ platform_permissions) (rd_permissions role) -> access_ok (bs_db bs) -> names_perms permMap (bs_db bs) ->
  init_role env permMap (Some bs) role = Some bs' ->
  changes None (bs_db bs) (bs_db bs') /\ names_perms permMap (bs_db bs').
Proof.
  intros Hcodes Hok Hm. unfold init_role. cbn [mbind option_bind].
  destruct (or_ignore _ _) as [[db b]|] eqn:E; [|done]. cbn [mbind option_bind].
  destruct (List.find _ (roles db)) as [r|] eqn:F; [|done]. cbn [mbind option_bind]. intros H.
  assert (changes None (bs_db bs) db) as Hc.
  { eapply or_ignore_changes, E. intros db1 H1. by eapply changes_one, st_insert_builtin, H1. }
  assert (perms db = perms (bs_db bs)) as Hp.
  { destruct (or_ignore_cases _ _ _ _ E) as [->|H1]; [done|]. by apply insert_role_inv in H1 as [_ ->]. }
  apply find_elem in F as [Hr _].
  apply init_role_perms_changes in H as [H1 H2]; [|done|by eapply changes_ok|by eapply names_perms_mono, Hm; cbn; rewrite Hp|done].
  cbn [bs_db] in *. split; [by eapply changes_trans|]. eapply names_perms_mono, Hm. by rewrite H2, Hp.
Qed.

Lemma init_roles_changes permMap l bs bs' :
  Forall (fun role => Forall (fun code => code ∉ platform_permissions) (rd_permissions role)) l ->
  access_ok (bs_db bs) -> names_perms permMap (bs_db bs) ->
  foldl (init_role env permMap) (Some bs) l = Some bs' -> changes None (bs_db bs) (bs_db bs').
Proof.
  intros Hl. revert bs. induction Hl as [|role l Hr _ IH]; intros bs Hok Hm; cbn [foldl].
  - intros [= <-]. apply rtc_refl.
  - destruct (init_role env permMap (Some bs) role) as [bs1|] eqn:E; [|by rewrite foldl_none].
    destruct (init_role_changes _ _ _ _ Hr Hok Hm E) as [H1 H2]. intros H.
    eapply changes_trans; [exact H1|]. eapply IH; [by eapply changes_ok|done|done].
Qed.

Lemma init_tenant_changes db id db' : init_tenant env db = Some (id, db') -> changes None db db'.
Proof.
  unfold init_tenant. destruct (List.find _ _) as [t|]; [intros [= _ <-]; apply rtc_refl|].
  destruct (insert_tenant _ _) as [|db1] eqn:E; [done|]. intros [= _ <-]. by eapply changes_one, st_insert_tenant, E.
Qed.

Lemma init_admin_changes cfg tenantID hash bs bs' b :
  init_admin env cfg tenantID hash bs = Some (bs', b) -> changes None (bs_db bs) (bs_db bs').
Proof.
  unfold init_admin. destruct (or_ignore (bs_db bs) _) as [[db1 b1]|] eqn:E1; [|done]. cbn [mbind option_bind].
  destruct (user_by_name _ db1) as [u|]; [|done]. cbn [mbind option_bind].
  destruct (or_ignore db1 _) as [[db2 b2]|] eqn:E2; [|done]. cbn [mbind option_bind].
  destruct (List.find _ (members db2)) as [m|] eqn:Em; [|done]. cbn [mbind option_bind].
  destruct (List.find _ (roles db2)) as [r|] eqn:Er; [|done]. cbn [mbind option_bind].
  destruct (or_ignore db2 _) as [[db3 b3]|] eqn:E3; [|done]. cbn [mbind option_bind]. intros [= <- _]. cbn [bs_db].
  apply find_elem in Em as [Hm _]. apply find_elem in Er as [Hr Hn]. unfold builtin_named in Hn.
  eapply changes_trans; [|eapply changes_trans].
  - eapply or_ignore_changes, E1. intros db' H. by eapply changes_one, st_insert_user, H.
  - eapply or_ignore_changes, E2. intros db' H. eapply changes_one, st_insert_member, H. by left.
  - eapply or_ignore_changes, E3. intros db' H. eapply member_role_change, H; [done|by left|done|].
    left. by destruct (ro_tenant r).
Qed.

Lemma catalog_scopes : Forall (fun p => pd_scope p = "platform" <-> pd_code p ∈ platform_permissions) PermissionCatalog.
Proof.
  apply Forall_forall. intros p Hp. rewrite <- String.eqb_eq, <- existsb_eqb_In.
  assert (forallb (fun p => Bool.eqb (pd_scope p =s "platform") (existsb (String.eqb (pd_code p)) platform_permissions)) PermissionCatalog
          = true) as H by (by vm_compute).
  rewrite forallb_forall in H. specialize (H p (proj1 (list_elem_of_In _ _) Hp)). apply Bool.eqb_prop in H. by rewrite H.
Qed.

Lemma builtin_codes : Forall (fun role => Forall (fun code => code ∉ platform_permissions) (rd_permissions role)) BuiltinRoles.
Proof.
  assert (forallb (fun role => forallb (fun code => negb (existsb (String.eqb code) platform_permissions)) (rd_permissions role))
            BuiltinRoles = true) as H by (by vm_compute).
  apply Forall_forall. intros role Hr%list_elem_of_In. rewrite forallb_forall in H. specialize (H role Hr).
  apply Forall_forall. intros code Hc%list_elem_of_In. rewrite forallb_forall in H. specialize (H code Hc).
  apply negb_true_iff in H. by apply existsb_eqb_notIn.
Qed.

Lemma InitBootstrap_changes getenv file cfg db db' pw :
  access_ok db -> InitBootstrap env getenv file cfg db = Some (db', pw) -> changes None db db'.
Proof.
  intros Hok. unfold InitBootstrap.
  destruct (foldl (init_perm env) _ PermissionCatalog) as [[bs1 permMap]|] eqn:E1; [|done]. cbn [mbind option_bind].
  destruct (foldl (init_role env permMap) _ BuiltinRoles) as [bs2|] eqn:E2; [|done]. cbn [mbind option_bind].
  destruct (init_tenant env (bs_db bs2)) as [[tid db3]|] eqn:E3; [|done]. cbn [mbind option_bind].
  destruct (bootstrap_password _ _ _ _) as [password|]; [|done]. cbn [mbind option_bind].
  destruct (HashPassword _ _) as [hash|]; [|done]. cbn [mbind option_bind].
  destruct (init_admin _ _ _ _ _) as [[bs4 created]|] eqn:E4; [|done]. cbn [mbind option_bind]. intros [= <- _].
  apply init_perms_changes in E1 as [H1 Hm]; [|apply catalog_scopes|intros code id H; by rewrite lookup_empty in H].
  cbn [bs_db] in H1. apply init_roles_changes in E2; [|apply builtin_codes|by eapply changes_ok|done].
  apply init_tenant_changes in E3. apply init_admin_changes in E4. cbn [bs_db] in E4.
  eapply changes_trans; [exact H1|]. eapply changes_trans; [exact E2|]. by eapply changes_trans.
Qed.
End Boot.
