(* ===== verification/AccessProps.v ===== *)
(** * Theorems on authentication and access management

    Over the states reachable from the schema by starts of the server and requests
    ([access_reachable] of AccessControl): who gets in, what a caller may do, what stays
    shut. *)
From stdpp Require Import relations.
From S2P Require Import Prelude GoStrings GoNumbers GoWeb GoValue Store AccessStore Auth Rbac AccessControl AccessChanges AccessInv.

Lemma foldl_option_inv {A B} (P : A -> Prop) (f : option A -> B -> option A) l a a' :
  (forall x, f None x = None) -> (forall a x a', P a -> f (Some a) x = Some a' -> P a') ->
  P a -> foldl f (Some a) l = Some a' -> P a'.
Proof.
  intros Hn Hf. revert a. induction l as [|x l IH]; intros a Ha; cbn; [by intros [= <-]|].
  destruct (f (Some a) x) as [a1|] eqn:E; [|by rewrite foldl_none]. by apply IH, (Hf a x).
Qed.

Section Props.
Context `{MR : MapRange} `{A2 : Argon2} `{TB : TokenBucket}.
Variable is_ipv6 : string -> bool.
Variable cfg : SessionConfig.
Implicit Types (env : Env) (r : http_request) (ctx : Ctx) (st : AuthState) (scope : option string).

Abbreviation serve := (serve is_ipv6 cfg).
Abbreviation step := (access_step is_ipv6 cfg).
Abbreviation steps := (access_steps is_ipv6 cfg).
Abbreviation reachable := (access_reachable is_ipv6 cfg).

(** ** The middleware chains *)

(** A refusal: what the chain answers when it does not call the handler. *)
Definition refused (answer : response) : Prop := rs_code answer = 401%Z \/ rs_code answer = 403%Z.

(** What a caller has shown when the handler runs. *)
Record admitted (c : api_call) (env : Env) (r : http_request) (st : AuthState) (info : SessionInfo) (db : AccessDB) : Prop := {
  adm_session : session_of cfg env r st = (Some info, db);
  adm_csrf : read_method (call_pattern c).1 = false ->
             ValidateCSRF (st_key st) r (CSRFSecretHash info) = true /\ ValidateOrigin is_ipv6 r = true;
  adm_platform : call_kind c = Platform -> IsPlatformAdmin info = true;
  adm_permission : forall p, call_kind c = Tenant p ->
                   p ∈ (resolvePermissions db (UserID info) (TenantID info) (IsPlatformAdmin info)).2;
  adm_password : call_kind c <> Session -> read_method (call_pattern c).1 = false ->
                 forall u, user_by_id (UserID info) db = Some u -> u_must_change u = false
}.

Lemma hasPermission_elem l p : hasPermission l p = true -> p ∈ l.
Proof.
  unfold hasPermission. intros (x & Hx & ->%String.eqb_eq)%existsb_exists. by apply list_elem_of_In.
Qed.

(** The routes of platform and tenant administration are outside the paths exempt
    from the password check. *)
Lemma guarded_path c : call_kind c <> Session -> call_kind c <> Open ->
  ((call_pattern c).2 =s "/api/v1/auth/change-password") = false /\ ((call_pattern c).2 =s "/api/v1/auth/logout") = false.
Proof. destruct c; done. Qed.

Lemma session_ctx_eq db info :
  session_ctx db info =
  {| ctx_session := Some info;
     ctx_perms := (resolvePermissions db (UserID info) (TenantID info) (IsPlatformAdmin info)).2;
     ctx_roles := (resolvePermissions db (UserID info) (TenantID info) (IsPlatformAdmin info)).1 |}.
Proof. unfold session_ctx. by destruct (resolvePermissions _ _ _ _). Qed.

Lemma matched_session c env r st : session_of cfg env (matched c r) st = session_of cfg env r st.
Proof. done. Qed.

Lemma matched_csrf c key r h : ValidateCSRF key (matched c r) h = ValidateCSRF key r h.
Proof. done. Qed.

Lemma matched_origin c r : ValidateOrigin is_ipv6 (matched c r) = ValidateOrigin is_ipv6 r.
Proof. done. Qed.

(** Handlers without a session answer 401 on the routes of the session chain. *)
Lemma session_handler_refuses c env r st :
  call_kind c = Session -> exists answer, refused answer /\ call_handler is_ipv6 cfg c env r empty_ctx st = (answer, st).
Proof. destruct c; try done; intros _; eexists; (split; [|reflexivity]); by left. Qed.

Lemma with_db_twice f db st : with_db f (with_db (fun _ => db) st) = with_db (fun _ => f db) st.
Proof. done. Qed.

Lemma csrf_ok_parts key r info : csrf_ok is_ipv6 key r info = true -> read_method (rq_method r) = false ->
  ValidateCSRF key r (CSRFSecretHash info) = true /\ ValidateOrigin is_ipv6 r = true.
Proof. unfold csrf_ok. intros H Hm. rewrite Hm in H. cbn in H. by apply andb_true_iff in H. Qed.

Lemma csrf_step next env r ctx st info :
  ctx_session ctx = Some info ->
  (exists answer, refused answer /\ CSRFMiddleware is_ipv6 next env r ctx st = (answer, st)) \/
  csrf_ok is_ipv6 (st_key st) r info = true /\ CSRFMiddleware is_ipv6 next env r ctx st = next env r ctx st.
Proof.
  intros Hc. rewrite CSRFMiddleware_eq, Hc. destruct (csrf_ok _ _ _ _); [by right|left].
  destruct (ValidateCSRF _ _ _); eexists; (split; [|reflexivity]); by right.
Qed.

Lemma password_step next env r ctx st info :
  ctx_session ctx = Some info ->
  (exists answer, refused answer /\ RequirePasswordNotExpired next env r ctx st = (answer, st)) \/
  password_ok r info (st_db st) = true /\ RequirePasswordNotExpired next env r ctx st = next env r ctx st.
Proof.
  intros Hc. destruct (RequirePasswordNotExpired_eq next env r ctx st) as (refusal & H403 & ->). rewrite Hc.
  destruct (password_ok _ _ _); [by right|left]. exists refusal. split; [by right|done].
Qed.

Lemma password_ok_parts c r info db :
  call_kind c <> Session -> call_kind c <> Open -> password_ok (matched c r) info db = true ->
  read_method (call_pattern c).1 = false -> forall u, user_by_id (UserID info) db = Some u -> u_must_change u = false.
Proof.
  intros H1 H2 H Hm u Hu. unfold password_ok in H. cbn [rq_method rq_path matched] in H. rewrite Hm, Hu in H.
  destruct (guarded_path c H1 H2) as [E1 E2]. rewrite E1, E2 in H. cbn in H. by apply negb_true_iff.
Qed.

(** Without a session every guarded route refuses. *)
Lemma no_session_refused c env r st db :
  call_kind c <> Open -> session_of cfg env r st = (None, db) ->
  exists answer, refused answer /\ SetupRoutes is_ipv6 cfg c env (matched c r) empty_ctx st = (answer, with_db (fun _ => db) st).
Proof.
  intros Hopen Es. unfold SetupRoutes.
  destruct (call_kind c) as [| | |p] eqn:Ek; [done| | |]; unfold sessionChain, platformChain, tenantChain, chain; cbn [foldr];
    rewrite SessionMiddleware_eq, matched_session, Es, CSRFMiddleware_eq; cbn [ctx_session empty_ctx].
  - by apply session_handler_refuses.
  - match goal with |- context [RequirePasswordNotExpired ?next ?env ?r ?ctx ?st] =>
      destruct (RequirePasswordNotExpired_eq next env r ctx st) as (refusal & _ & ->) end.
    eexists; split; [|reflexivity]. by right.
  - match goal with |- context [RequirePasswordNotExpired ?next ?env ?r ?ctx ?st] =>
      destruct (RequirePasswordNotExpired_eq next env r ctx st) as (refusal & _ & ->) end.
    eexists; split; [|reflexivity]. by left.
Qed.

(** What a guarded route does: see [served_under_guard]. *)
Lemma serve_cases c env r st :
  call_kind c <> Open ->
  (exists answer, refused answer /\ serve c env r st = (answer, with_db (fun _ => (session_of cfg env r st).2) st)) \/
  (exists info db, admitted c env r st info db /\
     serve c env r st = call_handler is_ipv6 cfg c env (matched c r) (session_ctx db info) (with_db (fun _ => db) st)).
Proof.
  intros Hopen. unfold AccessControl.serve.
  destruct (session_of cfg env r st) as [[info|] db] eqn:Es; cbn [snd]; [|left; by apply no_session_refused].
  unfold SetupRoutes.
  assert (ctx_session (session_ctx db info) = Some info) as Hctx by by rewrite session_ctx_eq.
  destruct (call_kind c) as [| | |p] eqn:Ek; [done| | |]; unfold sessionChain, platformChain, tenantChain, chain; cbn [foldr];
    rewrite SessionMiddleware_eq, matched_session, Es;
    match goal with |- context [CSRFMiddleware is_ipv6 ?next env (matched c r) ?ctx ?st] =>
      destruct (csrf_step next env (matched c r) ctx st info Hctx) as [(answer & Ha & ->)|[Hcsrf ->]];
        [left; by exists answer|]
    end; pose proof (csrf_ok_parts _ _ _ Hcsrf) as Hc.
  - right. exists info, db. split; [|done]. constructor; try done; congruence.
  - match goal with |- context [RequirePasswordNotExpired ?next env (matched c r) ?ctx ?st] =>
      destruct (password_step next env (matched c r) ctx st info Hctx) as [(answer & Ha & ->)|[Hpw ->]];
        [left; by exists answer|]
    end.
    unfold RequirePlatformAdmin. rewrite Hctx. destruct (IsPlatformAdmin info) eqn:Hadm.
    + right. exists info, db. split; [|done]. constructor; try done; try congruence.
      intros _ Hm. apply (password_ok_parts c r info db); [congruence|congruence|exact Hpw|exact Hm].
    + left. eexists. split; [|reflexivity]. by right.
  - match goal with |- context [RequirePasswordNotExpired ?next env (matched c r) ?ctx ?st] =>
      destruct (password_step next env (matched c r) ctx st info Hctx) as [(answer & Ha & ->)|[Hpw ->]];
        [left; by exists answer|]
    end.
    unfold RequirePermission. rewrite Hctx. destruct (hasPermission (ctx_perms (session_ctx db info)) p) eqn:Hperm.
    + right. exists info, db. split; [|done]. constructor; try done; try congruence.
      * intros p' Hp'. rewrite Ek in Hp'. injection Hp' as <-. rewrite session_ctx_eq in Hperm. by apply hasPermission_elem in Hperm.
      * intros _ Hm. apply (password_ok_parts c r info db); [congruence|congruence|exact Hpw|exact Hm].
    + left. eexists. split; [|reflexivity]. by right.
Qed.
(** C9. On every route that asks for a session, a request either is refused
    with 401 or 403 and changes nothing beside the expiry of its own session, or
    the handler runs for a caller that has shown all the route asks for: a valid
    session, on writes the session's CSRF token and a matching origin, platform
    administration or the permission of the route in the session's tenant, and a
    password that is not to be changed. *)
Theorem served_under_guard c env r st :
  call_kind c <> Open ->
  (exists answer, refused answer /\ serve c env r st = (answer, with_db (fun _ => (session_of cfg env r st).2) st)) \/
  (exists info db, admitted c env r st info db /\
     serve c env r st = call_handler is_ipv6 cfg c env (matched c r) (session_ctx db info) (with_db (fun _ => db) st)).
Proof. apply serve_cases. Qed.

(** ** Reachable states *)

Lemma serve_changes c env r st : changes None (st_db st) (st_db (serve c env r st).2).
Proof.
  destruct (decide (call_kind c = Open)) as [Ho|Ho].
  - assert (serve c env r st = call_handler is_ipv6 cfg c env (matched c r) empty_ctx st) as ->.
    { unfold AccessControl.serve, SetupRoutes. by rewrite Ho. }
    eapply changes_weaken, call_changes.
  - destruct (serve_cases c env r st Ho) as [(answer & _ & ->)|(info & db & [Hs _ _ _ _] & ->)].
    + apply session_of_changes.
    + eapply changes_trans; [|eapply changes_weaken, call_changes].
      cbn [st_db with_db]. change db with (Some info, db).2. rewrite <- Hs. apply session_of_changes.
Qed.

Lemma start_server_changes env getenv file rate db st :
  access_ok db -> start_server env getenv file rate db = Some st -> changes None db (st_db st).
Proof.
  intros Hok. unfold start_server. destruct (InitBootstrap _ _ _ _ _) as [[db' pw]|] eqn:E; [|done].
  intros [= <-]. by eapply InitBootstrap_changes, E.
Qed.

Lemma reset_changes env newPassword typed chosen db db' :
  runResetAdminPassword env newPassword typed db = Some (db', chosen) -> changes None db db' /\ sessions db' = sessions db.
Proof.
  unfold runResetAdminPassword. intros (c & _ & H)%bind_Some. apply bind_Some in H as (hash & _ & H). destruct (existsb _ _); [|done].
  injection H as <- _. split; [|done]. apply changes_one, st_users; [done|apply keeps_password].
Qed.

Lemma step_changes st st' : access_ok (st_db st) -> step st st' -> changes None (st_db st) (st_db st').
Proof.
  intros Hok Hs. destruct Hs as [c env r st0|env getenv file rate st0 st1 H|env pw typed chosen db st0 H]; [apply serve_changes| |].
  - eapply start_server_changes; [exact Hok|exact H].
  - cbn [with_db st_db]. by apply reset_changes in H as [H _].
Qed.

Lemma steps_changes st st' : access_ok (st_db st) -> steps st st' -> changes None (st_db st) (st_db st') /\ access_ok (st_db st').
Proof.
  intros Hok. induction 1 as [|st st1 st2 _ IH Hs]; [split; [apply rtc_refl|done]|].
  destruct (IH Hok) as [Hc Hok1]. pose proof (step_changes _ _ Hok1 Hs) as H2.
  split; [by eapply changes_trans|by eapply changes_ok].
Qed.

(** The bootstrap of an empty table of users makes the administrator. *)
Lemma init_stage_users env bs permMap p bs' permMap' :
  init_perm env (Some (bs, permMap)) p = Some (bs', permMap') -> users (bs_db bs') = users (bs_db bs).
Proof.
  unfold init_perm. cbn [mbind option_bind]. destruct (or_ignore _ _) as [[db b]|] eqn:E; [|done]. cbn [mbind option_bind].
  destruct (List.find _ (perms db)); [|done]. cbn [mbind option_bind]. intros [= <- _]. cbn [bs_db].
  destruct (or_ignore_cases _ _ _ _ E) as [->|H]; [done|]. by apply insert_perm_inv in H as [_ ->].
Qed.

Lemma init_role_perm_users env permMap role bs code bs' :
  init_role_perm env permMap role (Some bs) code = Some bs' -> users (bs_db bs') = users (bs_db bs).
Proof.
  unfold init_role_perm. cbn [mbind option_bind]. destruct (permMap !! code); [|done]. cbn [mbind option_bind].
  destruct (or_ignore _ _) as [[db b]|] eqn:E; [|done]. cbn [mbind option_bind]. intros [= <-]. cbn [bs_db].
  destruct (or_ignore_cases _ _ _ _ E) as [->|H]; [done|]. by apply insert_role_perm_inv in H as ->.
Qed.

Lemma init_role_users env permMap bs role bs' :
  init_role env permMap (Some bs) role = Some bs' -> users (bs_db bs') = users (bs_db bs).
Proof.
  unfold init_role. cbn [mbind option_bind]. destruct (or_ignore _ _) as [[db b]|] eqn:E; [|done]. cbn [mbind option_bind].
  destruct (List.find _ (roles db)) as [r|]; [|done]. cbn [mbind option_bind]. intros H.
  transitivity (users db).
  - eapply (foldl_option_inv (fun bs => users (bs_db bs) = users db)) in H; [done|done| |done].
    intros a x a' Ha Hx. rewrite <- Ha. by eapply init_role_perm_users.
  - destruct (or_ignore_cases _ _ _ _ E) as [->|H1]; [done|]. by apply insert_role_inv in H1 as [_ ->].
Qed.

Lemma init_tenant_users env db id db' : init_tenant env db = Some (id, db') -> users db' = users db.
Proof.
  unfold init_tenant. destruct (List.find _ _); [by intros [= _ <-]|]. destruct (insert_tenant _ _) as [|db1] eqn:E; [done|].
  intros [= _ <-]. by apply insert_tenant_inv in E as ->.
Qed.

Lemma init_admin_users env bcfg tid hash bs bs' b :
  users (bs_db bs) = [] -> init_admin env bcfg tid hash bs = Some (bs', b) -> has_admin (bs_db bs').
Proof.
  intros Hu. unfold init_admin.
  match goal with |- context [insert_user ?u (bs_db bs)] =>
    assert (insert_user u (bs_db bs) = inr (set_users (fun l => l ++ [u]) (bs_db bs))) as -> by (unfold insert_user; by rewrite Hu);
    set (admin := u) end.
  cbn [or_ignore mbind option_bind]. set (db1 := set_users _ _).
  destruct (user_by_name _ db1) as [u|]; [|done]. cbn [mbind option_bind].
  destruct (or_ignore db1 _) as [[db2 b2]|] eqn:E2; [|done]. cbn [mbind option_bind].
  destruct (List.find _ (members db2)) as [m|]; [|done]. cbn [mbind option_bind].
  destruct (List.find _ (roles db2)) as [r|]; [|done]. cbn [mbind option_bind].
  destruct (or_ignore db2 _) as [[db3 b3]|] eqn:E3; [|done]. cbn [mbind option_bind]. intros [= <- _]. cbn [bs_db].
  assert (users db3 = users db1) as Heq.
  { transitivity (users db2).
    - destruct (or_ignore_cases _ _ _ _ E3) as [->|H]; [done|]. by apply insert_member_role_inv in H as ->.
    - destruct (or_ignore_cases _ _ _ _ E2) as [->|H]; [done|]. by apply insert_member_inv in H as [_ ->]. }
  exists admin. split; [|done]. rewrite Heq. cbn. rewrite Hu. by apply list_elem_of_singleton.
Qed.

Lemma InitBootstrap_admin env getenv file bcfg db db' pw :
  users db = [] -> InitBootstrap env getenv file bcfg db = Some (db', pw) -> has_admin db'.
Proof.
  intros Hu. unfold InitBootstrap.
  destruct (foldl (init_perm env) _ PermissionCatalog) as [[bs1 permMap]|] eqn:E1; [|done]. cbn [mbind option_bind].
  destruct (foldl (init_role env permMap) _ BuiltinRoles) as [bs2|] eqn:E2; [|done]. cbn [mbind option_bind].
  destruct (init_tenant env (bs_db bs2)) as [[tid db3]|] eqn:E3; [|done]. cbn [mbind option_bind].
  destruct (bootstrap_password _ _ _ _); [|done]. cbn [mbind option_bind].
  destruct (HashPassword _ _); [|done]. cbn [mbind option_bind].
  destruct (init_admin _ _ _ _ _) as [[bs4 created]|] eqn:E4; [|done]. cbn [mbind option_bind]. intros [= <- _].
  eapply init_admin_users, E4. cbn [bs_db].
  eapply (foldl_option_inv (fun x => users (bs_db x.1) = [])) in E1; [|done| |done].
  - eapply (foldl_option_inv (fun x => users (bs_db x) = [])) in E2; [|done| |exact E1].
    + by rewrite (init_tenant_users _ _ _ _ E3).
    + intros a x a' Ha H. by rewrite (init_role_users _ _ _ _ _ H).
  - intros [a m] x [a' m'] Ha H. cbn in *. by rewrite (init_stage_users _ _ _ _ _ _ H).
Qed.

Lemma reachable_ok st : reachable st -> access_ok (st_db st) /\ has_admin (st_db st).
Proof.
  induction 1 as [created env getenv file rate st H|st st' _ [Hok Ha] Hs].
  - split; [eapply changes_ok, schema_ok; by eapply start_server_changes, H; apply schema_ok|].
    unfold start_server in H. destruct (InitBootstrap _ _ _ _ _) as [[db' pw]|] eqn:E; [|done]. injection H as <-.
    by eapply InitBootstrap_admin, E.
  - pose proof (step_changes _ _ Hok Hs) as Hc. split; [by eapply changes_ok|by eapply changes_has_admin].
Qed.

(** C10. Whatever requests are served and however often the server restarts or the
    administrator's password is reset, some active user is a platform administrator: the management API cannot lock
    the platform out. *)
Theorem platform_admin_remains st :
  reachable st -> exists u, u ∈ users (st_db st) /\ u_admin u = true /\ u_status u = "active".
Proof.
  intros [_ (u & Hu & Ha)]%reachable_ok. exists u. unfold active_admin in Ha. by bool_facts.
Qed.

(** ** Permissions *)

Lemma set_of_lookup l s k : is_Some (set_of l s !! k) <-> k ∈ l \/ is_Some (s !! k).
Proof.
  unfold set_of. revert s. induction l as [|x l IH]; intros s; cbn [foldl].
  - split; [by right|]. intros [H|H]; [by apply not_elem_of_nil in H|done].
  - rewrite IH, elem_of_cons. destruct (decide (x = k)) as [->|Hne].
    + rewrite lookup_insert_eq. split; [intros _; by left; left|intros _; right; by eexists].
    + rewrite lookup_insert_ne by done. split; [intros [H|H]|intros [[H|H]|H]]; auto. by destruct Hne.
Qed.

Lemma elem_of_range_keys {V} (m : gmap string V) k : k ∈ (range m).*1 <-> is_Some (m !! k).
Proof.
  rewrite list_elem_of_fmap. split.
  - intros ([k' v] & -> & H). apply elem_of_range in H. by exists v.
  - intros [v H]. exists (k, v). split; [done|]. by apply elem_of_range.
Qed.

Lemma elem_of_bind_filter {A B} (p : A -> bool) (l : list A) (k : A -> list B) y :
  y ∈ (x ← List.filter p l; k x) <-> exists x, x ∈ l /\ p x = true /\ y ∈ k x.
Proof.
  rewrite list_elem_of_bind. split.
  - intros (x & Hy & Hx). apply list_elem_of_In, filter_In in Hx as [Hx Hp]. exists x. by rewrite list_elem_of_In.
  - intros (x & Hx & Hp & Hy). exists x. split; [done|]. apply list_elem_of_In, filter_In. by rewrite <- list_elem_of_In.
Qed.

Lemma elem_of_granted mid db rid code :
  (rid, code) ∈ granted mid db <->
  exists x role rp p, x ∈ member_roles db /\ mr_member x = mid /\ role ∈ roles db /\ ro_id role = mr_role x /\
    ro_status role = "active" /\ rp ∈ role_perms db /\ rp_role rp = ro_id role /\ p ∈ perms db /\ p_id p = rp_perm rp /\
    rid = ro_id role /\ code = p_code p.
Proof.
  unfold granted. rewrite elem_of_bind_filter. split.
  - intros (x & Hx & Hm & H). apply elem_of_bind_filter in H as (role & Hr & Ha & H).
    apply elem_of_bind_filter in H as (rp & Hrp & Hrr & H). apply elem_of_bind_filter in H as (p & Hp & Hpp & H).
    apply list_elem_of_singleton in H as [= -> ->]. bool_facts. by exists x, role, rp, p.
  - intros (x & role & rp & p & Hx & <- & Hr & E1 & E2 & Hrp & E3 & Hp & E4 & -> & ->).
    exists x. rewrite String.eqb_refl. do 2 (split; [done|]). apply elem_of_bind_filter.
    exists role. rewrite E1, E2, !String.eqb_refl. do 2 (split; [done|]). apply elem_of_bind_filter.
    exists rp. rewrite E3, E1, String.eqb_refl. do 2 (split; [done|]). apply elem_of_bind_filter.
    exists p. rewrite E4, String.eqb_refl. do 2 (split; [done|]). by apply list_elem_of_singleton.
Qed.

(** The role is assigned to the membership and carries the code. *)
Definition carries (db : AccessDB) (m : member_row) (role : role_row) (code : string) : Prop :=
  (exists x, x ∈ member_roles db /\ mr_member x = m_id m /\ mr_role x = ro_id role) /\
  (exists rp p, rp ∈ role_perms db /\ rp_role rp = ro_id role /\ p ∈ perms db /\ p_id p = rp_perm rp /\ p_code p = code).

Lemma active_membership_elem user tenant db m : active_membership user tenant db = Some m ->
  m ∈ members db /\ m_user m = user /\ m_tenant m = tenant /\ m_status m = "active".
Proof. intros [Hm Hp]%find_elem. cbn in Hp. apply andb_true_iff in Hp as [Hp ?]. bool_facts. done. Qed.

Lemma elem_of_permissions db user tenant adm code :
  code ∈ (resolvePermissions db user tenant adm).2 <->
  (adm = true /\ code ∈ platform_permissions) \/
  (exists m rid, active_membership user tenant db = Some m /\ (rid, code) ∈ granted (m_id m) db).
Proof.
  unfold resolvePermissions. cbn [snd]. rewrite elem_of_range_keys.
  set (rows := match active_membership user tenant db with None => [] | Some m => granted (m_id m) db end).
  assert (code ∈ rows.*2 <-> exists m rid, active_membership user tenant db = Some m /\ (rid, code) ∈ granted (m_id m) db) as Hrows.
  { subst rows. destruct (active_membership user tenant db) as [m|]; rewrite list_elem_of_fmap.
    - split.
      + intros ([rid c] & -> & H). by exists m, rid.
      + intros (m' & rid & [= <-] & H). by exists (rid, code).
    - split; [intros (x & _ & []%not_elem_of_nil)|intros (m & rid & [=] & _)]. }
  destruct adm; rewrite !set_of_lookup, lookup_empty, Hrows.
  - split; [intros [H|[H|[? [=]]]]; auto|intros [[_ H]|H]; auto].
  - split; [intros [H|[? [=]]]; auto|intros [[[=] _]|H]; auto].
Qed.

(** What a membership grants in a consistent database. *)
Lemma granted_carries db m rid code :
  access_ok db -> m ∈ members db -> (rid, code) ∈ granted (m_id m) db ->
  (code ∉ platform_permissions) /\
  exists role, role ∈ roles db /\ ro_status role = "active" /\ (ro_tenant role = None \/ ro_tenant role = Some (m_tenant m)) /\
    carries db m role code.
Proof.
  intros Hok Hm (x & role & rp & p & Hx & Hxm & Hr & Hri & Ha & Hrp & Hrpr & Hp & Hpi & -> & ->)%elem_of_granted.
  split.
  - pose proof (proj1 (Forall_forall _ _) (ok_grants _ Hok) rp Hrp) as (r' & p' & _ & _ & Hp' & Hpi' & Hs).
    assert (p' = p) as -> by (apply (key_unique p_id (perms db)); [apply Hok|done|done|congruence]).
    pose proof (proj1 (Forall_forall _ _) (ok_scopes _ Hok) p Hp) as Hsc. cbn in Hsc. tauto.
  - exists role. split; [done|]. split; [done|]. split.
    + pose proof (proj1 (Forall_forall _ _) (ok_assignments _ Hok) x Hx) as (m' & r' & Hm' & Hmi' & Hr' & Hri' & Ht).
      assert (m' = m) as -> by (apply (key_unique m_id (members db)); [apply Hok|done|done|congruence]).
      assert (r' = role) as -> by (apply (key_unique ro_id (roles db)); [apply Hok|done|done|congruence]). done.
    + split; [exists x; auto|by exists rp, p].
Qed.

(** C11. In every reachable state a caller's permissions in a tenant are the
    platform permissions for a platform administrator, and beside them exactly the
    codes of the active roles assigned to the caller's active membership there;
    each such role is built in or belongs to the tenant, and none of its codes is a
    platform permission: tenant administration cannot reach the platform. *)
Theorem permissions_exact st user tenant adm code :
  reachable st ->
  code ∈ (resolvePermissions (st_db st) user tenant adm).2 <->
  (adm = true /\ code ∈ platform_permissions) \/
  ((code ∉ platform_permissions) /\ exists m role, active_membership user tenant (st_db st) = Some m /\
     role ∈ roles (st_db st) /\ ro_status role = "active" /\ (ro_tenant role = None \/ ro_tenant role = Some tenant) /\
     carries (st_db st) m role code).
Proof.
  intros [Hok _]%reachable_ok. rewrite elem_of_permissions. apply or_iff_compat_l. split.
  - intros (m & rid & Hm & Hg). pose proof (active_membership_elem _ _ _ _ Hm) as (Hin & _ & Ht & _).
    destruct (granted_carries _ _ _ _ Hok Hin Hg) as (Hp & role & H1 & H2 & H3 & H4). split; [done|].
    exists m, role. by rewrite Ht in H3.
  - intros (_ & m & role & Hm & Hr & Ha & _ & [(x & Hx & Hxm & Hxr) (rp & p & Hrp & Hrr & Hp & Hpi & Hc)]).
    exists m, (ro_id role). split; [done|]. apply elem_of_granted. by exists x, role, rp, p.
Qed.

(** ** Sessions *)

(** See [ValidateSession_spec]. *)
Lemma ValidateSession_iff key now sid db info db' :
  ValidateSession cfg key now sid db = (Some info, db') <->
  exists s u t, sid <> EmptyString /\ session_by_id (hashString key sid) db = Some s /\
    user_by_id (s_user s) db = Some u /\ tenant_by_id (s_tenant s) db = Some t /\
    s_revoked s = None /\ (now <= ParseRFC3339 (s_expires s))%Z /\ u_status u = "active" /\ te_status t = "active" /\
    info = session_info sid s u t /\
    db' = if (hours (RefreshWindowHours cfg) <? time_sub now (ParseRFC3339 (s_seen s)))%Z
          then set_sessions (update_where (fun x => s_id x =s hashString key sid)
                 (session_refresh (FormatRFC3339 now) (FormatRFC3339 (now + hours (IdleTimeoutHours cfg))))) db
          else db.
Proof.
  unfold ValidateSession. split.
  - destruct (String.eqb_spec sid EmptyString) as [|Hne]; [done|].
    destruct (session_by_id _ db) as [s|] eqn:Es; [|done]. cbn [mbind option_bind].
    destruct (user_by_id _ db) as [u|] eqn:Eu; [|done]. cbn [mbind option_bind].
    destruct (tenant_by_id _ db) as [t|] eqn:Et; [|done]. cbn [mbind option_bind].
    cbn [session_info RevokedAt ExpiresAt UserStatus TenantStatus LastSeenAt].
    destruct (s_revoked s) as [rv|] eqn:Er; [done|]. cbn [option_map].
    destruct (_ <? now)%Z eqn:Ee; [done|]. destruct (_ || _) eqn:Ea; [done|]. intros H.
    apply orb_false_iff in Ea as [E1%neqs_false E2%neqs_false]. apply Z.ltb_ge in Ee. exists s, u, t.
    destruct (_ <? time_sub _ _)%Z; injection H as <- <-; unfold session_info; rewrite ?Er; done.
  - intros (s & u & t & Hne & Es & Eu & Et & Er & Ee & E1 & E2 & -> & ->).
    apply String.eqb_neq in Hne. rewrite Hne, Es. cbn [mbind option_bind]. rewrite Eu. cbn [mbind option_bind].
    rewrite Et. cbn [mbind option_bind].
    cbn [session_info RevokedAt ExpiresAt UserStatus TenantStatus LastSeenAt]. rewrite Er. cbn [option_map].
    apply Z.ltb_ge in Ee. rewrite Ee, E1, E2. cbn [String.eqb Ascii.eqb Bool.eqb negb orb].
    by destruct (_ <? time_sub _ _)%Z.
Qed.

(** A session is accepted exactly when its row exists, is not revoked and
    not past its expiry, and its user and tenant are active; the answer carries
    what the rows say, and the row is rewritten (last use now, expiry one idle time
    from now) exactly when the refresh window has passed since its last use. *)
Theorem ValidateSession_spec key now sid db info db' :
  ValidateSession cfg key now sid db = (Some info, db') <->
  exists s u t, sid <> EmptyString /\ session_by_id (hashString key sid) db = Some s /\
    user_by_id (s_user s) db = Some u /\ tenant_by_id (s_tenant s) db = Some t /\
    s_revoked s = None /\ (now <= ParseRFC3339 (s_expires s))%Z /\ u_status u = "active" /\ te_status t = "active" /\
    info = session_info sid s u t /\
    db' = if (hours (RefreshWindowHours cfg) <? time_sub now (ParseRFC3339 (s_seen s)))%Z
          then set_sessions (update_where (fun x => s_id x =s hashString key sid)
                 (session_refresh (FormatRFC3339 now) (FormatRFC3339 (now + hours (IdleTimeoutHours cfg))))) db
          else db.
Proof. apply ValidateSession_iff. Qed.

Lemma session_of_some env r st info db :
  session_of cfg env r st = (Some info, db) ->
  exists value, rq_cookie r !! CookieName cfg = Some value /\
    ValidateSession cfg (st_key st) (env_now env) value (st_db st) = (Some info, db).
Proof. unfold session_of. destruct (_ !! _) as [v|]; [|done]. intros H. by exists v. Qed.

Lemma session_by_id_update id p f db : keeps_session f ->
  session_by_id id (set_sessions (update_where p f) db) = option_map (fun s => if p s then f s else s) (session_by_id id db).
Proof. intros Hf. unfold session_by_id. cbn. apply find_updated. intros s. by destruct (Hf s) as (-> & _). Qed.

Lemma user_by_id_update id p f db : (forall u, u_id (f u) = u_id u) ->
  user_by_id id (set_users (update_where p f) db) = option_map (fun u => if p u then f u else u) (user_by_id id db).
Proof. intros Hf. unfold user_by_id. cbn. apply find_updated. intros u. by rewrite Hf. Qed.

(** The session of the cookie is still in the table after its validation. *)
Lemma validated_row key now sid db info db' :
  ValidateSession cfg key now sid db = (Some info, db') ->
  SessionID info = sid /\ exists s, session_by_id (hashString key sid) db' = Some s /\ s_user s = UserID info /\ s_id s = hashString key sid.
Proof.
  intros (s & u & t & _ & Es & _ & _ & _ & _ & _ & _ & -> & ->)%ValidateSession_iff. split; [done|].
  assert (s_id s = hashString key sid) as Hid by (apply find_elem in Es as [_ Hid]; by apply String.eqb_eq).
  destruct (_ <? _)%Z; [|by exists s]. rewrite session_by_id_update by apply keeps_refresh. rewrite Es. cbn [option_map].
  eexists. split; [done|]. by destruct (s_id s =s _).
Qed.

Lemma revoked_refused key now sid db : session_revoked (hashString key sid) db -> ValidateSession cfg key now sid db = (None, db).
Proof.
  intros (s & Hs & Hr). unfold ValidateSession. destruct (sid =s EmptyString); [done|]. rewrite Hs. cbn [mbind option_bind].
  destruct (user_by_id _ db) as [u|]; [|done]. cbn [mbind option_bind].
  destruct (tenant_by_id _ db) as [t|]; [|done]. cbn [mbind option_bind session_info RevokedAt].
  by destruct (s_revoked s).
Qed.

Lemma refused_not_ok answer : refused answer -> rs_code answer <> 200%Z.
Proof. intros [H|H]; rewrite H; done. Qed.

(** What a successful answer of a guarded route shows. *)
Lemma served_ok c env r st answer st' :
  call_kind c <> Open -> serve c env r st = (answer, st') -> rs_code answer = 200%Z ->
  exists info db, admitted c env r st info db /\
    call_handler is_ipv6 cfg c env (matched c r) (session_ctx db info) (with_db (fun _ => db) st) = (answer, st').
Proof.
  intros Ho Hs H200. destruct (serve_cases c env r st Ho) as [(a & Ha & E)|(info & db & Ha & E)]; rewrite E in Hs.
  - injection Hs as <- _. by destruct (refused_not_ok _ Ha).
  - by exists info, db.
Qed.

Lemma logout_revokes env r st answer st' value :
  serve CLogout env r st = (answer, st') -> rs_code answer = 200%Z -> rq_cookie r !! CookieName cfg = Some value ->
  session_revoked (hashString (st_key st) value) (st_db st').
Proof.
  intros Hs H200 Hv. destruct (served_ok CLogout env r st answer st') as (info & db & [Hses _ _ _ _] & E); [done..|].
  apply session_of_some in Hses as (v & Hv' & Hval). rewrite Hv in Hv'. injection Hv' as <-.
  apply validated_row in Hval as (Hsid & s & Hrow & _ & Hid).
  cbn [call_handler] in E. unfold HandleLogout in E. rewrite session_ctx_eq in E. cbn [ctx_session] in E.
  injection E as _ <-. cbn [st_db with_db st_key]. unfold RevokeSession. rewrite Hsid.
  exists (session_revoke (FormatRFC3339 (env_now env)) s). split; [|done].
  rewrite session_by_id_update by apply keeps_revoke. rewrite Hrow. cbn [option_map]. by rewrite Hid, String.eqb_refl.
Qed.

(** Logging out is final: after a successful logout, whatever requests and
    restarts follow, no identifier that hashes to that session is ever accepted. *)
Theorem logout_is_final env r st answer st1 st2 value sid now :
  reachable st -> serve CLogout env r st = (answer, st1) -> rs_code answer = 200%Z ->
  rq_cookie r !! CookieName cfg = Some value -> steps st1 st2 ->
  hashString (st_key st2) sid = hashString (st_key st) value ->
  ValidateSession cfg (st_key st2) now sid (st_db st2) = (None, st_db st2).
Proof.
  intros [Hok _]%reachable_ok Hs H200 Hv Hsteps Hh. apply revoked_refused. rewrite Hh.
  assert (access_ok (st_db st1)) as Hok1.
  { eapply changes_ok, Hok. change st1 with (answer, st1).2. rewrite <- Hs. apply serve_changes. }
  eapply changes_session_revoked; [by apply steps_changes|]. by eapply logout_revokes.
Qed.
End Props.
