(* ===== verification/AccessLogin.v ===== *)
(** * Theorems on login, passwords and disabled users

    What a login needs and leaves, that its session is accepted, what a change of
    password does to the other sessions, and that a disabled user never comes
    back. *)
From stdpp Require Import relations.
From S2P Require Import Prelude GoStrings GoNumbers GoWeb GoValue Store AccessStore Auth Rbac AccessControl AccessChanges AccessInv AccessProps.

Section Login.
Context `{MR : MapRange} `{A2 : Argon2} `{TB : TokenBucket}.
Variable is_ipv6 : string -> bool.
Variable cfg : SessionConfig.
Implicit Types (env : Env) (r : http_request) (st : AuthState).

Abbreviation serve := (serve is_ipv6 cfg).
Abbreviation steps := (access_steps is_ipv6 cfg).
Abbreviation reachable := (access_reachable is_ipv6 cfg).

(** ** Login *)

(** The row a login adds for user [u] in tenant [t], with the secrets it hands out. *)
Definition login_row (key : string) (now : Z) (u : user_row) (t : tenant_row) (sid csrf : string) : session_row :=
  {| s_id := hashString key sid; s_user := u_id u; s_tenant := te_id t; s_csrf := hashString key csrf;
     s_expires := FormatRFC3339 (now + hours (IdleTimeoutHours cfg)); s_revoked := None;
     s_created := FormatRFC3339 now; s_seen := FormatRFC3339 now |}.

Definition active_member_of (u : user_row) (t : tenant_row) (db : AccessDB) : Prop :=
  exists m, m ∈ members db /\ m_user m = u_id u /\ m_tenant m = te_id t /\ m_status m = "active".

Lemma elem_of_active_tenants tid user db : tid ∈ active_tenants user db ->
  exists m t, m ∈ members db /\ m_user m = user /\ m_status m = "active" /\ m_tenant m = tid /\
    t ∈ tenants db /\ te_id t = tid /\ te_status t = "active".
Proof.
  unfold active_tenants. intros (m & Hm & Hp & H)%elem_of_bind_filter. apply elem_of_bind_filter in H as (t & Ht & Hq & H).
  apply list_elem_of_singleton in H as ->. bool_facts. by exists m, t.
Qed.

Lemma login_tenant_cases requested user db :
  match login_tenant requested user db with
  | inl answer => rs_code answer <> 200%Z
  | inr tid => tid ∈ active_tenants user db /\ (requested <> EmptyString -> tid = requested)
  end.
Proof.
  unfold login_tenant. destruct (String.eqb_spec requested EmptyString) as [->|Hne].
  - destruct (active_tenants user db) as [|x [|y l]]; [done| |done]. split; [by apply list_elem_of_singleton|done].
  - destruct (_ =? 0)%nat eqn:E; [done|]. split; [|done]. apply Nat.eqb_neq in E.
    destruct (List.filter _ _) as [|x l] eqn:F; [done|].
    assert (In x (List.filter (fun tid => tid =s requested) (active_tenants user db))) as Hx by (rewrite F; by left).
    apply filter_In in Hx as [Hx ->%String.eqb_eq]. by apply list_elem_of_In.
Qed.

(** A login that succeeded. *)
Record login_opened (env : Env) (req : LoginRequest) (st : AuthState) (answer : response) (db' : AccessDB)
    (u : user_row) (t : tenant_row) (bytes sid csrf : string) : Prop := {
  lo_user : user_by_name (lr_username req) (st_db st) = Some u;
  lo_active : u_status u = "active";
  lo_password : password_accepted (lr_password req) (u_password_hash u) = true;
  lo_tenant : tenant_by_id (te_id t) (st_db st) = Some t;
  lo_tenant_active : te_status t = "active";
  lo_member : active_member_of u t (st_db st);
  lo_requested : lr_tenant req <> EmptyString -> te_id t = lr_tenant req;
  lo_random : env_rand env 0 = Some bytes /\ sid = HexEncode bytes;
  lo_fresh : has (fun s => s_id s =s hashString (st_key st) sid) (sessions (st_db st)) = false;
  lo_db : db' = set_sessions (fun l => l ++ [login_row (st_key st) (env_now env) u t sid csrf]) (st_db st);
  lo_cookie : rs_cookie answer = Some (SetSessionCookie cfg (env_now env) sid)
}.

Lemma login_session_cases env u tid st answer st' :
  login_session cfg env u tid st = (answer, st') ->
  (rs_code answer <> 200%Z /\ st_db st' = st_db st) \/
  (rs_code answer = 200%Z /\ exists t bytes sid csrf, tenant_by_id tid (st_db st) = Some t /\ te_status t = "active" /\
     env_rand env 0 = Some bytes /\ sid = HexEncode bytes /\
     has (fun s => s_id s =s hashString (st_key st) sid) (sessions (st_db st)) = false /\ te_id t = tid /\
     st_db st' = set_sessions (fun l => l ++ [login_row (st_key st) (env_now env) u t sid csrf]) (st_db st) /\
     rs_cookie answer = Some (SetSessionCookie cfg (env_now env) sid)).
Proof.
  unfold login_session. destruct (tenant_by_id tid (st_db st)) as [t|] eqn:Et; [|intros [= <- <-]; by left].
  destruct (te_status t <>s "active") eqn:Ea; [intros [= <- <-]; by left|]. apply neqs_false in Ea.
  destruct (CreateSession _ _ _ _ _ _) as [[[sid csrf] db]|] eqn:Ec; [|intros [= <- <-]; by left].
  intros [= <- <-]. right. split; [done|]. unfold CreateSession in Ec.
  destruct (env_rand env 0) as [bytes|] eqn:E0; [|done]. destruct (env_rand env 1) as [bytes1|]; [|done].
  cbn [generateRandomHex option_map mbind option_bind] in Ec.
  destruct (insert_session _ _) as [|db1] eqn:Ei; [done|]. injection Ec as <- <- <-.
  apply insert_session_inv in Ei as [Hfresh ->]. cbn [s_id] in Hfresh.
  assert (te_id t = tid) as Hid by (apply find_elem in Et as [_ Hid]; by apply String.eqb_eq).
  exists t, bytes, (HexEncode bytes), (HexEncode bytes1). unfold login_row. rewrite Hid. done.
Qed.

Lemma login_credentials_cases env req st answer st' :
  login_credentials cfg env req st = (answer, st') ->
  (rs_code answer <> 200%Z /\ st_db st' = st_db st) \/
  (rs_code answer = 200%Z /\ exists u t bytes sid csrf, login_opened env req st answer (st_db st') u t bytes sid csrf).
Proof.
  unfold login_credentials. destruct (user_by_name _ _) as [u|] eqn:Eu; [|intros [= <- <-]; by left].
  destruct (u_status u <>s "active") eqn:Ea; [intros [= <- <-]; by left|]. apply neqs_false in Ea.
  destruct (password_accepted _ _) eqn:Ep; [|intros [= <- <-]; by left]. cbn [negb].
  pose proof (login_tenant_cases (lr_tenant req) (u_id u) (st_db st)) as Ht.
  destruct (login_tenant _ _ _) as [a|tid]; [intros [= <- <-]; by left|]. destruct Ht as [Htid Hreq].
  intros [H|(H200 & t & bytes & sid & csrf & E1 & E2 & E3 & E4 & E5 & E6 & E7 & E8)]%login_session_cases; [by left|right].
  split; [done|]. exists u, t, bytes, sid, csrf. subst tid. constructor; try done.
  apply elem_of_active_tenants in Htid as (m & t' & Hm & Hu & Hs & Hmt & _). by exists m.
Qed.

Lemma Allow_with_limiter l st : st_db (with_limiter l st) = st_db st /\ st_key (with_limiter l st) = st_key st.
Proof. done. Qed.

(** The login handler: refused without a change of the tables, or opened. *)
Lemma HandleLogin_cases body env r ctx st answer st' :
  HandleLogin is_ipv6 cfg body env r ctx st = (answer, st') ->
  (rs_code answer <> 200%Z /\ st_db st' = st_db st) \/
  (rs_code answer = 200%Z /\ ValidateOrigin is_ipv6 r = true /\
   exists req u t bytes sid csrf, body = Some req /\ login_opened env req st answer (st_db st') u t bytes sid csrf).
Proof.
  unfold HandleLogin. destruct (rq_method r <>s "POST"); [intros [= <- <-]; by left|].
  destruct (Allow _ _ _ _) as [ok l]. destruct ok; cbn [negb]; [|intros [= <- <-]; by left].
  destruct (ValidateOrigin is_ipv6 r) eqn:Eo; cbn [negb]; [|intros [= <- <-]; by left].
  destruct body as [req|]; [|intros [= <- <-]; by left].
  destruct (_ || _); [intros [= <- <-]; by left|].
  destruct (Allow _ _ (lr_username req) _) as [ok' l']. destruct ok'; cbn [negb]; [|intros [= <- <-]; by left].
  intros [H|(H200 & u & t & bytes & sid & csrf & H)]%login_credentials_cases; [by left|right].
  split; [done|]. split; [done|]. exists req, u, t, bytes, sid, csrf. split; [done|]. by destruct H.
Qed.

(** A login answers 200 exactly by opening a session: for an active user
    whose stored hash accepts the password, in an active tenant where the user is
    an active member (the requested one, when one is), from a matching origin; the
    tables then hold one more row, keyed by the hash of the identifier in the
    cookie.  Any other answer leaves the tables as they were. *)
Theorem login_opens_session body env r st answer st' :
  serve (CLogin body) env r st = (answer, st') ->
  if (rs_code answer =? 200)%Z
  then ValidateOrigin is_ipv6 r = true /\
       exists req u t bytes sid csrf, body = Some req /\ login_opened env req st answer (st_db st') u t bytes sid csrf
  else st_db st' = st_db st.
Proof.
  intros H. destruct (HandleLogin_cases _ _ _ _ _ _ _ H) as [[H1 H2]|(H1 & H2 & H3)].
  - by rewrite (proj2 (Z.eqb_neq _ _) H1).
  - rewrite H1. cbn. by split.
Qed.

Lemma FormatRFC3339_le now : (ParseRFC3339 (FormatRFC3339 now) <= now)%Z.
Proof. cbn. unfold nanosecond. pose proof (Z.mul_div_le now 1000000000 ltac:(lia)). lia. Qed.

(** C28. The session a login opens is accepted: with a random identifier that is
    not empty, until the expiry written in its row, the cookie's value validates to
    the user and tenant of the login, as long as the tables keep the rows. *)
Theorem login_session_accepted body env r st answer st' now :
  reachable st -> serve (CLogin body) env r st = (answer, st') -> rs_code answer = 200%Z ->
  env_rand env 0 <> Some EmptyString -> (now <= ParseRFC3339 (FormatRFC3339 (env_now env + hours (IdleTimeoutHours cfg))))%Z ->
  exists ck req u info db, rs_cookie answer = Some ck /\ ck_name ck = CookieName cfg /\ body = Some req /\
    user_by_name (lr_username req) (st_db st) = Some u /\
    ValidateSession cfg (st_key st) now (ck_value ck) (st_db st') = (Some info, db) /\
    UserID info = u_id u /\ IsPlatformAdmin info = u_admin u /\ (lr_tenant req <> EmptyString -> TenantID info = lr_tenant req).
Proof.
  intros [Hok _]%reachable_ok Hs H200 Hrand Hnow.
  destruct (HandleLogin_cases _ _ _ _ _ _ _ Hs) as [[H _]|(_ & _ & req & u & t & bytes & sid & csrf & -> & Hlo)]; [done|].
  destruct Hlo as [Hu Ha _ Ht Hta _ Hreq [Hb ->] Hfresh Hdb Hck].
  assert (HexEncode bytes <> EmptyString) as Hne by (destruct bytes; [by rewrite Hb in Hrand|done]).
  assert (user_by_id (u_id u) (st_db st) = Some u) as Huid.
  { apply (find_key u_id); [apply Hok|]. by apply find_elem in Hu as [Hu _]. }
  set (row := login_row (st_key st) (env_now env) u t (HexEncode bytes) csrf) in Hdb.
  assert (session_by_id (hashString (st_key st) (HexEncode bytes)) (st_db st') = Some row) as Hrow.
  { rewrite Hdb. unfold session_by_id. cbn [sessions set_sessions]. apply find_app_new; [exact Hfresh|apply String.eqb_refl]. }
  exists (SetSessionCookie cfg (env_now env) (HexEncode bytes)), req, u, (session_info (HexEncode bytes) row u t).
  eexists. do 4 (split; [done|]). split.
  - cbn [ck_value SetSessionCookie]. apply ValidateSession_iff. exists row, u, t.
    split; [done|]. split; [exact Hrow|]. rewrite Hdb. repeat (split; [done|]). done.
  - done.
Qed.

(** ** Passwords *)

(** A successful change of password was shown the current one, stores a
    hash that accepts exactly the passwords that derive the new key, and leaves the
    user no session that is not revoked but the one that asked. *)
Theorem change_password_effect body env r st answer st' :
  serve (CChangePassword body) env r st = (answer, st') -> rs_code answer = 200%Z ->
  exists info db req u salt h, session_of cfg env r st = (Some info, db) /\ body = Some req /\
    user_by_id (UserID info) db = Some u /\ password_accepted (cp_current req) (u_password_hash u) = true /\
    user_by_id (UserID info) (st_db st') = Some (user_with_password h false (FormatRFC3339 (env_now env)) u) /\
    (forall p, password_accepted p h = (derived p salt =s derived (cp_new req) salt)) /\
    (forall s, s ∈ sessions (st_db st') -> s_user s = UserID info -> s_revoked s = None ->
               s_id s = hashString (st_key st) (SessionID info)).
Proof.
  intros Hs H200. destruct (served_ok is_ipv6 cfg (CChangePassword body) env r st answer st') as (info & db & [Hses _ _ _ _] & E);
    [done..|].
  cbn [call_handler] in E. unfold HandleChangePassword in E. rewrite session_ctx_eq in E. cbn [ctx_session st_db with_db st_key] in E.
  destruct body as [req|]; [|by injection E as <- _].
  destruct (_ || _); [by injection E as <- _|]. destruct (_ <? 8)%Z; [by injection E as <- _|].
  destruct (user_by_id (UserID info) db) as [u|] eqn:Eu; [|by injection E as <- _].
  destruct (password_accepted _ _) eqn:Ep; cbn [negb] in E; [|by injection E as <- _].
  destruct (env_rand env 0) as [salt|] eqn:Er; [|by injection E as <- _].
  destruct (HashPassword (cp_new req) (Some salt)) as [h|] eqn:Eh; [|by injection E as <- _]. injection E as _ <-.
  exists info, db, req, u, salt, h. do 4 (split; [done|]). cbn [st_db with_db]. split; [|split].
  - unfold RevokeUserSessions.
    change (user_by_id ?i (set_sessions ?f ?d)) with (user_by_id i d).
    rewrite user_by_id_update by done. rewrite Eu. cbn [option_map].
    assert (u_id u = UserID info) as -> by (apply find_elem in Eu as [_ Hid]; by apply String.eqb_eq). by rewrite String.eqb_refl.
  - intros p. unfold password_accepted. rewrite (VerifyPassword_hash _ _ _ _ Eh). by destruct (_ =s _).
  - unfold RevokeUserSessions. cbn [sessions set_sessions set_users]. intros s Hin Hsu Hsr.
    apply elem_of_update in Hin as (s0 & Hin & ->).
    destruct ((s_user s0 =s UserID info) && (s_id s0 <>s hashString (st_key st) (SessionID info)) && not_revoked s0) eqn:C; [done|].
    rewrite Hsu, String.eqb_refl in C. cbn [andb] in C. unfold not_revoked in C. rewrite Hsr, andb_true_r in C.
    by apply neqs_false.
Qed.

(** ** Disabled users *)

Lemma disable_effect id env r st answer st' :
  is_Some (user_by_id id (st_db st)) -> serve (CDisableUser id) env r st = (answer, st') -> rs_code answer = 200%Z ->
  user_disabled id (st_db st').
Proof.
  intros [u Hu] Hs H200. destruct (served_ok is_ipv6 cfg (CDisableUser id) env r st answer st') as (info & db & [Hses _ _ _ _] & E);
    [done..|].
  cbn [call_handler] in E. unfold HandleDisableUser in E.
  destruct (id =s EmptyString); [by injection E as <- _|]. cbv zeta in E. cbn [st_db with_db] in E.
  destruct (_ && _); [by injection E as <- _|]. injection E as _ <-. cbn [st_db with_db]. unfold revoke_user.
  assert (user_by_id id db = Some u) as Hdb.
  { apply session_of_some in Hses as (v & _ & Hv). apply ValidateSession_iff in Hv as (s & u' & t & _ & _ & _ & _ & _ & _ & _ & _ & _ & ->).
    by destruct (_ <? _)%Z. }
  exists (user_with_status "disabled" (FormatRFC3339 (env_now env)) u). split; [|done].
  change (user_by_id ?i (set_sessions ?f ?d)) with (user_by_id i d). rewrite user_by_id_update by done. rewrite Hdb. cbn [option_map].
  assert (u_id u = id) as -> by (apply find_elem in Hu as [_ Hid]; by apply String.eqb_eq). by rewrite String.eqb_refl.
Qed.

(** A user an administrator disabled stays locked out: after any requests
    and restarts, no session identifier is accepted for that user, and no login
    opens a session for it. *)
Theorem disabled_user_locked_out id env r st answer st1 st2 :
  reachable st -> is_Some (user_by_id id (st_db st)) ->
  serve (CDisableUser id) env r st = (answer, st1) -> rs_code answer = 200%Z -> steps st1 st2 ->
  (forall now sid info db, ValidateSession cfg (st_key st2) now sid (st_db st2) = (Some info, db) -> UserID info <> id) /\
  (forall body env' r', let st3 := (serve (CLogin body) env' r' st2).2 in
     List.filter (fun s => s_user s =s id) (sessions (st_db st3)) = List.filter (fun s => s_user s =s id) (sessions (st_db st2))).
Proof.
  intros [Hok _]%reachable_ok Hu Hs H200 Hsteps.
  assert (access_ok (st_db st1)) as Hok1.
  { eapply changes_ok, Hok. change st1 with (answer, st1).2. rewrite <- Hs. apply serve_changes. }
  destruct (steps_changes is_ipv6 cfg st1 st2 Hok1 Hsteps) as [Hch Hok2].
  destruct (changes_user_disabled _ id _ _ Hch (disable_effect _ _ _ _ _ _ Hu Hs H200)) as (u & Hid & Hd). split.
  - intros now sid info db (s & u' & t & _ & _ & Hu' & _ & _ & _ & Ha & _ & -> & _)%ValidateSession_iff Heq.
    cbn [UserID session_info] in Heq. rewrite Heq, Hid in Hu'. by injection Hu' as ->.
  - intros body env' r' st3. destruct (serve (CLogin body) env' r' st2) as [ans st3'] eqn:E. subst st3. cbn [snd].
    destruct (HandleLogin_cases _ _ _ _ _ _ _ E) as [[_ ->]|(_ & _ & req & u' & t & bytes & sid & csrf & _ & [Hn Ha _ _ _ _ _ _ _ -> _])]; [done|].
    cbn [sessions set_sessions]. rewrite List.filter_app. cbn [List.filter login_row s_user].
    destruct (String.eqb_spec (u_id u') id) as [Heq|_]; [|by rewrite app_nil_r].
    apply find_elem in Hn as [Hin _]. pose proof (find_key u_id _ _ (ok_users _ Hok2) Hin) as Hf.
    unfold user_by_id in Hid. rewrite Heq, Hid in Hf. by injection Hf as ->.
Qed.
End Login.
