(* ===== verification/AccessTenants.v ===== *)
(** * Tenants are confined

    What a caller of the tenant administration can write lies in the tables of its
    own tenant: [outside t] is everything else, and no statement in the scope of [t]
    changes it. *)
From stdpp Require Import relations.
From S2P Require Import Prelude GoStrings GoNumbers GoWeb GoValue Store AccessStore Auth Rbac AccessControl AccessChanges AccessInv AccessProps.

(** ** Filtering rows *)

Section Filters.
Context {A : Type}.
Implicit Types (p q : A -> bool) (l : list A).

Lemma filter_snoc_out p l x : p x = false -> List.filter p (l ++ [x]) = List.filter p l.
Proof. intros Hx. rewrite List.filter_app. cbn. by rewrite Hx, app_nil_r. Qed.

Lemma filter_update_out p q (f : A -> A) l :
  (forall x, x ∈ l -> q x = true -> p x = false /\ p (f x) = false) -> List.filter p (update_where q f l) = List.filter p l.
Proof.
  unfold update_where. intros H. induction l as [|x l IH]; [done|]. cbn. rewrite IH by (intros y Hy; apply H; by right).
  destruct (q x) eqn:Eq; [|done]. destruct (H x ltac:(by left) Eq) as [-> ->]. done.
Qed.

Lemma filter_delete_out p q l : (forall x, x ∈ l -> q x = true -> p x = false) -> List.filter p (delete_where q l) = List.filter p l.
Proof.
  intros H. unfold delete_where. induction l as [|x l IH]; [done|]. cbn.
  assert (List.filter p (List.filter (fun r => negb (q r)) l) = List.filter p l) as Hl by (apply IH; intros y Hy; apply H; by right).
  destruct (q x) eqn:Eq; cbn [negb List.filter]; rewrite Hl; [|done]. by rewrite (H x ltac:(by left) Eq).
Qed.

Lemma filter_ext_elem p q l : (forall x, x ∈ l -> p x = q x) -> List.filter p l = List.filter q l.
Proof. intros H. apply List.filter_ext_in. intros x Hx. apply H. by apply list_elem_of_In. Qed.
End Filters.

Lemma has_snoc {A} (p : A -> bool) l x : has p (l ++ [x]) = has p l || p x.
Proof. unfold has. rewrite existsb_app. cbn. by rewrite orb_false_r. Qed.

Lemma has_update {A} (p q : A -> bool) (f : A -> A) l : (forall x, p (f x) = p x) -> has p (update_where q f l) = has p l.
Proof.
  intros H. unfold has, update_where. induction l as [|x l IH]; [done|]. cbn. rewrite IH. by destruct (q x); rewrite ?H.
Qed.

(** ** What lies outside a tenant *)

Definition own_member (t : string) (db : AccessDB) (id : string) : bool :=
  has (fun m => (m_id m =s id) && (m_tenant m =s t)) (members db).

Definition is_role_of (t : string) (r : role_row) : bool := match ro_tenant r with Some t' => t' =s t | None => false end.

Definition own_role (t : string) (db : AccessDB) (id : string) : bool :=
  has (fun r => (ro_id r =s id) && is_role_of t r) (roles db).

(** Users, tenants, permissions; the memberships and roles of the others and the
    built-in roles; the assignments and grants that belong to those. *)
Record outside_view := {
  out_users : list user_row; out_tenants : list tenant_row; out_perms : list perm_row;
  out_members : list member_row; out_roles : list role_row;
  out_role_perms : list role_perm_row; out_member_roles : list member_role_row
}.

Definition outside (t : string) (db : AccessDB) : outside_view :=
  {| out_users := users db; out_tenants := tenants db; out_perms := perms db;
     out_members := List.filter (fun m => m_tenant m <>s t) (members db);
     out_roles := List.filter (fun r => negb (is_role_of t r)) (roles db);
     out_role_perms := List.filter (fun x => negb (own_role t db (rp_role x))) (role_perms db);
     out_member_roles := List.filter (fun x => negb (own_member t db (mr_member x))) (member_roles db) |}.

Lemma outside_eq t db db' :
  users db' = users db -> tenants db' = tenants db -> perms db' = perms db ->
  List.filter (fun m => m_tenant m <>s t) (members db') = List.filter (fun m => m_tenant m <>s t) (members db) ->
  List.filter (fun r => negb (is_role_of t r)) (roles db') = List.filter (fun r => negb (is_role_of t r)) (roles db) ->
  List.filter (fun x => negb (own_role t db' (rp_role x))) (role_perms db') =
    List.filter (fun x => negb (own_role t db (rp_role x))) (role_perms db) ->
  List.filter (fun x => negb (own_member t db' (mr_member x))) (member_roles db') =
    List.filter (fun x => negb (own_member t db (mr_member x))) (member_roles db) ->
  outside t db' = outside t db.
Proof. unfold outside. by intros -> -> -> -> -> -> ->. Qed.

(** An identifier of the tenant's own row. *)
Lemma own_member_intro t db m : m ∈ members db -> m_tenant m = t -> own_member t db (m_id m) = true.
Proof. intros Hm <-. apply (has_intro _ _ m Hm). by rewrite !String.eqb_refl. Qed.

Lemma own_role_intro t db r : r ∈ roles db -> ro_tenant r = Some t -> own_role t db (ro_id r) = true.
Proof. intros Hr Ht. apply (has_intro _ _ r Hr). unfold is_role_of. by rewrite Ht, !String.eqb_refl. Qed.

(** Members and roles that are referred to are there. *)
Lemma assigned_member db x : access_ok db -> x ∈ member_roles db -> exists m, m ∈ members db /\ m_id m = mr_member x.
Proof. intros Hok Hx. destruct (proj1 (Forall_forall _ _) (ok_assignments _ Hok) x Hx) as (m & _ & H1 & H2 & _). by exists m. Qed.

Lemma granted_role db x : access_ok db -> x ∈ role_perms db -> exists r, r ∈ roles db /\ ro_id r = rp_role x.
Proof. intros Hok Hx. destruct (proj1 (Forall_forall _ _) (ok_grants _ Hok) x Hx) as (r & _ & H1 & H2 & _). by exists r. Qed.

Lemma outside_sessions t f db : outside t (set_sessions f db) = outside t db.
Proof. done. Qed.

Lemma outside_insert_member t m db :
  access_ok db -> m_tenant m = t -> has (fun x => m_id x =s m_id m) (members db) = false ->
  outside t (set_members (fun l => l ++ [m]) db) = outside t db.
Proof.
  intros Hok Ht Hn. apply outside_eq; try done; cbn.
  - apply filter_snoc_out. by rewrite Ht, String.eqb_refl.
  - apply filter_ext_elem. intros x Hx. f_equal. unfold own_member. cbn. rewrite has_snoc.
    destruct (assigned_member _ _ Hok Hx) as (m' & Hm' & <-). apply (has_false _ _ _ Hn) in Hm'. cbn in Hm'.
    by rewrite String.eqb_sym, Hm', orb_false_r.
Qed.

Lemma outside_member_status t id m status now db :
  access_ok db -> member_by_id id db = Some m -> m_tenant m = t ->
  outside t (set_members (update_where (fun m => m_id m =s id) (member_with_status status now)) db) = outside t db.
Proof.
  intros Hok [Hm Hid]%find_elem Ht. cbn in Hid. apply String.eqb_eq in Hid. apply outside_eq; try done; cbn.
  - apply filter_update_out. intros x Hx Hxi%String.eqb_eq.
    assert (x = m) as -> by (apply (key_unique m_id (members db)); [apply Hok|done|done|congruence]).
    cbn. by rewrite Ht, String.eqb_refl.
  - apply filter_ext_elem. intros x _. f_equal. unfold own_member. cbn. by apply has_update.
Qed.

Lemma outside_insert_role t r db :
  access_ok db -> ro_tenant r = Some t -> has (fun x => ro_id x =s ro_id r) (roles db) = false ->
  outside t (set_roles (fun l => l ++ [r]) db) = outside t db.
Proof.
  intros Hok Ht Hn. apply outside_eq; try done; cbn.
  - apply filter_snoc_out. unfold is_role_of. by rewrite Ht, String.eqb_refl.
  - apply filter_ext_elem. intros x Hx. f_equal. unfold own_role. cbn. rewrite has_snoc.
    destruct (granted_role _ _ Hok Hx) as (r' & Hr' & <-). apply (has_false _ _ _ Hn) in Hr'. cbn in Hr'.
    by rewrite (String.eqb_sym (ro_id r)), Hr', orb_false_r.
Qed.

Lemma outside_delete_role t id r db :
  access_ok db -> role_by_id id db = Some r -> ro_tenant r = Some t ->
  has (fun x => rp_role x =s id) (role_perms db) = false ->
  outside t (set_roles (delete_where (fun x => ro_id x =s id)) db) = outside t db.
Proof.
  intros Hok [Hr Hid]%find_elem Ht Hp. cbn in Hid. apply String.eqb_eq in Hid. apply outside_eq; try done; cbn.
  - apply filter_delete_out. intros x Hx Hxi%String.eqb_eq.
    assert (x = r) as -> by (apply (key_unique ro_id (roles db)); [apply Hok|done|done|congruence]).
    unfold is_role_of. by rewrite Ht, String.eqb_refl.
  - apply filter_ext_elem. intros x Hx. f_equal. apply (has_false _ _ _ Hp) in Hx. cbn in Hx. unfold own_role. cbn.
    apply eq_true_iff_eq. split; intros (y & Hy & Hq)%has_true; apply (has_intro _ _ y); try done.
    + by apply elem_of_delete in Hy as [? _].
    + apply elem_of_delete. split; [done|]. apply andb_true_iff in Hq as [Hq%String.eqb_eq _]. by rewrite Hq.
Qed.

Lemma stmt_outside t db db' : stmt (Some t) db db' -> access_ok db -> outside t db' = outside t db.
Proof.
  intros Hst Hok. inversion Hst as
    [p f db0 Hf|s db0 db1 H|? ? ? Hn|? ? ? ? Hn|? ? ? Hn|? ? ? Hn|? ? ? Hn|? ? ? Hn|m db0 db1 Hs H
    |id m status now db0 Hm Hs|? ? ? Hn|r t' db0 db1 Hs Ht Hb H|id r t' db0 db1 Hr Ht Hs H
    |x m r db0 db1 Hm Hmi Hs Hr Hri Ht H|id m rid db0 Hm Hs|x r p db0 db1 Hr Hri Hs Hp Hpi Hsc H|id r t' db0 Hr Ht Hs|? ? ? Hn];
    subst; try done.
  - by apply insert_session_inv in H as [_ ->].
  - apply insert_member_inv in H as [Hn ->]. destruct Hs as [[=]|[= Hs]]. by apply outside_insert_member.
  - destruct Hs as [[=]|[= Hs]]. by eapply outside_member_status.
  - apply insert_role_inv in H as [Hn ->]. destruct Hs as [[=]|[= ->]]. by apply outside_insert_role.
  - destruct (delete_role_inv _ _ _ _ Hr H) as (Hp & _ & ->). destruct Hs as [[=]|[= ->]]. by eapply outside_delete_role.
  - apply insert_member_role_inv in H as ->. destruct Hs as [[=]|[= Hs]]. apply outside_eq; try done; cbn.
    apply filter_snoc_out. change (own_member t _) with (own_member t db). rewrite <- Hmi.
    by rewrite (own_member_intro t db m).
  - destruct Hs as [[=]|[= Hs]]. apply outside_eq; try done; cbn. apply filter_delete_out.
    change (own_member t _) with (own_member t db). intros x Hx [->%String.eqb_eq _]%andb_true_iff.
    apply find_elem in Hm as [Hm Hid]. cbn in Hid. apply String.eqb_eq in Hid. rewrite <- Hid. by rewrite (own_member_intro t db m).
  - apply insert_role_perm_inv in H as ->. destruct Hs as [[=]|[_ Hs]]. apply outside_eq; try done; cbn.
    apply filter_snoc_out. change (own_role t _) with (own_role t db). rewrite <- Hri. by rewrite (own_role_intro t db r).
  - destruct Hs as [[=]|[= ->]]. apply outside_eq; try done; cbn. apply filter_delete_out.
    change (own_role t' _) with (own_role t' db). intros x Hx ->%String.eqb_eq.
    apply find_elem in Hr as [Hr Hid]. cbn in Hid. apply String.eqb_eq in Hid. rewrite <- Hid. by rewrite (own_role_intro t' db r).
Qed.

Lemma changes_outside t db db' : changes (Some t) db db' -> access_ok db -> outside t db' = outside t db.
Proof.
  induction 1 as [|db db1 db2 H1 _ IH]; intros Hok; [done|]. rewrite IH by (by eapply stmt_ok). by apply stmt_outside.
Qed.

Section Tenants.
Context `{MR : MapRange} `{A2 : Argon2} `{TB : TokenBucket}.
Variable is_ipv6 : string -> bool.
Variable cfg : SessionConfig.

(** C12. A request on the routes of tenant administration writes nothing outside
    the tenant of its session: users, tenants, permissions, the memberships and roles
    of other tenants, the built-in roles, and their assignments and grants are as
    they were; a request without a session changes none of these for any tenant. *)
Theorem tenant_confinement c p env r st :
  access_reachable is_ipv6 cfg st -> call_kind c = Tenant p ->
  forall t, match (session_of cfg env r st).1 with Some info => t = TenantID info | None => True end ->
  outside t (st_db (serve is_ipv6 cfg c env r st).2) = outside t (st_db st).
Proof.
  intros [Hok _]%reachable_ok Hk t Ht.
  destruct (serve_cases is_ipv6 cfg c env r st) as [(answer & _ & ->)|(info & db & [Hs _ _ _ _] & ->)]; [by rewrite Hk| |].
  - cbn [snd st_db with_db]. eapply changes_outside; [apply session_of_changes|done].
  - rewrite Hs in Ht. cbn [fst] in Ht. subst t.
    assert (changes (Some (TenantID info)) (st_db st) db) as Hc.
    { change db with (Some info, db).2. rewrite <- Hs. apply session_of_changes. }
    eapply changes_outside; [|done]. eapply changes_trans; [exact Hc|].
    pose proof (call_changes is_ipv6 cfg c env (matched c r) (session_ctx db info) (with_db (fun _ => db) st)) as Hch.
    unfold call_scope in Hch. rewrite Hk in Hch. unfold tenant_scope in Hch. rewrite session_ctx_eq in Hch |- *. exact Hch.
Qed.
End Tenants.

(** ** What the handlers cannot do *)

Section Limits.
Context `{MR : MapRange} `{A2 : Argon2} `{TB : TokenBucket}.

(** The INSERT of a tenant names no slug, a column that is NOT NULL and has no
    default: no request creates a tenant. *)
Theorem tenants_cannot_be_created body env r ctx st :
  (HandleCreateTenant body env r ctx st).2 = st /\
  (rs_code (HandleCreateTenant body env r ctx st).1 = 400%Z \/ rs_code (HandleCreateTenant body env r ctx st).1 = 500%Z).
Proof.
  split; [apply HandleCreateTenant_same|]. unfold HandleCreateTenant. destruct body as [req|]; [|by left].
  destruct (_ || _); [by left|]. destruct (List.find _ _) as [u|]; [|by left]. rewrite create_tenant_tx_refused. by right.
Qed.

(** A role of the tenant that carries a permission and is assigned to nobody
    cannot be deleted: the foreign key of its grants refuses. *)
Theorem role_with_permissions_not_deleted id env r ctx info st role x :
  ctx_session ctx = Some info -> role_by_id id (st_db st) = Some role -> ro_built_in role = false ->
  ro_tenant role = Some (TenantID info) -> has (fun y => mr_role y =s id) (member_roles (st_db st)) = false ->
  x ∈ role_perms (st_db st) -> rp_role x = id ->
  HandleDeleteRole id env r ctx st = (http_error 500 "internal error", st).
Proof.
  intros Hc Hr Hb Ht Hm Hx Hxi. unfold HandleDeleteRole. rewrite Hc, Hr, Hb. unfold not_own_role. rewrite Ht, String.eqb_refl.
  cbn [negb]. unfold count_where.
  assert (List.filter (fun y => mr_role y =s id) (member_roles (st_db st)) = []) as ->.
  { destruct (List.filter _ _) as [|y l] eqn:F; [done|].
    assert (In y (List.filter (fun y => mr_role y =s id) (member_roles (st_db st)))) as [Hy He]%filter_In by (rewrite F; by left).
    apply list_elem_of_In in Hy. apply (has_false _ _ _ Hm) in Hy. congruence. }
  cbn [length Nat.ltb Nat.leb]. unfold delete_role. apply find_elem in Hr as [Hin Hid].
  rewrite (has_intro _ _ role Hin Hid), (has_intro (fun y => rp_role y =s id) _ x Hx) by (by apply String.eqb_eq). done.
Qed.

(** Every login first draws from one bucket, whoever asks: once it is empty nobody
    logs in. *)
Theorem login_bucket_is_shared is_ipv6 cfg body env r ctx st l :
  checkKey (env_now env) "user:" (st_limiter st) = (false, l) -> rq_method r = "POST" ->
  HandleLogin is_ipv6 cfg body env r ctx st = (http_error 429 "too many requests", with_limiter l st).
Proof.
  intros Hk Hm. unfold HandleLogin. rewrite Hm. cbn [String.eqb Ascii.eqb Bool.eqb negb]. unfold Allow.
  change ("user:" +s+ ToLower EmptyString)%go with "user:". by rewrite Hk.
Qed.
End Limits.
