(* ===== verification/AccessDemo.v ===== *)
(** * A concrete run of the access API

    A server started on a fresh database, the bootstrap administrator logging in,
    changing the password, creating and disabling a user, granting roles and logging
    out: the inputs at which the theorems on access are applied, and the runs behind
    the findings. *)
From stdpp Require Import relations.
From S2P Require Import Prelude GoStrings GoNumbers GoWeb GoValue Store AccessStore Auth Rbac AccessControl AccessChanges AccessInv AccessProps AccessLogin AccessTenants.

(** A bucket of five tokens that is never refilled. *)
Definition demo_bucket : TokenBucket :=
  {| Bucket := Z; NewLimiter := fun _ burst => burst; BucketAllow := fun _ b => ((0 <? b)%Z, (b - 1)%Z) |}.

#[local] Existing Instance demo_argon2.
#[local] Existing Instance demo_bucket.
#[local] Existing Instance canonical_range.

Definition no_ipv6 (s : string) : bool := false.

(** Request number [k]: its second, its random bytes, its identifiers.  The process
    has no hash key, the fallback the code provides. *)
Definition demo_env (k : Z) : Env :=
  {| env_now := (1000 + k) * nanosecond;
     env_rand := fun n => match n with 2%nat => None | _ => Some ("r" +s+ Itoa k +s+ "-" +s+ Itoa (Z.of_nat n)) end;
     env_uuid := fun n => "id" +s+ Itoa k +s+ "-" +s+ Itoa (Z.of_nat n) |}.

Definition demo_getenv (v : string) : string :=
  if v =s "LIGHTAI_BOOTSTRAP_INITIAL_PASSWORD" then "initial-password" else EmptyString.

Definition no_state : AuthState :=
  {| st_db := schema_db (RFC3339 0); st_key := EmptyString; st_limiter := NewLoginRateLimiter 0 (f64_of_Z 1) 5;
     st_logins_ok := 0; st_logins_failed := 0 |}.

Definition demo_booted : AuthState :=
  Eval vm_compute in default no_state (start_server (demo_env 0) demo_getenv None (f64_of_Z 1) (schema_db (RFC3339 0))).

Definition demo_serve := serve no_ipv6 DefaultSessionConfig.

(** A browser on the server's own origin, with the cookie and token of login [k]. *)
Definition demo_browser (k : option Z) : http_request :=
  let secret n := match k with Some k => HexEncode ("r" +s+ Itoa k +s+ n) | None => EmptyString end in
  {| rq_method := "GET"; rq_path := "/"; rq_host := "localhost:8080"; rq_remote := "127.0.0.1:4000";
     rq_header := {["origin" := "http://localhost:8080"; "x-csrf-token" := secret "-1"]};
     rq_cookie := match k with Some _ => {["lightai_session" := secret "-0"]} | None => ∅ end |}.

Definition demo_login : api_call := CLogin (Some {| lr_username := "admin"; lr_password := "initial-password"; lr_tenant := EmptyString |}).
Definition demo_change : api_call := CChangePassword (Some {| cp_current := "initial-password"; cp_new := "another-password" |}).
Definition demo_create : api_call :=
  CCreateUser (Some {| cu_username := "bob"; cu_password := "bobs-password"; cu_display := EmptyString; cu_admin := None |}).
Definition demo_member (role : string) : api_call := CCreateMembership (Some {| cm_username := "bob"; cm_roles := [role] |}).

(** Logged in, password changed, user created, user made a viewer. *)
Definition demo_in : AuthState := Eval vm_compute in (demo_serve demo_login (demo_env 1) (demo_browser None) demo_booted).2.
Definition demo_changed : AuthState := Eval vm_compute in (demo_serve demo_change (demo_env 2) (demo_browser (Some 1%Z)) demo_in).2.
Definition demo_bob : AuthState := Eval vm_compute in (demo_serve demo_create (demo_env 3) (demo_browser (Some 1%Z)) demo_changed).2.
Definition viewer_role : string :=
  Eval vm_compute in default EmptyString (option_map ro_id (List.find (builtin_named "viewer") (roles (st_db demo_bob)))).
Definition demo_joined : AuthState :=
  Eval vm_compute in (demo_serve (demo_member viewer_role) (demo_env 4) (demo_browser (Some 1%Z)) demo_bob).2.
Definition demo_disabled : AuthState :=
  Eval vm_compute in (demo_serve (CDisableUser "id3-0") (demo_env 5) (demo_browser (Some 1%Z)) demo_joined).2.
Definition demo_out : AuthState := Eval vm_compute in (demo_serve CLogout (demo_env 6) (demo_browser (Some 1%Z)) demo_disabled).2.

Abbreviation demo_cfg := DefaultSessionConfig.
Abbreviation demo_reachable := (access_reachable no_ipv6 demo_cfg).
Abbreviation demo_steps := (access_steps no_ipv6 demo_cfg).

(** ** The run is one of the system *)

Lemma demo_booted_reachable : demo_reachable demo_booted.
Proof.
  refine (access_reachable_start _ _ (RFC3339 0) (demo_env 0) demo_getenv None (f64_of_Z 1) demo_booted _).
  vm_compute. reflexivity.
Qed.

Lemma demo_served c env r st st' : demo_reachable st -> (demo_serve c env r st).2 = st' -> demo_reachable st'.
Proof. intros H <-. eapply access_reachable_step; [exact H|]. apply step_request. Qed.

Lemma demo_in_reachable : demo_reachable demo_in.
Proof. refine (demo_served demo_login (demo_env 1) (demo_browser None) _ _ demo_booted_reachable _). vm_compute. reflexivity. Qed.

Lemma demo_changed_reachable : demo_reachable demo_changed.
Proof. refine (demo_served demo_change (demo_env 2) (demo_browser (Some 1%Z)) _ _ demo_in_reachable _). vm_compute. reflexivity. Qed.

Lemma demo_bob_reachable : demo_reachable demo_bob.
Proof. refine (demo_served demo_create (demo_env 3) (demo_browser (Some 1%Z)) _ _ demo_changed_reachable _). vm_compute. reflexivity. Qed.

Lemma demo_joined_reachable : demo_reachable demo_joined.
Proof. refine (demo_served (demo_member viewer_role) (demo_env 4) (demo_browser (Some 1%Z)) _ _ demo_bob_reachable _). vm_compute. reflexivity. Qed.

Lemma demo_disabled_reachable : demo_reachable demo_disabled.
Proof. refine (demo_served (CDisableUser "id3-0") (demo_env 5) (demo_browser (Some 1%Z)) _ _ demo_joined_reachable _). vm_compute. reflexivity. Qed.

(** ** The theorems at the run *)

Lemma served_under_guard_witness :
  call_kind demo_create <> Open /\
  ((exists answer, refused answer /\ demo_serve demo_create (demo_env 3) (demo_browser (Some 1%Z)) demo_changed =
      (answer, with_db (fun _ => (session_of demo_cfg (demo_env 3) (demo_browser (Some 1%Z)) demo_changed).2) demo_changed)) \/
   (exists info db, admitted no_ipv6 demo_cfg demo_create (demo_env 3) (demo_browser (Some 1%Z)) demo_changed info db /\
      demo_serve demo_create (demo_env 3) (demo_browser (Some 1%Z)) demo_changed =
      call_handler no_ipv6 demo_cfg demo_create (demo_env 3) (matched demo_create (demo_browser (Some 1%Z))) (session_ctx db info)
        (with_db (fun _ => db) demo_changed))).
Proof. split; [done|]. apply (served_under_guard no_ipv6 demo_cfg demo_create). done. Defined.

Lemma platform_admin_remains_witness : exists u, u ∈ users (st_db demo_disabled) /\ u_admin u = true /\ u_status u = "active".
Proof. exact (platform_admin_remains no_ipv6 demo_cfg demo_disabled demo_disabled_reachable). Defined.

Lemma permissions_exact_witness :
  ("node:read" ∈ (resolvePermissions (st_db demo_joined) "id3-0" default_tenant_id false).2 <->
   (false = true /\ "node:read" ∈ platform_permissions) \/
   (("node:read" ∉ platform_permissions) /\ exists m role, active_membership "id3-0" default_tenant_id (st_db demo_joined) = Some m /\
      role ∈ roles (st_db demo_joined) /\ ro_status role = "active" /\
      (ro_tenant role = None \/ ro_tenant role = Some default_tenant_id) /\ carries (st_db demo_joined) m role "node:read")) /\
  "node:read" ∈ (resolvePermissions (st_db demo_joined) "id3-0" default_tenant_id false).2 /\
  "membership:write" ∉ (resolvePermissions (st_db demo_joined) "id3-0" default_tenant_id false).2.
Proof.
  split; [exact (permissions_exact no_ipv6 demo_cfg demo_joined _ _ _ _ demo_joined_reachable)|].
  split; [apply existsb_eqb_In|apply existsb_eqb_notIn]; by vm_compute.
Defined.

Lemma logout_is_final_witness :
  ValidateSession demo_cfg (st_key demo_out) (2000 * nanosecond) (HexEncode "r1-0") (st_db demo_out) = (None, st_db demo_out).
Proof.
  apply (logout_is_final no_ipv6 demo_cfg (demo_env 6) (demo_browser (Some 1%Z)) demo_disabled
           (demo_serve CLogout (demo_env 6) (demo_browser (Some 1%Z)) demo_disabled).1 demo_out demo_out (HexEncode "r1-0")).
  - exact demo_disabled_reachable.
  - by vm_compute.
  - by vm_compute.
  - by vm_compute.
  - constructor.
  - done.
Defined.

Lemma login_opens_session_witness :
  st_db demo_booted = st_db (demo_serve (CLogin None) (demo_env 1) (demo_browser None) demo_booted).2.
Proof.
  symmetry. exact (login_opens_session no_ipv6 demo_cfg None (demo_env 1) (demo_browser None) demo_booted
    (demo_serve (CLogin None) (demo_env 1) (demo_browser None) demo_booted).1
    (demo_serve (CLogin None) (demo_env 1) (demo_browser None) demo_booted).2 eq_refl).
Defined.

Lemma login_session_accepted_witness :
  exists ck req u info db, rs_cookie (demo_serve demo_login (demo_env 1) (demo_browser None) demo_booted).1 = Some ck /\
    ck_name ck = "lightai_session" /\
    Some {| lr_username := "admin"; lr_password := "initial-password"; lr_tenant := EmptyString |} = Some req /\
    user_by_name (lr_username req) (st_db demo_booted) = Some u /\
    ValidateSession demo_cfg (st_key demo_booted) (1500 * nanosecond) (ck_value ck) (st_db demo_in) = (Some info, db) /\
    UserID info = u_id u /\ IsPlatformAdmin info = u_admin u /\ (lr_tenant req <> EmptyString -> TenantID info = lr_tenant req).
Proof.
  apply (login_session_accepted no_ipv6 demo_cfg _ (demo_env 1) (demo_browser None) demo_booted
           (demo_serve demo_login (demo_env 1) (demo_browser None) demo_booted).1 demo_in (1500 * nanosecond)).
  - exact demo_booted_reachable.
  - by vm_compute.
  - by vm_compute.
  - by vm_compute.
  - by vm_compute.
Defined.

Lemma change_password_effect_witness :
  exists info db req u salt h, session_of demo_cfg (demo_env 2) (demo_browser (Some 1%Z)) demo_in = (Some info, db) /\
    Some {| cp_current := "initial-password"; cp_new := "another-password" |} = Some req /\
    user_by_id (UserID info) db = Some u /\ password_accepted (cp_current req) (u_password_hash u) = true /\
    user_by_id (UserID info) (st_db demo_changed) = Some (user_with_password h false (FormatRFC3339 (env_now (demo_env 2))) u) /\
    (forall p, password_accepted p h = (derived p salt =s derived (cp_new req) salt)) /\
    (forall s, s ∈ sessions (st_db demo_changed) -> s_user s = UserID info -> s_revoked s = None ->
               s_id s = hashString (st_key demo_in) (SessionID info)).
Proof.
  apply (change_password_effect no_ipv6 demo_cfg _ (demo_env 2) (demo_browser (Some 1%Z)) demo_in
           (demo_serve demo_change (demo_env 2) (demo_browser (Some 1%Z)) demo_in).1 demo_changed); by vm_compute.
Defined.

Lemma disabled_user_locked_out_witness :
  (forall now sid info db, ValidateSession demo_cfg (st_key demo_disabled) now sid (st_db demo_disabled) = (Some info, db) ->
     UserID info <> "id3-0") /\
  (forall body env' r', let st3 := (serve no_ipv6 demo_cfg (CLogin body) env' r' demo_disabled).2 in
     List.filter (fun s => s_user s =s "id3-0") (sessions (st_db st3)) =
     List.filter (fun s => s_user s =s "id3-0") (sessions (st_db demo_disabled))).
Proof.
  apply (disabled_user_locked_out no_ipv6 demo_cfg "id3-0" (demo_env 5) (demo_browser (Some 1%Z)) demo_joined
           (demo_serve (CDisableUser "id3-0") (demo_env 5) (demo_browser (Some 1%Z)) demo_joined).1 demo_disabled demo_disabled).
  - exact demo_joined_reachable.
  - vm_compute. eexists; reflexivity.
  - by vm_compute.
  - by vm_compute.
  - constructor.
Defined.

Lemma tenant_confinement_witness :
  outside default_tenant_id (st_db demo_joined) = outside default_tenant_id (st_db demo_bob) /\
  members (st_db demo_joined) <> members (st_db demo_bob).
Proof.
  split; [|by vm_compute].
  assert ((demo_serve (demo_member viewer_role) (demo_env 4) (demo_browser (Some 1%Z)) demo_bob).2 = demo_joined) as <- by (by vm_compute).
  apply (tenant_confinement no_ipv6 demo_cfg (demo_member viewer_role) "membership:write" (demo_env 4) (demo_browser (Some 1%Z)) demo_bob
           demo_bob_reachable); by vm_compute.
Defined.

(** ** Runs behind the findings *)

(** A restart adds the built-in roles once more: NULLs are distinct in the UNIQUE
    constraint that INSERT OR IGNORE relies on. *)
Lemma restart_duplicates_roles :
  option_map (fun st => map ro_name (roles (st_db st))) (start_server (demo_env 7) demo_getenv None (f64_of_Z 1) (st_db demo_booted)) =
  Some ["admin"; "operator"; "viewer"; "admin"; "operator"; "viewer"].
Proof. by vm_compute. Qed.

(** Three logins of anybody, anywhere, within a burst of five exhaust the shared bucket
    (each of these requests is refused later, and draws from it once). *)
Lemma burst_locks_out_everybody :
  let attempt st k := (demo_serve demo_login (demo_env k) (demo_browser None) st).2 in
  let st := fold_left attempt [11; 12; 13; 14; 15]%Z demo_booted in
  rs_code (demo_serve demo_login (demo_env 16) (demo_browser None) st).1 = 429%Z.
Proof. by vm_compute. Qed.

(** Switching the tenant makes the next validation see a last use in year one. *)
Lemma switch_forces_refresh :
  let st := (demo_serve (CSwitchTenant (Some default_tenant_id)) (demo_env 8) (demo_browser (Some 1%Z)) demo_in).2 in
  option_map (fun i => LastSeenAt i) (ValidateSession demo_cfg (st_key st) (1009 * nanosecond) (HexEncode "r1-0") (st_db st)).1 =
  Some zero_time.
Proof. by vm_compute. Qed.
