(* ===== verification/Backends.v ===== *)
(** * Backends, versions and runtime templates (internal/server/api: backend_handlers.go, runtime_handlers.go, node_runtime_handlers.go; catalog.SeedCatalog)

    The catalog of the server: inference backends, their versions and the runtime
    templates.  Rows of the shipped catalog are written by [SeedCatalog], which runs at
    every start; the handlers add, patch, copy and delete rows of users.  A JSON column is
    its decoded document; [encode] is the JSON text a checksum is taken of. *)
From S2P Require Import Prelude GoStrings GoNumbers GoWeb GoValue GoJson GoJsonText RuntimeContract RunPlanTypes ConfigSets ConfigEdit Catalog CatalogLoad.
From S2P Require Import Store Deployments Detection RunPlanViews AgentSpec Preflight NodeRuntimes DeploymentDocs.
From Stdlib Require Import Ascii.
From stdpp Require Import sorting.

(** ** Rows (db.go) *)

Record backend_row := {
  be_id : string; be_name : string; be_display : string; be_description : string; be_slug : string; be_managed : string; be_source : string;
  be_catalog : string; be_checksum : string; be_status : string; be_config : any; be_metadata : any; be_created : string; be_updated : string
}.

Record version_row := {
  ve_id : string; ve_backend : string; ve_version : string; ve_display : string; ve_default : bool; ve_deprecated : bool; ve_slug : string;
  ve_managed : string; ve_source : string; ve_catalog : string; ve_checksum : string; ve_status : string; ve_description : string;
  ve_readonly : bool; ve_protocol : string; ve_revision : string; ve_config : any; ve_metadata : any; ve_created : string; ve_updated : string
}.

Record runtime_row := {
  rt_id : string; rt_name : string; rt_display : string; rt_backend : string; rt_version : string; rt_source_template : string; rt_vendor : string;
  rt_type : string; rt_builtin : bool; rt_editable : bool; rt_tenant : string; rt_slug : string; rt_managed : string; rt_source : string;
  rt_catalog : string; rt_checksum : string; rt_status : string; rt_visibility : string; rt_support : string; rt_config : any; rt_metadata : any;
  rt_created : string; rt_updated : string
}.

Record catalog_db := { cd_backends : list backend_row; cd_versions : list version_row; cd_runtimes : list runtime_row }.

Definition with_backends (f : list backend_row -> list backend_row) (db : catalog_db) : catalog_db :=
  {| cd_backends := f (cd_backends db); cd_versions := cd_versions db; cd_runtimes := cd_runtimes db |}.
Definition with_versions (f : list version_row -> list version_row) (db : catalog_db) : catalog_db :=
  {| cd_backends := cd_backends db; cd_versions := f (cd_versions db); cd_runtimes := cd_runtimes db |}.
Definition with_runtimes (f : list runtime_row -> list runtime_row) (db : catalog_db) : catalog_db :=
  {| cd_backends := cd_backends db; cd_versions := cd_versions db; cd_runtimes := f (cd_runtimes db) |}.

Definition find_backend (db : catalog_db) (id : string) : option backend_row := by_id be_id id (cd_backends db).
Definition find_version (db : catalog_db) (id : string) : option version_row := by_id ve_id id (cd_versions db).
Definition find_runtime (db : catalog_db) (id : string) : option runtime_row := by_id rt_id id (cd_runtimes db).

(** *** Constraints

    What refuses a row: its key, a UNIQUE, a foreign key.  The row [r] is checked against
    the others. *)
Definition unique_text (cols : string) : string := "UNIQUE constraint failed: " +s+ cols.
Definition foreign_text : string := "FOREIGN KEY constraint failed".

Definition backend_refused (r : backend_row) (others : list backend_row) : option string :=
  if existsb (fun o => be_name o =s be_name r) others then Some (unique_text "inference_backends.name") else None.

Definition version_refused (db : catalog_db) (r : version_row) (others : list version_row) : option string :=
  if existsb (fun o => (ve_backend o =s ve_backend r) && (ve_version o =s ve_version r)) others
  then Some (unique_text "backend_versions.backend_id, backend_versions.version")
  else match find_backend db (ve_backend r) with Some _ => None | None => Some foreign_text end.

Definition runtime_refused (db : catalog_db) (r : runtime_row) (others : list runtime_row) : option string :=
  if existsb (fun o => (rt_tenant o =s rt_tenant r) && (rt_name o =s rt_name r)) others
  then Some (unique_text "backend_runtimes.tenant_id, backend_runtimes.name")
  else match find_backend db (rt_backend r), find_version db (rt_version r) with Some _, Some _ => None | _, _ => Some foreign_text end.

(** An INSERT adds the row at the end; an UPDATE puts the row in the place of the one with its key. *)
Definition write_row {A} (key : A -> string) (refused : A -> list A -> option string) (creating : bool) (r : A) (rows : list A) : string + list A :=
  if creating && existsb (fun o => key o =s key r) rows then inl (unique_text "id")
  else match refused r (delete_where (fun o => key o =s key r) rows) with
       | Some e => inl e
       | None => inr (if creating then rows ++ [r] else update_where (fun o => key o =s key r) (fun _ => r) rows)
       end.

Definition write_version (creating : bool) (r : version_row) (db : catalog_db) : string + catalog_db :=
  match write_row ve_id (version_refused db) creating r (cd_versions db) with
  | inl e => inl e
  | inr rows => inr (with_versions (fun _ => rows) db)
  end.
Definition write_runtime (creating : bool) (r : runtime_row) (db : catalog_db) : string + catalog_db :=
  match write_row rt_id (runtime_refused db) creating r (cd_runtimes db) with
  | inl e => inl e
  | inr rows => inr (with_runtimes (fun _ => rows) db)
  end.

(** ** Names *)

Definition checksumString (s : string) : string := "sha256:" +s+ str_take 16 (HexEncode (Sum256 s)).

Definition runtimeDisplayNameExists (db : catalog_db) (tenantID displayName excludeID : string) : bool :=
  let displayName := TrimSpace displayName in
  (displayName <>s "") && existsb (fun r => (rt_display r =s displayName) && ((rt_tenant r =s tenantID) || (rt_tenant r =s "")) && (rt_id r <>s excludeID)) (cd_runtimes db).

Definition name_taken (db : catalog_db) (tenantID name : string) : bool :=
  existsb (fun r => (rt_tenant r =s tenantID) && (rt_name r =s name)) (cd_runtimes db).

(** The loop of [uniqueRuntimeName]: [candidate] is tried before number [i]. *)
Fixpoint free_name (fuel : nat) (taken : string -> bool) (base candidate : string) (i : Z) : option string :=
  match fuel with
  | O => None
  | S fuel => if taken candidate then free_name fuel taken base (base +s+ "-" +s+ Itoa i) (i + 1)%Z else Some candidate
  end.

Definition name_base (base : string) : string := if TrimSpace base =s "" then "runtime-copy" else TrimSpace base.

(** One turn more than there are rows. *)
Definition uniqueRuntimeName (db : catalog_db) (tenantID base : string) : option string :=
  free_name (S (length (cd_runtimes db))) (name_taken db tenantID) (name_base base) (name_base base) 2.

(** ** Views *)

Definition sensitiveKeys : list string :=
  ["KEY"; "TOKEN"; "PASSWORD"; "PASSWD"; "PWD"; "SECRET"; "AUTH"; "CREDENTIAL"; "ACCESS"; "API_KEY"; "APIKEY"; "ACCESS_KEY"; "SECRET_KEY"; "AUTHORIZATION";
   "BEARER"; "HF_TOKEN"; "DASHSCOPE_API_KEY"; "OPENAI_API_KEY"; "AK"; "SK"; "PRIVATE"].
Definition api_isSensitive (key : string) : bool := existsb (Contains (ToUpper key)) sensitiveKeys.

Definition redactEnvMap (env : obj) : obj := map (fun kv => (kv.1, if api_isSensitive kv.1 then AStr "<redacted>" else kv.2)) env.

Definition version_json (r : version_row) : obj :=
  let set := parse_of (ve_config r) in
  [("backend_id", AStr (ve_backend r)); ("capabilities", AMap (configObject set "backend.capabilities")); ("catalog_version", AStr (ve_catalog r));
   ("checksum", AStr (ve_checksum r)); ("command", AStrs (configStringSlice set "launcher.command")); ("config_set", AMap set);
   ("config_set_json", ve_config r); ("created_at", AStr (ve_created r)); ("description", AStr (ve_description r)); ("display_name", AStr (ve_display r));
   ("entrypoint", AStrs (configStringSlice set "launcher.entrypoint")); ("health_check", AMap (configObject set "runtime.health")); ("id", AStr (ve_id r));
   ("is_default", ABool (ve_default r)); ("is_deprecated", ABool (ve_deprecated r)); ("managed_by", AStr (ve_managed r));
   ("model_mount", AMap (configObject set "runtime.model_mount")); ("protocol", AStr (ve_protocol r)); ("readonly", ABool (ve_readonly r));
   ("revision", AStr (ve_revision r)); ("slug", AStr (ve_slug r)); ("source", AStr (ve_source r));
   ("source_metadata", AMap (default [] (as_map (ve_metadata r)))); ("source_metadata_json", ve_metadata r); ("status", AStr (ve_status r));
   ("supported_config_items", AList (configArray set "backend.supported_config_items")); ("updated_at", AStr (ve_updated r));
   ("version", AStr (ve_version r))].

Definition runtime_json (r : runtime_row) : obj :=
  let set := parse_of (rt_config r) in
  [("backend_id", AStr (rt_backend r)); ("backend_version_id", AStr (rt_version r)); ("command", AStrs (configStringSlice set "launcher.command"));
   ("config_set", AMap set); ("config_set_json", rt_config r); ("created_at", AStr (rt_created r)); ("display_name", AStr (rt_display r));
   ("docker_options", AMap (configObject set "launcher.docker_options")); ("entrypoint", AStrs (configStringSlice set "launcher.entrypoint"));
   ("env", AMap (redactEnvMap (configObject set "runtime.env"))); ("health_check", AMap (configObject set "runtime.health")); ("id", AStr (rt_id r));
   ("image_ref", AStr (configString set "launcher.image" "")); ("is_builtin", ABool (rt_builtin r)); ("is_editable", ABool (rt_editable r));
   ("model_mount", AMap (configObject set "runtime.model_mount")); ("name", AStr (rt_name r)); ("runtime_type", AStr (rt_type r));
   ("source_metadata", AMap (default [] (as_map (rt_metadata r)))); ("source_metadata_json", rt_metadata r);
   ("source_template_name", AStr (rt_source_template r)); ("status", AStr (rt_status r)); ("support_level", AStr (rt_support r));
   ("tenant_id", AStr (rt_tenant r)); ("updated_at", AStr (rt_updated r)); ("vendor", AStr (rt_vendor r)); ("visibility", AStr (rt_visibility r))].

Definition publicBackendRuntimeJSON (o : obj) : obj :=
  List.filter (fun kv => (kv.1 <>s "config_set_json") && (kv.1 <>s "source_metadata_json")) o.

(** The reply that shows a row just written, null when it is not found. *)
Definition version_reply (code : Z) (id : string) (db : catalog_db) : reply :=
  Reply code (match find_version db id with Some r => AMap (version_json r) | None => ANil end).
Definition public_reply (code : Z) (id : string) (db : catalog_db) : reply :=
  Reply code (AMap (publicBackendRuntimeJSON (match find_runtime db id with Some r => runtime_json r | None => [] end))).

(** ORDER BY a text. *)
Definition text_le {A} (key : A -> string) (a b : A) : Prop := Is_true (String.leb (key a) (key b)).
#[export] Instance text_le_dec {A} (key : A -> string) : RelDecision (text_le key).
Proof. intros a b. unfold text_le. apply _. Defined.

Definition version_pair_le (a b : version_row) : Prop :=
  Is_true (if ve_backend a =s ve_backend b then String.leb (ve_version a) (ve_version b) else String.leb (ve_backend a) (ve_backend b)).
#[export] Instance version_pair_le_dec : RelDecision version_pair_le.
Proof. intros a b. unfold version_pair_le. apply _. Defined.

Definition HandleListAllBackendVersions (db : catalog_db) (backendID : string) : reply :=
  let rows := List.filter (fun r => ((backendID =s "") || (ve_backend r =s backendID)) && (ve_status r <>s "deprecated")) (cd_versions db) in
  Reply 200 (AList (map (fun r => AMap (version_json r)) (merge_sort version_pair_le rows))).

Definition HandleListBackendVersions (db : catalog_db) (backendID : string) : reply :=
  let rows := List.filter (fun r => (ve_backend r =s backendID) && (ve_status r <>s "deprecated")) (cd_versions db) in
  Reply 200 (AList (map (fun r => AMap (version_json r)) (merge_sort (text_le ve_version) rows))).

Definition backend_json (r : backend_row) : obj :=
  let set := parse_of (be_config r) in
  [("capabilities", AMap (configObject set "backend.capabilities")); ("catalog_version", AStr (be_catalog r)); ("checksum", AStr (be_checksum r));
   ("config_set", AMap set); ("config_set_json", be_config r); ("created_at", AStr (be_created r)); ("description", AStr (be_description r));
   ("display_name", AStr (be_display r)); ("id", AStr (be_id r)); ("is_builtin", ABool (be_managed r =s "system"));
   ("is_enabled", ABool (be_status r =s "active")); ("managed_by", AStr (be_managed r)); ("name", AStr (be_name r)); ("slug", AStr (be_slug r));
   ("source", AStr (be_source r)); ("source_metadata", AMap (default [] (as_map (be_metadata r)))); ("source_metadata_json", be_metadata r);
   ("status", AStr (be_status r)); ("updated_at", AStr (be_updated r))].

Definition HandleListBackends (db : catalog_db) : reply :=
  Reply 200 (AList (map (fun r => AMap (backend_json r)) (merge_sort (text_le be_name) (cd_backends db)))).
Definition HandleGetBackend (db : catalog_db) (id : string) : reply :=
  match find_backend db id with Some r => Reply 200 (AMap (backend_json r)) | None => not_found end.

(** The templates a caller sees; [counts]: status of the node runtimes, by template. *)
Definition ordinary_selector (r : runtime_row) : bool :=
  (rt_managed r <>s "system") || ((rt_visibility r =s "visible") && ((rt_status r =s "active") || (rt_status r =s "experimental"))).

Definition sees_runtime (s : session) (include_hidden : bool) (r : runtime_row) : bool :=
  if s_admin s then include_hidden || ordinary_selector r
  else ((rt_tenant r =s s_tenant s) || (rt_tenant r =s "")) && ordinary_selector r.

Definition runtime_counts (counts : list (string * string)) (id : string) : obj :=
  let mine := List.filter (fun c => c.1 =s id) counts in
  [("deployable_count", AInt (Z.of_nat (length (List.filter (fun c => isNBRDeployable c.2) mine)))); ("node_count", AInt (Z.of_nat (length mine)));
   ("ready_count", AInt (Z.of_nat (length (List.filter (fun c => c.2 =s "ready") mine))))].

Definition HandleListBackendRuntimes (s : session) (include_hidden : bool) (counts : list (string * string)) (db : catalog_db) : reply :=
  Reply 200 (AList (map (fun r => AMap (foldl (fun o kv => obj_set kv.1 kv.2 o) (publicBackendRuntimeJSON (runtime_json r)) (runtime_counts counts (rt_id r))))
    (merge_sort (text_le rt_name) (List.filter (sees_runtime s include_hidden) (cd_runtimes db))))).

(** A row of no tenant belongs to everyone. *)
Definition in_scope (s : session) (r : runtime_row) : bool := (rt_tenant r =s "") || tenantScopeCheck s (rt_tenant r).

Definition HandleGetBackendRuntime (s : session) (id : string) (db : catalog_db) : reply :=
  match find_runtime db id with
  | Some r => if in_scope s r then Reply 200 (AMap (publicBackendRuntimeJSON (runtime_json r))) else not_found
  | None => not_found
  end.

(** ** Versions *)

Section Handlers.
Context `{MR : MapRange} (encode : any -> string) (real_text : float64 -> string) (decode_error : any -> string).

Definition set_checksum (set : obj) : string := checksumString (encode (AMap set)).

Definition backendVersionRuntimeOnlyField (req : obj) : string :=
  default "" (List.find (has_key req) ["image_ref"; "command"; "entrypoint"; "model_mount"; "docker_options"; "devices"; "volumes"; "env"]).

Definition backendVersionUpsertStatus (msg : string) : Z :=
  if existsb (Contains msg) ["belongs to BackendRuntime"; "required"; "not found"; "tiered shape"; "flat " +s+ String dquote ""] then 400 else 500.

(** The trimmed text of a request, or the one a row has, or another. *)
Definition text_field (req : obj) (key current def : string) : string := or_field (TrimSpace (obj_strVal req key "")) (or_field current def).

(** A flag the request names is false unless it is the boolean true. *)
Definition flag_field (req : obj) (key : string) (current : bool) : bool := if has_key req key then obj_boolVal req key false else current.

(** The set a request gives. *)
Definition given_set (req : obj) : obj :=
  match mapFromAny (get_any req "config_set") with [] => mapFromAny (get_any req "config_set_json") | set => set end.

(** The set of the row, or a refusal. *)
Definition version_set (current : option version_row) (backend : backend_row) (req : obj) : string + obj :=
  match given_set req with
  | (_ :: _) as set => match validateTieredConfigSet set with Some e => inl e | None => inr set end
  | [] => match (match current with Some r => parse_of (ve_config r) | None => [] end) with
          | [] => inr (copy_of (be_config backend))
          | set => inr set
          end
  end.

Definition upsert_metadata (id now : string) : any :=
  AMap [("copied_at", AStr now); ("copy_boundary", AStr "detached_after_create"); ("copy_semantics", AStr "copy_on_create"); ("materialized_at", AStr now);
        ("source_ref", AStr id); ("source_type", AStr "api")].

Definition upserted_version (id backendID version now : string) (current : option version_row) (req set : obj) : version_row :=
  let old f := match current with Some r => f r | None => "" end in
  let set := match obj_get req "health_check" with Some h => setConfigValue set "runtime.health" h "BackendVersion" id | None => set end in
  {| ve_id := id; ve_backend := backendID; ve_version := version; ve_display := text_field req "display_name" (old ve_display) version;
     ve_default := flag_field req "is_default" (match current with Some r => ve_default r | None => false end);
     ve_deprecated := flag_field req "is_deprecated" (match current with Some r => ve_deprecated r | None => false end);
     ve_slug := text_field req "slug" (old ve_slug) (slugify version); ve_managed := "user"; ve_source := "api"; ve_catalog := "configset-user";
     ve_checksum := checksumString (id +s+ version +s+ encode (AMap set)); ve_status := "active";
     ve_description := text_field req "description" (old ve_description) ""; ve_readonly := false;
     ve_protocol := text_field req "protocol" (old ve_protocol) "";
     ve_revision := or_field (TrimSpace (obj_strVal req "revision" "")) (checksumString (id +s+ version +s+ now));
     ve_config := stored (AMap set); ve_metadata := upsert_metadata id now;
     ve_created := (match current with Some r => ve_created r | None => now end); ve_updated := now |}.

(** The error, or the tables with the row. *)
Definition upsertBackendVersionFromRequest (id backendID : string) (req : obj) (creating : bool) (now : string) (db : catalog_db) : string + catalog_db :=
  if backendID =s "" then inl "backend_id is required"
  else if backendVersionRuntimeOnlyField req <>s ""
  then inl (backendVersionRuntimeOnlyField req +s+ " belongs to BackendRuntime, not BackendVersion")
  else match find_backend db backendID with
  | None => inl "backend not found"
  | Some backend =>
      let current := find_version db id in
      let version := text_field req "version" (match current with Some r => ve_version r | None => "" end) "" in
      if version =s "" then inl "version is required"
      else match version_set current backend req with
           | inl e => inl e
           | inr set =>
               let insert := creating || (match current with Some _ => false | None => true end) in
               let backend := if insert then backendID else match current with Some r => ve_backend r | None => backendID end in
               write_version insert (upserted_version id backend version now current req set) db
           end
  end.

(** [id]: the identifier of the request, or a new one. *)
Definition HandleCreateBackendVersion (backendID uuid : string) (req : option obj) (now : string) (db : catalog_db) : reply * catalog_db :=
  if backendID =s "" then (api_error 400 "backend_id is required", db)
  else match req with
  | None => (api_error 400 "invalid request", db)
  | Some req =>
      if TrimSpace (obj_strVal req "version" "") =s "" then (api_error 400 "version is required", db)
      else
        let id := or_field (obj_strVal req "id" "") ("backend-version.user." +s+ uuid) in
        match upsertBackendVersionFromRequest id backendID req true now db with
        | inl e => (api_error (backendVersionUpsertStatus e) e, db)
        | inr db' => (version_reply 201 id db', db')
        end
  end.

Definition HandlePatchBackendVersion (id : string) (req : option obj) (now : string) (db : catalog_db) : reply * catalog_db :=
  match find_version db id with
  | None => (not_found, db)
  | Some r =>
      if (ve_managed r =s "system") || ve_readonly r then (api_error 409 "system backend version is read-only; clone before editing", db)
      else match req with
      | None => (api_error 400 "invalid request", db)
      | Some req => match upsertBackendVersionFromRequest id (ve_backend r) req false now db with
                    | inl e => (api_error (backendVersionUpsertStatus e) e, db)
                    | inr db' => (version_reply 200 id db', db')
                    end
      end
  end.

(** The row tells no file it was loaded from, so that no file is removed. *)
Definition HandleDeleteBackendVersion (id : string) (db : catalog_db) : reply * catalog_db :=
  match find_version db id with
  | None => (not_found, db)
  | Some r =>
      if ve_managed r =s "system" then (api_error 409 "system backend version is read-only", db)
      else if existsb (fun t => rt_version t =s id) (cd_runtimes db) then (api_error 409 "backend version is used by runtime templates", db)
      else (Reply 200 (AMap [("status", AStr "deleted")]), with_versions (delete_where (fun r => ve_id r =s id)) db)
  end.

Definition HandleCloneBackendVersion (sourceID uuid now : string) (db : catalog_db) : reply * catalog_db :=
  match find_version db sourceID with
  | None => (not_found, db)
  | Some r =>
      let id := "backend-version.user." +s+ uuid in
      let version := ve_version r +s+ "-user-" +s+ str_take 8 (default "" (last (Split id "."))) in
      let req := [("config_set", AMap (parse_of (ve_config r))); ("description", AStr (ve_description r)); ("display_name", AStr (ve_display r +s+ " (user)"));
                  ("slug", AStr (slugify version)); ("version", AStr version)] in
      match upsertBackendVersionFromRequest id (ve_backend r) req true now db with
      | inl e => (api_error 500 e, db)
      | inr db' => (version_reply 201 id db', db')
      end
  end.

(** ** Runtime templates *)

(** The settings of a request, by their codes. *)
Definition request_codes : list (string * string) :=
  [("docker_options", "launcher.docker_options"); ("env", "runtime.env"); ("model_mount", "runtime.model_mount"); ("health_check", "runtime.health");
   ("entrypoint", "launcher.entrypoint"); ("command", "launcher.command")].

Definition put_settings (codes : list (string * string)) (req : obj) (id : string) (set : obj) : obj :=
  foldl (fun set kc => match obj_get req kc.1 with Some v => setConfigValue set kc.2 v "BackendRuntime" id | None => set end) set codes.

Definition put_image (req : obj) (id : string) (set : obj) : obj :=
  let image := obj_strVal req "image_ref" "" in
  if image <>s "" then setConfigValue set "launcher.image" (AStr image) "BackendRuntime" id else set.

(** A row of a user, with the defaults of the table. *)
Definition user_runtime (id name display backend version source_template vendor tenant source : string) (set : obj) (metadata : any) (now : string) : runtime_row :=
  {| rt_id := id; rt_name := name; rt_display := display; rt_backend := backend; rt_version := version; rt_source_template := source_template;
     rt_vendor := vendor; rt_type := "docker"; rt_builtin := false; rt_editable := true; rt_tenant := tenant; rt_slug := slugify name;
     rt_managed := "user"; rt_source := source; rt_catalog := "configset-v1"; rt_checksum := set_checksum set; rt_status := "active";
     rt_visibility := "visible"; rt_support := "documented"; rt_config := stored (AMap set); rt_metadata := metadata; rt_created := now; rt_updated := now |}.

Definition unique_name (db : catalog_db) (tenantID base : string) : string := default "" (uniqueRuntimeName db tenantID base).

(** The backend and the version a request names, by identifier or by name. *)
Definition named_backend (db : catalog_db) (req : obj) : string :=
  or_field (obj_strVal req "backend_id" "")
    (match List.find (fun b => be_name b =s obj_strVal req "backend_name" "") (cd_backends db) with Some b => be_id b | None => "" end).

Definition named_version (db : catalog_db) (backendID : string) (req : obj) : string :=
  or_field (obj_strVal req "backend_version_id" "")
    (match List.find (fun v => (ve_backend v =s backendID) && (ve_version v =s obj_strVal req "backend_version" "")) (cd_versions db) with
     | Some v => ve_id v | None => "" end).

Definition create_metadata (backendID templateName : string) (v : version_row) : any :=
  AMap [("copy_semantics", AStr "copy_on_create"); ("source_backend_id", AStr backendID); ("source_backend_runtime_id", AStr "");
        ("source_backend_version_id", AStr (ve_id v)); ("source_config_set_checksum", AStr (checksumString (encode (ve_config v))));
        ("source_template_name", AStr templateName); ("source_type", AStr "backend_runtime");
        ("source_version_revision", AStr (or_field (ve_checksum v) (ve_updated v)))].

Definition create_name (req : obj) (id : string) : string :=
  let short := str_take 8 id in
  let name := TrimSpace (obj_strVal req "name" (obj_strVal req "template_name" "" +s+ "-" +s+ short)) in
  if name =s "-" +s+ short then "runtime-" +s+ short else name.

(** The set a new template starts from. *)
Definition version_base (v : version_row) : obj :=
  match configSetItems (copy_of (ve_config v)) with [] => parse_of (ve_config v) | _ => copy_of (ve_config v) end.

Definition HandleCreateBackendRuntimeFromTemplate (s : session) (id : string) (req : option obj) (now : string) (db : catalog_db) : reply * catalog_db :=
  match req with
  | None => (api_error 400 "invalid request", db)
  | Some req =>
      let templateName := obj_strVal req "template_name" "" in
      let name := unique_name db (s_tenant s) (create_name req id) in
      let display := or_field (TrimSpace (obj_strVal req "display_name" name)) name in
      if runtimeDisplayNameExists db (s_tenant s) display "" then (api_error 409 "display_name already exists in runtime templates", db)
      else
        let backendID := named_backend db req in
        match find_version db (named_version db backendID req) with
        | None => (api_error 400 "backend_id and backend_version_id are required", db)
        | Some v =>
            if backendID =s "" then (api_error 400 "backend_id and backend_version_id are required", db)
            else
              let set := put_settings request_codes req id (put_image req id (version_base v)) in
              match write_runtime true (user_runtime id name display backendID (ve_id v) templateName (obj_strVal req "vendor" "custom") (s_tenant s) "user-config"
                                          set (create_metadata backendID templateName v) now) db with
              | inl _ => (api_error 500 "internal error", db)
              | inr db' => (public_reply 201 id db', db')
              end
        end
  end.

Definition clone_name (r : runtime_row) (req : obj) (id : string) : string :=
  or_field (TrimSpace (obj_strVal req "name" ""))
    ("runtime." +s+ TrimPrefix (rt_backend r) "backend." +s+ "." +s+ rt_vendor r +s+ ".user." +s+ str_take 8 id).

Definition clone_metadata (r : runtime_row) : any :=
  AMap [("copy_semantics", AStr "copy_on_create"); ("source_backend_runtime_id", AStr (rt_id r)); ("source_runtime_name", AStr (rt_name r));
        ("source_runtime_revision", AStr (rt_updated r)); ("source_type", AStr "backend_runtime_clone")].

(** A body that is no object counts as an empty one. *)
Definition HandleCloneBackendRuntime (s : session) (originalID id : string) (body : option obj) (now : string) (db : catalog_db) : reply * catalog_db :=
  match find_runtime db originalID with
  | None => (not_found, db)
  | Some r =>
      let req := default [] body in
      let name := unique_name db (s_tenant s) (clone_name r req id) in
      let display := or_field (TrimSpace (obj_strVal req "display_name" "")) name in
      if runtimeDisplayNameExists db (s_tenant s) display "" then (api_error 409 "display_name already exists in runtime templates", db)
      else
        let set := match get_obj req "config_set" with
                   | Some incoming => incoming
                   | None => put_settings request_codes req id (put_image req id (copy_of (rt_config r)))
                   end in
        match write_runtime true (user_runtime id name display (rt_backend r) (rt_version r) (rt_name r) (obj_strVal req "vendor" (rt_vendor r)) (s_tenant s) "clone"
                                    set (clone_metadata r) now) db with
        | inl _ => (api_error 500 "internal error", db)
        | inr db' => (Reply 201 (match find_runtime db' id with Some r => AMap (runtime_json r) | None => ANil end), db')
        end
  end.

(** A text column of a patch: a text is trimmed. *)
Definition patch_column (req : obj) (key : string) : option any := match obj_get req key with Some (AStr s) => Some (AStr (TrimSpace s)) | v => v end.
Definition patched_text (old : string) (v : option any) : option string := match v with None => Some old | Some v => sql_text real_text v end.
Definition is_text (v : option any) (s : string) : bool := match v with Some (AStr t) => t =s s | _ => false end.

(** What the names of a patch are refused for. *)
Definition patch_names (db : catalog_db) (r : runtime_row) (req : obj) : option reply :=
  if is_text (patch_column req "name") "" then Some (api_error 400 "name is required")
  else if is_text (patch_column req "display_name") "" then Some (api_error 400 "display_name is required")
  else match patch_column req "display_name" with
       | Some (AStr display) => if runtimeDisplayNameExists db (rt_tenant r) display (rt_id r)
                                then Some (api_error 409 "display_name already exists in runtime templates") else None
       | _ => None
       end.

(** [None]: the driver or a NOT NULL column refuses a value. *)
Definition patched_runtime (r : runtime_row) (req : obj) (now : string) : option runtime_row :=
  name ← patched_text (rt_name r) (patch_column req "name");
  display ← patched_text (rt_display r) (patch_column req "display_name");
  vendor ← patched_text (rt_vendor r) (patch_column req "vendor");
  let set := put_settings (("image_ref", "launcher.image") :: request_codes) req (rt_id r) (copy_of (rt_config r)) in
  Some {| rt_id := rt_id r; rt_name := name; rt_display := display; rt_backend := rt_backend r; rt_version := rt_version r;
          rt_source_template := rt_source_template r; rt_vendor := vendor; rt_type := rt_type r; rt_builtin := rt_builtin r; rt_editable := rt_editable r;
          rt_tenant := rt_tenant r; rt_slug := rt_slug r; rt_managed := rt_managed r; rt_source := rt_source r; rt_catalog := rt_catalog r;
          rt_checksum := set_checksum set; rt_status := rt_status r; rt_visibility := rt_visibility r; rt_support := rt_support r;
          rt_config := stored (AMap set); rt_metadata := rt_metadata r; rt_created := rt_created r; rt_updated := now |}.

Definition HandlePatchBackendRuntime (s : session) (id : string) (req : option obj) (now : string) (db : catalog_db) : reply * catalog_db :=
  match find_runtime db id with
  | None => (not_found, db)
  | Some r =>
      if negb (rt_editable r) then (api_error 409 "system-managed runtime is read-only; create a user-managed copy before editing", db)
      else if negb (in_scope s r) then (not_found, db)
      else match req with
      | None => (api_error 400 "invalid request", db)
      | Some req =>
          match patch_names db r req, snapshot_refusal req with
          | Some refusal, _ => (refusal, db)
          | None, Some e => (api_error 400 e, db)
          | None, None =>
              match patched_runtime r req now with
              | None => (api_error 500 "internal error", db)
              | Some r' => match write_runtime false r' db with
                           | inl _ => (api_error 500 "internal error", db)
                           | inr db' => (public_reply 200 id db', db')
                           end
              end
          end
      end
  end.

(** [referenced]: the templates of node runtimes and run plans. *)
Definition HandleDeleteBackendRuntime (s : session) (referenced : list string) (id : string) (db : catalog_db) : reply * catalog_db :=
  match find_runtime db id with
  | None => (not_found, db)
  | Some r =>
      if negb (rt_editable r) then (api_error 409 "system-managed runtime is read-only", db)
      else if negb (in_scope s r) then (not_found, db)
      else if existsb (String.eqb id) referenced then (api_error 500 "internal error", db)
      else (Reply 200 (AMap [("status", AStr "deleted")]), with_runtimes (delete_where (fun r => rt_id r =s id)) db)
  end.

(** ** Seeding (catalog.SeedCatalog)

    Every statement runs on its own: an error leaves the rows written before it. *)

(** INSERT ... ON CONFLICT(id) DO UPDATE: [keep] keeps what an update leaves alone. *)
Definition upsert_row {A} (key : A -> string) (refused : A -> list A -> option string) (keep : A -> A -> A) (r : A) (rows : list A) : string + list A :=
  match by_id key (key r) rows with
  | Some old => write_row key refused false (keep old r) rows
  | None => write_row key refused true r rows
  end.

(** [json.Marshal] of source metadata and of other documents of the catalog never fails. *)
Definition no_backend : BackendDoc :=
  {| bk_ID := ""; bk_Slug := ""; bk_Name := ""; bk_ManagedBy := ""; bk_SupportedModelFormats := None; bk_Protocols := None;
     bk_DefaultHealthCheck := None; bk_SourcePath := ""; bk_SourceHash := "" |}.

Definition backend_doc (c : BackendCatalog) (id : string) : BackendDoc := default no_backend (last (List.filter (fun b => bk_ID b =s id) (bc_Backends c))).

Definition seeded_backend (b : BackendDoc) (set : obj) (now : string) : backend_row :=
  {| be_id := bk_ID b; be_name := bk_Slug b; be_display := bk_Name b; be_description := bk_Name b +s+ " inference backend"; be_slug := bk_Slug b;
     be_managed := "system"; be_source := "config-registry"; be_catalog := "configset-v1"; be_checksum := bk_SourceHash b; be_status := "active";
     be_config := AMap set; be_metadata := AMap (sourceMetadata (bk_SourcePath b) (bk_SourceHash b) "" "backend"); be_created := now; be_updated := now |}.

Definition keep_backend (old r : backend_row) : backend_row :=
  {| be_id := be_id r; be_name := be_name r; be_display := be_display r; be_description := be_description r; be_slug := be_slug r; be_managed := be_managed r;
     be_source := be_source r; be_catalog := be_catalog r; be_checksum := be_checksum r; be_status := be_status r; be_config := be_config r;
     be_metadata := be_metadata r; be_created := be_created old; be_updated := be_updated r |}.

Definition defaultVersionFlag (id : string) : bool :=
  existsb (String.eqb id) ["vllm-v0.23.0"; "sglang-v0.5.13.post1"; "llamacpp-b9700"; "backend-version.ollama.latest"].
Definition catalog_displayName (id version : string) : string := if version =s "" then id else id +s+ " (" +s+ version +s+ ")".

Definition seeded_version (v : VersionDoc) (set : obj) (metadata : obj) (now : string) : version_row :=
  let display := catalog_displayName (vd_ID v) (vd_Version v) in
  {| ve_id := vd_ID v; ve_backend := vd_BackendID v; ve_version := vd_Version v; ve_display := display; ve_default := defaultVersionFlag (vd_ID v);
     ve_deprecated := false; ve_slug := nonEmpty (vd_Slug v) (vd_ID v); ve_managed := "system"; ve_source := "config-registry"; ve_catalog := "configset-v1";
     ve_checksum := vd_SourceHash v; ve_status := "active"; ve_description := display +s+ " system software version"; ve_readonly := vd_Readonly v;
     ve_protocol := vd_Protocol v; ve_revision := vd_Version v; ve_config := AMap set; ve_metadata := AMap metadata; ve_created := now; ve_updated := now |}.

Definition keep_version (old r : version_row) : version_row :=
  {| ve_id := ve_id r; ve_backend := ve_backend r; ve_version := ve_version r; ve_display := ve_display r; ve_default := ve_default r;
     ve_deprecated := ve_deprecated r; ve_slug := ve_slug r; ve_managed := ve_managed r; ve_source := ve_source r; ve_catalog := ve_catalog r;
     ve_checksum := ve_checksum r; ve_status := ve_status r; ve_description := ve_description r; ve_readonly := ve_readonly r; ve_protocol := ve_protocol r;
     ve_revision := ve_revision r; ve_config := ve_config r; ve_metadata := ve_metadata r; ve_created := ve_created old; ve_updated := ve_updated r |}.

Definition displayRuntimeName (r : RuntimeDoc) : string := or_field (rd_DisplayName r) (or_field (rd_Name r) (rd_ID r)).

Definition seeded_runtime (r : RuntimeDoc) (set : obj) (metadata : obj) (now : string) : runtime_row :=
  {| rt_id := rd_ID r; rt_name := nonEmpty (rd_Name r) (rd_Slug r); rt_display := displayRuntimeName r; rt_backend := rd_BackendID r;
     rt_version := rd_BackendVersionID r; rt_source_template := rd_Slug r; rt_vendor := rd_Vendor r; rt_type := nonEmpty (rd_RunnerType r) "docker";
     rt_builtin := true; rt_editable := false; rt_tenant := ""; rt_slug := rd_Slug r; rt_managed := "system"; rt_source := "config-registry";
     rt_catalog := "configset-v1"; rt_checksum := rd_SourceHash r; rt_status := runtimeStatus r; rt_visibility := runtimeVisibility r;
     rt_support := runtimeSupportLevel r; rt_config := AMap set; rt_metadata := AMap metadata; rt_created := now; rt_updated := now |}.

Definition keep_runtime (old r : runtime_row) : runtime_row :=
  {| rt_id := rt_id r; rt_name := rt_name r; rt_display := rt_display r; rt_backend := rt_backend r; rt_version := rt_version r;
     rt_source_template := rt_source_template r; rt_vendor := rt_vendor r; rt_type := rt_type r; rt_builtin := rt_builtin r; rt_editable := rt_editable r;
     rt_tenant := rt_tenant r; rt_slug := rt_slug r; rt_managed := rt_managed r; rt_source := rt_source r; rt_catalog := rt_catalog r;
     rt_checksum := rt_checksum r; rt_status := rt_status r; rt_visibility := rt_visibility r; rt_support := rt_support r; rt_config := rt_config r;
     rt_metadata := rt_metadata r; rt_created := rt_created old; rt_updated := rt_updated r |}.

(** The statements, each on the tables the ones before it left. *)
Section Statements.
Context {A : Type} (statement : A -> catalog_db -> string + catalog_db).
Fixpoint run_statements (l : list A) (db : catalog_db) : option string * catalog_db :=
  match l with
  | [] => (None, db)
  | x :: l => match statement x db with inl e => (Some e, db) | inr db' => run_statements l db' end
  end.
End Statements.

Definition seed_error (kind id e : string) : string := "seed " +s+ kind +s+ " " +s+ id +s+ ": " +s+ e.
Definition no_json : string := "json: unsupported value".

Definition seed_backend (r : Registry) (now : string) (b : BackendDoc) (db : catalog_db) : string + catalog_db :=
  match ConfigSet_JSON (MaterializeBackend r b) with
  | None => inl no_json
  | Some set => match upsert_row be_id backend_refused keep_backend (seeded_backend b set now) (cd_backends db) with
                | inl e => inl (seed_error "backend" (bk_ID b) e)
                | inr rows => inr (with_backends (fun _ => rows) db)
                end
  end.

Definition version_config (r : Registry) (c : BackendCatalog) (v : VersionDoc) : ConfigSet := MaterializeBackendVersion r (backend_doc c (vd_BackendID v)) v.

Definition seed_version (r : Registry) (c : BackendCatalog) (now : string) (v : VersionDoc) (db : catalog_db) : string + catalog_db :=
  match ConfigSet_JSON (version_config r c v) with
  | None => inl no_json
  | Some set => match upsert_row ve_id (version_refused db) keep_version (seeded_version v set (cs_SourceMetadata (version_config r c v)) now) (cd_versions db) with
                | inl e => inl (seed_error "backend version" (vd_ID v) e)
                | inr rows => inr (with_versions (fun _ => rows) db)
                end
  end.

Definition seed_runtime (r : Registry) (c : BackendCatalog) (now : string) (t : RuntimeDoc) (db : catalog_db) : string + catalog_db :=
  match last (List.filter (fun v => vd_ID v =s rd_BackendVersionID t) (bc_Versions c)) with
  | None => inl ("runtime " +s+ rd_ID t +s+ " references version without materialized config_set " +s+ rd_BackendVersionID t)
  | Some v =>
      let set := MaterializeBackendRuntime (version_config r c v) t in
      match ConfigSet_JSON set with
      | None => inl no_json
      | Some doc => match upsert_row rt_id (runtime_refused db) keep_runtime (seeded_runtime t doc (cs_SourceMetadata set) now) (cd_runtimes db) with
                    | inl e => inl (seed_error "backend runtime" (rd_ID t) e)
                    | inr rows => inr (with_runtimes (fun _ => rows) db)
                    end
      end
  end.

(** [registry], [catalog]: the files as they were parsed, or the error. *)
Definition SeedCatalog (registry : string + Registry) (catalog : string + BackendCatalog) (now : string) (db : catalog_db) : option string * catalog_db :=
  match (match registry with inl e => inl e | inr r => ValidateRegistry r end) with
  | inl e => (Some e, db)
  | inr r =>
      match catalog with
      | inl e => (Some e, db)
      | inr c =>
          match ValidateCatalog c with
          | Some e => (Some e, db)
          | None =>
              match run_statements (seed_backend r now) (bc_Backends c) db with
              | (Some e, db) => (Some e, db)
              | (None, db) =>
                  match run_statements (seed_version r c now) (bc_Versions c) db with
                  | (Some e, db) => (Some e, db)
                  | (None, db) => run_statements (seed_runtime r c now) (bc_Runtimes c) db
                  end
              end
          end
      end
  end.

Definition HandleReloadBackendCatalog (registry : string + Registry) (catalog : string + BackendCatalog) (now : string) (db : catalog_db) : reply * catalog_db :=
  match SeedCatalog registry catalog now db with
  | (Some _, db) => (api_error 500 "reload failed", db)
  | (None, db) =>
      (Reply 200 (AMap [("backends", AInt (Z.of_nat (length (cd_backends db)))); ("runtimes", AInt (Z.of_nat (length (cd_runtimes db))));
                        ("status", AStr "reloaded"); ("versions", AInt (Z.of_nat (length (cd_versions db))))]), db)
  end.

(** ** The editor of configuration sets (config_edit_handlers.go, for versions and templates)

    One handler edits the sets of four tables; node runtimes and deployments are in
    [NodeRuntimes] and [DeploymentDocs].  It looks at the read-only mark of the object and
    at no tenant. *)

Inductive edited_kind := EditedVersion | EditedRuntime.

(** What the editor reads of an object: whether it is read-only, and its set. *)
Definition configEditObject (kind : edited_kind) (id : string) (db : catalog_db) : option (bool * any) :=
  match kind with
  | EditedVersion => (fun r => (ve_readonly r || (ve_managed r =s "system"), ve_config r)) <$> find_version db id
  | EditedRuntime => (fun r => (negb (rt_editable r), rt_config r)) <$> find_runtime db id
  end.

Definition version_with_set (set : obj) (now : string) (r : version_row) : version_row :=
  {| ve_id := ve_id r; ve_backend := ve_backend r; ve_version := ve_version r; ve_display := ve_display r; ve_default := ve_default r;
     ve_deprecated := ve_deprecated r; ve_slug := ve_slug r; ve_managed := ve_managed r; ve_source := ve_source r; ve_catalog := ve_catalog r;
     ve_checksum := ve_checksum r; ve_status := ve_status r; ve_description := ve_description r; ve_readonly := ve_readonly r; ve_protocol := ve_protocol r;
     ve_revision := ve_revision r; ve_config := stored (AMap set); ve_metadata := ve_metadata r; ve_created := ve_created r; ve_updated := now |}.

Definition runtime_with_set (set : obj) (now : string) (r : runtime_row) : runtime_row :=
  {| rt_id := rt_id r; rt_name := rt_name r; rt_display := rt_display r; rt_backend := rt_backend r; rt_version := rt_version r;
     rt_source_template := rt_source_template r; rt_vendor := rt_vendor r; rt_type := rt_type r; rt_builtin := rt_builtin r; rt_editable := rt_editable r;
     rt_tenant := rt_tenant r; rt_slug := rt_slug r; rt_managed := rt_managed r; rt_source := rt_source r; rt_catalog := rt_catalog r;
     rt_checksum := set_checksum set; rt_status := rt_status r; rt_visibility := rt_visibility r; rt_support := rt_support r;
     rt_config := stored (AMap set); rt_metadata := rt_metadata r; rt_created := rt_created r; rt_updated := now |}.

Definition updateConfigEditObject (kind : edited_kind) (id : string) (set : obj) (now : string) (db : catalog_db) : catalog_db :=
  match kind with
  | EditedVersion => with_versions (update_where (fun r => ve_id r =s id) (version_with_set set now)) db
  | EditedRuntime => with_runtimes (update_where (fun r => rt_id r =s id) (runtime_with_set set now)) db
  end.

Definition reset_of (req : obj) : option reset_request :=
  (fun r => {| rs_key := obj_strVal r "internal_key" (obj_strVal r "key" ""); rs_path := stringSliceFromAny (get_any r "path");
               rs_mode := obj_strVal r "mode" "default" |}) <$> get_obj req "reset".

(** [kind], [id]: the object the body [req] names; [layer]: the one it names, or the kind. *)
Definition edit_catalog (kind : edited_kind) (id : string) (req : obj) (now : string) (db : catalog_db) : reply * catalog_db :=
  let layer := obj_strVal req "layer" (match kind with EditedVersion => "backend_version" | EditedRuntime => "backend_runtime" end) in
  if id =s "" then (api_error 400 "object_kind and object_id required", db)
  else match configEditObject kind id db with
  | None => (api_error 404 "object not found", db)
  | Some (readonly, config) =>
      if readonly then (api_error 403 "object is readonly", db)
      else match decodeConfigEditPatch (get_any req "patch") with
      | None => (api_error 400 (decode_error (get_any req "patch")), db)
      | Some patch =>
          match HandleConfigEditApply false (copy_of config) patch (reset_of req) layer id now with
          | ApplyForbidden => (api_error 403 "object is readonly", db)
          | ApplyBadRequest e => (api_error 400 e, db)
          | ApplyPanic => (Panicked, db)
          | Applied set => (Reply 200 (AMap [("config_set", AMap set)]), updateConfigEditObject kind id set now db)
          end
      end
  end.

(** ** Requests as steps *)

Inductive catalog_request :=
| CreateVersion (backendID uuid : string) (body : option obj)
| PatchVersion (id : string) (body : option obj)
| DeleteVersion (id : string)
| CloneVersion (sourceID uuid : string)
| CreateRuntime (uuid : string) (body : option obj)
| PatchRuntime (id : string) (body : option obj)
| DeleteRuntime (id : string) (referenced : list string)
| CloneRuntime (sourceID uuid : string) (body : option obj)
| EditSet (kind : edited_kind) (id : string) (body : obj)
| Reload (registry : string + Registry) (catalog : string + BackendCatalog).

Definition handle (s : session) (now : string) (rq : catalog_request) (db : catalog_db) : reply * catalog_db :=
  match rq with
  | CreateVersion b u body => HandleCreateBackendVersion b u body now db
  | PatchVersion id body => HandlePatchBackendVersion id body now db
  | DeleteVersion id => HandleDeleteBackendVersion id db
  | CloneVersion src u => HandleCloneBackendVersion src u now db
  | CreateRuntime u body => HandleCreateBackendRuntimeFromTemplate s u body now db
  | PatchRuntime id body => HandlePatchBackendRuntime s id body now db
  | DeleteRuntime id referenced => HandleDeleteBackendRuntime s referenced id db
  | CloneRuntime src u body => HandleCloneBackendRuntime s src u body now db
  | EditSet kind id body => edit_catalog kind id body now db
  | Reload r c => HandleReloadBackendCatalog r c now db
  end.

Definition serve_all (l : list (session * string * catalog_request)) (db : catalog_db) : catalog_db :=
  foldl (fun db x => (handle x.1.1 x.1.2 x.2 db).2) db l.
End Handlers.

Definition empty_catalog : catalog_db := {| cd_backends := []; cd_versions := []; cd_runtimes := [] |}.

(** ** The rows node runtimes read *)

Definition template_of_runtime (r : runtime_row) : template_row :=
  {| bt_id := rt_id r; bt_name := rt_name r; bt_display := rt_display r; bt_backend := rt_backend r; bt_version := rt_version r;
     bt_source := rt_source_template r; bt_vendor := rt_vendor r; bt_editable := rt_editable r; bt_tenant := rt_tenant r; bt_managed := rt_managed r;
     bt_status := rt_status r; bt_visibility := rt_visibility r; bt_config := rt_config r; bt_metadata := rt_metadata r; bt_checksum := rt_checksum r;
     bt_updated := rt_updated r |}.
