(* ===== verification/BackendProps.v ===== *)
(** * The catalog of the server: invariants, shipped rows, tenants, names

    Every request keeps the keys and references of the three tables; what a seeding
    writes stays as it was shipped until the next one; a caller changes templates of
    the own tenant; and the search for a free name ends. *)
From S2P Require Import Prelude GoStrings GoNumbers GoWeb GoValue GoJson GoJsonText RuntimeContract RunPlanTypes ConfigSets ConfigSetProps ConfigEdit Catalog CatalogLoad CatalogProps.
From S2P Require Import Store Deployments Detection RunPlanViews AgentSpec Preflight NodeRuntimes DeploymentDocs Backends.
From Stdlib Require Import Ascii.

(** ** Rows written and found *)

Section Rows.
Context {A : Type} (key : A -> string).
Implicit Types (rows : list A) (r : A).

Lemma by_id_Some id rows r : by_id key id rows = Some r -> r ∈ rows /\ key r = id.
Proof. apply find_Some_key. Qed.

Lemma by_id_None id rows : by_id key id rows = None <-> id ∉ map key rows.
Proof.
  split; [apply find_none_notin|]. intros Hn. destruct (by_id key id rows) as [r|] eqn:E; [|done].
  apply by_id_Some in E as [Hr <-]. destruct Hn. by apply (list_elem_of_fmap_2 key).
Qed.

Lemma by_id_app id rows r : by_id key id (rows ++ [r]) = match by_id key id rows with Some x => Some x | None => if key r =s id then Some r else None end.
Proof. unfold by_id. induction rows as [|x rows IH]; cbn; [done|]. by destruct (key x =s id). Qed.

Lemma by_id_update id rows r : by_id key id (update_where (fun o => key o =s key r) (fun _ => r) rows)
  = if key r =s id then (fun _ => r) <$> by_id key id rows else by_id key id rows.
Proof.
  unfold by_id, update_where. induction rows as [|x rows IH]; cbn; [by destruct (_ =s _)|]. destruct (String.eqb_spec (key x) (key r)) as [E|E]; rewrite ?E.
  - destruct (String.eqb_spec (key r) id); cbn; [done|]. by rewrite IH.
  - destruct (String.eqb_spec (key x) id) as [<-|]; [|by rewrite IH]. destruct (String.eqb_spec (key r) (key x)); [congruence|done].
Qed.

(** An UPDATE of columns other than the key. *)
Lemma by_id_update_with id id' (f : A -> A) rows : (forall o, key (f o) = key o) ->
  by_id key id (update_where (fun o => key o =s id') f rows) = if id' =s id then f <$> by_id key id rows else by_id key id rows.
Proof.
  intros Hf. unfold by_id, update_where. induction rows as [|x rows IH]; cbn; [by destruct (_ =s _)|]. destruct (String.eqb_spec (key x) id') as [E|E].
  - rewrite Hf, E. destruct (String.eqb_spec id' id); cbn; [done|]. by rewrite IH.
  - destruct (String.eqb_spec (key x) id) as [<-|]; [|by rewrite IH]. destruct (String.eqb_spec id' (key x)); [congruence|done].
Qed.

Lemma by_id_delete id id' rows : by_id key id (delete_where (fun o => key o =s id') rows) = if id' =s id then None else by_id key id rows.
Proof.
  unfold by_id, delete_where. induction rows as [|x rows IH]; cbn; [by destruct (_ =s _)|]. destruct (String.eqb_spec (key x) id') as [->|E]; cbn.
  - rewrite IH. by destruct (id' =s id).
  - destruct (String.eqb_spec (key x) id) as [<-|]; [|done]. destruct (String.eqb_spec id' (key x)); [congruence|done].
Qed.

Context (refused : A -> list A -> option string).

(** What a written row leaves in the table. *)
Inductive written (creating : bool) (r : A) (rows : list A) : list A -> Prop :=
| Inserted : creating = true -> key r ∉ map key rows -> refused r rows = None -> written creating r rows (rows ++ [r])
| Replaced : creating = false -> refused r (delete_where (fun o => key o =s key r) rows) = None ->
    written creating r rows (update_where (fun o => key o =s key r) (fun _ => r) rows).

Lemma write_row_inv creating r rows rows' : write_row key refused creating r rows = inr rows' -> written creating r rows rows'.
Proof.
  unfold write_row. destruct creating; cbn.
  - destruct (existsb _ rows) eqn:E; [done|]. assert (key r ∉ map key rows) as Hn.
    { apply id_free_notin. unfold id_free. by rewrite E. }
    replace (delete_where _ rows) with rows.
    + destruct (refused r rows) eqn:Er; intros [= <-]. by constructor.
    + unfold delete_where. symmetry. apply filter_all. rewrite forallb_forall. intros o Ho. apply negb_true_iff, String.eqb_neq. intros Eo. apply Hn. rewrite <- Eo.
      apply list_elem_of_In, in_map_iff. by exists o.
  - destruct (refused r _) eqn:Er; intros [= <-]. by constructor.
Qed.

Lemma written_find creating r rows rows' : written creating r rows rows' -> forall id,
  by_id key id rows' = if key r =s id then (if creating then Some r else (fun _ => r) <$> by_id key id rows) else by_id key id rows.
Proof.
  intros [-> Hn _| -> _] id; [|apply by_id_update]. rewrite by_id_app. destruct (String.eqb_spec (key r) id) as [E|E].
  - rewrite <- E. by rewrite (proj2 (by_id_None (key r) rows) Hn).
  - by destruct (by_id key id rows).
Qed.

(** Uniqueness that [refused] checks. *)
Lemma written_NoDup {B} (g : A -> B) creating r rows rows' : written creating r rows rows' ->
  (forall others, refused r others = None -> forall o, o ∈ others -> g o <> g r) -> NoDup (map key rows) -> NoDup (map g rows) -> NoDup (map g rows').
Proof.
  intros [-> _ Hr| -> Hr] Hg Hk Hn.
  - rewrite map_app. apply NoDup_snoc; [done|]. intros (o & E & Ho)%list_elem_of_fmap. by apply (Hg rows Hr o).
  - specialize (Hg _ Hr). assert (forall o, o ∈ rows -> key o <> key r -> g o <> g r) as Hd.
    { intros o Ho Ek. apply Hg, elem_of_delete. split; [done|by apply String.eqb_neq]. }
    clear Hr Hg. induction rows as [|x rows IH]; [done|]. cbn in Hk, Hn. apply NoDup_cons in Hk as [Hkx Hk], Hn as [Hnx Hn]. cbn.
    destruct (String.eqb_spec (key x) (key r)) as [E|E].
    + change (map _ rows) with (update_where (fun o => key o =s key r) (fun _ => r) rows). rewrite update_none.
      * apply NoDup_cons. split; [|done]. intros (o & Eo & Ho)%list_elem_of_fmap. symmetry in Eo. revert Eo. apply Hd; [by right|].
        intros Ek. apply Hkx. rewrite E, <- Ek. by apply (list_elem_of_fmap_2 key).
      * apply Forall_forall. intros o Ho. apply String.eqb_neq. intros Ek. apply Hkx. rewrite E, <- Ek. by apply (list_elem_of_fmap_2 key).
    + apply NoDup_cons. split; [|apply IH; [done|done|intros o Ho; apply Hd; by right]].
      intros (o & Eo & Ho)%list_elem_of_fmap. apply elem_of_update in Ho as (o0 & Ho0 & ->). destruct (key o0 =s key r).
      * revert Eo. apply Hd; [by left|done].
      * apply Hnx. rewrite Eo. by apply (list_elem_of_fmap_2 g).
Qed.

Lemma written_keys creating r rows rows' : written creating r rows rows' -> map key rows' = map key rows ++ (if creating then [key r] else []).
Proof.
  intros [-> _ _| -> _]; [by rewrite map_app|]. rewrite app_nil_r. unfold update_where. rewrite map_map. apply map_ext. intros o.
  by destruct (String.eqb_spec (key o) (key r)).
Qed.

Lemma written_Forall (P : A -> Prop) creating r rows rows' : written creating r rows rows' -> P r -> Forall P rows -> Forall P rows'.
Proof. intros [_ _ _|_ _] Hr Hp; [apply Forall_app; split; [done|by constructor]|by apply update_Forall]. Qed.
End Rows.

(** ** What a request does to the tables *)

Lemma write_version_inv creating r db db' : write_version creating r db = inr db' ->
  exists rows, written ve_id (version_refused db) creating r (cd_versions db) rows /\ db' = with_versions (fun _ => rows) db.
Proof.
  unfold write_version. destruct (write_row _ _ _ _ _) as [e|rows] eqn:E; [done|]. intros [= <-]. exists rows. split; [by apply write_row_inv|done].
Qed.

Lemma write_runtime_inv creating r db db' : write_runtime creating r db = inr db' ->
  exists rows, written rt_id (runtime_refused db) creating r (cd_runtimes db) rows /\ db' = with_runtimes (fun _ => rows) db.
Proof.
  unfold write_runtime. destruct (write_row _ _ _ _ _) as [e|rows] eqn:E; [done|]. intros [= <-]. exists rows. split; [by apply write_row_inv|done].
Qed.

Definition user_version (r : version_row) : Prop := ve_managed r <> "system" /\ ve_readonly r = false.

(** The statement a request of the catalog's own handlers runs, if any. *)
Inductive change (s : session) (db : catalog_db) : catalog_db -> Prop :=
| Unchanged : change s db db
| NewVersion r rows : user_version r -> written ve_id (version_refused db) true r (cd_versions db) rows -> change s db (with_versions (fun _ => rows) db)
| EditVersion old r rows : find_version db (ve_id r) = Some old -> user_version old -> user_version r ->
    written ve_id (version_refused db) false r (cd_versions db) rows -> change s db (with_versions (fun _ => rows) db)
| DropVersion old : find_version db (ve_id old) = Some old -> ve_managed old <> "system" -> ve_id old ∉ map rt_version (cd_runtimes db) ->
    change s db (with_versions (delete_where (fun r => ve_id r =s ve_id old)) db)
| NewRuntime r rows : rt_editable r = true -> rt_managed r = "user" -> rt_tenant r = s_tenant s ->
    written rt_id (runtime_refused db) true r (cd_runtimes db) rows -> change s db (with_runtimes (fun _ => rows) db)
| EditRuntime old r rows : find_runtime db (rt_id r) = Some old -> rt_editable old = true -> in_scope s old = true ->
    rt_editable r = rt_editable old -> rt_managed r = rt_managed old -> rt_tenant r = rt_tenant old ->
    written rt_id (runtime_refused db) false r (cd_runtimes db) rows -> change s db (with_runtimes (fun _ => rows) db)
| DropRuntime old : find_runtime db (rt_id old) = Some old -> rt_editable old = true -> in_scope s old = true ->
    change s db (with_runtimes (delete_where (fun r => rt_id r =s rt_id old)) db).

Section Effects.
Context `{MR : MapRange} (encode : any -> string) (real_text : float64 -> string) (decode_error : any -> string).

Lemma upsert_change s id b req now db db' : upsertBackendVersionFromRequest encode id b req true now db = inr db' -> change s db db'.
Proof.
  unfold upsertBackendVersionFromRequest. destruct (b =s ""); [done|]. destruct (_ <>s ""); [done|]. destruct (find_backend db b); [|done].
  destruct (_ =s ""); [done|]. destruct (version_set _ _ _) as [e|set]; [done|]. cbn [orb]. intros (rows & Hw & ->)%write_version_inv.
  by eapply NewVersion; [|exact Hw].
Qed.

Lemma upsert_edit s id b req now db db' old : find_version db id = Some old -> user_version old ->
  upsertBackendVersionFromRequest encode id b req false now db = inr db' -> change s db db'.
Proof.
  intros Hf Hu. unfold upsertBackendVersionFromRequest. destruct (b =s ""); [done|]. destruct (_ <>s ""); [done|]. destruct (find_backend db b); [|done].
  rewrite Hf. destruct (_ =s ""); [done|]. destruct (version_set _ _ _) as [e|set]; [done|]. cbn [orb]. intros (rows & Hw & ->)%write_version_inv.
  by eapply EditVersion; [| | |exact Hw].
Qed.

Lemma create_version_change s b u req now db : change s db (HandleCreateBackendVersion encode b u req now db).2.
Proof.
  unfold HandleCreateBackendVersion. destruct (b =s ""); [constructor|]. destruct req as [req|]; [|constructor]. destruct (_ =s ""); [constructor|].
  destruct (upsertBackendVersionFromRequest _ _ _ _ _ _ _) eqn:E; [constructor|]. by eapply upsert_change.
Qed.

Lemma patch_version_change s id req now db : change s db (HandlePatchBackendVersion encode id req now db).2.
Proof.
  unfold HandlePatchBackendVersion. destruct (find_version db id) as [r|] eqn:Ef; [|constructor]. destruct (_ || _) eqn:Es; [constructor|].
  destruct req as [req|]; [|constructor]. destruct (upsertBackendVersionFromRequest _ _ _ _ _ _ _) eqn:E; [constructor|].
  eapply upsert_edit; [exact Ef| |exact E]. apply orb_false_iff in Es as [Es%String.eqb_neq Er]. done.
Qed.

Lemma delete_version_change s id db : change s db (HandleDeleteBackendVersion id db).2.
Proof.
  unfold HandleDeleteBackendVersion. destruct (find_version db id) as [r|] eqn:Ef; [|constructor]. destruct (_ =s "system") eqn:Es; [constructor|].
  destruct (existsb _ _) eqn:Eu; [constructor|]. destruct (by_id_Some _ _ _ _ Ef) as [_ <-]. apply DropVersion; [done|by apply String.eqb_neq|].
  apply id_free_notin. unfold id_free. by rewrite Eu.
Qed.

Lemma clone_version_change s src u now db : change s db (HandleCloneBackendVersion encode src u now db).2.
Proof.
  unfold HandleCloneBackendVersion. destruct (find_version db src); [|constructor]. destruct (upsertBackendVersionFromRequest _ _ _ _ _ _ _) eqn:E; [constructor|].
  by eapply upsert_change.
Qed.

Lemma create_runtime_change s id req now db : change s db (HandleCreateBackendRuntimeFromTemplate encode s id req now db).2.
Proof.
  unfold HandleCreateBackendRuntimeFromTemplate. destruct req as [req|]; [|constructor]. destruct (runtimeDisplayNameExists _ _ _ _); [constructor|].
  destruct (find_version _ _); [|constructor]. destruct (_ =s ""); [constructor|]. destruct (write_runtime _ _ _) eqn:E; [constructor|].
  apply write_runtime_inv in E as (rows & Hw & ->). by eapply NewRuntime; [| | |exact Hw].
Qed.

Lemma clone_runtime_change s src id body now db : change s db (HandleCloneBackendRuntime encode s src id body now db).2.
Proof.
  unfold HandleCloneBackendRuntime. destruct (find_runtime _ _); [|constructor]. destruct (runtimeDisplayNameExists _ _ _ _); [constructor|].
  destruct (write_runtime _ _ _) eqn:E; [constructor|]. apply write_runtime_inv in E as (rows & Hw & ->). by eapply NewRuntime; [| | |exact Hw].
Qed.

Lemma patched_same r req now r' : patched_runtime encode real_text r req now = Some r' ->
  rt_id r' = rt_id r /\ rt_editable r' = rt_editable r /\ rt_managed r' = rt_managed r /\ rt_tenant r' = rt_tenant r.
Proof.
  unfold patched_runtime. destruct (patched_text _ (rt_name r) _) as [name|]; cbn [mbind option_bind]; [|discriminate].
  destruct (patched_text _ (rt_display r) _) as [display|]; cbn [mbind option_bind]; [|discriminate].
  destruct (patched_text _ (rt_vendor r) _) as [vendor|]; cbn [mbind option_bind]; [|discriminate]. by intros [= <-].
Qed.

Lemma patch_runtime_change s id req now db : change s db (HandlePatchBackendRuntime encode real_text s id req now db).2.
Proof.
  unfold HandlePatchBackendRuntime. destruct (find_runtime db id) as [r|] eqn:Ef; [|constructor]. destruct (rt_editable r) eqn:Ee; [|constructor].
  destruct (in_scope s r) eqn:Es; [|constructor]. destruct req as [req|]; [|constructor]. cbn [negb]. destruct (patch_names _ _ _); [constructor|].
  destruct (snapshot_refusal req); [constructor|]. destruct (patched_runtime _ _ _ _ _) as [r'|] eqn:Ep; [|constructor].
  destruct (write_runtime _ _ _) eqn:E; [constructor|]. apply write_runtime_inv in E as (rows & Hw & ->).
  destruct (patched_same _ _ _ _ Ep) as (Hi & He & Hm & Ht). destruct (by_id_Some _ _ _ _ Ef) as [_ Hid].
  eapply (EditRuntime s db r r'); try done. by rewrite Hi, Hid.
Qed.

Lemma delete_runtime_change s refs id db : change s db (HandleDeleteBackendRuntime s refs id db).2.
Proof.
  unfold HandleDeleteBackendRuntime. destruct (find_runtime db id) as [r|] eqn:Ef; [|constructor]. destruct (rt_editable r) eqn:Ee; [|constructor].
  destruct (in_scope s r) eqn:Es; [|constructor]. cbn [negb]. destruct (existsb _ _); [constructor|]. destruct (by_id_Some _ _ _ _ Ef) as [_ <-]. by apply DropRuntime.
Qed.

(** What the editor of sets does: it asks for no tenant, and for the read-only mark. *)
Inductive edited (now : string) (db : catalog_db) : catalog_db -> Prop :=
| Unedited : edited now db db
| SetOfVersion old set : find_version db (ve_id old) = Some old -> user_version old ->
    edited now db (with_versions (update_where (fun r => ve_id r =s ve_id old) (version_with_set set now)) db)
| SetOfRuntime old set : find_runtime db (rt_id old) = Some old -> rt_editable old = true ->
    edited now db (with_runtimes (update_where (fun r => rt_id r =s rt_id old) (runtime_with_set encode set now)) db).

Lemma edit_edited kind id req now db : edited now db (edit_catalog encode decode_error kind id req now db).2.
Proof.
  unfold edit_catalog. destruct (id =s ""); [constructor|]. destruct (configEditObject kind id db) as [[readonly config]|] eqn:Eo; [|constructor].
  destruct readonly; [constructor|]. destruct (decodeConfigEditPatch _); [|constructor]. destruct (HandleConfigEditApply _ _ _ _ _ _ _) as [|e| |set]; [constructor..|].
  destruct kind; cbn [configEditObject] in Eo; apply fmap_Some in Eo as (old & Ho & [= Hr _]); destruct (by_id_Some _ _ _ _ Ho) as [_ <-]; cbn [updateConfigEditObject snd].
  - apply (SetOfVersion now db old); [done|]. symmetry in Hr. apply orb_false_iff in Hr as [Hr Hm%String.eqb_neq]. done.
  - apply (SetOfRuntime now db old); [done|]. symmetry in Hr. by apply negb_false_iff.
Qed.

Definition is_reload (rq : catalog_request) : bool := match rq with Reload _ _ => true | _ => false end.
Definition is_edit (rq : catalog_request) : bool := match rq with EditSet _ _ _ => true | _ => false end.

Lemma request_change s now rq db : is_reload rq = false -> is_edit rq = false -> change s db (handle encode real_text decode_error s now rq db).2.
Proof.
  destruct rq; try done; intros _ _; cbn [handle].
  - apply create_version_change.
  - apply patch_version_change.
  - apply delete_version_change.
  - apply clone_version_change.
  - apply create_runtime_change.
  - apply patch_runtime_change.
  - apply delete_runtime_change.
  - apply clone_runtime_change.
Qed.

(** *** Rows of the shipped catalog *)

Lemma change_version s db db' id r : change s db db' -> ve_managed r = "system" -> find_version db id = Some r -> find_version db' id = Some r.
Proof.
  unfold find_version. intros Hc Hm Hf. destruct Hc as [|r' rows _ Hw|old r' rows Ho Hu _ Hw|old Ho Hu _| | | ]; cbn [with_versions with_runtimes cd_versions]; try exact Hf.
  - rewrite (written_find _ _ _ _ _ _ Hw). destruct (String.eqb_spec (ve_id r') id) as [E|]; [|done]. exfalso.
    destruct Hw as [_ Hn _|]; [|done]. destruct (by_id_Some _ _ _ _ Hf) as [Hin Hid]. apply Hn. rewrite E, <- Hid. by apply (list_elem_of_fmap_2 ve_id).
  - rewrite (written_find _ _ _ _ _ _ Hw). destruct (String.eqb_spec (ve_id r') id) as [E|]; [|done]. exfalso. unfold find_version in Ho. rewrite E, Hf in Ho.
    injection Ho as <-. by apply Hu.
  - rewrite by_id_delete. destruct (String.eqb_spec (ve_id old) id) as [E|]; [|done]. unfold find_version in Ho. rewrite E, Hf in Ho. by injection Ho as <-.
Qed.

Lemma change_runtime s db db' id r : change s db db' -> rt_editable r = false -> find_runtime db id = Some r -> find_runtime db' id = Some r.
Proof.
  unfold find_runtime. intros Hc Hm Hf. destruct Hc as [| | | |r' rows _ _ _ Hw|old r' rows Ho He _ _ _ _ Hw|old Ho He _]; cbn [with_versions with_runtimes cd_runtimes]; try exact Hf.
  - rewrite (written_find _ _ _ _ _ _ Hw). destruct (String.eqb_spec (rt_id r') id) as [E|]; [|done]. exfalso.
    destruct Hw as [_ Hn _|]; [|done]. destruct (by_id_Some _ _ _ _ Hf) as [Hin Hid]. apply Hn. rewrite E, <- Hid. by apply (list_elem_of_fmap_2 rt_id).
  - rewrite (written_find _ _ _ _ _ _ Hw). destruct (String.eqb_spec (rt_id r') id) as [E|]; [|done]. unfold find_runtime in Ho. rewrite E, Hf in Ho.
    injection Ho as <-. congruence.
  - rewrite by_id_delete. destruct (String.eqb_spec (rt_id old) id) as [E|]; [|done]. unfold find_runtime in Ho. rewrite E, Hf in Ho. injection Ho as <-. congruence.
Qed.

(** The editor reaches no row of the shipped catalog. *)
Lemma edited_version now db db' id r : edited now db db' -> ve_managed r = "system" -> find_version db id = Some r -> find_version db' id = Some r.
Proof.
  unfold find_version. intros [|old set Ho [Hm _]|old set Ho _] Hs Hf; cbn [with_versions with_runtimes cd_versions]; try exact Hf.
  rewrite by_id_update_with by done. destruct (String.eqb_spec (ve_id old) id) as [<-|]; [|done]. unfold find_version in Ho. rewrite Hf in Ho. injection Ho as <-. done.
Qed.

Lemma edited_runtime now db db' id r : edited now db db' -> rt_editable r = false -> find_runtime db id = Some r -> find_runtime db' id = Some r.
Proof.
  unfold find_runtime. intros [|old set Ho _|old set Ho He] Hs Hf; cbn [with_versions with_runtimes cd_runtimes]; try exact Hf.
  rewrite by_id_update_with by done. destruct (String.eqb_spec (rt_id old) id) as [<-|]; [|done]. unfold find_runtime in Ho. rewrite Hf in Ho. injection Ho as <-. congruence.
Qed.

(** A request that is no reload keeps the rows of the shipped catalog. *)
Lemma request_keeps s now rq db : is_reload rq = false -> let db' := (handle encode real_text decode_error s now rq db).2 in
  (forall id r, ve_managed r = "system" -> find_version db id = Some r -> find_version db' id = Some r)
  /\ (forall id r, rt_editable r = false -> find_runtime db id = Some r -> find_runtime db' id = Some r).
Proof.
  intros Hr. destruct (is_edit rq) eqn:E.
  - destruct rq; try done. cbn [handle]. pose proof (edit_edited kind id body now db) as He. split; intros; [by eapply edited_version|by eapply edited_runtime].
  - pose proof (request_change s now rq db Hr E) as Hc. split; intros; [by eapply change_version|by eapply change_runtime].
Qed.

Lemma change_backends s db db' : change s db db' -> cd_backends db' = cd_backends db.
Proof. by intros []. Qed.

(** A template of another tenant. *)
Lemma change_foreign s db db' id r : change s db db' -> s_admin s = false -> rt_tenant r <> "" -> rt_tenant r <> s_tenant s ->
  find_runtime db id = Some r -> find_runtime db' id = Some r.
Proof.
  unfold find_runtime. intros Hc Hs Hn Ht Hf. assert (forall old, by_id rt_id id (cd_runtimes db) = Some old -> in_scope s old = true -> False) as Hout.
  { intros old Ho. rewrite Hf in Ho. injection Ho as <-. unfold in_scope, tenantScopeCheck. rewrite Hs. by intros [?%String.eqb_eq|?%String.eqb_eq]%orb_true_iff. }
  destruct Hc as [| | | |r' rows _ _ _ Hw|old r' rows Ho He Hi _ _ _ Hw|old Ho He Hi]; cbn [with_versions with_runtimes cd_runtimes]; try exact Hf.
  - rewrite (written_find _ _ _ _ _ _ Hw). destruct (String.eqb_spec (rt_id r') id) as [E|]; [|done]. exfalso.
    destruct Hw as [_ Hk _|]; [|done]. destruct (by_id_Some _ _ _ _ Hf) as [Hin Hid]. apply Hk. rewrite E, <- Hid. by apply (list_elem_of_fmap_2 rt_id).
  - rewrite (written_find _ _ _ _ _ _ Hw). destruct (String.eqb_spec (rt_id r') id) as [E|]; [|done]. unfold find_runtime in Ho. rewrite E in Ho. by destruct (Hout _ Ho).
  - rewrite by_id_delete. destruct (String.eqb_spec (rt_id old) id) as [E|]; [|done]. unfold find_runtime in Ho. rewrite E in Ho. by destruct (Hout _ Ho).
Qed.
End Effects.

(** ** Seeding *)

Section StatementRuns.
Context {A R : Type} (statement : A -> catalog_db -> string + catalog_db) (get : catalog_db -> string -> option R) (ident : A -> string) (row : A -> R -> Prop).

(** Every statement leaves its row, and no other row changes. *)
Context (one : forall x db db', statement x db = inr db' ->
  (exists r, get db' (ident x) = Some r /\ row x r) /\ forall id, id <> ident x -> get db' id = get db id).

Lemma run_statements_find l : forall db db', NoDup (map ident l) -> run_statements statement l db = (None, db') ->
  (forall x, x ∈ l -> exists r, get db' (ident x) = Some r /\ row x r) /\ (forall id, id ∉ map ident l -> get db' id = get db id).
Proof.
  induction l as [|x l IH]; cbn; intros db db' Hn H.
  - injection H as <-. split; [by intros x ?%elem_of_nil|done].
  - apply NoDup_cons in Hn as [Hx Hn]. destruct (statement x db) as [e|db1] eqn:E; [done|]. destruct (IH _ _ Hn H) as [H1 H2]. destruct (one _ _ _ E) as [Hr Ho]. split.
    + intros y [->|Hy]%elem_of_cons; [|by apply H1]. destruct Hr as (r & Hg & Hr). exists r. by rewrite H2.
    + intros id [Hi Hid]%not_elem_of_cons. rewrite H2 by done. by apply Ho.
Qed.
End StatementRuns.

Lemma run_statements_inv {A} (statement : A -> catalog_db -> string + catalog_db) (P : catalog_db -> Prop) l :
  (forall x db db', x ∈ l -> P db -> statement x db = inr db' -> P db') -> forall db, P db -> P (run_statements statement l db).2.
Proof.
  intros Hs. induction l as [|x l IH]; cbn; [done|]. intros db Hp. destruct (statement x db) as [e|db1] eqn:E; [done|]. apply IH.
  - intros y db2 db3 Hy. apply Hs. by right.
  - eapply Hs; [by left|exact Hp|exact E].
Qed.

Section Upsert.
Context {A : Type} (key : A -> string) (refused : A -> list A -> option string) (keep : A -> A -> A) (keep_key : forall old r, key (keep old r) = key r).

Lemma upsert_row_inv r rows rows' : upsert_row key refused keep r rows = inr rows' ->
  exists creating r', written key refused creating r' rows rows' /\ key r' = key r /\ (r' = r \/ exists old, r' = keep old r).
Proof.
  unfold upsert_row. destruct (by_id key (key r) rows) as [old|]; intros H%write_row_inv.
  - exists false, (keep old r). split_and!; [done|apply keep_key|right; by exists old].
  - exists true, r. split_and!; [done|done|by left].
Qed.

Lemma upsert_row_find r rows rows' : upsert_row key refused keep r rows = inr rows' -> keep r r = r ->
  (exists old, by_id key (key r) rows' = Some (keep old r)) /\ forall id, id <> key r -> by_id key id rows' = by_id key id rows.
Proof.
  unfold upsert_row. intros H Hk. destruct (by_id key (key r) rows) as [old|] eqn:E; apply write_row_inv in H; pose proof (written_find _ _ _ _ _ _ H) as Hf.
  - split.
    + exists old. by rewrite Hf, keep_key, String.eqb_refl, E.
    + intros id Hid. rewrite Hf, keep_key. destruct (String.eqb_spec (key r) id); [congruence|done].
  - split.
    + exists r. by rewrite Hf, String.eqb_refl, Hk.
    + intros id Hid. rewrite Hf. destruct (String.eqb_spec (key r) id); [congruence|done].
Qed.
End Upsert.

(** *** The identifiers of a catalog *)

Lemma check_backends_ids ids l ids' : check_backends ids l = inr ids' -> NoDup (map bk_ID l) /\ forall b, b ∈ l -> bk_ID b ∉ ids.
Proof.
  revert ids. induction l as [|b l IH]; cbn; intros ids H; [split; [apply NoDup_nil_2|by intros b ?%elem_of_nil]|].
  destruct (_ =s ""); [done|]. case_bool_decide as Hb; [done|]. apply IH in H as [Hn Hl]. split.
  - apply NoDup_cons. split; [|done]. intros (b' & E & Hb')%list_elem_of_fmap. specialize (Hl _ Hb'). set_solver.
  - intros b' [->|Hb']%elem_of_cons; [done|]. specialize (Hl _ Hb'). set_solver.
Qed.

Lemma check_versions_ids backends ids l ids' : check_versions backends ids l = inr ids' -> NoDup (map vd_ID l) /\ forall b, b ∈ l -> vd_ID b ∉ ids.
Proof.
  revert ids. induction l as [|b l IH]; cbn; intros ids H; [split; [apply NoDup_nil_2|by intros b ?%elem_of_nil]|].
  destruct (_ || _); [done|]. destruct (negb _); [done|]. case_bool_decide as Hb; [done|]. apply IH in H as [Hn Hl]. split.
  - apply NoDup_cons. split; [|done]. intros (b' & E & Hb')%list_elem_of_fmap. specialize (Hl _ Hb'). set_solver.
  - intros b' [->|Hb']%elem_of_cons; [done|]. specialize (Hl _ Hb'). set_solver.
Qed.

Lemma check_runtimes_ids backends versions l : forall ids keys, check_runtimes backends versions ids keys l = None ->
  NoDup (map rd_ID l) /\ forall b, b ∈ l -> rd_ID b ∉ ids.
Proof.
  induction l as [|b l IH]; cbn; intros ids keys H; [split; [apply NoDup_nil_2|by intros b ?%elem_of_nil]|].
  destruct (_ || _); [done|]. destruct (negb _); [done|]. destruct (negb _); [done|]. case_bool_decide as Hb; [done|].
  assert (exists keys', check_runtimes backends versions ({[rd_ID b]} ∪ ids) keys' l = None) as [keys' H'].
  { destruct (offered b); [|by eexists]. destruct (keys !! _) as [e|]; [|by eexists]. destruct (e <>s ""); [done|by eexists]. }
  apply IH in H' as [Hn Hl]. split.
  - apply NoDup_cons. split; [|done]. intros (b' & E & Hb')%list_elem_of_fmap. specialize (Hl _ Hb'). set_solver.
  - intros b' [->|Hb']%elem_of_cons; [done|]. specialize (Hl _ Hb'). set_solver.
Qed.

Lemma catalog_ids c : ValidateCatalog c = None -> NoDup (map bk_ID (bc_Backends c)) /\ NoDup (map vd_ID (bc_Versions c)) /\ NoDup (map rd_ID (bc_Runtimes c)).
Proof.
  unfold ValidateCatalog. destruct (check_backends _ _) as [e|bs] eqn:Eb; [done|]. destruct (check_versions _ _ _) as [e|vs] eqn:Ev; [done|]. intros H.
  apply check_backends_ids in Eb as [Hb _]. apply check_versions_ids in Ev as [Hv _]. by apply check_runtimes_ids in H as [Hr _].
Qed.

(** *** Rows as shipped *)

Section Seed.
Context `{MR : MapRange}.

#[local] Opaque ConfigSet_JSON version_config MaterializeBackendRuntime MaterializeBackend.

(** The row of a version and of a template as the catalog has them; the time of creation
    is that of the first seeding. *)
Definition shipped_version (r : Registry) (c : BackendCatalog) (now : string) (v : VersionDoc) (row : version_row) : Prop :=
  exists old doc, ConfigSet_JSON (version_config r c v) = Some doc /\ row = keep_version old (seeded_version v doc (cs_SourceMetadata (version_config r c v)) now).

Definition shipped_runtime (r : Registry) (c : BackendCatalog) (now : string) (t : RuntimeDoc) (row : runtime_row) : Prop :=
  exists old v doc, let set := MaterializeBackendRuntime (version_config r c v) t in
    v ∈ bc_Versions c /\ vd_ID v = rd_BackendVersionID t /\ ConfigSet_JSON set = Some doc /\ row = keep_runtime old (seeded_runtime t doc (cs_SourceMetadata set) now).

Lemma seed_version_find r c now v db db' : seed_version r c now v db = inr db' ->
  (exists row, find_version db' (vd_ID v) = Some row /\ shipped_version r c now v row) /\ (forall id, id <> vd_ID v -> find_version db' id = find_version db id)
  /\ cd_runtimes db' = cd_runtimes db.
Proof.
  unfold seed_version. destruct (ConfigSet_JSON _) as [set|] eqn:Ej; [|done]. destruct (upsert_row _ _ _ _ _) as [e|rows] eqn:E; [done|]. intros [= <-].
  destruct (upsert_row_find ve_id (version_refused db) keep_version (fun _ _ => eq_refl) _ _ _ E eq_refl) as [[old Ho] Hn]. split_and!.
  - eexists. split; [exact Ho|]. exists old, set. split; [exact Ej|reflexivity].
  - exact Hn.
  - done.
Qed.

Lemma last_filter_In {A} (p : A -> bool) l x : last (List.filter p l) = Some x -> x ∈ l /\ p x = true.
Proof. intros H%last_Some_elem_of. by apply list_elem_of_In, filter_In in H as [?%list_elem_of_In ?]. Qed.

Lemma seed_runtime_find r c now t db db' : seed_runtime r c now t db = inr db' ->
  (exists row, find_runtime db' (rd_ID t) = Some row /\ shipped_runtime r c now t row) /\ (forall id, id <> rd_ID t -> find_runtime db' id = find_runtime db id)
  /\ cd_versions db' = cd_versions db.
Proof.
  unfold seed_runtime. destruct (last _) as [v|] eqn:El; [|done]. destruct (ConfigSet_JSON _) as [set|] eqn:Ej; [|done].
  destruct (upsert_row _ _ _ _ _) as [e|rows] eqn:E; [done|]. intros [= <-]. apply last_filter_In in El as [Hv Ev%String.eqb_eq].
  destruct (upsert_row_find rt_id (runtime_refused db) keep_runtime (fun _ _ => eq_refl) _ _ _ E eq_refl) as [[old Ho] Hn]. split_and!.
  - eexists. split; [exact Ho|]. exists old, v, set. split_and!; [exact Hv|exact Ev|exact Ej|reflexivity].
  - exact Hn.
  - done.
Qed.

Lemma seed_backend_others r now b db db' : seed_backend r now b db = inr db' -> cd_versions db' = cd_versions db /\ cd_runtimes db' = cd_runtimes db.
Proof. unfold seed_backend. destruct (ConfigSet_JSON _); [|done]. destruct (upsert_row _ _ _ _ _); [done|]. by intros [= <-]. Qed.

(** A seeding that succeeds. *)
Lemma SeedCatalog_inv reg cat now db db' : SeedCatalog reg cat now db = (None, db') ->
  exists r0 r c db1 db2, reg = inr r0 /\ ValidateRegistry r0 = inr r /\ cat = inr c /\ ValidateCatalog c = None
    /\ run_statements (seed_backend r now) (bc_Backends c) db = (None, db1) /\ run_statements (seed_version r c now) (bc_Versions c) db1 = (None, db2)
    /\ run_statements (seed_runtime r c now) (bc_Runtimes c) db2 = (None, db').
Proof.
  unfold SeedCatalog. destruct reg as [e|r0]; [done|]. destruct (ValidateRegistry r0) as [e|r] eqn:Er; [done|]. destruct cat as [e|c]; [done|].
  destruct (ValidateCatalog c) eqn:Ec; [done|]. destruct (run_statements _ (bc_Backends c) _) as [[e|] db1] eqn:E1; [done|].
  destruct (run_statements _ (bc_Versions c) _) as [[e|] db2] eqn:E2; [done|]. intros H. by exists r0, r, c, db1, db2.
Qed.

Lemma run_statements_same {A B} (statement : A -> catalog_db -> string + catalog_db) (f : catalog_db -> B) l db :
  (forall x db db', statement x db = inr db' -> f db' = f db) -> f (run_statements statement l db).2 = f db.
Proof.
  intros H. apply (run_statements_inv statement (fun db' => f db' = f db)); [|done]. intros x db1 db2 _ <- E. by eapply H.
Qed.

(** Every row of the catalog is as shipped, by some seeding of it. *)
Definition all_shipped (r : Registry) (c : BackendCatalog) (db : catalog_db) : Prop :=
  (forall v, v ∈ bc_Versions c -> exists now row, find_version db (vd_ID v) = Some row /\ shipped_version r c now v row)
  /\ (forall t, t ∈ bc_Runtimes c -> exists now row, find_runtime db (rd_ID t) = Some row /\ shipped_runtime r c now t row).

(** After a seeding every row of the catalog is as shipped, and others are untouched. *)
Lemma SeedCatalog_rows reg0 cat c now db db' : SeedCatalog reg0 cat now db = (None, db') -> cat = inr c ->
  exists r0 r, reg0 = inr r0 /\ ValidateRegistry r0 = inr r /\ ValidateCatalog c = None
    /\ (forall v, v ∈ bc_Versions c -> exists row, find_version db' (vd_ID v) = Some row /\ shipped_version r c now v row)
    /\ (forall t, t ∈ bc_Runtimes c -> exists row, find_runtime db' (rd_ID t) = Some row /\ shipped_runtime r c now t row)
    /\ (forall id, id ∉ map vd_ID (bc_Versions c) -> find_version db' id = find_version db id)
    /\ (forall id, id ∉ map rd_ID (bc_Runtimes c) -> find_runtime db' id = find_runtime db id).
Proof.
  intros (r0 & r & c' & db1 & db2 & -> & Hr0 & -> & Hc & E1 & E2 & E3)%SeedCatalog_inv [= ->]. pose proof (catalog_ids _ Hc) as (_ & Hv & Hr). exists r0, r.
  assert (cd_versions db1 = cd_versions db /\ cd_runtimes db1 = cd_runtimes db) as [Hv1 Hr1].
  { change db1 with (None : option string, db1).2. rewrite <- E1. split; [apply (run_statements_same _ cd_versions)|apply (run_statements_same _ cd_runtimes)];
      intros x d d' Hx; apply seed_backend_others in Hx as [? ?]; assumption. }
  assert (cd_runtimes db2 = cd_runtimes db) as Hr2.
  { rewrite <- Hr1. change db2 with (None : option string, db2).2. rewrite <- E2. apply (run_statements_same _ cd_runtimes). intros x d d' Hx. by apply seed_version_find in Hx as (_ & _ & ?). }
  assert (cd_versions db' = cd_versions db2) as Hv3.
  { change db' with (None : option string, db').2. rewrite <- E3. apply (run_statements_same _ cd_versions). intros x d d' Hx. by apply seed_runtime_find in Hx as (_ & _ & ?). }
  destruct (run_statements_find (seed_version r c now) find_version vd_ID (shipped_version r c now)
    (fun x d d' Hx => let H := seed_version_find _ _ _ _ _ _ Hx in conj (proj1 H) (proj1 (proj2 H))) _ _ _ Hv E2) as [V1 V2].
  destruct (run_statements_find (seed_runtime r c now) find_runtime rd_ID (shipped_runtime r c now)
    (fun x d d' Hx => let H := seed_runtime_find _ _ _ _ _ _ Hx in conj (proj1 H) (proj1 (proj2 H))) _ _ _ Hr E3) as [R1 R2].
  split_and!; [done..| |exact R1| |].
  - intros v Hin. destruct (V1 _ Hin) as (row & Hf & Hs). exists row. split; [|exact Hs]. unfold find_version in *. by rewrite Hv3.
  - intros id Hid. specialize (V2 _ Hid). unfold find_version in *. by rewrite Hv3, V2, Hv1.
  - intros id Hid. specialize (R2 _ Hid). unfold find_runtime in *. by rewrite R2, Hr2.
Qed.

(** *** Seeding again *)

Lemma NoDup_map_inj {A B} (f : A -> B) l x y : NoDup (map f l) -> f x = f y -> x ∈ l -> y ∈ l -> x = y.
Proof.
  induction l as [|z l IH]; cbn; [by intros _ _ ?%elem_of_nil|]. intros [Hz Hn]%NoDup_cons E [->|Hx]%elem_of_cons [->|Hy]%elem_of_cons; [done|..|by apply IH].
  - destruct Hz. rewrite E. by apply (list_elem_of_fmap_2 f).
  - destruct Hz. rewrite <- E. by apply (list_elem_of_fmap_2 f).
Qed.

Section Again.
Context (r : Registry) (c : BackendCatalog) (now : string) (Hc : ValidateCatalog c = None).

Lemma backend_again b db db' : all_shipped r c db -> seed_backend r now b db = inr db' -> all_shipped r c db'.
Proof. intros [Hv Ht] [E1 E2]%seed_backend_others. unfold all_shipped, find_version, find_runtime in *. by rewrite E1, E2. Qed.

Lemma version_again v db db' : v ∈ bc_Versions c -> all_shipped r c db -> seed_version r c now v db = inr db' -> all_shipped r c db'.
Proof.
  intros Hin [Hv Ht] ((row & Hf & Hs) & Ho & Er)%seed_version_find. apply catalog_ids in Hc as (_ & Hn & _). split.
  - intros v' Hv'. destruct (decide (vd_ID v' = vd_ID v)) as [E|E]; [|by rewrite Ho; [apply Hv|]]. apply (NoDup_map_inj _ _ _ _ Hn) in E as ->; [|done..]. by exists now, row.
  - unfold find_runtime in *. by rewrite Er.
Qed.

Lemma runtime_again t db db' : t ∈ bc_Runtimes c -> all_shipped r c db -> seed_runtime r c now t db = inr db' -> all_shipped r c db'.
Proof.
  intros Hin [Hv Ht] ((row & Hf & Hs) & Ho & Er)%seed_runtime_find. apply catalog_ids in Hc as (_ & _ & Hn). split; [unfold find_version in *; by rewrite Er|].
  intros t' Ht'. destruct (decide (rd_ID t' = rd_ID t)) as [E|E]; [|by rewrite Ho; [apply Ht|]]. apply (NoDup_map_inj _ _ _ _ Hn) in E as ->; [|done..]. by exists now, row.
Qed.
End Again.

(** Seeding the same files again keeps the rows as shipped, even when it stops half-way. *)
Lemma seeding_again r0 r c now db : ValidateRegistry r0 = inr r -> all_shipped r c db -> all_shipped r c (SeedCatalog (inr r0) (inr c) now db).2.
Proof.
  intros Hr H. unfold SeedCatalog. rewrite Hr. destruct (ValidateCatalog c) eqn:Hc; [done|].
  destruct (run_statements _ (bc_Backends c) db) as [e1 db1] eqn:E1.
  assert (all_shipped r c db1) as H1 by (change db1 with (e1, db1).2; rewrite <- E1; apply run_statements_inv; [intros; by eapply backend_again|done]).
  destruct e1; [done|]. destruct (run_statements _ (bc_Versions c) db1) as [e2 db2] eqn:E2.
  assert (all_shipped r c db2) as H2 by (change db2 with (e2, db2).2; rewrite <- E2; apply run_statements_inv; [intros; by eapply version_again|done]).
  destruct e2; [done|]. apply run_statements_inv; [intros; by eapply runtime_again|done].
Qed.
End Seed.

(** ** Keys and references *)

Record catalog_ok (db : catalog_db) : Prop := {
  ok_backends : NoDup (map be_id (cd_backends db));
  ok_backend_names : NoDup (map be_name (cd_backends db));
  ok_versions : NoDup (map ve_id (cd_versions db));
  ok_version_pairs : NoDup (map (fun r => (ve_backend r, ve_version r)) (cd_versions db));
  ok_runtimes : NoDup (map rt_id (cd_runtimes db));
  ok_runtime_names : NoDup (map (fun r => (rt_tenant r, rt_name r)) (cd_runtimes db));
  ok_version_backends : Forall (fun r => ve_backend r ∈ map be_id (cd_backends db)) (cd_versions db);
  ok_runtime_backends : Forall (fun r => rt_backend r ∈ map be_id (cd_backends db)) (cd_runtimes db);
  ok_runtime_versions : Forall (fun r => rt_version r ∈ map ve_id (cd_versions db)) (cd_runtimes db);
  ok_editable : Forall (fun r => rt_editable r = negb (rt_managed r =s "system")) (cd_runtimes db)
}.

Lemma empty_catalog_ok : catalog_ok empty_catalog.
Proof. split; (apply NoDup_nil_2 || constructor). Qed.

Lemma found_key {A} (key : A -> string) id rows r : by_id key id rows = Some r -> id ∈ map key rows.
Proof. intros [Hr <-]%by_id_Some. by apply (list_elem_of_fmap_2 key). Qed.

Lemma existsb_other {A} (p : A -> bool) (l : list A) x : existsb p l = false -> x ∈ l -> p x = false.
Proof.
  intros H Hx. apply not_true_iff_false. intros Hp. apply not_true_iff_false in H. apply H, existsb_exists. exists x. split; [by apply list_elem_of_In|done].
Qed.

Lemma version_refused_None db r others : version_refused db r others = None ->
  (forall o, o ∈ others -> (ve_backend o, ve_version o) <> (ve_backend r, ve_version r)) /\ ve_backend r ∈ map be_id (cd_backends db).
Proof.
  unfold version_refused. destruct (existsb _ others) eqn:E; [done|]. destruct (find_backend db _) as [b|] eqn:Eb; [|done]. intros _. split; [|by eapply found_key].
  intros o Ho [= E1 E2]. pose proof (existsb_other _ _ _ E Ho) as Hp. cbn in Hp. by rewrite E1, E2, !String.eqb_refl in Hp.
Qed.

Lemma runtime_refused_None db r others : runtime_refused db r others = None ->
  (forall o, o ∈ others -> (rt_tenant o, rt_name o) <> (rt_tenant r, rt_name r)) /\ rt_backend r ∈ map be_id (cd_backends db)
  /\ rt_version r ∈ map ve_id (cd_versions db).
Proof.
  unfold runtime_refused. destruct (existsb _ others) eqn:E; [done|]. destruct (find_backend db _) as [b|] eqn:Eb; [|done].
  destruct (find_version db _) as [v|] eqn:Ev; [|done]. intros _. split_and!; [|by eapply found_key|by eapply found_key].
  intros o Ho [= E1 E2]. pose proof (existsb_other _ _ _ E Ho) as Hp. cbn in Hp. by rewrite E1, E2, !String.eqb_refl in Hp.
Qed.

Lemma written_refused {A} (key : A -> string) refused creating r rows rows' : written key refused creating r rows rows' -> exists others, refused r others = None.
Proof. intros [_ _ H|_ H]; by eexists. Qed.

Lemma version_written_ok db creating r rows : written ve_id (version_refused db) creating r (cd_versions db) rows -> catalog_ok db ->
  catalog_ok (with_versions (fun _ => rows) db).
Proof.
  intros Hw [Hb Hbn Hv Hvp Hr Hrn Hvb Hrb Hrv He]. destruct (written_refused _ _ _ _ _ _ Hw) as [others [_ Hin]%version_refused_None].
  split; cbn [with_versions cd_backends cd_versions cd_runtimes]; try done.
  - destruct Hw as [-> Hn H0| -> H0]; [rewrite map_app; by apply NoDup_snoc|]. rewrite (written_keys ve_id (version_refused db) false r (cd_versions db)); [by rewrite app_nil_r|by constructor].
  - eapply written_NoDup; [exact Hw| |done|done]. intros o' Ho'. by apply version_refused_None in Ho' as [? _].
  - by eapply written_Forall.
  - eapply Forall_impl; [exact Hrv|]. intros t Ht. rewrite (written_keys _ _ _ _ _ _ Hw). apply elem_of_app. by left.
Qed.

Lemma runtime_written_ok db creating r rows : written rt_id (runtime_refused db) creating r (cd_runtimes db) rows -> rt_editable r = negb (rt_managed r =s "system") ->
  catalog_ok db -> catalog_ok (with_runtimes (fun _ => rows) db).
Proof.
  intros Hw Hed [Hb Hbn Hv Hvp Hr Hrn Hvb Hrb Hrv He]. destruct (written_refused _ _ _ _ _ _ Hw) as [others (_ & Hin & Hin')%runtime_refused_None].
  split; cbn [with_runtimes cd_backends cd_versions cd_runtimes]; try done; try by eapply written_Forall.
  - destruct Hw as [-> Hn H0| -> H0]; [rewrite map_app; by apply NoDup_snoc|]. rewrite (written_keys rt_id (runtime_refused db) false r (cd_runtimes db)); [by rewrite app_nil_r|by constructor].
  - eapply written_NoDup; [exact Hw| |done|done]. intros o' Ho'. by apply runtime_refused_None in Ho' as [? _].
Qed.

Lemma backend_written_ok db creating r rows : written be_id backend_refused creating r (cd_backends db) rows -> catalog_ok db ->
  catalog_ok (with_backends (fun _ => rows) db).
Proof.
  intros Hw [Hb Hbn Hv Hvp Hr Hrn Hvb Hrb Hrv He]. pose proof (written_keys _ _ _ _ _ _ Hw) as Hkeys.
  split; cbn [with_backends cd_backends cd_versions cd_runtimes]; try done.
  - destruct Hw as [-> Hn H0| -> H0]; [rewrite map_app; by apply NoDup_snoc|]. by rewrite Hkeys, app_nil_r.
  - eapply written_NoDup; [exact Hw| |done|done]. unfold backend_refused. intros others E o Ho Eo. destruct (existsb _ others) eqn:E'; [done|].
    pose proof (existsb_other _ _ _ E' Ho) as Hp. cbn in Hp. by rewrite Eo, String.eqb_refl in Hp.
  - eapply Forall_impl; [exact Hvb|]. intros t Ht. rewrite Hkeys. apply elem_of_app. by left.
  - eapply Forall_impl; [exact Hrb|]. intros t Ht. rewrite Hkeys. apply elem_of_app. by left.
Qed.

Lemma edited_ok encode now db db' : edited encode now db db' -> catalog_ok db -> catalog_ok db'.
Proof.
  intros [|old set _ _|old set _ _] [Hb Hbn Hv Hvp Hr Hrn Hvb Hrb Hrv He]; [done|..]; split; cbn [with_versions with_runtimes cd_backends cd_versions cd_runtimes];
    rewrite ?update_map by done; try done; by apply update_Forall.
Qed.

Lemma change_ok s db db' : change s db db' -> catalog_ok db -> catalog_ok db'.
Proof.
  intros Hc Hok. pose proof Hok as [Hb Hbn Hv Hvp Hr Hrn Hvb Hrb Hrv He].
  destruct Hc as [|r rows _ Hw|old r rows _ _ _ Hw|old Ho Hu Hn|r rows He' Hm _ Hw|old r rows Ho Heo _ He' Hm _ Hw|old Ho Heo _]; [done| | | | | |].
  - by eapply version_written_ok.
  - by eapply version_written_ok.
  - split; cbn [with_versions cd_backends cd_versions cd_runtimes]; try done; try by apply delete_NoDup_map.
    + by apply delete_Forall.
    + apply Forall_forall. intros t Ht. rewrite Forall_forall in Hrv. specialize (Hrv _ Ht). apply list_elem_of_fmap in Hrv as (v & E & Hv').
      apply list_elem_of_fmap. exists v. split; [done|]. apply elem_of_delete. split; [done|]. apply String.eqb_neq. intros E'. apply Hn. rewrite <- E', <- E.
      by apply (list_elem_of_fmap_2 rt_version).
  - eapply runtime_written_ok; [exact Hw| |done]. by rewrite He', Hm.
  - eapply runtime_written_ok; [exact Hw| |done]. rewrite He', Hm. destruct (by_id_Some _ _ _ _ Ho) as [Hin _]. rewrite Forall_forall in He. by apply He.
  - split; cbn [with_runtimes cd_backends cd_versions cd_runtimes]; try done; try (by apply delete_NoDup_map); by apply delete_Forall.
Qed.

Section Reachable.
Context `{MR : MapRange} (encode : any -> string) (real_text : float64 -> string) (decode_error : any -> string).

#[local] Opaque ConfigSet_JSON version_config MaterializeBackendRuntime MaterializeBackend.

Lemma SeedCatalog_ok reg cat now db : catalog_ok db -> catalog_ok (SeedCatalog reg cat now db).2.
Proof.
  intros Hok. unfold SeedCatalog. destruct reg as [e|r0]; [exact Hok|]. destruct (ValidateRegistry r0) as [e|r]; [exact Hok|]. destruct cat as [e|c]; [exact Hok|].
  destruct (ValidateCatalog c); [exact Hok|]. destruct (run_statements _ (bc_Backends c) _) as [e1 db1] eqn:E1.
  assert (catalog_ok db1) as Hok1.
  { change db1 with (e1, db1).2. rewrite <- E1. apply run_statements_inv; [|exact Hok]. intros b d d' _ Hd. unfold seed_backend. destruct (ConfigSet_JSON _) as [set|]; [|done].
    destruct (upsert_row _ _ _ _ _) as [e|rows] eqn:E; [done|]. intros [= <-].
    destruct (upsert_row_inv be_id _ keep_backend (fun _ _ => eq_refl) _ _ _ E) as (cr & r' & Hw & _ & _). by eapply backend_written_ok. }
  destruct e1; [exact Hok1|]. destruct (run_statements _ (bc_Versions c) _) as [e2 db2] eqn:E2.
  assert (catalog_ok db2) as Hok2.
  { change db2 with (e2, db2).2. rewrite <- E2. apply run_statements_inv; [|exact Hok1]. intros b d d' _ Hd. unfold seed_version. destruct (ConfigSet_JSON _) as [set|]; [|done].
    destruct (upsert_row _ _ _ _ _) as [e|rows] eqn:E; [done|]. intros [= <-].
    destruct (upsert_row_inv ve_id _ keep_version (fun _ _ => eq_refl) _ _ _ E) as (cr & r' & Hw & _ & _). by eapply version_written_ok. }
  destruct e2; [exact Hok2|]. apply run_statements_inv; [|exact Hok2]. intros b d d' _ Hd. unfold seed_runtime. destruct (last _); [|done].
  destruct (ConfigSet_JSON _) as [set|]; [|done]. destruct (upsert_row _ _ _ _ _) as [e|rows] eqn:E; [done|]. intros [= <-].
  destruct (upsert_row_inv rt_id _ keep_runtime (fun _ _ => eq_refl) _ _ _ E) as (cr & r' & Hw & _ & Hr'). eapply runtime_written_ok; [exact Hw| |exact Hd].
  by destruct Hr' as [->|[old ->]].
Qed.

Lemma handle_ok s now rq db : catalog_ok db -> catalog_ok (handle encode real_text decode_error s now rq db).2.
Proof.
  intros Hok. destruct (is_reload rq) eqn:E, (is_edit rq) eqn:E'; [by destruct rq| | |by eapply change_ok; [apply request_change|]]; destruct rq; try discriminate;
    cbn [handle]; [|by eapply edited_ok; [apply edit_edited|]]. unfold HandleReloadBackendCatalog.
  pose proof (SeedCatalog_ok registry catalog now db Hok) as H. destruct (SeedCatalog _ _ _ _) as [[e|] db']; exact H.
Qed.

(** In every state that starts of the server, reloads and requests lead to, whatever
    fails on the way: identifiers are unique, so are the names of backends, the versions
    of a backend and the names of a tenant's templates, versions and templates refer to
    rows that exist, and exactly the templates of the shipped catalog are read-only. *)
Theorem catalog_well_formed requests : catalog_ok (serve_all encode real_text decode_error requests empty_catalog).
Proof.
  unfold serve_all. assert (catalog_ok empty_catalog) as H by apply empty_catalog_ok. revert H. generalize empty_catalog.
  induction requests as [|[[s now] rq] l IH]; cbn [foldl]; [done|]. intros db Hdb. by apply IH, handle_ok.
Qed.

(** *** The shipped catalog *)

(** Files a seeding stops at before it writes a row. *)
Definition rejected_files (reg : string + Registry) (cat : string + BackendCatalog) : Prop :=
  (exists e, reg = inl e) \/ (exists r0 e, reg = inr r0 /\ ValidateRegistry r0 = inl e)
  \/ (exists e, cat = inl e) \/ (exists c e, cat = inr c /\ ValidateCatalog c = Some e).

(** Every request but a reload of other files. *)
Definition same_files (r0 : Registry) (c : BackendCatalog) (rq : catalog_request) : Prop :=
  match rq with Reload reg cat => (reg = inr r0 /\ cat = inr c) \/ rejected_files reg cat | _ => True end.

Lemma rejected_unchanged reg cat now db : rejected_files reg cat -> (SeedCatalog reg cat now db).2 = db.
Proof.
  unfold SeedCatalog. intros [[e ->]|[(r0 & e & -> & ->)|[[e ->]|(c & e & -> & Hc)]]]; [done..| |].
  - destruct reg as [x|x]; [done|]. by destruct (ValidateRegistry x).
  - destruct reg as [x|x]; [done|]. destruct (ValidateRegistry x); [done|]. by rewrite Hc.
Qed.

Lemma handle_shipped r0 r c s now rq db : ValidateRegistry r0 = inr r -> same_files r0 c rq -> all_shipped r c db ->
  all_shipped r c (handle encode real_text decode_error s now rq db).2.
Proof.
  intros Hr Hf H. destruct (is_reload rq) eqn:E.
  - destruct rq; try discriminate E. cbn [handle]. unfold HandleReloadBackendCatalog.
    assert (all_shipped r c (SeedCatalog registry catalog now db).2) as Hs
      by (destruct Hf as [[-> ->]|Hf]; [by apply seeding_again|by rewrite rejected_unchanged]).
    by destruct (SeedCatalog _ _ _ _) as [[e|] db'].
  - destruct (request_keeps encode real_text decode_error s now rq db E) as [Kv Kt]. destruct H as [Hv Ht]. split.
    + intros v (tm & row & Hfind & Hrow)%Hv. exists tm, row. split; [|done]. apply Kv; [|done]. by destruct Hrow as (old & doc & _ & ->).
    + intros t (tm & row & Hfind & Hrow)%Ht. exists tm, row. split; [|done]. apply Kt; [|done]. by destruct Hrow as (old & v & doc & _ & _ & _ & ->).
Qed.

(** C15. Take a seeding of the shipped files that succeeds, and after it any requests of any
    callers to the handlers that write versions and templates, the editor of sets among
    them, and any reloads of the same files, whatever comes of them, or of files that are
    refused before a row is written.  Then every version and every template of the
    catalog is the row the catalog describes, its configuration set the materialised one,
    as one of these seedings wrote it.  And rows the catalog does not hold pass the
    first seeding unchanged. *)
Theorem catalog_as_shipped r0 c now db db1 requests :
  SeedCatalog (inr r0) (inr c) now db = (None, db1) -> Forall (fun x => same_files r0 c x.2) requests ->
  exists r, ValidateRegistry r0 = inr r /\ all_shipped r c (serve_all encode real_text decode_error requests db1)
    /\ (forall id, id ∉ map vd_ID (bc_Versions c) -> find_version db1 id = find_version db id)
    /\ (forall id, id ∉ map rd_ID (bc_Runtimes c) -> find_runtime db1 id = find_runtime db id).
Proof.
  intros Hs Hq. destruct (SeedCatalog_rows _ _ _ _ _ _ Hs eq_refl) as (x & r & [= <-] & Hr & _ & Hv & Ht & Hv' & Ht'). exists r. split_and!; [done| |done|done].
  assert (all_shipped r c db1) as H1 by (split; [intros v (row & ?)%Hv|intros t (row & ?)%Ht]; by exists now, row).
  clear - Hq Hr H1. unfold serve_all. revert db1 H1. induction Hq as [|[[s tm] rq] l Hrq _ IH]; cbn [foldl]; [done|]. intros d Hd. by apply IH, (handle_shipped r0).
Qed.
End Reachable.

(** ** Free names *)

Section Names.
Context (taken : string -> bool) (base : string).

Definition numbered (i : Z) : string := base +s+ "-" +s+ Itoa i.

Lemma free_name_spec fuel : forall candidate i name, free_name fuel taken base candidate i = Some name ->
  taken name = false /\ (name = candidate \/ (taken candidate = true /\ exists k, (i <= k)%Z /\ name = numbered k /\ forall j, (i <= j < k)%Z -> taken (numbered j) = true)).
Proof.
  induction fuel as [|fuel IH]; cbn; [done|]. intros c i name. destruct (taken c) eqn:E; [|intros [= <-]; split; [done|by left]].
  intros (Hn & H)%IH. split; [done|]. right. split; [done|]. destruct H as [->|(Hc & k & Hk & -> & Hj)].
  - exists i. split_and!; [lia|done|]. intros j Hj. lia.
  - exists k. split_and!; [lia|done|]. intros j Hj'. destruct (decide (j = i)) as [->|]; [done|]. apply Hj. lia.
Qed.

(** The candidates the loop tries. *)
Fixpoint tries (fuel : nat) (candidate : string) (i : Z) : list string :=
  match fuel with O => [] | S fuel => candidate :: tries fuel (numbered i) (i + 1)%Z end.

Lemma free_name_None fuel : forall candidate i, free_name fuel taken base candidate i = None -> Forall (fun c => taken c = true) (tries fuel candidate i).
Proof.
  induction fuel as [|fuel IH]; cbn; intros c i H; [constructor|]. destruct (taken c) eqn:E; [|done]. constructor; [done|]. by apply IH.
Qed.

Lemma tries_length fuel : forall candidate i, length (tries fuel candidate i) = fuel.
Proof. induction fuel as [|fuel IH]; cbn; intros; [done|]. by rewrite IH. Qed.

Lemma numbered_inj i j : numbered i = numbered j -> i = j.
Proof. unfold numbered. intros H. apply (inj (String.append base)) in H. injection H as H. by apply Itoa_inj. Qed.

Lemma numbered_base i : numbered i <> base.
Proof.
  unfold numbered. generalize (Itoa i). intros s. induction base as [|c b IH]; cbn; [discriminate|]. intros [= H]. by apply IH.
Qed.

Lemma tries_numbered fuel : forall k i c, (k < i)%Z -> c ∈ tries fuel (numbered k) i -> exists j, (k <= j)%Z /\ c = numbered j /\ (j = k \/ i <= j)%Z.
Proof.
  induction fuel as [|fuel IH]; cbn; intros k i c Hk Hc; [by apply elem_of_nil in Hc|]. apply elem_of_cons in Hc as [->|Hc].
  - exists k. split_and!; [lia|done|by left].
  - apply IH in Hc as (j & Hj & -> & Hj'); [|lia]. exists j. split_and!; [lia|done|lia].
Qed.

Lemma tries_NoDup_from fuel : forall k i, (k < i)%Z -> NoDup (tries fuel (numbered k) i).
Proof.
  induction fuel as [|fuel IH]; cbn; intros k i Hk; [apply NoDup_nil_2|]. apply NoDup_cons. split; [|apply IH; lia].
  intros (j & Hj & E & _)%tries_numbered; [|lia]. apply numbered_inj in E. lia.
Qed.

Lemma tries_NoDup fuel i : NoDup (tries fuel base i).
Proof.
  destruct fuel as [|fuel]; cbn; [apply NoDup_nil_2|]. apply NoDup_cons. split; [|apply tries_NoDup_from; lia].
  intros (j & _ & E & _)%tries_numbered; [|lia]. symmetry in E. by apply numbered_base in E.
Qed.
End Names.

Lemma taken_names db tenant name : name_taken db tenant name = true -> name ∈ map rt_name (cd_runtimes db).
Proof.
  unfold name_taken. intros (r & Hr & [_ E%String.eqb_eq]%andb_true_iff)%existsb_exists. apply list_elem_of_fmap. exists r. split; [done|by apply list_elem_of_In].
Qed.

(** The search for a free name ends: it returns a name no template of the tenant has,
    the one asked for when it is free, and otherwise the first free one of the numbered
    names from 2 on. *)
Theorem uniqueRuntimeName_returns db tenant base : exists name, uniqueRuntimeName db tenant base = Some name /\ name_taken db tenant name = false
  /\ (name = name_base base
      \/ (name_taken db tenant (name_base base) = true
          /\ exists k, (2 <= k)%Z /\ name = numbered (name_base base) k /\ forall j, (2 <= j < k)%Z -> name_taken db tenant (numbered (name_base base) j) = true)).
Proof.
  destruct (uniqueRuntimeName db tenant base) as [name|] eqn:E.
  - exists name. split; [done|]. by eapply free_name_spec.
  - exfalso. unfold uniqueRuntimeName in E. set (n := length (cd_runtimes db)) in *. apply free_name_None in E.
    assert (tries (name_base base) (S n) (name_base base) 2 ⊆+ map rt_name (cd_runtimes db)) as Hsub.
    { apply NoDup_submseteq; [apply tries_NoDup|]. intros c Hc. rewrite Forall_forall in E. by eapply taken_names, E. }
    apply submseteq_length in Hsub. rewrite tries_length, length_map in Hsub. fold n in Hsub. lia.
Qed.

(** ** Tenants *)

(** Whatever callers of one tenant, who are no platform administrators, ask of the
    handlers of versions and templates, a template of another tenant stays as it is.  The
    editor of sets is not among them ([edited_by_another_tenant]). *)
Theorem tenant_templates `{MR : MapRange} encode real_text decode_error requests db id r :
  Forall (fun x => s_admin x.1.1 = false /\ s_tenant x.1.1 <> rt_tenant r /\ is_reload x.2 = false /\ is_edit x.2 = false) requests -> rt_tenant r <> "" ->
  find_runtime db id = Some r -> find_runtime (serve_all encode real_text decode_error requests db) id = Some r.
Proof.
  intros Hr Ht. unfold serve_all. revert db. induction Hr as [|[[s tm] rq] l (Hs & Hd & Hrq & Hre) _ IH]; cbn [foldl]; [done|]. intros db Hf. cbn in Hs, Hd, Hrq, Hre.
  apply IH. eapply change_foreign; [by apply request_change|exact Hs|exact Ht|intros E; by apply Hd|exact Hf].
Qed.

(** ** At concrete inputs *)

#[local] Existing Instance canonical_range.

Definition plain_text : any -> string := fun _ => "".
Definition plain_real : float64 -> string := fun _ => "".

Definition shipped_template : RuntimeDoc :=
  {| rd_ID := "runtime.vllm.nvidia-docker"; rd_Name := "vllm-nvidia"; rd_DisplayName := "vLLM on NVIDIA"; rd_BackendID := "backend.vllm"; rd_BackendVersionID := "vllm-v1";
     rd_Slug := "vllm-nvidia"; rd_Visibility := ""; rd_SupportLevel := ""; rd_Status := ""; rd_Vendor := "nvidia"; rd_ImageRef := "vllm:1"; rd_ImageCandidates := [];
     rd_RunnerType := ""; rd_ModelMount := None; rd_DockerOptions := []; rd_Devices := []; rd_Volumes := []; rd_Env := ∅; rd_Entrypoint := None; rd_Args := None;
     rd_Ports := []; rd_HealthCheck := None; rd_Verification := None; rd_HardwareFamily := ""; rd_AcceleratorAPI := ""; rd_RuntimeDistribution := "";
     rd_RuntimeDistributionVersion := ""; rd_SourcePath := ""; rd_SourceHash := "h1" |}.

Definition shipped_catalog : BackendCatalog := {| bc_Backends := [demo_backend]; bc_Versions := [demo_version]; bc_Runtimes := [shipped_template] |}.

Definition other_version (id version : string) : VersionDoc :=
  {| vd_ID := id; vd_BackendID := "backend.vllm"; vd_Slug := ""; vd_Version := version; vd_Readonly := true; vd_Protocol := "openai";
     vd_DefaultPort := 0; vd_DefaultHost := ""; vd_DefaultModelMount := None; vd_DefaultEndpoints := None; vd_Capabilities := None; vd_CapabilitiesDetail := ANil;
     vd_DefaultEntrypoint := None; vd_DefaultCommand := None; vd_DefaultArgs := None; vd_DefaultArgsSchema := []; vd_HealthCheck := None; vd_SourcePath := "";
     vd_SourceHash := "" |}.
Definition next_catalog (id : string) : BackendCatalog :=
  {| bc_Backends := [demo_backend]; bc_Versions := [demo_version; other_version id "2"]; bc_Runtimes := [shipped_template] |}.

Definition seeded (c : BackendCatalog) (db : catalog_db) : option string * catalog_db := SeedCatalog (inr demo_registry) (inr c) "t0" db.
Definition shipped_db : catalog_db := (seeded shipped_catalog empty_catalog).2.

Definition caller (tenant : string) : session := {| s_user := "u"; s_tenant := tenant; s_admin := false; s_perms := [] |}.
Definition ask (tenant : string) (rq : catalog_request) (db : catalog_db) : reply * catalog_db := handle plain_text plain_real plain_text (caller tenant) "t1" rq db.
Definition code_of (r : reply) : Z := match r with Reply c _ => c | Panicked => 0 end.
Definition body_of (r : reply) : obj := match r with Reply _ (AMap m) => m | _ => [] end.

Definition template_request : obj :=
  [("backend_id", AStr "backend.vllm"); ("backend_version_id", AStr "vllm-v1"); ("env", AMap [("HF_TOKEN", AStr "secret")]); ("name", AStr "mine")].
Definition own_db : catalog_db := (ask "t1" (CreateRuntime "0000000a" (Some template_request)) shipped_db).2.

(** A second template of the name gets the next number, in the same tenant only. *)
Example numbered_names :
  (map rt_name (cd_runtimes (ask "t1" (CloneRuntime "0000000a" "0000000b" (Some [("name", AStr "mine")])) own_db).2),
   map rt_name (cd_runtimes (ask "t2" (CloneRuntime "0000000a" "0000000b" (Some [("name", AStr "mine")])) own_db).2))
  = (["vllm-nvidia"; "mine"; "mine-2"], ["vllm-nvidia"; "mine"; "mine"]).
Proof. vm_compute. reflexivity. Qed.

(** Copying looks at no tenant: a caller of one tenant copies the template of another,
    which reading and patching refuse, and reads its set in the reply. *)
Example copy_of_another_tenant :
  let copied := (ask "t2" (CloneRuntime "0000000a" "0000000b" None) own_db).1 in
  (code_of (HandleGetBackendRuntime (caller "t2") "0000000a" own_db), code_of copied,
   configObject (default [] (get_obj (body_of copied) "config_set")) "runtime.env")
  = (404%Z, 201%Z, [("HF_TOKEN", AStr "secret")]).
Proof. vm_compute. reflexivity. Qed.

(** The environment of a template is shown without its secrets, and beside it the set
    that holds them. *)
Example secrets_in_the_set :
  let shown := body_of (HandleGetBackendRuntime (caller "t1") "0000000a" own_db) in
  (get_any shown "env", configObject (default [] (get_obj shown "config_set")) "runtime.env")
  = (AMap [("HF_TOKEN", AStr "<redacted>")], [("HF_TOKEN", AStr "secret")]).
Proof. vm_compute. reflexivity. Qed.

(** The copy of a version has no protocol. *)
Example copy_without_protocol :
  map (fun v => (ve_version v, ve_protocol v)) (cd_versions (ask "t1" (CloneVersion "vllm-v1" "0000000b") shipped_db).2)
  = [("1", "openai"); ("1-user-0000000b", "")].
Proof. vm_compute. reflexivity. Qed.

(** A template takes a version of another backend. *)
Example version_of_another_backend :
  let other := {| be_id := "backend.other"; be_name := "other"; be_display := ""; be_description := ""; be_slug := ""; be_managed := "system"; be_source := "";
                  be_catalog := ""; be_checksum := ""; be_status := "active"; be_config := AMap []; be_metadata := AMap []; be_created := ""; be_updated := "" |} in
  let request := [("backend_id", AStr "backend.other"); ("backend_version_id", AStr "vllm-v1"); ("name", AStr "mixed")] in
  map (fun r => (rt_backend r, rt_version r)) (cd_runtimes (ask "t1" (CreateRuntime "0000000a" (Some request)) (with_backends (fun l => l ++ [other]) shipped_db)).2)
  = [("backend.vllm", "vllm-v1"); ("backend.other", "vllm-v1")].
Proof. vm_compute. reflexivity. Qed.

(** A version a user has added stops the seeding of a catalog that ships it under another
    identifier, and with it the next start of the server. *)
Definition user_version_db : catalog_db := (ask "t1" (CreateVersion "backend.vllm" "0000000b" (Some [("version", AStr "2")])) shipped_db).2.
Example user_version_stops_the_seeding :
  ((seeded (next_catalog "vllm-v2") shipped_db).1, (seeded (next_catalog "vllm-v2") user_version_db).1)
  = (None, Some "seed backend version vllm-v2: UNIQUE constraint failed: backend_versions.backend_id, backend_versions.version").
Proof. vm_compute. reflexivity. Qed.

(** Under the identifier of the catalog, which a request may choose, it is overwritten. *)
Example user_version_overwritten :
  let db := (ask "t1" (CreateVersion "backend.vllm" "" (Some [("description", AStr "mine"); ("id", AStr "vllm-v2"); ("version", AStr "2")])) shipped_db).2 in
  (ve_description <$> find_version db "vllm-v2", ve_description <$> find_version (seeded (next_catalog "vllm-v2") db).2 "vllm-v2")
  = (Some "mine", Some "vllm-v2 (2) system software version").
Proof. vm_compute. reflexivity. Qed.

(** *** The editor of sets *)

(** An edit of an environment variable. *)
Definition env_edit (value : string) : obj :=
  [("patch", AMap [("fields", AList [AMap [("key", AStr "runtime.env"); ("path", AStrs ["HF_TOKEN"]); ("value", AStr value)]])])].

(** The editor of sets looks at no tenant: it answers a caller with the set of a template
    of another tenant, and changes it, which patching refuses. *)
Example edited_by_another_tenant :
  let '(answer, db) := ask "t2" (EditSet EditedRuntime "0000000a" (env_edit "mine")) own_db in
  (code_of (ask "t2" (PatchRuntime "0000000a" (Some [])) own_db).1, code_of answer,
   (fun r => (rt_tenant r, configObject (copy_of (rt_config r)) "runtime.env")) <$> find_runtime db "0000000a")
  = (404%Z, 200%Z, Some ("t1", [("HF_TOKEN", AStr "mine")])).
Proof. vm_compute. reflexivity. Qed.

(** The rows of the catalog it refuses. *)
Example editor_refuses_shipped :
  (code_of (ask "t1" (EditSet EditedVersion "vllm-v1" (env_edit "x")) shipped_db).1,
   code_of (ask "t1" (EditSet EditedRuntime "runtime.vllm.nvidia-docker" (env_edit "x")) shipped_db).1,
   code_of (ask "t1" (EditSet EditedRuntime "none" (env_edit "x")) shipped_db).1) = (403%Z, 403%Z, 404%Z).
Proof. vm_compute. reflexivity. Qed.

(** *** Witnesses *)

Definition after_requests : list (session * string * catalog_request) :=
  [(caller "t1", "t1", CreateRuntime "0000000a" (Some template_request)); (caller "t1", "t2", PatchRuntime "runtime.vllm.nvidia-docker" (Some [("name", AStr "x")]));
   (caller "t2", "t3", CloneRuntime "0000000a" "0000000b" None); (caller "t2", "t4", DeleteVersion "vllm-v1");
   (caller "t2", "t5", EditSet EditedVersion "vllm-v1" (env_edit "x")); (caller "t2", "t6", EditSet EditedRuntime "0000000a" (env_edit "x"));
   (caller "t1", "t7", Reload (inr demo_registry) (inr shipped_catalog)); (caller "t1", "t8", Reload (inl "no file") (inr (next_catalog "vllm-v2")))].

Lemma catalog_as_shipped_witness :
  seeded shipped_catalog empty_catalog = (None, shipped_db) /\
  exists row, find_version (serve_all plain_text plain_real plain_text after_requests shipped_db) "vllm-v1" = Some row /\ ve_managed row = "system".
Proof.
  assert (SeedCatalog (inr demo_registry) (inr shipped_catalog) "t0" empty_catalog = (None, shipped_db)) as Hs by (vm_compute; reflexivity).
  split; [exact Hs|].
  assert (Forall (fun x : session * string * catalog_request => same_files demo_registry shipped_catalog x.2) after_requests) as Hr.
  { unfold after_requests. do 6 (apply List.Forall_cons; [exact I|]).
    apply List.Forall_cons; [left; split; reflexivity|]. apply List.Forall_cons; [right; left; exists "no file"; reflexivity|apply List.Forall_nil]. }
  destruct (catalog_as_shipped plain_text plain_real plain_text demo_registry shipped_catalog "t0" empty_catalog shipped_db after_requests Hs Hr) as (r & _ & [Hv _] & _).
  destruct (Hv demo_version) as (tm & row & Hf & old & doc & _ & ->); [left|]. eexists. split; [exact Hf|reflexivity].
Defined.

Lemma tenant_templates_witness :
  exists r, find_runtime own_db "0000000a" = Some r /\ rt_tenant r = "t1" /\
  find_runtime (serve_all plain_text plain_real plain_text [(caller "t2", "t2", PatchRuntime "0000000a" (Some [("name", AStr "stolen")])); (caller "t2", "t3", DeleteRuntime "0000000a" [])] own_db)
    "0000000a" = Some r.
Proof.
  destruct (find_runtime own_db "0000000a") as [r|] eqn:E; [|vm_compute in E; discriminate E].
  assert (rt_tenant r = "t1") as Ht by (vm_compute in E; injection E as <-; reflexivity).
  exists r. split; [reflexivity|]. split; [exact Ht|].
  apply (tenant_templates plain_text plain_real plain_text); [|rewrite Ht; discriminate|exact E].
  repeat constructor; cbn; rewrite Ht; discriminate.
Defined.
