(* ===== verification/AuditLog.v ===== *)
(** * The audit log and the redaction of logs (internal/server/api: audit_writer.go, audit_handlers.go; internal/common/log/redact.go)

    Entries are appended by the handlers and listed by page; what a log shows of an
    environment hides the values of sensitive keys. *)
From S2P Require Import Prelude GoStrings GoValue GoJson GoJsonText ConfigSets Store Deployments Preflight NodeRuntimes.
From stdpp Require Import sorting.

(** ** Writing *)

Record AuditEntry := {
  ae_TenantID : string; ae_ActorID : string; ae_Action : string; ae_ResourceType : string; ae_ResourceID : string; ae_Result : string; ae_Detail : string;
  ae_RequestID : string; ae_OperationID : string; ae_Error : string
}.

Record audit_log := {
  al_id : string; al_tenant : string; al_action : string; al_entity_type : string; al_entity : string; al_detail : string; al_operator : string; al_created : string
}.

(** A part that is not empty is put behind the ones before it. *)
Definition detail_part (detail : string) (part : string * string) : string :=
  if part.2 =s "" then detail else (if detail =s "" then "" else detail +s+ " ") +s+ part.1 +s+ "=" +s+ part.2.

Definition fullDetail (e : AuditEntry) : string :=
  foldl detail_part (ae_Detail e) [("operation_id", ae_OperationID e); ("request_id", ae_RequestID e); ("result", ae_Result e); ("error", ae_Error e)].

Definition safeStr (s : string) : string := if s =s "" then "unknown" else s.

(** A taken identifier is an error, which is logged only. *)
Definition WriteAudit (id now : string) (e : AuditEntry) (logs : list audit_log) : list audit_log :=
  if id_free al_id id logs
  then logs ++ [{| al_id := id; al_tenant := safeStr (ae_TenantID e); al_action := safeStr (ae_Action e); al_entity_type := safeStr (ae_ResourceType e);
                   al_entity := safeStr (ae_ResourceID e); al_detail := fullDetail e; al_operator := safeStr (ae_ActorID e); al_created := now |}]
  else logs.

(** ** Listing *)

Definition isSensitiveKey (key : string) : bool :=
  existsb (Contains (ToUpper key)) ["KEY"; "TOKEN"; "PASSWORD"; "SECRET"; "AUTH"; "CREDENTIAL"; "ACCESS"].

(** [encode]: the JSON text of a document. *)
Definition redactDetailString (encode : any -> string) (s : string) : string :=
  match Unmarshal_map s with
  | Some (Some m) =>
      if existsb (fun kv => isSensitiveKey kv.1) m
      then encode (AMap (map (fun kv => (kv.1, if isSensitiveKey kv.1 then AStr "<redacted>" else kv.2)) m))
      else s
  | _ => s
  end.

(** The parameters of the query, empty when absent. *)
Record audit_query := { aq_limit : string; aq_offset : string; aq_action : string; aq_entity_type : string; aq_entity : string }.

(** [members]: users and the tenants they are members of. *)
Definition audit_visible (s : session) (members : list (string * string)) (q : audit_query) (l : audit_log) : bool :=
  (s_admin s || existsb (fun m => (m.1 =s al_operator l) && (m.2 =s s_tenant s)) members)
  && ((aq_action q =s "") || (al_action l =s aq_action q)) && ((aq_entity_type q =s "") || (al_entity_type l =s aq_entity_type q))
  && ((aq_entity q =s "") || (al_entity l =s aq_entity q)).

(** ORDER BY created_at DESC *)
Definition newest_first (a b : audit_log) : Prop := Is_true (String.leb (al_created b) (al_created a)).
#[export] Instance newest_first_dec : RelDecision newest_first.
Proof. intros a b. unfold newest_first. apply _. Defined.

(** LIMIT and OFFSET: a negative limit is none, a negative offset is zero. *)
Definition sql_page {A} (limit offset : Z) (rows : list A) : list A :=
  let rest := drop (Z.to_nat offset) rows in if (limit <? 0)%Z then rest else take (Z.to_nat limit) rest.

(** The parameters reach [intVal] as texts. *)
Definition page_limit (q : audit_query) : Z := Z.min (api_intVal [("limit", AStr (aq_limit q))] "limit" 50) 200.
Definition page_offset (q : audit_query) : Z := api_intVal [("offset", AStr (aq_offset q))] "offset" 0.

Definition audit_json (encode : any -> string) (l : audit_log) : obj :=
  [("action", AStr (al_action l)); ("created_at", AStr (al_created l)); ("detail", AStr (redactDetailString encode (al_detail l)));
   ("entity_id", AStr (al_entity l)); ("entity_type", AStr (al_entity_type l)); ("id", AStr (al_id l)); ("operator_user_id", AStr (al_operator l))].

Definition audit_page (s : session) (members : list (string * string)) (q : audit_query) (logs : list audit_log) : list audit_log :=
  sql_page (page_limit q) (page_offset q) (merge_sort newest_first (List.filter (audit_visible s members q) logs)).

Definition HandleListAuditLogs (encode : any -> string) (caller : option session) (members : list (string * string)) (q : audit_query) (logs : list audit_log) : reply :=
  match caller with
  | None => api_error 401 "unauthorized"
  | Some s =>
      Reply 200 (AMap [("entries", AList (map (fun l => AMap (audit_json encode l)) (audit_page s members q logs)));
                       ("total", AInt (Z.of_nat (length (List.filter (audit_visible s members q) logs))))])
  end.

(** ** Redaction of logs (redact.go) *)

Definition sensitiveKeyFragments : list string :=
  ["KEY"; "TOKEN"; "PASSWORD"; "PASSWD"; "PWD"; "SECRET"; "AUTH"; "CREDENTIAL"; "ACCESS"; "API_KEY"; "APIKEY"; "ACCESS_KEY"; "SECRET_KEY"; "AUTHORIZATION";
   "BEARER"; "HF_TOKEN"; "DASHSCOPE_API_KEY"; "OPENAI_API_KEY"; "AK"; "SK"; "PRIVATE"; "COOKIE"; "SESSION"; "CSRF"].
Definition IsSensitiveKey (key : string) : bool := existsb (Contains (ToUpper key)) sensitiveKeyFragments.

Definition RedactValue (key value : string) : string := if IsSensitiveKey key then "<redacted>" else value.
Definition SanitizeHeaderValue (headerName value : string) : string := if IsSensitiveKey headerName then "<redacted>" else value.
Definition RedactMap (m : option (gmap string string)) : option (gmap string string) := option_map (map_imap (fun k v => Some (RedactValue k v))) m.

Section Ranged.
Context `{MR : MapRange}.
Definition RedactEnvForLog (env : gmap string string) : string := GoStrings.Join (map (fun kv => kv.1 +s+ "=" +s+ RedactValue kv.1 kv.2) (range env)) " ".
Definition RedactEnvKeys (env : gmap string string) : string := GoStrings.Join (map fst (range env)) " ".
End Ranged.

(** ** Facts *)

Lemma WriteAudit_adds id now e logs : exists new, WriteAudit id now e logs = logs ++ new /\ (length new <= 1)%nat.
Proof. unfold WriteAudit. destruct (id_free _ _ _); [eexists; split; [reflexivity|cbn; lia]|exists []; split; [by rewrite app_nil_r|cbn; lia]]. Qed.

(** A caller sees entries whose operator is a member of the own tenant, at most fifty,
    whatever page is asked for: a text is no number to [intVal]. *)
Lemma audit_page_spec s members q logs :
  (length (audit_page s members q logs) <= 50)%nat
  /\ (forall l, l ∈ audit_page s members q logs -> l ∈ logs /\ (s_admin s = false -> (al_operator l, s_tenant s) ∈ members))
  /\ (forall limit offset, audit_page s members {| aq_limit := limit; aq_offset := offset; aq_action := aq_action q; aq_entity_type := aq_entity_type q; aq_entity := aq_entity q |} logs
        = audit_page s members q logs).
Proof.
  split_and!; [..|done].
  - unfold audit_page, sql_page. change (page_limit q) with 50%Z. cbn. rewrite length_take. lia.
  - intros l Hl. unfold audit_page, sql_page in Hl. change (page_limit q) with 50%Z in Hl. cbn in Hl.
    apply subseteq_take in Hl. rewrite merge_sort_Permutation in Hl.
    apply list_elem_of_In, filter_In in Hl as [Hin Hv]. split; [by apply list_elem_of_In|]. intros Ha. unfold audit_visible in Hv. rewrite Ha in Hv.
    apply andb_true_iff in Hv as [[[Hm _]%andb_true_iff _]%andb_true_iff _]. cbn in Hm.
    apply existsb_exists in Hm as ([u t] & Hin' & [E1%String.eqb_eq E2%String.eqb_eq]%andb_true_iff).
    cbn in E1, E2. rewrite <- E1, <- E2. by apply list_elem_of_In.
Qed.

(** A log text of an environment depends on the values of keys that are not sensitive only. *)
Lemma RedactMap_hides m m' :
  (forall k, if IsSensitiveKey k then is_Some (m !! k) <-> is_Some (m' !! k) else m !! k = m' !! k) -> RedactMap (Some m) = RedactMap (Some m').
Proof.
  intros H. cbn. f_equal. apply map_eq. intros k. rewrite !map_lookup_imap. specialize (H k). unfold RedactValue.
  destruct (IsSensitiveKey k); [|by rewrite H]. destruct (m !! k), (m' !! k); try done; [by destruct (proj1 H)|by destruct (proj2 H)].
Qed.

(** ** At concrete inputs *)

Definition secret_entry (result : string) : AuditEntry :=
  {| ae_TenantID := "t1"; ae_ActorID := "u1"; ae_Action := "test"; ae_ResourceType := ""; ae_ResourceID := "r"; ae_Result := result;
     ae_Detail := "{" +s+ String dquote ("token" +s+ String dquote (":1}")); ae_RequestID := ""; ae_OperationID := ""; ae_Error := "" |}.

(** Listing hides the sensitive keys of a detail that is an object; with the result the
    writer puts behind it, the detail is none any more. *)
Example detail_is_no_object :
  (map al_detail (WriteAudit "1" "t" (secret_entry "success") []), map (fun r => redactDetailString (fun _ => "hidden") (fullDetail (secret_entry r))) [""; "success"])
  = (["{" +s+ String dquote ("token" +s+ String dquote (":1} result=success"))], ["hidden"; "{" +s+ String dquote ("token" +s+ String dquote (":1} result=success"))]).
Proof. vm_compute. reflexivity. Qed.
