(* ===== verification/Artifacts.v ===== *)
(** * Model artifacts, their locations and the model roots of nodes (internal/server/api: artifact_handlers.go, model_location_handlers.go, model_browser_handlers.go)

    An artifact is a model as the console names it; a location is the place of its files
    on a node; a model root is a directory of a node below which files may be named.  The
    column [capability_set_json] is its decoded document.  [text_integer] is the integer
    the INTEGER column of SQLite makes of a text, [real_text] the text a TEXT column makes
    of a real; [EvalSymlinks] and [Stat] read the file system of the server. *)
From S2P Require Import Prelude GoStrings GoNumbers GoValue GoJson RuntimeContract RunPlanTypes ResolverArgs ResolverMounts ModelPaths ConfigSets.
From S2P Require Import Store Deployments Preflight NodeRuntimes AuditLog Backends.
From Stdlib Require Import Ascii.
From stdpp Require Import sorting.

(** ** path/filepath *)

Definition path_base (p : string) : string :=
  if p =s "" then "." else match TrimRight p slash with EmptyString => "/" | t => filepathBase t end.

Definition path_dir (p : string) : string := Clean (str_take (Z.to_nat (LastIndex p slash + 1)) p).

(** What is left of two lists behind their common front. *)
Fixpoint behind_common (a b : list string) : list string * list string :=
  match a, b with
  | x :: a', y :: b' => if x =s y then behind_common a' b' else (a, b)
  | _, _ => (a, b)
  end.

(** [filepath.Rel]; [None] is its error. *)
Definition path_rel (base target : string) : option string :=
  let base := Clean base in
  let target := Clean target in
  if target =s base then Some "."
  else if negb (Bool.eqb (IsAbs base) (IsAbs target)) then None
  else
    let '(ups, rest) := behind_common (if base =s "." then [] else FieldsFunc base is_slash) (FieldsFunc target is_slash) in
    match ups with
    | ".." :: _ => None
    | _ => Some (GoStrings.Join (map (fun _ => "..") ups ++ rest) "/")
    end.

(** ** Rows *)

(** An integer column: [None] is a value that does not scan into an integer. *)
Record model_artifact := {
  ma_id : string; ma_name : string; ma_display : string; ma_source : string; ma_path : string; ma_format : string; ma_task : string;
  ma_architecture : string; ma_size : string; ma_quantization : string; ma_context : option Z; ma_vram : option Z; ma_gpus : option Z;
  ma_capabilities : obj; ma_test_mode : string; ma_tenant : string; ma_created : string; ma_updated : string
}.

Record model_location := {
  ml_id : string; ml_artifact : string; ml_node : string; ml_path_type : string; ml_root : string; ml_relative : string; ml_absolute : string;
  ml_size : Z; ml_checksum : string; ml_digest : string; ml_metadata : any; ml_match : string; ml_verification : string; ml_override : bool;
  ml_reason : string; ml_by : string; ml_override_at : string; ml_scanned : string; ml_error : string; ml_tenant : string; ml_created : string; ml_updated : string
}.

Record nodeModelRoot := {
  mo_ID : string; mo_NodeID : string; mo_Path : string; mo_Status : string; mo_Source : string; mo_Description : string; mo_CreatedBy : string;
  mo_TenantID : string; mo_LastCheckedAt : option string; mo_LastError : string; mo_CreatedAt : string; mo_UpdatedAt : string
}.

Record artifact_db := { ax_artifacts : list model_artifact; ax_locations : list model_location; ax_roots : list nodeModelRoot; ax_audits : list audit_log }.

Definition with_artifacts (f : list model_artifact -> list model_artifact) (db : artifact_db) : artifact_db :=
  {| ax_artifacts := f (ax_artifacts db); ax_locations := ax_locations db; ax_roots := ax_roots db; ax_audits := ax_audits db |}.
Definition with_locations (f : list model_location -> list model_location) (db : artifact_db) : artifact_db :=
  {| ax_artifacts := ax_artifacts db; ax_locations := f (ax_locations db); ax_roots := ax_roots db; ax_audits := ax_audits db |}.
Definition with_roots (f : list nodeModelRoot -> list nodeModelRoot) (db : artifact_db) : artifact_db :=
  {| ax_artifacts := ax_artifacts db; ax_locations := ax_locations db; ax_roots := f (ax_roots db); ax_audits := ax_audits db |}.
Definition with_audits (f : list audit_log -> list audit_log) (db : artifact_db) : artifact_db :=
  {| ax_artifacts := ax_artifacts db; ax_locations := ax_locations db; ax_roots := ax_roots db; ax_audits := f (ax_audits db) |}.

Definition find_artifact (db : artifact_db) (id : string) : option model_artifact := by_id ma_id id (ax_artifacts db).
Definition find_location (db : artifact_db) (id : string) : option model_location := by_id ml_id id (ax_locations db).
Definition find_root (db : artifact_db) (id : string) : option nodeModelRoot := by_id mo_ID id (ax_roots db).

(** What the handlers read of the other tables: the nodes, the artifacts of deployments,
    the artifact and node of every pending, starting or running instance. *)
Record around := { ar_nodes : list node_row; ar_deployed : list string; ar_active : list (string * string) }.

(** What comes with a request: its session, the times, new identifiers. *)
Record call := { ca_session : session; ca_now : string; ca_utc : string; ca_id : string; ca_id2 : string; ca_audit : string; ca_request : string }.

Definition node_tenant (e : around) (nodeID : string) : option string := option_map n_tenant (by_id n_id nodeID (ar_nodes e)).

(** *** Constraints *)

Definition artifact_refused (r : model_artifact) (others : list model_artifact) : option string :=
  if existsb (fun o => ma_name o =s ma_name r) others then Some (unique_text "model_artifacts.name") else None.

Definition location_taken (r : model_location) (others : list model_location) : option string :=
  if existsb (fun o => (ml_artifact o =s ml_artifact r) && (ml_node o =s ml_node r) && (ml_absolute o =s ml_absolute r)) others
  then Some (unique_text "model_locations.model_artifact_id, model_locations.node_id, model_locations.absolute_path") else None.

Definition location_refused (e : around) (db : artifact_db) (r : model_location) (others : list model_location) : option string :=
  match location_taken r others with
  | Some err => Some err
  | None => match find_artifact db (ml_artifact r), node_tenant e (ml_node r) with Some _, Some _ => None | _, _ => Some foreign_text end
  end.

Definition root_refused (e : around) (r : nodeModelRoot) (others : list nodeModelRoot) : option string :=
  if existsb (fun o => (mo_NodeID o =s mo_NodeID r) && (mo_Path o =s mo_Path r)) others then Some (unique_text "node_model_roots.node_id, node_model_roots.path")
  else match node_tenant e (mo_NodeID r) with Some _ => None | None => Some foreign_text end.

Definition write_artifact (creating : bool) (r : model_artifact) (db : artifact_db) : string + artifact_db :=
  match write_row ma_id artifact_refused creating r (ax_artifacts db) with
  | inl e => inl e
  | inr rows => inr (with_artifacts (fun _ => rows) db)
  end.
Definition insert_location (e : around) (r : model_location) (db : artifact_db) : string + artifact_db :=
  match write_row ml_id (location_refused e db) true r (ax_locations db) with
  | inl e => inl e
  | inr rows => inr (with_locations (fun _ => rows) db)
  end.
Definition update_location (r : model_location) (db : artifact_db) : string + artifact_db :=
  match write_row ml_id location_taken false r (ax_locations db) with
  | inl e => inl e
  | inr rows => inr (with_locations (fun _ => rows) db)
  end.

(** ** Views *)

Definition location_json (l : model_location) : obj :=
  [("absolute_path", AStr (ml_absolute l)); ("checksum", AStr (ml_checksum l)); ("created_at", AStr (ml_created l)); ("discovered_metadata_json", ml_metadata l);
   ("id", AStr (ml_id l)); ("last_error", AStr (ml_error l)); ("last_scanned_at", AStr (ml_scanned l)); ("manifest_digest", AStr (ml_digest l));
   ("manual_override", ABool (ml_override l)); ("match_status", AStr (ml_match l)); ("model_artifact_id", AStr (ml_artifact l)); ("model_root", AStr (ml_root l));
   ("node_id", AStr (ml_node l)); ("override_at", AStr (ml_override_at l)); ("override_by", AStr (ml_by l)); ("override_reason", AStr (ml_reason l));
   ("path_type", AStr (ml_path_type l)); ("relative_path", AStr (ml_relative l)); ("size_bytes", AInt64 (ml_size l)); ("tenant_id", AStr (ml_tenant l));
   ("updated_at", AStr (ml_updated l)); ("verification_status", AStr (ml_verification l))].

(** ORDER BY node_id, absolute_path *)
Definition location_order (a b : model_location) : Prop :=
  Is_true (if ml_node a =s ml_node b then String.leb (ml_absolute a) (ml_absolute b) else String.leb (ml_node a) (ml_node b)).
#[export] Instance location_order_dec : RelDecision location_order.
Proof. intros a b. unfold location_order. apply _. Defined.

Definition locations_json (db : artifact_db) (artifactID : string) : any :=
  AList (map (fun l => AMap (location_json l)) (merge_sort location_order (List.filter (fun l => ml_artifact l =s artifactID) (ax_locations db)))).

Definition nilToDefault (v def : any) : any := if is_nil v then def else v.

(** [None]: the row does not scan. *)
Definition artifact_json (db : artifact_db) (a : model_artifact) : option obj :=
  context ← ma_context a; vram ← ma_vram a; gpus ← ma_gpus a;
  let set := ma_capabilities a in
  Some [("architecture", AStr (ma_architecture a)); ("capabilities", nilToDefault (get_any set "capabilities") (AList [])); ("capability_set", AMap set);
        ("capability_sources", nilToDefault (get_any set "capability_sources") (AMap [])); ("created_at", AStr (ma_created a));
        ("default_context_length", AInt context); ("default_test_mode", AStr (ma_test_mode a)); ("display_name", AStr (ma_display a));
        ("estimated_vram_bytes", AInt64 vram); ("format", AStr (ma_format a)); ("id", AStr (ma_id a)); ("locations", locations_json db (ma_id a));
        ("name", AStr (ma_name a)); ("parameter_defaults", nilToDefault (get_any set "parameter_defaults") (AList [])); ("path", AStr (ma_path a));
        ("quantization", AStr (ma_quantization a)); ("required_gpu_count", AInt gpus); ("size_label", AStr (ma_size a)); ("source_type", AStr (ma_source a));
        ("task_type", AStr (ma_task a)); ("tenant_id", AStr (ma_tenant a)); ("updated_at", AStr (ma_updated a))].

(** The row with its view. *)
Definition getArtifactJSON (db : artifact_db) (id : string) : option (model_artifact * obj) :=
  a ← find_artifact db id; m ← artifact_json db a; Some (a, m).

Definition artifact_reply (code : Z) (id : string) (db : artifact_db) : reply :=
  Reply code (match getArtifactJSON db id with Some (_, m) => AMap m | None => ANil end).
Definition location_reply (code : Z) (id : string) (db : artifact_db) : reply :=
  Reply code (match find_location db id with Some l => AMap (location_json l) | None => ANil end).

(** Rows that do not scan are left out. *)
Definition HandleListArtifacts (s : session) (db : artifact_db) : reply :=
  let rows := merge_sort (text_le ma_name) (List.filter (fun a => s_admin s || (ma_tenant a =s s_tenant s)) (ax_artifacts db)) in
  Reply 200 (AList (map AMap (omap (artifact_json db) rows))).

Definition HandleGetArtifact (s : session) (id : string) (db : artifact_db) : reply :=
  match getArtifactJSON db id with
  | None => not_found
  | Some (a, m) => if (ma_tenant a <>s "") && negb (tenantScopeCheck s (ma_tenant a)) then not_found else Reply 200 (AMap m)
  end.

Definition HandleGetModelCapabilityEnums : reply :=
  Reply 200 (AMap [("capabilities", AStrs AllCapabilities); ("formats", AStrs AllFormats); ("tasks", AStrs AllTasks); ("test_modes", AStrs AllTestModes)]).

(** ** Requests of artifacts *)

Definition allowedCapabilities : list string :=
  [CapabilityChat; CapabilityCompletion; CapabilityEmbedding; CapabilityRerank; CapabilityVision; CapabilityToolCalling; CapabilityStructuredOutput].
Definition allowedTaskTypes : list string := [TaskChat; TaskCompletion; TaskEmbedding; TaskRerank; TaskVisionChat; TaskAdapter; TaskUnknown].
Definition allowedTestModes : list string := [TestModeAuto; TestModeChat; TestModeCompletion; TestModeEmbedding; TestModeRerank].
Definition allowed (s : string) (l : list string) : bool := existsb (String.eqb s) l.

Definition validateCapabilitiesJSON (raw : any) : string + list any :=
  match raw with
  | AList arr =>
      match List.find (fun v => match v with AStr s => negb (allowed s allowedCapabilities) | _ => true end) arr with
      | Some v => inl ("invalid capability: " +s+ fmt_v v)
      | None => inr arr
      end
  | _ => inl "capabilities must be a JSON array"
  end.

Definition validateDefaultTestMode (v : string) : option string :=
  if v =s "" then None
  else if negb (allowed v allowedTestModes)
  then Some ("invalid default_test_mode: " +s+ v +s+ " (allowed: auto, chat, completion, embedding, rerank)")
  else None.

(** Sources that were guessed become the user's. *)
Definition replaceable (source : option any) : bool :=
  match source with None => true | Some (AStr s) => (s =s "inferred") || (s =s "scan") || (s =s "") | Some _ => false end.

Definition normalizeCapabilitySources (capabilities : list any) (sources : obj) : obj :=
  foldl (fun sources c => match c with
                          | AStr key => if replaceable (obj_get sources key) then obj_set key (AStr "user_override") sources else sources
                          | _ => sources
                          end) sources capabilities.

Definition list_or_empty (v : any) : any := match v with AList l => AList l | _ => AList [] end.
Definition map_or_empty (v : any) : any := match v with AMap m => AMap m | _ => AMap [] end.

Definition artifactCapabilitySet (req : obj) : obj :=
  [("capabilities", list_or_empty (get_any req "capabilities")); ("capability_sources", map_or_empty (get_any req "capability_sources"));
   ("parameter_defaults", list_or_empty (get_any req "parameter_defaults")); ("schema_version", AInt 1); ("source", AStr "model_artifact")].

(** The document of a column a map was written to. *)
Definition stored_obj (m : obj) : obj := default [] (as_map (stored (AMap m))).

(** The row of a request, with the defaults of the handlers. *)
Definition requested_artifact (c : call) (name path : string) (req : obj) : model_artifact :=
  {| ma_id := ca_id c; ma_name := name; ma_display := obj_strVal req "display_name" name; ma_source := obj_strVal req "source_type" "local_path";
     ma_path := path; ma_format := obj_strVal req "format" "custom"; ma_task := obj_strVal req "task_type" "chat";
     ma_architecture := obj_strVal req "architecture" "custom"; ma_size := obj_strVal req "size_label" ""; ma_quantization := obj_strVal req "quantization" "unknown";
     ma_context := Some (api_intVal req "default_context_length" 0); ma_vram := Some (api_intVal req "estimated_vram_bytes" 0);
     ma_gpus := Some (api_intVal req "required_gpu_count" 1); ma_capabilities := stored_obj (artifactCapabilitySet req);
     ma_test_mode := obj_strVal req "default_test_mode" "auto"; ma_tenant := s_tenant (ca_session c); ma_created := ca_now c; ma_updated := ca_now c |}.

Definition gguf_directory : reply := api_error 400 "GGUF format requires a .gguf file path, not a directory".
Definition internal_error : reply := api_error 500 "internal error".

Definition HandleCreateArtifact (c : call) (body : option obj) (db : artifact_db) : reply * artifact_db :=
  match body with
  | None => (api_error 400 "invalid request", db)
  | Some req =>
      let name := obj_strVal req "name" "" in
      let path := obj_strVal req "path" "" in
      let taskType := obj_strVal req "task_type" "chat" in
      if name =s "" then (api_error 400 "name required", db)
      else if path =s "" then (api_error 400 "path required", db)
      else if (obj_strVal req "format" "custom" =s "gguf") && negb (Contains path ".gguf") then (gguf_directory, db)
      else if negb (allowed taskType allowedTaskTypes) then (api_error 400 ("invalid task_type: " +s+ taskType), db)
      else match write_artifact true (requested_artifact c name path req) db with
           | inl _ => (internal_error, db)
           | inr db' => (artifact_reply 201 (ca_id c) db', db')
           end
  end.

(** *** Patching *)

Section Columns.
Context (real_text : float64 -> string) (text_integer : string -> option Z).

(** A real becomes an integer when nothing is lost. *)
Definition real_integer (f : float64) : option Z :=
  z ← in_integer f; if (min_int64 <? z)%Z && (z <? max_int64)%Z then Some z else None.

(** A value written to an integer column; [None]: the driver or the column refuses it. *)
Definition integer_column (v : any) : option (option Z) :=
  match v with
  | ABool b => Some (Some (if b then 1 else 0)%Z)
  | AInt z | AInt64 z => Some (Some z)
  | AFloat f => Some (real_integer f)
  | AStr s => Some (text_integer s)
  | _ => None
  end.

Definition patched_integer (old : option Z) (v : option any) : option (option Z) := match v with None => Some old | Some v => integer_column v end.

(** The capability set a patch leaves, or why it is refused; [sources]: those shown before. *)
Definition patch_capabilities (set : obj) (sources : any) (req : obj) : string + obj :=
  match obj_get req "capabilities" with
  | Some raw =>
      match validateCapabilitiesJSON raw with
      | inl e => inl e
      | inr caps =>
          let set := obj_set "capabilities" (AList caps) set in
          inr match default sources (obj_get req "capability_sources") with
              | AMap m => obj_set "capability_sources" (AMap (normalizeCapabilitySources caps m)) set
              | _ => set
              end
      end
  | None => inr match obj_get req "capability_sources" with Some v => obj_set "capability_sources" v set | None => set end
  end.

Definition patch_defaults (req set : obj) : obj :=
  match obj_get req "parameter_defaults" with Some v => obj_set "parameter_defaults" v set | None => set end.

Definition names_capabilities (req : obj) : bool := existsb (has_key req) ["capabilities"; "capability_sources"; "parameter_defaults"].

(** The columns of the UPDATE. *)
Definition patched_artifact (a : model_artifact) (req : obj) (set : obj) (now : string) : option model_artifact :=
  let text key old := patched_text real_text old (obj_get req key) in
  let number key old := patched_integer old (obj_get req key) in
  display ← text "display_name" (ma_display a); path ← text "path" (ma_path a); format ← text "format" (ma_format a);
  source ← text "source_type" (ma_source a); task ← text "task_type" (ma_task a); architecture ← text "architecture" (ma_architecture a);
  size ← text "size_label" (ma_size a); quantization ← text "quantization" (ma_quantization a);
  context ← number "default_context_length" (ma_context a); gpus ← number "required_gpu_count" (ma_gpus a); vram ← number "estimated_vram_bytes" (ma_vram a);
  Some {| ma_id := ma_id a; ma_name := ma_name a; ma_display := display; ma_source := source; ma_path := path; ma_format := format; ma_task := task;
          ma_architecture := architecture; ma_size := size; ma_quantization := quantization; ma_context := context; ma_vram := vram; ma_gpus := gpus;
          ma_capabilities := (if names_capabilities req then stored_obj (patch_defaults req set) else ma_capabilities a);
          ma_test_mode := (match obj_get req "default_test_mode" with Some _ => obj_strVal req "default_test_mode" "" | None => ma_test_mode a end);
          ma_tenant := ma_tenant a; ma_created := ma_created a; ma_updated := now |}.

(** A task type that is a text must be allowed. *)
Definition task_refusal (req : obj) : option reply :=
  match obj_get req "task_type" with
  | Some (AStr s) => if allowed s allowedTaskTypes then None else Some (api_error 400 ("invalid task_type: " +s+ s))
  | _ => None
  end.

Definition HandlePatchArtifact (c : call) (id : string) (body : option obj) (db : artifact_db) : reply * artifact_db :=
  match getArtifactJSON db id with
  | None => (not_found, db)
  | Some (a, m) =>
      if negb (tenantScopeCheck (ca_session c) (ma_tenant a)) then (not_found, db)
      else match body with
      | None => (api_error 400 "invalid request", db)
      | Some req =>
          if (obj_strVal req "format" (ma_format a) =s "gguf") && negb (Contains (obj_strVal req "path" (ma_path a)) ".gguf") then (gguf_directory, db)
          else match task_refusal req, patch_capabilities (ma_capabilities a) (get_any m "capability_sources") req,
                     validateDefaultTestMode (obj_strVal req "default_test_mode" "") with
          | Some refusal, _, _ => (refusal, db)
          | None, inl e, _ | None, inr _, Some e => (api_error 400 e, db)
          | None, inr set, None =>
              match patched_artifact a req set (ca_now c) with
              | None => (internal_error, db)
              | Some a' => match write_artifact false a' db with
                           | inl _ => (internal_error, db)
                           | inr db' => (artifact_reply 200 id db', db')
                           end
              end
          end
      end
  end.
End Columns.

Definition deleted : reply := Reply 200 (AMap [("status", AStr "deleted")]).

(** The locations go with the artifact, in one transaction. *)
Definition HandleDeleteArtifact (c : call) (e : around) (id : string) (db : artifact_db) : reply * artifact_db :=
  match getArtifactJSON db id with
  | None => (not_found, db)
  | Some (a, _) =>
      if negb (tenantScopeCheck (ca_session c) (ma_tenant a)) then (not_found, db)
      else if allowed id (ar_deployed e) then (api_error 409 "model artifact is still referenced by deployments", db)
      else (deleted, with_artifacts (delete_where (fun a => ma_id a =s id)) (with_locations (delete_where (fun l => ml_artifact l =s id)) db))
  end.

(** ** Discovered models *)

Definition discovered_location (c : call) (path : string) (req : obj) : model_location :=
  {| ml_id := ca_id2 c; ml_artifact := ca_id c; ml_node := obj_strVal req "node_id" ""; ml_path_type := obj_strVal req "path_type" "directory";
     ml_root := path_dir path; ml_relative := path_base path; ml_absolute := path; ml_size := 0; ml_checksum := ""; ml_digest := ""; ml_metadata := AMap [];
     ml_match := "exact_match"; ml_verification := "verified"; ml_override := false; ml_reason := ""; ml_by := ""; ml_override_at := "";
     ml_scanned := ca_now c; ml_error := ""; ml_tenant := s_tenant (ca_session c); ml_created := ca_now c; ml_updated := ca_now c |}.

(** Both rows, or none. *)
Definition HandleDiscoverArtifact (c : call) (e : around) (body : option obj) (db : artifact_db) : reply * artifact_db :=
  match body with
  | None => (api_error 400 "invalid request", db)
  | Some req =>
      let path := obj_strVal req "path" "" in
      let name := obj_strVal req "name" (path_base path) in
      if (obj_strVal req "node_id" "" =s "") || (path =s "") then (api_error 400 "node_id and path are required", db)
      else if name =s "" then (api_error 400 "name is required", db)
      else match write_artifact true (requested_artifact c name path req) db with
           | inl _ => (internal_error, db)
           | inr db1 => match insert_location e (discovered_location c path req) db1 with
                        | inl _ => (internal_error, db)
                        | inr db2 => (artifact_reply 201 (ca_id c) db2, db2)
                        end
           end
  end.

(** ** Model roots *)

(** ORDER BY path *)
Definition listNodeModelRoots (db : artifact_db) (nodeID : string) (includeDisabled : bool) : list nodeModelRoot :=
  merge_sort (text_le mo_Path) (List.filter (fun r => (mo_NodeID r =s nodeID) && (includeDisabled || (mo_Status r =s "enabled"))) (ax_roots db)).

Definition resolveNodeModelRoot (db : artifact_db) (nodeID rootID rootPath : string) : option nodeModelRoot :=
  let clean := Clean (TrimSpace rootPath) in
  List.find (fun r => (mo_NodeID r =s nodeID) && (mo_Status r =s "enabled") && (if rootID <>s "" then mo_ID r =s rootID else mo_Path r =s clean)) (ax_roots db).

Definition root_json (r : nodeModelRoot) : obj :=
  [("created_at", AStr (mo_CreatedAt r)); ("created_by", AStr (mo_CreatedBy r)); ("description", AStr (mo_Description r)); ("id", AStr (mo_ID r));
   ("label", AStr (mo_Path r)); ("last_checked_at", AStr (default "" (mo_LastCheckedAt r))); ("last_error", AStr (mo_LastError r));
   ("node_id", AStr (mo_NodeID r)); ("path", AStr (mo_Path r)); ("root", AStr (mo_Path r)); ("source", AStr (mo_Source r)); ("status", AStr (mo_Status r));
   ("tenant_id", AStr (mo_TenantID r)); ("updated_at", AStr (mo_UpdatedAt r))].

(** The zero value. *)
Definition no_root : nodeModelRoot :=
  {| mo_ID := ""; mo_NodeID := ""; mo_Path := ""; mo_Status := ""; mo_Source := ""; mo_Description := ""; mo_CreatedBy := ""; mo_TenantID := "";
     mo_LastCheckedAt := None; mo_LastError := ""; mo_CreatedAt := ""; mo_UpdatedAt := "" |}.

(** The row as it is found again; the error of a disabled one is dropped. *)
Definition root_reply (code : Z) (nodeID rootID : string) (db : artifact_db) : reply :=
  Reply code (AMap (root_json (default no_root (resolveNodeModelRoot db nodeID rootID "")))).

(** [CheckNodeTenant], [CheckModelRootTenant], [CheckModelLocationTenant] *)
Definition check_tenant (s : session) (tenant : option string) : bool :=
  s_admin s || match tenant with Some t => t =s s_tenant s | None => false end.
Definition check_node (s : session) (e : around) (nodeID : string) : bool := check_tenant s (node_tenant e nodeID).
Definition check_root (s : session) (db : artifact_db) (rootID : string) : bool := check_tenant s (option_map mo_TenantID (find_root db rootID)).
Definition check_location (s : session) (db : artifact_db) (id : string) : bool := check_tenant s (option_map ml_tenant (find_location db id)).

Definition HandleListNodeModelRoots (s : session) (e : around) (nodeID : string) (include_disabled : bool) (db : artifact_db) : reply :=
  if negb (check_node s e nodeID) then not_found
  else match node_tenant e nodeID with
  | None => api_error 404 "node not found"
  | Some _ => Reply 200 (AList (map (fun r => AMap (root_json r)) (listNodeModelRoots db nodeID include_disabled)))
  end.

Definition HandleListNodeModelBrowserRoots (nodeID : string) (db : artifact_db) : reply :=
  Reply 200 (AMap [("extra_roots", AStrs (map mo_Path (listNodeModelRoots db nodeID false)))]).

Definition actorIDFromSession (s : session) : string := if s_user s <>s "" then s_user s else "system".

Definition root_audit (c : call) (tenant action kind id result detail error : string) (db : artifact_db) : artifact_db :=
  with_audits (WriteAudit (ca_audit c) (ca_utc c)
    {| ae_TenantID := tenant; ae_ActorID := actorIDFromSession (ca_session c); ae_Action := action; ae_ResourceType := kind; ae_ResourceID := id;
       ae_Result := result; ae_Detail := detail; ae_RequestID := ca_request c; ae_OperationID := ""; ae_Error := error |}) db.

Definition root_error_text (e : root_error) : string :=
  match e with
  | RootRequired => "model root is required" | RootNotAbsolute => "model root must be an absolute path" | RootDenied => "model root is not allowed"
  | RootMissing => "model root does not exist" | RootNotDirectory => "model root must be a directory"
  end.

Definition root_with (status : string) (description : option string) (now : string) (r : nodeModelRoot) : nodeModelRoot :=
  {| mo_ID := mo_ID r; mo_NodeID := mo_NodeID r; mo_Path := mo_Path r; mo_Status := status; mo_Source := mo_Source r;
     mo_Description := default (mo_Description r) description; mo_CreatedBy := mo_CreatedBy r; mo_TenantID := mo_TenantID r;
     mo_LastCheckedAt := mo_LastCheckedAt r; mo_LastError := mo_LastError r; mo_CreatedAt := mo_CreatedAt r; mo_UpdatedAt := now |}.
Definition update_root (id status : string) (description : option string) (now : string) : artifact_db -> artifact_db :=
  with_roots (update_where (fun r => mo_ID r =s id) (root_with status description now)).

Section FileSystem.
Context (EvalSymlinks : string -> option string) (Stat : string -> option bool).

Definition new_root (c : call) (nodeID path tenant : string) (req : obj) : nodeModelRoot :=
  {| mo_ID := ca_id c; mo_NodeID := nodeID; mo_Path := path; mo_Status := "enabled"; mo_Source := obj_strVal req "source" "user";
     mo_Description := obj_strVal req "description" ""; mo_CreatedBy := actorIDFromSession (ca_session c); mo_TenantID := tenant;
     mo_LastCheckedAt := Some (ca_utc c); mo_LastError := ""; mo_CreatedAt := ca_utc c; mo_UpdatedAt := ca_utc c |}.

(** A path that is there already is enabled again. *)
Definition HandleAddNodeModelRoot (c : call) (e : around) (nodeID : string) (body : option obj) (db : artifact_db) : reply * artifact_db :=
  if negb (check_node (ca_session c) e nodeID) then (not_found, db)
  else match node_tenant e nodeID, body with
  | None, _ => (api_error 404 "node not found", db)
  | Some _, None => (api_error 400 "invalid request", db)
  | Some tid, Some req =>
      match normalizeAllowedModelRoot EvalSymlinks Stat (obj_strVal req "path" (obj_strVal req "root" "")) with
      | inr err => (api_error 400 (root_error_text err), root_audit c tid "node_model_root.add" "node" nodeID "failure" "" (root_error_text err) db)
      | inl clean =>
          match write_row mo_ID (root_refused e) true (new_root c nodeID clean tid req) (ax_roots db) with
          | inr rows =>
              let db' := root_audit c tid "node_model_root.add" "node_model_root" (ca_id c) "success" ("node_id=" +s+ nodeID +s+ " path=" +s+ clean) ""
                           (with_roots (fun _ => rows) db) in
              (root_reply 201 nodeID (ca_id c) db', db')
          | inl err =>
              if negb (Contains (ToLower err) "unique") then (internal_error, db)
              else match List.find (fun r => (mo_NodeID r =s nodeID) && (mo_Path r =s clean)) (ax_roots db) with
              | None => (api_error 409 "model root already exists", db)
              | Some r =>
                  let db' := update_root (mo_ID r) "enabled" (Some (obj_strVal req "description" "")) (ca_utc c) db in
                  (root_reply 200 nodeID (mo_ID r) db', db')
              end
          end
      end
  end.
End FileSystem.

Definition HandlePatchNodeModelRoot (c : call) (nodeID rootID : string) (body : option obj) (db : artifact_db) : reply * artifact_db :=
  if negb (check_root (ca_session c) db rootID) then (not_found, db)
  else match resolveNodeModelRoot db nodeID rootID "", body with
  | None, _ => (not_found, db)
  | Some _, None => (api_error 400 "invalid request", db)
  | Some root, Some req =>
      let status := obj_strVal req "status" (mo_Status root) in
      if (status <>s "enabled") && (status <>s "disabled") then (api_error 400 "invalid status", db)
      else
        let db' := root_audit c (mo_TenantID root) "node_model_root.patch" "node_model_root" rootID "success" ("status=" +s+ status) ""
                     (update_root rootID status (Some (obj_strVal req "description" (mo_Description root))) (ca_utc c) db) in
        (root_reply 200 nodeID rootID db', db')
  end.

(** A root of the configuration is only disabled. *)
Definition HandleDeleteNodeModelRoot (c : call) (nodeID rootID : string) (db : artifact_db) : reply * artifact_db :=
  if negb (check_root (ca_session c) db rootID) then (not_found, db)
  else match resolveNodeModelRoot db nodeID rootID "" with
  | None => (not_found, db)
  | Some root =>
      if existsb (fun l => (ml_node l =s nodeID) && (ml_root l =s mo_Path root)) (ax_locations db)
      then (api_error 409 "model root is still referenced by model locations", db)
      else
        let db' := if mo_Source root =s "config" then update_root rootID "disabled" None (ca_utc c) db
                   else with_roots (delete_where (fun r => mo_ID r =s rootID)) db in
        (deleted, root_audit c (mo_TenantID root) "node_model_root.delete" "node_model_root" rootID "success" ("path=" +s+ mo_Path root) "" db')
  end.

Definition HandleDeleteNodeModelBrowserRoot (c : call) (nodeID rootPath : string) (db : artifact_db) : reply * artifact_db :=
  match resolveNodeModelRoot db nodeID "" rootPath with
  | None => (not_found, db)
  | Some root => HandleDeleteNodeModelRoot c nodeID (mo_ID root) db
  end.

(** ** Locations *)

(** Root, relative and absolute path of a request. *)
Definition resolveModelLocationRequestPath (db : artifact_db) (nodeID : string) (req : obj) : string + (string * string * string) :=
  let rootID := obj_strVal req "root_id" "" in
  let rootPath := obj_strVal req "model_root" (obj_strVal req "root" "") in
  let resolve rootID rootPath relativePath :=
    match resolveNodeModelRoot db nodeID rootID rootPath with
    | None => inl "root not allowed"
    | Some root =>
        match safeRelativePath relativePath with
        | None => inl "path traversal blocked"
        | Some rel =>
            let abs := Clean (Join2 (mo_Path root) rel) in
            if negb (pathWithinRoot abs (mo_Path root)) then inl "path traversal blocked" else inr (mo_Path root, rel, abs)
        end
    end in
  if (rootID =s "") && (rootPath =s "") then
    let absolutePath := Clean (obj_strVal req "absolute_path" (obj_strVal req "path" "")) in
    if (absolutePath =s ".") || (absolutePath =s "") then inl "root_id or model_root and relative_path are required"
    else match List.find (fun root => pathWithinRoot absolutePath (mo_Path root)) (listNodeModelRoots db nodeID false) with
    | None => resolve rootID rootPath (obj_strVal req "relative_path" "")
    | Some root => match path_rel (mo_Path root) absolutePath with
                   | None => inl "path traversal blocked"
                   | Some rel => resolve (mo_ID root) (mo_Path root) rel
                   end
    end
  else resolve rootID rootPath (obj_strVal req "relative_path" "").

Definition new_location (c : call) (artifact : model_artifact) (nodeID modelRoot relativePath absolutePath : string) (req : obj) : model_location :=
  {| ml_id := ca_id c; ml_artifact := ma_id artifact; ml_node := nodeID; ml_path_type := obj_strVal req "path_type" "directory"; ml_root := modelRoot;
     ml_relative := relativePath; ml_absolute := absolutePath; ml_size := api_intVal req "size_bytes" 0; ml_checksum := obj_strVal req "checksum" "";
     ml_digest := obj_strVal req "manifest_digest" ""; ml_metadata := stored (get_any req "discovered_metadata_json");
     ml_match := obj_strVal req "match_status" "exact_match"; ml_verification := obj_strVal req "verification_status" "verified";
     ml_override := obj_boolVal req "manual_override" false; ml_reason := ""; ml_by := ""; ml_override_at := ""; ml_scanned := ca_now c; ml_error := "";
     ml_tenant := ma_tenant artifact; ml_created := ca_now c; ml_updated := ca_now c |}.

Definition HandleCreateModelLocation (c : call) (e : around) (artifactID : string) (body : option obj) (db : artifact_db) : reply * artifact_db :=
  match getArtifactJSON db artifactID with
  | None => (api_error 404 "model artifact not found", db)
  | Some (artifact, _) =>
      if negb (tenantScopeCheck (ca_session c) (ma_tenant artifact)) then (not_found, db)
      else match body with
      | None => (api_error 400 "invalid request", db)
      | Some req =>
          let nodeID := obj_strVal req "node_id" "" in
          if nodeID =s "" then (api_error 400 "node_id is required", db)
          else match resolveModelLocationRequestPath db nodeID req with
          | inl err => (api_error 400 err, db)
          | inr (modelRoot, relativePath, absolutePath) =>
              if (ma_format artifact =s "gguf") && negb (HasSuffix absolutePath ".gguf")
              then (api_error 400 "GGUF models require a .gguf file path, not a directory. Please select the specific .gguf file.", db)
              else match insert_location e (new_location c artifact nodeID modelRoot relativePath absolutePath req) db with
                   | inl _ => (internal_error, db)
                   | inr db' => (location_reply 201 (ca_id c) db', db')
                   end
          end
      end
  end.

(** The columns an update sets. *)
Definition location_with (root relative absolute match_ verification : string) (override : option (string * string * string)) (scanned : option string) (now : string)
    (l : model_location) : model_location :=
  {| ml_id := ml_id l; ml_artifact := ml_artifact l; ml_node := ml_node l; ml_path_type := ml_path_type l; ml_root := root; ml_relative := relative;
     ml_absolute := absolute; ml_size := ml_size l; ml_checksum := ml_checksum l; ml_digest := ml_digest l; ml_metadata := ml_metadata l; ml_match := match_;
     ml_verification := verification; ml_override := match override with Some _ => true | None => ml_override l end;
     ml_reason := (match override with Some (reason, _, _) => reason | None => ml_reason l end);
     ml_by := (match override with Some (_, by_, _) => by_ | None => ml_by l end);
     ml_override_at := (match override with Some (_, _, t) => t | None => ml_override_at l end);
     ml_scanned := default (ml_scanned l) scanned; ml_error := (match scanned with Some _ => "" | None => ml_error l end);
     ml_tenant := ml_tenant l; ml_created := ml_created l; ml_updated := now |}.

Definition rescanned (now : string) (l : model_location) : model_location :=
  location_with (ml_root l) (ml_relative l) (ml_absolute l) (ml_match l) (ml_verification l) None (Some now) now l.
Definition attested (reason user now : string) (l : model_location) : model_location :=
  location_with (ml_root l) (ml_relative l) (ml_absolute l) "manual_attested" "manually_accepted" (Some (reason, user, now)) None now l.

Definition HandleRescanModelLocation (c : call) (id : string) (db : artifact_db) : reply * artifact_db :=
  if negb (check_location (ca_session c) db id) then (not_found, db)
  else let db' := with_locations (update_where (fun l => ml_id l =s id) (rescanned (ca_now c))) db in (location_reply 200 id db', db').

(** A body that is no object counts as an empty one. *)
Definition HandleAttestModelLocation (c : call) (id : string) (body : option obj) (db : artifact_db) : reply * artifact_db :=
  if negb (check_location (ca_session c) db id) then (not_found, db)
  else
    let reason := obj_strVal (default [] body) "override_reason" "" in
    let db' := with_locations (update_where (fun l => ml_id l =s id) (attested reason (s_user (ca_session c)) (ca_now c))) db in
    (location_reply 200 id db', db').

Section Requests.
Context (real_text : float64 -> string) (text_integer : string -> option Z) (EvalSymlinks : string -> option string) (Stat : string -> option bool).

(** Disabling names a column the table does not have. *)
Definition patched_location (l : model_location) (req : obj) (now : string) : option model_location :=
  let text key old := patched_text real_text old (obj_get req key) in
  verification ← text "verification_status" (ml_verification l); match_ ← text "match_status" (ml_match l); root ← text "model_root" (ml_root l);
  relative ← text "relative_path" (ml_relative l); absolute ← text "absolute_path" (ml_absolute l);
  if obj_boolVal req "disabled" false then None else Some (location_with root relative absolute match_ verification None None now l).

Definition HandlePatchModelLocation (c : call) (id : string) (body : option obj) (db : artifact_db) : reply * artifact_db :=
  match find_location db id with
  | None => (not_found, db)
  | Some l =>
      if negb (tenantScopeCheck (ca_session c) (ml_tenant l)) then (not_found, db)
      else match body with
      | None => (api_error 400 "invalid request", db)
      | Some req =>
          match patched_location l req (ca_now c) with
          | None => (internal_error, db)
          | Some l' => match update_location l' db with
                       | inl _ => (internal_error, db)
                       | inr db' => (location_reply 200 id db', db')
                       end
          end
      end
  end.

Definition HandleDeleteModelLocation (c : call) (e : around) (id : string) (db : artifact_db) : reply * artifact_db :=
  match find_location db id with
  | None => (not_found, db)
  | Some l =>
      if negb (tenantScopeCheck (ca_session c) (ml_tenant l)) then (not_found, db)
      else if existsb (fun p => (p.1 =s ml_artifact l) && (p.2 =s ml_node l)) (ar_active e) then (api_error 409 "model location is used by active instances", db)
      else (deleted, with_locations (delete_where (fun l => ml_id l =s id)) db)
  end.

(** ** Requests as steps *)

Inductive artifact_request :=
| CreateArtifact (body : option obj)
| PatchArtifact (id : string) (body : option obj)
| DeleteArtifact (id : string)
| DiscoverArtifact (body : option obj)
| CreateLocation (artifactID : string) (body : option obj)
| PatchLocation (id : string) (body : option obj)
| DeleteLocation (id : string)
| RescanLocation (id : string)
| AttestLocation (id : string) (body : option obj)
| AddRoot (nodeID : string) (body : option obj)
| PatchRoot (nodeID rootID : string) (body : option obj)
| DeleteRoot (nodeID rootID : string)
| DeleteBrowserRoot (nodeID rootPath : string).

Definition artifact_handle (c : call) (e : around) (rq : artifact_request) (db : artifact_db) : reply * artifact_db :=
  match rq with
  | CreateArtifact body => HandleCreateArtifact c body db
  | PatchArtifact id body => HandlePatchArtifact real_text text_integer c id body db
  | DeleteArtifact id => HandleDeleteArtifact c e id db
  | DiscoverArtifact body => HandleDiscoverArtifact c e body db
  | CreateLocation id body => HandleCreateModelLocation c e id body db
  | PatchLocation id body => HandlePatchModelLocation c id body db
  | DeleteLocation id => HandleDeleteModelLocation c e id db
  | RescanLocation id => HandleRescanModelLocation c id db
  | AttestLocation id body => HandleAttestModelLocation c id body db
  | AddRoot node body => HandleAddNodeModelRoot EvalSymlinks Stat c e node body db
  | PatchRoot node id body => HandlePatchNodeModelRoot c node id body db
  | DeleteRoot node id => HandleDeleteNodeModelRoot c node id db
  | DeleteBrowserRoot node path => HandleDeleteNodeModelBrowserRoot c node path db
  end.

Definition artifact_serve (l : list (call * around * artifact_request)) (db : artifact_db) : artifact_db :=
  foldl (fun db x => (artifact_handle x.1.1 x.1.2 x.2 db).2) db l.
End Requests.

Definition no_artifacts : artifact_db := {| ax_artifacts := []; ax_locations := []; ax_roots := []; ax_audits := [] |}.

(** ** The rows a start reads *)

Definition location_document (encode : any -> string) (l : model_location) : location_doc :=
  {| lo_id := ml_id l; lo_artifact := ml_artifact l; lo_node := ml_node l; lo_path_type := ml_path_type l; lo_root := ml_root l; lo_relative := ml_relative l;
     lo_absolute := ml_absolute l; lo_metadata := encode (ml_metadata l); lo_match := ml_match l; lo_verification := ml_verification l; lo_last_error := ml_error l |}.
