(* ===== verification/ArtifactProps.v ===== *)
(** * Artifacts, locations and model roots: invariant, confinement, tenants

    Every request keeps the keys, references and tenants of the three tables and the roots
    outside the denied directories; a location that is created lies under a root of its
    node; and the rows of a tenant are out of reach of the callers of others. *)
From S2P Require Import Prelude GoStrings GoNumbers GoValue GoJson RuntimeContract RunPlanTypes ResolverArgs ResolverMounts ModelPaths ConfigSets.
From S2P Require Import Store Deployments Preflight NodeRuntimes AuditLog Backends BackendProps Artifacts.
From Stdlib Require Import Ascii.

(** ** What a request does to the tables *)

Definition safe_root (p : string) : Prop :=
  (exists rs, p = abs_path rs /\ Forall plain rs) /\ forall d, d ∈ defaultDeniedModelRoots -> pathWithinRoot p d = false.

Definition root_status (status : string) : Prop := status = "enabled" \/ status = "disabled".

Definition same_place (l l' : model_location) : Prop :=
  ml_id l' = ml_id l /\ ml_artifact l' = ml_artifact l /\ ml_node l' = ml_node l /\ ml_absolute l' = ml_absolute l /\ ml_tenant l' = ml_tenant l.

Inductive tables (s : session) (e : around) (db : artifact_db) : list model_artifact -> list model_location -> list nodeModelRoot -> Prop :=
| NoEffect : tables s e db (ax_artifacts db) (ax_locations db) (ax_roots db)
| NewArtifact r rows : ma_tenant r = s_tenant s -> written ma_id artifact_refused true r (ax_artifacts db) rows -> tables s e db rows (ax_locations db) (ax_roots db)
| EditArtifact old r rows : find_artifact db (ma_id r) = Some old -> tenantScopeCheck s (ma_tenant old) = true -> ma_tenant r = ma_tenant old ->
    written ma_id artifact_refused false r (ax_artifacts db) rows -> tables s e db rows (ax_locations db) (ax_roots db)
| DropArtifact old : find_artifact db (ma_id old) = Some old -> tenantScopeCheck s (ma_tenant old) = true ->
    tables s e db (delete_where (fun a => ma_id a =s ma_id old) (ax_artifacts db)) (delete_where (fun l => ml_artifact l =s ma_id old) (ax_locations db)) (ax_roots db)
| NewPair r l rows lrows : ma_tenant r = s_tenant s -> ml_artifact l = ma_id r -> ml_tenant l = s_tenant s ->
    written ma_id artifact_refused true r (ax_artifacts db) rows -> written ml_id (location_refused e (with_artifacts (fun _ => rows) db)) true l (ax_locations db) lrows ->
    tables s e db rows lrows (ax_roots db)
| NewLocation a l rows : find_artifact db (ml_artifact l) = Some a -> tenantScopeCheck s (ma_tenant a) = true -> ml_tenant l = ma_tenant a ->
    written ml_id (location_refused e db) true l (ax_locations db) rows -> tables s e db (ax_artifacts db) rows (ax_roots db)
| EditLocation old l rows : find_location db (ml_id l) = Some old -> tenantScopeCheck s (ml_tenant old) = true -> ml_artifact l = ml_artifact old ->
    ml_tenant l = ml_tenant old -> written ml_id location_taken false l (ax_locations db) rows -> tables s e db (ax_artifacts db) rows (ax_roots db)
| TouchLocation id f : check_location s db id = true -> (forall l, same_place l (f l)) ->
    tables s e db (ax_artifacts db) (update_where (fun l => ml_id l =s id) f (ax_locations db)) (ax_roots db)
| DropLocation old : find_location db (ml_id old) = Some old -> tenantScopeCheck s (ml_tenant old) = true ->
    tables s e db (ax_artifacts db) (delete_where (fun l => ml_id l =s ml_id old) (ax_locations db)) (ax_roots db)
| NewRoot r rows : safe_root (mo_Path r) -> mo_Status r = "enabled" -> written mo_ID (root_refused e) true r (ax_roots db) rows ->
    tables s e db (ax_artifacts db) (ax_locations db) rows
| EditRoot id status description now : root_status status ->
    tables s e db (ax_artifacts db) (ax_locations db) (update_where (fun r => mo_ID r =s id) (root_with status description now) (ax_roots db))
| DropRoot id : tables s e db (ax_artifacts db) (ax_locations db) (delete_where (fun r => mo_ID r =s id) (ax_roots db)).

Definition does (s : session) (e : around) (db db' : artifact_db) : Prop := tables s e db (ax_artifacts db') (ax_locations db') (ax_roots db').

Lemma does_nothing s e db : does s e db db.
Proof. constructor. Qed.
#[local] Hint Resolve does_nothing : core.

(** The tables after a handler, as they are written. *)
Ltac tables_of := unfold does; cbn [negb snd with_artifacts with_locations with_roots with_audits update_root root_audit ax_artifacts ax_locations ax_roots].

Lemma write_artifact_inv creating r db db' : write_artifact creating r db = inr db' ->
  exists rows, written ma_id artifact_refused creating r (ax_artifacts db) rows /\ db' = with_artifacts (fun _ => rows) db.
Proof.
  unfold write_artifact. destruct (write_row _ _ _ _ _) as [x|rows] eqn:E; [done|]. intros [= <-]. exists rows. split; [by apply write_row_inv|done].
Qed.
Lemma insert_location_inv e l db db' : insert_location e l db = inr db' ->
  exists rows, written ml_id (location_refused e db) true l (ax_locations db) rows /\ db' = with_locations (fun _ => rows) db.
Proof.
  unfold insert_location. destruct (write_row _ _ _ _ _) as [x|rows] eqn:E; [done|]. intros [= <-]. exists rows. split; [by apply write_row_inv|done].
Qed.
Lemma update_location_inv l db db' : update_location l db = inr db' ->
  exists rows, written ml_id location_taken false l (ax_locations db) rows /\ db' = with_locations (fun _ => rows) db.
Proof.
  unfold update_location. destruct (write_row _ _ _ _ _) as [x|rows] eqn:E; [done|]. intros [= <-]. exists rows. split; [by apply write_row_inv|done].
Qed.

Lemma getArtifactJSON_Some db id a m : getArtifactJSON db id = Some (a, m) -> find_artifact db id = Some a /\ ma_id a = id /\ artifact_json db a = Some m.
Proof.
  unfold getArtifactJSON. destruct (find_artifact db id) as [a'|] eqn:E; cbn [mbind option_bind]; [|discriminate].
  destruct (artifact_json db a') as [m'|] eqn:Em; cbn [mbind option_bind]; [|discriminate]. intros [= <- <-]. split_and!; [done| |done].
  by apply by_id_Some in E as [_ ?].
Qed.

Section Effects.
Context (real_text : float64 -> string) (text_integer : string -> option Z) (EvalSymlinks : string -> option string) (Stat : string -> option bool).

Lemma create_artifact_does c e body db : does (ca_session c) e db (HandleCreateArtifact c body db).2.
Proof.
  unfold HandleCreateArtifact. destruct body as [req|]; [|done]. do 4 (case_match; [done|]). destruct (write_artifact _ _ _) eqn:E; [done|].
  apply write_artifact_inv in E as (rows & Hw & ->). tables_of; by eapply NewArtifact; [|exact Hw].
Qed.

Lemma patched_artifact_same a req set now a' : patched_artifact real_text text_integer a req set now = Some a' -> ma_id a' = ma_id a /\ ma_tenant a' = ma_tenant a /\ ma_name a' = ma_name a.
Proof.
  unfold patched_artifact. cbv zeta beta. intros H. repeat (apply bind_Some in H as (? & _ & H)). by injection H as <-.
Qed.

Lemma patch_artifact_does c e id body db : does (ca_session c) e db (HandlePatchArtifact real_text text_integer c id body db).2.
Proof.
  unfold HandlePatchArtifact. destruct (getArtifactJSON db id) as [[a m]|] eqn:Eg; [|done]. apply getArtifactJSON_Some in Eg as (Hf & Hid & _).
  destruct (tenantScopeCheck _ _) eqn:Es; [|done]. destruct body as [req|]; [|done]. cbn [negb]. destruct (_ && _); [done|]. destruct (task_refusal req); [done|].
  destruct (patch_capabilities _ _ _) as [|set]; [done|]. destruct (validateDefaultTestMode _); [done|]. destruct (patched_artifact _ _ _ _ _ _) as [a'|] eqn:Ep; [|done].
  destruct (write_artifact _ _ _) eqn:E; [done|]. apply write_artifact_inv in E as (rows & Hw & ->). apply patched_artifact_same in Ep as (Hi & Ht & _).
  tables_of; eapply (EditArtifact _ _ _ a a'); try done. by rewrite Hi, Hid.
Qed.

Lemma delete_artifact_does c e id db : does (ca_session c) e db (HandleDeleteArtifact c e id db).2.
Proof.
  unfold HandleDeleteArtifact. destruct (getArtifactJSON db id) as [[a m]|] eqn:Eg; [|done]. apply getArtifactJSON_Some in Eg as (Hf & <- & _).
  destruct (tenantScopeCheck _ _) eqn:Es; [|done]. cbn [negb]. destruct (allowed _ _); [done|]. tables_of; by apply DropArtifact.
Qed.

Lemma discover_does c e body db : does (ca_session c) e db (HandleDiscoverArtifact c e body db).2.
Proof.
  unfold HandleDiscoverArtifact. destruct body as [req|]; [|done]. destruct (_ || _); [done|]. destruct (_ =s ""); [done|].
  destruct (write_artifact _ _ _) as [|db1] eqn:E1; [done|]. destruct (insert_location _ _ _) as [|db2] eqn:E2; [done|].
  apply write_artifact_inv in E1 as (rows & Hw & ->). apply insert_location_inv in E2 as (lrows & Hl & ->). tables_of; by eapply NewPair; [..|exact Hw|exact Hl].
Qed.

Lemma create_location_does c e id body db : does (ca_session c) e db (HandleCreateModelLocation c e id body db).2.
Proof.
  unfold HandleCreateModelLocation. destruct (getArtifactJSON db id) as [[a m]|] eqn:Eg; [|done]. apply getArtifactJSON_Some in Eg as (Hf & <- & _).
  destruct (tenantScopeCheck _ _) eqn:Es; [|done]. cbn [negb]. destruct body as [req|]; [|done]. destruct (_ =s ""); [done|].
  destruct (resolveModelLocationRequestPath _ _ _) as [|[[root rel] abs]]; [done|]. destruct (_ && _); [done|].
  destruct (insert_location _ _ _) as [|db2] eqn:E2; [done|]. apply insert_location_inv in E2 as (lrows & Hl & ->). tables_of. by eapply (NewLocation _ _ _ a); [| | |exact Hl].
Qed.

Lemma patched_location_same l req now l' : patched_location real_text l req now = Some l' -> ml_id l' = ml_id l /\ ml_artifact l' = ml_artifact l /\ ml_tenant l' = ml_tenant l.
Proof.
  unfold patched_location. cbv zeta beta. intros H. repeat (apply bind_Some in H as (? & _ & H)). destruct (obj_boolVal _ _ _); [done|]. by injection H as <-.
Qed.

Lemma patch_location_does c e id body db : does (ca_session c) e db (HandlePatchModelLocation real_text c id body db).2.
Proof.
  unfold HandlePatchModelLocation. destruct (find_location db id) as [l|] eqn:Ef; [|done]. destruct (tenantScopeCheck _ _) eqn:Es; [|done].
  destruct body as [req|]; [|done]. cbn [negb]. destruct (patched_location _ _ _ _) as [l'|] eqn:Ep; [|done]. destruct (update_location _ _) eqn:E; [done|].
  apply update_location_inv in E as (rows & Hw & ->). apply patched_location_same in Ep as (Hi & Ha & Ht). destruct (by_id_Some _ _ _ _ Ef) as [_ Hid].
  tables_of; eapply (EditLocation _ _ _ l l'); try done. by rewrite Hi, Hid.
Qed.

Lemma delete_location_does c e id db : does (ca_session c) e db (HandleDeleteModelLocation c e id db).2.
Proof.
  unfold HandleDeleteModelLocation. destruct (find_location db id) as [l|] eqn:Ef; [|done]. destruct (tenantScopeCheck _ _) eqn:Es; [|done].
  cbn [negb]. destruct (existsb _ _); [done|]. destruct (by_id_Some _ _ _ _ Ef) as [_ <-]. tables_of; by apply DropLocation.
Qed.

Lemma rescan_does c e id db : does (ca_session c) e db (HandleRescanModelLocation c id db).2.
Proof. unfold HandleRescanModelLocation. destruct (check_location _ _ _) eqn:E; [|done]. tables_of; by apply TouchLocation. Qed.

Lemma attest_does c e id body db : does (ca_session c) e db (HandleAttestModelLocation c id body db).2.
Proof. unfold HandleAttestModelLocation. destruct (check_location _ _ _) eqn:E; [|done]. tables_of; by apply TouchLocation. Qed.

Lemma add_root_does c e node body db : does (ca_session c) e db (HandleAddNodeModelRoot EvalSymlinks Stat c e node body db).2.
Proof.
  unfold HandleAddNodeModelRoot. destruct (check_node _ _ _); [|done]. cbn [negb]. destruct (node_tenant e node) as [t|]; [|done]. destruct body as [req|]; [|done].
  destruct (normalizeAllowedModelRoot _ _ _) as [clean|err] eqn:En; [|tables_of; apply NoEffect]. apply normalizeAllowedModelRoot_safe in En as (Hp & _ & Hd & _).
  destruct (write_row _ _ _ _ _) as [err|rows] eqn:E.
  - destruct (negb _); [done|]. destruct (List.find _ _) as [r|]; [|done]. tables_of; apply EditRoot. by left.
  - apply write_row_inv in E. tables_of; eapply NewRoot; [| |exact E]; [by split|done].
Qed.

Lemma patch_root_does c e node id body db : does (ca_session c) e db (HandlePatchNodeModelRoot c node id body db).2.
Proof.
  unfold HandlePatchNodeModelRoot. destruct (check_root _ _ _); [|done]. cbn [negb]. destruct (resolveNodeModelRoot _ _ _ _) as [r|]; [|done].
  destruct body as [req|]; [|done]. destruct (_ && _) eqn:E; [done|]. tables_of; apply EditRoot.
  apply andb_false_iff in E as [E%negb_false_iff%String.eqb_eq|E%negb_false_iff%String.eqb_eq]; [by left|by right].
Qed.

Lemma delete_root_does c e node id db : does (ca_session c) e db (HandleDeleteNodeModelRoot c node id db).2.
Proof.
  unfold HandleDeleteNodeModelRoot. destruct (check_root _ _ _); [|done]. cbn [negb]. destruct (resolveNodeModelRoot _ _ _ _) as [r|]; [|done].
  destruct (existsb _ _); [done|]. destruct (_ =s "config"); [tables_of; apply EditRoot; by right|tables_of; apply DropRoot].
Qed.

Lemma artifact_request_does c e rq db : does (ca_session c) e db (artifact_handle real_text text_integer EvalSymlinks Stat c e rq db).2.
Proof.
  destruct rq; cbn [artifact_handle].
  - apply create_artifact_does.
  - apply patch_artifact_does.
  - apply delete_artifact_does.
  - apply discover_does.
  - apply create_location_does.
  - apply patch_location_does.
  - apply delete_location_does.
  - apply rescan_does.
  - apply attest_does.
  - apply add_root_does.
  - apply patch_root_does.
  - apply delete_root_does.
  - unfold HandleDeleteNodeModelBrowserRoot. destruct (resolveNodeModelRoot _ _ _ _); [apply delete_root_does|done].
Qed.
End Effects.

(** ** The invariant *)

Definition root_place (r : nodeModelRoot) : string * string := (mo_NodeID r, mo_Path r).
Definition location_place (l : model_location) : string * string * string := (ml_artifact l, ml_node l, ml_absolute l).

(** The artifact of a location, of the same tenant. *)
Definition owned (artifacts : list model_artifact) (l : model_location) : Prop :=
  exists a, by_id ma_id (ml_artifact l) artifacts = Some a /\ ma_tenant a = ml_tenant l.

Definition root_ok (r : nodeModelRoot) : Prop := safe_root (mo_Path r) /\ root_status (mo_Status r).

Record tables_ok (artifacts : list model_artifact) (locations : list model_location) (roots : list nodeModelRoot) : Prop := {
  ok_artifacts : NoDup (map ma_id artifacts);
  ok_names : NoDup (map ma_name artifacts);
  ok_locations : NoDup (map ml_id locations);
  ok_places : NoDup (map location_place locations);
  ok_owned : Forall (owned artifacts) locations;
  ok_roots : NoDup (map mo_ID roots);
  ok_root_places : NoDup (map root_place roots);
  ok_root_paths : Forall root_ok roots
}.

Definition artifacts_ok (db : artifact_db) : Prop := tables_ok (ax_artifacts db) (ax_locations db) (ax_roots db).

Lemma artifact_refused_None r others : artifact_refused r others = None -> forall o, o ∈ others -> ma_name o <> ma_name r.
Proof. unfold artifact_refused. destruct (existsb _ _) eqn:E; [done|]. intros _ o Ho. by apply String.eqb_neq, (existsb_other _ _ _ E). Qed.

Lemma location_taken_None l others : location_taken l others = None -> forall o, o ∈ others -> location_place o <> location_place l.
Proof.
  unfold location_taken. destruct (existsb _ _) eqn:E; [done|]. intros _ o Ho. pose proof (existsb_other _ _ _ E Ho) as H. cbn in H.
  intros [= E1 E2 E3]. by rewrite E1, E2, E3, !String.eqb_refl in H.
Qed.

Lemma location_refused_None e db l others : location_refused e db l others = None -> location_taken l others = None /\ is_Some (find_artifact db (ml_artifact l)).
Proof. unfold location_refused. destruct (location_taken _ _); [done|]. destruct (find_artifact _ _); [|done]. by split. Qed.

Lemma root_refused_None e r others : root_refused e r others = None -> forall o, o ∈ others -> root_place o <> root_place r.
Proof.
  unfold root_refused. destruct (existsb _ _) eqn:E; [done|]. intros _ o Ho. pose proof (existsb_other _ _ _ E Ho) as H. cbn in H.
  intros [= E1 E2]. by rewrite E1, E2, !String.eqb_refl in H.
Qed.

Lemma written_key_NoDup {A} (key : A -> string) refused creating r rows rows' : written key refused creating r rows rows' -> NoDup (map key rows) -> NoDup (map key rows').
Proof.
  intros Hw Hn. rewrite (written_keys _ _ _ _ _ _ Hw). destruct Hw as [-> Hk _| -> _]; [|by rewrite app_nil_r]. by apply NoDup_snoc.
Qed.

Lemma artifacts_written_ok creating r rows artifacts locations roots : written ma_id artifact_refused creating r artifacts rows ->
  (creating = false -> exists old, by_id ma_id (ma_id r) artifacts = Some old /\ ma_tenant r = ma_tenant old) ->
  tables_ok artifacts locations roots -> tables_ok rows locations roots.
Proof.
  intros Hw Ho [H1 H2 H3 H4 H5 H6 H7 H8]. split; try done.
  - by eapply written_key_NoDup.
  - eapply written_NoDup; [exact Hw| |done|done]. intros others Hr o Hin. by eapply artifact_refused_None.
  - eapply Forall_impl; [exact H5|]. intros l (a & Hf & Ht). unfold owned. rewrite (written_find _ _ _ _ _ _ Hw).
    destruct (String.eqb_spec (ma_id r) (ml_artifact l)) as [E|]; [|by exists a]. destruct creating.
    + destruct Hw as [_ Hk _|]; [|done]. destruct Hk. rewrite E. by eapply found_key.
    + exists r. destruct Ho as (old & Hold & Htr); [done|]. rewrite E, Hf in Hold. injection Hold as <-. rewrite Hf. by rewrite Htr.
Qed.

Lemma locations_written_ok refused creating l rows artifacts locations roots : written ml_id refused creating l locations rows ->
  (forall others, refused l others = None -> location_taken l others = None) -> owned artifacts l -> tables_ok artifacts locations roots -> tables_ok artifacts rows roots.
Proof.
  intros Hw Hr Ho [H1 H2 H3 H4 H5 H6 H7 H8]. split; try done.
  - by eapply written_key_NoDup.
  - eapply written_NoDup; [exact Hw| |done|done]. intros others Hx o Hin. eapply location_taken_None; [by apply Hr|done].
  - by eapply written_Forall.
Qed.

Lemma roots_written_ok e r rows artifacts locations roots : written mo_ID (root_refused e) true r roots rows -> root_ok r ->
  tables_ok artifacts locations roots -> tables_ok artifacts locations rows.
Proof.
  intros Hw Hr [H1 H2 H3 H4 H5 H6 H7 H8]. split; try done.
  - by eapply written_key_NoDup.
  - eapply written_NoDup; [exact Hw| |done|done]. intros others Hx o Hin. by eapply root_refused_None.
  - by eapply written_Forall.
Qed.

Lemma tables_preserve s e db artifacts locations roots : tables s e db artifacts locations roots -> artifacts_ok db -> tables_ok artifacts locations roots.
Proof.
  unfold artifacts_ok. intros Ht Hok. pose proof Hok as [H1 H2 H3 H4 H5 H6 H7 H8].
  destruct Ht as [|r rows _ Hw|old r rows Ho _ Ht Hw|old Ho _|r l rows lrows Hr Hl Hlt Hw Hlw|a l rows Ha _ Ht Hw|old l rows Ho _ Ha Ht Hw|id f _ Hf|old Ho _
    |r rows Hp Hs Hw|id status description now Hs|id]; try done.
  - by eapply artifacts_written_ok.
  - eapply artifacts_written_ok; [exact Hw| |done]. intros _. by exists old.
  - split; try done; try by apply delete_NoDup_map. apply Forall_forall. intros l [Hl Hn%String.eqb_neq]%elem_of_delete. rewrite Forall_forall in H5.
    destruct (H5 l Hl) as (a & Hf & Ht). exists a. split; [|done]. rewrite by_id_delete. destruct (String.eqb_spec (ma_id old) (ml_artifact l)); [congruence|done].
  - eapply (locations_written_ok _ _ _ _ _ _ _ Hlw); [intros others Hx; by apply location_refused_None in Hx as [? _]| |by eapply artifacts_written_ok].
    exists r. rewrite Hl, (written_find _ _ _ _ _ _ Hw), String.eqb_refl. split; [done|congruence].
  - eapply (locations_written_ok _ _ _ _ _ _ _ Hw); [intros others Hx; by apply location_refused_None in Hx as [? _]| |done]. exists a. by split.
  - eapply (locations_written_ok _ _ _ _ _ _ _ Hw); [done| |done]. apply by_id_Some in Ho as [Hin _]. rewrite Forall_forall in H5.
    destruct (H5 old Hin) as (a & Hf & Hta). exists a. by rewrite Ha, Ht.
  - split; try done.
    + rewrite update_map; [done|]. intros l. by destruct (Hf l).
    + rewrite update_map; [done|]. intros l. destruct (Hf l) as (_ & Ea & En & Eb & _). unfold location_place. by rewrite Ea, En, Eb.
    + apply update_Forall; [|done]. intros l (a & Hfa & Hta). destruct (Hf l) as (_ & Ea & _ & _ & Et). exists a. by rewrite Ea, Et.
  - split; try done; try by apply delete_NoDup_map. by apply delete_Forall.
  - eapply roots_written_ok; [exact Hw| |done]. split; [done|by left].
  - split; try done.
    + by rewrite update_map.
    + by rewrite update_map.
    + apply update_Forall; [|done]. by intros r [Hp _].
  - split; try done; try by apply delete_NoDup_map. by apply delete_Forall.
Qed.

Section Reachable.
Context (real_text : float64 -> string) (text_integer : string -> option Z) (EvalSymlinks : string -> option string) (Stat : string -> option bool).

Lemma artifact_serve_ok requests db : artifacts_ok db -> artifacts_ok (artifact_serve real_text text_integer EvalSymlinks Stat requests db).
Proof.
  unfold artifact_serve. revert db. induction requests as [|[[c e] rq] l IH]; cbn [foldl]; [done|]. intros db Hok. apply IH.
  eapply tables_preserve; [apply artifact_request_does|exact Hok].
Qed.

Lemma no_artifacts_ok : artifacts_ok no_artifacts.
Proof. split; cbn; by constructor. Qed.

(** C16. Whatever is asked for, identifiers, artifact names and the places of locations and
    roots stay unique, every location belongs to an artifact of its tenant, and every root
    is a clean absolute path outside the denied directories. *)
Theorem artifact_tables_well_formed requests : artifacts_ok (artifact_serve real_text text_integer EvalSymlinks Stat requests no_artifacts).
Proof. apply artifact_serve_ok, no_artifacts_ok. Qed.
End Reachable.

(** ** Where a location lies *)

Lemma resolveNodeModelRoot_Some db node rootID path r : resolveNodeModelRoot db node rootID path = Some r -> r ∈ ax_roots db /\ mo_NodeID r = node /\ mo_Status r = "enabled".
Proof.
  unfold resolveNodeModelRoot. intros H. apply find_some in H as [Hin H]. apply andb_true_iff in H as [[E1%String.eqb_eq E2%String.eqb_eq]%andb_true_iff _].
  split_and!; [by apply list_elem_of_In|done|done].
Qed.

(** What a relative path that passes the test adds to a root. *)
Lemma safe_join rs value rel : Forall plain rs -> safeRelativePath value = Some rel ->
  exists es, Forall plain es /\ Clean (Join2 (abs_path rs) rel) = abs_path (rs ++ es).
Proof.
  intros Hrs H. unfold safeRelativePath in H. set (v := TrimSpace value) in *. destruct (Clean v =s "") eqn:E0.
  { assert (rel = "") as -> by (destruct (Clean v =s "."); cbn in H; congruence). exists []. split; [done|]. rewrite app_nil_r.
    change (Join2 (abs_path rs) "") with (Clean (abs_path rs)). by rewrite !Clean_abs_path. }
  assert (IsAbs v = false /\ (Clean v =s "..") = false /\ HasPrefix (Clean v) "../" = false /\ rel = if Clean v =s "." then "" else Clean v) as (Ha & Hd & Hp & ->).
  { destruct (String.eqb_spec (Clean v) ".") as [E1|E1]; cbn [orb] in H.
    - injection H as <-. rewrite E1. split_and!; try done. destruct (IsAbs v) eqn:E; [|done]. destruct (Clean_abs _ E) as (segs & Hc & _). rewrite E1 in Hc. by destruct segs.
    - destruct (orb _ _) eqn:E2 in H; [done|]. apply orb_false_iff in E2 as [[Ha Hp]%orb_false_iff Hd]. injection H as <-. split_and!; try done.
      destruct (IsAbs v) eqn:E; [|done]. destruct (Clean_abs _ E) as (segs & Hc & _). by rewrite Hc, IsAbs_abs in Ha. }
  exists (relative_segments v). destruct (relative_plain v Ha Hd Hp) as [Hes _]. split; [done|]. by apply Clean_Join2.
Qed.

(** A root found, and a relative path below it. *)
Lemma resolve_branch db node rootID path relative root rel abs :
  match resolveNodeModelRoot db node rootID path with
  | None => inl "root not allowed"
  | Some root => match safeRelativePath relative with
                 | None => inl "path traversal blocked"
                 | Some rel => if negb (pathWithinRoot (Clean (Join2 (mo_Path root) rel)) (mo_Path root)) then inl "path traversal blocked"
                               else inr (mo_Path root, rel, Clean (Join2 (mo_Path root) rel))
                 end
  end = inr (root, rel, abs) ->
  exists r, resolveNodeModelRoot db node rootID path = Some r /\ safeRelativePath relative = Some rel /\ root = mo_Path r /\ abs = Clean (Join2 (mo_Path r) rel).
Proof.
  intros H. destruct (resolveNodeModelRoot _ _ _ _) as [r|]; [|done]. destruct (safeRelativePath relative); [|done].
  destruct (negb _); [done|]. injection H as <- <- <-. by exists r.
Qed.

Lemma resolve_confined db node req root rel abs : artifacts_ok db -> resolveModelLocationRequestPath db node req = inr (root, rel, abs) ->
  exists r rs es, r ∈ ax_roots db /\ mo_NodeID r = node /\ mo_Status r = "enabled" /\ mo_Path r = root /\ root = abs_path rs /\ Forall plain (rs ++ es) /\ abs = abs_path (rs ++ es).
Proof.
  intros Hok H.
  assert (exists rootID path relative r, resolveNodeModelRoot db node rootID path = Some r /\ safeRelativePath relative = Some rel /\ root = mo_Path r
            /\ abs = Clean (Join2 (mo_Path r) rel)) as (rootID & path & relative & r & Hr & Hs & -> & ->).
  { unfold resolveModelLocationRequestPath in H. cbv zeta in H.
    destruct (_ && _) in H; [|apply resolve_branch in H; by eauto 6]. destruct (_ || _) in H; [done|].
    destruct (List.find _ _) in H; [|apply resolve_branch in H; by eauto 6]. destruct (path_rel _ _) in H; [|done]. apply resolve_branch in H. by eauto 6. }
  apply resolveNodeModelRoot_Some in Hr as (Hin & Hn & He). destruct Hok as [_ _ _ _ _ _ _ Hp]. rewrite Forall_forall in Hp.
  destruct (Hp r Hin) as [[(rs & Hrs & Hpl) _] _]. destruct (safe_join rs relative rel Hpl Hs) as (es & Hes & Habs). rewrite <- Hrs in Habs.
  exists r, rs, es. split_and!; try done. by apply Forall_app.
Qed.

Section Confinement.
Context (real_text : float64 -> string) (text_integer : string -> option Z) (EvalSymlinks : string -> option string) (Stat : string -> option bool).

(** C13. A request that creates a location answers 201 exactly by adding one row, for an
    artifact in the scope of the caller: its path is that of an enabled root of the node
    followed by plain names, the row takes the tenant of the artifact, and a GGUF artifact
    gets a GGUF file.  The root itself is outside the denied directories; a directory
    below the root is not compared with them ([denied_below_a_root]).  Any other answer
    leaves the tables as they were. *)
Theorem created_location_confined requests c e artifactID body :
  let db := artifact_serve real_text text_integer EvalSymlinks Stat requests no_artifacts in
  let '(answer, db') := HandleCreateModelLocation c e artifactID body db in
  match answer with
  | Reply 201 _ =>
      exists req a r rs es l, body = Some req /\ find_artifact db artifactID = Some a /\ tenantScopeCheck (ca_session c) (ma_tenant a) = true
        /\ r ∈ ax_roots db /\ mo_NodeID r = ml_node l /\ mo_Status r = "enabled" /\ mo_Path r = abs_path rs /\ ml_root l = mo_Path r
        /\ Forall plain (rs ++ es) /\ ml_absolute l = abs_path (rs ++ es) /\ (forall d, d ∈ defaultDeniedModelRoots -> pathWithinRoot (abs_path rs) d = false)
        /\ (ma_format a = "gguf" -> HasSuffix (ml_absolute l) ".gguf" = true)
        /\ ml_artifact l = artifactID /\ ml_node l = obj_strVal req "node_id" "" /\ ml_tenant l = ma_tenant a
        /\ db' = with_locations (fun rows => rows ++ [l]) db
  | _ => db' = db
  end.
Proof.
  cbv zeta. set (db := artifact_serve _ _ _ _ _ _). assert (artifacts_ok db) as Hok by apply artifact_serve_ok, no_artifacts_ok. clearbody db.
  unfold HandleCreateModelLocation. destruct (getArtifactJSON db artifactID) as [[a m]|] eqn:Eg; [|done]. apply getArtifactJSON_Some in Eg as (Hf & Hid & _).
  destruct (tenantScopeCheck _ _) eqn:Es; [|done]. cbn [negb]. destruct body as [req|]; [|done]. destruct (_ =s ""); [done|].
  destruct (resolveModelLocationRequestPath _ _ _) as [|[[root rel] abs]] eqn:Er; [done|]. destruct (_ && _) eqn:Egg; [done|].
  destruct (insert_location _ _ _) as [|db2] eqn:E2; [done|]. apply insert_location_inv in E2 as (rows & Hw & ->). cbn [location_reply].
  destruct (resolve_confined _ _ _ _ _ _ Hok Er) as (r & rs & es & Hin & Hn & He & Hp & -> & Hpl & ->). destruct Hok as [_ _ _ _ _ _ _ Hps]. rewrite Forall_forall in Hps.
  destruct (Hps r Hin) as [[_ Hd] _]. exists req, a, r, rs, es, (new_location c a (obj_strVal req "node_id" "") (abs_path rs) rel (abs_path (rs ++ es)) req).
  destruct Hw as [_ _ _|]; [|done]. rewrite Hp in Hd.
  cbn [new_location ml_node ml_root ml_absolute ml_artifact ml_tenant]. split_and!; try done.
  intros Hg. rewrite Hg in Egg. by apply negb_false_iff.
Qed.
End Confinement.

(** ** Tenants *)

(** What a caller of another tenant leaves alone. *)
Definition foreign (s : session) (tenant : string) : Prop := s_admin s = false /\ s_tenant s <> tenant.

Lemma foreign_scope s tenant : foreign s tenant -> tenantScopeCheck s tenant = true -> False.
Proof. intros [Ha Ht]. unfold tenantScopeCheck. rewrite Ha. intros E%String.eqb_eq. by apply Ht. Qed.

Lemma kept_artifact s e db artifacts locations roots id a : tables s e db artifacts locations roots -> foreign s (ma_tenant a) ->
  find_artifact db id = Some a -> by_id ma_id id artifacts = Some a.
Proof.
  unfold find_artifact. intros Ht Hfo Hf.
  assert (forall r rows, written ma_id artifact_refused true r (ax_artifacts db) rows -> by_id ma_id id rows = Some a) as Hnew.
  { intros r rows Hw. rewrite (written_find _ _ _ _ _ _ Hw). destruct (String.eqb_spec (ma_id r) id) as [E|]; [|done]. exfalso.
    destruct Hw as [_ Hk _|Hk _]; [|done]. apply Hk. rewrite E. by eapply found_key. }
  destruct Ht as [|r rows _ Hw|old r rows Ho Hsc _ Hw|old Ho Hsc|r l rows lrows _ _ _ Hw _| | | | | | | ]; try done.
  - by eapply Hnew.
  - rewrite (written_find _ _ _ _ _ _ Hw). destruct (String.eqb_spec (ma_id r) id) as [E|]; [|done]. exfalso. unfold find_artifact in Ho. rewrite E, Hf in Ho. injection Ho as <-.
    by eapply foreign_scope.
  - rewrite by_id_delete. destruct (String.eqb_spec (ma_id old) id) as [E|]; [|done]. exfalso. unfold find_artifact in Ho. rewrite E, Hf in Ho. injection Ho as <-.
    by eapply foreign_scope.
  - by eapply Hnew.
Qed.

Lemma by_id_update_other {A} (key : A -> string) id id' (f : A -> A) rows : id' <> id -> (forall r, key (f r) = key r) ->
  by_id key id (update_where (fun r => key r =s id') f rows) = by_id key id rows.
Proof.
  intros Hne Hk. unfold by_id, update_where. induction rows as [|x rows IH]; cbn; [done|]. destruct (String.eqb_spec (key x) id') as [E|E].
  - rewrite Hk, E. destruct (String.eqb_spec id' id); [done|]. exact IH.
  - destruct (key x =s id); [done|exact IH].
Qed.

Lemma by_id_delete_where {A} (key : A -> string) id r (p : A -> bool) rows : by_id key id rows = Some r -> p r = false -> by_id key id (delete_where p rows) = Some r.
Proof.
  unfold by_id, delete_where. induction rows as [|x rows IH]; cbn; [done|]. destruct (key x =s id) eqn:E.
  - intros [= ->] ->. cbn. by rewrite E.
  - intros Hf Hp. destruct (negb (p x)); cbn; [rewrite E|]; by apply IH.
Qed.

Lemma kept_location s e db artifacts locations roots id l : tables s e db artifacts locations roots -> artifacts_ok db -> foreign s (ml_tenant l) ->
  find_location db id = Some l -> by_id ml_id id locations = Some l.
Proof.
  unfold find_location. intros Ht Hok Hfo Hf.
  assert (forall refused r rows, written ml_id refused true r (ax_locations db) rows -> by_id ml_id id rows = Some l) as Hnew.
  { intros refused r rows Hw. rewrite (written_find _ _ _ _ _ _ Hw). destruct (String.eqb_spec (ml_id r) id) as [E|]; [|done]. exfalso.
    destruct Hw as [_ Hk _|Hk _]; [|done]. apply Hk. rewrite E. by eapply found_key. }
  destruct Ht as [| | |old Ho Hsc|r l' rows lrows _ _ _ _ Hw|a l' rows _ _ _ Hw|old l' rows Ho Hsc _ _ Hw|id' f Hc Hk|old Ho Hsc| | | ]; try done.
  - apply by_id_delete_where; [done|]. apply String.eqb_neq. intros E. destruct Hok as [_ _ _ _ Hown _ _ _]. rewrite Forall_forall in Hown.
    pose proof (by_id_Some _ _ _ _ Hf) as [Hin _]. destruct (Hown l Hin) as (a & Hfa & Hta). rewrite E in Hfa. unfold find_artifact in Ho. rewrite Ho in Hfa. injection Hfa as ->.
    rewrite <- Hta in Hfo. by eapply foreign_scope.
  - by eapply Hnew.
  - by eapply Hnew.
  - rewrite (written_find _ _ _ _ _ _ Hw). destruct (String.eqb_spec (ml_id l') id) as [E|]; [|done]. exfalso. unfold find_location in Ho. rewrite E, Hf in Ho. injection Ho as <-.
    by eapply foreign_scope.
  - rewrite by_id_update_other; [done| |by intros r; destruct (Hk r)]. intros ->. unfold check_location, find_location in Hc. rewrite Hf in Hc. cbn in Hc.
    destruct Hfo as [Ha Htn]. unfold check_tenant in Hc. rewrite Ha in Hc. apply String.eqb_eq in Hc. by apply Htn.
  - rewrite by_id_delete. destruct (String.eqb_spec (ml_id old) id) as [E|]; [|done]. exfalso. unfold find_location in Ho. rewrite E, Hf in Ho. injection Ho as <-.
    by eapply foreign_scope.
Qed.

Section Tenants.
Context (real_text : float64 -> string) (text_integer : string -> option Z) (EvalSymlinks : string -> option string) (Stat : string -> option bool).

(** C14. Whatever callers of other tenants ask for, who are no platform administrators, the
    artifacts of a tenant and their locations stay as they are. *)
Theorem tenant_artifacts before requests tenant : Forall (fun x : call * around * artifact_request => foreign (ca_session x.1.1) tenant) requests ->
  let db := artifact_serve real_text text_integer EvalSymlinks Stat before no_artifacts in
  (forall id a, find_artifact db id = Some a -> ma_tenant a = tenant -> find_artifact (artifact_serve real_text text_integer EvalSymlinks Stat requests db) id = Some a)
  /\ (forall id l, find_location db id = Some l -> ml_tenant l = tenant -> find_location (artifact_serve real_text text_integer EvalSymlinks Stat requests db) id = Some l).
Proof.
  intros Hr db. assert (artifacts_ok db) as Hok by apply artifact_serve_ok, no_artifacts_ok. clearbody db. unfold artifact_serve. revert db Hok.
  induction Hr as [|[[c e] rq] rest Hx _ IH]; cbn [foldl]; [done|]. intros db Hok. cbn in Hx.
  pose proof (artifact_request_does real_text text_integer EvalSymlinks Stat c e rq db) as Hd.
  destruct (IH (artifact_handle real_text text_integer EvalSymlinks Stat c e rq db).2) as [IHa IHl]; [by eapply tables_preserve|]. split.
  - intros id a Hf Ht. apply IHa; [|done]. subst tenant. by eapply kept_artifact.
  - intros id l Hf Ht. apply IHl; [|done]. subst tenant. by eapply kept_location.
Qed.
End Tenants.

(** A location somebody vouches for is one a deployment on its node may use. *)
Lemma attested_is_deployable encode reason user now l : location_deployable (ml_node l) (location_document encode (attested reason user now l)) = true.
Proof. unfold location_deployable. cbn. by rewrite String.eqb_refl. Qed.

(** ** At concrete inputs *)

Definition real_number : float64 -> string := fun _ => "".
Definition no_number : string -> option Z := fun _ => None.
Definition same_path : string -> option string := Some.
Definition directories : string -> option bool := fun _ => Some true.

Definition tenant_node (id tenant : string) : node_row :=
  {| n_id := id; n_agent := id; n_facts := {| nf_hostname := ""; nf_primary_ip := ""; nf_advertised := ""; nf_os := ""; nf_arch := ""; nf_kernel := "";
                                                     nf_version := ""; nf_metrics_enabled := false; nf_metrics_scheme := ""; nf_metrics_port := 0; nf_metrics_path := "" |};
     n_status := "online"; n_heartbeat := 0; n_tenant := tenant; n_updated := 0 |}.
Definition two_nodes : around := {| ar_nodes := [tenant_node "n1" "t1"; tenant_node "n2" "t2"]; ar_deployed := []; ar_active := [] |}.
Definition asks (tenant id : string) : call :=
  {| ca_session := caller tenant; ca_now := "t"; ca_utc := "t"; ca_id := id; ca_id2 := id +s+ "-location"; ca_audit := id +s+ "-audit"; ca_request := "" |}.
Definition answers (tenant id : string) (rq : artifact_request) (db : artifact_db) : reply * artifact_db :=
  artifact_handle real_number no_number same_path directories (asks tenant id) two_nodes rq db.
Definition fields (l : list (string * string)) : option obj := Some (map (fun kv => (kv.1, AStr kv.2)) l).

Definition first_requests : list (call * around * artifact_request) :=
  [(asks "t1" "r1", two_nodes, AddRoot "n1" (fields [("path", "/data/models")]));
   (asks "t1" "a1", two_nodes, CreateArtifact (fields [("name", "qwen"); ("path", "/data/models/qwen")]));
   (asks "t1" "l1", two_nodes, CreateLocation "a1" (fields [("absolute_path", "/data//models/qwen/../llama"); ("node_id", "n1")]))].
Definition first_db : artifact_db := artifact_serve real_number no_number same_path directories first_requests no_artifacts.

Example first_location : map (fun l => (ml_root l, ml_relative l, ml_absolute l, ml_tenant l)) (ax_locations first_db) = [("/data/models", "llama", "/data/models/llama", "t1")].
Proof. vm_compute. reflexivity. Qed.

(** A patch of a location tests no path. *)
Example location_moved_anywhere :
  map (fun l => (ml_root l, ml_absolute l)) (ax_locations (answers "t1" "x" (PatchLocation "l1" (fields [("absolute_path", "/etc/../root")])) first_db).2)
  = [("/data/models", "/etc/../root")].
Proof. vm_compute. reflexivity. Qed.

(** A discovered model takes any path on any node, of another tenant too, as verified. *)
Example discovered_anywhere :
  let db := (answers "t1" "a2" (DiscoverArtifact (fields [("node_id", "n2"); ("path", "/etc/passwd"); ("task_type", "nonsense")])) no_artifacts).2 in
  (map ma_task (ax_artifacts db), map (fun l => (ml_node l, ml_root l, ml_absolute l, ml_verification l, ml_match l)) (ax_locations db))
  = (["nonsense"], [("n2", "/etc", "/etc/passwd", "verified", "exact_match")]).
Proof. vm_compute. reflexivity. Qed.

(** Disabling a location fails in the database. *)
Example disabling_fails : code_of (answers "t1" "x" (PatchLocation "l1" (Some [("disabled", ABool true)])) first_db).1 = 500%Z.
Proof. vm_compute. reflexivity. Qed.

(** A task the console is offered, and the answer to an artifact with it. *)
Example offered_task_refused :
  (match HandleGetModelCapabilityEnums with Reply _ (AMap m) => match get_any m "tasks" with AStrs l => existsb (String.eqb "image_generation") l | _ => false end | _ => false end,
   code_of (answers "t1" "a2" (CreateArtifact (fields [("name", "sd"); ("path", "/data/models/sd"); ("task_type", "image_generation")])) first_db).1)
  = (true, 400%Z).
Proof. vm_compute. reflexivity. Qed.

(** A number that is none makes an artifact unreadable: it is neither shown, patched nor
    deleted any more, and keeps its name. *)
Example unreadable_artifact :
  let patched := answers "t1" "x" (PatchArtifact "a1" (fields [("default_context_length", "long")])) first_db in
  (patched.1, code_of (HandleGetArtifact (caller "t1") "a1" patched.2), code_of (answers "t1" "x" (DeleteArtifact "a1") patched.2).1, map ma_name (ax_artifacts patched.2))
  = (Reply 200 ANil, 404%Z, 404%Z, ["qwen"]).
Proof. vm_compute. reflexivity. Qed.

(** A root that is disabled is answered as an empty one and is not found to be enabled again. *)
Example disabled_root :
  let patched := answers "t1" "x" (PatchRoot "n1" "r1" (fields [("status", "disabled")])) first_db in
  (get_any (body_of patched.1) "id", code_of (answers "t1" "y" (PatchRoot "n1" "r1" (fields [("status", "enabled")])) patched.2).1)
  = (AStr "", 404%Z).
Proof. vm_compute. reflexivity. Qed.

(** A directory below a root is not looked at, so that a denied one can be named. *)
Example denied_below_a_root :
  let db := (answers "t1" "r2" (AddRoot "n1" (fields [("path", "/var")])) first_db).2 in
  map ml_absolute (ax_locations (answers "t1" "l2" (CreateLocation "a1" (fields [("model_root", "/var"); ("node_id", "n1"); ("relative_path", "lib/docker")])) db).2)
  = ["/data/models/llama"; "/var/lib/docker"].
Proof. vm_compute. reflexivity. Qed.

(** *** Witness *)

Definition foreign_requests : list (call * around * artifact_request) :=
  [(asks "t2" "x1", two_nodes, PatchArtifact "a1" (fields [("path", "/stolen")])); (asks "t2" "x2", two_nodes, DeleteArtifact "a1");
   (asks "t2" "x3", two_nodes, AttestLocation "l1" None); (asks "t2" "x4", two_nodes, DeleteLocation "l1")].

Lemma tenant_artifacts_witness :
  exists a, find_artifact first_db "a1" = Some a /\ ma_tenant a = "t1"
  /\ find_artifact (artifact_serve real_number no_number same_path directories foreign_requests first_db) "a1" = Some a.
Proof.
  destruct (find_artifact first_db "a1") as [a|] eqn:E; [|vm_compute in E; discriminate E].
  assert (ma_tenant a = "t1") as Ht by (vm_compute in E; injection E as <-; reflexivity).
  exists a. split; [reflexivity|]. split; [exact Ht|].
  apply (tenant_artifacts real_number no_number same_path directories first_requests foreign_requests "t1"); [|exact E|exact Ht].
  repeat constructor; discriminate.
Defined.
