(* ===== verification/ConfigTemplates.v ===== *)
(** * Templates of the configuration editor (internal/server/configedit/templates.go, internal/server/api/configedit_template_handlers.go)

    Templates are YAML files below a built-in and a local directory, and one for every
    runtime of the catalog, made from its form.  The files are given as the reader finds
    them; [rewritten] is what reading the text written for a template gives. *)
From S2P Require Import Prelude DockerWire GoStrings GoNumbers GoValue GoJson GoWeb RuntimeContract RunPlanTypes ModelPaths ConfigSets SemanticRegistry ConfigEdit Catalog CatalogLoad EditForm.
From S2P Require Import Store Deployments Preflight NodeRuntimes DeploymentDocs Backends.
From Stdlib Require Import Ascii.

(** ** Records *)

Record TemplateAppliesTo := { at_Backend : string; at_BackendVersions : list string; at_RuntimeKind : string; at_Vendors : list string }.
Record TemplateViews := { tv_DefaultView : string; tv_SupportedViews : list string }.
Record LayerPolicy := { lp_Editable : bool; lp_CopyFromParent : string }.
Record TemplateSection := { ts_Key : string; ts_Label : string; ts_Order : Z; ts_View : string; ts_Collapsed : bool }.
Record TemplateEffect := {
  te_Type : string; te_Target : string; te_Flag : string; te_ValueFrom : string; te_KeyFrom : string; te_When : string; te_OmitEmpty : bool; te_Properties : obj
}.
Record TemplateField := {
  tf_Key : string; tf_InternalKey : string; tf_ComponentKey : string; tf_Label : string; tf_LabelI18nKey : string; tf_HelpI18nKey : string; tf_Section : string;
  tf_Tier : string; tf_View : string; tf_Risk : string; tf_Order : Z; tf_Type : string; tf_Widget : string; tf_Enabled : bool; tf_Source : obj;
  tf_Path : list string; tf_Effects : list TemplateEffect
}.
Inductive TemplateComponent := {
  tc_Key : string; tc_Component : string; tc_Renderer : string; tc_Label : string; tc_Description : string; tc_Section : string; tc_View : string;
  tc_Order : Z; tc_Value : obj; tc_Editability : gmap string bool; tc_Copy : obj; tc_Reset : obj; tc_Validation : list obj; tc_Help : obj;
  tc_Effects : list TemplateEffect; tc_ComponentFields : list TemplateComponent
}.
(** [ct_Metadata] is [None] for the nil map. *)
Record ComponentTemplate := {
  ct_TemplateID : string; ct_Kind : string; ct_Version : Z; ct_Source : string; ct_Path : string; ct_AppliesTo : TemplateAppliesTo; ct_Metadata : option obj;
  ct_Views : TemplateViews; ct_Layers : gmap string LayerPolicy; ct_Sections : list TemplateSection; ct_Fields : list TemplateField;
  ct_Components : list TemplateComponent
}.
Record TemplateValidationIssue := { ti_Path : string; ti_Reason : string; ti_Severity : string }.
Record TemplateStore := { st_Templates : list ComponentTemplate; st_Issues : list TemplateValidationIssue }.

(** ** Validation *)

Definition issue (path reason : string) : TemplateValidationIssue := {| ti_Path := path; ti_Reason := reason; ti_Severity := "error" |}.
Definition issue_if (b : bool) (path reason : string) : list TemplateValidationIssue := if b then [issue path reason] else [].

Definition allowedViews : list string := ["normal"; "advanced"; "developer"].
Definition allowedLayers : list string := ["backend_runtime"; "node_backend_runtime"; "deployment"; "deployment_override"].
Definition allowedRenderers : list string :=
  ["string"; "number"; "boolean"; "select"; "string_list"; "key_value_table"; "raw_json"; "accelerator_binding"; "port_binding"; "health_check_form";
   "mount_form"; "args_editor"; "docker_options"].
Definition allowedEffects : list string := ["cli_arg"; "env"; "docker"; "mount"; "port"; "health_check"; "device_binding"].
Definition listed_in (l : list string) (s : string) : bool := existsb (String.eqb s) l.

Definition at_index (name : string) (i : Z) : string := name +s+ "[" +s+ Itoa i +s+ "]".

Definition section_issues (i : Z) (seen : list string) (s : TemplateSection) : list TemplateValidationIssue :=
  issue_if (ts_Key s =s "") (at_index "sections" i +s+ ".key") "section key is required"
  ++ issue_if ((ts_View s <>s "") && negb (listed_in allowedViews (ts_View s))) (at_index "sections" i +s+ ".view") "invalid view level"
  ++ issue_if (listed_in seen (ts_Key s)) (at_index "sections" i +s+ ".key") "duplicate section key".

Definition effect_issues (path : string) (j : Z) (e : TemplateEffect) : list TemplateValidationIssue :=
  let path := path +s+ "." +s+ at_index "effects" j in
  issue_if (negb (listed_in allowedEffects (te_Type e))) (path +s+ ".type") "unknown effect type"
  ++ issue_if ((te_Type e <>s "") && (te_Target e =s "") && (te_Flag e =s "") && (te_ValueFrom e =s "")) path "effect target, flag, or value_from is required"
  ++ issue_if (Contains (te_ValueFrom e) "exec(" || Contains (te_When e) "exec(") path "unsafe expression function".

(** A walk that counts the elements and remembers their keys. *)
Section Walk.
Context {A : Type} (key : A -> string) (one : Z -> list string -> A -> list TemplateValidationIssue).
Fixpoint walk (i : Z) (seen : list string) (l : list A) : list TemplateValidationIssue :=
  match l with [] => [] | x :: l => one i seen x ++ walk (i + 1)%Z (key x :: seen) l end.
End Walk.

Section Templates.
Context `{MR : MapRange}.

Definition component_issues (sections : list string) (i : Z) (seen : list string) (c : TemplateComponent) : list TemplateValidationIssue :=
  let path := at_index "components" i in
  issue_if (tc_Key c =s "") (path +s+ ".key") "component key is required"
  ++ issue_if (listed_in seen (tc_Key c)) (path +s+ ".key") "duplicate component key"
  ++ (if tc_Renderer c =s "" then [issue (path +s+ ".renderer") "renderer is required"]
      else issue_if (negb (listed_in allowedRenderers (tc_Renderer c))) (path +s+ ".renderer") "unknown renderer")
  ++ issue_if ((tc_View c =s "") || negb (listed_in allowedViews (tc_View c))) (path +s+ ".view") "invalid view level"
  ++ issue_if ((tc_Section c <>s "") && negb (listed_in sections (tc_Section c))) (path +s+ ".section") "unknown section"
  ++ concat (map (fun kv => issue_if (negb (listed_in allowedLayers kv.1)) (path +s+ ".editability." +s+ kv.1) "invalid editability layer") (range (tc_Editability c)))
  ++ walk te_Type (fun j _ e => effect_issues path j e) 0 [] (tc_Effects c).

Definition ValidateComponentTemplate (t : ComponentTemplate) : list TemplateValidationIssue :=
  issue_if (ct_TemplateID t =s "") "template_id" "template_id is required"
  ++ issue_if (ct_Kind t <>s "config_edit_template") "kind" "kind must be config_edit_template"
  ++ issue_if (ct_Version t <=? 0)%Z "version" "version must be positive"
  ++ issue_if (at_Backend (ct_AppliesTo t) =s "") "applies_to.backend" "backend is required"
  ++ walk ts_Key section_issues 0 [] (ct_Sections t)
  ++ walk tc_Key (component_issues (map ts_Key (ct_Sections t))) 0 [] (ct_Components t).

(** ** Files *)

(** A file as it is read: an error, a text that is no template, or a template. *)
Inductive template_file := FileError (e : string) | Loaded (t : ComponentTemplate).
(** A directory: not there or not named, not readable, or its files in the order of the walk. *)
Inductive template_root := NoRoot | RootError (e : string) | RootFiles (l : list (string * template_file)).

Definition from_file (source path : string) (t : ComponentTemplate) : ComponentTemplate :=
  {| ct_TemplateID := ct_TemplateID t; ct_Kind := ct_Kind t; ct_Version := ct_Version t; ct_Source := source; ct_Path := path; ct_AppliesTo := ct_AppliesTo t;
     ct_Metadata := ct_Metadata t; ct_Views := ct_Views t; ct_Layers := ct_Layers t; ct_Sections := ct_Sections t; ct_Fields := ct_Fields t;
     ct_Components := ct_Components t |}.

Definition is_yaml (path : string) : bool := HasSuffix path ".yaml" || HasSuffix path ".yml".

Definition load_file (source : string) (f : string * template_file) : option ComponentTemplate * list TemplateValidationIssue :=
  match f.2 with
  | FileError e => (None, [issue f.1 e])
  | Loaded t => let t := from_file source f.1 t in
                match ValidateComponentTemplate t with [] => (Some t, []) | issues => (None, issues) end
  end.

Definition loadTemplateRoot (root : template_root) (source : string) : string + (list ComponentTemplate * list TemplateValidationIssue) :=
  match root with
  | NoRoot => inr ([], [])
  | RootError e => inl e
  | RootFiles l => let read := map (load_file source) (List.filter (fun f => is_yaml f.1) l) in inr (omap fst read, concat (map snd read))
  end.

Definition merge_templates (l : list ComponentTemplate) (m : gmap string ComponentTemplate) : gmap string ComponentTemplate :=
  foldl (fun m t => <[ct_TemplateID t := t]> m) m l.

Definition by_template_id (a b : ComponentTemplate) : bool := String.ltb (ct_TemplateID a) (ct_TemplateID b).

(** An error of the local directory is dropped. *)
Definition LoadComponentTemplates (builtin local : template_root) : string + TemplateStore :=
  match loadTemplateRoot builtin "built_in" with
  | inl e => inl e
  | inr (built_in, issues) =>
      let '(mine, issues') := match loadTemplateRoot local "local" with inl _ => ([], []) | inr p => p end in
      inr {| st_Templates := stable_sort by_template_id (map snd (range (merge_templates mine (merge_templates built_in ∅)))); st_Issues := issues ++ issues' |}
  end.

Definition stringInSlice (value : string) (items : list string) : bool := existsb (fun item => item =s value) items.

Definition FindTemplateFor (store : option TemplateStore) (backend vendor : string) : option ComponentTemplate :=
  s ← store;
  List.find (fun t => (at_Backend (ct_AppliesTo t) =s backend)
                      && match at_Vendors (ct_AppliesTo t) with [] => true | vendors => stringInSlice vendor vendors end) (st_Templates s).

(** ** Templates of the catalog *)

Definition sectionView (s : EditSection) : string :=
  if existsb (String.eqb (se_Key s)) ["advanced_raw"; "expert_parameters"; "security_high_risk"] then "developer" else if se_Advanced s then "advanced" else "normal".

Definition fieldTier (f : EditField) : string :=
  if (ef_View f =s "developer") || (ef_Visibility f =s "internal") || (ef_Visibility f =s "hidden") || ef_Diagnostic f then "expert"
  else if (ef_View f =s "security") || (ef_Section f =s "security_high_risk") then "expert"
  else if ef_Advanced f || (ef_View f =s "advanced") then "advanced" else "normal".

Definition fieldRisk (f : EditField) : string := if (ef_View f =s "security") || (ef_Section f =s "security_high_risk") then "high" else "".

Definition normalizeTemplateView (view : string) : string := if view =s "security" then "developer" else if view =s "" then "normal" else view.

Definition templateEffects (l : list EditEffectPreview) : list TemplateEffect :=
  map (fun e => {| te_Type := ep_Type e; te_Target := ep_Target e; te_Flag := ep_Key e; te_ValueFrom := ""; te_KeyFrom := ""; te_When := ""; te_OmitEmpty := false;
                   te_Properties := [("component_key", AStr (ep_ComponentKey e)); ("docker_effect", AStr (ep_DockerEffect e)); ("field_key", AStr (ep_FieldKey e));
                                     ("patch_target", AStr (ep_PatchTarget e)); ("source", AStr (ep_Source e))] |}) l.

Definition nonEmptyRuntime (value fallback : string) : string := if TrimSpace value =s "" then fallback else value.

Definition file_char (c : ascii) : bool :=
  let n := nat_of_ascii c in ((97 <=? n) && (n <=? 122))%nat || ((48 <=? n) && (n <=? 57))%nat || Ascii.eqb c "-" || Ascii.eqb c "_".
Definition safeTemplateFileName (id : string) : string :=
  let name := keep_bytes file_char (ToLower (TrimSpace id)) in if name =s "" then "configedit-template" else name.

Definition template_section (s : EditSection) : TemplateSection :=
  {| ts_Key := se_Key s; ts_Label := se_Label s; ts_Order := se_Order s; ts_View := sectionView s; ts_Collapsed := se_Collapsed s |}.

Definition template_field (f : EditField) : TemplateField :=
  {| tf_Key := ef_Key f; tf_InternalKey := ef_InternalKey f; tf_ComponentKey := ef_ComponentKey f; tf_Label := ef_Label f; tf_LabelI18nKey := ef_LabelI18nKey f;
     tf_HelpI18nKey := ef_HelpI18nKey f; tf_Section := ef_Section f; tf_Tier := fieldTier f; tf_View := normalizeTemplateView (ef_View f);
     tf_Risk := fieldRisk f; tf_Order := ef_Order f; tf_Type := ef_Type f; tf_Widget := ef_Widget f; tf_Enabled := ef_Enabled f; tf_Source := ef_Source f;
     tf_Path := ef_Path f; tf_Effects := templateEffects (ef_Effects f) |}.

Definition template_component (c : EditComponent) : TemplateComponent :=
  {| tc_Key := ec_Key c; tc_Component := ec_Type c; tc_Renderer := ec_Renderer c; tc_Label := ec_Label c; tc_Description := ""; tc_Section := ec_Section c;
     tc_View := normalizeTemplateView (ec_View c); tc_Order := ec_Order c; tc_Value := []; tc_Editability := ∅; tc_Copy := []; tc_Reset := [];
     tc_Validation := []; tc_Help := []; tc_Effects := templateEffects (ec_Effects c); tc_ComponentFields := [] |}.

Definition whole_snapshot : LayerPolicy := {| lp_Editable := true; lp_CopyFromParent := "whole_effective_configedit_snapshot" |}.

Definition materializedTemplateFromView (r : RuntimeDoc) (set : ConfigSet) (view : ConfigEditView) : ComponentTemplate :=
  let display := or_field (TrimSpace (rd_DisplayName r)) (rd_Name r) in
  {| ct_TemplateID := safeTemplateFileName (rd_ID r) +s+ "-materialized-configedit-v1"; ct_Kind := "config_edit_template"; ct_Version := 1;
     ct_Source := "catalog_materialized"; ct_Path := rd_SourcePath r;
     ct_AppliesTo := {| at_Backend := TrimPrefix (rd_BackendID r) "backend."; at_BackendVersions := [rd_BackendVersionID r];
                        at_RuntimeKind := nonEmptyRuntime (rd_RunnerType r) "docker"; at_Vendors := [rd_Vendor r] |};
     ct_Metadata := Some [("backend_id", AStr (rd_BackendID r)); ("backend_version_id", AStr (rd_BackendVersionID r));
                          ("component_count", AInt (Z.of_nat (length (cv_Components view)))); ("display_name", AStr display);
                          ("field_count", AInt (Z.of_nat (length (cv_Fields view)))); ("runtime_id", AStr (rd_ID r)); ("scope", AStr "backend_runtime");
                          ("source", AStr "catalog_materialized"); ("source_metadata", AMap (cs_SourceMetadata set)); ("vendor", AStr (rd_Vendor r))];
     ct_Views := {| tv_DefaultView := "advanced"; tv_SupportedViews := ["normal"; "advanced"; "developer"] |};
     ct_Layers := list_to_map [("backend_runtime", {| lp_Editable := false; lp_CopyFromParent := "" |}); ("node_backend_runtime", whole_snapshot);
                               ("deployment", whole_snapshot); ("deployment_override", whole_snapshot)];
     ct_Sections := map template_section (cv_Sections view); ct_Fields := map template_field (cv_Fields view);
     ct_Components := map template_component (cv_Components view) |}.

(** The form of a runtime of the catalog; [None]: making it panics. *)
Section Materialized.
Context (marshal : obj -> string).

Definition materialized_input (r : RuntimeDoc) (set : ConfigSet) : ProjectInput :=
  {| pi_ConfigSet := default [] (ConfigSet_JSON set); pi_Layer := "backend_runtime"; pi_ObjectKind := "backend_runtime"; pi_ObjectID := rd_ID r;
     pi_ObjectLabel := rd_DisplayName r; pi_Readonly := true; pi_Mode := ""; pi_ViewLevel := "developer"; pi_TemplateID := ""; pi_SnapshotID := "";
     pi_Parent := None; pi_ChildInit := None |}.

(** A runtime of a version the catalog does not have is left out. *)
Fixpoint materialized_templates (reg : Registry) (c : BackendCatalog) (l : list RuntimeDoc) : option (list ComponentTemplate) :=
  match l with
  | [] => Some []
  | r :: l =>
      match last (List.filter (fun v => vd_ID v =s rd_BackendVersionID r) (bc_Versions c)) with
      | None => materialized_templates reg c l
      | Some v =>
          let set := MaterializeBackendRuntime (version_config reg c v) r in
          view ← ProjectConfigSetToEditView marshal (materialized_input r set); rest ← materialized_templates reg c l;
          Some (materializedTemplateFromView r set view :: rest)
      end
  end.

Definition loadMaterializedConfigEditTemplates (registry : string + Registry) (catalog : string + BackendCatalog)
    : option (list ComponentTemplate * list TemplateValidationIssue) :=
  match registry, catalog with
  | inl e, _ => Some ([], [issue "configs/config-registry" e])
  | inr _, inl e => Some ([], [issue "configs/backend-catalog" e])
  | inr reg, inr c => l ← materialized_templates reg c (bc_Runtimes c); Some (l, [])
  end.

(** ** The listing *)

Definition sourceRank (source : string) : Z :=
  if source =s "local" then 0 else if source =s "built_in" then 1 else if source =s "catalog_materialized" then 2 else 9.

Definition registry_less (a b : ComponentTemplate) : bool :=
  if ct_Source a =s ct_Source b then by_template_id a b else (sourceRank (ct_Source a) <? sourceRank (ct_Source b))%Z.

Definition add_missing (m : gmap string ComponentTemplate) (t : ComponentTemplate) : gmap string ComponentTemplate :=
  match m !! ct_TemplateID t with Some _ => m | None => <[ct_TemplateID t := t]> m end.

Definition loadConfigEditTemplateRegistry (builtin local : template_root) (registry : string + Registry) (catalog : string + BackendCatalog)
    : option (string + TemplateStore) :=
  match LoadComponentTemplates builtin local with
  | inl e => Some (inl e)
  | inr store =>
      '(generated, issues) ← loadMaterializedConfigEditTemplates registry catalog;
      let byID := foldl add_missing (merge_templates (st_Templates store) ∅) generated in
      Some (inr {| st_Templates := stable_sort registry_less (map snd (range byID)); st_Issues := st_Issues store ++ issues |})
  end.

(** ** Handlers *)

(** The answers; a panic closes the connection. *)
Inductive template_reply :=
| TemplateError (code : Z) (msg : string) | TemplateList (s : TemplateStore) | TemplateOne (code : Z) (t : ComponentTemplate)
| TemplateCheck (valid : bool) (issues : list TemplateValidationIssue) | TemplatePanic.

Definition HandleListConfigEditTemplates (builtin local : template_root) (registry : string + Registry) (catalog : string + BackendCatalog) : template_reply :=
  match loadConfigEditTemplateRegistry builtin local registry catalog with
  | None => TemplatePanic
  | Some (inl e) => TemplateError 500 e
  | Some (inr store) => TemplateList store
  end.

Definition HandleGetConfigEditTemplate (builtin local : template_root) (registry : string + Registry) (catalog : string + BackendCatalog) (id : string) : template_reply :=
  match loadConfigEditTemplateRegistry builtin local registry catalog with
  | None => TemplatePanic
  | Some (inl e) => TemplateError 500 e
  | Some (inr store) => match by_id ct_TemplateID id (st_Templates store) with Some t => TemplateOne 200 t | None => TemplateError 404 "not found" end
  end.
End Materialized.

(** [None]: the body is no template. *)
Definition HandleValidateConfigEditTemplate (body : option ComponentTemplate) : template_reply :=
  match body with
  | None => TemplateError 400 "invalid request"
  | Some t => let issues := ValidateComponentTemplate t in TemplateCheck (match issues with [] => true | _ => false end) issues
  end.

Definition clone_of (t : ComponentTemplate) : ComponentTemplate :=
  {| ct_TemplateID := TrimSuffix (ct_TemplateID t) "-configedit-v1" +s+ "-local-configedit-v1"; ct_Kind := ct_Kind t; ct_Version := ct_Version t;
     ct_Source := "local"; ct_Path := ct_Path t; ct_AppliesTo := ct_AppliesTo t;
     ct_Metadata := Some (obj_set "source" (AStr "local") (default [] (ct_Metadata t))); ct_Views := ct_Views t; ct_Layers := ct_Layers t;
     ct_Sections := ct_Sections t; ct_Fields := ct_Fields t; ct_Components := ct_Components t |}.

(** A file is written over the one with its path, or behind the others. *)
Definition put_file (path : string) (f : template_file) (root : template_root) : template_root :=
  match root with
  | RootFiles l => if existsb (fun x => x.1 =s path) l then RootFiles (map (fun x => if x.1 =s path then (path, f) else x) l) else RootFiles (l ++ [(path, f)])
  | _ => RootFiles [(path, f)]
  end.

(** [localRoot]: the path of the local directory; [write_error]: what making it or writing the file answers. *)
Definition HandleCloneConfigEditTemplate (rewritten : ComponentTemplate -> template_file) (localRoot : string) (write_error : option string) (id : string)
    (builtin local : template_root) : template_reply * template_root :=
  match LoadComponentTemplates builtin local with
  | inl e => (TemplateError 500 e, local)
  | inr store =>
      match by_id ct_TemplateID id (st_Templates store), write_error with
      | None, _ => (TemplateError 404 "not found", local)
      | Some _, Some e => (TemplateError 500 e, local)
      | Some src, None =>
          let next := clone_of src in
          let path := Join2 localRoot (safeTemplateFileName (ct_TemplateID next) +s+ ".yaml") in
          (TemplateOne 201 (from_file "local" path next), put_file path (rewritten next) local)
      end
  end.
End Templates.
