(* ===== verification/ConfigTemplateProps.v ===== *)
(** * Which templates are listed

    Templates of files are valid and found under their identifier, the local ones before
    the built-in ones, and those of the catalog where no file has the identifier; a copy
    is found by the next reader. *)
From S2P Require Import Prelude DockerWire GoStrings GoNumbers GoValue GoJson GoJsonText GoWeb RuntimeContract RunPlanTypes ResolverArgs ResolverMounts ModelPaths ConfigSets SemanticRegistry ConfigEdit Catalog CatalogLoad CatalogProps EditForm EditFormProps.
From S2P Require Import Store Deployments Preflight NodeRuntimes DeploymentDocs Backends BackendProps ConfigTemplates.
From Stdlib Require Import Ascii.

(** ** What is listed *)

Lemma filter_none {A} (p : A -> bool) l : forallb (fun x => negb (p x)) l = true -> List.filter p l = [].
Proof. induction l as [|x l IH]; cbn; [done|]. destruct (p x); [done|]. exact IH. Qed.

Section Facts.
Context `{MR : MapRange}.

Lemma by_id_In l t : NoDup (map ct_TemplateID l) -> t ∈ l -> by_id ct_TemplateID (ct_TemplateID t) l = Some t.
Proof.
  unfold by_id. induction l as [|x l IH]; cbn; [by intros _ ?%elem_of_nil|]. intros [Hx Hn]%NoDup_cons [->|Ht]%elem_of_cons; [by rewrite String.eqb_refl|].
  destruct (String.eqb_spec (ct_TemplateID x) (ct_TemplateID t)) as [E|]; [|by apply IH]. destruct Hx. rewrite E. by apply (list_elem_of_fmap_2 ct_TemplateID).
Qed.

Definition keyed (m : gmap string ComponentTemplate) : Prop := forall k t, m !! k = Some t -> ct_TemplateID t = k.

Lemma keyed_empty : keyed ∅.
Proof. by intros k t ?%lookup_empty_Some. Qed.

Lemma merge_keyed l : forall m, keyed m -> keyed (merge_templates l m).
Proof.
  unfold merge_templates. induction l as [|t l IH]; cbn; [done|]. intros m Hm. apply IH. intros k t' [[<- <-]|[_ H]]%lookup_insert_Some; [done|by apply Hm].
Qed.

(** The last template of an identifier. *)
Lemma merge_lookup l : forall m id, merge_templates l m !! id = match last (List.filter (fun t => ct_TemplateID t =s id) l) with Some t => Some t | None => m !! id end.
Proof.
  unfold merge_templates. induction l as [|t l IH]; cbn; [done|]. intros m id. rewrite IH. destruct (String.eqb_spec (ct_TemplateID t) id) as [<-|Hne].
  - rewrite lookup_insert_eq, last_cons. by destruct (last _).
  - by rewrite lookup_insert_ne.
Qed.

Lemma add_missing_keyed l : forall m, keyed m -> keyed (foldl add_missing m l).
Proof.
  induction l as [|t l IH]; cbn; [done|]. intros m Hm. apply IH. unfold add_missing. destruct (m !! ct_TemplateID t); [done|].
  intros k t' [[<- <-]|[_ H]]%lookup_insert_Some; [done|by apply Hm].
Qed.

Lemma add_missing_lookup l : forall m id, foldl add_missing m l !! id = match m !! id with Some t => Some t | None => by_id ct_TemplateID id l end.
Proof.
  induction l as [|t l IH]; intros m id; cbn; [by destruct (m !! id)|]. rewrite IH. unfold add_missing. destruct (String.eqb_spec (ct_TemplateID t) id) as [<-|Hne].
  - destruct (m !! ct_TemplateID t) eqn:E; [by rewrite E|]. by rewrite lookup_insert_eq.
  - destruct (m !! ct_TemplateID t); [done|]. by rewrite lookup_insert_ne.
Qed.

#[local] Hint Resolve keyed_empty merge_keyed add_missing_keyed : core.

(** A sorted listing of a keyed map finds what the map holds. *)
Lemma listing_find less m id : keyed m -> by_id ct_TemplateID id (stable_sort less (map snd (range m))) = m !! id.
Proof.
  intros Hk. assert (forall t, t ∈ stable_sort less (map snd (range m)) <-> m !! ct_TemplateID t = Some t) as Hin.
  { intros t. rewrite (stable_sort_perm less). rewrite list_elem_of_fmap. split.
    - intros ([k t'] & -> & H%elem_of_range). cbn. by rewrite (Hk _ _ H).
    - intros H. exists (ct_TemplateID t, t). split; [done|by apply elem_of_range]. }
  destruct (by_id _ id _) as [t|] eqn:E.
  - apply find_some in E as [Ht E%String.eqb_eq]. apply list_elem_of_In, Hin in Ht. by rewrite <- E.
  - destruct (m !! id) as [t|] eqn:Em; [|done]. pose proof (Hk _ _ Em) as Hid. exfalso. eapply find_none in E; [|by apply list_elem_of_In, Hin; rewrite Hid].
    cbn in E. by rewrite Hid, String.eqb_refl in E.
Qed.

Lemma listing_NoDup less m : keyed m -> NoDup (map ct_TemplateID (stable_sort less (map snd (range m)))).
Proof.
  intros Hk. rewrite (Permutation_map ct_TemplateID (stable_sort_perm less _)). rewrite map_map. pose proof (range_NoDup m) as Hn.
  assert (map (fun kv => ct_TemplateID kv.2) (range m) = (range m).*1) as ->; [|done]. apply map_ext_in. intros [k t] Hin. cbn. by apply Hk, elem_of_range, list_elem_of_In.
Qed.

Lemma last_unique l id : NoDup (map ct_TemplateID l) -> last (List.filter (fun t => ct_TemplateID t =s id) l) = by_id ct_TemplateID id l.
Proof.
  unfold by_id. induction l as [|t l IH]; cbn; [done|]. intros [Ht Hn]%NoDup_cons. destruct (String.eqb_spec (ct_TemplateID t) id) as [<-|]; [|by apply IH].
  replace (List.filter _ l) with (@nil ComponentTemplate); [done|]. symmetry. apply filter_none. rewrite forallb_forall. intros t' Hin. apply negb_true_iff, String.eqb_neq.
  intros E. apply Ht. rewrite <- E. by apply (list_elem_of_fmap_2 ct_TemplateID), list_elem_of_In.
Qed.

(** The templates a directory gives. *)
Definition root_templates (root : template_root) (source : string) : list ComponentTemplate :=
  match loadTemplateRoot root source with inl _ => [] | inr (l, _) => l end.

Lemma root_templates_valid root source t : t ∈ root_templates root source -> ValidateComponentTemplate t = [] /\ ct_Source t = source.
Proof.
  unfold root_templates, loadTemplateRoot. destruct root as [| |files]; try by intros ?%elem_of_nil.
  intros (o & Ho & Et)%list_elem_of_omap. apply list_elem_of_fmap in Ho as ([path f] & -> & _). revert Et. unfold load_file. cbn [fst snd]. destruct f as [e|t']; [done|].
  destruct (ValidateComponentTemplate (from_file source path t')) eqn:E; cbn; [|done]. by intros [= <-].
Qed.

Lemma root_lookup l id t : last (List.filter (fun t => ct_TemplateID t =s id) l) = Some t -> t ∈ l /\ ct_TemplateID t = id.
Proof. intros H. apply last_Some_elem_of in H. apply list_elem_of_In, filter_In in H as [H E%String.eqb_eq]. split; [by apply list_elem_of_In|done]. Qed.

(** A template of the local directory stands before a built-in one of its identifier. *)
Lemma LoadComponentTemplates_find builtin local store id : LoadComponentTemplates builtin local = inr store ->
  by_id ct_TemplateID id (st_Templates store)
  = match last (List.filter (fun t => ct_TemplateID t =s id) (root_templates local "local")) with
    | Some t => Some t
    | None => last (List.filter (fun t => ct_TemplateID t =s id) (root_templates builtin "built_in"))
    end.
Proof.
  unfold LoadComponentTemplates, root_templates. destruct (loadTemplateRoot builtin _) as [e|[b ib]]; [done|].
  destruct (loadTemplateRoot local _) as [e|[m im]]; intros [= <-]; cbn [st_Templates]; rewrite listing_find by auto; rewrite !merge_lookup.
  - cbn [List.filter last]. by destruct (last _).
  - destruct (last _); [done|]. by destruct (last _).
Qed.

Lemma LoadComponentTemplates_NoDup builtin local store : LoadComponentTemplates builtin local = inr store -> NoDup (map ct_TemplateID (st_Templates store)).
Proof.
  unfold LoadComponentTemplates. destruct (loadTemplateRoot builtin _) as [e|[b ib]]; [done|]. destruct (match loadTemplateRoot local _ with inl _ => _ | inr p => p end).
  intros [= <-]. apply listing_NoDup. auto.
Qed.

Lemma LoadComponentTemplates_In builtin local store t : LoadComponentTemplates builtin local = inr store -> t ∈ st_Templates store ->
  t ∈ root_templates local "local" \/ t ∈ root_templates builtin "built_in".
Proof.
  intros El Ht. pose proof (LoadComponentTemplates_find _ _ _ (ct_TemplateID t) El) as Hf. rewrite <- (last_unique _ _ (LoadComponentTemplates_NoDup _ _ _ El)) in Hf.
  rewrite last_unique in Hf by (by eapply LoadComponentTemplates_NoDup).
  assert (by_id ct_TemplateID (ct_TemplateID t) (st_Templates store) = Some t) as Hb by (apply by_id_In; [by eapply LoadComponentTemplates_NoDup|done]).
  rewrite Hb in Hf. destruct (last (List.filter _ (root_templates local "local"))) as [t'|] eqn:E1.
  - injection Hf as <-. left. by apply root_lookup in E1 as [? _].
  - right. symmetry in Hf. by apply root_lookup in Hf as [? _].
Qed.

(** Files and catalog together: what is listed under an identifier is the template of a
    file, which is valid, or else the first one of the catalog. *)
Theorem registry_find marshal builtin local registry catalog store : loadConfigEditTemplateRegistry marshal builtin local registry catalog = Some (inr store) ->
  exists files generated issues, LoadComponentTemplates builtin local = inr files
    /\ loadMaterializedConfigEditTemplates marshal registry catalog = Some (generated, issues)
    /\ (forall t, t ∈ st_Templates files -> ValidateComponentTemplate t = [] /\ (ct_Source t = "local" \/ ct_Source t = "built_in"))
    /\ NoDup (map ct_TemplateID (st_Templates store))
    /\ forall id, by_id ct_TemplateID id (st_Templates store)
       = match by_id ct_TemplateID id (st_Templates files) with Some t => Some t | None => by_id ct_TemplateID id generated end.
Proof.
  unfold loadConfigEditTemplateRegistry. destruct (LoadComponentTemplates builtin local) as [e|files] eqn:El; [done|].
  destruct (loadMaterializedConfigEditTemplates _ _ _) as [[generated issues]|]; [|done]. cbn [mbind option_bind]. intros [= <-].
  exists files, generated, issues. cbn [st_Templates].
  assert (keyed (foldl add_missing (merge_templates (st_Templates files) ∅) generated)) as Hk by auto.
  split_and!; [done|done| | |].
  - intros t Ht. pose proof (LoadComponentTemplates_In _ _ _ _ El Ht) as [H|H]; apply root_templates_valid in H as [Hv Hs]; (split; [done|]); [by left|by right].
  - by apply listing_NoDup.
  - intros id. rewrite listing_find by done. rewrite add_missing_lookup, merge_lookup. rewrite (last_unique _ _ (LoadComponentTemplates_NoDup _ _ _ El)). by destruct (by_id _ _ _).
Qed.

(** ** Copies *)

Lemma root_templates_In l source t : t ∈ root_templates (RootFiles l) source <->
  exists path t', (path, Loaded t') ∈ l /\ is_yaml path = true /\ t = from_file source path t' /\ ValidateComponentTemplate t = [].
Proof.
  unfold root_templates, loadTemplateRoot. rewrite list_elem_of_omap. split.
  - intros (o & Ho & Et). apply list_elem_of_fmap in Ho as ([path f] & -> & Hin). apply list_elem_of_In, filter_In in Hin as [Hin Hy]. revert Et. unfold load_file. cbn [fst snd].
    destruct f as [e|t']; [done|]. destruct (ValidateComponentTemplate (from_file source path t')) eqn:E; cbn; [|done]. intros [= <-].
    exists path, t'. split_and!; [by apply list_elem_of_In|done|done|done].
  - intros (path & t' & Hin & Hy & -> & Hv). exists (Some (from_file source path t'), []). split; [|done]. apply list_elem_of_fmap. exists (path, Loaded t'). split.
    + unfold load_file. cbn [fst snd]. by rewrite Hv.
    + apply list_elem_of_In, filter_In. split; [by apply list_elem_of_In|done].
Qed.

Lemma valid_from_file source path t : ValidateComponentTemplate (from_file source path t) = ValidateComponentTemplate t.
Proof. done. Qed.

(** A copy is as valid as its source. *)
Lemma clone_valid t : ValidateComponentTemplate t = [] -> ValidateComponentTemplate (clone_of t) = [].
Proof.
  unfold ValidateComponentTemplate. intros [H1 H2]%app_eq_nil. cbn [clone_of ct_TemplateID ct_Kind ct_Version ct_AppliesTo ct_Sections ct_Components].
  rewrite H2, app_nil_r. destruct (TrimSuffix (ct_TemplateID t) "-configedit-v1"); [done|]. done.
Qed.

Lemma keep_file_chars s : any_byte is_slash (keep_bytes file_char s) = false.
Proof.
  induction s as [|c s IH]; [done|]. cbn [keep_bytes]. destruct (file_char c) eqn:E; [|done]. cbn [any_byte]. rewrite IH, orb_false_r. unfold is_slash.
  destruct (Ascii.eqb_spec slash c) as [<-|]; [by vm_compute in E|done].
Qed.

Lemma template_file_plain id : plain (safeTemplateFileName id +s+ ".yaml").
Proof.
  assert (any_byte is_slash (safeTemplateFileName id) = false /\ safeTemplateFileName id <> "") as [Hs Hn].
  { unfold safeTemplateFileName. destruct (String.eqb_spec (keep_bytes file_char (ToLower (TrimSpace id))) ""); [done|]. split; [apply keep_file_chars|done]. }
  destruct (safeTemplateFileName id) as [|c s]; [done|]. unfold plain. split_and!; try done.
  - destruct s as [|c' s]; [by intros [= _ H]|done].
  - intros H. apply (f_equal String.length) in H. rewrite sapp_length in H. cbn in H. lia.
  - by rewrite any_byte_app, Hs.
Qed.

(** The path of the file. *)
Lemma template_path rs id : Forall plain rs -> rs <> [] ->
  Join2 (abs_path rs) (safeTemplateFileName id +s+ ".yaml") = abs_path (rs ++ [safeTemplateFileName id +s+ ".yaml"]) /\
  is_yaml (Join2 (abs_path rs) (safeTemplateFileName id +s+ ".yaml")) = true.
Proof.
  intros Hrs Hne. pose proof (template_file_plain id) as Hp.
  assert (Join2 (abs_path rs) (safeTemplateFileName id +s+ ".yaml") = abs_path (rs ++ [safeTemplateFileName id +s+ ".yaml"])) as E.
  { unfold Join2. cbn [List.filter]. assert ((abs_path rs =s EmptyString) = false) as -> by done.
    assert ((safeTemplateFileName id +s+ ".yaml" =s EmptyString) = false) as -> by (apply String.eqb_neq; by destruct Hp).
    cbn [negb]. rewrite <- (Clean_abs_path (rs ++ [_])) by (by rewrite Forall_app, Forall_singleton). f_equal. unfold abs_path. rewrite Join_app by done.
    cbn [GoStrings.Join]. by rewrite !sapp_assoc. }
  split; [done|]. rewrite E. unfold is_yaml. apply orb_true_iff. left. unfold abs_path. rewrite Join_app by done. cbn [GoStrings.Join].
  rewrite <- !sapp_assoc. apply HasSuffix_app.
Qed.

Lemma last_only {A} (l : list A) x : x ∈ l -> (forall y, y ∈ l -> y = x) -> last l = Some x.
Proof.
  intros Hin Hall. destruct (last l) as [y|] eqn:E; [|apply last_None in E; subst; by apply elem_of_nil in Hin].
  f_equal. apply Hall. by apply last_Some_elem_of in E.
Qed.

(** The files after one is written: it, and others under other paths. *)
Lemma put_file_In path f root : exists l, put_file path f root = RootFiles l /\ (path, f) ∈ l
  /\ forall p g, (p, g) ∈ l -> (p = path /\ g = f) \/ (p <> path /\ exists l0, root = RootFiles l0 /\ (p, g) ∈ l0).
Proof.
  destruct root as [| |l]; cbn [put_file]; try (exists [(path, f)]; split_and!; [done|left|]; intros p g [= -> ->]%list_elem_of_singleton; by left).
  destruct (existsb _ l) eqn:E; eexists; split_and!; try reflexivity.
  - apply existsb_exists in E as (x & Hx%list_elem_of_In & Ex). apply list_elem_of_fmap. exists x. by rewrite Ex.
  - intros p g ([p' g'] & Ep & Hin)%list_elem_of_fmap. cbn in Ep. destruct (String.eqb_spec p' path); injection Ep as -> ->; [by left|]. right. split; [done|]. by exists l.
  - apply elem_of_app. right. by left.
  - intros p g [Hin|[= -> ->]%list_elem_of_singleton]%elem_of_app; [|by left]. right. split; [|by exists l]. intros ->.
    pose proof (existsb_other _ _ _ E Hin) as H. cbn in H. by rewrite String.eqb_refl in H.
Qed.

(** A copy that is answered with 201 is what the next reader finds under its identifier,
    when the text written reads back as the template and no other local file has the
    identifier. *)
Theorem clone_is_listed rewritten rs write_error id builtin local t local' : Forall plain rs -> rs <> [] ->
  HandleCloneConfigEditTemplate rewritten (abs_path rs) write_error id builtin local = (TemplateOne 201 t, local') ->
  (forall u, rewritten u = Loaded u) ->
  (forall u, u ∈ root_templates local "local" -> ct_TemplateID u = ct_TemplateID t -> ct_Path u = ct_Path t) ->
  exists store', LoadComponentTemplates builtin local' = inr store' /\ by_id ct_TemplateID (ct_TemplateID t) (st_Templates store') = Some t.
Proof.
  intros Hrs Hne H Hw Hother. unfold HandleCloneConfigEditTemplate in H. destruct (LoadComponentTemplates builtin local) as [e|store] eqn:El; [done|].
  destruct (by_id ct_TemplateID id (st_Templates store)) as [src|] eqn:Eb; [|done]. destruct write_error; [done|].
  rewrite Hw in H. set (path := Join2 _ _) in H. injection H as <- <-.
  assert (is_yaml path = true) as Hy by (by apply template_path).
  assert (ValidateComponentTemplate (from_file "local" path (clone_of src)) = []) as Hv.
  { rewrite valid_from_file. apply clone_valid. apply find_some in Eb as [Hin%list_elem_of_In _].
    by destruct (LoadComponentTemplates_In _ _ _ _ El Hin) as [Hr|Hr]; apply root_templates_valid in Hr as [? _]. }
  destruct (put_file_In path (Loaded (clone_of src)) local) as (l & -> & Hin & Hl).
  destruct (LoadComponentTemplates builtin (RootFiles l)) as [e|store'] eqn:El'.
  { unfold LoadComponentTemplates in El, El'. destruct (loadTemplateRoot builtin _) as [e'|[b ib]]; [done|]. by destruct (match loadTemplateRoot (RootFiles l) _ with inl _ => _ | inr p => p end). }
  exists store'. split; [done|]. rewrite (LoadComponentTemplates_find _ _ _ _ El'). rewrite (last_only _ (from_file "local" path (clone_of src))); [done| |].
  - apply list_elem_of_In, filter_In. split; [|apply String.eqb_refl]. apply list_elem_of_In, root_templates_In. by exists path, (clone_of src).
  - intros u [Hu%list_elem_of_In Eu%String.eqb_eq]%list_elem_of_In%filter_In. apply root_templates_In in Hu as (p & u' & Hu & Hyu & -> & Hvu).
    destruct (Hl _ _ Hu) as [[-> [= ->]]|[Hp (l0 & -> & Hl0)]]; [done|]. exfalso. apply Hp. apply (Hother (from_file "local" p u')); [|exact Eu].
    apply root_templates_In. by exists p, u'.
Qed.
End Facts.

(** ** At concrete inputs *)

#[local] Existing Instance canonical_range.

Definition no_marshal : obj -> string := fun _ => "".
Definition shipped_listing : option (string + TemplateStore) := loadConfigEditTemplateRegistry no_marshal NoRoot NoRoot (inr demo_registry) (inr shipped_catalog).
Definition shipped_templates : list ComponentTemplate := match shipped_listing with Some (inr s) => st_Templates s | _ => [] end.

(** The template of a runtime is listed, and not found when it is copied: the copy looks at
    files only. *)
Example listed_not_copied :
  (map ct_TemplateID shipped_templates,
   (HandleCloneConfigEditTemplate Loaded "/templates" None "runtimevllmnvidia-docker-materialized-configedit-v1" NoRoot NoRoot).1)
  = (["runtimevllmnvidia-docker-materialized-configedit-v1"], TemplateError 404 "not found").
Proof. vm_compute. reflexivity. Qed.

(** It passes the validator, which is run on files only. *)
Example listed_is_valid : map ValidateComponentTemplate shipped_templates = [[]].
Proof. vm_compute. reflexivity. Qed.

(** Two identifiers with one file name: the copy of the second overwrites that of the first. *)
Definition file_template (id : string) : ComponentTemplate :=
  {| ct_TemplateID := id; ct_Kind := "config_edit_template"; ct_Version := 1; ct_Source := ""; ct_Path := "";
     ct_AppliesTo := {| at_Backend := "vllm"; at_BackendVersions := []; at_RuntimeKind := "docker"; at_Vendors := [] |}; ct_Metadata := None;
     ct_Views := {| tv_DefaultView := ""; tv_SupportedViews := [] |}; ct_Layers := ∅; ct_Sections := []; ct_Fields := []; ct_Components := [] |}.
Definition two_files : template_root := RootFiles [("/builtin/a.yaml", Loaded (file_template "vllm.a")); ("/builtin/b.yaml", Loaded (file_template "vllma"))].
Definition ids_of (builtin local : template_root) : list string :=
  match LoadComponentTemplates builtin local with inr s => map ct_TemplateID (st_Templates s) | inl _ => [] end.

Example one_file_name :
  let first := (HandleCloneConfigEditTemplate Loaded "/templates" None "vllm.a" two_files NoRoot).2 in
  let second := (HandleCloneConfigEditTemplate Loaded "/templates" None "vllma" two_files first).2 in
  (ids_of two_files first, ids_of two_files second)
  = (["vllm.a"; "vllm.a-local-configedit-v1"; "vllma"], ["vllm.a"; "vllma"; "vllma-local-configedit-v1"]).
Proof. vm_compute. reflexivity. Qed.

(** *** Witness *)

Definition first_copy : template_reply * template_root := HandleCloneConfigEditTemplate Loaded "/templates" None "vllm.a" two_files NoRoot.
Definition copied_template : ComponentTemplate := match first_copy.1 with TemplateOne _ t => t | _ => file_template "" end.

Lemma clone_is_listed_witness :
  first_copy = (TemplateOne 201 copied_template, first_copy.2) /\
  exists store', LoadComponentTemplates two_files first_copy.2 = inr store' /\ by_id ct_TemplateID (ct_TemplateID copied_template) (st_Templates store') = Some copied_template.
Proof.
  assert (HandleCloneConfigEditTemplate Loaded (abs_path ["templates"]) None "vllm.a" two_files NoRoot = (TemplateOne 201 copied_template, first_copy.2)) as E
    by (vm_compute; reflexivity).
  assert (Forall plain ["templates"]) as Hp by (apply Forall_singleton; unfold plain; split_and!; [discriminate|discriminate|discriminate|reflexivity]).
  split; [exact E|].
  apply (clone_is_listed Loaded ["templates"] None "vllm.a" two_files NoRoot copied_template first_copy.2 Hp ltac:(discriminate) E).
  - intros u. reflexivity.
  - intros u Hu. exfalso. exact (proj1 (elem_of_nil u) Hu).
Defined.
