(* ===== verification/DeploymentPreview.v ===== *)
(** * The preview of a deployment (internal/server/api/deployment_preview_handlers.go)

    A body that could create a deployment is resolved without writing anything: the rows
    it names are checked, a set is built from the one of the node runtime, and the plan
    resolved from it is shown with its command and its findings.  The tables are those of
    [Preflight]; of the node runtimes the whole rows are read, and of the database the
    instances, which hold the host ports in use. *)
From S2P Require Import Prelude GoStrings GoNumbers GoValue GoJson GoJsonText RuntimeContract RunPlanTypes ConfigSets ConfigSetProps ConfigEdit RunPlanLint Resolver SourceMap.
From S2P Require Import Store Deployments LifecycleProps RunPlanViews SemanticAdapter Preflight PreflightProps Detection AgentSpec NodeRuntimes NodeRuntimeProps DeploymentDocs DeploymentDocProps.
From Stdlib Require Import Ascii.

(** ** Issues *)

(** An entry of the answer. *)
Definition issue (code msg field severity : string) : obj := default [] (as_map (errEntry code msg field severity)).

Definition hasBlockingIssue (items : list obj) : bool :=
  existsb (fun item => match obj_get item "blocking" with
                       | Some (ABool b) => b
                       | _ => match get_any item "severity" with AStr s => s =s "error" | _ => false end
                       end) items.

(** [fmt.Sprintf] of five fields. *)
Definition issue_key (item : obj) : string :=
  GoStrings.Join (map (fun k => fmt_v (get_any item k)) ["code"; "key"; "path"; "reason"; "source"]) "|".

(** The loop of [dedupeIssueEntries], which skips the keys [seen]. *)
Fixpoint dedupe_from (seen : list string) (items : list obj) : list obj :=
  match items with
  | [] => []
  | item :: rest => if existsb (String.eqb (issue_key item)) seen then dedupe_from seen rest
                    else item :: dedupe_from (issue_key item :: seen) rest
  end.

Definition dedupeIssueEntries (items : list obj) : list obj := dedupe_from [] items.

Definition defsToFlags (defs : list ParameterDef) : list string := List.filter (fun f => f <>s "") (map pd_CliName defs).

(** ** The answer *)

Record preview := {
  pd_can_run : bool; pd_plan : option (ResolvedRunPlan * ParameterSourceMap); pd_docker : string; pd_lint : LintResult;
  pd_errors : list obj; pd_warnings : list obj
}.

Inductive preview_reply := PreviewBadRequest (msg : string) | PreviewPanicked | Previewed (p : preview).

Definition previewResponse (can_run : bool) (plan : option (ResolvedRunPlan * ParameterSourceMap)) (docker : string) (lint : LintResult)
    (errors warnings : list obj) : preview :=
  {| pd_can_run := can_run; pd_plan := plan; pd_docker := docker; pd_lint := lint; pd_errors := errors; pd_warnings := warnings |}.

Definition lint_ok : LintResult := {| lr_Status := "ok"; lr_Findings := [] |}.

(** The answer of a check that fails. *)
Definition preview_refused (e : obj) (warns : list obj) : preview_reply := Previewed (previewResponse false None "" lint_ok [e] warns).

(** ** Ports and devices *)

(** The host port the body asks for. *)
Definition preview_host_port (body : obj) : Z :=
  match get_obj body "service_json" with
  | Some svc => match obj_get svc "host_port" with Some (AFloat f) => f64_to_int f | Some (AInt z) => z | _ => 0%Z end
  | None => 0%Z
  end.

Definition port_users (db : DB) (port : Z) : list instance_row :=
  List.filter (fun i => (i_host_port i =? port)%Z && existsb (String.eqb (i_actual i)) ["pending"; "starting"; "running"]) (db_instances db).

(** What the body says of the placement: devices, mode, count, whether another device may
    be taken, whether devices are bound. *)
Definition asked_placement (node : string) (body : obj) : PlacementInfo :=
  match get_obj body "placement_json" with
  | None => {| pl_NodeID := node; pl_AcceleratorIds := []; pl_AcceleratorSelectionMode := ""; pl_AcceleratorCount := 0;
               pl_DeviceBindingEnabled := None; pl_AllowAutoSelect := true |}
  | Some p => {| pl_NodeID := node;
                 pl_AcceleratorIds := match obj_get p "accelerator_ids" with Some (AList l) => omap as_str l | _ => [] end;
                 pl_AcceleratorSelectionMode := TrimSpace (obj_strVal p "accelerator_selection_mode" "");
                 pl_AcceleratorCount := api_intFromAny (get_any p "accelerator_count") 0;
                 pl_DeviceBindingEnabled := (fun v => api_boolFromAny v true) <$> obj_get p "device_binding_enabled";
                 pl_AllowAutoSelect := api_boolFromAny (get_any p "allow_auto_select") true |}
  end.

Definition preview_placement (dc : documents) (node : string) (body : obj) : PlacementInfo :=
  let asked := asked_placement node body in
  let mode := match pl_DeviceBindingEnabled asked with Some false => "disabled" | _ => pl_AcceleratorSelectionMode asked end in
  let ids := if mode =s "disabled" then [] else pl_AcceleratorIds asked in
  let auto := match ids with
              | [] => if (node <>s "") && (mode <>s "disabled")
                      then match free_gpus dc node with g :: _ => if gd_id g =s "" then [] else [gd_id g] | [] => [] end
                      else []
              | _ => []
              end in
  let mode := match auto with [] => mode | _ => if mode =s "" then "auto" else mode end in
  let ids := ids ++ auto in
  let mode := match ids with [] => mode | _ => if mode =s "" then "manual" else mode end in
  {| pl_NodeID := node; pl_AcceleratorIds := ids; pl_AcceleratorSelectionMode := mode;
     pl_AcceleratorCount := if (pl_AcceleratorCount asked =? 0)%Z then Z.of_nat (length ids) else pl_AcceleratorCount asked;
     pl_DeviceBindingEnabled := pl_DeviceBindingEnabled asked; pl_AllowAutoSelect := pl_AllowAutoSelect asked |}.

Section Preview.
Context `{MR : MapRange} (decode_error : any -> string).

(** ** The set that is resolved *)

(** [now] is the time an edit is stamped with. *)
Definition preview_config (config : any) (body : obj) (now : string) : edit_outcome :=
  let set := copy_of config in
  let set := match get_obj body "config_overrides" with Some o => applyConfigOverrides "deployment" "preview" set o | None => set end in
  match applyEditableConfigPatchIfPresent decode_error set body "deployment" "preview" now with
  | Edited set =>
      let service := default [] (get_obj body "service_json") in
      Edited (match get_obj body "placement_json" with
              | Some placement => materializeDeploymentCompatConfig "deployment" "preview" placement service set
              | None => match get_obj body "service_json" with
                        | Some service => materializeDeploymentCompatConfig "deployment" "preview" [] service set
                        | None => set
                        end
              end)
  | other => other
  end.

(** ** The resolver's input *)

Definition preview_snapshot (set : obj) : NBRSnapshotInfo :=
  {| nbr_ArgsOverride := configStringSlice set "launcher.command"; nbr_DefaultEnv := configStringMap set "runtime.env";
     nbr_EntrypointOverride := configStringSlice set "launcher.entrypoint"; nbr_Docker := configDockerSpec set;
     nbr_ModelMount := configModelMount set; nbr_HealthCheckOverride := configHealthCheckPtr set;
     nbr_DeviceBinding := configDeviceBinding set; nbr_ServicePortBinding := configServicePortBinding set;
     nbr_ParameterSchema := configSetParameterDefs set; nbr_ParameterValues := configSetParameterValues set |}.

(** Only the identifier of the version is given. *)
Definition preview_version (id : string) : VersionInfo :=
  {| vi_ID := id; vi_Version := ""; vi_DefaultEntrypoint := []; vi_DefaultArgs := []; vi_DefaultBackendParams := []; vi_ParameterDefs := [];
     vi_HealthCheck := {| hi_Path := ""; hi_ExpectedStatus := 0; hi_StartupTimeoutSeconds := 0; hi_IntervalSeconds := 0; hi_TimeoutSeconds := 0 |};
     vi_DefaultContainerPort := 0; vi_DefaultImages := ∅; vi_Env := ∅; vi_VendorOptionsJSON := "" |}.

Definition preview_runtime (rt : runtime_doc) (set : obj) : RuntimeInfo :=
  {| ri_ID := br_id rt; ri_Vendor := br_vendor rt; ri_RuntimeType := br_type rt; ri_LauncherKind := configLauncherKind set (br_type rt);
     ri_ImageName := configString set "launcher.image" ""; ri_EntrypointOverride := configStringSlice set "launcher.entrypoint";
     ri_ArgsOverride := configStringSlice set "launcher.command"; ri_DefaultEnv := configStringMap set "runtime.env";
     ri_Docker := configDockerSpec set; ri_ModelMount := configModelMount set; ri_HealthCheckOverride := configHealthCheckPtr set |}.

Definition preview_artifact (a : artifact_doc) (loc : location_doc) : ArtifactInfo :=
  {| ai_ID := ad_id a; ai_Name := firstNonEmpty [ad_display_name a; ad_name a]; ai_Path := firstNonEmpty [lo_absolute loc; ad_path a];
     ai_ModelRoot := lo_root loc; ai_RelativePath := lo_relative loc |}.

Definition no_service : ServiceInfo :=
  {| sv_HostPort := 0; sv_ContainerPort := 0; sv_AppPort := 0; sv_ListenHost := ""; sv_HealthPort := 0; sv_APITestPort := 0 |}.

Definition preview_deployment (body set : obj) (placement : PlacementInfo) : DeploymentInfo :=
  {| di_ID := "preview"; di_Name := obj_strVal body "name" "preview"; di_Parameters := ∅; di_EnvOverrides := ∅;
     di_ParameterValues := configSetParameterValues set; di_DisabledParameters := []; di_Placement := placement; di_Service := no_service |}.

Definition preview_backend (rt : runtime_doc) : string := TrimPrefix (br_backend rt) "backend.".

Definition preview_input (dc : documents) (now : string) (body set : obj) (rt : runtime_doc) (a : artifact_doc) (loc : location_doc) (node : string) :
    ResolveInput :=
  let placement := preview_placement dc node body in
  ApplySemanticSnapshot
    {| in_Backend := {| bi_ID := br_backend rt; bi_Name := preview_backend rt; bi_DefaultVersion := ""; bi_DefaultEnv := ∅ |};
       in_BackendVersion := preview_version (br_version rt); in_BackendRuntime := preview_runtime rt set; in_NodeRuntimeOverride := None;
       in_Artifact := preview_artifact a loc; in_Deployment := preview_deployment body set placement; in_InstanceID := "preview";
       in_Node := {| ni_ID := node; ni_IP := "" |}; in_AssignedGPUs := gpu_infos dc (pl_AcceleratorIds placement);
       in_ProcessStartConfig := None; in_NBRConfigSnapshot := Some (preview_snapshot set) |}
    (adapter_items (semanticDeploymentSnapshot now set (default [] (get_obj body "service_json")))) (preview_backend rt).

(** ** The plan and its findings *)

Context (input_hash : ResolveInput -> string) (plan_hash : ResolvedRunPlan -> string).

Definition resolve_entry (blocking : bool) (e : ResolveError) : obj :=
  obj_set "severity" (AStr (if blocking then "error" else "warning"))
    (obj_set "blocking" (ABool blocking) (obj_set "source" (AStr "runplan_resolver") (issue "resolve_error" (resolve_error_text e) "runplan" "warning"))).

Definition preview_docker_spec (plan : ResolvedRunPlan) : DockerSpecInfo :=
  {| ds_Privileged := rp_Privileged plan; ds_IPCMode := rp_IPCMode plan; ds_UTSMode := ""; ds_NetworkMode := ""; ds_ShmSize := "";
     ds_GPUVisibleEnvKey := ""; ds_Ulimits := ∅; ds_SecurityOptions := rp_SecurityOptions plan; ds_CapAdd := rp_CapAdd plan;
     ds_CapDrop := rp_CapDrop plan; ds_Devices := []; ds_GroupAdd := []; ds_GpuDriver := ""; ds_GpuCapabilities := [] |}.

Definition preview_lint (rt : runtime_doc) (set : obj) (plan : option ResolvedRunPlan) : LintResult :=
  LintRunPlan {| li_PreDedupArgs := []; li_FinalArgs := match plan with Some p => rp_Args p | None => [] end;
                 li_Env := match plan with Some p => rp_Env p | None => ∅ end; li_PlatformOwnedParams := DefaultLogicalParamSpecs;
                 li_BackendName := preview_backend rt; li_DockerSpec := preview_docker_spec <$> plan; li_EnvSources := ∅;
                 li_RequiredParamKeys := []; li_DisabledParamKeys := []; li_DisabledParamSources := ∅; li_ActiveParamKeys := [];
                 li_Vendor := br_vendor rt; li_BackendArgsSchema := defsToFlags (configSetParameterDefs set) |}.

Definition preview_resolved (rt : runtime_doc) (set : obj) (inp : ResolveInput) (warns : list obj) : preview :=
  let '(plan, rerrs, rwarns) := ResolveWithSourceMap input_hash plan_hash inp in
  let blocking := match plan with Some _ => false | None => true end in
  let entries := map (resolve_entry blocking) rerrs in
  let errs := dedupeIssueEntries (if blocking then entries else []) in
  let warns := warns ++ (if blocking then [] else entries)
               ++ map (fun w => issue "resolve_warning" (resolve_warning_text w) "runplan" "warning") rwarns in
  previewResponse (negb blocking && negb (hasBlockingIssue errs)) plan
    (match plan with Some (p, _) => RunPlanViews.EquivalentCommandPreview p | None => "" end)
    (preview_lint rt set (fst <$> plan)) errs (dedupeIssueEntries warns).

(** ** The handler *)

Definition missing_fields (artifactID nbrID : string) : list obj :=
  (if artifactID =s "" then [issue "missing_field" "model_artifact_id is required" "model_artifact_id" "error"] else [])
  ++ (if nbrID =s "" then [issue "missing_field" "node_backend_runtime_id is required" "node_backend_runtime_id" "error"] else []).

Definition ready_warning (nb : nbr_row) : list obj :=
  if nr_status nb =s "ready_with_warnings"
  then [issue "nbr_ready_with_warnings" "NBR is ready with warnings — deployment may succeed but has non-blocking issues"
          "node_backend_runtime_id" "warning"] else [].

(** The rows are found: devices, port, set, template, plan. *)
Definition preview_located (dc : documents) (db : DB) (s : session) (now : string) (body : obj) (nb : nbr_row) (a : artifact_doc) (loc : location_doc) :
    preview_reply :=
  let node := nr_node nb in
  let owner := match by_id no_id node (dc_nodes dc) with Some n => no_tenant n | None => "" end in
  let warns := ready_warning nb in
  if negb (s_admin s) && (owner <>s s_tenant s) && (owner <>s "")
  then preview_refused (issue "tenant_mismatch" "tenant does not have access" "node_id" "error") warns
  else
    let warns := warns ++ match free_gpus dc node with
                          | [] => [issue "no_available_gpu" "no available GPU found on node" "node_id" "warning"]
                          | _ => []
                          end in
    let port := preview_host_port body in
    if (0 <? port)%Z && (0 <? length (port_users db port))%nat
    then preview_refused (issue "host_port_conflict" ("host port " +s+ Itoa port +s+ " is already in use") "service_json.host_port" "error") warns
    else match preview_config (nr_config nb) body now with
         | EditRefused e => preview_refused (issue "config_edit_patch_invalid" e "editable_config_patch" "error") warns
         | EditPanic => PreviewPanicked
         | Edited set =>
             match by_id br_id (nr_runtime nb) (dc_runtimes dc) with
             | None => preview_refused (issue "runtime_not_found" "backend runtime not found" "node_backend_runtime_id" "error") warns
             | Some rt => Previewed (preview_resolved rt set (preview_input dc now body set rt a loc node) warns)
             end
         end.

(** [rows]: the node runtimes; [None]: the body is not an object. *)
Definition HandleDeploymentPreview (dc : documents) (rows : list nbr_row) (db : DB) (s : session) (now : string) (body : option obj) : preview_reply :=
  match body with
  | None => PreviewBadRequest "invalid request"
  | Some body =>
      match obj_get body "backend_runtime_id" with
      | Some _ => PreviewBadRequest "BackendRuntime is a template and cannot be used for deployment. Use node_backend_runtime_id."
      | None =>
          let artifactID := obj_strVal body "model_artifact_id" "" in
          let nbrID := obj_strVal body "node_backend_runtime_id" "" in
          match missing_fields artifactID nbrID with
          | (_ :: _) as errs => Previewed (previewResponse false None "" lint_ok errs [])
          | [] =>
              match by_id nr_id nbrID rows with
              | None => PreviewBadRequest "node_backend_runtime_id not found"
              | Some nb =>
                  if negb (isNBRDeployable (nr_status nb))
                  then preview_refused (issue "nbr_not_deployable"
                         ("NBR status=" +s+ nr_status nb +s+ ": " +s+ nbrDisabledReason (nr_status nb) "") "node_backend_runtime_id" "error") []
                  else match by_id ad_id artifactID (dc_artifacts dc) with
                       | None => preview_refused (issue "model_not_found" "model artifact not found" "model_artifact_id" "error") (ready_warning nb)
                       | Some a =>
                           match findDeployableModelLocation dc artifactID (nr_node nb) with
                           | (None, reason) => preview_refused (issue "model_location_missing" reason "model_artifact_id" "error") (ready_warning nb)
                           | (Some loc, _) => preview_located dc db s now body nb a loc
                           end
                       end
              end
          end
      end
  end.
End Preview.

(** ** Issues are listed once *)

Lemma dedupe_from_spec seen items :
  NoDup (map issue_key (dedupe_from seen items)) /\ (forall i, i ∈ dedupe_from seen items -> issue_key i ∉ seen) /\
  dedupe_from seen items `sublist_of` items /\ (forall i, i ∈ items -> issue_key i ∈ seen \/ issue_key i ∈ map issue_key (dedupe_from seen items)).
Proof.
  revert seen. induction items as [|x items IH]; intros seen; cbn [dedupe_from].
  { split_and!; [constructor|by intros i ?%elem_of_nil|constructor|by intros i ?%elem_of_nil]. }
  destruct (existsb (String.eqb (issue_key x)) seen) eqn:E.
  - destruct (IH seen) as (H1 & H2 & H3 & H4). split_and!; [done..|by apply sublist_cons|]. intros i [->|Hi]%elem_of_cons; [|by apply H4].
    left. apply existsb_exists in E as (k & Hk & E). apply String.eqb_eq in E as ->. by apply list_elem_of_In.
  - destruct (IH (issue_key x :: seen)) as (H1 & H2 & H3 & H4).
    assert (issue_key x ∉ seen) as Hx.
    { intros Hx. apply not_true_iff_false in E. apply E, existsb_exists. exists (issue_key x). rewrite <- list_elem_of_In. by rewrite String.eqb_refl. }
    split_and!.
    + cbn. apply NoDup_cons. split; [|done]. intros (i & Hk & Hi)%list_elem_of_fmap. apply (H2 _ Hi). rewrite <- Hk. by left.
    + intros i [->|Hi]%elem_of_cons; [done|]. intros Hs. apply (H2 _ Hi). by right.
    + by apply sublist_skip.
    + intros i [->|Hi]%elem_of_cons; [right; cbn; by left|]. destruct (H4 _ Hi) as [Hs|Hs]; [|right; cbn; by right].
      apply elem_of_cons in Hs as [->|Hs]; [right; cbn; by left|by left].
Qed.

(** Of the issues with one key the first is kept, and every key is. *)
Theorem dedupe_lists_once items :
  NoDup (map issue_key (dedupeIssueEntries items)) /\ dedupeIssueEntries items `sublist_of` items /\
  (forall k, k ∈ map issue_key (dedupeIssueEntries items) <-> k ∈ map issue_key items).
Proof.
  destruct (dedupe_from_spec [] items) as (H1 & _ & H3 & H4). split_and!; [done..|]. intros k. split.
  - intros (i & -> & Hi)%list_elem_of_fmap. apply list_elem_of_fmap_2. by eapply elem_of_sublist.
  - intros (i & -> & Hi)%list_elem_of_fmap. destruct (H4 _ Hi) as [H|H]; [by apply elem_of_nil in H|done].
Qed.

Lemma dedupe_nil items : dedupeIssueEntries items = [] <-> items = [].
Proof.
  split; [|by intros ->]. destruct items as [|x items]; [done|]. unfold dedupeIssueEntries. by cbn [dedupe_from existsb].
Qed.

(** ** When a preview says that the deployment can run *)

Section Facts.
Context `{MR : MapRange} (decode_error : any -> string) (input_hash : ResolveInput -> string) (plan_hash : ResolvedRunPlan -> string).

(** What a body must refer to. *)
Record previewable (dc : documents) (rows : list nbr_row) (db : DB) (s : session) (now : string) (body : obj)
    (nb : nbr_row) (a : artifact_doc) (loc : location_doc) (rt : runtime_doc) (set : obj) : Prop := {
  pw_current : obj_get body "backend_runtime_id" = None;
  pw_artifact_id : obj_strVal body "model_artifact_id" "" <> "";
  pw_nbr_id : obj_strVal body "node_backend_runtime_id" "" <> "";
  pw_nbr : by_id nr_id (obj_strVal body "node_backend_runtime_id" "") rows = Some nb;
  pw_ready : isNBRDeployable (nr_status nb) = true;
  pw_artifact : by_id ad_id (obj_strVal body "model_artifact_id" "") (dc_artifacts dc) = Some a;
  pw_location : List.find (location_deployable (nr_node nb)) (listModelLocations dc (obj_strVal body "model_artifact_id" "")) = Some loc;
  pw_tenant : let owner := match by_id no_id (nr_node nb) (dc_nodes dc) with Some n => no_tenant n | None => "" end in
              s_admin s = true \/ owner = s_tenant s \/ owner = "";
  pw_port : (0 < preview_host_port body)%Z -> port_users db (preview_host_port body) = [];
  pw_set : preview_config decode_error (nr_config nb) body now = Edited set;
  pw_runtime : by_id br_id (nr_runtime nb) (dc_runtimes dc) = Some rt
}.

Definition preview_warnings (dc : documents) (nb : nbr_row) : list obj :=
  ready_warning nb ++ match free_gpus dc (nr_node nb) with
                      | [] => [issue "no_available_gpu" "no available GPU found on node" "node_id" "warning"]
                      | _ => []
                      end.

Lemma tenant_test (adm : bool) (owner tenant : string) :
  negb adm && (owner <>s tenant) && (owner <>s "") = false <-> adm = true \/ owner = tenant \/ owner = "".
Proof.
  destruct adm; cbn; [by split; [left|]|]. destruct (String.eqb_spec owner tenant); cbn; [split; [by right; left|done]|].
  destruct (String.eqb_spec owner ""); cbn; [split; [by right; right|done]|]. split; [done|intros [?|[?|?]]; done].
Qed.

Lemma port_test (port : Z) (l : list instance_row) : (0 <? port)%Z && (0 <? length l)%nat = false <-> ((0 < port)%Z -> l = []).
Proof.
  destruct (0 <? port)%Z eqn:E; bool_facts; cbn; [|split; [lia|done]].
  destruct l; cbn; split; intros H; try done. by specialize (H ltac:(lia)).
Qed.

Lemma previewable_preview dc rows db s now body nb a loc rt set :
  previewable dc rows db s now body nb a loc rt set ->
  HandleDeploymentPreview decode_error input_hash plan_hash dc rows db s now (Some body)
  = Previewed (preview_resolved input_hash plan_hash rt set (preview_input dc now body set rt a loc (nr_node nb)) (preview_warnings dc nb)).
Proof.
  intros []. unfold HandleDeploymentPreview, missing_fields, findDeployableModelLocation, preview_located.
  rewrite pw_current0, (proj2 (String.eqb_neq _ _) pw_artifact_id0), (proj2 (String.eqb_neq _ _) pw_nbr_id0). cbn [app].
  rewrite pw_nbr0, pw_ready0, pw_artifact0, pw_location0. cbn [negb].
  by rewrite (proj2 (tenant_test _ _ _) pw_tenant0), (proj2 (port_test _ _) pw_port0), pw_set0, pw_runtime0.
Qed.

(** The answers that are no bare refusal are those of a resolution. *)
Lemma preview_previewable dc rows db s now body p :
  HandleDeploymentPreview decode_error input_hash plan_hash dc rows db s now (Some body) = Previewed p ->
  (pd_can_run p = false /\ pd_plan p = None /\ pd_docker p = "" /\ pd_errors p <> []) \/
  exists nb a loc rt set, previewable dc rows db s now body nb a loc rt set /\
    p = preview_resolved input_hash plan_hash rt set (preview_input dc now body set rt a loc (nr_node nb)) (preview_warnings dc nb).
Proof.
  unfold HandleDeploymentPreview, preview_located, findDeployableModelLocation, preview_refused.
  destruct (obj_get body "backend_runtime_id") eqn:E1; [done|].
  destruct (missing_fields _ _) as [|e es] eqn:E2; [|intros [= <-]; left; cbn; by split_and!].
  destruct (by_id nr_id _ _) as [nb|] eqn:E3; [|done]. destruct (isNBRDeployable _) eqn:E4; cbn [negb]; [|intros [= <-]; left; cbn; by split_and!].
  destruct (by_id ad_id _ _) as [a|] eqn:E5; [|intros [= <-]; left; cbn; by split_and!]. destruct (List.find _ _) as [loc|] eqn:E6; [|intros [= <-]; left; cbn; by split_and!].
  destruct (negb _ && _ && _) eqn:E7; [intros [= <-]; left; cbn; by split_and!|]. destruct ((0 <? preview_host_port body)%Z && _) eqn:E8; [intros [= <-]; left; cbn; by split_and!|].
  destruct (preview_config _ _ _ _) as [e| |set] eqn:E9; [intros [= <-]; left; cbn; by split_and!|done|].
  destruct (by_id br_id _ _) as [rt|] eqn:E10; [|intros [= <-]; left; cbn; by split_and!]. intros [= <-]. right. exists nb, a, loc, rt, set. split; [|done].
  unfold missing_fields in E2. apply app_eq_nil in E2 as [Ea En].
  destruct (obj_strVal body "model_artifact_id" "" =s "") eqn:Ea' in Ea; [done|].
  destruct (obj_strVal body "node_backend_runtime_id" "" =s "") eqn:En' in En; [done|]. bool_facts.
  split; try done; [by apply tenant_test|by apply port_test].
Qed.

Lemma resolved_answer rt set inp warns :
  let p := preview_resolved input_hash plan_hash rt set inp warns in
  pd_plan p = (ResolveWithSourceMap input_hash plan_hash inp).1.1 /\ pd_can_run p = bool_decide (is_Some (pd_plan p)) /\
  (pd_errors p = [] <-> is_Some (pd_plan p)) /\
  pd_docker p = match pd_plan p with Some (plan, _) => RunPlanViews.EquivalentCommandPreview plan | None => "" end.
Proof.
  unfold preview_resolved, ResolveWithSourceMap. destruct (Resolve _ _ _) as [[[plan|] errs] warns'] eqn:E; cbn -[dedupeIssueEntries].
  - split_and!; try done.
  - apply Resolve_None in E as [He _]. split_and!; try done. rewrite dedupe_nil. split; [by destruct errs|by intros []].
Qed.

(** A preview says that the deployment can run exactly when the body names a node
    runtime of a deployable status, an artifact with a verified location on its node, a
    node the caller may use and a host port no instance holds, the set after overrides
    and patch exists, and the resolver returns a plan for it; then no error is listed and
    the command shown is that of the plan. *)
Theorem preview_can_run dc rows db s now body :
  (exists p, HandleDeploymentPreview decode_error input_hash plan_hash dc rows db s now (Some body) = Previewed p /\ pd_can_run p = true) <->
  exists nb a loc rt set plan sources,
    previewable dc rows db s now body nb a loc rt set
    /\ (ResolveWithSourceMap input_hash plan_hash (preview_input dc now body set rt a loc (nr_node nb))).1.1 = Some (plan, sources)
    /\ exists p, HandleDeploymentPreview decode_error input_hash plan_hash dc rows db s now (Some body) = Previewed p
         /\ pd_plan p = Some (plan, sources) /\ pd_errors p = [] /\ pd_docker p = RunPlanViews.EquivalentCommandPreview plan.
Proof.
  split.
  - intros (p & Hp & Hc). destruct (preview_previewable _ _ _ _ _ _ _ Hp) as [[Hc' _]|(nb & a & loc & rt & set & D & ->)]; [by rewrite Hc in Hc'|].
    destruct (resolved_answer rt set (preview_input dc now body set rt a loc (nr_node nb)) (preview_warnings dc nb)) as (H1 & H2 & H3 & H4).
    rewrite H2 in Hc. apply bool_decide_eq_true in Hc as Hs. destruct Hs as [[plan sources] Hs].
    exists nb, a, loc, rt, set, plan, sources. split; [done|]. rewrite <- H1, Hs. split; [done|]. eexists. split; [exact Hp|].
    rewrite H4, Hs. split_and!; [done|by apply H3; eexists|done].
  - intros (nb & a & loc & rt & set & plan & sources & D & Hr & _). eexists. split; [by apply previewable_preview|].
    destruct (resolved_answer rt set (preview_input dc now body set rt a loc (nr_node nb)) (preview_warnings dc nb)) as (H1 & -> & _).
    rewrite H1, Hr. by apply bool_decide_eq_true.
Qed.

(** Whatever the answer, a deployment can run exactly when no error is listed. *)
Theorem preview_errors dc rows db s now body p :
  HandleDeploymentPreview decode_error input_hash plan_hash dc rows db s now (Some body) = Previewed p ->
  (pd_can_run p = true <-> pd_errors p = []).
Proof.
  intros [(-> & _ & _ & He)|(nb & a & loc & rt & set & _ & ->)]%preview_previewable; [done|].
  destruct (resolved_answer rt set (preview_input dc now body set rt a loc (nr_node nb)) (preview_warnings dc nb)) as (_ & -> & -> & _).
  apply bool_decide_eq_true.
Qed.
End Facts.

(** ** Sets that differ in what they say of their authors

    Writing a setting notes the layer and the object it was written for; nothing that
    reads a setting looks at these notes. *)

Definition item_like (i j : obj) : Prop := forall k, k <> "provenance" -> obj_get i k = obj_get j k.

Record alike (a b : obj) : Prop := {
  al_items : forall c, option_Forall2 item_like (configItem a c) (configItem b c);
  al_frame : forall k, k <> "items" -> obj_get a k = obj_get b k
}.

#[export] Instance item_like_equiv : Equivalence item_like.
Proof.
  split; [done|by intros i j H k Hk; rewrite H|]. intros i j l H1 H2 k Hk. by rewrite H1, H2.
Qed.

#[export] Instance alike_equiv : Equivalence alike.
Proof.
  split.
  - intros a. split; [|done]. intros c. by destruct (configItem a c); constructor.
  - intros a b [H1 H2]. split; [|by intros k Hk; rewrite H2]. intros c. by destruct (H1 c); constructor; symmetry.
  - intros a b c [H1 H2] [H3 H4]. split; [|by intros k Hk; rewrite H2, H4]. intros x. specialize (H1 x). specialize (H3 x).
    destruct H1 as [i j Hij|]; inversion H3 as [? l Hjl|]; subst; constructor. intros k Hk. by rewrite Hij, Hjl.
Qed.

Lemma like_get i j k : item_like i j -> k <> "provenance" -> get_obj i k = get_obj j k.
Proof. intros H Hk. unfold get_obj. by rewrite H. Qed.

#[export] Instance setting_alike : Proper (alike ==> eq ==> eq) setting.
Proof.
  intros a b [H _] c ? <-. unfold setting. destruct (H c) as [i j Hij|]; [|done]. cbn. unfold item_value_of. by rewrite (like_get i j) by done.
Qed.

#[export] Instance configValue_alike : Proper (alike ==> eq ==> eq ==> eq) configValue.
Proof. intros a b H c ? <- d ? <-. by rewrite !configValue_setting, H. Qed.

#[export] Instance configObject_alike : Proper (alike ==> eq ==> eq) configObject.
Proof. intros a b H c ? <-. unfold configObject. by rewrite H. Qed.

#[export] Instance configString_alike : Proper (alike ==> eq ==> eq ==> eq) configString.
Proof. intros a b H c ? <- d ? <-. unfold configString. by rewrite H. Qed.

#[export] Instance configStringSlice_alike : Proper (alike ==> eq ==> eq) configStringSlice.
Proof. intros a b H c ? <-. unfold configStringSlice. by rewrite H. Qed.

(** *** Writing *)

Lemma update_like k f i j : item_like i j -> item_like (update_obj k f i) (update_obj k f j).
Proof.
  intros H k' Hk'. unfold update_obj. destruct (decide (k = k')) as [<-|Hne]; [|by rewrite !obj_get_set_ne, H].
  by rewrite !obj_get_set, (like_get i j).
Qed.

Lemma provenance_like layer ref i : item_like (set_provenance layer ref i) i.
Proof. intros k Hk. unfold set_provenance, update_obj. by rewrite obj_get_set_ne. Qed.

Lemma alike_put a b c i j : alike a b -> item_like i j -> alike (put_item a c i) (put_item b c j).
Proof.
  intros [H1 H2] Hij. split.
  - intros c'. destruct (decide (c = c')) as [<-|Hne]; [rewrite !configItem_put; by constructor|by rewrite !configItem_put_ne].
  - intros k Hk. by rewrite !put_item_frame, H2.
Qed.

Lemma item_or a b c d : alike a b -> item_like (default d (configItem a c)) (default d (configItem b c)).
Proof. intros [H _]. by destruct (H c). Qed.

Lemma alike_set a b c v layer ref layer' ref' : alike a b -> alike (setConfigValue a c v layer ref) (setConfigValue b c v layer' ref').
Proof. intros H. apply alike_put; [done|]. rewrite !provenance_like. by apply update_like, update_like, item_or. Qed.

Lemma alike_enabled a b c e : alike a b -> alike (setConfigEnabled a c e) (setConfigEnabled b c e).
Proof. intros H. apply alike_put; [done|]. by apply update_like, item_or. Qed.

Lemma alike_default a b c v : alike a b -> alike (write_default a c v) (write_default b c v).
Proof. intros H. unfold write_default. destruct (al_items _ _ H c); [|done]. apply alike_put; [done|]. by apply update_like. Qed.

Lemma shares_alike a b c : alike a b -> shares_default a c = shares_default b c.
Proof. intros [H _]. unfold shares_default. destruct (H c) as [i j Hij|]; [|done]. by rewrite (like_get i j). Qed.

#[local] Ltac alike := repeat first [assumption | apply alike_enabled | apply alike_set].

(** Requests that are applied to sets that are alike leave sets that are alike,
    whatever the layers and objects. *)
Section Steps.
Context `{MR : MapRange} (layer ref layer' ref' : string).

Lemma alike_fold {A} (f g : obj -> A -> obj) l a b : (forall a b x, alike a b -> alike (f a x) (g b x)) -> alike a b -> alike (foldl f a l) (foldl g b l).
Proof. intros H. revert a b. induction l as [|x l IH]; intros a b Hab; [done|]. cbn. by apply IH, H. Qed.

Lemma alike_parameter a b raw : alike a b -> alike (override_parameter layer ref a raw) (override_parameter layer' ref' b raw).
Proof.
  intros H. unfold override_parameter. destruct (as_map raw) as [item|]; [|done]. cbv zeta. destruct (_ =s ""); [done|].
  destruct (obj_get item "value"), (as_bool _); alike.
Qed.

Lemma alike_disable a b raw : alike a b -> alike (disable_parameter a raw) (disable_parameter b raw).
Proof. intros H. unfold disable_parameter. destruct (as_map raw); [|done]. cbv zeta. destruct (_ <>s ""); [by apply alike_enabled|done]. Qed.

Lemma alike_env a b v : alike a b -> alike (override_env layer ref a v) (override_env layer' ref' b v).
Proof.
  intros H. unfold override_env. cbv zeta. rewrite (shares_alike _ _ _ H), (configObject_alike _ _ H _ _ eq_refl).
  apply alike_set. destruct (shares_default _ _); [by apply alike_default|done].
Qed.

Lemma alike_entry a b k v : alike a b -> alike (override_entry layer ref a k v) (override_entry layer' ref' b k v).
Proof.
  intros H. unfold override_entry. destruct (as_map v) as [entry|]; [|by apply alike_set]. destruct (obj_get entry "value"); [|by apply alike_set].
  cbv zeta. destruct (as_bool _); alike.
Qed.

Lemma alike_overrides a b o : alike a b -> alike (applyConfigOverrides layer ref a o) (applyConfigOverrides layer' ref' b o).
Proof.
  intros H. apply alike_fold; [|done]. clear. intros a b kv H. unfold override_step.
  destruct (_ =s _); [apply alike_fold; [apply alike_parameter|done]|]. destruct (_ =s _); [apply alike_fold; [apply alike_disable|done]|].
  destruct (_ =s _); [by apply alike_env|by apply alike_entry].
Qed.

Lemma alike_unless_zero a b c v : alike a b -> alike (set_unless_zero layer ref c v a) (set_unless_zero layer' ref' c v b).
Proof. intros H. unfold set_unless_zero. repeat case_match; alike. Qed.

(** The node a placement names is not part of the binding. *)
Lemma device_binding_node node p : device_binding (obj_set "node_id" (AStr node) p) = device_binding p.
Proof. unfold device_binding, derived_mode, obj_strVal, get_any. by rewrite !obj_get_set_ne by done. Qed.

Lemma alike_service a b service : alike a b -> alike (materialize_service layer ref service a) (materialize_service layer' ref' service b).
Proof. intros H. unfold materialize_service. destruct service; [done|]. by repeat apply alike_unless_zero; apply alike_set. Qed.

(** A placement that names a node is not empty, and says no more of the devices. *)
Lemma named_placement a node p :
  materialize_placement layer ref (obj_set "node_id" (AStr node) p) a = setConfigValue a "runtime.device_binding" (AMap (device_binding p)) layer ref.
Proof.
  unfold materialize_placement. assert (exists kv q, obj_set "node_id" (AStr node) p = kv :: q) as (kv & q & E).
  { destruct (obj_set "node_id" (AStr node) p) eqn:E; [|by eexists _, _]. apply (f_equal (fun m => obj_get m "node_id")) in E. by rewrite obj_get_set in E. }
  by rewrite E, <- E, device_binding_node.
Qed.
End Steps.

(** ** The set previewed is the set a creation would freeze *)

(** What the resolver takes from a set besides its parameters. *)
Definition resolver_view (rt : runtime_doc) (set : obj) : RuntimeInfo * option DeviceBindingConfig * option ServicePortBinding :=
  (preview_runtime rt set, configDeviceBinding set, configServicePortBinding set).

#[export] Instance resolver_view_alike rt : Proper (alike ==> eq) (resolver_view rt).
Proof.
  intros a b H. unfold resolver_view, preview_runtime, configLauncherKind, configStringMap, configDockerSpec, configModelMount, configHealthCheckPtr,
    configDeviceBinding, configServicePortBinding.
  rewrite !(configString_alike _ _ H _ _ eq_refl _ _ eq_refl), !(configStringSlice_alike _ _ H _ _ eq_refl), !(configObject_alike _ _ H _ _ eq_refl).
  unfold get_obj. by rewrite (al_frame _ _ H "context") by done.
Qed.

(** Bodies the two handlers read alike: no edit patch, overrides that are an object, and
    a placement that is an object or is left out; [p] is what it says. *)
Record plain_body (body p : obj) : Prop := {
  pb_patch : obj_get body "editable_config_patch" = None;
  pb_overrides : forall v, obj_get body "config_overrides" = Some v -> exists o, v = AMap o;
  pb_placement : obj_get body "placement_json" = Some (AMap p) \/ p = [] /\ obj_get body "placement_json" ∈ [None; Some ANil]
}.

(** A placement that says nothing: creation binds the devices by default, the preview does
    not. *)
Definition bound_by_default (p set : obj) : obj :=
  match p with [] => setConfigValue set "runtime.device_binding" (AMap (device_binding [])) "" "" | _ => set end.

Lemma plain_placement body p node : plain_body body p -> is_Some (create_placement node body) ->
  create_placement node body = Some (AMap (obj_set "node_id" (AStr node) p)) /\ get_obj body "placement_json" ∈ [Some p; match p with [] => None | _ => Some p end].
Proof.
  intros [_ _ [H|[-> H]]] [pl Hn]; unfold create_placement, get_obj in *; [rewrite H in *; destruct (_ && _); [done|split; [done|by left]]|].
  apply list_elem_of_In in H as [<-|[<-|[]]]; (split; [done|by right; left]).
Qed.

(** The body the two handlers read alike gives sets that are alike. *)
Lemma sets_alike `{MR : MapRange} (decode_error : any -> string) nb snapshot body p id now now' set :
  alike (copy_of snapshot) (copy_of (nr_config nb)) -> plain_body body p -> is_Some (create_placement (nr_node nb) body) ->
  create_config decode_error nb snapshot (create_overrides body) (default [] (as_map (default ANil (create_placement (nr_node nb) body))))
    (default [] (get_obj body "service_json")) body id now = Edited set ->
  exists set', preview_config decode_error (nr_config nb) body now' = Edited set' /\ alike set (bound_by_default p set').
Proof.
  intros Ha Hb Hn Hc. destruct (plain_placement _ _ _ Hb Hn) as [Hpl Hq]. destruct Hb as [H1 H2 _].
  unfold create_config in Hc. unfold preview_config. unfold applyEditableConfigPatchIfPresent in *. rewrite H1 in *.
  rewrite Hpl in Hc. cbn [default from_option as_map Datatypes.id] in Hc. injection Hc as <-. eexists. split; [reflexivity|].
  set (A := applyConfigOverrides "Deployment" id (copy_of snapshot) (create_overrides body)).
  set (B := match get_obj body "config_overrides" with
            | Some o => applyConfigOverrides "deployment" "preview" (copy_of (nr_config nb)) o
            | None => copy_of (nr_config nb)
            end).
  assert (alike A B) as Ho.
  { subst A B. unfold create_overrides, get_obj. destruct (obj_get body "config_overrides") as [v|] eqn:Eo.
    - destruct (H2 v eq_refl) as [o ->]. by apply alike_overrides.
    - unfold applyConfigOverrides. destruct (range (obj_map [])) as [|x l] eqn:E; [done|].
      exfalso. assert (x ∈ range (obj_map [])) as Hx by (rewrite E; by left). destruct x. by apply elem_of_range in Hx. }
  unfold materializeDeploymentCompatConfig. rewrite named_placement.
  lazymatch goal with |- context [bound_by_default p ?t] => lazymatch t with context [B] => clearbody A B end end.
  assert (forall l r sv l' r', alike (setConfigValue (materialize_service "deployment" id sv A) "runtime.device_binding" (AMap (device_binding p)) "deployment" id)
    (setConfigValue (materialize_service l r sv B) "runtime.device_binding" (AMap (device_binding p)) l' r')) as Hd
    by (intros; by apply alike_set, alike_service).
  apply list_elem_of_In in Hq as [Hq|[Hq|[]]]; rewrite <- Hq; destruct p as [|kv p]; try exact (Hd _ _ _ _ _).
  destruct (get_obj body "service_json") as [sv|]; [exact (Hd _ _ _ _ _)|exact (Hd "" "" [] _ _)].
Qed.

(** C25. Take a request body with no edit patch, whose overrides, when given, are an object and
    whose placement is an object or left out, and a node runtime whose set already names
    its image: writing the image into a copy of it changes no setting.  When a creation
    from this body succeeds, the preview of the same body resolves a set that holds the
    same settings as the set the creation freezes, whatever is overridden and in whatever
    order; they differ in their notes of who wrote them and, when the placement is empty
    or left out, in the device binding, which the creation derives from the defaults and
    the preview leaves as it was.  So the image, the command, the environment, the
    container options, the mount, the health check, the devices and the ports the
    resolver takes from the two sets are the same up to that device binding. *)
Theorem preview_matches_creation `{MR : MapRange} (decode_error : any -> string) hash_of dc rows s body p id stamp now now' ds r ds' nb :
  HandleCreateDeployment decode_error hash_of dc rows s (Some body) id stamp now ds = (Reply 201 r, ds') ->
  by_id nr_id (obj_strVal body "node_backend_runtime_id" "") rows = Some nb ->
  (forall snapshot, deploymentConfigSnapshotFromNBR (nr_config nb) (nr_image_ref nb) = Some snapshot -> alike (copy_of snapshot) (copy_of (nr_config nb))) ->
  plain_body body p ->
  exists d set set', ds' = ds ++ [d] /\ de_config d = stored (AMap set)
    /\ preview_config decode_error (nr_config nb) body now' = Edited set'
    /\ alike set (bound_by_default p set') /\ forall rt, resolver_view rt set = resolver_view rt (bound_by_default p set').
Proof.
  intros Hc Hn Hi Hb. unfold HandleCreateDeployment in Hc. destruct (create_refusal dc rows body) as [e|nb'] eqn:Er.
  { exfalso. injection Hc as -> _. revert Er. unfold create_refusal. repeat case_match; done. }
  apply create_refusal_inr in Er as (Hn' & _ & Hp & _). rewrite Hn in Hn'. injection Hn' as <-.
  destruct (deploymentConfigSnapshotFromNBR _ _) as [snapshot|] eqn:Es; [|done].
  destruct (create_config _ _ _ _ _ _ _ _ _) as [e| |set] eqn:Ec; [done..|]. destruct (bool_decide _ || _); [done|]. injection Hc as _ <-.
  destruct (sets_alike _ _ _ _ _ _ _ now' _ (Hi _ eq_refl) Hb Hp Ec) as (set' & Hs & Ha).
  eexists _, set, set'. split_and!; [reflexivity|reflexivity|done|done|]. intros rt. by rewrite Ha.
Qed.

(** ** Concrete previews *)

Section Demo.
#[local] Existing Instance canonical_range.

Definition preview_admin : session := {| s_user := "u"; s_tenant := "t0"; s_admin := true; s_perms := [] |}.

Definition preview_run (dc : documents) (body : obj) : preview_reply :=
  HandleDeploymentPreview no_error_text hash_stub hash_stub dc chain_rows run_base preview_admin "t" (Some body).

Definition preview_body : obj := obj_set "placement_json" (AMap [("accelerator_selection_mode", AStr "auto")]) (chain_request shm).

Definition can_run (r : preview_reply) : bool := match r with Previewed p => pd_can_run p | _ => false end.
Definition shown (r : preview_reply) : string := match r with Previewed p => pd_docker p | _ => "" end.

Lemma preview_can_run_witness : exists plan sources p,
  preview_run (demo_documents "null") preview_body = Previewed p /\ pd_plan p = Some (plan, sources) /\ pd_errors p = [].
Proof.
  destruct (proj1 (preview_can_run no_error_text hash_stub hash_stub (demo_documents "null") chain_rows run_base preview_admin "t" preview_body))
    as (nb & a & loc & rt & set & plan & sources & _ & _ & p & Hp & Hpl & He & _).
  - eexists. split; vm_compute; reflexivity.
  - exists plan, sources, p. split; [exact Hp|split; [exact Hpl|exact He]].
Defined.

Lemma provenance_only x y l : item_like (("provenance", x) :: l) (("provenance", y) :: l).
Proof. intros k Hk. cbn. by rewrite (proj2 (String.eqb_neq _ _) Hk). Qed.

Lemma chain_alike snapshot : deploymentConfigSnapshotFromNBR (nr_config chain_nbr) (nr_image_ref chain_nbr) = Some snapshot ->
  alike (copy_of snapshot) (copy_of (nr_config chain_nbr)).
Proof.
  destruct chain_image as [-> _]. rewrite chain_config. intros H.
  assert (copy_of snapshot = setConfigValue chain_map image_code (AStr "vllm:1") "NodeBackendRuntime" "") as ->.
  { revert H. vm_compute. by intros [= <-]. }
  cbn [copy_of]. assert (put_item chain_map image_code (default [] (configItem chain_map image_code)) = chain_map) as E by (vm_compute; reflexivity).
  rewrite <- E at 2. apply alike_put; [done|].
  match goal with |- item_like ?a ?b =>
    let a' := eval vm_compute in a in let b' := eval vm_compute in b in
    assert (a = a') as -> by (vm_compute; reflexivity); assert (b = b') as -> by (vm_compute; reflexivity)
  end.
  apply provenance_only.
Qed.

Definition preview_created : deployment_full :=
  default no_deployment (head (HandleCreateDeployment no_error_text (fun _ => "hash") (demo_documents "null") chain_rows nbr_session (Some preview_body) "d1"
    "20250101000000" "t3" []).2).

Lemma preview_plain : plain_body preview_body [("accelerator_selection_mode", AStr "auto")].
Proof.
  split; [vm_compute; reflexivity| |left; vm_compute; reflexivity]. intros v. vm_compute. intros H. injection H as <-. by eexists.
Qed.

Definition preview_answer : any :=
  AMap (publicDeploymentJSON (getDeploymentJSON (demo_documents "null") chain_rows "d1" [preview_created])).

Lemma preview_matches_creation_witness : exists set set',
  de_config preview_created = stored (AMap set) /\ preview_config no_error_text (nr_config chain_nbr) preview_body "t9" = Edited set' /\ alike set set'.
Proof.
  destruct (preview_matches_creation no_error_text (fun _ => "hash") (demo_documents "null") chain_rows nbr_session preview_body
    [("accelerator_selection_mode", AStr "auto")] "d1" "20250101000000" "t3" "t9" [] preview_answer [preview_created] chain_nbr)
    as (d & set & set' & Hd & Hset & Hset' & Ha & _).
  - vm_compute. reflexivity.
  - vm_compute. reflexivity.
  - exact chain_alike.
  - exact preview_plain.
  - exists set, set'. revert Hd. generalize preview_created. intros c Hd. injection Hd as ->. split; [exact Hset|split; [exact Hset'|exact Ha]].
Defined.

(** A model the backend does not take can run in the preview, and its start is refused. *)
Definition with_artifact (f : artifact_doc -> artifact_doc) (dc : documents) : documents :=
  {| dc_deployments := dc_deployments dc; dc_artifacts := map f (dc_artifacts dc); dc_runtimes := dc_runtimes dc; dc_nbrs := dc_nbrs dc;
     dc_gpus := dc_gpus dc; dc_locations := dc_locations dc; dc_nodes := dc_nodes dc |}.

Definition named (display format : string) (a : artifact_doc) : artifact_doc :=
  {| ad_id := ad_id a; ad_name := ad_name a; ad_display_name := display; ad_path := ad_path a; ad_format := format; ad_task_type := ad_task_type a;
     ad_architecture := ad_architecture a; ad_context_length := ad_context_length a |}.

Definition chain_start_errors (dc : documents) : list string :=
  map pe_Code (pr_errs (preflightDeployment hash_stub hash_stub dc preview_admin "t" "x" "d1")).

Example previewed_but_incompatible :
  let change := with_artifact (named "" "gguf") in
  can_run (preview_run (change (demo_documents "null")) preview_body) = true /\ chain_start_errors (change chain_documents) = ["format_mismatch"].
Proof. split; vm_compute; reflexivity. Qed.

(** A command as an override of the body, and the deployment with that command frozen. *)
Definition with_command (args : list string) : obj :=
  obj_set "config_overrides" (AMap [("launcher.command", AList (map AStr args))]) preview_body.

Definition command_column (args : string) : string := jq (
  "{`items`: {`backend.capabilities`: {`value`: {`effective_value`: {`model_path_modes`: [`directory`], `supported_formats`: [`huggingface`],
       `supported_tasks`: [`chat`]}}}, `launcher.command`: {`value`: {`effective_value`: " +s+ args +s+ "}},
     `launcher.image`: {`value`: {`effective_value`: `vllm:1`}}}}").

Definition command_documents (placement args : string) : documents :=
  {| dc_deployments := [shown_deployment preview_created placement "null" (command_column args)];
     dc_artifacts := dc_artifacts chain_documents; dc_runtimes := dc_runtimes chain_documents; dc_nbrs := dc_nbrs chain_documents;
     dc_gpus := dc_gpus chain_documents; dc_locations := dc_locations chain_documents; dc_nodes := dc_nodes chain_documents |}.

(** A variable the resolver does not know is a warning of the preview and an error of
    the start. *)
Example previewed_with_errors :
  can_run (preview_run (demo_documents "null") (with_command ["serve"; "{{NO_SUCH}}"])) = true
  /\ chain_start_errors (command_documents "null" "[`serve`, `{{NO_SUCH}}`]") = ["unknown"].
Proof. split; vm_compute; reflexivity. Qed.

Definition started_command (dc : documents) : option (list string) :=
  (fun ps => rp_Args ps.1) <$> pr_plan (preflightDeployment hash_stub hash_stub dc preview_admin "t" "x" "d1").
Definition previewed_command (r : preview_reply) : option (list string) :=
  match r with Previewed p => (fun ps => rp_Args ps.1) <$> pd_plan p | _ => None end.

(** The preview serves the model under its display name, the start under its name. *)
Example previewed_name :
  let change := with_artifact (named "Qwen Chat" "huggingface") in
  previewed_command (preview_run (change (demo_documents "null")) (with_command ["serve"; "{{SERVED_MODEL_NAME}}"])) = Some ["serve"; "Qwen Chat"]
  /\ started_command (change (command_documents "null" "[`serve`, `{{SERVED_MODEL_NAME}}`]")) = Some ["serve"; "qwen"].
Proof. split; vm_compute; reflexivity. Qed.

(** Without device binding the preview takes no device; the start reserves one. *)
Example previewed_devices :
  let off := AMap [("device_binding_enabled", ABool false); ("node_id", AStr "n1")] in
  pl_AcceleratorIds (preview_placement (demo_documents "null") "n1" (obj_set "placement_json" off preview_body)) = []
  /\ pk_accelerators <$> pr_picked (preflightDeployment hash_stub hash_stub
        (command_documents (jq "{`device_binding_enabled`: false, `node_id`: `n1`}") "[]") preview_admin "t" "x" "d1") = Some ["gpu0"].
Proof. split; vm_compute; reflexivity. Qed.
End Demo.
