(* ===== verification/InstanceTest.v ===== *)
(** * The smoke test of an instance (internal/server/api/deployment_lifecycle_handlers.go, HandleModelInstanceTest)

    The server asks a running instance for its models, sends it one inference request and
    reports what came back.  The HTTP client is a parameter: what it answers to a call may
    depend on the calls before it.  Every function takes the calls made so far and returns
    them with its own.  Endpoints are URLs net/http can parse. *)
From S2P Require Import Prelude GoStrings GoNumbers GoValue GoJson GoJsonText RuntimeContract RunPlanTypes ConfigSets ResolverMounts.
From S2P Require Import Store Deployments LifecycleProps Preflight NodeRuntimes AuditLog.
From Stdlib Require Import Ascii.
From stdpp Require Import sorting.

(** ** Calls and answers *)

(** [hc_body]: the document of a POST, nil for a GET. *)
Record http_call := { hx_method : string; hx_url : string; hx_body : any }.

(** [latency]: what the clock shows between the call and its answer, in milliseconds. *)
Inductive http_answer :=
| Unreachable (error : string) (latency : Z)
| Answered (status : Z) (body : string) (latency : Z).

Definition HttpClient : Type := list http_call -> http_call -> http_answer.

(** [json.Unmarshal] of a body into a map, the error dropped. *)
Definition body_obj (body : string) : obj := match Unmarshal_map body with Some (Some m) => m | _ => [] end.

Definition get_call (url : string) : http_call := {| hx_method := "GET"; hx_url := url; hx_body := ANil |}.
Definition post_call (url : string) (doc : obj) : http_call := {| hx_method := "POST"; hx_url := url; hx_body := AMap doc |}.

Definition success_code (status : Z) : bool := (200 <=? status)%Z && (status <? 300)%Z.

(** ** Which model to ask for (resolveModelID) *)

Definition listed_models (m : obj) : list string :=
  match get_any m "data" with
  | AList l => omap (fun d => match d with
                              | AMap e => match get_any e "id" with AStr mid => if mid =s "" then None else Some mid | _ => None end
                              | _ => None
                              end) l
  | _ => []
  end.

Definition fallback_model (artifactName runplanModel : string) : string * string :=
  if runplanModel <>s "" then (runplanModel, "runplan_unverified") else (artifactName, "artifact_name_fallback").

Definition model_candidates (artifactName artifactPath : string) : list string :=
  artifactName :: (if artifactPath =s "" then [] else
                   let base := filepathBase artifactPath in if (base <>s "") && (base <>s artifactName) then [base] else []).

Definition alias_of (c mid : string) : bool := Contains (ToLower mid) (ToLower c) || Contains (ToLower c) (ToLower mid).

(** The first candidate with a match, and its first match. *)
Definition first_match (test : string -> string -> bool) (candidates models : list string) : option string :=
  head (omap (fun c => List.find (test c) models) candidates).

(** The choice among the models that are served. *)
Definition choose_model (artifactName artifactPath runplanModel : string) (models : list string) : string * string :=
  if (runplanModel <>s "") && existsb (String.eqb runplanModel) models then (runplanModel, "runplan")
  else match models with
       | [only] => (only, "single_model_fallback")
       | _ =>
           let candidates := model_candidates artifactName artifactPath in
           match first_match String.eqb candidates models with
           | Some mid => (mid, "models_exact_match")
           | None => match first_match alias_of candidates models with
                     | Some mid => (mid, "models_alias_match")
                     | None => ("", "model_id_not_resolved")
                     end
           end
       end.

Section Test.
Context (client : HttpClient).

Definition resolveModelID (endpoint artifactName artifactPath runplanModel : string) (past : list http_call) :
    string * string * list string * list http_call :=
  let call := get_call (TrimRight endpoint slash +s+ "/v1/models") in
  let models := match client past call with
                | Answered status body _ => if (status =? 200)%Z then listed_models (body_obj (str_take 8192 body)) else []
                | Unreachable _ _ => []
                end in
  (match models with
   | [] => fallback_model artifactName runplanModel
   | _ => choose_model artifactName artifactPath runplanModel models
   end, models, past ++ [call]).

(** ** What an answer says (extractPreview) *)

(** The text of a field, when it is not blank. *)
Definition text_field (m : obj) (key : string) : option string :=
  v ← obj_get m key; let t := fmt_v v in if TrimSpace t =s "" then None else Some t.

Definition first_text (l : list (option string)) : option string := head (omap Datatypes.id l).

(** The texts of [choices[0].message] and [choices[0].delta]. *)
Definition chat_texts (choice : obj) : list (option string) :=
  match get_obj choice "message" with
  | Some msg => [text_field msg "content"; (fun t => "[reasoning] " +s+ t) <$> text_field msg "reasoning_content"]
  | None => []
  end ++ match get_obj choice "delta" with Some delta => [text_field delta "content"] | None => [] end.

Definition choice_texts (data : obj) (mode : string) : list (option string) :=
  match get_any data "choices" with
  | AList (first :: _) =>
      let choice := default [] (as_map first) in
      (if mode =s "chat" then chat_texts choice else []) ++ [text_field choice "text"]
  | _ => []
  end.

Definition extractPreview (body mode : string) : string :=
  match Unmarshal_map body with
  | None => ""
  | Some data =>
      let data := default [] data in
      default "" (first_text (choice_texts data mode ++ map (text_field data) ["content"; "response"; "generated_text"]))
  end.

(** ** The inference request *)

Definition default_prompt : string := "Reply with exactly one word: pong".

(** The model the answer names, or the one asked for. *)
Definition answered_model (body modelName : string) : string :=
  match obj_get (body_obj body) "model" with Some (AStr m) => if m =s "" then modelName else m | _ => modelName end.

Definition test_result (fields : list (string * any)) : obj := foldl (fun m kv => obj_set kv.1 kv.2 m) [] fields.

(** An answer of the 200 class of a chat or completion request. *)
Definition text_result (mode url modelName body : string) (latency : Z) : obj :=
  let preview := extractPreview body mode in
  let shown := [("mode", AStr mode); ("endpoint", AStr url); ("latency_ms", AInt64 latency); ("response_preview", AStr preview); ("raw_response", AStr body)] in
  if TrimSpace preview =s ""
  then test_result ([("ok", ABool false); ("reason_code", AStr "empty_model_response"); ("message", AStr "request succeeded but model response was empty");
                     ("model", AStr modelName)] ++ shown)
  else test_result ([("ok", ABool true); ("model", AStr (answered_model body modelName))] ++ shown).

Definition failed_result (mode reason message url : string) (latency : Z) (more : list (string * any)) : obj :=
  test_result ([("ok", ABool false); ("reason_code", AStr reason); ("message", AStr message); ("endpoint", AStr url); ("latency_ms", AInt64 latency)]
               ++ (if mode =s "" then [] else [("mode", AStr mode)]) ++ more).

(** [error.message] of the body, or the status. *)
Definition error_message (body : string) (status : Z) : string :=
  let m := default [] (get_obj (body_obj body) "error") in
  match obj_get m "message" with Some (AStr msg) => msg | _ => "HTTP " +s+ Itoa status end.

Definition chat_request (modelName prompt : string) : obj :=
  [("max_tokens", AInt 8);
   ("messages", AList [AMap [("content", AStr default_prompt); ("role", AStr "system")]; AMap [("content", AStr prompt); ("role", AStr "user")]]);
   ("model", AStr modelName); ("stream", ABool false); ("temperature", AInt 0)].

Definition completion_request (modelName prompt : string) : obj :=
  [("max_tokens", AInt 8); ("model", AStr modelName); ("prompt", AStr prompt); ("stream", ABool false); ("temperature", AInt 0)].

Definition tryChatInference (endpoint modelName prompt : string) (unsupportedAsFallback : bool) (past : list http_call) : obj * list http_call :=
  let url := TrimRight endpoint slash +s+ "/v1/chat/completions" in
  let call := post_call url (chat_request modelName prompt) in
  let past' := past ++ [call] in
  match client past call with
  | Unreachable e latency => (failed_result "" "network_error" ("failed to reach instance: " +s+ e) url latency [], past')
  | Answered status body latency =>
      let body := str_take 8192 body in
      let code := ("http_status", AInt status) in
      let raw := ("raw_response", AStr body) in
      let returned := "chat completions returned HTTP " +s+ Itoa status in
      (if success_code status then text_result "chat" url modelName body latency
       else if (status =? 404)%Z || (status =? 405)%Z
       then if unsupportedAsFallback then failed_result "chat" "chat_endpoint_unsupported" returned url latency [code]
            else failed_result "chat" "chat_endpoint_failed" returned url latency [code; raw]
       else failed_result "chat" "chat_endpoint_failed" (error_message body status) url latency [code; raw], past')
  end.

Definition tryCompletionInference (endpoint modelName prompt : string) (past : list http_call) : obj * list http_call :=
  let url := TrimRight endpoint slash +s+ "/v1/completions" in
  let call := post_call url (completion_request modelName prompt) in
  (match client past call with
   | Unreachable e latency => failed_result "completion" "completion_endpoint_failed" ("completions unreachable: " +s+ e) url latency []
   | Answered status body latency =>
       let body := str_take 8192 body in
       if success_code status then text_result "completion" url modelName body latency
       else failed_result "completion" "completion_endpoint_failed" ("completions returned HTTP " +s+ Itoa status) url latency
              [("http_status", AInt status); ("raw_response", AStr body)]
   end, past ++ [call]).

(** Embeddings and reranking: any answer of the 200 class will do.  [clock]: the text of
    the time. *)
Definition try_other (clock mode failure path : string) (request : obj) (endpoint modelName : string) (past : list http_call) : obj * list http_call :=
  let url := TrimRight endpoint slash +s+ path in
  let call := post_call url request in
  (match client past call with
   | Unreachable e latency => failed_result mode "network_error" e url latency []
   | Answered status body latency =>
       let shown := [("mode", AStr mode); ("endpoint", AStr url); ("model", AStr modelName); ("latency_ms", AInt64 latency); ("checked_at", AStr clock)] in
       if success_code status
       then test_result ([("ok", ABool true); ("response_preview", AStr (str_take 300 body)); ("raw_response", AStr body)] ++ shown)
       else test_result ([("ok", ABool false); ("reason_code", AStr failure); ("http_status", AInt status); ("error_body", AStr body)] ++ shown)
   end, past ++ [call]).

Definition tryEmbeddingInference (clock endpoint modelName : string) : list http_call -> obj * list http_call :=
  try_other clock "embedding" "embedding_endpoint_failed" "/v1/embeddings" [("input", AStr "hello world"); ("model", AStr modelName)] endpoint modelName.

Definition tryRerankInference (clock endpoint modelName : string) : list http_call -> obj * list http_call :=
  try_other clock "rerank" "rerank_endpoint_failed" "/v1/rerank"
    [("documents", AStrs ["GPU is a processor for parallel computation."; "A database stores structured data."]); ("model", AStr modelName);
     ("query", AStr "what is GPU")] endpoint modelName.

Definition result_ok (r : obj) : bool := match get_any r "ok" with ABool b => b | _ => false end.
Definition reason_code (r : obj) : string := obj_strVal r "reason_code" "".

Definition tryInferenceWithMode (clock endpoint modelName mode prompt : string) (past : list http_call) : obj * list http_call :=
  let mode := ToLower (TrimSpace mode) in
  let prompt := if prompt =s "" then default_prompt else prompt in
  if mode =s "completion" then tryCompletionInference endpoint modelName prompt past
  else if mode =s "chat" then tryChatInference endpoint modelName prompt false past
  else if mode =s "embedding" then tryEmbeddingInference clock endpoint modelName past
  else if mode =s "rerank" then tryRerankInference clock endpoint modelName past
  else
    let '(chat, past) := tryChatInference endpoint modelName prompt true past in
    if result_ok chat then (chat, past)
    else if reason_code chat <>s "chat_endpoint_unsupported" then (chat, past)
    else tryCompletionInference endpoint modelName prompt past.

(** ** Diagnostics of a failed test (collectTestDiagnostics) *)

(** [s[:n]]: [None] is the panic of a text that is shorter. *)
Definition slice_to (n : nat) (s : string) : option string := if (n <=? String.length s)%nat then Some (str_take n s) else None.

Definition probe (url what : string) (limit shown : nat) (past : list http_call) : option obj :=
  match client past (get_call url) with
  | Unreachable e _ => Some [("error", AStr ("failed to reach " +s+ what +s+ ": " +s+ e)); ("ok", ABool false)]
  | Answered status body _ =>
      text ← slice_to shown (str_take limit body);
      Some [("body", AStr text); ("ok", ABool (success_code status)); ("status_code", AInt status)]
  end.

Definition suggestion (p : obj) (text : string) : list string := if result_ok p then [] else [text].

(** [backend], [image]: the name of the backend of the deployment's template, and the image
    the template names, empty when there is no such row. *)
Definition collectTestDiagnostics (endpoint deployID backend image : string) (past : list http_call) : option obj * list http_call :=
  let models := endpoint +s+ "/v1/models" in
  let health := endpoint +s+ "/health" in
  match probe models "/v1/models" 4096 500 past with
  | None => (None, past ++ [get_call models])
  | Some m =>
      let past := past ++ [get_call models] in
      let past' := past ++ [get_call health] in
      match probe health "/health" 1024 200 past with
      | None => (None, past')
      | Some hp =>
          let suggestions :=
            suggestion m "/v1/models endpoint unreachable — verify container is running an OpenAI-compatible server and port mapping is correct"
            ++ suggestion hp "/health endpoint unreachable — container may not be ready or endpoint port is incorrect" in
          let context := if deployID =s "" then []
                         else (if backend =s "" then [] else [("backend", AStr backend)])
                              ++ (if image =s "" then [] else [("runtime_image", AStr image)]) in
          (Some (test_result ([("models_probe", AMap m); ("health_probe", AMap hp)] ++ context
                              ++ match suggestions with [] => [] | l => [("suggestions", AStrs l)] end)), past')
      end
  end.
End Test.

(** ** The handler *)

(** A row of resolved_run_plans with the document of its column plan_json. *)
Record plan_doc := { pn_id : string; pn_created : string; pn_json : any }.

Definition plan_newer (a b : plan_doc) : Prop := Is_true (String.leb (pn_created b) (pn_created a)).
#[local] Instance plan_newer_dec : RelDecision plan_newer.
Proof. intros a b. unfold plan_newer. apply _. Defined.

(** The newest plan an instance of the deployment refers to. *)
Definition newest_plan (db : DB) (plans : list plan_doc) (deployID : string) : option plan_doc :=
  head (merge_sort plan_newer
    (List.filter (fun p => existsb (fun i => (i_run_plan i =s pn_id p) && (i_deployment i =s deployID)) (db_instances db)) plans)).

(** The name the plan serves its model under; a field of another kind is an error. *)
Definition plan_model (plan : option plan_doc) : string :=
  match plan with
  | Some {| pn_json := AMap m |} =>
      if forallb (fun kv => if EqualFold kv.1 "model_name" || EqualFold kv.1 "served_model_name" then text_or_nil kv.2 else true) m
      then or_field (field m "served_model_name" dec_str "") (field m "model_name" dec_str "") else ""
  | _ => ""
  end.

Record test_rows := { tr_db : DB; tr_documents : documents; tr_templates : list template_row; tr_plans : list plan_doc }.

(** Name and path of the artifact of a deployment. *)
Definition test_artifact (rows : test_rows) (deployID : string) : string * string :=
  match (d ← by_id dd_id deployID (dc_deployments (tr_documents rows)); by_id ad_id (dd_artifact d) (dc_artifacts (tr_documents rows))) with
  | Some a => (or_field (ad_name a) "unknown", ad_path a)
  | None => ("unknown", "")
  end.

(** Name of the backend and image of the template of a deployment. *)
Definition test_context (rows : test_rows) (deployID : string) : string * string :=
  match (d ← by_id dd_id deployID (dc_deployments (tr_documents rows));
         rt ← by_id br_id (dd_runtime d) (dc_runtimes (tr_documents rows));
         t ← by_id bt_id (dd_runtime d) (tr_templates rows); Some (br_name rt, template_image t)) with
  | Some c => c
  | None => ("", "")
  end.

Definition test_endpoint (i : instance_row) : string :=
  if (i_endpoint i =s "") && (0 <? i_host_port i)%Z then "http://127.0.0.1:" +s+ Itoa (i_host_port i) else i_endpoint i.

(** Texts of the time, identifiers of the audit rows, identifier of the request. *)
Record test_env := { tv_checked : string; tv_clock : string; tv_now : string; tv_audits : string * string; tv_request : string }.

Definition test_audit (s : session) (e : test_env) (id what result detail : string) : AuditEntry :=
  {| ae_TenantID := s_tenant s; ae_ActorID := s_user s; ae_Action := "model_instance.test." +s+ what; ae_ResourceType := "instance"; ae_ResourceID := id;
     ae_Result := result; ae_Detail := detail; ae_RequestID := tv_request e; ae_OperationID := ""; ae_Error := "" |}.

Definition refused_test (reason message : string) : reply :=
  Reply 400 (AMap [("message", AStr message); ("ok", ABool false); ("reason_code", AStr reason)]).

Definition mismatch_hint : string :=
  "The requested model name does not match any model served by the runtime. Add --served-model-name to the vLLM/SGLang launch command, or use an available model id.".

Definition unresolved_test (e : test_env) (runplanModel method : string) (models : list string) : reply :=
  Reply 200 (AMap (test_result ([("ok", ABool false); ("reason_code", AStr "model_id_not_resolved");
    ("message", AStr "could not resolve model id from /v1/models or artifact"); ("model_resolution_method", AStr method);
    ("requested_model", AStr runplanModel); ("available_models", AStrs models); ("checked_at", AStr (tv_checked e))]
    ++ if (runplanModel <>s "") && (0 <? length models)%nat then [("hint", AStr mismatch_hint)] else []))).

(** What the handler adds to the result of the request. *)
Definition annotate (e : test_env) (runplanModel method : string) (models : list string) (result : obj) : obj :=
  let result := obj_set "checked_at" (AStr (tv_checked e)) (obj_set "model_resolution_method" (AStr method) result) in
  let result := if runplanModel =s "" then result else obj_set "requested_model" (AStr runplanModel) result in
  match models with [] => result | _ => obj_set "available_models" (AStrs models) result end.

(** The diagnostics that the result does not hold yet. *)
Definition add_diagnostics (diag result : obj) : obj :=
  foldl (fun r kv => if has_key r kv.1 then r else obj_set kv.1 kv.2 r) result diag.

Definition verdict_audit (s : session) (e : test_env) (id : string) (result : obj) : AuditEntry :=
  let endpoint := obj_strVal result "endpoint" "" in
  let latency := " latency_ms=" +s+ fmt_v (get_any result "latency_ms") in
  if result_ok result
  then test_audit s e id "succeeded" "success"
         ("endpoint=" +s+ endpoint +s+ " model=" +s+ obj_strVal result "model" "" +s+ " mode=" +s+ obj_strVal result "mode" "" +s+ latency)
  else test_audit s e id "failed" "failure" ("reason=" +s+ reason_code result +s+ " endpoint=" +s+ endpoint +s+ latency).

(** [body]: the decoded request, empty when it is no object. *)
Definition run_test (client : HttpClient) (rows : test_rows) (s : session) (e : test_env) (i : instance_row) (endpoint : string) (body : obj) (logs : list audit_log) :
    reply * list http_call * list audit_log :=
  let mode := or_field (field body "mode" dec_str "") "auto" in
  let prompt := or_field (field body "prompt" dec_str "") default_prompt in
  let '(name, path) := test_artifact rows (i_deployment i) in
  let runplanModel := plan_model (newest_plan (tr_db rows) (tr_plans rows) (i_deployment i)) in
  let '(modelName, method, models, past) := resolveModelID client endpoint name path runplanModel [] in
  if modelName =s "" then (unresolved_test e runplanModel method models, past, logs)
  else
    let logs := WriteAudit (tv_audits e).1 (tv_now e)
                  (test_audit s e (i_id i) "started" "success" ("endpoint=" +s+ endpoint +s+ " model=" +s+ modelName +s+ " method=" +s+ method)) logs in
    let '(result, past) := tryInferenceWithMode client (tv_clock e) endpoint modelName mode prompt past in
    let result := annotate e runplanModel method models result in
    let '(diag, past) := if result_ok result then (Some [], past)
                         else let '(backend, image) := test_context rows (i_deployment i) in
                              collectTestDiagnostics client endpoint (i_deployment i) backend image past in
    match diag with
    | None => (Panicked, past, logs)
    | Some diag =>
        let result := add_diagnostics diag result in
        (Reply 200 (AMap result), past, WriteAudit (tv_audits e).2 (tv_now e) (verdict_audit s e (i_id i) result) logs)
    end.

Definition HandleModelInstanceTest (client : HttpClient) (rows : test_rows) (s : session) (e : test_env) (id : string) (body : obj) (logs : list audit_log) :
    reply * list http_call * list audit_log :=
  match by_id i_id id (db_instances (tr_db rows)) with
  | None => (api_error 404 "instance not found", [], logs)
  | Some i =>
      if negb (tenantScopeCheck s (i_tenant i)) then (not_found, [], logs)
      else if i_actual i <>s "running"
      then (refused_test "instance_not_running" ("instance is " +s+ i_actual i +s+ ", must be running to test"), [], logs)
      else let endpoint := test_endpoint i in
           if endpoint =s "" then (refused_test "no_endpoint" "instance has no endpoint URL or host port", [], logs)
           else run_test client rows s e i endpoint body logs
  end.

(** ** The model that is asked for *)

Lemma first_match_in test candidates models mid :
  first_match test candidates models = Some mid -> mid ∈ models /\ exists c, c ∈ candidates /\ test c mid = true.
Proof.
  unfold first_match. induction candidates as [|c l IH]; cbn; [done|]. destruct (List.find (test c) models) as [m|] eqn:E.
  - intros [= <-]. apply List.find_some in E as [H1 H2]. split; [by apply list_elem_of_In|]. exists c. split; [by left|done].
  - intros (H1 & c' & H2 & H3)%IH. split; [done|]. exists c'. split; [by right|done].
Qed.

Lemma first_match_none test candidates models c mid :
  first_match test candidates models = None -> c ∈ candidates -> mid ∈ models -> test c mid = false.
Proof.
  unfold first_match. induction candidates as [|c' l IH]; cbn; [by intros _ ?%elem_of_nil|]. destruct (List.find (test c') models) as [m|] eqn:E; [done|].
  intros H [->|Hc]%elem_of_cons Hm; [|by apply IH]. apply list_elem_of_In in Hm. by apply (List.find_none _ _ E).
Qed.

(** The model asked for is one the instance serves, or, when it lists none, the plan's or
    the artifact's name.  It is the plan's whenever that is served, and no model is
    found only among several that resemble neither the artifact's name nor the last
    part of its path. *)
Theorem resolved_model client endpoint artifactName artifactPath runplanModel past name method models past' :
  resolveModelID client endpoint artifactName artifactPath runplanModel past = (name, method, models, past') ->
  (models = [] /\ name = (if runplanModel =s "" then artifactName else runplanModel)) \/
  (name ∈ models /\ (runplanModel ∈ models -> runplanModel <> "" -> name = runplanModel)) \/
  (name = "" /\ method = "model_id_not_resolved" /\ 1 < length models /\
   forall c mid, c ∈ model_candidates artifactName artifactPath -> mid ∈ models -> alias_of c mid = false).
Proof.
  unfold resolveModelID. cbv zeta. set (ms := match client past _ with Unreachable _ _ => _ | Answered _ _ _ => _ end).
  destruct ms as [|m0 rest] eqn:Ems; [unfold fallback_model; destruct (runplanModel =s ""); intros [= <- <- <- <-]; by left|].
  intros H. right. assert (models = m0 :: rest) as -> by (by injection H). assert (choose_model artifactName artifactPath runplanModel (m0 :: rest) = (name, method)) as Hc by (injection H; congruence).
  clear H Ems ms. unfold choose_model in Hc. destruct ((runplanModel <>s "") && existsb _ _) eqn:E.
  - injection Hc as <- <-. apply andb_true_iff in E as [_ (x & Hx & E)%existsb_exists]. apply String.eqb_eq in E as ->.
    left. split; [by apply list_elem_of_In|done].
  - assert (runplanModel ∈ m0 :: rest -> runplanModel <> "" -> name = runplanModel) as Hr.
    { intros Hin Hne. apply String.eqb_neq in Hne. rewrite Hne in E. cbn [negb andb] in E. apply not_true_iff_false in E. destruct E.
      apply existsb_exists. exists runplanModel. rewrite <- list_elem_of_In. by rewrite String.eqb_refl. }
    destruct rest as [|m1 rest]; [injection Hc as <- <-; left; split; [by left|done]|].
    destruct (first_match String.eqb _ _) as [mid|] eqn:E1; [injection Hc as <- <-; left; split; [by apply first_match_in in E1 as [? _]|done]|].
    destruct (first_match alias_of _ _) as [mid|] eqn:E2; [injection Hc as <- <-; left; split; [by apply first_match_in in E2 as [? _]|done]|].
    injection Hc as <- <-. right. split_and!; [done|done|cbn; lia|]. intros c mid. by apply first_match_none.
Qed.

(** ** What the inference request asks and what its result says *)

Lemma text_result_ok mode url modelName body latency :
  result_ok (text_result mode url modelName body latency) = negb (TrimSpace (extractPreview body mode) =s "").
Proof. unfold text_result. cbv zeta. by destruct (TrimSpace _ =s ""). Qed.

Section Facts.
Context (client : HttpClient).

(** The last of the calls was answered in the 200 class. *)
Definition last_served (past' : list http_call) : Prop :=
  exists past call status body latency, past' = past ++ [call] /\ client past call = Answered status body latency /\ success_code status = true
    /\ hx_method call = "POST".

Ltac served := eexists _, _, _, _, _; split_and!; [reflexivity|eassumption|assumption|reflexivity].

Lemma chat_ok endpoint modelName prompt fallback past r past' :
  tryChatInference client endpoint modelName prompt fallback past = (r, past') -> result_ok r = true -> last_served past'.
Proof.
  unfold tryChatInference. cbv zeta. destruct (client past _) as [e latency|status body latency] eqn:E; [by intros [= <- <-]|].
  destruct (success_code status) eqn:Es; [intros [= <- <-] _; served|]. destruct (_ || _); [destruct fallback|]; by intros [= <- <-].
Qed.

Lemma completion_ok endpoint modelName prompt past r past' :
  tryCompletionInference client endpoint modelName prompt past = (r, past') -> result_ok r = true -> last_served past'.
Proof.
  unfold tryCompletionInference. cbv zeta. destruct (client past _) as [e latency|status body latency] eqn:E; [by intros [= <- <-]|].
  destruct (success_code status) eqn:Es; [intros [= <- <-] _; served|by intros [= <- <-]].
Qed.

Lemma other_ok clock mode failure path request endpoint modelName past r past' :
  mode <> "" -> try_other client clock mode failure path request endpoint modelName past = (r, past') -> result_ok r = true -> last_served past'.
Proof.
  intros Hm%String.eqb_neq. unfold try_other. cbv zeta. destruct (client past _) as [e latency|status body latency] eqn:E.
  - unfold failed_result. rewrite Hm. by intros [= <- <-].
  - destruct (success_code status) eqn:Es; [intros [= <- <-] _; served|by intros [= <- <-]].
Qed.

(** A result that is good was answered so. *)
Lemma inference_ok clock endpoint modelName mode prompt past r past' :
  tryInferenceWithMode client clock endpoint modelName mode prompt past = (r, past') -> result_ok r = true -> last_served past'.
Proof.
  unfold tryInferenceWithMode. cbv zeta. destruct (_ =s "completion"); [by apply completion_ok|]. destruct (_ =s "chat"); [by apply chat_ok|].
  destruct (_ =s "embedding"); [by apply other_ok|]. destruct (_ =s "rerank"); [by apply other_ok|].
  destruct (tryChatInference _ _ _ _ _ _) as [chat past1] eqn:E. destruct (result_ok chat) eqn:Ec; [intros [= <- <-] _; by eapply chat_ok|].
  destruct (_ <>s _); [intros [= <- <-]; congruence|]. by apply completion_ok.
Qed.

Lemma success_not_unsupported status : success_code status = true -> (status =? 404)%Z || (status =? 405)%Z = false.
Proof. unfold success_code. rewrite andb_true_iff, orb_false_iff, !Z.eqb_neq. lia. Qed.

(** Without a mode the chat endpoint is asked; the completion endpoint is asked afterwards
    exactly when the first answer is 404 or 405, and no other request follows. *)
Theorem completion_only_when_unsupported clock endpoint modelName mode prompt past :
  ToLower (TrimSpace mode) ∉ ["completion"; "chat"; "embedding"; "rerank"] ->
  let text := if prompt =s "" then default_prompt else prompt in
  let chat := post_call (TrimRight endpoint slash +s+ "/v1/chat/completions") (chat_request modelName text) in
  let completion := post_call (TrimRight endpoint slash +s+ "/v1/completions") (completion_request modelName text) in
  (tryInferenceWithMode client clock endpoint modelName mode prompt past).2
  = past ++ chat :: match client past chat with
                    | Answered status _ _ => if (status =? 404)%Z || (status =? 405)%Z then [completion] else []
                    | Unreachable _ _ => []
                    end.
Proof.
  rewrite !not_elem_of_cons. intros (H1 & H2 & H3 & H4 & _). unfold tryInferenceWithMode. cbv zeta.
  rewrite (proj2 (String.eqb_neq _ _) H1), (proj2 (String.eqb_neq _ _) H2), (proj2 (String.eqb_neq _ _) H3), (proj2 (String.eqb_neq _ _) H4).
  unfold tryChatInference. cbv zeta. set (call := post_call _ _). destruct (client past call) as [e latency|status body latency]; [done|].
  destruct (success_code status) eqn:Es.
  - rewrite success_not_unsupported, text_result_ok by done. destruct (TrimSpace _ =s "") eqn:Et; [|done]. unfold text_result. cbv zeta. by rewrite Et.
  - destruct (_ || _) eqn:E4; [|done]. unfold tryCompletionInference. cbn -[app post_call]. by rewrite <- app_assoc.
Qed.

(** ** Diagnostics *)

(** The diagnostics are complete exactly when each probe fails or its answer is long
    enough for the part that is shown; otherwise the handler panics. *)
Definition long_enough (limit shown : nat) (a : http_answer) : Prop :=
  match a with Unreachable _ _ => True | Answered _ body _ => shown <= String.length (str_take limit body) end.

Lemma probe_returns url what limit shown past : is_Some (probe client url what limit shown past) <-> long_enough limit shown (client past (get_call url)).
Proof.
  unfold probe. destruct (client past (get_call url)) as [e latency|status body latency]; [by split; [|eexists]|]. cbn. unfold slice_to.
  destruct (Nat.leb_spec shown (String.length (str_take limit body))); cbn; split; try done; try lia.
Qed.

Theorem diagnostics_return endpoint deployID backend image past :
  is_Some (collectTestDiagnostics client endpoint deployID backend image past).1 <->
  long_enough 4096 500 (client past (get_call (endpoint +s+ "/v1/models")))
  /\ long_enough 1024 200 (client (past ++ [get_call (endpoint +s+ "/v1/models")]) (get_call (endpoint +s+ "/health"))).
Proof.
  unfold collectTestDiagnostics. cbv zeta. rewrite <- (probe_returns _ "/v1/models"), <- (probe_returns _ "/health").
  destruct (probe _ _ "/v1/models" _ _ _) as [m|]; [|by split; [intros []|intros [[] _]]].
  destruct (probe _ _ "/health" _ _ _) as [hp|]; [|by split; [intros []|intros [_ []]]]. by split; [split|]; eexists.
Qed.

Lemma diagnostics_keys endpoint deployID backend image past d past' :
  collectTestDiagnostics client endpoint deployID backend image past = (Some d, past') -> Forall (fun kv => kv.1 <> "ok") d.
Proof.
  unfold collectTestDiagnostics, suggestion. cbv zeta. destruct (probe _ _ "/v1/models" _ _ _); [|done].
  destruct (probe _ _ "/health" _ _ _); [|done]. intros [= <- _].
  repeat case_match; cbn; repeat constructor; discriminate.
Qed.
End Facts.

(** ** Whom a test calls *)

(** The address of an instance: the one its agent reported, else its port on this host. *)
Inductive instance_address (i : instance_row) : string -> Prop :=
| Reported_address : i_endpoint i <> "" -> instance_address i (i_endpoint i)
| Local_address : i_endpoint i = "" -> (0 < i_host_port i)%Z -> instance_address i ("http://127.0.0.1:" +s+ Itoa (i_host_port i)).

(** The requests of a test to an address: the model list and the health page are read,
    and one of four inference paths is posted to. *)
Definition asks (address : string) (call : http_call) : Prop :=
  let base := TrimRight address slash in
  (hx_method call = "GET" /\ hx_url call ∈ [base +s+ "/v1/models"; address +s+ "/v1/models"; address +s+ "/health"])
  \/ (hx_method call = "POST" /\ hx_url call ∈ [base +s+ "/v1/chat/completions"; base +s+ "/v1/completions"; base +s+ "/v1/embeddings"; base +s+ "/v1/rerank"]).

Lemma endpoint_address i : test_endpoint i <> "" -> instance_address i (test_endpoint i).
Proof.
  unfold test_endpoint. destruct (String.eqb_spec (i_endpoint i) "") as [E|E]; cbn [andb]; [|by constructor].
  destruct (Z.ltb_spec 0 (i_host_port i)); [by constructor|]. by rewrite E.
Qed.

(** The calls that follow [past] in [past'] go to the address. *)
Definition asked (address : string) (past past' : list http_call) : Prop := exists more, past' = past ++ more /\ Forall (asks address) more.

Lemma asked_one address past call : asks address call -> asked address past (past ++ [call]).
Proof. intros H. exists [call]. split; [done|]. by constructor. Qed.

Lemma asked_trans address a b c : asked address a b -> asked address b c -> asked address a c.
Proof. intros (m & -> & Hm) (n & -> & Hn). exists (m ++ n). rewrite app_assoc. split; [done|]. by apply Forall_app. Qed.

Section Calls.
Context (client : HttpClient).

Ltac posted := unfold asks; right; split; [reflexivity|set_solver].

Lemma chat_asked endpoint modelName prompt fallback past : asked endpoint past (tryChatInference client endpoint modelName prompt fallback past).2.
Proof. unfold tryChatInference. cbv zeta. destruct (client past _); apply asked_one; posted. Qed.

Lemma completion_asked endpoint modelName prompt past : asked endpoint past (tryCompletionInference client endpoint modelName prompt past).2.
Proof. unfold tryCompletionInference. cbv zeta. apply asked_one. posted. Qed.

Lemma inference_asked clock endpoint modelName mode prompt past : asked endpoint past (tryInferenceWithMode client clock endpoint modelName mode prompt past).2.
Proof.
  unfold tryInferenceWithMode. cbv zeta. destruct (_ =s "completion"); [apply completion_asked|]. destruct (_ =s "chat"); [apply chat_asked|].
  destruct (_ =s "embedding"); [apply asked_one; posted|]. destruct (_ =s "rerank"); [apply asked_one; posted|].
  pose proof (chat_asked endpoint modelName (if prompt =s "" then default_prompt else prompt) true past) as H. destruct (tryChatInference _ _ _ _ _ _) as [chat past1].
  destruct (result_ok chat); [exact H|]. destruct (_ <>s _); [exact H|]. eapply asked_trans; [exact H|apply completion_asked].
Qed.

Lemma diagnostics_asked endpoint deployID backend image past : asked endpoint past (collectTestDiagnostics client endpoint deployID backend image past).2.
Proof.
  assert (asks endpoint (get_call (endpoint +s+ "/v1/models")) /\ asks endpoint (get_call (endpoint +s+ "/health"))) as [Hm Hh]
    by (split; left; (split; [reflexivity|set_solver])).
  unfold collectTestDiagnostics. cbv zeta. destruct (probe _ _ "/v1/models" _ _ _); [|by apply asked_one].
  destruct (probe _ _ "/health" _ _ _); (eapply asked_trans; apply asked_one; [exact Hm|exact Hh]).
Qed.

Lemma resolve_asked endpoint artifactName artifactPath runplanModel past :
  asked endpoint past (resolveModelID client endpoint artifactName artifactPath runplanModel past).2.
Proof. unfold resolveModelID. cbv zeta. apply asked_one. left. split; [reflexivity|set_solver]. Qed.
End Calls.

(** Every call of a test goes to the instance. *)
Lemma run_asked client rows s e i endpoint body logs : asked endpoint [] (run_test client rows s e i endpoint body logs).1.2.
Proof.
  unfold run_test. cbv zeta. destruct (test_artifact _ _) as [name path]. pose proof (resolve_asked client endpoint name path
    (plan_model (newest_plan (tr_db rows) (tr_plans rows) (i_deployment i))) []) as Hr.
  destruct (resolveModelID _ _ _ _ _ _) as [[[modelName method] models] past]. cbn [snd] in Hr. destruct (modelName =s ""); [exact Hr|].
  match goal with |- context [tryInferenceWithMode client ?c ?u ?m ?mo ?pr past] => pose proof (inference_asked client c u m mo pr past) as Hi end.
  destruct (tryInferenceWithMode _ _ _ _ _ _ _) as [r past1]. cbn [snd] in Hi. pose proof (asked_trans _ _ _ _ Hr Hi) as H.
  destruct (result_ok _); [exact H|]. destruct (test_context _ _) as [backend image].
  pose proof (diagnostics_asked client endpoint (i_deployment i) backend image past1) as Hd. destruct (collectTestDiagnostics _ _ _ _ _ _) as [diag past2].
  cbn [snd] in Hd. pose proof (asked_trans _ _ _ _ H Hd). by destruct diag.
Qed.

(** ** The report *)

Lemma ok_set k v r : k <> "ok" -> result_ok (obj_set k v r) = result_ok r.
Proof. intros H. unfold result_ok, get_any. by rewrite obj_get_set_ne. Qed.

Lemma annotate_ok e runplanModel method models r : result_ok (annotate e runplanModel method models r) = result_ok r.
Proof. unfold annotate. cbv zeta. destruct models, (runplanModel =s ""); by rewrite !ok_set. Qed.

Lemma diagnostics_ok diag r : Forall (fun kv => kv.1 <> "ok") diag -> result_ok (add_diagnostics diag r) = result_ok r.
Proof.
  unfold add_diagnostics. intros H. revert r. induction H as [|kv diag Hk _ IH]; intros r; [done|]. cbn. rewrite IH. case_match; [done|]. by apply ok_set.
Qed.

(** What a test leaves in the audit log: its start, and its verdict unless it panics. *)
Definition audited (s : session) (e : test_env) (id : string) (verdict : option bool) (logs logs' : list audit_log) : Prop :=
  exists detail, let started := WriteAudit (tv_audits e).1 (tv_now e) (test_audit s e id "started" "success" detail) logs in
  match verdict with
  | None => logs' = started
  | Some ok => exists detail', logs' = WriteAudit (tv_audits e).2 (tv_now e)
      (if ok then test_audit s e id "succeeded" "success" detail' else test_audit s e id "failed" "failure" detail') started
  end.

(** C34. A test that is refused calls nobody and logs nothing.  Otherwise it is a test of a
    running instance in the scope of the caller, and every call goes to the address of
    that instance, the one its agent reported or its port on the host of the server: to
    its model list, its health page and its inference paths, and nowhere else.  It
    reports success only when the last call, the inference request, was answered in the
    200 class.  The audit log then holds its start and its success, and its start and
    its failure when it reports a failure after an inference request; a test that finds
    no model to ask for logs nothing, and one whose diagnostics panic ([short_answer_panics])
    leaves its start only. *)
Theorem test_report client rows s e id body logs resp calls logs' :
  HandleModelInstanceTest client rows s e id body logs = (resp, calls, logs') ->
  (calls = [] /\ logs' = logs /\ exists code b, resp = Reply code b /\ (400 <= code)%Z) \/
  exists i address, by_id i_id id (db_instances (tr_db rows)) = Some i /\ tenantScopeCheck s (i_tenant i) = true /\ i_actual i = "running" /\
    instance_address i address /\ Forall (asks address) calls /\
    match resp with
    | Reply code (AMap r) => code = 200%Z /\ (result_ok r = true -> last_served client calls)
        /\ (audited s e (i_id i) (Some (result_ok r)) logs logs' \/ reason_code r = "model_id_not_resolved" /\ result_ok r = false /\ logs' = logs)
    | Reply _ _ => False
    | Panicked => audited s e (i_id i) None logs logs'
    end.
Proof.
  unfold HandleModelInstanceTest. destruct (by_id _ _ _) as [i|]; [|intros [= <- <- <-]; left; split_and!; [done..|by eexists _, _]].
  destruct (tenantScopeCheck _ _) eqn:Et; cbn [negb]; [|intros [= <- <- <-]; left; split_and!; [done..|by eexists _, _]].
  destruct (i_actual i =s "running") eqn:Er; cbn [negb]; [|intros [= <- <- <-]; left; split_and!; [done..|by eexists _, _]].
  destruct (String.eqb_spec (test_endpoint i) "") as [|Ee]; [intros [= <- <- <-]; left; split_and!; [done..|by eexists _, _]|].
  intros H. right. exists i, (test_endpoint i). apply String.eqb_eq in Er.
  pose proof (run_asked client rows s e i (test_endpoint i) body logs) as (more & Em & Hm). rewrite H in Em. cbn in Em. subst more.
  split_and!; [done..|by apply endpoint_address|exact Hm|]. revert H. unfold run_test. cbv zeta.
  destruct (test_artifact rows (i_deployment i)) as [name path]. destruct (resolveModelID _ _ _ _ _ _) as [[[modelName method] models] past].
  destruct (modelName =s ""); [intros [= <- <- <-]; unfold unresolved_test; destruct (_ && _); (split_and!; [reflexivity|discriminate|right; split_and!; reflexivity])|].
  destruct (tryInferenceWithMode _ _ _ _ _ _ _) as [r past1] eqn:Ei. rewrite annotate_ok. destruct (result_ok r) eqn:Eo.
  - intros [= <- <- <-]. cbn [add_diagnostics foldl]. rewrite annotate_ok, Eo. split_and!; [done|intros _; by eapply inference_ok|]. left.
    unfold verdict_audit, audited. cbv zeta. rewrite annotate_ok, Eo. eexists. by eexists.
  - destruct (test_context _ _) as [backend image]. destruct (collectTestDiagnostics _ _ _ _ _ _) as [[diag|] past2] eqn:Ed; [|intros [= <- <- <-]; unfold audited; cbv zeta; by eexists].
    apply diagnostics_keys in Ed. intros [= <- <- <-]. rewrite diagnostics_ok, annotate_ok, Eo by done. split_and!; [done..|]. left.
    unfold verdict_audit, audited. cbv zeta. rewrite diagnostics_ok, annotate_ok, Eo by done. eexists. by eexists.
Qed.

(** ** Concrete tests *)

Section Demo.

(** The instance of the life cycle's run, running, with the rows of [Preflight]'s example. *)
Definition test_instance : instance_row :=
  {| i_id := "i1"; i_deployment := "d1"; i_tenant := "t0"; i_node := "n1"; i_gpus := []; i_host_port := 8001; i_container_port := 8000; i_run_plan := "r1";
     i_actual := "running"; i_desired := "running"; i_container := "c1"; i_endpoint := ""; i_last_error := ANil; i_started := None; i_stopped := None;
     i_created := 0; i_updated := 0 |}.

Definition demo_rows : test_rows :=
  {| tr_db := {| db_tenants := []; db_nodes := []; db_gpus := []; db_tasks := []; db_instances := [test_instance]; db_leases := []; db_deployments := [];
                 db_run_plans := []; db_groups := []; db_audits := [] |};
     tr_documents := {| dc_deployments := []; dc_artifacts := []; dc_runtimes := []; dc_nbrs := []; dc_gpus := []; dc_locations := []; dc_nodes := [] |};
     tr_templates := []; tr_plans := [{| pn_id := "r1"; pn_created := "t1"; pn_json := AMap [("served_model_name", AStr "qwen")] |}] |}.

Definition demo_test_env : test_env := {| tv_checked := "t"; tv_clock := "t"; tv_now := "t"; tv_audits := ("a1", "a2"); tv_request := "q" |}.
Definition demo_caller : session := {| s_user := "u"; s_tenant := "t0"; s_admin := false; s_perms := [] |}.

(** A server of one model that gives [body] with [status] to every POST. *)
Definition one_model (status : Z) (body : string) : HttpClient := fun _ call =>
  if hx_method call =s "GET" then Answered 200 (jq "{`data`: [{`id`: `qwen`}]}") 1 else Answered status body 1.

Definition demo_test (client : HttpClient) := HandleModelInstanceTest client demo_rows demo_caller demo_test_env "i1" [] [].

Definition pong : string := jq "{`choices`: [{`message`: {`content`: `pong`}}]}".

Lemma test_report_witness : exists r calls logs,
  demo_test (one_model 200 pong) = (Reply 200 (AMap r), calls, logs) /\ result_ok r = true /\ last_served (one_model 200 pong) calls /\
  Forall (asks "http://127.0.0.1:8001") calls.
Proof.
  destruct (demo_test (one_model 200 pong)) as [[resp calls] logs] eqn:E. pose proof (test_report _ _ _ _ _ _ _ _ _ _ E) as H.
  assert (exists r, resp = Reply 200 (AMap r) /\ result_ok r = true) as (r & -> & Hr).
  { pose proof (f_equal (fun x => x.1.1) E) as E1. vm_compute in E1. cbn [fst] in E1. rewrite <- E1. eexists. split; [reflexivity|]. vm_compute. reflexivity. }
  exists r, calls, logs. split; [reflexivity|]. split; [exact Hr|].
  destruct H as [(_ & _ & code & b & [= <- <-] & Hc)|(i & address & Hi & _ & _ & Ha & Hcalls & _ & Hl & _)]; [lia|]. split; [exact (Hl Hr)|].
  injection Hi as <-. destruct Ha as [Hne|_ _]; [by destruct Hne|exact Hcalls].
Defined.

Definition verdict (r : reply) : option (bool * string) :=
  match r with Reply _ (AMap m) => Some (result_ok m, obj_strVal m "response_preview" "") | _ => None end.

(** An answer whose content is null counts as the text of nil. *)
Example null_is_an_answer :
  verdict (demo_test (one_model 200 (jq "{`choices`: [{`message`: {`content`: null, `reasoning_content`: `pong`}}]}"))).1.1 = Some (true, "<nil>").
Proof. vm_compute. reflexivity. Qed.

(** The list of one model is shorter than the part the diagnostics show: the test that
    should report a failure panics, and its verdict is not audited. *)
Example short_answer_panics :
  (fun x => (x.1.1, map al_action x.2)) (demo_test (one_model 500 "out of memory")) = (Panicked, ["model_instance.test.started"]).
Proof. vm_compute. reflexivity. Qed.
End Demo.
